(* ===== verification/_CoqProject ===== *)
-Q . S2P
Prelude.v
WriteLog.v
TraceLogic.v
Meta.v
Conditions.v
DPUTypes.v
DPUConditions.v
ProvisioningMap.v
Kubernetes.v
FakeClient.v
Allocator.v
NVConfig.v
Maintenance.v
ClusterMetadata.v
ControllerContext.v
ExampleWorld.v
Rebooting.v
InstallPhases.v
NodeEffectPhases.v
ReadyPhases.v
PrepareBFB.v
DeletingPhase.v
DPUController.v
PhaseGraph.v
MaintenanceTypes.v
NodeEffectActions.v
MaintenanceController.v
NodeTypes.v
ExampleNode.v
RebootMethods.v
NodeReboot.v
RebootProtocol.v
NodeController.v
DPUSetTypes.v
DPUSetTemplate.v
DPUSetRollout.v
DPUSetFlavor.v
DPUSetUpdate.v
DPUSetInPlace.v
DPUSetDevices.v
DPUSetController.v
DownloadTasks.v
BFBTypes.v
BFBVersion.v
BFBDownload.v
ExampleBFB.v
BFBStates.v
BFBProtocol.v
CSRController.v
DPUClusterController.v
SoftwareTypes.v
SoftwareDownload.v
SoftwareExtract.v
SoftwareStates.v
SoftwareProtocol.v
ExampleSoftware.v
BlockRanges.v
NetIP.v
NetCIDR.v
IPRanges.v
IPAMAllocator.v
IPAMBlocks.v
IPAMCalculator.v
IPAMSharing.v
ServiceObjects.v
IPAMState.v
IPAMPasses.v
IPAMSettling.v
IPAMController.v
IPAMPools.v
IPAMWebhook.v
IPAMAdmission.v
ExampleIPAM.v
