(* ===== verification/Prelude.v ===== *)
(** * Controllers of the DOCA Platform Framework

    This library models the controllers that install and maintain DPUs, the one that
    divides addresses among DPU clusters, and the packages they are built on, and
    proves what each of them promises.
    Paths are relative to src/; internal/provisioning/controllers is written PC and
    internal/dpuservicechain SC.

    ** The program

    A DPUSet selects DPUDevices and owns one DPU for each.  The DPUSet controller
    (PC/dpuset) creates DPUs from its template, keeps them up to date, replaces
    those that no longer match and runs rounds of in-place reconfiguration, within
    a budget of DPUs that may be out of service.  The DPU controller (PC/dpu)
    takes each DPU through the phases of its life: a reconcile claims the objects
    the DPU refers to, runs the handler of the current phase (PC/dpu/state), and
    writes the new status.  Handlers share the set of DPUs being installed, which
    bounds how many run in parallel, the allocator that assigns clusters, and
    DPUNodeMaintenance objects, by which several DPUs of a node ask for the same
    node effect.  The DPUNodeMaintenance controller (PC/dpunodemaintenance) puts
    that effect on the host node, reports it in a condition the DPU controller
    waits for, and takes it back when no DPU asks for the node any more.  The
    DPUNode controller (PC/dpunode) reboots hosts for the DPUs in phase Rebooting,
    through the user or a script, and answers in their reboot status.  The BFB
    controller (PC/bfb) downloads the images DPUs are installed with into a volume
    it shares with the DPU controller.  The BlueFieldSoftware
    controller (PC/bluefieldsoftware) does the same for the images and firmware of
    BlueField-4, one download for each component, and has the firmware bundles
    unpacked to learn their versions.  The DPUCluster controller (PC/dpucluster)
    decides when a cluster is Ready and keeps the cache of the allocator up to date.
    The CSR controller (PC/csr) approves the certificates of the agents on hosts
    and DPUs.  The controllers meet through the API server, the volume of images
    and the allocator: the DPUSet controller writes
    specs and [status.dpuReconfig] and reads phases and conditions, the DPU
    controller the other way round.

    A DPUServiceIPAM is a network or a subnet for the workloads of several DPU clusters.
    Its controller (SC/controllers) cuts it into blocks of a node, keeps in the status
    which blocks each cluster has, and gives every cluster a pool of NVIPAM that covers
    the whole network and excludes what the cluster does not have.  The allocations are
    written before the pools that follow from them, in another pass.  A webhook
    (SC/webhooks) keeps out specifications the allocator could not work with and updates
    that would move blocks already given away.  How objects are applied to, deleted from and observed
    in the DPU clusters is common to the service chain controllers
    (SC/controllers/common.go).

    ** The model

    Go functions are functions here.  [SM S A] threads a state [S]; [Fn S R A]
    adds the early return of a Go function, with [inl] for a call that has
    returned.  A Go error is its API-machinery class and its text; the panics the
    code can run into are errors of the class [KPanic].  Objects are records with
    the fields the code uses; a nil map or slice and an empty one are the same
    value, a pointer is an option.  Times are nanoseconds, int32 counters wrap
    with [wrap32], and the ratio of the allocator is an IEEE double.  A map is
    visited in any order ([range_map]).

    Code outside the repository is a parameter: the API server with its errors
    and conflicts (Kubernetes.v, DPUSetTypes.v, MaintenanceTypes.v,
    NodeTypes.v, BFBTypes.v, SoftwareDownload.v, CSRController.v,
    DPUClusterController.v, ServiceObjects.v, IPAMController.v), the network and the files of a download (BFBDownload.v),
    URLs (SoftwareTypes.v), the unpack service and its JSON (SoftwareExtract.v), X.509 requests (CSRController.v), the
    clients of DPU clusters (DPUClusterController.v, ServiceObjects.v), the condition helpers of
    API-machinery (Meta.v), label selectors, JSON and the YAML of pods, and the
    generators of join commands and artifacts.  So are the rendering and hashing of flavor templates
    and the digest of a DPU template, which are in the repository but outside the
    controllers ([FlavorRenderer], [TemplateDigest]).  A call to the API server may return
    anything and change the world in any way, so theorems without a law class hold
    under every failure and every other writer.  What a theorem needs from a
    parameter it names as a law class, each with an instance on which the
    witnesses compute (FakeClient.v, ExampleWorld.v).  Addresses and prefixes are those of
    the Go packages net/netip and net, of which NetIP.v and NetCIDR.v have the functions
    the code calls.

    ** The files

    Foundations.
    - Prelude: errors, times, int32, maps in any order, the monads, counting.
    - Meta, Conditions: [metav1.Condition] and pkg/conditions/conditions.go.
    - DPUTypes, DPUConditions: api/provisioning/v1alpha1 and the condition helpers
      of PC/util/util.go.
    - Kubernetes, FakeClient: the services of the controllers and an in-memory
      instance.

    Shared state of the DPU controller.
    - ProvisioningMap: PC/dpu/util/dpu_in_provisioning_map.go.
    - Allocator: PC/allocator/allocator.go, on a heap of shared [ClusterInfo]s.
    - NVConfig: internal/provisioning/utils/nvconfig/hostosinit.go.
    - Maintenance: DPUNodeMaintenance objects and their requestors (PC/util/util.go,
      PC/dpu/state/node_effect.go, node_effect_removal.go, PC/dpu/dpu_controller.go).
    - ClusterMetadata: labels and annotations of the node in the DPU cluster.

    The DPU controller.
    - ControllerContext: options and the state [CS] of the handlers; ExampleWorld:
      one complete installation for the witnesses.
    - Rebooting, InstallPhases, PrepareBFB, NodeEffectPhases, ReadyPhases,
      DeletingPhase: one definition per handler of PC/dpu/state, those of the host
      agent interface included.
    - DPUController: [Reconcile] of PC/dpu/dpu_controller.go and its watches.
    - PhaseGraph: the graph of phases that the reconcile implements.

    The DPUNodeMaintenance controller (PC/dpunodemaintenance).
    - WriteLog: clients that log their writes and a logic for what a computation
      writes, shared with the DPUSet controller.
    - MaintenanceTypes: the object, the calls of the controller and their log.
    - NodeEffectActions: labels, taints, drain, custom actions and hold, and how
      each is taken back.
    - MaintenanceController: the gate, [reconcile], [reconcileDelete], [Reconcile].

    The DPUNode controller (PC/dpunode/dpunode_controller.go).
    - NodeTypes, ExampleNode: its data and calls, their log, and an instance.
    - RebootMethods: the reboot a host needs, what DPUs report, the pod of a script.
    - NodeReboot: [HandleRebootSync], the external and the script reboot.
    - RebootProtocol: what passes, the user and other controllers do together.
    - NodeController: deletion, readiness, [Reconcile] and the watches.

    The DPUSet controller (PC/dpuset).
    - DPUSetTypes: the DPUSet, the calls of the controller and the log of its
      writes.
    - DPUSetTemplate: drift from the template and the DPU made from it.
    - DPUSetRollout: rolling update, OnDelete, stale DPUs, statistics, readiness.
    - DPUSetFlavor: template mode (dpuset_flavortemplate.go), the evaluation of
      existing DPUs and what is changed without replacing them; [createDPU].
    - DPUSetUpdate: updates of existing DPUs and their outdated status.
    - DPUSetInPlace: rounds of in-place reconfiguration (inplace_reconfig.go).
    - DPUSetDevices: selectors and devices, missing DPUs, collisions with other
      DPUSets, protection of BlueFieldSoftware, deletion of the DPUSet.
    - DPUSetController: [Handle] and [Reconcile], which compose the above.

    The BFB controller (PC/bfb).
    - DownloadTasks: the map of running downloads, their futures and retry counters
      in memory, shared with the BlueFieldSoftware controller.
    - BFBTypes, ExampleBFB: the data, the calls of the controller, and an instance.
    - BFBVersion: the versions of an image (bfb/util/version.go).
    - BFBDownload: requests with retries (internal/provisioning/utils/http) and the
      task that writes the file.
    - BFBStates: one definition per state, and [Reconcile].
    - BFBProtocol: runs in which passes and downloads interleave.

    The BlueFieldSoftware controller (PC/bluefieldsoftware).
    - SoftwareTypes: components, task names, paths, and the version in the name of an
      image (util/task.go, util/iso_metadata.go).
    - SoftwareDownload, SoftwareExtract: state/downloading.go, state/extracting.go.
    - SoftwareStates: the other states, and [Reconcile].
    - SoftwareProtocol, ExampleSoftware: what passes do, and an instance.

    - DPUClusterController: PC/dpucluster/dpucluster_controller.go.
    - CSRController: PC/csr/csr_controller.go and the names of agents
      (internal/provisioning/utils/certificate/identity).

    DPUServiceIPAM (SC).
    - NetIP, NetCIDR: addresses and prefixes, their texts, and the older package net.
    - BlockRanges: ranges of block numbers (the second half of
      controllers/dpuserviceipam_ipamallocator.go); IPRanges: ranges of addresses
      (utils/iputils/iprange.go).  Both are described by the set of what they cover.
    - IPAMAllocator: the calculator; IPAMBlocks, IPAMCalculator, IPAMSharing: what
      blocks are, what a new calculator has to give, what each cluster gets and which
      exclusions its pool has.
    - ServiceObjects: controllers/common.go, over a class with the methods of its
      interface.
    - IPAMState: the object and the allocations of a pass; IPAMPasses,
      IPAMSettling: what holds over sequences of passes.
    - IPAMController: controllers/dpuserviceipam_controller.go, with the instance of the
      class; IPAMPools: what a pass writes.
    - IPAMWebhook: webhooks/dpuserviceipam_webhook.go; IPAMAdmission: what it promises
      the allocator.  ExampleIPAM: an instance.

    ** The theorems

    - Budgets.  [rolloutRolling_budget] and [plan_round_budget]: a rolling update
      and an in-place round take exactly as many DPUs out of service as the shared
      budget leaves.  [pm_run_within_limit] and [reconcile_slots]: the limit on
      parallel installations holds over every run of the map and every reconcile.
    - The state machine.  [reconcile_follows_graph] is a refinement: each reconcile
      takes an edge of [phase_edge] or stays; [install_order] follows for all paths;
      [deletion_is_prompt]: a DPU that is deleted leaves every phase.
    - The handlers.  Each has a theorem on what it does on which input: the gate of
      Pending, the node effect that is applied before and released after, the hold
      during an operator upgrade, the timeouts, the reports of the agents, and the
      finalizer that goes last.
    - The allocator.  [allocator_refines]: the heap of shared structures implements
      a plain map of assignments over every sequence of calls.
    - Shared objects.  Which requestors are in a DPUNodeMaintenance after a DPU
      joins, updates or leaves; two theorems of kind error show where the code does
      not keep them apart.
    - Node effects.  [Reconcile_writes]: when an effect is put on a node and when it
      is taken back; [applied_means]: what was seen when it counts as applied;
      [gate_spec]: the budget of unavailable nodes; [effect_roundtrip]: when the
      node is as it was before; [orphan_keeps_finalizer]: a deletion that cannot end.
    - Reboots.  [aggregate_spec]: the method a host needs; [HandleRebootSync_writes]:
      when a host is rebooted and success reported; [external_reboot_confirmed], by
      induction over runs: no DPU is told success before the user has confirmed;
      [failed_read_adopts_stale_job] and [lost_report_repeats_script]: where a
      failed call breaks the script reboot.  [Reconcile_node_writes], [ready_spec]:
      deletion and readiness of a DPUNode.
    - The DPUSet.  [Handle_writes] says what any pass may write and why, composed
      from what each part writes; [Reconcile_protocol] that the DPUSet is patched
      once, at the end, and keeps its finalizer while it has DPUs.  Below them:
      when template mode replaces a DPU, that replacing ends in both modes
      ([created_DPU_settled], [template_DPU_settled]), which DPUs are created and
      released, when the DPUSet is Ready, and the life of an in-place round.
    - Images.  [bfb_pass]: the abstract state machine of a BFB that every pass
      follows, and that a BFB in use is not deleted; [bfb_conditions_wf]: the type of
      its conditions; [downloads_registered], by induction over runs: a download that
      is running can be found and cancelled; [downloadBFB_integrity]: the file under
      its final name is the whole response, whatever fails; [failed_downloads_end]: a
      download that keeps failing reaches Error; [extract_is_grep] and
      [FormatDOCAVersion_spec]: the versions read from an image.
      [retry_counts_from_first_failure], [server_error_is_final] and
      [default_file_shared] show where the code does not do what it announces.
    - BlueField-4 software.  [software_pass]: the phases a pass moves between, and when
      the finalizer goes; [ready_has_versions]: what Ready says of the versions of the
      firmware.  [opaque_image_never_settles] and [failed_unpacking_restarts_window]
      are two loops that runs of passes do not leave.
    - Clusters.  [chosen_clusters_answer] composes the DPUCluster controller with the
      allocator: a cluster is chosen only if its last pass found it healthy;
      [cluster_status_spec], [cluster_deletion_spec]: its status and its deletion.
    - Certificates.  [csr_approvals]: exactly which requests are approved;
      [other_agents_certificate]: an agent gets the certificate of another.
    - Addresses.  [allocations_stay_apart], by induction over passes: clusters never
      share an address in the status; [pools_stay_apart] and [pool_addresses] carry it to
      the pools; [pools_follow_status]: a pool is only written from allocations that the
      stored status has; [second_pass_settles]: a pass that changed the status is followed
      by one that does not; [finalizer_waits_for_pools].  [accepted_specs_work] and
      [accepted_update_keeps] are the contract between webhook and allocator;
      [mapped_allocations_stick] is the case it misses.  [MergeRanges_same_addresses]:
      merging is a normal form; [allocations_read_back]: the status round trip.
    - The conditions and the pure helpers: equivalence with plain descriptions.

    ** Bounds

    No definition has a chosen fuel: recursion is on the lists the code
    iterates over, a request is repeated as often as [DoRequestWithRetry] allows
    ([maxRetries + 1] attempts), the body of a response is a finite list of chunks, and [RetryOnConflict] is a parameter that may run its function
    any number of times.  A Go int counts objects and is an unbounded Z, as is a
    [big.Int].  Addresses have 32 or 128 bits and the operations on them say when they leave
    that range.

    ** Not modelled

    - Logs, metrics, events and trace annotations: nothing reads them back.
    - The handlers of the Redfish and mock interfaces, the BFB registry pod, the
      rendering of flavor templates: HTTP, templates and file transfer.
    - The watches that enqueue a DPUSet.
    - The clients of the DPU clusters that pkg/dpucluster keeps, and the mapping of
      DPUClusters to the DPUServiceIPAMs a change of them enqueues.
    - The DPUDevice controller (HTTP to a BMC), the Node controller (the pod of the host
      agent), the host and DPU agents (commands on a host), and the DPUService, storage and
      operator controllers: independent of the parts above.
    - The controllers of service chains, interfaces and network attachments: copies of
      objects to DPU clusters by the functions of ServiceObjects, whose theorems hold for
      any instance.
    - Generated code, manifests, commands and printing. *)

From stdpp Require Export base strings gmap list list_numbers option pretty numbers fin_maps.
From Stdlib Require Export ZArith Lia.
From Stdlib Require Import Ascii.


(** ** Go errors

    A Go [error] is kept as what the code inspects: the API-machinery class
    that [apierrors.IsNotFound], [IsConflict], [IsAlreadyExists], [IsInvalid] and
    [IsBadRequest] test, and
    the text that [Error()] returns. [KNoOperatorConfig] is the sentinel
    [ErrDPFOperatorConfigNotFound], which callers tell apart with [errors.Is].
    [KCanceled] is [context.Canceled]; [KNotExist] and [KStale] are the errors of
    the file system [os.IsNotExist] and [syscall.ESTALE] recognise, [KPath] its other
    [PathError]s and [LinkError]s, and [KNetwork] a [net.Error] or [url.Error].
    [KPanic] is not an error of the code: it stands for the panic of a nil
    dereference, which unwinds the handler and the reconcile that called it. *)

Inductive ErrKind :=
| KNotFound | KConflict | KAlreadyExists | KInvalid | KBadRequest | KNoOperatorConfig
| KCanceled | KNotExist | KStale | KPath | KNetwork | KPanic | KOther.

#[export] Instance ErrKind_eq_dec : EqDecision ErrKind.
Proof. solve_decision. Defined.

Record GoError := mkGoError { err_kind : ErrKind; err_msg : string }.

#[export] Instance GoError_eq_dec : EqDecision GoError.
Proof. solve_decision. Defined.

(** [fmt.Errorf] without [%w] makes a fresh error, with [%w] it keeps the class
    of the wrapped one. *)
Definition errorf (msg : string) : GoError := mkGoError KOther msg.
Definition wrapf (pre : string) (e : GoError) : GoError :=
  mkGoError (err_kind e) (pre +:+ err_msg e).

Definition nil_dereference : GoError :=
  mkGoError KPanic "invalid memory address or nil pointer dereference".
Definition is_panic (e : GoError) : bool := bool_decide (err_kind e = KPanic).

Definition IsNotFound (e : GoError) : bool := bool_decide (err_kind e = KNotFound).
Definition IsConflict (e : GoError) : bool := bool_decide (err_kind e = KConflict).
Definition IsAlreadyExists (e : GoError) : bool := bool_decide (err_kind e = KAlreadyExists).
Definition IsInvalid (e : GoError) : bool := bool_decide (err_kind e = KInvalid).
Definition IsBadRequest (e : GoError) : bool := bool_decide (err_kind e = KBadRequest).

(** The pair [(value, error)] of a Go function that returns one or the other. *)
Inductive Res (A : Type) := Ok (a : A) | Err (e : GoError).
Arguments Ok {A} a.
Arguments Err {A} e.

(** ** Time

    An instant is the number of nanoseconds since the zero [time.Time], a
    [*metav1.Time] an optional instant. *)

Abbreviation Time := Z (only parsing).
Definition second : Z := 1000000000.
Definition time_is_zero (t : Time) : bool := (t =? 0)%Z.
(** [IsZero] of a [*metav1.Time]: nil, or the zero instant. *)
Definition timep_is_zero (t : option Time) : bool :=
  match t with None => true | Some t => time_is_zero t end.

(** ** Machine integers *)

Definition int32_min : Z := (- 2 ^ 31)%Z.
Definition int32_max : Z := (2 ^ 31 - 1)%Z.
(** The value a Go [int32] holds after a computation whose exact result is [z]. *)
Definition wrap32 (z : Z) : Z := ((z + 2 ^ 31) mod 2 ^ 32 - 2 ^ 31)%Z.
Definition is_int32 (z : Z) : Prop := (int32_min <= z <= int32_max)%Z.

Lemma wrap32_id z : is_int32 z → wrap32 z = z.
Proof.
  unfold is_int32, int32_min, int32_max, wrap32. intros H.
  rewrite Z.mod_small by lia. lia.
Qed.

Lemma wrap32_range z : is_int32 (wrap32 z).
Proof.
  unfold is_int32, int32_min, int32_max, wrap32.
  pose proof (Z.mod_pos_bound (z + 2 ^ 31) (2 ^ 32) ltac:(lia)). lia.
Qed.

(** ** Strings *)

(** [%q] of a text without special bytes. *)
Definition dquote : string := String (Ascii.ascii_of_nat 34) "".
Definition quoted (s : string) : string := dquote +:+ s +:+ dquote.

(** [strings.Join] *)
Fixpoint strings_Join (sep : string) (xs : list string) : string :=
  match xs with
  | [] => ""
  | [x] => x
  | x :: xs => x +:+ sep +:+ strings_Join sep xs
  end.

Lemma string_app_assoc (a b c : string) : a +:+ (b +:+ c) = (a +:+ b) +:+ c.
Proof. induction a as [|x a IH]; [done|]. apply (f_equal (String x)), IH. Qed.

Lemma string_app_empty_r (a : string) : a +:+ "" = a.
Proof. induction a as [|x a IH]; [done|]. apply (f_equal (String x)), IH. Qed.


(** [strings.Contains] *)
Definition strings_Contains (s substr : string) : bool := bool_decide (String.index 0 substr s ≠ None).

(** [strings.Split] with a separator of one character *)
Fixpoint strings_Split (sep : ascii) (s : string) : list string :=
  match s with
  | EmptyString => [""]
  | String c s =>
      let parts := strings_Split sep s in
      if Ascii.eqb c sep then "" :: parts
      else match parts with p :: ps => String c p :: ps | [] => [String c ""] end
  end.

Fixpoint has_char (c : ascii) (s : string) : bool :=
  match s with EmptyString => false | String d s => Ascii.eqb d c || has_char c s end.

Lemma strings_Split_free sep s : has_char sep s = false → strings_Split sep s = [s].
Proof.
  induction s as [|c s IH]; [done|]. simpl. intros [-> Hs]%orb_false_iff. by rewrite IH.
Qed.

Lemma strings_Split_app sep s t :
  has_char sep s = false → strings_Split sep (s +:+ String sep t) = s :: strings_Split sep t.
Proof.
  induction s as [|c s IH]; simpl; [by rewrite Ascii.eqb_refl|].
  intros [-> Hs]%orb_false_iff. by rewrite IH.
Qed.

Lemma strings_Split_nonempty sep s : strings_Split sep s ≠ [].
Proof. destruct s as [|c s]; [done|]. simpl. by repeat case_match. Qed.

Lemma has_char_app c s t : has_char c (s +:+ t) = has_char c s || has_char c t.
Proof. induction s as [|d s IH]; simpl; [done|]. by rewrite IH, orb_assoc. Qed.

(** The parts hold no separator, and joined by it they are the string. *)
Lemma strings_Split_spec sep s :
  Forall (λ p, has_char sep p = false) (strings_Split sep s) ∧ strings_Join (String sep "") (strings_Split sep s) = s.
Proof.
  induction s as [|c s [IH1 IH2]]; [by repeat constructor|]. simpl. pose proof (strings_Split_nonempty sep s).
  destruct (strings_Split sep s) as [|p ps] eqn:E; [done|]. destruct (Ascii.eqb c sep) eqn:Ec.
  - apply Ascii.eqb_eq in Ec as ->. split; [by constructor|]. trans (String sep (strings_Join (String sep "") (p :: ps))); [done|]. by rewrite IH2.
  - inversion_clear IH1. split; [constructor; [by simpl; rewrite Ec|done]|]. rewrite <- IH2. by destruct ps.
Qed.

(** ** Pointers to values: [ptr.Deref] and [p != nil && *p] *)

Definition deref {A} (p : option A) (d : A) : A := default d p.
Definition is_true_ptr (p : option bool) : bool := default false p.

Record NamespacedName := mkNN { nn_namespace : string; nn_name : string }.

#[export] Instance NamespacedName_eq_dec : EqDecision NamespacedName.
Proof. solve_decision. Defined.
#[export] Instance NamespacedName_countable : Countable NamespacedName.
Proof.
  refine (inj_countable' (λ n, (nn_namespace n, nn_name n)) (λ p, mkNN p.1 p.2) _).
  by intros [].
Defined.

(** ** Iteration over a map

    Go visits the entries of a map in an unspecified order: [range_map] is one
    such order, and every theorem holds for all of them. *)

Class MapRange := range_map : ∀ {V : Type}, gmap string V → list (string * V).
Class MapRangeLaws (R : MapRange) :=
  range_map_perm : ∀ {V} (m : gmap string V), range_map m ≡ₚ map_to_list m.

Definition map_to_list_range : MapRange := λ V m, map_to_list m.
#[export] Instance map_to_list_range_laws : MapRangeLaws map_to_list_range.
Proof. intros V m. done. Qed.

Lemma elem_of_range_map {R : MapRange} {RL : MapRangeLaws R} {V} (m : gmap string V) k v :
  (k, v) ∈ range_map m ↔ m !! k = Some v.
Proof. rewrite (range_map_perm m). apply elem_of_map_to_list. Qed.

(** ** The state monad of the controllers

    [SM S A] is a computation that reads and writes a state [S]. *)

Definition SM (S A : Type) : Type := S → A * S.

#[export] Instance SM_ret {S} : MRet (SM S) := λ _ a s, (a, s).
#[export] Instance SM_bind {S} : MBind (SM S) :=
  λ _ _ k m s, match m s with (a, s') => k a s' end.

(** [Fn S R A] adds Go's early [return]: the computation goes on with an [A] or
    has returned the [R] of the enclosing function. *)
Definition Fn (S R A : Type) : Type := S → (R + A) * S.

#[export] Instance Fn_ret {S R} : MRet (Fn S R) := λ _ a s, (inr a, s).
#[export] Instance Fn_bind {S R} : MBind (Fn S R) :=
  λ _ _ k m s, match m s with
               | (inl r, s') => (inl r, s')
               | (inr a, s') => k a s'
               end.

Section EarlyReturn.
Context {S R : Type}.

Definition return_early {A} (r : R) : Fn S R A := λ s, (inl r, s).
Definition lift {A} (m : SM S A) : Fn S R A := λ s, match m s with (a, s') => (inr a, s') end.
(** [if err != nil { return ... }] after a call that yields a value or an error. *)
Definition or_return {A} (m : SM S (Res A)) (onerr : GoError → R) : Fn S R A :=
  λ s, match m s with
       | (Ok a, s') => (inr a, s')
       | (Err e, s') => (inl (onerr e), s')
       end.
(** [if err := call(); err != nil { return ... }] *)
Definition check (m : SM S (option GoError)) (onerr : GoError → R) : Fn S R unit :=
  λ s, match m s with
       | (None, s') => (inr tt, s')
       | (Some e, s') => (inl (onerr e), s')
       end.
(** [if cond { return ... }] *)
Definition return_if (b : bool) (r : R) : Fn S R unit :=
  λ s, (if b then inl r else inr tt, s).
(** The function body: its result is the early one or the last one. *)
Definition run (h : Fn S R R) : SM S R :=
  λ s, match h s with (inl r, s') => (r, s') | (inr r, s') => (r, s') end.
End EarlyReturn.

(** ** Loops over a slice with a state and an early error *)

Section Loop.
Context {S A : Type}.
(** [for _, x := range xs { if err := f(x); err != nil { return err } }] *)
Fixpoint for_each (f : A → SM S (option GoError)) (xs : list A) : SM S (option GoError) :=
  match xs with
  | [] => mret None
  | x :: xs => r ← f x; match r with Some e => mret (Some e) | None => for_each f xs end
  end.
End Loop.

(** ** Association of a predicate with the first element that satisfies it *)

Section FindIdx.
Context {A : Type} (p : A → bool).

(** The loop [for i := range xs { if p(xs[i]) { return i, &xs[i] } }]. *)
Fixpoint find_idx (xs : list A) : option (nat * A) :=
  match xs with
  | [] => None
  | x :: xs => if p x then Some (0, x) else prod_map S id <$> find_idx xs
  end.

Lemma find_idx_Some xs i x :
  find_idx xs = Some (i, x) →
  xs !! i = Some x ∧ p x = true ∧ ∀ j y, j < i → xs !! j = Some y → p y = false.
Proof.
  revert i. induction xs as [|y xs IH]; intros i E; simpl in E; [done|].
  destruct (p y) eqn:P.
  - simplify_eq. repeat split; auto. intros j z Hj. lia.
  - destruct (find_idx xs) as [[i' x']|] eqn:E'; simplify_eq/=.
    destruct (IH i' eq_refl) as (Hx & Hp & Hj). repeat split; auto.
    intros [|j] z Hlt Hz; simplify_eq/=; [done|]. eapply Hj; [|done]. lia.
Qed.

Lemma find_idx_None xs : find_idx xs = None ↔ ∀ x, x ∈ xs → p x = false.
Proof.
  induction xs as [|y xs IH]; simpl; [by split; [intros _ x ?%elem_of_nil|]|].
  destruct (p y) eqn:P.
  - split; [done|]. intros Hall. rewrite (Hall y) in P by left. done.
  - destruct (find_idx xs) as [[i x]|]; simpl.
    + split; [done|]. intros Hall. assert (Some (i, x) = None) as [=].
      apply IH. intros z Hz. apply Hall. by right.
    + split; [|done]. intros _ x Hx.
      apply elem_of_cons in Hx as [->|Hx]; [done|]. by apply IH.
Qed.
End FindIdx.

Lemma find_idx_first_none {A} (p : A → bool) xs : snd <$> find_idx p xs = None → ∀ x, x ∈ xs → p x = false.
Proof. destruct (find_idx p xs) eqn:E; [done|]. intros _. by apply find_idx_None. Qed.

(** ** Counting *)

Definition count {A} (p : A → bool) (xs : list A) : nat := length (filter (λ x, p x = true) xs).

Section Count.
Context {A : Type} (p : A → bool).

Lemma count_nil : count p [] = 0.
Proof. done. Qed.
Lemma count_cons x xs : count p (x :: xs) = (if p x then 1 else 0) + count p xs.
Proof. unfold count. rewrite filter_cons. case_decide; destruct (p x); simpl; congruence. Qed.
Lemma count_app xs ys : count p (xs ++ ys) = count p xs + count p ys.
Proof. unfold count. by rewrite filter_app, length_app. Qed.
Lemma count_le_length xs : count p xs ≤ length xs.
Proof. apply length_filter. Qed.
Lemma count_perm xs ys : xs ≡ₚ ys → count p xs = count p ys.
Proof. unfold count. by intros ->. Qed.
End Count.

Lemma count_mono {A} (p q : A → bool) xs :
  (∀ x, x ∈ xs → p x = true → q x = true) → count p xs ≤ count q xs.
Proof.
  induction xs as [|x xs IH]; intros Hpq; [done|]. rewrite !count_cons.
  assert (count p xs ≤ count q xs) by (apply IH; intros y Hy; apply Hpq; by right).
  assert (p x = true → q x = true) as Hx by (apply Hpq; left).
  destruct (p x), (q x); lia || by specialize (Hx eq_refl).
Qed.

Lemma count_ext {A} (p q : A → bool) xs :
  (∀ x, x ∈ xs → p x = q x) → count p xs = count q xs.
Proof.
  intros E. apply Nat.le_antisymm; apply count_mono; intros x Hx; rewrite E; done.
Qed.

Lemma count_zero {A} (p : A → bool) xs : count p xs = 0 ↔ ∀ x, x ∈ xs → p x = false.
Proof.
  induction xs as [|x xs IH]; [split; [by intros _ x ?%elem_of_nil|done]|]. rewrite count_cons. setoid_rewrite elem_of_cons.
  destruct (p x) eqn:E; simpl; [split; [done|]; intros H; specialize (H x); rewrite E in H; naive_solver|].
  rewrite IH. naive_solver.
Qed.
Lemma count_nonzero {A} (p : A → bool) xs : count p xs ≠ 0 → ∃ x, x ∈ xs ∧ p x = true.
Proof.
  induction xs as [|x xs IH]; [done|]. rewrite count_cons. destruct (p x) eqn:E; intros H.
  - exists x. split; [left|done].
  - destruct (IH H) as (y & ? & ?). exists y. split; [by right|done].
Qed.

Create Rewrite HintDb dpf.
#[export] Hint Rewrite @count_nil @count_cons @count_app : dpf.

(** ** Tactics *)

(** Open the monadic plumbing of a computation applied to a state. *)
Ltac unfold_monad :=
  unfold run, return_early, lift, or_return, check, return_if, mret, SM_ret, Fn_ret, mbind, SM_bind,
    Fn_bind in *.

(** Case analysis on every call of a handler, one branch per early return. *)
Ltac branches :=
  repeat first
    [ progress simplify_eq/=
    | match goal with
      | Hd : context [match ?m ?s with (_, _) => _ end] |- _ =>
          let E := fresh "E" in destruct (m s) as [[] ] eqn:E
      | Hd : context [match ?x with _ => _ end] |- _ =>
          let E := fresh "E" in destruct x eqn:E
      | |- context [match ?x with _ => _ end] =>
          let E := fresh "E" in destruct x eqn:E
      end ].

(** ** Frames *)

(** [keeps f m]: a computation leaves the part [f] of the state alone. *)
Definition keeps {S A B} (f : S → B) (m : SM S A) : Prop := ∀ s, f (m s).2 = f s.

Section Keeps.
Context {S B : Type} (f : S → B).

Lemma keeps_ret {A} (a : A) : keeps f (mret a : SM S A).
Proof. done. Qed.
Lemma keeps_bind {A D} (m : SM S A) (k : A → SM S D) : keeps f m → (∀ a, keeps f (k a)) → keeps f (m ≫= k).
Proof.
  intros Hm Hk s. unfold mbind, SM_bind. specialize (Hm s). destruct (m s) as [a s'].
  rewrite (Hk a s'). done.
Qed.
Lemma keeps_run {R} (h : Fn S R R) : keeps f (h : SM S (R + R)) → keeps f (run h).
Proof. intros H s. unfold run. specialize (H s). by destruct (h s) as [[r|r] s']. Qed.
Lemma keeps_Fn_ret {R A} (a : A) : keeps f ((mret a : Fn S R A) : SM S (R + A)).
Proof. done. Qed.
Lemma keeps_Fn_bind {R A D} (m : Fn S R A) (k : A → Fn S R D) :
  keeps f (m : SM S (R + A)) → (∀ a, keeps f (k a : SM S (R + D))) → keeps f ((m ≫= k : Fn S R D) : SM S (R + D)).
Proof.
  intros Hm Hk s. unfold mbind, Fn_bind. specialize (Hm s). destruct (m s) as [[r|a] s']; [done|].
  rewrite (Hk a s'). done.
Qed.
Lemma keeps_return_early {R A} (r : R) : keeps f ((return_early r : Fn S R A) : SM S (R + A)).
Proof. done. Qed.
Lemma keeps_return_if {R} b (r : R) : keeps f (return_if b r : SM S (R + unit)).
Proof. done. Qed.
Lemma keeps_lift {R A} (m : SM S A) : keeps f m → keeps f (lift m : SM S (R + A)).
Proof. intros H s. unfold lift. specialize (H s). by destruct (m s). Qed.
Lemma keeps_or_return {R A} (m : SM S (Res A)) (onerr : GoError → R) :
  keeps f m → keeps f (or_return m onerr : SM S (R + A)).
Proof. intros H s. unfold or_return. specialize (H s). by destruct (m s) as [[] ?]. Qed.
Lemma keeps_check {R} (m : SM S (option GoError)) (onerr : GoError → R) :
  keeps f m → keeps f (check m onerr : SM S (R + unit)).
Proof. intros H s. unfold check. specialize (H s). by destruct (m s) as [[] ?]. Qed.
End Keeps.

Create HintDb handlers.

(** One step through a computation that leaves a part of the state alone. *)
Ltac keeps_step :=
  lazymatch goal with
  | |- keeps _ (run _) => apply keeps_run
  | |- keeps _ (lift _) => apply keeps_lift
  | |- keeps _ (or_return _ _) => apply keeps_or_return
  | |- keeps _ (check _ _) => apply keeps_check
  | |- keeps _ (return_if _ _) => apply keeps_return_if
  | |- keeps _ (return_early _) => apply keeps_return_early
  | |- keeps _ (match ?x with _ => _ end) => destruct x
  | |- keeps _ (mret _) => intros ?; reflexivity
  | |- keeps _ (mbind _ _) => first [apply keeps_Fn_bind; [|intros ?] | apply keeps_bind; [|intros ?]]
  | |- keeps _ _ => solve [auto with handlers]
  end.

(** ** Slices as sets of strings *)

(** [RemoveDuplicates] of internal/provisioning/controllers/util/util.go: keep
    the first occurrence of each item. [seen] is the Go map of that name. *)
Fixpoint RemoveDuplicates_from (seen : gset string) (arr : list string) : list string :=
  match arr with
  | [] => []
  | item :: arr =>
      if decide (item ∈ seen) then RemoveDuplicates_from seen arr
      else item :: RemoveDuplicates_from ({[item]} ∪ seen) arr
  end.
Definition RemoveDuplicates (arr : list string) : list string := RemoveDuplicates_from ∅ arr.

Lemma elem_of_RemoveDuplicates_from seen arr x :
  x ∈ RemoveDuplicates_from seen arr ↔ x ∈ arr ∧ x ∉ seen.
Proof.
  revert seen. induction arr as [|y arr IH]; intros seen; simpl; [set_solver|].
  case_decide; rewrite ?elem_of_cons, IH; [|destruct (decide (x = y))]; set_solver.
Qed.

Lemma elem_of_RemoveDuplicates arr x : x ∈ RemoveDuplicates arr ↔ x ∈ arr.
Proof. unfold RemoveDuplicates. rewrite elem_of_RemoveDuplicates_from. set_solver. Qed.

Lemma NoDup_RemoveDuplicates arr : NoDup (RemoveDuplicates arr).
Proof.
  unfold RemoveDuplicates. generalize (∅ : gset string).
  induction arr as [|y arr IH]; intros seen; simpl; [constructor|].
  case_decide; [done|]. constructor; [|done].
  rewrite elem_of_RemoveDuplicates_from. set_solver.
Qed.
