(* ===== verification/WriteLog.v ===== *)
(** The log of the writes of a computation.

    A client of the API server is an instance of a class of operations on a world
    [W].  Its traced version works on [W * list E]: reads are [unlogged], and every
    write is [logged] with its result as an event [E].  What a function may write
    is then a predicate on events, composed along the function: [emits Q m].
    [returns P h] is the same for the results of a function with early returns. *)

From S2P Require Import Prelude.

Section Log.
Context {W E : Type}.

(** [m] with its result logged by [entry]. *)
Definition logged {B} (entry : B → E) (m : SM W B) : SM (W * list E) B := λ s,
  match m s.1 with (r, w) => (r, (w, s.2 ++ [entry r])) end.
Definition unlogged {A} (m : SM W A) : SM (W * list E) A := λ s,
  match m s.1 with (a, w) => (a, (w, s.2)) end.
End Log.

(** A function on variables and a logged world, as one on the log and the variables. *)
Definition log_in {W E X A} (f : SM (X * (W * list E)) A) : SM ((X * list E) * W) A := λ '((x, l), w),
  match f (x, (w, l)) with (a, (x, (w, l))) => (a, ((x, l), w)) end.
Definition log_out {W E X A} (f : SM ((X * list E) * W) A) : SM (X * (W * list E)) A := λ '(x, (w, l)),
  match f ((x, l), w) with (a, ((x, l), w)) => (a, (x, (w, l))) end.

(** *** Loops and their logs *)

(** Every step of a loop adds entries that satisfy [Q] and, unless it ends the
    loop, entries that satisfy [done] of its element. *)
Lemma for_each_log {W E A} (f : A → SM (W * list E) (option GoError)) (xs : list A)
    (Q : A → E → Prop) (done : A → list E → Prop) :
  (∀ x w l, x ∈ xs → ∃ e w' k, f x (w, l) = (e, (w', l ++ k)) ∧ Forall (Q x) k ∧ (e = None → done x k)) →
  ∀ w l, let r := for_each f xs (w, l) in
  ∃ ks, r.2.2 = l ++ concat ks ∧ (∃ xs', xs' `prefix_of` xs ∧ Forall2 (λ x k, Forall (Q x) k) xs' ks) ∧
    (r.1 = None → Forall2 done xs ks).
Proof.
  induction xs as [|x xs IH]; intros Hf w l.
  { exists []. rewrite app_nil_r. split; [done|]. split; [|done]. by exists []. }
  cbn [for_each]. unfold mbind, SM_bind.
  destruct (Hf x w l) as (e & w' & k & -> & HQ & Hd); [left|]. destruct e as [e|]; simpl.
  - exists [k]. simpl. rewrite app_nil_r. split; [done|]. split; [|done]. exists [x]. split; [by exists xs|]. by constructor.
  - destruct (IH ltac:(intros y w0 l0 Hy; apply Hf; by right) w' (l ++ k)) as (ks & -> & (xs' & [t ->] & H2) & Hok).
    exists (k :: ks). simpl. rewrite app_assoc. split; [done|]. split.
    + exists (x :: xs'). split; [by exists t|]. by constructor.
    + intros Hr. constructor; [by apply Hd|]. by apply Hok.
Qed.

(** *** What a computation may write

    [emits Q m]: every run of [m] extends the log by writes that satisfy [Q]. *)
Definition emits {W E A} (Q : E → Prop) (m : SM (W * list E) A) : Prop :=
  ∀ w l, ∃ k, (m (w, l)).2.2 = l ++ k ∧ Forall Q k.

Section Emits.
Context {W E : Type} (Q : E → Prop).

Lemma emits_ret {A} (a : A) : emits (W:=W) Q (mret a).
Proof. intros w l. exists []. by rewrite app_nil_r. Qed.

Lemma emits_bind {A B} (m : SM (W * list E) A) (f : A → SM (W * list E) B) :
  emits Q m → (∀ a, emits Q (f a)) → emits Q (m ≫= f).
Proof.
  intros Hm Hf w l. unfold mbind, SM_bind. destruct (Hm w l) as (k & Hk & HQ).
  destruct (m (w, l)) as [a [w' l']]. simpl in Hk. subst l'. destruct (Hf a w' (l ++ k)) as (k' & -> & HQ').
  exists (k ++ k'). rewrite app_assoc. split; [done|]. by apply Forall_app.
Qed.

(** The same, where what follows may use that its argument is a result. *)
Lemma emits_bind_result {A B} (m : SM (W * list E) A) (f : A → SM (W * list E) B) :
  emits Q m → (∀ a, (∃ s, (m s).1 = a) → emits Q (f a)) → emits Q (m ≫= f).
Proof.
  intros Hm Hf w l. unfold mbind, SM_bind. destruct (Hm w l) as (k & Hk & HQ).
  assert (∃ s, (m s).1 = (m (w, l)).1) as Ha by (by eexists).
  destruct (m (w, l)) as [a [w' l']]. simpl in Hk, Ha. subst l'. destruct (Hf a Ha w' (l ++ k)) as (k' & -> & HQ').
  exists (k ++ k'). rewrite app_assoc. split; [done|]. by apply Forall_app.
Qed.
Lemma unlogged_result {A} (m : SM W A) a : (∃ s : W * list E, (unlogged m s).1 = a) → ∃ w, (m w).1 = a.
Proof. intros ([w l] & H). exists w. unfold unlogged in H. simpl in H. by destruct (m w). Qed.
Lemma emits_read {A B} (m : SM W A) (f : A → SM (W * list E) B) :
  (∀ a, (∃ w, (m w).1 = a) → emits Q (f a)) → emits Q (unlogged m ≫= f).
Proof.
  intros Hf. apply emits_bind_result; [|intros a Ha%unlogged_result; by apply Hf].
  intros w l. exists []. rewrite app_nil_r. unfold unlogged. simpl. by destruct (m w).
Qed.

Lemma emits_unlogged {A} (m : SM W A) : emits Q (unlogged m).
Proof. intros w l. exists []. rewrite app_nil_r. unfold unlogged. simpl. by destruct (m w). Qed.

Lemma emits_logged {B} (entry : B → E) (m : SM W B) : (∀ r, Q (entry r)) → emits Q (logged entry m).
Proof.
  intros HQ w l. unfold logged. simpl. destruct (m w) as [r w']. exists [entry r]. split; [done|]. by apply Forall_singleton.
Qed.

Lemma emits_for_each {A} (f : A → SM (W * list E) (option GoError)) xs :
  (∀ x, x ∈ xs → emits Q (f x)) → emits Q (for_each f xs).
Proof.
  induction xs as [|x xs IH]; intros Hf; [apply emits_ret|]. cbn [for_each]. apply emits_bind; [apply Hf; left|].
  intros [e|]; [apply emits_ret|]. apply IH. intros y Hy. apply Hf. by right.
Qed.

Lemma emits_log {A} (m : SM (W * list E) A) w : emits Q m → Forall Q (m (w, [])).2.2.
Proof. intros H. by destruct (H w []) as (k & -> & HQ). Qed.
End Emits.

Lemma emits_weaken {W E A} (Q Q' : E → Prop) (m : SM (W * list E) A) :
  (∀ x, Q x → Q' x) → emits Q m → emits Q' m.
Proof. intros HQ H w l. destruct (H w l) as (k & Hl & Hk). exists k. split; [done|]. by eapply Forall_impl. Qed.

(** The same for computations with an early return; what follows a call may use
    that its argument is a result of the call. *)
Section EmitsFn.
Context {W E R : Type} (Q : E → Prop).
Implicit Types (m : SM (W * list E) (option GoError)).

Definition fn_emits {A} (m : Fn (W * list E) R A) : Prop := emits (A:=R + A) Q m.

Lemma fn_emits_ret {A} (a : A) : fn_emits (mret a).
Proof. intros w l. exists []. by rewrite app_nil_r. Qed.
Lemma fn_emits_early {A} (r : R) : fn_emits (A:=A) (return_early r).
Proof. intros w l. exists []. by rewrite app_nil_r. Qed.

Lemma fn_emits_bind {A B} (m : Fn (W * list E) R A) (f : A → Fn (W * list E) R B) :
  fn_emits m → (∀ a, (∃ s s', m s = (inr a, s')) → fn_emits (f a)) → fn_emits (m ≫= f).
Proof.
  intros Hm Hf w l. unfold mbind, Fn_bind. destruct (Hm w l) as (k & Hk & HQ).
  destruct (m (w, l)) as [[r|a] [w' l']] eqn:Em; simpl in Hk; subst l'; [by exists k|].
  destruct (Hf a ltac:(by eauto) w' (l ++ k)) as (k' & -> & HQ'). exists (k ++ k'). rewrite app_assoc. split; [done|].
  by apply Forall_app.
Qed.

Lemma fn_emits_lift {A} (m : SM (W * list E) A) : emits Q m → fn_emits (lift m).
Proof. intros Hm w l. unfold lift. destruct (Hm w l) as (k & Hk & HQ). destruct (m (w, l)) as [a [w' l']]. by exists k. Qed.
Lemma fn_emits_or_return {A} (m : SM (W * list E) (Res A)) onerr : emits Q m → fn_emits (or_return m onerr).
Proof. intros Hm w l. unfold or_return. destruct (Hm w l) as (k & Hk & HQ). destruct (m (w, l)) as [[a|e] [w' l']]; by exists k. Qed.
Lemma fn_emits_check m onerr : emits Q m → fn_emits (check m onerr).
Proof. intros Hm w l. unfold check. destruct (Hm w l) as (k & Hk & HQ). destruct (m (w, l)) as [[e|] [w' l']]; by exists k. Qed.
End EmitsFn.

Lemma emits_run {W E R} (Q : E → Prop) (h : Fn (W * list E) R R) : fn_emits Q h → emits Q (run h).
Proof. intros Hh w l. unfold run. destruct (Hh w l) as (k & Hk & HQ). destruct (h (w, l)) as [[r|r] [w' l']]; by exists k. Qed.

Lemma fn_emits_weaken {W E R A} (Q Q' : E → Prop) (m : Fn (W * list E) R A) :
  (∀ x, Q x → Q' x) → fn_emits Q m → fn_emits Q' m.
Proof. apply emits_weaken. Qed.

Lemma lift_result {S R A} (m : SM S A) a : (∃ s s', lift (R:=R) m s = (inr a, s')) → ∃ s, (m s).1 = a.
Proof. intros (s & s' & E). exists s. unfold lift in E. destruct (m s). by injection E as ->. Qed.
Lemma or_return_result {S R A} (m : SM S (Res A)) (onerr : GoError → R) a :
  (∃ s s', or_return m onerr s = (inr a, s')) → ∃ s, (m s).1 = Ok a.
Proof. intros (s & s' & E). exists s. unfold or_return in E. destruct (m s) as [[b|e] s0]; [|done]. by injection E as ->. Qed.

Create HintDb emits.
#[export] Hint Resolve emits_ret emits_unlogged emits_logged : emits.

(** Follows a computation through its calls, conditions and returns; what is left
    are the writes that need an argument. *)
Ltac emits :=
  repeat first
    [ apply emits_ret | apply emits_unlogged
    | apply emits_logged; intros ? | apply emits_bind; [|intros ?] | apply emits_for_each; intros ? ?
    | progress (cbv beta zeta) | case_match ].

(** Every result of a function with early returns satisfies [P]. *)
Definition returns {S R} (P : R → Prop) (h : Fn S R R) : Prop := ∀ s, P (run h s).1.

Section Returns.
Context {S R : Type} (P : R → Prop).

Lemma returns_bind {A} (m : Fn S R A) (f : A → Fn S R R) :
  (∀ s r s', m s = (inl r, s') → P r) → (∀ a, (∃ s s', m s = (inr a, s')) → returns P (f a)) → returns P (m ≫= f).
Proof.
  intros Hm Hf s. unfold run, mbind, Fn_bind. destruct (m s) as [[r|a] s'] eqn:Em; [by eapply Hm|].
  apply (Hf a). by exists s, s'.
Qed.
Lemma returns_lift {A} (m : SM S A) (f : A → Fn S R R) : (∀ a, (∃ s, (m s).1 = a) → returns P (f a)) → returns P (lift m ≫= f).
Proof.
  intros Hf. apply returns_bind; [|intros a Ha%lift_result; by apply Hf].
  intros s r s'. unfold lift. by destruct (m s).
Qed.
Lemma returns_or_return {A} (m : SM S (Res A)) onerr (f : A → Fn S R R) :
  (∀ e, P (onerr e)) → (∀ a, (∃ s, (m s).1 = Ok a) → returns P (f a)) → returns P (or_return m onerr ≫= f).
Proof.
  intros He Hf. apply returns_bind; [|intros a Ha%or_return_result; by apply Hf].
  intros s r s'. unfold or_return. destruct (m s) as [[a|e] s1]; [done|]. intros [= <- _]. apply He.
Qed.
Lemma returns_check_none (m : SM S (option GoError)) onerr (f : unit → Fn S R R) :
  (∀ e, P (onerr e)) → ((∃ s, (m s).1 = None) → returns P (f tt)) → returns P (check m onerr ≫= f).
Proof.
  intros He Hf. apply returns_bind; unfold check.
  - intros s r s'. destruct (m s) as [[e|] s1]; [|done]. intros [= <- _]. apply He.
  - intros [] (s & s' & E). apply Hf. exists s. by destruct (m s) as [[e|] s1].
Qed.
Lemma returns_check (m : SM S (option GoError)) onerr (f : unit → Fn S R R) :
  (∀ e, P (onerr e)) → returns P (f tt) → returns P (check m onerr ≫= f).
Proof.
  intros He Hf. apply returns_bind; [|by intros [] _].
  intros s r s'. unfold check. destruct (m s) as [[e|] s1]; [|done]. intros [= <- _]. apply He.
Qed.
End Returns.

(** Every result of a computation satisfies [P]. *)
Definition gives {S A} (P : A → Prop) (m : SM S A) : Prop := ∀ s, P (m s).1.

Section Gives.
Context {S A B : Type} (P : B → Prop).

Lemma gives_ret (b : B) : P b → gives (S:=S) P (mret b).
Proof. by intros Hb s. Qed.
Lemma gives_bind (m : SM S A) (f : A → SM S B) : (∀ a, gives P (f a)) → gives P (m ≫= f).
Proof. intros Hf s. unfold mbind, SM_bind. destruct (m s) as [a s']. apply Hf. Qed.
Lemma gives_bind_result (m : SM S A) (f : A → SM S B) (Q : A → Prop) :
  gives Q m → (∀ a, Q a → gives P (f a)) → gives P (m ≫= f).
Proof. intros Hm Hf s. unfold mbind, SM_bind. specialize (Hm s). destruct (m s) as [a s']. by apply Hf. Qed.
End Gives.

(** Follows a computation to its results. *)
Ltac gives :=
  repeat first [ apply gives_ret | apply gives_bind; intros ? | progress (cbv beta zeta) | case_match ].
