(* ===== verification/TraceLogic.v ===== *)
(** A program logic for the traces of a computation.

    Where WriteLog.v says what a computation may write, this file says why: the traced
    version of a client logs its reads too, with what they answered, and every event of
    a trace has to be justified by those before it.  [traces J l m Q] is a weakest
    precondition: with the history [l], every run of [m] adds events that are justified,
    and ends with a result and a history that satisfy [Q]. *)

From S2P Require Import Prelude.
From S2P Require Import WriteLog.

Section Traces.
Context {W E : Type} (J : list E → E → Prop).

(** Every event of [k] is justified by the history [l] and the events before it. *)
Fixpoint justified (l k : list E) : Prop :=
  match k with [] => True | e :: k => J l e ∧ justified (l ++ [e]) k end.
Lemma justified_app l k1 k2 : justified l k1 → justified (l ++ k1) k2 → justified l (k1 ++ k2).
Proof.
  revert l. induction k1 as [|e k1 IH]; intros l; cbn; [by rewrite app_nil_r|].
  intros [He Hk] H2. split; [done|]. apply IH; [done|]. by rewrite <- app_assoc.
Qed.
Lemma justified_spec l k : justified l k ↔ ∀ k1 e k2, k = k1 ++ e :: k2 → J (l ++ k1) e.
Proof.
  revert l. induction k as [|e k IH]; intros l; cbn.
  - split; [|done]. by intros _ [|] ? ?.
  - rewrite IH. split.
    + intros [He Hk] [|e1 k1] e2 k2 [= -> ->]; [by rewrite app_nil_r|]. specialize (Hk k1 e2 k2 eq_refl). by rewrite <- app_assoc in Hk.
    + intros H. split; [specialize (H [] e k eq_refl); by rewrite app_nil_r in H|].
      intros k1 e2 k2 ->. specialize (H (e :: k1) e2 k2 eq_refl). by rewrite <- app_assoc.
Qed.

Definition traces {A} (l : list E) (m : SM (W * list E) A) (Q : A → list E → Prop) : Prop :=
  ∀ w, ∃ k, (m (w, l)).2.2 = l ++ k ∧ justified l k ∧ Q (m (w, l)).1 (l ++ k).

Lemma traces_mono {A} l (m : SM (W * list E) A) (Q Q' : A → list E → Prop) :
  traces l m Q → (∀ a l', l `prefix_of` l' → Q a l' → Q' a l') → traces l m Q'.
Proof. intros Hm HQ w. destruct (Hm w) as (k & Hk & Hj & H). exists k. split_and!; [done..|]. apply HQ; [by exists k|done]. Qed.
Lemma traces_ret {A} l (a : A) (Q : A → list E → Prop) : Q a l → traces l (mret a) Q.
Proof. intros HQ w. exists []. rewrite app_nil_r. by split_and!. Qed.
Lemma traces_bind {A B} l (m : SM (W * list E) A) (f : A → SM (W * list E) B) (Q : B → list E → Prop) :
  traces l m (λ a l', traces l' (f a) Q) → traces l (m ≫= f) Q.
Proof.
  intros Hm w. unfold mbind, SM_bind. destruct (Hm w) as (k & Hk & Hj & Hf). destruct (m (w, l)) as [a [w' l']]. simpl in Hk, Hf. subst l'.
  destruct (Hf w') as (k' & -> & Hj' & HQ). exists (k ++ k'). rewrite app_assoc. split_and!; [done| |done]. by apply justified_app.
Qed.
Lemma traces_call {B} l (entry : B → E) (m : SM W B) (Q : B → list E → Prop) :
  (∀ r, J l (entry r) ∧ Q r (l ++ [entry r])) → traces l (logged entry m) Q.
Proof. intros H w. unfold logged. simpl. destruct (m w) as [r w']. destruct (H r) as [Hj HQ]. exists [entry r]. by split_and!. Qed.
Lemma traces_unlogged {B} l (m : SM W B) (Q : B → list E → Prop) : (∀ r, Q r l) → traces l (unlogged m) Q.
Proof. intros H w. exists []. rewrite app_nil_r. unfold unlogged. simpl. destruct (m w) as [r w']. by split_and!. Qed.

(** [done] of an element is kept by what follows. *)
Lemma traces_for_each {A} (done : A → list E → Prop) l (f : A → SM (W * list E) (option GoError)) xs :
  (∀ x l1 l2, l1 `prefix_of` l2 → done x l1 → done x l2) →
  (∀ x l', x ∈ xs → l `prefix_of` l' → traces l' (f x) (λ r l'', r = None → done x l'')) →
  traces l (for_each f xs) (λ r l', r = None → ∀ x, x ∈ xs → done x l').
Proof.
  intros Hmono. revert l. induction xs as [|x xs IH]; intros l Hf; cbn [for_each].
  - apply traces_ret. intros _ x Hx%elem_of_nil. contradiction.
  - apply traces_bind. eapply traces_mono; [by apply Hf; [left|]|]. intros r l1 Hl1 Hr. cbn. destruct r as [e|]; [by apply traces_ret|].
    eapply traces_mono; [apply IH; intros y l2 Hy Hl2; apply Hf; [by right|by trans l1]|]. intros r l2 Hl2 Hxs Hnone y Hy.
    apply elem_of_cons in Hy as [->|Hy]; [|by apply Hxs]. eapply Hmono; [done|by apply Hr].
Qed.

Lemma traces_justified {A} (m : SM (W * list E) A) Q w : traces [] m Q → justified [] (m (w, [])).2.2 ∧ Q (m (w, [])).1 (m (w, [])).2.2.
Proof. intros H. by destruct (H w) as (k & -> & Hj & HQ). Qed.

(** ** Early returns: they satisfy [R], the other results [Q] *)

Definition fn_traces {B A} (R : B → list E → Prop) (l : list E) (m : Fn (W * list E) B A) (Q : A → list E → Prop) : Prop :=
  traces (A:=B + A) l m (λ x l', match x with inl r => R r l' | inr a => Q a l' end).

Section Early.
Context {B : Type} (R : B → list E → Prop).

Lemma fn_mono {A} l (m : Fn (W * list E) B A) (Q Q' : A → list E → Prop) :
  fn_traces R l m Q → (∀ a l', l `prefix_of` l' → Q a l' → Q' a l') → fn_traces R l m Q'.
Proof. intros Hm HQ. eapply traces_mono; [exact Hm|]. intros [r|a] l' Hl' H; [done|]. by apply HQ. Qed.
Lemma fn_ret {A} l (a : A) Q : Q a l → fn_traces R l (mret a) Q.
Proof. intros HQ w. exists []. rewrite app_nil_r. by split_and!. Qed.
Lemma fn_early {A} l r (Q : A → list E → Prop) : R r l → fn_traces R l (return_early r) Q.
Proof. intros HQ w. exists []. rewrite app_nil_r. by split_and!. Qed.
Lemma fn_bind {A D} l (m : Fn (W * list E) B A) (f : A → Fn (W * list E) B D) Q :
  fn_traces R l m (λ a l', fn_traces R l' (f a) Q) → fn_traces R l (m ≫= f) Q.
Proof.
  intros Hm w. unfold mbind, Fn_bind. destruct (Hm w) as (k & Hk & Hj & Hf). destruct (m (w, l)) as [[r|a] [w' l']]; simpl in Hk, Hf; subst l'.
  - by exists k.
  - destruct (Hf w') as (k' & -> & Hj' & HQ). exists (k ++ k'). rewrite app_assoc. split_and!; [done| |done]. by apply justified_app.
Qed.
Lemma fn_lift {A} l (m : SM (W * list E) A) Q : traces l m Q → fn_traces R l (lift m) Q.
Proof. intros H w. unfold lift. destruct (H w) as (k & Hk & Hj & HQ). destruct (m (w, l)) as [a s]. by exists k. Qed.
Lemma fn_or_return {A} l (m : SM (W * list E) (Res A)) onerr Q :
  traces l m (λ r l', match r with Ok a => Q a l' | Err e => R (onerr e) l' end) → fn_traces R l (or_return m onerr) Q.
Proof. intros H w. unfold or_return. destruct (H w) as (k & Hk & Hj & HQ). destruct (m (w, l)) as [[a|e] s]; by exists k. Qed.
Lemma fn_check l (m : SM (W * list E) (option GoError)) onerr Q :
  traces l m (λ r l', match r with None => Q tt l' | Some e => R (onerr e) l' end) → fn_traces R l (check m onerr) Q.
Proof. intros H w. unfold check. destruct (H w) as (k & Hk & Hj & HQ). destruct (m (w, l)) as [[e|] s]; by exists k. Qed.
Lemma fn_return_if l (b : bool) r Q : (b = true → R r l) → (b = false → Q tt l) → fn_traces R l (return_if b r) Q.
Proof. intros Hr HQ w. exists []. rewrite app_nil_r. unfold return_if. destruct b; (split; [done|]); (split; [done|]); cbn; auto. Qed.
End Early.

Lemma traces_run {B} (Q : B → list E → Prop) l (h : Fn (W * list E) B B) : fn_traces Q l h Q → traces l (run h) Q.
Proof. intros H w. unfold run. destruct (H w) as (k & Hk & Hj & HQ). destruct (h (w, l)) as [[r|r] s]; by exists k. Qed.
End Traces.

Lemma justified_weaken {E} (J J' : list E → E → Prop) l k :
  (∀ l' e, l `prefix_of` l' → J l' e → J' l' e) → justified J l k → justified J' l k.
Proof.
  revert l. induction k as [|e k IH]; intros l H; [done|]. cbn. intros [He Hk]. split; [by apply H|].
  apply IH; [|done]. intros l' e' Hl'. apply H. etrans; [by eexists|exact Hl'].
Qed.
Lemma traces_weaken {W E A} (J J' : list E → E → Prop) l (m : SM (W * list E) A) Q :
  (∀ l' e, l `prefix_of` l' → J l' e → J' l' e) → traces J l m Q → traces J' l m Q.
Proof. intros HJ Hm w. destruct (Hm w) as (k & Hk & Hj & HQ). exists k. split_and!; [done| |done]. by eapply justified_weaken. Qed.

Lemma prefix_elem {A} (x : A) l l' : l `prefix_of` l' → x ∈ l → x ∈ l'.
Proof. intros [k ->] ?. apply elem_of_app. by left. Qed.

Lemma elem_of_snoc {A} (x : A) l : x ∈ l ++ [x].
Proof. apply elem_of_app. right. by left. Qed.

(** What is known of a history holds of those it is a prefix of. *)
Ltac known :=
  repeat match goal with
    | Hp : ?l `prefix_of` ?l', H : _ ∈ ?l |- _ => apply (prefix_elem _ _ _ Hp) in H
    end.
(** Follows a computation to its next call. *)
Ltac trace :=
  repeat (cbv beta; lazymatch goal with
    | |- traces _ _ (_ ≫= _) _ => apply traces_bind
    | |- traces _ _ (run _) _ => apply traces_run
    | |- traces _ _ (mret _) _ => apply traces_ret
    | |- fn_traces _ _ _ (_ ≫= _) _ => apply fn_bind
    | |- fn_traces _ _ _ (lift _) _ => apply fn_lift
    | |- fn_traces _ _ _ (or_return _ _) _ => apply fn_or_return
    | |- fn_traces _ _ _ (check _ _) _ => apply fn_check
    | |- fn_traces _ _ _ (return_early _) _ => apply fn_early
    | |- fn_traces _ _ _ (mret _) _ => apply fn_ret
    end).
