(* ===== verification/Meta.v ===== *)
(** The metav1.Condition type and the part of
    [k8s.io/apimachinery/pkg/api/meta] that the controllers call.

    The helper functions are third-party code: they are the operations of the
    class [MetaAPI], and [MetaAPILaws] states what their documentation promises
    and the controllers rely on.  [meta_list] is an instance over plain lists
    that the witnesses of other files compute with. *)

From S2P Require Import Prelude.

(** ** Data *)

Inductive ConditionStatus := ConditionTrue | ConditionFalse | ConditionUnknown.

#[export] Instance ConditionStatus_eq_dec : EqDecision ConditionStatus.
Proof. solve_decision. Defined.

Record Condition := mkCondition {
  c_Type : string;
  c_Status : ConditionStatus;
  c_ObservedGeneration : Z;
  c_LastTransitionTime : Time;
  c_Reason : string;
  c_Message : string }.

#[export] Instance Condition_eq_dec : EqDecision Condition.
Proof. solve_decision. Defined.

Definition has_type (t : string) (c : Condition) : bool := bool_decide (c_Type c = t).
Definition status_is (st : ConditionStatus) (c : Condition) : bool := bool_decide (c_Status c = st).

Definition with_LastTransitionTime (t : Time) (c : Condition) : Condition :=
  mkCondition (c_Type c) (c_Status c) (c_ObservedGeneration c) t (c_Reason c) (c_Message c).

(** Two conditions that say the same, transition time aside. *)
Definition same_content (c d : Condition) : Prop :=
  c_Type c = c_Type d ∧ c_Status c = c_Status d ∧ c_Reason c = c_Reason d ∧
  c_Message c = c_Message d ∧ c_ObservedGeneration c = c_ObservedGeneration d.

(** The first condition of a given type. *)
Definition first_of_type (cs : list Condition) (t : string) : option Condition :=
  snd <$> find_idx (has_type t) cs.

(** At most one condition per type. *)
Definition wf_conditions (cs : list Condition) : Prop := NoDup (c_Type <$> cs).

Lemma first_of_type_cons c cs t :
  first_of_type (c :: cs) t = if has_type t c then Some c else first_of_type cs t.
Proof.
  unfold first_of_type. simpl. destruct (has_type t c); [done|].
  by destruct (find_idx _ cs) as [[]|].
Qed.

Lemma first_of_type_Some cs t c :
  first_of_type cs t = Some c → c ∈ cs ∧ c_Type c = t.
Proof.
  induction cs as [|d cs IH]; [done|]. rewrite first_of_type_cons.
  unfold has_type. case_bool_decide; intros ?; simplify_eq.
  - split; [by left|done].
  - destruct IH; [done|]. split; [by right|done].
Qed.

Lemma first_of_type_None cs t :
  first_of_type cs t = None ↔ t ∉ c_Type <$> cs.
Proof.
  induction cs as [|d cs IH]; [by split; [intros _ ?%elem_of_nil|]|].
  rewrite first_of_type_cons. unfold has_type. simpl.
  case_bool_decide; rewrite elem_of_cons; naive_solver.
Qed.

Lemma first_of_type_app cs ds t :
  first_of_type (cs ++ ds) t =
  match first_of_type cs t with Some c => Some c | None => first_of_type ds t end.
Proof.
  induction cs as [|d cs IH]; [done|]. simpl. rewrite !first_of_type_cons.
  destruct (has_type t d); [done|]. apply IH.
Qed.

Lemma find_idx_first cs t i c :
  find_idx (has_type t) cs = Some (i, c) → first_of_type cs t = Some c ∧ c_Type c = t.
Proof.
  intros E. unfold first_of_type. rewrite E. split; [done|].
  apply find_idx_Some in E as (_ & E & _). unfold has_type in E. by case_bool_decide.
Qed.

(** Overwriting the condition found at its index changes that type only. *)
Lemma first_of_type_insert cs t i c d u :
  find_idx (has_type t) cs = Some (i, c) → c_Type d = t →
  first_of_type (<[i:=d]> cs) u = if decide (u = t) then Some d else first_of_type cs u.
Proof.
  intros E Ht. revert i E. induction cs as [|b cs IH]; intros i E; [done|]. simpl in E.
  destruct (has_type t b) eqn:B.
  - simplify_eq/=. rewrite !first_of_type_cons. unfold has_type in *.
    case_bool_decide; simplify_eq. repeat case_decide; repeat case_bool_decide; congruence.
  - destruct (find_idx _ cs) as [[j c']|] eqn:E'; simplify_eq/=.
    rewrite !first_of_type_cons, IH by done. unfold has_type in *. clear IH.
    repeat case_decide; repeat case_bool_decide; simplify_eq; done.
Qed.

Lemma types_insert cs t i c d :
  find_idx (has_type t) cs = Some (i, c) → c_Type d = t →
  c_Type <$> <[i:=d]> cs = c_Type <$> cs.
Proof.
  intros E Ht. apply find_idx_Some in E as (Hi & Hc & _).
  unfold has_type in Hc. case_bool_decide as Hc'; [|done].
  rewrite list_fmap_insert, Ht. apply list_insert_id.
  by rewrite list_lookup_fmap, Hi, <- Hc'.
Qed.

(** The transition time a condition is set with, where [old] was there. *)
Definition transition_time (now : Time) (old : option Condition) (c : Condition) : Time :=
  let stamp := if time_is_zero (c_LastTransitionTime c) then now else c_LastTransitionTime c in
  match old with
  | Some old => if bool_decide (c_Status old = c_Status c) then c_LastTransitionTime old else stamp
  | None => stamp
  end.

(** ** The third-party helpers *)

Class MetaAPI := {
  FindStatusCondition : list Condition → string → option Condition;
  SetStatusCondition : Time → list Condition → Condition → list Condition;
  RemoveStatusCondition : list Condition → string → list Condition;
  IsStatusConditionTrue : list Condition → string → bool }.

Class MetaAPILaws (API : MetaAPI) := {
  (** "finds the conditionType in conditions" *)
  meta_find cs t : FindStatusCondition cs t = first_of_type cs t;
  (** "all fields of the existing condition are updated to newCondition", or
      "newCondition is appended" *)
  meta_set_same now cs c :
    ∃ c', first_of_type (SetStatusCondition now cs c) (c_Type c) = Some c' ∧ same_content c' c;
  meta_set_other now cs c t :
    t ≠ c_Type c → first_of_type (SetStatusCondition now cs c) t = first_of_type cs t;
  meta_set_types now cs c :
    c_Type <$> SetStatusCondition now cs c =
    (if decide (c_Type c ∈ c_Type <$> cs) then c_Type <$> cs
     else (c_Type <$> cs) ++ [c_Type c]);
  (** "LastTransitionTime is set to now if the new status differs from the old
      status", unless the caller sets it *)
  meta_set_time now cs c c' :
    first_of_type (SetStatusCondition now cs c) (c_Type c) = Some c' →
    c_LastTransitionTime c' = transition_time now (first_of_type cs (c_Type c)) c;
  (** "removes the corresponding conditionType from conditions" *)
  meta_remove cs t :
    RemoveStatusCondition cs t = filter (λ c, c_Type c ≠ t) cs;
  (** "returns true when the conditionType is present and set to ConditionTrue" *)
  meta_true cs t :
    IsStatusConditionTrue cs t =
    match FindStatusCondition cs t with Some c => status_is ConditionTrue c | None => false end }.

Lemma first_of_type_remove cs t u :
  first_of_type (filter (λ c, c_Type c ≠ t) cs) u =
  if decide (u = t) then None else first_of_type cs u.
Proof.
  induction cs as [|c cs IH]; [by case_decide|]. rewrite filter_cons.
  repeat case_decide; rewrite ?first_of_type_cons, ?IH; unfold has_type;
    repeat case_bool_decide; simplify_eq; done.
Qed.

(** ** An instance over lists *)

Definition list_SetStatusCondition (now : Time) (cs : list Condition) (c : Condition) :=
  match find_idx (has_type (c_Type c)) cs with
  | None => cs ++ [if time_is_zero (c_LastTransitionTime c) then with_LastTransitionTime now c else c]
  | Some (i, old) =>
      <[i := if bool_decide (c_Status old = c_Status c)
             then with_LastTransitionTime (c_LastTransitionTime old) c
             else if time_is_zero (c_LastTransitionTime c) then with_LastTransitionTime now c else c]> cs
  end.

Definition meta_list : MetaAPI := {|
  FindStatusCondition := first_of_type;
  SetStatusCondition := list_SetStatusCondition;
  RemoveStatusCondition cs t := filter (λ c, c_Type c ≠ t) cs;
  IsStatusConditionTrue cs t :=
    match first_of_type cs t with Some c => status_is ConditionTrue c | None => false end |}.

#[export] Instance meta_list_laws : MetaAPILaws meta_list.
Proof.
  split; try done.
  - intros now cs c. change (SetStatusCondition now cs c) with (list_SetStatusCondition now cs c).
    unfold list_SetStatusCondition.
    destruct (find_idx _ cs) as [[i old]|] eqn:E.
    + erewrite first_of_type_insert; [|done|by repeat case_match].
      rewrite decide_True by done. eexists; split; [done|]. by repeat case_match.
    + assert (first_of_type cs (c_Type c) = None) as E' by (unfold first_of_type; by rewrite E).
      rewrite first_of_type_app, E', first_of_type_cons.
      unfold has_type. rewrite bool_decide_true by by case_match.
      eexists; split; [done|]. by case_match.
  - intros now cs c t Ht. change (SetStatusCondition now cs c) with (list_SetStatusCondition now cs c).
    unfold list_SetStatusCondition.
    destruct (find_idx _ cs) as [[i old]|] eqn:E.
    + erewrite first_of_type_insert; [|done|by repeat case_match]. by rewrite decide_False.
    + rewrite first_of_type_app, first_of_type_cons. unfold has_type.
      rewrite bool_decide_false by (case_match; simpl; congruence).
      by destruct (first_of_type cs t).
  - intros now cs c. change (SetStatusCondition now cs c) with (list_SetStatusCondition now cs c).
    unfold list_SetStatusCondition.
    destruct (find_idx _ cs) as [[i old]|] eqn:E.
    + erewrite types_insert; [|done|by repeat case_match]. rewrite decide_True; [done|].
      apply find_idx_first in E as [E Hty]. destruct (decide (c_Type c ∈ c_Type <$> cs)); [done|].
      by apply first_of_type_None in n; rewrite n in E.
    + rewrite decide_False; [|apply first_of_type_None; unfold first_of_type; by rewrite E].
      rewrite fmap_app. simpl. by case_match.
  - intros now cs c c'. change (SetStatusCondition now cs c) with (list_SetStatusCondition now cs c).
    unfold list_SetStatusCondition, transition_time.
    destruct (find_idx _ cs) as [[i old]|] eqn:E.
    + erewrite first_of_type_insert; [|done|by repeat case_match]. rewrite decide_True by done.
      apply find_idx_first in E as [-> _]. intros [= <-]. by repeat case_match.
    + assert (first_of_type cs (c_Type c) = None) as E' by (unfold first_of_type; by rewrite E).
      rewrite first_of_type_app, E', first_of_type_cons. unfold has_type.
      rewrite bool_decide_true by by case_match. intros [= <-]. by case_match.
Qed.
