(* ===== verification/Conditions.v ===== *)
(** pkg/conditions/conditions.go: the status conditions of the reconciled
    objects and the [Ready] summary over them.

    [GetSet] is the Go interface of that name; the API-machinery helpers come
    from [MetaAPI].  A nil slice of conditions is the empty list. *)

From S2P Require Import Prelude.
From S2P Require Import Meta.

(** ** The interface *)

Class GetSet (O : Type) := {
  GetConditions : O → list Condition;
  SetConditions : O → list Condition → O;
  GetGeneration : O → Z }.

Class GetSetLaws (O : Type) (G : GetSet O) := {
  get_set_conditions o cs : GetConditions (SetConditions o cs) = cs;
  generation_set_conditions o cs : GetGeneration (SetConditions o cs) = GetGeneration o }.

(** ** Constants *)

Definition TypeReady := "Ready".
Definition ReasonAwaitingDeletion := "AwaitingDeletion".
Definition ReasonPending := "Pending".
Definition ReasonError := "Error".
Definition ReasonFailure := "Failure".
Definition ReasonSuccess := "Success".
Definition ReasonRetrying := "Retrying".
Definition MessageNotReady := "The following conditions are not ready".

Definition LF : string := String (Ascii.ascii_of_nat 10) "".

(** ** Operations *)

Definition ReadyConditionMessage (message : string) (unreadyConditions : list string) : string :=
  match unreadyConditions with
  | [] => ""
  | _ => foldl (λ output condition, output +:+ LF +:+ "* " +:+ condition)
               (message +:+ ":") unreadyConditions
  end.

(** The map [reasonSeverity]; a reason that is not a key has no severity. *)
Definition reasonSeverity (r : string) : option Z :=
  if decide (r = ReasonAwaitingDeletion) then Some 3%Z
  else if decide (r = ReasonFailure) then Some 2%Z
  else if decide (r = ReasonRetrying) then Some 1%Z
  else if decide (r = ReasonPending) then Some 1%Z
  else None.

Definition highestSeverityReason (first second : string) : string :=
  match reasonSeverity first, reasonSeverity second with
  | None, None => ReasonPending
  | None, Some _ => second
  | Some _, None => first
  | Some firstReason, Some secondReason =>
      if (firstReason >? secondReason)%Z then first else second
  end.

Definition NewCondition (condType reason message : string) (status : ConditionStatus) : Condition :=
  mkCondition condType status 0 0 reason message.
Definition NewTrueCondition condType reason message := NewCondition condType reason message ConditionTrue.
Definition NewFalseCondition condType reason message := NewCondition condType reason message ConditionFalse.
Definition NewUnknownCondition condType reason message := NewCondition condType reason message ConditionUnknown.

(** [IsPending] *)
Definition IsPending (c : Condition) : bool :=
  bool_decide (c_Reason c = ReasonPending) && status_is ConditionUnknown c.

Section Operations.
Context {O : Type} {G : GetSet O} {API : MetaAPI}.
(** [now] is the instant [meta.SetStatusCondition] stamps a transition with. *)
Context (now : Time).

Definition EnsureConditions (obj : O) (allConditions : list string) : O :=
  SetConditions obj
    (foldl (λ conditions condition,
       match FindStatusCondition conditions condition with
       | Some _ => conditions
       | None => SetStatusCondition now conditions
           (mkCondition condition ConditionUnknown (GetGeneration obj) 0 ReasonPending "")
       end) (GetConditions obj) allConditions).

Definition add (obj : O) (cs : ConditionStatus) (ct cr cm : string) : O :=
  SetConditions obj
    (SetStatusCondition now (GetConditions obj)
       (mkCondition ct cs (GetGeneration obj) 0 cr cm)).

Definition AddTrue (obj : O) (ct : string) : O := add obj ConditionTrue ct ReasonSuccess "".
Definition AddFalse (obj : O) (ct cr cm : string) : O := add obj ConditionFalse ct cr cm.
Definition AddUnknown (obj : O) (ct cr cm : string) : O := add obj ConditionUnknown ct cr cm.

(** The variables of the loop of [SetSummary]. *)
Record Summary := mkSummary {
  hasStaleConditions : bool;
  notReadyConditions : list string;
  summaryReason : string }.

(** One iteration: the [continue]s and the accumulation. *)
Definition summary_step (excluded : gset string) (currentGen : Z) (s : Summary) (c : Condition) : Summary :=
  if bool_decide (c_Type c = TypeReady) then s
  else if bool_decide (c_Type c ∈ excluded) then s
  else if status_is ConditionTrue c then s
  else if negb (c_ObservedGeneration c =? currentGen)%Z
    then mkSummary true (notReadyConditions s) (summaryReason s)
  else mkSummary (hasStaleConditions s) (notReadyConditions s ++ [c_Type c])
         (highestSeverityReason (summaryReason s) (c_Reason c)).

(** [excluded] is the set the [ExcludeFromSummary] options build. *)
Definition SetSummary (obj : O) (excluded : gset string) : O :=
  let s := foldl (summary_step excluded (GetGeneration obj))
             (mkSummary false [] ReasonPending) (GetConditions obj) in
  if bool_decide (notReadyConditions s = []) && negb (hasStaleConditions s)
  then AddTrue obj TypeReady
  else
    let message := ReadyConditionMessage MessageNotReady (notReadyConditions s) in
    let message := if hasStaleConditions s && bool_decide (message = "")
                   then "Reconciliation is in progress" else message in
    AddFalse obj TypeReady (summaryReason s) message.

(** The range loop of [Get]. *)
Definition Get (obj : O) (conditionType : string) : option Condition :=
  snd <$> find_idx (has_type conditionType) (GetConditions obj).

Definition IsTrue (obj : O) (conditionType : string) : bool :=
  match Get obj conditionType with
  | None => false
  | Some c => status_is ConditionTrue c && (c_ObservedGeneration c =? GetGeneration obj)%Z
  end.
End Operations.

(** [ExcludeFromSummary(types...)] adds its types to the set. *)
Definition ExcludeFromSummary (conditionTypes : list string) (excluded : gset string) : gset string :=
  list_to_set conditionTypes ∪ excluded.

(** ** Facts about the operations *)

Lemma highestSeverity_known first second :
  reasonSeverity (highestSeverityReason first second) ≠ None.
Proof. unfold highestSeverityReason. repeat case_match; congruence || done. Qed.

Lemma highestSeverity_max first second f s :
  reasonSeverity first = Some f →
  reasonSeverity second = Some s →
  reasonSeverity (highestSeverityReason first second) = Some (Z.max f s).
Proof.
  intros E1 E2. unfold highestSeverityReason. rewrite E1, E2.
  destruct (f >? s)%Z eqn:C; rewrite ?E1, ?E2; f_equal; lia.
Qed.

(** The severity a reason counts with: an unknown one counts as [Pending]. *)
Definition severity (r : string) : Z := default 1%Z (reasonSeverity r).

Lemma severity_pos r : (1 <= severity r)%Z.
Proof. unfold severity, reasonSeverity. repeat case_decide; simpl; lia. Qed.

Lemma severity_highest first second :
  severity (highestSeverityReason first second) = Z.max (severity first) (severity second).
Proof.
  pose proof (severity_pos first) as P1. pose proof (severity_pos second) as P2.
  unfold highestSeverityReason, severity in *.
  destruct (reasonSeverity first) as [f|] eqn:E1, (reasonSeverity second) as [s|] eqn:E2; simpl in *.
  - destruct (f >? s)%Z eqn:C; rewrite ?E1, ?E2; simpl; lia.
  - rewrite E1. simpl. lia.
  - rewrite E2. simpl. lia.
  - done.
Qed.

Section Facts.
Context {O : Type} {G : GetSet O} {GL : GetSetLaws O G} {API : MetaAPI} {AL : MetaAPILaws API}.
Context (now : Time).

Lemma Get_first obj t : Get obj t = first_of_type (GetConditions obj) t.
Proof. done. Qed.

(** [add] writes its condition and leaves the other types alone. *)
Lemma Get_add obj cs ct cr cm t :
  ∃ c, Get (add now obj cs ct cr cm) t = (if decide (t = ct) then Some c else Get obj t) ∧
    same_content c (mkCondition ct cs (GetGeneration obj) 0 cr cm).
Proof.
  unfold add. rewrite !Get_first, get_set_conditions.
  destruct (meta_set_same now (GetConditions obj) (mkCondition ct cs (GetGeneration obj) 0 cr cm))
    as (c & Hc & Hsame).
  exists c. split; [|done]. case_decide as D; [by subst|].
  by rewrite meta_set_other.
Qed.

(** The condition [add] leaves, with its transition time. *)
Lemma add_get obj cs ct cr cm :
  ∃ c, Get (add now obj cs ct cr cm) ct = Some c ∧ c_Reason c = cr ∧ c_Status c = cs ∧
    c_LastTransitionTime c =
      match Get obj ct with
      | Some old => if bool_decide (c_Status old = cs) then c_LastTransitionTime old else now
      | None => now
      end.
Proof.
  destruct (Get_add obj cs ct cr cm ct) as (c & Hc & _ & Hs & Hr & _). rewrite decide_True in Hc by done.
  exists c. split_and!; [done..|]. rewrite Get_first in *. unfold add in Hc. rewrite get_set_conditions in Hc.
  exact (meta_set_time now _ (mkCondition ct cs (GetGeneration obj) 0 cr cm) c Hc).
Qed.

Lemma AddFalse_get obj ct cr cm :
  ∃ c, Get (AddFalse now obj ct cr cm) ct = Some c ∧ c_Reason c = cr ∧ c_Status c = ConditionFalse ∧
    c_LastTransitionTime c =
      match Get obj ct with
      | Some old => if bool_decide (c_Status old = ConditionFalse) then c_LastTransitionTime old else now
      | None => now
      end.
Proof. apply add_get. Qed.
Lemma AddTrue_get obj ct :
  ∃ c, Get (AddTrue now obj ct) ct = Some c ∧ c_Reason c = ReasonSuccess ∧ c_Status c = ConditionTrue ∧
    c_LastTransitionTime c =
      match Get obj ct with
      | Some old => if bool_decide (c_Status old = ConditionTrue) then c_LastTransitionTime old else now
      | None => now
      end.
Proof. apply add_get. Qed.

Lemma generation_add obj cs ct cr cm : GetGeneration (add now obj cs ct cr cm) = GetGeneration obj.
Proof. apply generation_set_conditions. Qed.

(** The conditions [SetSummary] looks at and finds wanting. *)
Definition unready (excluded : gset string) (c : Condition) : Prop :=
  c_Type c ≠ TypeReady ∧ (c_Type c ∉ excluded) ∧ c_Status c ≠ ConditionTrue.
#[export] Instance unready_dec excluded c : Decision (unready excluded c).
Proof. apply _. Defined.
Definition fresh (gen : Z) (c : Condition) : Prop := c_ObservedGeneration c = gen.
#[export] Instance fresh_dec gen c : Decision (fresh gen c).
Proof. unfold fresh. apply _. Defined.

(** The loop, in closed form. *)
Lemma summary_fold excluded gen cs s :
  let bad := filter (unready excluded) cs in
  let r := foldl (summary_step excluded gen) s cs in
  hasStaleConditions r = (hasStaleConditions s || existsb (λ c, negb (bool_decide (fresh gen c))) bad) ∧
  notReadyConditions r = notReadyConditions s ++ (c_Type <$> filter (fresh gen) bad) ∧
  summaryReason r = foldl (λ a c, highestSeverityReason a (c_Reason c)) (summaryReason s) (filter (fresh gen) bad).
Proof.
  revert s. induction cs as [|c cs IH]; intros s; simpl.
  { rewrite orb_false_r, app_nil_r. done. }
  destruct (IH (summary_step excluded gen s c)) as (-> & -> & ->).
  rewrite filter_cons. unfold summary_step, unready, status_is, fresh in *.
  repeat case_bool_decide; repeat case_decide; try tauto; simpl;
    try (destruct (Z.eqb_spec (c_ObservedGeneration c) gen));
    rewrite ?filter_cons; repeat case_decide; repeat case_bool_decide; simplify_eq/=;
    rewrite ?orb_true_r, <- ?app_assoc; done.
Qed.

Lemma severity_fold r cs :
  severity (foldl (λ a c, highestSeverityReason a (c_Reason c)) r cs) =
  foldr (λ c m, Z.max (severity (c_Reason c)) m) (severity r) cs.
Proof.
  revert r. induction cs as [|c cs IH]; intros r; simpl; [done|].
  rewrite IH, severity_highest. clear IH.
  induction cs as [|d cs IH]; simpl; lia.
Qed.
End Facts.

(** An object that is nothing but its generation and conditions. *)
#[export] Instance plain_GetSet : GetSet (Z * list Condition) :=
  {| GetConditions o := o.2; SetConditions o cs := (o.1, cs); GetGeneration o := o.1 |}.
#[export] Instance plain_GetSet_laws : GetSetLaws (Z * list Condition) plain_GetSet.
Proof. split; done. Qed.

Section Properties.
Context {O : Type} {G : GetSet O} {GL : GetSetLaws O G} {API : MetaAPI} {AL : MetaAPILaws API}.
Context (now : Time).

Lemma ReadyConditionMessage_empty m l : ReadyConditionMessage m l = "" ↔ l = [].
Proof.
  split; [|by intros ->]. destruct l as [|x l]; [done|]. unfold ReadyConditionMessage.
  assert (∀ (l : list string) s, s ≠ "" → foldl (λ output condition, output +:+ LF +:+ "* " +:+ condition) s l ≠ "") as Hf.
  { clear. intros l. induction l as [|x l IH]; intros s Hs; simpl; [done|].
    apply IH. by destruct s. }
  intros E. exfalso. eapply Hf; [|exact E]. by destruct m.
Qed.

Lemma ReadyConditionMessage_empty_bool m l :
  bool_decide (ReadyConditionMessage m l = "") = bool_decide (l = []).
Proof. apply bool_decide_ext, ReadyConditionMessage_empty. Qed.

(** An unready condition is listed or makes the summary stale. *)
Lemma listed_or_stale gen bad :
  bool_decide (c_Type <$> filter (fresh gen) bad = []) &&
    negb (existsb (λ c, negb (bool_decide (fresh gen c))) bad) = bool_decide (bad = []).
Proof.
  destruct bad as [|c bad]; [done|]. rewrite (bool_decide_false (c :: bad = [])) by done.
  rewrite filter_cons. simpl. case_decide as F.
  - by rewrite bool_decide_false.
  - by rewrite (bool_decide_false (fresh gen c)), orb_true_l, andb_false_r.
Qed.

(** What [SetSummary] writes, in terms of the fresh unready conditions. *)
Lemma SetSummary_writes obj excluded :
  let bad := filter (unready excluded) (GetConditions obj) in
  let listed := filter (fresh (GetGeneration obj)) bad in
  SetSummary now obj excluded =
  if bool_decide (bad = []) then AddTrue now obj TypeReady
  else AddFalse now obj TypeReady
         (foldl (λ a c, highestSeverityReason a (c_Reason c)) ReasonPending listed)
         (if bool_decide (listed = []) then "Reconciliation is in progress"
          else ReadyConditionMessage MessageNotReady (c_Type <$> listed)).
Proof.
  intros bad listed. unfold SetSummary.
  destruct (summary_fold excluded (GetGeneration obj) (GetConditions obj) (mkSummary false [] ReasonPending))
    as (-> & -> & ->). cbn [hasStaleConditions notReadyConditions summaryReason].
  rewrite app_nil_l, orb_false_l, ReadyConditionMessage_empty_bool. fold bad. fold listed.
  pose proof (listed_or_stale (GetGeneration obj) bad) as Hls. fold listed in Hls.
  rewrite Hls. destruct (bool_decide (bad = [])) eqn:B; [done|]. f_equal.
  assert (bool_decide (c_Type <$> listed = []) = bool_decide (listed = [])) as Hb
    by (apply bool_decide_ext; by destruct listed). rewrite Hb in *.
  destruct (bool_decide (listed = [])); [|by rewrite andb_false_r].
  rewrite andb_true_l, negb_false_iff in Hls. by rewrite Hls.
Qed.

Lemma IsTrue_add obj cs ct cr cm :
  IsTrue (add now obj cs ct cr cm) ct = bool_decide (cs = ConditionTrue).
Proof.
  unfold IsTrue. destruct (Get_add now obj cs ct cr cm ct) as (c & -> & Hc).
  rewrite decide_True by done. destruct Hc as (_ & Hs & _ & _ & Hg).
  unfold status_is. rewrite Hs, Hg, generation_add. simpl. by rewrite Z.eqb_refl, andb_true_r.
Qed.

(** The [Ready] summary is True exactly when every condition other than
    [Ready] itself and the excluded ones is True. *)
Theorem SetSummary_ready_iff obj excluded :
  IsTrue (SetSummary now obj excluded) TypeReady = true ↔
  ∀ c, c ∈ GetConditions obj → c_Type c ≠ TypeReady → c_Type c ∉ excluded → c_Status c = ConditionTrue.
Proof.
  rewrite SetSummary_writes. unfold AddTrue, AddFalse. case_bool_decide as B.
  - rewrite IsTrue_add. split; [|done]. intros _ c Hc H1 H2.
    destruct (decide (c_Status c = ConditionTrue)); [done|]. exfalso.
    assert (c ∈ filter (unready excluded) (GetConditions obj)) as Hin
      by (by apply list_elem_of_filter). rewrite B in Hin. by apply elem_of_nil in Hin.
  - rewrite IsTrue_add. split; [done|]. intros Hall. destruct B.
    destruct (filter _ _) as [|c l] eqn:E; [done|].
    assert (c ∈ filter (unready excluded) (GetConditions obj)) as [(? & ? & Hn) Hc]%list_elem_of_filter
      by (rewrite E; left). destruct Hn. by apply Hall.
Qed.

(** The reason of a [Ready] that is not True carries the highest severity
    among [Pending] and the listed conditions. *)
Lemma SetSummary_not_ready obj excluded :
  filter (unready excluded) (GetConditions obj) ≠ [] →
  ∃ c, Get (SetSummary now obj excluded) TypeReady = Some c ∧ c_Status c = ConditionFalse ∧
    c_ObservedGeneration c = GetGeneration obj ∧
    reasonSeverity (c_Reason c) =
      Some (foldr (λ c m, Z.max (severity (c_Reason c)) m) 1%Z
         (filter (fresh (GetGeneration obj)) (filter (unready excluded) (GetConditions obj)))).
Proof.
  intros Hne. rewrite SetSummary_writes, bool_decide_false by done. unfold AddFalse.
  edestruct (Get_add now obj) as (c & -> & Hc). rewrite decide_True by done.
  exists c. destruct Hc as (_ & Hs & Hr & _ & Hg). rewrite Hs, Hr, Hg. repeat split; try done. simpl.
  rewrite <- (severity_fold ReasonPending).
  set (l := filter _ _). clearbody l. unfold severity.
  assert (∀ r, reasonSeverity r ≠ None →
    reasonSeverity (foldl (λ a c, highestSeverityReason a (c_Reason c)) r l) ≠ None) as Hk.
  { induction l as [|d l IH]; intros r Hn; simpl; [done|]. apply IH, highestSeverity_known. }
  specialize (Hk ReasonPending ltac:(done)). by destruct (reasonSeverity (foldl _ _ _)).
Qed.

Lemma foldr_max_ge (cs : list Condition) m :
  (m <= 3)%Z →
  foldr (λ c m, Z.max (severity (c_Reason c)) m) 1%Z cs = 3%Z ↔
  ∃ c, c ∈ cs ∧ c_Reason c = ReasonAwaitingDeletion.
Proof.
  intros _. assert (∀ r, (severity r <= 3)%Z) as Hle
    by (intros r; unfold severity, reasonSeverity; repeat case_decide; simpl; lia).
  assert (∀ r, severity r = 3%Z ↔ r = ReasonAwaitingDeletion) as Heq
    by (intros r; unfold severity, reasonSeverity; repeat case_decide; simpl; split; congruence || lia).
  induction cs as [|c cs IH]; simpl.
  - split; [lia|]. by intros (? & ?%elem_of_nil & ?).
  - specialize (Hle (c_Reason c)). specialize (Heq (c_Reason c)). rewrite Z.max_comm.
    assert (foldr (λ c m, Z.max (severity (c_Reason c)) m) 1%Z cs <= 3)%Z.
    { clear -cs. induction cs; simpl; [lia|].
      unfold severity, reasonSeverity in *; repeat case_decide; simpl; lia. }
    split.
    + intros E. destruct (decide (severity (c_Reason c) = 3%Z)) as [E3|E3].
      * exists c. split; [left|by apply Heq].
      * destruct IH as [IH _]. destruct IH as (d & ? & ?); [lia|]. exists d. split; [by right|done].
    + intros (d & [->|Hd]%elem_of_cons & Hr).
      * apply Heq in Hr. lia.
      * destruct IH as [_ IH]. rewrite IH by eauto. lia.
Qed.

(** Deletion dominates the summary: [Ready] reports [AwaitingDeletion] iff
    some condition that is up to date, neither [Ready] nor excluded and not
    True, reports it; and the other types are untouched by the summary. *)
Theorem SetSummary_awaiting_deletion_iff obj excluded :
  ((∃ c, Get (SetSummary now obj excluded) TypeReady = Some c ∧ c_Status c = ConditionFalse ∧
     c_Reason c = ReasonAwaitingDeletion) ↔
   (∃ c, c ∈ GetConditions obj ∧ unready excluded c ∧ fresh (GetGeneration obj) c ∧
     c_Reason c = ReasonAwaitingDeletion)) ∧
  (∀ t, t ≠ TypeReady → Get (SetSummary now obj excluded) t = Get obj t).
Proof.
  split.
  - destruct (decide (filter (unready excluded) (GetConditions obj) = [])) as [E|E].
    + rewrite SetSummary_writes, bool_decide_true by done. unfold AddTrue.
      edestruct (Get_add now obj) as (c & -> & Hc). rewrite decide_True by done. split.
      * intros (c' & ? & Hs & _). simplify_eq. destruct Hc as (_ & Hs' & _). by rewrite Hs' in Hs.
      * intros (d & Hd & Hu & _). exfalso.
        assert (d ∈ filter (unready excluded) (GetConditions obj)) as Hin by by apply list_elem_of_filter.
        rewrite E in Hin. by apply elem_of_nil in Hin.
    + destruct (SetSummary_not_ready obj excluded E) as (c & Hc & Hs & _ & Hr).
      pose proof (foldr_max_ge (filter (fresh (GetGeneration obj)) (filter (unready excluded) (GetConditions obj))) 1 ltac:(lia)) as Hm.
      split.
      * intros (c' & ? & _ & Hr'). simplify_eq. rewrite Hr' in Hr. injection Hr as Hr.
        destruct Hm as [Hm _]. destruct Hm as (d & Hd & ?); [done|].
        apply list_elem_of_filter in Hd as [? [? ?]%list_elem_of_filter]. eauto.
      * intros (d & Hd & Hu & Hf & Hr'). exists c. repeat split; [done..|].
        destruct Hm as [_ Hm]. rewrite Hm in Hr.
        -- unfold reasonSeverity in Hr. repeat case_decide; simplify_eq; done.
        -- exists d. split; [|done]. apply list_elem_of_filter. split; [done|]. by apply list_elem_of_filter.
  - intros t Ht. rewrite SetSummary_writes. case_bool_decide; unfold AddTrue, AddFalse;
      edestruct (Get_add now obj) as (c & -> & _); by rewrite decide_False.
Qed.
End Properties.

Definition summary_example : Z * list Condition :=
  (2%Z, [mkCondition "A" ConditionFalse 2 5 ReasonFailure ""; mkCondition "B" ConditionUnknown 2 5 ReasonAwaitingDeletion "";
         mkCondition "C" ConditionFalse 1 5 ReasonFailure ""; mkCondition "D" ConditionTrue 2 5 ReasonSuccess ""]).

Lemma SetSummary_ready_iff_witness :
  let API := meta_list in
  IsTrue (SetSummary 9 (2%Z, [mkCondition "D" ConditionTrue 1 5 ReasonSuccess ""]) ∅) TypeReady = true ∧
  IsTrue (SetSummary 9 summary_example ∅) TypeReady ≠ true.
Proof.
  intros API. split.
  - apply (@SetSummary_ready_iff _ _ plain_GetSet_laws meta_list meta_list_laws 9%Z).
    intros c [->|Hc]%elem_of_cons; [done|by apply elem_of_nil in Hc].
  - intros E. apply (@SetSummary_ready_iff _ _ plain_GetSet_laws meta_list meta_list_laws 9%Z) with
      (c := mkCondition "A" ConditionFalse 2 5 ReasonFailure "") in E; [done|left|done|set_solver].
Defined.

Lemma SetSummary_awaiting_deletion_iff_witness :
  let API := meta_list in
  ∃ c, Get (SetSummary 9 summary_example ∅) TypeReady = Some c ∧ c_Status c = ConditionFalse ∧
    c_Reason c = ReasonAwaitingDeletion.
Proof.
  intros API.
  apply (@SetSummary_awaiting_deletion_iff _ _ plain_GetSet_laws meta_list meta_list_laws 9%Z).
  exists (mkCondition "B" ConditionUnknown 2 5 ReasonAwaitingDeletion "").
  repeat split; [right; left|done|set_solver|done].
Defined.
