(* ===== verification/DPUTypes.v ===== *)
(** The DPU API (api/provisioning/v1alpha1) as the provisioning controllers use
    it: phases, node effects, spec and status of a DPU and of the objects its
    state machine reads.  A string type with a closed set of constants is an
    inductive type with a constructor for any other value; a nil map or slice and
    an empty one are the same value. *)

From S2P Require Import Prelude.
From S2P Require Import Meta.
From S2P Require Import Conditions.

(** ** Enumerations *)

(** DPUPhase; [DPUPhaseUnset] is the empty string. *)
Inductive DPUPhase :=
| DPUPhaseUnset
| DPUInitializing | DPUNodeEffect | DPUPending | DPUPrepareBFB | DPUUpdateFirmware
| DPUConfigPhase | DPUConfigFWParameters | DPUInitializeInterface | DPUOSInstalling
| DPUClusterConfig | DPUHostNetworkConfiguration | DPUServiceReadiness
| DPUNodeEffectRemoval | DPUReady | DPUError | DPUDeleting | DPURebooting
| DPUPerformArmForceRestart
| DPUPhaseOther (s : string).

#[export] Instance DPUPhase_eq_dec : EqDecision DPUPhase.
Proof. solve_decision. Defined.

Definition phase_string (p : DPUPhase) : string :=
  match p with
  | DPUPhaseUnset => ""
  | DPUInitializing => "Initializing"
  | DPUNodeEffect => "Node Effect"
  | DPUPending => "Pending"
  | DPUPrepareBFB => "Prepare BFB"
  | DPUUpdateFirmware => "Update Firmware"
  | DPUConfigPhase => "DPU Config"
  | DPUConfigFWParameters => "Config FW Parameters"
  | DPUInitializeInterface => "Initialize Interface"
  | DPUOSInstalling => "OS Installing"
  | DPUClusterConfig => "DPU Cluster Config"
  | DPUHostNetworkConfiguration => "Host Network Configuration"
  | DPUServiceReadiness => "Service Readiness"
  | DPUNodeEffectRemoval => "Node Effect Removal"
  | DPUReady => "Ready"
  | DPUError => "Error"
  | DPUDeleting => "Deleting"
  | DPURebooting => "Rebooting"
  | DPUPerformArmForceRestart => "Perform ARM Force Restart"
  | DPUPhaseOther s => s
  end.

(** RebootMethodType *)
Inductive RebootMethodType :=
| RebootMethodUnknown | RebootMethodNoAction | RebootMethodPowerCycle | RebootMethodSystemReboot
| RebootMethodSystemLevelReset | RebootMethodFirmwareReset | RebootMethodDPUWarmReboot
| RebootMethodOther (s : string).

#[export] Instance RebootMethodType_eq_dec : EqDecision RebootMethodType.
Proof. solve_decision. Defined.

Definition reboot_method_string (m : RebootMethodType) : string :=
  match m with
  | RebootMethodUnknown => "Unknown"
  | RebootMethodNoAction => "NoAction"
  | RebootMethodPowerCycle => "PowerCycle"
  | RebootMethodSystemReboot => "SystemReboot"
  | RebootMethodSystemLevelReset => "SystemLevelReset"
  | RebootMethodFirmwareReset => "FirmwareReset"
  | RebootMethodDPUWarmReboot => "DPUWarmReboot"
  | RebootMethodOther s => s
  end.

(** RebootStatusPhase *)
Inductive RebootStatusPhase :=
| RebootStatusWaitForShutdown | RebootStatusPending | RebootStatusSucceeded | RebootStatusFailed
| RebootStatusUnknown.

#[export] Instance RebootStatusPhase_eq_dec : EqDecision RebootStatusPhase.
Proof. solve_decision. Defined.

Definition reboot_status_phase_string (p : RebootStatusPhase) : string :=
  match p with
  | RebootStatusWaitForShutdown => "WaitForShutdown"
  | RebootStatusPending => "Pending"
  | RebootStatusSucceeded => "Succeeded"
  | RebootStatusFailed => "Failed"
  | RebootStatusUnknown => "Unknown"
  end.

(** DPUConditionType: the types the modelled handlers use. *)
Definition DPUCondInitialized := "Initialized".
Definition DPUCondPending := "Pending".
Definition DPUCondBFBReady := "BFBReady".
Definition DPUCondBlueFieldSoftwareReady := "BlueFieldSoftwareReady".
Definition DPUCondDPUFlavorExists := "DPUFlavorExists".
Definition DPUCondDPUFlavorRendered := "DPUFlavorRendered".
Definition DPUCondNodeEffectReady := "NodeEffectReady".
Definition DPUCondBFBPrepared := "BFBPrepared".
Definition DPUCondInterfaceInitialized := "InterfaceInitialized".
Definition DPUCondFWConfigured := "FWConfigured".
Definition DPUCondFwBundleVerified := "FwBundleVerified".
Definition DPUCondOSInstalled := "OSInstalled".
Definition DPUCondRebooted := "Rebooted".
Definition DPUCondHostNetworkReady := "HostNetworkReady".
Definition DPUCondDPUClusterReady := "DPUClusterReady".
Definition DPUCondDPUConfig := "DPUConfig".
Definition DPUCondServiceReadiness := "ServiceReadiness".
Definition DPUCondNodeEffectRemoved := "NodeEffectRemoved".
Definition DPUCondDeleting := "Deleting".
Definition DPUCondReady := "Ready".
Definition DPUCondError := "Error".
Definition DPUCondReconfiguring := "DPUReconfiguring".

Definition InstallViaGNOI := "gNOI".
Definition InstallViaHostAgent := "hostAgent".
Definition InstallViaRedFish := "redfish".
Definition InstallViaMock := "mock".
Definition DPUTypeBlueField2 := "BlueField2".
Definition DPUTypeBlueField3 := "BlueField3".
Definition DPUTypeBlueField4 := "BlueField4".
Definition NicMode := "nic".
Definition DeploymentModeZeroTrust := "zero-trust".
Definition IdentityModeSpiffe := "spiffe".
Definition IdentityModeBootstrapToken := "bootstrap-token".
Definition DPUFinalizer := "provisioning.dpu.nvidia.com/dpu-protection".

Definition DPUProvisioningPrefix := "provisioning.dpu.nvidia.com/".
Definition DPUFlavorTemplateNameLabel := DPUProvisioningPrefix +:+ "dpuflavortemplate-name".
Definition RenderFailedReasonAnnotation := DPUProvisioningPrefix +:+ "render-failed-reason".
Definition RenderFailedMessageAnnotation := DPUProvisioningPrefix +:+ "render-failed-message".
Definition RenderFailedOnCreate := "RenderFailedOnCreate".
Definition RenderFailedOnUpdate := "RenderFailedOnUpdate".
Definition DPUFlavorTemplateHashLabel := DPUProvisioningPrefix +:+ "dpuflavortemplate-hash".
Definition DPUDeviceValuesHashLabel := DPUProvisioningPrefix +:+ "dpudevice-values-hash".
Definition GeneratedByLabel := DPUProvisioningPrefix +:+ "generated-by".
Definition GeneratedByDPUFlavorTemplate := "dpuflavortemplate".
Definition SkipDpuProvisioningLabel := DPUProvisioningPrefix +:+ "skip-dpu-provisioning".
Definition DPUDeviceHostlessLabel := DPUProvisioningPrefix +:+ "hostless".
Definition DPUDeviceLabelSkipHWProvisioning := DPUProvisioningPrefix +:+ "skip-hw-provisioning".
Definition ReasonDPFOperatorUpgradeInProgress := "DPFOperatorUpgradeInProgress".
Definition ReasonDPUClockUnsynchronized := "DPUClockUnsynchronized".
Definition DPUNodeConditionBridgeConfigured := "OOBBridgeConfigured".
Definition ConditionNodeEffectApplied := "NodeEffectApplied".
Definition AgentCondRebootMethodDiscovery := "RebootMethodDiscovery".
Definition DPUAgentConditionNVConfigApplied := "NVConfigApplied".
Definition BFBReady := "Ready".
Definition BlueFieldSoftwareReady := "Ready".

Definition DPFVersionLabelKey := "operator.dpu.nvidia.com/dpf-version".

(** ** Names *)

Definition MaxNameLength : Z := 253.

(** [s[:n]], which panics when [n] is out of range. *)
Definition slice_to (s : string) (n : Z) : Res string :=
  if (0 <=? n)%Z && (n <=? Z.of_nat (String.length s))%Z then Ok (String.substring 0 (Z.to_nat n) s)
  else Err (mkGoError KPanic "slice bounds out of range").

Definition GenerateDPUName (dpuNodeName dpuDeviceName : string) : Res string :=
  let maxPrefix := (MaxNameLength - (Z.of_nat (String.length dpuDeviceName) + 1))%Z in
  if (Z.of_nat (String.length dpuNodeName) >? maxPrefix)%Z then
    match slice_to dpuNodeName maxPrefix with
    | Ok dpuNodeName => Ok (dpuNodeName +:+ "-" +:+ dpuDeviceName)
    | Err e => Err e
    end
  else Ok (dpuNodeName +:+ "-" +:+ dpuDeviceName).

(** ** Node effects *)

(** corev1.Taint *)
Record Taint := mkTaint { tt_Key : string; tt_Value : string; tt_Effect : string; tt_TimeAdded : option Time }.

#[export] Instance Taint_eq_dec : EqDecision Taint.
Proof. solve_decision. Defined.

Definition NodeEffectDrain := "Drain".
Definition NodeEffectCustomAction := "CustomAction".
Definition NodeEffectHold := "Hold".
Definition NodeEffectTaint := "Taint".
Definition NodeEffectCustomLabel := "CustomLabel".
Definition NodeEffectNoEffect := "NoEffect".
Definition NodeEffectUnknown := "Unknown".

(** Action: the mutually exclusive effects. *)
Record Action := mkAction {
  ac_Taint : option Taint;
  ac_NoEffect : option bool;
  ac_CustomLabel : gmap string string;
  ac_Drain : option bool;
  ac_CustomAction : option string;
  ac_Hold : option bool;
  ac_Force : option bool }.

#[export] Instance Action_eq_dec : EqDecision Action.
Proof. solve_decision. Defined.

(** UpgradePolicy *)
Record UpgradePolicy := mkUpgradePolicy {
  up_ApplyOnLabelChange : option bool;
  up_NodeMaintenanceAdditionalRequestors : list string }.

Record NodeEffect := mkNodeEffect { ne_Action : Action; ne_UpgradePolicy : UpgradePolicy }.

Definition IsHold (n : NodeEffect) : bool := is_true_ptr (ac_Hold (ne_Action n)).
Definition IsCustomAction (n : NodeEffect) : bool :=
  match ac_CustomAction (ne_Action n) with None => false | Some s => bool_decide (s ≠ "") end.
Definition IsCustomLabel (n : NodeEffect) : bool := bool_decide (ac_CustomLabel (ne_Action n) ≠ ∅).
Definition IsTaint (n : NodeEffect) : bool := bool_decide (is_Some (ac_Taint (ne_Action n))).
Definition IsDrain (n : NodeEffect) : bool := is_true_ptr (ac_Drain (ne_Action n)).
Definition IsNoEffect (n : NodeEffect) : bool := is_true_ptr (ac_NoEffect (ne_Action n)).

(** [NodeEffect.String] *)
Definition NodeEffect_String (n : NodeEffect) : string :=
  if IsTaint n then NodeEffectTaint else if IsNoEffect n then NodeEffectNoEffect
  else if IsCustomLabel n then NodeEffectCustomLabel else if IsDrain n then NodeEffectDrain
  else if IsCustomAction n then NodeEffectCustomAction else if IsHold n then NodeEffectHold
  else NodeEffectUnknown.

(** ** Spec *)

(** K8sCluster with the inlined ClusterSpec; a label selector is kept abstract,
    as its JSON text. *)
Record K8sCluster := mkK8sCluster {
  kc_Name : string;
  kc_Namespace : string;
  kc_NodeLabels : gmap string string;
  kc_NodeAnnotations : gmap string string;
  kc_Selector : option string }.

Record DPUSpec := mkDPUSpec {
  sp_DPUNodeName : string;
  sp_DPUDeviceName : string;
  sp_BFB : option string;
  sp_BlueFieldSoftware : option string;
  sp_PCIAddress : option string;
  sp_NodeEffect : NodeEffect;
  sp_Cluster : K8sCluster;
  sp_DPUFlavor : string;
  sp_SecureBoot : option bool }.

Definition with_Cluster (c : K8sCluster) (s : DPUSpec) : DPUSpec :=
  mkDPUSpec (sp_DPUNodeName s) (sp_DPUDeviceName s) (sp_BFB s) (sp_BlueFieldSoftware s)
    (sp_PCIAddress s) (sp_NodeEffect s) c (sp_DPUFlavor s) (sp_SecureBoot s).
Definition with_PCIAddress (p : option string) (s : DPUSpec) : DPUSpec :=
  mkDPUSpec (sp_DPUNodeName s) (sp_DPUDeviceName s) (sp_BFB s) (sp_BlueFieldSoftware s)
    p (sp_NodeEffect s) (sp_Cluster s) (sp_DPUFlavor s) (sp_SecureBoot s).
Definition with_NodeEffect (n : NodeEffect) (s : DPUSpec) : DPUSpec :=
  mkDPUSpec (sp_DPUNodeName s) (sp_DPUDeviceName s) (sp_BFB s) (sp_BlueFieldSoftware s)
    (sp_PCIAddress s) n (sp_Cluster s) (sp_DPUFlavor s) (sp_SecureBoot s).

(** ** Status *)

Record DPUOutdated := mkDPUOutdated { od_TimeStamp : Time; od_Reason : string; od_Message : string }.

#[export] Instance DPUOutdated_eq_dec : EqDecision DPUOutdated.
Proof. solve_decision. Defined.

(** DPUReconfigStatus; rounds are int32. *)
Record DPUReconfigStatus := mkDPUReconfig {
  rc_InProgress : option bool;
  rc_Round : Z;
  rc_CompletedRound : Z }.

#[export] Instance DPUReconfigStatus_eq_dec : EqDecision DPUReconfigStatus.
Proof. solve_decision. Defined.

(** AgentPreInstallStatus *)
Record AgentPreInstallStatus := mkPreInstall {
  pi_AgentReported : option Time;
  pi_Conditions : list Condition }.

#[export] Instance AgentPreInstallStatus_eq_dec : EqDecision AgentPreInstallStatus.
Proof. solve_decision. Defined.

(** EWNICRuntimeConfigStatus; a failed device is its PCI address and reason. *)
Record EWNICRuntimeConfigStatus := mkEWNIC {
  ew_DiscoveredDevices : option Z;
  ew_ConfiguredDevices : option Z;
  ew_FailedDevices : list (option string * option string) }.

#[export] Instance EWNICRuntimeConfigStatus_eq_dec : EqDecision EWNICRuntimeConfigStatus.
Proof. solve_decision. Defined.

(** HostOSInitStatus: which of the two outcomes is recorded. *)
Record HostOSInitStatus := mkHostOSInit { ho_Skipped : option unit; ho_Succeeded : option unit }.

#[export] Instance HostOSInitStatus_eq_dec : EqDecision HostOSInitStatus.
Proof. solve_decision. Defined.

Record AgentStatus := mkAgentStatus {
  ag_LastStartupTime : option Time;
  ag_RebootMethod : option RebootMethodType;
  ag_Version : string;
  ag_PreInstall : option AgentPreInstallStatus;
  ag_Clock : option (Time * Time);
  ag_Conditions : list Condition;
  ag_HostOSInit : option HostOSInitStatus;
  ag_EWNICRuntimeConfig : option EWNICRuntimeConfigStatus }.

#[export] Instance AgentStatus_eq_dec : EqDecision AgentStatus.
Proof. solve_decision. Defined.

Record RebootStatus := mkRebootStatus {
  rs_Phase : RebootStatusPhase;
  rs_Method : option RebootMethodType;
  rs_Reason : string;
  rs_Message : string;
  rs_LastTransitionTime : option Time }.

#[export] Instance RebootStatus_eq_dec : EqDecision RebootStatus.
Proof. solve_decision. Defined.

(** DPUStatus; the fields no modelled function reads or writes are left out. *)
Record DPUStatus := mkDPUStatus {
  st_Phase : DPUPhase;
  st_PreviousPhase : DPUPhase;
  st_Outdated : option DPUOutdated;
  st_Conditions : list Condition;
  st_OperationalConditions : list Condition;
  st_BFBFile : string;
  st_BFCFGFile : string;
  st_DPFVersion : option string;
  st_RequiredReset : option bool;
  st_Addresses : list (string * string);
  st_DPUInstallInterface : option string;
  st_PostProvisioningNodeEffect : option bool;
  st_PostProvisioningDPUConfig : option bool;
  st_DPUReconfig : option DPUReconfigStatus;
  st_ObservedGeneration : Z;
  st_DPUType : string;
  st_AgentLastStartupTime : option Time;
  st_AgentStatus : option AgentStatus;
  st_RebootStatus : option RebootStatus;
  st_DPUMode : string;
  st_DeploymentMode : string;
  st_Hostless : bool;
  st_SecureBoot : option string;
  st_IdentityMode : option string }.

#[export] Instance DPUStatus_eq_dec : EqDecision DPUStatus.
Proof. solve_decision. Defined.

Definition with_Phase (v : DPUPhase) (s : DPUStatus) : DPUStatus :=
  mkDPUStatus
    v (st_PreviousPhase s) (st_Outdated s) (st_Conditions s) (st_OperationalConditions s)
    (st_BFBFile s) (st_BFCFGFile s) (st_DPFVersion s) (st_RequiredReset s) (st_Addresses s)
    (st_DPUInstallInterface s) (st_PostProvisioningNodeEffect s)
    (st_PostProvisioningDPUConfig s) (st_DPUReconfig s) (st_ObservedGeneration s)
    (st_DPUType s) (st_AgentLastStartupTime s) (st_AgentStatus s) (st_RebootStatus s)
    (st_DPUMode s) (st_DeploymentMode s) (st_Hostless s) (st_SecureBoot s) (st_IdentityMode
    s).
Definition with_PreviousPhase (v : DPUPhase) (s : DPUStatus) : DPUStatus :=
  mkDPUStatus
    (st_Phase s) v (st_Outdated s) (st_Conditions s) (st_OperationalConditions s)
    (st_BFBFile s) (st_BFCFGFile s) (st_DPFVersion s) (st_RequiredReset s) (st_Addresses s)
    (st_DPUInstallInterface s) (st_PostProvisioningNodeEffect s)
    (st_PostProvisioningDPUConfig s) (st_DPUReconfig s) (st_ObservedGeneration s)
    (st_DPUType s) (st_AgentLastStartupTime s) (st_AgentStatus s) (st_RebootStatus s)
    (st_DPUMode s) (st_DeploymentMode s) (st_Hostless s) (st_SecureBoot s) (st_IdentityMode
    s).
Definition with_Outdated (v : option DPUOutdated) (s : DPUStatus) : DPUStatus :=
  mkDPUStatus
    (st_Phase s) (st_PreviousPhase s) v (st_Conditions s) (st_OperationalConditions s)
    (st_BFBFile s) (st_BFCFGFile s) (st_DPFVersion s) (st_RequiredReset s) (st_Addresses s)
    (st_DPUInstallInterface s) (st_PostProvisioningNodeEffect s)
    (st_PostProvisioningDPUConfig s) (st_DPUReconfig s) (st_ObservedGeneration s)
    (st_DPUType s) (st_AgentLastStartupTime s) (st_AgentStatus s) (st_RebootStatus s)
    (st_DPUMode s) (st_DeploymentMode s) (st_Hostless s) (st_SecureBoot s) (st_IdentityMode
    s).
Definition with_Conditions (v : list Condition) (s : DPUStatus) : DPUStatus :=
  mkDPUStatus
    (st_Phase s) (st_PreviousPhase s) (st_Outdated s) v (st_OperationalConditions s)
    (st_BFBFile s) (st_BFCFGFile s) (st_DPFVersion s) (st_RequiredReset s) (st_Addresses s)
    (st_DPUInstallInterface s) (st_PostProvisioningNodeEffect s)
    (st_PostProvisioningDPUConfig s) (st_DPUReconfig s) (st_ObservedGeneration s)
    (st_DPUType s) (st_AgentLastStartupTime s) (st_AgentStatus s) (st_RebootStatus s)
    (st_DPUMode s) (st_DeploymentMode s) (st_Hostless s) (st_SecureBoot s) (st_IdentityMode
    s).
Definition with_BFBFile (v : string) (s : DPUStatus) : DPUStatus :=
  mkDPUStatus
    (st_Phase s) (st_PreviousPhase s) (st_Outdated s) (st_Conditions s)
    (st_OperationalConditions s) v (st_BFCFGFile s) (st_DPFVersion s) (st_RequiredReset s)
    (st_Addresses s) (st_DPUInstallInterface s) (st_PostProvisioningNodeEffect s)
    (st_PostProvisioningDPUConfig s) (st_DPUReconfig s) (st_ObservedGeneration s)
    (st_DPUType s) (st_AgentLastStartupTime s) (st_AgentStatus s) (st_RebootStatus s)
    (st_DPUMode s) (st_DeploymentMode s) (st_Hostless s) (st_SecureBoot s) (st_IdentityMode
    s).
Definition with_BFCFGFile (v : string) (s : DPUStatus) : DPUStatus :=
  mkDPUStatus
    (st_Phase s) (st_PreviousPhase s) (st_Outdated s) (st_Conditions s)
    (st_OperationalConditions s) (st_BFBFile s) v (st_DPFVersion s) (st_RequiredReset s)
    (st_Addresses s) (st_DPUInstallInterface s) (st_PostProvisioningNodeEffect s)
    (st_PostProvisioningDPUConfig s) (st_DPUReconfig s) (st_ObservedGeneration s)
    (st_DPUType s) (st_AgentLastStartupTime s) (st_AgentStatus s) (st_RebootStatus s)
    (st_DPUMode s) (st_DeploymentMode s) (st_Hostless s) (st_SecureBoot s) (st_IdentityMode
    s).
Definition with_DPFVersion (v : option string) (s : DPUStatus) : DPUStatus :=
  mkDPUStatus
    (st_Phase s) (st_PreviousPhase s) (st_Outdated s) (st_Conditions s)
    (st_OperationalConditions s) (st_BFBFile s) (st_BFCFGFile s) v (st_RequiredReset s)
    (st_Addresses s) (st_DPUInstallInterface s) (st_PostProvisioningNodeEffect s)
    (st_PostProvisioningDPUConfig s) (st_DPUReconfig s) (st_ObservedGeneration s)
    (st_DPUType s) (st_AgentLastStartupTime s) (st_AgentStatus s) (st_RebootStatus s)
    (st_DPUMode s) (st_DeploymentMode s) (st_Hostless s) (st_SecureBoot s) (st_IdentityMode
    s).
Definition with_RequiredReset (v : option bool) (s : DPUStatus) : DPUStatus :=
  mkDPUStatus
    (st_Phase s) (st_PreviousPhase s) (st_Outdated s) (st_Conditions s)
    (st_OperationalConditions s) (st_BFBFile s) (st_BFCFGFile s) (st_DPFVersion s) v
    (st_Addresses s) (st_DPUInstallInterface s) (st_PostProvisioningNodeEffect s)
    (st_PostProvisioningDPUConfig s) (st_DPUReconfig s) (st_ObservedGeneration s)
    (st_DPUType s) (st_AgentLastStartupTime s) (st_AgentStatus s) (st_RebootStatus s)
    (st_DPUMode s) (st_DeploymentMode s) (st_Hostless s) (st_SecureBoot s) (st_IdentityMode
    s).
Definition with_Addresses (v : list (string * string)) (s : DPUStatus) : DPUStatus :=
  mkDPUStatus
    (st_Phase s) (st_PreviousPhase s) (st_Outdated s) (st_Conditions s)
    (st_OperationalConditions s) (st_BFBFile s) (st_BFCFGFile s) (st_DPFVersion s)
    (st_RequiredReset s) v (st_DPUInstallInterface s) (st_PostProvisioningNodeEffect s)
    (st_PostProvisioningDPUConfig s) (st_DPUReconfig s) (st_ObservedGeneration s)
    (st_DPUType s) (st_AgentLastStartupTime s) (st_AgentStatus s) (st_RebootStatus s)
    (st_DPUMode s) (st_DeploymentMode s) (st_Hostless s) (st_SecureBoot s) (st_IdentityMode
    s).
Definition with_DPUInstallInterface (v : option string) (s : DPUStatus) : DPUStatus :=
  mkDPUStatus
    (st_Phase s) (st_PreviousPhase s) (st_Outdated s) (st_Conditions s)
    (st_OperationalConditions s) (st_BFBFile s) (st_BFCFGFile s) (st_DPFVersion s)
    (st_RequiredReset s) (st_Addresses s) v (st_PostProvisioningNodeEffect s)
    (st_PostProvisioningDPUConfig s) (st_DPUReconfig s) (st_ObservedGeneration s)
    (st_DPUType s) (st_AgentLastStartupTime s) (st_AgentStatus s) (st_RebootStatus s)
    (st_DPUMode s) (st_DeploymentMode s) (st_Hostless s) (st_SecureBoot s) (st_IdentityMode
    s).
Definition with_PostProvisioningNodeEffect (v : option bool) (s : DPUStatus) : DPUStatus :=
  mkDPUStatus
    (st_Phase s) (st_PreviousPhase s) (st_Outdated s) (st_Conditions s)
    (st_OperationalConditions s) (st_BFBFile s) (st_BFCFGFile s) (st_DPFVersion s)
    (st_RequiredReset s) (st_Addresses s) (st_DPUInstallInterface s) v
    (st_PostProvisioningDPUConfig s) (st_DPUReconfig s) (st_ObservedGeneration s)
    (st_DPUType s) (st_AgentLastStartupTime s) (st_AgentStatus s) (st_RebootStatus s)
    (st_DPUMode s) (st_DeploymentMode s) (st_Hostless s) (st_SecureBoot s) (st_IdentityMode
    s).
Definition with_PostProvisioningDPUConfig (v : option bool) (s : DPUStatus) : DPUStatus :=
  mkDPUStatus
    (st_Phase s) (st_PreviousPhase s) (st_Outdated s) (st_Conditions s)
    (st_OperationalConditions s) (st_BFBFile s) (st_BFCFGFile s) (st_DPFVersion s)
    (st_RequiredReset s) (st_Addresses s) (st_DPUInstallInterface s)
    (st_PostProvisioningNodeEffect s) v (st_DPUReconfig s) (st_ObservedGeneration s)
    (st_DPUType s) (st_AgentLastStartupTime s) (st_AgentStatus s) (st_RebootStatus s)
    (st_DPUMode s) (st_DeploymentMode s) (st_Hostless s) (st_SecureBoot s) (st_IdentityMode
    s).
Definition with_DPUReconfig (v : option DPUReconfigStatus) (s : DPUStatus) : DPUStatus :=
  mkDPUStatus
    (st_Phase s) (st_PreviousPhase s) (st_Outdated s) (st_Conditions s)
    (st_OperationalConditions s) (st_BFBFile s) (st_BFCFGFile s) (st_DPFVersion s)
    (st_RequiredReset s) (st_Addresses s) (st_DPUInstallInterface s)
    (st_PostProvisioningNodeEffect s) (st_PostProvisioningDPUConfig s) v
    (st_ObservedGeneration s) (st_DPUType s) (st_AgentLastStartupTime s) (st_AgentStatus s)
    (st_RebootStatus s) (st_DPUMode s) (st_DeploymentMode s) (st_Hostless s) (st_SecureBoot
    s) (st_IdentityMode s).
Definition with_DPUType (v : string) (s : DPUStatus) : DPUStatus :=
  mkDPUStatus
    (st_Phase s) (st_PreviousPhase s) (st_Outdated s) (st_Conditions s)
    (st_OperationalConditions s) (st_BFBFile s) (st_BFCFGFile s) (st_DPFVersion s)
    (st_RequiredReset s) (st_Addresses s) (st_DPUInstallInterface s)
    (st_PostProvisioningNodeEffect s) (st_PostProvisioningDPUConfig s) (st_DPUReconfig s)
    (st_ObservedGeneration s) v (st_AgentLastStartupTime s) (st_AgentStatus s)
    (st_RebootStatus s) (st_DPUMode s) (st_DeploymentMode s) (st_Hostless s) (st_SecureBoot
    s) (st_IdentityMode s).
Definition with_AgentLastStartupTime (v : option Time) (s : DPUStatus) : DPUStatus :=
  mkDPUStatus
    (st_Phase s) (st_PreviousPhase s) (st_Outdated s) (st_Conditions s)
    (st_OperationalConditions s) (st_BFBFile s) (st_BFCFGFile s) (st_DPFVersion s)
    (st_RequiredReset s) (st_Addresses s) (st_DPUInstallInterface s)
    (st_PostProvisioningNodeEffect s) (st_PostProvisioningDPUConfig s) (st_DPUReconfig s)
    (st_ObservedGeneration s) (st_DPUType s) v (st_AgentStatus s) (st_RebootStatus s)
    (st_DPUMode s) (st_DeploymentMode s) (st_Hostless s) (st_SecureBoot s) (st_IdentityMode
    s).
Definition with_AgentStatus (v : option AgentStatus) (s : DPUStatus) : DPUStatus :=
  mkDPUStatus
    (st_Phase s) (st_PreviousPhase s) (st_Outdated s) (st_Conditions s)
    (st_OperationalConditions s) (st_BFBFile s) (st_BFCFGFile s) (st_DPFVersion s)
    (st_RequiredReset s) (st_Addresses s) (st_DPUInstallInterface s)
    (st_PostProvisioningNodeEffect s) (st_PostProvisioningDPUConfig s) (st_DPUReconfig s)
    (st_ObservedGeneration s) (st_DPUType s) (st_AgentLastStartupTime s) v
    (st_RebootStatus s) (st_DPUMode s) (st_DeploymentMode s) (st_Hostless s) (st_SecureBoot s)
    (st_IdentityMode s).
Definition with_RebootStatus (v : option RebootStatus) (s : DPUStatus) : DPUStatus :=
  mkDPUStatus
    (st_Phase s) (st_PreviousPhase s) (st_Outdated s) (st_Conditions s)
    (st_OperationalConditions s) (st_BFBFile s) (st_BFCFGFile s) (st_DPFVersion s)
    (st_RequiredReset s) (st_Addresses s) (st_DPUInstallInterface s)
    (st_PostProvisioningNodeEffect s) (st_PostProvisioningDPUConfig s) (st_DPUReconfig s)
    (st_ObservedGeneration s) (st_DPUType s) (st_AgentLastStartupTime s) (st_AgentStatus s)
    v (st_DPUMode s) (st_DeploymentMode s) (st_Hostless s) (st_SecureBoot s)
    (st_IdentityMode s).
Definition with_DPUMode (v : string) (s : DPUStatus) : DPUStatus :=
  mkDPUStatus
    (st_Phase s) (st_PreviousPhase s) (st_Outdated s) (st_Conditions s)
    (st_OperationalConditions s) (st_BFBFile s) (st_BFCFGFile s) (st_DPFVersion s)
    (st_RequiredReset s) (st_Addresses s) (st_DPUInstallInterface s)
    (st_PostProvisioningNodeEffect s) (st_PostProvisioningDPUConfig s) (st_DPUReconfig s)
    (st_ObservedGeneration s) (st_DPUType s) (st_AgentLastStartupTime s) (st_AgentStatus s)
    (st_RebootStatus s) v (st_DeploymentMode s) (st_Hostless s) (st_SecureBoot s)
    (st_IdentityMode s).
Definition with_DeploymentMode (v : string) (s : DPUStatus) : DPUStatus :=
  mkDPUStatus
    (st_Phase s) (st_PreviousPhase s) (st_Outdated s) (st_Conditions s)
    (st_OperationalConditions s) (st_BFBFile s) (st_BFCFGFile s) (st_DPFVersion s)
    (st_RequiredReset s) (st_Addresses s) (st_DPUInstallInterface s)
    (st_PostProvisioningNodeEffect s) (st_PostProvisioningDPUConfig s) (st_DPUReconfig s)
    (st_ObservedGeneration s) (st_DPUType s) (st_AgentLastStartupTime s) (st_AgentStatus s)
    (st_RebootStatus s) (st_DPUMode s) v (st_Hostless s) (st_SecureBoot s) (st_IdentityMode
    s).
Definition with_Hostless (v : bool) (s : DPUStatus) : DPUStatus :=
  mkDPUStatus
    (st_Phase s) (st_PreviousPhase s) (st_Outdated s) (st_Conditions s)
    (st_OperationalConditions s) (st_BFBFile s) (st_BFCFGFile s) (st_DPFVersion s)
    (st_RequiredReset s) (st_Addresses s) (st_DPUInstallInterface s)
    (st_PostProvisioningNodeEffect s) (st_PostProvisioningDPUConfig s) (st_DPUReconfig s)
    (st_ObservedGeneration s) (st_DPUType s) (st_AgentLastStartupTime s) (st_AgentStatus s)
    (st_RebootStatus s) (st_DPUMode s) (st_DeploymentMode s) v (st_SecureBoot s)
    (st_IdentityMode s).
Definition with_SecureBoot (v : option string) (s : DPUStatus) : DPUStatus :=
  mkDPUStatus
    (st_Phase s) (st_PreviousPhase s) (st_Outdated s) (st_Conditions s)
    (st_OperationalConditions s) (st_BFBFile s) (st_BFCFGFile s) (st_DPFVersion s)
    (st_RequiredReset s) (st_Addresses s) (st_DPUInstallInterface s)
    (st_PostProvisioningNodeEffect s) (st_PostProvisioningDPUConfig s) (st_DPUReconfig s)
    (st_ObservedGeneration s) (st_DPUType s) (st_AgentLastStartupTime s) (st_AgentStatus s)
    (st_RebootStatus s) (st_DPUMode s) (st_DeploymentMode s) (st_Hostless s) v
    (st_IdentityMode s).
Definition with_IdentityMode (v : option string) (s : DPUStatus) : DPUStatus :=
  mkDPUStatus
    (st_Phase s) (st_PreviousPhase s) (st_Outdated s) (st_Conditions s)
    (st_OperationalConditions s) (st_BFBFile s) (st_BFCFGFile s) (st_DPFVersion s)
    (st_RequiredReset s) (st_Addresses s) (st_DPUInstallInterface s)
    (st_PostProvisioningNodeEffect s) (st_PostProvisioningDPUConfig s) (st_DPUReconfig s)
    (st_ObservedGeneration s) (st_DPUType s) (st_AgentLastStartupTime s) (st_AgentStatus s)
    (st_RebootStatus s) (st_DPUMode s) (st_DeploymentMode s) (st_Hostless s) (st_SecureBoot
    s) v.
Definition with_ObservedGeneration (v : Z) (s : DPUStatus) : DPUStatus :=
  mkDPUStatus
    (st_Phase s) (st_PreviousPhase s) (st_Outdated s) (st_Conditions s)
    (st_OperationalConditions s) (st_BFBFile s) (st_BFCFGFile s) (st_DPFVersion s)
    (st_RequiredReset s) (st_Addresses s) (st_DPUInstallInterface s)
    (st_PostProvisioningNodeEffect s) (st_PostProvisioningDPUConfig s) (st_DPUReconfig s) v
    (st_DPUType s) (st_AgentLastStartupTime s) (st_AgentStatus s) (st_RebootStatus s)
    (st_DPUMode s) (st_DeploymentMode s) (st_Hostless s) (st_SecureBoot s) (st_IdentityMode
    s).
(** DPU: the object metadata, the spec and the status. *)
Record DPU := mkDPU {
  dpu_Name : string;
  dpu_Namespace : string;
  dpu_UID : string;
  dpu_Generation : Z;
  dpu_Labels : gmap string string;
  dpu_Annotations : gmap string string;
  dpu_Finalizers : list string;
  dpu_CreationTimestamp : Time;
  dpu_DeletionTimestamp : option Time;
  dpu_Spec : DPUSpec;
  dpu_Status : DPUStatus }.

Definition with_Labels (v : gmap string string) (s : DPU) : DPU :=
  mkDPU
    (dpu_Name s) (dpu_Namespace s) (dpu_UID s) (dpu_Generation s) v (dpu_Annotations s)
    (dpu_Finalizers s) (dpu_CreationTimestamp s) (dpu_DeletionTimestamp s) (dpu_Spec s)
    (dpu_Status s).
Definition with_Annotations (v : gmap string string) (s : DPU) : DPU :=
  mkDPU
    (dpu_Name s) (dpu_Namespace s) (dpu_UID s) (dpu_Generation s) (dpu_Labels s) v
    (dpu_Finalizers s) (dpu_CreationTimestamp s) (dpu_DeletionTimestamp s) (dpu_Spec s)
    (dpu_Status s).
Definition with_Finalizers (v : list string) (s : DPU) : DPU :=
  mkDPU
    (dpu_Name s) (dpu_Namespace s) (dpu_UID s) (dpu_Generation s) (dpu_Labels s)
    (dpu_Annotations s) v (dpu_CreationTimestamp s) (dpu_DeletionTimestamp s) (dpu_Spec s)
    (dpu_Status s).
Definition with_Spec (v : DPUSpec) (s : DPU) : DPU :=
  mkDPU
    (dpu_Name s) (dpu_Namespace s) (dpu_UID s) (dpu_Generation s) (dpu_Labels s)
    (dpu_Annotations s) (dpu_Finalizers s) (dpu_CreationTimestamp s) (dpu_DeletionTimestamp
    s) v (dpu_Status s).
Definition with_Status (v : DPUStatus) (s : DPU) : DPU :=
  mkDPU
    (dpu_Name s) (dpu_Namespace s) (dpu_UID s) (dpu_Generation s) (dpu_Labels s)
    (dpu_Annotations s) (dpu_Finalizers s) (dpu_CreationTimestamp s) (dpu_DeletionTimestamp
    s) (dpu_Spec s) v.

(** The DPU as an object with conditions. *)
#[export] Instance DPU_GetSet : GetSet DPU :=
  {| GetConditions d := st_Conditions (dpu_Status d);
     SetConditions d cs := with_Status (with_Conditions cs (dpu_Status d)) d;
     GetGeneration := dpu_Generation |}.
#[export] Instance DPU_GetSet_laws : GetSetLaws DPU DPU_GetSet.
Proof. split; done. Qed.

Definition deleting (d : DPU) : bool := negb (timep_is_zero (dpu_DeletionTimestamp d)).
Definition dpu_key (d : DPU) : NamespacedName := mkNN (dpu_Namespace d) (dpu_Name d).

(** ** The other objects the state machine reads *)

(** DPUNodeMaintenance; [dnm_NodeEffect] is the pointer [Spec.NodeEffect]. *)
Record DPUNodeMaintenance := mkDNM {
  dnm_Name : string;
  dnm_Namespace : string;
  dnm_Generation : Z;
  dnm_Labels : gmap string string;
  dnm_Annotations : gmap string string;
  dnm_Finalizers : list string;
  dnm_DeletionTimestamp : option Time;
  dnm_DPUNodeName : string;
  dnm_NodeEffect : option NodeEffect;
  dnm_Requestor : list string;
  dnm_Conditions : list Condition;
  dnm_NodeEffectSyncStartTime : option Time;
  dnm_MultiDPUOperationsSyncWaitTime : option Z;
  dnm_MaxUnavailableDPUNodes : option Z }.

Definition with_dnm_Spec (ann : gmap string string) (ne : option NodeEffect) (req : list string)
    (d : DPUNodeMaintenance) : DPUNodeMaintenance :=
  mkDNM (dnm_Name d) (dnm_Namespace d) (dnm_Generation d) (dnm_Labels d) ann (dnm_Finalizers d) (dnm_DeletionTimestamp d)
    (dnm_DPUNodeName d) ne req (dnm_Conditions d) (dnm_NodeEffectSyncStartTime d)
    (dnm_MultiDPUOperationsSyncWaitTime d) (dnm_MaxUnavailableDPUNodes d).

(** NodeRebootMethod: which of the alternatives is set. *)
Record NodeRebootMethod := mkNodeRebootMethod {
  nrm_GNOI : bool; nrm_HostAgent : bool; nrm_External : bool; nrm_Script : option string; nrm_None : bool }.

Record DPUNode := mkDPUNode {
  dn_Name : string;
  dn_Namespace : string;
  dn_Labels : gmap string string;
  dn_Annotations : gmap string string;
  dn_Finalizers : list string;
  (** Kinds and names. *)
  dn_OwnerReferences : list (string * string);
  dn_DPUs : list string;
  dn_NodeRebootMethod : option NodeRebootMethod;
  dn_KubeNodeRef : option string;
  dn_DPUInstallInterface : option string;
  dn_Conditions : list Condition;
  dn_RebootMethod : option RebootMethodType;
  dn_DeletionTimestamp : option Time }.

Record DPUDevice := mkDPUDevice {
  dd_Name : string;
  dd_Namespace : string;
  dd_Labels : gmap string string;
  dd_Finalizers : list string;
  dd_BMCIP : option string;
  dd_NodeLabels : option (gmap string string * gmap string string);
  dd_DPUType : string;
  dd_DPUMode : string;
  dd_SecureBoot : option string;
  dd_PCIAddress : option string;
  dd_Values : option string }.

Definition with_dd_Finalizers (v : list string) (d : DPUDevice) : DPUDevice :=
  mkDPUDevice (dd_Name d) (dd_Namespace d) (dd_Labels d) v (dd_BMCIP d) (dd_NodeLabels d)
    (dd_DPUType d) (dd_DPUMode d) (dd_SecureBoot d) (dd_PCIAddress d) (dd_Values d).

(** BFBVersions, BFBSpec, BFBStatus and BFB (bfb_types.go). *)
Record BFBVersions := mkBFBVersions { v_BSP : string; v_DOCA : string; v_UEFI : string; v_ATF : string }.
Record BFBSpec := mkBFBSpec { bs_FileName : option string; bs_URL : string; bs_Versions : option BFBVersions }.
Record BFB := mkBFB {
  bfb_Name : string;
  bfb_Namespace : string;
  bfb_UID : string;
  bfb_Generation : Z;
  bfb_Finalizers : list string;
  bfb_DeletionTimestamp : option Time;
  bfb_Spec : BFBSpec;
  bfb_FileName : string;
  bfb_Phase : string;
  bfb_Versions : BFBVersions;
  bfb_ObservedGeneration : Z;
  bfb_Conditions : list Condition }.

(** The BFB volume (PC/util/util.go). *)
Definition BFBBaseDir := "bfb".
Definition GenerateBFBFilePath (filename : string) : string := "/" +:+ BFBBaseDir +:+ "/" +:+ filename.
Definition GenerateBFBTMPFilePath (uid : string) : string := "/" +:+ BFBBaseDir +:+ "/bfb-" +:+ uid.

(** BlueFieldSpec, BlueFieldSoftwareStatus and BlueFieldSoftware (bluefield_types.go). *)
Record BlueFieldSpec := mkBlueFieldSpec {
  bf_OsIso : string;
  bf_PldmFwBundle : gmap string string;
  bf_PlatformPldmFwBundle : option string;
  bf_NicFw : option string }.
Record BluefieldDeviceVersions := mkDeviceVersions {
  dv_BMCVersion : string; dv_BMCErotVersion : string; dv_SBIOSVersion : string; dv_BFNicFwVersion : string }.
Record BluefieldSoftwareVersions := mkSoftwareVersions {
  sv_DOCA : string;
  sv_OSISOVersion : string;
  sv_EWNicFwVersion : string;
  sv_BluefieldSoftwareVersions : gmap string BluefieldDeviceVersions }.
Record DownloadedComponents := mkDownloadedComponents {
  dl_PldmFwBundle : gmap string string;
  dl_PlatformPldmFwBundle : string;
  dl_OsIso : string;
  dl_NicFw : string }.
Record BlueFieldSoftware := mkBFS {
  bfs_Name : string;
  bfs_Namespace : string;
  bfs_UID : string;
  bfs_Generation : Z;
  bfs_Finalizers : list string;
  bfs_DeletionTimestamp : option Time;
  bfs_Spec : BlueFieldSpec;
  bfs_Phase : string;
  bfs_Versions : option BluefieldSoftwareVersions;
  bfs_DownloadedComponents : DownloadedComponents;
  bfs_ObservedGeneration : Z;
  bfs_Conditions : list Condition }.

Definition with_bfs_Finalizers (v : list string) (b : BlueFieldSoftware) : BlueFieldSoftware :=
  mkBFS (bfs_Name b) (bfs_Namespace b) (bfs_UID b) (bfs_Generation b) v (bfs_DeletionTimestamp b) (bfs_Spec b) (bfs_Phase b)
    (bfs_Versions b) (bfs_DownloadedComponents b) (bfs_ObservedGeneration b) (bfs_Conditions b).
Definition with_bfs_status (phase : string) (versions : option BluefieldSoftwareVersions) (downloaded : DownloadedComponents)
    (conds : list Condition) (b : BlueFieldSoftware) : BlueFieldSoftware :=
  mkBFS (bfs_Name b) (bfs_Namespace b) (bfs_UID b) (bfs_Generation b) (bfs_Finalizers b) (bfs_DeletionTimestamp b) (bfs_Spec b)
    phase versions downloaded (bfs_ObservedGeneration b) conds.

Definition BlueFieldSoftwareFinalizerPrefix := DPUProvisioningPrefix +:+ "bfs-dpuset-".

(** DPUFlavor; the NVConfig entries are their parameter lists, and the fields of
    the spec that no modelled function looks into are one text. *)
Record DPUFlavor := mkDPUFlavor {
  fl_Name : string;
  fl_Namespace : string;
  fl_Labels : gmap string string;
  fl_Finalizers : list string;
  fl_ControllerUID : option string;
  fl_NVConfig : list (list string);
  fl_ServiceReadiness : option string;
  fl_OtherSpec : string }.

Definition with_fl_meta (fins : list string) (ctrl : option string) (f : DPUFlavor) : DPUFlavor :=
  mkDPUFlavor (fl_Name f) (fl_Namespace f) (fl_Labels f) fins ctrl (fl_NVConfig f)
    (fl_ServiceReadiness f) (fl_OtherSpec f).

(** [ConfiguredGate] *)
Definition ConfiguredGate (f : DPUFlavor) : string :=
  match fl_ServiceReadiness f with None => "" | Some g => g end.

Record DPUCluster := mkDPUCluster {
  dc_Name : string;
  dc_Namespace : string;
  dc_UID : string;
  dc_Labels : gmap string string;
  dc_Finalizers : list string;
  dc_DeletionTimestamp : option Time;
  dc_MaxNodes : Z;
  dc_Phase : string;
  dc_Version : string;
  dc_NodesCount : Z;
  dc_Conditions : list Condition }.

(** corev1.Node of the host or of the DPU cluster. *)
Record Node := mkNode {
  no_Name : string;
  no_Labels : gmap string string;
  no_Annotations : gmap string string;
  no_Conditions : list (string * ConditionStatus);
  no_Addresses : list (string * string);
  no_Taints : list Taint }.

(** DPFOperatorConfig *)
Record DPFOperatorConfig := mkDPFOperatorConfig {
  cfg_Version : option string;
  cfg_TargetVersion : option string;
  cfg_DeploymentMode : string;
  cfg_Security_SPIFFE : option (option unit) }.

(** [UpgradeInProgress] *)
Definition UpgradeInProgress (c : DPFOperatorConfig) : bool :=
  match cfg_Version c, cfg_TargetVersion c with
  | Some v, Some t => bool_decide (t ≠ v)
  | _, _ => false
  end.

(** [SpiffeEnabled] *)
Definition SpiffeEnabled (c : DPFOperatorConfig) : bool :=
  match cfg_Security_SPIFFE c with Some (Some _) => true | _ => false end.

(** ** controllerutil on finalizer lists (third-party) *)

Class FinalizerAPI := {
  ContainsFinalizer : list string → string → bool;
  AddFinalizer : list string → string → list string;
  RemoveFinalizer : list string → string → list string }.

Class FinalizerAPILaws (F : FinalizerAPI) := {
  contains_finalizer fs f : ContainsFinalizer fs f = true ↔ f ∈ fs;
  add_finalizer fs f g : g ∈ AddFinalizer fs f ↔ g ∈ fs ∨ g = f;
  remove_finalizer fs f g : g ∈ RemoveFinalizer fs f ↔ g ∈ fs ∧ g ≠ f }.

(** An instance over lists. *)
Definition finalizer_list : FinalizerAPI := {|
  ContainsFinalizer fs f := bool_decide (f ∈ fs);
  AddFinalizer fs f := if decide (f ∈ fs) then fs else fs ++ [f];
  RemoveFinalizer fs f := filter (λ g, g ≠ f) fs |}.

#[export] Instance finalizer_list_laws : FinalizerAPILaws finalizer_list.
Proof.
  split; intros fs f; [|intros g..]; simpl.
  - by rewrite bool_decide_eq_true.
  - case_decide; [|rewrite elem_of_app, list_elem_of_singleton; done]. split; [auto|].
    by intros [?| ->].
  - rewrite list_elem_of_filter. tauto.
Qed.
