(* ===== verification/DPUConditions.v ===== *)
(** The condition helpers of internal/provisioning/controllers/util/util.go:
    every phase handler reads and writes the conditions of a DPU through them. *)

From S2P Require Import Prelude.
From S2P Require Import Meta.
From S2P Require Import Conditions.
From S2P Require Import DPUTypes.

(** ** Operations *)

(** [GetDPUCondition]: the index and the condition, or nothing. *)
Definition GetDPUCondition (status : DPUStatus) (conditionType : string) : option (nat * Condition) :=
  find_idx (has_type conditionType) (st_Conditions status).

(** [DPUCondition] *)
Definition DPUCondition (condType reason message : string) : Condition :=
  mkCondition condType ConditionTrue 0 0 (if bool_decide (reason ≠ "") then reason else condType) message.

(** [NewCondition] of the util package. *)
Definition NewDPUCondition (condType : string) (err : option GoError) (reason message : string) : Condition :=
  let r := if bool_decide (reason ≠ "") then reason else condType in
  match err with
  | Some e => mkCondition condType ConditionFalse 0 0 r (err_msg e)
  | None => mkCondition condType ConditionTrue 0 0 r message
  end.

(** The body of [SetDPUCondition] on the slice: the new slice, and whether one
    of the fields changed. *)
Definition set_condition (now : Time) (cs : list Condition) (condition : Condition) : list Condition * bool :=
  let condition := with_LastTransitionTime now condition in
  match find_idx (has_type (c_Type condition)) cs with
  | None => (cs ++ [condition], true)
  | Some (conditionIndex, oldCondition) =>
      let condition :=
        if bool_decide (c_Status condition = c_Status oldCondition)
        then with_LastTransitionTime (c_LastTransitionTime oldCondition) condition else condition in
      let isEqual :=
        bool_decide (c_Status condition = c_Status oldCondition) &&
        bool_decide (c_Reason condition = c_Reason oldCondition) &&
        bool_decide (c_Message condition = c_Message oldCondition) &&
        (c_LastTransitionTime condition =? c_LastTransitionTime oldCondition)%Z in
      (<[conditionIndex := condition]> cs, negb isEqual)
  end.

Definition SetDPUCondition (now : Time) (status : DPUStatus) (condition : Condition) : DPUStatus * bool :=
  (with_Conditions (set_condition now (st_Conditions status) condition).1 status,
   (set_condition now (st_Conditions status) condition).2).

(** A call of [SetDPUCondition] whose result is dropped. *)
Definition set_cond (now : Time) (status : DPUStatus) (condition : Condition) : DPUStatus :=
  (SetDPUCondition now status condition).1.

(** [ConfirmDPUCondition] *)
Definition ConfirmDPUCondition (status : DPUStatus) (condType : string) : DPUStatus :=
  match GetDPUCondition status condType with
  | None => status
  | Some (i, condition) =>
      if status_is ConditionTrue condition then status
      else with_Conditions
             (<[i := mkCondition (c_Type condition) ConditionTrue (c_ObservedGeneration condition)
                       (c_LastTransitionTime condition) condType ""]> (st_Conditions status)) status
  end.

(** [IsDPUInProvisioningPhase] *)
Definition IsDPUInProvisioningPhase (phase : DPUPhase) : bool :=
  match phase with
  | DPUNodeEffect | DPUInitializeInterface | DPUConfigFWParameters | DPUPrepareBFB
  | DPUOSInstalling => true
  | _ => false
  end.

(** [IsDPUBeforeProvisioningPhase] *)
Definition IsDPUBeforeProvisioningPhase (phase : DPUPhase) : bool :=
  match phase with
  | DPUPhaseUnset | DPUInitializing | DPUPending => true
  | _ => false
  end.

(** [IsDPUAfterProvisioningPhase] *)
Definition IsDPUAfterProvisioningPhase (phase : DPUPhase) : bool :=
  match phase with
  | DPUConfigPhase | DPURebooting | DPUReady | DPUError | DPUClusterConfig
  | DPUHostNetworkConfiguration | DPUDeleting => true
  | _ => false
  end.

(** [IsDPUHeldForUpgrade], for a status that is not nil. *)
Definition IsDPUHeldForUpgrade (status : DPUStatus) : bool :=
  let held condType :=
    match GetDPUCondition status condType with
    | None => false
    | Some (_, condition) =>
        status_is ConditionFalse condition &&
        bool_decide (c_Reason condition = ReasonDPFOperatorUpgradeInProgress)
    end in
  match st_Phase status with
  | DPUPending => held DPUCondPending
  | DPUNodeEffect => held DPUCondNodeEffectReady
  | _ => false
  end.

(** [IsNodeReady]: the first [Ready] condition decides. *)
Definition IsNodeReady (node : Node) : bool :=
  match find_idx (λ c, bool_decide (c.1 = "Ready")) (no_Conditions node) with
  | Some (_, (_, st)) => bool_decide (st = ConditionTrue)
  | None => false
  end.

(** [PreInstallAgentReported] *)
Definition PreInstallAgentReported (dpu : DPU) : bool :=
  match st_AgentStatus (dpu_Status dpu) with
  | None => false
  | Some ag => match ag_PreInstall ag with
               | None => false
               | Some pre => negb (timep_is_zero (pi_AgentReported pre))
               end
  end.

(** [PreInstallNVConfigReported] *)
Definition PreInstallNVConfigReported {API : MetaAPI} (dpu : DPU) : bool :=
  match st_AgentStatus (dpu_Status dpu) with
  | None => false
  | Some ag => match ag_PreInstall ag with
               | None => false
               | Some pre => bool_decide (is_Some
                   (FindStatusCondition (pi_Conditions pre) DPUAgentConditionNVConfigApplied))
               end
  end.

(** ** The condition of a type, and how the operations change it *)

(** The condition a handler sees for a type. *)
Definition cond_of (status : DPUStatus) (t : string) : option Condition :=
  first_of_type (st_Conditions status) t.

Lemma GetDPUCondition_cond_of status t : snd <$> GetDPUCondition status t = cond_of status t.
Proof. done. Qed.

Lemma GetDPUCondition_Some status t i c : GetDPUCondition status t = Some (i, c) → cond_of status t = Some c.
Proof. intros E. unfold cond_of, first_of_type. unfold GetDPUCondition in E. by rewrite E. Qed.

Lemma GetDPUCondition_None status t : GetDPUCondition status t = None ↔ cond_of status t = None.
Proof. unfold cond_of, first_of_type, GetDPUCondition. by destruct (find_idx _ _) as [[]|]. Qed.

(** What [set_condition] stores for its type. *)
Definition stored (now : Time) (old : option Condition) (c : Condition) : Condition :=
  with_LastTransitionTime
    (match old with
     | Some o => if bool_decide (c_Status c = c_Status o) then c_LastTransitionTime o else now
     | None => now
     end) c.

Lemma set_condition_spec now cs c t :
  first_of_type (set_condition now cs c).1 t =
  if decide (t = c_Type c) then Some (stored now (first_of_type cs (c_Type c)) c)
  else first_of_type cs t.
Proof.
  unfold set_condition. simpl. destruct (find_idx _ cs) as [[i old]|] eqn:E; simpl.
  - pose proof (find_idx_first _ _ _ _ E) as [Ef _]. rewrite Ef. simpl.
    erewrite first_of_type_insert; [|done|by case_match].
    case_decide; [|done]. unfold stored. by case_bool_decide.
  - assert (first_of_type cs (c_Type c) = None) as En by (unfold first_of_type; by rewrite E).
    rewrite En, first_of_type_app, first_of_type_cons. unfold has_type. simpl.
    case_decide as D; [subst; rewrite En; by rewrite bool_decide_true|].
    rewrite bool_decide_false by congruence. by destruct (first_of_type cs t).
Qed.

Lemma set_condition_types now cs c :
  c_Type <$> (set_condition now cs c).1 =
  if decide (c_Type c ∈ c_Type <$> cs) then c_Type <$> cs else (c_Type <$> cs) ++ [c_Type c].
Proof.
  unfold set_condition. simpl. destruct (find_idx _ cs) as [[i old]|] eqn:E; simpl.
  - erewrite types_insert; [|done|by case_match]. rewrite decide_True; [done|].
    apply find_idx_first in E as [E _].
    destruct (decide (c_Type c ∈ c_Type <$> cs)) as [|n]; [done|].
    apply first_of_type_None in n. by rewrite n in E.
  - rewrite decide_False by (apply first_of_type_None; unfold first_of_type; by rewrite E).
    by rewrite fmap_app.
Qed.

Lemma cond_of_set now s c t :
  cond_of (set_cond now s c) t =
  if decide (t = c_Type c) then Some (stored now (cond_of s (c_Type c)) c) else cond_of s t.
Proof. apply set_condition_spec. Qed.

Lemma cond_of_set_same now s c :
  cond_of (set_cond now s c) (c_Type c) = Some (stored now (cond_of s (c_Type c)) c).
Proof. by rewrite cond_of_set, decide_True. Qed.

Lemma cond_of_set_other now s c t : t ≠ c_Type c → cond_of (set_cond now s c) t = cond_of s t.
Proof. intros. by rewrite cond_of_set, decide_False. Qed.

(** [ConfirmDPUCondition] makes a condition that is there True, keeps the time of
    its transition, and changes no other. *)
Lemma cond_of_Confirm s t u :
  cond_of (ConfirmDPUCondition s t) u =
  if decide (u = t) then
    (λ c, if status_is ConditionTrue c then c
          else mkCondition (c_Type c) ConditionTrue (c_ObservedGeneration c) (c_LastTransitionTime c) t "") <$> cond_of s t
  else cond_of s u.
Proof.
  unfold ConfirmDPUCondition, GetDPUCondition. destruct (find_idx _ _) as [[i c]|] eqn:E; simpl.
  - pose proof (find_idx_first _ _ _ _ E) as [Ec Ht]. unfold cond_of. rewrite Ec.
    destruct (status_is ConditionTrue c) eqn:S; simpl.
    + case_decide; [subst u; by rewrite Ec, S|done].
    + erewrite first_of_type_insert by done. case_decide; [by rewrite S|done].
  - assert (cond_of s t = None) as En by (unfold cond_of, first_of_type; by rewrite E).
    case_decide; [subst u; by rewrite En|done].
Qed.

Lemma with_LastTransitionTime_same c t : c_LastTransitionTime c = t → with_LastTransitionTime t c = c.
Proof. intros <-. by destruct c. Qed.

(** ** Properties *)

(** [SetDPUCondition] upserts: afterwards the type has the status, reason
    and message that were passed, the transition time of the old condition when
    the status did not change and the current time otherwise; every other type
    and every other status field is unchanged, one condition per type is kept,
    and the result says whether a field of that condition changed. *)
Theorem SetDPUCondition_upserts now status c :
  let r := SetDPUCondition now status c in
  let new := stored now (cond_of status (c_Type c)) c in
  cond_of r.1 (c_Type c) = Some new ∧
  (∀ t, t ≠ c_Type c → cond_of r.1 t = cond_of status t) ∧
  r.1 = with_Conditions (st_Conditions r.1) status ∧
  (wf_conditions (st_Conditions status) → wf_conditions (st_Conditions r.1)) ∧
  (r.2 = false ↔ ∃ old, cond_of status (c_Type c) = Some old ∧ c_Status new = c_Status old ∧
     c_Reason new = c_Reason old ∧ c_Message new = c_Message old ∧
     c_LastTransitionTime new = c_LastTransitionTime old).
Proof.
  cbn zeta. split; [apply cond_of_set_same|]. split; [intros; by apply cond_of_set_other|].
  split; [done|]. split.
  - unfold wf_conditions. simpl. rewrite set_condition_types. case_decide; [done|].
    intros. apply NoDup_app. split; [done|]. split; [|apply NoDup_singleton].
    intros x Hx ->%list_elem_of_singleton. done.
  - simpl. unfold set_condition, cond_of, first_of_type, stored. simpl.
    destruct (find_idx _ _) as [[i old]|]; simpl.
    + rewrite negb_false_iff, !andb_true_iff, !bool_decide_eq_true, Z.eqb_eq.
      case_bool_decide; simpl; naive_solver.
    + split; [done|]. naive_solver.
Qed.

Lemma SetDPUCondition_upserts_witness :
  wf_conditions [mkCondition "A" ConditionTrue 0 3 "A" ""] ∧
  wf_conditions ((set_condition 7 [mkCondition "A" ConditionTrue 0 3 "A" ""]
    (NewDPUCondition "B" (Some (errorf "x")) "R" "x")).1).
Proof.
  assert (wf_conditions [mkCondition "A" ConditionTrue 0 3 "A" ""]) as W
    by (unfold wf_conditions; simpl; apply NoDup_singleton).
  split; [exact W|].
  set (s := mkDPUStatus DPUReady DPUPhaseUnset None [mkCondition "A" ConditionTrue 0 3 "A" ""] [] "" ""
    None None [] None None None None 0 "" None None None "" "" false None None).
  pose proof (SetDPUCondition_upserts 7 s (NewDPUCondition "B" (Some (errorf "x")) "R" "x"))
    as (_ & _ & _ & Hwf & _).
  exact (Hwf W).
Defined.
