(* ===== verification/ProvisioningMap.v ===== *)
(** internal/provisioning/controllers/dpu/util/dpu_in_provisioning_map.go: the
    mutex-protected set of DPUs that are being installed, which bounds how many
    run in parallel.  Every method holds the mutex for its whole body, so a run
    of concurrent callers is a sequence of the operations below. *)

From S2P Require Import Prelude.
From S2P Require Import Meta.
From S2P Require Import Conditions.
From S2P Require Import DPUTypes.
From S2P Require Import DPUConditions.

(** ** State and operations *)

Record DPUInProvisioningMap := mkProvMap { pm_dpus : gset string; pm_max : Z }.

Definition ErrReasonMaxDPUParallelInstallationsLimitReached := "MaxDPUParallelInstallationsLimitReached".

(** CanProceedError *)
Record CanProceedError := mkCanProceedError { cp_Reason : string; cp_Message : string }.

Definition NewDPUInProvisioningMap (max : Z) : DPUInProvisioningMap := mkProvMap ∅ max.

(** [listed] is what the API reader answers to the List call. *)
Definition Initialize (listed : Res (list DPU)) (c : DPUInProvisioningMap)
    : option GoError * DPUInProvisioningMap :=
  match listed with
  | Err e => (Some (wrapf "failed to list DPUs: " e), c)
  | Ok items =>
      (None, mkProvMap
         (foldl (λ dpus dpu, if IsDPUInProvisioningPhase (st_Phase (dpu_Status dpu))
                             then {[dpu_UID dpu]} ∪ dpus else dpus) ∅ items)
         (pm_max c))
  end.

Definition insert_dpu (dpuUID : string) (c : DPUInProvisioningMap) : DPUInProvisioningMap :=
  mkProvMap ({[dpuUID]} ∪ pm_dpus c) (pm_max c).

Definition CanProceed (dpuUID : string) (c : DPUInProvisioningMap)
    : option CanProceedError * DPUInProvisioningMap :=
  if decide (dpuUID ∈ pm_dpus c) then (None, c)
  else if (wrap32 (Z.of_nat (size (pm_dpus c))) >=? pm_max c)%Z then
    (Some (mkCanProceedError ErrReasonMaxDPUParallelInstallationsLimitReached
       ("max DPU parallel installations limit reached, limit: " +:+ pretty (pm_max c))), c)
  else (None, insert_dpu dpuUID c).

Definition Remove (dpuUID : string) (c : DPUInProvisioningMap) : DPUInProvisioningMap :=
  mkProvMap (pm_dpus c ∖ {[dpuUID]}) (pm_max c).

Definition GetMax (c : DPUInProvisioningMap) : Z := pm_max c.

(** ** Runs *)

Inductive pm_call := CallCanProceed (uid : string) | CallRemove (uid : string).

Definition pm_step (c : DPUInProvisioningMap) (call : pm_call) : DPUInProvisioningMap :=
  match call with
  | CallCanProceed uid => (CanProceed uid c).2
  | CallRemove uid => Remove uid c
  end.

Definition pm_run (c : DPUInProvisioningMap) (calls : list pm_call) : DPUInProvisioningMap :=
  foldl pm_step c calls.

(** The limit is not exceeded. *)
Definition within_limit (c : DPUInProvisioningMap) : Prop :=
  (Z.of_nat (size (pm_dpus c)) <= pm_max c)%Z.

Lemma pm_run_max c calls : pm_max (pm_run c calls) = pm_max c.
Proof.
  revert c. induction calls as [|[uid|uid] calls IH]; intros c; simpl; [done|..];
    rewrite IH; [|done]. unfold CanProceed. by repeat case_match.
Qed.

Lemma CanProceed_within uid c :
  is_int32 (pm_max c) → within_limit c → within_limit (CanProceed uid c).2.
Proof.
  unfold within_limit, CanProceed, is_int32, int32_max. intros Hm Hs.
  case_decide; [done|]. rewrite wrap32_id
    by (unfold is_int32, int32_min, int32_max; lia).
  destruct (Z.geb_spec (Z.of_nat (size (pm_dpus c))) (pm_max c)); simpl; [lia|].
  rewrite size_union, size_singleton by set_solver. lia.
Qed.

Lemma Remove_size uid c : size (pm_dpus (Remove uid c)) ≤ size (pm_dpus c).
Proof. simpl. apply subseteq_size. set_solver. Qed.

Lemma CanProceed_admits uid c : (CanProceed uid c).1 = None → uid ∈ pm_dpus (CanProceed uid c).2.
Proof. unfold CanProceed. repeat case_match; try done. intros _. simpl. set_solver. Qed.
Lemma CanProceed_refuses uid c : (CanProceed uid c).1 ≠ None → (CanProceed uid c).2 = c.
Proof. unfold CanProceed. by repeat case_match. Qed.

(** ** Properties *)

(** However DPUs ask to proceed and leave, in any order, the map never holds
    more DPUs than its limit once it is within it. *)
Theorem pm_run_within_limit c calls :
  is_int32 (pm_max c) → within_limit c → within_limit (pm_run c calls).
Proof.
  revert c. induction calls as [|call calls IH]; intros c Hm Hc; simpl; [done|].
  apply IH.
  - destruct call; simpl; [|done]. unfold CanProceed. by repeat case_match.
  - destruct call; simpl; [by apply CanProceed_within|].
    unfold within_limit in *. pose proof (Remove_size uid c). simpl in *. lia.
Qed.

Lemma pm_run_within_limit_witness :
  let c := pm_run (NewDPUInProvisioningMap 1) [CallCanProceed "a"; CallCanProceed "b"; CallRemove "a"; CallCanProceed "b"] in
  within_limit c ∧ pm_dpus c = {["b"]}.
Proof.
  split; [|vm_compute; reflexivity].
  apply pm_run_within_limit; [split; vm_compute; discriminate|vm_compute; discriminate].
Defined.

(** [CanProceed] admits a DPU iff it is already in the map or the map is
    below its limit; an admitted DPU is in the map afterwards and the others are
    as before; a refusal names the limit and changes nothing. *)
Theorem CanProceed_spec uid c :
  is_int32 (pm_max c) → within_limit c →
  let r := CanProceed uid c in
  (r.1 = None ↔ uid ∈ pm_dpus c ∨ (Z.of_nat (size (pm_dpus c)) < pm_max c)%Z) ∧
  (r.1 = None → pm_dpus r.2 = {[uid]} ∪ pm_dpus c) ∧
  (∀ e, r.1 = Some e → r.2 = c ∧ cp_Reason e = ErrReasonMaxDPUParallelInstallationsLimitReached) ∧
  (r.1 = None → CanProceed uid r.2 = (None, r.2)).
Proof.
  unfold within_limit. intros Hm Hs. cbn zeta. unfold CanProceed. rewrite wrap32_id
    by (unfold is_int32, int32_min, int32_max in *; lia).
  case_decide as D; simpl.
  - repeat split; try naive_solver; [|intros _; by rewrite decide_True].
    intros _. by rewrite subseteq_union_1_L by set_solver.
  - destruct (Z.geb_spec (Z.of_nat (size (pm_dpus c))) (pm_max c)); simpl.
    + split; [split; [done|intros [?|?]; [done|lia]]|]. split; [done|].
      split; [by intros e [=<-]|done].
    + split; [split; auto|]. split; [done|]. split; [done|].
      intros _. by rewrite decide_True by set_solver.
Qed.

Lemma CanProceed_spec_witness :
  (CanProceed "b" (mkProvMap {["a"]} 2)).1 = None.
Proof.
  apply (CanProceed_spec "b" (mkProvMap {["a"]} 2)).
  - split; vm_compute; discriminate.
  - vm_compute. discriminate.
  - right. vm_compute. reflexivity.
Defined.
