(* ===== verification/Kubernetes.v ===== *)
(** What the controllers get from outside the repository: the API server behind
    controller-runtime's client, the clients of the DPU clusters, the shared
    BFB volume, label selectors, and the JSON and hash codecs.

    The services are the operations of [Client W] over an abstract world [W];
    every call may read and change the world and may fail with any error, so a
    theorem about a handler covers every interleaving with other writers and
    every failure.  [ClientLaws] states the little that some theorems rely on. *)

From S2P Require Import Prelude.
From S2P Require Import WriteLog.
From S2P Require Import TraceLogic.
From S2P Require Import Meta.
From S2P Require Import Conditions.
From S2P Require Import DPUTypes.

(** ** Codecs *)

Class Codec := {
  json_strings : list string → string;
  unjson_strings : string → Res (list string);
  json_map : gmap string string → string;
  unjson_map : string → Res (gmap string string);
  json_taint : Taint → string;
  (** The hexadecimal text of [sha256.Sum256] of the bytes of a string. *)
  sha256_hex : string → string }.

Class CodecLaws (C : Codec) := {
  unjson_json_strings l : unjson_strings (json_strings l) = Ok l;
  unjson_json_map m : unjson_map (json_map m) = Ok m;
  json_map_nonempty m : json_map m ≠ "" }.

(** ** Label selectors *)

Class SelectorAPI := {
  (** [metav1.LabelSelectorAsSelector] of a non-nil selector, then [Matches]. *)
  ParseLabelSelector : string → Res (gmap string string → bool);
  (** The validation of [labels.NewRequirement] for a key that has to equal a value. *)
  NewEqualsRequirement : string → string → option GoError }.

(** [LabelSelectorAsSelector] of internal/utils/utils.go: nil selects everything. *)
Definition LabelSelectorAsSelector {S : SelectorAPI} (labelSelector : option string)
    : Res (gmap string string → bool) :=
  match labelSelector with
  | None => Ok (λ _, true)
  | Some s => ParseLabelSelector s
  end.

(** ** Objects [Deleting] removes *)

Inductive ObjRef :=
| ObjCertificate (n : NamespacedName)
| ObjSecret (n : NamespacedName)
| ObjCertificateRequest (n : NamespacedName)
| ObjDPUFlavor (n : NamespacedName).

#[export] Instance ObjRef_eq_dec : EqDecision ObjRef.
Proof. solve_decision. Defined.

Definition dnm_key (d : DPUNodeMaintenance) : NamespacedName := mkNN (dnm_Namespace d) (dnm_Name d).

(** ** The services *)

Class Client (W : Type) := {
  getDPUNode : NamespacedName → SM W (Res DPUNode);
  getDPUDevice : NamespacedName → SM W (Res DPUDevice);
  getBFB : NamespacedName → SM W (Res BFB);
  getBlueFieldSoftware : NamespacedName → SM W (Res BlueFieldSoftware);
  getDPUFlavor : NamespacedName → SM W (Res DPUFlavor);
  getDPUCluster : NamespacedName → SM W (Res DPUCluster);
  getKubeNode : NamespacedName → SM W (Res Node);
  getDPUNodeMaintenance : NamespacedName → SM W (Res DPUNodeMaintenance);
  getDPU : NamespacedName → SM W (Res DPU);
  listDPUs : SM W (Res (list DPU));
  listDPUClusters : SM W (Res (list DPUCluster));
  listDPFOperatorConfigs : SM W (Res (list DPFOperatorConfig));
  createDPUNodeMaintenance_api : DPUNodeMaintenance → SM W (option GoError);
  updateDPUNodeMaintenance : DPUNodeMaintenance → SM W (option GoError);
  (** A merge patch from the first object to the second, with an optimistic lock. *)
  patchDPUNodeMaintenance : DPUNodeMaintenance → DPUNodeMaintenance → SM W (option GoError);
  updateDPUDevice : DPUDevice → SM W (option GoError);
  patchDPUFlavor : DPUFlavor → DPUFlavor → SM W (option GoError);
  updateDPU : DPU → SM W (option GoError);
  (** The serial patcher: writes the second object against the first. *)
  patchDPU : DPU → DPU → SM W (option GoError);
  (** The status subresource patch with an optimistic lock. *)
  patchDPUStatus : DPU → DPU → SM W (option GoError);
  existsObj : ObjRef → SM W (Res unit);
  deleteObj : ObjRef → SM W (option GoError);
  (** Clients of a DPU cluster; [connectCluster] builds one. *)
  connectCluster : DPUCluster → SM W (option GoError);
  getClusterNode : DPUCluster → NamespacedName → SM W (Res Node);
  patchClusterNode : DPUCluster → Node → Node → SM W (option GoError);
  deleteClusterNode : DPUCluster → string → SM W (option GoError);
  (** The kube-system secrets labelled with a DPU, as names and types. *)
  listClusterSecrets : DPUCluster → NamespacedName → SM W (Res (list (string * string)));
  deleteClusterSecret : DPUCluster → string → SM W (option GoError);
  (** EnsureDPUAgentRole and DeleteDPUAgentBootstrapTokens, whose RBAC objects
      and tokens are not modelled. *)
  ensureDPUAgentRole : DPU → DPUDevice → SM W (option GoError);
  deleteDPUAgentBootstrapTokens : NamespacedName → SM W (option GoError);
  (** The Redfish client of a device, and the versions its BMC reports. *)
  redfishAcquire : DPUDevice → SM W (option GoError);
  redfishUEFI : DPUDevice → SM W (Res string);
  redfishBSP : DPUDevice → SM W (Res string);
  (** The join command, bootstrap token and boot artifacts a DPU is installed
      with; the generators are interfaces of the code. *)
  GenerateJoinCommand : DPUCluster → DPU → SM W (Res string);
  setOwnerReference : DPU → NamespacedName → SM W (option GoError);
  createSecret : NamespacedName → string → SM W (option GoError);
  createDPUAgentBootstrapToken : DPU → SM W (Res string);
  GenerateBF3 : DPU → DPUFlavor → string → SM W (Res string);
  GenerateBF4 : DPU → DPUFlavor → string → SM W (Res (string * string));
  (** The shared BFB volume: RemoveFileEx and RemoveAllEx, which ignore a path
      that is not there, and writes of a path and its bytes. *)
  removeFile : string → SM W (option GoError);
  removeAll : string → SM W (option GoError);
  mkdirAll : string → SM W (option GoError);
  writeFile : string → string → SM W (option GoError);
  (** [MkIso] of the files of a seed, in order, giving the path it created. *)
  mkIso : string → list (string * string) → SM W (Res string);
  (** [retry.RetryOnConflict] with [retry.DefaultRetry], on a function that may
      also change the variables [X] it closes over. *)
  RetryOnConflict : ∀ X : Type, SM (X * W) (option GoError) → SM (X * W) (option GoError);
  (** Trace context added to the annotations of an object that is written. *)
  InjectIntoObject : gmap string string → gmap string string }.

(** [n] runs of [f] that ended in a conflict, then one whose result is returned. *)
Fixpoint attempts {W} (f : SM W (option GoError)) (n : nat) (w : W) : option (option GoError * W) :=
  match n with
  | 0 => Some (f w)
  | S n => match f w with
           | (Some e, w') => if IsConflict e then attempts f n w' else None
           | _ => None
           end
  end.

Lemma attempts_log {W E X} (f : SM (X * (W * list E)) (option GoError)) n x w l :
  attempts f n (x, (w, l)) =
  (λ r, (r.1, (r.2.1.1, (r.2.2, r.2.1.2)))) <$> attempts (log_in f) n ((x, l), w).
Proof.
  revert x w l. induction n as [|n IH]; intros x w l; simpl.
  - by destruct (f (x, (w, l))) as [a [x' [w' l']]].
  - destruct (f (x, (w, l))) as [[e|] [x' [w' l']]]; [|done]. destruct (IsConflict e); [apply IH|done].
Qed.

(** A function that closes over nothing. *)
Definition without_variables {W} (f : SM W (option GoError)) : SM (unit * W) (option GoError) := λ '(_, w),
  match f w with (r, w) => (r, (tt, w)) end.

(** A retried function is followed through its last attempt. *)
Lemma traces_attempts {W E} (J : list E → E → Prop) l (f : SM (W * list E) (option GoError)) Q n w :
  (∀ l', l `prefix_of` l' → traces J l' f Q) →
  ∀ r, attempts (without_variables f) n (tt, (w, l)) = Some r →
  ∃ k, r.2.2.2 = l ++ k ∧ justified J l k ∧ Q r.1 (l ++ k).
Proof.
  revert w l. induction n as [|n IH]; intros w l Hf [r [[] [w' l']]] Hn; simpl in Hn; destruct (Hf l ltac:(done) w) as (k & Hk & Hj & HQ).
  - destruct (f (w, l)) as [r0 [w0 l0]]. simpl in *. injection Hn as -> -> ->. by exists k.
  - destruct (f (w, l)) as [[e|] [w0 l0]]; simpl in Hk, HQ, Hn; subst l0; [|by simplify_eq; exists k].
    destruct (IsConflict e); [|by simplify_eq; exists k].
    destruct (IH w0 (l ++ k) ltac:(intros l2 Hl2; apply Hf; etrans; [by eexists|done]) _ Hn) as (k' & Hk' & Hj' & HQ'). simpl in Hk'. subst l'.
    exists (k ++ k'). rewrite app_assoc. split_and!; [done| |done]. by apply justified_app.
Qed.

Class ClientLaws (W : Type) (C : Client W) := {
  (** RetryOnConflict returns what one of the runs of its function returned, and
      only runs it again after a conflict. *)
  retry_attempts X (f : SM (X * W) (option GoError)) w : ∃ n, attempts f n w = Some (RetryOnConflict X f w) }.

(** A retried function that closes over nothing. *)
Definition retry {W} {C : Client W} (f : SM W (option GoError)) : SM W (option GoError) := λ w,
  match RetryOnConflict unit (λ '(_, w), match f w with (r, w) => (r, (tt, w)) end) (tt, w) with
  | (r, (_, w)) => (r, w)
  end.

(** What holds of every run that starts where [I] holds, and of the state a
    conflict leaves, holds of the retried function. *)
Lemma RetryOnConflict_invariant {W} {C : Client W} {CL : ClientLaws W C} X
    (f : SM (X * W) (option GoError)) (I : X * W → Prop) (Q : option GoError → X * W → Prop) w :
  (∀ w, I w → Q (f w).1 (f w).2 ∧ ((f w).1 ≠ None → I (f w).2)) →
  I w → Q (RetryOnConflict X f w).1 (RetryOnConflict X f w).2.
Proof.
  intros Hf Hw. destruct (retry_attempts X f w) as [n Hn]. revert Hn.
  generalize (RetryOnConflict X f w). intros r Hn. revert w Hn Hw. induction n as [|n IH]; intros w Hn Hw; simpl in Hn.
  - simplify_eq. by apply Hf.
  - specialize (Hf w Hw). destruct (f w) as [[e|] w']; [|done].
    destruct (IsConflict e); [|done]. apply (IH w'); [done|]. by apply Hf.
Qed.

Lemma retry_invariant {W} {C : Client W} {CL : ClientLaws W C} (f : SM W (option GoError)) (I : W → Prop)
    (Q : option GoError → W → Prop) w :
  (∀ w, I w → Q (f w).1 (f w).2 ∧ ((f w).1 ≠ None → I (f w).2)) → I w → Q (retry f w).1 (retry f w).2.
Proof.
  intros Hf Hw. unfold retry.
  pose proof (RetryOnConflict_invariant unit (λ '(_, w), match f w with (r, w) => (r, (tt, w)) end)
    (λ xw, I xw.2) (λ r xw, Q r xw.2) (tt, w)) as H1.
  destruct (RetryOnConflict _ _ _) as [r [[] w']]. apply H1; [|done].
  intros [[] w0] Hw0. specialize (Hf w0 Hw0). by destruct (f w0).
Qed.

(** The DPUNodeMaintenance objects of a world nobody else writes to during a
    call: a read returns what is stored, a write that reports no error stores its
    object, and a call that fails changes nothing. *)
Class MaintenanceStore (W : Type) (C : Client W) := {
  dnms : W → gmap NamespacedName DPUNodeMaintenance;
  (** The calls that read nodes and clusters. *)
  get_node_dnm k w : dnms (getDPUNode k w).2 = dnms w;
  get_kubenode_dnm k w : dnms (getKubeNode k w).2 = dnms w;
  get_cluster_dnm k w : dnms (getDPUCluster k w).2 = dnms w;
  connect_dnm dc w : dnms (connectCluster dc w).2 = dnms w;
  get_cluster_node_dnm dc k w : dnms (getClusterNode dc k w).2 = dnms w;
  get_dnm k w :
    dnms (getDPUNodeMaintenance k w).2 = dnms w ∧
    match (getDPUNodeMaintenance k w).1 with
    | Ok d => dnms w !! k = Some d ∧ dnm_key d = k
    | Err e => IsNotFound e = true → dnms w !! k = None
    end;
  create_dnm d w :
    dnms (createDPUNodeMaintenance_api d w).2 =
      match (createDPUNodeMaintenance_api d w).1 with
      | None => <[dnm_key d := d]> (dnms w)
      | Some _ => dnms w
      end;
  update_dnm d w :
    dnms (updateDPUNodeMaintenance d w).2 =
      match (updateDPUNodeMaintenance d w).1 with
      | None => <[dnm_key d := d]> (dnms w)
      | Some _ => dnms w
      end;
  patch_dnm d d' w :
    dnms (patchDPUNodeMaintenance d d' w).2 =
      match (patchDPUNodeMaintenance d d' w).1 with
      | None => <[dnm_key d' := d']> (dnms w)
      | Some _ => dnms w
      end }.

(** [GetDPFOperatorConfig] of internal/utils/utils.go. *)
Definition GetDPFOperatorConfig {W} {C : Client W} : SM W (Res DPFOperatorConfig) :=
  r ← listDPFOperatorConfigs;
  match r with
  | Err e => mret (Err (wrapf "listing DPFOperatorConfigs: " e))
  | Ok [] => mret (Err (mkGoError KNoOperatorConfig "no DPFOperatorConfig exists"))
  | Ok [c] => mret (Ok c)
  | Ok _ => mret (Err (errorf "exactly one DPFOperatorConfig must exist"))
  end.
