(* ===== verification/FakeClient.v ===== *)
(** An in-memory instance of the services of Kubernetes.v: maps of objects, one
    writer, no conflicts.  The witnesses of the theorems evaluate handlers on it;
    no theorem depends on it. *)

From S2P Require Import Prelude.
From S2P Require Import Meta.
From S2P Require Import Conditions.
From S2P Require Import DPUTypes.
From S2P Require Import Kubernetes.
From Stdlib Require Import Ascii.

(** ** A codec: any countable value as a string of bits *)

Fixpoint pos_bits (p : positive) : string :=
  match p with
  | xH => "."
  | xO p => String "0"%char (pos_bits p)
  | xI p => String "1"%char (pos_bits p)
  end.

Fixpoint bits_pos (s : string) : option positive :=
  match s with
  | "." => Some xH
  | String "0"%char s => xO <$> bits_pos s
  | String "1"%char s => xI <$> bits_pos s
  | _ => None
  end.

Lemma bits_pos_bits p : bits_pos (pos_bits p) = Some p.
Proof. induction p as [p IH|p IH|]; simpl; by rewrite ?IH. Qed.

Definition encode_text {A} `{Countable A} (x : A) : string := pos_bits (encode x).
Definition decode_text {A} `{Countable A} (s : string) : Res A :=
  match bits_pos s ≫= decode with
  | Some x => Ok x
  | None => Err (errorf "invalid character")
  end.

Lemma decode_encode_text {A} `{Countable A} (x : A) : decode_text (encode_text x) = Ok x.
Proof. unfold decode_text, encode_text. rewrite bits_pos_bits. simpl. by rewrite decode_encode. Qed.

Definition fake_codec : Codec := {|
  json_strings := encode_text;
  unjson_strings := decode_text;
  json_map m := encode_text m;
  unjson_map := decode_text;
  json_taint t := tt_Key t +:+ tt_Value t +:+ tt_Effect t;
  sha256_hex s := s |}.

#[export] Instance fake_codec_laws : CodecLaws fake_codec.
Proof.
  split; try (intros; apply decode_encode_text).
  intros m. simpl. unfold encode_text. by destruct (encode m).
Qed.

(** A selector is the name of a label that must be present. *)
Definition fake_selectors : SelectorAPI := {|
  ParseLabelSelector s := Ok (λ labels, bool_decide (is_Some (labels !! s)));
  NewEqualsRequirement _ _ := None |}.

(** ** The world *)

Record World := mkWorld {
  w_dpunodes : gmap NamespacedName DPUNode;
  w_devices : gmap NamespacedName DPUDevice;
  w_bfbs : gmap NamespacedName BFB;
  w_softwares : gmap NamespacedName BlueFieldSoftware;
  w_flavors : gmap NamespacedName DPUFlavor;
  w_clusters : gmap NamespacedName DPUCluster;
  w_nodes : gmap NamespacedName Node;
  w_maintenances : gmap NamespacedName DPUNodeMaintenance;
  w_dpus : gmap NamespacedName DPU;
  w_configs : list DPFOperatorConfig;
  w_cluster_nodes : gmap NamespacedName Node }.

Definition empty_world : World := mkWorld ∅ ∅ ∅ ∅ ∅ ∅ ∅ ∅ ∅ [] ∅.

Definition with_maintenances (m : gmap NamespacedName DPUNodeMaintenance) (w : World) : World :=
  mkWorld (w_dpunodes w) (w_devices w) (w_bfbs w) (w_softwares w) (w_flavors w) (w_clusters w)
    (w_nodes w) m (w_dpus w) (w_configs w) (w_cluster_nodes w).
Definition with_devices (m : gmap NamespacedName DPUDevice) (w : World) : World :=
  mkWorld (w_dpunodes w) m (w_bfbs w) (w_softwares w) (w_flavors w) (w_clusters w)
    (w_nodes w) (w_maintenances w) (w_dpus w) (w_configs w) (w_cluster_nodes w).
Definition with_flavors (m : gmap NamespacedName DPUFlavor) (w : World) : World :=
  mkWorld (w_dpunodes w) (w_devices w) (w_bfbs w) (w_softwares w) m (w_clusters w)
    (w_nodes w) (w_maintenances w) (w_dpus w) (w_configs w) (w_cluster_nodes w).
Definition with_softwares (m : gmap NamespacedName BlueFieldSoftware) (w : World) : World :=
  mkWorld (w_dpunodes w) (w_devices w) (w_bfbs w) m (w_flavors w) (w_clusters w)
    (w_nodes w) (w_maintenances w) (w_dpus w) (w_configs w) (w_cluster_nodes w).
Definition with_dpus (m : gmap NamespacedName DPU) (w : World) : World :=
  mkWorld (w_dpunodes w) (w_devices w) (w_bfbs w) (w_softwares w) (w_flavors w) (w_clusters w)
    (w_nodes w) (w_maintenances w) m (w_configs w) (w_cluster_nodes w).
Definition with_cluster_nodes (m : gmap NamespacedName Node) (w : World) : World :=
  mkWorld (w_dpunodes w) (w_devices w) (w_bfbs w) (w_softwares w) (w_flavors w) (w_clusters w)
    (w_nodes w) (w_maintenances w) (w_dpus w) (w_configs w) m.

Definition not_found : GoError := mkGoError KNotFound "not found".
Definition found {A} (o : option A) : Res A := match o with Some a => Ok a | None => Err not_found end.

Definition get_in {A} (field : World → gmap NamespacedName A) (nn : NamespacedName) : SM World (Res A) :=
  λ w, (match field w !! nn with Some x => Ok x | None => Err not_found end, w).

(** Writes succeed on an object that exists. *)
Definition write_in {A} (field : World → gmap NamespacedName A) (set : gmap NamespacedName A → World → World)
    (nn : NamespacedName) (x : A) : SM World (option GoError) :=
  λ w, match field w !! nn with
       | Some _ => (None, set (<[nn := x]> (field w)) w)
       | None => (Some not_found, w)
       end.

Definition fake_client : Client World := {|
  getDPUNode := get_in w_dpunodes;
  getDPUDevice := get_in w_devices;
  getBFB := get_in w_bfbs;
  getBlueFieldSoftware := get_in w_softwares;
  getDPUFlavor := get_in w_flavors;
  getDPUCluster := get_in w_clusters;
  getKubeNode := get_in w_nodes;
  getDPUNodeMaintenance nn w :=
    (match w_maintenances w !! nn with
     | Some d => if decide (dnm_key d = nn) then Ok d else Err not_found
     | None => Err not_found
     end, w);
  getDPU := get_in w_dpus;
  listDPUs w := (Ok (map_to_list (w_dpus w)).*2, w);
  listDPUClusters w := (Ok (map_to_list (w_clusters w)).*2, w);
  listDPFOperatorConfigs w := (Ok (w_configs w), w);
  createDPUNodeMaintenance_api d w :=
    match w_maintenances w !! dnm_key d with
    | Some _ => (Some (mkGoError KAlreadyExists "already exists"), w)
    | None => (None, with_maintenances (<[dnm_key d := d]> (w_maintenances w)) w)
    end;
  updateDPUNodeMaintenance d := write_in w_maintenances with_maintenances (dnm_key d) d;
  patchDPUNodeMaintenance _ d := write_in w_maintenances with_maintenances (dnm_key d) d;
  updateDPUDevice d := write_in w_devices with_devices (mkNN (dd_Namespace d) (dd_Name d)) d;
  patchDPUFlavor _ f := write_in w_flavors with_flavors (mkNN (fl_Namespace f) (fl_Name f)) f;
  updateDPU d := write_in w_dpus with_dpus (dpu_key d) d;
  patchDPU _ d := write_in w_dpus with_dpus (dpu_key d) d;
  patchDPUStatus _ d := write_in w_dpus with_dpus (dpu_key d) d;
  existsObj _ w := (Err not_found, w);
  deleteObj _ w := (Some not_found, w);
  connectCluster _ w := (None, w);
  (* nodes have no namespace *)
  getClusterNode _ k := get_in w_cluster_nodes (mkNN "" (nn_name k));
  patchClusterNode _ _ n := write_in w_cluster_nodes with_cluster_nodes (mkNN "" (no_Name n)) n;
  deleteClusterNode _ name w := (None, with_cluster_nodes (delete (mkNN "" name) (w_cluster_nodes w)) w);
  listClusterSecrets _ _ w := (Ok [], w);
  deleteClusterSecret _ _ w := (None, w);
  ensureDPUAgentRole _ _ w := (None, w);
  deleteDPUAgentBootstrapTokens _ w := (None, w);
  redfishAcquire _ w := (None, w);
  redfishUEFI _ w := (Ok "", w);
  redfishBSP _ w := (Ok "", w);
  GenerateJoinCommand _ _ w := (Ok "kubeadm join", w);
  setOwnerReference _ _ w := (None, w);
  createSecret _ _ w := (None, w);
  createDPUAgentBootstrapToken _ w := (Ok "token", w);
  GenerateBF3 _ _ _ w := (Ok "bf.cfg", w);
  GenerateBF4 _ _ _ w := (Ok ("user-data", "network-config"), w);
  mkdirAll _ w := (None, w);
  writeFile _ _ w := (None, w);
  mkIso base _ w := (Ok (base +:+ ".iso"), w);
  removeFile _ w := (None, w);
  removeAll _ w := (None, w);
  RetryOnConflict _ f := f;
  InjectIntoObject m := m |}.

(** Without conflicts the first run is the one that counts. *)
#[export] Instance fake_client_laws : ClientLaws World fake_client.
Proof. split. intros X f w. by exists 0. Qed.

(** Objects are filed under their own name. *)
#[export] Instance fake_maintenance_store : MaintenanceStore World fake_client.
Proof.
  refine {| dnms w := filter (λ kd, dnm_key kd.2 = kd.1) (w_maintenances w) |}; simpl; try done.
  - intros k w. destruct (w_maintenances w !! k) as [d|] eqn:E; simpl.
    + case_decide; simpl; (split; [done|]).
      * split; [|done]. by apply map_lookup_filter_Some.
      * intros _. apply map_lookup_filter_None. right. intros ? ?. by simplify_eq.
    + split; [done|]. intros _. apply map_lookup_filter_None. by left.
  - intros d w. destruct (w_maintenances w !! dnm_key d); simpl; [done|]. by rewrite map_filter_insert_True.
  - intros d w. unfold write_in. destruct (w_maintenances w !! dnm_key d); simpl; [|done].
    by rewrite map_filter_insert_True.
  - intros _ d w. unfold write_in. destruct (w_maintenances w !! dnm_key d); simpl; [|done].
    by rewrite map_filter_insert_True.
Defined.

Definition example_software (name : string) (finalizers : list string) : BlueFieldSoftware :=
  mkBFS name "ns" (name +:+ "-uid") 1 finalizers None (mkBlueFieldSpec "http://images/os.iso" ∅ None None) "Initializing"
    None (mkDownloadedComponents ∅ "" "" "") 0 [].
