(* ===== verification/Allocator.v ===== *)
(** internal/provisioning/controllers/allocator/allocator.go: the cache of
    clusters and of the DPUs assigned to them, and the bin packing that picks a
    cluster for a new DPU.

    [ClusterInfo] values are shared by the two maps of the cache through
    pointers, and [Allocate] updates the one it was handed after the patch, so
    the cache is kept on a heap.  The mutex of the allocator is held for the
    whole body of every operation. *)

From S2P Require Import Prelude.
From S2P Require Import Meta.
From S2P Require Import Conditions.
From S2P Require Import DPUTypes.
From S2P Require Import DPUConditions.
From S2P Require Import Kubernetes.
From S2P Require Import FakeClient.
From Stdlib Require Import SpecFloat.

(** ** float64 *)

Definition float64 (z : Z) : spec_float := binary_normalize 53 1024 z 0 false.
Definition fdiv (x y : spec_float) : spec_float := SFdiv 53 1024 x y.
(** [x > y] *)
Definition fgt (x y : spec_float) : bool := SFltb y x.

(** ** State *)

Record ClusterInfo := mkCI { ci_cluster : DPUCluster; ci_dpus : gmap string DPU }.

(** The cache with its heap; [al_next] is above every location in use. *)
Record allocator := mkAllocator {
  al_synced : bool;
  al_heap : gmap positive ClusterInfo;
  al_next : positive;
  al_clusterInfoMap : gmap string positive;
  al_idxByName : gmap NamespacedName positive }.

Definition NewAllocator : allocator := mkAllocator false ∅ 1 ∅ ∅.

Definition with_heap (h : gmap positive ClusterInfo) (a : allocator) : allocator :=
  mkAllocator (al_synced a) h (al_next a) (al_clusterInfoMap a) (al_idxByName a).
Definition with_synced (a : allocator) : allocator :=
  mkAllocator true (al_heap a) (al_next a) (al_clusterInfoMap a) (al_idxByName a).

Definition dc_key (dc : DPUCluster) : NamespacedName := mkNN (dc_Namespace dc) (dc_Name dc).
Definition dpu_cluster_key (dpu : DPU) : NamespacedName :=
  mkNN (kc_Namespace (sp_Cluster (dpu_Spec dpu))) (kc_Name (sp_Cluster (dpu_Spec dpu))).

(** ** Operations of the cache *)

(** The method writes through the pointer [l]. *)
Definition addAllocated (l : positive) (dpu : DPU) (a : allocator) : allocator :=
  with_heap (alter (λ ci, mkCI (ci_cluster ci) (<[dpu_UID dpu := dpu]> (ci_dpus ci))) l (al_heap a)) a.

Definition getByName (name : NamespacedName) (a : allocator) : option positive := al_idxByName a !! name.

Definition saveDPU (dpu : DPU) (a : allocator) : allocator :=
  if deleting dpu || bool_decide (kc_Name (sp_Cluster (dpu_Spec dpu)) = "") then a
  else match getByName (dpu_cluster_key dpu) a with
       | None => a
       | Some ci => addAllocated ci dpu a
       end.

Definition saveCluster (dc : DPUCluster) (a : allocator) : allocator :=
  match al_clusterInfoMap a !! dc_UID dc with
  | Some l => with_heap (alter (λ ci, mkCI dc (ci_dpus ci)) l (al_heap a)) a
  | None =>
      mkAllocator (al_synced a) (<[al_next a := mkCI dc ∅]> (al_heap a)) (Pos.succ (al_next a))
        (<[dc_UID dc := al_next a]> (al_clusterInfoMap a))
        (<[dc_key dc := al_next a]> (al_idxByName a))
  end.

Definition removeCluster (dc : DPUCluster) (a : allocator) : allocator :=
  mkAllocator (al_synced a) (al_heap a) (al_next a)
    (delete (dc_UID dc) (al_clusterInfoMap a)) (delete (dc_key dc) (al_idxByName a)).

Definition ReleaseDPU (dpu : DPU) (a : allocator) : allocator :=
  match getByName (dpu_cluster_key dpu) a with
  | None => a
  | Some l =>
      with_heap (alter (λ ci, mkCI (ci_cluster ci) (delete (dpu_UID dpu) (ci_dpus ci))) l (al_heap a)) a
  end.

Definition getDPUsCount (dc : DPUCluster) (a : allocator) : nat :=
  match al_clusterInfoMap a !! dc_UID dc with
  | None => 0
  | Some l => match al_heap a !! l with Some ci => size (ci_dpus ci) | None => 0 end
  end.

(** ** Selection *)

Definition PhaseReady := "Ready".

(** The three [continue]s of the second loop. *)
Definition feasible (ci : ClusterInfo) : bool :=
  timep_is_zero (dc_DeletionTimestamp (ci_cluster ci)) &&
  bool_decide (dc_Phase (ci_cluster ci) = PhaseReady) &&
  negb (Z.of_nat (size (ci_dpus ci)) >=? dc_MaxNodes (ci_cluster ci))%Z.

Definition ratio (ci : ClusterInfo) : spec_float :=
  fdiv (float64 (Z.of_nat (size (ci_dpus ci)))) (float64 (dc_MaxNodes (ci_cluster ci))).

(** The body of the second loop, on (bestCluster, maxRatio); [deref] is the heap. *)
Definition best_step (heap : gmap positive ClusterInfo) (acc : option positive * spec_float) (l : positive)
    : option positive * spec_float :=
  match heap !! l with
  | None => acc
  | Some ci =>
      if negb (feasible ci) then acc
      else if fgt (ratio ci) acc.2 then (Some l, ratio ci) else acc
  end.

(** The first loop: the clusters whose labels match. *)
Definition matching_step (Matches : gmap string string → bool) (a : allocator) (m : gmap string positive)
    (kl : string * positive) : gmap string positive :=
  match al_heap a !! kl.2 with
  | Some ci => if Matches (dc_Labels (ci_cluster ci)) then <[dc_UID (ci_cluster ci) := kl.2]> m else m
  | None => m
  end.
Definition matching {R : MapRange} (Matches : gmap string string → bool) (a : allocator) : gmap string positive :=
  foldl (matching_step Matches a) ∅ (range_map (al_clusterInfoMap a)).

Definition getFeasibleClusterBinPacking {R : MapRange} {S : SelectorAPI} (labelSelector : option string)
    (a : allocator) : Res positive :=
  match LabelSelectorAsSelector labelSelector with
  | Err err => Err (wrapf "failed to parse label selector: " err)
  | Ok Matches =>
      match foldl (best_step (al_heap a)) (None, float64 (-1)) (range_map (matching Matches a)).*2 with
      | (Some bestCluster, _) => Ok bestCluster
      | (None, _) => Err (errorf "no feasible cluster found")
      end
  end.

(** ** The allocator *)

Section Allocate.
Context {W : Type} {C : Client W} {R : MapRange} {S : SelectorAPI}.

Definition syncAssignedDPUs : SM (allocator * W) (option GoError) := λ '(a, w),
  match listDPUClusters w with
  | (Err err, w) => (Some err, (a, w))
  | (Ok dcs, w) =>
      let a := foldl (λ a dc, saveCluster dc a) a dcs in
      match listDPUs w with
      | (Err err, w) => (Some err, (a, w))
      | (Ok dpus, w) => (None, (with_synced (foldl (λ a dpu, saveDPU dpu a) a dpus), w))
      end
  end.

(** The part of [Allocate] after the cache is synced: the choice, the change of
    the DPU the caller holds, and the deferred patch, which alone decides the
    error that is returned and whether the cache learns of the DPU.  The result
    is the error or the cluster, and the DPU as the caller sees it afterwards. *)
Definition allocate_synced (dpu : DPU) : SM (allocator * W) (Res NamespacedName * DPU) := λ '(a, w),
  match getFeasibleClusterBinPacking (kc_Selector (sp_Cluster (dpu_Spec dpu))) a with
  | Err err => ((Err err, dpu), (a, w))
  | Ok l =>
      match al_heap a !! l with
      | None => ((Err (errorf "ci and ci.cluster should not be nil"), dpu), (a, w))
      | Some ci =>
          let result := dc_key (ci_cluster ci) in
          let c := sp_Cluster (dpu_Spec dpu) in
          let dpu' := with_Spec (with_Cluster
            (mkK8sCluster (nn_name result) (nn_namespace result) (kc_NodeLabels c)
               (kc_NodeAnnotations c) (kc_Selector c)) (dpu_Spec dpu)) dpu in
          match patchDPU dpu dpu' w with
          | (Some reterr, w) => ((Err reterr, dpu'), (a, w))
          | (None, w) => ((Ok result, dpu'), (addAllocated l dpu' a, w))
          end
      end
  end.

Definition Allocate (dpu : DPU) : SM (allocator * W) (Res NamespacedName * DPU) := λ '(a, w),
  if al_synced a then allocate_synced dpu (a, w)
  else match syncAssignedDPUs (a, w) with
       | (Some reterr, aw) => ((Err reterr, dpu), aw)
       | (None, aw) => allocate_synced dpu aw
       end.
End Allocate.

(** ** The comparison of float64 values *)

Lemma SFltb_irrefl x : SFltb x x = false.
Proof.
  destruct x as [[]|[]| |[] m e]; unfold SFltb; simpl; try done;
    rewrite Z.compare_refl; change (Pos.compare_cont Eq m m) with (Pos.compare m m);
    by rewrite Pos.compare_refl.
Qed.

Lemma SFltb_trans x y z : SFltb x y = true → SFltb y z = true → SFltb x z = true.
Proof.
  unfold SFltb.
  destruct x as [[]|[]| |[] m1 e1], y as [[]|[]| |[] m2 e2], z as [[]|[]| |[] m3 e3]; simpl; try done;
    change (Pos.compare_cont Eq) with Pos.compare;
    destruct (Z.compare_spec e1 e2), (Z.compare_spec e2 e3), (Z.compare_spec e1 e3); try done; try lia;
    destruct (Pos.compare_spec m1 m2), (Pos.compare_spec m2 m3), (Pos.compare_spec m1 m3);
    simpl; try done; lia.
Qed.

(** Rounding a quotient that is not negative gives a value above -1. *)
Lemma shr_1_nonneg r : (0 <= shr_m r)%Z → (0 <= shr_m (shr_1 r))%Z.
Proof. destruct r as [[|[]|[]] ? ?]; simpl; lia. Qed.

Lemma iter_pos_nonneg p r : (0 <= shr_m r)%Z → (0 <= shr_m (iter_pos shr_1 p r))%Z.
Proof. revert r. induction p; intros r; simpl; auto using shr_1_nonneg. Qed.

Lemma shr_fexp_nonneg m e l : (0 <= m)%Z → (0 <= shr_m (shr_fexp 53 1024 m e l).1)%Z.
Proof.
  intros Hm. unfold shr_fexp, shr.
  assert (0 <= shr_m (shr_record_of_loc m l))%Z by (destruct l as [|[]]; done).
  destruct (_ - _)%Z; simpl; auto using iter_pos_nonneg.
Qed.

Lemma round_above m e l : (0 <= m)%Z → fgt (binary_round_aux 53 1024 false m e l) (float64 (-1)) = true.
Proof.
  intros Hm. unfold binary_round_aux.
  pose proof (shr_fexp_nonneg m e l Hm) as H1. destruct (shr_fexp 53 1024 m e l) as [r e1].
  assert (0 <= round_nearest_even (shr_m r) (loc_of_shr_record r))%Z as H2.
  { simpl in H1. destruct (loc_of_shr_record r) as [|[]]; simpl; repeat case_match; lia. }
  pose proof (shr_fexp_nonneg _ e1 loc_Exact H2) as H3.
  destruct (shr_fexp 53 1024 _ e1 loc_Exact) as [r' e2]. simpl in H3.
  destruct (shr_m r'); [done| |lia]. by destruct (Z.leb _ _).
Qed.

(** The API server admits between 1 and 3000 nodes per cluster. *)
Definition max_nodes_valid (dc : DPUCluster) : Prop := (1 <= dc_MaxNodes dc <= 3000)%Z.

Definition positive_finite (x : spec_float) : bool :=
  match x with S754_finite false _ _ => true | _ => false end.

Lemma float64_small z : (1 <= z <= 3000)%Z → positive_finite (float64 z) = true.
Proof.
  intros Hz.
  assert (forallb (λ n, positive_finite (float64 (Z.of_nat n))) (List.seq 1 3000) = true) as Hall
    by (vm_compute; reflexivity).
  rewrite List.forallb_forall in Hall. specialize (Hall (Z.to_nat z)).
  rewrite Z2Nat.id in Hall by lia. apply Hall, List.in_seq. lia.
Qed.

Lemma feasible_true ci :
  feasible ci = true ↔
  timep_is_zero (dc_DeletionTimestamp (ci_cluster ci)) = true ∧ dc_Phase (ci_cluster ci) = PhaseReady ∧
  (Z.of_nat (size (ci_dpus ci)) < dc_MaxNodes (ci_cluster ci))%Z.
Proof.
  unfold feasible. rewrite !andb_true_iff, bool_decide_eq_true, negb_true_iff, Z.geb_leb, Z.leb_gt. tauto.
Qed.

Lemma ratio_above ci :
  max_nodes_valid (ci_cluster ci) → feasible ci = true → fgt (ratio ci) (float64 (-1)) = true.
Proof.
  intros Hm (_ & _ & Hlt)%feasible_true. unfold ratio, fdiv, max_nodes_valid in *.
  pose proof (float64_small _ Hm) as Hd.
  destruct (float64 (dc_MaxNodes _)) as [[]|[]| |[] m2 e2]; try done.
  destruct (decide (size (ci_dpus ci) = 0)) as [->|]; [done|].
  assert (positive_finite (float64 (Z.of_nat (size (ci_dpus ci)))) = true) as Hn by (apply float64_small; revert Hm Hlt n; generalize (size (ci_dpus ci)); intros; lia).
  destruct (float64 (Z.of_nat _)) as [[]|[]| |[] m1 e1]; try done.
  unfold SFdiv. destruct (SFdiv_core_binary 53 1024 _ _ _ _) as [[q e] l] eqn:E.
  apply round_above. revert E. unfold SFdiv_core_binary. intros E.
  match type of E with context [Z.div_eucl ?a ?b] =>
    pose proof (Z_div_mod a b ltac:(lia)) as Hdiv;
    assert (0 <= a)%Z as Ha by (destruct (_ - _ - _)%Z; [|apply Z.shiftl_nonneg|]; lia);
    destruct (Z.div_eucl a b) as [q' r'] end.
  simplify_eq. destruct Hdiv as [Hq Hr]. nia.
Qed.

(** ** The choice *)

Section Best.
Context (heap : gmap positive ClusterInfo).

(** [l] is a feasible cluster of the heap. *)
Definition feasible_at (l : positive) (ci : ClusterInfo) : Prop := heap !! l = Some ci ∧ feasible ci = true.

(** What the second loop knows after the clusters [ls]. *)
Definition best_inv (ls : list positive) (acc : option positive * spec_float) : Prop :=
  (∀ l ci, l ∈ ls → feasible_at l ci → fgt (ratio ci) acc.2 = false) ∧
  match acc.1 with
  | Some b => b ∈ ls ∧ ∃ ci, feasible_at b ci ∧ acc.2 = ratio ci
  | None => acc.2 = float64 (-1)
  end.

Lemma best_step_inv ls acc l : best_inv ls acc → best_inv (ls ++ [l]) (best_step heap acc l).
Proof.
  intros [Hmax Hbest]. unfold best_step.
  assert (∀ acc', acc'.1 = acc.1 → acc' = acc →
    (∀ ci, feasible_at l ci → fgt (ratio ci) acc.2 = false) → best_inv (ls ++ [l]) acc') as Hkeep.
  { intros acc' _ -> Hl. split.
    - intros l' ci [?| ->%list_elem_of_singleton]%elem_of_app; eauto.
    - destruct acc.1; [|done]. destruct Hbest as [? ?]. split; [apply elem_of_app; auto|done]. }
  destruct (heap !! l) as [ci|] eqn:El; [|apply Hkeep; [done..|intros ? [? ?]; congruence]].
  destruct (feasible ci) eqn:Ef; simpl; [|apply Hkeep; [done..|intros ? [? ?]; congruence]].
  destruct (fgt (ratio ci) acc.2) eqn:Er;
    [|apply Hkeep; [done..|intros ? [? ?]; congruence]].
  split; simpl.
  - intros l' ci' [Hin| ->%list_elem_of_singleton]%elem_of_app Hf.
    + specialize (Hmax _ _ Hin Hf). unfold fgt in *. apply not_true_iff_false. intros Ht.
      rewrite (SFltb_trans _ _ _ Er Ht) in Hmax. done.
    + destruct Hf as [? _]. simplify_eq. apply SFltb_irrefl.
  - split; [apply elem_of_app; right; by left|]. by exists ci.
Qed.

Lemma best_fold ls : best_inv ls (foldl (best_step heap) (None, float64 (-1)) ls).
Proof.
  induction ls as [|l ls IH] using rev_ind; [split; [by intros ? ? ?%elem_of_nil|done]|].
  rewrite foldl_app. by apply best_step_inv.
Qed.
End Best.

(** ** Well-formed caches *)

(** Every pointer of the two maps is live, a cluster is filed under its UID and
    under its name, and no location is reused. *)
Record alloc_wf (a : allocator) : Prop := {
  wf_info uid l : al_clusterInfoMap a !! uid = Some l →
    ∃ ci, al_heap a !! l = Some ci ∧ dc_UID (ci_cluster ci) = uid;
  wf_index n l : al_idxByName a !! n = Some l →
    ∃ ci, al_heap a !! l = Some ci ∧ dc_key (ci_cluster ci) = n ∧
          al_clusterInfoMap a !! dc_UID (ci_cluster ci) = Some l;
  wf_next l : is_Some (al_heap a !! l) → (l < al_next a)%positive }.

Lemma matching_fold Matches (a : allocator) kls m uid l :
  alloc_wf a → NoDup kls.*1 → (∀ kl, kl ∈ kls → al_clusterInfoMap a !! kl.1 = Some kl.2) →
  (∀ kl, kl ∈ kls → m !! kl.1 = None) →
  foldl (matching_step Matches a) m kls !! uid = Some l ↔
  m !! uid = Some l ∨
  ((uid, l) ∈ kls ∧ ∃ ci, al_heap a !! l = Some ci ∧ Matches (dc_Labels (ci_cluster ci)) = true).
Proof.
  intros Hwf. revert m. induction kls as [|[u l0] kls IH]; intros m Hnd Hin Hm; simpl.
  { split; [auto|]. intros [?|[?%elem_of_nil _]]; done. }
  apply NoDup_cons in Hnd as [Hu Hnd].
  destruct (wf_info a Hwf u l0) as (ci & Hci & Huid); [apply (Hin (u, l0)); left|].
  assert (∀ kl, kl ∈ kls → kl.1 ≠ u) as Hne.
  { intros kl Hkl E. apply Hu, list_elem_of_fmap. eauto. }
  assert (m !! u = None) as Hmu by (apply (Hm (u, l0)); left).
  assert (matching_step Matches a m (u, l0) =
    if Matches (dc_Labels (ci_cluster ci)) then <[u := l0]> m else m) as ->
    by (unfold matching_step; simpl; by rewrite Hci, Huid).
  rewrite IH; [|done| |].
  - rewrite elem_of_cons. destruct (Matches _) eqn:HM.
    + destruct (decide (uid = u)) as [->|].
      * rewrite lookup_insert_eq, Hmu. split.
        -- intros [[= ->]|[Hk _]]; [right; eauto|]. by apply Hne in Hk.
        -- intros [?|[[[= <-]|Hk] _]]; [done|auto|]. by apply Hne in Hk.
      * rewrite lookup_insert_ne by done. naive_solver.
    + split; [naive_solver|]. intros [?|[[[= -> ->]|?] (ci' & ? & ?)]]; [auto| |naive_solver].
      simplify_eq. congruence.
  - intros kl Hkl. apply Hin. by right.
  - intros kl Hkl. case_match; [rewrite lookup_insert_ne by (symmetry; by apply Hne)|];
      apply Hm; by right.
Qed.

Lemma matching_spec {R : MapRange} {RL : MapRangeLaws R} Matches a uid l :
  alloc_wf a →
  matching Matches a !! uid = Some l ↔
  al_clusterInfoMap a !! uid = Some l ∧
  ∃ ci, al_heap a !! l = Some ci ∧ Matches (dc_Labels (ci_cluster ci)) = true.
Proof.
  intros Hwf. unfold matching. rewrite matching_fold; [|done| | |].
  - rewrite elem_of_range_map, lookup_empty. naive_solver.
  - rewrite (range_map_perm _). apply NoDup_fst_map_to_list.
  - intros [k v]. by rewrite elem_of_range_map.
  - intros kl _. apply lookup_empty.
Qed.

(** The clusters [Allocate] may choose for a selector. *)
Definition candidate (Matches : gmap string string → bool) (a : allocator) (l : positive) (ci : ClusterInfo) : Prop :=
  al_clusterInfoMap a !! dc_UID (ci_cluster ci) = Some l ∧ al_heap a !! l = Some ci ∧
  Matches (dc_Labels (ci_cluster ci)) = true ∧ feasible ci = true.

Lemma matching_candidate {R : MapRange} {RL : MapRangeLaws R} Matches a l ci :
  alloc_wf a →
  (l ∈ (range_map (matching Matches a)).*2 ∧ feasible_at (al_heap a) l ci) ↔ candidate Matches a l ci.
Proof.
  intros Hwf. unfold candidate, feasible_at. rewrite list_elem_of_fmap. split.
  - intros [([uid l'] & -> & Hin) [Hci Hf]]. apply elem_of_range_map, matching_spec in Hin; [|done].
    simpl in *. destruct Hin as (Hm & ci' & ? & ?). simplify_eq.
    destruct (wf_info a Hwf _ _ Hm) as (? & ? & ?). simplify_eq. auto.
  - intros (Hm & Hci & HM & Hf). split; [|done]. exists (dc_UID (ci_cluster ci), l). split; [done|].
    apply elem_of_range_map, matching_spec; eauto.
Qed.

Lemma getFeasible_cases {R : MapRange} {RL : MapRangeLaws R} {S : SelectorAPI} sel a Matches :
  alloc_wf a → LabelSelectorAsSelector sel = Ok Matches →
  (∀ l ci, candidate Matches a l ci → max_nodes_valid (ci_cluster ci)) →
  (∃ l ci, getFeasibleClusterBinPacking sel a = Ok l ∧ candidate Matches a l ci ∧
           ∀ l' ci', candidate Matches a l' ci' → fgt (ratio ci') (ratio ci) = false) ∨
  (getFeasibleClusterBinPacking sel a = Err (errorf "no feasible cluster found") ∧
   ∀ l ci, ¬ candidate Matches a l ci).
Proof.
  intros Hwf HM Hmax. unfold getFeasibleClusterBinPacking. rewrite HM.
  destruct (best_fold (al_heap a) (range_map (matching Matches a)).*2) as [Hall Hb].
  destruct (foldl _ _ _) as [[b|] r]; cbn [fst snd] in *.
  - left. destruct Hb as (Hin & ci & Hf & ->). exists b, ci. split; [done|]. split.
    + by apply matching_candidate.
    + intros l' ci' Hc. apply matching_candidate in Hc as [? ?]; [|done]. by eapply Hall.
  - right. split; [done|]. intros l ci Hc. pose proof (Hmax _ _ Hc) as Hv.
    apply matching_candidate in Hc as [Hin Hf]; [|done]. specialize (Hall _ _ Hin Hf). subst r.
    rewrite (ratio_above ci Hv (proj2 Hf)) in Hall. done.
Qed.

(** ** Specification: the assignment without pointers *)

Record assignment := mkAssignment {
  as_info : gmap string (DPUCluster * gmap string DPU);
  as_index : gmap NamespacedName string }.

Definition view (a : allocator) : assignment :=
  mkAssignment
    (omap (λ l, (λ ci, (ci_cluster ci, ci_dpus ci)) <$> al_heap a !! l) (al_clusterInfoMap a))
    (omap (λ l, (λ ci, dc_UID (ci_cluster ci)) <$> al_heap a !! l) (al_idxByName a)).

Definition on_dpus (uid : string) (f : gmap string DPU → gmap string DPU) (s : assignment) : assignment :=
  mkAssignment (alter (prod_map id f) uid (as_info s)) (as_index s).

Inductive alloc_call :=
| CallSaveCluster (dc : DPUCluster)
| CallRemoveCluster (dc : DPUCluster)
| CallSaveAssignedDPU (dpu : DPU)
| CallReleaseDPU (dpu : DPU).

Definition alloc_step (a : allocator) (call : alloc_call) : allocator :=
  match call with
  | CallSaveCluster dc => saveCluster dc a
  | CallRemoveCluster dc => removeCluster dc a
  | CallSaveAssignedDPU dpu => saveDPU dpu a
  | CallReleaseDPU dpu => ReleaseDPU dpu a
  end.

Definition spec_step (s : assignment) (call : alloc_call) : assignment :=
  match call with
  | CallSaveCluster dc =>
      match as_info s !! dc_UID dc with
      | Some (_, dpus) => mkAssignment (<[dc_UID dc := (dc, dpus)]> (as_info s)) (as_index s)
      | None => mkAssignment (<[dc_UID dc := (dc, ∅)]> (as_info s)) (<[dc_key dc := dc_UID dc]> (as_index s))
      end
  | CallRemoveCluster dc =>
      mkAssignment (delete (dc_UID dc) (as_info s)) (delete (dc_key dc) (as_index s))
  | CallSaveAssignedDPU dpu =>
      if deleting dpu || bool_decide (kc_Name (sp_Cluster (dpu_Spec dpu)) = "") then s
      else match as_index s !! dpu_cluster_key dpu with
           | Some uid => on_dpus uid (insert (dpu_UID dpu) dpu) s
           | None => s
           end
  | CallReleaseDPU dpu =>
      match as_index s !! dpu_cluster_key dpu with
      | Some uid => on_dpus uid (delete (dpu_UID dpu)) s
      | None => s
      end
  end.

(** Kubernetes never renames an object: a cluster that is saved or removed has
    the name under which its UID is cached. *)
Definition not_renamed (s : assignment) (call : alloc_call) : Prop :=
  match call with
  | CallSaveCluster dc | CallRemoveCluster dc =>
      ∀ dc' dpus, as_info s !! dc_UID dc = Some (dc', dpus) → dc_key dc' = dc_key dc
  | _ => True
  end.

Fixpoint never_renamed (s : assignment) (calls : list alloc_call) : Prop :=
  match calls with
  | [] => True
  | call :: calls => not_renamed s call ∧ never_renamed (spec_step s call) calls
  end.

#[export] Instance not_renamed_dec s call : Decision (not_renamed s call).
Proof.
  destruct call as [dc|dc|?|?]; [..|by left|by left]; unfold not_renamed;
    (destruct (as_info s !! dc_UID dc) as [[dc' dpus]|];
       [destruct (decide (dc_key dc' = dc_key dc)); [left|right]|left]); try (by intros ? ? [=]; subst);
    intros Hn; by specialize (Hn _ _ eq_refl).
Defined.
#[export] Instance never_renamed_dec s calls : Decision (never_renamed s calls).
Proof. revert s. induction calls; intros s; simpl; apply _. Defined.

Lemma view_info a uid l ci :
  al_clusterInfoMap a !! uid = Some l → al_heap a !! l = Some ci →
  as_info (view a) !! uid = Some (ci_cluster ci, ci_dpus ci).
Proof. intros E1 E2. simpl. by rewrite lookup_omap, E1; simpl; rewrite E2. Qed.

Lemma view_index a n l ci :
  al_idxByName a !! n = Some l → al_heap a !! l = Some ci →
  as_index (view a) !! n = Some (dc_UID (ci_cluster ci)).
Proof. intros E1 E2. simpl. by rewrite lookup_omap, E1; simpl; rewrite E2. Qed.

Lemma view_index_None a n : alloc_wf a → as_index (view a) !! n = None ↔ al_idxByName a !! n = None.
Proof.
  intros Hwf. simpl. rewrite lookup_omap. destruct (al_idxByName a !! n) as [l|] eqn:E; [|done].
  destruct (wf_index a Hwf _ _ E) as (ci & Hci & _). simpl. by rewrite Hci.
Qed.

Lemma view_info_None a uid : alloc_wf a → as_info (view a) !! uid = None ↔ al_clusterInfoMap a !! uid = None.
Proof.
  intros Hwf. simpl. rewrite lookup_omap. destruct (al_clusterInfoMap a !! uid) as [l|] eqn:E; [|done].
  destruct (wf_info a Hwf _ _ E) as (ci & Hci & _). simpl. by rewrite Hci.
Qed.

(** Writing through a live pointer, keeping the identity of the cluster. *)
Section Write.
Context (a : allocator) (uid : string) (l : positive) (f : ClusterInfo → ClusterInfo).
Hypothesis (Hwf : alloc_wf a) (Hl : al_clusterInfoMap a !! uid = Some l).
Hypothesis (Hid : ∀ ci, al_heap a !! l = Some ci →
  dc_UID (ci_cluster (f ci)) = dc_UID (ci_cluster ci) ∧ dc_key (ci_cluster (f ci)) = dc_key (ci_cluster ci)).

Lemma write_lookup l' ci : al_heap a !! l' = Some ci →
  ∃ ci', alter f l (al_heap a) !! l' = Some ci' ∧ dc_UID (ci_cluster ci') = dc_UID (ci_cluster ci) ∧
         dc_key (ci_cluster ci') = dc_key (ci_cluster ci).
Proof.
  intros E. destruct (decide (l' = l)) as [->|].
  - rewrite lookup_alter_eq, E. eexists. split; [done|]. by apply Hid.
  - rewrite lookup_alter_ne by done. eauto.
Qed.

Lemma write_wf : alloc_wf (with_heap (alter f l (al_heap a)) a).
Proof.
  split; simpl.
  - intros u l' E. destruct (wf_info a Hwf _ _ E) as (ci & Hci & Hu).
    destruct (write_lookup _ _ Hci) as (ci' & ? & ? & ?). exists ci'. split; [done|congruence].
  - intros n l' E. destruct (wf_index a Hwf _ _ E) as (ci & Hci & Hn & Hm).
    destruct (write_lookup _ _ Hci) as (ci' & ? & Hu & ?). exists ci'. rewrite Hu. split_and!; congruence.
  - intros l' [ci' E]. apply (wf_next a Hwf). destruct (al_heap a !! l') eqn:E'; [eauto|].
    destruct (decide (l' = l)) as [->|]; [rewrite lookup_alter_eq in E|rewrite lookup_alter_ne in E by done];
      by rewrite E' in E.
Qed.

Lemma write_view :
  view (with_heap (alter f l (al_heap a)) a) =
  mkAssignment (alter (λ cd, (ci_cluster (f (mkCI cd.1 cd.2)), ci_dpus (f (mkCI cd.1 cd.2)))) uid
                  (as_info (view a))) (as_index (view a)).
Proof.
  unfold view. simpl. f_equal; apply map_eq; intros k; rewrite !lookup_omap.
  - destruct (decide (k = uid)) as [->|Hne].
    + rewrite lookup_alter_eq, lookup_omap, Hl. simpl. rewrite lookup_alter_eq.
      by destruct (al_heap a !! l) as [[]|].
    + rewrite lookup_alter_ne, lookup_omap by done. destruct (al_clusterInfoMap a !! k) as [l'|] eqn:E; [|done].
      simpl. rewrite lookup_alter_ne; [done|]. intros ->.
      destruct (wf_info a Hwf _ _ E) as (? & ? & ?). destruct (wf_info a Hwf _ _ Hl) as (? & ? & ?). congruence.
  - destruct (al_idxByName a !! k) as [l'|]; [|done]. simpl.
    destruct (al_heap a !! l') as [ci|] eqn:E.
    + destruct (write_lookup _ _ E) as (? & -> & ? & ?). simpl. by f_equal.
    + destruct (decide (l' = l)) as [->|]; [rewrite lookup_alter_eq|rewrite lookup_alter_ne by done]; by rewrite E.
Qed.
End Write.

(** The DPUs of the cluster under an indexed name are rewritten. *)
Lemma write_dpus a n l (h : gmap string DPU → gmap string DPU) :
  alloc_wf a → al_idxByName a !! n = Some l →
  let a' := with_heap (alter (λ ci, mkCI (ci_cluster ci) (h (ci_dpus ci))) l (al_heap a)) a in
  ∃ uid, as_index (view a) !! n = Some uid ∧ alloc_wf a' ∧ view a' = on_dpus uid h (view a).
Proof.
  intros Hwf E. destruct (wf_index a Hwf _ _ E) as (ci & Hci & _ & Hm).
  exists (dc_UID (ci_cluster ci)). split; [by eapply view_index|]. split.
  - eapply write_wf; [done|]. intros ? _. done.
  - rewrite (write_view _ _ _ _ Hwf Hm); [|done]. done.
Qed.

Lemma saveCluster_step a dc :
  alloc_wf a → not_renamed (view a) (CallSaveCluster dc) →
  alloc_wf (saveCluster dc a) ∧ view (saveCluster dc a) = spec_step (view a) (CallSaveCluster dc).
Proof.
  intros Hwf Hren. unfold saveCluster. destruct (al_clusterInfoMap a !! dc_UID dc) as [l|] eqn:E.
  - destruct (wf_info a Hwf _ _ E) as (ci & Hci & Hu). pose proof (view_info _ _ _ _ E Hci) as Hv.
    assert (∀ ci', al_heap a !! l = Some ci' → dc_UID dc = dc_UID (ci_cluster ci') ∧
              dc_key dc = dc_key (ci_cluster ci')) as Hid.
    { intros ci' ?. simplify_eq. split; [done|]. symmetry. by eapply Hren. }
    split; [by eapply (write_wf a l)|]. rewrite (write_view a _ l (λ ci, mkCI dc (ci_dpus ci)) Hwf E Hid).
    unfold spec_step. rewrite Hv. f_equal. apply map_eq. intros k.
    destruct (decide (k = dc_UID dc)) as [->|];
      [rewrite lookup_alter_eq, lookup_insert_eq, Hv|rewrite lookup_alter_ne, lookup_insert_ne by done]; done.
  - assert (al_heap a !! al_next a = None) as Hfresh.
    { destruct (al_heap a !! al_next a) eqn:Ef; [|done].
      pose proof (wf_next a Hwf (al_next a) (mk_is_Some _ _ Ef)). lia. }
    assert (∀ l ci, al_heap a !! l = Some ci → <[al_next a := mkCI dc ∅]> (al_heap a) !! l = Some ci) as Hkeep.
    { intros l ci Hl. rewrite lookup_insert_ne; [done|congruence]. }
    split; [split; simpl|].
    + intros u l. rewrite lookup_insert_Some. intros [[<- <-]|[_ El]].
      * rewrite lookup_insert_eq. by eexists.
      * destruct (wf_info a Hwf _ _ El) as (? & ? & ?). eauto.
    + intros n l. rewrite lookup_insert_Some. intros [[<- <-]|[_ El]].
      * rewrite lookup_insert_eq. eexists. split; [done|]. simpl. by rewrite lookup_insert_eq.
      * destruct (wf_index a Hwf _ _ El) as (ci & Hc & ? & ?). exists ci. split_and!; [eauto|done|].
        rewrite lookup_insert_ne; [done|congruence].
    + intros l. rewrite lookup_insert_is_Some. intros [<-|[_ Hl]]; [lia|].
      pose proof (wf_next a Hwf _ Hl). lia.
    + pose proof (proj2 (view_info_None _ _ Hwf) E) as Ev. unfold spec_step. rewrite Ev.
      unfold view. simpl. f_equal; apply map_eq; intros k; rewrite lookup_omap.
      * destruct (decide (k = dc_UID dc)) as [->|];
          [rewrite !lookup_insert_eq; simpl; by rewrite lookup_insert_eq|].
        rewrite !lookup_insert_ne, lookup_omap by done.
        destruct (al_clusterInfoMap a !! k) as [l|] eqn:El; [|done].
        destruct (wf_info a Hwf _ _ El) as (ci & Hc & _). simpl. by rewrite (Hkeep _ _ Hc), Hc.
      * destruct (decide (k = dc_key dc)) as [->|];
          [rewrite !lookup_insert_eq; simpl; by rewrite lookup_insert_eq|].
        rewrite !lookup_insert_ne, lookup_omap by done.
        destruct (al_idxByName a !! k) as [l|] eqn:El; [|done].
        destruct (wf_index a Hwf _ _ El) as (ci & Hc & _). simpl. by rewrite (Hkeep _ _ Hc), Hc.
Qed.

Lemma removeCluster_step a dc :
  alloc_wf a → not_renamed (view a) (CallRemoveCluster dc) →
  alloc_wf (removeCluster dc a) ∧ view (removeCluster dc a) = spec_step (view a) (CallRemoveCluster dc).
Proof.
  intros Hwf Hren. split; [split; simpl|].
  - intros u l [_ E]%lookup_delete_Some. by apply (wf_info a Hwf).
  - intros n l [Hn E]%lookup_delete_Some. destruct (wf_index a Hwf _ _ E) as (ci & Hci & Hk & Hm).
    exists ci. split_and!; [done..|]. rewrite lookup_delete_ne; [done|]. intros Hu.
    rewrite <- Hu in Hm. pose proof (view_info _ _ _ _ Hm Hci) as Hv.
    apply Hn. rewrite <- Hk. symmetry. eapply Hren, Hv.
  - apply (wf_next a Hwf).
  - unfold view. simpl. by rewrite !omap_delete.
Qed.

Lemma alloc_step_spec a call :
  alloc_wf a → not_renamed (view a) call →
  alloc_wf (alloc_step a call) ∧ view (alloc_step a call) = spec_step (view a) call.
Proof.
  intros Hwf Hren. destruct call as [dc|dc|dpu|dpu]; [by apply saveCluster_step|by apply removeCluster_step|..];
    unfold alloc_step, spec_step, saveDPU, ReleaseDPU, getByName.
  - destruct (_ || _); [done|]. destruct (al_idxByName a !! _) as [l|] eqn:E.
    + destruct (write_dpus a _ l (insert (dpu_UID dpu) dpu) Hwf E) as (uid & -> & ? & ?). done.
    + by rewrite (proj2 (view_index_None _ _ Hwf) E).
  - destruct (al_idxByName a !! _) as [l|] eqn:E.
    + destruct (write_dpus a _ l (delete (dpu_UID dpu)) Hwf E) as (uid & -> & ? & ?). done.
    + by rewrite (proj2 (view_index_None _ _ Hwf) E).
Qed.

Lemma NewAllocator_wf : alloc_wf NewAllocator.
Proof. split; simpl; intros *; rewrite ?lookup_empty; [done..|]. by intros [? ?]. Qed.


Lemma alloc_run_spec a calls :
  alloc_wf a → never_renamed (view a) calls →
  alloc_wf (foldl alloc_step a calls) ∧ view (foldl alloc_step a calls) = foldl spec_step (view a) calls.
Proof.
  revert a. induction calls as [|call calls IH]; intros a Hwf Hren; simpl in *; [done|].
  destruct Hren as [H1 H2]. destruct (alloc_step_spec a call Hwf H1) as [Hwf' Hv].
  rewrite <- Hv in *. by apply IH.
Qed.

(** ** Properties *)

(** C31. The allocator's cache, two maps of shared pointers, behaves as a plain
    assignment of DPU objects to clusters: after any sequence of SaveCluster,
    RemoveCluster, SaveAssignedDPU and ReleaseDPU that starts from a well-formed
    cache and in which no cluster changes its name, the pointers are still
    well-formed (a name leads to the cluster of that name) and the contents are
    those the pointer-free specification computes. *)
Theorem allocator_refines a calls :
  alloc_wf a → never_renamed (view a) calls →
  alloc_wf (foldl alloc_step a calls) ∧ view (foldl alloc_step a calls) = foldl spec_step (view a) calls.
Proof. apply alloc_run_spec. Qed.

(** A cluster, a DPU and a cache for the witnesses. *)
Definition example_cluster (name : string) (max : Z) : DPUCluster :=
  mkDPUCluster name "ns" (name +:+ "-uid") (<["zone" := "a"]> ∅) [] None max PhaseReady "" 0 [].
Definition example_status : DPUStatus :=
  mkDPUStatus DPUInitializing DPUPhaseUnset None [] [] "" "" None None [] None None None None 0 "" None
    None None "" "" false None None.
Definition example_effect : NodeEffect :=
  mkNodeEffect (mkAction None None ∅ (Some true) None None (Some false)) (mkUpgradePolicy None []).
Definition example_dpu (name cluster : string) : DPU :=
  mkDPU name "ns" (name +:+ "-uid") 1 ∅ ∅ [] 1 None
    (mkDPUSpec "node" "device" (Some "bfb") None None example_effect
       (mkK8sCluster cluster (if bool_decide (cluster = "") then "" else "ns") ∅ ∅ (Some "zone")) "flavor" None)
    example_status.

Definition example_calls : list alloc_call :=
  [CallSaveCluster (example_cluster "c1" 2); CallSaveCluster (example_cluster "c2" 3);
   CallSaveAssignedDPU (example_dpu "d1" "c1"); CallSaveAssignedDPU (example_dpu "d2" "c2");
   CallSaveAssignedDPU (example_dpu "d3" "c2"); CallReleaseDPU (example_dpu "d1" "c1");
   CallRemoveCluster (example_cluster "c1" 2); CallSaveCluster (example_cluster "c2" 4)].

Lemma allocator_refines_witness :
  view (foldl alloc_step NewAllocator example_calls) = foldl spec_step (view NewAllocator) example_calls.
Proof.
  apply allocator_refines; [apply NewAllocator_wf|apply (bool_decide_unpack _); by vm_compute].
Defined.

(** Once the cache is synced, Allocate assigns the DPU to a cluster that is
    ready, not being deleted, matched by the selector and below its node limit,
    such that no other such cluster has a greater float64 ratio of DPUs to
    nodes, whatever the order of the maps; afterwards the cache counts the DPU
    there, within the limit, and is otherwise as before.  It fails either
    because there is no such cluster, and then nothing happened, or because the
    patch failed, and then the cache is unchanged. *)
Theorem Allocate_spec {W} {C : Client W} {R : MapRange} {RL : MapRangeLaws R} {S : SelectorAPI}
    dpu a w Matches :
  alloc_wf a → al_synced a = true →
  LabelSelectorAsSelector (kc_Selector (sp_Cluster (dpu_Spec dpu))) = Ok Matches →
  (∀ l ci, candidate Matches a l ci → max_nodes_valid (ci_cluster ci)) →
  match Allocate dpu (a, w) with
  | ((Ok name, dpu'), (a', w')) =>
      ∃ l ci, candidate Matches a l ci ∧ name = dc_key (ci_cluster ci) ∧ dpu_cluster_key dpu' = name ∧
        dpu_UID dpu' = dpu_UID dpu ∧ patchDPU dpu dpu' w = (None, w') ∧
        (∀ l' ci', candidate Matches a l' ci' → fgt (ratio ci') (ratio ci) = false) ∧
        alloc_wf a' ∧
        view a' = on_dpus (dc_UID (ci_cluster ci)) (insert (dpu_UID dpu) dpu') (view a) ∧
        (Z.of_nat (getDPUsCount (ci_cluster ci) a') <= dc_MaxNodes (ci_cluster ci))%Z
  | ((Err e, dpu'), (a', w')) =>
      a' = a ∧
      ((dpu' = dpu ∧ w' = w ∧ e = errorf "no feasible cluster found" ∧ ∀ l ci, ¬ candidate Matches a l ci) ∨
       patchDPU dpu dpu' w = (Some e, w'))
  end.
Proof.
  intros Hwf Hs HM Hmax. unfold Allocate. rewrite Hs. unfold allocate_synced.
  destruct (getFeasible_cases _ a Matches Hwf HM Hmax) as [(l & ci & -> & Hc & Hbest)|[-> Hnone]];
    [|split; [done|]; by left].
  pose proof Hc as (Hm & Hci & _ & (_ & _ & Hlt)%feasible_true). rewrite Hci.
  destruct (patchDPU _ _ w) as [[e|] w'] eqn:Ep; [by split; [|right]|].
  eexists l, ci. split_and!; try done.
  - by eapply write_wf.
  - unfold addAllocated. by rewrite (write_view _ _ _ _ Hwf Hm).
  - unfold getDPUsCount, addAllocated. simpl. rewrite Hm, lookup_alter_eq, Hci. simpl.
    rewrite map_size_insert. unfold id. case_match; lia.
Qed.

Lemma Allocate_spec_witness :
  let a := foldl alloc_step NewAllocator (take 4 example_calls) in
  let a := with_synced a in
  let d := example_dpu "d9" "" in
  let w := with_dpus {[dpu_key d := d]} empty_world in
  (@Allocate _ fake_client map_to_list_range fake_selectors d (a, w)).1.1 = Ok (mkNN "ns" "c1") ∧
  (∃ l ci, candidate (λ labels, bool_decide (is_Some (labels !! "zone"))) a l ci ∧
           mkNN "ns" "c1" = dc_key (ci_cluster ci)).
Proof.
  cbn zeta. split; [vm_compute; reflexivity|].
  set (a := with_synced _). set (d := example_dpu "d9" "").
  set (w := with_dpus {[dpu_key d := d]} empty_world).
  assert (alloc_wf a) as Hwf.
  { destruct (alloc_run_spec NewAllocator (take 4 example_calls)) as [[? ? ?] _];
      [apply NewAllocator_wf|apply (bool_decide_unpack _); by vm_compute|by split]. }
  pose proof (@Allocate_spec _ fake_client map_to_list_range _ fake_selectors d a w
    (λ labels, bool_decide (is_Some (labels !! "zone"))) Hwf eq_refl eq_refl) as Hspec.
  assert (∀ l ci, candidate (λ labels, bool_decide (is_Some (labels !! "zone"))) a l ci → max_nodes_valid (ci_cluster ci)) as Hmax.
  { intros l ci (_ & Hci & _). change (al_heap a !! l = Some ci) in Hci.
    assert (map_Forall (λ _ ci, max_nodes_valid (ci_cluster ci)) (al_heap a)) as Hall
      by (apply map_Forall_to_list; vm_compute; repeat constructor; discriminate).
    exact (Hall l ci Hci). }
  specialize (Hspec Hmax).
  assert (@Allocate _ fake_client map_to_list_range fake_selectors d (a, w) =
          let r := @Allocate _ fake_client map_to_list_range fake_selectors d (a, w) in
          ((Ok (mkNN "ns" "c1"), r.1.2), (r.2.1, r.2.2))) as E by (vm_compute; reflexivity).
  rewrite E in Hspec. destruct Hspec as (l & ci & Hc & Hn & _). exists l, ci. split; [exact Hc|exact Hn].
Defined.
