(* ===== verification/NVConfig.v ===== *)
(** internal/provisioning/utils/nvconfig/hostosinit.go: whether the firmware
    parameters of a flavor hold the host at UEFI, with the functions of the Go
    packages strings and strconv it uses.  Parameters are ASCII texts: the
    Unicode spaces and case foldings of package strings are not modelled. *)

From S2P Require Import Prelude.
From Stdlib Require Import Ascii.

(** ** Bytes *)

Definition byte_of (c : ascii) : N := N_of_ascii c.
Definition in_range (lo hi : ascii) (c : ascii) : bool := (byte_of lo <=? byte_of c)%N && (byte_of c <=? byte_of hi)%N.
Definition is_digit : ascii → bool := in_range "0" "9".
Definition is_upper : ascii → bool := in_range "A" "Z".
Definition is_lower : ascii → bool := in_range "a" "z".
Definition is_space (c : ascii) : bool := (byte_of c =? 32)%N || ((9 <=? byte_of c)%N && (byte_of c <=? 13)%N).
(** [lower] of strconv: [c | ('x' - 'X')]. *)
Definition lower (c : ascii) : ascii := ascii_of_N (N.lor (byte_of c) 32).
Definition to_upper (c : ascii) : ascii := if is_lower c then ascii_of_N (byte_of c - 32) else c.
Definition to_lower (c : ascii) : ascii := if is_upper c then ascii_of_N (byte_of c + 32) else c.

(** ** Package strings *)

Fixpoint map_string (f : ascii → ascii) (s : string) : string :=
  match s with "" => "" | String c s => String (f c) (map_string f s) end.
Definition ToUpper : string → string := map_string to_upper.
Definition EqualFold (s t : string) : bool := bool_decide (map_string to_lower s = map_string to_lower t).

Fixpoint TrimLeft (s : string) : string :=
  match s with
  | "" => ""
  | String c s' => if is_space c then TrimLeft s' else s
  end.
Fixpoint TrimRight (s : string) : string :=
  match s with
  | "" => ""
  | String c s => match TrimRight s with
                  | "" => if is_space c then "" else String c ""
                  | t => String c t
                  end
  end.
Definition TrimSpace (s : string) : string := TrimRight (TrimLeft s).

(** [Cut] around the first occurrence of a byte. *)
Fixpoint Cut (s : string) (sep : ascii) : option (string * string) :=
  match s with
  | "" => None
  | String c s => if decide (c = sep) then Some ("", s) else prod_map (String c) id <$> Cut s sep
  end.

(** ** strconv.ParseUint with base 0 and 32 bits *)

(** The value of a digit, when it is below the base. *)
Definition digit_value (base : N) (c : ascii) : option N :=
  let d := if is_digit c then Some (byte_of c - byte_of "0")%N
           else if is_lower (lower c) then Some (byte_of (lower c) - byte_of "a" + 10)%N else None in
  match d with Some d => if (d <? base)%N then Some d else None | None => None end.

Fixpoint parse_digits (base n : N) (s : string) : option N :=
  match s with
  | "" => Some n
  | String c s =>
      if decide (c = "_"%char) then parse_digits base n s
      else match digit_value base c with
           | None => None
           | Some d => let n1 := (n * base + d)%N in
                       if (2 ^ 32 - 1 <? n1)%N then None else parse_digits base n1 s
           end
  end.

(** The class of the last byte [underscoreOK] saw. *)
Inductive saw := SawStart | SawDigit | SawUnderscore | SawOther.

Fixpoint underscore_loop (hex : bool) (last : saw) (s : string) : bool :=
  match s with
  | "" => match last with SawUnderscore => false | _ => true end
  | String c s =>
      if is_digit c || (hex && in_range "a" "f" (lower c)) then underscore_loop hex SawDigit s
      else if decide (c = "_"%char) then
        match last with SawDigit => underscore_loop hex SawUnderscore s | _ => false end
      else match last with SawUnderscore => false | _ => underscore_loop hex SawOther s end
  end.

Definition underscoreOK (s : string) : bool :=
  let s := match s with String c s' => if bool_decide (c = "-"%char) || bool_decide (c = "+"%char) then s' else s | _ => s end in
  match s with
  | String "0"%char (String p s') =>
      if bool_decide (lower p = "b"%char) || bool_decide (lower p = "o"%char) || bool_decide (lower p = "x"%char)
      then underscore_loop (bool_decide (lower p = "x"%char)) SawDigit s'
      else underscore_loop false SawStart s
  | _ => underscore_loop false SawStart s
  end.

Fixpoint has_underscore (s : string) : bool :=
  match s with "" => false | String c s => bool_decide (c = "_"%char) || has_underscore s end.

Definition ParseUint (s : string) : option N :=
  let '(base, digits) :=
    match s with
    | String "0"%char s1 =>
        match s1 with
        | String p (String _ _ as s2) =>
            if decide (lower p = "b"%char) then (2%N, s2)
            else if decide (lower p = "o"%char) then (8%N, s2)
            else if decide (lower p = "x"%char) then (16%N, s2)
            else (8%N, s1)
        | _ => (8%N, s1)
        end
    | _ => (10%N, s)
    end in
  if bool_decide (s = "") then None
  else match parse_digits base 0 digits with
       | None => None
       | Some n => if has_underscore digits && negb (underscoreOK s) then None else Some n
       end.

(** ** hostosinit.go *)

Definition DelayHostOSInitParam := "DELAY_HOST_OS_INIT".
Definition delayHostOSInitUserMode : N := 3.

Definition isDelayHostOSInitUserMode (rhs : string) : bool :=
  let value := ToUpper (TrimSpace rhs) in
  if bool_decide (value = "ENABLE_USER") then true
  else match ParseUint value with
       | Some parsed => (parsed =? delayHostOSInitUserMode)%N
       | None => false
       end.

Fixpoint ParamsRequestHostOSInitHold (params : list string) : bool :=
  match params with
  | [] => false
  | param :: params =>
      match Cut param "=" with
      | None => ParamsRequestHostOSInitHold params
      | Some (name, value) =>
          if EqualFold (TrimSpace name) DelayHostOSInitParam && isDelayHostOSInitUserMode value then true
          else ParamsRequestHostOSInitHold params
      end
  end.

Fixpoint FlavorRequestsHostOSInitHold (nvconfigs : list (list string)) : bool :=
  match nvconfigs with
  | [] => false
  | nc :: nvconfigs => if ParamsRequestHostOSInitHold nc then true else FlavorRequestsHostOSInitHold nvconfigs
  end.

(** ** Lemmas *)

#[local] Opaque EqualFold isDelayHostOSInitUserMode TrimSpace.

Fixpoint no_byte (sep : ascii) (s : string) : Prop :=
  match s with "" => True | String c s => c ≠ sep ∧ no_byte sep s end.

Lemma Cut_Some s sep a b : Cut s sep = Some (a, b) ↔ s = a +:+ String sep b ∧ no_byte sep a.
Proof.
  revert a. induction s as [|c s IH]; intros a; simpl.
  - split; [done|]. destruct a; intros [[=] _].
  - destruct (decide (c = sep)) as [->|Hc].
    + split; [by intros [= <- <-]|]. destruct a as [|c' a]; [by intros [[= ->] _]|].
      by intros [[= <- _] [? _]].
    + destruct (Cut s sep) as [[a' b']|] eqn:E; simpl.
      * destruct (IH a') as [HI _]. split.
        -- intros [= <- <-]. destruct HI as [-> ?]; [done|]. by split.
        -- destruct a as [|c' a]; [by intros [[= ? ?] _]|]. intros [[= -> ->] [_ Hn]].
           destruct (IH a) as [_ IHa]. specialize (IHa (conj eq_refl Hn)). by simplify_eq.
      * split; [done|]. destruct a as [|c' a]; [by intros [[= ? ?] _]|]. intros [[= -> ->] [_ Hn]].
        destruct (IH a) as [_ IHa]. specialize (IHa (conj eq_refl Hn)). done.
Qed.

(** A parameter that asks for the hold. *)
Definition requests_hold (param : string) : Prop :=
  ∃ name value, param = name +:+ String "=" value ∧ no_byte "=" name ∧
    EqualFold (TrimSpace name) DelayHostOSInitParam = true ∧ isDelayHostOSInitUserMode value = true.

Lemma requests_hold_Cut param :
  requests_hold param ↔
  match Cut param "=" with
  | None => False
  | Some (name, value) => EqualFold (TrimSpace name) DelayHostOSInitParam && isDelayHostOSInitUserMode value = true
  end.
Proof.
  split.
  - intros (name & value & Ep & Hn & E1 & E2).
    assert (Cut param "=" = Some (name, value)) as -> by (by apply Cut_Some). by rewrite E1, E2.
  - destruct (Cut param "=") as [[name value]|] eqn:E; [|done].
    intros [E1 E2]%andb_true_iff. apply Cut_Some in E as [-> Hn]. by exists name, value.
Qed.

Lemma ParamsRequestHostOSInitHold_true params :
  ParamsRequestHostOSInitHold params = true ↔ ∃ param, param ∈ params ∧ requests_hold param.
Proof.
  setoid_rewrite requests_hold_Cut. induction params as [|param params IH]; simpl.
  - split; [done|]. by intros (? & ?%elem_of_nil & _).
  - setoid_rewrite elem_of_cons.
    destruct (Cut param "=") as [[name value]|] eqn:E; [destruct (_ && _) eqn:Eb|].
    + split; [|done]. intros _. exists param. split; [by left|]. by rewrite E.
    + rewrite IH. split; [intros (p & ? & ?); eauto|].
      intros (p & [->|?] & Hp); [by rewrite E, Eb in Hp|eauto].
    + rewrite IH. split; [intros (p & ? & ?); eauto|].
      intros (p & [->|?] & Hp); [by rewrite E in Hp|eauto].
Qed.

(** ** Properties *)

(** A flavor holds the host at UEFI exactly when one of its NVConfig entries
    has a parameter that, split at its first equals sign, names
    DELAY_HOST_OS_INIT up to case and surrounding blanks and gives it the user
    mode. *)
Theorem FlavorRequestsHostOSInitHold_iff nvconfigs :
  FlavorRequestsHostOSInitHold nvconfigs = true ↔
  ∃ nc param, nc ∈ nvconfigs ∧ param ∈ nc ∧ requests_hold param.
Proof.
  induction nvconfigs as [|nc nvconfigs IH]; simpl.
  - split; [done|]. by intros (? & ? & ?%elem_of_nil & _).
  - setoid_rewrite elem_of_cons. destruct (ParamsRequestHostOSInitHold nc) eqn:E.
    + split; [|done]. intros _. apply ParamsRequestHostOSInitHold_true in E as (p & ? & ?).
      exists nc, p. split_and!; [by left|done..].
    + rewrite IH. split; [intros (nc' & p & ? & ?); eauto 6|]. intros (nc' & p & [->|?] & Hp & Hr); [|eauto].
      assert (ParamsRequestHostOSInitHold nc = true) by (apply ParamsRequestHostOSInitHold_true; eauto). congruence.
Qed.

Example user_mode_spellings :
  isDelayHostOSInitUserMode <$> ["3"; " 0x3 "; "0o3"; "03"; "0b11"; "enable_user"; "0_3"; "_3"; "2"; ""; "0x"; "4294967299"]
  = [true; true; true; true; true; true; true; false; false; false; false; false].
Proof. vm_compute. reflexivity. Qed.
