(* ===== verification/Maintenance.v ===== *)
(** How the DPU controller shares DPUNodeMaintenance objects between DPUs: the
    helpers of internal/provisioning/controllers/util/util.go,
    dpu/state/node_effect.go, dpu/state/node_effect_removal.go and
    dpu/dpu_controller.go that create such an object and add, replace and remove
    the requestors in it.

    A nil slice of requestors and an empty one are the same list. *)

From S2P Require Import Prelude.
From S2P Require Import Meta.
From S2P Require Import Conditions.
From S2P Require Import DPUTypes.
From S2P Require Import DPUConditions.
From S2P Require Import Kubernetes.
From S2P Require Import FakeClient.
From S2P Require Import Allocator.
From stdpp Require Import sorting.

Definition DPUNodeNameLabel := DPUProvisioningPrefix +:+ "dpunode-name".
Definition LastAppliedAdditionalRequestorsOnDPUPrefix :=
  DPUProvisioningPrefix +:+ "last-applied-additional-requestors-on-".

(** ** Names *)

Section Names.
Context {K : Codec}.

Definition GenerateDPUNodeMaintenanceObjectName (dpuNodeName : string) (nodeEffect : NodeEffect) : Res string :=
  let a := ne_Action nodeEffect in
  if IsCustomAction nodeEffect then Ok (dpuNodeName +:+ "-custom-action-" +:+ deref (ac_CustomAction a) "")
  else if IsDrain nodeEffect then Ok (dpuNodeName +:+ "-k8sdrain")
  else if IsHold nodeEffect then Ok (dpuNodeName +:+ "-hold")
  else if IsTaint nodeEffect then
    Ok (dpuNodeName +:+ "-taint-" +:+ String.substring 0 8 (sha256_hex (from_option json_taint "null" (ac_Taint a))))
  else if IsCustomLabel nodeEffect then
    Ok (dpuNodeName +:+ "-cl-" +:+ String.substring 0 8 (sha256_hex (json_map (ac_CustomLabel a))))
  else if IsNoEffect nodeEffect then Ok (dpuNodeName +:+ "-noeffect")
  else Err (errorf ("invalid node effect type: " +:+ NodeEffect_String nodeEffect)).

(** The hexadecimal text of the first 8 bytes of the hash. *)
Definition GenerateLastAppliedAdditionalRequestorsOnDPUAnnotationKey (dpuName : string) : string :=
  LastAppliedAdditionalRequestorsOnDPUPrefix +:+ String.substring 0 16 (sha256_hex dpuName).
End Names.

Definition IsNodeEffectApplied {API : MetaAPI} (dpunodemaintenance : DPUNodeMaintenance) : bool :=
  match FindStatusCondition (dnm_Conditions dpunodemaintenance) ConditionNodeEffectApplied with
  | Some condition => status_is ConditionTrue condition
  | None => false
  end.

Definition isDPUInRequestor (dpunodemaintenance : DPUNodeMaintenance) (dpuName : string) : bool :=
  bool_decide (dpuName ∈ dnm_Requestor dpunodemaintenance).

Definition additional_requestors (dpu : DPU) : list string :=
  up_NodeMaintenanceAdditionalRequestors (ne_UpgradePolicy (sp_NodeEffect (dpu_Spec dpu))).
Definition with_additional_requestors (rs : list string) (ne : NodeEffect) : NodeEffect :=
  mkNodeEffect (ne_Action ne) (mkUpgradePolicy (up_ApplyOnLabelChange (ne_UpgradePolicy ne)) rs).
Definition with_Force (f : bool) (ne : NodeEffect) : NodeEffect :=
  let a := ne_Action ne in
  mkNodeEffect (mkAction (ac_Taint a) (ac_NoEffect a) (ac_CustomLabel a) (ac_Drain a) (ac_CustomAction a)
                  (ac_Hold a) (Some f)) (ne_UpgradePolicy ne).

(** [sort.Strings] *)
Definition sort_Strings : list string → list string := merge_sort String.le.

(** ** Operations *)

Section Operations.
Context {W : Type} {C : Client W} {K : Codec}.

(** The object that is created, before the trace annotations. *)
Definition new_DPUNodeMaintenance (name : string) (dpu : DPU) : DPUNodeMaintenance :=
  let requestors := additional_requestors dpu in
  mkDNM name (dpu_Namespace dpu) 0 {[ DPUNodeNameLabel := sp_DPUNodeName (dpu_Spec dpu) ]}
    {[ GenerateLastAppliedAdditionalRequestorsOnDPUAnnotationKey (dpu_Name dpu) := json_strings requestors ]}
    [] None (sp_DPUNodeName (dpu_Spec dpu))
    (Some (with_additional_requestors [] (sp_NodeEffect (dpu_Spec dpu))))
    (requestors ++ [dpu_Name dpu]) [] None None None.

Definition createDPUNodeMaintenance (name : string) (dpu : DPU) : SM W (option GoError) :=
  let d := new_DPUNodeMaintenance name dpu in
  r ← createDPUNodeMaintenance_api
        (with_dnm_Spec (InjectIntoObject (dnm_Annotations d)) (dnm_NodeEffect d) (dnm_Requestor d) d);
  mret (match r with
        | Some err => if IsAlreadyExists err then None else Some err
        | None => None
        end).

(** What [addRequestorAndUpdateForce] does to the object it read; a nil
    NodeEffect is dereferenced only to force. *)
Definition add_requestor (dpuRequestor : string) (additionalRequestors : list string) (force : bool)
    (current : DPUNodeMaintenance) : Res DPUNodeMaintenance :=
  let ann := InjectIntoObject
    (<[GenerateLastAppliedAdditionalRequestorsOnDPUAnnotationKey dpuRequestor :=
         json_strings additionalRequestors]> (dnm_Annotations current)) in
  let reqs := RemoveDuplicates (dnm_Requestor current ++ [dpuRequestor] ++ additionalRequestors) in
  if force then
    match dnm_NodeEffect current with
    | None => Err nil_dereference
    | Some ne =>
        let ne' := match ac_Force (ne_Action ne) with Some false => with_Force force ne | _ => ne end in
        Ok (with_dnm_Spec ann (Some ne') reqs current)
    end
  else Ok (with_dnm_Spec ann (dnm_NodeEffect current) reqs current).

Definition addRequestorAndUpdateForce (dpunodemaintenance : DPUNodeMaintenance) (dpuRequestor : string)
    (additionalRequestors : list string) (force : bool) : SM W (option GoError) :=
  retry
    (r ← getDPUNodeMaintenance (dnm_key dpunodemaintenance);
     match r with
     | Err err => mret (Some err)
     | Ok current =>
         if isDPUInRequestor current dpuRequestor then mret None
         else match add_requestor dpuRequestor additionalRequestors force current with
              | Err p => mret (Some p)
              | Ok updated =>
                  e ← patchDPUNodeMaintenance current updated;
                  mret (wrapf ("failed to patch dpunodemaintenance " +:+ dnm_Name current +:+ ": ") <$> e)
              end
     end).

(** [RemoveRequestorFromDPUNodeMaintenance]: the loop over the requestors. *)
Definition without_requestor (dpuName : string) (reqs : list string) : list string :=
  filter (λ r, r ≠ dpuName) reqs.

Definition RemoveRequestorFromDPUNodeMaintenance (dpu : DPU) : SM W (option GoError) :=
  match GenerateDPUNodeMaintenanceObjectName (sp_DPUNodeName (dpu_Spec dpu)) (sp_NodeEffect (dpu_Spec dpu)) with
  | Err err => mret (Some err)
  | Ok name =>
      retry
        (r ← getDPUNodeMaintenance (mkNN (dpu_Namespace dpu) name);
         match r with
         | Err err => mret (if IsNotFound err then None else Some err)
         | Ok d =>
             let newRequestors := without_requestor (dpu_Name dpu) (dnm_Requestor d) in
             if bool_decide (length newRequestors ≠ length (dnm_Requestor d)) then
               updateDPUNodeMaintenance
                 (with_dnm_Spec (InjectIntoObject (dnm_Annotations d)) (dnm_NodeEffect d) newRequestors d)
             else mret None
         end)
  end.

(** ** The requestors of a running DPU (dpu_controller.go) *)

Definition findOutDPURequestors (lastAppliedRequestors currentRequestors : list string) : list string :=
  filter (λ req, req ∉ lastAppliedRequestors) currentRequestors.

(** One run of the retried function, on the requestors of the spec of the DPU:
    they are sorted in place, so the caller's DPU changes with them. *)
Definition update_requestors_once (dpuName : string) (key : NamespacedName)
    : SM (list string * W) (option GoError) := λ '(expected, w),
  match getDPUNodeMaintenance key w with
  | (Err err, w) => (if IsNotFound err then None else Some err, (expected, w))
  | (Ok d, w) =>
      let annkey := GenerateLastAppliedAdditionalRequestorsOnDPUAnnotationKey dpuName in
      match dnm_Annotations d !! annkey with
      | None => (None, (expected, w))
      | Some lastAppliedRequestorsStr =>
          match unjson_strings lastAppliedRequestorsStr with
          | Err err => (Some (wrapf "failed to unmarshal last applied node maintenance additional requestors on DPU: " err),
                        (expected, w))
          | Ok lastAppliedRequestors =>
              let expected := sort_Strings expected in
              let lastAppliedRequestors := sort_Strings lastAppliedRequestors in
              if decide (lastAppliedRequestors = expected) then (None, (expected, w))
              else
                let dpuRequestors := findOutDPURequestors lastAppliedRequestors (dnm_Requestor d) in
                let d' := with_dnm_Spec (InjectIntoObject (<[annkey := json_strings expected]> (dnm_Annotations d)))
                            (dnm_NodeEffect d) (expected ++ dpuRequestors) d in
                match updateDPUNodeMaintenance d' w with (r, w) => (r, (expected, w)) end
          end
      end
  end.

(** The DPU is returned with the order of its additional requestors. *)
Definition UpdateDPUNodeMaintenanceRequestors (dpu : DPU) : SM W (option GoError * DPU) := λ w,
  match GenerateDPUNodeMaintenanceObjectName (sp_DPUNodeName (dpu_Spec dpu)) (sp_NodeEffect (dpu_Spec dpu)) with
  | Err err => ((Some err, dpu), w)
  | Ok name =>
      match RetryOnConflict _ (update_requestors_once (dpu_Name dpu) (mkNN (dpu_Namespace dpu) name))
              (additional_requestors dpu, w) with
      | (r, (expected, w)) =>
          ((r, with_Spec (with_NodeEffect (with_additional_requestors expected (sp_NodeEffect (dpu_Spec dpu)))
                            (dpu_Spec dpu)) dpu), w)
      end
  end.
End Operations.

(** ** Lemmas *)

Lemma elem_of_without_requestor n reqs r : r ∈ without_requestor n reqs ↔ r ∈ reqs ∧ r ≠ n.
Proof. unfold without_requestor. rewrite list_elem_of_filter. tauto. Qed.

Lemma without_requestor_length n reqs :
  length (without_requestor n reqs) ≠ length reqs ↔ n ∈ reqs.
Proof.
  unfold without_requestor. induction reqs as [|r reqs IH]; simpl.
  - rewrite elem_of_nil. done.
  - rewrite filter_cons, elem_of_cons. pose proof (length_filter (λ r, r ≠ n) reqs).
    case_decide; simpl; [|split; [intros _; left; symmetry; destruct (decide (r = n)); naive_solver|lia]].
    destruct IH as [IH1 IH2]. split; [intros; right; apply IH1; lia|].
    intros [->|Hin]; [done|]. specialize (IH2 Hin). lia.
Qed.

Lemma without_requestor_id n reqs : n ∉ reqs → without_requestor n reqs = reqs.
Proof.
  intros Hn. unfold without_requestor. induction reqs as [|r reqs IH]; [done|].
  apply not_elem_of_cons in Hn as [Hr Hn]. rewrite filter_cons_True by done. by rewrite IH.
Qed.

Lemma elem_of_sort_Strings x xs : x ∈ sort_Strings xs ↔ x ∈ xs.
Proof. unfold sort_Strings. by rewrite (merge_sort_Permutation String.le xs). Qed.

(** The requestors the code keeps when it replaces the ones last applied. *)
Lemma elem_of_findOutDPURequestors last cur x : x ∈ findOutDPURequestors last cur ↔ x ∈ cur ∧ x ∉ last.
Proof. unfold findOutDPURequestors. rewrite list_elem_of_filter. tauto. Qed.

Section Specs.
Context {W : Type} {C : Client W} {K : Codec} {CL : ClientLaws W C} {MS : MaintenanceStore W C} {KL : CodecLaws K}.

(** ** Properties *)

(** What RemoveRequestorFromDPUNodeMaintenance does to the store. *)
Lemma RemoveRequestor_result dpu w name :
  GenerateDPUNodeMaintenanceObjectName (sp_DPUNodeName (dpu_Spec dpu)) (sp_NodeEffect (dpu_Spec dpu)) = Ok name →
  let k := mkNN (dpu_Namespace dpu) name in
  let r := RemoveRequestorFromDPUNodeMaintenance dpu w in
  match r.1, dnms w !! k with
  | None, Some d =>
      ∃ d', dnms r.2 = <[k := d']> (dnms w) ∧
        dnm_Requestor d' = without_requestor (dpu_Name dpu) (dnm_Requestor d) ∧
        dnm_NodeEffect d' = dnm_NodeEffect d ∧
        (dpu_Name dpu ∉ dnm_Requestor d → d' = d)
  | _, _ => dnms r.2 = dnms w
  end.
Proof.
  intros Hname. cbn zeta. unfold RemoveRequestorFromDPUNodeMaintenance. rewrite Hname.
  set (k := mkNN _ _). apply (retry_invariant _ (λ w', dnms w' = dnms w)); [|done]. intros w0 Hw0.
  unfold mbind, SM_bind, mret, SM_ret. pose proof (get_dnm k w0) as [Hg1 Hg2].
  destruct (getDPUNodeMaintenance k w0) as [[d|e] w1]; simpl in *.
  - destruct Hg2 as [Hd Hk]. rewrite Hw0 in Hd. rewrite Hd.
    case_bool_decide as Hlen.
    + set (d' := with_dnm_Spec _ _ _ d). pose proof (update_dnm d' w1) as Hu.
      destruct (updateDPUNodeMaintenance d' w1) as [[e|] w2]; simpl in *; [split; [|intros _]; congruence|].
      split; [|done]. exists d'. change (dnm_key d') with (dnm_key d) in Hu.
      rewrite Hu, Hk, Hg1, Hw0. split_and!; [done..|]. intros []. by apply without_requestor_length.
    + assert (dpu_Name dpu ∉ dnm_Requestor d) as Hn by (by intros ?%without_requestor_length).
      split; [|done]. exists d. simpl. rewrite Hg1, Hw0, insert_id by done.
      by rewrite without_requestor_id.
  - rewrite Hw0 in Hg2. split; [|intros _; congruence].
    destruct (IsNotFound e); [|by rewrite Hg1, Hw0]. rewrite (Hg2 eq_refl). by rewrite Hg1, Hw0.
Qed.

(** RemoveRequestorFromDPUNodeMaintenance, on a store nobody else writes
    to and under any failures: when it reports success, the DPUNodeMaintenance
    of the DPU, if there is one, has the same requestors in the same order
    without the DPU and the same node effect; an object that did not name the
    DPU is untouched, and so is every other object; on an error nothing has
    changed. *)
Theorem RemoveRequestor_spec dpu w name :
  GenerateDPUNodeMaintenanceObjectName (sp_DPUNodeName (dpu_Spec dpu)) (sp_NodeEffect (dpu_Spec dpu)) = Ok name →
  let k := mkNN (dpu_Namespace dpu) name in
  let r := RemoveRequestorFromDPUNodeMaintenance dpu w in
  match r.1, dnms w !! k with
  | None, Some d =>
      ∃ d', dnms r.2 = <[k := d']> (dnms w) ∧
        dnm_Requestor d' = without_requestor (dpu_Name dpu) (dnm_Requestor d) ∧
        dnm_NodeEffect d' = dnm_NodeEffect d ∧
        (dpu_Name dpu ∉ dnm_Requestor d → d' = d)
  | _, _ => dnms r.2 = dnms w
  end.
Proof. apply RemoveRequestor_result. Qed.

(** What addRequestorAndUpdateForce does to the store. *)
Lemma addRequestor_result d0 n additional force w :
  let k := dnm_key d0 in
  let r := addRequestorAndUpdateForce d0 n additional force w in
  match r.1 with
  | None =>
      ∃ d d', dnms w !! k = Some d ∧ dnms r.2 = <[k := d']> (dnms w) ∧
        if isDPUInRequestor d n then d' = d
        else (∀ q, q ∈ dnm_Requestor d' ↔ q ∈ dnm_Requestor d ∨ q = n ∨ q ∈ additional) ∧
             NoDup (dnm_Requestor d') ∧
             dnm_Annotations d' = InjectIntoObject
               (<[GenerateLastAppliedAdditionalRequestorsOnDPUAnnotationKey n := json_strings additional]> (dnm_Annotations d)) ∧
             (∀ ne, dnm_NodeEffect d = Some ne → dnm_NodeEffect d' =
                if force && bool_decide (ac_Force (ne_Action ne) = Some false) then Some (with_Force true ne) else Some ne)
  | Some _ => dnms r.2 = dnms w
  end.
Proof.
  cbn zeta. unfold addRequestorAndUpdateForce. set (k := dnm_key d0).
  apply (retry_invariant _ (λ w', dnms w' = dnms w)); [|done]. intros w0 Hw0.
  unfold mbind, SM_bind, mret, SM_ret. pose proof (get_dnm k w0) as [Hg1 Hg2].
  destruct (getDPUNodeMaintenance k w0) as [[d|e] w1]; simpl in *; [|split; [|intros _]; congruence].
  destruct Hg2 as [Hd Hk]. rewrite Hw0 in Hd.
  destruct (isDPUInRequestor d n) eqn:Hin; simpl.
  { split; [|done]. exists d, d. rewrite Hd, Hin, insert_id by done. split_and!; congruence. }
  destruct (add_requestor n additional force d) as [d'|e] eqn:Ea; simpl; [|split; [|intros _]; congruence].
  pose proof (patch_dnm d d' w1) as Hp.
  destruct (patchDPUNodeMaintenance d d' w1) as [[e|] w2]; simpl in *; [split; [|intros _]; congruence|].
  split; [|done]. exists d, d'. rewrite Hin. split; [done|].
  assert (dnm_key d' = k ∧ dnm_Requestor d' = RemoveDuplicates (dnm_Requestor d ++ [n] ++ additional) ∧
    dnm_Annotations d' = InjectIntoObject
      (<[GenerateLastAppliedAdditionalRequestorsOnDPUAnnotationKey n := json_strings additional]> (dnm_Annotations d)) ∧
    (∀ ne, dnm_NodeEffect d = Some ne → dnm_NodeEffect d' =
       if force && bool_decide (ac_Force (ne_Action ne) = Some false) then Some (with_Force true ne) else Some ne))
    as (Hk' & Hr & Hann & Hne).
  { revert Ea. unfold add_requestor. destruct force; simpl; [destruct (dnm_NodeEffect d) as [ne|] eqn:En; [|done]|];
      intros [= <-]; split_and!; try done; intros ne' [= <-]; simpl;
      by destruct (ac_Force (ne_Action ne)) as [[]|]. }
  rewrite Hp, Hk', Hg1, Hw0. split_and!; [done| |by rewrite Hr; apply NoDup_RemoveDuplicates|done|done].
  intros q. rewrite Hr, elem_of_RemoveDuplicates, !elem_of_app, list_elem_of_singleton. done.
Qed.

(** addRequestorAndUpdateForce, under the same conditions: when it reports
    success the object exists, a DPU that was already a requestor changes
    nothing, and otherwise the requestors are the old ones, the DPU and its
    additional requestors, none twice, the annotation of the DPU records the
    additional ones, and a force turns a Force=false of the object into true;
    on an error nothing has changed. *)
Theorem addRequestor_spec d0 n additional force w :
  let k := dnm_key d0 in
  let r := addRequestorAndUpdateForce d0 n additional force w in
  match r.1 with
  | None =>
      ∃ d d', dnms w !! k = Some d ∧ dnms r.2 = <[k := d']> (dnms w) ∧
        if isDPUInRequestor d n then d' = d
        else (∀ q, q ∈ dnm_Requestor d' ↔ q ∈ dnm_Requestor d ∨ q = n ∨ q ∈ additional) ∧
             NoDup (dnm_Requestor d') ∧
             dnm_Annotations d' = InjectIntoObject
               (<[GenerateLastAppliedAdditionalRequestorsOnDPUAnnotationKey n := json_strings additional]> (dnm_Annotations d)) ∧
             (∀ ne, dnm_NodeEffect d = Some ne → dnm_NodeEffect d' =
                if force && bool_decide (ac_Force (ne_Action ne) = Some false) then Some (with_Force true ne) else Some ne)
  | Some _ => dnms r.2 = dnms w
  end.
Proof. apply addRequestor_result. Qed.

(** UpdateDPUNodeMaintenanceRequestors, under the same conditions, on an
    object that records the DPU's additional requestors: it leaves the object
    alone when the record equals the spec as a multiset, and otherwise a success
    puts the requestors of the spec in place of the recorded ones and records
    them; an error changes nothing.  In every case the DPU the caller holds is
    the same up to the order of its additional requestors. *)
Theorem UpdateRequestors_spec dpu w name d str last :
  GenerateDPUNodeMaintenanceObjectName (sp_DPUNodeName (dpu_Spec dpu)) (sp_NodeEffect (dpu_Spec dpu)) = Ok name →
  let k := mkNN (dpu_Namespace dpu) name in
  let annkey := GenerateLastAppliedAdditionalRequestorsOnDPUAnnotationKey (dpu_Name dpu) in
  dnms w !! k = Some d → dnm_Annotations d !! annkey = Some str → unjson_strings str = Ok last →
  let r := UpdateDPUNodeMaintenanceRequestors dpu w in
  additional_requestors r.1.2 ≡ₚ additional_requestors dpu ∧
  match r.1.1 with
  | Some _ => dnms r.2 = dnms w
  | None =>
      (last ≡ₚ additional_requestors dpu ∧ dnms r.2 = dnms w) ∨
      (¬ last ≡ₚ additional_requestors dpu ∧ ∃ d' rs, dnms r.2 = <[k := d']> (dnms w) ∧
         (∀ q, q ∈ dnm_Requestor d' ↔ q ∈ additional_requestors dpu ∨ (q ∈ dnm_Requestor d ∧ q ∉ last)) ∧
         rs ≡ₚ additional_requestors dpu ∧
         dnm_Annotations d' = InjectIntoObject (<[annkey := json_strings rs]> (dnm_Annotations d)))
  end.
Proof.
  intros Hname k annkey Hd Hstr Hlast. cbn zeta. unfold UpdateDPUNodeMaintenanceRequestors. rewrite Hname. fold k.
  set (Q := λ (r : option GoError) (xw : list string * W), xw.1 ≡ₚ additional_requestors dpu ∧
    match r with
    | Some _ => dnms xw.2 = dnms w
    | None =>
        (last ≡ₚ additional_requestors dpu ∧ dnms xw.2 = dnms w) ∨
        (¬ last ≡ₚ additional_requestors dpu ∧ ∃ d' rs, dnms xw.2 = <[k := d']> (dnms w) ∧
           (∀ q, q ∈ dnm_Requestor d' ↔ q ∈ additional_requestors dpu ∨ (q ∈ dnm_Requestor d ∧ q ∉ last)) ∧
           rs ≡ₚ additional_requestors dpu ∧
           dnm_Annotations d' = InjectIntoObject (<[annkey := json_strings rs]> (dnm_Annotations d)))
    end).
  pose proof (RetryOnConflict_invariant _ (update_requestors_once (dpu_Name dpu) k)
    (λ xw, xw.1 ≡ₚ additional_requestors dpu ∧ dnms xw.2 = dnms w) Q (additional_requestors dpu, w)) as HR.
  destruct (RetryOnConflict _ _ _) as [r [expected w']]. apply HR; [clear HR|done].
  intros [ex w0] [Hex Hw0]. simpl in Hex, Hw0. unfold update_requestors_once, Q.
  pose proof (get_dnm k w0) as [Hg1 Hg2]. destruct (getDPUNodeMaintenance k w0) as [[d0|e] w1]; simpl in *.
  - destruct Hg2 as [Hd0 Hk]. rewrite Hw0, Hd in Hd0. injection Hd0 as ->. fold annkey. rewrite Hstr, Hlast.
    assert (sort_Strings ex ≡ₚ ex) as Hs by apply merge_sort_Permutation.
    assert (sort_Strings last ≡ₚ last) as Hl by apply merge_sort_Permutation.
    case_decide as Hc; simpl.
    + split_and!; [by rewrite Hs| |done]. left. split; [|congruence]. by rewrite <- Hex, <- Hs, <- Hc, Hl.
    + set (d' := with_dnm_Spec _ _ _ d0). pose proof (update_dnm d' w1) as Hu.
      destruct (updateDPUNodeMaintenance d' w1) as [[e|] w2]; simpl in *;
        [split_and!; try (by rewrite Hs); intros; try split; try (by rewrite Hs); congruence|].
      split_and!; [by rewrite Hs| |done]. right. split.
      { intros Hp. apply Hc. apply (Sorted_unique String.le); [apply Sorted_merge_sort, _..|].
        by rewrite Hl, Hs, Hp, Hex. }
      exists d', (sort_Strings ex). change (dnm_key d') with (dnm_key d0) in Hu. rewrite Hu, Hk, Hg1, Hw0.
      split_and!; [done| |by rewrite Hs|done].
      intros q. simpl. rewrite elem_of_app, elem_of_findOutDPURequestors, !elem_of_sort_Strings, Hex. done.
  - split; [split; [done|]|intros _; split; [done|congruence]].
    destruct (IsNotFound e); simpl; [|congruence]. rewrite Hw0 in Hg2. specialize (Hg2 eq_refl). congruence.
Qed.
End Specs.

(** ** Examples *)

Definition example_named (name : string) (rs : list string) : DPU :=
  let d := example_dpu name "c1" in
  with_Spec (with_NodeEffect (with_additional_requestors rs (sp_NodeEffect (dpu_Spec d))) (dpu_Spec d)) d.
(** What a DPU that creates the object and another that joins it leave behind. *)
Definition shared_world : World :=
  let w := (@createDPUNodeMaintenance _ fake_client fake_codec "node-k8sdrain" (example_named "d1" ["svc"]) empty_world).2 in
  (@addRequestorAndUpdateForce _ fake_client fake_codec
     (@new_DPUNodeMaintenance fake_codec "node-k8sdrain" (example_named "d1" ["svc"])) "d2" ["svc"] false w).2.
Definition shared_key := mkNN "ns" "node-k8sdrain".

Definition requestors_of (w : World) : option (list string) := dnm_Requestor <$> w_maintenances w !! shared_key.

Example shared_requestors : requestors_of shared_world = Some ["svc"; "d1"; "d2"].
Proof. vm_compute. reflexivity. Qed.

Definition fake_dnms : World → gmap NamespacedName DPUNodeMaintenance := @dnms World fake_client fake_maintenance_store.

Lemma RemoveRequestor_spec_witness :
  requestors_of (@RemoveRequestorFromDPUNodeMaintenance _ fake_client fake_codec (example_named "d1" []) shared_world).2
    = Some ["svc"; "d2"] ∧
  ∃ d', fake_dnms (@RemoveRequestorFromDPUNodeMaintenance _ fake_client fake_codec (example_named "d1" []) shared_world).2
        !! shared_key = Some d' ∧ dnm_Requestor d' = ["svc"; "d2"].
Proof.
  split; [vm_compute; reflexivity|].
  pose proof (@RemoveRequestor_spec _ fake_client fake_codec _ _ (example_named "d1" []) shared_world "node-k8sdrain" eq_refl) as Hr.
  cbn zeta in Hr. change (@dnms _ _ _) with fake_dnms in Hr.
  replace ((@RemoveRequestorFromDPUNodeMaintenance _ fake_client fake_codec (example_named "d1" []) shared_world).1)
    with (@None GoError) in Hr by (vm_compute; reflexivity).
  assert (dnm_Requestor <$> fake_dnms shared_world !! shared_key = Some ["svc"; "d1"; "d2"]) as Er by (vm_compute; reflexivity).
  change (mkNN _ _) with shared_key in Hr.
  destruct (fake_dnms shared_world !! shared_key) as [d|]; [|discriminate Er]. injection Er as Er.
  destruct Hr as (d' & Hw & Hreq & _). rewrite Er in Hreq.
  exists d'. rewrite Hw. split; [apply lookup_insert_eq|exact Hreq].
Defined.

Lemma UpdateRequestors_spec_witness :
  let dpu := example_named "d1" ["b"; "a"] in
  let r := @UpdateDPUNodeMaintenanceRequestors _ fake_client fake_codec dpu shared_world in
  additional_requestors r.1.2 ≡ₚ additional_requestors dpu ∧ requestors_of r.2 = Some ["a"; "b"; "d1"; "d2"].
Proof.
  intros dpu r. split; [|vm_compute; reflexivity].
  assert ((λ d, dnm_Annotations d !! @GenerateLastAppliedAdditionalRequestorsOnDPUAnnotationKey fake_codec (dpu_Name dpu)) <$>
    @dnms World fake_client fake_maintenance_store shared_world !! mkNN (dpu_Namespace dpu) "node-k8sdrain"
    = Some (Some (@json_strings fake_codec ["svc"]))) as Ea by (vm_compute; reflexivity).
  destruct (dnms shared_world !! mkNN (dpu_Namespace dpu) "node-k8sdrain") as [d|] eqn:E; [|discriminate Ea].
  injection Ea as Ea.
  pose proof (@UpdateRequestors_spec World fake_client fake_codec fake_client_laws fake_maintenance_store dpu shared_world
    "node-k8sdrain" d (@json_strings fake_codec ["svc"]) ["svc"] ltac:(vm_compute; reflexivity) E Ea
    (@unjson_json_strings fake_codec fake_codec_laws ["svc"])) as [Hp _].
  exact Hp.
Defined.

(** Two DPUs on one node share a DPUNodeMaintenance and both ask for the
    additional requestor svc.  When the spec of the first drops it,
    UpdateDPUNodeMaintenanceRequestors removes svc from the object, although the
    second DPU still asks for it and its own record in the object still lists
    it: the function treats every requestor it once added as its own. *)
Theorem UpdateRequestors_drops_shared :
  let r := @UpdateDPUNodeMaintenanceRequestors _ fake_client fake_codec (example_named "d1" []) shared_world in
  r.1.1 = None ∧ requestors_of shared_world = Some ["svc"; "d1"; "d2"] ∧ requestors_of r.2 = Some ["d1"; "d2"] ∧
  (λ d, dnm_Annotations d !! @GenerateLastAppliedAdditionalRequestorsOnDPUAnnotationKey fake_codec "d2") <$>
    w_maintenances r.2 !! shared_key = Some (Some (@json_strings fake_codec ["svc"])).
Proof. vm_compute. repeat split. Qed.

(** The same function can put a requestor twice in an object: it appends
    the requestors it keeps to those of the spec without removing duplicates,
    here when a DPU starts to ask for one that another DPU brought. *)
Theorem UpdateRequestors_duplicates :
  let w := (@UpdateDPUNodeMaintenanceRequestors _ fake_client fake_codec (example_named "d1" []) shared_world).2 in
  let w := (@addRequestorAndUpdateForce _ fake_client fake_codec
     (@new_DPUNodeMaintenance fake_codec "node-k8sdrain" (example_named "d1" [])) "d3" ["svc"] false w).2 in
  let r := @UpdateDPUNodeMaintenanceRequestors _ fake_client fake_codec (example_named "d1" ["svc"]) w in
  r.1.1 = None ∧ requestors_of r.2 = Some ["svc"; "d1"; "d2"; "d3"; "svc"].
Proof. vm_compute. split; reflexivity. Qed.

Lemma addRequestor_spec_witness :
  let r := @addRequestorAndUpdateForce _ fake_client fake_codec
             (@new_DPUNodeMaintenance fake_codec "node-k8sdrain" (example_named "d1" ["svc"])) "d3" ["svc"] false shared_world in
  r.1 = None ∧ ∃ d, @dnms World fake_client _ r.2 !! mkNN "ns" "node-k8sdrain" = Some d ∧ "d3" ∈ dnm_Requestor d.
Proof.
  pose proof (@addRequestor_spec _ fake_client fake_codec _ _
    (@new_DPUNodeMaintenance fake_codec "node-k8sdrain" (example_named "d1" ["svc"])) "d3" ["svc"] false shared_world) as H.
  cbv zeta in *.
  assert ((@addRequestorAndUpdateForce _ fake_client fake_codec
    (@new_DPUNodeMaintenance fake_codec "node-k8sdrain" (example_named "d1" ["svc"])) "d3" ["svc"] false shared_world).1 = None)
    as Hr by (vm_compute; reflexivity).
  split; [exact Hr|]. rewrite Hr in H. destruct H as (d & d' & Hd & Hw & Hq). exists d'.
  split; [rewrite Hw; apply lookup_insert_eq|].
  destruct (isDPUInRequestor d "d3") eqn:Hin; [subst; by eapply bool_decide_eq_true_1|]. apply Hq. right. left. reflexivity.
Defined.
