(* ===== verification/ClusterMetadata.v ===== *)
(** The labels and annotations a DPU carries over to its node in the DPU cluster
    (internal/provisioning/controllers/util/util.go): merging the DPUSet template
    with the DPUDevice, applying the result to the node, and noticing that the
    node is behind. *)

From S2P Require Import Prelude.
From S2P Require Import Meta.
From S2P Require Import Conditions.
From S2P Require Import DPUTypes.
From S2P Require Import Kubernetes.
From S2P Require Import FakeClient.

Definition LastAppliedLabelsOnDPUKey := DPUProvisioningPrefix +:+ "last-applied-labels-on-dpu".
Definition LastAppliedAnnotationsOnDPUKey := DPUProvisioningPrefix +:+ "last-applied-annotations-on-dpu".

Definition with_no_meta (labels ann : gmap string string) (n : Node) : Node :=
  mkNode (no_Name n) labels ann (no_Conditions n) (no_Addresses n) (no_Taints n).

(** ** Operations *)

Section Metadata.
Context {K : Codec} {R : MapRange}.

(** The keys are in the order the map was visited. *)
Definition GetRemovedLabels (oldLabels newLabels : gmap string string) : list string :=
  filter (λ key, newLabels !! key = None) (range_map oldLabels).*1.

Definition delete_keys (keys : list string) (m : gmap string string) : gmap string string :=
  foldl (λ m key, delete key m) m keys.

(** [for key, value := range labels { m[key] = value }] *)
Definition set_all (labels m : gmap string string) : gmap string string :=
  foldl (λ m kv, <[kv.1 := kv.2]> m) m (range_map labels).

(** One of the two halves of [UpdateLabelsAndAnnotationsToNode]: the map that is
    updated, given the wanted entries and the ones last applied. *)
Definition apply_entries (old wanted m : gmap string string) : gmap string string :=
  delete_keys (GetRemovedLabels old wanted) (set_all wanted m).

(** [json.Unmarshal] of an annotation that may be absent. *)
Definition last_applied (key : string) (ann : gmap string string) : Res (gmap string string) :=
  match ann !! key with
  | None => Ok ∅
  | Some str => unjson_map str
  end.

(** [UpdateLabelsAndAnnotationsToNode], up to the patch. *)
Definition updated_node (node : Node) (labels annotations : gmap string string) : Res Node :=
  match last_applied LastAppliedLabelsOnDPUKey (no_Annotations node) with
  | Err err => Err err
  | Ok oldLabels =>
      let nodeLabels := apply_entries oldLabels labels (no_Labels node) in
      let ann := <[LastAppliedLabelsOnDPUKey := json_map labels]> (no_Annotations node) in
      match last_applied LastAppliedAnnotationsOnDPUKey ann with
      | Err err => Err err
      | Ok oldAnn =>
          let ann := apply_entries oldAnn annotations ann in
          let ann := <[LastAppliedAnnotationsOnDPUKey := json_map annotations]> ann in
          Ok (with_no_meta nodeLabels ann node)
      end
  end.

Definition UpdateLabelsAndAnnotationsToNode {W} {C : Client W} (dc : DPUCluster) (node : Node)
    (labels annotations : gmap string string) : SM W (option GoError) :=
  match updated_node node labels annotations with
  | Err err => mret (Some err)
  | Ok node' => patchClusterNode dc node node'
  end.

Definition NeedUpdateLabelsOnNodeInDPUCluster (dpuNode : Node) (labelsOnDPUObject : gmap string string) : Res bool :=
  match last_applied LastAppliedLabelsOnDPUKey (no_Annotations dpuNode) with
  | Err err => Err err
  | Ok lastAppliedLabels => Ok (bool_decide (labelsOnDPUObject ≠ lastAppliedLabels))
  end.

Definition NeedUpdateAnnotationsOnNodeInDPUCluster (dpuNode : Node) (annotationsOnDPUObject : gmap string string)
    : Res bool :=
  match last_applied LastAppliedAnnotationsOnDPUKey (no_Annotations dpuNode) with
  | Err err => Err err
  | Ok lastApplied => Ok (bool_decide (annotationsOnDPUObject ≠ lastApplied))
  end.

(** The loop over the entries of the device, for labels and for annotations. *)
Fixpoint merge_entries (kind : string) (entries : list (string * string)) (m : gmap string string)
    : Res (gmap string string) :=
  match entries with
  | [] => Ok m
  | (k, v) :: entries =>
      match m !! k with
      | Some existing =>
          if decide (existing ≠ v) then
            Err (errorf (kind +:+ " key " +:+ quoted k +:+ ": DPUSet template and DPUDevice disagree ("
                         +:+ quoted existing +:+ " vs " +:+ quoted v +:+ ")"))
          else merge_entries kind entries (<[k := v]> m)
      | None => merge_entries kind entries (<[k := v]> m)
      end
  end.

(** A cluster spec is its NodeLabels and NodeAnnotations. *)
Definition MergeDPUClusterNodeMetadata (template device : option (gmap string string * gmap string string))
    : Res (gmap string string * gmap string string) :=
  let labels := match template with Some t => set_all t.1 ∅ | None => ∅ end in
  let annotations := match template with Some t => set_all t.2 ∅ | None => ∅ end in
  match device with
  | None => Ok (labels, annotations)
  | Some d =>
      match merge_entries "label" (range_map d.1) labels with
      | Err err => Err err
      | Ok labels =>
          match merge_entries "annotation" (range_map d.2) annotations with
          | Err err => Err err
          | Ok annotations => Ok (labels, annotations)
          end
      end
  end.
End Metadata.

Section Reads.
Context {W : Type} {C : Client W}.

Definition GetNodeFromDPUCluster (dpu : DPU) : SM W (Res Node) :=
  let c := sp_Cluster (dpu_Spec dpu) in
  r ← getDPUCluster (mkNN (kc_Namespace c) (kc_Name c));
  match r with
  | Err err => mret (Err err)
  | Ok dpuCluster =>
      e ← connectCluster dpuCluster;
      match e with
      | Some err => mret (Err err)
      | None => getClusterNode dpuCluster (mkNN (kc_Namespace c) (dpu_Name dpu))
      end
  end.

Definition ShouldSkipHWProvisioning (dpu : DPU) : SM W (Res bool) :=
  r ← getDPUDevice (mkNN (dpu_Namespace dpu) (sp_DPUDeviceName (dpu_Spec dpu)));
  mret (match r with
        | Err err => Err (wrapf ("failed to get DPUDevice " +:+ sp_DPUDeviceName (dpu_Spec dpu) +:+ ": ") err)
        | Ok dpuDevice => Ok (bool_decide (dd_Labels dpuDevice !! DPUDeviceLabelSkipHWProvisioning = Some "true"))
        end).
End Reads.

(** ** Lemmas *)

Section Lemmas.
Context {K : Codec} {KL : CodecLaws K} {R : MapRange} {RL : MapRangeLaws R}.

Lemma lookup_delete_keys keys (m : gmap string string) k :
  delete_keys keys m !! k = if decide (k ∈ keys) then None else m !! k.
Proof.
  unfold delete_keys. induction keys as [|key keys IH] using rev_ind; [by rewrite decide_False by apply not_elem_of_nil|].
  rewrite foldl_app. simpl. destruct (decide (k = key)) as [->|].
  - rewrite lookup_delete_eq, decide_True; [done|]. apply elem_of_app. right. by left.
  - rewrite lookup_delete_ne, IH by done. repeat case_decide; try done; set_solver.
Qed.

Lemma foldl_insert_lookup (kvs : list (string * string)) (m : gmap string string) k :
  NoDup kvs.*1 →
  foldl (λ m kv, <[kv.1 := kv.2]> m) m kvs !! k =
  match (list_to_map kvs : gmap string string) !! k with Some v => Some v | None => m !! k end.
Proof.
  revert m. induction kvs as [|[k' v'] kvs IH]; intros m Hnd; simpl in *; [by rewrite lookup_empty|].
  apply NoDup_cons in Hnd as [Hk Hnd]. rewrite IH by done.
  destruct (decide (k = k')) as [->|].
  - rewrite lookup_insert_eq, not_elem_of_list_to_map_1 by done. by rewrite lookup_insert_eq.
  - by rewrite !lookup_insert_ne by done.
Qed.

Lemma NoDup_range_map (m : gmap string string) : NoDup (range_map m).*1.
Proof. rewrite (range_map_perm m). apply NoDup_fst_map_to_list. Qed.

Lemma list_to_map_range (m : gmap string string) : list_to_map (range_map m) = m.
Proof.
  apply map_eq. intros k. apply option_eq. intros v.
  rewrite <- elem_of_list_to_map by apply NoDup_range_map. apply elem_of_range_map.
Qed.

Lemma set_all_union labels m : set_all labels m = labels ∪ m.
Proof.
  apply map_eq. intros k. unfold set_all. rewrite foldl_insert_lookup by apply NoDup_range_map.
  rewrite list_to_map_range, lookup_union. by destruct (labels !! k), (m !! k).
Qed.

Lemma elem_of_GetRemovedLabels old new k :
  k ∈ GetRemovedLabels old new ↔ is_Some (old !! k) ∧ new !! k = None.
Proof.
  unfold GetRemovedLabels. rewrite list_elem_of_filter, list_elem_of_fmap. split.
  - intros [Hn ([k' v] & -> & Hin)]. apply elem_of_range_map in Hin. by split.
  - intros [[v Hv] Hn]. split; [done|]. exists (k, v). split; [done|]. by apply elem_of_range_map.
Qed.

(** Wanted entries are set, entries that were applied and are no longer wanted
    are gone, and the others are as before. *)
Lemma lookup_apply_entries old wanted m k :
  apply_entries old wanted m !! k =
  match wanted !! k with
  | Some v => Some v
  | None => if decide (is_Some (old !! k)) then None else m !! k
  end.
Proof.
  unfold apply_entries. rewrite lookup_delete_keys, set_all_union, lookup_union.
  destruct (wanted !! k) as [v|] eqn:E.
  - rewrite decide_False; [by destruct (m !! k)|]. rewrite elem_of_GetRemovedLabels. naive_solver.
  - assert (k ∈ GetRemovedLabels old wanted ↔ is_Some (old !! k)) as Hi
      by (rewrite elem_of_GetRemovedLabels; naive_solver).
    repeat case_decide; try tauto. by destruct (m !! k).
Qed.

Lemma merge_entries_spec kind (kvs : list (string * string)) m :
  NoDup kvs.*1 →
  match merge_entries kind kvs m with
  | Ok m' => (∀ k v, (k, v) ∈ kvs → m !! k = None ∨ m !! k = Some v) ∧ m' = list_to_map kvs ∪ m
  | Err e => ∃ k v v', (k, v) ∈ kvs ∧ m !! k = Some v' ∧ v' ≠ v
  end.
Proof.
  revert m. induction kvs as [|[k v] kvs IH]; intros m Hnd; simpl in *.
  { split; [by intros ? ? ?%elem_of_nil|]. by rewrite map_empty_union. }
  apply NoDup_cons in Hnd as [Hk Hnd].
  assert (∀ v', (k, v') ∉ kvs) as Hk' by (intros v' Hin; apply Hk; by apply (list_elem_of_fmap_2 fst) in Hin).
  assert (match merge_entries kind kvs (<[k:=v]> m) with
          | Ok m' => (m !! k = None ∨ m !! k = Some v) →
              (∀ k0 v0, (k0, v0) ∈ (k, v) :: kvs → m !! k0 = None ∨ m !! k0 = Some v0) ∧
              m' = <[k:=v]> (list_to_map kvs) ∪ m
          | Err e => ∃ k0 v0 v', (k0, v0) ∈ (k, v) :: kvs ∧ m !! k0 = Some v' ∧ v' ≠ v0
          end) as HI.
  { specialize (IH (<[k:=v]> m) Hnd). destruct (merge_entries kind kvs _) as [m'|e].
    - destruct IH as [Hall ->]. intros Hm. split.
      + intros k0 v0 [[= -> ->]|Hin]%elem_of_cons; [done|]. destruct (Hall _ _ Hin) as [Hl|Hl];
          (rewrite lookup_insert_ne in Hl by (intros <-; by eapply Hk')); auto.
      + rewrite <- insert_union_l, insert_union_r; [done|]. by apply not_elem_of_list_to_map_1.
    - destruct IH as (k0 & v0 & v' & Hin & Hl & Hne). exists k0, v0, v'.
      rewrite lookup_insert_ne in Hl by (intros <-; by eapply Hk'). split; [by right|done]. }
  destruct (m !! k) as [existing|] eqn:E.
  - case_decide as D.
    + exists k, v, existing. split; [left|done].
    + subst existing. destruct (merge_entries kind kvs _); [apply HI; by right|done].
  - destruct (merge_entries kind kvs _); [apply HI; by left|done].
Qed.
End Lemmas.

Section Theorems.
Context {K : Codec} {KL : CodecLaws K} {R : MapRange} {RL : MapRangeLaws R}.

(** The two annotations that record what was applied. *)
Definition bookkeeping (k : string) : Prop :=
  k = LastAppliedLabelsOnDPUKey ∨ k = LastAppliedAnnotationsOnDPUKey.

(** ** Properties *)

(** Applying the cluster metadata of a DPU to its node converges: the node
    that is written needs no further update of labels or annotations, carries
    every wanted label and annotation, has lost exactly the ones that were
    applied before and are no longer wanted, and keeps every entry the
    controller does not own.  The wanted annotations, now and when they were last
    applied, do not use the names of the two bookkeeping annotations. *)
Theorem updated_node_converges node labels annotations node' :
  (∀ k, bookkeeping k → annotations !! k = None) →
  (∀ old k, last_applied LastAppliedAnnotationsOnDPUKey (no_Annotations node) = Ok old → bookkeeping k → old !! k = None) →
  updated_node node labels annotations = Ok node' →
  NeedUpdateLabelsOnNodeInDPUCluster node' labels = Ok false ∧
  NeedUpdateAnnotationsOnNodeInDPUCluster node' annotations = Ok false ∧
  ∃ oldLabels oldAnn,
    last_applied LastAppliedLabelsOnDPUKey (no_Annotations node) = Ok oldLabels ∧
    last_applied LastAppliedAnnotationsOnDPUKey (no_Annotations node) = Ok oldAnn ∧
    (∀ k, no_Labels node' !! k =
       match labels !! k with
       | Some v => Some v
       | None => if decide (is_Some (oldLabels !! k)) then None else no_Labels node !! k
       end) ∧
    (∀ k, ¬ bookkeeping k → no_Annotations node' !! k =
       match annotations !! k with
       | Some v => Some v
       | None => if decide (is_Some (oldAnn !! k)) then None else no_Annotations node !! k
       end).
Proof.
  intros Hkeys Hold. unfold updated_node.
  destruct (last_applied LastAppliedLabelsOnDPUKey _) as [oldLabels|] eqn:E1; [|done].
  assert (last_applied LastAppliedAnnotationsOnDPUKey (<[LastAppliedLabelsOnDPUKey:=json_map labels]> (no_Annotations node))
    = last_applied LastAppliedAnnotationsOnDPUKey (no_Annotations node)) as ->
    by (unfold last_applied; rewrite lookup_insert_ne by done; done).
  destruct (last_applied LastAppliedAnnotationsOnDPUKey _) as [oldAnn|] eqn:E2; [|done].
  intros [= <-]. unfold NeedUpdateLabelsOnNodeInDPUCluster, NeedUpdateAnnotationsOnNodeInDPUCluster, last_applied. simpl.
  rewrite lookup_insert_eq, lookup_insert_ne, lookup_apply_entries, (Hkeys LastAppliedLabelsOnDPUKey) by (done || by left).
  rewrite decide_False by (rewrite (Hold oldAnn LastAppliedLabelsOnDPUKey eq_refl) by (by left); by intros []).
  rewrite lookup_insert_eq, !unjson_json_map, !bool_decide_false by auto.
  split; [done|]. split; [done|]. exists oldLabels, oldAnn. split_and!; [done..|apply lookup_apply_entries|].
  intros k Hk. assert (k ≠ LastAppliedLabelsOnDPUKey ∧ k ≠ LastAppliedAnnotationsOnDPUKey) as [H1 H2]
    by (split; intros ->; apply Hk; [by left|by right]).
  rewrite lookup_insert_ne, lookup_apply_entries, lookup_insert_ne by done. done.
Qed.

(** Merging the DPUSet template with the DPUDevice succeeds exactly when
    they agree on every key they share, in whatever order the maps are visited;
    the result is then the union of both. *)
Theorem MergeDPUClusterNodeMetadata_spec t d :
  match MergeDPUClusterNodeMetadata t (Some d) with
  | Ok (labels, annotations) =>
      (∀ k v v', default ∅ (fst <$> t) !! k = Some v → d.1 !! k = Some v' → v = v') ∧
      (∀ k v v', default ∅ (snd <$> t) !! k = Some v → d.2 !! k = Some v' → v = v') ∧
      labels = d.1 ∪ default ∅ (fst <$> t) ∧ annotations = d.2 ∪ default ∅ (snd <$> t)
  | Err _ =>
      (∃ k v v', default ∅ (fst <$> t) !! k = Some v ∧ d.1 !! k = Some v' ∧ v ≠ v') ∨
      (∃ k v v', default ∅ (snd <$> t) !! k = Some v ∧ d.2 !! k = Some v' ∧ v ≠ v')
  end.
Proof.
  unfold MergeDPUClusterNodeMetadata.
  assert (match t with Some t => set_all t.1 ∅ | None => ∅ end = default ∅ (fst <$> t)) as ->
    by (destruct t; simpl; [by rewrite set_all_union, map_union_empty|done]).
  assert (match t with Some t => set_all t.2 ∅ | None => ∅ end = default ∅ (snd <$> t)) as ->
    by (destruct t; simpl; [by rewrite set_all_union, map_union_empty|done]).
  pose proof (merge_entries_spec "label" _ (default ∅ (fst <$> t)) (NoDup_range_map d.1)) as H1.
  pose proof (merge_entries_spec "annotation" _ (default ∅ (snd <$> t)) (NoDup_range_map d.2)) as H2.
  rewrite list_to_map_range in H1, H2.
  destruct (merge_entries "label" _ _); [destruct H1 as [H1 ->]|left; destruct H1 as (k & v & v' & ?%elem_of_range_map & ? & ?); by exists k, v', v].
  destruct (merge_entries "annotation" _ _); [destruct H2 as [H2 ->]|right; destruct H2 as (k & v & v' & ?%elem_of_range_map & ? & ?); by exists k, v', v].
  split_and!; [intros k v v' Ht Hd; apply elem_of_range_map in Hd; destruct (H1 _ _ Hd)|intros k v v' Ht Hd; apply elem_of_range_map in Hd; destruct (H2 _ _ Hd)|done|done];
    congruence.
Qed.
End Theorems.

Lemma updated_node_converges_witness :
  let node := mkNode "n" (<["old" := "1"]> (<["own" := "2"]> ∅))
    (<[LastAppliedLabelsOnDPUKey := @json_map fake_codec (<["old" := "1"]> ∅)]> ∅) [] [] [] in
  let labels : gmap string string := <["new" := "3"]> ∅ in
  ∃ node', @updated_node fake_codec map_to_list_range node labels (<["a" := "b"]> ∅) = Ok node' ∧
    @NeedUpdateLabelsOnNodeInDPUCluster fake_codec node' labels = Ok false.
Proof.
  cbn zeta.
  destruct (@updated_node fake_codec map_to_list_range _ _ _) as [node'|e] eqn:E; [|vm_compute in E; discriminate].
  exists node'. split; [reflexivity|].
  eapply (@updated_node_converges fake_codec _ map_to_list_range _); [| |exact E].
  - intros k [-> | ->]; vm_compute; reflexivity.
  - intros old k Ho Hk. vm_compute in Ho. injection Ho as <-. reflexivity.
Defined.

Lemma MergeDPUClusterNodeMetadata_spec_witness :
  ∃ annotations,
    @MergeDPUClusterNodeMetadata map_to_list_range (Some ({["a" := "1"]}, ∅)) (Some ({["b" := "2"]}, ∅)) =
    Ok ({["b" := "2"]} ∪ {["a" := "1"]}, annotations).
Proof.
  pose proof (@MergeDPUClusterNodeMetadata_spec map_to_list_range _ (Some ({["a" := "1"]}, ∅)) ({["b" := "2"]}, ∅)) as H.
  destruct (MergeDPUClusterNodeMetadata _ _) as [[labels annotations]|e] eqn:E.
  - exists annotations. destruct H as (_ & _ & Hl & _). rewrite Hl. reflexivity.
  - exfalso. vm_compute in E. discriminate.
Defined.
