(* ===== verification/ControllerContext.v ===== *)
(** What a phase handler works with (dpu/util/options.go): the options of the
    controller, the operator configuration of the reconcile, and the state the
    handlers share -- the provisioning map, the allocator's cache and the world
    behind the API client.  A handler reads the clock once: [env_now] is the
    instant of its run. *)

From S2P Require Import Prelude.
From S2P Require Import Meta.
From S2P Require Import Conditions.
From S2P Require Import DPUTypes.
From S2P Require Import DPUConditions.
From S2P Require Import ProvisioningMap.
From S2P Require Import Kubernetes.
From S2P Require Import FakeClient.
From S2P Require Import Allocator.

(** ** Standard library and build constants kept abstract *)

Class TextAPI := {
  (** [String] of a time.Duration and [Format(time.RFC3339)] of an instant. *)
  duration_string : Z → string;
  rfc3339 : Time → string;
  (** Whether [net.ParseIP] accepts a text. *)
  ParseIP_ok : string → bool }.

Definition fake_text : TextAPI := {|
  duration_string d := pretty d; rfc3339 t := pretty t; ParseIP_ok s := bool_decide (s ≠ "") |}.

(** ** Options *)

(** DPUOptions, the fields the modelled handlers read; durations are nanoseconds. *)
Record DPUOptions := mkDPUOptions {
  op_DPUInstallInterface : string;
  op_DeploymentMode : string;
  op_OSInstallTimeout : Z;
  op_PreInstallAgentRegistrationTimeout : Z;
  op_NodeEffectRemovalTimeout : Z }.

(** [ZeroTrustProvisioningFlow] *)
Definition ZeroTrustProvisioningFlow (o : DPUOptions) : bool :=
  if bool_decide (op_DeploymentMode o ≠ "") then bool_decide (op_DeploymentMode o = DeploymentModeZeroTrust)
  else bool_decide (op_DPUInstallInterface o = InstallViaRedFish).

(** ** The controller context *)

(** The part that does not change during a reconcile; [env_version] is the
    release the binary was built from. *)
Record Env := mkEnv {
  env_now : Time;
  env_options : DPUOptions;
  env_config : option DPFOperatorConfig;
  env_version : string }.

(** The part that does. *)
Record CS (W : Type) := mkCS { cs_prov : DPUInProvisioningMap; cs_alloc : allocator; cs_ext : W }.
Arguments mkCS {W}.
Arguments cs_prov {W}.
Arguments cs_alloc {W}.
Arguments cs_ext {W}.

(** What a phase handler returns. *)
Definition HResult : Type := DPUStatus * option GoError.

Section Context.
Context {W : Type}.

(** A call to the API client. *)
Definition ext {A} (m : SM W A) : SM (CS W) A := λ s,
  match m (cs_ext s) with (a, w) => (a, mkCS (cs_prov s) (cs_alloc s) w) end.

Definition prov_CanProceed (uid : string) : SM (CS W) (option CanProceedError) := λ s,
  match CanProceed uid (cs_prov s) with (r, p) => (r, mkCS p (cs_alloc s) (cs_ext s)) end.
Definition prov_Remove (uid : string) : SM (CS W) unit := λ s,
  (tt, mkCS (Remove uid (cs_prov s)) (cs_alloc s) (cs_ext s)).

Definition alloc_ReleaseDPU (dpu : DPU) : SM (CS W) unit := λ s,
  (tt, mkCS (cs_prov s) (ReleaseDPU dpu (cs_alloc s)) (cs_ext s)).
Definition alloc_SaveAssignedDPU (dpu : DPU) : SM (CS W) unit := λ s,
  (tt, mkCS (cs_prov s) (saveDPU dpu (cs_alloc s)) (cs_ext s)).
Definition alloc_Allocate {C : Client W} {R : MapRange} {S : SelectorAPI} (dpu : DPU)
    : SM (CS W) (Res NamespacedName * DPU) := λ s,
  match Allocate dpu (cs_alloc s, cs_ext s) with (r, (a, w)) => (r, mkCS (cs_prov s) a w) end.
End Context.

(** [SetDPUCondition(state, NewCondition(condType, err, reason, err.Error()))] *)
Definition set_err (now : Time) (state : DPUStatus) (condType : string) (err : GoError) (reason : string) : DPUStatus :=
  set_cond now state (NewDPUCondition condType (Some err) reason (err_msg err)).

(** The same, then [return *state, err] or [return *state, nil]. *)
Definition fail_with (now : Time) (state : DPUStatus) (condType reason : string) (err : GoError) : HResult :=
  (set_err now state condType err reason, Some err).
Definition wait_with (now : Time) (state : DPUStatus) (condType reason : string) (err : GoError) : HResult :=
  (set_err now state condType err reason, None).

(** The two reasons of a failed Get. *)
Definition fail_get (now : Time) (state : DPUStatus) (condType notFound other : string) (err : GoError) : HResult :=
  fail_with now state condType (if IsNotFound err then notFound else other) err.

(** [SetDPUCondition(state, DPUCondition(condType, reason, message))] *)
Definition set_ok (now : Time) (state : DPUStatus) (condType reason message : string) : DPUStatus :=
  set_cond now state (DPUCondition condType reason message).

(** ** Lemmas *)

Lemma cond_of_set_err now s t e r u :
  cond_of (set_err now s t e r) u =
  if decide (u = t) then Some (stored now (cond_of s t) (NewDPUCondition t (Some e) r (err_msg e))) else cond_of s u.
Proof. apply cond_of_set. Qed.

Lemma cond_of_set_ok now s t r m u :
  cond_of (set_ok now s t r m) u =
  if decide (u = t) then Some (stored now (cond_of s t) (DPUCondition t r m)) else cond_of s u.
Proof. apply cond_of_set. Qed.

(** Setting a condition changes nothing else of the status. *)
Lemma set_cond_eq now s c : set_cond now s c = with_Conditions (st_Conditions (set_cond now s c)) s.
Proof. done. Qed.

Lemma set_err_Phase now s t e r : st_Phase (set_err now s t e r) = st_Phase s.
Proof. done. Qed.
Lemma set_ok_Phase now s t r m : st_Phase (set_ok now s t r m) = st_Phase s.
Proof. done. Qed.

(** The condition of a type is True. *)
Definition cond_is_true (s : DPUStatus) (t : string) : bool :=
  match cond_of s t with Some c => status_is ConditionTrue c | None => false end.

Lemma cond_is_true_get s t :
  match GetDPUCondition s t with Some (_, c) => status_is ConditionTrue c | None => false end = cond_is_true s t.
Proof. unfold cond_is_true, cond_of, first_of_type, GetDPUCondition. by destruct (find_idx _ _) as [[]|]. Qed.

Lemma cond_of_remove {API : MetaAPI} {L : MetaAPILaws API} s t u :
  cond_of (with_Conditions (RemoveStatusCondition (st_Conditions s) t) s) u = if decide (u = t) then None else cond_of s u.
Proof. unfold cond_of. simpl. rewrite meta_remove. apply first_of_type_remove. Qed.

#[export] Hint Rewrite cond_of_set_err cond_of_set_ok cond_of_set set_err_Phase set_ok_Phase : dpf.

(** ** Reasoning about handlers

    [yields m P]: every result of a computation satisfies [P].  [ends h QR QA]:
    an early return of a function body satisfies [QR], and a body that goes on
    does so with a value that satisfies [QA]. *)

Definition yields {S A} (m : SM S A) (P : A → Prop) : Prop := ∀ s, P (m s).1.
Definition ends {S R A} (h : Fn S R A) (QR : R → Prop) (QA : A → Prop) : Prop :=
  ∀ s, match (h s).1 with inl r => QR r | inr a => QA a end.

Section Yields.
Context {S : Type}.

Lemma yields_ret {A} (a : A) P : P a → yields (S:=S) (mret a) P.
Proof. by intros H s. Qed.
Lemma yields_bind {A B} (m : SM S A) (k : A → SM S B) P :
  (∀ a, yields (k a) P) → yields (m ≫= k) P.
Proof. intros Hk s. unfold mbind, SM_bind. destruct (m s) as [a s']. apply Hk. Qed.
Lemma yields_bind_with {A B} (m : SM S A) (k : A → SM S B) Q P :
  yields m Q → (∀ a, Q a → yields (k a) P) → yields (m ≫= k) P.
Proof.
  intros Hm Hk s. unfold mbind, SM_bind. specialize (Hm s). destruct (m s) as [a s']. by apply Hk.
Qed.
Lemma yields_run {R} (h : Fn S R R) P : ends h P P → yields (run h) P.
Proof. intros Hh s. unfold run. specialize (Hh s). by destruct (h s) as [[r|r] s']. Qed.

Lemma ends_ret {R A} (a : A) (QR : R → Prop) QA : QA a → ends (S:=S) (mret a) QR QA.
Proof. by intros H s. Qed.
Lemma ends_bind {R A B} (m : Fn S R A) (k : A → Fn S R B) QR QA :
  ends m QR (λ _, True) → (∀ a, ends (k a) QR QA) → ends (m ≫= k) QR QA.
Proof.
  intros Hm Hk s. unfold mbind, Fn_bind. specialize (Hm s). destruct (m s) as [[r|a] s']; [done|]. apply Hk.
Qed.
Lemma ends_bind_with {R A B} (m : Fn S R A) (k : A → Fn S R B) Q QR QA :
  ends m QR Q → (∀ a, Q a → ends (k a) QR QA) → ends (m ≫= k) QR QA.
Proof.
  intros Hm Hk s. unfold mbind, Fn_bind. specialize (Hm s). destruct (m s) as [[r|a] s']; [done|]. by apply Hk.
Qed.
Lemma ends_return_early {R A} (r : R) (QR : R → Prop) (QA : A → Prop) : QR r → ends (S:=S) (return_early r) QR QA.
Proof. by intros H s. Qed.
Lemma ends_return_if {R} b (r : R) (QR : R → Prop) QA :
  (b = true → QR r) → (b = false → QA tt) → ends (S:=S) (return_if b r) QR QA.
Proof. intros H1 H2 s. destruct b; simpl; auto. Qed.
Lemma ends_lift {R A} (m : SM S A) (QR : R → Prop) QA : yields m QA → ends (lift m) QR QA.
Proof. intros H s. unfold lift. specialize (H s). by destruct (m s). Qed.
Lemma ends_or_return {R A} (m : SM S (Res A)) onerr (QR : R → Prop) QA :
  (∀ e, QR (onerr e)) → (∀ a, QA a) → ends (or_return m onerr) QR QA.
Proof. intros H1 H2 s. unfold or_return. destruct (m s) as [[a|e] s']; simpl; auto. Qed.
Lemma ends_check {R} (m : SM S (option GoError)) onerr (QR : R → Prop) (QA : unit → Prop) :
  (∀ e, QR (onerr e)) → QA tt → ends (check m onerr) QR QA.
Proof. intros H1 H2 s. unfold check. destruct (m s) as [[e|] s']; simpl; auto. Qed.
Lemma yields_mono {A} (m : SM S A) (P Q : A → Prop) : yields m P → (∀ a, P a → Q a) → yields m Q.
Proof. intros H HPQ s. apply HPQ, H. Qed.
Lemma ends_mono {R A} (h : Fn S R A) (QR QR' : R → Prop) (QA QA' : A → Prop) :
  ends h QR QA → (∀ r, QR r → QR' r) → (∀ a, QA a → QA' a) → ends h QR' QA'.
Proof. intros H HR HA s. specialize (H s). destruct (h s).1; auto. Qed.
Lemma ends_True {R A} (h : Fn S R A) : ends h (λ _, True) (λ _, True).
Proof. intros s. by destruct (h s).1. Qed.
End Yields.

Lemma keeps_prov_ext {W A} (m : SM W A) : keeps cs_prov (ext m).
Proof. intros s. unfold ext. by destruct (m (cs_ext s)). Qed.
Lemma keeps_alloc_ext {W A} (m : SM W A) : keeps cs_alloc (ext m).
Proof. intros s. unfold ext. by destruct (m (cs_ext s)). Qed.
Lemma keeps_prov_Allocate {W} {C : Client W} {R : MapRange} {S : SelectorAPI} dpu : keeps (@cs_prov W) (alloc_Allocate dpu).
Proof. intros s. unfold alloc_Allocate. by destruct (Allocate dpu _) as [? []]. Qed.

#[export] Hint Resolve keeps_prov_ext keeps_alloc_ext keeps_prov_Allocate : handlers.

(** One step through a handler body. *)
Ltac yields_step :=
  lazymatch goal with
  | |- yields (run _) _ => apply yields_run
  | |- yields (mret _) _ => apply yields_ret
  | |- yields (mbind _ _) _ => apply yields_bind; intros ?
  | |- yields (let '_ := ?x in _) _ => destruct x
  | |- yields (match ?x with _ => _ end) _ => destruct x eqn:?
  | |- ends (mret _) _ _ => apply ends_ret
  | |- ends (mbind _ _) _ _ => apply ends_bind; [|intros ?]
  | |- ends (return_early _) _ _ => apply ends_return_early
  | |- ends (return_if _ _) _ _ => apply ends_return_if; intros ?
  | |- ends (lift _) _ _ => apply ends_lift; intros ?
  | |- ends (or_return _ _) _ _ => apply ends_or_return; intros ?
  | |- ends (check _ _) _ _ => apply ends_check; [intros ?|]
  | |- ends (match ?x with _ => _ end) _ _ => destruct x eqn:?
  end.

(** [wp m s Q]: from the state [s] the computation ends with a result and a state
    that satisfy [Q].  [wpf h s QR QA] is that of a function body: [QR] holds of
    an early return, [QA] of a body that goes on. *)

Definition wp {S A} (m : SM S A) (s : S) (Q : A → S → Prop) : Prop := Q (m s).1 (m s).2.
Definition wpf {S R A} (h : Fn S R A) (s : S) (QR : R → S → Prop) (QA : A → S → Prop) : Prop :=
  match (h s).1 with inl r => QR r (h s).2 | inr a => QA a (h s).2 end.

Section WP.
Context {S : Type}.

Lemma wp_ret {A} (a : A) s (Q : A → S → Prop) : Q a s → wp (mret a) s Q.
Proof. done. Qed.
Lemma wp_bind {A B} (m : SM S A) (k : A → SM S B) s Q :
  wp m s (λ a s', wp (k a) s' Q) → wp (m ≫= k) s Q.
Proof. unfold wp, mbind, SM_bind. by destruct (m s). Qed.
Lemma wp_run {R} (h : Fn S R R) s Q : wpf h s Q Q → wp (run h) s Q.
Proof. unfold wp, wpf, run. by destruct (h s) as [[]]. Qed.
Lemma wp_mono {A} (m : SM S A) s (P Q : A → S → Prop) : wp m s P → (∀ a s', P a s' → Q a s') → wp m s Q.
Proof. intros H HPQ. by apply HPQ. Qed.

Lemma wpf_ret {R A} (a : A) s (QR : R → S → Prop) QA : QA a s → wpf (mret a) s QR QA.
Proof. done. Qed.
Lemma wpf_bind {R A B} (m : Fn S R A) (k : A → Fn S R B) s QR QA :
  wpf m s QR (λ a s', wpf (k a) s' QR QA) → wpf (m ≫= k) s QR QA.
Proof. unfold wpf, mbind, Fn_bind. by destruct (m s) as [[]]. Qed.
Lemma wpf_return_early {R A} (r : R) s QR (QA : A → S → Prop) : QR r s → wpf (return_early r) s QR QA.
Proof. done. Qed.
Lemma wpf_return_if {R} (b : bool) (r : R) s (QR : R → S → Prop) QA :
  (b = true → QR r s) → (b = false → QA tt s) → wpf (return_if b r) s QR QA.
Proof. intros H1 H2. unfold wpf, return_if. destruct b; simpl; auto. Qed.
Lemma wpf_lift {R A} (m : SM S A) s (QR : R → S → Prop) QA : wp m s QA → wpf (lift m) s QR QA.
Proof. unfold wp, wpf, lift. by destruct (m s). Qed.
Lemma wpf_or_return {R A} (m : SM S (Res A)) onerr s (QR : R → S → Prop) QA :
  wp m s (λ r s', match r with Ok a => QA a s' | Err e => QR (onerr e) s' end) → wpf (or_return m onerr) s QR QA.
Proof. unfold wp, wpf, or_return. by destruct (m s) as [[]]. Qed.
Lemma wpf_check {R} (m : SM S (option GoError)) onerr s (QR : R → S → Prop) QA :
  wp m s (λ r s', match r with None => QA tt s' | Some e => QR (onerr e) s' end) → wpf (check m onerr) s QR QA.
Proof. unfold wp, wpf, check. by destruct (m s) as [[]]. Qed.
Lemma wpf_mono {R A} (h : Fn S R A) s (QR QR' : R → S → Prop) (QA QA' : A → S → Prop) :
  wpf h s QR QA → (∀ r s', QR r s' → QR' r s') → (∀ a s', QA a s' → QA' a s') → wpf h s QR' QA'.
Proof. unfold wpf. intros H HR HA. destruct (h s).1; auto. Qed.
End WP.

Section WPContext.
Context {W : Type}.
Implicit Types s : CS W.

(** A call to the API may do anything to the world, and leaves the rest. *)
Lemma wp_ext {A} (m : SM W A) s Q :
  (∀ a w, m (cs_ext s) = (a, w) → Q a (mkCS (cs_prov s) (cs_alloc s) w)) → wp (ext m) s Q.
Proof. intros H. unfold wp, ext. destruct (m (cs_ext s)) as [a w] eqn:E. by apply H. Qed.
(** A call whose error ends the handler, and which leaves the part [f] of the
    world alone. *)
Lemma wpf_check_ext {B R} (f : W → B) (m : SM W (option GoError)) (onerr : GoError → R) s QR QA :
  keeps f m → (∀ e w, QR (onerr e) (mkCS (cs_prov s) (cs_alloc s) w)) →
  (∀ w, f w = f (cs_ext s) → QA tt (mkCS (cs_prov s) (cs_alloc s) w)) → wpf (check (ext m) onerr) s QR QA.
Proof.
  intros Hk HR HA. apply wpf_check, wp_ext. intros [e|] w E; [apply HR|]. apply HA.
  by rewrite <- (Hk (cs_ext s)), E.
Qed.
Lemma wp_prov_CanProceed uid s Q :
  Q (CanProceed uid (cs_prov s)).1 (mkCS (CanProceed uid (cs_prov s)).2 (cs_alloc s) (cs_ext s)) →
  wp (prov_CanProceed uid) s Q.
Proof. unfold wp, prov_CanProceed. by destruct (CanProceed uid _). Qed.
Lemma wp_prov_Remove uid s (Q : unit → CS W → Prop) :
  Q tt (mkCS (Remove uid (cs_prov s)) (cs_alloc s) (cs_ext s)) → wp (prov_Remove uid) s Q.
Proof. done. Qed.
Lemma wp_alloc_ReleaseDPU dpu s (Q : unit → CS W → Prop) :
  Q tt (mkCS (cs_prov s) (ReleaseDPU dpu (cs_alloc s)) (cs_ext s)) → wp (alloc_ReleaseDPU dpu) s Q.
Proof. done. Qed.
Lemma wp_alloc_SaveAssignedDPU dpu s (Q : unit → CS W → Prop) :
  Q tt (mkCS (cs_prov s) (saveDPU dpu (cs_alloc s)) (cs_ext s)) → wp (alloc_SaveAssignedDPU dpu) s Q.
Proof. done. Qed.
End WPContext.

Ltac wp_step :=
  lazymatch goal with
  | |- wp (run _) _ _ => apply wp_run
  | |- wp (mret _) _ _ => apply wp_ret
  | |- wp (mbind _ _) _ _ => apply wp_bind
  | |- wp (ext _) _ _ => apply wp_ext; intros ? ? ?
  | |- wp (prov_CanProceed _) _ _ => apply wp_prov_CanProceed
  | |- wp (prov_Remove _) _ _ => apply wp_prov_Remove
  | |- wp (alloc_ReleaseDPU _) _ _ => apply wp_alloc_ReleaseDPU
  | |- wp (alloc_SaveAssignedDPU _) _ _ => apply wp_alloc_SaveAssignedDPU
  | |- wp (match ?x with _ => _ end) _ _ => destruct x eqn:?
  | |- wpf (mret _) _ _ _ => apply wpf_ret
  | |- wpf (mbind _ _) _ _ _ => apply wpf_bind
  | |- wpf (return_early _) _ _ _ => apply wpf_return_early
  | |- wpf (return_if _ _) _ _ _ => apply wpf_return_if; intros ?
  | |- wpf (lift _) _ _ _ => apply wpf_lift
  | |- wpf (or_return _ _) _ _ _ => apply wpf_or_return
  | |- wpf (check _ _) _ _ _ => apply wpf_check
  | |- wpf (match ?x with _ => _ end) _ _ _ => destruct x eqn:?
  | |- match ?x with Ok _ => _ | Err _ => _ end => destruct x
  | |- match ?x with None => _ | Some _ => _ end => destruct x
  end.

(** From a goal about the result [t.1] and the state [t.2] of a computation. *)
Ltac wp_start t :=
  pattern (t.1), (t.2);
  lazymatch t with ?m ?s => lazymatch goal with |- ?Q _ _ => change (wp m s Q) end end.
