(* ===== verification/ExampleWorld.v ===== *)
(** A small installation on the in-memory services, on which the witnesses of
    the handlers' theorems are evaluated: one DPU on one node, with everything
    its phases ask for.  No theorem depends on it. *)

From S2P Require Import Prelude.
From S2P Require Import Meta.
From S2P Require Import Conditions.
From S2P Require Import DPUTypes.
From S2P Require Import DPUConditions.
From S2P Require Import ProvisioningMap.
From S2P Require Import Kubernetes.
From S2P Require Import FakeClient.
From S2P Require Import Allocator.
From S2P Require Import Maintenance.
From S2P Require Import ControllerContext.

Definition nn (name : string) : NamespacedName := mkNN "ns" name.
Definition true_cond (t : string) : Condition := mkCondition t ConditionTrue 0 1 t "".

Definition example_options : DPUOptions := mkDPUOptions InstallViaHostAgent "" (1000 * second) (1000 * second) (1000 * second).
Definition example_env : Env := mkEnv 7 example_options None "v1".

Definition example_agent : AgentStatus :=
  mkAgentStatus (Some 5%Z) (Some RebootMethodNoAction) "v1"
    (Some (mkPreInstall (Some 3%Z) [true_cond DPUAgentConditionNVConfigApplied])) None [] None None.

(** A DPU in a phase, after the host agent did its part. *)
Definition example_in (phase previous : DPUPhase) (conds : list Condition) : DPU :=
  let d := example_dpu "d1" "c1" in
  with_Finalizers [DPUFinalizer]
    (with_Spec (mkDPUSpec "node" "device" (Some "bfb") None (Some "0000:03:00") example_effect
                  (sp_Cluster (dpu_Spec d)) "flavor" None)
      (with_Status (mkDPUStatus phase previous None conds [] "" "" None None [] (Some InstallViaHostAgent) None None None 0
                      DPUTypeBlueField3 None (Some example_agent) None "" "" false None (Some IdentityModeBootstrapToken)) d)).

Definition example_maintenance : DPUNodeMaintenance :=
  mkDNM "node-k8sdrain" "ns" 1 ∅ ∅ [] None "node" (Some example_effect) ["d1"] [true_cond ConditionNodeEffectApplied]
    None None None.

Definition example_bfb : BFB :=
  mkBFB "bfb" "ns" "bfb-uid" 1 [] None (mkBFBSpec None "http://images/a.bfb" None) "a.bfb" BFBReady
    (mkBFBVersions "" "" "" "") 1 [].

Definition example_world (dpus : list DPU) : World :=
  mkWorld {[ nn "node" := mkDPUNode "node" "ns" ∅ ∅ [] [] [] (Some (mkNodeRebootMethod true false false None false)) (Some "node")
                           (Some InstallViaHostAgent) [true_cond DPUNodeConditionBridgeConfigured] None None ]}
    {[ nn "device" := mkDPUDevice "device" "ns" ∅ [] None None DPUTypeBlueField3 "" None (Some "0000:03:00") None ]}
    {[ nn "bfb" := example_bfb ]} ∅
    {[ nn "flavor" := mkDPUFlavor "flavor" "ns" ∅ [] None [] None "" ]}
    {[ nn "c1" := example_cluster "c1" 4 ]}
    {[ mkNN "" "node" := mkNode "node" ∅ ∅ [("Ready", ConditionTrue)] [] [] ]}
    {[ nn "node-k8sdrain" := example_maintenance ]}
    (list_to_map ((λ d, (dpu_key d, d)) <$> dpus)) []
    {[ mkNN "" "d1" := mkNode "d1" ∅ ∅ [("Ready", ConditionTrue)] [] [] ]}.

Definition example_state (dpus : list DPU) : CS World :=
  mkCS (NewDPUInProvisioningMap 4) NewAllocator (example_world dpus).
