(* ===== verification/Rebooting.v ===== *)
(** The Rebooting phase: dpu/util/reboot_helpers.go and
    dpu/state/hostagent/rebooting.go.  A handler that leaves for Rebooting
    initialises [status.rebootStatus]; DPUNode controllers outside this file
    execute the reboot and report in it; the handler below copies the report to
    the Rebooted condition and picks the next phase. *)

From S2P Require Import Prelude.
From S2P Require Import Meta.
From S2P Require Import Conditions.
From S2P Require Import DPUTypes.
From S2P Require Import DPUConditions.
From S2P Require Import ProvisioningMap.
From S2P Require Import Kubernetes.
From S2P Require Import FakeClient.
From S2P Require Import Allocator.
From S2P Require Import ClusterMetadata.
From S2P Require Import ControllerContext.
From S2P Require Import ExampleWorld.

(** ** Operations *)

Section Operations.
Context {API : MetaAPI} {W : Type} {C : Client W}.

Inductive StartResult := StartDone (r : HResult) | StartContinue (state : DPUStatus) (dpuNode : DPUNode).

Definition StartRebooting (env : Env) (dpu : DPU) : SM (CS W) StartResult :=
  let state := dpu_Status dpu in
  if deleting dpu then mret (StartDone (with_Phase DPUDeleting state, None))
  else
    r ← ext (getDPUNode (mkNN (dpu_Namespace dpu) (sp_DPUNodeName (dpu_Spec dpu))));
    match r with
    | Err err => mret (StartDone (fail_get (env_now env) state DPUCondRebooted "DPUNodeNotFound" "GetDPUNodeError" err))
    | Ok dpuNode =>
        let initialized := match GetDPUCondition state DPUCondInterfaceInitialized with
                           | Some (_, cond) => status_is ConditionTrue cond
                           | None => false
                           end in
        if negb (bool_decide (st_DPUMode state = NicMode)) && negb initialized then
          let err := errorf ("trying to reboot the host before " +:+ DPUCondInterfaceInitialized) in
          mret (StartDone (fail_with (env_now env) state DPUCondRebooted "InvalidState" err))
        else mret (StartContinue state dpuNode)
    end.

(** [UpdateRebootStatus] *)
Definition UpdateRebootStatus (now : Time) (state : DPUStatus) (phase : RebootStatusPhase) (reason message : string)
    : DPUStatus :=
  let old := st_RebootStatus state in
  let changed := match old with
                 | None => true
                 | Some rs => negb (bool_decide (rs_Phase rs = phase)) || negb (bool_decide (rs_Reason rs = reason))
                              || negb (bool_decide (rs_Message rs = message))
                 end in
  with_RebootStatus (Some (mkRebootStatus phase (old ≫= rs_Method) reason message
    (if changed then Some now else old ≫= rs_LastTransitionTime))) state.

(** The first half of [CompleteRebooting]: the Rebooted condition follows
    [dpu.Status.RebootStatus] until it is True. *)
Definition follow_reboot_status (now : Time) (dpu : DPU) (state : DPUStatus) : DPUStatus :=
  let rebooted := match GetDPUCondition state DPUCondRebooted with
                  | Some (_, c) => status_is ConditionTrue c
                  | None => false
                  end in
  match st_RebootStatus (dpu_Status dpu) with
  | Some rs =>
      if rebooted then state
      else match rs_Phase rs with
           | RebootStatusSucceeded => set_ok now state DPUCondRebooted (rs_Reason rs) (rs_Message rs)
           | RebootStatusPending | RebootStatusFailed =>
               let reason := if bool_decide (rs_Reason rs = "") then reboot_status_phase_string (rs_Phase rs)
                             else rs_Reason rs in
               set_cond now state (mkCondition DPUCondRebooted ConditionFalse 0 0 reason (rs_Message rs))
           | _ => state
           end
  | None => state
  end.

Definition CompleteRebooting (now : Time) (dpu : DPU) (state : DPUStatus) (zeroTrustMode : bool) : DPUStatus :=
  let state := follow_reboot_status now dpu state in
  let rebooted := match GetDPUCondition state DPUCondRebooted with
                  | Some (_, c) => status_is ConditionTrue c
                  | None => false
                  end in
  if negb rebooted then state
  else
    let discoveryCond := st_AgentStatus (dpu_Status dpu) ≫= λ ag,
      FindStatusCondition (ag_Conditions ag) AgentCondRebootMethodDiscovery in
    let discovered := match discoveryCond with Some c => status_is ConditionTrue c | None => false end in
    let previous := st_PreviousPhase (dpu_Status dpu) in
    if bool_decide (previous = DPUInitializeInterface) then
      with_Phase DPUInitializeInterface
        (with_RequiredReset None
           (with_Conditions (RemoveStatusCondition (st_Conditions state) DPUCondInterfaceInitialized) state))
    else if bool_decide (previous = DPUOSInstalling) then with_Phase DPUOSInstalling state
    else if bool_decide (previous = DPUConfigPhase) && discovered then with_Phase DPUConfigPhase state
    else if zeroTrustMode then with_Phase DPUClusterConfig state
    else with_Phase DPUHostNetworkConfiguration state.

(** The method, reason and message of the new reboot status. *)
Definition reboot_request (dpu : DPU) (sourcePhase : DPUPhase) : option RebootMethodType * string * string :=
  let reason := "RebootRequested" in
  let message := "reboot requested and pending execution" in
  match sourcePhase with
  | DPUOSInstalling =>
      (Some RebootMethodPowerCycle, "FirmwareUpdateRequiresPowerCycle",
       "firmware update requires power cycle to activate")
  | DPUInitializeInterface =>
      (Some RebootMethodPowerCycle, "ModeUpdateRequiresPowerCycle",
       "host power cycle required to apply DPU mode transition")
  | DPUConfigPhase =>
      match st_AgentStatus (dpu_Status dpu) with
      | Some ag =>
          match FindStatusCondition (ag_Conditions ag) AgentCondRebootMethodDiscovery with
          | Some c => (ag_RebootMethod ag, if bool_decide (c_Reason c ≠ "") then c_Reason c else reason,
                       if bool_decide (c_Message c ≠ "") then c_Message c else message)
          | None => (ag_RebootMethod ag, reason, message)
          end
      | None => (None, reason, message)
      end
  | _ => (None, reason, message)
  end.

Definition unresolved (method : option RebootMethodType) : bool :=
  match method with None => true | Some m => bool_decide (m = RebootMethodUnknown) end.

(** The Rebooted condition is removed from [state] before the method is looked
    at, so an error leaves it removed. *)
Definition InitializeDPURebootStatus (env : Env) (dpu : DPU) (state : DPUStatus) (sourcePhase : DPUPhase)
    : DPUStatus * option GoError :=
  let state := with_Conditions (RemoveStatusCondition (st_Conditions state) DPUCondRebooted) state in
  let '(method, reason, message) := reboot_request dpu sourcePhase in
  if unresolved method then
    (state, Some (errorf ("failed to initialize reboot status: reboot method is unresolved (sourcePhase="
                          +:+ phase_string sourcePhase +:+ ")")))
  else
    let phase :=
      if bool_decide (sourcePhase = DPUConfigPhase) && bool_decide (method = Some RebootMethodSystemLevelReset) &&
         ZeroTrustProvisioningFlow (env_options env) && negb (st_Hostless (dpu_Status dpu))
      then RebootStatusWaitForShutdown else RebootStatusPending in
    (with_RebootStatus (Some (mkRebootStatus phase method reason message (Some (env_now env)))) state, None).

(** hostagent/rebooting.go *)
Definition Rebooting (env : Env) (dpu : DPU) : SM (CS W) HResult :=
  let now := env_now env in
  start ← StartRebooting env dpu;
  match start with
  | StartDone r => mret r
  | StartContinue state dpuNode =>
      if st_Hostless (dpu_Status dpu) then
        let err := errorf ("hostless DPU " +:+ dpu_Name dpu +:+ " requires the Redfish reboot handler") in
        mret (with_Phase DPUError (set_err now state DPUCondRebooted err "HostlessRequiresRedfish"), None)
      else
        skip ← ext (ShouldSkipHWProvisioning dpu);
        let skipHW := match skip with Ok b => b | Err _ => false end in
        if skipHW then
          mret (with_Phase DPUHostNetworkConfiguration (set_ok now state DPUCondRebooted "" ""), None)
        else
          let stop reason msg :=
            (with_Phase DPUError (set_err now state DPUCondRebooted (errorf msg) reason), None) in
          mret (match dn_NodeRebootMethod dpuNode with
                | None => stop "NodeRebootMethodNotProvided" ("DPUNode " +:+ dn_Name dpuNode +:+ " has no node reboot method")
                | Some m =>
                    if nrm_GNOI m || nrm_HostAgent m then (CompleteRebooting now dpu state false, None)
                    else if nrm_External m || bool_decide (is_Some (nrm_Script m)) then
                      (CompleteRebooting now dpu state (ZeroTrustProvisioningFlow (env_options env)), None)
                    else if nrm_None m then
                      stop "HostlessStatusNotSet" ("DPUNode " +:+ dn_Name dpuNode +:+ " uses nodeRebootMethod none, but DPU "
                                                   +:+ dpu_Name dpu +:+ " is not marked hostless")
                    else stop "UnsupportedNodeRebootMethod" ("DPUNode " +:+ dn_Name dpuNode +:+ " has an unsupported node reboot method")
                end)
  end.
End Operations.

(** ** Properties *)

Section Properties.
Context {API : MetaAPI} {L : MetaAPILaws API}.

Definition reboot_succeeded (dpu : DPU) : bool :=
  match st_RebootStatus (dpu_Status dpu) with
  | Some rs => bool_decide (rs_Phase rs = RebootStatusSucceeded)
  | None => false
  end.

Lemma follow_reboot_status_true now dpu s :
  cond_is_true (follow_reboot_status now dpu s) DPUCondRebooted = cond_is_true s DPUCondRebooted || reboot_succeeded dpu.
Proof.
  unfold follow_reboot_status, reboot_succeeded. rewrite cond_is_true_get.
  destruct (st_RebootStatus (dpu_Status dpu)) as [rs|]; [|by rewrite orb_false_r].
  destruct (cond_is_true s DPUCondRebooted) eqn:E; [done|]. simpl.
  destruct (rs_Phase rs); simpl; try done; unfold cond_is_true; by rewrite ?cond_of_set_ok, ?cond_of_set.
Qed.

Lemma follow_reboot_status_other now dpu s u :
  u ≠ DPUCondRebooted → cond_of (follow_reboot_status now dpu s) u = cond_of s u.
Proof.
  intros Hu. unfold follow_reboot_status. repeat case_match; try done; by rewrite ?cond_of_set_ok, ?cond_of_set, decide_False.
Qed.

(** CompleteRebooting stays in its phase until the reboot was reported
    successful or the Rebooted condition is already True. Then the condition is
    True and the DPU leaves: back to Initialize Interface, which then runs again
    without its condition and its required reset, or to OS Installing, when that
    phase asked for the reboot; back to DPU Config when that phase asked and the
    agent has discovered a reboot method; otherwise on to Cluster Config in
    zero-trust mode and to the host network configuration elsewhere. No other
    condition changes. *)
Theorem CompleteRebooting_spec now dpu s zt :
  let previous := st_PreviousPhase (dpu_Status dpu) in
  let discovered := match st_AgentStatus (dpu_Status dpu) ≫= λ ag, FindStatusCondition (ag_Conditions ag) AgentCondRebootMethodDiscovery with
                    | Some c => status_is ConditionTrue c | None => false end in
  let s' := CompleteRebooting now dpu s zt in
  (∀ u, u ≠ DPUCondRebooted → previous = DPUInitializeInterface ∧ u = DPUCondInterfaceInitialized ∨ cond_of s' u = cond_of s u) ∧
  if cond_is_true s DPUCondRebooted || reboot_succeeded dpu then
    cond_is_true s' DPUCondRebooted = true ∧ st_Phase s' ≠ DPURebooting ∧
    (previous = DPUInitializeInterface →
       st_Phase s' = DPUInitializeInterface ∧ cond_of s' DPUCondInterfaceInitialized = None ∧ st_RequiredReset s' = None) ∧
    (previous = DPUOSInstalling → st_Phase s' = DPUOSInstalling) ∧
    (previous ≠ DPUInitializeInterface → previous ≠ DPUOSInstalling → st_Phase s' =
       if bool_decide (previous = DPUConfigPhase) && discovered then DPUConfigPhase
       else if zt then DPUClusterConfig else DPUHostNetworkConfiguration)
  else cond_is_true s' DPUCondRebooted = false ∧ st_Phase s' = st_Phase s.
Proof.
  cbn zeta. unfold CompleteRebooting. rewrite cond_is_true_get.
  pose proof (follow_reboot_status_true now dpu s) as Ht. pose proof (follow_reboot_status_other now dpu s) as Ho.
  assert (st_Phase (follow_reboot_status now dpu s) = st_Phase s) as Hp
    by (unfold follow_reboot_status; by repeat case_match).
  revert Ht Ho Hp. generalize (follow_reboot_status now dpu s). intros s1 Ht Ho Hp. rewrite <- Ht.
  destruct (cond_is_true s1 DPUCondRebooted) eqn:E; simpl; [|by auto].
  case_bool_decide as H1; [|case_bool_decide as H2; [|case_bool_decide as H3; simpl; [destruct (match _ with Some _ => _ | None => _ end)|]]].
  1: { unfold cond_is_true, cond_of in *. simpl. setoid_rewrite meta_remove. setoid_rewrite first_of_type_remove.
       split; [intros u Hu; destruct (decide (u = DPUCondInterfaceInitialized)); auto|].
       rewrite decide_False, decide_True by done. split_and!; try done; congruence. }
  all: try destruct zt; (split; [intros u Hu; right; by apply Ho|]); split_and!; try done; congruence.
Qed.
End Properties.

Definition example_rebooting : DPU :=
  let d := example_in DPURebooting DPUConfigPhase [] in
  with_Status (with_RebootStatus (Some (mkRebootStatus RebootStatusSucceeded (Some RebootMethodPowerCycle) "Done" "" None))
                 (dpu_Status d)) d.

Lemma CompleteRebooting_spec_witness :
  st_Phase (@CompleteRebooting meta_list 9 example_rebooting (dpu_Status example_rebooting) false) = DPUHostNetworkConfiguration.
Proof.
  pose proof (@CompleteRebooting_spec meta_list _ 9 example_rebooting (dpu_Status example_rebooting) false) as [_ H].
  change (cond_is_true (dpu_Status example_rebooting) DPUCondRebooted || reboot_succeeded example_rebooting) with true in H.
  destruct H as (_ & _ & _ & _ & H). rewrite H by (vm_compute; discriminate). vm_compute. reflexivity.
Defined.
