(* ===== verification/InstallPhases.v ===== *)
(** The phases up to the installed operating system: dpu/state/initializing.go,
    pending.go and the host agent's handlers of dpu/state/hostagent.  Prepare BFB
    is in PrepareBFB.v; the Redfish handlers talk to a BMC and are not modelled. *)

From S2P Require Import Prelude.
From S2P Require Import Meta.
From S2P Require Import Conditions.
From S2P Require Import DPUTypes.
From S2P Require Import DPUConditions.
From S2P Require Import ProvisioningMap.
From S2P Require Import Kubernetes.
From S2P Require Import FakeClient.
From S2P Require Import Allocator.
From S2P Require Import NVConfig.
From S2P Require Import ClusterMetadata.
From S2P Require Import ControllerContext.
From S2P Require Import ExampleWorld.
From S2P Require Import Rebooting.

Definition DPUCondMessageModeUpdate := "DPU switches from NIC mode to DPU mode".
Definition InstallationTerminated := "InstallationTerminated".

Definition isKnownDPUType (t : string) : bool :=
  bool_decide (t = DPUTypeBlueField2) || bool_decide (t = DPUTypeBlueField3) || bool_decide (t = DPUTypeBlueField4).

Section Handlers.
Context {API : MetaAPI} {T : TextAPI} {R : MapRange} {S : SelectorAPI} {W : Type} {C : Client W}.

(** ** Initializing *)

(** [WaitPreInstallAgentRegistrationOrProceed]: the status, and whether to go on. *)
Definition WaitPreInstallAgentRegistrationOrProceed (now : Time) (dpu : DPU) (state : DPUStatus) (timeout : Z)
    : DPUStatus * bool :=
  if PreInstallAgentReported dpu then (state, true)
  else match FindStatusCondition (st_Conditions state) DPUCondInitialized with
       | None => (set_cond now state (NewDPUCondition DPUCondInitialized None DPUCondInitialized ""), false)
       | Some existing => (state, (timeout <=? now - c_LastTransitionTime existing)%Z)
       end.

(** The switch over the install interface of the DPU: nothing, or what to return. *)
Definition check_install_interface (now : Time) (dpu : DPU) (device : DPUDevice) (state : DPUStatus) (iface : string)
    : option HResult :=
  if bool_decide (iface = InstallViaGNOI) || bool_decide (iface = InstallViaHostAgent) then
    match sp_PCIAddress (dpu_Spec dpu) with
    | None => Some (wait_with now state DPUCondInitialized "PCIAddressNotProvided" (errorf "PCI Address is not provided"))
    | Some _ => None
    end
  else if bool_decide (iface = InstallViaRedFish) then
    if match dd_BMCIP device with None => false | Some ip => ParseIP_ok ip end then None
    else Some (with_Phase DPUError (set_err now state DPUCondInitialized (errorf "BMC IP is not valid") "BMCIPNotValid"), None)
  else if bool_decide (iface = InstallViaMock) then None
  else Some (with_Phase DPUError (set_err now state DPUCondInitialized
               (errorf ("invalid DPUInstallInterface: " +:+ iface)) "InvalidDPUInstallInterface"), None).

(** The result is that of the handler and the DPU, whose cluster [Allocate] sets. *)
Definition Initializing (env : Env) (dpu : DPU) : SM (CS W) (HResult * DPU) := run (
  let now := env_now env in
  let spec := dpu_Spec dpu in
  let status := dpu_Status dpu in
  let ret (r : HResult) : HResult * DPU := (r, dpu) in
  let fail state nf other err := ret (fail_get now state DPUCondInitialized nf other err) in
  _ ← return_if (deleting dpu) (ret (with_Phase DPUDeleting status, None));
  let state := if bool_decide (deref (st_DPFVersion status) "" = "")
               then with_DPFVersion (Some (env_version env)) status else status in
  dpuNode ← or_return (ext (getDPUNode (mkNN (dpu_Namespace dpu) (sp_DPUNodeName spec))))
              (fail state "DPUNodeNotFound" "GetDPUNodeError");
  dpuDevice ← or_return (ext (getDPUDevice (mkNN (dpu_Namespace dpu) (sp_DPUDeviceName spec))))
                (fail state "DPUDeviceNotFound" "GetDPUDeviceError");
  let state := with_DPUType (dd_DPUType dpuDevice) state in
  let state := with_DPUMode (dd_DPUMode dpuDevice) state in
  let state := with_Hostless (bool_decide (dd_Labels dpuDevice !! DPUDeviceHostlessLabel = Some "true")) state in
  let state := match dd_SecureBoot dpuDevice with Some _ => with_SecureBoot (dd_SecureBoot dpuDevice) state | None => state end in
  _ ← return_if (bool_decide (is_Some (dd_Labels dpuDevice !! SkipDpuProvisioningLabel)))
        (ret (set_ok now (with_Phase DPUReady state) DPUCondInitialized "Skipped"
                ("skipping provisioning for DPU " +:+ dpu_Namespace dpu +:+ "/" +:+ dpu_Name dpu +:+ " because "
                 +:+ SkipDpuProvisioningLabel +:+ " label is set"), None));
  _ ← return_if (match dn_DPUInstallInterface dpuNode with
                 | Some iface => negb (bool_decide (iface = InstallViaRedFish)) &&
                                 negb (IsStatusConditionTrue (dn_Conditions dpuNode) DPUNodeConditionBridgeConfigured)
                 | None => false
                 end)
        (ret (fail_with now state DPUCondInitialized "DPUOOBBridgeNotConfigured" (errorf "DPU OOB bridge is not configured")));
  _ ← return_if (bool_decide (dn_DPUInstallInterface dpuNode = None))
        (ret (fail_with now state DPUCondInitialized "DPUInstallInterfaceNotProvided" (errorf "DPUInstallInterface is not provided")));
  match st_DPUInstallInterface status with
  | None => return_early (ret (with_DPUInstallInterface (dn_DPUInstallInterface dpuNode) state, None))
  | Some iface =>
      match check_install_interface now dpu dpuDevice state iface with
      | Some r => return_early (ret r)
      | None =>
          if bool_decide (kc_Name (sp_Cluster spec) = "") then
            '(rst, dpu') ← lift (alloc_Allocate dpu);
            mret (match rst with
                  | Err err => (fail_with now state DPUCondInitialized "DPUClusterNotAllocated"
                                  (wrapf "failed to allocate DPUCluster: " err), dpu')
                  | Ok _ => ((state, None), dpu')
                  end)
          else
            obj ← or_return (ext (getDPUCluster (mkNN (kc_Namespace (sp_Cluster spec)) (kc_Name (sp_Cluster spec)))))
                    (fail state "DPUClusterNotFound" "GetDPUClusterError");
            _ ← return_if (negb (timep_is_zero (dc_DeletionTimestamp obj)))
                  (ret (fail_with now state DPUCondInitialized "DPUClusterDeleting"
                          (errorf ("DPUCluster " +:+ dc_Namespace obj +:+ "/" +:+ dc_Name obj +:+ " is being deleted"))));
            state ← match st_IdentityMode state with
                    | Some _ => mret state
                    | None =>
                        cfg ← or_return (ext GetDPFOperatorConfig)
                                (λ err, ret (fail_with now state DPUCondInitialized "IdentityModeStampDeferred"
                                   (wrapf "reading DPFOperatorConfig to stamp identity mode: " err)));
                        mret (with_IdentityMode (Some (if SpiffeEnabled cfg then IdentityModeSpiffe
                                                       else IdentityModeBootstrapToken)) state)
                    end;
            let '(state, proceed) := WaitPreInstallAgentRegistrationOrProceed now dpu state
                                       (op_PreInstallAgentRegistrationTimeout (env_options env)) in
            _ ← return_if (negb proceed) (ret (state, None));
            _ ← return_if (bool_decide (iface = InstallViaRedFish) && negb (isKnownDPUType (st_DPUType state)))
                  (ret (wait_with now state DPUCondInitialized "DPUTypeUnknown"
                          (errorf ("waiting for DPUDevice " +:+ sp_DPUDeviceName spec +:+ " to report DPU type"))));
            _ ← (if PreInstallAgentReported dpu then
                   check (ext (ensureDPUAgentRole dpu dpuDevice))
                     (λ err, ret (fail_with now state DPUCondInitialized "FailedToEnsureAgentRole" err))
                 else mret tt);
            mret (ret (set_ok now (with_Phase DPUPending state) DPUCondInitialized "" "", None))
      end
  end).

(** ** Pending *)

(** The text of the upgrade hold. *)
Definition upgrade_error (cfg : DPFOperatorConfig) : GoError :=
  errorf ("DPF Operator upgrade from version " +:+ deref (cfg_Version cfg) "" +:+ " is in progress").

Definition upgrading (env : Env) : option DPFOperatorConfig :=
  match env_config env with
  | Some cfg => if UpgradeInProgress cfg then Some cfg else None
  | None => None
  end.

(** The image of the DPU is ready: the status that records it. *)
Definition pending_image (now : Time) (dpu : DPU) (state : DPUStatus) : Fn (CS W) HResult DPUStatus :=
  if bool_decide (st_DPUType (dpu_Status dpu) = DPUTypeBlueField4) then
    software ← or_return (ext (getBlueFieldSoftware (mkNN (dpu_Namespace dpu) (deref (sp_BlueFieldSoftware (dpu_Spec dpu)) ""))))
                 (fail_get now state DPUCondBlueFieldSoftwareReady "BlueFieldSoftwareNotFound" "GetBlueFieldSoftwareError");
    _ ← return_if (negb (bool_decide (bfs_Phase software = BlueFieldSoftwareReady)))
          (fail_with now state DPUCondBlueFieldSoftwareReady "BlueFieldSoftwareIsNotReady" (errorf "BlueFieldSoftware is not ready"));
    mret (set_ok now state DPUCondBlueFieldSoftwareReady "" "")
  else
    bfb ← or_return (ext (getBFB (mkNN (dpu_Namespace dpu) (deref (sp_BFB (dpu_Spec dpu)) ""))))
            (fail_get now state DPUCondBFBReady "BFBNotFound" "GetBFBError");
    _ ← return_if (negb (bool_decide (bfb_Phase bfb = BFBReady)))
          (fail_with now state DPUCondBFBReady "BFBIsNotReady" (errorf "BFB is not ready"));
    mret (set_ok now (with_BFBFile (GenerateBFBFilePath (bfb_FileName bfb)) state) DPUCondBFBReady "" "").

(** [Error] of a CanProceedError, which [errors.As] finds. *)
Definition CanProceedError_Error (e : CanProceedError) : string := cp_Message e.

Definition Pending (env : Env) (dpu : DPU) : SM (CS W) HResult := run (
  let now := env_now env in
  let state := dpu_Status dpu in
  _ ← return_if (deleting dpu) (with_Phase DPUDeleting state, None);
  _ ← return_if (bool_decide (dpu_Annotations dpu !! RenderFailedReasonAnnotation = Some RenderFailedOnCreate))
        (with_Phase DPUError state, None);
  match upgrading env with
  | Some cfg => return_early (wait_with now state DPUCondPending ReasonDPFOperatorUpgradeInProgress (upgrade_error cfg))
  | None =>
      state ← pending_image now dpu state;
      _ ← return_if (bool_decide (sp_DPUFlavor (dpu_Spec dpu) = ""))
            (fail_with now state DPUCondDPUFlavorExists "DPUFlavorNotSpecified" (errorf "DPUFlavor is not specified"));
      dpuFlavor ← or_return (ext (getDPUFlavor (mkNN (dpu_Namespace dpu) (sp_DPUFlavor (dpu_Spec dpu)))))
                    (fail_get now state DPUCondDPUFlavorExists "DPUFlavorNotFound" "GetDPUFlavorError");
      let state := set_ok now state DPUCondDPUFlavorExists "" "" in
      _ ← return_if (FlavorRequestsHostOSInitHold (fl_NVConfig dpuFlavor) && negb (ZeroTrustProvisioningFlow (env_options env)))
            (with_Phase DPUError (set_err now state DPUCondPending
               (errorf (DelayHostOSInitParam +:+ " requires zero-trust mode: either deploy in zero-trust mode, or point the DPUSet at a DPUFlavor without this parameter"))
               "DPUFlavorRequiresZeroTrustMode"), None);
      r ← lift (prov_CanProceed (dpu_UID dpu));
      match r with
      | Some cpErr => return_early (wait_with now state DPUCondPending (cp_Reason cpErr) (errorf (CanProceedError_Error cpErr)))
      | None => mret (with_Phase DPUNodeEffect (set_ok now state DPUCondPending "" ""), None)
      end
  end).

(** ** The host agent's handlers *)

(** The first condition of a type in the status the DPU carried in. *)
Definition cond_in (dpu : DPU) (t : string) : option Condition := snd <$> GetDPUCondition (dpu_Status dpu) t.

(** hostagent/initialize_interface.go *)
Definition InitializeInterface (env : Env) (dpu : DPU) : HResult :=
  let state := dpu_Status dpu in
  if deleting dpu then (with_Phase DPUDeleting state, None)
  else match cond_in dpu DPUCondInterfaceInitialized with
       | None => (state, None)
       | Some initCond =>
           if status_is ConditionFalse initCond && bool_decide (c_Reason initCond = "TrustedHostModeNotSupported")
           then (with_Phase DPUError state, None)
           else if negb (status_is ConditionTrue initCond) then (state, None)
           else if bool_decide (cond_in dpu DPUCondRebooted = None) && bool_decide (c_Message initCond = DPUCondMessageModeUpdate)
           then InitializeDPURebootStatus env dpu (with_Phase DPURebooting state) DPUInitializeInterface
           else (with_Phase DPUConfigFWParameters state, None)
       end.

(** hostagent/config_fw_params.go *)
Definition ConfigFWParameters (env : Env) (dpu : DPU) : SM (CS W) HResult := run (
  let state := dpu_Status dpu in
  _ ← return_if (deleting dpu) (with_Phase DPUDeleting state, None);
  device ← or_return (ext (getDPUDevice (mkNN (dpu_Namespace dpu) (sp_DPUDeviceName (dpu_Spec dpu)))))
             (λ err, (state, Some err));
  if PreInstallAgentReported dpu && negb (PreInstallNVConfigReported dpu) then
    _ ← check (ext (ensureDPUAgentRole dpu device))
          (fail_with (env_now env) state DPUCondFWConfigured "FailedToEnsureAgentRBAC");
    mret (state, None)
  else
    mret (match cond_in dpu DPUCondFWConfigured with
          | Some condition => if status_is ConditionTrue condition then with_Phase DPUPrepareBFB state else state
          | None => state
          end, None)).

(** hostagent/hostnetworkconfig.go *)
Definition SetupNetwork (dpu : DPU) : HResult :=
  let state := dpu_Status dpu in
  if deleting dpu then (with_Phase DPUDeleting state, None)
  else (match cond_in dpu DPUCondHostNetworkReady with
        | Some condition => if status_is ConditionTrue condition then with_Phase DPUClusterConfig state else state
        | None => state
        end, None).

(** dpu/util/install_helpers.go *)
Definition InstallElapsed (now : Time) (status : DPUStatus) : option Z :=
  match cond_of status DPUCondBFBPrepared with
  | Some cond => Some (now - c_LastTransitionTime cond)%Z
  | None => match cond_of status DPUCondFwBundleVerified with
            | Some cond => Some (now - c_LastTransitionTime cond)%Z
            | None => None
            end
  end.

Definition CheckInstallationTimeout (now : Time) (status : DPUStatus) (timeout : Z) : option GoError :=
  if (timeout <=? 0)%Z then None
  else match InstallElapsed now status with
       | None => None
       | Some elapsed =>
           if (elapsed <=? timeout)%Z then None
           else Some (errorf ("OS installation timeout exceeded: " +:+ duration_string elapsed +:+ " > " +:+ duration_string timeout))
       end.

(** hostagent/installing.go *)
Definition Installing (env : Env) (dpu : DPU) : SM (CS W) HResult :=
  let now := env_now env in
  let state := ConfirmDPUCondition (dpu_Status dpu) DPUCondBFBPrepared in
  match CheckInstallationTimeout now state (op_OSInstallTimeout (env_options env)) with
  | Some err => mret (with_Phase DPUError (set_err now state DPUCondOSInstalled err "InstallationTimeout"), None)
  | None =>
      if deleting dpu then
        mret (match FindStatusCondition (st_Conditions (dpu_Status dpu)) DPUCondOSInstalled with
              | Some cond => if status_is ConditionTrue cond || bool_decide (c_Reason cond = InstallationTerminated)
                             then with_Phase DPUDeleting state else state
              | None => state
              end, None)
      else match cond_in dpu DPUCondOSInstalled with
           | None => mret (state, None)
           | Some condition =>
               if negb (status_is ConditionTrue condition) then
                 mret (if bool_decide (c_Reason condition = InstallationTerminated) then with_Phase DPUError state else state, None)
               else
                 _ ← prov_Remove (dpu_UID dpu);
                 mret (with_Phase DPUConfigPhase state, None)
           end
  end.
End Handlers.

(** ** Properties *)

Section Properties.
Context {W : Type} {C : Client W}.

(** What Pending may have added to the status: the conditions of the image. *)
Lemma pending_image_wp now dpu st (s : CS W) (QR : HResult → CS W → Prop) QA :
  (∀ w r, st_Phase r.1 = st_Phase st → QR r (mkCS (cs_prov s) (cs_alloc s) w)) →
  (∀ w st', st_Phase st' = st_Phase st →
     cond_is_true st' (if bool_decide (st_DPUType (dpu_Status dpu) = DPUTypeBlueField4) then DPUCondBlueFieldSoftwareReady else DPUCondBFBReady) = true →
     QA st' (mkCS (cs_prov s) (cs_alloc s) w)) →
  wpf (pending_image now dpu st) s QR QA.
Proof.
  intros HR HA. unfold pending_image. repeat wp_step; try (by apply HR); try apply HA; try done.
  all: unfold cond_is_true; rewrite cond_of_set_ok, decide_True by done; done.
Qed.

Context {API : MetaAPI} {L : MetaAPILaws API} {T : TextAPI} {R : MapRange} {S : SelectorAPI}.

(** Pending lets a DPU into Node Effect only if it is not being deleted, no
    operator upgrade is in progress, the rendering of its flavor did not fail, its
    image and its flavor are there, as its conditions then say, and the
    provisioning map admits it; the DPU holds a slot of the map from then on, and
    the map stays within its limit. On every other path the map is unchanged. *)
Theorem Pending_gate env dpu (s : CS W) :
  st_Phase (dpu_Status dpu) = DPUPending →
  let r := Pending env dpu s in
  if decide (st_Phase r.1.1 = DPUNodeEffect) then
    deleting dpu = false ∧ upgrading env = None ∧
    dpu_Annotations dpu !! RenderFailedReasonAnnotation ≠ Some RenderFailedOnCreate ∧
    cond_is_true r.1.1 (if bool_decide (st_DPUType (dpu_Status dpu) = DPUTypeBlueField4)
                        then DPUCondBlueFieldSoftwareReady else DPUCondBFBReady) = true ∧
    cond_is_true r.1.1 DPUCondDPUFlavorExists = true ∧ cond_is_true r.1.1 DPUCondPending = true ∧
    (CanProceed (dpu_UID dpu) (cs_prov s)).1 = None ∧ dpu_UID dpu ∈ pm_dpus (cs_prov r.2) ∧
    (is_int32 (pm_max (cs_prov s)) → within_limit (cs_prov s) → within_limit (cs_prov r.2))
  else cs_prov r.2 = cs_prov s.
Proof.
  intros Hp. cbn zeta. wp_start (Pending env dpu s). unfold Pending. repeat wp_step.
  1-3: by rewrite decide_False by (simpl; congruence).
  apply pending_image_wp; [intros w r Hr; by rewrite decide_False by congruence|].
  intros w st Hst Himg. repeat wp_step; simpl; try done; try (by rewrite decide_False by congruence).
  - rewrite decide_False by congruence. apply CanProceed_refuses. simpl in *. congruence.
  - assert (∀ t, t ≠ DPUCondDPUFlavorExists → t ≠ DPUCondPending → cond_is_true st t = true →
      cond_is_true (with_Phase DPUNodeEffect
        (set_ok (env_now env) (set_ok (env_now env) st DPUCondDPUFlavorExists "" "") DPUCondPending "" "")) t = true) as Hkeep.
    { intros t Ht1 Ht2. unfold cond_is_true. change (cond_of (with_Phase ?p ?s) t) with (cond_of s t).
      by rewrite !cond_of_set_ok, !decide_False. }
    split_and!; try done.
    + by eapply bool_decide_eq_false_1.
    + apply Hkeep; [intros E; revert E; case_match; vm_compute; discriminate..|exact Himg].
    + unfold cond_is_true. change (cond_of (with_Phase ?p ?s) ?t) with (cond_of s t). rewrite !cond_of_set_ok.
      by rewrite decide_False, decide_True.
    + unfold cond_is_true. change (cond_of (with_Phase ?p ?s) ?t) with (cond_of s t). by rewrite cond_of_set_ok, decide_True.
    + apply CanProceed_admits. simpl in *. congruence.
    + intros. by apply CanProceed_within.
Qed.

(** When the timeout is exceeded, in terms of the status before the artifact was
    confirmed. *)
Definition install_since (st : DPUStatus) : option Time :=
  match cond_of st DPUCondBFBPrepared with
  | Some c => Some (c_LastTransitionTime c)
  | None => c_LastTransitionTime <$> cond_of st DPUCondFwBundleVerified
  end.
Definition install_expired (now : Time) (st : DPUStatus) (timeout : Z) : bool :=
  match install_since st with
  | Some t0 => bool_decide (0 < timeout ∧ timeout < now - t0)%Z
  | None => false
  end.

Lemma CheckInstallationTimeout_expired now st timeout :
  bool_decide (is_Some (CheckInstallationTimeout now (ConfirmDPUCondition st DPUCondBFBPrepared) timeout)) =
  install_expired now st timeout.
Proof.
  unfold CheckInstallationTimeout, install_expired, install_since, InstallElapsed.
  rewrite !cond_of_Confirm, decide_True, decide_False by done.
  destruct (cond_of st DPUCondBFBPrepared) as [c|]; simpl;
    [|destruct (cond_of st DPUCondFwBundleVerified) as [c|]; simpl; [|by case_match]].
  all: replace (c_LastTransitionTime (if status_is ConditionTrue c then c else _)) with (c_LastTransitionTime c) by by case_match.
  all: destruct (Z.leb_spec timeout 0), (Z.leb_spec (now - c_LastTransitionTime c) timeout);
    apply bool_decide_ext; (split; [intros [? [=]]; lia|intros []; first [lia|by eexists]]).
Qed.

(** OS Installing is given up for the Error phase when more time than the
    positive timeout has passed since the artifact was prepared or, failing that,
    the bundle was verified, whether the DPU is being deleted or not; otherwise a
    DPU that is being deleted waits until the installation succeeded or was
    terminated, and any other goes on to DPU Config when it succeeded and fails
    when it was terminated. It gives its slot back exactly when it goes on, and
    marks the artifact as prepared on every path. *)
Theorem Installing_spec env dpu (s : CS W) :
  st_Phase (dpu_Status dpu) = DPUOSInstalling →
  let st := dpu_Status dpu in
  let timeout := op_OSInstallTimeout (env_options env) in
  let installed := cond_of st DPUCondOSInstalled in
  let ok := match installed with Some c => status_is ConditionTrue c | None => false end in
  let terminated := match installed with Some c => bool_decide (c_Reason c = InstallationTerminated) | None => false end in
  let expired := install_expired (env_now env) st timeout in
  let r := Installing env dpu s in
  st_Phase r.1.1 = (if expired then DPUError
                    else if deleting dpu then (if ok || terminated then DPUDeleting else DPUOSInstalling)
                    else if ok then DPUConfigPhase
                    else if terminated then DPUError else DPUOSInstalling) ∧
  cs_prov r.2 = (if negb expired && negb (deleting dpu) && ok then Remove (dpu_UID dpu) (cs_prov s) else cs_prov s) ∧
  r.1.2 = None ∧
  (is_Some (cond_of st DPUCondBFBPrepared) → cond_is_true r.1.1 DPUCondBFBPrepared = true).
Proof.
  intros Hp. cbn zeta. unfold Installing. set (st := dpu_Status dpu) in *. set (timeout := op_OSInstallTimeout _).
  set (st1 := ConfirmDPUCondition st DPUCondBFBPrepared).
  assert (st_Phase st1 = DPUOSInstalling) as Hp1 by (unfold st1, ConfirmDPUCondition; by repeat case_match).
  assert (is_Some (cond_of st DPUCondBFBPrepared) → cond_is_true st1 DPUCondBFBPrepared = true) as Hconf.
  { intros [c Hc]. unfold cond_is_true, st1. rewrite cond_of_Confirm, decide_True, Hc by done. simpl. by case_match. }
  assert (∀ now e, cond_is_true (set_err now st1 DPUCondOSInstalled e "InstallationTimeout") DPUCondBFBPrepared =
    cond_is_true st1 DPUCondBFBPrepared) as Hother
    by (intros; unfold cond_is_true; by rewrite cond_of_set_err, decide_False).
  pose proof (CheckInstallationTimeout_expired (env_now env) st timeout) as Hexp. fold st1 in Hexp.
  destruct (CheckInstallationTimeout _ st1 timeout) as [e|]; simpl in Hexp; rewrite <- Hexp.
  { split_and!; try done. intros H. etrans; [apply Hother|by apply Hconf]. }
  unfold cond_in. rewrite GetDPUCondition_cond_of, meta_find. fold (cond_of st DPUCondOSInstalled). fold st.
  destruct (deleting dpu); [by destruct (cond_of st DPUCondOSInstalled) as [c|]; [destruct (status_is ConditionTrue c), (bool_decide (c_Reason c = _))|]; simpl|].
  destruct (cond_of st DPUCondOSInstalled) as [c|]; simpl; [|done].
  destruct (status_is ConditionTrue c); simpl; [done|]. by case_match.

Qed.
End Properties.

(** ** Witnesses *)

Definition example_pending : DPU := example_in DPUPending DPUInitializing [].

Lemma Pending_gate_witness :
  let r := @Pending World fake_client example_env example_pending (example_state []) in
  st_Phase r.1.1 = DPUNodeEffect ∧ dpu_UID example_pending ∈ pm_dpus (cs_prov r.2).
Proof.
  cbn zeta.
  assert (st_Phase (@Pending World fake_client example_env example_pending (example_state [])).1.1 = DPUNodeEffect) as Hr
    by (vm_compute; reflexivity).
  split; [exact Hr|].
  pose proof (@Pending_gate World fake_client example_env example_pending (example_state []) eq_refl) as H.
  cbv zeta in H. rewrite decide_True in H by exact Hr. apply H.
Defined.

Definition example_installing : DPU := example_in DPUOSInstalling DPUPrepareBFB [true_cond DPUCondOSInstalled].

Lemma Installing_spec_witness :
  cs_prov (@Installing meta_list fake_text World example_env example_installing (example_state [])).2 =
  Remove "d1-uid" (NewDPUInProvisioningMap 4).
Proof.
  pose proof (@Installing_spec World meta_list _ fake_text example_env example_installing (example_state []) eq_refl) as (_ & H & _).
  rewrite H. vm_compute. reflexivity.
Defined.
