(* ===== verification/NodeEffectPhases.v ===== *)
(** The phases that apply and remove the node effect: dpu/state/node_effect.go,
    node_effect_removal.go, and the in-place reconfiguration of
    inplace_reconfig.go, which re-enters Node Effect from a running DPU. *)

From S2P Require Import Prelude.
From S2P Require Import Meta.
From S2P Require Import Conditions.
From S2P Require Import DPUTypes.
From S2P Require Import DPUConditions.
From S2P Require Import ProvisioningMap.
From S2P Require Import Kubernetes.
From S2P Require Import FakeClient.
From S2P Require Import Allocator.
From S2P Require Import Maintenance.
From S2P Require Import ClusterMetadata.
From S2P Require Import ControllerContext.
From S2P Require Import ExampleWorld.
From S2P Require Import InstallPhases.

(** ** In-place reconfiguration (inplace_reconfig.go) *)

Definition reconfigPendingReason := "ReconfigPending".
Definition reconfigCompletedReason := "ReconfigCompleted".

(** [strconv.FormatInt(int64(round), 10)] *)
Definition round_text (round : Z) : string := pretty round.

(** [updateFalseDPUCondReady] of ready.go *)
Definition updateFalseDPUCondReady (now : Time) (status : DPUStatus) (reason message : string) : DPUStatus :=
  let cond := DPUCondition DPUCondReady reason message in
  set_cond now status (mkCondition (c_Type cond) ConditionFalse 0 0 (c_Reason cond) (c_Message cond)).

Definition applyInPlaceJump (state : DPUStatus) : DPUStatus :=
  with_Phase DPUNodeEffect (with_PostProvisioningNodeEffect None (with_PostProvisioningDPUConfig (Some true) state)).

Definition armInPlaceNodeEffect (state : DPUStatus) : DPUStatus :=
  with_PostProvisioningNodeEffect None (with_PostProvisioningDPUConfig (Some true) state).

Definition reconfigInProgress (dpu : DPU) : bool :=
  match st_DPUReconfig (dpu_Status dpu) with Some rc => is_true_ptr (rc_InProgress rc) | None => false end.

Definition reconfigRound (dpu : DPU) : Z :=
  match st_DPUReconfig (dpu_Status dpu) with Some rc => rc_Round rc | None => 0%Z end.

Definition phaseJumpsForInPlace (phase : DPUPhase) : bool :=
  match phase with
  | DPUReady | DPUHostNetworkConfiguration | DPUClusterConfig | DPUServiceReadiness | DPUNodeEffectRemoval => true
  | _ => false
  end.

Definition inPlaceRoundInFlight (state : DPUStatus) (round : Z) : bool :=
  match cond_of state DPUCondReconfiguring with
  | Some cond => status_is ConditionTrue cond && bool_decide (c_Message cond = round_text round)
  | None => false
  end.

Definition inPlaceAlreadyReturned (state : DPUStatus) (round : Z) : bool :=
  match cond_of state DPUCondReconfiguring with
  | Some cond => status_is ConditionFalse cond && bool_decide (c_Reason cond = reconfigCompletedReason) &&
                 bool_decide (c_Message cond = round_text round)
  | None => false
  end.

(** DPUReconfiguring=True for a round. *)
Definition reconfiguring_cond (round : Z) : Condition :=
  mkCondition DPUCondReconfiguring ConditionTrue 0 0 reconfigPendingReason (round_text round).

Definition StartInPlaceReconfig (now : Time) (dpu : DPU) : option DPUStatus :=
  if deleting dpu || negb (reconfigInProgress dpu) then None
  else if negb (phaseJumpsForInPlace (st_Phase (dpu_Status dpu))) then None
  else
    let round := reconfigRound dpu in
    if inPlaceAlreadyReturned (dpu_Status dpu) round || inPlaceRoundInFlight (dpu_Status dpu) round then None
    else
      let state := applyInPlaceJump (dpu_Status dpu) in
      let state := updateFalseDPUCondReady now state reconfigPendingReason "in-place reconfig" in
      Some (set_cond now state (reconfiguring_cond round)).

(** ** Node Effect (node_effect.go) *)

Section Handlers.
Context {API : MetaAPI} {T : TextAPI} {K : Codec} {R : MapRange} {W : Type} {C : Client W}.

Definition node_effect (dpu : DPU) : NodeEffect := sp_NodeEffect (dpu_Spec dpu).
Definition maintenance_name (dpu : DPU) : Res string :=
  GenerateDPUNodeMaintenanceObjectName (sp_DPUNodeName (dpu_Spec dpu)) (node_effect dpu).

Definition holdForUpgrade (dpu : DPU) : SM (CS W) (Res bool) :=
  match maintenance_name dpu with
  | Err _ => mret (Ok false)
  | Ok name =>
      r ← ext (getDPUNodeMaintenance (mkNN (dpu_Namespace dpu) name));
      mret (match r with
            | Err err => if IsNotFound err then Ok true else Err err
            | Ok d => Ok (bool_decide (is_Some (dnm_DeletionTimestamp d)) ||
                          negb (isDPUInRequestor d (dpu_Name dpu)) || negb (IsNodeEffectApplied d))
            end)
  end.

Definition handleNodeEffectCompletion (now : Time) (state : DPUStatus) (reason : string) : HResult :=
  let state := set_ok now state DPUCondNodeEffectReady reason "" in
  if is_true_ptr (st_PostProvisioningDPUConfig state) then
    let state := with_Phase DPUConfigPhase
      (with_PostProvisioningNodeEffect None (with_PostProvisioningDPUConfig None state)) in
    (match st_AgentStatus state with
     | Some ag => match ag_LastStartupTime ag with
                  | Some t => with_AgentLastStartupTime (Some t) state
                  | None => state
                  end
     | None => state
     end, None)
  else if is_true_ptr (st_PostProvisioningNodeEffect state) then
    (with_Phase DPUClusterConfig (with_PostProvisioningNodeEffect None state), None)
  else (with_Phase DPUInitializeInterface state, None).

(** The status an in-place round leaves while the DPU is in Node Effect. *)
Definition node_effect_state (now : Time) (dpu : DPU) : DPUStatus :=
  let state := dpu_Status dpu in
  if reconfigInProgress dpu then set_cond now (armInPlaceNodeEffect state) (reconfiguring_cond (reconfigRound dpu))
  else state.

(** The wait for the upgrade of a DPU with a hold effect. *)
Definition upgrade_hold (env : Env) (dpu : DPU) (state : DPUStatus) : Fn (CS W) HResult unit :=
  let now := env_now env in
  match upgrading env with
  | Some cfg =>
      if IsHold (node_effect dpu) then
        hold ← or_return (holdForUpgrade dpu)
                 (fail_with now state DPUCondNodeEffectReady "FailedGetDPUNodeMaintenance");
        return_if hold (wait_with now state DPUCondNodeEffectReady ReasonDPFOperatorUpgradeInProgress (upgrade_error cfg))
      else mret tt
  | None => mret tt
  end.

(** The checks on the host node; the node itself is not used. *)
Definition check_host_node (now : Time) (dpu : DPU) (state : DPUStatus) (dpuNode : DPUNode) : Fn (CS W) HResult unit :=
  match dn_KubeNodeRef dpuNode with
  | Some _ =>
      _ ← or_return (ext (getKubeNode (mkNN "" (sp_DPUNodeName (dpu_Spec dpu)))))
            (fail_get now state DPUCondNodeEffectReady "NodeNotFound" "GetNodeError");
      mret tt
  | None =>
      let ne := node_effect dpu in
      return_if (IsCustomLabel ne || IsTaint ne || IsDrain ne)
        (fail_with now state DPUCondNodeEffectReady "InvalidNodeEffect"
           (errorf ("node effect (" +:+ NodeEffect_String ne +:+ ") is not supported for non k8s environment")))
  end.

(** The maintenance object exists: join it and wait for its effect. *)
Definition join_maintenance (now : Time) (dpu : DPU) (state : DPUStatus) (d : DPUNodeMaintenance)
    : Fn (CS W) HResult HResult :=
  _ ← return_if (bool_decide (is_Some (dnm_DeletionTimestamp d)))
        (wait_with now state DPUCondNodeEffectReady "DPUNodeMaintenanceDeleting"
           (errorf ("DPUNodeMaintenance (" +:+ dnm_Namespace d +:+ "/" +:+ dnm_Name d +:+ ") is being deleted")));
  _ ← (if isDPUInRequestor d (dpu_Name dpu) then mret tt
       else match ac_Force (ne_Action (node_effect dpu)) with
            | None => return_early (state, Some nil_dereference)
            | Some force =>
                check (ext (addRequestorAndUpdateForce d (dpu_Name dpu) (additional_requestors dpu) force))
                  (fail_with now state DPUCondNodeEffectReady "FailedAddRequestor")
            end);
  _ ← return_if (negb (IsNodeEffectApplied d))
        (wait_with now state DPUCondNodeEffectReady "NodeEffectInProgress" (errorf "node effect is in progress"));
  mret (handleNodeEffectCompletion now state "NodeEffectCompleted").

(** The [err] in scope when the object has just been created is that of the
    failed Get, so the condition that reports the creation is False. *)
Definition NodeEffectHandler (env : Env) (dpu : DPU) : SM (CS W) HResult := run (
  let now := env_now env in
  _ ← return_if (deleting dpu) (with_Phase DPUDeleting (dpu_Status dpu), None);
  let state := node_effect_state now dpu in
  _ ← upgrade_hold env dpu state;
  dpuNode ← or_return (ext (getDPUNode (mkNN (dpu_Namespace dpu) (sp_DPUNodeName (dpu_Spec dpu)))))
              (fail_get now state DPUCondNodeEffectReady "DPUNodeNotFound" "GetDPUNodeError");
  _ ← check_host_node now dpu state dpuNode;
  name ← or_return (mret (maintenance_name dpu)) (fail_with now state DPUCondNodeEffectReady "InvalidNodeEffect");
  got ← lift (ext (getDPUNodeMaintenance (mkNN (dpu_Namespace dpu) name)));
  match got with
  | Ok d => join_maintenance now dpu state d
  | Err err =>
      if IsNotFound err then
        _ ← check (ext (createDPUNodeMaintenance name dpu))
              (fail_with now state DPUCondNodeEffectReady "FailedCreateDPUNodeMaintenance");
        mret (set_cond now state (NewDPUCondition DPUCondNodeEffectReady (Some err)
                "CreatedDPUNodeMaintenance" "CreatedDPUNodeMaintenance"), None)
      else return_early (fail_with now state DPUCondNodeEffectReady "FailedGetDPUNodeMaintenance" err)
  end).

(** ** Node Effect Removal (node_effect_removal.go) *)

Definition checkNodeEffectRemovalTimeout (now : Time) (state : DPUStatus) (timeout : Z) : option GoError :=
  if (timeout <=? 0)%Z then None
  else match cond_of state DPUCondNodeEffectRemoved with
       | None => None
       | Some cond =>
           let elapsed := (now - c_LastTransitionTime cond)%Z in
           if (elapsed <=? timeout)%Z then None
           else Some (errorf ("node effect removal timeout exceeded: " +:+ duration_string elapsed +:+ " > " +:+ duration_string timeout))
       end.

(** Whether the node is behind the labels or annotations of the DPU; [fail]
    makes the result of a failed comparison. *)
Definition metadata_behind {Q} (dpu : DPU) (node : Node) (fail : string → GoError → Q) : Fn (CS W) Q bool :=
  let c := sp_Cluster (dpu_Spec dpu) in
  needUpdateLabels ← or_return (mret (NeedUpdateLabelsOnNodeInDPUCluster node (kc_NodeLabels c)))
                       (fail "UpdateLabelsOnNodeInDPUClusterError");
  needUpdateAnn ← or_return (mret (NeedUpdateAnnotationsOnNodeInDPUCluster node (kc_NodeAnnotations c)))
                    (fail "UpdateAnnotationsOnNodeInDPUClusterError");
  mret (needUpdateLabels || needUpdateAnn).

Definition NodeEffectRemoval (env : Env) (dpu : DPU) : SM (CS W) HResult := run (
  let now := env_now env in
  let state := dpu_Status dpu in
  let fail := fail_with now state DPUCondNodeEffectRemoved in
  _ ← return_if (deleting dpu) (with_Phase DPUDeleting state, None);
  node ← or_return (ext (GetNodeFromDPUCluster dpu)) (fail "GetNodeFromDPUClusterError");
  behind ← metadata_behind dpu node fail;
  _ ← return_if behind
        (with_Phase DPUClusterConfig
           (with_Conditions (RemoveStatusCondition (st_Conditions state) DPUCondNodeEffectRemoved) state), None);
  name ← or_return (mret (maintenance_name dpu)) (fail "FailedGetGenerateDPUNodeMaintenanceObjectName");
  got ← lift (ext (getDPUNodeMaintenance (mkNN (dpu_Namespace dpu) name)));
  match got with
  | Err err =>
      if IsNotFound err then mret (with_Phase DPUReady (set_ok now state DPUCondNodeEffectRemoved "" ""), None)
      else return_early (fail "FailedGetDPUNodeMaintenanceObject" err)
  | Ok d =>
      _ ← check (ext (RemoveRequestorFromDPUNodeMaintenance dpu)) (fail "FailedRemoveRequestor");
      let state := set_err now state DPUCondNodeEffectRemoved (errorf "node effect removal is in progress")
                     "NodeEffectRemovalInProgress" in
      mret (if timep_is_zero (dnm_DeletionTimestamp d) then
              match checkNodeEffectRemovalTimeout now state (op_NodeEffectRemovalTimeout (env_options env)) with
              | Some err => (with_Phase DPUError (set_err now state DPUCondNodeEffectRemoved err "NodeEffectRemovalTimeout"), None)
              | None => (state, None)
              end
            else (state, None))
  end).
End Handlers.

(** ** Properties *)

(** A status whose condition says that the upgrade of the operator holds the DPU. *)
Lemma IsDPUHeldForUpgrade_wait now s t cfg :
  (st_Phase s = DPUPending ∧ t = DPUCondPending) ∨ (st_Phase s = DPUNodeEffect ∧ t = DPUCondNodeEffectReady) →
  IsDPUHeldForUpgrade (wait_with now s t ReasonDPFOperatorUpgradeInProgress (upgrade_error cfg)).1 = true.
Proof.
  intros Hs. set (s' := (wait_with _ _ _ _ _).1).
  assert (cond_of s' t = Some (stored now (cond_of s t) (NewDPUCondition t (Some (upgrade_error cfg))
    ReasonDPFOperatorUpgradeInProgress (err_msg (upgrade_error cfg))))) as E
    by (unfold s'; simpl; by rewrite cond_of_set_err, decide_True).
  unfold cond_of, first_of_type in E. unfold IsDPUHeldForUpgrade, GetDPUCondition.
  change (st_Phase s') with (st_Phase s). destruct Hs as [[-> ->]|[-> ->]]; cbv beta iota;
    destruct (find_idx _ _) as [[i c]|]; simpl in E; simplify_eq/=; reflexivity.
Qed.

Section Upgrade.
Context {API : MetaAPI} {T : TextAPI} {K : Codec} {R : MapRange} {W : Type} {C : Client W}.

(** While an upgrade of the operator is in progress, a DPU that is not being
    deleted does not leave Pending, and one with a hold effect does not leave
    Node Effect while its maintenance object is missing, going away, not yet
    requested by it or not yet applied: the handler only reports the hold, which
    IsDPUHeldForUpgrade recognises, asks for no slot of the provisioning map, and
    does nothing after the look at the maintenance object. *)
Theorem upgrade_holds env cfg dpu (s : CS W) :
  upgrading env = Some cfg → deleting dpu = false →
  (st_Phase (dpu_Status dpu) = DPUPending →
   dpu_Annotations dpu !! RenderFailedReasonAnnotation ≠ Some RenderFailedOnCreate →
   ∃ st, Pending env dpu s = ((st, None), s) ∧ st_Phase st = DPUPending ∧ IsDPUHeldForUpgrade st = true) ∧
  (st_Phase (dpu_Status dpu) = DPUNodeEffect → IsHold (node_effect dpu) = true →
   (holdForUpgrade dpu s).1 = Ok true →
   ∃ st, NodeEffectHandler env dpu s = ((st, None), (holdForUpgrade dpu s).2) ∧ st_Phase st = DPUNodeEffect ∧
         IsDPUHeldForUpgrade st = true).
Proof.
  intros Hu Hd. split.
  - intros Hp Hr. unfold Pending. rewrite Hd, Hu, (bool_decide_eq_false_2 _ Hr). eexists. split; [reflexivity|].
    split; [done|]. apply IsDPUHeldForUpgrade_wait. by left.
  - intros Hp Hh Hf. unfold NodeEffectHandler, upgrade_hold. rewrite Hd, Hu, Hh.
    unfold_monad. destruct (holdForUpgrade dpu s) as [h s1] eqn:E. simpl in Hf. subst h.
    eexists. split; [reflexivity|].
    assert (st_Phase (node_effect_state (env_now env) dpu) = DPUNodeEffect) as Hp'
      by (unfold node_effect_state; by destruct (reconfigInProgress dpu)).
    split; [done|]. apply IsDPUHeldForUpgrade_wait. by right.
Qed.

(** When the DPU is held. *)
Lemma holdForUpgrade_release {MS : MaintenanceStore W C} dpu (s : CS W) name :
  maintenance_name dpu = Ok name →
  (holdForUpgrade dpu s).1 = Ok false →
  ∃ d, dnms (cs_ext s) !! mkNN (dpu_Namespace dpu) name = Some d ∧
    dnm_DeletionTimestamp d = None ∧ dpu_Name dpu ∈ dnm_Requestor d ∧ IsNodeEffectApplied d = true.
Proof.
  intros Hn. unfold holdForUpgrade. rewrite Hn. unfold ext. unfold_monad.
  pose proof (get_dnm (mkNN (dpu_Namespace dpu) name) (cs_ext s)) as [_ Hg].
  destruct (getDPUNodeMaintenance _ _) as [[d|e] w]; simpl in *; [|by destruct (IsNotFound e)].
  intros [= Hf]. apply orb_false_elim in Hf as [Hf Ha]. apply orb_false_elim in Hf as [Ht Hq].
  exists d. split; [apply Hg|]. apply negb_false_iff in Ha, Hq. unfold isDPUInRequestor in Hq.
  apply bool_decide_eq_true in Hq. apply bool_decide_eq_false, eq_None_not_Some in Ht. done.
Qed.
End Upgrade.

Section Released.
Context {API : MetaAPI} {T : TextAPI} {K : Codec} {R : MapRange} {W : Type} {C : Client W}.
Context {CL : ClientLaws W C} {MS : MaintenanceStore W C} {KL : CodecLaws K}.
Implicit Types (s : CS W) (dpu : DPU).

Lemma holdForUpgrade_dnms dpu s : dnms (cs_ext (holdForUpgrade dpu s).2) = dnms (cs_ext s).
Proof.
  unfold holdForUpgrade, ext. unfold_monad. destruct (maintenance_name dpu) as [name|e]; [|done].
  pose proof (get_dnm (mkNN (dpu_Namespace dpu) name) (cs_ext s)) as [Hg _].
  by destruct (getDPUNodeMaintenance _ _).
Qed.

(** The checks before the maintenance object is looked at leave the store alone,
    and stop where the DPU is. *)
Lemma upgrade_hold_wp env dpu st s (QR : HResult → CS W → Prop) QA :
  (∀ r s', st_Phase r.1 = st_Phase st → QR r s') →
  (∀ s', dnms (cs_ext s') = dnms (cs_ext s) →
     (is_Some (upgrading env) → IsHold (node_effect dpu) = true → (holdForUpgrade dpu s).1 = Ok false) → QA tt s') →
  wpf (upgrade_hold env dpu st) s QR QA.
Proof.
  intros HR HA. unfold upgrade_hold.
  destruct (upgrading env); [|apply wpf_ret, HA; [done|by intros []]].
  destruct (IsHold (node_effect dpu)); [|by apply wpf_ret, HA].
  pose proof (holdForUpgrade_dnms dpu s) as Hk. apply wpf_bind, wpf_or_return. unfold wp.
  destruct (holdForUpgrade dpu s) as [[h|e] s']; simpl in *; [|by apply HR].
  apply wpf_return_if; intros ->; [by apply HR|]. by apply HA.
Qed.

Lemma check_host_node_wp now dpu st n s (QR : HResult → CS W → Prop) QA :
  (∀ r s', st_Phase r.1 = st_Phase st → QR r s') →
  (∀ s', dnms (cs_ext s') = dnms (cs_ext s) → QA tt s') →
  wpf (check_host_node now dpu st n) s QR QA.
Proof.
  intros HR HA. unfold check_host_node. repeat wp_step; try (by apply HR); try (by apply HA).
  apply HA. simpl. rewrite <- (get_kubenode_dnm (mkNN "" (sp_DPUNodeName (dpu_Spec dpu))) (cs_ext s)).
  by match goal with E : getKubeNode _ _ = _ |- _ => rewrite E end.
Qed.

(** What holds when the DPU goes on: its node effect is applied and it is a
    requestor of the object that says so. *)
Lemma join_maintenance_wp now dpu st d s (Q : HResult → CS W → Prop) :
  dnms (cs_ext s) !! dnm_key d = Some d →
  (∀ r s', st_Phase r.1 = st_Phase st → Q r s') →
  (∀ s' d', dnm_DeletionTimestamp d = None → IsNodeEffectApplied d = true →
     dnms (cs_ext s') !! dnm_key d = Some d' → dpu_Name dpu ∈ dnm_Requestor d' →
     Q (handleNodeEffectCompletion now st "NodeEffectCompleted") s') →
  wpf (join_maintenance now dpu st d) s Q Q.
Proof.
  intros Hd HR HA. unfold join_maintenance. apply wpf_bind, wpf_return_if; [by intros; apply HR|].
  intros Ht%bool_decide_eq_false_1%eq_None_not_Some.
  assert (∀ s' d', dnms (cs_ext s') !! dnm_key d = Some d' → dpu_Name dpu ∈ dnm_Requestor d' →
    wpf (return_if (negb (IsNodeEffectApplied d))
           (wait_with now st DPUCondNodeEffectReady "NodeEffectInProgress" (errorf "node effect is in progress"))
         ≫= λ _, mret (handleNodeEffectCompletion now st "NodeEffectCompleted")) s' Q Q) as Hgo.
  { intros s' d' Hd' Hq. apply wpf_bind, wpf_return_if; [by intros; apply HR|].
    intros Ha%negb_false_iff. apply wpf_ret. by eapply HA. }
  apply wpf_bind. destruct (isDPUInRequestor d (dpu_Name dpu)) eqn:Hin.
  { apply wpf_ret. eapply Hgo; [done|]. by eapply bool_decide_eq_true_1. }
  destruct (ac_Force _) as [force|]; [|by apply wpf_return_early, HR].
  apply wpf_check, wp_ext. intros e w E.
  pose proof (addRequestor_result d (dpu_Name dpu) (additional_requestors dpu) force (cs_ext s)) as Hadd.
  cbn zeta in Hadd. rewrite E in Hadd. destruct e as [e|]; [by apply HR|]. simpl in Hadd.
  destruct Hadd as (d0 & d' & Hd0 & Hw & Hr). rewrite Hd in Hd0. injection Hd0 as <-. rewrite Hin in Hr.
  eapply Hgo; simpl; [rewrite Hw; apply lookup_insert_eq|]. apply Hr. auto.
Qed.

Lemma handleNodeEffectCompletion_ready now st reason :
  cond_is_true (handleNodeEffectCompletion now st reason).1 DPUCondNodeEffectReady = true ∧
  (handleNodeEffectCompletion now st reason).2 = None.
Proof.
  unfold handleNodeEffectCompletion, cond_is_true.
  repeat case_match; simplify_eq/=; (split; [|done]);
    match goal with E : cond_of _ _ = _ |- _ => unfold cond_of in E; simpl in E; rewrite set_condition_spec in E;
      simpl in E; by simplify_eq/= end.
Qed.

(** Where a DPU goes from Node Effect, from the status it entered it with. *)
Definition released_to (dpu : DPU) (st' : DPUStatus) : Prop :=
  let st := dpu_Status dpu in
  if reconfigInProgress dpu || is_true_ptr (st_PostProvisioningDPUConfig st) then
    st_Phase st' = DPUConfigPhase ∧ st_PostProvisioningNodeEffect st' = None ∧ st_PostProvisioningDPUConfig st' = None ∧
    (∀ ag t, st_AgentStatus st = Some ag → ag_LastStartupTime ag = Some t → st_AgentLastStartupTime st' = Some t)
  else if is_true_ptr (st_PostProvisioningNodeEffect st) then
    st_Phase st' = DPUClusterConfig ∧ st_PostProvisioningNodeEffect st' = None
  else st_Phase st' = DPUInitializeInterface.

Lemma handleNodeEffectCompletion_to now dpu reason :
  released_to dpu (handleNodeEffectCompletion now (node_effect_state now dpu) reason).1.
Proof.
  unfold released_to, handleNodeEffectCompletion, node_effect_state.
  destruct (reconfigInProgress dpu); simpl.
  - destruct (st_AgentStatus _) as [ag|]; [|by split_and!; intros]. destruct (ag_LastStartupTime ag) eqn:E; simpl; split_and!; naive_solver.
  - destruct (is_true_ptr (st_PostProvisioningDPUConfig _)) eqn:E.
    + destruct (st_AgentStatus _) as [ag|]; [|by split_and!; intros]. destruct (ag_LastStartupTime ag) eqn:E'; simpl; split_and!; naive_solver.
    + destruct (is_true_ptr (st_PostProvisioningNodeEffect _)) eqn:E'; simpl; done.
Qed.

(** Under any failures, on a store of maintenance objects nobody else writes
    to: a DPU that is not being deleted leaves Node Effect only if its
    maintenance object exists, is not going away and has its effect applied, and
    then the object names the DPU as a requestor, so that the effect outlives
    what the DPU does next; if an upgrade holds the DPU, it was a requestor
    before. The NodeEffectReady condition is then True, and the DPU goes to DPU
    Config when an in-place round or a pending reconfiguration sent it there (with
    both flags cleared and the agent's startup recorded, so that DPU Config waits
    for a fresh one), to Cluster Config when only the effect was to be run again,
    and to Initialize Interface on its first installation. *)
Theorem NodeEffect_released env dpu s name :
  st_Phase (dpu_Status dpu) = DPUNodeEffect → deleting dpu = false → maintenance_name dpu = Ok name →
  let k := mkNN (dpu_Namespace dpu) name in
  let r := NodeEffectHandler env dpu s in
  st_Phase r.1.1 ≠ DPUNodeEffect →
  ∃ d d', dnms (cs_ext s) !! k = Some d ∧ dnm_DeletionTimestamp d = None ∧ IsNodeEffectApplied d = true ∧
    dnms (cs_ext r.2) !! k = Some d' ∧ dpu_Name dpu ∈ dnm_Requestor d' ∧
    (is_Some (upgrading env) → IsHold (node_effect dpu) = true → dpu_Name dpu ∈ dnm_Requestor d) ∧
    cond_is_true r.1.1 DPUCondNodeEffectReady = true ∧ r.1.2 = None ∧ released_to dpu r.1.1.
Proof.
  intros Hp Hdel Hn. cbn zeta. wp_start (NodeEffectHandler env dpu s). unfold NodeEffectHandler.
  assert (st_Phase (node_effect_state (env_now env) dpu) = DPUNodeEffect) as Hp'
    by (unfold node_effect_state; by destruct (reconfigInProgress dpu)).
  pose proof (handleNodeEffectCompletion_to (env_now env) dpu "NodeEffectCompleted") as Hto.
  revert Hp' Hto. generalize (node_effect_state (env_now env) dpu). intros st Hp' Hto.
  apply wp_run, wpf_bind, wpf_return_if; [congruence|intros _]. cbv zeta.
  apply wpf_bind, upgrade_hold_wp; [intros ? ? ? []; congruence|]. intros s1 Hs1 Hhold.
  apply wpf_bind, wpf_or_return, wp_ext. intros [n|e] w1 E1; [|intros []; done].
  apply wpf_bind, check_host_node_wp; [intros ? ? ? []; congruence|]. intros s2 Hs2. simpl in Hs2.
  rewrite Hn. apply wpf_bind, wpf_or_return, wp_ret. apply wpf_bind, wpf_lift, wp_ext.
  pose proof (get_node_dnm (mkNN (dpu_Namespace dpu) (sp_DPUNodeName (dpu_Spec dpu))) (cs_ext s1)) as Hg. rewrite E1 in Hg. simpl in Hg.
  intros got w3 E3. pose proof (get_dnm (mkNN (dpu_Namespace dpu) name) (cs_ext s2)) as [Hk Hgot]. rewrite E3 in Hk, Hgot. simpl in Hk, Hgot.
  destruct got as [d|e]; [|repeat wp_step; intros []; done].
  destruct Hgot as [Hd Hkey]. assert (dnms (cs_ext s) !! dnm_key d = Some d) as Hd0 by congruence.
  apply join_maintenance_wp; simpl; [congruence|intros ? ? ? []; congruence|].
  intros s' d' Ht Ha Hd' Hq _. exists d, d'. rewrite <- Hkey. split_and!; try done.
  - intros Hu Hh. destruct (holdForUpgrade_release dpu s name Hn (Hhold Hu Hh)) as (d1 & Hd1 & _ & Hin & _).
    rewrite <- Hkey, Hd0 in Hd1. by simplify_eq.
  - apply handleNodeEffectCompletion_ready.
  - apply handleNodeEffectCompletion_ready.
Qed.

Lemma GetNodeFromDPUCluster_dnms dpu w : dnms (GetNodeFromDPUCluster dpu w).2 = dnms w.
Proof.
  unfold GetNodeFromDPUCluster. unfold_monad. cbv zeta.
  pose proof (get_cluster_dnm (mkNN (kc_Namespace (sp_Cluster (dpu_Spec dpu))) (kc_Name (sp_Cluster (dpu_Spec dpu)))) w) as H1.
  destruct (getDPUCluster _ w) as [[dc|e] w1]; simpl in *; [|done].
  pose proof (connect_dnm dc w1) as H2. destruct (connectCluster dc w1) as [[e|] w2]; simpl in *; [congruence|].
  rewrite get_cluster_node_dnm. congruence.
Qed.

(** The timeout runs from the moment the removal was first seen in progress. *)
Lemma removal_timeout now st err timeout e :
  checkNodeEffectRemovalTimeout now (set_err now st DPUCondNodeEffectRemoved err "NodeEffectRemovalInProgress") timeout = Some e →
  (0 < timeout)%Z ∧ ∃ c, cond_of st DPUCondNodeEffectRemoved = Some c ∧ c_Status c = ConditionFalse ∧
    (timeout < now - c_LastTransitionTime c)%Z.
Proof.
  unfold checkNodeEffectRemovalTimeout. destruct (Z.leb_spec timeout 0) as [|Hpos]; [done|].
  rewrite cond_of_set_err, decide_True by done. unfold stored. simpl.
  destruct (cond_of st _) as [c|]; [|destruct (Z.leb_spec (now - now) timeout); [done|lia]].
  case_bool_decide as Hc; simpl; [|destruct (Z.leb_spec (now - now) timeout); [done|lia]].
  destruct (Z.leb_spec (now - c_LastTransitionTime c) timeout); [done|]. intros _. eauto 6.
Qed.

(** The store of maintenance objects before and after a run of the handler that
    returned [r]; [k] is the object of the DPU. *)
Definition removal_post (env : Env) dpu (k : NamespacedName) (before : gmap NamespacedName DPUNodeMaintenance)
    (r : HResult) (after : gmap NamespacedName DPUNodeMaintenance) : Prop :=
  let timeout := op_NodeEffectRemovalTimeout (env_options env) in
  (∀ k', k' ≠ k → after !! k' = before !! k') ∧
  (st_Phase r.1 = DPUReady → before !! k = None ∧ r.2 = None) ∧
  (st_Phase r.1 = DPUError →
     (0 < timeout)%Z ∧
     (∃ c, cond_of (dpu_Status dpu) DPUCondNodeEffectRemoved = Some c ∧ c_Status c = ConditionFalse ∧
        (timeout < env_now env - c_LastTransitionTime c)%Z) ∧
     ∃ d, before !! k = Some d ∧ timep_is_zero (dnm_DeletionTimestamp d) = true) ∧
  (r.2 = None → st_Phase r.1 = DPUNodeEffectRemoval ∨ st_Phase r.1 = DPUError →
     ∃ d', after !! k = Some d' ∧ dpu_Name dpu ∉ dnm_Requestor d').

Lemma removal_post_fail env dpu k m st e : st_Phase st = DPUNodeEffectRemoval → removal_post env dpu k m (st, Some e) m.
Proof. intros Hst. unfold removal_post. simpl. rewrite Hst. by split_and!. Qed.

Lemma metadata_behind_wp {Q} dpu node (fail : string → GoError → Q) s QR QA :
  (∀ reason e, QR (fail reason e) s) → (∀ b, QA b s) → wpf (metadata_behind dpu node fail) s QR QA.
Proof. intros HR HA. unfold metadata_behind. repeat wp_step; auto. Qed.

(** On a store of maintenance objects nobody else writes to, and under any
    failures, a DPU that is not being deleted becomes Ready from Node Effect
    Removal only when its maintenance object no longer exists; while the object
    exists the DPU gives up only after it has stayed False, in progress, for longer
    than a positive timeout, and the object is not already going away. Once the
    handler has got as far as reporting progress or giving up, the DPU is no longer
    a requestor of the object. It never touches the objects of other nodes or
    other effects. *)
Theorem NodeEffectRemoval_spec env dpu s name :
  st_Phase (dpu_Status dpu) = DPUNodeEffectRemoval → deleting dpu = false → maintenance_name dpu = Ok name →
  let r := NodeEffectRemoval env dpu s in
  removal_post env dpu (mkNN (dpu_Namespace dpu) name) (dnms (cs_ext s)) r.1 (dnms (cs_ext r.2)).
Proof.
  intros Hp Hdel Hn. cbn zeta. wp_start (NodeEffectRemoval env dpu s). unfold NodeEffectRemoval.
  set (k := mkNN (dpu_Namespace dpu) name).
  assert (∀ st e, st_Phase st = DPUNodeEffectRemoval → removal_post env dpu k (dnms (cs_ext s)) (st, Some e) (dnms (cs_ext s)))
    as Hfail by (intros; by apply removal_post_fail).
  apply wp_run, wpf_bind, wpf_return_if; [congruence|intros _].
  apply wpf_bind, wpf_or_return, wp_ext. intros got w1 E1.
  pose proof (GetNodeFromDPUCluster_dnms dpu (cs_ext s)) as H1. rewrite E1 in H1. simpl in H1.
  destruct got as [node|e]; simpl; [|rewrite H1; by apply Hfail].
  apply wpf_bind, metadata_behind_wp; [intros; simpl; rewrite H1; by apply Hfail|intros behind].
  apply wpf_bind, wpf_return_if; intros _.
  { simpl. rewrite H1. unfold removal_post. simpl. split_and!; try done. by intros _ [|]. }
  rewrite Hn. apply wpf_bind, wpf_or_return, wp_ret, wpf_bind, wpf_lift, wp_ext. intros got w2 E2.
  pose proof (get_dnm k w1) as [H2 Hgot]. simpl in E2. fold k in E2. rewrite E2 in H2, Hgot. simpl in H2, Hgot. rewrite H1 in H2, Hgot.
  destruct got as [d|e].
  - destruct Hgot as [Hd _]. apply wpf_bind, wpf_check, wp_ext. intros e w3 E3.
    pose proof (RemoveRequestor_result dpu w2 name Hn) as Hr. simpl in E3, Hr. rewrite E3 in Hr. fold k in Hr.
    rewrite H2, Hd in Hr. simpl in Hr. destruct e as [e|]; simpl; [rewrite Hr; by apply Hfail|].
    destruct Hr as (d' & Hw & Hq & _).
    assert (dnms w3 !! k = Some d' ∧ dpu_Name dpu ∉ dnm_Requestor d') as [Hd' Hnot].
    { rewrite Hw, lookup_insert_eq, Hq, elem_of_without_requestor. naive_solver. }
    assert (∀ k', k' ≠ k → dnms w3 !! k' = dnms (cs_ext s) !! k') as Hother
      by (intros; rewrite Hw; by apply lookup_insert_ne).
    destruct (timep_is_zero (dnm_DeletionTimestamp d)) eqn:Hz; [|apply wpf_ret; split_and!; simpl; eauto; congruence].
    destruct (checkNodeEffectRemovalTimeout _ _ _) eqn:Ht; [|apply wpf_ret; split_and!; simpl; eauto; congruence].
    apply removal_timeout in Ht as [Hpos Hc]. apply wpf_ret. split_and!; simpl; eauto; congruence.
  - destruct (IsNotFound e) eqn:Hnf; [|apply wpf_return_early; simpl; rewrite H2; by apply Hfail].
    apply wpf_ret. simpl. rewrite H2. split_and!; simpl; try done; auto. by intros _ [|].
Qed.
End Released.

(** ** Witnesses *)

(** The operator is being upgraded, and the effect of the node is a hold. *)
Definition upgrading_env : Env :=
  mkEnv 7 example_options (Some (mkDPFOperatorConfig (Some "1") (Some "2") "" None)) "v1".
Definition holding (phase : DPUPhase) : DPU :=
  let d := example_in phase DPUPending [] in
  with_Spec (with_NodeEffect (mkNodeEffect (mkAction None None ∅ None None (Some true) (Some false)) (mkUpgradePolicy None []))
               (dpu_Spec d)) d.

Lemma upgrade_holds_witness :
  ∃ st, @NodeEffectHandler meta_list fake_codec World fake_client upgrading_env (holding DPUNodeEffect) (example_state []) =
        ((st, None), example_state []) ∧ IsDPUHeldForUpgrade st = true.
Proof.
  destruct (@upgrade_holds meta_list fake_codec World fake_client upgrading_env _ (holding DPUNodeEffect) (example_state [])
              eq_refl eq_refl) as [_ H].
  destruct H as (st & Hr & _ & Hh); [reflexivity|reflexivity|vm_compute; reflexivity|].
  exists st. split; [rewrite Hr; vm_compute; reflexivity|exact Hh].
Defined.

Definition example_effecting : DPU := example_in DPUNodeEffect DPUPending [].

Lemma NodeEffect_released_witness :
  ∃ d, @dnms World fake_client _ (cs_ext (@NodeEffectHandler meta_list fake_codec World fake_client example_env example_effecting
         (example_state [])).2) !! nn "node-k8sdrain" = Some d ∧ "d1" ∈ dnm_Requestor d.
Proof.
  destruct (@NodeEffect_released meta_list fake_codec World fake_client _ _ example_env example_effecting
              (example_state []) "node-k8sdrain" eq_refl eq_refl eq_refl) as (d & d' & _ & _ & _ & Hd' & Hq & _).
  - vm_compute. discriminate.
  - exists d'. split; [exact Hd'|exact Hq].
Defined.

Definition example_removing : DPU := example_in DPUNodeEffectRemoval DPUServiceReadiness [].

Lemma NodeEffectRemoval_spec_witness :
  let r := @NodeEffectRemoval meta_list fake_text fake_codec World fake_client example_env example_removing (example_state []) in
  r.1.2 = None ∧
  ∃ d, @dnms World fake_client _ (cs_ext r.2) !! nn "node-k8sdrain" = Some d ∧ "d1" ∉ dnm_Requestor d.
Proof.
  pose proof (@NodeEffectRemoval_spec meta_list fake_text fake_codec World fake_client _ _ example_env example_removing
                (example_state []) "node-k8sdrain" eq_refl eq_refl eq_refl) as (_ & _ & _ & H).
  cbv zeta in *.
  assert ((@NodeEffectRemoval meta_list fake_text fake_codec World fake_client example_env example_removing (example_state [])).1.2
          = None) as Hr by (vm_compute; reflexivity).
  split; [exact Hr|]. apply H; [exact Hr|]. left. vm_compute. reflexivity.
Defined.
