(* ===== verification/ReadyPhases.v ===== *)
(** The phases of an installed DPU: dpu/state/dpu_config.go,
    dpu_cluster_config.go, service_readiness.go and ready.go. *)

From S2P Require Import Prelude.
From S2P Require Import Meta.
From S2P Require Import Conditions.
From S2P Require Import DPUTypes.
From S2P Require Import DPUConditions.
From S2P Require Import ProvisioningMap.
From S2P Require Import Kubernetes.
From S2P Require Import FakeClient.
From S2P Require Import Allocator.
From S2P Require Import NVConfig.
From S2P Require Import Maintenance.
From S2P Require Import ClusterMetadata.
From S2P Require Import ControllerContext.
From S2P Require Import ExampleWorld.
From S2P Require Import Rebooting.
From S2P Require Import InstallPhases.
From S2P Require Import NodeEffectPhases.

(** ** Clock skew (util.go) *)

Definition max_duration : Z := (2 ^ 63 - 1)%Z.
Definition min_duration : Z := (- 2 ^ 63)%Z.
(** [Sub] of two instants saturates. *)
Definition time_Sub (t u : Time) : Z := Z.max min_duration (Z.min max_duration (t - u)).
(** [Duration.Abs] *)
Definition duration_Abs (d : Z) : Z :=
  if (0 <=? d)%Z then d else if (d =? min_duration)%Z then max_duration else (- d)%Z.
(** [Duration.Round] of a duration that is not negative, to the nearest
    multiple, half way up, [max_duration] on overflow. *)
Definition duration_Round (d m : Z) : Z :=
  let r := (d mod m)%Z in
  if (r + r <? m)%Z then (d - r)%Z
  else if (d + m - r <=? max_duration)%Z then (d + m - r)%Z else max_duration.

Definition MaxDPUClockSkew : Z := (60 * second)%Z.

(** E/W NIC messages list at most this many devices. *)
Definition maxFailedEWNICDevicesInMessage : nat := 5.

(** [strings.Join] *)
Fixpoint Join (sep : string) (xs : list string) : string :=
  match xs with
  | [] => ""
  | [x] => x
  | x :: xs => x +:+ sep +:+ Join sep xs
  end.

(** [failedEWNICDevicesSummary] *)
Definition failedEWNICDevicesSummary (failed : list (option string * option string)) : string :=
  let entry d := deref d.1 "" +:+ " (" +:+ deref d.2 "" +:+ ")" in
  Join ", " ((entry <$> take maxFailedEWNICDevicesInMessage failed) ++
             if (maxFailedEWNICDevicesInMessage <? length failed)%nat then ["..."] else []).

(** [ewnicRuntimeConfigReady]: ready, or the reason and message. *)
Definition ewnicRuntimeConfigReady (status : option EWNICRuntimeConfigStatus) : option (string * string) :=
  match status with
  | None => None
  | Some status =>
      let configured := deref (ew_ConfiguredDevices status) 0%Z in
      let discovered := deref (ew_DiscoveredDevices status) 0%Z in
      if (1 <=? configured)%Z then None
      else
        let summary := pretty configured +:+ "/" +:+ pretty discovered +:+ " E/W NIC devices configured" in
        if (wrap32 (configured + wrap32 (Z.of_nat (length (ew_FailedDevices status)))) <? discovered)%Z
        then Some ("WaitingForEWNICRuntimeConfig", summary)
        else Some ("NoEWNICDeviceConfigured", summary +:+ ": " +:+ failedEWNICDevicesSummary (ew_FailedDevices status))
  end.

(** [hostOSInitReleased] *)
Definition hostOSInitReleased (dpu : DPU) : bool :=
  match st_AgentStatus (dpu_Status dpu) ≫= ag_HostOSInit with
  | Some ho => bool_decide (is_Some (ho_Skipped ho)) || bool_decide (is_Some (ho_Succeeded ho))
  | None => false
  end.

Section Handlers.
Context {API : MetaAPI} {T : TextAPI} {K : Codec} {R : MapRange} {W : Type} {C : Client W}.

(** [DPUClockSkewMessage] *)
Definition DPUClockSkewMessage (agentStatus : option AgentStatus) : string :=
  match agentStatus ≫= ag_Clock with
  | None => ""
  | Some (dpuTime, hostTime) =>
      let skew := time_Sub dpuTime hostTime in
      if (duration_Abs skew <=? MaxDPUClockSkew)%Z then ""
      else "DPU clock is " +:+ duration_string (duration_Round (duration_Abs skew) second) +:+ " " +:+
           (if (skew <? 0)%Z then "behind" else "ahead of") +:+ " the host clock (DPU " +:+ rfc3339 dpuTime +:+
           ", host " +:+ rfc3339 hostTime +:+ "), which breaks client certificate bootstrap"
  end.

(** ** DPU Config (dpu_config.go) *)

(** A wait whose message is the error's text. *)
Definition config_wait (now : Time) (state : DPUStatus) (reason msg : string) : HResult :=
  wait_with now state DPUCondDPUConfig reason (errorf msg).

(** The conclusion of a step that leaves for another phase. *)
Definition config_done (now : Time) (state : DPUStatus) (rm : RebootMethodType) : DPUStatus :=
  set_cond now state (NewDPUCondition DPUCondDPUConfig None (reboot_method_string rm)
    ("RebootMethod is " +:+ reboot_method_string rm +:+ "; transitioning to " +:+ phase_string (st_Phase state) +:+ " phase")).

Definition DPUConfig (env : Env) (dpu : DPU) : HResult :=
  let now := env_now env in
  let status := dpu_Status dpu in
  if deleting dpu then (with_Phase DPUDeleting status, None)
  else match st_AgentStatus status ≫= λ ag, (λ t, (ag, t)) <$> ag_LastStartupTime ag with
  | None =>
      let skew := DPUClockSkewMessage (st_AgentStatus status) in
      if bool_decide (skew ≠ "")
      then config_wait now status ReasonDPUClockUnsynchronized ("waiting for DPU agent contact: " +:+ skew)
      else config_wait now status "WaitingForDPUAgent" "waiting for DPU agent contact"
  | Some (ag, startup) =>
      match ag_RebootMethod ag with
      | None | Some RebootMethodUnknown =>
          config_wait now status "WaitingForRebootMethod" "waiting for DPU agent to report reboot method"
      | Some rm =>
          if bool_decide (st_AgentLastStartupTime status = Some startup) then
            config_wait now status "WaitingForFreshRebootMethod"
              "the RebootMethod in AgentStatus is from the previous reboot, waiting for the DPU agent to report the reboot method for the current reboot"
          else
            match (match rm with RebootMethodNoAction => ewnicRuntimeConfigReady (ag_EWNICRuntimeConfig ag) | _ => None end) with
            | Some (reason, message) => config_wait now status reason message
            | None =>
                let state := with_AgentLastStartupTime (Some startup) status in
                match rm with
                | RebootMethodNoAction =>
                    let state :=
                      if ZeroTrustProvisioningFlow (env_options env) then with_Phase DPUClusterConfig state
                      else
                        with_Phase DPUHostNetworkConfiguration
                          (if reconfigInProgress dpu
                           then with_Conditions (RemoveStatusCondition (st_Conditions state) DPUCondHostNetworkReady) state
                           else state) in
                    (config_done now state rm, None)
                | RebootMethodFirmwareReset | RebootMethodDPUWarmReboot =>
                    config_wait now state (reboot_method_string rm) "DPU OS is rebooting, staying in DPUConfig phase"
                | _ =>
                    let state := with_Conditions (RemoveStatusCondition (st_Conditions state) DPUCondRebooted) state in
                    let state := with_Phase DPURebooting state in
                    match InitializeDPURebootStatus env dpu state DPUConfigPhase with
                    | (state, Some err) =>
                        wait_with now (with_Phase DPUConfigPhase state) DPUCondDPUConfig "FailedToInitializeRebootStatus"
                          (wrapf "failed to initialize reboot status: " err)
                    | (state, None) => (config_done now state rm, None)
                    end
                end
            end
      end
  end.

(** ** DPU Cluster Config (dpu_cluster_config.go) *)

Definition KubeadmJoinSecretName (dpuName : string) : string := dpuName +:+ "-kubeadm-join".
Definition SecretTypeBootstrapToken := "bootstrap.kubernetes.io/token".

(** [client.IgnoreNotFound] *)
Definition IgnoreNotFound (e : option GoError) : option GoError :=
  match e with Some err => if IsNotFound err then None else Some err | None => None end.

Definition DeleteNodeJoinBootstrapTokens (dc : DPUCluster) (dpuName dpuNamespace : string) : SM W (option GoError) :=
  r ← listClusterSecrets dc (mkNN dpuNamespace dpuName);
  match r with
  | Err err => mret (Some (wrapf ("listing node-join bootstrap tokens for DPU " +:+ dpuNamespace +:+ "/" +:+ dpuName +:+ ": ") err))
  | Ok items =>
      for_each (λ s,
        if bool_decide (s.2 ≠ SecretTypeBootstrapToken) then mret None
        else e ← deleteClusterSecret dc s.1;
             mret (wrapf ("deleting node-join bootstrap token " +:+ s.1 +:+ ": ") <$> IgnoreNotFound e)) items
  end.

Definition checkFwVersion (dpu : DPU) : SM W (option GoError) := run (
  let spec := dpu_Spec dpu in
  _ ← return_if (negb (bool_decide (st_DPUInstallInterface (dpu_Status dpu) = Some InstallViaRedFish))) None;
  _ ← return_if (bool_decide (st_DPUType (dpu_Status dpu) = DPUTypeBlueField4)) None;
  dpuDevice ← or_return (getDPUDevice (mkNN (dpu_Namespace dpu) (sp_DPUDeviceName spec))) Some;
  bfb ← or_return (getBFB (mkNN (dpu_Namespace dpu) (deref (sp_BFB spec) ""))) Some;
  _ ← check (redfishAcquire dpuDevice) Some;
  uefi ← or_return (redfishUEFI dpuDevice) Some;
  _ ← return_if (negb (bool_decide (uefi = v_UEFI (bfb_Versions bfb))))
        (Some (errorf ("DPU UEFI version " +:+ uefi +:+ " was not updated, expected " +:+ v_UEFI (bfb_Versions bfb))));
  bsp ← or_return (redfishBSP dpuDevice) Some;
  _ ← return_if (negb (bool_decide (bsp = v_BSP (bfb_Versions bfb))))
        (Some (errorf ("DPU BSP version " +:+ bsp +:+ " was not updated, expected " +:+ v_BSP (bfb_Versions bfb))));
  mret None).

Definition ClusterConfig (env : Env) (dpu : DPU) : SM (CS W) HResult := run (
  let state := dpu_Status dpu in
  let c := sp_Cluster (dpu_Spec dpu) in
  let fail := fail_with (env_now env) state DPUCondDPUClusterReady in
  _ ← return_if (deleting dpu) (with_Phase DPUDeleting state, None);
  _ ← check (ext (checkFwVersion dpu)) (fail "CheckFwVersionError");
  dpuCluster ← or_return (ext (getDPUCluster (mkNN (kc_Namespace c) (kc_Name c))))
                 (fail_get (env_now env) state DPUCondDPUClusterReady "DPUClusterNotFound" "GetDPUClusterError");
  _ ← check (ext (connectCluster dpuCluster)) (λ err, fail "NewConfigError" (wrapf "failed to create new config client: " err));
  node ← or_return (ext (getClusterNode dpuCluster (mkNN (kc_Namespace c) (dpu_Name dpu))))
           (λ err, if IsNotFound err then
                     fail "DPUClusterNodeNotFound"
                       (errorf ("the DPU " +:+ dpu_Name dpu +:+ " has not joined DPUCluster " +:+ kc_Namespace c +:+ "/" +:+
                                kc_Name c +:+ "; verify OOB connectivity and kubeadm/kubelet status"))
                   else fail "GetNodeError" err);
  _ ← return_if (negb (IsNodeReady node)) (fail "NodeNotReady" (errorf "node is not ready"));
  _ ← check (ext (UpdateLabelsAndAnnotationsToNode dpuCluster node (kc_NodeLabels c) (kc_NodeAnnotations c)))
        (λ err, fail "AddLabelsOrAnnotationsToObjectError" (wrapf "failed to update node labels and annotations: " err));
  _ ← check (ext (DeleteNodeJoinBootstrapTokens dpuCluster (dpu_Name dpu) (dpu_Namespace dpu)))
        (λ err, fail "DeleteNodeJoinBootstrapTokensError" (wrapf "failed to delete node-join bootstrap tokens: " err));
  deleted ← lift (ext (deleteObj (ObjSecret (mkNN (dpu_Namespace dpu) (KubeadmJoinSecretName (dpu_Name dpu))))));
  _ ← check (mret (IgnoreNotFound deleted))
        (λ err, fail "DeleteKubeadmJoinSecretError" (wrapf "failed to delete kubeadm join secret: " err));
  _ ← check (ext (deleteDPUAgentBootstrapTokens (dpu_key dpu)))
        (λ err, fail "DeleteDPUAgentBootstrapTokensError" (wrapf "failed to delete DPU agent bootstrap tokens: " err));
  mret (with_Phase DPUServiceReadiness (set_ok (env_now env) state DPUCondDPUClusterReady "" "cluster configured"), None)).

(** ** Service Readiness (service_readiness.go) *)

Definition ServiceReadiness (env : Env) (dpu : DPU) : SM (CS W) HResult := run (
  let now := env_now env in
  let state := dpu_Status dpu in
  _ ← return_if (deleting dpu) (with_Phase DPUDeleting state, None);
  flavor ← or_return (ext (getDPUFlavor (mkNN (dpu_Namespace dpu) (sp_DPUFlavor (dpu_Spec dpu)))))
             (fail_get now state DPUCondServiceReadiness "FlavorNotFound" "GetDPUFlavorError");
  let gate := ConfiguredGate flavor in
  _ ← return_if (bool_decide (gate ≠ "") && negb (IsStatusConditionTrue (st_OperationalConditions state) gate))
        (wait_with now state DPUCondServiceReadiness "AwaitingServices"
           (errorf ("waiting for operational condition " +:+ gate +:+ " to become True")));
  _ ← return_if (FlavorRequestsHostOSInitHold (fl_NVConfig flavor) && negb (hostOSInitReleased dpu))
        (wait_with now state DPUCondServiceReadiness "AwaitingAgent" (errorf "waiting for DPU agent host OS init release"));
  mret (with_Phase DPUNodeEffectRemoval (set_ok now state DPUCondServiceReadiness "" "service readiness completed"), None)).

(** ** Ready (ready.go) *)

(** [reconcileReadyClusterMetadata] *)
Definition reconcileReadyClusterMetadata (now : Time) (dpu : DPU) (state : DPUStatus) (node : Node)
    : Fn (CS W) HResult HResult :=
  behind ← metadata_behind dpu node (λ (_ : string) err, (state, Some err) : HResult);
  mret (if (behind : bool) then
          if is_true_ptr (up_ApplyOnLabelChange (ne_UpgradePolicy (node_effect dpu))) then
            (updateFalseDPUCondReady now
               (with_Phase DPUNodeEffect (with_PostProvisioningNodeEffect (Some true) state))
               "RerunNodeEffect" "rerun node effect", None)
          else
            (updateFalseDPUCondReady now (with_Phase DPUClusterConfig state) "RerunClusterConfig" "rerun cluster config", None)
        else (state, None)).

(** Coming back to Ready ends an in-place round. *)
Definition end_reconfiguring (now : Time) (dpu : DPU) (state : DPUStatus) : DPUStatus :=
  match cond_of state DPUCondReconfiguring with
  | Some cond =>
      if status_is ConditionTrue cond then
        set_cond now state (mkCondition DPUCondReconfiguring ConditionFalse 0 0 reconfigCompletedReason
                              (round_text (reconfigRound dpu)))
      else state
  | None => state
  end.

Definition Ready (env : Env) (dpu : DPU) : SM (CS W) HResult := run (
  let now := env_now env in
  _ ← return_if (deleting dpu) (with_Phase DPUDeleting (dpu_Status dpu), None);
  let state := end_reconfiguring now dpu (dpu_Status dpu) in
  node ← or_return (ext (GetNodeFromDPUCluster dpu))
           (λ err, (updateFalseDPUCondReady now state "GetNodeFromDPUClusterError" (err_msg err), Some err));
  let state := with_Addresses (no_Addresses node) state in
  _ ← return_if (negb (IsNodeReady node))
        (let err := errorf ("DPU's Node " +:+ no_Name node +:+ " is not Ready") in
         (updateFalseDPUCondReady now state "NodeNotReady" (err_msg err), Some err));
  match st_AgentStatus (dpu_Status dpu) ≫= λ ag, ewnicRuntimeConfigReady (ag_EWNICRuntimeConfig ag) with
  | Some (reason, message) => return_early (updateFalseDPUCondReady now state reason message, None)
  | None =>
      let state := set_ok now state DPUCondReady "DPUReady" "" in
      if negb (reconfigInProgress dpu) then reconcileReadyClusterMetadata now dpu state node
      else mret (state, None)
  end).
End Handlers.

(** ** Properties *)

Section Properties.
Context {API : MetaAPI} {T : TextAPI} {K : Codec} {R : MapRange} {W : Type} {C : Client W}.

(** The clock message names a skew exactly when the reported clocks are more
    than a minute apart, although the subtraction of instants and the absolute
    value of the minimal duration saturate; it says behind when the clock of the
    DPU is the earlier one; and the duration it prints is a whole number of
    seconds at most half a second away, or the largest duration. *)
Theorem DPUClockSkewMessage_spec agentStatus :
  match agentStatus ≫= ag_Clock with
  | None => DPUClockSkewMessage agentStatus = ""
  | Some (dpuTime, hostTime) =>
      (DPUClockSkewMessage agentStatus = "" ↔ (Z.abs (dpuTime - hostTime) <= 60 * second)%Z) ∧
      (DPUClockSkewMessage agentStatus ≠ "" →
       ∃ d, DPUClockSkewMessage agentStatus =
              "DPU clock is " +:+ duration_string d +:+ " " +:+
              (if decide (dpuTime < hostTime)%Z then "behind" else "ahead of") +:+ " the host clock (DPU " +:+ rfc3339 dpuTime +:+
              ", host " +:+ rfc3339 hostTime +:+ "), which breaks client certificate bootstrap" ∧
            (d = max_duration ∨ (d mod second = 0 ∧
               2 * Z.abs (d - Z.min (Z.abs (dpuTime - hostTime)) max_duration) <= second)%Z))
  end.
Proof.
  unfold DPUClockSkewMessage. destruct (agentStatus ≫= ag_Clock) as [[d h]|]; [|done].
  set (skew := time_Sub d h).
  assert (duration_Abs skew = Z.min (Z.abs (d - h)) max_duration) as Ha.
  { unfold duration_Abs, skew, time_Sub, max_duration, min_duration.
    destruct (Z.leb_spec 0 (Z.max (- 2 ^ 63) (Z.min (2 ^ 63 - 1) (d - h)))); [lia|].
    destruct (Z.eqb_spec (Z.max (- 2 ^ 63) (Z.min (2 ^ 63 - 1) (d - h))) (- 2 ^ 63)); lia. }
  assert ((skew <? 0)%Z = bool_decide (d < h)%Z) as Hs.
  { unfold skew, time_Sub, max_duration, min_duration. case_bool_decide; [apply Z.ltb_lt|apply Z.ltb_ge]; lia. }
  rewrite Ha, Hs. unfold MaxDPUClockSkew. change (60 * second)%Z with 60000000000%Z.
  destruct (Z.leb_spec (Z.min (Z.abs (d - h)) max_duration) 60000000000) as [Hle|Hlt].
  { unfold max_duration in Hle. split; [split; [intros _; lia|done]|done]. }
  split; [split; [discriminate|unfold max_duration in Hlt; lia]|].
  intros _. exists (duration_Round (Z.min (Z.abs (d - h)) max_duration) second). split.
  { by case_bool_decide; case_decide. }
  unfold duration_Round. fold max_duration in *. set (a := Z.min _ _) in *.
  pose proof (Z.mod_pos_bound a second ltac:(done)) as Hm. pose proof (Z.div_mod a second ltac:(done)) as Hd.
  unfold second in *. set (q := (a / 1000000000)%Z) in *. set (m := (a mod 1000000000)%Z) in *.
  destruct (Z.ltb_spec (m + m) 1000000000); [right|destruct (Z.leb_spec (a + 1000000000 - m) max_duration); [right|by left]].
  - replace (a - m)%Z with (q * 1000000000)%Z by lia. rewrite Z.mod_mul by done. split; [done|lia].
  - replace (a + 1000000000 - m)%Z with ((q + 1) * 1000000000)%Z by lia. rewrite Z.mod_mul by done. split; [done|lia].
Qed.

(** ** DPU Config *)

Lemma InitializeDPURebootStatus_resolved env dpu st source :
  unresolved (reboot_request dpu source).1.1 = false →
  ∃ rs, InitializeDPURebootStatus env dpu st source =
      (with_RebootStatus (Some rs) (with_Conditions (RemoveStatusCondition (st_Conditions st) DPUCondRebooted) st), None) ∧
    rs_Method rs = (reboot_request dpu source).1.1 ∧
    (rs_Phase rs = RebootStatusPending ∨
     rs_Phase rs = RebootStatusWaitForShutdown ∧ source = DPUConfigPhase ∧
       (reboot_request dpu source).1.1 = Some RebootMethodSystemLevelReset).
Proof.
  intros Hm. unfold InitializeDPURebootStatus. destruct (reboot_request dpu source) as [[m reason] message].
  simpl in Hm. rewrite Hm. eexists. split; [reflexivity|]. split; [done|]. simpl.
  repeat case_bool_decide; simpl; auto. repeat (case_match; simpl; auto).
Qed.

(** The agent reports a startup that was not recorded yet and a known reboot
    method and, when there is nothing to reboot, no E/W NICs or a configured one. *)
Definition fresh_report (st : DPUStatus) (ag : AgentStatus) (t : Time) (rm : RebootMethodType) : Prop :=
  st_AgentStatus st = Some ag ∧ ag_LastStartupTime ag = Some t ∧ ag_RebootMethod ag = Some rm ∧
  rm ≠ RebootMethodUnknown ∧ st_AgentLastStartupTime st ≠ Some t ∧
  (rm = RebootMethodNoAction → ∀ e, ag_EWNICRuntimeConfig ag = Some e → (1 <= default 0 (ew_ConfiguredDevices e))%Z).

Lemma ewnicRuntimeConfigReady_iff e :
  ewnicRuntimeConfigReady e = None ↔ ∀ s, e = Some s → (1 <= default 0 (ew_ConfiguredDevices s))%Z.
Proof.
  destruct e as [s|]; simpl; [|naive_solver]. unfold deref.
  destruct (Z.leb_spec 1 (default 0 (ew_ConfiguredDevices s))%Z).
  - split; [|done]. by intros _ s' [= <-].
  - split; [by case_match|]. intros H'. specialize (H' s eq_refl). lia.
Qed.

(** DPU Config never fails and acts once on each startup of the agent: it
    leaves, or records a startup, exactly when the agent reports a startup that
    was not recorded yet and a known reboot method and, with no action to take,
    at least one configured E/W NIC if it has any; the startup is then recorded.
    No action leads on (to Cluster Config in zero-trust mode), a firmware reset or
    a warm reboot stays, every other method leads to Rebooting with a reboot
    status that asks for that method, so the branch that reports an unresolved
    method is never taken. *)
Theorem DPUConfig_spec env dpu :
  st_Phase (dpu_Status dpu) = DPUConfigPhase → deleting dpu = false →
  let st := dpu_Status dpu in
  let r := DPUConfig env dpu in
  r.2 = None ∧
  (∀ ag t rm, fresh_report st ag t rm →
     st_AgentLastStartupTime r.1 = Some t ∧
     match rm with
     | RebootMethodNoAction =>
         st_Phase r.1 = if ZeroTrustProvisioningFlow (env_options env) then DPUClusterConfig else DPUHostNetworkConfiguration
     | RebootMethodFirmwareReset | RebootMethodDPUWarmReboot => st_Phase r.1 = DPUConfigPhase
     | _ => st_Phase r.1 = DPURebooting ∧ ∃ rs, st_RebootStatus r.1 = Some rs ∧ rs_Method rs = Some rm ∧
              (rs_Phase rs = RebootStatusPending ∨ rs_Phase rs = RebootStatusWaitForShutdown)
     end) ∧
  ((∀ ag t rm, ¬ fresh_report st ag t rm) →
     st_AgentLastStartupTime r.1 = st_AgentLastStartupTime st ∧ st_Phase r.1 = DPUConfigPhase).
Proof.
  intros Hp Hdel. cbn zeta. unfold DPUConfig, fresh_report. rewrite Hdel.
  destruct (st_AgentStatus (dpu_Status dpu)) as [ag|] eqn:Hag; simpl; [|by case_match; split_and!; naive_solver].
  destruct (ag_LastStartupTime ag) as [t|] eqn:Ht; simpl; [|by case_match; split_and!; naive_solver].
  destruct (ag_RebootMethod ag) as [rm|] eqn:Hrm; [|by split_and!; naive_solver].
  assert (∀ src, src = DPUConfigPhase → rm ≠ RebootMethodUnknown → unresolved (reboot_request dpu src).1.1 = false ∧
    (reboot_request dpu src).1.1 = Some rm) as Hreq.
  { intros src -> Hne. simpl. rewrite Hag. destruct (FindStatusCondition _ _); simpl; rewrite Hrm; simpl;
      (split; [|done]); by apply bool_decide_eq_false. }
  destruct (decide (rm = RebootMethodUnknown)) as [->|Hne]; [by split_and!; naive_solver|].
  destruct (Hreq DPUConfigPhase eq_refl Hne) as [Hres Hmeth].
  assert (∀ (P : Prop), (∀ ag0 t0 rm0, ¬ (Some ag = Some ag0 ∧ ag_LastStartupTime ag0 = Some t0 ∧ ag_RebootMethod ag0 = Some rm0 ∧
    rm0 ≠ RebootMethodUnknown ∧ st_AgentLastStartupTime (dpu_Status dpu) ≠ Some t0 ∧ (rm0 = RebootMethodNoAction →
      ∀ e, ag_EWNICRuntimeConfig ag0 = Some e → (1 <= default 0 (ew_ConfiguredDevices e))%Z))) →
    st_AgentLastStartupTime (dpu_Status dpu) ≠ Some t → rm ≠ RebootMethodNoAction → P) as Habs.
  { intros P Hn Hf Hna. exfalso. by apply (Hn ag t rm). }
  destruct rm; try done; (case_bool_decide as Hfresh; [by split_and!; naive_solver|]);
    try (destruct (InitializeDPURebootStatus_resolved env dpu (with_Phase DPURebooting
      (with_Conditions (RemoveStatusCondition (st_Conditions (dpu_Status dpu)) DPUCondRebooted)
         (with_AgentLastStartupTime (Some t) (dpu_Status dpu)))) DPUConfigPhase Hres) as (rs & E & Hrs & Hph);
      rewrite E; simpl; split; [done|split; [|intros; by eapply Habs]];
      intros ag0 t0 rm0 (Ea & Et & Er & _); simplify_eq/=;
      split; [done|]; split; [done|]; exists rs; split_and!; [done|congruence|naive_solver]).
  - pose proof (ewnicRuntimeConfigReady_iff (ag_EWNICRuntimeConfig ag)) as Hew.
    destruct (ewnicRuntimeConfigReady _) as [[reason msg]|].
    + split_and!; [done| |done]. intros ag0 t0 rm0 (Ea & Et & Er & _ & _ & H). simplify_eq/=.
      specialize (H eq_refl). by apply Hew in H.
    + simpl. split_and!; [done| |].
      * intros ag0 t0 rm0 (Ea & Et & Er & _). simplify_eq/=.
        by repeat case_match.
      * intros Hn. exfalso. apply (Hn ag t RebootMethodNoAction). split_and!; try done. intros _. by apply Hew.
  - split_and!; [done| |intros; by eapply Habs]. intros ag0 t0 rm0 (Ea & Et & Er & _). by simplify_eq/=.
  - split_and!; [done| |intros; by eapply Habs]. intros ag0 t0 rm0 (Ea & Et & Er & _). by simplify_eq/=.
Qed.

(** ** In-place rounds *)

(** The status records that a round was started, or that it ended. *)
Definition round_seen (st : DPUStatus) (round : Z) : bool :=
  inPlaceAlreadyReturned st round || inPlaceRoundInFlight st round.

Lemma round_text_inj r1 r2 : round_text r1 = round_text r2 → r1 = r2.
Proof. apply (inj pretty). Qed.

Lemma round_seen_message st r :
  round_seen st r = true → ∃ c, cond_of st DPUCondReconfiguring = Some c ∧ c_Message c = round_text r.
Proof.
  unfold round_seen, inPlaceAlreadyReturned, inPlaceRoundInFlight.
  destruct (cond_of st _) as [c|]; [|done]. intros H. exists c. split; [done|].
  apply orb_prop in H as [H|H]; repeat apply andb_prop in H as [H ?]; by eapply bool_decide_eq_true_1.
Qed.

(** Ready ends a round that was started, and keeps the record of one that ended. *)
Lemma end_reconfiguring_returned now dpu :
  round_seen (dpu_Status dpu) (reconfigRound dpu) = true →
  inPlaceAlreadyReturned (end_reconfiguring now dpu (dpu_Status dpu)) (reconfigRound dpu) = true.
Proof.
  unfold round_seen, inPlaceAlreadyReturned, inPlaceRoundInFlight, end_reconfiguring.
  destruct (cond_of (dpu_Status dpu) DPUCondReconfiguring) as [c|] eqn:E; [|done].
  destruct (status_is ConditionTrue c) eqn:Ht; simpl.
  - intros _. rewrite cond_of_set, decide_True by done. simpl. unfold status_is. simpl.
    by rewrite !bool_decide_eq_true_2.
  - rewrite E, orb_false_r. done.
Qed.

Lemma Ready_reconfiguring env dpu :
  deleting dpu = false →
  yields (S:=CS W) (Ready env dpu) (λ r, cond_of r.1 DPUCondReconfiguring =
    cond_of (end_reconfiguring (env_now env) dpu (dpu_Status dpu)) DPUCondReconfiguring).
Proof.
  intros Hdel. unfold Ready, reconcileReadyClusterMetadata, metadata_behind, updateFalseDPUCondReady. repeat yields_step;
    try congruence; simpl;
    repeat first
      [ match goal with |- cond_of (match ?x with _ => _ end).1 _ = _ => destruct x; simpl end
      | progress change (cond_of (with_Phase ?p ?s) ?t) with (cond_of s t)
      | progress change (cond_of (with_PostProvisioningNodeEffect ?p ?s) ?t) with (cond_of s t)
      | progress change (cond_of (with_Addresses ?p ?s) ?t) with (cond_of s t)
      | rewrite cond_of_set_other by (vm_compute; discriminate)
      | rewrite cond_of_set_ok, decide_False by (vm_compute; discriminate) ]; done.
Qed.

(** An in-place round is run once: the jump to Node Effect happens exactly when
    the DPU, not being deleted, is in a phase it may jump from, the DPUSet opened a
    round for it, and its Reconfiguring condition does not say that this round was
    started or has ended; the jump marks the round as started, with Ready False and
    the DPU configuration due again. Ready marks a round that was started as ended,
    on every path, errors included, and keeps the mark, so the same round never
    jumps again; the condition can only stand for one round, so the next round
    does jump. *)
Theorem in_place_round_once env now dpu (s : CS W) :
  let st := dpu_Status dpu in
  let round := reconfigRound dpu in
  (is_Some (StartInPlaceReconfig now dpu) ↔
     deleting dpu = false ∧ reconfigInProgress dpu = true ∧ phaseJumpsForInPlace (st_Phase st) = true ∧
     round_seen st round = false) ∧
  (∀ st', StartInPlaceReconfig now dpu = Some st' →
     st_Phase st' = DPUNodeEffect ∧ st_PostProvisioningDPUConfig st' = Some true ∧
     cond_is_true st' DPUCondReady = false ∧ inPlaceRoundInFlight st' round = true ∧ st_DPUReconfig st' = st_DPUReconfig st) ∧
  (deleting dpu = false → round_seen st round = true → inPlaceAlreadyReturned (Ready env dpu s).1.1 round = true) ∧
  (∀ r1 r2, round_seen st r1 = true → round_seen st r2 = true → r1 = r2).
Proof.
  cbn zeta. split_and!.
  - unfold StartInPlaceReconfig. fold (round_seen (dpu_Status dpu) (reconfigRound dpu)).
    destruct (deleting dpu), (reconfigInProgress dpu), (phaseJumpsForInPlace _), (round_seen _ _); simpl;
      (split; [intros [? ?]|]); naive_solver.
  - intros st' Hs. unfold StartInPlaceReconfig in Hs. repeat case_match; simplify_eq. split_and!; try done.
    + unfold cond_is_true, updateFalseDPUCondReady. rewrite cond_of_set_other by (vm_compute; discriminate).
      by rewrite cond_of_set, decide_True.
    + unfold inPlaceRoundInFlight. rewrite cond_of_set, decide_True by done. simpl. unfold status_is. simpl. by rewrite !bool_decide_eq_true_2.
  - intros Hdel Hseen. pose proof (Ready_reconfiguring env dpu Hdel s) as E.
    unfold inPlaceAlreadyReturned. rewrite E. by apply end_reconfiguring_returned.
  - intros r1 r2 (c1 & E1 & H1)%round_seen_message (c2 & E2 & H2)%round_seen_message.
    apply round_text_inj. congruence.
Qed.
End Properties.

Lemma DPUConfig_spec_witness :
  (@DPUConfig meta_list fake_text example_env (example_in DPUConfigPhase DPUOSInstalling [])).2 = None.
Proof. exact (proj1 (@DPUConfig_spec meta_list fake_text example_env (example_in DPUConfigPhase DPUOSInstalling []) eq_refl eq_refl)). Defined.
