(* ===== verification/PrepareBFB.v ===== *)
(** The Prepare BFB phase (dpu/state/prepare_bfb.go and prepare_bfb_artifact.go): the
    credentials and the boot artifact of a DPU, and the files it keeps on the
    shared BFB volume.  The generators of the join command and of the artifact
    are interfaces. *)

From S2P Require Import Prelude.
From S2P Require Import Meta.
From S2P Require Import Conditions.
From S2P Require Import DPUTypes.
From S2P Require Import DPUConditions.
From S2P Require Import ProvisioningMap.
From S2P Require Import Kubernetes.
From S2P Require Import FakeClient.
From S2P Require Import Allocator.
From S2P Require Import ControllerContext.
From S2P Require Import ExampleWorld.
From S2P Require Import InstallPhases.
From S2P Require Import ReadyPhases.

Definition BFCFGDir := "bfcfg".
Definition UserDataDir := "user-data".

Definition artifactID (dpu : DPU) : string := dpu_Namespace dpu +:+ "_" +:+ dpu_Name dpu +:+ "_" +:+ dpu_UID dpu.
Definition BFCFG_base : string := "/" +:+ BFBBaseDir +:+ "/" +:+ BFCFGDir.
Definition BF3CFGFile (dpu : DPU) : string := BFCFG_base +:+ "/" +:+ artifactID dpu.
Definition BF4UserDataDir (dpu : DPU) : string := "/" +:+ BFBBaseDir +:+ "/" +:+ UserDataDir +:+ "/" +:+ artifactID dpu.

(** [IsSpiffeDPU] of util/spiffe.go *)
Definition IsSpiffeDPU (dpu : DPU) : bool := bool_decide (st_IdentityMode (dpu_Status dpu) = Some IdentityModeSpiffe).

Section Handlers.
Context {W : Type} {C : Client W}.

Definition RemoveArtifacts (dpu : DPU) : SM W (option GoError) :=
  e ← removeFile (BF3CFGFile dpu);
  match e with
  | Some err => mret (Some (wrapf ("failed to remove BF3 config file at " +:+ BF3CFGFile dpu +:+ ": ") err))
  | None =>
      e ← removeAll (BF4UserDataDir dpu);
      mret (wrapf ("failed to remove BF4 user-data directory at " +:+ BF4UserDataDir dpu +:+ ": ") <$> e)
  end.

(** The failures of both preparations set the BFBPrepared condition of [state]. *)
Definition bfb_fail (now : Time) (state : DPUStatus) (reason pre : string) (err : GoError) : HResult :=
  fail_with now state DPUCondBFBPrepared reason (wrapf pre err).

(** [prepareBF4ISO]; the result is the path of the image. *)
Definition prepareBF4ISO (now : Time) (dpu : DPU) (userData networkConfig : string) (state : DPUStatus)
    : Fn (CS W) HResult string :=
  let fail := bfb_fail now state in
  let base := BF4UserDataDir dpu in
  let userDataPath := base +:+ "/" +:+ UserDataDir in
  let networkCfgPath := base +:+ "/network-config" in
  let isoBasePath := base +:+ "/seed" in
  let isoPath := isoBasePath +:+ ".iso" in
  _ ← check (ext (mkdirAll base)) (fail "FailedToCreateDirectory" ("failed to create directory " +:+ base +:+ ": "));
  _ ← check (ext (removeFile userDataPath)) (fail "FailedToRemoveUserData" ("failed to remove user-data at " +:+ userDataPath +:+ ": "));
  _ ← check (ext (writeFile userDataPath userData)) (fail "FailedToWriteUserData" ("failed to write user-data to " +:+ userDataPath +:+ ": "));
  _ ← check (ext (removeFile networkCfgPath)) (fail "FailedToRemoveNetworkCfg" ("failed to remove network-config at " +:+ networkCfgPath +:+ ": "));
  _ ← check (ext (writeFile networkCfgPath networkConfig)) (fail "FailedToWriteNetworkCfg" ("failed to write network-config to " +:+ networkCfgPath +:+ ": "));
  _ ← check (ext (removeFile isoPath)) (fail "FailedToRemoveISO" ("failed to remove ISO image at " +:+ isoPath +:+ ": "));
  or_return (ext (mkIso isoBasePath [("user-data", userData); ("meta-data", ""); ("network-config", networkConfig)]))
    (fail "FailedToCreateISO" ("failed to create ISO image at " +:+ isoPath +:+ ": ")).

(** [prepareBF3BFB] *)
Definition prepareBF3BFB (now : Time) (dpu : DPU) (bfCFG : string) (state : DPUStatus) : Fn (CS W) HResult string :=
  let fail := bfb_fail now state in
  let bfCFGPath := BF3CFGFile dpu in
  _ ← check (ext (mkdirAll BFCFG_base)) (fail "FailedToCreateDirectory" ("failed to create directory " +:+ BFCFG_base +:+ ": "));
  _ ← check (ext (writeFile bfCFGPath bfCFG)) (fail "FailedToPushBFCFG" ("failed to write bf.cfg to " +:+ bfCFGPath +:+ ": "));
  mret bfCFGPath.

(** [ensureRBAC]: the bootstrap token, empty for a SPIFFE DPU. *)
Definition ensureRBAC (dpu : DPU) (dpuDevice : DPUDevice) : SM W (Res string) :=
  e ← ensureDPUAgentRole dpu dpuDevice;
  match e with
  | Some err => mret (Err err)
  | None =>
      if IsSpiffeDPU dpu then mret (Ok "")
      else
        t ← createDPUAgentBootstrapToken dpu;
        mret (match t with
              | Err err => Err (wrapf "creating DPU agent bootstrap token: " err)
              | Ok token => Ok token
              end)
  end.

Definition PrepareBFB (env : Env) (dpu : DPU) : SM (CS W) HResult := run (
  let now := env_now env in
  let state := dpu_Status dpu in
  let spec := dpu_Spec dpu in
  let ns := dpu_Namespace dpu in
  let fail := bfb_fail now state in
  let get nf other := fail_get now state DPUCondBFBPrepared nf other in
  flavor ← or_return (ext (getDPUFlavor (mkNN ns (sp_DPUFlavor spec)))) (get "DPUFlavorNotFound" "FailedToGetFlavor");
  dc ← or_return (ext (getDPUCluster (mkNN (kc_Namespace (sp_Cluster spec)) (kc_Name (sp_Cluster spec)))))
         (get "DPUClusterNotFound" "FailedToGetDPUCluster");
  dpuNode ← or_return (ext (getDPUNode (mkNN ns (sp_DPUNodeName spec)))) (get "DPUNodeNotFound" "FailedToGetDPUNode");
  joinCommand ← or_return (ext (GenerateJoinCommand dc dpu))
                  (fail "FailedToGenerateJoinCommand" "failed to generate join command: ");
  let secret := mkNN ns (KubeadmJoinSecretName (dpu_Name dpu)) in
  _ ← check (ext (setOwnerReference dpu secret))
        (fail "FailedToCreateKubeadmSecret" "failed to set owner reference on kubeadm join secret: ");
  created ← lift (ext (createSecret secret joinCommand));
  _ ← check (mret (match created with Some err => if IsAlreadyExists err then None else Some err | None => None end))
        (fail "FailedToCreateKubeadmSecret" "failed to create kubeadm join secret: ");
  dpuDevice ← or_return (ext (getDPUDevice (mkNN ns (sp_DPUDeviceName spec)))) (get "DPUDeviceNotFound" "FailedToGetDPUDevice");
  bootstrapToken ← or_return (ext (ensureRBAC dpu dpuDevice)) (fail "FailedToEnsureRBAC" "failed to ensure DPU agent RBAC: ");
  artifactPath ←
    (if bool_decide (dd_DPUType dpuDevice = DPUTypeBlueField4) then
       artifact ← or_return (ext (GenerateBF4 dpu flavor bootstrapToken))
                    (fail "FailedToGenerateBF4Artifact" "failed to generate BF4 artifact: ");
       prepareBF4ISO now dpu artifact.1 artifact.2 state
     else
       cfg ← or_return (ext (GenerateBF3 dpu flavor bootstrapToken))
               (fail "FailedToGenerateBFConfig" "failed to generate bf.cfg: ");
       prepareBF3BFB now dpu cfg state);
  mret (with_Phase DPUOSInstalling
          (set_cond now (with_BFCFGFile artifactPath state) (NewDPUCondition DPUCondBFBPrepared None "" "")), None)).
End Handlers.
