(* ===== verification/DeletingPhase.v ===== *)
(** The Deleting and Error phases: dpu/state/deleting.go and error.go. *)

From S2P Require Import Prelude.
From S2P Require Import WriteLog.
From S2P Require Import TraceLogic.
From S2P Require Import Meta.
From S2P Require Import Conditions.
From S2P Require Import DPUTypes.
From S2P Require Import DPUConditions.
From S2P Require Import ProvisioningMap.
From S2P Require Import Kubernetes.
From S2P Require Import FakeClient.
From S2P Require Import Allocator.
From S2P Require Import Maintenance.
From S2P Require Import ClusterMetadata.
From S2P Require Import ControllerContext.
From S2P Require Import ExampleWorld.
From S2P Require Import InstallPhases.
From S2P Require Import NodeEffectPhases.
From S2P Require Import ReadyPhases.
From S2P Require Import PrepareBFB.

Definition DPUDeviceFinalizer := DPUProvisioningPrefix +:+ "dpudevice-protection".
Definition GeneratedDPUFlavorFinalizer := DPUProvisioningPrefix +:+ "generated-dpuflavor-protection".
Definition GenerateDMSServerCertName (dpuName : string) : string := dpuName +:+ "-dms-server-cert".
Definition GenerateDMSServerSecretName (dpuName : string) : string := dpuName +:+ "-server-secret".
Definition GenerateBMCServerCertRequestName (dpuDeviceName : string) : string := dpuDeviceName +:+ "-server".
Definition GenerateNodeName (dpu : DPU) : string := dpu_Name dpu.

(** A DPU of a DPUSet whose flavor is rendered from a template. *)
Definition template_mode (dpu : DPU) : bool := bool_decide (deref (dpu_Labels dpu !! DPUFlavorTemplateNameLabel) "" ≠ "").

Section Handlers.
Context {API : MetaAPI} {T : TextAPI} {K : Codec} {R : MapRange} {F : FinalizerAPI} {W : Type} {C : Client W}.

(** ** Helpers *)

Definition RemoveDpuDeviceFinalizer (dpu : DPU) : SM W (option GoError) :=
  let name := sp_DPUDeviceName (dpu_Spec dpu) in
  r ← getDPUDevice (mkNN (dpu_Namespace dpu) name);
  match r with
  | Err err => mret (if IsNotFound err then None else Some (wrapf ("failed to get DpuDevice " +:+ name +:+ ": ") err))
  | Ok dpuDevice =>
      if ContainsFinalizer (dd_Finalizers dpuDevice) DPUDeviceFinalizer then
        e ← updateDPUDevice (with_dd_Finalizers (RemoveFinalizer (dd_Finalizers dpuDevice) DPUDeviceFinalizer) dpuDevice);
        mret (wrapf "failed to remove DpuDevice finalizer: " <$> e)
      else mret None
  end.

Definition releaseGeneratedFlavorFinalizer (dpu : DPU) : SM W (option GoError) :=
  r ← getDPUFlavor (mkNN (dpu_Namespace dpu) (sp_DPUFlavor (dpu_Spec dpu)));
  match r with
  | Err err => mret (if IsNotFound err then None else Some err)
  | Ok flavor =>
      if negb (ContainsFinalizer (fl_Finalizers flavor) GeneratedDPUFlavorFinalizer) then mret None
      else patchDPUFlavor flavor
             (with_fl_meta (RemoveFinalizer (fl_Finalizers flavor) GeneratedDPUFlavorFinalizer) (fl_ControllerUID flavor) flavor)
  end.

(** [GetObjects]: the objects that exist. *)
Fixpoint GetObjects (objects : list ObjRef) : SM W (Res (list ObjRef)) :=
  match objects with
  | [] => mret (Ok [])
  | obj :: objects =>
      r ← existsObj obj;
      match r with
      | Err err =>
          if IsNotFound err then GetObjects objects else mret (Err err)
      | Ok _ =>
          rest ← GetObjects objects;
          mret (match rest with Ok objs => Ok (obj :: objs) | Err err => Err err end)
      end
  end.

(** The GroupVersionKind a request carries, as [String] prints it, and the name. *)
Definition obj_gvk (obj : ObjRef) : string :=
  match obj with
  | ObjCertificate _ => "cert-manager.io/v1, Kind=Certificate"
  | ObjCertificateRequest _ => "cert-manager.io/v1, Kind=CertificateRequest"
  | ObjSecret _ | ObjDPUFlavor _ => "/, Kind="
  end.
Definition obj_key (obj : ObjRef) : NamespacedName :=
  match obj with ObjCertificate n | ObjSecret n | ObjCertificateRequest n | ObjDPUFlavor n => n end.

(** [DeleteObjects] of one object: the aggregate of at most one error. *)
Definition DeleteObject (obj : ObjRef) : SM W (option GoError) :=
  e ← deleteObj obj;
  mret ((λ err, errorf ("deleting error " +:+ obj_gvk obj +:+ " " +:+ nn_namespace (obj_key obj) +:+ " : " +:+
                        nn_name (obj_key obj) +:+ " err: " +:+ err_msg err)) <$> IgnoreNotFound e).

(** The client of the cluster of a DPU: nothing when it has none or it is gone. *)
Definition with_cluster (dpu : DPU) (onerr : GoError → GoError) (f : DPUCluster → SM W (option GoError)) : SM W (option GoError) :=
  let c := sp_Cluster (dpu_Spec dpu) in
  if bool_decide (kc_Name c = "") then mret None
  else
    r ← getDPUCluster (mkNN (kc_Namespace c) (kc_Name c));
    match r with
    | Err err => mret (if IsNotFound err then None else Some err)
    | Ok dc =>
        e ← connectCluster dc;
        match e with
        | Some err => mret (Some (onerr err))
        | None => f dc
        end
    end.

Definition deleteNodeJoinBootstrapTokens (dpu : DPU) : SM W (option GoError) :=
  with_cluster dpu (wrapf "failed to create client for DPU cluster: ")
    (λ dc, DeleteNodeJoinBootstrapTokens dc (dpu_Name dpu) (dpu_Namespace dpu)).

Definition deleteNode (dpu : DPU) : SM W (option GoError) :=
  with_cluster dpu (λ err, errorf ("failed to create client for DPU cluster, err: " +:+ err_msg err))
    (λ dc, e ← deleteClusterNode dc (GenerateNodeName dpu); mret (IgnoreNotFound e)).

(** ** Deleting *)

Definition deleteObjects (dpu : DPU) : list ObjRef :=
  let nn name := mkNN (dpu_Namespace dpu) name in
  [ObjCertificate (nn (GenerateDMSServerCertName (dpu_Name dpu)));
   ObjSecret (nn (GenerateDMSServerSecretName (dpu_Name dpu)));
   ObjSecret (nn (KubeadmJoinSecretName (dpu_Name dpu)));
   ObjCertificateRequest (nn (GenerateBMCServerCertRequestName (sp_DPUDeviceName (dpu_Spec dpu))))] ++
  (if template_mode dpu then [ObjDPUFlavor (nn (sp_DPUFlavor (dpu_Spec dpu)))] else []).

Definition valid_interface (dpu : DPU) : bool :=
  match st_DPUInstallInterface (dpu_Status dpu) with
  | None => true
  | Some i => bool_decide (i = InstallViaRedFish) || bool_decide (i = InstallViaGNOI) || bool_decide (i = InstallViaHostAgent)
  end.

(** The result and the DPU the handler leaves to its caller, whose finalizer it
    removes in memory before the update. *)
Definition Deleting (env : Env) (dpu : DPU) : SM (CS W) (HResult * DPU) := run (
  let state := dpu_Status dpu in
  let fail reason pre err := (fail_with (env_now env) state DPUCondDeleting reason (wrapf pre err), dpu) in
  _ ← lift (prov_Remove (dpu_UID dpu));
  _ ← lift (alloc_ReleaseDPU dpu);
  _ ← check (ext (RemoveDpuDeviceFinalizer dpu)) (fail "RemoveDpuDeviceFinalizerError" "failed to remove DpuDevice finalizer: ");
  _ ← check (ext (RemoveRequestorFromDPUNodeMaintenance dpu))
        (fail "RemoveRequestorFromDPUNodeMaintenanceError" "failed to remove requestor from dpunodemaintenance: ");
  _ ← check (ext (RemoveArtifacts dpu)) (fail "DeleteBFBArtifactsError" "");
  _ ← (if template_mode dpu then
         check (ext (releaseGeneratedFlavorFinalizer dpu))
           (fail "ReleaseGeneratedFlavorFinalizerError" "failed to release generated DPUFlavor finalizer: ")
       else mret tt);
  objects ← or_return (ext (GetObjects (deleteObjects dpu))) (fail "GetObjectsError" "failed to get objects: ");
  _ ← check (ext (for_each DeleteObject objects)) (fail "DeleteObjectsError" "failed to delete objects: ");
  _ ← check (ext (deleteDPUAgentBootstrapTokens (dpu_key dpu))) (fail "DeleteBootstrapTokensError" "failed to delete bootstrap tokens: ");
  _ ← check (ext (deleteNodeJoinBootstrapTokens dpu))
        (fail "DeleteNodeJoinBootstrapTokensError" "failed to delete node-join bootstrap tokens: ");
  _ ← check (ext (deleteNode dpu)) (fail "DeleteNodeError" "failed to delete node: ");
  _ ← return_if (negb (valid_interface dpu))
        (fail "InvalidDPUInstallInterface" "" (errorf ("invalid DPUInstallInterface: " +:+ deref (st_DPUInstallInterface state) "")));
  if bool_decide (length objects = 0) then
    let dpu' := with_Finalizers (RemoveFinalizer (dpu_Finalizers dpu) DPUFinalizer) dpu in
    _ ← check (ext (updateDPU dpu'))
          (λ err, (fail_with (env_now env) state DPUCondDeleting "UpdateError" (wrapf "failed to update DPU: " err), dpu'));
    mret ((state, None), dpu')
  else mret ((state, None), dpu)).

(** ** Error *)

Definition Error (env : Env) (dpu : DPU) : SM (CS W) HResult :=
  let state := dpu_Status dpu in
  if deleting dpu then mret (with_Phase DPUDeleting state, None)
  else
    _ ← prov_Remove (dpu_UID dpu);
    r ← ext (RemoveRequestorFromDPUNodeMaintenance dpu);
    mret (match r with
          | Some err => set_err (env_now env) state DPUCondError
                          (wrapf "failed to remove requestor from dpunodemaintenance: " err)
                          "RemoveRequestorFromDPUNodeMaintenanceError"
          | None => state
          end, None).
End Handlers.

(** ** What a pass over a DPU that is deleted asks and writes *)

(** The lookups and deletions of the objects, and the update of the DPU, with what the
    API answered. *)
Inductive DeletionEvent :=
| DExists (o : ObjRef) (r : Res unit)
| DDelete (o : ObjRef) (r : option GoError)
| DUpdate (dpu : DPU) (r : option GoError).

Definition dlogged {W} (C : Client W) : Client (W * list DeletionEvent) := {|
  getDPUNode a := unlogged (getDPUNode a);
  getDPUDevice a := unlogged (getDPUDevice a);
  getBFB a := unlogged (getBFB a);
  getBlueFieldSoftware a := unlogged (getBlueFieldSoftware a);
  getDPUFlavor a := unlogged (getDPUFlavor a);
  getDPUCluster a := unlogged (getDPUCluster a);
  getKubeNode a := unlogged (getKubeNode a);
  getDPUNodeMaintenance a := unlogged (getDPUNodeMaintenance a);
  getDPU a := unlogged (getDPU a);
  listDPUs := unlogged listDPUs;
  listDPUClusters := unlogged listDPUClusters;
  listDPFOperatorConfigs := unlogged listDPFOperatorConfigs;
  createDPUNodeMaintenance_api a := unlogged (createDPUNodeMaintenance_api a);
  updateDPUNodeMaintenance a := unlogged (updateDPUNodeMaintenance a);
  patchDPUNodeMaintenance a b := unlogged (patchDPUNodeMaintenance a b);
  updateDPUDevice a := unlogged (updateDPUDevice a);
  patchDPUFlavor a b := unlogged (patchDPUFlavor a b);
  updateDPU d := logged (DUpdate d) (updateDPU d);
  patchDPU a b := unlogged (patchDPU a b);
  patchDPUStatus a b := unlogged (patchDPUStatus a b);
  existsObj o := logged (DExists o) (existsObj o);
  deleteObj o := logged (DDelete o) (deleteObj o);
  connectCluster a := unlogged (connectCluster a);
  getClusterNode a b := unlogged (getClusterNode a b);
  patchClusterNode a b c := unlogged (patchClusterNode a b c);
  deleteClusterNode a b := unlogged (deleteClusterNode a b);
  listClusterSecrets a b := unlogged (listClusterSecrets a b);
  deleteClusterSecret a b := unlogged (deleteClusterSecret a b);
  ensureDPUAgentRole a b := unlogged (ensureDPUAgentRole a b);
  deleteDPUAgentBootstrapTokens a := unlogged (deleteDPUAgentBootstrapTokens a);
  redfishAcquire a := unlogged (redfishAcquire a);
  redfishUEFI a := unlogged (redfishUEFI a);
  redfishBSP a := unlogged (redfishBSP a);
  GenerateJoinCommand a b := unlogged (GenerateJoinCommand a b);
  setOwnerReference a b := unlogged (setOwnerReference a b);
  createSecret a b := unlogged (createSecret a b);
  createDPUAgentBootstrapToken a := unlogged (createDPUAgentBootstrapToken a);
  GenerateBF3 a b c := unlogged (GenerateBF3 a b c);
  GenerateBF4 a b c := unlogged (GenerateBF4 a b c);
  removeFile a := unlogged (removeFile a);
  removeAll a := unlogged (removeAll a);
  mkdirAll a := unlogged (mkdirAll a);
  writeFile a b := unlogged (writeFile a b);
  mkIso a b := unlogged (mkIso a b);
  RetryOnConflict X f := log_out (RetryOnConflict (X * list DeletionEvent) (log_in f));
  InjectIntoObject a := InjectIntoObject a |}.

#[export] Instance dlogged_laws {W} (C : Client W) : ClientLaws W C → ClientLaws _ (dlogged C).
Proof.
  intros L. split. intros X f [x [w l]]. destruct (retry_attempts (X * list DeletionEvent) (log_in f) ((x, l), w)) as [n Hn].
  exists n. rewrite attempts_log, Hn. simpl. by destruct (RetryOnConflict _ _ _) as [r [[x' l'] w']].
Qed.

(** The API said that an object is not there, or that it is. *)
Definition gone (l : list DeletionEvent) (o : ObjRef) : Prop := ∃ e, DExists o (Err e) ∈ l ∧ IsNotFound e = true.
Definition found (l : list DeletionEvent) (o : ObjRef) : Prop := DExists o (Ok tt) ∈ l.
(** A deletion was sent, and the object is deleted or was not there. *)
Definition deleted (l : list DeletionEvent) (o : ObjRef) : Prop := ∃ r, DDelete o r ∈ l ∧ IgnoreNotFound r = None.

Definition let_go {FA : FinalizerAPI} (dpu : DPU) : DPU := with_Finalizers (RemoveFinalizer (dpu_Finalizers dpu) DPUFinalizer) dpu.

(** Why the pass does what it does, with the history [l]: it looks for the objects of
    the DPU, deletes what it found, and writes the DPU only without its finalizer, after
    it was told for every object that it is not there. *)
Definition deletion_why {FA : FinalizerAPI} (dpu : DPU) (l : list DeletionEvent) (e : DeletionEvent) : Prop :=
  match e with
  | DExists o _ => o ∈ deleteObjects dpu
  | DDelete o _ => o ∈ deleteObjects dpu ∧ found l o
  | DUpdate d _ => d = let_go dpu ∧ ∀ o, o ∈ deleteObjects dpu → gone l o
  end.

Lemma gone_prefix o l l' : l `prefix_of` l' → gone l o → gone l' o.
Proof. intros Hl (e & He & Hn). exists e. split; [by eapply prefix_elem|done]. Qed.
Lemma found_prefix o l l' : l `prefix_of` l' → found l o → found l' o.
Proof. apply prefix_elem. Qed.
Lemma deleted_prefix o l l' : l `prefix_of` l' → deleted l o → deleted l' o.
Proof. intros Hl (e & He & Hn). exists e. split; [by eapply prefix_elem|done]. Qed.

Section Properties.
Context {API : MetaAPI} {T : TextAPI} {K : Codec} {R : MapRange} {F : FinalizerAPI} {FL : FinalizerAPILaws F}.
Context {W : Type} {C : Client W} {CL : ClientLaws W C}.
Implicit Types (s : CS (W * list DeletionEvent)) (dpu : DPU) (l : list DeletionEvent).
Local Abbreviation LW := (W * list DeletionEvent)%type.
#[local] Existing Instance dlogged | 0.

(** *** What logs nothing *)

Lemma unlogged_keeps {A} (m : SM W A) : keeps (@snd W (list DeletionEvent)) (unlogged m).
Proof. intros [w l]. unfold unlogged. simpl. by destruct (m w). Qed.
Hint Resolve unlogged_keeps : handlers.
Ltac quiet := repeat (keeps_step || apply unlogged_keeps).

Lemma retry_quiet (f : SM LW (option GoError)) : keeps snd f → keeps snd (retry (C:=dlogged C) f).
Proof.
  intros Hf w. apply (retry_invariant f (λ w', w'.2 = w.2) (λ _ w', w'.2 = w.2)); [|done].
  intros w' Hw'. specialize (Hf w'). split; [|intros _]; congruence.
Qed.
Lemma RemoveDpuDeviceFinalizer_quiet dpu : keeps snd (RemoveDpuDeviceFinalizer (C:=dlogged C) dpu).
Proof. unfold RemoveDpuDeviceFinalizer. quiet. Qed.
Lemma RemoveRequestor_quiet dpu : keeps snd (RemoveRequestorFromDPUNodeMaintenance (C:=dlogged C) dpu).
Proof. unfold RemoveRequestorFromDPUNodeMaintenance. case_match; [|done]. apply retry_quiet. quiet. Qed.
Lemma RemoveArtifacts_quiet dpu : keeps snd (RemoveArtifacts (C:=dlogged C) dpu).
Proof. unfold RemoveArtifacts. quiet. Qed.
Lemma releaseGeneratedFlavorFinalizer_quiet dpu : keeps snd (releaseGeneratedFlavorFinalizer (C:=dlogged C) dpu).
Proof. unfold releaseGeneratedFlavorFinalizer. quiet. Qed.
Lemma for_each_quiet {A} (f : A → SM LW (option GoError)) xs : (∀ x, keeps snd (f x)) → keeps snd (for_each f xs).
Proof. intros Hf. induction xs as [|x xs IH]; cbn [for_each]; [by intros ?|]. apply keeps_bind; [apply Hf|]. intros [e|]; [by intros ?|done]. Qed.
Lemma deleteNodeJoinBootstrapTokens_quiet dpu : keeps snd (deleteNodeJoinBootstrapTokens (C:=dlogged C) dpu).
Proof. unfold deleteNodeJoinBootstrapTokens, with_cluster, DeleteNodeJoinBootstrapTokens. repeat (keeps_step || apply unlogged_keeps || apply for_each_quiet; intros). Qed.
Lemma deleteNode_quiet dpu : keeps snd (deleteNode (C:=dlogged C) dpu).
Proof. unfold deleteNode, with_cluster. quiet. Qed.

(** *** The objects *)

Lemma GetObjects_traces dpu l os :
  (∀ o, o ∈ os → o ∈ deleteObjects dpu) →
  traces (deletion_why dpu) l (GetObjects (C:=dlogged C) os) (λ r l', match r with
    | Ok there => ∀ o, o ∈ os → o ∈ there ∧ found l' o ∨ gone l' o
    | Err _ => True end ∧ ∀ there, r = Ok there → ∀ o, o ∈ there → o ∈ os ∧ found l' o).
Proof.
  revert l. induction os as [|o os IH]; intros l Hos; cbn [GetObjects].
  - trace. split; [intros o Ho; by apply elem_of_nil in Ho|]. intros there [= <-] o Ho. by apply elem_of_nil in Ho.
  - apply traces_bind, traces_call. intros r. split; [apply Hos; left|]. cbv beta.
    assert (∀ o', o' ∈ os → o' ∈ deleteObjects dpu) as Hos' by (intros o' Ho'; apply Hos; by right).
    destruct r as [[]|e].
    + apply traces_bind. eapply traces_mono; [by apply IH|]. intros r l' Hl [H1 H2]. cbv beta. apply traces_ret.
      assert (found l' o) as Ho by (eapply prefix_elem; [exact Hl|apply elem_of_snoc]).
      destruct r as [there|e]; [|by split]. split.
      * intros o' [->|Ho']%elem_of_cons; [left; split; [left|done]|]. destruct (H1 o' Ho') as [[? ?]|?]; [left; split; [by right|done]|by right].
      * intros ? [= <-] o' [->|Ho']%elem_of_cons; [split; [left|done]|]. destruct (H2 there eq_refl o' Ho'). split; [by right|done].
    + destruct (IsNotFound e) eqn:En; [|by trace]. eapply traces_mono; [by apply IH|]. intros r l' Hl [H1 H2].
      assert (gone l' o) as Ho by (exists e; split; [eapply prefix_elem; [exact Hl|apply elem_of_snoc]|done]).
      split; [destruct r; [|done]; intros o' [->|Ho']%elem_of_cons; [by right|by apply H1]|].
      intros there -> o' Ho'. destruct (H2 there eq_refl o' Ho'). split; [by right|done].
Qed.

Lemma DeleteObjects_traces dpu l os : (∀ o, o ∈ os → o ∈ deleteObjects dpu ∧ found l o) →
  traces (deletion_why dpu) l (for_each (DeleteObject (C:=dlogged C)) os) (λ r l', r = None → ∀ o, o ∈ os → deleted l' o).
Proof.
  intros Hos. apply (traces_for_each _ (λ o l', deleted l' o)); [intros o; apply deleted_prefix|].
  intros o l' Ho Hl. unfold DeleteObject. apply traces_bind, traces_call. intros r. destruct (Hos o Ho) as [Hin Hf].
  split; [split; [done|by eapply found_prefix]|]. cbv beta. apply traces_ret. intros Hn. exists r. split; [apply elem_of_snoc|].
  by destruct (IgnoreNotFound r).
Qed.

(** A call of a handler, with the log it leaves. *)
Lemma wpf_or_return_traces {A B} J (m : SM LW (Res A)) (onerr : GoError → B) s QR QA Qm :
  traces J (cs_ext s).2 m Qm → justified J [] (cs_ext s).2 →
  (∀ r s', cs_prov s' = cs_prov s → cs_alloc s' = cs_alloc s → justified J [] (cs_ext s').2 → (cs_ext s).2 `prefix_of` (cs_ext s').2 →
    Qm r (cs_ext s').2 → match r with Ok a => QA a s' | Err e => QR (onerr e) s' end) →
  wpf (or_return (ext m) onerr) s QR QA.
Proof.
  intros Hm Hj H. apply wpf_or_return, wp_ext. destruct s as [p al [w l]]. simpl in *. destruct (Hm w) as (k & Hk & Hjk & HQ).
  intros r w' E. rewrite E in Hk, HQ. simpl in Hk, HQ. apply (H r (mkCS p al w')); simpl; rewrite ?Hk; [done..|by apply justified_app|by exists k|done].
Qed.
Lemma wpf_check_traces {B} J (m : SM LW (option GoError)) (onerr : GoError → B) s QR QA Qm :
  traces J (cs_ext s).2 m Qm → justified J [] (cs_ext s).2 →
  (∀ r s', cs_prov s' = cs_prov s → cs_alloc s' = cs_alloc s → justified J [] (cs_ext s').2 → (cs_ext s).2 `prefix_of` (cs_ext s').2 →
    Qm r (cs_ext s').2 → match r with None => QA tt s' | Some e => QR (onerr e) s' end) →
  wpf (check (ext m) onerr) s QR QA.
Proof.
  intros Hm Hj H. apply wpf_check, wp_ext. destruct s as [p al [w l]]. simpl in *. destruct (Hm w) as (k & Hk & Hjk & HQ).
  intros r w' E. rewrite E in Hk, HQ. simpl in Hk, HQ. apply (H r (mkCS p al w')); simpl; rewrite ?Hk; [done..|by apply justified_app|by exists k|done].
Qed.

Lemma quiet_traces {A} J l (m : SM LW A) : keeps snd m → traces J l m (λ _ l', l' = l).
Proof. intros Hm w. exists []. rewrite app_nil_r. split_and!; [by apply Hm|done..]. Qed.

(** What every step keeps, after the slot was given back. *)
Definition kept dpu (s0 : CS W) s : Prop :=
  cs_prov s = Remove (dpu_UID dpu) (cs_prov s0) ∧ cs_alloc s = ReleaseDPU dpu (cs_alloc s0) ∧ justified (deletion_why dpu) [] (cs_ext s).2.

Lemma wpf_quiet {B} dpu (s0 : CS W) (m : SM LW (option GoError)) (onerr : GoError → B) s QR QA :
  keeps snd m → kept dpu s0 s → (∀ e s', kept dpu s0 s' → QR (onerr e) s') →
  (∀ s', kept dpu s0 s' → (cs_ext s').2 = (cs_ext s).2 → QA tt s') → wpf (check (ext m) onerr) s QR QA.
Proof.
  intros Hm (Hp & Ha & Hj) HR HA. eapply wpf_check_traces; [by apply quiet_traces|exact Hj|].
  intros [e|] s' Hp' Ha' Hj' _ Hl; [apply HR|apply HA; [|done]]; (split; [congruence|]; split; [congruence|done]).
Qed.

(** C33. A pass over a DPU in Deleting gives its installation slot back and takes it
    out of the allocator's cache on every path, errors included, and never changes the
    phase.  Of the certificates, secrets, requests and the generated flavor it must clean
    up it deletes exactly those the API says are there, and it lets go of the DPU, by
    writing it without its finalizer, only after the API said of each of them that it is
    not there.  A pass without an error has done one of the two: let go, or found an
    object that is left and deleted all it found.  An error leaves the DPU as it was,
    unless it is the error of that final write. *)
Theorem Deleting_spec env dpu (s : CS W) :
  let r := Deleting (C:=dlogged C) env dpu (mkCS (cs_prov s) (cs_alloc s) (cs_ext s, [])) in
  let log := (cs_ext r.2).2 in
  cs_prov r.2 = Remove (dpu_UID dpu) (cs_prov s) ∧ cs_alloc r.2 = ReleaseDPU dpu (cs_alloc s) ∧
  st_Phase r.1.1.1 = st_Phase (dpu_Status dpu) ∧ justified (deletion_why dpu) [] log ∧
  (r.1.2 = dpu ∨ r.1.2 = let_go dpu ∧ ∃ e, DUpdate (let_go dpu) e ∈ log) ∧
  (r.1.1.2 = None →
    DUpdate (let_go dpu) None ∈ log ∧ r.1.2 = let_go dpu ∨
    (∃ o, found log o) ∧ r.1.2 = dpu ∧ ∀ o, o ∈ deleteObjects dpu → deleted log o ∨ gone log o).
Proof.
  cbn zeta. set (s1 := mkCS _ _ _). wp_start (Deleting (C:=dlogged C) env dpu s1). unfold Deleting.
  set (Q := λ (r : HResult * DPU) (s' : CS LW), _).
  assert (∀ reason pre err s', kept dpu s s' → Q (fail_with (env_now env) (dpu_Status dpu) DPUCondDeleting reason (wrapf pre err), dpu) s') as Hfail
    by (intros ???? (? & ? & ?); unfold Q; simpl; split_and!; auto; done).
  apply wp_run, wpf_bind, wpf_lift, wp_prov_Remove, wpf_bind, wpf_lift, wp_alloc_ReleaseDPU. cbn [cs_prov cs_alloc cs_ext s1].
  apply wpf_bind, (wpf_quiet dpu s); [apply RemoveDpuDeviceFinalizer_quiet|by split_and!|intros; by apply Hfail|intros s2 H2 _].
  apply wpf_bind, (wpf_quiet dpu s); [apply RemoveRequestor_quiet|done|intros; by apply Hfail|intros s3 H3 _].
  apply wpf_bind, (wpf_quiet dpu s); [apply RemoveArtifacts_quiet|done|intros; by apply Hfail|intros s4 H4 _].
  apply wpf_bind. eapply wpf_mono with (QR := Q) (QA := λ _ s', kept dpu s s').
  { destruct (template_mode dpu); [|by apply wpf_ret].
    apply (wpf_quiet dpu s); [apply releaseGeneratedFlavorFinalizer_quiet|done|intros; by apply Hfail|by intros]. }
  { done. }
  intros _ s5 (Hp5 & Ha5 & Hj5). apply wpf_bind. eapply wpf_or_return_traces; [by apply (GetObjects_traces dpu _ (deleteObjects dpu))|done|].
  intros [objects|e] s6 Hp6 Ha6 Hj6 _ [Hall Hthere]; [|apply Hfail; split_and!; [congruence..|done]].
  specialize (Hthere objects eq_refl). apply wpf_bind. eapply wpf_check_traces; [by apply (DeleteObjects_traces dpu)|done|].
  intros [e|] s7 Hp7 Ha7 Hj7 Hl7 Hdel; [apply Hfail; split_and!; [congruence..|done]|]. specialize (Hdel eq_refl).
  assert (kept dpu s s7) as H7 by (split_and!; [congruence..|done]).
  apply wpf_bind, (wpf_quiet dpu s); [apply unlogged_keeps|done|intros; by apply Hfail|intros s8 H8 E8].
  apply wpf_bind, (wpf_quiet dpu s); [apply deleteNodeJoinBootstrapTokens_quiet|done|intros; by apply Hfail|intros s9 H9 E9].
  apply wpf_bind, (wpf_quiet dpu s); [apply deleteNode_quiet|done|intros; by apply Hfail|intros s10 H10 E10].
  rewrite E9, E8 in E10. rewrite <- E10 in Hl7, Hdel. clear s7 s8 s9 Hp7 Ha7 Hj7 H7 H8 H9 E8 E9 E10.
  apply wpf_bind, wpf_return_if; intros _; [by apply Hfail|]. case_bool_decide as Hlen.
  - apply nil_length_inv in Hlen as ->. destruct H10 as (Hp & Ha & Hj).
    apply wpf_bind. eapply wpf_check_traces with (Qm := λ r l', DUpdate (let_go dpu) r ∈ l'); [|done|].
    { apply traces_call. intros r. split; [|apply elem_of_snoc]. split; [done|]. intros o Ho. eapply gone_prefix; [done|].
      destruct (Hall o Ho) as [[Hin _]|?]; [by apply elem_of_nil in Hin|done]. }
    intros r s11 Hp11 Ha11 Hj11 Hl11 Hup. fold (let_go dpu). assert (cs_prov s11 = Remove (dpu_UID dpu) (cs_prov s)) by congruence.
    assert (cs_alloc s11 = ReleaseDPU dpu (cs_alloc s)) by congruence.
    destruct r as [e|]; [|apply wpf_ret]; unfold Q; simpl; split_and!; auto; try done; right; split; [done|by eexists|done|by eexists].
  - apply wpf_ret. destruct H10 as (Hp & Ha & Hj). unfold Q; simpl; split_and!; auto. intros _. right. split_and!; [|done|].
    + destruct objects as [|o objects]; [done|]. exists o. destruct (Hthere o) as [_ Hf]; [left|by eapply found_prefix].
    + intros o Ho. destruct (Hall o Ho) as [[Hin _]|Hg]; [left; by apply Hdel|right; by eapply gone_prefix].
Qed.
End Properties.

Definition example_deleting : DPU := example_in DPUDeleting DPUReady [].

(** Nothing is left of the DPU: the pass looks for four objects and lets go. *)
Lemma Deleting_spec_witness :
  let s := example_state [example_deleting] in
  let r := @Deleting fake_codec finalizer_list _ (dlogged fake_client) example_env example_deleting (mkCS (cs_prov s) (cs_alloc s) (cs_ext s, [])) in
  r.1.1.2 = None ∧ length (cs_ext r.2).2 = 5 ∧ (DPUFinalizer ∉ dpu_Finalizers r.1.2) ∧
  justified (deletion_why (FA:=finalizer_list) example_deleting) [] (cs_ext r.2).2.
Proof.
  cbv zeta. split; [vm_compute; reflexivity|]. split; [vm_compute; reflexivity|]. split; [intros H; vm_compute in H; inversion H|].
  exact (proj1 (proj2 (proj2 (proj2 (Deleting_spec (C:=fake_client) example_env example_deleting (example_state [example_deleting])))))).
Defined.
