(* ===== verification/DPUController.v ===== *)
(** The DPU controller (dpu/dpu_controller.go): one reconcile of a DPU, from the
    claims on the objects it references, through the phase handler of its
    current phase, to the status that is written back, and the filters of the
    events that start a reconcile.  The handlers are those of the host agent
    interface. *)

From S2P Require Import Prelude.
From S2P Require Import Meta.
From S2P Require Import Conditions.
From S2P Require Import DPUTypes.
From S2P Require Import DPUConditions.
From S2P Require Import ProvisioningMap.
From S2P Require Import Kubernetes.
From S2P Require Import FakeClient.
From S2P Require Import Allocator.
From S2P Require Import NVConfig.
From S2P Require Import Maintenance.
From S2P Require Import ClusterMetadata.
From S2P Require Import ControllerContext.
From S2P Require Import ExampleWorld.
From S2P Require Import Rebooting.
From S2P Require Import InstallPhases.
From S2P Require Import NodeEffectPhases.
From S2P Require Import ReadyPhases.
From S2P Require Import PrepareBFB.
From S2P Require Import DeletingPhase.


(** ** Status updates *)

(** [StayReadyWithoutRequeue] *)
Definition StayReadyWithoutRequeue (phase next : DPUPhase) : bool :=
  bool_decide (phase = DPUReady) && bool_decide (next = DPUReady).

Definition setDPUFlavorRenderedCondition (now : Time) (dpu : DPU) (state : DPUStatus) : DPUStatus :=
  if negb (template_mode dpu) then state
  else match dpu_Annotations dpu !! RenderFailedReasonAnnotation with
       | Some reason =>
           let message := deref (dpu_Annotations dpu !! RenderFailedMessageAnnotation) "" in
           set_cond now state (NewDPUCondition DPUCondDPUFlavorRendered (Some (errorf message)) reason message)
       | None => set_ok now state DPUCondDPUFlavorRendered "" ""
       end.

Definition setErrorPhaseFromCondition (dpu : DPU) (state : DPUStatus) : DPUStatus :=
  if deleting dpu then state
  else match cond_of state DPUCondError with
       | Some condition => if status_is ConditionTrue condition then with_Phase DPUError state else state
       | None => state
       end.

(** [UpdateDPUStatus]: the DPU with its new status, and whether the phase changed. *)
Definition UpdateDPUStatus (dpu : DPU) (next : DPUStatus) : DPU * bool :=
  let before := dpu_Status dpu in
  if decide (before = next) then (dpu, false)
  else
    let phaseChanged := negb (bool_decide (st_Phase before = st_Phase next)) in
    let next := if phaseChanged && negb (bool_decide (st_Phase before = DPUPhaseUnset))
                then with_PreviousPhase (st_Phase before) next else next in
    (with_Status next dpu, phaseChanged).

(** ** Event filters *)

(** [nodeReadyStatus]; no condition is no status. *)
Definition nodeReadyStatus (node : Node) : option ConditionStatus :=
  (λ ic, ic.2.2) <$> find_idx (λ c, bool_decide (c.1 = "Ready")) (no_Conditions node).

(** An object of the watch is a node and its resource version, or nothing. *)
Definition NodeChangeAffectsDPU (oldNode newNode : option (string * Node)) : bool :=
  match oldNode, newNode with
  | Some (oldVersion, oldN), Some (newVersion, newN) =>
      let annotation n key := deref (no_Annotations n !! key) "" in
      bool_decide (oldVersion = newVersion) ||
      negb (bool_decide (nodeReadyStatus oldN = nodeReadyStatus newN)) ||
      negb (bool_decide (no_Addresses oldN = no_Addresses newN)) ||
      negb (bool_decide (annotation oldN LastAppliedLabelsOnDPUKey = annotation newN LastAppliedLabelsOnDPUKey)) ||
      negb (bool_decide (annotation oldN LastAppliedAnnotationsOnDPUKey = annotation newN LastAppliedAnnotationsOnDPUKey))
  | _, _ => true
  end.

Definition in_cluster (cluster : NamespacedName) (dpu : DPU) : bool :=
  bool_decide (kc_Name (sp_Cluster (dpu_Spec dpu)) = nn_name cluster) &&
  bool_decide (kc_Namespace (sp_Cluster (dpu_Spec dpu)) = nn_namespace cluster).

(** The stubs carry a name and a namespace only. *)
Definition ReadyDPUsForCluster (dpus : list DPU) (cluster : NamespacedName) : list NamespacedName :=
  dpu_key <$> filter (λ dpu, st_Phase (dpu_Status dpu) = DPUReady ∧ in_cluster cluster dpu = true) dpus.

Definition DPUsForClusterNode (dpus : list DPU) (cluster : NamespacedName) (nodeName : string) : list NamespacedName :=
  dpu_key <$> filter (λ dpu, st_Phase (dpu_Status dpu) = DPUReady ∧ dpu_Name dpu = nodeName ∧ in_cluster cluster dpu = true) dpus.

(** [nonInitializedDPU]: a Ready cluster wakes the DPUs without one; [listed] is
    the answer to the List call, whose failure is logged. *)
Definition nonInitializedDPU (dc : DPUCluster) (listed : Res (list DPU)) : list NamespacedName :=
  if negb (bool_decide (dc_Phase dc = PhaseReady)) then []
  else match listed with
       | Err _ => []
       | Ok dpus => dpu_key <$> filter (λ dpu, kc_Name (sp_Cluster (dpu_Spec dpu)) = "") dpus
       end.

(** ** Reconcile *)

Section Reconcile.
Context {API : MetaAPI} {T : TextAPI} {K : Codec} {R : MapRange} {S : SelectorAPI} {F : FinalizerAPI}.
Context {W : Type} {C : Client W}.

Definition addDpuDeviceFinalizer (dpu : DPU) : SM W (option GoError) :=
  let name := sp_DPUDeviceName (dpu_Spec dpu) in
  r ← getDPUDevice (mkNN (dpu_Namespace dpu) name);
  match r with
  | Err err => mret (if IsNotFound err then None else Some (wrapf ("failed to get DpuDevice " +:+ name +:+ ": ") err))
  | Ok dpuDevice =>
      if negb (ContainsFinalizer (dd_Finalizers dpuDevice) DPUDeviceFinalizer) then
        e ← updateDPUDevice (with_dd_Finalizers (AddFinalizer (dd_Finalizers dpuDevice) DPUDeviceFinalizer) dpuDevice);
        mret (wrapf "failed to add DpuDevice finalizer: " <$> e)
      else mret None
  end.

(** [SetControllerReference] fails when another object controls the flavor. *)
Definition SetControllerReference (dpu : DPU) (flavor : DPUFlavor) : Res (option string) :=
  match fl_ControllerUID flavor with
  | Some uid => if decide (uid = dpu_UID dpu) then Ok (Some uid)
                else Err (errorf ("Object " +:+ fl_Namespace flavor +:+ "/" +:+ fl_Name flavor +:+ " is already owned by another controller"))
  | None => Ok (Some (dpu_UID dpu))
  end.

Definition adoptGeneratedFlavor (dpu : DPU) : SM W (option GoError) :=
  let name := sp_DPUFlavor (dpu_Spec dpu) in
  if negb (template_mode dpu) then mret None
  else
    r ← getDPUFlavor (mkNN (dpu_Namespace dpu) name);
    match r with
    | Err err => mret (if IsNotFound err then None else Some (wrapf ("failed to get generated DPUFlavor " +:+ name +:+ ": ") err))
    | Ok flavor =>
        if negb (bool_decide (fl_Labels flavor !! GeneratedByLabel = Some GeneratedByDPUFlavorTemplate)) then mret None
        else if bool_decide (fl_ControllerUID flavor = Some (dpu_UID dpu)) &&
                ContainsFinalizer (fl_Finalizers flavor) GeneratedDPUFlavorFinalizer then mret None
        else match SetControllerReference dpu flavor with
             | Err err => mret (Some (wrapf ("failed to set controller reference on generated DPUFlavor " +:+ name +:+ ": ") err))
             | Ok ctrl =>
                 e ← patchDPUFlavor flavor (with_fl_meta (AddFinalizer (fl_Finalizers flavor) GeneratedDPUFlavorFinalizer) ctrl flavor);
                 mret (wrapf ("failed to adopt generated DPUFlavor " +:+ name +:+ ": ") <$> e)
             end
    end.

Definition claimReferencedResources (dpu : DPU) : SM W (option GoError) :=
  e ← addDpuDeviceFinalizer dpu;
  match e with
  | Some err => mret (Some (wrapf "failed to add DpuDevice finalizer: " err))
  | None =>
      e ← adoptGeneratedFlavor dpu;
      mret (wrapf "failed to adopt generated DPUFlavor: " <$> e)
  end.

Definition ensureInPlaceAgentRole (dpu : DPU) : SM W (option GoError) :=
  if deleting dpu || negb (reconfigInProgress dpu) then mret None
  else
    let name := sp_DPUDeviceName (dpu_Spec dpu) in
    r ← getDPUDevice (mkNN (dpu_Namespace dpu) name);
    match r with
    | Err err => mret (Some (wrapf ("get DPUDevice " +:+ name +:+ " for in-place agent RBAC: ") err))
    | Ok device =>
        e ← ensureDPUAgentRole dpu device;
        mret (wrapf "ensure in-place agent RBAC: " <$> e)
    end.

(** [patchInPlaceJump]: on failure the status of the DPU is that of [base]. *)
Definition patchInPlaceJump (base dpu : DPU) : SM W (option GoError * DPU) :=
  let dpu := with_Status (with_ObservedGeneration (dpu_Generation dpu) (dpu_Status dpu)) dpu in
  e ← patchDPUStatus base dpu;
  mret (match e with
        | Some err => (Some (wrapf "patch in-place reconfig jump: " err), with_Status (dpu_Status base) dpu)
        | None => (None, dpu)
        end).

(** The handlers of [NewDPUReconciler] for the host agent interface; the result
    carries the DPU, which only two of them change. *)
Definition pure_handler (r : HResult) (dpu : DPU) : SM (CS W) (HResult * DPU) := mret (r, dpu).
Definition plain_handler (h : SM (CS W) HResult) (dpu : DPU) : SM (CS W) (HResult * DPU) :=
  r ← h; mret (r, dpu).

Definition handler (env : Env) (dpu : DPU) : option (SM (CS W) (HResult * DPU)) :=
  match st_Phase (dpu_Status dpu) with
  | DPUPhaseUnset | DPUInitializing => Some (Initializing env dpu)
  | DPUPending => Some (plain_handler (Pending env dpu) dpu)
  | DPUNodeEffect => Some (plain_handler (NodeEffectHandler env dpu) dpu)
  | DPUPrepareBFB => Some (plain_handler (PrepareBFB env dpu) dpu)
  | DPUConfigPhase => Some (pure_handler (DPUConfig env dpu) dpu)
  | DPUClusterConfig => Some (plain_handler (ClusterConfig env dpu) dpu)
  | DPUServiceReadiness => Some (plain_handler (ServiceReadiness env dpu) dpu)
  | DPUNodeEffectRemoval => Some (plain_handler (NodeEffectRemoval env dpu) dpu)
  | DPUReady => Some (plain_handler (Ready env dpu) dpu)
  | DPUDeleting => Some (Deleting env dpu)
  | DPUError => Some (plain_handler (Error env dpu) dpu)
  | DPUInitializeInterface => Some (pure_handler (InitializeInterface env dpu) dpu)
  | DPUConfigFWParameters => Some (plain_handler (ConfigFWParameters env dpu) dpu)
  | DPUHostNetworkConfiguration => Some (pure_handler (SetupNetwork dpu) dpu)
  | DPUOSInstalling => Some (plain_handler (Installing env dpu) dpu)
  | DPURebooting => Some (plain_handler (Rebooting env dpu) dpu)
  | DPUUpdateFirmware | DPUPerformArmForceRestart | DPUPhaseOther _ => None
  end.

(** What the reconcile asks of the queue. *)
Inductive Requeue := RequeueAfterInterval | NoRequeue.
Definition ReconcileResult : Type := Requeue * option GoError.

(** The status that follows a handler or a jump, before it is stored. *)
Definition next_status (env : Env) (dpu : DPU) (nextState : DPUStatus) : DPUStatus :=
  let nextState := setDPUFlavorRenderedCondition (env_now env) dpu nextState in
  let nextState := setErrorPhaseFromCondition dpu nextState in
  with_DeploymentMode (match env_config env with
                       | Some cfg => cfg_DeploymentMode cfg
                       | None => op_DeploymentMode (env_options env)
                       end) nextState.

(** The end of the reconcile, from the phase it handled and the one it reached. *)
Definition conclude (phase next : DPUPhase) (err : option GoError) : ReconcileResult :=
  if StayReadyWithoutRequeue phase next then
    match err with Some _ => (RequeueAfterInterval, None) | None => (NoRequeue, None) end
  else if negb (bool_decide (next = DPUError)) then (RequeueAfterInterval, None)
  else (NoRequeue, err).

(** From the jump or the handler to the result.  The DPU that comes out is the
    one the deferred patch writes, and the one it writes against: a jump is
    written at once and becomes the new base. *)
Definition reconcile_phase (env : Env) (base dpu : DPU) (h : SM (CS W) (HResult * DPU))
    : SM (CS W) (ReconcileResult * DPU * DPU) :=
  let phase := st_Phase (dpu_Status dpu) in
  match StartInPlaceReconfig (env_now env) dpu with
  | Some jumped =>
      let nextState := next_status env dpu jumped in
      let dpu' := (UpdateDPUStatus dpu nextState).1 in
      '(e, dpu') ← ext (patchInPlaceJump dpu dpu');
      mret (match e with
            | Some err => (((NoRequeue, Some err), dpu'), base)
            | None => ((conclude phase (st_Phase nextState) None, dpu'), dpu')
            end)
  | None =>
      '((nextState, err), dpu) ← h;
      if match err with Some e => is_panic e | None => false end then mret (((NoRequeue, err), dpu), base)
      else
        let nextState := next_status env dpu nextState in
        let dpu' := (UpdateDPUStatus dpu nextState).1 in
        mret ((conclude phase (st_Phase nextState) err, dpu'), base)
  end.

(** The body after the DPU has been read, up to the deferred patch. *)
Definition reconcile_dpu (env : Env) (base : DPU) : SM (CS W) (ReconcileResult * DPU * DPU) := run (
  let dpu := base in
  let stop e := ((((NoRequeue, Some e), dpu), base) : ReconcileResult * DPU * DPU) in
  _ ← return_if (negb (ContainsFinalizer (dpu_Finalizers dpu) DPUFinalizer) && negb (deleting dpu))
        (((NoRequeue, None), with_Finalizers (AddFinalizer (dpu_Finalizers dpu) DPUFinalizer) dpu), base);
  _ ← (if deleting dpu then mret tt else check (ext (claimReferencedResources dpu)) stop);
  _ ← lift (alloc_SaveAssignedDPU dpu);
  '(e, dpu) ← lift (ext (UpdateDPUNodeMaintenanceRequestors dpu));
  _ ← check (mret e) (λ err, (((NoRequeue, Some (wrapf "failed to update DPUNodeMaintenanceRequestors: " err)), dpu), base));
  match handler env dpu with
  | None => return_early (((NoRequeue, Some (errorf ("unsupported phase " +:+ quoted (phase_string (st_Phase (dpu_Status dpu)))))), dpu), base)
  | Some _ =>
      cfg ← lift (ext GetDPFOperatorConfig);
      config ← match cfg with
               | Ok c => mret (Some c)
               | Err err =>
                   if bool_decide (err_kind err = KNoOperatorConfig) then mret None
                   else return_early (((NoRequeue, Some (wrapf "failed to read DPFOperatorConfig: " err)), dpu), base)
               end;
      let env := mkEnv (env_now env) (env_options env) config (env_version env) in
      _ ← check (ext (ensureInPlaceAgentRole dpu)) (λ err, (((NoRequeue, Some err), dpu), base));
      match handler env dpu with
      | None => return_early (((NoRequeue, None), dpu), base)
      | Some h => lift (reconcile_phase env base dpu h)
      end
  end).

(** [Reconcile] of a DPU: the deferred patch runs on every path after the read,
    and its error is added to the one that is returned. *)
Definition Reconcile (env : Env) (key : NamespacedName) : SM (CS W) ReconcileResult :=
  got ← ext (getDPU key);
  match got with
  | Err err => mret (if IsNotFound err then (NoRequeue, None)
                     else (NoRequeue, Some (wrapf "failed to get DPU " err)))
  | Ok base =>
      '((result, dpu), patchBase) ← reconcile_dpu env base;
      e ← ext (patchDPU patchBase dpu);
      mret (match e with
            | None => result
            | Some err => (result.1, Some (match result.2 with
                                           | None => err
                                           | Some err0 => errorf ("[" +:+ err_msg err0 +:+ ", " +:+ err_msg err +:+ "]")
                                           end))
            end)
  end.
End Reconcile.

(** ** Properties *)

(** The filter on the events of the nodes of the DPU clusters is sound: a
    change of a node that it drops cannot change what the Ready phase concludes
    from that node, whatever else has happened in between. (An annotation that is
    absent and one that is empty are the same to the filter and not to the phase;
    the controller itself never writes an empty one.) *)
Theorem NodeChangeAffectsDPU_sound {API : MetaAPI} {T : TextAPI} {K : Codec} {W} {C : Client W}
    v1 v2 old new env dpu (s1 s2 : CS W) :
  NodeChangeAffectsDPU (Some (v1, old)) (Some (v2, new)) = false → no_Name old = no_Name new →
  (∀ n key, n ∈ [old; new] → key ∈ [LastAppliedLabelsOnDPUKey; LastAppliedAnnotationsOnDPUKey] →
     no_Annotations n !! key ≠ Some "") →
  (ext (GetNodeFromDPUCluster dpu) s1).1 = Ok old → (ext (GetNodeFromDPUCluster dpu) s2).1 = Ok new →
  (Ready env dpu s1).1 = (Ready env dpu s2).1.
Proof.
  intros Hf Hname Hne H1 H2. simpl in Hf.
  repeat match type of Hf with _ || _ = false => apply orb_false_elim in Hf as [Hf ?] end.
  repeat match goal with H : negb _ = false |- _ => apply negb_false_iff, bool_decide_eq_true_1 in H end.
  assert (∀ key, key ∈ [LastAppliedLabelsOnDPUKey; LastAppliedAnnotationsOnDPUKey] →
    deref (no_Annotations old !! key) "" = deref (no_Annotations new !! key) "" →
    last_applied key (no_Annotations old) = last_applied key (no_Annotations new)) as Hann.
  { intros key Hk. pose proof (Hne old key ltac:(set_solver) Hk). pose proof (Hne new key ltac:(set_solver) Hk).
    unfold last_applied. destruct (no_Annotations old !! key), (no_Annotations new !! key); simpl; intros; simplify_eq; done. }
  assert (IsNodeReady old = IsNodeReady new) as Hready.
  { match goal with H : nodeReadyStatus _ = _ |- _ => revert H end. unfold nodeReadyStatus, IsNodeReady.
    destruct (find_idx _ (no_Conditions old)) as [[? [? ?]]|], (find_idx _ (no_Conditions new)) as [[? [? ?]]|];
      simpl; intros; simplify_eq; done. }
  unfold Ready, reconcileReadyClusterMetadata, metadata_behind, NeedUpdateLabelsOnNodeInDPUCluster,
    NeedUpdateAnnotationsOnNodeInDPUCluster. unfold_monad.
  destruct (ext (GetNodeFromDPUCluster dpu) s1) as [r1 w1] eqn:E1, (ext (GetNodeFromDPUCluster dpu) s2) as [r2 w2] eqn:E2.
  simpl in H1, H2. subst r1 r2. destruct (deleting dpu); [done|].
  rewrite (Hann LastAppliedLabelsOnDPUKey), (Hann LastAppliedAnnotationsOnDPUKey) by (done || set_solver).
  rewrite Hready, Hname. repeat match goal with H : no_Addresses _ = _ |- _ => rewrite H end.
  destruct (IsNodeReady new); simpl; [|done]. destruct (option_bind _ _ _ _) as [[]|]; [done|].
  destruct (reconfigInProgress dpu); simpl; [done|].
  destruct (last_applied LastAppliedLabelsOnDPUKey (no_Annotations new)); simpl; [|done].
  by destruct (last_applied LastAppliedAnnotationsOnDPUKey (no_Annotations new)).
Qed.

Section Properties.
Context {API : MetaAPI} {T : TextAPI} {K : Codec} {R : MapRange} {S : SelectorAPI} {F : FinalizerAPI}.
Context {W : Type} {C : Client W}.
Implicit Types (s : CS W) (dpu : DPU).

(** The phases whose work a deletion does not wait for. *)
Definition interruptible (phase : DPUPhase) : bool :=
  match phase with
  | DPUOSInstalling | DPUPrepareBFB | DPUDeleting
  | DPUUpdateFirmware | DPUPerformArmForceRestart | DPUPhaseOther _ => false
  | _ => true
  end.

(** In every phase but Prepare BFB, OS Installing and Deleting itself, the
    handler of a DPU that is being deleted does nothing but send it to Deleting:
    it calls no service, takes or frees no slot and changes nothing else of the
    status. *)
Theorem deletion_is_prompt env dpu s h :
  deleting dpu = true → interruptible (st_Phase (dpu_Status dpu)) = true → handler env dpu = Some h →
  h s = (((with_Phase DPUDeleting (dpu_Status dpu), None), dpu), s).
Proof.
  intros Hdel Hi Hh. unfold handler in Hh. destruct (st_Phase (dpu_Status dpu)); try done; simplify_eq;
    unfold pure_handler, plain_handler, Initializing, Pending, NodeEffectHandler, DPUConfig, ClusterConfig, ServiceReadiness,
      NodeEffectRemoval, Ready, Error, InitializeInterface, ConfigFWParameters, SetupNetwork, Rebooting, StartRebooting;
    unfold_monad; by rewrite Hdel.
Qed.

(** ** Slots *)

Hint Resolve keeps_prov_ext : handlers.

Lemma keeps_SaveAssigned dpu : keeps (@cs_prov W) (alloc_SaveAssignedDPU dpu).
Proof. done. Qed.

(** What the handler of a phase does to the provisioning map. *)
Definition slots_after (dpu : DPU) (p p' : DPUInProvisioningMap) : Prop :=
  p' = p ∨
  match st_Phase (dpu_Status dpu) with
  | DPUPending => p' = (CanProceed (dpu_UID dpu) p).2
  | DPUOSInstalling | DPUError | DPUDeleting => p' = Remove (dpu_UID dpu) p
  | _ => False
  end.

Lemma handler_slots env dpu s h :
  handler env dpu = Some h → slots_after dpu (cs_prov s) (cs_prov (h s).2).
Proof.
  unfold handler, slots_after. destruct (st_Phase (dpu_Status dpu)) eqn:Hp; intros [= <-];
    try (left; unfold pure_handler, plain_handler, Initializing, NodeEffectHandler, ClusterConfig, ServiceReadiness, PrepareBFB, prepareBF3BFB, prepareBF4ISO,
      NodeEffectRemoval, Ready, ConfigFWParameters, Rebooting, StartRebooting, upgrade_hold, holdForUpgrade, check_host_node,
      join_maintenance, reconcileReadyClusterMetadata, metadata_behind;
      match goal with |- cs_prov (?m ?s).2 = _ => revert s; change (keeps (@cs_prov W) m) end; repeat keeps_step; done).
  all: match goal with |- cs_prov (?m ?s).2 = _ ∨ _ => wp_start (m s) end;
    unfold plain_handler, Pending, pending_image, Installing, Error, Deleting; repeat wp_step; simpl; auto.
Qed.

Lemma UpdateRequestors_same dpu w :
  let d := (UpdateDPUNodeMaintenanceRequestors dpu w).1.2 in dpu_Status d = dpu_Status dpu ∧ dpu_UID d = dpu_UID dpu.
Proof. unfold UpdateDPUNodeMaintenanceRequestors. by repeat case_match. Qed.

Lemma reconcile_phase_slots env base dpu s h :
  handler env dpu = Some h → slots_after dpu (cs_prov s) (cs_prov (reconcile_phase env base dpu h s).2).
Proof.
  intros Hh. unfold reconcile_phase. destruct (StartInPlaceReconfig _ dpu).
  - left. match goal with |- cs_prov (?m ?s).2 = _ => revert s; change (keeps (@cs_prov W) m) end. repeat keeps_step.
  - pose proof (handler_slots env dpu s h Hh) as Hs. unfold mbind, SM_bind. destruct (h s) as [[[st e] d] s'].
    by case_match.
Qed.

Lemma reconcile_slots_after env base s : slots_after base (cs_prov s) (cs_prov (reconcile_dpu env base s).2).
Proof.
  wp_start (reconcile_dpu env base s). unfold reconcile_dpu.
  repeat wp_step; simpl; try (by left);
    (match goal with H : UpdateDPUNodeMaintenanceRequestors base ?w = _ |- _ =>
       pose proof (UpdateRequestors_same base w) as [Est Euid]; rewrite H in Est, Euid; simpl in Est, Euid end);
    unfold slots_after; rewrite <- Est, <- Euid;
    match goal with |- wp (reconcile_phase ?e ?b ?d ?h) ?s0 _ => exact (reconcile_phase_slots e b d s0 h ltac:(eassumption)) end.
Qed.

(** C32. Whatever happens in it, a reconcile touches only the slot of its own DPU:
    in Pending it may take one, with the admission check of the provisioning map;
    in OS Installing, Error and Deleting it may give it back; in every other phase
    the map is unchanged. The map stays within its limit. *)
Theorem reconcile_slots env base s :
  let p := cs_prov s in
  let p' := cs_prov (reconcile_dpu env base s).2 in
  slots_after base p p' ∧
  (∀ uid, uid ≠ dpu_UID base → uid ∈ pm_dpus p' ↔ uid ∈ pm_dpus p) ∧
  (is_int32 (pm_max p) → within_limit p → within_limit p').
Proof.
  cbn zeta. set (p' := cs_prov (reconcile_dpu env base s).2). pose proof (reconcile_slots_after env base s : slots_after base (cs_prov s) p') as Hs.
  split; [done|]. unfold slots_after in Hs.
  assert (p' = cs_prov s ∨ p' = (CanProceed (dpu_UID base) (cs_prov s)).2 ∨ p' = Remove (dpu_UID base) (cs_prov s)) as [->|[->| ->]]
    by (destruct Hs as [Hs|Hs]; [auto|repeat case_match; auto; done]).
  - by split.
  - split; [|by intros; apply CanProceed_within]. intros uid Hne. unfold CanProceed. repeat case_match; simpl; set_solver.
  - split; [simpl; set_solver|]. intros _. unfold within_limit. pose proof (Remove_size (dpu_UID base) (cs_prov s)). simpl in *. lia.
Qed.

(** *** A restart of the controller *)

(** A reconcile of a DPU, in whatever world and with whatever the allocator knows. *)
Record Pass := mkPass { pa_env : Env; pa_dpu : DPU; pa_alloc : allocator; pa_world : W }.
Definition slots_pass (p : DPUInProvisioningMap) (x : Pass) : DPUInProvisioningMap :=
  cs_prov (reconcile_dpu (pa_env x) (pa_dpu x) (mkCS p (pa_alloc x) (pa_world x))).2.
Definition slots_run (p : DPUInProvisioningMap) (passes : list Pass) : DPUInProvisioningMap := foldl slots_pass p passes.
Definition releasing : list DPUPhase := [DPUOSInstalling; DPUError; DPUDeleting].

Lemma slots_pass_after p x : slots_after (pa_dpu x) p (slots_pass p x).
Proof. apply (reconcile_slots_after (pa_env x) (pa_dpu x) (mkCS p (pa_alloc x) (pa_world x))). Qed.

Lemma slots_pass_limit p x : is_int32 (pm_max p) → within_limit p → pm_max (slots_pass p x) = pm_max p ∧ within_limit (slots_pass p x).
Proof.
  intros Hm Hp. destruct (slots_pass_after p x) as [->|H]; [done|].
  assert (slots_pass p x = (CanProceed (dpu_UID (pa_dpu x)) p).2 ∨ slots_pass p x = Remove (dpu_UID (pa_dpu x)) p) as [->| ->]
    by (repeat case_match; auto; done).
  - split; [unfold CanProceed; by repeat case_match|by apply CanProceed_within].
  - split; [done|]. unfold within_limit. pose proof (Remove_size (dpu_UID (pa_dpu x)) p). unfold within_limit in Hp. simpl in *. lia.
Qed.

Lemma slots_pass_keeps p x uid :
  (dpu_UID (pa_dpu x) = uid → st_Phase (dpu_Status (pa_dpu x)) ∉ releasing) → uid ∈ pm_dpus p → uid ∈ pm_dpus (slots_pass p x).
Proof.
  intros Hn Hu. destruct (slots_pass_after p x) as [->|H]; [done|].
  assert (slots_pass p x = (CanProceed (dpu_UID (pa_dpu x)) p).2 ∨
    slots_pass p x = Remove (dpu_UID (pa_dpu x)) p ∧ st_Phase (dpu_Status (pa_dpu x)) ∈ releasing) as [->|[-> Hr]].
  { unfold releasing. repeat case_match; try done; [by left|right; split; [done|set_solver]..]. }
  - unfold CanProceed. repeat case_match; simpl; set_solver.
  - simpl. apply elem_of_difference. split; [done|]. intros ->%elem_of_singleton. by apply Hn.
Qed.

Lemma Initialize_counts dpus c d : d ∈ dpus → IsDPUInProvisioningPhase (st_Phase (dpu_Status d)) = true →
  dpu_UID d ∈ pm_dpus (Initialize (Ok dpus) c).2.
Proof.
  intros Hd Hp. simpl. generalize (∅ : gset string). induction dpus as [|e dpus IH]; intros X; [by apply elem_of_nil in Hd|]. cbn [foldl].
  apply elem_of_cons in Hd as [<-|Hd]; [|by apply IH]. rewrite Hp. clear IH.
  assert (dpu_UID d ∈ {[dpu_UID d]} ∪ X) as HX by set_solver. revert HX. generalize ({[dpu_UID d]} ∪ X). clear X.
  induction dpus as [|e dpus IH]; intros X HX; [done|]. cbn [foldl]. apply IH. case_match; set_solver.
Qed.

(** C39. A controller that starts counts every DPU in Node Effect as being installed,
    in-place rounds included, and such a DPU takes up its slot until a pass over it in
    OS Installing, Error or Deleting: no other pass over any DPU, in whatever order and
    whatever the API answers, gives the slot back.  With as many such DPUs as the limit
    allows, no other DPU can be installed.  (A DPU on an in-place round goes back to
    Ready without one of these phases: the witness.) *)
Theorem restart_holds_slots max dpus passes (held : list DPU) :
  let started := (Initialize (Ok dpus) (NewDPUInProvisioningMap max)).2 in
  let p := slots_run started passes in
  (∀ d, d ∈ held → d ∈ dpus ∧ st_Phase (dpu_Status d) = DPUNodeEffect) →
  (∀ d x, d ∈ held → x ∈ passes → dpu_UID (pa_dpu x) = dpu_UID d → st_Phase (dpu_Status (pa_dpu x)) ∉ releasing) →
  let uids : gset string := list_to_set (dpu_UID <$> held) in
  uids ⊆ pm_dpus p ∧
  (is_int32 max → within_limit started → Z.of_nat (size uids) = max → ∀ uid, uid ∉ uids → is_Some (CanProceed uid p).1).
Proof.
  cbv zeta. intros Hheld Hpasses. set (started := (Initialize _ _).2).
  assert (∀ d, d ∈ held → dpu_UID d ∈ pm_dpus started) as Hstart.
  { intros d Hd. destruct (Hheld d Hd) as [Hin Hp]. apply Initialize_counts; [done|]. by rewrite Hp. }
  assert (∀ passes0 p0, (∀ x, x ∈ passes0 → x ∈ passes) → (∀ d, d ∈ held → dpu_UID d ∈ pm_dpus p0) →
    ∀ d, d ∈ held → dpu_UID d ∈ pm_dpus (slots_run p0 passes0)) as Hrun.
  { intros passes0. induction passes0 as [|x passes0 IH]; intros p0 Hin Hp0 d Hd; [by apply Hp0|]. cbn.
    apply IH; [intros y Hy; apply Hin; by right| |done]. intros e He. apply slots_pass_keeps; [|by apply Hp0].
    intros Hu. apply (Hpasses e x He); [apply Hin; left|done]. }
  assert ((list_to_set (dpu_UID <$> held) : gset string) ⊆ pm_dpus (slots_run started passes)) as Hsub.
  { intros uid (d & -> & Hd)%elem_of_list_to_set%list_elem_of_fmap. by apply (Hrun passes started). }
  split; [done|]. intros Hm Hw Hs uid Hu.
  assert (∀ passes0 p0, pm_max p0 = max → within_limit p0 → pm_max (slots_run p0 passes0) = max ∧ within_limit (slots_run p0 passes0)) as Hlim.
  { intros passes0. induction passes0 as [|x passes0 IH]; intros p0 Hp0 Hw0; [done|]. cbn.
    destruct (slots_pass_limit p0 x) as [H1 H2]; [by rewrite Hp0|done|]. apply IH; [congruence|done]. }
  destruct (Hlim passes started eq_refl Hw) as [Hmax Hlimit]. generalize dependent (slots_run started passes). intros p Hsub Hmax Hlimit.
  pose proof (subseteq_size _ _ Hsub) as Hsize. unfold within_limit in Hlimit.
  assert (pm_dpus p = list_to_set (dpu_UID <$> held)) as Heq by (symmetry; apply set_subseteq_size_eq; [done|lia]).
  unfold CanProceed. rewrite decide_False by (by rewrite Heq). rewrite wrap32_id by (unfold is_int32, int32_min, int32_max in *; lia).
  destruct (Z.geb_spec (Z.of_nat (size (pm_dpus p))) (pm_max p)); [by eexists|lia].
Qed.
End Properties.

(** ** Witnesses *)

Definition example_terminating : DPU :=
  let d := example_in DPUReady DPUNodeEffectRemoval [] in
  mkDPU (dpu_Name d) (dpu_Namespace d) (dpu_UID d) 1 ∅ ∅ (dpu_Finalizers d) 1 (Some 6%Z) (dpu_Spec d) (dpu_Status d).

Lemma deletion_is_prompt_witness :
  plain_handler (@Ready fake_codec World fake_client example_env example_terminating) example_terminating (example_state []) =
  (((with_Phase DPUDeleting (dpu_Status example_terminating), None), example_terminating), example_state []).
Proof.
  exact (@deletion_is_prompt meta_list fake_text fake_codec map_to_list_range fake_selectors finalizer_list World fake_client
           example_env example_terminating (example_state []) _ eq_refl eq_refl eq_refl).
Defined.

(** A heartbeat of the node's conditions other than Ready. *)
Lemma NodeChangeAffectsDPU_sound_witness :
  let old := mkNode "d1" ∅ ∅ [("Ready", ConditionTrue)] [] [] in
  let new := mkNode "d1" ∅ ∅ [("Ready", ConditionTrue); ("MemoryPressure", ConditionFalse)] [] [] in
  let w := example_world [] in
  let s n := mkCS (NewDPUInProvisioningMap 4) NewAllocator (with_cluster_nodes {[mkNN "" "d1" := n]} w) in
  let d := example_in DPUReady DPUNodeEffectRemoval [] in
  (@Ready fake_codec World fake_client example_env d (s old)).1 = (@Ready fake_codec World fake_client example_env d (s new)).1.
Proof.
  cbv zeta.
  eapply (NodeChangeAffectsDPU_sound (API:=meta_list) (T:=fake_text) "1" "2" (mkNode "d1" ∅ ∅ [("Ready", ConditionTrue)] [] []) (mkNode "d1" ∅ ∅ [("Ready", ConditionTrue); ("MemoryPressure", ConditionFalse)] [] [])).
  - vm_compute. reflexivity.
  - reflexivity.
  - intros n key Hn _. apply elem_of_cons in Hn as [->|Hn]; [vm_compute; discriminate|].
    apply list_elem_of_singleton in Hn as ->. vm_compute. discriminate.
  - vm_compute. reflexivity.
  - vm_compute. reflexivity.
Defined.

(** ** A restart of the controller during an in-place round *)

(** Other writers between two reconciles, and the world they leave. *)
Definition example_step (x : DPU * CS World) (edit : (DPU → DPU) * (World → World)) : DPU * CS World :=
  let d := edit.1 x.1 in
  let s := mkCS (cs_prov x.2) (cs_alloc x.2) (with_dpus {[dpu_key d := d]} (edit.2 (cs_ext x.2))) in
  match @reconcile_dpu meta_list fake_text fake_codec map_to_list_range fake_selectors finalizer_list World fake_client
          example_env d s with
  | (((_, d'), _), s') => (d', s')
  end.

(** A DPU that runs, in Node Effect for the first in-place round of its DPUSet. *)
Definition example_in_place : DPU :=
  let d := example_in DPUNodeEffect DPUReady [true_cond DPUCondOSInstalled] in
  with_Status (with_DPUReconfig (Some (mkDPUReconfig (Some true) 1 0)) (dpu_Status d)) d.

(** The agent starts again; the host network is configured; the maintenance of
    the node is over. *)
Definition agent_restarts (d : DPU) : DPU :=
  let ag := mkAgentStatus (Some 6%Z) (Some RebootMethodNoAction) "v1" None None [] None None in
  let st := dpu_Status d in
  with_Status (mkDPUStatus (st_Phase st) (st_PreviousPhase st) (st_Outdated st) (st_Conditions st) (st_OperationalConditions st)
    (st_BFBFile st) (st_BFCFGFile st) (st_DPFVersion st) (st_RequiredReset st) (st_Addresses st) (st_DPUInstallInterface st)
    (st_PostProvisioningNodeEffect st) (st_PostProvisioningDPUConfig st) (st_DPUReconfig st) (st_ObservedGeneration st)
    (st_DPUType st) (st_AgentLastStartupTime st) (Some ag) (st_RebootStatus st) (st_DPUMode st) (st_DeploymentMode st)
    (st_Hostless st) (st_SecureBoot st) (st_IdentityMode st)) d.
Definition network_ready (d : DPU) : DPU :=
  with_Status (with_Conditions (st_Conditions (dpu_Status d) ++ [true_cond DPUCondHostNetworkReady]) (dpu_Status d)) d.

Definition example_edits : list ((DPU → DPU) * (World → World)) :=
  [(id, id); (agent_restarts, id); (network_ready, id); (id, id); (id, id); (id, with_maintenances ∅); (id, id)].

#[local] Existing Instance meta_list.
#[local] Existing Instance fake_text.
#[local] Existing Instance fake_codec.
#[local] Existing Instance map_to_list_range.
#[local] Existing Instance fake_selectors.
#[local] Existing Instance finalizer_list.
#[local] Existing Instance fake_client.

(** The reconciles of the DPU along these edits. *)
Fixpoint example_passes (x : DPU * CS World) (edits : list ((DPU → DPU) * (World → World))) : list (Pass (W:=World)) :=
  match edits with
  | [] => []
  | edit :: edits =>
      let d := edit.1 x.1 in
      mkPass example_env d (cs_alloc x.2) (with_dpus {[dpu_key d := d]} (edit.2 (cs_ext x.2))) :: example_passes (example_step x edit) edits
  end.

(** With a limit of one: after the in-place round the DPU is Ready again, and no other
    DPU can be installed. *)
Lemma restart_holds_slots_witness :
  let started := (Initialize (Ok [example_in_place]) (NewDPUInProvisioningMap 1)).2 in
  let x := (example_in_place, mkCS started NewAllocator (example_world [])) in
  let last := foldl example_step x example_edits in
  st_Phase (dpu_Status last.1) = DPUReady ∧ inPlaceAlreadyReturned (dpu_Status last.1) 1 = true ∧
  ({["d1-uid"]} : gset string) ⊆ pm_dpus (slots_run started (example_passes x example_edits)) ∧
  is_Some (CanProceed "d2-uid" (slots_run started (example_passes x example_edits))).1.
Proof.
  cbv zeta. split; [vm_compute; reflexivity|]. split; [vm_compute; reflexivity|].
  destruct (restart_holds_slots 1 [example_in_place]
    (example_passes (example_in_place, mkCS (Initialize (Ok [example_in_place]) (NewDPUInProvisioningMap 1)).2 NewAllocator (example_world [])) example_edits)
    [example_in_place]) as [H1 H2].
  - intros d ->%list_elem_of_singleton. split; [left|reflexivity].
  - intros d x _ Hx _. revert x Hx. apply Forall_forall. apply (bool_decide_unpack _). vm_compute. exact I.
  - split; [exact H1|]. apply H2; [split; vm_compute; discriminate|vm_compute; discriminate|vm_compute; reflexivity|].
    apply (bool_decide_unpack _). vm_compute. exact I.
Defined.
