(* ===== verification/PhaseGraph.v ===== *)
(** The life of a DPU as a graph of phases: which phase a reconcile can leave a
    DPU in, proved of every handler and of the whole reconcile, and what every
    path to the installation of the operating system goes through. *)

From S2P Require Import Prelude.
From S2P Require Import Meta.
From S2P Require Import Conditions.
From S2P Require Import DPUTypes.
From S2P Require Import DPUConditions.
From S2P Require Import ProvisioningMap.
From S2P Require Import Kubernetes.
From S2P Require Import FakeClient.
From S2P Require Import Allocator.
From S2P Require Import NVConfig.
From S2P Require Import Maintenance.
From S2P Require Import ClusterMetadata.
From S2P Require Import ControllerContext.
From S2P Require Import Rebooting.
From S2P Require Import InstallPhases.
From S2P Require Import NodeEffectPhases.
From S2P Require Import ReadyPhases.
From S2P Require Import PrepareBFB.
From S2P Require Import DeletingPhase.
From S2P Require Import DPUController.
From S2P Require Import ExampleWorld.

(** ** The graph *)

(** Where a handler can go from a phase, besides staying. A DPU leaves Rebooting
    for the phase that asked for the reboot, or for the one after it. *)
Definition phase_successors (phase previous : DPUPhase) : list DPUPhase :=
  match phase with
  | DPUPhaseUnset | DPUInitializing => [DPUDeleting; DPUReady; DPUError; DPUPending]
  | DPUPending => [DPUDeleting; DPUError; DPUNodeEffect]
  | DPUNodeEffect => [DPUDeleting; DPUConfigPhase; DPUClusterConfig; DPUInitializeInterface]
  | DPUInitializeInterface => [DPUDeleting; DPUError; DPURebooting; DPUConfigFWParameters]
  | DPUConfigFWParameters => [DPUDeleting; DPUPrepareBFB]
  | DPUPrepareBFB => [DPUOSInstalling]
  | DPUOSInstalling => [DPUError; DPUDeleting; DPUConfigPhase]
  | DPUConfigPhase => [DPUDeleting; DPUClusterConfig; DPUHostNetworkConfiguration; DPURebooting]
  | DPURebooting =>
      [DPUDeleting; DPUError; DPUHostNetworkConfiguration; DPUClusterConfig] ++
      (if decide (previous = DPUInitializeInterface ∨ previous = DPUOSInstalling ∨ previous = DPUConfigPhase)
       then [previous] else [])
  | DPUHostNetworkConfiguration => [DPUDeleting; DPUClusterConfig]
  | DPUClusterConfig => [DPUDeleting; DPUServiceReadiness]
  | DPUServiceReadiness => [DPUDeleting; DPUNodeEffectRemoval]
  | DPUNodeEffectRemoval => [DPUDeleting; DPUClusterConfig; DPUReady; DPUError]
  | DPUReady => [DPUDeleting; DPUNodeEffect; DPUClusterConfig]
  | DPUError => [DPUDeleting]
  | _ => []
  end.

Definition phase_edge (phase previous next : DPUPhase) : bool :=
  bool_decide (next = phase) || bool_decide (next ∈ phase_successors phase previous).

(** The status a handler returns follows an edge and leaves the previous phase,
    which only [UpdateDPUStatus] writes. *)
Definition goes (s : DPUStatus) (s' : DPUStatus) : Prop :=
  st_PreviousPhase s' = st_PreviousPhase s ∧ phase_edge (st_Phase s) (st_PreviousPhase s) (st_Phase s') = true.

Lemma phase_edge_refl p prev : phase_edge p prev p = true.
Proof. unfold phase_edge. by rewrite bool_decide_eq_true_2. Qed.

(** A status with another phase or none. *)
Lemma goes_stay s s' : st_Phase s' = st_Phase s → st_PreviousPhase s' = st_PreviousPhase s → goes s s'.
Proof. intros H1 H2. split; [done|]. rewrite H1. apply phase_edge_refl. Qed.
Lemma goes_edge s s' p q :
  st_Phase s = p → st_PreviousPhase s' = st_PreviousPhase s → st_Phase s' = q →
  q ∈ phase_successors p (st_PreviousPhase s) → goes s s'.
Proof. intros <- H2 <- H. split; [done|]. unfold phase_edge. rewrite (bool_decide_eq_true_2 (_ ∈ _)) by done. apply orb_true_r. Qed.


(** A handler may work on a status at the same place of the graph. *)
Definition same_place (s s1 : DPUStatus) : Prop :=
  st_Phase s1 = st_Phase s ∧ st_PreviousPhase s1 = st_PreviousPhase s.

Lemma goes_from s s1 s' : same_place s s1 → goes s1 s' → goes s s'.
Proof. intros [E1 E2] [H1 H2]. split; [congruence|]. by rewrite <- E1, <- E2. Qed.

Ltac goes_solve :=
  simpl;
  repeat match goal with
  | |- goes _ ?s => match s with context [match ?x with _ => _ end] => destruct x eqn:?; simpl end
  end;
  try first
    [ done
    | match goal with Hs : same_place _ _ |- _ => apply (goes_from _ _ _ Hs) end
    | idtac ];
  try first
    [ apply goes_stay; reflexivity
    | eapply goes_edge; [eassumption|reflexivity|reflexivity|cbn; set_solver] ].
Ltac goes_tac := repeat yields_step; goes_solve.

Section Handlers.
Context {API : MetaAPI} {T : TextAPI} {K : Codec} {R : MapRange} {S : SelectorAPI} {F : FinalizerAPI}.
Context {W : Type} {C : Client W}.
Variables (env : Env) (dpu : DPU).
Abbreviation state := (dpu_Status dpu) (only parsing).

Lemma ClusterConfig_goes :
  st_Phase state = DPUClusterConfig → yields (ClusterConfig env dpu) (λ r, goes state r.1).
Proof. intros Hp. unfold ClusterConfig. goes_tac. Qed.

Lemma ServiceReadiness_goes :
  st_Phase state = DPUServiceReadiness → yields (ServiceReadiness env dpu) (λ r, goes state r.1).
Proof. intros Hp. unfold ServiceReadiness. goes_tac. Qed.

Lemma PrepareBFB_goes :
  st_Phase state = DPUPrepareBFB → yields (PrepareBFB env dpu) (λ r, goes state r.1).
Proof. intros Hp. unfold PrepareBFB, prepareBF4ISO, prepareBF3BFB. goes_tac. Qed.

Lemma Installing_goes :
  st_Phase state = DPUOSInstalling → yields (Installing (W:=W) env dpu) (λ r, goes state r.1).
Proof.
  intros Hp. unfold Installing, ConfirmDPUCondition. goes_tac. Qed.

Lemma ConfigFWParameters_goes :
  st_Phase state = DPUConfigFWParameters → yields (ConfigFWParameters env dpu) (λ r, goes state r.1).
Proof. intros Hp. unfold ConfigFWParameters. goes_tac. Qed.

Lemma SetupNetwork_goes : st_Phase state = DPUHostNetworkConfiguration → goes state (SetupNetwork dpu).1.
Proof. intros Hp. unfold SetupNetwork. goes_tac. Qed.

Lemma InitializeInterface_goes :
  st_Phase state = DPUInitializeInterface → goes state (InitializeInterface env dpu).1.
Proof. intros Hp. unfold InitializeInterface, InitializeDPURebootStatus. goes_tac. Qed.

Lemma Error_goes :
  st_Phase state = DPUError → yields (Error env dpu) (λ r, goes state r.1).
Proof. intros Hp. unfold Error. goes_tac. Qed.

Lemma Deleting_goes :
  st_Phase state = DPUDeleting → yields (Deleting env dpu) (λ r, goes state r.1.1).
Proof. intros Hp. unfold Deleting. goes_tac. Qed.

Lemma InitializeDPURebootStatus_place s p : same_place s (InitializeDPURebootStatus env dpu s p).1.
Proof. unfold InitializeDPURebootStatus. by repeat case_match. Qed.

Lemma DPUConfig_goes :
  st_Phase state = DPUConfigPhase → goes state (DPUConfig env dpu).1.
Proof. intros Hp. unfold DPUConfig. goes_tac.
  all: match goal with E : InitializeDPURebootStatus _ _ ?s ?p = _ |- _ =>
         pose proof (InitializeDPURebootStatus_place s p) as [E1 E2]; rewrite E in E1, E2 end.
  all: first [ by apply (goes_edge _ _ DPUConfigPhase DPURebooting); [|exact E2|exact E1|cbn; set_solver]
             | apply goes_stay; [done|exact E2] ].
Qed.

Lemma Ready_goes :
  st_Phase state = DPUReady → yields (Ready env dpu) (λ r, goes state r.1).
Proof. intros Hp. unfold Ready, end_reconfiguring, reconcileReadyClusterMetadata, metadata_behind. goes_tac. Qed.

Lemma NodeEffectRemoval_goes :
  st_Phase state = DPUNodeEffectRemoval → yields (NodeEffectRemoval env dpu) (λ r, goes state r.1).
Proof. intros Hp. unfold NodeEffectRemoval, metadata_behind. goes_tac. Qed.

Lemma node_effect_state_place now : same_place state (node_effect_state now dpu).
Proof. unfold node_effect_state. by destruct (reconfigInProgress dpu). Qed.

Lemma handleNodeEffectCompletion_goes now s reason :
  st_Phase s = DPUNodeEffect → goes s (handleNodeEffectCompletion now s reason).1.
Proof. intros Hp. unfold handleNodeEffectCompletion. goes_solve. Qed.

Lemma NodeEffectHandler_goes :
  st_Phase state = DPUNodeEffect → yields (NodeEffectHandler env dpu) (λ r, goes state r.1).
Proof.
  intros Hp. unfold NodeEffectHandler. apply yields_run, ends_bind; [by goes_tac|intros _]. cbv zeta. pose proof (node_effect_state_place (env_now env)) as Hs.
  assert (st_Phase (node_effect_state (env_now env) dpu) = DPUNodeEffect) as Hp' by (destruct Hs; congruence).
  unfold upgrade_hold, check_host_node, join_maintenance. revert Hs Hp'. generalize (node_effect_state (env_now env) dpu).
  intros s Hs Hp'. goes_tac. by apply handleNodeEffectCompletion_goes.
Qed.

Lemma pending_image_place s :
  ends (S:=CS W) (pending_image (env_now env) dpu s) (λ r, same_place s r.1) (λ s1, same_place s s1).
Proof. unfold pending_image. repeat yields_step; try done. Qed.

Lemma Pending_goes :
  st_Phase state = DPUPending → yields (Pending env dpu) (λ r, goes state r.1).
Proof.
  intros Hp. unfold Pending. apply yields_run, ends_bind; [by goes_tac|intros _].
  apply ends_bind; [by goes_tac|intros _]. destruct (upgrading env); [by goes_tac|].
  eapply ends_bind_with.
  { eapply ends_mono; [apply pending_image_place| |by intros ?; exact id]. intros r [E1 E2]. by apply goes_stay. }
  intros s Hs. assert (st_Phase s = DPUPending) as Hp' by (destruct Hs; congruence). goes_tac. Qed.

Lemma follow_reboot_status_place now s : same_place s (follow_reboot_status now dpu s).
Proof. unfold follow_reboot_status. repeat case_match; done. Qed.

Lemma CompleteRebooting_goes now s zt :
  same_place state s → st_Phase s = DPURebooting → goes s (CompleteRebooting now dpu s zt).
Proof.
  intros [_ E] Hp. unfold CompleteRebooting. rewrite <- E. pose proof (follow_reboot_status_place now s) as [E1 E2].
  assert (∀ q s', q ∈ phase_successors DPURebooting (st_PreviousPhase s) →
    st_PreviousPhase s' = st_PreviousPhase s → st_Phase s' = q → goes s s') as edge by eauto using goes_edge.
  destruct (negb _); [by apply goes_stay|].
  case_bool_decide as H1; [by apply (edge DPUInitializeInterface); [rewrite H1; simpl; set_solver|..]|].
  case_bool_decide as H2; [by apply (edge DPUOSInstalling); [rewrite H2; simpl; set_solver|..]|].
  case_bool_decide as H3; simpl;
    [case_match; [by apply (edge DPUConfigPhase); [rewrite H3; simpl; set_solver|..]|]|];
    destruct zt; (eapply edge; [|exact E2|reflexivity]); simpl; set_solver.
Qed.

Lemma StartRebooting_place :
  st_Phase state = DPURebooting →
  yields (StartRebooting env dpu) (λ r, match r with StartDone r => goes state r.1 | StartContinue s _ => s = state end).
Proof. intros Hp. unfold StartRebooting. repeat yields_step; goes_solve. Qed.

Lemma Rebooting_goes :
  st_Phase state = DPURebooting → yields (Rebooting env dpu) (λ r, goes state r.1).
Proof.
  intros Hp. unfold Rebooting. eapply yields_bind_with; [by apply StartRebooting_place|].
  intros [r|s n] Hs; [by apply yields_ret|]. subst s. goes_tac; by apply CompleteRebooting_goes.
Qed.

Lemma check_install_interface_goes now device s iface r :
  st_Phase state = DPUPhaseUnset ∨ st_Phase state = DPUInitializing → same_place state s →
  check_install_interface now dpu device s iface = Some r → goes state r.1.
Proof. 
  intros Hp Hs. unfold check_install_interface. intros Hc. apply (goes_from _ s); [done|]. destruct Hs as [E1 E2].
  destruct Hp as [Hp|Hp]; rewrite <- E1 in Hp; clear E1 E2; repeat case_match; simplify_eq; goes_solve.
Qed.

Lemma WaitPreInstall_place now s timeout :
  same_place s (WaitPreInstallAgentRegistrationOrProceed now dpu s timeout).1.
Proof. unfold WaitPreInstallAgentRegistrationOrProceed. by repeat case_match. Qed.

Lemma Initializing_goes :
  st_Phase state = DPUPhaseUnset ∨ st_Phase state = DPUInitializing →
  yields (Initializing env dpu) (λ r, goes state r.1.1).
Proof.
  intros Hp. unfold Initializing. destruct Hp as [Hp|Hp];
  repeat first
    [ lazymatch goal with
      | |- ends (mbind _ (match ?x with Some _ => _ | None => _ end)) _ _ =>
          apply (ends_bind_with _ _ (same_place state)); [destruct x; goes_tac; by repeat case_match|intros ? ?]
      end | yields_step ]; goes_solve; 
   try (eapply check_install_interface_goes; [by auto| |done]; repeat case_match; done).
  all: match goal with E : WaitPreInstallAgentRegistrationOrProceed ?now _ ?s ?t = _, Hs : same_place _ ?s |- _ =>
         pose proof (WaitPreInstall_place now s t) as [E1 E2]; rewrite E in E1, E2; simpl in E1, E2; destruct Hs end.
  all: first [by apply goes_stay|eapply goes_edge; [etrans; [eassumption|exact Hp]|exact E2|reflexivity|set_solver]].
  Qed.

Lemma alloc_Allocate_status : yields (alloc_Allocate (W:=W) dpu) (λ r, dpu_Status r.2 = state).
Proof.
  intros s. unfold alloc_Allocate, Allocate, allocate_synced, syncAssignedDPUs.
  by branches.
Qed.

Lemma Initializing_status : yields (Initializing env dpu) (λ r, dpu_Status r.2 = state).
Proof.
  unfold Initializing.
  repeat first
    [ lazymatch goal with
      | |- ends (mbind _ (lift (alloc_Allocate _))) _ _ =>
          eapply ends_bind_with; [apply ends_lift, alloc_Allocate_status|intros ? ?]
      end | yields_step ]; try done; by repeat case_match.
Qed.

Lemma Deleting_status : yields (Deleting env dpu) (λ r, dpu_Status r.2 = state).
Proof. unfold Deleting. by repeat yields_step. Qed.

Lemma handler_goes h :
  handler env dpu = Some h → yields h (λ r, goes state r.1.1 ∧ dpu_Status r.2 = state).
Proof.
  assert (∀ h, yields h (λ r, goes state r.1) →
    yields (plain_handler (W:=W) h dpu) (λ r, goes state r.1.1 ∧ dpu_Status r.2 = state)) as plain.
  { intros h' H. unfold plain_handler. eapply yields_bind_with; [exact H|]. intros r Hr. by apply yields_ret. }
  assert (∀ m : SM (CS W) (HResult * DPU), yields m (λ r, goes state r.1.1) → yields m (λ r, dpu_Status r.2 = state) →
    yields m (λ r, goes state r.1.1 ∧ dpu_Status r.2 = state)) as both by (intros m H1 H2 s; split; [apply H1|apply H2]).
  unfold handler. destruct (st_Phase state) eqn:Hp; intros E; simplify_eq; try apply plain.
  all: auto using Pending_goes, NodeEffectHandler_goes, PrepareBFB_goes, ClusterConfig_goes, ServiceReadiness_goes,
    NodeEffectRemoval_goes, Ready_goes, Error_goes, ConfigFWParameters_goes, Installing_goes, Rebooting_goes.
  all: auto using Initializing_goes, Deleting_goes, Initializing_status, Deleting_status.
  all: apply yields_ret; auto using DPUConfig_goes, InitializeInterface_goes, SetupNetwork_goes.
Qed.
End Handlers.

(** ** The whole reconcile *)

(** The phase and the previous phase of a DPU after a reconcile: unchanged, or a
    new phase with the old one recorded; besides the edges of the handlers there
    is the jump of an in-place round and the condition that forces the Error phase. *)
Definition reconcile_edge (s s' : DPUStatus) : Prop :=
  same_place s s' ∨
  (st_Phase s' ≠ st_Phase s ∧
   st_PreviousPhase s' = (if decide (st_Phase s = DPUPhaseUnset) then st_PreviousPhase s else st_Phase s) ∧
   (st_Phase s' ∈ phase_successors (st_Phase s) (st_PreviousPhase s) ∨
    st_Phase s' = DPUError ∨
    (st_Phase s' = DPUNodeEffect ∧ phaseJumpsForInPlace (st_Phase s) = true))).

Section Reconcile.
Context {API : MetaAPI} {T : TextAPI} {K : Codec} {R : MapRange} {S : SelectorAPI} {F : FinalizerAPI}.
Context {W : Type} {C : Client W}.
Implicit Types (env : Env) (base dpu : DPU).

Lemma UpdateRequestors_status dpu : yields (UpdateDPUNodeMaintenanceRequestors dpu) (λ r, dpu_Status r.2 = dpu_Status dpu).
Proof. intros w. unfold UpdateDPUNodeMaintenanceRequestors. by repeat case_match. Qed.

Lemma next_status_place env dpu s :
  same_place s (next_status env dpu s) ∨
  (st_Phase (next_status env dpu s) = DPUError ∧ st_PreviousPhase (next_status env dpu s) = st_PreviousPhase s).
Proof.
  unfold next_status, setDPUFlavorRenderedCondition, setErrorPhaseFromCondition.
  repeat case_match; auto; by left.
Qed.

(** What [UpdateDPUStatus] makes of a status. *)
Lemma UpdateDPUStatus_edge dpu s :
  st_PreviousPhase s = st_PreviousPhase (dpu_Status dpu) →
  (st_Phase s ≠ st_Phase (dpu_Status dpu) →
    st_Phase s ∈ phase_successors (st_Phase (dpu_Status dpu)) (st_PreviousPhase (dpu_Status dpu)) ∨
    st_Phase s = DPUError ∨ (st_Phase s = DPUNodeEffect ∧ phaseJumpsForInPlace (st_Phase (dpu_Status dpu)) = true)) →
  reconcile_edge (dpu_Status dpu) (dpu_Status (UpdateDPUStatus dpu s).1).
Proof.
  intros Hprev Hedge. unfold UpdateDPUStatus, reconcile_edge. case_decide; [by left|]. simpl.
  destruct (decide (st_Phase s = st_Phase (dpu_Status dpu))) as [E|E].
  - left. rewrite (bool_decide_eq_true_2 (_ = st_Phase s)) by done. done.
  - right. rewrite (bool_decide_eq_false_2 (_ = st_Phase s)) by done. simpl.
    case_bool_decide as Hu; simpl; rewrite ?decide_True, ?decide_False by done; auto.
Qed.

Lemma UpdateDPUStatus_next_edge env dpu s :
  goes (dpu_Status dpu) s ∨ (StartInPlaceReconfig (env_now env) dpu = Some s) →
  reconcile_edge (dpu_Status dpu) (dpu_Status (UpdateDPUStatus dpu (next_status env dpu s)).1).
Proof.
  intros Hs.
  assert (st_PreviousPhase s = st_PreviousPhase (dpu_Status dpu) ∧ (st_Phase s ≠ st_Phase (dpu_Status dpu) →
    st_Phase s ∈ phase_successors (st_Phase (dpu_Status dpu)) (st_PreviousPhase (dpu_Status dpu)) ∨
    (st_Phase s = DPUNodeEffect ∧ phaseJumpsForInPlace (st_Phase (dpu_Status dpu)) = true))) as [Hprev Hph].
  { destruct Hs as [[H1 H2]|H].
    - split; [done|]. intros Hne. left. by apply orb_prop in H2 as [H2|H2]; apply bool_decide_eq_true in H2.
    - unfold StartInPlaceReconfig in H. repeat case_match; simplify_eq. split; [done|]. intros _. right. split; [done|].
      by apply negb_false_iff. }
  apply UpdateDPUStatus_edge; destruct (next_status_place env dpu s) as [[E1 E2]|[E1 E2]]; [congruence..|rewrite E1|rewrite E1].
  - intros Hne. destruct (Hph Hne); auto.
  - auto.
Qed.

Lemma reconcile_edge_place s s1 s2 : reconcile_edge s s1 → same_place s1 s2 → reconcile_edge s s2.
Proof. unfold reconcile_edge, same_place. intros H [-> ->]. exact H. Qed.

Lemma reconcile_phase_edge env base dpu h :
  yields h (λ r, goes (dpu_Status dpu) r.1.1 ∧ dpu_Status r.2 = dpu_Status dpu) →
  yields (reconcile_phase env base dpu h) (λ r, reconcile_edge (dpu_Status dpu) (dpu_Status r.1.2)).
Proof.
  intros Hh. unfold reconcile_phase. destruct (StartInPlaceReconfig _ dpu) as [s|] eqn:E.
  - pose proof (UpdateDPUStatus_next_edge env dpu s (or_intror E)) as He.
    apply (yields_bind_with _ _ (λ r, reconcile_edge (dpu_Status dpu) (dpu_Status r.2))).
    { intros w. unfold ext, patchInPlaceJump. unfold_monad. repeat case_match; simplify_eq/=; [by left|].
      by eapply reconcile_edge_place. }
    intros [[e|] d] Hd; by apply yields_ret.
  - eapply yields_bind_with; [exact Hh|]. intros [[s err] d] [Hg Hd]. simpl in *.
    case_match; apply yields_ret; simpl; [left; by rewrite Hd|].
    rewrite <- Hd in *. apply UpdateDPUStatus_next_edge. by left.
Qed.

Lemma reconcile_dpu_edge env base :
  yields (reconcile_dpu env base) (λ r, reconcile_edge (dpu_Status base) (dpu_Status r.1.2)).
Proof.
  assert (∀ d, dpu_Status d = dpu_Status base → reconcile_edge (dpu_Status base) (dpu_Status d)) as same
    by (intros d E; left; unfold same_place; by rewrite E).
  unfold reconcile_dpu. apply yields_run.
  repeat first
    [ lazymatch goal with
      | |- ends (mbind _ (lift (ext (UpdateDPUNodeMaintenanceRequestors _)))) _ _ =>
          apply (ends_bind_with _ _ (λ r, dpu_Status r.2 = dpu_Status base)); 
          [apply ends_lift; intros ?; unfold ext; pose proof (UpdateRequestors_status base) as Hu;
            match goal with |- context [UpdateDPUNodeMaintenanceRequestors _ ?w] => specialize (Hu w); by destruct (UpdateDPUNodeMaintenanceRequestors _ w) end | intros [? d] Hd; simpl in Hd]
      | |- ends (lift (reconcile_phase _ _ _ _)) _ _ => 
          apply ends_lift; rewrite <- Hd; apply reconcile_phase_edge; by eapply handler_goes
      end | yields_step ]; try done; try by apply same.

Qed.

(** C3. One reconcile of a DPU keeps its phase and previous phase, or moves it
    along an edge of the phase graph, by the jump of an in-place round, or to the
    Error phase, and then records the phase it left, unless that was unset; this
    holds of the DPU the deferred patch writes, on every path of the reconcile,
    whatever the API server answers. *)
Theorem reconcile_follows_graph env base (s : CS W) :
  reconcile_edge (dpu_Status base) (dpu_Status (reconcile_dpu env base s).1.1.2).
Proof. apply reconcile_dpu_edge. Qed.

(** ** What an installation goes through *)

(** The life of a DPU, with the phases it was seen in: reconciles in any world,
    between which every other writer of the object (its users, the host and DPU
    agents, the DPUSet controller) changes whatever it likes but the phases, or
    puts it in Error and leaves the previous phase, as the host agent does for a
    firmware it does not support (hostagent/phase/configfw/configfw.go).  These
    are the writers of the phase in the repository. *)
Inductive life (d0 : DPU) : list DPUPhase → DPU → Prop :=
| life_start : life d0 [st_Phase (dpu_Status d0)] d0
| life_other ps d d' : life d0 ps d → same_place (dpu_Status d) (dpu_Status d') → life d0 ps d'
| life_failed ps d d' :
    life d0 ps d → st_Phase (dpu_Status d') = DPUError → st_PreviousPhase (dpu_Status d') = st_PreviousPhase (dpu_Status d) →
    life d0 (ps ++ [DPUError]) d'
| life_reconcile ps d env (s : CS W) :
    life d0 ps d →
    let d' := (reconcile_dpu env d s).1.1.2 in
    life d0 (ps ++ [st_Phase (dpu_Status d')]) d'.

(** The phases of an installation, in order. *)
Definition install_stages : list DPUPhase :=
  [DPUNodeEffect; DPUInitializeInterface; DPUConfigFWParameters; DPUPrepareBFB; DPUOSInstalling].

(** How many of them a DPU has behind it: a reboot does not lose the ones that
    the phase it returns to had. *)
Definition stage_of (p : DPUPhase) : nat :=
  match p with
  | DPUNodeEffect => 1 | DPUInitializeInterface => 2 | DPUConfigFWParameters => 3
  | DPUPrepareBFB => 4 | DPUOSInstalling => 5 | _ => 0
  end.
Definition rank (s : DPUStatus) : nat :=
  if decide (st_Phase s = DPURebooting) then stage_of (st_PreviousPhase s) else stage_of (st_Phase s).

(** An edge keeps the rank or lowers it, or enters the next stage. *)
Lemma reconcile_edge_rank s s' :
  reconcile_edge s s' →
  rank s' ≤ rank s ∨ (rank s' = 1 + rank s ∧ install_stages !! rank s = Some (st_Phase s')).
Proof.
  unfold rank. intros [[-> ->]|(Hne & -> & [H|[->|[-> _]]])]; [by left|..].
  - revert H. destruct (st_Phase s) eqn:Hp; simpl; rewrite ?elem_of_cons, ?elem_of_nil; intros H;
      destruct_or?; try done; try (rewrite H; simpl; (left; lia) || (right; done)).
    left. rewrite decide_False by done. case_decide; [|by apply elem_of_nil in H].
    apply list_elem_of_singleton in H as ->. done.
  - left. simpl. lia.
  - simpl. match goal with |- _ ≤ ?n ∨ _ => generalize n end. intros [|n]; [by right|left; lia].
Qed.

Lemma rank_stage s n : install_stages !! n = Some (st_Phase s) → rank s = 1 + n.
Proof. unfold rank. do 5 (destruct n as [|n]; [by intros [= <-]|]). done. Qed.

Lemma life_stages d0 ps d :
  life d0 ps d → rank (dpu_Status d0) = 0 → take (rank (dpu_Status d)) install_stages `sublist_of` ps.
Proof.
  intros Hl H0. induction Hl as [|ps d d' _ IH [E1 E2]|ps d d' _ IH E1 _|ps d env s _ IH d'].
  - rewrite H0. apply sublist_nil_l.
  - unfold rank in *. by rewrite E1, E2.
  - unfold rank. rewrite E1. apply sublist_nil_l.
  - pose proof (reconcile_edge_rank _ _ (reconcile_dpu_edge env d s)) as Hr. fold d' in Hr. destruct Hr as [Hle|[-> Hn]].
    + transitivity (take (rank (dpu_Status d)) install_stages).
      * rewrite <- (take_drop (rank (dpu_Status d')) (take (rank (dpu_Status d)) _)), take_take, Nat.min_l by done.
        by apply sublist_inserts_r.
      * by apply sublist_inserts_r.
    + change (1 + ?n) with (Datatypes.S n). rewrite (take_S_r _ _ _ Hn). by apply sublist_app.
Qed.

(** C4. Whatever the worlds its reconciles run in and whatever the other writers
    of the object do between them, but for moving it to a phase other than Error
    (the host agent puts it in Error when its firmware is too old, no other code
    sets a phase), a DPU that starts in a phase before the
    installation and reaches OS Installing has gone, in this order, through Node
    Effect, Initialize Interface, Config FW Parameters and Prepare BFB: the
    operating system is never installed before the node effect, the mode and the
    firmware were dealt with, reboots included. *)
Theorem install_order d0 ps d :
  life d0 ps d → IsDPUBeforeProvisioningPhase (st_Phase (dpu_Status d0)) = true →
  st_Phase (dpu_Status d) = DPUOSInstalling → install_stages `sublist_of` ps.
Proof.
  intros Hl Hb Hi. pose proof (life_stages _ _ _ Hl) as Hs.
  assert (rank (dpu_Status d) = 5) as Hr by (unfold rank; rewrite Hi; reflexivity). rewrite Hr in Hs.
  apply Hs. unfold rank. by destruct (st_Phase (dpu_Status d0)).
Qed.
End Reconcile.

(** ** An installation on the in-memory services *)

Definition example_start : DPU :=
  example_in DPUPhaseUnset DPUPhaseUnset [true_cond DPUCondInterfaceInitialized; true_cond DPUCondFWConfigured].
Definition example_reconcile (d : DPU) : DPU :=
  (@reconcile_dpu meta_list fake_text fake_codec map_to_list_range fake_selectors finalizer_list World fake_client
     example_env d (example_state [d])).1.1.2.
Fixpoint example_phases (k : nat) : list DPUPhase :=
  match k with
  | 0 => [st_Phase (dpu_Status example_start)]
  | S k => example_phases k ++ [st_Phase (dpu_Status (Nat.iter (S k) example_reconcile example_start))]
  end.

Lemma example_life k :
  @life meta_list fake_text fake_codec map_to_list_range fake_selectors finalizer_list World fake_client
    example_start (example_phases k) (Nat.iter k example_reconcile example_start).
Proof. induction k as [|k IH]; [apply life_start|]. exact (life_reconcile _ _ _ example_env _ IH). Qed.

Lemma install_order_witness :
  st_Phase (dpu_Status (Nat.iter 6 example_reconcile example_start)) = DPUOSInstalling ∧
  install_stages `sublist_of` example_phases 6.
Proof.
  assert (st_Phase (dpu_Status (Nat.iter 6 example_reconcile example_start)) = DPUOSInstalling) as Hi
    by (vm_compute; reflexivity).
  split; [exact Hi|].
  exact (install_order _ _ _ (example_life 6) eq_refl Hi).
Defined.
