(* ===== verification/MaintenanceTypes.v ===== *)
(** The data of the DPUNodeMaintenance controller
    (internal/provisioning/controllers/dpunodemaintenance) and what it asks of the
    API server, with the log of its writes.

    Jobs, pods and NodeMaintenance objects are types of other projects, kept with
    the fields the controller uses.  Parsing the YAML text of a pod is an operation
    of [PodParser]. *)

From S2P Require Import Prelude.
From S2P Require Import Meta.
From S2P Require Import Conditions.
From S2P Require Import DPUTypes.
From S2P Require Import Kubernetes.
From S2P Require Import WriteLog.

(** ** The object *)

Definition DPUNodeMaintenanceFinalizer := "provisioning.dpu.nvidia.com/dpunodemaintenance-protection".
Definition DPUNodeConditionReady := "Ready".
Definition DPUNodeConditionNodeEffectInProgress := "DPUNodeNodeEffectInProgress".
Definition HoldNodeEffectKey := DPUProvisioningPrefix +:+ "wait-for-external-nodeeffect".
Definition ProvisioningGroupName := "provisioning.dpu.nvidia.com".
Definition ProvisioningComponentLabelKey := DPUProvisioningPrefix +:+ "component".

(** Durations are nanoseconds. *)
Definition Second : Z := 1000000000.
Definition Minute : Z := (60 * Second)%Z.

Record DPUNodeMaintenanceOptions := mkMaintenanceOptions {
  MultiDPUOperationsSyncWaitTime : Z;
  MaxUnavailableDPUNodes : Z }.

Definition with_dnm_Finalizers (v : list string) (d : DPUNodeMaintenance) : DPUNodeMaintenance :=
  mkDNM (dnm_Name d) (dnm_Namespace d) (dnm_Generation d) (dnm_Labels d) (dnm_Annotations d) v (dnm_DeletionTimestamp d)
    (dnm_DPUNodeName d) (dnm_NodeEffect d) (dnm_Requestor d) (dnm_Conditions d) (dnm_NodeEffectSyncStartTime d)
    (dnm_MultiDPUOperationsSyncWaitTime d) (dnm_MaxUnavailableDPUNodes d).
Definition with_dnm_Conditions (v : list Condition) (d : DPUNodeMaintenance) : DPUNodeMaintenance :=
  mkDNM (dnm_Name d) (dnm_Namespace d) (dnm_Generation d) (dnm_Labels d) (dnm_Annotations d) (dnm_Finalizers d)
    (dnm_DeletionTimestamp d) (dnm_DPUNodeName d) (dnm_NodeEffect d) (dnm_Requestor d) v (dnm_NodeEffectSyncStartTime d)
    (dnm_MultiDPUOperationsSyncWaitTime d) (dnm_MaxUnavailableDPUNodes d).
Definition with_dnm_Sync (start : option Time) (wait max : option Z) (d : DPUNodeMaintenance) : DPUNodeMaintenance :=
  mkDNM (dnm_Name d) (dnm_Namespace d) (dnm_Generation d) (dnm_Labels d) (dnm_Annotations d) (dnm_Finalizers d)
    (dnm_DeletionTimestamp d) (dnm_DPUNodeName d) (dnm_NodeEffect d) (dnm_Requestor d) (dnm_Conditions d) start wait max.

#[export] Instance DNM_GetSet : GetSet DPUNodeMaintenance :=
  {| GetConditions := dnm_Conditions; SetConditions d cs := with_dnm_Conditions cs d; GetGeneration := dnm_Generation |}.
#[export] Instance DNM_GetSet_laws : GetSetLaws DPUNodeMaintenance DNM_GetSet.
Proof. split; done. Qed.

Definition with_dn_Conditions (v : list Condition) (n : DPUNode) : DPUNode :=
  mkDPUNode (dn_Name n) (dn_Namespace n) (dn_Labels n) (dn_Annotations n) (dn_Finalizers n) (dn_OwnerReferences n)
    (dn_DPUs n) (dn_NodeRebootMethod n) (dn_KubeNodeRef n) (dn_DPUInstallInterface n) v (dn_RebootMethod n)
    (dn_DeletionTimestamp n).
Definition with_dn_Labels (v : gmap string string) (n : DPUNode) : DPUNode :=
  mkDPUNode (dn_Name n) (dn_Namespace n) v (dn_Annotations n) (dn_Finalizers n) (dn_OwnerReferences n)
    (dn_DPUs n) (dn_NodeRebootMethod n) (dn_KubeNodeRef n) (dn_DPUInstallInterface n) (dn_Conditions n) (dn_RebootMethod n)
    (dn_DeletionTimestamp n).
Definition with_no_Labels (v : gmap string string) (n : Node) : Node :=
  mkNode (no_Name n) v (no_Annotations n) (no_Conditions n) (no_Addresses n) (no_Taints n).
Definition with_no_Taints (v : list Taint) (n : Node) : Node :=
  mkNode (no_Name n) (no_Labels n) (no_Annotations n) (no_Conditions n) (no_Addresses n) v.

(** [&corev1.Node{}] *)
Definition no_node : Node := mkNode "" ∅ ∅ [] [] [].

(** ** Objects of other projects *)

Record PodTemplate := mkPod { pod_Name : string; pod_Namespace : string; pod_Spec : string }.

(** batchv1.Job with a backoff limit of 0. *)
Record Job := mkJob {
  job_Name : string;
  job_Namespace : string;
  job_Template : PodTemplate;
  job_Conditions : list (string * ConditionStatus);
  job_StartTime : option Time }.

Definition JobComplete := "Complete".
Definition JobFailed := "Failed".

Record DrainSpec := mkDrainSpec { dr_Force : bool; dr_DeleteEmptyDir : bool; dr_PodSelector : string }.

(** maintenancev1alpha1.NodeMaintenance; its owner is the name of the
    DPUNodeMaintenance that controls it. *)
Record NodeMaintenance := mkNM {
  nm_Name : string;
  nm_Namespace : string;
  nm_Owner : option string;
  nm_RequestorID : string;
  nm_AdditionalRequestors : list string;
  nm_NodeName : string;
  nm_DrainSpec : option DrainSpec;
  nm_Conditions : list Condition }.

Definition with_nm_AdditionalRequestors (v : list string) (m : NodeMaintenance) : NodeMaintenance :=
  mkNM (nm_Name m) (nm_Namespace m) (nm_Owner m) (nm_RequestorID m) v (nm_NodeName m) (nm_DrainSpec m) (nm_Conditions m).

Definition NodeMaintenanceReady := "Ready".

Class PodParser := unmarshalPod : string → Res PodTemplate.

(** ** The calls *)

Class MaintenanceClient (W : Type) := {
  getMaintenance : NamespacedName → SM W (Res DPUNodeMaintenance);
  deleteMaintenance : DPUNodeMaintenance → SM W (option GoError);
  (** The serial patcher. *)
  patchMaintenance : DPUNodeMaintenance → DPUNodeMaintenance → SM W (option GoError);
  getDPUNode_m : NamespacedName → SM W (Res DPUNode);
  listDPUNodes_m : string → SM W (Res (list DPUNode));
  updateDPUNodeStatus : DPUNode → SM W (option GoError);
  patchDPUNode : DPUNode → DPUNode → SM W (option GoError);
  getNode : string → SM W (Res Node);
  updateNode : Node → SM W (option GoError);
  patchNode : Node → Node → SM W (option GoError);
  getJob : NamespacedName → SM W (Res Job);
  createJob : Job → SM W (option GoError);
  (** With background propagation. *)
  deleteJob : Job → SM W (option GoError);
  getConfigMapData : NamespacedName → SM W (Res (gmap string string));
  getNodeMaintenance : NamespacedName → SM W (Res NodeMaintenance);
  createNodeMaintenance_api : NodeMaintenance → SM W (option GoError);
  patchNodeMaintenance : NodeMaintenance → NodeMaintenance → SM W (option GoError);
  deleteNodeMaintenance : NodeMaintenance → SM W (option GoError) }.

(** ** The log *)

Inductive MWrite :=
| MDelete (d : DPUNodeMaintenance) (r : option GoError)
| MPatch (base patched : DPUNodeMaintenance) (r : option GoError)
| MDPUNodeStatus (n : DPUNode) (r : option GoError)
| MDPUNode (base patched : DPUNode) (r : option GoError)
| MNodeUpdate (n : Node) (r : option GoError)
| MNode (base patched : Node) (r : option GoError)
| MCreateJob (j : Job) (r : option GoError)
| MDeleteJob (j : Job) (r : option GoError)
| MCreateNM (m : NodeMaintenance) (r : option GoError)
| MPatchNM (base patched : NodeMaintenance) (r : option GoError)
| MDeleteNM (m : NodeMaintenance) (r : option GoError).

Definition mtraced {W} (C : MaintenanceClient W) : MaintenanceClient (W * list MWrite) := {|
  getMaintenance k := unlogged (getMaintenance k);
  deleteMaintenance d := logged (MDelete d) (deleteMaintenance d);
  patchMaintenance d d' := logged (MPatch d d') (patchMaintenance d d');
  getDPUNode_m k := unlogged (getDPUNode_m k);
  listDPUNodes_m ns := unlogged (listDPUNodes_m ns);
  updateDPUNodeStatus n := logged (MDPUNodeStatus n) (updateDPUNodeStatus n);
  patchDPUNode n n' := logged (MDPUNode n n') (patchDPUNode n n');
  getNode name := unlogged (getNode name);
  updateNode n := logged (MNodeUpdate n) (updateNode n);
  patchNode n n' := logged (MNode n n') (patchNode n n');
  getJob k := unlogged (getJob k);
  createJob j := logged (MCreateJob j) (createJob j);
  deleteJob j := logged (MDeleteJob j) (deleteJob j);
  getConfigMapData k := unlogged (getConfigMapData k);
  getNodeMaintenance k := unlogged (getNodeMaintenance k);
  createNodeMaintenance_api m := logged (MCreateNM m) (createNodeMaintenance_api m);
  patchNodeMaintenance m m' := logged (MPatchNM m m') (patchNodeMaintenance m m');
  deleteNodeMaintenance m := logged (MDeleteNM m) (deleteNodeMaintenance m) |}.

(** ** The log with the reads that a removal is decided by *)

Inductive MEvent :=
| RDPUNode (k : NamespacedName) (r : Res DPUNode)
| RNode (name : string) (r : Res Node)
| RJob (k : NamespacedName) (r : Res Job)
| RNM (k : NamespacedName) (r : Res NodeMaintenance)
| MWrote (x : MWrite).

Definition mwatched {W} (C : MaintenanceClient W) : MaintenanceClient (W * list MEvent) := {|
  getMaintenance k := unlogged (getMaintenance k);
  deleteMaintenance d := logged (MWrote ∘ MDelete d) (deleteMaintenance d);
  patchMaintenance d d' := logged (MWrote ∘ MPatch d d') (patchMaintenance d d');
  getDPUNode_m k := logged (RDPUNode k) (getDPUNode_m k);
  listDPUNodes_m ns := unlogged (listDPUNodes_m ns);
  updateDPUNodeStatus n := logged (MWrote ∘ MDPUNodeStatus n) (updateDPUNodeStatus n);
  patchDPUNode n n' := logged (MWrote ∘ MDPUNode n n') (patchDPUNode n n');
  getNode name := logged (RNode name) (getNode name);
  updateNode n := logged (MWrote ∘ MNodeUpdate n) (updateNode n);
  patchNode n n' := logged (MWrote ∘ MNode n n') (patchNode n n');
  getJob k := logged (RJob k) (getJob k);
  createJob j := logged (MWrote ∘ MCreateJob j) (createJob j);
  deleteJob j := logged (MWrote ∘ MDeleteJob j) (deleteJob j);
  getConfigMapData k := unlogged (getConfigMapData k);
  getNodeMaintenance k := logged (RNM k) (getNodeMaintenance k);
  createNodeMaintenance_api m := logged (MWrote ∘ MCreateNM m) (createNodeMaintenance_api m);
  patchNodeMaintenance m m' := logged (MWrote ∘ MPatchNM m m') (patchNodeMaintenance m m');
  deleteNodeMaintenance m := logged (MWrote ∘ MDeleteNM m) (deleteNodeMaintenance m) |}.
