(* ===== verification/NodeEffectActions.v ===== *)
(** The node effects themselves (dpunodemaintenance_controller.go): how each is put
    on the host node and how it is taken back.

    The trace annotations that [InjectIntoObject] adds to an object before it is
    written are left out. *)

From S2P Require Import Prelude.
From S2P Require Import Meta.
From S2P Require Import Conditions.
From S2P Require Import DPUTypes.
From S2P Require Import Kubernetes.
From S2P Require Import FakeClient.
From S2P Require Import Allocator.
From S2P Require Import Maintenance.
From S2P Require Import ClusterMetadata.
From S2P Require Import WriteLog.
From S2P Require Import MaintenanceTypes.

(** [strconv.ParseBool] *)
Definition ParseBool (str : string) : Res bool :=
  if bool_decide (str ∈ ["1"; "t"; "T"; "true"; "TRUE"; "True"]) then Ok true
  else if bool_decide (str ∈ ["0"; "f"; "F"; "false"; "FALSE"; "False"]) then Ok false
  else Err (errorf ("strconv.ParseBool: parsing " +:+ quoted str +:+ ": invalid syntax")).

(** [client.IgnoreNotFound] *)
Definition IgnoreNotFound (e : option GoError) : option GoError :=
  match e with Some err => if IsNotFound err then None else e | None => None end.

(** What applying an effect returns: whether to come back later, and the error,
    which is also set when the effect is still being applied. *)
Abbreviation Applied := (bool * option GoError)%type (only parsing).

Section Actions.
Context {W : Type} {C : MaintenanceClient W} {K : Codec} {R : MapRange} {P : PodParser} {API : MetaAPI}.
Context (now : Time).

(** *** Labels *)

(** [AddLabelsToObject] of util.go on a node: the labels of the effect win. *)
Definition AddLabelsToObject (node : Node) (labels : gmap string string) : SM W (option GoError) :=
  patchNode node (with_no_Labels (labels ∪ no_Labels node) node).

Definition reconcileCustomLabel (nodeEffect : NodeEffect) (node : Node) : SM W (option GoError) :=
  AddLabelsToObject node (ac_CustomLabel (ne_Action nodeEffect)).

(** The labels without the keys of the effect. *)
Definition without_keys (keys labels : gmap string string) : gmap string string :=
  filter (λ kv, keys !! kv.1 = None) labels.

Definition removeNodeEffectCustomLabel (node : Node) (dpuNode : DPUNode) (nodeEffect : NodeEffect) : SM W (option GoError) :=
  let custom := ac_CustomLabel (ne_Action nodeEffect) in
  e ← patchNode node (with_no_Labels (without_keys custom (no_Labels node)) node);
  match e with
  | Some err => mret (Some (errorf ("failed to patch node " +:+ no_Name node +:+ " ,err: " +:+ err_msg err)))
  | None =>
      r ← getDPUNode_m (mkNN (dn_Namespace dpuNode) (dn_Name dpuNode));
      let name := dn_Namespace dpuNode +:+ "/" +:+ dn_Name dpuNode in
      match r with
      | Err err =>
          mret (if IsNotFound err then None
                else Some (wrapf ("failed to get DPUNode " +:+ name +:+ " before removing custom labels: ") err))
      | Ok latestDPUNode =>
          let labels := without_keys custom (dn_Labels latestDPUNode) in
          if bool_decide (labels = dn_Labels latestDPUNode) then mret None
          else
            e ← patchDPUNode latestDPUNode (with_dn_Labels labels latestDPUNode);
            mret (wrapf ("failed to patch DPUNode " +:+ dn_Namespace latestDPUNode +:+ "/" +:+ dn_Name latestDPUNode +:+ " after removing custom labels: ") <$> IgnoreNotFound e)
      end
  end.

(** *** Taints *)

Definition has_key (key : string) (t : Taint) : bool := bool_decide (tt_Key t = key).

Definition reconcileTaint (nodeEffect : NodeEffect) (node : Node) : SM W (option GoError) :=
  match ac_Taint (ne_Action nodeEffect) with
  | None => mret (Some nil_dereference)
  | Some taint =>
      if existsb (has_key (tt_Key taint)) (no_Taints node) then mret None
      else updateNode (with_no_Taints (no_Taints node ++ [taint]) node)
  end.

(** The loop that takes the first taint with the key out of the slice. *)
Fixpoint remove_first (key : string) (taints : list Taint) : list Taint :=
  match taints with
  | [] => []
  | t :: taints => if has_key key t then taints else t :: remove_first key taints
  end.

(** The text of the error names the taint by its key. *)
Definition removeNodeEffectTaint (node : Node) (nodeEffect : NodeEffect) : SM W (option GoError) :=
  match ac_Taint (ne_Action nodeEffect) with
  | None => mret (if bool_decide (no_Taints node = []) then None else Some nil_dereference)
  | Some taint =>
      if existsb (has_key (tt_Key taint)) (no_Taints node) then
        e ← patchNode node (with_no_Taints (remove_first (tt_Key taint) (no_Taints node)) node);
        mret ((λ err, errorf ("failed to patch node " +:+ no_Name node +:+ " after removing the Taint: "
                              +:+ tt_Key taint +:+ ", err: " +:+ err_msg err)) <$> e)
      else mret None
  end.

(** *** Drain *)

(** [DeleteObjects] of util.go on one object, whose kind is not set. *)
Definition DeleteObject (m : NodeMaintenance) : SM W (option GoError) :=
  e ← deleteNodeMaintenance m;
  mret (wrapf ("deleting error /, Kind= " +:+ nm_Namespace m +:+ " : " +:+ nm_Name m +:+ " err: ") <$> IgnoreNotFound e).

Definition createNodeMaintenance (owner : string) (nodeName namespace : string) : SM W (option GoError) :=
  createNodeMaintenance_api
    (mkNM nodeName namespace (Some owner) ProvisioningGroupName [] nodeName
       (Some (mkDrainSpec true true (ProvisioningComponentLabelKey +:+ "!=" +:+ "hostagent"))) []).

Definition checkNodeMaintenanceProgress (maintenance : NodeMaintenance) : bool :=
  match FindStatusCondition (nm_Conditions maintenance) NodeMaintenanceReady with
  | Some condition => status_is ConditionTrue condition
  | None => false
  end.

Definition reconcileDrain (d : DPUNodeMaintenance) : SM W Applied :=
  r ← getNodeMaintenance (mkNN (dnm_Namespace d) (dnm_DPUNodeName d));
  match r with
  | Err err =>
      if IsNotFound err then
        e ← createNodeMaintenance (dnm_Name d) (dnm_DPUNodeName d) (dnm_Namespace d);
        mret (match e with
              | Some err => (false, Some err)
              | None => (true, Some (errorf "NodeMaintenance is created"))
              end)
      else mret (false, Some err)
  | Ok maintenance =>
      mret (if checkNodeMaintenanceProgress maintenance then (false, None)
            else (true, Some (errorf "NodeMaintenance is in progress")))
  end.

Definition removeNodeEffectDrain (nodeName namespace : string) : SM W (option GoError) :=
  r ← getNodeMaintenance (mkNN namespace nodeName);
  match r with
  | Err err =>
      mret (if IsNotFound err then None
            else Some (errorf ("failed to get NodeMaintenance object, err: " +:+ err_msg err)))
  | Ok maintenance =>
      let patched := with_nm_AdditionalRequestors [] maintenance in
      e ← patchNodeMaintenance maintenance patched;
      match IgnoreNotFound e with
      | Some err => mret (Some (errorf ("failed to patch NodeMaintenance object after removing Spec.AdditionalRequestors, err: "
                                        +:+ err_msg err)))
      | None =>
          e ← DeleteObject patched;
          mret ((λ err, errorf ("failed to delete NodeMaintenance object, err: " +:+ err_msg err)) <$> e)
      end
  end.

(** *** Custom actions *)

(** The result of a job: finished or not, or an error.  A condition that is neither
    a success nor a failure is where the age of the job is looked at. *)
Fixpoint job_conditions (job : Job) (conds : list (string * ConditionStatus)) : Res bool :=
  match conds with
  | [] => Ok false
  | (type, status) :: conds =>
      let name := job_Namespace job +:+ "/" +:+ job_Name job in
      if bool_decide (type = JobComplete) && bool_decide (status = ConditionTrue) then Ok true
      else if bool_decide (type = JobFailed) && bool_decide (status = ConditionTrue)
      then Err (errorf ("job " +:+ name +:+ " failed"))
      else match job_StartTime job with
           | Some startTime =>
               if (now - startTime >? 10 * Minute)%Z then Err (errorf ("job " +:+ name +:+ " timed out"))
               else job_conditions job conds
           | None => job_conditions job conds
           end
  end.
Definition processJobConditions (job : Job) : Res bool := job_conditions job (job_Conditions job).

(** The last value, in the order of the map, under a key that contains yaml. *)
Definition pod_yaml (data : gmap string string) : string :=
  foldl (λ podYaml (kv : string * string), if strings_Contains kv.1 "yaml" then kv.2 else podYaml) "" (range_map data).

Definition createCustomActionJob (d : DPUNodeMaintenance) (nodeEffect : NodeEffect) (jobName : string) : SM W (option GoError) :=
  match ac_CustomAction (ne_Action nodeEffect) with
  | None => mret (Some nil_dereference)
  | Some customAction =>
      r ← getConfigMapData (mkNN (dnm_Namespace d) customAction);
      match r with
      | Err err => mret (Some err)
      | Ok data =>
          let podYaml := pod_yaml data in
          if bool_decide (podYaml = "") then mret (Some (errorf "no YAML file definition in CustomAction"))
          else match unmarshalPod podYaml with
               | Err err => mret (Some err)
               | Ok pod => createJob (mkJob jobName (dnm_Namespace d) pod [] None)
               end
      end
  end.

Definition reconcileCustomAction (d : DPUNodeMaintenance) (nodeEffect : NodeEffect) : SM W Applied :=
  match GenerateDPUNodeMaintenanceObjectName (dnm_DPUNodeName d) nodeEffect with
  | Err err => mret (false, Some err)
  | Ok jobName =>
      r ← getJob (mkNN (dnm_Namespace d) jobName);
      match r with
      | Err err =>
          if IsNotFound err then
            e ← createCustomActionJob d nodeEffect jobName;
            mret (match e with
                  | Some err => (false, Some err)
                  | None => (true, Some (errorf "job is being created"))
                  end)
          else mret (false, Some err)
      | Ok job =>
          mret (match processJobConditions job with
                | Err err => (false, Some (wrapf "failed to process job conditions: " err))
                | Ok true => (false, None)
                | Ok false => (true, Some (errorf "job is not finished"))
                end)
      end
  end.

Definition removeNodeEffectCustomAction (customJobName namespace : string) : SM W (option GoError) :=
  r ← getJob (mkNN namespace customJobName);
  match r with
  | Ok job =>
      e ← deleteJob job;
      mret (wrapf ("failed to delete custom action job " +:+ customJobName +:+ ": ") <$> e)
  | Err err =>
      mret (if IsNotFound err then None
            else Some (wrapf ("failed to get custom action job " +:+ customJobName +:+ ": ") err))
  end.

(** *** Hold *)

Definition waiting : Applied := (true, Some (errorf "DPUNodeMaintenance is in waiting for external node effect")).

(** The result, and the object with the annotation somebody else has to change. *)
Definition reconcileHold (d : DPUNodeMaintenance) : Applied * DPUNodeMaintenance :=
  match dnm_Annotations d !! HoldNodeEffectKey with
  | None =>
      (waiting, with_dnm_Spec (<[HoldNodeEffectKey := "true"]> (dnm_Annotations d)) (dnm_NodeEffect d) (dnm_Requestor d) d)
  | Some val =>
      (match ParseBool val with
       | Err err => (false, Some err)
       | Ok true => waiting
       | Ok false => (false, None)
       end, d)
  end.
End Actions.
