(* ===== verification/MaintenanceController.v ===== *)
(** The DPUNodeMaintenance controller (dpunodemaintenance_controller.go): when a node
    effect is applied, when it counts as applied, and when it is taken back.

    The clock is read once per reconcile.  The deferred patch is the last call of
    [Reconcile]. *)

From S2P Require Import Prelude.
From S2P Require Import Meta.
From S2P Require Import Conditions.
From S2P Require Import DPUTypes.
From S2P Require Import Kubernetes.
From S2P Require Import FakeClient.
From S2P Require Import Allocator.
From S2P Require Import Maintenance.
From S2P Require Import ClusterMetadata.
From S2P Require Import WriteLog.
From S2P Require Import TraceLogic.
From S2P Require Import MaintenanceTypes.
From S2P Require Import NodeEffectActions.

Definition defaultMaxUnavailableDPUNodes : Z := 50.

(** What a reconcile returns: when to come back, the error, and the object. *)
Abbreviation Result := (Z * option GoError * DPUNodeMaintenance)%type (only parsing).

Section Controller.
Context {W : Type} {C : MaintenanceClient W} {K : Codec} {R : MapRange} {P : PodParser} {API : MetaAPI} {FA : FinalizerAPI}.
Context (options : DPUNodeMaintenanceOptions) (now : Time).

Definition IsDPUNodeReady (dpuNode : DPUNode) : bool :=
  match FindStatusCondition (dn_Conditions dpuNode) DPUNodeConditionReady with
  | Some condition => status_is ConditionTrue condition
  | None => false
  end.

Definition ensureStatusDefaults (d : DPUNodeMaintenance) : DPUNodeMaintenance :=
  let wait := match dnm_MultiDPUOperationsSyncWaitTime d with
              | None => Some (MultiDPUOperationsSyncWaitTime options)
              | Some w => Some w
              end in
  let defaultMaxUnavailable :=
    if (MaxUnavailableDPUNodes options <? 1)%Z then defaultMaxUnavailableDPUNodes else MaxUnavailableDPUNodes options in
  let max := match dnm_MaxUnavailableDPUNodes d with
             | Some m => if (m <? 1)%Z then Some defaultMaxUnavailable else Some m
             | None => Some defaultMaxUnavailable
             end in
  with_dnm_Sync (dnm_NodeEffectSyncStartTime d) wait max d.

(** ** The gate *)

(** A node that counts as unavailable, now or in a moment. *)
Definition not_available (dn : DPUNode) : bool :=
  negb (IsDPUNodeReady dn) ||
  match FindStatusCondition (dn_Conditions dn) DPUNodeConditionNodeEffectInProgress with
  | Some condition => status_is ConditionTrue condition
  | None => false
  end.

Definition countOtherNotReadyDPUNodes (d : DPUNodeMaintenance) : SM W (Res Z) :=
  r ← listDPUNodes_m (dnm_Namespace d);
  mret (match r with
        | Err err => Err (wrapf "failed to list DPU nodes: " err)
        | Ok items =>
            Ok (foldl (λ nodeNotReadyCount dn,
                  if bool_decide (dnm_DPUNodeName d = dn_Name dn) then nodeNotReadyCount
                  else if not_available dn then wrap32 (nodeNotReadyCount + 1)
                  else nodeNotReadyCount) 0%Z items)
        end).

(** The effect has not been started. *)
Definition not_started (condition : option Condition) : bool :=
  match condition with
  | None => true
  | Some c => status_is ConditionFalse c && bool_decide (c_Reason c ≠ "NodeEffectIsProcessing")
  end.

(** The budget of unavailable nodes is used up and the effect has not been started. *)
Definition exceeds_budget (d : DPUNodeMaintenance) (nodeNotReadyCount : Z) : bool :=
  not_started (Get d ConditionNodeEffectApplied) &&
  match dnm_MaxUnavailableDPUNodes d with
  | Some max => (nodeNotReadyCount >=? max)%Z
  | None => false
  end.

(** The wait for other DPUs of the node. *)
Definition wait_for_sync (d : DPUNodeMaintenance) (dpuNode : DPUNode) : option Result :=
  if (1 <? Z.of_nat (length (dn_DPUs dpuNode)))%Z then
    match dnm_NodeEffectSyncStartTime d, dnm_MultiDPUOperationsSyncWaitTime d with
    | Some start, Some wait =>
        if (now - start <? wait)%Z then
          Some ((wait - (now - start))%Z, None,
            AddFalse now d ConditionNodeEffectApplied "NodeEffectSyncInProgress"
              "NodeEffect is waiting for MultiDPUOperationsSyncWaitTime to be reached")
        else None
    | _, _ => Some (0%Z, Some nil_dereference, d)
    end
  else None.

(** Nothing when the effect may proceed, otherwise the result. *)
Definition checkMaxUnavailableAndSyncWaitTime (d : DPUNodeMaintenance) (nodeEffect : NodeEffect) (dpuNode : DPUNode)
    : SM W (option Result) :=
  if bool_decide (ac_Force (ne_Action nodeEffect) = Some false) then
    r ← countOtherNotReadyDPUNodes d;
    mret (match r with
          | Err err => Some (0%Z, Some err, d)
          | Ok nodeNotReadyCount =>
              if exceeds_budget d nodeNotReadyCount then
                Some ((30 * Second)%Z, None,
                  AddFalse now d ConditionNodeEffectApplied ReasonPending
                    ("Number of not ready nodes would exceed maxUnavailableDPUNodes: " +:+ pretty nodeNotReadyCount
                     +:+ " >= " +:+ pretty (deref (dnm_MaxUnavailableDPUNodes d) 0%Z)))
              else wait_for_sync d dpuNode
          end)
  else mret None.

(** [SetStatusCondition] returns whether the call changed the conditions. *)
Definition updateDPUNodeEffectInProgress (namespace dpuNodeName : string) : SM W (option GoError) :=
  r ← getDPUNode_m (mkNN namespace dpuNodeName);
  match r with
  | Err err => mret (Some err)
  | Ok dpuNode =>
      let conditions := SetStatusCondition now (dn_Conditions dpuNode)
        (mkCondition DPUNodeConditionNodeEffectInProgress ConditionTrue 0 0 "NodeEffectInProgress" "") in
      if bool_decide (conditions = dn_Conditions dpuNode) then mret None
      else updateDPUNodeStatus (with_dn_Conditions conditions dpuNode)
  end.

(** ** Applying *)

(** The host node, or the empty node where there is none and none is needed. *)
Definition host_node (dpuNode : DPUNode) (nodeEffect : NodeEffect) : SM W (Res Node) :=
  match dn_KubeNodeRef dpuNode with
  | Some ref =>
      r ← getNode ref;
      mret (match r with
            | Ok node => Ok node
            | Err err =>
                if IsNotFound err then Err (errorf ("node " +:+ ref +:+ " not found during node effect removal"))
                else Err (wrapf ("failed to get node " +:+ ref +:+ " during node effect removal, err: ") err)
            end)
  | None =>
      mret (if IsCustomLabel nodeEffect || IsTaint nodeEffect || IsDrain nodeEffect
            then Err (errorf ("node effect " +:+ NodeEffect_String nodeEffect +:+ " is not supported for non k8s environment"))
            else Ok no_node)
  end.

(** The switch over the effect. *)
Definition apply_effect (d : DPUNodeMaintenance) (nodeEffect : NodeEffect) (node : Node) : SM W (Applied * DPUNodeMaintenance) :=
  let effect := NodeEffect_String nodeEffect in
  if bool_decide (effect = NodeEffectDrain) then a ← reconcileDrain d; mret (a, d)
  else if bool_decide (effect = NodeEffectTaint) then e ← reconcileTaint nodeEffect node; mret ((false, e), d)
  else if bool_decide (effect = NodeEffectCustomLabel) then e ← reconcileCustomLabel nodeEffect node; mret ((false, e), d)
  else if bool_decide (effect = NodeEffectCustomAction) then a ← reconcileCustomAction now d nodeEffect; mret (a, d)
  else if bool_decide (effect = NodeEffectHold) then mret (reconcileHold d)
  else mret ((false, None), d).

(** The condition is written, then the DPUNode is marked. *)
Definition mark_in_progress (d : DPUNodeMaintenance) (requeueAfter : Z) : SM W Result :=
  e ← updateDPUNodeEffectInProgress (dnm_Namespace d) (dnm_DPUNodeName d);
  mret (match e with Some err => (0%Z, Some err, d) | None => (requeueAfter, None, d) end).

(** [reconcile] once the gate is passed. *)
Definition reconcile_effect (d : DPUNodeMaintenance) (nodeEffect : NodeEffect) (node : Node) : SM W Result :=
  if IsNoEffect nodeEffect then mark_in_progress (AddTrue now d ConditionNodeEffectApplied) 0
  else
    r ← apply_effect d nodeEffect node;
    let d := r.2 in
    match r.1 with
    | (true, None) => mret (0%Z, Some nil_dereference, d)
    | (true, Some err) =>
        mark_in_progress (AddFalse now d ConditionNodeEffectApplied "NodeEffectIsProcessing"
                            ("Node effect is being applied: " +:+ err_msg err)) (10 * Second)
    | (false, Some err) =>
        mret (0%Z, Some err, AddFalse now d ConditionNodeEffectApplied ReasonError ("Error occurred: " +:+ err_msg err))
    | (false, None) => mark_in_progress (AddTrue now d ConditionNodeEffectApplied) 0
    end.

Definition with_sync_start (d : DPUNodeMaintenance) : DPUNodeMaintenance :=
  match dnm_NodeEffectSyncStartTime d with
  | None => with_dnm_Sync (Some now) (dnm_MultiDPUOperationsSyncWaitTime d) (dnm_MaxUnavailableDPUNodes d) d
  | Some _ => d
  end.

Definition reconcile (d : DPUNodeMaintenance) : SM W Result :=
  if IsNodeEffectApplied d then mret (0%Z, None, AddTrue now d ConditionNodeEffectApplied)
  else match dnm_NodeEffect d with
  | None => mret (0%Z, Some (errorf ("nodeEffect is nil for DPUNodeMaintenance " +:+ dnm_Namespace d +:+ "/" +:+ dnm_Name d)), d)
  | Some nodeEffect =>
      r ← getDPUNode_m (mkNN (dnm_Namespace d) (dnm_DPUNodeName d));
      match r with
      | Err err =>
          let name := dnm_DPUNodeName d in
          mret (0%Z, Some (if IsNotFound err then errorf ("DPU node " +:+ name +:+ " not found during node effect removal")
                           else wrapf ("failed to get DPU node " +:+ name +:+ " during node effect removal: ") err), d)
      | Ok dpuNode =>
          n ← host_node dpuNode nodeEffect;
          match n with
          | Err err => mret (0%Z, Some err, d)
          | Ok node =>
              let d := with_sync_start d in
              g ← checkMaxUnavailableAndSyncWaitTime d nodeEffect dpuNode;
              match g with
              | Some result => mret result
              | None => reconcile_effect d nodeEffect node
              end
          end
      end
  end.

(** ** Taking back *)

(** The switch over the effect. *)
Definition remove_effect (d : DPUNodeMaintenance) (nodeEffect : NodeEffect) (dpuNode : DPUNode) (node : Node)
    : SM W (option GoError) :=
  let effect := NodeEffect_String nodeEffect in
  if bool_decide (effect = NodeEffectNoEffect) then mret None
  else if bool_decide (effect = NodeEffectDrain) then removeNodeEffectDrain (no_Name node) (dnm_Namespace d)
  else if bool_decide (effect = NodeEffectTaint) then removeNodeEffectTaint node nodeEffect
  else if bool_decide (effect = NodeEffectCustomLabel) then removeNodeEffectCustomLabel node dpuNode nodeEffect
  else if bool_decide (effect = NodeEffectCustomAction) then
    match GenerateDPUNodeMaintenanceObjectName (dnm_DPUNodeName d) nodeEffect with
    | Err err => mret (Some err)
    | Ok jobName => removeNodeEffectCustomAction jobName (dnm_Namespace d)
    end
  else if bool_decide (effect = NodeEffectHold) then mret None
  else mret (Some (errorf ("unknown node effect: " +:+ effect))).

Definition handleNodeEffectRemoval (d : DPUNodeMaintenance) : SM W (option GoError) :=
  match dnm_NodeEffect d with
  | None => mret (Some (errorf ("nodeEffect is nil for DPUNodeMaintenance " +:+ dnm_Namespace d +:+ "/" +:+ dnm_Name d)))
  | Some nodeEffect =>
      r ← getDPUNode_m (mkNN (dnm_Namespace d) (dnm_DPUNodeName d));
      match r with
      | Err err =>
          let name := dnm_DPUNodeName d in
          mret (if IsNotFound err then
                  if IsNoEffect nodeEffect || IsHold nodeEffect then None
                  else Some (errorf ("DPU node " +:+ name +:+ " not found during node effect removal"))
                else Some (wrapf ("failed to get DPU node " +:+ name +:+ " during node effect removal: ") err))
      | Ok dpuNode =>
          n ← host_node dpuNode nodeEffect;
          match n with
          | Err err => mret (Some err)
          | Ok node => remove_effect d nodeEffect dpuNode node
          end
      end
  end.

(** The effect is taken back and the finalizer goes. *)
Definition release (d : DPUNodeMaintenance) : SM W Result :=
  e ← handleNodeEffectRemoval d;
  mret (match e with
        | Some err => (0%Z, Some err, d)
        | None => (0%Z, None, with_dnm_Finalizers (RemoveFinalizer (dnm_Finalizers d) DPUNodeMaintenanceFinalizer) d)
        end).

Definition reconcileDelete (d : DPUNodeMaintenance) : SM W Result :=
  if bool_decide (dnm_Requestor d = []) then release d
  else
    r ← getDPUNode_m (mkNN (dnm_Namespace d) (dnm_DPUNodeName d));
    match r with
    | Err err =>
        if IsNotFound err then release (with_dnm_Spec (dnm_Annotations d) (dnm_NodeEffect d) [] d)
        else mret (0%Z, Some err, d)
    | Ok _ => mret (0%Z, None, d)
    end.

(** ** The reconcile *)

(** Up to the deferred patch. *)
Definition reconcile_object (d : DPUNodeMaintenance) : SM W Result :=
  let live := timep_is_zero (dnm_DeletionTimestamp d) in
  if live && negb (ContainsFinalizer (dnm_Finalizers d) DPUNodeMaintenanceFinalizer)
  then mret (0%Z, None, with_dnm_Finalizers (AddFinalizer (dnm_Finalizers d) DPUNodeMaintenanceFinalizer) d)
  else if negb live then reconcileDelete d
  else if bool_decide (dnm_Requestor d = []) then
    e ← deleteMaintenance d;
    mret (0%Z, e, d)
  else reconcile d.

(** [Reconcile]: when to come back, and the errors. *)
Definition Reconcile (key : NamespacedName) : SM W (Z * list GoError) :=
  r ← getMaintenance key;
  match r with
  | Err err => mret (0%Z, if IsNotFound err then [] else [err])
  | Ok base =>
      r ← reconcile_object (ensureStatusDefaults base);
      e ← patchMaintenance base r.2;
      mret (r.1.1, option_list r.1.2 ++ option_list e)
  end.
End Controller.

(** ** What applying and taking back may write *)

Section EffectWrites.
Context {W : Type} {C : MaintenanceClient W} {K : Codec} {R : MapRange} {P : PodParser} {API : MetaAPI} {FA : FinalizerAPI}.
Context (options : DPUNodeMaintenanceOptions) (now : Time).

(** The writes by which an effect is put on the host node. *)
Definition apply_write (d : DPUNodeMaintenance) (nodeEffect : NodeEffect) (x : MWrite) : Prop :=
  let effect := NodeEffect_String nodeEffect in
  match x with
  | MNodeUpdate n _ => effect = NodeEffectTaint ∧ ∃ node t, ac_Taint (ne_Action nodeEffect) = Some t ∧
      existsb (has_key (tt_Key t)) (no_Taints node) = false ∧ n = with_no_Taints (no_Taints node ++ [t]) node
  | MNode node n _ => effect = NodeEffectCustomLabel ∧
      n = with_no_Labels (ac_CustomLabel (ne_Action nodeEffect) ∪ no_Labels node) node
  | MCreateJob j _ => effect = NodeEffectCustomAction ∧ job_Namespace j = dnm_Namespace d ∧
      GenerateDPUNodeMaintenanceObjectName (dnm_DPUNodeName d) nodeEffect = Ok (job_Name j)
  | MCreateNM m _ => effect = NodeEffectDrain ∧ nm_Name m = dnm_DPUNodeName d ∧ nm_Namespace m = dnm_Namespace d ∧
      nm_Owner m = Some (dnm_Name d)
  | _ => False
  end.

(** The writes by which it is taken back. *)
Definition undo_write (d : DPUNodeMaintenance) (nodeEffect : NodeEffect) (x : MWrite) : Prop :=
  let effect := NodeEffect_String nodeEffect in
  let custom := ac_CustomLabel (ne_Action nodeEffect) in
  match x with
  | MNode node n _ =>
      (effect = NodeEffectTaint ∧ ∃ t, ac_Taint (ne_Action nodeEffect) = Some t ∧
         n = with_no_Taints (remove_first (tt_Key t) (no_Taints node)) node) ∨
      (effect = NodeEffectCustomLabel ∧ n = with_no_Labels (without_keys custom (no_Labels node)) node)
  | MDPUNode dn dn' _ => effect = NodeEffectCustomLabel ∧ dn' = with_dn_Labels (without_keys custom (dn_Labels dn)) dn
  | MDeleteJob _ _ => effect = NodeEffectCustomAction
  | MPatchNM m m' _ => effect = NodeEffectDrain ∧ m' = with_nm_AdditionalRequestors [] m
  | MDeleteNM _ _ => effect = NodeEffectDrain
  | _ => False
  end.

(** Why an effect counts as applied. *)
Definition evidence (d : DPUNodeMaintenance) (nodeEffect : NodeEffect) (log : list MWrite) : Prop :=
  let effect := NodeEffect_String nodeEffect in
  (effect = NodeEffectDrain → ∃ m w, (getNodeMaintenance (mkNN (dnm_Namespace d) (dnm_DPUNodeName d)) w).1 = Ok m ∧
     checkNodeMaintenanceProgress m = true) ∧
  (effect = NodeEffectTaint → ∃ t, ac_Taint (ne_Action nodeEffect) = Some t ∧
     ((∃ ref node w, (getNode ref w).1 = Ok node ∧ existsb (has_key (tt_Key t)) (no_Taints node) = true) ∨
      ∃ node, MNodeUpdate (with_no_Taints (no_Taints node ++ [t]) node) None ∈ log)) ∧
  (effect = NodeEffectCustomLabel → ∃ node,
     MNode node (with_no_Labels (ac_CustomLabel (ne_Action nodeEffect) ∪ no_Labels node) node) None ∈ log) ∧
  (effect = NodeEffectCustomAction → ∃ name job w,
     GenerateDPUNodeMaintenanceObjectName (dnm_DPUNodeName d) nodeEffect = Ok name ∧
     (getJob (mkNN (dnm_Namespace d) name) w).1 = Ok job ∧ processJobConditions now job = Ok true) ∧
  (effect = NodeEffectHold → ∃ val, dnm_Annotations d !! HoldNodeEffectKey = Some val ∧ ParseBool val = Ok false).

(** Of the five cases one is the effect. *)
Ltac one_effect E := split_and!; intros E'; rewrite E in E'; try discriminate E'; clear E'.

Lemma evidence_none d nodeEffect log :
  NodeEffect_String nodeEffect ∉ [NodeEffectDrain; NodeEffectTaint; NodeEffectCustomLabel; NodeEffectCustomAction; NodeEffectHold] →
  evidence d nodeEffect log.
Proof. intros H. split_and!; intros E; destruct H; rewrite E; repeat (left || right); by constructor. Qed.

Lemma reconcileDrain_log d (w : W) l :
  let r := reconcileDrain (C:=mtraced C) d (w, l) in
  ∃ k, r.2.2 = l ++ k ∧
    Forall (λ x, match x with
                 | MCreateNM m _ => nm_Name m = dnm_DPUNodeName d ∧ nm_Namespace m = dnm_Namespace d ∧ nm_Owner m = Some (dnm_Name d)
                 | _ => False
                 end) k ∧
    (r.1 = (false, None) → ∃ m w, (getNodeMaintenance (mkNN (dnm_Namespace d) (dnm_DPUNodeName d)) w).1 = Ok m ∧
       checkNodeMaintenanceProgress m = true).
Proof.
  unfold reconcileDrain, createNodeMaintenance, mbind, SM_bind. simpl. unfold unlogged, logged. simpl.
  destruct (getNodeMaintenance _ w) as [[m|e] w1] eqn:Eg; simpl.
  - exists []. rewrite app_nil_r. destruct (checkNodeMaintenanceProgress m) eqn:Ec; (split; [done|]); (split; [done|]); [|done].
    intros _. exists m, w. by rewrite Eg.
  - destruct (IsNotFound e); simpl; [|exists []; by rewrite app_nil_r].
    destruct (createNodeMaintenance_api _ w1) as [[e'|] w2]; simpl; eexists; (split; [done|]); split; try done; by apply Forall_singleton.
Qed.

Lemma createCustomActionJob_emits d nodeEffect name :
  emits (λ x, match x with MCreateJob j _ => job_Namespace j = dnm_Namespace d ∧ job_Name j = name | _ => False end)
    (createCustomActionJob (C:=mtraced C) d nodeEffect name).
Proof. unfold createCustomActionJob. emits. done. Qed.

Lemma reconcileCustomAction_log d nodeEffect (w : W) l :
  let r := reconcileCustomAction (C:=mtraced C) now d nodeEffect (w, l) in
  ∃ k, r.2.2 = l ++ k ∧
    Forall (λ x, match x with
                 | MCreateJob j _ => job_Namespace j = dnm_Namespace d ∧
                     GenerateDPUNodeMaintenanceObjectName (dnm_DPUNodeName d) nodeEffect = Ok (job_Name j)
                 | _ => False
                 end) k ∧
    (r.1 = (false, None) → ∃ name job w, GenerateDPUNodeMaintenanceObjectName (dnm_DPUNodeName d) nodeEffect = Ok name ∧
       (getJob (mkNN (dnm_Namespace d) name) w).1 = Ok job ∧ processJobConditions now job = Ok true).
Proof.
  unfold reconcileCustomAction. destruct (GenerateDPUNodeMaintenanceObjectName _ _) as [name|e] eqn:En.
  2: { exists []. by rewrite app_nil_r. }
  unfold mbind, SM_bind. simpl. unfold unlogged. simpl. destruct (getJob _ w) as [[job|e] w1] eqn:Eg; simpl.
  - exists []. rewrite app_nil_r. split; [done|]. split; [done|]. destruct (processJobConditions now job) as [[]|] eqn:Ep; [|done..].
    intros _. exists name, job, w. by rewrite Eg.
  - destruct (IsNotFound e); simpl; [|exists []; by rewrite app_nil_r].
    destruct (createCustomActionJob_emits d nodeEffect name w1 l) as (k & Hk & Hf).
    destruct (createCustomActionJob _ _ _ (w1, l)) as [[e'|] [w2 l2]]; simpl in *; subst l2; exists k; (split; [done|]);
      (split; [|done]); (eapply Forall_impl; [exact Hf|]); intros [] Hx; try done; destruct Hx as [? ->]; done.
Qed.

Lemma apply_effect_log d nodeEffect node (w : W) l :
  (∃ ref w0, (getNode ref w0).1 = Ok node) ∨ node = no_node →
  let r := apply_effect (C:=mtraced C) now d nodeEffect node (w, l) in
  ∃ k ann, r.2.2 = l ++ k ∧ Forall (apply_write d nodeEffect) k ∧ (r.1.1 = (false, None) → evidence d nodeEffect k) ∧
    r.1.2 = with_dnm_Spec ann (dnm_NodeEffect d) (dnm_Requestor d) d.
Proof.
  intros Hnode. assert (d = with_dnm_Spec (dnm_Annotations d) (dnm_NodeEffect d) (dnm_Requestor d) d) as Hd by (by destruct d).
  cbn zeta. unfold apply_effect. unfold mbind, SM_bind.
  case_bool_decide as E1; [|case_bool_decide as E2; [|case_bool_decide as E3; [|case_bool_decide as E4; [|case_bool_decide as E5]]]].
  - destruct (reconcileDrain_log d w l) as (k & Hk & Hf & He). destruct (reconcileDrain _ (w, l)) as [a [w1 l1]]. simpl in *. subst l1.
    exists k, (dnm_Annotations d). split; [done|]. split; [|split; [|done]].
    + eapply Forall_impl; [exact Hf|]. by intros [].
    + intros Ha. one_effect E1. by apply He.
  - unfold reconcileTaint. destruct (ac_Taint (ne_Action nodeEffect)) as [t|] eqn:Et.
    2: { exists [], (dnm_Annotations d). rewrite app_nil_r. split; [done|]. split; [done|]. done. }
    destruct (existsb _ _) eqn:Ex; simpl.
    + exists [], (dnm_Annotations d). rewrite app_nil_r. split; [done|]. split; [done|]. split; [|done]. intros _. one_effect E2.
      exists t. split; [done|]. left. destruct Hnode as [(ref & w0 & Hn)| ->]; [by exists ref, node, w0|done].
    + unfold logged. simpl. destruct (updateNode _ w) as [e w1]. simpl. eexists [_], (dnm_Annotations d). split; [done|]. split.
      * apply Forall_singleton. split; [done|]. by exists node, t.
      * split; [|done]. intros [= ->]. one_effect E2. exists t. split; [done|]. right. exists node. by left.
  - unfold reconcileCustomLabel, AddLabelsToObject. simpl. unfold logged. simpl. destruct (patchNode _ _ w) as [e w1]. simpl.
    eexists [_], (dnm_Annotations d). split; [done|]. split; [by apply Forall_singleton|]. split; [|done].
    intros [= ->]. one_effect E3. exists node. by left.
  - destruct (reconcileCustomAction_log d nodeEffect w l) as (k & Hk & Hf & He).
    destruct (reconcileCustomAction _ _ _ (w, l)) as [a [w1 l1]]. simpl in *. subst l1.
    exists k, (dnm_Annotations d). split; [done|]. split; [|split; [|done]].
    + eapply Forall_impl; [exact Hf|]. by intros [].
    + intros Ha. one_effect E4. by apply He.
  - exists []. unfold reconcileHold. destruct (dnm_Annotations d !! HoldNodeEffectKey) as [val|] eqn:Ev; simpl; rewrite app_nil_r.
    + exists (dnm_Annotations d). split; [done|]. split; [done|]. split; [|done].
      destruct (ParseBool val) as [[]|] eqn:Ep; [done| |done]. intros _. one_effect E5. by exists val.
    + eexists. split; [done|]. split; [done|]. split; [done|reflexivity].
  - exists [], (dnm_Annotations d). rewrite app_nil_r. split; [done|]. split; [done|]. split; [|done]. intros _.
    apply evidence_none. rewrite !not_elem_of_cons. split_and!; [done..|apply not_elem_of_nil].
Qed.

End EffectWrites.

(** ** The gate and the condition *)

Section GateAndCondition.
Context {W : Type} {C : MaintenanceClient W} {K : Codec} {R : MapRange} {P : PodParser}.
Context {API : MetaAPI} {AL : MetaAPILaws API} {FA : FinalizerAPI}.
Context (options : DPUNodeMaintenanceOptions) (now : Time).

Lemma applied_add d status reason message :
  IsNodeEffectApplied (add now d status ConditionNodeEffectApplied reason message) = bool_decide (status = ConditionTrue).
Proof.
  unfold IsNodeEffectApplied, add. simpl. rewrite meta_find.
  destruct (meta_set_same now (dnm_Conditions d) (mkCondition ConditionNodeEffectApplied status (dnm_Generation d) 0 reason message))
    as (c' & Hc & _ & Hs & _). simpl in Hc, Hs. rewrite Hc. unfold status_is. by rewrite Hs.
Qed.

Lemma wrap32_succ z : wrap32 (wrap32 z + 1) = wrap32 (z + 1).
Proof.
  unfold wrap32. f_equal.
  replace ((z + 2 ^ 31) mod 2 ^ 32 - 2 ^ 31 + 1 + 2 ^ 31)%Z with ((z + 2 ^ 31) mod 2 ^ 32 + 1)%Z by lia.
  rewrite Zplus_mod_idemp_l. f_equal. lia.
Qed.

(** The other nodes that are not available. *)
Definition others_unavailable (d : DPUNodeMaintenance) (items : list DPUNode) : list DPUNode :=
  filter (λ dn, dn_Name dn ≠ dnm_DPUNodeName d ∧ not_available dn = true) items.

Lemma count_others d items :
  foldl (λ n dn, if bool_decide (dnm_DPUNodeName d = dn_Name dn) then n
                 else if not_available dn then wrap32 (n + 1) else n) 0%Z items =
  wrap32 (Z.of_nat (length (others_unavailable d items))).
Proof.
  assert (∀ k, foldl (λ n dn, if bool_decide (dnm_DPUNodeName d = dn_Name dn) then n
                 else if not_available dn then wrap32 (n + 1) else n) (wrap32 k) items =
    wrap32 (k + Z.of_nat (length (others_unavailable d items)))) as H; [|exact (H 0%Z)].
  induction items as [|dn items IH]; intros k; simpl; [by rewrite Z.add_0_r|].
  unfold others_unavailable. rewrite filter_cons. fold (others_unavailable d items).
  case_bool_decide as En.
  - rewrite decide_False by naive_solver. apply IH.
  - destruct (not_available dn) eqn:Ea.
    + rewrite decide_True by naive_solver. rewrite wrap32_succ, IH. f_equal. simpl. lia.
    + rewrite decide_False by naive_solver. apply IH.
Qed.

Definition may_start (d : DPUNodeMaintenance) (items : list DPUNode) : Prop :=
  not_started (Get d ConditionNodeEffectApplied) = false ∨
  ∀ max, dnm_MaxUnavailableDPUNodes d = Some max → (wrap32 (Z.of_nat (length (others_unavailable d items))) < max)%Z.
Definition waited (d : DPUNodeMaintenance) (dpuNode : DPUNode) : Prop :=
  length (dn_DPUs dpuNode) ≤ 1 ∨
  ∃ start wait, dnm_NodeEffectSyncStartTime d = Some start ∧ dnm_MultiDPUOperationsSyncWaitTime d = Some wait ∧
    (wait <= now - start)%Z.

Lemma exceeds_budget_spec d items :
  exceeds_budget d (wrap32 (Z.of_nat (length (others_unavailable d items)))) = false ↔ may_start d items.
Proof.
  unfold exceeds_budget, may_start. destruct (not_started _); simpl; [|split; [by left|done]].
  destruct (dnm_MaxUnavailableDPUNodes d) as [max|]; [|split; [by right|done]]. split.
  - intros H. right. intros ? [= <-]. lia.
  - intros [?|H]; [done|]. specialize (H _ eq_refl). lia.
Qed.

Definition blocked (d : DPUNodeMaintenance) (r : Result) : Prop :=
  r.1 ≠ (0%Z, None) ∧ (r.2 = d ∨ ∃ reason message, r.2 = AddFalse now d ConditionNodeEffectApplied reason message).

Lemma wait_for_sync_spec d dpuNode :
  (wait_for_sync now d dpuNode = None ↔ waited d dpuNode) ∧ ∀ r, wait_for_sync now d dpuNode = Some r → blocked d r.
Proof.
  unfold wait_for_sync, waited. destruct (1 <? _)%Z eqn:El; [|split; [split; [left; lia|done]|done]].
  destruct (dnm_NodeEffectSyncStartTime d) as [start|], (dnm_MultiDPUOperationsSyncWaitTime d) as [wait|].
  2-4: split; [split; [done|]; intros [?|(? & ? & [=] & [=] & _)]; lia|intros r [= <-]; split; [done|by left]].
  destruct (now - start <? wait)%Z eqn:Ew.
  - split; [split; [done|]; intros [?|(? & ? & [= <-] & [= <-] & ?)]; lia|]. intros r [= <-]. split; [|right; by eexists _, _].
    intros [= ?]. lia.
  - split; [split; [|done]|done]. intros _. right. exists start, wait. split; [done|]. split; [done|lia].
Qed.

Lemma gate_log d nodeEffect dpuNode (w : W) l :
  let g := checkMaxUnavailableAndSyncWaitTime (C:=mtraced C) now d nodeEffect dpuNode (w, l) in
  g.2.2 = l ∧
  (g.1 = None ↔
   ac_Force (ne_Action nodeEffect) ≠ Some false ∨
   ∃ items, (listDPUNodes_m (dnm_Namespace d) w).1 = Ok items ∧ may_start d items ∧ waited d dpuNode) ∧
  (∀ r, g.1 = Some r → blocked d r).
Proof.
  cbn zeta. unfold checkMaxUnavailableAndSyncWaitTime. case_bool_decide as Ef; [|naive_solver].
  unfold mbind, SM_bind, countOtherNotReadyDPUNodes, mbind, SM_bind. simpl. unfold unlogged. simpl.
  destruct (listDPUNodes_m _ w) as [[items|e] w1]; simpl.
  2: { split; [done|]. split; [|intros r [= <-]; split; [done|by left]]. split; [done|]. intros [?|(items & [=] & _)]; done. }
  split; [done|]. rewrite count_others. pose proof (exceeds_budget_spec d items) as Hb.
  destruct (wait_for_sync_spec d dpuNode) as [Hw Hr]. destruct (exceeds_budget _ _).
  - split; [split; [done|]|intros r [= <-]; split; [done|right; by eexists _, _]].
    intros [?|(its & [= <-] & H & _)]; [done|]. by apply Hb in H.
  - split; [|exact Hr]. rewrite Hw. split; [intros H; right; exists items; naive_solver|].
    intros [?|(its & [= <-] & _ & H)]; done.
Qed.

(** *** A pass over a live object *)

(** Nothing but the status and the annotations differs. *)
Definition same_dnm (d d' : DPUNodeMaintenance) : Prop :=
  dnm_Name d' = dnm_Name d ∧ dnm_Namespace d' = dnm_Namespace d ∧ dnm_Finalizers d' = dnm_Finalizers d ∧
  dnm_DeletionTimestamp d' = dnm_DeletionTimestamp d ∧ dnm_DPUNodeName d' = dnm_DPUNodeName d ∧
  dnm_NodeEffect d' = dnm_NodeEffect d ∧ dnm_Requestor d' = dnm_Requestor d.

(** The gate was open for the effect. *)
Definition gate_open (d : DPUNodeMaintenance) (nodeEffect : NodeEffect) : Prop :=
  ac_Force (ne_Action nodeEffect) ≠ Some false ∨
  ∃ items dpuNode (w w0 : W), (listDPUNodes_m (dnm_Namespace d) w).1 = Ok items ∧
    (getDPUNode_m (mkNN (dnm_Namespace d) (dnm_DPUNodeName d)) w0).1 = Ok dpuNode ∧
    may_start (with_sync_start now d) items ∧ waited (with_sync_start now d) dpuNode.

(** What a pass over [d] did. *)
Definition pass (d : DPUNodeMaintenance) (r : Result) (k : list MWrite) : Prop :=
  Forall (λ x, IsNodeEffectApplied d = false ∧ ∃ ne, dnm_NodeEffect d = Some ne ∧ gate_open d ne ∧
            (apply_write d ne x ∨ ∃ n e, x = MDPUNodeStatus n e)) k ∧
  (IsNodeEffectApplied r.2 = true → IsNodeEffectApplied d = true ∨
     ∃ ne, dnm_NodeEffect d = Some ne ∧ gate_open d ne ∧ (IsNoEffect ne = true ∨ evidence (C:=C) now d ne k)) ∧
  (r.1 = (0%Z, None) → IsNodeEffectApplied r.2 = true) ∧
  same_dnm d r.2.

Lemma mark_in_progress_log d rq (w : W) l :
  let r := mark_in_progress (C:=mtraced C) now d rq (w, l) in
  r.1.2 = d ∧ (r.1.1 = (rq, None) ∨ ∃ e, r.1.1 = (0%Z, Some e)) ∧
  ∃ k, r.2.2 = l ++ k ∧ Forall (λ x, ∃ n e, x = MDPUNodeStatus n e) k.
Proof.
  assert (emits (λ x, ∃ n e, x = MDPUNodeStatus n e) (updateDPUNodeEffectInProgress (C:=mtraced C) now (dnm_Namespace d) (dnm_DPUNodeName d))) as He.
  { unfold updateDPUNodeEffectInProgress. emits. by eexists _, _. }
  unfold mark_in_progress, mbind, SM_bind. destruct (He w l) as (k & Hk & Hf).
  destruct (updateDPUNodeEffectInProgress _ _ _ (w, l)) as [[e|] [w1 l1]]; simpl in *; subst l1; (split; [done|]);
    (split; [|by exists k]); [right; by exists e|by left].
Qed.

Lemma mark_pass d d' rq ne k (w : W) l :
  IsNodeEffectApplied d = false → dnm_NodeEffect d = Some ne → gate_open d ne → same_dnm d d' →
  Forall (apply_write d ne) k → (IsNodeEffectApplied d' = true ↔ rq = 0%Z) → (rq = 0%Z → IsNoEffect ne = true ∨ evidence (C:=C) now d ne k) →
  let r := mark_in_progress (C:=mtraced C) now d' rq (w, l ++ k) in ∃ k', r.2.2 = l ++ k' ∧ pass d r.1 k'.
Proof.
  intros Ha Hne Hg Hs Hk Hrq He. cbn zeta. destruct (mark_in_progress_log d' rq w (l ++ k)) as (Hd & Hr & k2 & -> & Hk2).
  exists (k ++ k2). rewrite app_assoc. split; [done|]. split; [|split; [|split]].
  - apply Forall_app. split; (eapply Forall_impl; [done|]); intros x Hx; (split; [done|]); exists ne; auto.
  - rewrite Hd. intros Ht%Hrq. right. exists ne. split; [done|]. split; [done|]. 
    destruct (He Ht) as [?|(H1 & H2 & H3 & H4 & H5)]; [by left|right].
    split_and!; [exact H1| | |exact H4|exact H5].
    + intros E. destruct (H2 E) as (t & ? & [?|(node & ?)]); exists t; (split; [done|]); [by left|right]. exists node. apply elem_of_app. by left.
    + intros E. destruct (H3 E) as (node & ?). exists node. apply elem_of_app. by left.
  - rewrite Hd, Hrq. destruct Hr as [->|(e & ->)]; [by intros [=]|done].
  - by rewrite Hd.
Qed.

Lemma pass_skip d (r : Result) :
  r.1 ≠ (0%Z, None) → same_dnm d r.2 → (IsNodeEffectApplied r.2 = true → IsNodeEffectApplied d = true) → pass d r [].
Proof. intros H1 H2 H3. split; [done|]. split; [auto|]. split; [by intros ?|done]. Qed.

Lemma reconcile_effect_pass d ne node (w : W) l :
  IsNodeEffectApplied d = false → dnm_NodeEffect d = Some ne → gate_open d ne →
  (∃ ref w0, (getNode ref w0).1 = Ok node) ∨ node = no_node →
  let r := reconcile_effect (C:=mtraced C) now (with_sync_start now d) ne node (w, l) in
  ∃ k, r.2.2 = l ++ k ∧ pass d r.1 k.
Proof.
  intros Ha Hne Hg Hnode. cbn zeta.
  assert (same_dnm d (with_sync_start now d)) as Hd by (unfold with_sync_start; by destruct (dnm_NodeEffectSyncStartTime d)).
  assert (dnm_Conditions (with_sync_start now d) = dnm_Conditions d ∧ dnm_Annotations (with_sync_start now d) = dnm_Annotations d)
    as [Hc Hann] by (unfold with_sync_start; by destruct (dnm_NodeEffectSyncStartTime d)).
  assert (∀ k, evidence (C:=C) now (with_sync_start now d) ne k → evidence (C:=C) now d ne k) as Hev.
  { intros k. unfold evidence. destruct Hd as (_ & -> & _ & _ & -> & _ & _). by rewrite Hann. }
  assert (∀ x, apply_write (with_sync_start now d) ne x → apply_write d ne x) as Hap.
  { intros x. unfold apply_write. destruct Hd as (-> & -> & _ & _ & -> & _ & _). done. }
  unfold reconcile_effect. destruct (IsNoEffect ne) eqn:En.
  { pose proof (mark_pass d (AddTrue now (with_sync_start now d) ConditionNodeEffectApplied) 0 ne [] w l) as Hm.
    rewrite app_nil_r in Hm. apply Hm; [done|done|done|exact Hd|done| |auto]. unfold AddTrue. by rewrite applied_add. }
  unfold mbind, SM_bind.
  destruct (apply_effect_log (C:=C) now (with_sync_start now d) ne node w l Hnode) as (k & ann & Hk & Hf & He & Hr).
  destruct (apply_effect _ _ _ _ (w, l)) as [[[rq e] d'] [w1 l1]]. cbn [fst snd] in *. subst l1 d'.
  assert (Forall (apply_write d ne) k) as Hf' by (eapply Forall_impl; [exact Hf|exact Hap]).
  assert (∀ s r m, same_dnm d (add now (with_dnm_Spec ann (dnm_NodeEffect (with_sync_start now d)) (dnm_Requestor (with_sync_start now d))
    (with_sync_start now d)) s ConditionNodeEffectApplied r m)) as Hs by (intros; exact Hd).
  destruct rq, e as [e|].
  - apply (mark_pass d _ _ ne); [done..|apply Hs|done| |done]. unfold AddFalse. rewrite applied_add. by split.
  - exists k. split; [done|]. split; [|split; [|split; [done|exact Hd]]].
    + eapply Forall_impl; [exact Hf'|]. intros x Hx. split; [done|]. exists ne. auto.
    + cbn [snd]. unfold IsNodeEffectApplied. simpl. rewrite Hc. fold (IsNodeEffectApplied d). auto.
  - exists k. split; [done|]. split; [|split; [|split; [done|apply Hs]]].
    + eapply Forall_impl; [exact Hf'|]. intros x Hx. split; [done|]. exists ne. auto.
    + unfold mret, SM_ret, AddFalse. cbn [fst snd]. by rewrite applied_add.
  - apply (mark_pass d _ _ ne); [done..|apply Hs|done| |]; [unfold AddTrue; by rewrite applied_add|].
    intros _. right. apply Hev, He. done.
Qed.

Lemma reconcile_pass d (w : W) l :
  let r := reconcile (C:=mtraced C) now d (w, l) in ∃ k, r.2.2 = l ++ k ∧ pass d r.1 k.
Proof.
  assert (same_dnm d d) as Hrefl by done.
  assert (same_dnm d (with_sync_start now d)) as Hd by (unfold with_sync_start; by destruct (dnm_NodeEffectSyncStartTime d)).
  assert (∀ r : Result, r.1 ≠ (0%Z, None) → r.2 = d → ∃ k, l = l ++ k ∧ pass d r k) as Hskip.
  { intros r H1 H2. exists []. rewrite app_nil_r. split; [done|]. by apply pass_skip; rewrite ?H2. }
  cbn zeta. unfold reconcile. destruct (IsNodeEffectApplied d) eqn:Ha.
  { exists []. rewrite app_nil_r. split; [done|]. split; [done|]. split; [auto|]. split; [|done].
    intros _. unfold mret, SM_ret, AddTrue. cbn [fst snd]. by rewrite applied_add. }
  destruct (dnm_NodeEffect d) as [ne|] eqn:Hne; [|by apply Hskip].
  unfold mbind, SM_bind. cbn [getDPUNode_m mtraced]. unfold unlogged. cbn [fst snd].
  destruct (getDPUNode_m _ w) as [[dpuNode|e] w1] eqn:Edn; [|by apply Hskip].
  assert (∃ n w2, host_node (C:=mtraced C) dpuNode ne (w1, l) = (n, (w2, l)) ∧
    match n with Ok node => (∃ ref w0, (getNode ref w0).1 = Ok node) ∨ node = no_node | Err _ => True end) as (n & w2 & -> & Hn).
  { unfold host_node, mbind, SM_bind. destruct (dn_KubeNodeRef dpuNode) as [ref|].
    - simpl. unfold unlogged. simpl. destruct (getNode ref w1) as [[node|e] w2] eqn:Eg; (eexists _, w2; split; [done|]).
      + left. exists ref, w1. by rewrite Eg.
      + by destruct (IsNotFound e).
    - eexists _, w1. split; [done|]. destruct (_ || _); [done|by right]. }
  destruct n as [node|e]; [|by apply Hskip]. cbv zeta.
  destruct (gate_log (with_sync_start now d) ne dpuNode w2 l) as (Hl & Hg & Hb).
  destruct (checkMaxUnavailableAndSyncWaitTime _ _ _ _ (w2, l)) as [[r|] [w3 l3]]; cbn [fst snd] in *; subst l3.
  - destruct (Hb r eq_refl) as [H1 H2]. exists []. rewrite app_nil_r. split; [done|]. change (pass d r []). apply pass_skip; [done| |].
    + by destruct H2 as [->|(? & ? & ->)].
    + destruct H2 as [->|(? & ? & ->)].
      * unfold with_sync_start. by destruct (dnm_NodeEffectSyncStartTime d).
      * unfold AddFalse. by rewrite applied_add.
  - apply reconcile_effect_pass; [done..| |exact Hn].
    destruct (proj1 Hg eq_refl) as [H|(items & Hi & H1 & H2)]; [by left|right]. exists items, dpuNode, w2, w.
    destruct Hd as (_ & E & _). rewrite E in Hi. rewrite Edn. done.
Qed.
End GateAndCondition.

(** *** Taking back *)

Section Release.
Context {W : Type} {C : MaintenanceClient W} {K : Codec} {R : MapRange} {P : PodParser}.
Context {API : MetaAPI} {FA : FinalizerAPI} {FL : FinalizerAPILaws FA}.

Lemma remove_effect_emits d ne dpuNode node : emits (undo_write d ne) (remove_effect (C:=mtraced C) d ne dpuNode node).
Proof.
  unfold remove_effect. case_bool_decide as E1; [emits|]. case_bool_decide as E2.
  { unfold removeNodeEffectDrain, DeleteObject. emits; done. }
  case_bool_decide as E3.
  { unfold removeNodeEffectTaint. destruct (ac_Taint _) as [t|] eqn:Et; [|emits]. emits. left. split; [done|]. by exists t. }
  case_bool_decide as E4; [unfold removeNodeEffectCustomLabel; emits; [by right|done]|].
  case_bool_decide as E5; [|emits]. unfold removeNodeEffectCustomAction. emits. done.
Qed.

Lemma host_node_emits (Q : MWrite → Prop) dpuNode ne : emits Q (host_node (C:=mtraced C) dpuNode ne).
Proof. unfold host_node. emits. Qed.

Definition undoes (d : DPUNodeMaintenance) (x : MWrite) : Prop := ∃ ne, dnm_NodeEffect d = Some ne ∧ undo_write d ne x.

Lemma handleNodeEffectRemoval_emits d : emits (undoes d) (handleNodeEffectRemoval (C:=mtraced C) d).
Proof.
  unfold handleNodeEffectRemoval. destruct (dnm_NodeEffect d) as [ne|] eqn:En; [|emits].
  apply emits_bind; [emits|]. intros [dpuNode|e]; [|emits]. apply emits_bind; [apply host_node_emits|]. intros [node|e]; [|emits].
  eapply emits_weaken; [|apply remove_effect_emits]. intros x Hx. by exists ne.
Qed.

(** No DPU asks for the node any more, or the node is gone. *)
Definition released (d : DPUNodeMaintenance) : Prop :=
  dnm_Requestor d = [] ∨
  ∃ (w : W) e, (getDPUNode_m (mkNN (dnm_Namespace d) (dnm_DPUNodeName d)) w).1 = Err e ∧ IsNotFound e = true.

Lemma reconcileDelete_log d (w : W) l :
  let r := reconcileDelete (C:=mtraced C) d (w, l) in
  ∃ k, r.2.2 = l ++ k ∧ Forall (λ x, undoes d x ∧ released d) k ∧ dnm_Conditions r.1.2 = dnm_Conditions d ∧
    (dnm_Finalizers r.1.2 = dnm_Finalizers d ∨
     released d ∧ r.1.1 = (0%Z, None) ∧ dnm_Finalizers r.1.2 = RemoveFinalizer (dnm_Finalizers d) DPUNodeMaintenanceFinalizer).
Proof.
  cbn zeta. unfold reconcileDelete.
  assert (∀ d' w', dnm_Finalizers d' = dnm_Finalizers d → dnm_Conditions d' = dnm_Conditions d →
    (∀ x, undoes d' x → undoes d x) → released d →
    let r := release (C:=mtraced C) d' (w', l) in
    ∃ k, r.2.2 = l ++ k ∧ Forall (λ x, undoes d x ∧ released d) k ∧ dnm_Conditions r.1.2 = dnm_Conditions d ∧
      (dnm_Finalizers r.1.2 = dnm_Finalizers d ∨ released d ∧ r.1.1 = (0%Z, None) ∧
       dnm_Finalizers r.1.2 = RemoveFinalizer (dnm_Finalizers d) DPUNodeMaintenanceFinalizer)) as Hrel.
  { intros d' w' Hfin Hcond Hu Hr. cbn zeta. unfold release, mbind, SM_bind.
    destruct (handleNodeEffectRemoval_emits d' w' l) as (k & Hk & Hf).
    assert (Forall (λ x, undoes d x ∧ released d) k) as Hf' by (eapply Forall_impl; [exact Hf|]; intros x Hx; split; [by apply Hu|done]).
    destruct (handleNodeEffectRemoval _ (w', l)) as [[e|] [w1 l1]]; simpl in *; subst l1; exists k; (split; [done|]); (split; [done|]);
      (split; [done|]); [by left|]. right. rewrite Hfin. done. }
  case_bool_decide as Er; [apply Hrel; [done..|by left]|].
  unfold mbind, SM_bind. cbn [getDPUNode_m mtraced]. unfold unlogged. cbn [fst snd].
  destruct (getDPUNode_m _ w) as [[dpuNode|e] w1] eqn:Eg.
  { exists []. rewrite app_nil_r. split; [done|]. split; [done|]. split; [done|by left]. }
  destruct (IsNotFound e) eqn:En.
  2: { exists []. rewrite app_nil_r. split; [done|]. split; [done|]. split; [done|by left]. }
  apply Hrel; [done..|]. right. exists w, e. by rewrite Eg.
Qed.

(** *** A pass *)

Context {AL : MetaAPILaws API} (options : DPUNodeMaintenanceOptions) (now : Time).

(** When a write is in its place. *)
Definition guarded (d : DPUNodeMaintenance) (x : MWrite) : Prop :=
  let live := timep_is_zero (dnm_DeletionTimestamp d) = true in
  match x with
  | MDelete _ _ => live ∧ dnm_Requestor d = []
  | MPatch _ _ _ => False
  | _ =>
      (live ∧ DPUNodeMaintenanceFinalizer ∈ dnm_Finalizers d ∧ dnm_Requestor d ≠ [] ∧ IsNodeEffectApplied d = false ∧
       ∃ ne, dnm_NodeEffect d = Some ne ∧ gate_open (C:=C) now d ne ∧ (apply_write d ne x ∨ ∃ n e, x = MDPUNodeStatus n e)) ∨
      (¬ live ∧ released d ∧ undoes d x)
  end.

Lemma undoes_guarded d x : timep_is_zero (dnm_DeletionTimestamp d) ≠ true → undoes d x ∧ released d → guarded d x.
Proof. intros Hl [Hu Hr]. pose proof Hu as (ne & _ & Hx). destruct x; try done; right; done. Qed.

Lemma applies_guarded d x ne :
  timep_is_zero (dnm_DeletionTimestamp d) = true → DPUNodeMaintenanceFinalizer ∈ dnm_Finalizers d → dnm_Requestor d ≠ [] →
  IsNodeEffectApplied d = false → dnm_NodeEffect d = Some ne → gate_open (C:=C) now d ne →
  apply_write d ne x ∨ (∃ n e, x = MDPUNodeStatus n e) → guarded d x.
Proof.
  intros Hl Hf Hr Ha Hne Hg Hx. assert (match x with MDelete _ _ | MPatch _ _ _ => False | _ => True end) as Hc.
  { destruct Hx as [Hx|(n & e & ->)]; [by destruct x|done]. }
  destruct x; try done; left; split_and!; try done; by exists ne.
Qed.

Lemma reconcile_object_log d (w : W) :
  let r := reconcile_object (C:=mtraced C) now d (w, []) in
  Forall (guarded d) r.2.2 ∧
  (DPUNodeMaintenanceFinalizer ∈ dnm_Finalizers d → DPUNodeMaintenanceFinalizer ∉ dnm_Finalizers r.1.2 →
     timep_is_zero (dnm_DeletionTimestamp d) ≠ true ∧ released d ∧ r.1.1 = (0%Z, None)) ∧
  (IsNodeEffectApplied r.1.2 = true → IsNodeEffectApplied d = true ∨
     ∃ ne, dnm_NodeEffect d = Some ne ∧ gate_open (C:=C) now d ne ∧ (IsNoEffect ne = true ∨ evidence (C:=C) now d ne r.2.2)) ∧
  (timep_is_zero (dnm_DeletionTimestamp d) = true → DPUNodeMaintenanceFinalizer ∈ dnm_Finalizers d → dnm_Requestor d ≠ [] →
   r.1.1 = (0%Z, None) → IsNodeEffectApplied r.1.2 = true).
Proof.
  cbn zeta. unfold reconcile_object. destruct (timep_is_zero (dnm_DeletionTimestamp d)) eqn:El; cbn [negb andb].
  2: { destruct (reconcileDelete_log d w []) as (k & Hk & Hf & Hc & Hfin).
       destruct (reconcileDelete _ (w, [])) as [[r d'] [w1 l1]]. cbn [fst snd app] in *. subst l1.
       split; [eapply Forall_impl; [exact Hf|]; intros x; apply undoes_guarded; by rewrite El|]. split; [|split; [|done]].
       - intros H1 H2. split; [done|]. destruct Hfin as [E|(Hr & E & _)]; [by rewrite E in H2|done].
       - unfold IsNodeEffectApplied. rewrite Hc. auto. }
  destruct (ContainsFinalizer (dnm_Finalizers d) DPUNodeMaintenanceFinalizer) eqn:Ef; cbn [negb].
  2: { split; [done|]. assert (DPUNodeMaintenanceFinalizer ∉ dnm_Finalizers d) as Hn by (rewrite <- contains_finalizer; by rewrite Ef).
       split; [done|]. split; [auto|done]. }
  apply contains_finalizer in Ef. case_bool_decide as Er.
  { unfold mbind, SM_bind. simpl. unfold logged. simpl. destruct (deleteMaintenance d w) as [e w1]. simpl.
    split; [by apply Forall_singleton|]. split; [done|]. split; [auto|done]. }
  destruct (reconcile_pass (C:=C) now d w []) as (k & Hk & Hf & Ha & Hok & Hs).
  destruct (reconcile _ _ (w, [])) as [[r d'] [w1 l1]]. cbn [fst snd app] in *. subst l1. split; [|split; [|split; [exact Ha|auto]]].
  - eapply Forall_impl; [exact Hf|]. intros x (Hna & ne & Hne & Hg & Hx). by eapply applies_guarded.
  - destruct Hs as (_ & _ & -> & _). done.
Qed.
End Release.

(** ** How an effect is taken back, call by call *)

Section Restoring.
Context {W : Type} {C : MaintenanceClient W} {K : Codec} {R : MapRange} {P : PodParser} {API : MetaAPI}.
Context {FA : FinalizerAPI} {FL : FinalizerAPILaws FA}.

(** A call that did its work, or found nothing to do it to. *)
Definition done_or_gone (e : option GoError) : Prop := IgnoreNotFound e = None.

(** The calls that take the effect [ne] of [d] off the host node [node] of [dpuNode]. *)
Definition restores (d : DPUNodeMaintenance) (ne : NodeEffect) (dpuNode : DPUNode) (node : Node) (t : list MEvent) : Prop :=
  let effect := NodeEffect_String ne in
  let custom := ac_CustomLabel (ne_Action ne) in
  (effect ∈ [NodeEffectNoEffect; NodeEffectHold] ∧ t = []) ∨
  (effect = NodeEffectTaint ∧ ∃ taint, ac_Taint (ne_Action ne) = Some taint ∧
     ((existsb (has_key (tt_Key taint)) (no_Taints node) = false ∧ t = []) ∨
      t = [MWrote (MNode node (with_no_Taints (remove_first (tt_Key taint) (no_Taints node)) node) None)])) ∨
  (effect = NodeEffectCustomLabel ∧ ∃ t', t = MWrote (MNode node (with_no_Labels (without_keys custom (no_Labels node)) node) None) :: t' ∧
     let key := mkNN (dn_Namespace dpuNode) (dn_Name dpuNode) in
     ((∃ e, t' = [RDPUNode key (Err e)] ∧ IsNotFound e = true) ∨
      ∃ dn, let dn' := with_dn_Labels (without_keys custom (dn_Labels dn)) dn in
        (t' = [RDPUNode key (Ok dn)] ∧ dn_Labels dn' = dn_Labels dn) ∨
        ∃ e, t' = [RDPUNode key (Ok dn); MWrote (MDPUNode dn dn' e)] ∧ done_or_gone e)) ∨
  (effect = NodeEffectDrain ∧ let key := mkNN (dnm_Namespace d) (no_Name node) in
     ((∃ e, t = [RNM key (Err e)] ∧ IsNotFound e = true) ∨
      ∃ m e e', let m' := with_nm_AdditionalRequestors [] m in
        t = [RNM key (Ok m); MWrote (MPatchNM m m' e); MWrote (MDeleteNM m' e')] ∧ done_or_gone e ∧ done_or_gone e')) ∨
  (effect = NodeEffectCustomAction ∧ ∃ name, GenerateDPUNodeMaintenanceObjectName (dnm_DPUNodeName d) ne = Ok name ∧
     let key := mkNN (dnm_Namespace d) name in
     ((∃ e, t = [RJob key (Err e)] ∧ IsNotFound e = true) ∨
      ∃ job, t = [RJob key (Ok job); MWrote (MDeleteJob job None)])).

(** All the calls of the removal: the DPUNode is read, then the host node it names, and
    the effect is taken off it; without a DPUNode there is nothing to do for an effect
    that touches no node. *)
Definition taken_back (d : DPUNodeMaintenance) (t : list MEvent) : Prop :=
  let key := mkNN (dnm_Namespace d) (dnm_DPUNodeName d) in
  ∃ ne, dnm_NodeEffect d = Some ne ∧
    ((IsNoEffect ne || IsHold ne = true ∧ ∃ e, t = [RDPUNode key (Err e)] ∧ IsNotFound e = true) ∨
     ∃ dpuNode node host t', t = RDPUNode key (Ok dpuNode) :: host ++ t' ∧
       match dn_KubeNodeRef dpuNode with Some ref => host = [RNode ref (Ok node)] | None => host = [] ∧ node = no_node end ∧
       restores d ne dpuNode node t').

Let T (l : list MEvent) (x : MEvent) : Prop := True.

Lemma ignored_none e : IgnoreNotFound e = None → done_or_gone e.
Proof. done. Qed.
Lemma ignored_map {A} (f : GoError → A) e : f <$> IgnoreNotFound e = None → done_or_gone e.
Proof. unfold done_or_gone. by destruct (IgnoreNotFound e). Qed.

Lemma remove_effect_traces d ne dpuNode node l :
  traces T l (remove_effect (C:=mwatched C) d ne dpuNode node) (λ r l', r = None → ∃ t, l' = l ++ t ∧ restores d ne dpuNode node t).
Proof.
  unfold remove_effect. case_bool_decide as E1.
  { trace. intros _. exists []. rewrite app_nil_r. split; [done|]. left. split; [rewrite E1; left|done]. }
  case_bool_decide as E2.
  { unfold removeNodeEffectDrain. trace. apply traces_call. intros [m|e]; (split; [done|]); cbv beta.
    2: { trace. destruct (IsNotFound e) eqn:En; [|done]. intros _. eexists. split; [done|]. do 3 right. left. split; [done|]. left. by exists e. }
    trace. apply traces_call. intros e. split; [done|]. cbv beta. destruct (IgnoreNotFound e) as [e0|] eqn:Ee; [by trace|].
    unfold DeleteObject. trace. apply traces_call. intros e'. split; [done|]. trace. intros He. rewrite <- !app_assoc. eexists. split; [done|].
    do 3 right. left. split; [done|]. right. exists m, e, e'. split; [done|]. split; [done|]. unfold done_or_gone. by destruct (IgnoreNotFound e'). }
  case_bool_decide as E3.
  { assert (is_Some (ac_Taint (ne_Action ne))) as [taint Et].
    { unfold NodeEffect_String in E3. destruct (IsTaint ne) eqn:Ei; [by apply bool_decide_eq_true in Ei|].
      by destruct (IsNoEffect ne), (IsCustomLabel ne), (IsDrain ne), (IsCustomAction ne), (IsHold ne). }
    unfold removeNodeEffectTaint. rewrite Et. destruct (existsb _ _) eqn:Ex; trace.
    - apply traces_call. intros e. split; [done|]. trace. destruct e; [done|]. intros _. eexists. split; [done|]. right. left. split; [done|].
      exists taint. split; [done|]. by right.
    - intros _. exists []. rewrite app_nil_r. split; [done|]. right. left. split; [done|]. exists taint. split; [done|]. by left. }
  case_bool_decide as E4.
  { unfold removeNodeEffectCustomLabel. trace. apply traces_call. intros [e|]; (split; [done|]); cbv beta; [by trace|].
    trace. apply traces_call. intros [dn|e]; (split; [done|]); cbv beta zeta.
    - case_bool_decide as Ed; trace.
      + intros _. rewrite <- app_assoc. eexists. split; [done|]. do 2 right. left. split; [done|]. eexists. split; [done|]. right. exists dn. by left.
      + apply traces_call. intros e. split; [done|]. trace. intros He. rewrite <- !app_assoc. eexists. split; [done|]. do 2 right. left. split; [done|].
        eexists. split; [done|]. right. exists dn. right. exists e. split; [done|]. unfold done_or_gone. by destruct (IgnoreNotFound e).
    - trace. destruct (IsNotFound e) eqn:En; [|done]. intros _. rewrite <- app_assoc. eexists. split; [done|]. do 2 right. left. split; [done|].
      eexists. split; [done|]. left. by exists e. }
  case_bool_decide as E5.
  { destruct (GenerateDPUNodeMaintenanceObjectName _ ne) as [name|e] eqn:En; [|by trace]. unfold removeNodeEffectCustomAction. trace.
    apply traces_call. intros [job|e]; (split; [done|]); cbv beta; trace.
    - apply traces_call. intros e. split; [done|]. trace. destruct e; [done|]. intros _. rewrite <- app_assoc. eexists. split; [done|].
      do 4 right. split; [done|]. exists name. split; [done|]. right. by exists job.
    - destruct (IsNotFound e) eqn:Ee; [|done]. intros _. eexists. split; [done|]. do 4 right. split; [done|]. exists name. split; [done|]. left. by exists e. }
  case_bool_decide as E6; trace; [|done]. intros _. exists []. rewrite app_nil_r. split; [done|]. left. split; [rewrite E6; right; left|done].
Qed.

Lemma host_node_traces dpuNode ne l :
  traces T l (host_node (C:=mwatched C) dpuNode ne) (λ r l', ∀ node, r = Ok node → ∃ host, l' = l ++ host ∧
    match dn_KubeNodeRef dpuNode with Some ref => host = [RNode ref (Ok node)] | None => host = [] ∧ node = no_node end).
Proof.
  unfold host_node. destruct (dn_KubeNodeRef dpuNode) as [ref|]; trace.
  - apply traces_call. intros r. split; [done|]. trace. intros node Hn. eexists. split; [done|]. destruct r as [n|e]; [congruence|]. by destruct (IsNotFound e).
  - intros node Hn. exists []. rewrite app_nil_r. split; [done|]. split; [done|]. by destruct (_ || _); [|injection Hn].
Qed.

Lemma handleNodeEffectRemoval_traces d l :
  traces T l (handleNodeEffectRemoval (C:=mwatched C) d) (λ r l', r = None → ∃ t, l' = l ++ t ∧ taken_back d t).
Proof.
  unfold handleNodeEffectRemoval. destruct (dnm_NodeEffect d) as [ne|] eqn:Ene; [|by trace]. trace. apply traces_call.
  intros [dpuNode|e]; (split; [done|]); cbv beta zeta.
  2: { trace. destruct (IsNotFound e) eqn:En; [|done]. destruct (_ || _) eqn:Eb; [|done]. intros _. eexists. split; [done|]. exists ne. split; [done|].
       left. split; [done|]. by exists e. }
  trace. eapply traces_mono; [apply host_node_traces|]. intros [node|e] l1 _ Hn; cbv beta; [|by trace].
  destruct (Hn node eq_refl) as (host & -> & Hh). eapply traces_mono; [apply remove_effect_traces|]. intros r l2 _ Hr Hnone.
  destruct (Hr Hnone) as (t & -> & Ht). rewrite <- !app_assoc. eexists. split; [done|]. exists ne. split; [done|]. right. by exists dpuNode, node, host, t.
Qed.

(** The DPUNode was found missing. *)
Definition node_missing (d : DPUNodeMaintenance) (l : list MEvent) : Prop :=
  ∃ e, l = [RDPUNode (mkNN (dnm_Namespace d) (dnm_DPUNodeName d)) (Err e)] ∧ IsNotFound e = true.

(** A deletion: nobody asks for the node, or it is missing; then the calls of the removal. *)
Definition let_go (d : DPUNodeMaintenance) (l : list MEvent) : Prop :=
  ∃ l0 t, l = l0 ++ t ∧ ((dnm_Requestor d = [] ∧ l0 = []) ∨ (dnm_Requestor d ≠ [] ∧ node_missing d l0)) ∧ taken_back d t.

Lemma reconcileDelete_traces d :
  traces T [] (reconcileDelete (C:=mwatched C) d) (λ r l, dnm_Finalizers r.2 = dnm_Finalizers d ∨ r.1 = (0%Z, None) ∧ let_go d l).
Proof.
  assert (∀ d' l, dnm_Finalizers d' = dnm_Finalizers d → (∀ t, taken_back d' t → taken_back d t) →
    ((dnm_Requestor d = [] ∧ l = []) ∨ (dnm_Requestor d ≠ [] ∧ node_missing d l)) →
    traces T l (release (C:=mwatched C) d') (λ r l, dnm_Finalizers r.2 = dnm_Finalizers d ∨ r.1 = (0%Z, None) ∧ let_go d l)) as Hrel.
  { intros d' l Hfin Ht Hl. unfold release. trace. eapply traces_mono; [apply handleNodeEffectRemoval_traces|]. intros [e|] l' _ Hr; trace; [by left|].
    right. split; [done|]. destruct (Hr eq_refl) as (t & -> & Htt). exists l, t. split; [done|]. split; [done|]. by apply Ht. }
  unfold reconcileDelete. case_bool_decide as Er; [apply Hrel; auto|]. trace. apply traces_call. intros [dpuNode|e]; (split; [done|]); cbv beta.
  - trace. by left.
  - destruct (IsNotFound e) eqn:En; [|trace; by left]. apply Hrel; [done|done|]. right. split; [done|]. by exists e.
Qed.

(** A pass over a live object keeps the finalizers. *)
Lemma reconcile_keeps {A} (M : MaintenanceClient A) now d w : dnm_Finalizers (reconcile (C:=M) now d w).1.2 = dnm_Finalizers d.
Proof.
  unfold reconcile. destruct (IsNodeEffectApplied d); [done|]. destruct (dnm_NodeEffect d) as [ne|]; [|done]. unfold mbind, SM_bind.
  destruct (getDPUNode_m _ w) as [[dpuNode|e] w1]; [|done]. destruct (host_node dpuNode ne w1) as [[node|e] w2]; [|done].
  set (d' := with_sync_start now d). assert (dnm_Finalizers d' = dnm_Finalizers d) as Hd by (unfold d', with_sync_start; by destruct (dnm_NodeEffectSyncStartTime d)).
  cbv zeta. destruct (checkMaxUnavailableAndSyncWaitTime now d' ne dpuNode w2) as [[r|] w3] eqn:Eg.
  - unfold mret, SM_ret. cbn [fst snd]. rewrite <- Hd. revert Eg. unfold checkMaxUnavailableAndSyncWaitTime. case_bool_decide; [|done].
    unfold mbind, SM_bind. destruct (countOtherNotReadyDPUNodes d' w2) as [[c|e] w4]; [|by intros [= <- _]]. destruct (exceeds_budget d' c); [by intros [= <- _]|].
    unfold wait_for_sync. destruct (1 <? _)%Z; [|done]. destruct (dnm_NodeEffectSyncStartTime d'), (dnm_MultiDPUOperationsSyncWaitTime d');
      try (by intros [= <- _]). by destruct (_ <? _)%Z; [intros [= <- _]|].
  - rewrite <- Hd. clearbody d'. unfold reconcile_effect. assert (∀ d0 z w0, (mark_in_progress (C:=M) now d0 z w0).1.2 = d0) as Hm.
    { intros d0 z w0. unfold mark_in_progress, mbind, SM_bind. by destruct (updateDPUNodeEffectInProgress _ _ _ w0) as [[e|] w4]. }
    destruct (IsNoEffect ne); [by rewrite Hm|]. unfold mbind, SM_bind.
    assert (∀ w0, dnm_Finalizers (apply_effect (C:=M) now d' ne node w0).1.2 = dnm_Finalizers d') as Ha.
    { intros w0. unfold apply_effect, mbind, SM_bind. case_bool_decide; [by destruct (reconcileDrain _ w0)|].
      case_bool_decide; [by destruct (reconcileTaint _ _ w0)|]. case_bool_decide; [by destruct (reconcileCustomLabel _ _ w0)|].
      case_bool_decide; [by destruct (reconcileCustomAction _ _ _ w0)|]. case_bool_decide; [|done].
      unfold reconcileHold. by destruct (dnm_Annotations d' !! _). }
    specialize (Ha w3). destruct (apply_effect now d' ne node w3) as [[[[] [e|]] d2] w4]; cbn [fst snd] in *; rewrite ?Hm; done.
Qed.

Lemma reconcile_object_lets_go now d (w : W) :
  let r := reconcile_object (C:=mwatched C) now d (w, []) in
  DPUNodeMaintenanceFinalizer ∈ dnm_Finalizers d → DPUNodeMaintenanceFinalizer ∉ dnm_Finalizers r.1.2 → 
  timep_is_zero (dnm_DeletionTimestamp d) = false ∧ r.1.1 = (0%Z, None) ∧ let_go d r.2.2.
Proof.
  cbv zeta. intros Hf. unfold reconcile_object. destruct (timep_is_zero (dnm_DeletionTimestamp d)); cbn [negb andb].
  - intros Hn. exfalso. destruct (ContainsFinalizer _ _) eqn:Ec; cbn [negb] in Hn.
    + case_bool_decide; [|by rewrite reconcile_keeps in Hn]. revert Hn. unfold mbind, SM_bind. by destruct (deleteMaintenance d _).
    + apply Hn. unfold mret, SM_ret. cbn. apply add_finalizer. by left.
  - destruct (reconcileDelete_traces d w) as (k & Hk & _ & Hr). rewrite Hk. destruct Hr as [Hr|[Hr Hl]]; [by rewrite Hr|done].
Qed.
End Restoring.

(** ** Properties *)

(** C11. When a node effect touches the node.  A pass ends with the patch of the
    object, and before it: an effect is put on the node only for an object that is
    not being deleted, has its finalizer and a requestor, whose effect is not
    applied yet and for which the gate is open, and only by the writes of that
    effect; it is taken back only while the object is being deleted and no DPU
    asks for the node any more or the node is gone; the object is deleted only
    when nobody asks for it.  Its finalizer goes only while it is being deleted, in
    a pass whose calls, reads and answers included, are exactly these: where there
    are requestors, the DPUNode read and found missing; then the DPUNode and the
    host node it names read and the effect taken off that node, each write of the
    removal with its answer; then the patch. *)
Theorem Reconcile_writes {W} {C : MaintenanceClient W} {K : Codec} {R : MapRange} {P : PodParser} {API : MetaAPI}
    {AL : MetaAPILaws API} {FA : FinalizerAPI} {FL : FinalizerAPILaws FA} options now key (w : W) :
  let r := Reconcile (C:=mtraced C) options now key (w, []) in
  let s := Reconcile (C:=mwatched C) options now key (w, []) in
  match (getMaintenance key w).1 with
  | Err e => r.2.2 = [] ∧ (r.1.2 = [] ↔ IsNotFound e = true)
  | Ok base =>
      let d := ensureStatusDefaults options base in
      (∃ k final e, r.2.2 = k ++ [MPatch base final e] ∧ Forall (guarded (C:=C) now d) k) ∧
      ∃ l final e, s.2.2 = l ++ [MWrote (MPatch base final e)] ∧
        (DPUNodeMaintenanceFinalizer ∈ dnm_Finalizers base → DPUNodeMaintenanceFinalizer ∉ dnm_Finalizers final →
           timep_is_zero (dnm_DeletionTimestamp base) = false ∧ let_go base l ∧ (e = None → s.1 = (0%Z, [])))
  end.
Proof.
  cbn zeta. unfold Reconcile, mbind, SM_bind. cbn [getMaintenance mtraced mwatched]. unfold unlogged. cbn [fst snd].
  destruct (getMaintenance key w) as [[base|e] w1]; cbn [fst snd].
  2: { split; [done|]. unfold mret, SM_ret. simpl. by destruct (IsNotFound e). }
  destruct (reconcile_object_log (C:=C) now (ensureStatusDefaults options base) w1) as (Hk & _).
  destruct (reconcile_object (C:=mtraced C) _ _ (w1, [])) as [r [w2 k]]. cbn [fst snd] in *.
  pose proof (reconcile_object_lets_go (C:=C) now (ensureStatusDefaults options base) w1) as Hgo.
  destruct (reconcile_object (C:=mwatched C) _ _ (w1, [])) as [s [w3 l]]. cbn [fst snd] in *.
  cbn [patchMaintenance mtraced mwatched]. unfold logged. cbn [fst snd].
  destruct (patchMaintenance base r.2 w2) as [e w4]. destruct (patchMaintenance base s.2 w3) as [e' w5]. split; [by exists k, r.2, e|].
  exists l, s.2, e'. split; [done|]. intros H1 H2. destruct (Hgo H1 H2) as (Hl & E & Hg). split; [done|]. split; [done|].
  intros ->. unfold mret, SM_ret. cbn [fst snd]. by rewrite E.
Qed.

(** When a node effect counts as applied.  The condition becomes true only in a
    pass for which the gate was open and which saw the effect: the drain reported
    ready, the taint on the node or written to it, the labels written, the job of
    the custom action complete, or the annotation set to false by somebody else;
    and a pass over an object with requestors that neither fails nor asks to be
    repeated has applied the effect. *)
Theorem applied_means {W} {C : MaintenanceClient W} {K : Codec} {R : MapRange} {P : PodParser} {API : MetaAPI}
    {AL : MetaAPILaws API} {FA : FinalizerAPI} {FL : FinalizerAPILaws FA} options now key base (w : W) :
  (getMaintenance key w).1 = Ok base →
  let d := ensureStatusDefaults options base in
  let r := Reconcile (C:=mtraced C) options now key (w, []) in
  ∃ k final e, r.2.2 = k ++ [MPatch base final e] ∧
    (IsNodeEffectApplied final = true → IsNodeEffectApplied base = true ∨
       ∃ ne, dnm_NodeEffect base = Some ne ∧ gate_open (C:=C) now d ne ∧ (IsNoEffect ne = true ∨ evidence (C:=C) now base ne k)) ∧
    (timep_is_zero (dnm_DeletionTimestamp base) = true → DPUNodeMaintenanceFinalizer ∈ dnm_Finalizers base →
     dnm_Requestor base ≠ [] → r.1 = (0%Z, []) → IsNodeEffectApplied final = true ∧ e = None).
Proof.
  intros Hb. cbn zeta. unfold Reconcile, mbind, SM_bind. cbn [getMaintenance mtraced]. unfold unlogged. cbn [fst snd].
  destruct (getMaintenance key w) as [b w1]. simpl in Hb. subst b. cbn [fst snd].
  destruct (reconcile_object_log (C:=C) now (ensureStatusDefaults options base) w1) as (_ & _ & Ha & Hok).
  destruct (reconcile_object _ _ (w1, [])) as [[[rq err] final] [w2 k]]. cbn [fst snd] in *.
  cbn [patchMaintenance mtraced]. unfold logged. cbn [fst snd].
  destruct (patchMaintenance base final w2) as [e w3]. exists k, final, e. split; [done|]. split; [exact Ha|].
  intros Hl Hf Hr. unfold mret, SM_ret. cbn [fst snd]. intros [= -> Hn]. destruct err, e; try done. split; [|done].
  by apply Hok.
Qed.

(** C12. The budget: an effect that is not forced and has not been started is held
    back exactly when the list fails, when as many other nodes of the namespace
    are unavailable, or about to be, as the budget has, or when the node has more
    than one DPU and the time to wait for the others has not passed since the
    first pass; the check writes nothing, and what it returns when it holds the
    effect back is never taken for success. *)
Theorem gate_spec {W} {C : MaintenanceClient W} {K : Codec} {API : MetaAPI} {AL : MetaAPILaws API}
    now d nodeEffect dpuNode (w : W) :
  let g := checkMaxUnavailableAndSyncWaitTime (C:=mtraced C) now d nodeEffect dpuNode (w, []) in
  g.2.2 = [] ∧
  (g.1 = None ↔
   ac_Force (ne_Action nodeEffect) ≠ Some false ∨
   ∃ items, (listDPUNodes_m (dnm_Namespace d) w).1 = Ok items ∧ may_start d items ∧ waited now d dpuNode) ∧
  (∀ r, g.1 = Some r → r.1 ≠ (0%Z, None) ∧ (IsNodeEffectApplied r.2 = true → r.2 = d)).
Proof.
  cbn zeta. destruct (gate_log (C:=C) now d nodeEffect dpuNode w []) as (H1 & H2 & H3). split; [exact H1|]. split; [exact H2|].
  intros r Hr. destruct (H3 r Hr) as [Hn Hd]. split; [done|]. destruct Hd as [->|(reason & message & ->)]; [done|].
  unfold AddFalse. by rewrite applied_add.
Qed.

(** *** What is left on the node *)

Lemma remove_first_app key taints t : existsb (has_key key) taints = false → has_key key t = true →
  remove_first key (taints ++ [t]) = taints.
Proof.
  induction taints as [|t' taints IH]; simpl; intros H Ht; [by rewrite Ht|]. apply orb_false_iff in H as [-> H].
  f_equal. by apply IH.
Qed.

Lemma remove_first_length key taints : existsb (has_key key) taints = true → length (remove_first key taints) < length taints.
Proof.
  induction taints as [|t taints IH]; [done|]. simpl. destruct (has_key key t); simpl; [lia|]. intros H. specialize (IH H). lia.
Qed.

Lemma without_keys_union (custom labels : gmap string string) :
  without_keys custom (custom ∪ labels) = labels ↔ custom ##ₘ labels.
Proof.
  unfold without_keys. split.
  - intros H. apply map_disjoint_spec. intros k x y Hx Hy. rewrite <- H in Hy. apply map_lookup_filter_Some in Hy as [_ Hy].
    simpl in Hy. congruence.
  - intros H. apply map_eq. intros k. destruct (custom !! k) as [x|] eqn:Ek.
    + transitivity (@None string).
      * apply map_lookup_filter_None. right. intros y _ Hy. simpl in Hy. congruence.
      * symmetry. by eapply map_disjoint_Some_l.
    + destruct (labels !! k) as [y|] eqn:El.
      * apply map_lookup_filter_Some. split; [|done]. by rewrite lookup_union_r.
      * apply map_lookup_filter_None. left. by rewrite lookup_union_r.
Qed.

(** C13. Taking an effect back restores the node exactly when the effect did not meet
    anything of its own kind there: a taint is restored iff no taint with that key
    was on the node, and labels iff none of the keys was.  A taint that was there
    before, which applying the effect leaves alone, is removed with it. *)
Theorem effect_roundtrip {W} {C : MaintenanceClient W} (nodeEffect : NodeEffect) (node : Node) (dpuNode : DPUNode) (w w' : W) :
  let custom := ac_CustomLabel (ne_Action nodeEffect) in
  (∀ t, ac_Taint (ne_Action nodeEffect) = Some t →
   ∃ node' applied, (reconcileTaint (C:=mtraced C) nodeEffect node (w, [])).2.2 = applied ∧
     (applied = [] ∧ node' = node ∨ ∃ e, applied = [MNodeUpdate node' e]) ∧
     ∃ n e, (removeNodeEffectTaint (C:=mtraced C) node' nodeEffect (w', [])).2.2 = [MNode node' n e] ∧
       (n = node ↔ ∀ t', t' ∈ no_Taints node → tt_Key t' ≠ tt_Key t)) ∧
  ∃ node' e, (reconcileCustomLabel (C:=mtraced C) nodeEffect node (w, [])).2.2 = [MNode node node' e] ∧
    ∃ n e' rest, (removeNodeEffectCustomLabel (C:=mtraced C) node' dpuNode nodeEffect (w', [])).2.2 = MNode node' n e' :: rest ∧
      (n = node ↔ custom ##ₘ no_Labels node).
Proof.
  cbn zeta. split.
  - intros t Ht. unfold reconcileTaint, removeNodeEffectTaint. rewrite Ht.
    assert (∀ ts, existsb (has_key (tt_Key t)) ts = false ↔ ∀ t', t' ∈ ts → tt_Key t' ≠ tt_Key t) as Hex.
    { intros ts. rewrite <- not_true_iff_false, existsb_exists. unfold has_key. setoid_rewrite bool_decide_eq_true.
      setoid_rewrite <- list_elem_of_In. naive_solver. }
    destruct (existsb (has_key (tt_Key t)) (no_Taints node)) eqn:Ex.
    + exists node, []. split; [done|]. split; [by left|]. rewrite Ex. unfold mbind, SM_bind. simpl. unfold logged. simpl.
      destruct (patchNode _ _ w') as [e w2]. eexists _, e. split; [done|]. rewrite <- Hex, Ex. split; [|done]. intros E.
      apply (f_equal (λ n, length (no_Taints n))) in E. simpl in E. pose proof (remove_first_length _ _ Ex). lia.
    + simpl. unfold logged. simpl. destruct (updateNode _ w) as [e w1]. eexists _, _. split; [done|]. split; [right; by exists e|].
      assert (has_key (tt_Key t) t = true) as Hk by (unfold has_key; by rewrite bool_decide_eq_true).
      replace (existsb _ _) with true by (simpl; rewrite existsb_app, Ex; simpl; by rewrite Hk).
      unfold mbind, SM_bind. simpl. unfold logged. simpl. destruct (patchNode _ _ w') as [e' w2]. eexists _, e'. split; [done|].
      rewrite <- Hex, Ex. split; [done|]. intros _. simpl. rewrite remove_first_app by done. by destruct node.
  - unfold reconcileCustomLabel, AddLabelsToObject. simpl. unfold logged. simpl. destruct (patchNode _ _ w) as [e w1]. simpl.
    eexists _, e. split; [done|].
    unfold removeNodeEffectCustomLabel, mbind, SM_bind. simpl. unfold logged, unlogged. simpl.
    set (custom := ac_CustomLabel (ne_Action nodeEffect)).
    set (n := with_no_Labels (without_keys custom (custom ∪ no_Labels node)) (with_no_Labels (custom ∪ no_Labels node) node)).
    assert (n = node ↔ custom ##ₘ no_Labels node) as Hn.
    { rewrite <- without_keys_union. unfold n. split; [intros E; by apply (f_equal no_Labels) in E|]. intros ->. by destruct node. }
    exists n. destruct (patchNode _ _ w') as [[e'|] w2]; simpl; [by exists (Some e'), []|].
    destruct (getDPUNode_m _ w2) as [[dn|e'] w3]; simpl; [|by exists None, []]. case_bool_decide; [by exists None, []|]. simpl.
    destruct (patchDPUNode _ _ w3) as [e' w4]. exists None. by eexists.
Qed.

(** An object whose node is gone: clearing its requestors lets the deletion go on
    only where nothing was done to a node.  For every other effect the removal
    fails as long as the DPUNode is not there: the finalizer stays, the pass ends
    with an error, and nothing but the object itself is written. *)
Theorem orphan_keeps_finalizer {W} {C : MaintenanceClient W} {K : Codec} {R : MapRange} {P : PodParser} {API : MetaAPI}
    {FA : FinalizerAPI} options now key base ne (w : W) :
  (getMaintenance key w).1 = Ok base → timep_is_zero (dnm_DeletionTimestamp base) = false → dnm_NodeEffect base = Some ne →
  IsNoEffect ne || IsHold ne = false →
  (∀ w, ∃ e, (getDPUNode_m (mkNN (dnm_Namespace base) (dnm_DPUNodeName base)) w).1 = Err e ∧ IsNotFound e = true) →
  let r := Reconcile (C:=mtraced C) options now key (w, []) in
  r.1.2 ≠ [] ∧ ∃ final e, r.2.2 = [MPatch base final e] ∧ dnm_Finalizers final = dnm_Finalizers base ∧ dnm_Requestor final = [].
Proof.
  intros Hb Hl Hne He Hgone. cbn zeta.
  set (d := ensureStatusDefaults options base).
  assert (∀ (w : W) l, ∃ w2 e, release (C:=mtraced C) (with_dnm_Spec (dnm_Annotations d) (dnm_NodeEffect d) [] d) (w, l) =
    (0%Z, Some e, with_dnm_Spec (dnm_Annotations d) (dnm_NodeEffect d) [] d, (w2, l))) as Hrel.
  { intros w0 l. unfold release, handleNodeEffectRemoval. simpl. rewrite Hne. unfold mbind, SM_bind. simpl. unfold unlogged. simpl.
    destruct (Hgone w0) as (e & Hg & Hn). destruct (getDPUNode_m _ w0) as [r w2]. simpl in Hg. subst r. simpl.
    rewrite Hn, He. simpl. by eexists _, _. }
  assert (∃ w2 e, reconcile_object (C:=mtraced C) now d ((getMaintenance key w).2, []) =
    (0%Z, Some e, with_dnm_Spec (dnm_Annotations d) (dnm_NodeEffect d) [] d, (w2, []))) as (w2 & e & Hobj).
  { unfold reconcile_object. change (dnm_DeletionTimestamp d) with (dnm_DeletionTimestamp base). rewrite Hl. cbn [negb andb].
    unfold reconcileDelete. case_bool_decide as Er.
    - assert (with_dnm_Spec (dnm_Annotations d) (dnm_NodeEffect d) [] d = d) as Hd by (rewrite <- Er; by destruct base).
      rewrite Hd in Hrel |- *. apply Hrel.
    - unfold mbind, SM_bind. cbn [getDPUNode_m mtraced]. unfold unlogged. cbn [fst snd].
      destruct (Hgone (getMaintenance key w).2) as (e & Hg & Hn). change (dnm_Namespace d) with (dnm_Namespace base).
      change (dnm_DPUNodeName d) with (dnm_DPUNodeName base). destruct (getDPUNode_m _ _) as [r w2]. simpl in Hg. subst r.
      rewrite Hn. apply Hrel. }
  unfold Reconcile, mbind, SM_bind. cbn [getMaintenance mtraced]. unfold unlogged. cbn [fst snd].
  destruct (getMaintenance key w) as [b w1]. simpl in Hb. subst b. cbn [fst snd] in *. fold d. rewrite Hobj.
  cbn [patchMaintenance mtraced]. unfold logged. cbn [fst snd].
  destruct (patchMaintenance base _ w2) as [e' w3]. split; [done|]. by eexists _, e'.
Qed.

(** ** Witnesses *)

(** One object, its node, and the other nodes. *)
Record MWorld := mkMWorld {
  mw_maintenance : option DPUNodeMaintenance;
  mw_dpunodes : list DPUNode;
  mw_node : option Node }.

Definition fake_maintenance_client_of (nodes : MWorld → list DPUNode) : MaintenanceClient MWorld := {|
  getMaintenance _ w := (found (mw_maintenance w), w);
  deleteMaintenance _ w := (None, mkMWorld None (mw_dpunodes w) (mw_node w));
  patchMaintenance _ d w := (None, mkMWorld (Some d) (mw_dpunodes w) (mw_node w));
  getDPUNode_m k w := (found (snd <$> list_find (λ n, dn_Name n = nn_name k) (nodes w)), w);
  listDPUNodes_m _ w := (Ok (mw_dpunodes w), w);
  updateDPUNodeStatus _ w := (None, w);
  patchDPUNode _ _ w := (None, w);
  getNode _ w := (found (mw_node w), w);
  updateNode n w := (None, mkMWorld (mw_maintenance w) (mw_dpunodes w) (Some n));
  patchNode _ n w := (None, mkMWorld (mw_maintenance w) (mw_dpunodes w) (Some n));
  getJob _ w := (Err not_found, w);
  createJob _ w := (None, w);
  deleteJob _ w := (None, w);
  getConfigMapData _ w := (Err not_found, w);
  getNodeMaintenance _ w := (Err not_found, w);
  createNodeMaintenance_api _ w := (None, w);
  patchNodeMaintenance _ _ w := (None, w);
  deleteNodeMaintenance _ w := (None, w) |}.

Definition fake_maintenance_client : MaintenanceClient MWorld := fake_maintenance_client_of mw_dpunodes.
(** Without any DPUNode, whatever happens. *)
Definition with_no_dpunodes : MaintenanceClient MWorld := fake_maintenance_client_of (λ _, []).
Definition fake_pods : PodParser := λ s, Ok (mkPod s "" s).

Definition example_taint : Taint := mkTaint "maintenance" "true" "NoSchedule" None.
Definition example_taint_effect : NodeEffect :=
  mkNodeEffect (mkAction (Some example_taint) None ∅ None None None (Some false)) (mkUpgradePolicy None []).
Definition example_requested (deleted : option Time) (requestors : list string) : DPUNodeMaintenance :=
  mkDNM "m" "ns" 1 ∅ ∅ [DPUNodeMaintenanceFinalizer] deleted "node" (Some example_taint_effect) requestors [] None None None.
Definition example_dpunode (name : string) (ready : ConditionStatus) : DPUNode :=
  mkDPUNode name "ns" ∅ ∅ [] [] ["d1"; "d2"] None (Some name) None [mkCondition DPUNodeConditionReady ready 0 1 "" ""] None None.
Definition example_options : DPUNodeMaintenanceOptions := mkMaintenanceOptions 0 2.
Definition example_mworld (d : DPUNodeMaintenance) : MWorld :=
  mkMWorld (Some d) [example_dpunode "node" ConditionTrue; example_dpunode "other" ConditionFalse] (Some (mkNode "node" ∅ ∅ [] [] [])).

Abbreviation example_reconcile d :=
  (Reconcile (C:=mtraced fake_maintenance_client) (K:=fake_codec) (R:=map_to_list_range) (P:=fake_pods) (API:=meta_list)
     (FA:=finalizer_list) example_options 7 (mkNN "ns" "m") (example_mworld d, [])) (only parsing).

(** The node gets its taint, and is marked. *)
Lemma Reconcile_writes_witness :
  let d := example_requested None ["d1"] in
  let r := example_reconcile d in
  (λ x, match x with MNodeUpdate n _ => length (no_Taints n) | MDPUNodeStatus _ _ => 10 | _ => 20 end) <$> r.2.2 = [1; 10; 20] ∧
  ∃ k final e, r.2.2 = k ++ [MPatch d final e] ∧
    Forall (guarded (C:=fake_maintenance_client) (K:=fake_codec) (API:=meta_list) 7 (ensureStatusDefaults example_options d)) k.
Proof.
  split; [vm_compute; reflexivity|].
  exact (proj1 (Reconcile_writes (C:=fake_maintenance_client) (K:=fake_codec) (R:=map_to_list_range) (P:=fake_pods) (API:=meta_list)
    (FA:=finalizer_list) example_options 7 (mkNN "ns" "m") (example_mworld (example_requested None ["d1"])))).
Defined.

(** The same pass reports the effect as applied. *)
Lemma applied_means_witness :
  let d := example_requested None ["d1"] in
  let r := example_reconcile d in
  ∃ k final e, r.2.2 = k ++ [MPatch d final e] ∧ IsNodeEffectApplied (API:=meta_list) final = true.
Proof.
  destruct (applied_means (C:=fake_maintenance_client) (K:=fake_codec) (R:=map_to_list_range) (P:=fake_pods) (API:=meta_list)
    (FA:=finalizer_list) example_options 7 (mkNN "ns" "m") (example_requested None ["d1"])
    (example_mworld (example_requested None ["d1"])) eq_refl) as (k & final & e & H1 & _ & H2).
  exists k, final, e. split; [exact H1|]. apply H2; [reflexivity|apply (bool_decide_unpack _); vm_compute; exact I|discriminate|vm_compute; reflexivity].
Defined.

(** One other node is not ready and the budget is two. *)
Lemma gate_spec_witness :
  let d := ensureStatusDefaults example_options (with_dnm_Sync (Some 5%Z) None None (example_requested None ["d1"])) in
  (checkMaxUnavailableAndSyncWaitTime (C:=mtraced fake_maintenance_client) (API:=meta_list) 7 d example_taint_effect
     (example_dpunode "node" ConditionTrue) (example_mworld d, [])).1 = None.
Proof.
  apply (proj1 (proj2 (gate_spec (C:=fake_maintenance_client) (K:=fake_codec) (API:=meta_list) 7
    (ensureStatusDefaults example_options (with_dnm_Sync (Some 5%Z) None None (example_requested None ["d1"]))) example_taint_effect
    (example_dpunode "node" ConditionTrue)
    (example_mworld (ensureStatusDefaults example_options (with_dnm_Sync (Some 5%Z) None None (example_requested None ["d1"]))))))).
  right. eexists. split; [reflexivity|]. split.
  - right. intros max [= <-]. vm_compute. reflexivity.
  - right. exists 5%Z, 0%Z. split; [reflexivity|]. split; [reflexivity|vm_compute; discriminate].
Defined.

(** A taint that was on the node goes with the effect. *)
Lemma effect_roundtrip_witness :
  let node := mkNode "node" ∅ ∅ [] [] [mkTaint "maintenance" "" "NoExecute" None] in
  let w := example_mworld (example_requested None ["d1"]) in
  ∃ node' n e, (removeNodeEffectTaint (C:=mtraced fake_maintenance_client) node' example_taint_effect (w, [])).2.2 = [MNode node' n e] ∧
    n ≠ node.
Proof.
  destruct (proj1 (effect_roundtrip (C:=fake_maintenance_client) example_taint_effect
    (mkNode "node" ∅ ∅ [] [] [mkTaint "maintenance" "" "NoExecute" None]) (example_dpunode "node" ConditionTrue)
    (example_mworld (example_requested None ["d1"])) (example_mworld (example_requested None ["d1"]))) example_taint eq_refl)
    as (node' & applied & _ & _ & n & e & H & Hn).
  exists node', n, e. split; [exact H|]. intros E. apply (proj1 Hn E (mkTaint "maintenance" "" "NoExecute" None)); [left|reflexivity].
Defined.

(** A deleted object whose node is gone. *)
Lemma orphan_keeps_finalizer_witness :
  let d := example_requested (Some 5%Z) ["d1"] in
  ∃ final e, (Reconcile (C:=mtraced with_no_dpunodes) (K:=fake_codec) (R:=map_to_list_range) (P:=fake_pods) (API:=meta_list)
     (FA:=finalizer_list) example_options 7 (mkNN "ns" "m") (mkMWorld (Some d) [] None, [])).2.2 = [MPatch d final e] ∧
    dnm_Finalizers final = [DPUNodeMaintenanceFinalizer].
Proof.
  destruct (orphan_keeps_finalizer (C:=with_no_dpunodes) (K:=fake_codec) (R:=map_to_list_range) (P:=fake_pods) (API:=meta_list)
    (FA:=finalizer_list) example_options 7 (mkNN "ns" "m") (example_requested (Some 5%Z) ["d1"]) example_taint_effect
    (mkMWorld (Some (example_requested (Some 5%Z) ["d1"])) [] None) eq_refl eq_refl eq_refl eq_refl) as (_ & final & e & H & Hf & _).
  - intros w. eexists. split; reflexivity.
  - exists final, e. split; [exact H|exact Hf].
Defined.

