(* ===== verification/NodeTypes.v ===== *)
(** The data of the DPUNode controller (internal/provisioning/controllers/dpunode),
    what it asks of the API server, and the log of its writes.

    Pod templates, jobs and pods are types of other projects, kept with the fields
    the controller reads or writes.  Parsing the YAML of a pod template is an
    operation of [TemplateParser]. *)

From S2P Require Import Prelude.
From S2P Require Import Meta.
From S2P Require Import DPUTypes.
From S2P Require Import Kubernetes.
From S2P Require Import WriteLog.
From S2P Require Import TraceLogic.

(** ** Constants *)

Definition DPUNodeFinalizer := "provisioning.dpu.nvidia.com/dpunode-protection".
Definition DPUNodeExternalRebootRequiredAnnotation := "provisioning.dpu.nvidia.com/dpunode-external-reboot-required".
Definition DPUNodeConditionRebootInProgress := "DPUNodeRebootInProgress".
Definition DPUNodeConditionNeedHostAgentUpgrade := "NeedHostAgentUpgrade".
Definition DPUNodeInstallIntrefaceRedfish := "redfish".

Definition PodTemplateConfigMapKey := "pod-template".
Definition PodInfoVolumeName := "dpf-pod-info".
Definition PodInfoMountPath := "/etc/dpf-pod-info".
Definition PodInfoLabelsPath := "labels".
Definition PodInfoAnnotationsPath := "annotations".
Definition PodInfoLabelsFieldPath := "metadata.labels".
Definition PodInfoAnnotationsFieldPath := "metadata.annotations".
Definition DPUNodeNameEnvVar := "DPUNODE_NAME".
Definition DPUNodeRebootMethodEnvVar := "DPUNODE_REBOOT_METHOD".
Definition DPUNodeRebootMethodsPerDPUEnvVar := "DPUNODE_REBOOT_METHODS_PER_DPU".
Definition DPUNodeRebootMethodAnnotation := DPUProvisioningPrefix +:+ "reboot-method-aggregated".
Definition DPUNodeRebootMethodsPerDPUAnnotation := DPUProvisioningPrefix +:+ "reboot-methods-per-dpu".
Definition reasonExternalRebootWaitManual := "WaitingForManualPowerCycleOrReboot".
Definition ReasonRebootScriptWaiting := "RebootScriptWaiting".
Definition ReasonRebootScriptFailedToFetchJob := "RebootScriptFailedToFetchJob".
Definition ReasonRebootScriptFailed := "RebootScriptFailed".

(** Durations are nanoseconds. *)
Definition RequeueInterval : Z := (5 * second)%Z.
Definition RebootSyncInterval : Z := (30 * second)%Z.

(** ** The DPUNode *)

Definition with_dn_Meta (labels annotations : gmap string string) (n : DPUNode) : DPUNode :=
  mkDPUNode (dn_Name n) (dn_Namespace n) labels annotations (dn_Finalizers n) (dn_OwnerReferences n)
    (dn_DPUs n) (dn_NodeRebootMethod n) (dn_KubeNodeRef n) (dn_DPUInstallInterface n) (dn_Conditions n) (dn_RebootMethod n)
    (dn_DeletionTimestamp n).
Definition with_dn_Finalizers (v : list string) (n : DPUNode) : DPUNode :=
  mkDPUNode (dn_Name n) (dn_Namespace n) (dn_Labels n) (dn_Annotations n) v (dn_OwnerReferences n)
    (dn_DPUs n) (dn_NodeRebootMethod n) (dn_KubeNodeRef n) (dn_DPUInstallInterface n) (dn_Conditions n) (dn_RebootMethod n)
    (dn_DeletionTimestamp n).
Definition with_dn_KubeNodeRef (v : option string) (n : DPUNode) : DPUNode :=
  mkDPUNode (dn_Name n) (dn_Namespace n) (dn_Labels n) (dn_Annotations n) (dn_Finalizers n) (dn_OwnerReferences n)
    (dn_DPUs n) (dn_NodeRebootMethod n) v (dn_DPUInstallInterface n) (dn_Conditions n) (dn_RebootMethod n)
    (dn_DeletionTimestamp n).
(** The fields of the status that a reconcile changes. *)
Definition with_dn_Status (interface : option string) (conditions : list Condition) (method : option RebootMethodType)
    (n : DPUNode) : DPUNode :=
  mkDPUNode (dn_Name n) (dn_Namespace n) (dn_Labels n) (dn_Annotations n) (dn_Finalizers n) (dn_OwnerReferences n)
    (dn_DPUs n) (dn_NodeRebootMethod n) (dn_KubeNodeRef n) interface conditions method (dn_DeletionTimestamp n).

Definition set_conditions (v : list Condition) (n : DPUNode) : DPUNode :=
  with_dn_Status (dn_DPUInstallInterface n) v (dn_RebootMethod n) n.
Definition set_reboot_method (v : option RebootMethodType) (n : DPUNode) : DPUNode :=
  with_dn_Status (dn_DPUInstallInterface n) (dn_Conditions n) v n.

(** ** Pods and jobs *)

Record EnvVar := mkEnvVar { ev_Name : string; ev_Value : string }.
Record VolumeMount := mkMount { vm_Name : string; vm_MountPath : string }.
(** [co_Rest] stands for the fields the controller leaves alone. *)
Record Container := mkContainer {
  co_Name : string; co_Env : list EnvVar; co_VolumeMounts : list VolumeMount; co_Rest : string }.
(** The items of a downward API volume are paths and field paths. *)
Inductive VolumeSource := DownwardAPI (items : list (string * string)) | OtherVolume (text : string).
Record Toleration := mkToleration { to_Key : string; to_Operator : string; to_Value : string; to_Effect : string }.
Record PodTemplateSpec := mkTemplate {
  pt_Labels : gmap string string;
  pt_Annotations : gmap string string;
  pt_Containers : list Container;
  pt_InitContainers : list Container;
  pt_Volumes : list (string * VolumeSource);
  pt_Tolerations : list Toleration;
  pt_Rest : string }.

Class TemplateParser := unmarshalTemplate : string → Res PodTemplateSpec.

Record JobCondition := mkJobCondition {
  jc_Type : string; jc_Status : ConditionStatus; jc_Reason : string; jc_Message : string }.
Record ScriptJob := mkScriptJob {
  sj_Name : string;
  sj_Namespace : string;
  sj_TTLSecondsAfterFinished : Z;
  sj_BackoffLimit : Z;
  sj_Template : PodTemplateSpec;
  sj_Conditions : list JobCondition;
  sj_Active : Z;
  sj_Succeeded : Z;
  sj_Failed : Z }.

(** Name, and exit code and reason of a container that has terminated. *)
Record ContainerStatus := mkContainerStatus { cs_Name : string; cs_Terminated : option (Z * string) }.
Record PodStatus := mkPodStatus { po_Init : list ContainerStatus; po_Containers : list ContainerStatus }.

(** ** Errors of a patch

    The serial patcher returns aggregates; their parts are looked at. *)
Inductive PatchError := PSingle (e : GoError) | PAggregate (es : list PatchError).

(** ** The calls *)

Class NodeClient (W : Type) := {
  getDPUNode_n : NamespacedName → SM W (Res DPUNode);
  (** The serial patcher. *)
  patchDPUNode_n : DPUNode → DPUNode → SM W (option PatchError);
  deleteDPUNode : DPUNode → SM W (option GoError);
  getHostNode : string → SM W (Res Node);
  listDPUNodes_n : SM W (Res (list DPUNode));
  getDPU_n : NamespacedName → SM W (Res DPU);
  (** Every DPU of the API server, in all namespaces. *)
  listAllDPUs : SM W (Res (list DPU));
  (** With the DPUNode label, in all namespaces. *)
  listLabelledDPUs : string → SM W (Res (list DPU));
  deleteDPU_n : DPU → SM W (option GoError);
  (** A merge patch of the status without a lock. *)
  patchRebootStatus : DPU → DPU → SM W (option GoError);
  listLabelledDPUDevices : string → SM W (Res (list DPUDevice));
  deleteDPUDevice : DPUDevice → SM W (option GoError);
  listLabelledMaintenances : string → SM W (Res (list DPUNodeMaintenance));
  getConfigMapData_n : NamespacedName → SM W (Res (gmap string string));
  getScriptJob : NamespacedName → SM W (Res ScriptJob);
  createScriptJob_api : ScriptJob → SM W (option GoError);
  (** With foreground propagation. *)
  deleteScriptJob : ScriptJob → SM W (option GoError);
  listJobPods : ScriptJob → SM W (Res (list PodStatus));
  (** [retry.RetryOnConflict], on a function that may also change variables [X]. *)
  retryX : ∀ X : Type, SM (X * W) (option GoError) → SM (X * W) (option GoError) }.

Class NodeClientLaws (W : Type) (C : NodeClient W) := {
  retryX_attempts X (f : SM (X * W) (option GoError)) w : ∃ n, attempts f n w = Some (retryX X f w) }.

(** A retried function that closes over nothing. *)
Definition retry_n {W} {C : NodeClient W} (f : SM W (option GoError)) : SM W (option GoError) := λ w,
  match retryX unit (λ '(_, w), match f w with (r, w) => (r, (tt, w)) end) (tt, w) with
  | (r, (_, w)) => (r, w)
  end.

(** ** The log

    With the reads that the writes are decided by, and what they answered. *)

Inductive NEvent :=
| NGotHost (name : string) (r : Res Node)
| NGotDPU (k : NamespacedName) (r : Res DPU)
| NListedAll (r : Res (list DPU))
| NListedDPUs (name : string) (r : Res (list DPU))
| NListedDevices (name : string) (r : Res (list DPUDevice))
| NGotMap (k : NamespacedName) (r : Res (gmap string string))
| NGotJob (k : NamespacedName) (r : Res ScriptJob)
| NPatch (base patched : DPUNode) (r : option PatchError)
| NDeleteNode (n : DPUNode) (r : option GoError)
| NDeleteDPU (d : DPU) (r : option GoError)
| NRebootStatus (base patched : DPU) (r : option GoError)
| NDeleteDevice (d : DPUDevice) (r : option GoError)
| NCreateJob (j : ScriptJob) (r : option GoError)
| NDeleteJob (j : ScriptJob) (r : option GoError).

Definition is_read (x : NEvent) : Prop :=
  match x with
  | NGotHost _ _ | NGotDPU _ _ | NListedAll _ | NListedDPUs _ _ | NListedDevices _ _ | NGotMap _ _ | NGotJob _ _ => True
  | _ => False
  end.

Definition ntraced {W} (C : NodeClient W) : NodeClient (W * list NEvent) := {|
  getDPUNode_n k := unlogged (getDPUNode_n k);
  patchDPUNode_n n n' := logged (NPatch n n') (patchDPUNode_n n n');
  deleteDPUNode n := logged (NDeleteNode n) (deleteDPUNode n);
  getHostNode name := logged (NGotHost name) (getHostNode name);
  listDPUNodes_n := unlogged listDPUNodes_n;
  getDPU_n k := logged (NGotDPU k) (getDPU_n k);
  listAllDPUs := logged NListedAll listAllDPUs;
  listLabelledDPUs name := logged (NListedDPUs name) (listLabelledDPUs name);
  deleteDPU_n d := logged (NDeleteDPU d) (deleteDPU_n d);
  patchRebootStatus d d' := logged (NRebootStatus d d') (patchRebootStatus d d');
  listLabelledDPUDevices name := logged (NListedDevices name) (listLabelledDPUDevices name);
  deleteDPUDevice d := logged (NDeleteDevice d) (deleteDPUDevice d);
  listLabelledMaintenances name := unlogged (listLabelledMaintenances name);
  getConfigMapData_n k := logged (NGotMap k) (getConfigMapData_n k);
  getScriptJob k := logged (NGotJob k) (getScriptJob k);
  createScriptJob_api j := logged (NCreateJob j) (createScriptJob_api j);
  deleteScriptJob j := logged (NDeleteJob j) (deleteScriptJob j);
  listJobPods j := unlogged (listJobPods j);
  retryX X f := log_out (retryX (X * list NEvent) (log_in f)) |}.

#[export] Instance ntraced_laws {W} (C : NodeClient W) : NodeClientLaws W C → NodeClientLaws _ (ntraced C).
Proof.
  intros L. split. intros X f [x [w l]]. destruct (retryX_attempts (X * list NEvent) (log_in f) ((x, l), w)) as [n Hn].
  exists n. rewrite attempts_log, Hn. simpl. by destruct (retryX _ _ _) as [r [[x' l'] w']].
Qed.

(** A retried function is followed through its last attempt, after whatever the
    earlier ones logged. *)
Lemma traces_retry {W} {C : NodeClient W} {L : NodeClientLaws W C} (J : list NEvent → NEvent → Prop) l
    (f : SM (W * list NEvent) (option GoError)) Q :
  (∀ l', l `prefix_of` l' → traces J l' f Q) → traces J l (retry_n (C:=ntraced C) f) Q.
Proof.
  intros Hf w. unfold retry_n.
  destruct (retryX_attempts (C:=ntraced C) unit (without_variables f) (tt, (w, l))) as [n Hn].
  destruct (traces_attempts J l f Q n w Hf _ Hn) as (k & Hk). exists k. revert Hk. unfold without_variables. by destruct (retryX _ _ _) as [r [[] [w' l']]].
Qed.
