(* ===== verification/ExampleNode.v ===== *)
(** An in-memory instance of the services of the DPUNode controller, on which its
    witnesses are evaluated.  No theorem depends on it. *)

From S2P Require Import Prelude.
From S2P Require Import Meta.
From S2P Require Import DPUTypes.
From S2P Require Import Kubernetes.
From S2P Require Import FakeClient.
From S2P Require Import ExampleWorld.
From S2P Require Import NodeTypes.

(** One DPUNode, its host, DPUs and devices, and a slot for the script job. *)
Record NWorld := mkNWorld {
  nw_node : option DPUNode;
  nw_host : option Node;
  nw_dpus : gmap NamespacedName DPU;
  nw_devices : list DPUDevice;
  nw_job : option ScriptJob }.

Definition with_dpus (m : gmap NamespacedName DPU) (w : NWorld) : NWorld :=
  mkNWorld (nw_node w) (nw_host w) m (nw_devices w) (nw_job w).
Definition with_job (j : option ScriptJob) (w : NWorld) : NWorld :=
  mkNWorld (nw_node w) (nw_host w) (nw_dpus w) (nw_devices w) j.
Definition with_node (n : option DPUNode) (w : NWorld) : NWorld :=
  mkNWorld n (nw_host w) (nw_dpus w) (nw_devices w) (nw_job w).

Definition key_of (d : DPU) : NamespacedName := mkNN (dpu_Namespace d) (dpu_Name d).
(** Objects are filed under their own name. *)
Definition stored_dpus (w : NWorld) : gmap NamespacedName DPU := filter (λ kd, key_of kd.2 = kd.1) (nw_dpus w).

Definition fake_node_client : NodeClient NWorld := {|
  getDPUNode_n _ w := (found (nw_node w), w);
  patchDPUNode_n _ n w := (None, with_node (Some n) w);
  deleteDPUNode _ w := (None, with_node None w);
  getHostNode _ w := (found (nw_host w), w);
  listDPUNodes_n w := (Ok (option_list (nw_node w)), w);
  getDPU_n k w := (found (stored_dpus w !! k), w);
  listAllDPUs w := (Ok (map_to_list (stored_dpus w)).*2, w);
  listLabelledDPUs _ w := (Ok (map_to_list (stored_dpus w)).*2, w);
  deleteDPU_n d w := (None, with_dpus (delete (key_of d) (nw_dpus w)) w);
  patchRebootStatus _ d w := (None, with_dpus (<[key_of d := d]> (nw_dpus w)) w);
  listLabelledDPUDevices _ w := (Ok (nw_devices w), w);
  deleteDPUDevice _ w := (None, mkNWorld (nw_node w) (nw_host w) (nw_dpus w) [] (nw_job w));
  listLabelledMaintenances _ w := (Ok [], w);
  getConfigMapData_n _ w := (Ok {[ PodTemplateConfigMapKey := "template" ]}, w);
  getScriptJob _ w := (found (nw_job w), w);
  createScriptJob_api j w := (None, with_job (Some j) w);
  deleteScriptJob _ w := (None, with_job None w);
  listJobPods _ w := (Ok [], w);
  retryX _ f := f |}.

#[export] Instance fake_node_client_laws : NodeClientLaws NWorld fake_node_client.
Proof. split. intros X f w. by exists 0. Qed.

Definition fake_templates : TemplateParser := λ _, Ok (mkTemplate ∅ ∅ [mkContainer "c" [] [] ""] [] [] [] "").

(** A DPU that is rebooting, with what it reports. *)
Definition example_rebooting (device : string) (rs : option RebootStatus) : DPU :=
  let d := example_in DPURebooting DPUConfigPhase [] in
  let d := with_Status (with_RebootStatus rs (dpu_Status d)) d in
  mkDPU ("node-" +:+ device) "ns" ("uid-" +:+ device) 1 (dpu_Labels d) (dpu_Annotations d) (dpu_Finalizers d) 0 None (dpu_Spec d)
    (dpu_Status d).

Definition example_method (external : bool) : NodeRebootMethod :=
  mkNodeRebootMethod false false external (if external then None else Some "script") false.
Definition example_node (external : bool) (annotations : gmap string string) : DPUNode :=
  mkDPUNode "node" "ns" ∅ annotations [DPUNodeFinalizer] [] ["d1"; "d2"] (Some (example_method external)) None
    (Some InstallViaHostAgent) [] None None.
Definition example_nworld (node : DPUNode) (dpus : list DPU) (job : option ScriptJob) : NWorld :=
  mkNWorld (Some node) None (list_to_map ((λ d, (key_of d, d)) <$> dpus)) [] job.
