(* ===== verification/RebootMethods.v ===== *)
(** Pure functions of the DPUNode controller (dpunode_controller.go): the reboot a
    host needs, what its DPUs have reported, and the pod of a reboot script.

    The slices of DPUs hold no nil pointer: every caller fills them from objects
    it has read. *)

From S2P Require Import Prelude.
From S2P Require Import Meta.
From S2P Require Import DPUTypes.
From S2P Require Import Kubernetes.
From S2P Require Import ClusterMetadata.
From S2P Require Import MaintenanceTypes.
From S2P Require Import NodeTypes.
From stdpp Require Import sorting.

(** ** The reboot method of a host *)

(** Lower numbers are more disruptive. *)
Definition GetRebootMethodPriority (m : RebootMethodType) : Z :=
  match m with
  | RebootMethodPowerCycle => 0
  | RebootMethodSystemLevelReset => 1
  | RebootMethodSystemReboot => 2
  | RebootMethodFirmwareReset => 3
  | RebootMethodDPUWarmReboot => 4
  | RebootMethodNoAction => 5
  | _ => 6
  end.

Record rebootMethodAggregation := mkAggregation {
  agg_Method : RebootMethodType;
  agg_Winner : string;
  agg_PerDPU : string;
  agg_HasReporting : bool }.

Definition winnerOrNone (a : rebootMethodAggregation) : string :=
  if bool_decide (agg_Winner a = "") then "<none>" else agg_Winner a.

(** [d.Status.RebootStatus.Method], where there is one. *)
Definition reported_method (d : DPU) : option RebootMethodType := st_RebootStatus (dpu_Status d) ≫= rs_Method.

(** The loop body on the method, the winner and whether one has reported. *)
Definition aggregate_step (agg : RebootMethodType * string * bool) (d : DPU) : RebootMethodType * string * bool :=
  let '(best, winner, hasReporting) := agg in
  let method := deref (reported_method d) RebootMethodUnknown in
  if negb hasReporting && bool_decide (is_Some (reported_method d)) then (method, dpu_Name d, true)
  else if (GetRebootMethodPriority method <? GetRebootMethodPriority best)%Z then (method, dpu_Name d, hasReporting)
  else agg.

Definition by_name (a b : DPU) : Prop := String.le (dpu_Name a) (dpu_Name b).
#[export] Instance by_name_dec a b : Decision (by_name a b) := _.
Definition sorted_by_name (dpus : list DPU) : list DPU := merge_sort by_name dpus.

Definition method_pair (d : DPU) : string :=
  dpu_Name d +:+ "=" +:+ reboot_method_string (deref (reported_method d) RebootMethodUnknown).

Definition aggregateDPURebootMethods (dpus : list DPU) : rebootMethodAggregation :=
  let sorted := sorted_by_name dpus in
  let '(method, winner, hasReporting) := foldl aggregate_step (RebootMethodUnknown, "", false) sorted in
  mkAggregation method winner (strings_Join "," (method_pair <$> sorted)) hasReporting.

Definition buildExternalRebootWaitMessage (agg : rebootMethodAggregation) : string :=
  if agg_HasReporting agg
  then "required reboot method: " +:+ reboot_method_string (agg_Method agg) +:+ " (driven by DPU " +:+ winnerOrNone agg +:+ ")"
  else "required reboot method: <pending agent report>".

(** ** What the DPUs report *)

Definition has_reboot_phase (p : RebootStatusPhase) (d : DPU) : bool :=
  match st_RebootStatus (dpu_Status d) with Some rs => bool_decide (rs_Phase rs = p) | None => false end.

Definition anyDPUWaitingForShutdown (dpus : list DPU) : bool := existsb (has_reboot_phase RebootStatusWaitForShutdown) dpus.

Definition isScriptRelatedReason (reason : string) : bool :=
  bool_decide (reason ∈ [ReasonRebootScriptWaiting; ReasonRebootScriptFailedToFetchJob; ReasonRebootScriptFailed]).

Definition scriptRebootLifecycleActive (rs : option RebootStatus) : bool :=
  match rs with
  | None => false
  | Some rs =>
      match rs_Phase rs with
      | RebootStatusPending => bool_decide (rs_Reason rs = ReasonRebootScriptWaiting)
      | RebootStatusFailed => isScriptRelatedReason (rs_Reason rs)
      | _ => false
      end
  end.

Definition scriptRebootLifecycleActiveOnAny (dpus : list DPU) : bool :=
  existsb (λ d, scriptRebootLifecycleActive (st_RebootStatus (dpu_Status d))) dpus.

Definition allRebootingDPUsSucceeded (dpus : list DPU) : bool :=
  negb (bool_decide (dpus = [])) && forallb (has_reboot_phase RebootStatusSucceeded) dpus.

(** ** Jobs *)

Definition has_true_condition (type : string) (job : ScriptJob) : bool :=
  existsb (λ c, bool_decide (jc_Type c = type) && bool_decide (jc_Status c = ConditionTrue)) (sj_Conditions job).
Definition isJobComplete (job : ScriptJob) : bool := has_true_condition JobComplete job.
Definition isJobFailed (job : ScriptJob) : bool := has_true_condition JobFailed job.
Definition isJobTerminal (job : ScriptJob) : bool := isJobComplete job || isJobFailed job.

Definition extractJobFailureDetails (job : ScriptJob) : string :=
  match list_find (λ c, jc_Type c = JobFailed ∧ jc_Status c = ConditionTrue) (sj_Conditions job) with
  | Some (_, cond) => "job failed (reason: " +:+ jc_Reason cond +:+ "): " +:+ jc_Message cond
  | None => "job failed with unknown reason"
  end.

(** The text for the first container that exited with an error. *)
Definition container_failure (kind : string) (cs : list ContainerStatus) : option string :=
  head (omap (λ c, match cs_Terminated c with
                   | Some (code, reason) =>
                       if (code =? 0)%Z then None
                       else Some (kind +:+ " " +:+ quoted (cs_Name c) +:+ " exited with code " +:+ pretty code
                                  +:+ " (reason: " +:+ reason +:+ ")")
                   | None => None
                   end) cs).
Definition pod_failure (p : PodStatus) : option string :=
  match container_failure "init container" (po_Init p) with
  | Some t => Some t
  | None => container_failure "container" (po_Containers p)
  end.
(** The pods are visited from the last to the first. *)
Definition pods_failure (pods : list PodStatus) : option string := head (omap pod_failure (rev pods)).

(** ** The pod of a script *)

Definition ensureEnv (envs : list EnvVar) (name value : string) : list EnvVar :=
  if bool_decide (name ∈ ev_Name <$> envs) then envs else envs ++ [mkEnvVar name value].
Definition ensureMount (mnts : list VolumeMount) (name path : string) : list VolumeMount :=
  if bool_decide (name ∈ vm_Name <$> mnts) then mnts else mnts ++ [mkMount name path].
Definition ensureControlPlaneToleration (tolerations : list Toleration) : list Toleration :=
  let key := "node-role.kubernetes.io/control-plane" in
  if existsb (λ t, bool_decide (to_Key t = key) && bool_decide (to_Effect t = "NoSchedule")) tolerations then tolerations
  else tolerations ++ [mkToleration key "Exists" "" "NoSchedule"].

(** The variables of a container, in the order they are added. *)
Definition with_env (dpuNodeName method perDPU : string) (c : Container) : Container :=
  let envs := ensureEnv (co_Env c) DPUNodeNameEnvVar dpuNodeName in
  let envs := ensureEnv envs DPUNodeRebootMethodEnvVar method in
  mkContainer (co_Name c) (ensureEnv envs DPUNodeRebootMethodsPerDPUEnvVar perDPU) (co_VolumeMounts c) (co_Rest c).
Definition with_mount (c : Container) : Container :=
  mkContainer (co_Name c) (co_Env c) (ensureMount (co_VolumeMounts c) PodInfoVolumeName PodInfoMountPath) (co_Rest c).

Definition pod_info_volume : string * VolumeSource :=
  (PodInfoVolumeName, DownwardAPI [(PodInfoLabelsPath, PodInfoLabelsFieldPath);
                                   (PodInfoAnnotationsPath, PodInfoAnnotationsFieldPath)]).

(** The method a script is told: never Unknown. *)
Definition script_method (agg : rebootMethodAggregation) : RebootMethodType :=
  if negb (agg_HasReporting agg) || bool_decide (agg_Method agg = RebootMethodUnknown)
  then RebootMethodSystemLevelReset else agg_Method agg.

(** The template of the job: variables, annotations, labels, volume, tolerations. *)
Definition script_template (dpuNode : DPUNode) (agg : rebootMethodAggregation) (t : PodTemplateSpec) : PodTemplateSpec :=
  let method := reboot_method_string (script_method agg) in
  let containers := with_env (dn_Name dpuNode) method (agg_PerDPU agg) <$> pt_Containers t in
  let inits := with_env (dn_Name dpuNode) method (agg_PerDPU agg) <$> pt_InitContainers t in
  let annotations := <[DPUNodeRebootMethodsPerDPUAnnotation := agg_PerDPU agg]>
                       (<[DPUNodeRebootMethodAnnotation := method]> (pt_Annotations t ∪ dn_Annotations dpuNode)) in
  let volumeExists := bool_decide (PodInfoVolumeName ∈ (pt_Volumes t).*1) in
  mkTemplate (pt_Labels t ∪ dn_Labels dpuNode) annotations
    (if volumeExists then containers else with_mount <$> containers)
    (if volumeExists then inits else with_mount <$> inits)
    (if volumeExists then pt_Volumes t else pt_Volumes t ++ [pod_info_volume])
    (ensureControlPlaneToleration (pt_Tolerations t)) (pt_Rest t).

Definition script_job (dpuNode : DPUNode) (name : string) (t : PodTemplateSpec) : ScriptJob :=
  mkScriptJob name (dn_Namespace dpuNode) 3600 3 t [] 0 0 0.

Definition generateJobName (dpuNode : DPUNode) : string := dn_Name dpuNode +:+ "-script-job".

(** ** The winner *)

(** One method is more urgent than another: its priority, then the name. *)
Definition beats (d e : DPU) : Prop :=
  ∃ m n, reported_method d = Some m ∧ reported_method e = Some n ∧
    (GetRebootMethodPriority m < GetRebootMethodPriority n ∨
     GetRebootMethodPriority m = GetRebootMethodPriority n ∧ by_name d e)%Z.

Lemma priority_range m : (0 <= GetRebootMethodPriority m <= 6)%Z.
Proof. destruct m; simpl; lia. Qed.

#[export] Instance by_name_preorder : PreOrder by_name.
Proof. split; [intros a; unfold by_name; reflexivity|]. intros a b c. unfold by_name. apply transitivity. Qed.
#[export] Instance by_name_total : Total by_name.
Proof. intros a b. apply (total String.le). Qed.

Lemma sorted_by_name_perm dpus : sorted_by_name dpus ≡ₚ dpus.
Proof. apply merge_sort_Permutation. Qed.
Lemma sorted_by_name_sorted dpus : StronglySorted by_name (sorted_by_name dpus).
Proof. apply (StronglySorted_merge_sort by_name). Qed.

(** What the loop knows after a prefix of the sorted DPUs. *)
Definition winner_of (dpus : list DPU) (agg : RebootMethodType * string * bool) : Prop :=
  let '(method, winner, hasReporting) := agg in
  if hasReporting then ∃ d, d ∈ dpus ∧ dpu_Name d = winner ∧ reported_method d = Some method ∧
    ∀ e, e ∈ dpus → is_Some (reported_method e) → beats d e
  else method = RebootMethodUnknown ∧ winner = "" ∧ ∀ e, e ∈ dpus → reported_method e = None.

Lemma beats_refl d : is_Some (reported_method d) → beats d d.
Proof. intros [m Hm]. exists m, m. split_and!; [done..|]. right. split; [done|]. reflexivity. Qed.

Lemma aggregate_step_winner dpus d agg :
  (∀ e, e ∈ dpus → by_name e d) → winner_of dpus agg → winner_of (dpus ++ [d]) (aggregate_step agg d).
Proof.
  intros Hd. destruct agg as [[method winner] []]; simpl.
  - intros (w & Hw & Hn & Hm & Hb). case_match eqn:Hlt.
    + apply Z.ltb_lt in Hlt. destruct (reported_method d) as [m|] eqn:Em; simpl in Hlt.
      2: { pose proof (priority_range method). lia. }
      exists d. split; [apply elem_of_app; right; left|]. split; [done|]. split; [done|]. intros e He Hr.
      apply elem_of_app in He as [He| ->%list_elem_of_singleton]; [|by apply beats_refl].
      destruct (Hb e He Hr) as (m1 & n & Hm1 & Hne & Hp). rewrite Hm in Hm1. injection Hm1 as <-.
      exists m, n. split_and!; [done..|]. left. lia.
    + apply Z.ltb_ge in Hlt. exists w. split; [apply elem_of_app; by left|]. split; [done|]. split; [done|]. intros e He Hr.
      apply elem_of_app in He as [He| ->%list_elem_of_singleton]; [by apply Hb|]. destruct Hr as [m Em]. rewrite Em in Hlt. simpl in Hlt.
      exists method, m. split_and!; [done..|]. specialize (Hd w Hw).
      destruct (decide (GetRebootMethodPriority method < GetRebootMethodPriority m)%Z); [by left|right; split; [lia|done]].
  - intros (-> & -> & Hnone). case_bool_decide as Hr.
    + destruct Hr as [m Em]. rewrite Em. simpl. exists d. split; [apply elem_of_app; right; left|]. split; [done|]. split; [done|].
      intros e He Hr. apply elem_of_app in He as [He| ->%list_elem_of_singleton]; [|by apply beats_refl].
      rewrite (Hnone e He) in Hr. by destruct Hr.
    + assert (reported_method d = None) as Em by (by apply eq_None_not_Some). rewrite Em. simpl. split; [done|]. split; [done|].
      intros e He. apply elem_of_app in He as [He| ->%list_elem_of_singleton]; [by apply Hnone|done].
Qed.

Lemma aggregate_winner dpus : StronglySorted by_name dpus →
  winner_of dpus (foldl aggregate_step (RebootMethodUnknown, "", false) dpus).
Proof.
  induction dpus as [|d dpus IH] using rev_ind; intros Hs.
  - simpl. split; [done|]. split; [done|]. intros e He. by apply elem_of_nil in He.
  - rewrite foldl_app. simpl. apply StronglySorted_app in Hs as (Hc & Hs & _).
    apply aggregate_step_winner; [|by apply IH]. intros e He. apply Hc; [done|left].
Qed.

(** The order of the slice does not matter when the names differ. *)
Lemma sorted_by_name_unique dpus dpus' :
  dpus ≡ₚ dpus' → NoDup (dpu_Name <$> dpus) → sorted_by_name dpus' = sorted_by_name dpus.
Proof.
  intros Hp Hn. apply (StronglySorted_unique_strong by_name); [|apply sorted_by_name_sorted..|].
  - intros a b Ha Hb Hab Hba. rewrite sorted_by_name_perm, <- Hp in Ha. rewrite sorted_by_name_perm in Hb.
    assert (dpu_Name a = dpu_Name b) as E by (by apply (anti_symm String.le)).
    apply list_elem_of_lookup in Ha as [i Hi]. apply list_elem_of_lookup in Hb as [j Hj].
    assert (i = j) as ->; [|congruence].
    eapply (NoDup_lookup (dpu_Name <$> dpus)); [done|by rewrite list_lookup_fmap, Hi|by rewrite list_lookup_fmap, Hj, E].
  - by rewrite !sorted_by_name_perm.
Qed.

(** ** Properties *)

(** The reboot a host needs: the aggregation reports a method iff some DPU has
    reported one, and then it is the most disruptive method reported, with the
    smallest name among the DPUs that report one of that priority; without a report
    the method is Unknown and there is no winner.  A reboot script is never told
    Unknown, and the order in which the DPUs were read does not matter. *)
Theorem aggregate_spec dpus :
  let agg := aggregateDPURebootMethods dpus in
  (agg_HasReporting agg = true ↔ ∃ d, d ∈ dpus ∧ is_Some (reported_method d)) ∧
  (agg_HasReporting agg = true → ∃ d, d ∈ dpus ∧ dpu_Name d = agg_Winner agg ∧ reported_method d = Some (agg_Method agg) ∧
     ∀ e, e ∈ dpus → is_Some (reported_method e) → beats d e) ∧
  (agg_HasReporting agg = false → agg_Method agg = RebootMethodUnknown ∧ agg_Winner agg = "") ∧
  script_method agg ≠ RebootMethodUnknown ∧
  (∀ dpus', dpus ≡ₚ dpus' → NoDup (dpu_Name <$> dpus) → aggregateDPURebootMethods dpus' = agg).
Proof.
  cbn zeta. assert (script_method (aggregateDPURebootMethods dpus) ≠ RebootMethodUnknown) as Hs.
  { unfold script_method. destruct (negb _); [done|]. simpl. by case_bool_decide. }
  assert (∀ dpus', dpus ≡ₚ dpus' → NoDup (dpu_Name <$> dpus) →
    aggregateDPURebootMethods dpus' = aggregateDPURebootMethods dpus) as Ho.
  { intros dpus' Hp Hn. unfold aggregateDPURebootMethods. by rewrite (sorted_by_name_unique dpus dpus'). }
  assert (let agg := aggregateDPURebootMethods dpus in
    winner_of (sorted_by_name dpus) (agg_Method agg, agg_Winner agg, agg_HasReporting agg)) as Hw.
  { pose proof (aggregate_winner _ (sorted_by_name_sorted dpus)) as Hw. unfold aggregateDPURebootMethods.
    by destruct (foldl _ _ _) as [[method winner] h]. }
  simpl in Hw. destruct (agg_HasReporting _).
  - destruct Hw as (d & Hd & Hn & Hm & Hb). rewrite sorted_by_name_perm in Hd. split; [|split; [|done]].
    + split; [|done]. intros _. exists d. by rewrite Hm.
    + intros _. exists d. split_and!; [done..|]. intros e He. apply Hb. by rewrite sorted_by_name_perm.
  - destruct Hw as (Hm & Hn & Hnone). split; [|done]. split; [done|]. intros (d & Hd & Hr).
    rewrite Hnone in Hr by (by rewrite sorted_by_name_perm). by destruct Hr.
Qed.
