(* ===== verification/NodeReboot.v ===== *)
(** The reboot of a host by the DPUNode controller (dpunode_controller.go): the
    external reboot, which a user confirms by removing an annotation, and the
    script reboot, which a job carries out.

    A handler returns when to come back, the error, and the DPUNode it changed in
    memory.  The clock is read once per reconcile; events and trace annotations
    are left out. *)

From S2P Require Import Prelude.
From S2P Require Import Meta.
From S2P Require Import DPUTypes.
From S2P Require Import Kubernetes.
From S2P Require Import ClusterMetadata.
From S2P Require Import WriteLog.
From S2P Require Import TraceLogic.
From S2P Require Import NodeTypes.
From S2P Require Import RebootMethods.
From S2P Require Import ExampleNode.

Abbreviation NResult := (Z * option GoError * DPUNode)%type (only parsing).

Section Reboot.
Context {W : Type} {C : NodeClient W} {API : MetaAPI} {TP : TemplateParser}.
Context (now : Time).

(** ** Reading the DPUs of a node *)

(** The DPUs of the devices, without those that are not there. *)
Fixpoint get_DPUs (dpuNode : DPUNode) (devices : list string) : SM W (Res (list DPU)) :=
  match devices with
  | [] => mret (Ok [])
  | device :: devices =>
      match GenerateDPUName (dn_Name dpuNode) device with
      | Err e => mret (Err e)
      | Ok name =>
          r ← getDPU_n (mkNN (dn_Namespace dpuNode) name);
          match r with
          | Err err => if IsNotFound err then get_DPUs dpuNode devices else mret (Err err)
          | Ok dpu =>
              rest ← get_DPUs dpuNode devices;
              mret (match rest with Ok dpus => Ok (dpu :: dpus) | Err e => Err e end)
          end
      end
  end.

(** The set of phases, as the list of those found. *)
Definition GetDPUPhases (dpuNode : DPUNode) : SM W (Res (list DPUPhase)) :=
  r ← get_DPUs dpuNode (dn_DPUs dpuNode);
  mret (match r with Ok dpus => Ok (st_Phase ∘ dpu_Status <$> dpus) | Err e => Err e end).

Definition GetDPUsWithPhase (dpuNode : DPUNode) (phase : DPUPhase) : SM W (Res (list DPU)) :=
  r ← get_DPUs dpuNode (dn_DPUs dpuNode);
  mret (match r with Ok dpus => Ok (filter (λ d, st_Phase (dpu_Status d) = phase) dpus) | Err e => Err e end).

Definition ContainsDPUPhase (phases : list DPUPhase) (phase : DPUPhase) : bool := bool_decide (phase ∈ phases).
Definition ContainsDPUPhases (phases subPhases : list DPUPhase) : bool := existsb (ContainsDPUPhase phases) subPhases.

(** ** Writing *)

(** The new reboot status. *)
Definition next_reboot_status (old : option RebootStatus) (phase : RebootStatusPhase) (reason message : string)
    : RebootStatus :=
  let rebootReason := match old with Some rs => if bool_decide (reason = "") then rs_Reason rs else reason | None => reason end in
  let rebootMessage := match old with Some rs => if bool_decide (message = "") then rs_Message rs else message | None => message end in
  let cleared := bool_decide (phase = RebootStatusSucceeded) && bool_decide (reason = "") && bool_decide (message = "") in
  mkRebootStatus phase (old ≫= rs_Method) (if cleared then "" else rebootReason) (if cleared then "" else rebootMessage) (Some now).

Definition UpdateDPURebootStatus (dpu : DPU) (phase : RebootStatusPhase) (reason message : string) : SM W (option GoError) :=
  retry_n (
    r ← getDPU_n (mkNN (dpu_Namespace dpu) (dpu_Name dpu));
    match r with
    | Err err => mret (Some err)
    | Ok base =>
        let status := next_reboot_status (st_RebootStatus (dpu_Status base)) phase reason message in
        patchRebootStatus base (with_Status (with_RebootStatus (Some status) (dpu_Status base)) base)
    end).

Definition updateDPURebootStatus (dpus : list DPU) (phase : RebootStatusPhase) (reason message : string)
    : SM W (option GoError) :=
  for_each (λ dpu, UpdateDPURebootStatus dpu phase reason message) dpus.

Definition updateDPUNodeStatusConditions (dpuNode : DPUNode) (condType : string) (status : ConditionStatus)
    (reason message : string) : DPUNode :=
  let reason := if bool_decide (reason ≠ "") then reason else condType in
  set_conditions (SetStatusCondition now (dn_Conditions dpuNode) (mkCondition condType status 0 0 reason message)) dpuNode.

(** ** The script *)

Definition createScriptJob (dpuNode : DPUNode) (dpus : list DPU) : SM W (option GoError) :=
  let agg := aggregateDPURebootMethods dpus in
  let jobName := generateJobName dpuNode in
  r ← getScriptJob (mkNN (dn_Namespace dpuNode) jobName);
  match r with
  | Ok job => mret (Some (errorf ("refusing to create script job: job " +:+ jobName +:+ " already exists (active="
                +:+ pretty (sj_Active job) +:+ ", succeeded=" +:+ pretty (sj_Succeeded job) +:+ ", failed="
                +:+ pretty (sj_Failed job) +:+ ")")))
  | Err err =>
      if negb (IsNotFound err) then mret (Some (wrapf ("failed to check for existing job " +:+ jobName +:+ ": ") err))
      else match dn_NodeRebootMethod dpuNode ≫= nrm_Script with
      | None => mret (Some nil_dereference)
      | Some script =>
          r ← getConfigMapData_n (mkNN (dn_Namespace dpuNode) script);
          match r with
          | Err err => mret (Some err)
          | Ok data =>
              match data !! PodTemplateConfigMapKey with
              | None => mret (Some (errorf (PodTemplateConfigMapKey +:+ " not found in ConfigMap")))
              | Some text =>
                  match unmarshalTemplate text with
                  | Err err => mret (Some (mkGoError (err_kind err)
                      ("unable to unmarshal pod template from ConfigMap " +:+ script +:+ " for DPUNode " +:+ dn_Name dpuNode
                       +:+ ": " +:+ err_msg err +:+ " (the " +:+ quoted PodTemplateConfigMapKey
                       +:+ " key must contain a PodTemplateSpec in YAML or JSON, not a full Pod manifest)")))
                  | Ok podTemplate =>
                      createScriptJob_api (script_job dpuNode jobName (script_template dpuNode agg podTemplate))
                  end
              end
          end
      end
  end.

Definition createAndTrackScriptJob (dpuNode : DPUNode) (dpus : list DPU) : SM W NResult :=
  e ← createScriptJob dpuNode dpus;
  match e with
  | Some err => mret (0%Z, Some (wrapf "failed to create script job: " err), dpuNode)
  | None =>
      e ← updateDPURebootStatus dpus RebootStatusPending ReasonRebootScriptWaiting "waiting for script to reboot node";
      mret (match e with
            | Some err => (0%Z, Some err, dpuNode)
            | None => (RequeueInterval, None,
                updateDPUNodeStatusConditions dpuNode DPUNodeConditionRebootInProgress ConditionTrue "" "")
            end)
  end.

Definition handleJobSucceeded (dpuNode : DPUNode) (dpus : list DPU) : SM W NResult :=
  let dpuNode := updateDPUNodeStatusConditions dpuNode DPUNodeConditionRebootInProgress ConditionFalse "" "" in
  e ← updateDPURebootStatus dpus RebootStatusSucceeded "" "";
  mret (0%Z, e, dpuNode).

Definition extractPodFailureDetails (job : ScriptJob) : SM W string :=
  r ← listJobPods job;
  mret (match r with
        | Err _ => extractJobFailureDetails job
        | Ok pods => deref (pods_failure pods) (extractJobFailureDetails job)
        end).

Definition handleJobFailed (dpuNode : DPUNode) (dpus : list DPU) (job : ScriptJob) : SM W NResult :=
  failureDetails ← extractPodFailureDetails job;
  let dpuNode := updateDPUNodeStatusConditions dpuNode DPUNodeConditionRebootInProgress ConditionFalse "" "" in
  e ← updateDPURebootStatus dpus RebootStatusFailed ReasonRebootScriptFailed
        ("custom reboot script failed: " +:+ failureDetails +:+ ". To retry, delete the failed job and the controller will recreate it");
  mret (0%Z, e, dpuNode).

Definition reconcileScriptJob (dpuNode : DPUNode) (dpus : list DPU) : SM W NResult :=
  let jobName := generateJobName dpuNode in
  r ← getScriptJob (mkNN (dn_Namespace dpuNode) jobName);
  match r with
  | Err err =>
      if negb (IsNotFound err) then
        let err := wrapf ("failed to fetch Job " +:+ jobName +:+ ": ") err in
        e ← updateDPURebootStatus dpus RebootStatusFailed ReasonRebootScriptFailedToFetchJob (err_msg err);
        mret (0%Z, Some (deref e err), dpuNode)
      else createAndTrackScriptJob dpuNode dpus
  | Ok job =>
      if negb (scriptRebootLifecycleActiveOnAny dpus) && isJobTerminal job then
        e ← deleteScriptJob job;
        mret (match e with
              | Some err => if IsNotFound err then (RequeueInterval, None, dpuNode)
                            else (0%Z, Some (wrapf ("failed to delete stale job " +:+ jobName +:+ ": ") err), dpuNode)
              | None => (RequeueInterval, None, dpuNode)
              end)
      else if isJobComplete job then handleJobSucceeded dpuNode dpus
      else if isJobFailed job then handleJobFailed dpuNode dpus job
      else mret (RequeueInterval, None, dpuNode)
  end.

Definition processScriptReboot (dpuNode : DPUNode) (dpus : list DPU) : SM W NResult :=
  if allRebootingDPUsSucceeded dpus then mret (0%Z, None, dpuNode) else reconcileScriptJob dpuNode dpus.

(** ** The external reboot *)

(** A rebooting DPU that has succeeded, or waits for the user. *)
Definition external_progress (dpu : DPU) : bool :=
  bool_decide (st_Phase (dpu_Status dpu) ≠ DPURebooting) ||
  match st_RebootStatus (dpu_Status dpu) with
  | None => false
  | Some rs =>
      match rs_Phase rs with
      | RebootStatusSucceeded => true
      | RebootStatusPending => bool_decide (rs_Reason rs = reasonExternalRebootWaitManual)
      | _ => false
      end
  end.

Definition wait_for_external (dpuNode : DPUNode) (agg : rebootMethodAggregation) : DPUNode :=
  updateDPUNodeStatusConditions dpuNode DPUNodeConditionRebootInProgress ConditionTrue "WaitForExternalReboot"
    (buildExternalRebootWaitMessage agg).

(** The DPUs that are not rebooting are passed over. *)
Definition mark_waiting (dpus : list DPU) : SM W (option GoError) :=
  for_each (λ dpu, if bool_decide (st_Phase (dpu_Status dpu) ≠ DPURebooting) then mret None
                   else updateDPURebootStatus [dpu] RebootStatusPending reasonExternalRebootWaitManual
                          "waiting for manual power cycle or reboot") dpus.

Definition processExternalReboot (dpuNode : DPUNode) (dpus : list DPU) : SM W (option GoError * DPUNode) :=
  let agg := aggregateDPURebootMethods dpus in
  let required := bool_decide (is_Some (dn_Annotations dpuNode !! DPUNodeExternalRebootRequiredAnnotation)) in
  if forallb external_progress dpus then
    if required then mret (None, wait_for_external dpuNode agg)
    else
      e ← updateDPURebootStatus dpus RebootStatusSucceeded "" "";
      mret (match e with
            | Some err => (Some err, dpuNode)
            | None => (None, updateDPUNodeStatusConditions dpuNode DPUNodeConditionRebootInProgress ConditionFalse "" "")
            end)
  else if negb required then
    let dpuNode := with_dn_Meta (dn_Labels dpuNode)
      (<[DPUNodeExternalRebootRequiredAnnotation := "true"]> (dn_Annotations dpuNode)) dpuNode in
    mret (None, wait_for_external dpuNode agg)
  else
    e ← mark_waiting dpus;
    mret (match e with
          | Some err => (Some err, dpuNode)
          | None => (None, wait_for_external dpuNode agg)
          end).

(** ** The two together *)

Definition rebootNode (dpuNode : DPUNode) (dpus : list DPU) : SM W NResult :=
  match dn_NodeRebootMethod dpuNode with
  | None => mret (0%Z, Some nil_dereference, dpuNode)
  | Some m =>
      if nrm_External m then
        r ← processExternalReboot dpuNode dpus;
        match r with
        | (None, dpuNode) => mret (0%Z, None, dpuNode)
        | (Some err, dpuNode) =>
            let err := wrapf "failed to process external reboot: " err in
            e ← updateDPURebootStatus dpus RebootStatusFailed "FailedToProcessExternalReboot" (err_msg err);
            mret (0%Z, Some (deref e err), dpuNode)
        end
      else if bool_decide (is_Some (nrm_Script m)) then processScriptReboot dpuNode dpus
      else
        let err := errorf ("unsupported node reboot method for DPUNode " +:+ dn_Name dpuNode) in
        e ← updateDPURebootStatus dpus RebootStatusFailed "UnsupportedNodeRebootMethod" (err_msg err);
        mret (0%Z, Some (deref e err), dpuNode)
  end.

Definition aggregateAndPublishRebootMethod (dpuNode : DPUNode) : SM W (Res (list DPU) * DPUNode) :=
  r ← GetDPUsWithPhase dpuNode DPURebooting;
  mret (match r with
        | Err e => (Err e, dpuNode)
        | Ok dpus =>
            let agg := aggregateDPURebootMethods dpus in
            (Ok dpus, if agg_HasReporting agg then set_reboot_method (Some (agg_Method agg)) dpuNode else dpuNode)
        end).

Definition provisioningPhases : list DPUPhase :=
  [DPUPrepareBFB; DPUConfigFWParameters; DPUInitializeInterface; DPUOSInstalling; DPUConfigPhase].

(** What follows once the method is published. *)
Definition sync_reboot (dpuNode : DPUNode) (dpuPhases : list DPUPhase) (inScope : list DPU) : SM W NResult :=
  match dn_NodeRebootMethod dpuNode with
  | None => mret (0%Z, Some nil_dereference, dpuNode)
  | Some m =>
      if negb (nrm_External m) && bool_decide (nrm_Script m = None) then mret (0%Z, None, dpuNode)
      else if negb (ContainsDPUPhase dpuPhases DPURebooting) then mret (0%Z, None, dpuNode)
      else if (1 <? Z.of_nat (length (dn_DPUs dpuNode)))%Z && ContainsDPUPhases dpuPhases provisioningPhases
      then mret (RebootSyncInterval, None, dpuNode)
      else if bool_decide (inScope = []) then mret (RebootSyncInterval, None, dpuNode)
      else if anyDPUWaitingForShutdown inScope then mret (RebootSyncInterval, None, dpuNode)
      else rebootNode dpuNode inScope
  end.

Definition HandleRebootSync (dpuNode : DPUNode) (dpuPhases : list DPUPhase) : SM W NResult :=
  if ContainsDPUPhase dpuPhases DPURebooting then
    r ← aggregateAndPublishRebootMethod dpuNode;
    match r with
    | (Err err, dpuNode) => mret (0%Z, Some err, dpuNode)
    | (Ok inScope, dpuNode) => sync_reboot dpuNode dpuPhases inScope
    end
  else sync_reboot dpuNode dpuPhases [].
End Reboot.

(** ** What a reboot may write *)

Section RebootWrites.
Context {W : Type} {C : NodeClient W} {L : NodeClientLaws W C} {API : MetaAPI} {TP : TemplateParser}.
Context (now : Time).

Definition dpu_key (d : DPU) : NamespacedName := mkNN (dpu_Namespace d) (dpu_Name d).
Definition job_key (dpuNode : DPUNode) : NamespacedName := mkNN (dn_Namespace dpuNode) (generateJobName dpuNode).

(** A report of [phase] and [reason] on one of the DPUs, as it has just been read. *)
Definition reports (dpus : list DPU) (allowed : RebootStatusPhase → string → Prop) (l : list NEvent) (x : NEvent) : Prop :=
  match x with
  | NRebootStatus base d _ => ∃ dpu phase reason message l', dpu ∈ dpus ∧ l = l' ++ [NGotDPU (dpu_key dpu) (Ok base)] ∧
      d = with_Status (with_RebootStatus
            (Some (next_reboot_status now (st_RebootStatus (dpu_Status base)) phase reason message)) (dpu_Status base)) base ∧
      allowed phase reason
  | _ => False
  end.

Lemma reports_weaken dpus dpus' (P P' : RebootStatusPhase → string → Prop) l x :
  dpus ⊆ dpus' → (∀ p r, P p r → P' p r) → reports dpus P l x → reports dpus' P' l x.
Proof.
  intros Hd HP. destruct x; try done. intros (dpu & p & r0 & m & l' & H & Hl & -> & Ha).
  exists dpu, p, r0, m, l'. split; [by apply Hd|]. split; [done|]. split; [done|]. by apply HP.
Qed.

(** Events that are reads or satisfy [P]. *)
Definition wrote (P : list NEvent → NEvent → Prop) (l : list NEvent) (x : NEvent) : Prop := is_read x ∨ P l x.

Lemma wrote_weaken {A} (P P' : list NEvent → NEvent → Prop) l (m : SM (W * list NEvent) A) Q :
  (∀ l' x, l `prefix_of` l' → P l' x → P' l' x) → traces (wrote P) l m Q → traces (wrote P') l m Q.
Proof. intros HP. apply traces_weaken. intros l' x Hl [Hx|Hx]; [by left|right; by apply HP]. Qed.

Lemma updateDPURebootStatus_traces dpus phase reason message l :
  traces (wrote (reports dpus (λ p r, p = phase ∧ r = reason))) l
    (updateDPURebootStatus (C:=ntraced C) now dpus phase reason message) (λ _ _, True).
Proof.
  eapply traces_mono; [apply (traces_for_each _ (λ _ _, True))|done]; [done|]. intros dpu l' Hd Hl. apply traces_retry.
  intros l1 Hl1. trace. apply traces_call. intros [base|e]; (split; [by left|]); cbv beta zeta; [|by trace].
  apply traces_call. intros r. split; [|done]. right. by exists dpu, phase, reason, message, l1.
Qed.

(** The job a script may be run by: nothing with its name is there, and its template
    is the text of the config map the node names. *)
Definition fresh_job (dpuNode : DPUNode) (dpus : list DPU) (l : list NEvent) (j : ScriptJob) : Prop :=
  ∃ l' e script data text t,
    l = l' ++ [NGotJob (job_key dpuNode) (Err e); NGotMap (mkNN (dn_Namespace dpuNode) script) (Ok data)] ∧ IsNotFound e = true ∧
    dn_NodeRebootMethod dpuNode ≫= nrm_Script = Some script ∧
    data !! PodTemplateConfigMapKey = Some text ∧ unmarshalTemplate text = Ok t ∧
    j = script_job dpuNode (generateJobName dpuNode) (script_template dpuNode (aggregateDPURebootMethods dpus) t).

Lemma createScriptJob_traces dpuNode dpus l :
  traces (wrote (λ l x, match x with NCreateJob j _ => fresh_job dpuNode dpus l j | _ => False end)) l
    (createScriptJob (C:=ntraced C) dpuNode dpus) (λ r l', r = None → ∃ j, NCreateJob j None ∈ l').
Proof.
  unfold createScriptJob. cbv zeta. trace. apply traces_call. intros [job|e]; (split; [by left|]); cbv beta; [by trace|].
  destruct (IsNotFound e) eqn:En; cbn [negb]; [|by trace]. destruct (_ ≫= nrm_Script) as [script|] eqn:Es; [|by trace].
  trace. apply traces_call. intros [data|e']; (split; [by left|]); cbv beta; [|by trace].
  destruct (data !! _) as [text|] eqn:Ed; [|by trace]. destruct (unmarshalTemplate text) as [t|e'] eqn:Et; [|by trace].
  apply traces_call. intros r. split; [|intros ->; eexists; apply elem_of_snoc]. right. exists l, e, script, data, text, t. by rewrite <- app_assoc.
Qed.

(** When a DPU may be told that the reboot is over, or is being waited for. *)
Definition script_report (dpuNode : DPUNode) (dpus : list DPU) (l : list NEvent) (phase : RebootStatusPhase) (reason : string) : Prop :=
  match phase with
  | RebootStatusSucceeded => scriptRebootLifecycleActiveOnAny dpus = true ∧
      ∃ job, NGotJob (job_key dpuNode) (Ok job) ∈ l ∧ isJobComplete job = true
  | RebootStatusPending => reason = ReasonRebootScriptWaiting ∧ ∃ j, NCreateJob j None ∈ l
  | RebootStatusFailed =>
      (reason = ReasonRebootScriptFailedToFetchJob ∧ ∃ e, NGotJob (job_key dpuNode) (Err e) ∈ l ∧ IsNotFound e = false) ∨
      (reason = ReasonRebootScriptFailed ∧ scriptRebootLifecycleActiveOnAny dpus = true ∧
       ∃ job, NGotJob (job_key dpuNode) (Ok job) ∈ l ∧ isJobFailed job = true)
  | _ => False
  end.
Definition external_report (dpuNode : DPUNode) (dpus : list DPU) (phase : RebootStatusPhase) (reason : string) : Prop :=
  let required := is_Some (dn_Annotations dpuNode !! DPUNodeExternalRebootRequiredAnnotation) in
  match phase with
  | RebootStatusSucceeded => forallb external_progress dpus = true ∧ ¬ required
  | RebootStatusPending => reason = reasonExternalRebootWaitManual ∧ required
  | RebootStatusFailed => reason = "FailedToProcessExternalReboot"
  | _ => False
  end.

Definition script_write (dpuNode : DPUNode) (dpus : list DPU) (l : list NEvent) (x : NEvent) : Prop :=
  allRebootingDPUsSucceeded dpus = false ∧
  match x with
  | NCreateJob j _ => fresh_job dpuNode dpus l j
  | NDeleteJob j _ => scriptRebootLifecycleActiveOnAny dpus = false ∧ isJobTerminal j = true ∧
      ∃ l', l = l' ++ [NGotJob (job_key dpuNode) (Ok j)]
  | _ => reports dpus (script_report dpuNode dpus l) l x
  end.
Definition external_write (dpuNode : DPUNode) (dpus : list DPU) : list NEvent → NEvent → Prop := reports dpus (external_report dpuNode dpus).

Lemma reports_script dpuNode dpus phase reason message l :
  allRebootingDPUsSucceeded dpus = false → (∀ l', l `prefix_of` l' → script_report dpuNode dpus l' phase reason) →
  traces (wrote (script_write dpuNode dpus)) l (updateDPURebootStatus (C:=ntraced C) now dpus phase reason message) (λ _ _, True).
Proof.
  intros Ha Hp. eapply wrote_weaken; [|apply updateDPURebootStatus_traces]. intros l' x Hl Hx. split; [done|]. destruct x; try done.
  eapply reports_weaken; [done| |exact Hx]. intros ? ? [-> ->]. by apply Hp.
Qed.

(** The job that has been read ends the wait, unless nobody waits for it. *)
Lemma script_job_traces dpuNode dpus job l :
  allRebootingDPUsSucceeded dpus = false → 
  traces (wrote (script_write dpuNode dpus)) (l ++ [NGotJob (job_key dpuNode) (Ok job)])
    (if negb (scriptRebootLifecycleActiveOnAny dpus) && isJobTerminal job then
       e ← deleteScriptJob (NodeClient:=ntraced C) job;
       mret (match e with
             | Some err => if IsNotFound err then (RequeueInterval, None, dpuNode)
                           else (0%Z, Some (wrapf ("failed to delete stale job " +:+ generateJobName dpuNode +:+ ": ") err), dpuNode)
             | None => (RequeueInterval, None, dpuNode)
             end)
     else if isJobComplete job then handleJobSucceeded (C:=ntraced C) now dpuNode dpus
     else if isJobFailed job then handleJobFailed (C:=ntraced C) now dpuNode dpus job
     else mret (RequeueInterval, None, dpuNode)) (λ _ _, True).
Proof.
  intros Ha. destruct (scriptRebootLifecycleActiveOnAny dpus) eqn:El, (isJobTerminal job) eqn:Et; cbn [negb andb].
  3: { trace. apply traces_call. intros r. split; [|by trace]. right. split; [done|]. split; [done|]. split; [done|]. by eexists. }
  3: { unfold isJobTerminal in Et. apply orb_false_iff in Et as [-> ->]. by trace. }
  all: destruct (isJobComplete job) eqn:Ec; [|destruct (isJobFailed job) eqn:Ef; [|by trace]].
  all: unfold handleJobSucceeded, handleJobFailed, extractPodFailureDetails; cbv zeta; trace.
  - eapply traces_mono; [apply reports_script|intros ? ? _ _; by trace]; [done|]. intros l' Hl. split; [done|]. exists job. split; [|done].
    eapply prefix_elem; [exact Hl|]. apply elem_of_snoc.
  - apply traces_unlogged. intros r. trace. eapply traces_mono; [apply reports_script|intros ? ? _ _; by trace]; [done|]. intros l' Hl. right. split; [done|]. split; [done|].
    exists job. split; [|done]. eapply prefix_elem; [exact Hl|]. apply elem_of_snoc.
  - eapply traces_mono; [apply reports_script|intros ? ? _ _; by trace]; [done|]. intros l' Hl. split; [done|]. exists job. split; [|done].
    eapply prefix_elem; [exact Hl|]. apply elem_of_snoc.
  - apply traces_unlogged. intros r. trace. eapply traces_mono; [apply reports_script|intros ? ? _ _; by trace]; [done|]. intros l' Hl. right. split; [done|]. split; [done|].
    exists job. split; [|done]. eapply prefix_elem; [exact Hl|]. apply elem_of_snoc.
Qed.

Lemma processScriptReboot_traces dpuNode dpus l :
  traces (wrote (script_write dpuNode dpus)) l (processScriptReboot (C:=ntraced C) now dpuNode dpus) (λ _ _, True).
Proof.
  unfold processScriptReboot. destruct (allRebootingDPUsSucceeded dpus) eqn:Ea; [by trace|].
  unfold reconcileScriptJob. cbv zeta. trace. apply traces_call. intros [job|e]; (split; [by left|]); cbv beta; [by apply script_job_traces|].
  destruct (IsNotFound e) eqn:En; cbn [negb].
  - unfold createAndTrackScriptJob. trace. eapply traces_mono.
    { eapply wrote_weaken; [|apply createScriptJob_traces]. intros l' x _ Hx. split; [done|]. by destruct x. }
    intros [e'|] l' _ Hj; cbv beta; [by trace|]. destruct (Hj eq_refl) as [j Hjl]. trace.
    eapply traces_mono; [apply reports_script|intros ? ? _ _; by trace]; [done|]. intros l2 Hl2. split; [done|]. exists j. by eapply prefix_elem.
  - trace. eapply traces_mono; [apply reports_script|intros ? ? _ _; by trace]; [done|]. intros l2 Hl2. left. split; [done|].
    exists e. split; [|done]. eapply prefix_elem; [exact Hl2|]. apply elem_of_snoc.
Qed.

Lemma processExternalReboot_traces dpuNode dpus l :
  traces (wrote (external_write dpuNode dpus)) l (processExternalReboot (C:=ntraced C) now dpuNode dpus) (λ _ _, True).
Proof.
  unfold processExternalReboot. cbv zeta. destruct (forallb external_progress dpus) eqn:Ep; case_bool_decide as Er; cbn [negb]; try by trace.
  - trace. eapply traces_mono; [|intros ? ? _ _; by trace]. eapply wrote_weaken; [|apply updateDPURebootStatus_traces].
    intros l' x _. apply reports_weaken; [done|]. by intros ? ? [-> ->].
  - trace. eapply traces_mono; [apply (traces_for_each _ (λ _ _, True))|intros ? ? _ _; by trace]; [done|]. intros dpu l' Hd _.
    case_bool_decide; [by trace|]. eapply traces_mono; [|done]. eapply wrote_weaken; [|apply updateDPURebootStatus_traces].
    intros l2 x _. apply reports_weaken; [set_solver|]. by intros ? ? [-> ->].
Qed.

(** When a host may be rebooted for the DPUs in scope. *)
Definition may_reboot (dpuNode : DPUNode) (dpuPhases : list DPUPhase) (inScope : list DPU) : Prop :=
  DPURebooting ∈ dpuPhases ∧ (length (dn_DPUs dpuNode) ≤ 1 ∨ ∀ p, p ∈ provisioningPhases → p ∉ dpuPhases) ∧
  inScope ≠ [] ∧ anyDPUWaitingForShutdown inScope = false.
Definition reboot_write (dpuNode : DPUNode) (dpuPhases : list DPUPhase) (inScope : list DPU) (l : list NEvent) (x : NEvent) : Prop :=
  may_reboot dpuNode dpuPhases inScope ∧ ∃ m, dn_NodeRebootMethod dpuNode = Some m ∧
    (nrm_External m = true ∧ external_write dpuNode inScope l x ∨
     nrm_External m = false ∧ is_Some (nrm_Script m) ∧ script_write dpuNode inScope l x).

Lemma rebootNode_traces dpuNode dpus m l :
  dn_NodeRebootMethod dpuNode = Some m → nrm_External m = true ∨ is_Some (nrm_Script m) →
  traces (wrote (λ l x, nrm_External m = true ∧ external_write dpuNode dpus l x ∨
                        nrm_External m = false ∧ is_Some (nrm_Script m) ∧ script_write dpuNode dpus l x)) l
    (rebootNode (C:=ntraced C) now dpuNode dpus) (λ _ _, True).
Proof.
  intros Hm Hs. unfold rebootNode. rewrite Hm. destruct (nrm_External m).
  - trace. eapply traces_mono. { eapply wrote_weaken; [|apply processExternalReboot_traces]. intros l' x _ Hx. by left. }
    intros [[err|] d] l' _ _; cbv beta zeta; [|by trace]. trace. eapply traces_mono; [|intros ? ? _ _; by trace].
    eapply wrote_weaken; [|apply updateDPURebootStatus_traces]. intros l2 x _ Hx. left. split; [done|].
    eapply reports_weaken; [done| |exact Hx]. by intros ? ? [-> ->].
  - destruct Hs as [Hs|Hs]; [done|]. rewrite bool_decide_true by done.
    eapply wrote_weaken; [|apply processScriptReboot_traces]. intros l' x _ Hx. right. done.
Qed.

Lemma existsb_false {A} (f : A → bool) xs x : existsb f xs = false → x ∈ xs → f x = false.
Proof.
  intros H Hx. destruct (f x) eqn:E; [|done]. rewrite <- H. symmetry. apply existsb_exists. exists x.
  split; [by apply list_elem_of_In|done].
Qed.

Lemma sync_reboot_traces dpuNode dpuPhases inScope l :
  traces (wrote (reboot_write dpuNode dpuPhases inScope)) l (sync_reboot (C:=ntraced C) now dpuNode dpuPhases inScope) (λ _ _, True).
Proof.
  unfold sync_reboot. destruct (dn_NodeRebootMethod dpuNode) as [m|] eqn:Em; [|by trace].
  destruct (negb (nrm_External m) && _) eqn:Ekind; [by trace|].
  destruct (ContainsDPUPhase dpuPhases DPURebooting) eqn:Hr; cbn [negb]; [|by trace]. apply bool_decide_eq_true in Hr.
  destruct (_ && ContainsDPUPhases _ _) eqn:Eprov; [by trace|].
  destruct (bool_decide (inScope = [])) eqn:Hn; [by trace|]. apply bool_decide_eq_false in Hn.
  destruct (anyDPUWaitingForShutdown inScope) eqn:Eshut; [by trace|].
  eapply wrote_weaken; [|apply (rebootNode_traces dpuNode inScope m l Em)].
  - intros l' x _ Hx. split; [|by exists m]. split; [done|]. split; [|done].
    apply andb_false_iff in Eprov as [E|E]; [left; apply Z.ltb_ge in E; lia|right].
    intros p Hp. pose proof (existsb_false _ _ p E Hp) as Hc. unfold ContainsDPUPhase in Hc. by apply bool_decide_eq_false in Hc.
  - apply andb_false_iff in Ekind as [E|E]; [left; by destruct (nrm_External m)|right].
    apply bool_decide_eq_false in E. by apply not_eq_None_Some.
Qed.

(** *** The DPUs in scope *)

(** [x] is the read of the DPU of [device]: it is there, or it is not. *)
Definition device_read (dpuNode : DPUNode) (device : string) (x : NEvent) : Prop :=
  ∃ name r, GenerateDPUName (dn_Name dpuNode) device = Ok name ∧ x = NGotDPU (mkNN (dn_Namespace dpuNode) name) r ∧
    match r with Ok _ => True | Err e => IsNotFound e = true end.
(** [reads] are the reads of the DPUs of all devices of the node, in their order. *)
Definition node_read (dpuNode : DPUNode) (reads : list NEvent) : Prop := Forall2 (device_read dpuNode) (dn_DPUs dpuNode) reads.
Definition found_dpu (x : NEvent) : option DPU := match x with NGotDPU _ (Ok d) => Some d | _ => None end.
(** The DPUs they found, and those of them that are rebooting. *)
Definition found_dpus (reads : list NEvent) : list DPU := omap found_dpu reads.
Definition in_scope (reads : list NEvent) : list DPU := filter (λ d, st_Phase (dpu_Status d) = DPURebooting) (found_dpus reads).

Lemma get_DPUs_traces P dpuNode devices l :
  traces (wrote P) l (get_DPUs (C:=ntraced C) dpuNode devices) (λ r l', ∀ dpus, r = Ok dpus →
    ∃ reads, l' = l ++ reads ∧ Forall2 (device_read dpuNode) devices reads ∧ dpus = found_dpus reads).
Proof.
  revert l. induction devices as [|device devices IH]; intros l; cbn [get_DPUs].
  { trace. intros dpus [= <-]. exists []. by rewrite app_nil_r. }
  destruct (GenerateDPUName _ _) as [name|e] eqn:En; [|by trace]. trace. apply traces_call.
  intros [d|e]; (split; [by left|]); cbv beta.
  - trace. eapply traces_mono; [apply IH|]. intros [dpus|e] l' _ Hr; trace; [|done]. intros ds [= <-].
    destruct (Hr dpus eq_refl) as (reads & -> & Hf & ->). rewrite <- app_assoc. eexists. split; [done|]. split; [|done].
    constructor; [|done]. by eexists _, _.
  - destruct (IsNotFound e) eqn:Ee; [|by trace]. eapply traces_mono; [apply IH|]. intros r l' _ Hr dpus ->.
    destruct (Hr dpus eq_refl) as (reads & -> & Hf & ->). rewrite <- app_assoc. eexists. split; [done|]. split; [|done].
    constructor; [|done]. by eexists _, _.
Qed.

(** Why a write of a pass that starts with the history [l0] is made: the DPUs of the node
    have been read in the pass, and the reboot is one for those of them in scope. *)
Definition reboot_why (l0 : list NEvent) (dpuNode : DPUNode) (dpuPhases : list DPUPhase) (l : list NEvent) (x : NEvent) : Prop :=
  ∃ reads l', l = l0 ++ reads ++ l' ∧ node_read dpuNode reads ∧ reboot_write dpuNode dpuPhases (in_scope reads) l x.

Lemma HandleRebootSync_traces dpuNode dpuPhases l :
  traces (wrote (reboot_why l dpuNode dpuPhases)) l (HandleRebootSync (C:=ntraced C) now dpuNode dpuPhases) (λ _ _, True).
Proof.
  unfold HandleRebootSync. destruct (ContainsDPUPhase dpuPhases DPURebooting) eqn:Er.
  2: { eapply wrote_weaken; [|apply sync_reboot_traces]. intros l' x _ [(Hr & _) _]. exfalso.
       by apply bool_decide_eq_false in Er. }
  unfold aggregateAndPublishRebootMethod, GetDPUsWithPhase. trace. eapply traces_mono; [apply get_DPUs_traces|].
  intros [dpus|e] l' _ Hr; trace; [|done]. destruct (Hr dpus eq_refl) as (reads & -> & Hf & ->). fold (in_scope reads).
  assert (∀ n, reboot_write n dpuPhases (in_scope reads) = reboot_write dpuNode dpuPhases (in_scope reads) →
    traces (wrote (reboot_why l dpuNode dpuPhases)) (l ++ reads) (sync_reboot (C:=ntraced C) now n dpuPhases (in_scope reads)) (λ _ _, True)) as Hs.
  { intros n Hn. eapply wrote_weaken; [|apply sync_reboot_traces]. intros l2 x [k ->] Hx. exists reads, k. rewrite <- app_assoc.
    split; [done|]. split; [done|]. by rewrite Hn, <- app_assoc in Hx. }
  destruct (agg_HasReporting _); by apply Hs.
Qed.
End RebootWrites.

(** ** Properties *)


