(* ===== verification/RebootProtocol.v ===== *)
(** The script reboot over the states a failed call leaves behind
    (dpunode_controller.go): what the passes of the DPUNode controller do when a report
    to the DPUs, or the read of the script job, has failed. *)

From S2P Require Import Prelude.
From S2P Require Import Meta.
From S2P Require Import DPUTypes.
From S2P Require Import Kubernetes.
From S2P Require Import WriteLog.
From S2P Require Import TraceLogic.
From S2P Require Import NodeTypes.
From S2P Require Import RebootMethods.
From S2P Require Import ExampleNode.
From S2P Require Import FakeClient.
From S2P Require Import NodeReboot.

Section Script.
Context {W : Type} {C : NodeClient W} {L : NodeClientLaws W C} {API : MetaAPI} {TP : TemplateParser}.
Context (now : Time) (dpuNode : DPUNode).

(** The job is read first. *)
Lemma script_read dpus l Q : allRebootingDPUsSucceeded dpus = false →
  (∀ job, traces (λ _ _, True) (l ++ [NGotJob (job_key dpuNode) (Ok job)])
    (if negb (scriptRebootLifecycleActiveOnAny dpus) && isJobTerminal job then
       e ← deleteScriptJob (NodeClient:=ntraced C) job;
       mret (match e with
             | Some err => if IsNotFound err then (RequeueInterval, None, dpuNode)
                           else (0%Z, Some (wrapf ("failed to delete stale job " +:+ generateJobName dpuNode +:+ ": ") err), dpuNode)
             | None => (RequeueInterval, None, dpuNode)
             end)
     else if isJobComplete job then handleJobSucceeded (C:=ntraced C) now dpuNode dpus
     else if isJobFailed job then handleJobFailed (C:=ntraced C) now dpuNode dpus job
     else mret (RequeueInterval, None, dpuNode)) Q) →
  (∀ e, traces (λ _ _, True) (l ++ [NGotJob (job_key dpuNode) (Err e)])
    (if negb (IsNotFound e) then
       let err := wrapf ("failed to fetch Job " +:+ generateJobName dpuNode +:+ ": ") e in
       e' ← updateDPURebootStatus (C:=ntraced C) now dpus RebootStatusFailed ReasonRebootScriptFailedToFetchJob (err_msg err);
       mret (0%Z, Some (deref e' err), dpuNode)
     else createAndTrackScriptJob (C:=ntraced C) now dpuNode dpus) Q) →
  traces (λ _ _, True) l (processScriptReboot (C:=ntraced C) now dpuNode dpus) Q.
Proof.
  intros Ha Hok Herr. unfold processScriptReboot. rewrite Ha. unfold reconcileScriptJob. cbv zeta. trace. apply traces_call.
  intros [job|e]; (split; [done|]); cbv beta; [apply Hok|apply Herr].
Qed.

(** ** The creation of the job *)

(** The calls of the creation, once the job has been read missing: it is read again,
    which has to find nothing, then the config map the node names, whose template
    makes the job that is created. *)
Definition creates (dpus : list DPU) (t : list NEvent) : Prop :=
  ∃ r t1, t = NGotJob (job_key dpuNode) r :: t1 ∧
  match r with
  | Ok _ => t1 = []
  | Err e => if negb (IsNotFound e) then t1 = [] else
    match dn_NodeRebootMethod dpuNode ≫= nrm_Script with
    | None => t1 = []
    | Some script => ∃ r2 t2, t1 = NGotMap (mkNN (dn_Namespace dpuNode) script) r2 :: t2 ∧
        ∀ data text podTemplate, r2 = Ok data → data !! PodTemplateConfigMapKey = Some text → unmarshalTemplate text = Ok podTemplate →
          ∃ e' t3, t2 = NCreateJob (script_job dpuNode (generateJobName dpuNode)
                     (script_template dpuNode (aggregateDPURebootMethods dpus) podTemplate)) e' :: t3 ∧ (is_Some e' → t3 = [])
    end
  end.

Lemma updateDPURebootStatus_adds dpus phase reason message l (f : option GoError → NResult) Q :
  (∀ r t, Q (f r) (l ++ t)) →
  traces (λ _ _, True) l (e ← updateDPURebootStatus (C:=ntraced C) now dpus phase reason message; mret (f e)) Q.
Proof.
  intros HQ. trace. eapply traces_mono.
  - eapply (traces_weaken (wrote (reports now dpus (λ p r, p = phase ∧ r = reason)))); [done|]. apply updateDPURebootStatus_traces.
  - intros r l' [t ->] _. trace. apply HQ.
Qed.

(** [trace], through the results of what has been followed. *)
Ltac follow := repeat progress (trace; cbv beta iota).

Lemma createAndTrack_creates dpus l :
  traces (λ _ _, True) l (createAndTrackScriptJob (C:=ntraced C) now dpuNode dpus) (λ _ l', ∃ t, l' = l ++ t ∧ creates dpus t).
Proof.
  unfold createAndTrackScriptJob, createScriptJob. cbv zeta. trace. apply traces_call.
  intros [job|e]; (split; [done|]); cbv beta; [follow; eexists; split; [done|]; by eexists _, _|].
  destruct (IsNotFound e) eqn:En; cbn [negb].
  2: { follow. eexists. split; [done|]. eexists _, _. split; [done|]. cbn. by rewrite En. }
  destruct (_ ≫= nrm_Script) as [script|] eqn:Es.
  2: { follow. eexists. split; [done|]. eexists _, _. split; [done|]. cbn. by rewrite En, Es. }
  trace. apply traces_call. intros r2. split; [done|]. cbv beta.
  assert (∀ t2, (∀ data text podTemplate, r2 = Ok data → data !! PodTemplateConfigMapKey = Some text → unmarshalTemplate text = Ok podTemplate →
      ∃ e' t3, t2 = NCreateJob (script_job dpuNode (generateJobName dpuNode)
        (script_template dpuNode (aggregateDPURebootMethods dpus) podTemplate)) e' :: t3 ∧ (is_Some e' → t3 = [])) →
    creates dpus (NGotJob (job_key dpuNode) (Err e) :: NGotMap (mkNN (dn_Namespace dpuNode) script) r2 :: t2)) as Hc.
  { intros t2 Ht2. eexists _, _. split; [done|]. cbn. rewrite En, Es. by eexists _, _. }
  destruct r2 as [data|e2]; [|follow; rewrite <- app_assoc; eexists; split; [done|]; by apply Hc].
  destruct (data !! PodTemplateConfigMapKey) as [text|] eqn:Ed.
  2: { follow. rewrite <- app_assoc. eexists. split; [done|]. apply Hc. intros ??? [= <-]. by rewrite Ed. }
  destruct (unmarshalTemplate text) as [podTemplate|e2] eqn:Et.
  2: { follow. rewrite <- app_assoc. eexists. split; [done|]. apply Hc. intros ??? [= <-]. rewrite Ed. intros [= <-]. by rewrite Et. }
  apply traces_call. intros e'. split; [done|]. cbv beta. destruct e' as [e'|].
  - follow. rewrite <- !app_assoc. eexists. split; [done|]. apply Hc. intros ??? [= <-]. rewrite Ed. intros [= <-]. rewrite Et.
    intros [= <-]. by eexists _, [].
  - apply updateDPURebootStatus_adds. intros _ t. rewrite <- !app_assoc. eexists. split; [done|]. apply Hc.
    intros ??? [= <-]. rewrite Ed. intros [= <-]. rewrite Et. intros [= <-]. eexists _, _. split; [done|]. by intros [? [=]].
Qed.
End Script.

(** ** Properties *)

(** The calls of a pass while no DPU has been told of a script, with its result. *)
Definition untold_pass {TP : TemplateParser} (dpuNode : DPUNode) (dpus : list DPU) (r : NResult) (l : list NEvent) : Prop :=
  (∃ job, isJobTerminal job = false ∧ l = [NGotJob (job_key dpuNode) (Ok job)] ∧ r = (RequeueInterval, None, dpuNode)) ∨
  (∃ job e, isJobTerminal job = true ∧ l = [NGotJob (job_key dpuNode) (Ok job); NDeleteJob job e]) ∨
  (∃ e t, l = NGotJob (job_key dpuNode) (Err e) :: t ∧ (IsNotFound e = true → creates dpuNode dpus t)).

(** C38. A report that is lost makes the script run twice.  Let the DPUs in scope not have
    succeeded and none have been told of a script, as when the job was created but the
    report to them failed.  A pass reads the job.  While it runs the pass makes no other
    call and asks to come back; when it is over, the pass takes it for one left over from
    an earlier reboot and deletes it, without a report; and when the job is gone, the pass
    creates it again: it reads the job once more, then, if that finds nothing, the config
    map, and where that has a template that can be read, asks for the job made from it. *)
Theorem lost_report_repeats_script {W} {C : NodeClient W} {L : NodeClientLaws W C} {API : MetaAPI} {TP : TemplateParser}
    now dpuNode dpus (w : W) :
  allRebootingDPUsSucceeded dpus = false → scriptRebootLifecycleActiveOnAny dpus = false →
  let r := processScriptReboot (C:=ntraced C) now dpuNode dpus (w, []) in
  untold_pass dpuNode dpus r.1 r.2.2.
Proof.
  intros Ha El. cbv zeta. refine (proj2 (traces_justified (λ _ _, True) _ (untold_pass dpuNode dpus) w (script_read now dpuNode dpus [] _ Ha _ _))).
  - intros job. rewrite El. cbn [negb andb app]. destruct (isJobTerminal job) eqn:Et.
    + trace. apply traces_call. intros e. split; [done|]. trace. right. left. by exists job, e.
    + pose proof Et as Et'. unfold isJobTerminal in Et'. apply orb_false_iff in Et' as [-> ->]. trace. left. exists job. split_and!; done.
  - intros e. destruct (IsNotFound e) eqn:En; cbn [negb app].
    + eapply traces_mono; [apply createAndTrack_creates|]. intros r l _ (t & -> & Ht). right. right. exists e, t. by split.
    + cbv zeta. apply updateDPURebootStatus_adds. intros r t. right. right. exists e, t. split; [done|]. congruence.
Qed.

Definition example_job (conditions : list JobCondition) : ScriptJob :=
  mkScriptJob "node-script-job" "ns" 3600 3 (mkTemplate ∅ ∅ [] [] [] [] "") conditions 0 0 0.
Definition example_finished : ScriptJob := example_job [mkJobCondition "Complete" ConditionTrue "" ""].

(** The job has run, its DPU was not told: it is deleted. *)
Lemma lost_report_repeats_script_witness :
  ∃ e, (processScriptReboot (C:=ntraced fake_node_client) (API:=meta_list) (TP:=fake_templates) 7 (example_node false ∅)
    [example_rebooting "d1" None] (example_nworld (example_node false ∅) [example_rebooting "d1" None] (Some example_finished), [])).2.2
    = [NGotJob (job_key (example_node false ∅)) (Ok example_finished); NDeleteJob example_finished e].
Proof.
  destruct (lost_report_repeats_script (C:=fake_node_client) (L:=fake_node_client_laws) (API:=meta_list) (TP:=fake_templates) 7
    (example_node false ∅) [example_rebooting "d1" None]
    (example_nworld (example_node false ∅) [example_rebooting "d1" None] (Some example_finished)))
    as [(job & _ & H & _)|[(job & e & _ & H)|(e & t & H & _)]].
  - vm_compute. reflexivity.
  - vm_compute. reflexivity.
  - apply (f_equal length) in H. vm_compute in H. discriminate H.
  - exists e. assert (job = example_finished) as -> by (apply (f_equal head) in H; vm_compute in H; by injection H). exact H.
  - apply (f_equal head) in H. vm_compute in H. discriminate H.
Defined.
