(* ===== verification/NodeController.v ===== *)
(** The DPUNode controller (dpunode_controller.go): deletion, the Ready condition,
    the upgrade of the host agent, [Reconcile] and the watches. *)

From S2P Require Import Prelude.
From S2P Require Import Meta.
From S2P Require Import DPUTypes.
From S2P Require Import Kubernetes.
From S2P Require Import Maintenance.
From S2P Require Import WriteLog.
From S2P Require Import TraceLogic.
From S2P Require Import MaintenanceTypes.
From S2P Require Import NodeTypes.
From S2P Require Import RebootMethods.
From S2P Require Import ExampleNode.
From S2P Require Import FakeClient.
From S2P Require Import NodeReboot.

(** [containsNotFoundError].  [apierrors.IsNotFound] does not look into an
    aggregate. *)
Fixpoint containsNotFoundError (err : PatchError) : bool :=
  match err with
  | PSingle e => IsNotFound e
  | PAggregate es => existsb containsNotFoundError es
  end.

(** [CopyLabelsOrAnnotations]: the source wins. *)
Definition CopyLabelsOrAnnotations (target source : gmap string string) : gmap string string := source ∪ target.

Section Controller.
Context {W : Type} {C : NodeClient W} {API : MetaAPI} {TP : TemplateParser} {FA : FinalizerAPI}.
(** The interface the controller was started for, and the release. *)
Context (DPUInstallInterface : option string) (DPFVersion : string) (now : Time).

(** ** Deletion *)

Definition removeFinalizer (dpuNode : DPUNode) : SM W (option GoError * DPUNode) :=
  r ← listAllDPUs;
  mret (match r with
        | Err err => (Some err, dpuNode)
        | Ok dpuList =>
            let dpuCountOfNode := count (λ dpu, bool_decide (sp_DPUNodeName (dpu_Spec dpu) = dn_Name dpuNode)) dpuList in
            (None, if bool_decide (dpuCountOfNode = 0)
                   then with_dn_Finalizers (RemoveFinalizer (dn_Finalizers dpuNode) DPUNodeFinalizer) dpuNode
                   else dpuNode)
        end).

(** The devices that hold the node back. *)
Definition blocking (d : DPUDevice) : bool := negb (bool_decide (dd_Labels d !! DPUDeviceHostlessLabel = Some "true")).

Definition add_finalizer_if_missing (dpuNode : DPUNode) : DPUNode :=
  if negb (ContainsFinalizer (dn_Finalizers dpuNode) DPUNodeFinalizer)
  then with_dn_Finalizers (AddFinalizer (dn_Finalizers dpuNode) DPUNodeFinalizer) dpuNode
  else dpuNode.

Definition handleDeletionAndFinalizer (dpuNode : DPUNode) : SM W (option GoError * DPUNode) :=
  if timep_is_zero (dn_DeletionTimestamp dpuNode) then mret (None, add_finalizer_if_missing dpuNode)
  else
    r ← listLabelledDPUs (dn_Name dpuNode);
    match r with
    | Err err => mret (Some err, dpuNode)
    | Ok dpus =>
        e ← for_each deleteDPU_n dpus;
        match e with
        | Some err => mret (Some err, dpuNode)
        | None =>
            r ← listLabelledDPUDevices (dn_Name dpuNode);
            match r with
            | Err err => mret (Some err, dpuNode)
            | Ok dpuDevices =>
                e ← for_each (λ d, if blocking d then deleteDPUDevice d else mret None) dpuDevices;
                match e with
                | Some err => mret (Some err, dpuNode)
                | None => if existsb blocking dpuDevices then mret (None, add_finalizer_if_missing dpuNode)
                          else removeFinalizer dpuNode
                end
            end
        end
    end.

(** ** Readiness *)

Definition is_condition (condType : string) (status : ConditionStatus) (dpuNode : DPUNode) : bool :=
  match FindStatusCondition (dn_Conditions dpuNode) condType with Some c => status_is status c | None => false end.

Definition remove_condition (condType : string) (dpuNode : DPUNode) : DPUNode :=
  set_conditions (RemoveStatusCondition (dn_Conditions dpuNode) condType) dpuNode.

Definition noneDPUInNodeEffectOrRebooting (dpuNode : DPUNode) (dpunodemaintenanceExists hasRebootingDPU : bool)
    : SM W (option GoError * DPUNode) :=
  if dpunodemaintenanceExists && is_condition DPUNodeConditionNodeEffectInProgress ConditionTrue dpuNode
  then mret (Some (errorf "node effect is in progress"), dpuNode)
  else
    let rebootCondition := FindStatusCondition (dn_Conditions dpuNode) DPUNodeConditionRebootInProgress in
    let rebooting := is_condition DPUNodeConditionRebootInProgress ConditionTrue dpuNode in
    if rebooting && negb hasRebootingDPU then mret (None, remove_condition DPUNodeConditionRebootInProgress dpuNode)
    else if rebooting then mret (Some (errorf "reboot is in progress"), dpuNode)
    else if bool_decide (is_Some rebootCondition) || bool_decide (is_Some (dn_RebootMethod dpuNode)) then
      r ← listLabelledDPUs (dn_Name dpuNode);
      mret (match r with
            | Err err => (Some err, dpuNode)
            | Ok dpus =>
                (None, if bool_decide (dpus = [])
                       then set_reboot_method None (remove_condition DPUNodeConditionRebootInProgress dpuNode)
                       else dpuNode)
            end)
    else mret (None, dpuNode).

(** ** The upgrade of the host agent *)

(** Whether the condition is there, and whether it is true. *)
Definition getDPUNodeUpgradeCondition (dpuNode : DPUNode) : bool * bool :=
  match first_of_type (dn_Conditions dpuNode) DPUNodeConditionNeedHostAgentUpgrade with
  | Some condition => (true, status_is ConditionTrue condition)
  | None => (false, false)
  end.

Definition handleHostAgentUpgrade (dpuNode : DPUNode) (isKubernetes : bool) : Z * DPUNode :=
  if bool_decide (dn_DPUInstallInterface dpuNode = Some DPUNodeInstallIntrefaceRedfish) then (0%Z, dpuNode)
  else if isKubernetes then (0%Z, dpuNode)
  else if bool_decide (dn_Labels dpuNode !! DPFVersionLabelKey = Some DPFVersion) then (0%Z, dpuNode)
  else match getDPUNodeUpgradeCondition dpuNode with
       | (false, _) =>
           (RequeueInterval, updateDPUNodeStatusConditions now dpuNode DPUNodeConditionNeedHostAgentUpgrade ConditionTrue ""
              "Need user to upgrade host agent during the dpf upgrade.")
       | (true, false) => (0%Z, with_dn_Meta (<[DPFVersionLabelKey := DPFVersion]> (dn_Labels dpuNode)) (dn_Annotations dpuNode) dpuNode)
       | (true, true) => (RequeueInterval, dpuNode)
       end.

(** ** The reconcile *)

Definition node_ref (dpuNode : DPUNode) : option string :=
  snd <$> head (filter (λ o : string * string, o.1 = "Node") (dn_OwnerReferences dpuNode)).

(** The node's own Ready condition. *)
Definition report_ready (dpuNode : DPUNode) (dpuPhases : list DPUPhase) : SM W NResult :=
  r ← listLabelledMaintenances (dn_Name dpuNode);
  match r with
  | Err err => mret (0%Z, Some err, dpuNode)
  | Ok items =>
      let dpunodemaintenanceExists := negb (bool_decide (items = [])) in
      let dpuNode := if dpunodemaintenanceExists then dpuNode
                     else remove_condition DPUNodeConditionNodeEffectInProgress dpuNode in
      r ← noneDPUInNodeEffectOrRebooting dpuNode dpunodemaintenanceExists (ContainsDPUPhase dpuPhases DPURebooting);
      mret (0%Z, None, match r with
                       | (None, dpuNode) => updateDPUNodeStatusConditions now dpuNode DPUNodeConditionReady ConditionTrue "" ""
                       | (Some err, dpuNode) =>
                           updateDPUNodeStatusConditions now dpuNode DPUNodeConditionReady ConditionFalse "" (err_msg err)
                       end)
  end.

(** Once the host node is known. *)
Definition reconcile_dpunode (dpuNode : DPUNode) (isKubernetes : bool) : SM W NResult :=
  r ← GetDPUPhases dpuNode;
  match r with
  | Err err => mret (0%Z, Some err, dpuNode)
  | Ok dpuPhases =>
      r ← HandleRebootSync now dpuNode dpuPhases;
      let '(requeue, err, dpuNode) := r in
      if bool_decide (err ≠ None) || negb (requeue =? 0)%Z then mret (requeue, err, dpuNode)
      else match DPUInstallInterface with
      | None => mret (0%Z, Some (errorf "DPUInstallInterface is not set"), dpuNode)
      | Some interface =>
          if bool_decide (dn_DPUInstallInterface dpuNode = None) then
            mret (0%Z, None, with_dn_Status (Some interface) (dn_Conditions dpuNode) (dn_RebootMethod dpuNode) dpuNode)
          else
            let '(requeue, dpuNode) := handleHostAgentUpgrade dpuNode isKubernetes in
            if negb (requeue =? 0)%Z then mret (requeue, None, dpuNode) else report_ready dpuNode dpuPhases
      end
  end.

(** Up to the deferred patch. *)
Definition reconcile_node (dpuNode : DPUNode) : SM W NResult :=
  r ← handleDeletionAndFinalizer dpuNode;
  match r with
  | (Some err, dpuNode) => mret (0%Z, Some err, dpuNode)
  | (None, dpuNode) =>
      match node_ref dpuNode with
      | None => reconcile_dpunode dpuNode false
      | Some ref =>
          r ← getHostNode ref;
          match r with
          | Err err =>
              if IsNotFound err then e ← deleteDPUNode dpuNode; mret (0%Z, e, dpuNode)
              else mret (0%Z, Some err, dpuNode)
          | Ok node =>
              let dpuNode := with_dn_KubeNodeRef (Some (no_Name node)) dpuNode in
              reconcile_dpunode
                (with_dn_Meta (CopyLabelsOrAnnotations (dn_Labels dpuNode) (no_Labels node))
                   (CopyLabelsOrAnnotations (dn_Annotations dpuNode) (no_Annotations node)) dpuNode) true
          end
      end
  end.

(** [Reconcile]: when to come back, and the errors. *)
Definition Reconcile (key : NamespacedName) : SM W (Z * list PatchError) :=
  r ← getDPUNode_n key;
  match r with
  | Err err => mret (0%Z, if IsNotFound err then [] else [PSingle err])
  | Ok base =>
      r ← reconcile_node base;
      e ← patchDPUNode_n base r.2;
      mret (r.1.1, option_list (PSingle <$> r.1.2) ++
                   match e with Some err => if containsNotFoundError err then [] else [err] | None => [] end)
  end.

(** ** The watches *)

Definition node_key (n : DPUNode) : NamespacedName := mkNN (dn_Namespace n) (dn_Name n).

Definition dpfOperatorConfigToDPUNodeReq (config : DPFOperatorConfig) : SM W (list NamespacedName) :=
  if negb (UpgradeInProgress config) then mret []
  else r ← listDPUNodes_n; mret (match r with Ok items => node_key <$> items | Err _ => [] end).

Definition nodeToDPUNodeReq (node : Node) : SM W (list NamespacedName) :=
  r ← listDPUNodes_n;
  mret (match r with
        | Ok items => node_key <$> filter (λ n, dn_KubeNodeRef n = Some (no_Name node)) items
        | Err _ => []
        end).

Definition dpuToDPUNodeReq (dpu : DPU) : list NamespacedName :=
  [mkNN (dpu_Namespace dpu) (sp_DPUNodeName (dpu_Spec dpu))].

Definition dpuDeviceToDPUNodeReq (d : DPUDevice) : list NamespacedName :=
  match dd_Labels d !! DPUNodeNameLabel with
  | Some name => if bool_decide (name = "") then [] else [mkNN (dd_Namespace d) name]
  | None => []
  end.
End Controller.

(** ** What a reconcile keeps and writes *)

(** The parts of a DPUNode that a reboot leaves alone. *)
Definition same_node (d d' : DPUNode) : Prop :=
  dn_Name d' = dn_Name d ∧ dn_Namespace d' = dn_Namespace d ∧ dn_Finalizers d' = dn_Finalizers d ∧
  dn_OwnerReferences d' = dn_OwnerReferences d ∧ dn_DPUs d' = dn_DPUs d ∧
  dn_NodeRebootMethod d' = dn_NodeRebootMethod d ∧ dn_DeletionTimestamp d' = dn_DeletionTimestamp d.

#[export] Instance same_node_refl : Reflexive same_node.
Proof. by intros d. Qed.
#[export] Instance same_node_trans : Transitive same_node.
Proof. intros a b c (?&?&?&?&?&?&?) (?&?&?&?&?&?&?). repeat split; congruence. Qed.

Section Keeps.
Context {W : Type} {C : NodeClient W} {API : MetaAPI} {TP : TemplateParser} {FA : FinalizerAPI} (now : Time).

Lemma processExternalReboot_same dpuNode dpus :
  gives (λ r, same_node dpuNode r.2) (processExternalReboot now dpuNode dpus).
Proof. unfold processExternalReboot. gives; done. Qed.

Lemma processScriptReboot_same dpuNode dpus :
  gives (λ r, same_node dpuNode r.2) (processScriptReboot now dpuNode dpus).
Proof.
  unfold processScriptReboot, reconcileScriptJob, createAndTrackScriptJob, handleJobSucceeded, handleJobFailed. gives; done.
Qed.

Lemma HandleRebootSync_same dpuNode dpuPhases :
  gives (λ r, same_node dpuNode r.2) (HandleRebootSync now dpuNode dpuPhases).
Proof.
  assert (∀ n inScope, same_node dpuNode n → gives (λ r, same_node dpuNode r.2) (sync_reboot now n dpuPhases inScope)) as Hs.
  { intros n inScope Hn. unfold sync_reboot. repeat (case_match; [by apply gives_ret|]). case_match; [|by apply gives_ret].
    repeat (case_match; [by apply gives_ret|]). unfold rebootNode. case_match; [|by apply gives_ret]. case_match.
    - eapply gives_bind_result; [apply processExternalReboot_same|]. intros [[err|] d] Hd; gives; by etrans.
    - case_match; [|gives; done]. intros s. etrans; [done|]. apply processScriptReboot_same. }
  unfold HandleRebootSync. case_match; [|by apply Hs].
  eapply (gives_bind_result _ _ _ (λ r, same_node dpuNode r.2)).
  - unfold aggregateAndPublishRebootMethod. gives; done.
  - intros [[dpus|e] d] Hd; [by apply Hs|]. by apply gives_ret.
Qed.

Lemma report_ready_same dpuNode phases : gives (λ r, same_node dpuNode r.2) (report_ready now dpuNode phases).
Proof.
  unfold report_ready. apply gives_bind. intros [items|e]; [|by apply gives_ret]. cbv zeta.
  set (n := if negb _ then dpuNode else _). assert (same_node dpuNode n) as Hn by (unfold n; by case_match).
  apply (gives_bind_result _ _ _ (λ r, same_node dpuNode r.2)).
  - unfold noneDPUInNodeEffectOrRebooting. gives; done.
  - intros [[e|] d] Hd; by apply gives_ret.
Qed.
End Keeps.

Lemma with_own_finalizers d : with_dn_Finalizers (dn_Finalizers d) d = d.
Proof. by destruct d. Qed.

(** ** Why a pass writes *)

Section Writes.
Context {W : Type} {C : NodeClient W} {L : NodeClientLaws W C} {API : MetaAPI} {TP : TemplateParser} {FA : FinalizerAPI}.
Context {FL : FinalizerAPILaws FA}.
Context (DPUInstallInterface : option string) (DPFVersion : string) (now : Time).

(** The pass read that nothing holds the node back: no device with its label, but
    hostless ones, and no DPU that refers to it. *)
Definition nothing_left (d : DPUNode) (l : list NEvent) : Prop :=
  (∃ devices, NListedDevices (dn_Name d) (Ok devices) ∈ l ∧ ∀ x, x ∈ devices → blocking x = false) ∧
  (∃ dpus, NListedAll (Ok dpus) ∈ l ∧ ∀ x, x ∈ dpus → sp_DPUNodeName (dpu_Spec x) ≠ dn_Name d).

(** And asked for the deletion of every DPU with its label. *)
Definition asked_for_deletion (d : DPUNode) (l : list NEvent) : Prop :=
  ∃ dpus, NListedDPUs (dn_Name d) (Ok dpus) ∈ l ∧ ∀ x, x ∈ dpus → NDeleteDPU x None ∈ l.

Definition finalizer_kept (d d' : DPUNode) (l : list NEvent) : Prop :=
  DPUNodeFinalizer ∈ dn_Finalizers d → DPUNodeFinalizer ∉ dn_Finalizers d' →
  timep_is_zero (dn_DeletionTimestamp d) = false ∧ asked_for_deletion d l ∧ nothing_left d l.

(** When a write is in its place, after the calls [l] of the pass. *)
Definition node_write (d : DPUNode) (l : list NEvent) (x : NEvent) : Prop :=
  let deleting := timep_is_zero (dn_DeletionTimestamp d) = false in
  match x with
  | NPatch _ _ _ => False
  | NDeleteNode _ _ => ∃ ref l' e, node_ref d = Some ref ∧ l = l' ++ [NGotHost ref (Err e)] ∧ IsNotFound e = true
  | NDeleteDPU dpu _ => deleting ∧ ∃ dpus, NListedDPUs (dn_Name d) (Ok dpus) ∈ l ∧ dpu ∈ dpus
  | NDeleteDevice dev _ => deleting ∧ blocking dev = true ∧ ∃ devices, NListedDevices (dn_Name d) (Ok devices) ∈ l ∧ dev ∈ devices
  | _ => ∃ n l0 reads0, dn_Name n = dn_Name d ∧ dn_Namespace n = dn_Namespace d ∧ dn_DPUs n = dn_DPUs d ∧
      dn_NodeRebootMethod n = dn_NodeRebootMethod d ∧ node_read n reads0 ∧
      reboot_why now (l0 ++ reads0) n (st_Phase ∘ dpu_Status <$> found_dpus reads0) l x
  end.

Lemma finalizer_kept_later d d' l l' : l `prefix_of` l' → finalizer_kept d d' l → finalizer_kept d d' l'.
Proof.
  intros Hl H H1 H2. destruct (H H1 H2) as (Hd & (dpus & Hdpus & Hall) & (ds & Hds & Hb) & (all & Ha & Hn)). split; [done|].
  split; [exists dpus; split; [by eapply prefix_elem|intros x Hx; eapply prefix_elem; [done|by apply Hall]]|].
  split; [exists ds|exists all]; (split; [by eapply prefix_elem|done]).
Qed.
Lemma kept_same d l fs : (∀ g, g ∈ dn_Finalizers d → g ∈ fs) → finalizer_kept d (with_dn_Finalizers fs d) l.
Proof. intros H H1 H2. destruct H2. by apply H. Qed.
Lemma add_finalizer_kept d l : ∃ fs, add_finalizer_if_missing d = with_dn_Finalizers fs d ∧ finalizer_kept d (with_dn_Finalizers fs d) l.
Proof.
  unfold add_finalizer_if_missing. destruct (ContainsFinalizer _ _); simpl.
  - exists (dn_Finalizers d). rewrite with_own_finalizers. split; [done|]. by intros H1 H2.
  - eexists. split; [done|]. apply kept_same. intros g Hg. apply add_finalizer. by left.
Qed.

(** What the handler of the deletion returns. *)
Definition handled (d : DPUNode) (r : option GoError * DPUNode) (l : list NEvent) : Prop :=
  ∃ fs, r.2 = with_dn_Finalizers fs d ∧ finalizer_kept d r.2 l.
Lemma handled_same d e l : handled d (e, d) l.
Proof. exists (dn_Finalizers d). rewrite with_own_finalizers. split; [done|]. by intros H1 H2. Qed.
Lemma handled_added d e l : handled d (e, add_finalizer_if_missing d) l.
Proof. destruct (add_finalizer_kept d l) as (fs & Hf & Hk). exists fs. cbn. by rewrite Hf. Qed.

Lemma handleDeletion_traces d l : traces (wrote (node_write d)) l (handleDeletionAndFinalizer (C:=ntraced C) d) (handled d).
Proof.
  unfold handleDeletionAndFinalizer. destruct (timep_is_zero _) eqn:Ed; [trace; by apply handled_added|].
  trace. apply traces_call. intros [dpus|e]; (split; [by left|]); cbv beta; [|trace; by apply handled_same]. trace.
  eapply traces_mono; [apply (traces_for_each _ (λ x l', NDeleteDPU x None ∈ l'))|].
  { intros x l1 l2 Hl. by apply prefix_elem. }
  { intros x l1 Hx Hl. apply traces_call. intros r. split; [right; split; [done|]|intros ->; apply elem_of_snoc].
    exists dpus. split; [|done]. eapply prefix_elem; [exact Hl|]. apply elem_of_snoc. }
  intros [e|] l1 Hl1 Hdel; cbv beta; [trace; by apply handled_same|]. specialize (Hdel eq_refl). trace. apply traces_call.
  intros [devices|e]; (split; [by left|]); cbv beta; [|trace; by apply handled_same]. trace.
  eapply traces_mono; [apply (traces_for_each _ (λ _ _, True))|]; [done| |].
  { intros x l2 Hx Hl2. destruct (blocking x) eqn:Eb; [|by trace]. apply traces_call. intros r. split; [|done]. right. split; [done|].
    split; [done|]. exists devices. split; [|done]. eapply prefix_elem; [exact Hl2|]. apply elem_of_snoc. }
  intros [e|] l2 Hl2 _; cbv beta; [trace; by apply handled_same|]. destruct (existsb blocking devices) eqn:Eb; [trace; by apply handled_added|].
  unfold removeFinalizer. trace. apply traces_call. intros [all|e]; (split; [by left|]); trace; [|by apply handled_same]. cbv zeta.
  case_bool_decide as Hc; [|by apply handled_same]. eexists. split; [done|]. intros _ _. split; [done|].
  assert (∀ x l', x ∈ l' → l' `prefix_of` l2 → x ∈ l2 ++ [NListedAll (Ok all)]) as Hin.
  { intros x l' Hx Hl. apply elem_of_app. left. by eapply prefix_elem. }
  split; [|split].
  - exists dpus. split; [eapply Hin; [apply elem_of_snoc|]; etrans; [exact Hl1|]; etrans; [by eexists|exact Hl2]|].
    intros x Hx. eapply Hin; [by apply Hdel|]. etrans; [by eexists|exact Hl2].
  - exists devices. split; [eapply Hin; [apply elem_of_snoc|done]|]. intros x Hx. by apply (existsb_false blocking devices).
  - exists all. split; [apply elem_of_snoc|]. intros x Hx. pose proof (proj1 (count_zero _ _) Hc x Hx) as Hx2. by apply bool_decide_eq_false in Hx2.
Qed.

Lemma reboot_write_kind n phases inScope l x :
  reboot_write now n phases inScope l x →
  match x with NRebootStatus _ _ _ | NCreateJob _ _ | NDeleteJob _ _ => True | _ => False end.
Proof. intros (_ & m & _ & [[_ H]|(_ & _ & _ & H)]); by destruct x. Qed.

(** What follows the reboot does not touch the finalizers, and writes nothing. *)
Lemma report_ready_traces P n phases l :
  traces (wrote P) l (report_ready (C:=ntraced C) now n phases) (λ r _, dn_Finalizers r.2 = dn_Finalizers n).
Proof.
  unfold report_ready. trace. apply traces_unlogged. intros [items|e]; trace; [|done]. set (n' := if negb _ then n else _).
  assert (dn_Finalizers n' = dn_Finalizers n) as <- by (unfold n'; by case_match). clearbody n'. trace.
  eapply (traces_mono _ _ _ (λ r _, dn_Finalizers r.2 = dn_Finalizers n')); [|intros [[e|] d] l' _ Hr; cbn in Hr; trace; exact Hr].
  unfold noneDPUInNodeEffectOrRebooting. cbv zeta. repeat (case_match; [by trace|]). case_match; [|by trace]. trace.
  apply traces_call. intros [dpus|e]; (split; [by left|]); trace; [|done]. cbn. by destruct (bool_decide (dpus = [])) in |- *.
Qed.

Lemma reconcile_dpunode_traces d n k8s l :
  dn_Name n = dn_Name d → dn_Namespace n = dn_Namespace d → dn_DPUs n = dn_DPUs d →
  dn_NodeRebootMethod n = dn_NodeRebootMethod d →
  traces (wrote (node_write d)) l (reconcile_dpunode (C:=ntraced C) DPUInstallInterface DPFVersion now n k8s)
    (λ r _, dn_Finalizers r.2 = dn_Finalizers n).
Proof.
  intros Hn Hns Hd Hm. unfold reconcile_dpunode, GetDPUPhases. trace. eapply traces_mono; [apply get_DPUs_traces|].
  intros [dpus|e] l1 _ Hr; trace; [|done]. destruct (Hr dpus eq_refl) as (reads0 & -> & Hf & ->). trace.
  set (phases := st_Phase ∘ dpu_Status <$> found_dpus reads0).
  assert (traces (wrote (node_write d)) (l ++ reads0) (HandleRebootSync (C:=ntraced C) now n phases) (λ r _, same_node n r.2)) as Hsync.
  { intros w. destruct (HandleRebootSync_traces (C:=C) now n phases (l ++ reads0) w) as (k & Hk & Hj & _). exists k. split; [done|].
    split; [|apply HandleRebootSync_same]. eapply justified_weaken; [|exact Hj]. intros l' x _ [Hx|Hx]; [by left|right].
    pose proof Hx as (reads & l2 & _ & _ & Hw). apply reboot_write_kind in Hw. destruct x; try done; by exists n, l, reads0. }
  eapply traces_mono; [exact Hsync|]. intros [[requeue err] d1] l2 _ (_ & _ & Hfin & _). cbv beta iota zeta. cbn [snd] in Hfin.
  destruct (_ || _); [by trace|]. destruct DPUInstallInterface; [|by trace]. destruct (bool_decide _); [by trace|].
  assert (dn_Finalizers (handleHostAgentUpgrade DPFVersion now d1 k8s).2 = dn_Finalizers n) as Hu.
  { rewrite <- Hfin. unfold handleHostAgentUpgrade. repeat case_match; done. }
  destruct (handleHostAgentUpgrade _ _ _ _) as [requeue2 d2]. simpl in Hu. case_match; [by trace|].
  rewrite <- Hu. apply report_ready_traces.
Qed.

Lemma reconcile_node_traces d l :
  traces (wrote (node_write d)) l (reconcile_node (C:=ntraced C) DPUInstallInterface DPFVersion now d) (λ r l', finalizer_kept d r.2 l').
Proof.
  unfold reconcile_node. trace. eapply traces_mono; [apply handleDeletion_traces|]. intros [[e|] d1] l1 _ (fs & Hd & Hk); cbv beta iota;
    cbn [snd] in *; [by trace|]. subst d1.
  change (node_ref (with_dn_Finalizers fs d)) with (node_ref d).
  assert (∀ n k8s l2, l1 `prefix_of` l2 → dn_Finalizers n = fs → dn_Name n = dn_Name d → dn_Namespace n = dn_Namespace d → dn_DPUs n = dn_DPUs d →
    dn_NodeRebootMethod n = dn_NodeRebootMethod d →
    traces (wrote (node_write d)) l2 (reconcile_dpunode (C:=ntraced C) DPUInstallInterface DPFVersion now n k8s) (λ r l', finalizer_kept d r.2 l')) as Hr.
  { intros n k8s l2 Hl Hfs ? ? ? ?. eapply traces_mono; [by apply reconcile_dpunode_traces|]. intros r l3 Hl3 Hfin. cbv beta in Hfin.
    apply (finalizer_kept_later _ _ l1); [by trans l2|]. unfold finalizer_kept in *. cbn in Hk. by rewrite Hfin, Hfs. }
  destruct (node_ref d) as [ref|] eqn:Er; [|by apply Hr]. trace. apply traces_call. intros [node|e]; (split; [by left|]); cbv beta zeta.
  { apply Hr; try done. by eexists. }
  assert (finalizer_kept d (with_dn_Finalizers fs d) (l1 ++ [NGotHost ref (Err e)])) as Hk' by (by eapply finalizer_kept_later; [eexists|]).
  destruct (IsNotFound e) eqn:En; [|by trace]. trace. apply traces_call. intros r. split; [|trace; eapply finalizer_kept_later; [by eexists|done]].
  right. by exists ref, l1, e.
Qed.
End Writes.

(** Some part of the error says that the object was not found. *)
Inductive finds_nothing : PatchError → Prop :=
| finds_none e : IsNotFound e = true → finds_nothing (PSingle e)
| finds_inside e es : In e es → finds_nothing e → finds_nothing (PAggregate es).

Lemma contains_finds : ∀ err, containsNotFoundError err = true → finds_nothing err.
Proof.
  fix IH 1. intros [e|es]; cbn; intros H; [by constructor|]. assert (∃ e, In e es ∧ finds_nothing e) as (e & Hin & He); [|by apply (finds_inside e)].
  induction es as [|e es IHes]; cbn in H; [done|]. apply orb_true_iff in H as [H|H]; [exists e; split; [by left|by apply IH]|].
  destruct (IHes H) as (e' & ? & ?). exists e'. split; [by right|done].
Qed.
Lemma containsNotFoundError_spec err : containsNotFoundError err = true ↔ finds_nothing err.
Proof.
  split; [apply contains_finds|]. induction 1 as [e He|e es Hin _ IH]; [done|]. cbn. apply existsb_exists. by exists e.
Qed.

(** ** Properties *)

(** C17. What a pass over a DPUNode may write.  It ends with the patch of the
    object, and before it: DPUs and devices are deleted only while the DPUNode is
    being deleted, and only those listed in the pass with its label, hostless devices
    aside; the DPUNode is deleted only right after its host node was read missing;
    everything else is the reboot of the host, for the DPUs read in the pass, under the
    phases the pass read before.  The finalizer goes only from a DPUNode that is being
    deleted, in a pass that asked for the deletion of every DPU with its label and read
    that no device but hostless ones carries its label and no DPU refers to it.  An
    error of the patch is reported, after the pass's own, unless it, or a part of it,
    says that there is no such object: then it is no error. *)
Theorem Reconcile_node_writes {W} {C : NodeClient W} {L : NodeClientLaws W C} {API : MetaAPI} {TP : TemplateParser}
    {FA : FinalizerAPI} {FL : FinalizerAPILaws FA} interface version now key (w : W) :
  let r := Reconcile (C:=ntraced C) interface version now key (w, []) in
  match (getDPUNode_n key w).1 with
  | Err e => r.2.2 = [] ∧ (r.1.2 = [] ↔ IsNotFound e = true)
  | Ok base => ∃ k final e own reported, r.2.2 = k ++ [NPatch base final e] ∧
      (∀ l x l', k = l ++ x :: l' → is_read x ∨ node_write now base l x) ∧
      finalizer_kept base final k ∧
      r.1.2 = option_list (PSingle <$> own) ++ reported ∧
      match e with
      | None => reported = []
      | Some err => (finds_nothing err → reported = []) ∧ (¬ finds_nothing err → reported = [err])
      end
  end.
Proof.
  cbn zeta. unfold Reconcile, mbind, SM_bind. cbn [getDPUNode_n ntraced]. unfold unlogged. cbn [fst snd].
  destruct (getDPUNode_n key w) as [[base|e] w1]; cbn [fst snd].
  2: { split; [done|]. unfold mret, SM_ret. simpl. by destruct (IsNotFound e). }
  destruct (traces_justified _ _ _ w1 (reconcile_node_traces (C:=C) interface version now base [])) as [Hj Hfin].
  destruct (reconcile_node _ _ _ _ (w1, [])) as [r [w2 k]]. cbn [fst snd] in *.
  cbn [patchDPUNode_n ntraced]. unfold logged. cbn [fst snd]. destruct (patchDPUNode_n base r.2 w2) as [e w3].
  exists k, r.2, e, r.1.2. eexists. split; [done|]. split; [by apply (proj1 (justified_spec _ _ _) Hj)|]. split; [exact Hfin|]. split; [done|].
  destruct e as [err|]; [|done]. rewrite <- containsNotFoundError_spec. by destruct (containsNotFoundError err).
Qed.

Section Readiness.
Context {W : Type} {C : NodeClient W} {API : MetaAPI} {AL : MetaAPILaws API} (now : Time).

Lemma is_condition_remove t u status d : t ≠ u → is_condition t status (remove_condition u d) = is_condition t status d.
Proof. intros H. unfold is_condition. simpl. by rewrite !meta_find, meta_remove, first_of_type_remove, decide_False. Qed.
Lemma is_condition_remove_same t status d : is_condition t status (remove_condition t d) = false.
Proof. unfold is_condition. simpl. by rewrite meta_find, meta_remove, first_of_type_remove, decide_True. Qed.

Lemma is_condition_update t status status' reason message d :
  is_condition t status (updateDPUNodeStatusConditions now d t status' reason message) = bool_decide (status' = status).
Proof.
  unfold is_condition, updateDPUNodeStatusConditions. cbv zeta. simpl. rewrite meta_find.
  set (c := mkCondition t status' 0 0 _ message). destruct (meta_set_same now (dn_Conditions d) c) as (c' & Hc & _ & Hs & _).
  simpl in Hc. rewrite Hc. unfold status_is. by rewrite Hs.
Qed.
Lemma is_condition_update_other t u status status' reason message d : t ≠ u →
  is_condition t status (updateDPUNodeStatusConditions now d u status' reason message) = is_condition t status d.
Proof. intros H. unfold is_condition, updateDPUNodeStatusConditions. cbv zeta. simpl. rewrite !meta_find. by rewrite meta_set_other. Qed.

(** A node effect is in progress and a maintenance object is there, or a reboot is
    and a DPU is rebooting. *)
Definition busy (d : DPUNode) (maintained : bool) (phases : list DPUPhase) : bool :=
  maintained && is_condition DPUNodeConditionNodeEffectInProgress ConditionTrue d ||
  is_condition DPUNodeConditionRebootInProgress ConditionTrue d && ContainsDPUPhase phases DPURebooting.

Lemma noneDPU_spec d maintained phases (w : W) :
  let r := noneDPUInNodeEffectOrRebooting d maintained (ContainsDPUPhase phases DPURebooting) w in
  (r.1.1 = None → busy d maintained phases = false) ∧
  (busy d maintained phases = false → ∀ e, r.1.1 = Some e → (listLabelledDPUs (dn_Name d) w).1 = Err e) ∧
  (dn_RebootMethod r.1.2 ≠ dn_RebootMethod d → (listLabelledDPUs (dn_Name d) w).1 = Ok []) ∧
  (is_condition DPUNodeConditionRebootInProgress ConditionTrue r.1.2 = true →
     is_condition DPUNodeConditionRebootInProgress ConditionTrue d = true ∧ r.1.1 ≠ None).
Proof.
  cbn zeta. unfold noneDPUInNodeEffectOrRebooting, busy.
  destruct (maintained && is_condition _ _ d) eqn:Em; simpl; [done|].
  destruct (is_condition DPUNodeConditionRebootInProgress ConditionTrue d) eqn:Er; simpl.
  { destruct (ContainsDPUPhase _ _); simpl; [done|]. split; [done|]. split; [done|]. split; [done|].
    by rewrite is_condition_remove_same. }
  destruct (_ || _); simpl; [|by rewrite Er].
  unfold mbind, SM_bind. destruct (listLabelledDPUs (dn_Name d) w) as [[dpus|e] w1]; simpl.
  - split; [done|]. split; [done|]. case_bool_decide as Hd; simpl; [|by rewrite Er]. subst dpus. split; [done|].
    change (is_condition ?t ?s (set_reboot_method None ?x)) with (is_condition t s x). by rewrite is_condition_remove_same.
  - split; [done|]. split; [by intros _ e' [= <-]|]. split; [done|]. by rewrite Er.
Qed.
End Readiness.

(** The Ready condition of a DPUNode.  A pass that reaches it sets it to True
    only when no node effect of a maintenance object is in progress and no DPU
    reboots under a reboot that is in progress, and then always, unless the DPUs
    cannot be listed; the reboot method is forgotten only when the node has no DPU,
    and no reboot stays in progress on a node that is Ready. *)
Theorem ready_spec {W} {C : NodeClient W} {API : MetaAPI} {AL : MetaAPILaws API} now d phases (w : W) :
  let r := report_ready now d phases w in
  match (listLabelledMaintenances (dn_Name d) w).1 with
  | Err e => r.1 = (0%Z, Some e, d)
  | Ok items =>
      let maintained := negb (bool_decide (items = [])) in
      let w1 := (listLabelledMaintenances (dn_Name d) w).2 in
      let ready := is_condition DPUNodeConditionReady ConditionTrue r.1.2 in
      r.1.1 = (0%Z, None) ∧ ready = negb (is_condition DPUNodeConditionReady ConditionFalse r.1.2) ∧
      (ready = true → busy d maintained phases = false ∧
         is_condition DPUNodeConditionRebootInProgress ConditionTrue r.1.2 = false) ∧
      (busy d maintained phases = false → ready = true ∨ ∃ e, (listLabelledDPUs (dn_Name d) w1).1 = Err e) ∧
      (dn_RebootMethod r.1.2 ≠ dn_RebootMethod d → (listLabelledDPUs (dn_Name d) w1).1 = Ok [])
  end.
Proof.
  cbn zeta. unfold report_ready, mbind, SM_bind. destruct (listLabelledMaintenances (dn_Name d) w) as [[items|e] w1]; [|done].
  cbn [fst snd]. set (maintained := negb _). set (n := if maintained then d else _).
  assert (busy n maintained phases = busy d maintained phases ∧ dn_Name n = dn_Name d ∧ dn_RebootMethod n = dn_RebootMethod d)
    as (Hb & Hn & Hm).
  { unfold n, busy. destruct maintained; [done|]. split; [|done]. cbn [andb orb]. by rewrite is_condition_remove by done. }
  destruct (noneDPU_spec n maintained phases w1) as (H1 & H2 & H3 & H4). rewrite Hb, Hn, Hm in *.
  destruct (noneDPUInNodeEffectOrRebooting n _ _ w1) as [[[err|] n'] w2]; cbn [fst snd mret SM_ret] in *.
  - rewrite !is_condition_update. split; [done|]. split; [done|]. split; [done|]. split; [|done].
    intros Hbusy. right. exists err. by apply H2.
  - rewrite !is_condition_update, is_condition_update_other by done. split; [done|]. split; [done|]. split; [|split; [by left|done]].
    intros _. split; [by apply H1|]. destruct (is_condition _ _ n') eqn:E; [|done]. by destruct (H4 eq_refl).
Qed.

(** ** Witnesses *)

(** A DPUNode that is being deleted, with no DPU left. *)
Definition example_deleted_node : DPUNode :=
  mkDPUNode "node" "ns" ∅ ∅ [DPUNodeFinalizer] [] ["d1"] (Some (example_method true)) None (Some InstallViaHostAgent) [] None (Some 5%Z).

Definition patched_finalizers (l : list NEvent) : list string := match last l with Some (NPatch _ n _) => dn_Finalizers n | _ => [] end.
Lemma Reconcile_node_writes_witness :
  let r := Reconcile (C:=ntraced fake_node_client) (API:=meta_list) (TP:=fake_templates) (FA:=finalizer_list) (Some "redfish") "v1" 7
             (mkNN "ns" "node") (example_nworld example_deleted_node [] None, []) in
  ∃ k final e, r.2.2 = k ++ [NPatch example_deleted_node final e] ∧ dn_Finalizers final = [] ∧ nothing_left example_deleted_node k.
Proof.
  destruct (Reconcile_node_writes (C:=fake_node_client) (L:=fake_node_client_laws) (API:=meta_list) (TP:=fake_templates)
    (FA:=finalizer_list) (Some "redfish") "v1" 7 (mkNN "ns" "node") (example_nworld example_deleted_node [] None))
    as (k & final & e & own & reported & H1 & _ & H2 & _).
  exists k, final, e. split; [exact H1|].
  assert (patched_finalizers (k ++ [NPatch example_deleted_node final e]) = []) as H3 by (rewrite <- H1; vm_compute; reflexivity).
  unfold patched_finalizers in H3. rewrite last_snoc in H3. split; [exact H3|]. apply H2; [left|]. rewrite H3. apply not_elem_of_nil.
Defined.

(** A node whose reboot is still marked although no DPU reboots. *)
Lemma ready_spec_witness :
  let d := set_conditions [mkCondition DPUNodeConditionRebootInProgress ConditionTrue 0 1 "" ""] (example_node true ∅) in
  is_condition (API:=meta_list) DPUNodeConditionReady ConditionTrue
    (report_ready (C:=fake_node_client) (API:=meta_list) 7 d [DPUReady] (example_nworld d [] None)).1.2 = true.
Proof.
  set (d := set_conditions [mkCondition DPUNodeConditionRebootInProgress ConditionTrue 0 1 "" ""] (example_node true ∅)).
  destruct (ready_spec (C:=fake_node_client) (API:=meta_list) 7 d [DPUReady] (example_nworld d [] None)) as (_ & _ & _ & H & _).
  destruct H as [H|[e H]]; [vm_compute; reflexivity|exact H|discriminate H].
Defined.
