(* ===== verification/DPUSetTypes.v ===== *)
(** The DPUSet (api/provisioning/v1alpha1/dpuset_types.go) as its controller uses
    it, and what that controller asks of the API server.

    Every call of the DPUSet controller that writes can be recorded: [traced C] is
    the client [C] with a log of the writes and their results, for any [C].  The
    theorems about what a pass writes, and in which order, read the log. *)

From S2P Require Import Prelude.
From S2P Require Import Meta.
From S2P Require Import Conditions.
From S2P Require Import DPUTypes.
From S2P Require Import Kubernetes.
From S2P Require Import FakeClient.
From S2P Require Import WriteLog.

(** ** Data *)

(** ClusterSpec *)
Record ClusterSpec := mkClusterSpec {
  cl_NodeLabels : gmap string string;
  cl_NodeAnnotations : gmap string string;
  cl_Selector : option string }.

(** DPUTemplateSpec; the references to a BFB and to a BlueFieldSoftware are their names. *)
Record DPUTemplateSpec := mkDPUTemplateSpec {
  t_BFB : option string;
  t_BlueFieldSoftware : option string;
  t_NodeEffect : NodeEffect;
  t_Cluster : option ClusterSpec;
  t_DPUFlavor : option string;
  t_DPUFlavorTemplate : option string;
  t_AstraEnabled : option bool;
  t_SecureBoot : option bool }.

Definition with_t_NodeEffect (v : NodeEffect) (t : DPUTemplateSpec) : DPUTemplateSpec :=
  mkDPUTemplateSpec (t_BFB t) (t_BlueFieldSoftware t) v (t_Cluster t) (t_DPUFlavor t)
    (t_DPUFlavorTemplate t) (t_AstraEnabled t) (t_SecureBoot t).

(** DPUSetReconfigStatus; [rd_Round] is an int32. *)
Record DPUSetReconfigStatus := mkDPUSetReconfig {
  rd_Round : Z;
  rd_Active : option bool;
  rd_StartedAt : option Time }.

#[export] Instance DPUSetReconfigStatus_eq_dec : EqDecision DPUSetReconfigStatus.
Proof. solve_decision. Defined.

(** DPUSet; [ds_DPUStatistics] is keyed by the text of the phase, [ds_Strategy] is
    the type of the strategy. *)
Record DPUSet := mkDPUSet {
  ds_Name : string;
  ds_Namespace : string;
  ds_Generation : Z;
  ds_Labels : gmap string string;
  ds_Annotations : gmap string string;
  ds_Finalizers : list string;
  ds_DeletionTimestamp : option Time;
  ds_DPUNodeSelector : option string;
  ds_DPUDeviceSelector : option string;
  ds_DPUSelector : gmap string string;
  ds_Strategy : string;
  ds_Template : DPUTemplateSpec;
  ds_TemplateAnnotations : gmap string string;
  ds_DPUStatistics : gmap string Z;
  ds_Conditions : list Condition;
  ds_DPUReconfig : option DPUSetReconfigStatus;
  ds_ObservedGeneration : Z }.

Definition with_ds_Labels (v : gmap string string) (s : DPUSet) : DPUSet :=
  mkDPUSet (ds_Name s) (ds_Namespace s) (ds_Generation s) v (ds_Annotations s)
    (ds_Finalizers s) (ds_DeletionTimestamp s) (ds_DPUNodeSelector s) (ds_DPUDeviceSelector s)
    (ds_DPUSelector s) (ds_Strategy s) (ds_Template s) (ds_TemplateAnnotations s)
    (ds_DPUStatistics s) (ds_Conditions s) (ds_DPUReconfig s) (ds_ObservedGeneration s).
Definition with_ds_Annotations (v : gmap string string) (s : DPUSet) : DPUSet :=
  mkDPUSet (ds_Name s) (ds_Namespace s) (ds_Generation s) (ds_Labels s) v (ds_Finalizers s)
    (ds_DeletionTimestamp s) (ds_DPUNodeSelector s) (ds_DPUDeviceSelector s) (ds_DPUSelector s)
    (ds_Strategy s) (ds_Template s) (ds_TemplateAnnotations s) (ds_DPUStatistics s)
    (ds_Conditions s) (ds_DPUReconfig s) (ds_ObservedGeneration s).
Definition with_ds_Finalizers (v : list string) (s : DPUSet) : DPUSet :=
  mkDPUSet (ds_Name s) (ds_Namespace s) (ds_Generation s) (ds_Labels s) (ds_Annotations s) v
    (ds_DeletionTimestamp s) (ds_DPUNodeSelector s) (ds_DPUDeviceSelector s) (ds_DPUSelector s)
    (ds_Strategy s) (ds_Template s) (ds_TemplateAnnotations s) (ds_DPUStatistics s)
    (ds_Conditions s) (ds_DPUReconfig s) (ds_ObservedGeneration s).
Definition with_ds_Template (v : DPUTemplateSpec) (s : DPUSet) : DPUSet :=
  mkDPUSet (ds_Name s) (ds_Namespace s) (ds_Generation s) (ds_Labels s) (ds_Annotations s)
    (ds_Finalizers s) (ds_DeletionTimestamp s) (ds_DPUNodeSelector s) (ds_DPUDeviceSelector s)
    (ds_DPUSelector s) (ds_Strategy s) v (ds_TemplateAnnotations s) (ds_DPUStatistics s)
    (ds_Conditions s) (ds_DPUReconfig s) (ds_ObservedGeneration s).
Definition with_ds_DPUStatistics (v : gmap string Z) (s : DPUSet) : DPUSet :=
  mkDPUSet (ds_Name s) (ds_Namespace s) (ds_Generation s) (ds_Labels s) (ds_Annotations s)
    (ds_Finalizers s) (ds_DeletionTimestamp s) (ds_DPUNodeSelector s) (ds_DPUDeviceSelector s)
    (ds_DPUSelector s) (ds_Strategy s) (ds_Template s) (ds_TemplateAnnotations s) v
    (ds_Conditions s) (ds_DPUReconfig s) (ds_ObservedGeneration s).
Definition with_ds_Conditions (v : list Condition) (s : DPUSet) : DPUSet :=
  mkDPUSet (ds_Name s) (ds_Namespace s) (ds_Generation s) (ds_Labels s) (ds_Annotations s)
    (ds_Finalizers s) (ds_DeletionTimestamp s) (ds_DPUNodeSelector s) (ds_DPUDeviceSelector s)
    (ds_DPUSelector s) (ds_Strategy s) (ds_Template s) (ds_TemplateAnnotations s)
    (ds_DPUStatistics s) v (ds_DPUReconfig s) (ds_ObservedGeneration s).
Definition with_ds_DPUReconfig (v : option DPUSetReconfigStatus) (s : DPUSet) : DPUSet :=
  mkDPUSet (ds_Name s) (ds_Namespace s) (ds_Generation s) (ds_Labels s) (ds_Annotations s)
    (ds_Finalizers s) (ds_DeletionTimestamp s) (ds_DPUNodeSelector s) (ds_DPUDeviceSelector s)
    (ds_DPUSelector s) (ds_Strategy s) (ds_Template s) (ds_TemplateAnnotations s)
    (ds_DPUStatistics s) (ds_Conditions s) v (ds_ObservedGeneration s).

(** The DPUSet as an object with conditions. *)
#[export] Instance DPUSet_GetSet : GetSet DPUSet :=
  {| GetConditions := ds_Conditions;
     SetConditions s cs := with_ds_Conditions cs s;
     GetGeneration := ds_Generation |}.
#[export] Instance DPUSet_GetSet_laws : GetSetLaws DPUSet DPUSet_GetSet.
Proof. split; done. Qed.

(** [IsAstraEnabledForNonBlueField4] *)
Definition IsAstraEnabledForNonBlueField4 (c : DPUSet) (dpuDevice : DPUDevice) : bool :=
  is_true_ptr (t_AstraEnabled (ds_Template c)) && bool_decide (dd_DPUType dpuDevice ≠ DPUTypeBlueField4).

(** [isTemplateMode] *)
Definition isTemplateMode (dpuSet : DPUSet) : bool :=
  bool_decide (is_Some (t_DPUFlavorTemplate (ds_Template dpuSet))).

(** The spec of a DPUFlavor as it is compared and written as a whole. *)
Record DPUFlavorSpec := mkDPUFlavorSpec {
  fs_NVConfig : list (list string);
  fs_ServiceReadiness : option string;
  fs_OtherSpec : string }.

#[export] Instance DPUFlavorSpec_eq_dec : EqDecision DPUFlavorSpec.
Proof. solve_decision. Defined.

Definition fl_Spec (f : DPUFlavor) : DPUFlavorSpec :=
  mkDPUFlavorSpec (fl_NVConfig f) (fl_ServiceReadiness f) (fl_OtherSpec f).
Definition with_fl_Spec (v : DPUFlavorSpec) (f : DPUFlavor) : DPUFlavor :=
  mkDPUFlavor (fl_Name f) (fl_Namespace f) (fl_Labels f) (fl_Finalizers f) (fl_ControllerUID f)
    (fs_NVConfig v) (fs_ServiceReadiness v) (fs_OtherSpec v).

(** DPUFlavorTemplate; its spec is the text the renderer works on. *)
Record DPUFlavorTemplate := mkDPUFlavorTemplate { ft_Name : string; ft_Spec : string }.

(** [templateEval] without the two fields that only choose the trace of a rollout. *)
Record templateEval := mkTemplateEval {
  disrupt : bool;
  renderErr : option GoError;
  equalButStale : bool;
  configOnly : option DPUFlavorSpec;
  clearRenderFailed : bool;
  liveTemplateHash : string;
  liveValuesHash : string }.

(** The zero value, which is also the value of an absent entry of the map. *)
Definition no_eval : templateEval := mkTemplateEval false None false None false "" "".
Definition eval_of (templateEvals : gmap string templateEval) (name : string) : templateEval :=
  default no_eval (templateEvals !! name).

Definition DPUSetInPlaceReconfigAnnotation := DPUProvisioningPrefix +:+ "inplace-reconfig".
Definition DPUSetDPUTemplateSpecHashLabelKey := DPUProvisioningPrefix +:+ "dpuset-dpu-template-spec-hash".
Definition DPUSetCollisionLabelPrefix := DPUProvisioningPrefix +:+ "collision-dpuset-".
Definition GenerateDPUSetCollisionLabelKey (dpuSetName : string) : string := DPUSetCollisionLabelPrefix +:+ dpuSetName.

(** ** The API calls of the controller *)

Class SetClient (W : Type) := {
  (** List of the DPUs labelled with a DPUSet's name and namespace. *)
  listSetDPUs : string → string → SM W (Res (list DPU));
  (** The trace annotations put on the device and on the DPU before it is deleted. *)
  stampDeviceTrace : DPU → SM W (option GoError);
  deleteDPU : DPU → SM W (option GoError);
  (** Merge patch of the status, from the first object to the second. *)
  mergePatchDPUStatus : DPU → DPU → SM W (option GoError);
  (** The serial patcher on an owned DPU. *)
  patchSetDPU : DPU → DPU → SM W (option GoError);
  createDPU_api : DPU → SM W (option GoError);
  getSetDPU : NamespacedName → SM W (Res DPU);
  (** List of the DPUs of a namespace with a label set to true. *)
  listLabelledDPUs : string → string → SM W (Res (list DPU));
  (** Lists of a namespace by a label selector, and of all clusters. *)
  listSetDPUNodes : string → (gmap string string → bool) → SM W (Res (list DPUNode));
  listSetDPUDevices : string → (gmap string string → bool) → SM W (Res (list DPUDevice));
  listSetDPUClusters : SM W (Res (list DPUCluster));
  getSetBlueFieldSoftware : NamespacedName → SM W (Res BlueFieldSoftware);
  listBlueFieldSoftware : string → SM W (Res (list BlueFieldSoftware));
  updateBlueFieldSoftware : BlueFieldSoftware → SM W (option GoError);
  getDPUFlavorTemplate : NamespacedName → SM W (Res DPUFlavorTemplate);
  getSetDPUDevice : NamespacedName → SM W (Res DPUDevice);
  getSetDPUFlavor : NamespacedName → SM W (Res DPUFlavor);
  createDPUFlavor : DPUFlavor → SM W (option GoError);
  (** Dry runs: the object as it would be stored. *)
  dryRunCreateDPUFlavor : DPUFlavor → SM W (Res DPUFlavor);
  dryRunUpdateDPUFlavor : DPUFlavor → SM W (Res DPUFlavor);
  (** Merge patch with an optimistic lock. *)
  patchSetDPUFlavor : DPUFlavor → DPUFlavor → SM W (option GoError);
  getDPUSet : NamespacedName → SM W (Res DPUSet);
  (** The serial patcher on the DPUSet. *)
  patchDPUSet : DPUSet → DPUSet → SM W (option GoError) }.

(** ** The log of writes *)

Inductive Write :=
| WDelete (dpu : DPU) (r : option GoError)
| WStatus (base patched : DPU) (r : option GoError)
| WPatch (base patched : DPU) (r : option GoError)
| WCreate (dpu : DPU) (r : option GoError)
| WSoftware (bfs : BlueFieldSoftware) (r : option GoError)
| WCreateFlavor (flavor : DPUFlavor) (r : option GoError)
| WFlavor (base patched : DPUFlavor) (r : option GoError)
| WDPUSet (base patched : DPUSet) (r : option GoError).

Section Traced.
Context {W : Type}.

Definition traced (C : SetClient W) : SetClient (W * list Write) := {|
  listSetDPUs name ns := unlogged (listSetDPUs name ns);
  stampDeviceTrace dpu := unlogged (stampDeviceTrace dpu);
  deleteDPU dpu := logged (WDelete dpu) (deleteDPU dpu);
  mergePatchDPUStatus base dpu := logged (WStatus base dpu) (mergePatchDPUStatus base dpu);
  patchSetDPU base dpu := logged (WPatch base dpu) (patchSetDPU base dpu);
  createDPU_api dpu := logged (WCreate dpu) (createDPU_api dpu);
  getSetDPU k := unlogged (getSetDPU k);
  listLabelledDPUs ns label := unlogged (listLabelledDPUs ns label);
  listSetDPUNodes ns sel := unlogged (listSetDPUNodes ns sel);
  listSetDPUDevices ns sel := unlogged (listSetDPUDevices ns sel);
  listSetDPUClusters := unlogged listSetDPUClusters;
  getSetBlueFieldSoftware k := unlogged (getSetBlueFieldSoftware k);
  listBlueFieldSoftware ns := unlogged (listBlueFieldSoftware ns);
  updateBlueFieldSoftware b := logged (WSoftware b) (updateBlueFieldSoftware b);
  getDPUFlavorTemplate k := unlogged (getDPUFlavorTemplate k);
  getSetDPUDevice k := unlogged (getSetDPUDevice k);
  getSetDPUFlavor k := unlogged (getSetDPUFlavor k);
  createDPUFlavor f := logged (WCreateFlavor f) (createDPUFlavor f);
  dryRunCreateDPUFlavor f := unlogged (dryRunCreateDPUFlavor f);
  dryRunUpdateDPUFlavor f := unlogged (dryRunUpdateDPUFlavor f);
  patchSetDPUFlavor f f' := logged (WFlavor f f') (patchSetDPUFlavor f f');
  getDPUSet k := unlogged (getDPUSet k);
  patchDPUSet s s' := logged (WDPUSet s s') (patchDPUSet s s') |}.
End Traced.

(** The DPUs the API server accepted the deletion of. *)
Definition deleted (log : list Write) : list DPU :=
  omap (λ e, match e with WDelete dpu None => Some dpu | _ => None end) log.

Lemma deleted_app l k : deleted (l ++ k) = deleted l ++ deleted k.
Proof. apply omap_app. Qed.

(** ** An in-memory instance *)

Definition in_set (name ns : string) (d : DPU) : bool :=
  bool_decide (dpu_Labels d !! (DPUProvisioningPrefix +:+ "dpuset-name") = Some name) &&
  bool_decide (dpu_Labels d !! (DPUProvisioningPrefix +:+ "dpuset-namespace") = Some ns).

(** The world has no DPUSets and no flavor templates, which are arguments. *)
Definition fake_set_client_with (templates : gmap string DPUFlavorTemplate) (dpuSet : option DPUSet)
    : SetClient World := {|
  listSetDPUs name ns w := (Ok (filter (λ d, in_set name ns d = true) (map_to_list (w_dpus w)).*2), w);
  stampDeviceTrace _ w := (None, w);
  deleteDPU d w :=
    match w_dpus w !! dpu_key d with
    | Some _ => (None, with_dpus (delete (dpu_key d) (w_dpus w)) w)
    | None => (Some not_found, w)
    end;
  mergePatchDPUStatus _ d := write_in w_dpus with_dpus (dpu_key d) d;
  patchSetDPU _ d := write_in w_dpus with_dpus (dpu_key d) d;
  createDPU_api d w :=
    match w_dpus w !! dpu_key d with
    | Some _ => (Some (mkGoError KAlreadyExists "already exists"), w)
    | None => (None, with_dpus (<[dpu_key d := d]> (w_dpus w)) w)
    end;
  getSetDPU := get_in w_dpus;
  listLabelledDPUs ns label w :=
    (Ok (filter (λ d, dpu_Labels d !! label = Some "true" ∧ dpu_Namespace d = ns) (map_to_list (w_dpus w)).*2), w);
  listSetDPUNodes ns sel w := (Ok (map_to_list (w_dpunodes w)).*2, w);
  listSetDPUDevices ns sel w :=
    (Ok (filter (λ d, dd_Namespace d = ns ∧ sel (dd_Labels d) = true) (map_to_list (w_devices w)).*2), w);
  listSetDPUClusters w := (Ok (map_to_list (w_clusters w)).*2, w);
  getSetBlueFieldSoftware := get_in w_softwares;
  listBlueFieldSoftware ns w := (Ok (filter (λ b, bfs_Namespace b = ns) (map_to_list (w_softwares w)).*2), w);
  updateBlueFieldSoftware b := write_in w_softwares with_softwares (mkNN (bfs_Namespace b) (bfs_Name b)) b;
  getDPUFlavorTemplate k w :=
    (match templates !! nn_name k with Some t => Ok t | None => Err not_found end, w);
  getSetDPUDevice := get_in w_devices;
  getSetDPUFlavor := get_in w_flavors;
  createDPUFlavor f w :=
    let k := mkNN (fl_Namespace f) (fl_Name f) in
    match w_flavors w !! k with
    | Some _ => (Some (mkGoError KAlreadyExists "already exists"), w)
    | None => (None, with_flavors (<[k := f]> (w_flavors w)) w)
    end;
  dryRunCreateDPUFlavor f w := (Ok f, w);
  dryRunUpdateDPUFlavor f w := (Ok f, w);
  patchSetDPUFlavor _ f := write_in w_flavors with_flavors (mkNN (fl_Namespace f) (fl_Name f)) f;
  getDPUSet k w := (match dpuSet with Some s => Ok s | None => Err not_found end, w);
  patchDPUSet _ _ w := (None, w) |}.

Definition fake_set_client : SetClient World := fake_set_client_with ∅ None.
