(* ===== verification/DPUSetTemplate.v ===== *)
(** A DPU and the template of its DPUSet: the DPU that [createDPU] of
    dpuset_controller.go makes from the template, and the drift of an existing DPU
    from it (dpu_drift.go).  The reasons and the diffs of a [dpuDrift], two slices
    with aligned indices, are a list of pairs. *)

From S2P Require Import Prelude.
From S2P Require Import Meta.
From S2P Require Import Conditions.
From S2P Require Import DPUTypes.
From S2P Require Import DPUConditions.
From S2P Require Import Kubernetes.
From S2P Require Import FakeClient.
From S2P Require Import Maintenance.
From S2P Require Import ClusterMetadata.
From S2P Require Import WriteLog.
From S2P Require Import DPUSetTypes.

(** ** Drift *)

Inductive dpuDriftReason :=
| driftReasonBFB | driftReasonDPUFlavor | driftReasonSecureBoot | driftReasonBlueFieldSoftware
| driftReasonClusterSelector.

#[export] Instance dpuDriftReason_eq_dec : EqDecision dpuDriftReason.
Proof. solve_decision. Defined.

Abbreviation dpuDrift := (list (dpuDriftReason * string)) (only parsing).

Definition drift_empty (d : dpuDrift) : bool := bool_decide (d = []).

Definition without (exclude : list dpuDriftReason) (d : dpuDrift) : dpuDrift :=
  filter (λ rd, rd.1 ∉ exclude) d.

Definition DPUOutdatedReasonBFB := "OutdatedBFB".
Definition DPUOutdatedReasonDPUFlavor := "OutdatedDPUFlavor".
Definition DPUOutdatedReasonSecureBoot := "OutdatedSecureBoot".
Definition DPUOutdatedReasonBlueFieldSoftware := "OutdatedBlueFieldSoftware".

(** The map [outdatedReasonForDrift]. *)
Definition outdatedReasonForDrift (r : dpuDriftReason) : option string :=
  match r with
  | driftReasonBFB => Some DPUOutdatedReasonBFB
  | driftReasonDPUFlavor => Some DPUOutdatedReasonDPUFlavor
  | driftReasonSecureBoot => Some DPUOutdatedReasonSecureBoot
  | driftReasonBlueFieldSoftware => Some DPUOutdatedReasonBlueFieldSoftware
  | driftReasonClusterSelector => None
  end.

Definition formatBoolPtr (b : option bool) : string :=
  match b with None => "<nil>" | Some true => "true" | Some false => "false" end.

Definition arrow (field from to : string) : string := field +:+ ": " +:+ from +:+ " -> " +:+ to.


Section Drift.
Context {S : SelectorAPI}.

(** [matchDPUClusterSelector] *)
Definition matchDPUClusterSelector (selectorFromDPUSet : option string) (dpuK8sCluster : K8sCluster)
    (clusterList : list DPUCluster) : bool :=
  if bool_decide (kc_Name dpuK8sCluster = "") || bool_decide (kc_Namespace dpuK8sCluster = "") then true
  else match LabelSelectorAsSelector selectorFromDPUSet with
       | Err _ => false
       | Ok Matches =>
           existsb (λ cluster, Matches (dc_Labels cluster) &&
                      bool_decide (kc_Name dpuK8sCluster = dc_Name cluster) &&
                      bool_decide (kc_Namespace dpuK8sCluster = dc_Namespace cluster)) clusterList
       end.

Definition computeDPUDrift (dpuSet : DPUSet) (dpu : DPU) (dpuClusters : list DPUCluster) (eval : templateEval)
    : dpuDrift :=
  let t := ds_Template dpuSet in
  let s := dpu_Spec dpu in
  match t_BFB t with
  | Some name =>
      if bool_decide (name ≠ deref (sp_BFB s) "")
      then [(driftReasonBFB, arrow "BFB" (deref (sp_BFB s) "") name)] else []
  | None => []
  end ++
  (if isTemplateMode dpuSet then
     if disrupt eval
     then [(driftReasonDPUFlavor, "DPUFlavor: generated flavor diverged from DPUFlavorTemplate")] else []
   else if bool_decide (deref (t_DPUFlavor t) "" ≠ sp_DPUFlavor s)
   then [(driftReasonDPUFlavor, arrow "DPUFlavor" (sp_DPUFlavor s) (deref (t_DPUFlavor t) ""))] else []) ++
  (if bool_decide (t_SecureBoot t ≠ sp_SecureBoot s)
   then [(driftReasonSecureBoot, arrow "SecureBoot" (formatBoolPtr (sp_SecureBoot s)) (formatBoolPtr (t_SecureBoot t)))]
   else []) ++
  match t_BlueFieldSoftware t with
  | Some name =>
      if bool_decide (name ≠ deref (sp_BlueFieldSoftware s) "")
      then [(driftReasonBlueFieldSoftware, arrow "BlueFieldSoftware" (deref (sp_BlueFieldSoftware s) "") name)] else []
  | None => []
  end ++
  match t_Cluster t with
  | Some c =>
      if negb (matchDPUClusterSelector (cl_Selector c) (sp_Cluster s) dpuClusters)
      then [(driftReasonClusterSelector, "ClusterSelector: matched -> not matched")] else []
  | None => []
  end.

(** The reason and the message, when the DPU is outdated. *)
Definition detectOutdated (dpuSet : DPUSet) (dpu : DPU) (dpuClusters : list DPUCluster) (eval : templateEval)
    : option (string * string) :=
  let drift := without [driftReasonClusterSelector] (computeDPUDrift dpuSet dpu dpuClusters eval) in
  match drift with
  | [] => None
  | (reason, _) :: _ =>
      match outdatedReasonForDrift reason with
      | None => None
      | Some primary =>
          Some (primary, "DPU template has changed (" +:+ strings_Join ", " drift.*2 +:+ ").")
      end
  end.

Definition needDisruptDPU (dpuSet : DPUSet) (dpu : DPU) (dpuClusters : list DPUCluster) (eval : templateEval) : bool :=
  negb (drift_empty (computeDPUDrift dpuSet dpu dpuClusters eval)).
End Drift.

(** ** The DPU made from the template *)

Definition DPUNodeNamespaceLabel := DPUProvisioningPrefix +:+ "dpunode-namespace".
Definition DPUSetNameLabel := DPUProvisioningPrefix +:+ "dpuset-name".
Definition DPUSetNamespaceLabel := DPUProvisioningPrefix +:+ "dpuset-namespace".
Definition DPUDeviceNameLabel := DPUProvisioningPrefix +:+ "dpudevice-name".
(** The labels and annotations of a cluster spec, as the merge takes them. *)
Definition cluster_metadata (dpuSet : DPUSet) : option (gmap string string * gmap string string) :=
  (λ c, (cl_NodeLabels c, cl_NodeAnnotations c)) <$> t_Cluster (ds_Template dpuSet).

Section Create.
Context {K : Codec} {R : MapRange}.
(** The release the binary was built from. *)
Context (DPFVersion : string).

Definition buildDPUClusterNodeLabels (userLabels : gmap string string) (dpuNodeName dpuDeviceNamespace : string)
    : gmap string string :=
  <[DPFVersionLabelKey := DPFVersion]>
    (<[DPUNodeNamespaceLabel := dpuDeviceNamespace]>
      (<[DPUNodeNameLabel := dpuNodeName]> (set_all userLabels ∅))).

(** [SetAnnotationFromStringMap] *)
Definition SetAnnotationFromStringMap (ann : gmap string string) (key : string) (data : gmap string string)
    : gmap string string :=
  <[key := json_map data]> ann.

(** A name that is there and not empty. *)
Definition nonempty (p : option string) : option string :=
  match p with Some s => if bool_decide (s ≠ "") then Some s else None | None => None end.

(** The status and the server-side metadata of an object that is not stored yet. *)
Definition no_status : DPUStatus :=
  mkDPUStatus DPUPhaseUnset DPUPhaseUnset None [] [] "" "" None None [] None None None None 0 "" None None None
    "" "" false None None.

(** The object [createDPU] builds, up to its Create call. *)
Definition newDPU (dpuSet : DPUSet) (dpuDevice : DPUDevice) : Res DPU :=
  let t := ds_Template dpuSet in
  match dd_Labels dpuDevice !! DPUNodeNameLabel with
  | None => Err (errorf ("missing label " +:+ DPUNodeNameLabel +:+ " on DPUDevice " +:+ dd_Name dpuDevice))
  | Some dpuNodeName =>
      let labels := set_all (dd_Labels dpuDevice) (set_all (ds_Labels dpuSet)
        (<[DPUNodeNameLabel := dpuNodeName]> (<[DPUDeviceNameLabel := dd_Name dpuDevice]>
          (<[DPUSetNamespaceLabel := ds_Namespace dpuSet]> {[ DPUSetNameLabel := ds_Name dpuSet ]})))) in
      match MergeDPUClusterNodeMetadata (cluster_metadata dpuSet) (dd_NodeLabels dpuDevice) with
      | Err err => Err (wrapf ("merge cluster metadata for DPUDevice " +:+ dd_Name dpuDevice +:+ ": ") err)
      | Ok (userLabels, userAnnotations) =>
          match GenerateDPUName dpuNodeName (dd_Name dpuDevice) with
          | Err e => Err e
          | Ok name =>
              let cluster := mkK8sCluster "" ""
                (buildDPUClusterNodeLabels userLabels dpuNodeName (dd_Namespace dpuDevice)) userAnnotations
                (match t_Cluster t with Some c => cl_Selector c | None => None end) in
              let ann := set_all (ds_TemplateAnnotations dpuSet) ∅ in
              let ann := SetAnnotationFromStringMap ann LastAppliedLabelsOnDPUKey userLabels in
              let ann := SetAnnotationFromStringMap ann LastAppliedAnnotationsOnDPUKey userAnnotations in
              Ok (mkDPU name (ds_Namespace dpuSet) "" 0 labels ann [] 0 None
                    (mkDPUSpec dpuNodeName (dd_Name dpuDevice) (nonempty (t_BFB t)) (nonempty (t_BlueFieldSoftware t))
                       (dd_PCIAddress dpuDevice) (t_NodeEffect t) cluster (deref (t_DPUFlavor t) "") (t_SecureBoot t))
                    no_status)
          end
      end
  end.
End Create.

(** ** Lemmas *)

Section Lemmas.
Context {S : SelectorAPI}.

(** A DPU that has a cluster is still in one the selector matches. *)
Lemma matchDPUClusterSelector_spec sel k clusters :
  matchDPUClusterSelector sel k clusters = true ↔
  kc_Name k = "" ∨ kc_Namespace k = "" ∨
  ∃ Matches cluster, LabelSelectorAsSelector sel = Ok Matches ∧ cluster ∈ clusters ∧
    Matches (dc_Labels cluster) = true ∧ kc_Name k = dc_Name cluster ∧ kc_Namespace k = dc_Namespace cluster.
Proof.
  unfold matchDPUClusterSelector. destruct (decide (kc_Name k = "")) as [E|E].
  { rewrite bool_decide_eq_true_2 by done. simpl. tauto. }
  destruct (decide (kc_Namespace k = "")) as [E'|E'].
  { rewrite (bool_decide_eq_true_2 (kc_Namespace k = "")), orb_true_r by done. simpl. tauto. }
  rewrite !bool_decide_eq_false_2 by done. simpl.
  destruct (LabelSelectorAsSelector sel) as [Matches|e].
  - rewrite existsb_exists. split.
    + intros (c & Hc & H). rewrite !andb_true_iff, !bool_decide_eq_true in H. right. right.
      exists Matches, c. rewrite list_elem_of_In. tauto.
    + intros [?|[?|(M & c & [= <-] & Hc & Hm & Hn & Hns)]]; [done..|]. exists c.
      rewrite Hm, !bool_decide_eq_true_2, <- list_elem_of_In by done. done.
  - split; [done|]. intros [?|[?|(M & c & ? & _)]]; done.
Qed.

(** A field of the DPU differs from the template. *)
Definition diverged (dpuSet : DPUSet) (dpu : DPU) (dpuClusters : list DPUCluster) (eval : templateEval)
    (r : dpuDriftReason) : Prop :=
  let t := ds_Template dpuSet in
  let s := dpu_Spec dpu in
  match r with
  | driftReasonBFB => ∃ name, t_BFB t = Some name ∧ sp_BFB s ≠ Some name ∧ (sp_BFB s = None → name ≠ "")
  | driftReasonDPUFlavor =>
      if decide (t_DPUFlavorTemplate t = None) then deref (t_DPUFlavor t) "" ≠ sp_DPUFlavor s else disrupt eval = true
  | driftReasonSecureBoot => t_SecureBoot t ≠ sp_SecureBoot s
  | driftReasonBlueFieldSoftware =>
      ∃ name, t_BlueFieldSoftware t = Some name ∧ sp_BlueFieldSoftware s ≠ Some name ∧
        (sp_BlueFieldSoftware s = None → name ≠ "")
  | driftReasonClusterSelector =>
      ∃ c, t_Cluster t = Some c ∧ matchDPUClusterSelector (cl_Selector c) (sp_Cluster s) dpuClusters = false
  end.

(** The precedence of the reasons. *)
Definition rank (r : dpuDriftReason) : nat :=
  match r with
  | driftReasonBFB => 0 | driftReasonDPUFlavor => 1 | driftReasonSecureBoot => 2
  | driftReasonBlueFieldSoftware => 3 | driftReasonClusterSelector => 4
  end.

(** The part of the drift a field contributes. *)
Definition part (r : dpuDriftReason) (d : dpuDrift) (P : Prop) : Prop := (P ∧ d.*1 = [r]) ∨ (¬ P ∧ d = []).

Lemma part_if r (b : bool) s (P : Prop) : (b = true ↔ P) → part r (if b then [(r, s)] else []) P.
Proof. unfold part. destruct b; naive_solver. Qed.

Lemma part_name r (o p : option string) (f : string → string) :
  part r (match o with Some name => if bool_decide (name ≠ deref p "") then [(r, f name)] else [] | None => [] end)
    (∃ name, o = Some name ∧ p ≠ Some name ∧ (p = None → name ≠ "")).
Proof.
  destruct o as [name|]; [|right; naive_solver]. apply part_if. rewrite bool_decide_eq_true.
  destruct p; simpl; naive_solver.
Qed.

(** The drift names the fields that differ, once each, in their precedence. *)
Lemma computeDPUDrift_parts dpuSet dpu clusters eval :
  let D := diverged dpuSet dpu clusters eval in
  ∃ d1 d2 d3 d4 d5, computeDPUDrift dpuSet dpu clusters eval = d1 ++ d2 ++ d3 ++ d4 ++ d5 ∧
    part driftReasonBFB d1 (D driftReasonBFB) ∧ part driftReasonDPUFlavor d2 (D driftReasonDPUFlavor) ∧
    part driftReasonSecureBoot d3 (D driftReasonSecureBoot) ∧
    part driftReasonBlueFieldSoftware d4 (D driftReasonBlueFieldSoftware) ∧
    part driftReasonClusterSelector d5 (D driftReasonClusterSelector).
Proof.
  cbn zeta. unfold computeDPUDrift. do 5 eexists. split; [reflexivity|]. split; [apply (part_name driftReasonBFB)|].
  split; [|split; [|split]].
  - unfold isTemplateMode. destruct (t_DPUFlavorTemplate (ds_Template dpuSet)) eqn:E; simpl; rewrite E.
    + rewrite decide_False by done. by apply part_if.
    + rewrite decide_True by done. apply part_if. apply bool_decide_eq_true.
  - apply part_if. apply bool_decide_eq_true.
  - apply (part_name driftReasonBlueFieldSoftware).
  - simpl. destruct (t_Cluster (ds_Template dpuSet)) as [c|]; [|right; naive_solver].
    apply part_if. rewrite negb_true_iff. naive_solver.
Qed.

Lemma computeDPUDrift_reasons dpuSet dpu clusters eval r :
  r ∈ (computeDPUDrift dpuSet dpu clusters eval).*1 ↔ diverged dpuSet dpu clusters eval r.
Proof.
  destruct (computeDPUDrift_parts dpuSet dpu clusters eval) as (d1 & d2 & d3 & d4 & d5 & -> & H1 & H2 & H3 & H4 & H5).
  rewrite !fmap_app, !elem_of_app.
  assert (∀ r' d P, part r' d P → r ∈ d.*1 ↔ r = r' ∧ P) as Hp.
  { intros r' d P [[HP ->]|[HP ->]]; simpl; rewrite ?list_elem_of_singleton, ?elem_of_nil; naive_solver. }
  rewrite (Hp _ _ _ H1), (Hp _ _ _ H2), (Hp _ _ _ H3), (Hp _ _ _ H4), (Hp _ _ _ H5). destruct r; naive_solver.
Qed.

(** What [detectOutdated] looks at: the drift without the cluster selector. *)
Lemma without_selector dpuSet dpu clusters eval :
  let d := without [driftReasonClusterSelector] (computeDPUDrift dpuSet dpu clusters eval) in
  (∀ r, r ∈ d.*1 ↔ r ≠ driftReasonClusterSelector ∧ diverged dpuSet dpu clusters eval r) ∧
  (∀ r s d', d = (r, s) :: d' → ∀ r', rank r' < rank r → ¬ diverged dpuSet dpu clusters eval r').
Proof.
  cbn zeta. split.
  - intros r. rewrite <- computeDPUDrift_reasons, !list_elem_of_fmap. unfold without.
    setoid_rewrite list_elem_of_filter. setoid_rewrite list_elem_of_singleton. naive_solver.
  - intros r s d' E r' Hr Hd. revert E.
    destruct (computeDPUDrift_parts dpuSet dpu clusters eval) as (d1 & d2 & d3 & d4 & d5 & -> & H1 & H2 & H3 & H4 & H5).
    unfold without. rewrite !filter_app. intros E.
    assert (∀ q d P, part q d P → q ≠ driftReasonClusterSelector →
      filter (λ rd : dpuDriftReason * string, rd.1 ∉ [driftReasonClusterSelector]) d = d) as Hf.
    { intros q d P [[_ Hq]|[_ ->]] Hne; [|done]. destruct d as [|[q' t] [|]]; simplify_eq/=. rewrite filter_cons, decide_True; [done|].
      by rewrite list_elem_of_singleton. }
    rewrite (Hf _ _ _ H1), (Hf _ _ _ H2), (Hf _ _ _ H3), (Hf _ _ _ H4) in E by done.
    assert (filter (λ rd : dpuDriftReason * string, rd.1 ∉ [driftReasonClusterSelector]) d5 = []) as E5.
    { destruct H5 as [[_ Hq]|[_ ->]]; [|done]. destruct d5 as [|[q' t] [|]]; simplify_eq/=.
      rewrite filter_cons, decide_False; [done|]. intros Hn. apply Hn. by apply list_elem_of_singleton. }
    rewrite E5, app_nil_r in E.
    apply (f_equal (λ d : list (dpuDriftReason * string), d.*1)) in E. rewrite !fmap_app in E. simpl in E.
    assert (∀ q d P, part q d P → (P ∧ d.*1 = [q]) ∨ (¬ P ∧ d.*1 = [])) as Hc by (intros q d P [[? ->]|[? ->]]; naive_solver).
    revert E. destruct (Hc _ _ _ H1) as [[D1 ->]|[D1 ->]], (Hc _ _ _ H2) as [[D2 ->]|[D2 ->]], (Hc _ _ _ H3) as [[D3 ->]|[D3 ->]],
      (Hc _ _ _ H4) as [[D4 ->]|[D4 ->]]; intros E; simplify_eq/=; destruct r'; simpl in Hr; first [lia | done | by apply D1 | by apply D2 | by apply D3 | by apply D4].
Qed.
End Lemmas.

(** Every joined text occurs in the result. *)
Lemma strings_Join_contains sep xs x : x ∈ xs → ∃ a b, strings_Join sep xs = a +:+ x +:+ b.
Proof.
  induction xs as [|y xs IH]; [by intros ?%elem_of_nil|].
  intros [->|Hx]%elem_of_cons.
  - exists "". destruct xs as [|z xs]; [exists ""; by rewrite string_app_empty_r|]. by exists (sep +:+ strings_Join sep (z :: xs)).
  - destruct (IH Hx) as (a & b & E). exists (y +:+ sep +:+ a), b. destruct xs as [|z xs]; [by apply elem_of_nil in Hx|].
    change (strings_Join sep (y :: z :: xs)) with (y +:+ sep +:+ strings_Join sep (z :: xs)).
    by rewrite E, !string_app_assoc.
Qed.

Section Created.
Context {S : SelectorAPI} {K : Codec} {R : MapRange}.

(** A DPU made from the template does not differ from it. *)
Lemma newDPU_no_drift version dpuSet dev dpu clusters eval :
  newDPU version dpuSet dev = Ok dpu → isTemplateMode dpuSet = false ∨ disrupt eval = false →
  computeDPUDrift dpuSet dpu clusters eval = [].
Proof.
  unfold newDPU. intros H Ht.
  destruct (dd_Labels dev !! DPUNodeNameLabel) as [node|]; [|done].
  destruct (MergeDPUClusterNodeMetadata _ _) as [[ul ua]|]; [|done].
  destruct (GenerateDPUName _ _) as [name|]; [|done]. injection H as <-.
  unfold computeDPUDrift. simpl.
  rewrite (bool_decide_eq_false_2 (deref (t_DPUFlavor (ds_Template dpuSet)) "" ≠ _)) by tauto.
  rewrite (bool_decide_eq_false_2 (t_SecureBoot (ds_Template dpuSet) ≠ _)) by tauto.
  assert (∀ name, bool_decide (name ≠ deref (nonempty (Some name)) "") = false) as Hn.
  { intros n. unfold nonempty. case_bool_decide; case_bool_decide; simpl in *; naive_solver. }
  unfold nonempty in Hn |- *.
  destruct (t_BFB (ds_Template dpuSet)) as [b|], (t_BlueFieldSoftware (ds_Template dpuSet)) as [b'|],
    (t_Cluster (ds_Template dpuSet)); rewrite ?Hn; destruct Ht as [->| ->]; by try destruct (isTemplateMode dpuSet).
Qed.
End Created.

(** ** Properties *)

(** A DPU is reported outdated iff its BFB, flavor, secure boot or BlueField
    software differs from its DPUSet's template; a cluster selector that no
    longer matches does not count.  The reason is that of the first of these
    fields, in that order, that differs, and the message contains the text of
    every difference. *)
Theorem detectOutdated_spec {S : SelectorAPI} dpuSet dpu clusters eval :
  let D := diverged dpuSet dpu clusters eval in
  match detectOutdated dpuSet dpu clusters eval with
  | None => ∀ r, r ≠ driftReasonClusterSelector → ¬ D r
  | Some (reason, msg) =>
      ∃ r, outdatedReasonForDrift r = Some reason ∧ D r ∧ (∀ r', rank r' < rank r → ¬ D r') ∧
      ∀ r' s, (r', s) ∈ computeDPUDrift dpuSet dpu clusters eval → r' ≠ driftReasonClusterSelector →
        ∃ a b, msg = a +:+ s +:+ b
  end.
Proof.
  cbn zeta. unfold detectOutdated.
  destruct (without_selector dpuSet dpu clusters eval) as [Hin Hfirst].
  destruct (without _ _) as [|[r s] d] eqn:E.
  - intros r Hr Hd. by apply (elem_of_nil r), Hin.
  - assert (r ≠ driftReasonClusterSelector ∧ diverged dpuSet dpu clusters eval r) as [Hr Hd] by (apply Hin; left).
    destruct (outdatedReasonForDrift r) as [primary|] eqn:Ep; [|by destruct r].
    exists r. split; [done|]. split; [done|]. split; [by eapply Hfirst|].
    intros r' s' Hin' Hr'. assert (s' ∈ ((r, s) :: d).*2) as Hs.
    { rewrite <- E. apply list_elem_of_fmap. exists (r', s'). split; [done|]. unfold without.
      apply list_elem_of_filter. split; [by rewrite list_elem_of_singleton|done]. }
    destruct (strings_Join_contains ", " _ _ Hs) as (a & b & ->).
    exists ("DPU template has changed (" +:+ a), (b +:+ ")."). by rewrite !string_app_assoc.
Qed.
