(* ===== verification/DPUSetRollout.v ===== *)
(** How the DPUSet controller takes DPUs out of service and reports on them
    (dpuset_controller.go): the rolling update and its budget, the deletion of
    DPUs that left their cluster or whose device is no longer selected, the
    statistics and the Ready condition of the DPUSet.

    Events are not modelled.  A Go [int] is 64 bits wide and holds counts of DPUs,
    which is an unbounded Z here. *)

From S2P Require Import Prelude.
From S2P Require Import Meta.
From S2P Require Import Conditions.
From S2P Require Import DPUTypes.
From S2P Require Import DPUConditions.
From S2P Require Import Kubernetes.
From S2P Require Import FakeClient.
From S2P Require Import ClusterMetadata.
From S2P Require Import WriteLog.
From S2P Require Import DPUSetTypes.
From S2P Require Import DPUSetTemplate.

(** ** Availability of a DPU *)

(** [reconfigInProgress] of inplace_reconfig.go. *)
Definition reconfigInProgress (status : option DPUReconfigStatus) : bool :=
  match status with None => false | Some r => is_true_ptr (rc_InProgress r) end.

Definition isUnavailable (dpu : DPU) : bool :=
  match GetDPUCondition (dpu_Status dpu) DPUCondReady with
  | None => true
  | Some (_, cond) => status_is ConditionFalse cond || deleting dpu
  end.

(** [inProgressStillReady] of inplace_reconfig.go. *)
Definition inProgressStillReady (dpu : DPU) : bool :=
  reconfigInProgress (st_DPUReconfig (dpu_Status dpu)) && negb (isUnavailable dpu).

Definition alreadyUnavailable (dpu : DPU) : bool := isUnavailable dpu || inProgressStillReady dpu.

(** MaxUnavailableDPUNodes, at least 1 and at most the number of devices. *)
Definition budget (maxUnavailable totalDPUDevices : Z) : Z :=
  if (maxUnavailable <? 1)%Z then 1%Z
  else if (maxUnavailable >? totalDPUDevices)%Z then totalDPUDevices
  else maxUnavailable.

(** The devices that have no DPU. *)
Definition missing (totalDPUDevices numDPUs : Z) : Z :=
  let unavailable := (totalDPUDevices - numDPUs)%Z in
  if (unavailable <? 0)%Z then 0%Z else unavailable.

Section Rollout.
Context {W : Type} {C : SetClient W} {S : SelectorAPI} {R : MapRange} {API : MetaAPI}.

(** [GetDPUsMap] *)
Definition GetDPUsMap (dpuSet : DPUSet) : SM W (Res (gmap string DPU)) :=
  r ← listSetDPUs (ds_Name dpuSet) (ds_Namespace dpuSet);
  mret (match r with
        | Err err => Err err
        | Ok items => Ok (foldl (λ m dpu, <[sp_DPUDeviceName (dpu_Spec dpu) := dpu]> m) ∅ items)
        end).

(** The body of the loops that delete. *)
Definition stamp_and_delete (dpu : DPU) : SM W (option GoError) :=
  e ← stampDeviceTrace dpu;
  match e with Some err => mret (Some err) | None => deleteDPU dpu end.

(** [onDelete] *)
Definition onDelete (dpuSet : DPUSet) (dpuMap : gmap string DPU) (dpuClusters : list DPUCluster)
    : SM W (option GoError) :=
  match t_Cluster (ds_Template dpuSet) with
  | None => mret None
  | Some c =>
      for_each (λ kd : string * DPU,
        if negb (matchDPUClusterSelector (cl_Selector c) (sp_Cluster (dpu_Spec kd.2)) dpuClusters)
        then stamp_and_delete kd.2 else mret None) (range_map dpuMap)
  end.

(** [deleteStaleDPUs] *)
Definition deleteStaleDPUs (dpuDeviceMap : gmap string DPUDevice) (dpuMap : gmap string DPU)
    : SM W (option GoError) :=
  for_each (λ kd : string * DPU,
    match dpuDeviceMap !! kd.1 with
    | Some _ => mret None
    | None =>
        e ← deleteDPU kd.2;
        mret (wrapf ("failed to delete DPU: (" +:+ dpu_Namespace kd.2 +:+ "/" +:+ dpu_Name kd.2 +:+ ") for DPUNode "
                     +:+ sp_DPUNodeName (dpu_Spec kd.2) +:+ ": ") <$> e)
    end) (range_map dpuMap).

(** The second loop of [rolloutRolling]; [unavailable] is its variable. *)
Fixpoint rollout_loop (dpuSet : DPUSet) (dpuClusters : list DPUCluster) (templateEvals : gmap string templateEval)
    (maxUnavailable unavailable : Z) (dpus : list (string * DPU)) : SM W (option GoError) :=
  match dpus with
  | [] => mret None
  | (_, dpu) :: dpus =>
      let loop := rollout_loop dpuSet dpuClusters templateEvals maxUnavailable in
      if drift_empty (computeDPUDrift dpuSet dpu dpuClusters (eval_of templateEvals (dpu_Name dpu)))
      then loop unavailable dpus
      else if negb (alreadyUnavailable dpu) && (unavailable >=? maxUnavailable)%Z then loop unavailable dpus
      else
        e ← stamp_and_delete dpu;
        match e with
        | Some err => mret (Some err)
        | None => loop (if alreadyUnavailable dpu then unavailable else (unavailable + 1)%Z) dpus
        end
  end.

(** [rolloutRolling]; [maxUnavailable] is the option MaxUnavailableDPUNodes. *)
Definition rolloutRolling (maxUnavailable : Z) (dpuSet : DPUSet) (dpuMap : gmap string DPU) (totalDPUDevices : Z)
    (dpuClusters : list DPUCluster) (templateEvals : gmap string templateEval) : SM W (option GoError) :=
  let unavailable :=
    foldl (λ unavailable (kd : string * DPU), if alreadyUnavailable kd.2 then (unavailable + 1)%Z else unavailable)
      (missing totalDPUDevices (Z.of_nat (size dpuMap))) (range_map dpuMap) in
  rollout_loop dpuSet dpuClusters templateEvals (budget maxUnavailable totalDPUDevices) unavailable (range_map dpuMap).

(** [provisionableDPUCount] *)
Definition provisionableDPUCount (dpuSet : DPUSet) (dpuDeviceMap : gmap string DPUDevice)
    (dpusOwnedByOtherDPUSet : Z) : Z :=
  let excluded :=
    foldl (λ excluded (kd : string * DPUDevice),
             if IsAstraEnabledForNonBlueField4 dpuSet kd.2 then (excluded + 1)%Z else excluded)
      dpusOwnedByOtherDPUSet (range_map dpuDeviceMap) in
  let total := (Z.of_nat (size dpuDeviceMap) - excluded)%Z in
  if (total <? 0)%Z then 0%Z else total.

(** The key of a DPU in the statistics. *)
Definition statistics_key (dpu : DPU) : string :=
  let phase := phase_string (st_Phase (dpu_Status dpu)) in
  if bool_decide (phase = "") then phase_string DPUInitializing else phase.

(** [collectDPUStatistics] *)
Definition collectDPUStatistics (dpuMap : gmap string DPU) : gmap string Z :=
  foldl (λ (m : gmap string Z) (kd : string * DPU),
           if deleting kd.2 then m else partial_alter (λ n, Some (default 0%Z n + 1)%Z) (statistics_key kd.2) m)
    ∅ (range_map dpuMap).

(** The conditions under which a DPU does not block the DPUSet. *)
Definition dpu_settled (dpuSet : DPUSet) (dpu : DPU) : bool :=
  (st_ObservedGeneration (dpu_Status dpu) =? dpu_Generation dpu)%Z &&
  bool_decide (st_Phase (dpu_Status dpu) = DPUReady) &&
  match dpu_Labels dpu !! DPUSetDPUTemplateSpecHashLabelKey with
  | None => true
  | Some hash => bool_decide (hash = deref (ds_Labels dpuSet !! DPUSetDPUTemplateSpecHashLabelKey) "")
  end.

(** [UpdateDPUSetStatus] *)
Definition UpdateDPUSetStatus (now : Time) (dpuSet : DPUSet) (dpusChanged : bool)
    (totalSelectedDPUs dpusOwnedByOtherDPUSet : Z) : SM W (option GoError * DPUSet) :=
  r ← GetDPUsMap dpuSet;
  mret (match r with
        | Err err => (Some (wrapf "failed to get DPU map from cache: " err), dpuSet)
        | Ok dpuMap =>
            let dpuSet := with_ds_DPUStatistics (collectDPUStatistics dpuMap) dpuSet in
            if dpusChanged then (None, AddFalse now dpuSet TypeReady ReasonPending "DPUs are being reconciled")
            else
              let dpuSetReady :=
                foldl (λ ready (kd : string * DPU),
                         if deleting kd.2 then ready else if dpu_settled dpuSet kd.2 then ready else false)
                  true (range_map dpuMap) in
              if dpuSetReady && (dpusOwnedByOtherDPUSet =? 0)%Z then (None, AddTrue now dpuSet TypeReady)
              else if (dpusOwnedByOtherDPUSet >? 0)%Z then
                (None, AddFalse now dpuSet TypeReady ReasonPending
                   (pretty dpusOwnedByOtherDPUSet +:+ "/" +:+ pretty totalSelectedDPUs +:+
                    " DPU(s) cannot be provisioned, owned by another DPUSet. To identify the conflicting DPUs, filter the DPUs by the label: "
                    +:+ GenerateDPUSetCollisionLabelKey (ds_Name dpuSet)))
              else (None, AddFalse now dpuSet TypeReady ReasonPending "Some DPUs are not ready")
        end).
End Rollout.

(** ** Lemmas *)

Lemma budget_bounds m total : (1 <= total)%Z → (1 <= budget m total <= Z.max 1 (Z.min m total))%Z.
Proof.
  unfold budget. intros. destruct (Z.ltb_spec m 1); [lia|]. rewrite Z.gtb_ltb.
  destruct (Z.ltb_spec total m); lia.
Qed.

Lemma missing_max total n : missing total n = Z.max 0 (total - n).
Proof. unfold missing. destruct (Z.ltb_spec (total - n) 0); lia. Qed.

Lemma foldl_count {A} (p : A → bool) (xs : list A) n :
  foldl (λ n x, if p x then (n + 1)%Z else n) n xs = (n + Z.of_nat (count p xs))%Z.
Proof.
  revert n. induction xs as [|x xs IH]; intros n; simpl; [rewrite count_nil; lia|].
  rewrite IH, count_cons. destruct (p x); lia.
Qed.

Lemma count_fmap {A B} (f : A → B) (p : B → bool) xs : count p (f <$> xs) = count (p ∘ f) xs.
Proof. induction xs as [|x xs IH]; [done|]. by rewrite fmap_cons, !count_cons, IH. Qed.

Lemma foldl_count_snd {A B} (p : B → bool) (xs : list (A * B)) n :
  foldl (λ n (kd : A * B), if p kd.2 then (n + 1)%Z else n) n xs = (n + Z.of_nat (count p xs.*2))%Z.
Proof. rewrite count_fmap. apply (foldl_count (p ∘ snd)). Qed.

Lemma range_map_snd {V} {R : MapRange} {RL : MapRangeLaws R} (m : gmap string V) :
  (range_map m).*2 ≡ₚ (map_to_list m).*2.
Proof. by rewrite (range_map_perm m). Qed.

(** The devices without a DPU and the DPUs out of service. *)
Definition out_of_service (totalDPUDevices : Z) (dpus : list DPU) : Z :=
  (missing totalDPUDevices (Z.of_nat (length dpus)) + Z.of_nat (count alreadyUnavailable dpus))%Z.

Definition available (dpu : DPU) : bool := negb (alreadyUnavailable dpu).

Section TracedRollout.
Context {W : Type} {C : SetClient W} {S : SelectorAPI}.
Context (dpuSet : DPUSet) (clusters : list DPUCluster) (evals : gmap string templateEval).

(** What the rolling update calls disruptive drift. *)
Definition drifted (d : DPU) : bool := needDisruptDPU dpuSet d clusters (eval_of evals (dpu_Name d)).

Lemma stamp_and_delete_log d w l :
  ∃ e w' k, stamp_and_delete (C:=traced C) d (w, l) = (e, (w', l ++ k)) ∧
    deleted k = match e with Some _ => [] | None => [d] end ∧ Forall (λ x, ∃ r, x = WDelete d r) k.
Proof.
  unfold stamp_and_delete, mbind, SM_bind. simpl. unfold unlogged. simpl.
  destruct (stampDeviceTrace d w) as [[e|] w1]; simpl.
  - exists (Some e), w1, []. by rewrite app_nil_r.
  - unfold logged. simpl. destruct (deleteDPU d w1) as [r w2]. exists r, w2, [WDelete d r].
    split; [done|]. split; [by destruct r|]. apply Forall_singleton. by exists r.
Qed.

Lemma rollout_loop_log dpus : ∀ cap U w l,
  let r := rollout_loop (C:=traced C) dpuSet clusters evals cap U dpus (w, l) in
  ∃ k, r.2.2 = l ++ k ∧ sublist (deleted k) (filter (λ d, drifted d = true) dpus.*2) ∧
    (Z.of_nat (count available (deleted k)) <= Z.max 0 (cap - U))%Z ∧
    Forall (λ x, ∃ d e, x = WDelete d e) k ∧
    (r.1 = None → (∀ d, d ∈ dpus.*2 → drifted d = true → alreadyUnavailable d = true → d ∈ deleted k) ∧
       Z.of_nat (count available (deleted k)) =
         Z.min (Z.max 0 (cap - U)) (Z.of_nat (count (λ d, drifted d && available d) dpus.*2))).
Proof.
  induction dpus as [|[k0 d] dpus IH]; intros cap U w l.
  { exists []. rewrite app_nil_r. split; [done|]. split; [done|]. change (count available (deleted [])) with 0. split; [lia|].
    split; [done|]. intros _. split; [by intros ? ?%elem_of_nil|]. change (count (λ d, drifted d && available d) [].*2) with 0. lia. }
  cbn [rollout_loop fmap list_fmap snd]. rewrite filter_cons.
  assert (drifted d = negb (drift_empty (computeDPUDrift dpuSet d clusters (eval_of evals (dpu_Name d))))) as Hd by done.
  destruct (drift_empty _); simpl in Hd; [|destruct (negb (alreadyUnavailable d) && _) eqn:Hskip].
  - destruct (IH cap U w l) as (k & -> & Hs & Hc & Hf & Hok). exists k. split; [done|].
    rewrite decide_False by congruence. split; [done|]. split; [done|]. split; [done|]. intros Hr.
    destruct (Hok Hr) as [H1 H2]. split.
    + intros d' [->|Hin]%elem_of_cons; [congruence|]. by apply H1.
    + rewrite count_cons, Hd. exact H2.
  - apply andb_true_iff in Hskip as [Ha%negb_true_iff HU]. rewrite Z.geb_leb in HU. apply Z.leb_le in HU.
    destruct (IH cap U w l) as (k & -> & Hs & Hc & Hf & Hok). exists k. split; [done|].
    rewrite decide_True by done. split; [by constructor|]. split; [done|]. split; [done|]. intros Hr.
    destruct (Hok Hr) as [H1 H2]. split.
    + intros d' [->|Hin]%elem_of_cons; [congruence|]. by apply H1.
    + rewrite count_cons. lia.
  - rewrite decide_True by done. unfold mbind, SM_bind.
    destruct (stamp_and_delete_log d w l) as ([e|] & w' & k1 & -> & Hk1 & Hf1); simpl.
    { exists k1. split; [done|]. rewrite Hk1. split; [apply sublist_nil_l|]. change (count available []) with 0.
      split; [lia|]. split; [|done]. eapply Forall_impl; [done|]. intros x [r ->]. by exists d, r. }
    destruct (IH cap (if alreadyUnavailable d then U else (U + 1)%Z) w' (l ++ k1)) as (k & -> & Hs & Hc & Hf & Hok).
    exists (k1 ++ k). rewrite app_assoc. split; [done|]. rewrite deleted_app, Hk1. simpl.
    split; [by constructor|]. rewrite !count_cons, Hd. unfold available in *.
    destruct (alreadyUnavailable d) eqn:Ha; simpl in *.
    + split; [done|]. split; [apply Forall_app; split; [|done]; eapply Forall_impl; [done|]; intros x [r ->]; by exists d, r|].
      intros Hr. destruct (Hok Hr) as [H1 H2]. split; [|done].
      intros d' [->|Hin]%elem_of_cons; [by left|]. right. by apply H1.
    + rewrite Z.geb_leb in Hskip. apply Z.leb_gt in Hskip. split; [lia|].
      split; [apply Forall_app; split; [|done]; eapply Forall_impl; [done|]; intros x [r ->]; by exists d, r|].
      intros Hr. destruct (Hok Hr) as [H1 H2]. split; [|lia].
      intros d' [->|Hin]%elem_of_cons; [congruence|]. intros. right. by apply H1.
Qed.
End TracedRollout.

(** *** The loops that delete *)

Section TracedDeletes.
Context {W : Type} {C : SetClient W}.

(** A loop that deletes the DPUs of [p], each with [del]. *)
Lemma for_each_deletes (p : string * DPU → bool) (del : DPU → SM (W * list Write) (option GoError)) kds :
  (∀ d w l, ∃ e w' k, del d (w, l) = (e, (w', l ++ k)) ∧ deleted k = match e with Some _ => [] | None => [d] end) →
  ∀ w l, let r := for_each (λ kd, if p kd then del kd.2 else mret None) kds (w, l) in
  ∃ k, r.2.2 = l ++ k ∧ sublist (deleted k) (filter (λ kd, p kd = true) kds).*2 ∧
    (r.1 = None → deleted k = (filter (λ kd, p kd = true) kds).*2).
Proof.
  intros Hdel. induction kds as [|kd kds IH]; intros w l; [exists []; by rewrite app_nil_r|].
  cbn [for_each]. unfold mbind, SM_bind. rewrite filter_cons. destruct (p kd) eqn:P.
  - rewrite decide_True by done. destruct (Hdel kd.2 w l) as ([e|] & w' & k1 & -> & Hk); simpl.
    + exists k1. rewrite Hk. split; [done|]. split; [apply sublist_nil_l|done].
    + destruct (IH w' (l ++ k1)) as (k & -> & Hs & Hok). exists (k1 ++ k). rewrite app_assoc, deleted_app, Hk. simpl.
      split; [done|]. split; [by constructor|]. intros Hr. by rewrite (Hok Hr).
  - rewrite decide_False by congruence. simpl. exact (IH w l).
Qed.

Lemma delete_log d w l :
  ∃ e w' k, deleteDPU (SetClient:=traced C) d (w, l) = (e, (w', l ++ k)) ∧
    deleted k = match e with Some _ => [] | None => [d] end.
Proof.
  simpl. unfold logged. simpl. destruct (deleteDPU d w) as [r w']. exists r, w', [WDelete d r]. by destruct r.
Qed.
End TracedDeletes.

(** *** Statistics and readiness *)

Lemma statistics_fold dpus (m : gmap string Z) key :
  default 0%Z (foldl (λ (m : gmap string Z) (kd : string * DPU),
    if deleting kd.2 then m else partial_alter (λ n, Some (default 0%Z n + 1)%Z) (statistics_key kd.2) m) m dpus !! key) =
  (default 0 (m !! key) + Z.of_nat (count (λ d, negb (deleting d) && bool_decide (statistics_key d = key)) dpus.*2))%Z.
Proof.
  revert m. induction dpus as [|[k d] dpus IH]; intros m; [change (count _ [].*2) with 0; simpl; lia|].
  rewrite fmap_cons, count_cons. cbn [foldl snd]. rewrite IH. destruct (deleting d); simpl; [lia|]. case_bool_decide as E.
  - subst key. rewrite lookup_partial_alter_eq. simpl. lia.
  - rewrite lookup_partial_alter_ne by done. lia.
Qed.

Lemma ready_fold dpuSet (dpus : list (string * DPU)) b :
  foldl (λ ready (kd : string * DPU), if deleting kd.2 then ready else if dpu_settled dpuSet kd.2 then ready else false) b dpus = true ↔
  b = true ∧ ∀ k d, (k, d) ∈ dpus → deleting d = false → dpu_settled dpuSet d = true.
Proof.
  revert b. induction dpus as [|[k d] dpus IH]; intros b; simpl.
  { split; [|tauto]. intros ->. split; [done|]. by intros ? ? ?%elem_of_nil. }
  rewrite IH. setoid_rewrite elem_of_cons.
  destruct (deleting d) eqn:Ed; [|destruct (dpu_settled dpuSet d) eqn:Es].
  1,2: split; (intros [Hb Hall]; split; [done|]); intros k' d' Hin; [destruct Hin as [[= -> ->]|Hin]|]; try congruence;
    intros; apply (Hall k'); auto.
  split; [by intros [? _]|]. intros [_ Hall]. specialize (Hall k d (or_introl eq_refl) Ed). congruence.
Qed.

Lemma dpu_settled_spec dpuSet d :
  dpu_settled dpuSet d = true ↔
  st_ObservedGeneration (dpu_Status d) = dpu_Generation d ∧ st_Phase (dpu_Status d) = DPUReady ∧
  ∀ hash, dpu_Labels d !! DPUSetDPUTemplateSpecHashLabelKey = Some hash →
    hash = default "" (ds_Labels dpuSet !! DPUSetDPUTemplateSpecHashLabelKey).
Proof.
  unfold dpu_settled, deref. rewrite !andb_true_iff, Z.eqb_eq, bool_decide_eq_true.
  destruct (dpu_Labels d !! _) as [h|]; rewrite ?bool_decide_eq_true; naive_solver.
Qed.

(** ** Properties *)

(** C1. A pass of the rolling update respects the budget, for any order in which
    the map is visited and whatever the API server answers: it deletes only
    DPUs that differ from the template, each at most once, and writes nothing
    else; counting the devices without a DPU, the unavailable DPUs and those
    marked for an in-place round, the deletions do not bring the number out of
    service above MaxUnavailableDPUNodes (at least 1, at most the number of
    devices) unless it was above already, and then no available DPU is deleted.
    A pass that ends without an error has deleted every differing DPU that was
    out of service already, and as many available ones as the budget allows. *)
Theorem rolloutRolling_budget {W} {C : SetClient W} {S : SelectorAPI} {R : MapRange} {RL : MapRangeLaws R}
    max dpuSet dpuMap total clusters evals (w : W) :
  let r := rolloutRolling (C:=traced C) max dpuSet dpuMap total clusters evals (w, []) in
  let D := deleted r.2.2 in
  let dpus := (map_to_list dpuMap).*2 in
  let drifted := drifted dpuSet clusters evals in
  let out := out_of_service total dpus in
  D ⊆+ filter (λ d, drifted d = true) dpus ∧
  Forall (λ x, ∃ d e, x = WDelete d e) r.2.2 ∧
  (out + Z.of_nat (count available D) <= Z.max (budget max total) out)%Z ∧
  (r.1 = None →
     (∀ d, d ∈ dpus → drifted d = true → alreadyUnavailable d = true → d ∈ D) ∧
     Z.of_nat (count available D) =
       Z.min (Z.max 0 (budget max total - out)) (Z.of_nat (count (λ d, drifted d && available d) dpus))).
Proof.
  cbn zeta. unfold rolloutRolling, out_of_service. rewrite foldl_count_snd.
  rewrite length_fmap, length_map_to_list.
  pose proof (range_map_snd dpuMap) as P. rewrite (count_perm alreadyUnavailable _ _ P).
  rewrite <- (count_perm (λ d, drifted dpuSet clusters evals d && available d) _ _ P).
  destruct (rollout_loop_log dpuSet clusters evals (range_map dpuMap) (budget max total)
    (missing total (Z.of_nat (size dpuMap)) + Z.of_nat (count alreadyUnavailable (map_to_list dpuMap).*2))%Z w [])
    as (k & -> & Hs & Hc & Hf & Hok). simpl.
  split; [rewrite <- P; by apply sublist_submseteq|]. split; [done|]. split; [lia|].
  intros Hr. destruct (Hok Hr) as [H1 H2]. split; [|done]. intros d Hd. rewrite <- P in Hd. by apply H1.
Qed.

Definition example_drifting (name : string) (ready : ConditionStatus) : DPU :=
  mkDPU name "ns" name 1 ∅ ∅ [] 0 None
    (mkDPUSpec "node" name (Some "old") None None (mkNodeEffect (mkAction None None ∅ None None None None) (mkUpgradePolicy None []))
       (mkK8sCluster "" "" ∅ ∅ None) "flavor" None)
    (with_Phase DPUReady (with_Conditions [mkCondition DPUCondReady ready 0 1 "" ""] no_status)).
Definition example_template : DPUTemplateSpec :=
  mkDPUTemplateSpec (Some "new") None (mkNodeEffect (mkAction None None ∅ None None None None) (mkUpgradePolicy None []))
    None (Some "flavor") None None None.
Definition example_set : DPUSet := 
  mkDPUSet "set" "ns" 1 ∅ ∅ [] None None None ∅ "RollingUpdate" example_template ∅ ∅ [] None 0.
Definition example_owned : gmap string DPU :=
  {[ "a" := example_drifting "a" ConditionTrue; "b" := example_drifting "b" ConditionTrue; "c" := example_drifting "c" ConditionFalse ]}.

(** Three outdated DPUs, one of them out of service, and a budget of two. *)
Lemma rolloutRolling_budget_witness :
  let w := with_dpus (list_to_map ((λ d, (dpu_key d, d)) <$> (map_to_list example_owned).*2)) empty_world in
  let r := rolloutRolling (C:=traced fake_set_client) (S:=fake_selectors) (R:=map_to_list_range) 2 example_set example_owned 3 [] ∅ (w, []) in
  r.1 = None ∧ Z.of_nat (count available (deleted r.2.2)) = 1%Z.
Proof.
  split; [vm_compute; reflexivity|].
  match goal with |- context [deleted (?t.2.2)] => assert (t.1 = None) as Hr by (vm_compute; reflexivity) end.
  etransitivity; [apply (proj2 (proj2 (proj2 (proj2
    (rolloutRolling_budget (C:=fake_set_client) (S:=fake_selectors) (R:=map_to_list_range) 2 example_set example_owned 3 [] ∅ _))) Hr))|].
  vm_compute. reflexivity.
Defined.

(** Under the OnDelete strategy a DPU is deleted only because it has a cluster
    that the selector of the template no longer picks: nothing is deleted when
    the template has no cluster, no other difference from the template counts,
    and a pass without an error has deleted every such DPU. *)
Theorem onDelete_exact {W} {C : SetClient W} {S : SelectorAPI} {R : MapRange} {RL : MapRangeLaws R}
    dpuSet dpuMap clusters (w : W) :
  let r := onDelete (C:=traced C) dpuSet dpuMap clusters (w, []) in
  let left_cluster d := ∃ c, t_Cluster (ds_Template dpuSet) = Some c ∧
    matchDPUClusterSelector (cl_Selector c) (sp_Cluster (dpu_Spec d)) clusters = false in
  deleted r.2.2 ⊆+ (map_to_list dpuMap).*2 ∧
  (∀ d, d ∈ deleted r.2.2 → left_cluster d) ∧
  (r.1 = None → ∀ k d, dpuMap !! k = Some d → left_cluster d → d ∈ deleted r.2.2).
Proof.
  cbn zeta. unfold onDelete. destruct (t_Cluster (ds_Template dpuSet)) as [c|].
  - set (p := λ kd : string * DPU, negb (matchDPUClusterSelector (cl_Selector c) (sp_Cluster (dpu_Spec kd.2)) clusters)).
    change (for_each _ (range_map dpuMap)) with
      (for_each (λ kd : string * DPU, if p kd then stamp_and_delete (C:=traced C) kd.2 else mret None) (range_map dpuMap)).
    destruct (for_each_deletes p (stamp_and_delete (C:=traced C)) (range_map dpuMap)) with (w:=w) (l:=@nil Write)
      as (k & -> & Hs & Hok).
    { intros d w0 l. destruct (stamp_and_delete_log d w0 l) as (e & w' & k & -> & Hk & _). by exists e, w', k. }
    simpl in *. split; [|split].
    + rewrite <- (range_map_snd dpuMap). etransitivity; [by apply sublist_submseteq|].
      apply fmap_submseteq, sublist_submseteq, sublist_filter.
    + intros d Hd. eapply elem_of_submseteq in Hd; [|by apply sublist_submseteq].
      apply list_elem_of_fmap in Hd as ([k' d'] & -> & [Hp _]%list_elem_of_filter). exists c. split; [done|].
      unfold p in Hp. by apply negb_true_iff in Hp.
    + intros Hr k' d Hd (c' & [= <-] & Hm). rewrite (Hok Hr). apply list_elem_of_fmap. exists (k', d). split; [done|].
      apply list_elem_of_filter. split; [unfold p; simpl; by rewrite Hm|]. by apply elem_of_range_map.
  - simpl. split; [apply submseteq_nil_l|]. split; [by intros ? ?%elem_of_nil|]. intros _ k d _ (c & ? & _). done.
Qed.

Lemma onDelete_exact_witness :
  let w := with_dpus (list_to_map ((λ d, (dpu_key d, d)) <$> (map_to_list example_owned).*2)) empty_world in
  let r := onDelete (C:=traced fake_set_client) (S:=fake_selectors) (R:=map_to_list_range) example_set example_owned [] (w, []) in
  deleted r.2.2 ⊆+ (map_to_list example_owned).*2.
Proof.
  apply (onDelete_exact (C:=fake_set_client) (S:=fake_selectors) (R:=map_to_list_range) example_set example_owned []).
Defined.

(** The status the DPUSet reports after a pass: Ready is True iff the pass
    created and updated no DPU, no device's DPU belongs to another DPUSet, and
    every DPU that is not being deleted is in phase Ready, has been reconciled at
    its current generation and, when it carries the hash of a template, carries
    that of the current one.  The statistics count the DPUs that are not being
    deleted by phase, one without a phase as Initializing.  Without the list of
    DPUs the status stays as it is. *)
Theorem UpdateDPUSetStatus_spec {W} {C : SetClient W} {R : MapRange} {RL : MapRangeLaws R} {API : MetaAPI}
    {L : MetaAPILaws API} now dpuSet changed total others (w : W) :
  let '(e, s) := (UpdateDPUSetStatus now dpuSet changed total others w).1 in
  match (GetDPUsMap dpuSet w).1 with
  | Err err => e ≠ None ∧ s = dpuSet
  | Ok dpuMap =>
      e = None ∧
      (IsTrue s TypeReady = true ↔
         changed = false ∧ others = 0%Z ∧
         ∀ k d, dpuMap !! k = Some d → deleting d = false →
           st_ObservedGeneration (dpu_Status d) = dpu_Generation d ∧ st_Phase (dpu_Status d) = DPUReady ∧
           ∀ hash, dpu_Labels d !! DPUSetDPUTemplateSpecHashLabelKey = Some hash →
             hash = default "" (ds_Labels dpuSet !! DPUSetDPUTemplateSpecHashLabelKey)) ∧
      ∀ key, default 0%Z (ds_DPUStatistics s !! key) =
        Z.of_nat (count (λ d, negb (deleting d) && bool_decide (statistics_key d = key)) (map_to_list dpuMap).*2)
  end.
Proof.
  unfold UpdateDPUSetStatus, mbind, SM_bind, mret, SM_ret. destruct (GetDPUsMap dpuSet w) as [[dpuMap|err] w']; cbn [fst]; [|done].
  assert (∀ key, default 0%Z (collectDPUStatistics dpuMap !! key) =
    Z.of_nat (count (λ d, negb (deleting d) && bool_decide (statistics_key d = key)) (map_to_list dpuMap).*2)) as Hstat.
  { intros key. unfold collectDPUStatistics. rewrite statistics_fold, lookup_empty. simpl.
    by rewrite (count_perm _ _ _ (range_map_snd dpuMap)). }
  destruct changed; cbn match beta delta [andb]; [split; [done|]; split; [|done]; unfold AddFalse; rewrite IsTrue_add; naive_solver|].
  set (s1 := with_ds_DPUStatistics _ dpuSet). destruct (foldl _ true _) eqn:E.
  - apply ready_fold in E as [_ E]. destruct (Z.eqb_spec others 0) as [->|Ho]; cbn match beta delta [andb].
    + split; [done|]. split; [|done]. unfold AddTrue. rewrite IsTrue_add. split; [|done]. intros _. split; [done|].
      split; [done|]. intros k d Hd Hdel. by apply (dpu_settled_spec s1 d), (E k), Hdel; apply elem_of_range_map.
    + destruct (others >? 0)%Z; cbn match beta; (split; [done|]); (split; [|done]); unfold AddFalse; rewrite IsTrue_add; naive_solver.
  - destruct (Z.gtb_spec others 0); cbn match beta delta [andb]; (split; [done|]); (split; [|done]); unfold AddFalse; rewrite IsTrue_add;
      (split; [done|]); [lia|]. intros (_ & -> & Hall). exfalso. apply not_true_iff_false in E. apply E, ready_fold.
    split; [done|]. intros k d Hin Hdel. apply (dpu_settled_spec s1 d), (Hall k); [by apply elem_of_range_map|done].
Qed.

Lemma UpdateDPUSetStatus_spec_witness :
  let w := with_dpus ∅ empty_world in
  ∃ s, (UpdateDPUSetStatus (C:=fake_set_client) (R:=map_to_list_range) (API:=meta_list) 9 example_set false 0 0 w).1 = (None, s) ∧
    IsTrue (G:=DPUSet_GetSet) s TypeReady = true.
Proof.
  pose proof (UpdateDPUSetStatus_spec (C:=fake_set_client) (R:=map_to_list_range) (API:=meta_list) 9 example_set false 0 0 (with_dpus ∅ empty_world)) as H.
  destruct (UpdateDPUSetStatus _ _ _ _ _ _).1 as [e s] eqn:E. simpl in H. destruct H as (-> & Hr & _).
  exists s. split; [exact E|]. apply Hr. split; [done|]. split; [done|]. intros k d Hd. vm_compute in Hd. discriminate Hd.
Defined.
