(* ===== verification/DPUSetFlavor.v ===== *)
(** Template mode of a DPUSet (dpuset_flavortemplate.go): the DPUFlavor that is
    generated for a DPU, the evaluation of an existing DPU against its
    DPUFlavorTemplate, and what is written without replacing the DPU; and
    [createDPU] of dpuset_controller.go, which creates a DPU in either mode.

    Rendering and hashing a template (internal/provisioning/dpuflavortemplate, over
    text/template, YAML and JSON) are operations of [FlavorRenderer]; the dry runs
    against the API server are calls of the client. *)

From S2P Require Import Prelude.
From S2P Require Import Meta.
From S2P Require Import Conditions.
From S2P Require Import DPUTypes.
From S2P Require Import DPUConditions.
From S2P Require Import Kubernetes.
From S2P Require Import FakeClient.
From S2P Require Import Maintenance.
From S2P Require Import ClusterMetadata.
From S2P Require Import WriteLog.
From S2P Require Import DPUSetTypes.
From S2P Require Import DPUSetTemplate.
From S2P Require Import DPUSetRollout.

Class FlavorRenderer := {
  Hash : string → Res string;
  ValuesHash : option string → Res string;
  Render : string → option string → Res DPUFlavor }.

Definition isTemplateModeDPU (dpu : DPU) : bool :=
  bool_decide (deref (dpu_Labels dpu !! DPUFlavorTemplateNameLabel) "" ≠ "").

Definition setRenderFailedAnnotations (dpu : DPU) (reason message : string) : DPU :=
  with_Annotations (<[RenderFailedMessageAnnotation := message]>
    (<[RenderFailedReasonAnnotation := reason]> (dpu_Annotations dpu))) dpu.

Definition clearRenderFailedAnnotations (dpu : DPU) : DPU :=
  with_Annotations (delete RenderFailedMessageAnnotation
    (delete RenderFailedReasonAnnotation (dpu_Annotations dpu))) dpu.

Definition with_sp_DPUFlavor (v : string) (s : DPUSpec) : DPUSpec :=
  mkDPUSpec (sp_DPUNodeName s) (sp_DPUDeviceName s) (sp_BFB s) (sp_BlueFieldSoftware s)
    (sp_PCIAddress s) (sp_NodeEffect s) (sp_Cluster s) v (sp_SecureBoot s).

(** Admission turned the object down for good. *)
Definition rejected (e : GoError) : bool := IsInvalid e || IsBadRequest e.

Definition template_name (dpuSet : DPUSet) : string := deref (t_DPUFlavorTemplate (ds_Template dpuSet)) "".

Section Flavor.
Context {F : FlavorRenderer}.

Definition inputHashes (spec : string) (values : option string) : Res (string * string) :=
  match Hash spec with
  | Err err => Err (wrapf "failed to hash DPUFlavorTemplate: " err)
  | Ok templateHash =>
      match ValuesHash values with
      | Err err => Err (wrapf "failed to hash DPUDevice values: " err)
      | Ok valuesHash => Ok (templateHash, valuesHash)
      end
  end.

Definition renderGeneratedFlavor (template : DPUFlavorTemplate) (dpuDevice : DPUDevice) (dpuSet : DPUSet)
    (generatedName : string) : Res DPUFlavor :=
  match Render (ft_Spec template) (dd_Values dpuDevice) with
  | Err err => Err err
  | Ok f =>
      let labels :=
        <[DPUSetNamespaceLabel := ds_Namespace dpuSet]> (<[DPUSetNameLabel := ds_Name dpuSet]>
          (<[DPUFlavorTemplateNameLabel := ft_Name template]>
            (<[GeneratedByLabel := GeneratedByDPUFlavorTemplate]> (fl_Labels f)))) in
      Ok (mkDPUFlavor generatedName (ds_Namespace dpuSet) labels (fl_Finalizers f) (fl_ControllerUID f)
            (fl_NVConfig f) (fl_ServiceReadiness f) (fl_OtherSpec f))
  end.

Context {W : Type} {C : SetClient W}.

(** The DPU with the inputs of its render recorded. *)
Definition with_inputs (templateName templateHash valuesHash : string) (dpu : DPU) : DPU :=
  with_Labels (<[DPUDeviceValuesHashLabel := valuesHash]> (<[DPUFlavorTemplateHashLabel := templateHash]>
                 (<[DPUFlavorTemplateNameLabel := templateName]> (dpu_Labels dpu))))
    (with_Spec (with_sp_DPUFlavor (dpu_Name dpu) (dpu_Spec dpu)) dpu).

Definition createTemplateModeDPU (dpuSet : DPUSet) (dpuDevice : DPUDevice) (dpu : DPU) : SM W (option GoError) :=
  let generatedName := dpu_Name dpu in
  let templateName := template_name dpuSet in
  r ← getDPUFlavorTemplate (mkNN (ds_Namespace dpuSet) templateName);
  match r with
  | Err err => mret (Some (wrapf ("failed to get DPUFlavorTemplate " +:+ templateName +:+ ": ") err))
  | Ok template =>
      match inputHashes (ft_Spec template) (dd_Values dpuDevice) with
      | Err err => mret (Some (wrapf ("failed to hash render inputs for " +:+ generatedName +:+ ": ") err))
      | Ok (templateHash, valuesHash) =>
          let dpu := with_inputs templateName templateHash valuesHash dpu in
          match renderGeneratedFlavor template dpuDevice dpuSet generatedName with
          | Err err => createDPU_api (setRenderFailedAnnotations dpu RenderFailedOnCreate (err_msg err))
          | Ok flavor =>
              createErr ← createDPUFlavor flavor;
              match createErr with
              | None => createDPU_api dpu
              | Some e =>
                  if IsAlreadyExists e then createDPU_api dpu
                  else if rejected e then createDPU_api (setRenderFailedAnnotations dpu RenderFailedOnCreate (err_msg e))
                  else mret (Some (wrapf ("failed to create generated DPUFlavor " +:+ generatedName +:+ ": ") e))
              end
          end
      end
  end.

(** [createDPU] *)
Definition createDPU {K : Codec} {R : MapRange} (DPFVersion : string) (dpuSet : DPUSet) (dpuDevice : DPUDevice)
    : SM W (option GoError) :=
  match newDPU DPFVersion dpuSet dpuDevice with
  | Err err => mret (Some err)
  | Ok dpu => if isTemplateMode dpuSet then createTemplateModeDPU dpuSet dpuDevice dpu else createDPU_api dpu
  end.

(** ** Evaluation of existing DPUs *)

Definition failed_eval (err : GoError) (liveHash liveValuesHash : string) : templateEval :=
  mkTemplateEval false (Some err) false None false liveHash liveValuesHash.
Definition disruptive : templateEval := mkTemplateEval true None false None false "" "".

(** What the dry run creates: the rendered flavor under a generated name. *)
Definition drift_probe (rendered : DPUFlavor) (dpu : DPU) : DPUFlavor :=
  mkDPUFlavor "" (dpu_Namespace dpu) (fl_Labels rendered) (fl_Finalizers rendered) (fl_ControllerUID rendered)
    (fl_NVConfig rendered) (fl_ServiceReadiness rendered) (fl_OtherSpec rendered).

Definition classifyRenderedDrift (rendered generated : DPUFlavor) (dpu : DPU) (liveHash liveValuesHash : string)
    : SM W templateEval :=
  r ← dryRunCreateDPUFlavor (drift_probe rendered dpu);
  match r with
  | Err err => mret (if rejected err then failed_eval err liveHash liveValuesHash else no_eval)
  | Ok probe =>
      if bool_decide (fl_Spec probe = fl_Spec generated)
      then mret (mkTemplateEval false None true None false liveHash liveValuesHash)
      else if bool_decide (deref (fl_Labels generated !! GeneratedByLabel) "" ≠ GeneratedByDPUFlavorTemplate)
      then mret (failed_eval (errorf ("refusing to update DPUFlavor " +:+ fl_Namespace generated +:+ "/" +:+ fl_Name generated
                   +:+ ": " +:+ GeneratedByLabel +:+ " label is not " +:+ GeneratedByDPUFlavorTemplate))
                   liveHash liveValuesHash)
      else
        u ← dryRunUpdateDPUFlavor (with_fl_Spec (fl_Spec probe) generated);
        match u with
        | Err err => mret (if rejected err then disruptive else no_eval)
        | Ok updated => mret (mkTemplateEval false None false (Some (fl_Spec updated)) false liveHash liveValuesHash)
        end
  end.

Definition evalTemplateDPU (dpuSet : DPUSet) (dpu : DPU) : SM W templateEval :=
  let liveName := template_name dpuSet in
  let recordedName := deref (dpu_Labels dpu !! DPUFlavorTemplateNameLabel) "" in
  r ← getDPUFlavorTemplate (mkNN (ds_Namespace dpuSet) liveName);
  match r with
  | Err _ => mret no_eval
  | Ok template =>
      if bool_decide (liveName ≠ recordedName) then mret disruptive
      else
        d ← getSetDPUDevice (mkNN (dpu_Namespace dpu) (sp_DPUDeviceName (dpu_Spec dpu)));
        match d with
        | Err _ => mret no_eval
        | Ok dpuDevice =>
            match inputHashes (ft_Spec template) (dd_Values dpuDevice) with
            | Err _ => mret no_eval
            | Ok (liveHash, liveValuesHash) =>
                if bool_decide (liveHash = deref (dpu_Labels dpu !! DPUFlavorTemplateHashLabel) "") &&
                   bool_decide (liveValuesHash = deref (dpu_Labels dpu !! DPUDeviceValuesHashLabel) "")
                then mret (mkTemplateEval false None false None
                             (bool_decide (deref (dpu_Annotations dpu !! RenderFailedReasonAnnotation) "" = RenderFailedOnUpdate))
                             "" "")
                else match Render (ft_Spec template) (dd_Values dpuDevice) with
                     | Err err => mret (failed_eval err liveHash liveValuesHash)
                     | Ok rendered =>
                         g ← getSetDPUFlavor (mkNN (dpu_Namespace dpu) (sp_DPUFlavor (dpu_Spec dpu)));
                         match g with
                         | Err flavorErr => mret (if IsNotFound flavorErr then disruptive else no_eval)
                         | Ok generated => classifyRenderedDrift rendered generated dpu liveHash liveValuesHash
                         end
                     end
            end
        end
  end.

(** The loop of [evalTemplateDPUs]. *)
Fixpoint eval_loop (dpuSet : DPUSet) (evals : gmap string templateEval) (dpus : list (string * DPU))
    : SM W (gmap string templateEval) :=
  match dpus with
  | [] => mret evals
  | (_, dpu) :: dpus =>
      eval ← evalTemplateDPU dpuSet dpu;
      eval_loop dpuSet (<[dpu_Name dpu := eval]> evals) dpus
  end.

Definition evalTemplateDPUs {R : MapRange} (dpuSet : DPUSet) (dpuMap : gmap string DPU) : SM W (gmap string templateEval) :=
  if negb (isTemplateMode dpuSet) then mret ∅ else eval_loop dpuSet ∅ (range_map dpuMap).

(** ** Writes that replace nothing *)

Definition updateGeneratedFlavorSpec (dpu : DPU) (spec : DPUFlavorSpec) : SM W (option GoError) :=
  let key := dpu_Namespace dpu +:+ "/" +:+ sp_DPUFlavor (dpu_Spec dpu) in
  r ← getSetDPUFlavor (mkNN (dpu_Namespace dpu) (sp_DPUFlavor (dpu_Spec dpu)));
  match r with
  | Err err => mret (Some (wrapf ("get generated DPUFlavor " +:+ key +:+ ": ") err))
  | Ok flavor =>
      if bool_decide (fl_Spec flavor = spec) then mret None
      else if bool_decide (deref (fl_Labels flavor !! GeneratedByLabel) "" ≠ GeneratedByDPUFlavorTemplate)
      then mret (Some (errorf ("refusing to update DPUFlavor " +:+ key +:+ ": " +:+ GeneratedByLabel
                               +:+ " label is not " +:+ GeneratedByDPUFlavorTemplate)))
      else
        e ← patchSetDPUFlavor flavor (with_fl_Spec spec flavor);
        mret (wrapf ("patch generated DPUFlavor " +:+ key +:+ ": ") <$> e)
  end.

Definition patchDPUTemplateLabels (dpu : DPU) (templateHash valuesHash : string) : SM W (option GoError) :=
  patchSetDPU dpu (clearRenderFailedAnnotations
    (with_Labels (<[DPUDeviceValuesHashLabel := valuesHash]> (<[DPUFlavorTemplateHashLabel := templateHash]>
                    (dpu_Labels dpu))) dpu)).

Definition patchDPUClearRenderFailed (dpu : DPU) : SM W (option GoError) :=
  patchSetDPU dpu (clearRenderFailedAnnotations dpu).

Definition patchDPURenderFailed (dpu : DPU) (reason message : string) : SM W (option GoError) :=
  if bool_decide (deref (dpu_Annotations dpu !! RenderFailedReasonAnnotation) "" = reason) &&
     bool_decide (deref (dpu_Annotations dpu !! RenderFailedMessageAnnotation) "" = message)
  then mret None
  else patchSetDPU dpu (setRenderFailedAnnotations dpu reason message).

(** The body of the loop of [reconcileTemplateDPUs]. *)
Definition reconcile_template_DPU (templateEvals : gmap string templateEval) (dpu : DPU) : SM W (option GoError) :=
  if deleting dpu || negb (isTemplateModeDPU dpu) then mret None
  else
    let eval := eval_of templateEvals (dpu_Name dpu) in
    match renderErr eval with
    | Some err =>
        let reason := if bool_decide (deref (dpu_Annotations dpu !! RenderFailedReasonAnnotation) "" = RenderFailedOnCreate)
                      then RenderFailedOnCreate else RenderFailedOnUpdate in
        patchDPURenderFailed dpu reason (err_msg err)
    | None =>
        if equalButStale eval then patchDPUTemplateLabels dpu (liveTemplateHash eval) (liveValuesHash eval)
        else match configOnly eval with
             | Some spec =>
                 e ← updateGeneratedFlavorSpec dpu spec;
                 match e with
                 | Some err => mret (Some err)
                 | None => patchDPUTemplateLabels dpu (liveTemplateHash eval) (liveValuesHash eval)
                 end
             | None => if clearRenderFailed eval then patchDPUClearRenderFailed dpu else mret None
             end
    end.

Definition reconcileTemplateDPUs {R : MapRange} (dpuSet : DPUSet) (dpuMap : gmap string DPU)
    (templateEvals : gmap string templateEval) : SM W (option GoError) :=
  if negb (isTemplateMode dpuSet) then mret None
  else for_each (λ kd : string * DPU, reconcile_template_DPU templateEvals kd.2) (range_map dpuMap).

(** ** The condition of the DPUSet *)

Definition reasonDPUFlavorTemplateNotFound := "DPUFlavorTemplateNotFound".
Definition ConditionDPUFlavorTemplateExists := "DPUFlavorTemplateExists".

Definition dpuFlavorTemplateExists (dpuSet : DPUSet) : SM W (Res bool) :=
  let name := template_name dpuSet in
  r ← getDPUFlavorTemplate (mkNN (ds_Namespace dpuSet) name);
  mret (match r with
        | Ok _ => Ok true
        | Err err => if IsNotFound err then Ok false
                     else Err (wrapf ("failed to get DPUFlavorTemplate " +:+ name +:+ ": ") err)
        end).

Definition reconcileDPUFlavorTemplateCondition {API : MetaAPI} (now : Time) (dpuSet : DPUSet)
    : SM W (option GoError * DPUSet) :=
  if negb (isTemplateMode dpuSet)
  then mret (None, with_ds_Conditions (RemoveStatusCondition (ds_Conditions dpuSet) ConditionDPUFlavorTemplateExists) dpuSet)
  else
    r ← dpuFlavorTemplateExists dpuSet;
    mret (match r with
          | Err err => (Some err, dpuSet)
          | Ok true => (None, AddTrue now dpuSet ConditionDPUFlavorTemplateExists)
          | Ok false =>
              (None, AddFalse now dpuSet ConditionDPUFlavorTemplateExists reasonDPUFlavorTemplateNotFound
                 ("DPUFlavorTemplate " +:+ quoted (template_name dpuSet) +:+ " not found"))
          end).
End Flavor.

(** ** Lemmas *)

Section FlavorLemmas.
Context {F : FlavorRenderer} {W : Type} {C : SetClient W}.

(** Evaluating reads and runs dry. *)
Lemma evalTemplateDPU_emits dpuSet dpu : emits (λ _, False) (evalTemplateDPU (C:=traced C) dpuSet dpu).
Proof. unfold evalTemplateDPU, classifyRenderedDrift. emits. Qed.

Lemma evalTemplateDPUs_emits {R : MapRange} dpuSet dpuMap : emits (λ _, False) (evalTemplateDPUs (C:=traced C) dpuSet dpuMap).
Proof.
  unfold evalTemplateDPUs. destruct (negb (isTemplateMode dpuSet)); [emits|].
  generalize (∅ : gmap string templateEval). induction (range_map dpuMap) as [|[k d] dpus IH]; intros evals; cbn [eval_loop].
  - emits.
  - apply emits_bind; [apply evalTemplateDPU_emits|]. intros e. apply IH.
Qed.

(** A write in place: labels and annotations of a DPU in template mode, or the
    spec of a generated flavor. *)
Definition in_place_write (evals : gmap string templateEval) (dpus : list DPU) (x : Write) : Prop :=
  match x with
  | WPatch d d' _ => d ∈ dpus ∧ deleting d = false ∧ isTemplateModeDPU d = true ∧ isTemplateModeDPU d' = true ∧
      d' = with_Annotations (dpu_Annotations d') (with_Labels (dpu_Labels d') d) ∧
      eval_of evals (dpu_Name d) ≠ no_eval ∧ eval_of evals (dpu_Name d) ≠ disruptive
  | WFlavor f f' _ => f' = with_fl_Spec (fl_Spec f') f ∧ fl_Labels f !! GeneratedByLabel = Some GeneratedByDPUFlavorTemplate
  | _ => False
  end.

Lemma template_mode_labels (m m' : gmap string string) d d' :
  dpu_Labels d' = m → dpu_Labels d = m' → m !! DPUFlavorTemplateNameLabel = m' !! DPUFlavorTemplateNameLabel →
  isTemplateModeDPU d' = isTemplateModeDPU d.
Proof. unfold isTemplateModeDPU. by intros -> -> ->. Qed.

Lemma updateGeneratedFlavorSpec_emits evals dpus dpu spec :
  emits (in_place_write evals dpus) (updateGeneratedFlavorSpec (C:=traced C) dpu spec).
Proof.
  unfold updateGeneratedFlavorSpec. emits. split; [done|].
  match goal with H : bool_decide (deref _ _ ≠ _) = false |- _ => apply bool_decide_eq_false, dec_stable in H; revert H end.
  unfold deref. destruct (fl_Labels _ !! GeneratedByLabel) as [v|]; simpl; [by intros ->|done].
Qed.

Lemma patch_in_place evals dpus d d' :
  eval_of evals (dpu_Name d) ≠ no_eval → eval_of evals (dpu_Name d) ≠ disruptive → d ∈ dpus → deleting d = false → isTemplateModeDPU d = true →
  d' = with_Annotations (dpu_Annotations d') (with_Labels (dpu_Labels d') d) →
  dpu_Labels d' !! DPUFlavorTemplateNameLabel = dpu_Labels d !! DPUFlavorTemplateNameLabel →
  emits (in_place_write evals dpus) (patchSetDPU (SetClient:=traced C) d d').
Proof.
  intros Hn Hds Hin Hd Ht He Hl. apply emits_logged. intros r. split_and!; [done..| |done|done|done].
  by rewrite (template_mode_labels _ _ d d' eq_refl eq_refl Hl).
Qed.

Lemma reconcileTemplateDPUs_emits {R : MapRange} {RL : MapRangeLaws R} dpuSet dpuMap evals :
  emits (in_place_write evals (map_to_list dpuMap).*2) (reconcileTemplateDPUs (C:=traced C) dpuSet dpuMap evals).
Proof.
  unfold reconcileTemplateDPUs. destruct (negb (isTemplateMode dpuSet)); [emits|]. apply emits_for_each. intros [k d] Hin.
  assert (d ∈ (map_to_list dpuMap).*2) as Hd.
  { apply elem_of_range_map, elem_of_map_to_list in Hin. apply list_elem_of_fmap. by exists (k, d). }
  unfold reconcile_template_DPU. cbn [snd]. destruct (deleting d) eqn:Edel; [emits|].
  destruct (isTemplateModeDPU d) eqn:Et; [|emits]. cbn [orb negb].
  pose proof (λ H1 H2 d', patch_in_place evals _ d d' H1 H2 Hd Edel Et) as Hp.
  destruct (eval_of evals (dpu_Name d)) as [dis re st co cl th vh]. cbn [renderErr equalButStale configOnly clearRenderFailed liveTemplateHash liveValuesHash].
  assert (∀ th vh, re ≠ None ∨ st = true ∨ co ≠ None →
    emits (in_place_write evals (map_to_list dpuMap).*2) (patchDPUTemplateLabels (C:=traced C) d th vh)) as Hl.
  { intros th' vh' H. apply Hp; [intros [=]; naive_solver..|done|]. simpl. rewrite !lookup_insert_ne; done. }
  destruct re as [err|].
  { unfold patchDPURenderFailed. case_match; [emits|]. by apply Hp. }
  destruct st; [apply Hl; auto|]. destruct co as [spec|].
  - apply emits_bind; [apply updateGeneratedFlavorSpec_emits|]. intros [err|]; [emits|apply Hl; auto].
  - destruct cl; [|emits]. by apply Hp.
Qed.

(** In template mode the flavor named in the DPU does not count as drift. *)
Lemma drift_with_inputs {S : SelectorAPI} dpuSet n th vh ann dpu clusters eval :
  isTemplateMode dpuSet = true →
  computeDPUDrift dpuSet (with_Annotations ann (with_inputs n th vh dpu)) clusters eval = computeDPUDrift dpuSet dpu clusters eval.
Proof. intros H. unfold computeDPUDrift. by rewrite H. Qed.

(** The writes of a creation in template mode: the flavor first, then the DPU; a
    DPU whose flavor could not be made is created with the reason. *)
Definition creation (template : DPUFlavorTemplate) (dpuSet : DPUSet) (dev : DPUDevice) (dpu : DPU) (log : list Write) : Prop :=
  log = [] ∨
  ∃ th vh, inputHashes (ft_Spec template) (dd_Values dev) = Ok (th, vh) ∧
    let d := with_inputs (template_name dpuSet) th vh dpu in
    (∃ err r, Render (ft_Spec template) (dd_Values dev) = Err err ∧
       log = [WCreate (setRenderFailedAnnotations d RenderFailedOnCreate (err_msg err)) r]) ∨
    ∃ flavor e, renderGeneratedFlavor template dev dpuSet (dpu_Name dpu) = Ok flavor ∧
      (log = [WCreateFlavor flavor e] ∧ from_option (λ e, IsAlreadyExists e || rejected e) true e = false ∨
       (∃ r, log = [WCreateFlavor flavor e; WCreate d r] ∧ from_option IsAlreadyExists true e = true) ∨
       ∃ r err, e = Some err ∧ rejected err = true ∧
         log = [WCreateFlavor flavor e; WCreate (setRenderFailedAnnotations d RenderFailedOnCreate (err_msg err)) r]).

Lemma createTemplateModeDPU_log dpuSet dev dpu w template :
  (getDPUFlavorTemplate (mkNN (ds_Namespace dpuSet) (template_name dpuSet)) w).1 = Ok template →
  creation template dpuSet dev dpu (createTemplateModeDPU (C:=traced C) dpuSet dev dpu (w, [])).2.2.
Proof.
  unfold createTemplateModeDPU, mbind, SM_bind, creation. simpl. unfold unlogged, logged. simpl.
  destruct (getDPUFlavorTemplate _ w) as [r w1]. cbn [fst snd]. intros ->.
  destruct (inputHashes _ _) as [[th vh]|err]; [|by left].
  destruct (renderGeneratedFlavor _ _ _ _) as [flavor|err] eqn:Er.
  - simpl. destruct (createDPUFlavor flavor w1) as [[e|] w2]; simpl.
    + destruct (IsAlreadyExists e) eqn:Ea; [|destruct (rejected e) eqn:Ej]; simpl;
        try (destruct (createDPU_api _ w2) as [r w3]); right; exists th, vh; (split; [done|]); right; exists flavor, (Some e);
        (split; [done|]); simpl; [right; left; by exists r|right; right; by exists r, e|left; by rewrite Ea, Ej].
    + destruct (createDPU_api _ w2) as [r w3]. right. exists th, vh. split; [done|]. right. exists flavor, None.
      split; [done|]. right. left. by exists r.
  - unfold renderGeneratedFlavor in Er. destruct (Render _ _) as [f|err'] eqn:E; [done|]. injection Er as ->.
    simpl. destruct (createDPU_api _ w1) as [r w2]. right. exists th, vh. split; [done|]. left. by exists err, r.
Qed.
End FlavorLemmas.

(** ** Properties *)

(** Template mode replaces a DPU exactly when it has to: the template could be
    read and either the DPU was made from another template, or the inputs of its
    render changed, they render, and its generated flavor is gone or is one that
    the API server refuses to change that way.  Everything else, a failed read,
    hash or render, or an unexpected answer of a dry run included, leaves the DPU
    alone; evaluating it writes nothing. *)
Theorem evalTemplateDPU_disrupts {F : FlavorRenderer} {W} {C : SetClient W} dpuSet dpu (w : W) :
  let recorded key := deref (dpu_Labels dpu !! key) "" in
  emits (λ _, False) (evalTemplateDPU (C:=traced C) dpuSet dpu) ∧
  (disrupt (evalTemplateDPU dpuSet dpu w).1 = true ↔
   ∃ template w1, getDPUFlavorTemplate (mkNN (ds_Namespace dpuSet) (template_name dpuSet)) w = (Ok template, w1) ∧
     (template_name dpuSet ≠ recorded DPUFlavorTemplateNameLabel ∨
      ∃ dev w2 th vh rendered g w3,
        template_name dpuSet = recorded DPUFlavorTemplateNameLabel ∧
        getSetDPUDevice (mkNN (dpu_Namespace dpu) (sp_DPUDeviceName (dpu_Spec dpu))) w1 = (Ok dev, w2) ∧
        inputHashes (ft_Spec template) (dd_Values dev) = Ok (th, vh) ∧
        ¬ (th = recorded DPUFlavorTemplateHashLabel ∧ vh = recorded DPUDeviceValuesHashLabel) ∧
        Render (ft_Spec template) (dd_Values dev) = Ok rendered ∧
        getSetDPUFlavor (mkNN (dpu_Namespace dpu) (sp_DPUFlavor (dpu_Spec dpu))) w2 = (g, w3) ∧
        match g with
        | Err e => IsNotFound e = true
        | Ok generated => disrupt (classifyRenderedDrift rendered generated dpu th vh w3).1 = true
        end)).
Proof.
  cbn zeta. split; [apply evalTemplateDPU_emits|]. unfold evalTemplateDPU, mbind, SM_bind.
  destruct (getDPUFlavorTemplate _ w) as [[template|e] w1].
  2: { split; [done|]. intros (t & w' & [=] & _). }
  destruct (decide (template_name dpuSet = deref (dpu_Labels dpu !! DPUFlavorTemplateNameLabel) "")) as [En|En].
  2: { rewrite bool_decide_eq_true_2 by done. split; [|done]. intros _. exists template, w1. split; [done|]. by left. }
  rewrite bool_decide_eq_false_2 by tauto. split.
  - intros H. exists template, w1. split; [done|]. right.
    destruct (getSetDPUDevice _ w1) as [[dev|e] w2]; [|done]. destruct (inputHashes _ _) as [[th vh]|e] eqn:Eh; [|done].
    destruct (bool_decide _ && bool_decide _) eqn:Eq; [done|]. destruct (Render _ _) as [rendered|e] eqn:Er; [|done].
    destruct (getSetDPUFlavor _ w2) as [g w3] eqn:Eg. exists dev, w2, th, vh, rendered, g, w3.
    split_and!; [done|done|exact Eh| |exact Er|exact Eg|].
    + intros [-> ->]. rewrite !bool_decide_eq_true_2 in Eq by done. done.
    + destruct g as [g|e]; [exact H|]. simpl in H. by destruct (IsNotFound e).
  - intros (t & w' & [= <- <-] & [?|(dev & w2 & th & vh & rendered & g & w3 & _ & Ed & Eh & Hne & Er & Eg & H)]); [done|].
    rewrite Ed, Eh, Er. destruct (bool_decide _ && bool_decide _) eqn:Eq.
    { apply andb_true_iff in Eq as [?%bool_decide_eq_true ?%bool_decide_eq_true]. tauto. }
    rewrite Eg. destruct g as [g|e]; [exact H|]. simpl. by rewrite H.
Qed.

(** The flavor that is there decides by the dry runs alone: the DPU is replaced
    iff the rendered spec, with the defaults of the server, differs from that of
    the flavor, the flavor is a generated one, and the server rejects the change;
    it is changed in place iff the server accepts it, to what the server would
    store; a flavor that was not generated is never changed nor a reason to
    replace the DPU. *)
Theorem classifyRenderedDrift_spec {W} {C : SetClient W} rendered generated dpu th vh (w : W) :
  let eval := (classifyRenderedDrift rendered generated dpu th vh w).1 in
  let ours := fl_Labels generated !! GeneratedByLabel = Some GeneratedByDPUFlavorTemplate in
  let differs probe := fl_Spec probe ≠ fl_Spec generated in
  (disrupt eval = true ↔ ∃ probe e w1 w2, dryRunCreateDPUFlavor (drift_probe rendered dpu) w = (Ok probe, w1) ∧
     differs probe ∧ ours ∧
     dryRunUpdateDPUFlavor (with_fl_Spec (fl_Spec probe) generated) w1 = (Err e, w2) ∧ rejected e = true) ∧
  (∀ spec, configOnly eval = Some spec ↔ ∃ probe updated w1 w2,
     dryRunCreateDPUFlavor (drift_probe rendered dpu) w = (Ok probe, w1) ∧ differs probe ∧ ours ∧
     dryRunUpdateDPUFlavor (with_fl_Spec (fl_Spec probe) generated) w1 = (Ok updated, w2) ∧ spec = fl_Spec updated).
Proof.
  cbn zeta. unfold classifyRenderedDrift, mbind, SM_bind.
  destruct (dryRunCreateDPUFlavor _ w) as [[probe|e] w1].
  2: { simpl. split; [|intros spec]; (split; [by destruct (rejected e)|]); by intros (? & ? & ? & ? & [=] & _). }
  destruct (decide (fl_Spec probe = fl_Spec generated)) as [Es|Es].
  { rewrite bool_decide_eq_true_2 by done. simpl. split; [|intros spec]; (split; [done|]);
      by intros (? & ? & ? & ? & [= <- <-] & ? & _). }
  rewrite bool_decide_eq_false_2 by done.
  destruct (decide (fl_Labels generated !! GeneratedByLabel = Some GeneratedByDPUFlavorTemplate)) as [El|El].
  2: { rewrite bool_decide_eq_true_2; [simpl; split; [|intros spec]; (split; [done|]); by intros (? & ? & ? & ? & _ & _ & ? & _)|].
       unfold deref. destruct (fl_Labels generated !! GeneratedByLabel); simpl; [congruence|done]. }
  rewrite El, bool_decide_eq_false_2 by (simpl; tauto).
  destruct (dryRunUpdateDPUFlavor _ w1) as [[updated|e] w2] eqn:Eu; simpl.
  - split; [|intros spec]; split; try done.
    + intros (p & e & w1' & w2' & [= <- <-] & _ & _ & E & _). congruence.
    + intros [= <-]. by exists probe, updated, w1, w2.
    + intros (p & u & w1' & w2' & [= <- <-] & _ & _ & E & ->). congruence.
  - split; [|intros spec]; split; try (by destruct (rejected e)).
    + intros H. destruct (rejected e) eqn:Ej; [|done]. by exists probe, e, w1, w2.
    + intros (p & e' & w1' & w2' & [= <- <-] & _ & _ & E & Hr). rewrite Eu in E. injection E as <- <-. by rewrite Hr.
    + intros (p & u & w1' & w2' & [= <- <-] & _ & _ & E & _). congruence.
Qed.

Lemma creation_dpu {F : FlavorRenderer} template dpuSet dev dpu log d e :
  creation template dpuSet dev dpu log → WCreate d e ∈ log →
  ∃ th vh ann, inputHashes (ft_Spec template) (dd_Values dev) = Ok (th, vh) ∧
    d = with_Annotations ann (with_inputs (template_name dpuSet) th vh dpu).
Proof.
  intros [->|(th & vh & Eh & H)] Hin; [by apply elem_of_nil in Hin|]. exists th, vh.
  assert (d = with_inputs (template_name dpuSet) th vh dpu ∨
    ∃ msg, d = setRenderFailedAnnotations (with_inputs (template_name dpuSet) th vh dpu) RenderFailedOnCreate msg)
    as [-> | [msg ->]].
  { destruct H as [(err & r & _ & ->)|(fl & ef & _ & [[-> _]|[(r & -> & _)|(r & err & _ & _ & ->)]])];
      rewrite ?elem_of_cons, ?elem_of_nil in Hin; naive_solver. }
  - by exists (dpu_Annotations dpu).
  - eexists. split; [done|reflexivity].
Qed.

Lemma newDPU_names {K : Codec} {R : MapRange} version dpuSet dev dpu :
  newDPU version dpuSet dev = Ok dpu → dpu_Namespace dpu = ds_Namespace dpuSet ∧ sp_DPUDeviceName (dpu_Spec dpu) = dd_Name dev.
Proof.
  unfold newDPU. destruct (dd_Labels dev !! _); [|done]. destruct (MergeDPUClusterNodeMetadata _ _) as [[ul ua]|]; [|done].
  destruct (GenerateDPUName _ _); [|done]. by intros [= <-].
Qed.

(** C30. Creation in template mode: the inputs of the render are recorded on the DPU,
    its flavor is created before it and is labelled as generated, and a DPU whose
    flavor does not render or is turned down is created with the reason, so that
    it is not tried again until the inputs change.  Replacing ends: as long as
    template and values read the same, the DPU is never found to differ again,
    whatever became of its flavor. *)
Theorem template_DPU_settled {F : FlavorRenderer} {S : SelectorAPI} {K : Codec} {R : MapRange} {W} {C : SetClient W}
    version dpuSet dev dpu template (w : W) :
  let key := mkNN (ds_Namespace dpuSet) (template_name dpuSet) in
  newDPU version dpuSet dev = Ok dpu → isTemplateMode dpuSet = true → (getDPUFlavorTemplate key w).1 = Ok template →
  let r := createDPU (C:=traced C) version dpuSet dev (w, []) in
  creation template dpuSet dev dpu r.2.2 ∧
  ∀ d e, WCreate d e ∈ r.2.2 → ∀ w' template' w1 dev' w2,
    getDPUFlavorTemplate key w' = (Ok template', w1) → ft_Spec template' = ft_Spec template →
    getSetDPUDevice (mkNN (ds_Namespace dpuSet) (dd_Name dev)) w1 = (Ok dev', w2) → dd_Values dev' = dd_Values dev →
    let eval := (evalTemplateDPU dpuSet d w').1 in
    (disrupt eval, renderErr eval, equalButStale eval, configOnly eval) = (false, None, false, None) ∧
    ∀ clusters, computeDPUDrift dpuSet d clusters eval = [].
Proof.
  intros key Hnew Hmode Ht r. unfold r, createDPU. rewrite Hnew, Hmode.
  pose proof (createTemplateModeDPU_log dpuSet dev dpu w template Ht) as Hc. split; [exact Hc|].
  intros d e Hin w' template' w1 dev' w2 Ht' Es Hd' Ev. cbv zeta.
  destruct (creation_dpu _ _ _ _ _ _ _ Hc Hin) as (th & vh & ann & Eh & ->).
  destruct (newDPU_names _ _ _ _ Hnew) as [Ens Edev].
  assert (∃ c, (evalTemplateDPU dpuSet (with_Annotations ann (with_inputs (template_name dpuSet) th vh dpu)) w').1 =
    mkTemplateEval false None false None c "" "") as [c ->].
  { unfold evalTemplateDPU, mbind, SM_bind. fold key. rewrite Ht'. simpl.
    rewrite !(lookup_insert_ne _ DPUDeviceValuesHashLabel), !(lookup_insert_ne _ DPUFlavorTemplateHashLabel DPUFlavorTemplateNameLabel),
      !lookup_insert_eq by done. simpl.
    rewrite bool_decide_eq_false_2 by tauto. rewrite Ens, Edev, Hd', Es, Ev, Eh, !bool_decide_eq_true_2 by done. simpl. eauto. }
  split; [done|]. intros clusters. rewrite drift_with_inputs by done. by apply (newDPU_no_drift _ _ _ _ _ _ Hnew); right.
Qed.

(** What a pass does in place in template mode: only DPUs made from a template and
    not being deleted are written, and of them only labels and annotations, and
    they stay in template mode; of a flavor only the spec is written, and only
    when it is a generated one.  A DPU for which nothing was found, or that has to
    be replaced, is left alone. *)
Theorem reconcileTemplateDPUs_writes {W} {C : SetClient W} {R : MapRange} {RL : MapRangeLaws R} dpuSet dpuMap evals (w : W) :
  let r := reconcileTemplateDPUs (C:=traced C) dpuSet dpuMap evals (w, []) in
  (isTemplateMode dpuSet = false → r.2.2 = []) ∧
  Forall (in_place_write evals (map_to_list dpuMap).*2) r.2.2.
Proof.
  cbn zeta. split.
  - intros H. unfold reconcileTemplateDPUs. by rewrite H.
  - apply emits_log, reconcileTemplateDPUs_emits.
Qed.

(** ** Witnesses *)

(** A template is its own hash and renders to itself and the values. *)
Definition fake_renderer : FlavorRenderer := {|
  Hash spec := Ok spec;
  ValuesHash values := Ok (deref values "");
  Render spec values := Ok (mkDPUFlavor "" "" ∅ [] None [] None (spec +:+ deref values "")) |}.

Definition example_template_set : DPUSet :=
  with_ds_Template (mkDPUTemplateSpec (Some "new") None (t_NodeEffect example_template) None None (Some "template") None None)
    example_set.
Definition example_flavor_template : DPUFlavorTemplate := mkDPUFlavorTemplate "template" "spec".
Definition example_template_client : SetClient World := fake_set_client_with {[ "template" := example_flavor_template ]} None.
Definition example_device : DPUDevice :=
  mkDPUDevice "a" "ns" {[ DPUNodeNameLabel := "node" ]} [] None None DPUTypeBlueField3 "" None None (Some "values").
Definition example_template_world : World := with_devices {[ mkNN "ns" "a" := example_device ]} empty_world.
Definition example_template_dpu : Res DPU :=
  newDPU (K:=fake_codec) (R:=map_to_list_range) "v1" example_template_set example_device.

(** Its flavor is created before the DPU. *)
Lemma template_DPU_settled_witness :
  match example_template_dpu with
  | Ok dpu =>
      let r := createDPU (F:=fake_renderer) (K:=fake_codec) (R:=map_to_list_range) (C:=traced example_template_client) "v1"
                 example_template_set example_device (example_template_world, []) in
      (λ x, match x with WCreateFlavor _ _ => 0 | _ => 1 end) <$> r.2.2 = [0; 1] ∧
      creation (F:=fake_renderer) example_flavor_template example_template_set example_device dpu r.2.2
  | Err _ => False
  end.
Proof.
  destruct example_template_dpu as [dpu|e] eqn:E; [|vm_compute in E; discriminate E].
  split; [vm_compute; reflexivity|].
  exact (proj1 (template_DPU_settled (F:=fake_renderer) (S:=fake_selectors) (K:=fake_codec) (R:=map_to_list_range)
    (C:=example_template_client) "v1" example_template_set example_device dpu example_flavor_template
    example_template_world E eq_refl eq_refl)).
Defined.

Definition example_stale : DPU :=
  with_Labels {[ DPUFlavorTemplateNameLabel := "template" ]} (example_drifting "a" ConditionTrue).

(** A DPU whose hashes are behind gets them, and keeps its mode. *)
Lemma reconcileTemplateDPUs_writes_witness :
  let evals := {[ "a" := mkTemplateEval false None true None false "spec" "values" ]} in
  let r := reconcileTemplateDPUs (C:=traced fake_set_client) (R:=map_to_list_range) example_template_set {[ "a" := example_stale ]}
             evals (with_dpus {[ dpu_key example_stale := example_stale ]} empty_world, []) in
  length r.2.2 = 1 ∧ Forall (in_place_write evals [example_stale]) r.2.2.
Proof.
  split; [vm_compute; reflexivity|].
  exact (proj2 (reconcileTemplateDPUs_writes (C:=fake_set_client) (R:=map_to_list_range) example_template_set {[ "a" := example_stale ]}
    {[ "a" := mkTemplateEval false None true None false "spec" "values" ]}
    (with_dpus {[ dpu_key example_stale := example_stale ]} empty_world))).
Defined.
