(* ===== verification/DPUSetUpdate.v ===== *)
(** How the DPUSet controller keeps the DPUs it does not replace up to date
    (dpuset_controller.go): [UpdateDPUs] carries the fields of the template that
    need no new DPU over to it and stamps the hash of the template, and
    [reconcileDPUOutdatedStatus] records on a DPU that it is outdated.

    Both work on the snapshot of the DPUs taken earlier in the same reconcile.
    [UpdateDPUs] sorts the requestors of the template in place, so the DPUSet it
    is given changes with them: the model returns it.  The trace annotations that
    [InjectTrigger] adds to a DPU before it is patched are left out. *)

From S2P Require Import Prelude.
From S2P Require Import Meta.
From S2P Require Import Conditions.
From S2P Require Import DPUTypes.
From S2P Require Import DPUConditions.
From S2P Require Import Kubernetes.
From S2P Require Import FakeClient.
From S2P Require Import Maintenance.
From S2P Require Import ClusterMetadata.
From S2P Require Import WriteLog.
From S2P Require Import DPUSetTypes.
From S2P Require Import DPUSetTemplate.
From S2P Require Import DPUSetRollout.
From stdpp Require Import sorting.

(** ** The outdated status *)

Definition outdatedNeedsUpdate (curr desired : option DPUOutdated) : bool :=
  match curr, desired with
  | None, None => false
  | Some c, Some d => bool_decide (od_Reason c ≠ od_Reason d) || bool_decide (od_Message c ≠ od_Message d)
  | _, _ => true
  end.

Section Outdated.
Context {W : Type} {C : SetClient W} {S : SelectorAPI} {R : MapRange}.

(** The desired status, before its time stamp. *)
Definition desired_outdated (dpuSet : DPUSet) (dpu : DPU) (dpuClusters : list DPUCluster) (eval : templateEval)
    : option DPUOutdated :=
  (λ rm : string * string, mkDPUOutdated 0 rm.1 rm.2) <$> detectOutdated dpuSet dpu dpuClusters eval.

(** Its time stamp: that of the status on the DPU when the reason is the same. *)
Definition stamp_outdated (now : Time) (curr : option DPUOutdated) (desired : DPUOutdated) : DPUOutdated :=
  let t := match curr with
           | Some c => if bool_decide (od_Reason c = od_Reason desired) then od_TimeStamp c else now
           | None => now
           end in
  mkDPUOutdated t (od_Reason desired) (od_Message desired).

Definition patched_outdated (now : Time) (dpu : DPU) (desired : option DPUOutdated) : DPU :=
  with_Status (with_Outdated (stamp_outdated now (st_Outdated (dpu_Status dpu)) <$> desired) (dpu_Status dpu)) dpu.

(** The body of the loop. *)
Definition reconcile_outdated (now : Time) (dpuSet : DPUSet) (dpuClusters : list DPUCluster)
    (templateEvals : gmap string templateEval) (dpu : DPU) : SM W (option GoError) :=
  if deleting dpu then mret None
  else
    let desired := desired_outdated dpuSet dpu dpuClusters (eval_of templateEvals (dpu_Name dpu)) in
    if negb (outdatedNeedsUpdate (st_Outdated (dpu_Status dpu)) desired) then mret None
    else
      e ← mergePatchDPUStatus dpu (patched_outdated now dpu desired);
      mret (match e with
            | None => None
            | Some err =>
                if IsNotFound err then None
                else Some (wrapf ("failed to patch DPU (" +:+ dpu_Namespace dpu +:+ "/" +:+ dpu_Name dpu
                                  +:+ ") outdated status: ") err)
            end).

Definition reconcileDPUOutdatedStatus (now : Time) (dpuSet : DPUSet) (dpuMap : gmap string DPU)
    (dpuClusters : list DPUCluster) (templateEvals : gmap string templateEval) : SM W (option GoError) :=
  for_each (λ kd : string * DPU, reconcile_outdated now dpuSet dpuClusters templateEvals kd.2) (range_map dpuMap).
End Outdated.

(** ** Updating DPUs in place *)

Section Update.
Context {K : Codec} {R : MapRange}.

(** A missing key, an empty value and a text that does not parse give the empty map. *)
Definition GetStringMapFromAnnotation (annotations : gmap string string) (key : string) : gmap string string :=
  match annotations !! key with
  | None => ∅
  | Some s => if bool_decide (s = "") then ∅
              else match unjson_map s with Ok m => m | Err _ => ∅ end
  end.

(** The new entries and the keys to remove, when they differ from those last applied. *)
Definition metadata_update_needed (key : string) (dpu : DPU) (merged : gmap string string)
    : option (gmap string string * list string) :=
  let last := GetStringMapFromAnnotation (dpu_Annotations dpu) key in
  if bool_decide (merged = last) then None else Some (merged, GetRemovedLabels last merged).

Definition isNodeLabelUpdateNeeded := metadata_update_needed LastAppliedLabelsOnDPUKey.
Definition isNodeAnnotationUpdateNeeded := metadata_update_needed LastAppliedAnnotationsOnDPUKey.

Definition with_NodeLabels (m : gmap string string) (c : K8sCluster) : K8sCluster :=
  mkK8sCluster (kc_Name c) (kc_Namespace c) m (kc_NodeAnnotations c) (kc_Selector c).
Definition with_NodeAnnotations (m : gmap string string) (c : K8sCluster) : K8sCluster :=
  mkK8sCluster (kc_Name c) (kc_Namespace c) (kc_NodeLabels c) m (kc_Selector c).
Definition with_Selector (s : option string) (c : K8sCluster) : K8sCluster :=
  mkK8sCluster (kc_Name c) (kc_Namespace c) (kc_NodeLabels c) (kc_NodeAnnotations c) s.
Definition on_cluster (f : K8sCluster → K8sCluster) (dpu : DPU) : DPU :=
  with_Spec (with_Cluster (f (sp_Cluster (dpu_Spec dpu))) (dpu_Spec dpu)) dpu.

Definition updateNodeLabelsForDPU (dpu : DPU) (newLabels : gmap string string) (removedLabels : list string) : DPU :=
  let m := delete_keys removedLabels (set_all newLabels (kc_NodeLabels (sp_Cluster (dpu_Spec dpu)))) in
  with_Annotations (SetAnnotationFromStringMap (dpu_Annotations dpu) LastAppliedLabelsOnDPUKey newLabels)
    (on_cluster (with_NodeLabels m) dpu).

Definition updateNodeAnnotationsForDPU (dpu : DPU) (newAnnotations : gmap string string)
    (removedAnnotations : list string) : DPU :=
  let m := delete_keys removedAnnotations (set_all newAnnotations (kc_NodeAnnotations (sp_Cluster (dpu_Spec dpu)))) in
  with_Annotations (SetAnnotationFromStringMap (dpu_Annotations dpu) LastAppliedAnnotationsOnDPUKey newAnnotations)
    (on_cluster (with_NodeAnnotations m) dpu).

(** The result says whether something changed. *)
Definition updateLabelsAndAnnotationsForDPU (dpu : DPU) (dpuSet : DPUSet)
    (mergedUserLabels mergedUserAnnotations : gmap string string) : bool * DPU :=
  let needLabels := isNodeLabelUpdateNeeded dpu mergedUserLabels in
  let needAnnotations := isNodeAnnotationUpdateNeeded dpu mergedUserAnnotations in
  let '(changed, dpu) :=
    match needLabels with
    | Some (newLabels, removed) => (true, updateNodeLabelsForDPU dpu newLabels removed)
    | None => (false, dpu)
    end in
  let '(changed, dpu) :=
    match needAnnotations with
    | Some (newAnnotations, removed) => (true, updateNodeAnnotationsForDPU dpu newAnnotations removed)
    | None => (changed, dpu)
    end in
  match t_Cluster (ds_Template dpuSet) ≫= cl_Selector with
  | Some sel =>
      if bool_decide (kc_Selector (sp_Cluster (dpu_Spec dpu)) = Some sel) then (changed, dpu)
      else (true, on_cluster (with_Selector (Some sel)) dpu)
  | None =>
      if bool_decide (is_Some (kc_Selector (sp_Cluster (dpu_Spec dpu)))) then (true, on_cluster (with_Selector None) dpu)
      else (changed, dpu)
  end.

Definition on_effect (f : NodeEffect → NodeEffect) (dpu : DPU) : DPU :=
  with_Spec (with_NodeEffect (f (sp_NodeEffect (dpu_Spec dpu))) (dpu_Spec dpu)) dpu.
Definition with_Action (a : Action) (n : NodeEffect) : NodeEffect := mkNodeEffect a (ne_UpgradePolicy n).
Definition with_ApplyOnLabelChange (b : option bool) (n : NodeEffect) : NodeEffect :=
  mkNodeEffect (ne_Action n) (mkUpgradePolicy b (up_NodeMaintenanceAdditionalRequestors (ne_UpgradePolicy n))).

(** The DPU's own requestors are sorted in place as well. *)
Definition updateNodeMaintenanceAdditionalRequestors (dpu : DPU) (expectedRequestors : list string) : bool * DPU :=
  let expectedRequestors := sort_Strings expectedRequestors in
  let currentRequestors := sort_Strings (additional_requestors dpu) in
  if bool_decide (currentRequestors = expectedRequestors)
  then (false, on_effect (with_additional_requestors currentRequestors) dpu)
  else (true, on_effect (with_additional_requestors expectedRequestors) dpu).

Definition updateNodeEffectAction (dpuSet : DPUSet) (dpu : DPU) : bool * DPU :=
  if negb (bool_decide (st_Phase (dpu_Status dpu) = DPUReady)) then (false, dpu)
  else
    let expectedAction := ne_Action (t_NodeEffect (ds_Template dpuSet)) in
    if bool_decide (ne_Action (sp_NodeEffect (dpu_Spec dpu)) = expectedAction) then (false, dpu)
    else (true, on_effect (with_Action expectedAction) dpu).

Definition updateNodeEffectApplyOnLabelChange (dpuSet : DPUSet) (dpu : DPU) : bool * DPU :=
  let expected := up_ApplyOnLabelChange (ne_UpgradePolicy (t_NodeEffect (ds_Template dpuSet))) in
  if bool_decide (up_ApplyOnLabelChange (ne_UpgradePolicy (sp_NodeEffect (dpu_Spec dpu))) = expected) then (false, dpu)
  else (true, on_effect (with_ApplyOnLabelChange expected) dpu).

(** The requestors of the template. *)
Definition template_requestors (dpuSet : DPUSet) : list string :=
  up_NodeMaintenanceAdditionalRequestors (ne_UpgradePolicy (t_NodeEffect (ds_Template dpuSet))).

(** Steps 1 to 4: what the template and the device ask for. *)
Definition update_spec (dpuSet : DPUSet) (userLabels userAnn : gmap string string) (dpu : DPU) : bool * DPU :=
  let '(u1, dpu) := updateLabelsAndAnnotationsForDPU dpu dpuSet userLabels userAnn in
  let '(u2, dpu) := updateNodeEffectAction dpuSet dpu in
  let '(u3, dpu) := updateNodeEffectApplyOnLabelChange dpuSet dpu in
  let '(u4, dpu) := updateNodeMaintenanceAdditionalRequestors dpu (template_requestors dpuSet) in
  (u1 || u2 || u3 || u4, dpu).

(** The hash of the template on an object, "" when there is none. *)
Definition template_hash (labels : gmap string string) : string :=
  deref (labels !! DPUSetDPUTemplateSpecHashLabelKey) "".

(** Step 5: the hash follows once the DPU is settled. *)
Definition update_hash (desired : string) (update : bool) (dpu : DPU) : bool * DPU :=
  let hashNeedsSync := bool_decide (template_hash (dpu_Labels dpu) ≠ desired) in
  let dpuReconciledAndReady :=
    (st_ObservedGeneration (dpu_Status dpu) =? dpu_Generation dpu)%Z &&
    bool_decide (st_Phase (dpu_Status dpu) = DPUReady) in
  if negb update && hashNeedsSync && dpuReconciledAndReady
  then (true, with_Labels (<[DPUSetDPUTemplateSpecHashLabelKey := desired]> (dpu_Labels dpu)) dpu)
  else (update, dpu).

Definition update_dpu (dpuSet : DPUSet) (desiredHash : string) (userLabels userAnn : gmap string string) (dpu : DPU)
    : bool * DPU :=
  let '(update, dpu) := update_spec dpuSet userLabels userAnn dpu in update_hash desiredHash update dpu.

(** What step 4 does to the DPUSet. *)
Definition sort_template_requestors (dpuSet : DPUSet) : DPUSet :=
  with_ds_Template
    (with_t_NodeEffect
       (with_additional_requestors (sort_Strings (template_requestors dpuSet)) (t_NodeEffect (ds_Template dpuSet)))
       (ds_Template dpuSet)) dpuSet.

Context {W : Type} {C : SetClient W}.

Fixpoint update_loop (desiredHash : string) (dpuDeviceMap : gmap string DPUDevice) (dpuSet : DPUSet) (anyUpdated : bool)
    (dpus : list (string * DPU)) : SM W (Res bool * DPUSet) :=
  match dpus with
  | [] => mret (Ok anyUpdated, dpuSet)
  | (_, dpu) :: dpus =>
      match dpuDeviceMap !! sp_DPUDeviceName (dpu_Spec dpu) with
      | None => update_loop desiredHash dpuDeviceMap dpuSet anyUpdated dpus
      | Some dpuDevice =>
          match MergeDPUClusterNodeMetadata (cluster_metadata dpuSet) (dd_NodeLabels dpuDevice) with
          | Err mergeErr => mret (Err mergeErr, dpuSet)
          | Ok (userLabels, userAnn) =>
              let '(update, dpu') := update_dpu dpuSet desiredHash userLabels userAnn dpu in
              let dpuSet := sort_template_requestors dpuSet in
              if update then
                e ← patchSetDPU dpu dpu';
                match e with
                | Some err => mret (Err (wrapf ("failed to patch DPU (" +:+ dpu_Namespace dpu +:+ "/" +:+ dpu_Name dpu +:+ "): ") err), dpuSet)
                | None => update_loop desiredHash dpuDeviceMap dpuSet true dpus
                end
              else update_loop desiredHash dpuDeviceMap dpuSet anyUpdated dpus
          end
      end
  end.

(** [UpdateDPUs]: whether a DPU was written, and the DPUSet as it is afterwards. *)
Definition UpdateDPUs (dpuSet : DPUSet) (dpuMap : gmap string DPU) (dpuDeviceMap : gmap string DPUDevice)
    : SM W (Res bool * DPUSet) :=
  update_loop (template_hash (ds_Labels dpuSet)) dpuDeviceMap dpuSet false (range_map dpuMap).
End Update.

(** ** Lemmas *)

Lemma Forall2_left_witness {A B} (P : A → B → Prop) xs ys x :
  Forall2 P xs ys → x ∈ xs → ∃ y, y ∈ ys ∧ P x y.
Proof.
  induction 1 as [|x' y xs ys Hp _ IH]; [by intros ?%elem_of_nil|].
  intros [->|Hx]%elem_of_cons; [exists y; split; [left|done]|].
  destruct (IH Hx) as (y' & Hy & H). exists y'. split; [by right|done].
Qed.

Lemma Forall2_right_witness {A B} (P : A → B → Prop) xs ys y :
  Forall2 P xs ys → y ∈ ys → ∃ x, x ∈ xs ∧ P x y.
Proof. intros H%Forall2_flip Hy. by apply (Forall2_left_witness _ _ _ _ H). Qed.

Section OutdatedLemmas.
Context {S : SelectorAPI}.

(** The drift looks at the spec of the DPU only. *)
Lemma desired_outdated_patched now dpuSet dpu clusters eval desired :
  desired_outdated dpuSet (patched_outdated now dpu desired) clusters eval = desired_outdated dpuSet dpu clusters eval.
Proof. done. Qed.

Lemma outdatedNeedsUpdate_stamped now curr desired :
  outdatedNeedsUpdate (stamp_outdated now curr <$> desired) desired = false.
Proof. destruct desired as [d|]; simpl; [|done]. by rewrite !bool_decide_eq_false_2 by tauto. Qed.
End OutdatedLemmas.

Lemma sort_Strings_sorted xs : Sorted String.le (sort_Strings xs).
Proof. apply Sorted_merge_sort, _. Qed.

Lemma sort_Strings_idemp xs : sort_Strings (sort_Strings xs) = sort_Strings xs.
Proof. apply (Sorted_unique String.le); [apply sort_Strings_sorted..|]. apply merge_sort_Permutation. Qed.

Section UpdateLemmas.
Context {K : Codec} {KL : CodecLaws K} {R : MapRange} {RL : MapRangeLaws R}.

Lemma GetStringMap_set ann key m key' :
  GetStringMapFromAnnotation (SetAnnotationFromStringMap ann key m) key' =
  if decide (key' = key) then m else GetStringMapFromAnnotation ann key'.
Proof.
  unfold GetStringMapFromAnnotation, SetAnnotationFromStringMap. case_decide as E.
  - subst key'. rewrite lookup_insert_eq, bool_decide_eq_false_2 by apply json_map_nonempty.
    by rewrite unjson_json_map.
  - by rewrite lookup_insert_ne by congruence.
Qed.

(** *** Step by step *)

Lemma metadata_update_iff key d m :
  metadata_update_needed key d m =
  if decide (GetStringMapFromAnnotation (dpu_Annotations d) key = m) then None
  else Some (m, GetRemovedLabels (GetStringMapFromAnnotation (dpu_Annotations d) key) m).
Proof. unfold metadata_update_needed. case_bool_decide; case_decide; congruence. Qed.

(** The part of a DPU the steps leave alone. *)
Definition same_dpu (d d' : DPU) : Prop :=
  (dpu_Name d', dpu_Namespace d', dpu_UID d', dpu_Generation d') = (dpu_Name d, dpu_Namespace d, dpu_UID d, dpu_Generation d) ∧
  (dpu_Labels d', dpu_Finalizers d', dpu_CreationTimestamp d', dpu_DeletionTimestamp d', dpu_Status d') =
    (dpu_Labels d, dpu_Finalizers d, dpu_CreationTimestamp d, dpu_DeletionTimestamp d, dpu_Status d) ∧
  (sp_DPUNodeName (dpu_Spec d'), sp_DPUDeviceName (dpu_Spec d'), sp_PCIAddress (dpu_Spec d')) =
    (sp_DPUNodeName (dpu_Spec d), sp_DPUDeviceName (dpu_Spec d), sp_PCIAddress (dpu_Spec d)) ∧
  (sp_BFB (dpu_Spec d'), sp_BlueFieldSoftware (dpu_Spec d'), sp_DPUFlavor (dpu_Spec d'), sp_SecureBoot (dpu_Spec d')) =
    (sp_BFB (dpu_Spec d), sp_BlueFieldSoftware (dpu_Spec d), sp_DPUFlavor (dpu_Spec d), sp_SecureBoot (dpu_Spec d)) ∧
  (kc_Name (sp_Cluster (dpu_Spec d')), kc_Namespace (sp_Cluster (dpu_Spec d'))) =
    (kc_Name (sp_Cluster (dpu_Spec d)), kc_Namespace (sp_Cluster (dpu_Spec d))).

Lemma same_dpu_refl d : same_dpu d d.
Proof. done. Qed.
Lemma same_dpu_trans d1 d2 d3 : same_dpu d1 d2 → same_dpu d2 d3 → same_dpu d1 d3.
Proof. unfold same_dpu. naive_solver congruence. Qed.

Lemma same_dpu_Status d d' : same_dpu d d' → dpu_Status d' = dpu_Status d.
Proof. intros (_ & H & _). congruence. Qed.

(** What step 1 establishes: the cluster metadata of a DPU. *)
Record metadata_of (d0 : DPU) (sel : option string) (ul ua : gmap string string) (d : DPU) : Prop := {
  mo_labels_applied : GetStringMapFromAnnotation (dpu_Annotations d) LastAppliedLabelsOnDPUKey = ul;
  mo_annotations_applied : GetStringMapFromAnnotation (dpu_Annotations d) LastAppliedAnnotationsOnDPUKey = ua;
  mo_labels : let last := GetStringMapFromAnnotation (dpu_Annotations d0) LastAppliedLabelsOnDPUKey in
    kc_NodeLabels (sp_Cluster (dpu_Spec d)) =
      if decide (last = ul) then kc_NodeLabels (sp_Cluster (dpu_Spec d0))
      else apply_entries last ul (kc_NodeLabels (sp_Cluster (dpu_Spec d0)));
  mo_annotations : let last := GetStringMapFromAnnotation (dpu_Annotations d0) LastAppliedAnnotationsOnDPUKey in
    kc_NodeAnnotations (sp_Cluster (dpu_Spec d)) =
      if decide (last = ua) then kc_NodeAnnotations (sp_Cluster (dpu_Spec d0))
      else apply_entries last ua (kc_NodeAnnotations (sp_Cluster (dpu_Spec d0)));
  mo_selector : kc_Selector (sp_Cluster (dpu_Spec d)) = sel;
  mo_effect : sp_NodeEffect (dpu_Spec d) = sp_NodeEffect (dpu_Spec d0);
  mo_same : same_dpu d0 d }.

Lemma updateLabelsAndAnnotations_spec d dpuSet ul ua :
  let r := updateLabelsAndAnnotationsForDPU d dpuSet ul ua in
  let sel := t_Cluster (ds_Template dpuSet) ≫= cl_Selector in
  metadata_of d sel ul ua r.2 ∧
  (r.1 = false ↔ GetStringMapFromAnnotation (dpu_Annotations d) LastAppliedLabelsOnDPUKey = ul ∧
     GetStringMapFromAnnotation (dpu_Annotations d) LastAppliedAnnotationsOnDPUKey = ua ∧
     kc_Selector (sp_Cluster (dpu_Spec d)) = sel) ∧
  (r.1 = false → r.2 = d).
Proof.
  cbn zeta. unfold updateLabelsAndAnnotationsForDPU, isNodeLabelUpdateNeeded, isNodeAnnotationUpdateNeeded.
  rewrite !metadata_update_iff.
  destruct (decide (GetStringMapFromAnnotation (dpu_Annotations d) LastAppliedLabelsOnDPUKey = ul)) as [E1|N1],
    (decide (GetStringMapFromAnnotation (dpu_Annotations d) LastAppliedAnnotationsOnDPUKey = ua)) as [E2|N2];
    destruct (t_Cluster (ds_Template dpuSet) ≫= cl_Selector) as [sel|]; simpl; case_bool_decide as Hsel; simpl;
    (split; [constructor; simpl; rewrite ?GetStringMap_set; repeat case_decide; try done; try (by apply eq_None_not_Some)|]);
    try (split; [|done]); try (split; naive_solver).
  all: try (split; [naive_solver|]; intros (_ & _ & E); exfalso; apply Hsel; rewrite ?E; eauto).
  all: try (rewrite eq_None_not_Some; naive_solver).
Qed.

(** The effect of the template on a DPU, steps 2 to 4. *)
Definition wanted_effect (dpuSet : DPUSet) (d : DPU) : NodeEffect :=
  let t := t_NodeEffect (ds_Template dpuSet) in
  mkNodeEffect (if decide (st_Phase (dpu_Status d) = DPUReady) then ne_Action t else ne_Action (sp_NodeEffect (dpu_Spec d)))
    (mkUpgradePolicy (up_ApplyOnLabelChange (ne_UpgradePolicy t)) (sort_Strings (template_requestors dpuSet))).

Lemma effect_steps_spec dpuSet d :
  let '(u2, d2) := updateNodeEffectAction dpuSet d in
  let '(u3, d3) := updateNodeEffectApplyOnLabelChange dpuSet d2 in
  let '(u4, d4) := updateNodeMaintenanceAdditionalRequestors d3 (template_requestors dpuSet) in
  d4 = on_effect (λ _, wanted_effect dpuSet d) d ∧
  (u2 || u3 || u4 = false ↔
     wanted_effect dpuSet d = with_additional_requestors (sort_Strings (additional_requestors d)) (sp_NodeEffect (dpu_Spec d))).
Proof.
  unfold updateNodeEffectAction, updateNodeEffectApplyOnLabelChange, updateNodeMaintenanceAdditionalRequestors,
    wanted_effect, additional_requestors, on_effect, with_additional_requestors.
  destruct d as [n1 n2 n3 n4 n5 n6 n7 n8 n9 [s1 s2 s3 s4 s5 [act [alc rq]] s7 s8 s9] st]; simpl.
  destruct (decide (st_Phase st = DPUReady)) as [Hr|Hr]; [rewrite bool_decide_eq_true_2 by done|rewrite bool_decide_eq_false_2 by done];
    simpl; repeat (case_bool_decide; simpl in * ); simplify_eq/=.
  all: split; [unfold with_Spec, with_NodeEffect; simpl; congruence|].
  all: split; [intros ?; congruence|intros [=]; try done; exfalso; congruence].
Qed.

Lemma update_spec_result dpuSet ul ua d :
  let r := update_spec dpuSet ul ua d in
  let d1 := (updateLabelsAndAnnotationsForDPU d dpuSet ul ua).2 in
  r.2 = on_effect (λ _, wanted_effect dpuSet d) d1 ∧
  (r.1 = false ↔ (updateLabelsAndAnnotationsForDPU d dpuSet ul ua).1 = false ∧
     wanted_effect dpuSet d = with_additional_requestors (sort_Strings (additional_requestors d)) (sp_NodeEffect (dpu_Spec d))).
Proof.
  cbn zeta. unfold update_spec. destruct (updateLabelsAndAnnotations_spec d dpuSet ul ua) as (Hm & _ & _).
  destruct (updateLabelsAndAnnotationsForDPU d dpuSet ul ua) as [u1 d1]. simpl in *.
  pose proof (effect_steps_spec dpuSet d1) as He.
  assert (wanted_effect dpuSet d1 = wanted_effect dpuSet d) as Hw.
  { unfold wanted_effect. by rewrite (mo_effect _ _ _ _ _ Hm), (same_dpu_Status _ _ (mo_same _ _ _ _ _ Hm)). }
  destruct (updateNodeEffectAction dpuSet d1) as [u2 d2].
  destruct (updateNodeEffectApplyOnLabelChange dpuSet d2) as [u3 d3].
  destruct (updateNodeMaintenanceAdditionalRequestors d3 _) as [u4 d4]. simpl. rewrite Hw in He.
  destruct He as [-> He]. split; [done|].
  assert (additional_requestors d1 = additional_requestors d) as Er by (unfold additional_requestors; by rewrite (mo_effect _ _ _ _ _ Hm)).
  rewrite Er, (mo_effect _ _ _ _ _ Hm) in He. rewrite <- He. destruct u1; simpl; naive_solver.
Qed.

(** The result asks for no further update. *)
Lemma update_spec_stable dpuSet ul ua d : (update_spec dpuSet ul ua (update_spec dpuSet ul ua d).2).1 = false.
Proof.
  destruct (update_spec_result dpuSet ul ua d) as [E _]. apply (update_spec_result dpuSet ul ua). rewrite E.
  destruct (updateLabelsAndAnnotations_spec d dpuSet ul ua) as (Hm & _ & _).
  set (d1 := (updateLabelsAndAnnotationsForDPU d dpuSet ul ua).2) in *. split.
  - apply updateLabelsAndAnnotations_spec. destruct Hm. auto.
  - unfold wanted_effect, additional_requestors, on_effect, with_additional_requestors. simpl.
    rewrite sort_Strings_idemp, (same_dpu_Status _ _ (mo_same _ _ _ _ _ Hm)). by case_decide.
Qed.

(** The order of the template's requestors does not matter. *)
Lemma update_dpu_sorted dpuSet h ul ua d :
  update_dpu (sort_template_requestors dpuSet) h ul ua d = update_dpu dpuSet h ul ua d.
Proof.
  unfold update_dpu, update_spec. f_equal.
  change (updateLabelsAndAnnotationsForDPU d (sort_template_requestors dpuSet) ul ua)
    with (updateLabelsAndAnnotationsForDPU d dpuSet ul ua).
  destruct (updateLabelsAndAnnotationsForDPU d dpuSet ul ua) as [u1 d1].
  change (updateNodeEffectAction (sort_template_requestors dpuSet) d1) with (updateNodeEffectAction dpuSet d1).
  destruct (updateNodeEffectAction dpuSet d1) as [u2 d2].
  change (updateNodeEffectApplyOnLabelChange (sort_template_requestors dpuSet) d2)
    with (updateNodeEffectApplyOnLabelChange dpuSet d2).
  destruct (updateNodeEffectApplyOnLabelChange dpuSet d2) as [u3 d3].
  unfold updateNodeMaintenanceAdditionalRequestors.
  change (template_requestors (sort_template_requestors dpuSet)) with (sort_Strings (template_requestors dpuSet)).
  by rewrite sort_Strings_idemp.
Qed.

(** A DPU whose device is selected, with the metadata merged for it. *)
Definition has_metadata (dpuSet : DPUSet) (dpuDeviceMap : gmap string DPUDevice) (d : DPU)
    (ul ua : gmap string string) : Prop :=
  ∃ dev, dpuDeviceMap !! sp_DPUDeviceName (dpu_Spec d) = Some dev ∧
    MergeDPUClusterNodeMetadata (cluster_metadata dpuSet) (dd_NodeLabels dev) = Ok (ul, ua).

Definition is_update (dpuSet : DPUSet) (h : string) (devs : gmap string DPUDevice) (d d' : DPU) : Prop :=
  ∃ ul ua, has_metadata dpuSet devs d ul ua ∧ update_dpu dpuSet h ul ua d = (true, d').

Lemma is_update_sorted dpuSet h devs d d' :
  is_update (sort_template_requestors dpuSet) h devs d d' → is_update dpuSet h devs d d'.
Proof. intros (ul & ua & Hm & Hu). exists ul, ua. rewrite update_dpu_sorted in Hu. done. Qed.

Lemma is_update_unsorted dpuSet h devs d d' :
  is_update dpuSet h devs d d' → is_update (sort_template_requestors dpuSet) h devs d d'.
Proof. intros (ul & ua & Hm & Hu). exists ul, ua. rewrite update_dpu_sorted. done. Qed.

Lemma update_loop_log {W} {C : SetClient W} h devs dpus : ∀ dpuSet any (w : W) l,
  let r := update_loop (C:=traced C) h devs dpuSet any dpus (w, l) in
  ∃ k, r.2.2 = l ++ k ∧
    Forall (λ x, ∃ d d' e, d ∈ dpus.*2 ∧ x = WPatch d d' e ∧ is_update dpuSet h devs d d') k ∧
    ∀ b, r.1.1 = Ok b →
      b = any || negb (bool_decide (k = [])) ∧
      ∀ d d', d ∈ dpus.*2 → is_update dpuSet h devs d d' → WPatch d d' None ∈ k.
Proof.
  induction dpus as [|[key d] dpus IH]; intros dpuSet any w l.
  { exists []. rewrite app_nil_r. split; [done|]. split; [done|]. intros b [= <-]. rewrite orb_false_r.
    split; [done|]. by intros ? ? ?%elem_of_nil. }
  cbn [update_loop]. rewrite fmap_cons. cbn [snd].
  destruct (devs !! sp_DPUDeviceName (dpu_Spec d)) as [dev|] eqn:Edev.
  2: { destruct (IH dpuSet any w l) as (k & -> & Hf & Hok). exists k. split; [done|]. split.
       - eapply Forall_impl; [done|]. intros x (d0 & d' & e & Hin & H). exists d0, d', e. split; [by right|done].
       - intros b Hb. destruct (Hok b Hb) as [-> H]. split; [done|]. intros d0 d' [->|Hin]%elem_of_cons Hu; [|by apply H].
         destruct Hu as (? & ? & (dev & ? & _) & _). congruence. }
  destruct (MergeDPUClusterNodeMetadata _ _) as [[ul ua]|err] eqn:Em.
  2: { exists []. rewrite app_nil_r. split; [done|]. by split. }
  assert (has_metadata dpuSet devs d ul ua) as Hm by (exists dev; done).
  assert (∀ u d', update_dpu dpuSet h ul ua d = (u, d') → ∀ d'', is_update dpuSet h devs d d'' → u = true ∧ d'' = d') as Hfun.
  { intros u d' E d'' (ul' & ua' & (dev' & E1 & E2) & E3). rewrite Edev in E1. injection E1 as <-. rewrite Em in E2. injection E2 as <- <-. rewrite E in E3. by injection E3 as -> ->. }
  destruct (update_dpu dpuSet h ul ua d) as [u d'] eqn:Eu. specialize (Hfun u d' eq_refl). destruct u.
  - unfold mbind, SM_bind. simpl. unfold logged. simpl. destruct (patchSetDPU d d' w) as [[e|] w1]; simpl.
    + exists [WPatch d d' (Some e)]. split; [done|]. split; [|done]. apply Forall_singleton. exists d, d', (Some e).
      split; [left|]. split; [done|]. by exists ul, ua.
    + destruct (IH (sort_template_requestors dpuSet) true w1 (l ++ [WPatch d d' None])) as (k & -> & Hf & Hok).
      exists (WPatch d d' None :: k). rewrite <- app_assoc. split; [done|]. split.
      * constructor; [exists d, d', None; split; [left|]; split; [done|]; by exists ul, ua|].
        eapply Forall_impl; [done|]. intros x (d0 & d1 & e & Hin & -> & Hu%is_update_sorted). exists d0, d1, e. by split; [right|].
      * intros b Hb. destruct (Hok b Hb) as [-> H]. rewrite (bool_decide_eq_false_2 (_ :: _ = [])) by done. rewrite orb_true_r.
        split; [done|]. intros d0 d1 [->|Hin]%elem_of_cons Hu; [destruct (Hfun _ Hu) as [_ ->]; left|].
        right. by apply H, is_update_unsorted.
  - destruct (IH (sort_template_requestors dpuSet) any w l) as (k & -> & Hf & Hok). exists k. split; [done|]. split.
    + eapply Forall_impl; [done|]. intros x (d0 & d1 & e & Hin & -> & Hu%is_update_sorted). exists d0, d1, e. by split; [right|].
    + intros b Hb. destruct (Hok b Hb) as [-> H]. split; [done|]. intros d0 d1 [->|Hin]%elem_of_cons Hu; [by destruct (Hfun _ Hu)|].
      by apply H, is_update_unsorted.
Qed.

(** ** Properties *)

(** What [UpdateDPUs] makes of a DPU: the entries the template and the device
    ask for are set on its cluster node metadata and those asked for before and
    no longer are removed, when they differ from what was applied last; the
    selector, the node effect of a Ready DPU, ApplyOnLabelChange and the sorted
    additional requestors are those of the template.  BFB, software, flavor,
    secure boot, the cluster, the status and the metadata other than the
    bookkeeping annotations and the hash label stay.  A second pass changes
    nothing but possibly the hash.  The hash of the template moves only onto a
    DPU that needed no other change, is in phase Ready and was reconciled at its
    current generation. *)
Theorem update_dpu_spec dpuSet h ul ua d :
  let r := update_dpu dpuSet h ul ua d in
  let last := GetStringMapFromAnnotation (dpu_Annotations d) LastAppliedLabelsOnDPUKey in
  same_dpu d (with_Labels (dpu_Labels d) r.2) ∧
  (last ≠ ul → ∀ k, kc_NodeLabels (sp_Cluster (dpu_Spec r.2)) !! k =
     match ul !! k with
     | Some v => Some v
     | None => if decide (is_Some (last !! k)) then None else kc_NodeLabels (sp_Cluster (dpu_Spec d)) !! k
     end) ∧
  (last = ul → kc_NodeLabels (sp_Cluster (dpu_Spec r.2)) = kc_NodeLabels (sp_Cluster (dpu_Spec d))) ∧
  kc_Selector (sp_Cluster (dpu_Spec r.2)) = t_Cluster (ds_Template dpuSet) ≫= cl_Selector ∧
  sp_NodeEffect (dpu_Spec r.2) = wanted_effect dpuSet d ∧
  (update_spec dpuSet ul ua r.2).1 = false ∧
  (dpu_Labels r.2 ≠ dpu_Labels d →
     dpu_Labels r.2 = <[DPUSetDPUTemplateSpecHashLabelKey := h]> (dpu_Labels d) ∧
     (update_spec dpuSet ul ua d).1 = false ∧ st_Phase (dpu_Status d) = DPUReady ∧
     st_ObservedGeneration (dpu_Status d) = dpu_Generation d).
Proof.
  cbn zeta. unfold update_dpu. pose proof (update_spec_stable dpuSet ul ua d) as Hst.
  destruct (update_spec_result dpuSet ul ua d) as [E _].
  destruct (updateLabelsAndAnnotations_spec d dpuSet ul ua) as (Hm & _ & _).
  set (d1 := (updateLabelsAndAnnotationsForDPU d dpuSet ul ua).2) in *.
  destruct (update_spec dpuSet ul ua d) as [u d4]. simpl in E, Hst. subst d4.
  set (d4 := on_effect (λ _, wanted_effect dpuSet d) d1) in *.
  assert (∀ L, (update_spec dpuSet ul ua (with_Labels L d4)).1 = (update_spec dpuSet ul ua d4).1) as HL.
  { intros L.
    pose proof (update_spec_result dpuSet ul ua (with_Labels L d4)) as [_ H1].
    pose proof (update_spec_result dpuSet ul ua d4) as [_ H2].
    destruct (updateLabelsAndAnnotations_spec (with_Labels L d4) dpuSet ul ua) as (_ & H3 & _).
    destruct (updateLabelsAndAnnotations_spec d4 dpuSet ul ua) as (_ & H4 & _).
    rewrite H3 in H1. rewrite H4 in H2. simpl in H1, H2.
    destruct (update_spec dpuSet ul ua (with_Labels L d4)).1, (update_spec dpuSet ul ua d4).1; naive_solver. }
  assert (dpu_Labels d4 = dpu_Labels d) as El by (destruct Hm as [_ _ _ _ _ _ (_ & H & _)]; simpl; congruence).
  assert (dpu_Status d4 = dpu_Status d) as Es by apply (same_dpu_Status _ _ (mo_same _ _ _ _ _ Hm)).
  assert (dpu_Generation d4 = dpu_Generation d) as Eg by (destruct Hm as [_ _ _ _ _ _ (H & _)]; simpl; congruence).
  unfold update_hash.
  destruct (negb u && _ && _) eqn:Eh; simpl.
  - apply andb_true_iff in Eh as [[Eu%negb_true_iff _]%andb_true_iff [Eo%Z.eqb_eq Ep%bool_decide_eq_true]%andb_true_iff].
    rewrite Es in Eo, Ep. rewrite Eg in Eo.
    split_and!; try (by apply (mo_selector _ _ _ _ _ Hm)); try done.
    + destruct Hm as [_ _ _ _ _ _ H]. destruct H as (H1 & H2 & H3 & H4 & H5). split_and!; simpl; try done. congruence.
    + intros Hne k. rewrite (mo_labels _ _ _ _ _ Hm), decide_False by done. apply lookup_apply_entries.
    + intros He. rewrite (mo_labels _ _ _ _ _ Hm). by rewrite decide_True.
    + by rewrite HL.
    + intros _. by rewrite <- El.
  - split_and!; try (by apply (mo_selector _ _ _ _ _ Hm)); try done.
    + destruct Hm as [_ _ _ _ _ _ H]. destruct H as (H1 & H2 & H3 & H4 & H5). split_and!; simpl; try done. congruence.
    + intros Hne k. rewrite (mo_labels _ _ _ _ _ Hm), decide_False by done. apply lookup_apply_entries.
    + intros He. rewrite (mo_labels _ _ _ _ _ Hm). by rewrite decide_True.
Qed.
End UpdateLemmas.

(** [UpdateDPUs] writes exactly the DPUs that need an update and whose device
    is selected, each with the content [update_dpu_spec] describes, whatever
    order the map is visited in; a pass without an error has written all of them
    and reports whether there was one. *)
Theorem UpdateDPUs_writes {K : Codec} {R : MapRange} {RL : MapRangeLaws R} {W} {C : SetClient W}
    dpuSet dpuMap devs (w : W) :
  let r := UpdateDPUs (C:=traced C) dpuSet dpuMap devs (w, []) in
  let update := is_update dpuSet (template_hash (ds_Labels dpuSet)) devs in
  Forall (λ x, ∃ k d d' e, dpuMap !! k = Some d ∧ x = WPatch d d' e ∧ update d d') r.2.2 ∧
  ∀ b, r.1.1 = Ok b →
    (b = true ↔ r.2.2 ≠ []) ∧
    ∀ k d d', dpuMap !! k = Some d → update d d' → WPatch d d' None ∈ r.2.2.
Proof.
  cbn zeta. unfold UpdateDPUs.
  destruct (update_loop_log (template_hash (ds_Labels dpuSet)) devs (range_map dpuMap) dpuSet false w [])
    as (k & -> & Hf & Hok). simpl. split.
  - eapply Forall_impl; [done|]. intros x (d & d' & e & ([key d0] & -> & Hin)%list_elem_of_fmap & H).
    apply elem_of_range_map in Hin. by exists key, d0, d', e.
  - intros b Hb. destruct (Hok b Hb) as [-> H]. split; [simpl; by rewrite negb_true_iff, bool_decide_eq_false|].
    intros key d d' Hd. apply H. apply list_elem_of_fmap. exists (key, d). split; [done|]. by apply elem_of_range_map.
Qed.

(** The outdated status that a pass writes: only on DPUs that are not being
    deleted and whose status does not say what the template implies, and nothing
    else of the DPU changes; a pass without an error has written all of these,
    except DPUs that are gone.  Afterwards the status is there iff the DPU is
    outdated, with the reason and the message of the drift; the time stamp is
    that of the status before as long as the reason stays, the current time
    otherwise, and a further pass with the same template writes nothing. *)
Theorem reconcileDPUOutdatedStatus_spec {S : SelectorAPI} {R : MapRange} {RL : MapRangeLaws R} {W} {C : SetClient W}
    now dpuSet dpuMap clusters evals (w : W) :
  let r := reconcileDPUOutdatedStatus (C:=traced C) now dpuSet dpuMap clusters evals (w, []) in
  let desired d := desired_outdated dpuSet d clusters (eval_of evals (dpu_Name d)) in
  let due d := deleting d = false ∧ outdatedNeedsUpdate (st_Outdated (dpu_Status d)) (desired d) = true in
  let target d := patched_outdated now d (desired d) in
  (∀ x, x ∈ r.2.2 → ∃ k d e, dpuMap !! k = Some d ∧ due d ∧ x = WStatus d (target d) e) ∧
  (r.1 = None → ∀ k d, dpuMap !! k = Some d → due d →
     ∃ e, WStatus d (target d) e ∈ r.2.2 ∧ from_option IsNotFound true e = true) ∧
  ∀ d, outdatedNeedsUpdate (st_Outdated (dpu_Status (target d))) (desired (target d)) = false ∧
    match detectOutdated dpuSet d clusters (eval_of evals (dpu_Name d)) with
    | None => st_Outdated (dpu_Status (target d)) = None
    | Some (reason, msg) => ∃ t, st_Outdated (dpu_Status (target d)) = Some (mkDPUOutdated t reason msg) ∧
        match st_Outdated (dpu_Status d) with
        | Some o => t = if decide (od_Reason o = reason) then od_TimeStamp o else now
        | None => t = now
        end
    end.
Proof.
  cbn zeta.
  set (desired := λ d, desired_outdated dpuSet d clusters (eval_of evals (dpu_Name d))).
  set (due := λ d, deleting d = false ∧ outdatedNeedsUpdate (st_Outdated (dpu_Status d)) (desired d) = true).
  set (target := λ d, patched_outdated now d (desired d)).
  destruct (for_each_log (λ kd : string * DPU, reconcile_outdated (C:=traced C) now dpuSet clusters evals kd.2) (range_map dpuMap)
    (λ kd x, due kd.2 ∧ ∃ e, x = WStatus kd.2 (target kd.2) e)
    (λ kd k, due kd.2 → ∃ e, WStatus kd.2 (target kd.2) e ∈ k ∧ from_option IsNotFound true e = true))
    with (w:=w) (l:=@nil Write) as (ks & E & (xs' & Hpre & Hf) & Hok).
  { intros [key d] w0 l _. unfold reconcile_outdated. simpl. destruct (deleting d) eqn:Hd.
    { exists None, w0, []. rewrite app_nil_r. split; [done|]. split; [done|]. intros _ [? _]. simpl in *. congruence. }
    destruct (outdatedNeedsUpdate _ _) eqn:Hn; simpl.
    2: { exists None, w0, []. rewrite app_nil_r. split; [done|]. split; [done|]. intros _ [_ H]. simpl in *.
         unfold desired in H. congruence. }
    unfold mbind, SM_bind. unfold logged. simpl.
    destruct (mergePatchDPUStatus d _ w0) as [e w1]. eexists _, w1, [WStatus d (target d) e]. split; [reflexivity|].
    split; [apply Forall_singleton; split; [done|by exists e]|]. intros He _. exists e. split; [left|].
    destruct e as [err|]; simpl in *; [by destruct (IsNotFound err)|done]. }
  unfold reconcileDPUOutdatedStatus. cbn [app] in E. rewrite E. split_and!.
  - intros x Hx. apply list_elem_of_In, in_concat in Hx as (k & Hk & Hx). rewrite <- !list_elem_of_In in *.
    destruct (Forall2_right_witness _ _ _ _ Hf Hk) as ([key d] & Hin & Hall).
    rewrite Forall_forall in Hall. destruct (Hall x Hx) as [Hdue [e ->]]. exists key, d, e.
    split; [|done]. apply elem_of_range_map. destruct Hpre as [t ->]. apply elem_of_app. by left.
  - intros Hr k d Hd Hdue. apply elem_of_range_map in Hd.
    destruct (Forall2_left_witness _ _ _ _ (Hok Hr) Hd) as (k' & Hin & Hdone).
    destruct (Hdone Hdue) as (e & He & Hnf). exists e. split; [|done].
    apply list_elem_of_In, in_concat. exists k'. by rewrite <- !list_elem_of_In.
  - intros d. split; [apply outdatedNeedsUpdate_stamped|]. unfold target, desired, desired_outdated, patched_outdated. simpl.
    destruct (detectOutdated _ _ _ _) as [[reason msg]|]; simpl; [|done]. eexists. split; [done|].
    destruct (st_Outdated (dpu_Status d)) as [o|]; [|done]. by case_bool_decide; case_decide.
Qed.

(** Replacing a DPU ends: a DPU that [createDPU] makes from the template (in
    static-flavor mode) for a device has no drift from it, whatever clusters
    there are, is not outdated, and [UpdateDPUs] finds nothing to update on it as
    long as template and device stay the same. *)
Theorem created_DPU_settled {S : SelectorAPI} {K : Codec} {KL : CodecLaws K} {R : MapRange} {RL : MapRangeLaws R}
    version dpuSet dev dpu :
  newDPU version dpuSet dev = Ok dpu → isTemplateMode dpuSet = false →
  (∀ clusters eval, computeDPUDrift dpuSet dpu clusters eval = [] ∧ detectOutdated dpuSet dpu clusters eval = None) ∧
  ∀ devs h d', devs !! dd_Name dev = Some dev → ¬ is_update dpuSet h devs dpu d'.
Proof.
  intros Hnew Hmode. split.
  - intros clusters eval. unfold detectOutdated. by rewrite (newDPU_no_drift _ _ _ _ _ _ Hnew (or_introl Hmode)).
  - intros devs h d' Hdev (ul & ua & (dev' & Hd & Hmerge) & Hu). unfold newDPU in Hnew.
    destruct (dd_Labels dev !! DPUNodeNameLabel) as [node|]; [|done].
    destruct (MergeDPUClusterNodeMetadata (cluster_metadata dpuSet) (dd_NodeLabels dev)) as [[ul' ua']|] eqn:Em; [|done].
    destruct (GenerateDPUName _ _) as [name|]; [|done].
    assert (dd_Name dev = sp_DPUDeviceName (dpu_Spec dpu)) as En by (by injection Hnew as <-).
    rewrite <- En, Hdev in Hd. injection Hd as <-. rewrite Em in Hmerge. injection Hmerge as -> ->.
    injection Hnew as <-. unfold update_dpu in Hu.
    match type of Hu with context [update_spec _ _ _ ?d] => set (d0 := d) in * end.
    assert ((update_spec dpuSet ul ua d0).1 = false) as Hf.
    { apply update_spec_result. split.
      - apply updateLabelsAndAnnotations_spec. unfold d0. simpl. rewrite !GetStringMap_set.
        rewrite decide_False by done. rewrite !decide_True by done. split_and!; [done..|]. by destruct (t_Cluster _).
      - unfold wanted_effect. rewrite decide_False by done. unfold d0, additional_requestors, with_additional_requestors. simpl.
        reflexivity. }
    pose proof (update_spec_result dpuSet ul ua d0) as [E _].
    destruct (updateLabelsAndAnnotations_spec d0 dpuSet ul ua) as (Hm & _ & _).
    destruct (update_spec dpuSet ul ua d0) as [u d1]. simpl in Hf, E. subst u.
    unfold update_hash in Hu. rewrite andb_comm in Hu.
    assert (st_Phase (dpu_Status d1) = DPUPhaseUnset) as Hp.
    { rewrite E. simpl. by rewrite (same_dpu_Status _ _ (mo_same _ _ _ _ _ Hm)). }
    rewrite Hp, (bool_decide_eq_false_2 (DPUPhaseUnset = DPUReady)), andb_false_r in Hu by done. simpl in Hu. congruence.
Qed.

(** ** Witnesses *)

Definition example_set_device : DPUDevice :=
  mkDPUDevice "a" "ns" {[ DPUNodeNameLabel := "node" ]} [] None None DPUTypeBlueField3 "" None (Some "0000:03:00") None.
Definition example_new : Res DPU :=
  newDPU (K:=fake_codec) (R:=map_to_list_range) "v1" example_set example_set_device.

Lemma created_DPU_settled_witness :
  match example_new with
  | Ok dpu => dpu_Name dpu = "node-a" ∧ ∀ clusters, computeDPUDrift (S:=fake_selectors) example_set dpu clusters no_eval = []
  | Err _ => False
  end.
Proof.
  destruct example_new as [dpu|e] eqn:E; [|vm_compute in E; discriminate E].
  split; [vm_compute in E; by injection E as <-|]. intros clusters.
  exact (proj1 (proj1 (created_DPU_settled (S:=fake_selectors) (K:=fake_codec) (R:=map_to_list_range) "v1" example_set
                         example_set_device dpu E eq_refl) clusters no_eval)).
Defined.

Lemma update_dpu_spec_witness :
  ∃ d, (update_spec (K:=fake_codec) (R:=map_to_list_range) example_set {["l" := "v"]} ∅ d).1 = false.
Proof.
  exists (update_dpu (K:=fake_codec) (R:=map_to_list_range) example_set "h" {["l" := "v"]} ∅ (example_drifting "a" ConditionTrue)).2.
  apply (update_dpu_spec (K:=fake_codec) (R:=map_to_list_range) example_set "h" {["l" := "v"]} ∅ (example_drifting "a" ConditionTrue)).
Defined.

Lemma UpdateDPUs_writes_witness :
  let w := with_dpus (list_to_map ((λ d, (dpu_key d, d)) <$> (map_to_list example_owned).*2)) empty_world in
  let r := UpdateDPUs (K:=fake_codec) (R:=map_to_list_range) (C:=traced fake_set_client) example_set example_owned ∅ (w, []) in
  r.1.1 = Ok false ∧ ¬ r.2.2 ≠ [].
Proof.
  split; [vm_compute; reflexivity|].
  match goal with |- ¬ ?t.2.2 ≠ [] => assert (t.1.1 = Ok false) as Hr by (vm_compute; reflexivity) end.
  intros Hne. apply (proj2 (UpdateDPUs_writes (K:=fake_codec) (R:=map_to_list_range) (C:=fake_set_client) example_set example_owned ∅ _) _ Hr) in Hne.
  discriminate Hne.
Defined.

Lemma reconcileDPUOutdatedStatus_spec_witness :
  let w := with_dpus (list_to_map ((λ d, (dpu_key d, d)) <$> (map_to_list example_owned).*2)) empty_world in
  let r := reconcileDPUOutdatedStatus (C:=traced fake_set_client) (S:=fake_selectors) (R:=map_to_list_range) 7 example_set example_owned [] ∅ (w, []) in
  ∃ d e, WStatus (example_drifting "a" ConditionTrue) d e ∈ r.2.2.
Proof.
  match goal with |- let w := ?w0 in _ => pose proof (reconcileDPUOutdatedStatus_spec (C:=fake_set_client) (S:=fake_selectors)
    (R:=map_to_list_range) 7 example_set example_owned [] ∅ w0) as (_ & H & _) end.
  cbv zeta in H |- *. destruct (H ltac:(vm_compute; reflexivity) "a" (example_drifting "a" ConditionTrue)) as (e & He & _).
  - vm_compute. reflexivity.
  - split; vm_compute; reflexivity.
  - eexists _, e. exact He.
Defined.
