(* ===== verification/DPUSetInPlace.v ===== *)
(** Rounds of in-place reconfiguration (inplace_reconfig.go of the DPUSet
    controller).

    The annotation [DPUSetInPlaceReconfigAnnotation] with the value "true" opens a
    round.  In each pass the DPUs that are done are completed, then DPUs that are
    still members of the round are marked, as far as the budget that the rolling
    update uses as well allows.  A DPU that is marked is taken through the
    reconfiguration by its own controller (ReadyPhases.v and DPUController.v).

    The lists of plans are the slice [planned] of the code; the writes clear
    entries of it, so the functions that write return it. *)

From S2P Require Import Prelude.
From S2P Require Import Meta.
From S2P Require Import Conditions.
From S2P Require Import DPUTypes.
From S2P Require Import DPUConditions.
From S2P Require Import Kubernetes.
From S2P Require Import FakeClient.
From S2P Require Import WriteLog.
From S2P Require Import DPUSetTypes.
From S2P Require Import DPUSetTemplate.
From S2P Require Import DPUSetRollout.
From stdpp Require Import sorting.

(** ** The round of the DPUSet *)

Definition inPlaceReconfigTrue : string := "true".

Definition inPlaceReconfigRequested (dpuSet : DPUSet) : bool :=
  bool_decide (deref (ds_Annotations dpuSet !! DPUSetInPlaceReconfigAnnotation) "" = inPlaceReconfigTrue).

Definition inPlaceRoundActive (dpuSet : DPUSet) : bool :=
  match ds_DPUReconfig dpuSet with None => false | Some status => is_true_ptr (rd_Active status) end.

(** [now] is the time the code reads. *)
Definition ensureInPlaceRound (now : Time) (dpuSet : DPUSet) (requested : bool) : DPUSet :=
  match ds_DPUReconfig dpuSet with
  | Some status =>
      if is_true_ptr (rd_Active status) then
        match rd_StartedAt status with
        | None => with_ds_DPUReconfig (Some (mkDPUSetReconfig (rd_Round status) (rd_Active status) (Some now))) dpuSet
        | Some _ => dpuSet
        end
      else if requested then
        with_ds_DPUReconfig (Some (mkDPUSetReconfig (wrap32 (rd_Round status + 1)) (Some true) (Some now))) dpuSet
      else dpuSet
  | None =>
      if requested then with_ds_DPUReconfig (Some (mkDPUSetReconfig (wrap32 (0 + 1)) (Some true) (Some now))) dpuSet
      else dpuSet
  end.

(** The map that is left empty becomes nil in the code, which is the same map here. *)
Definition clearInPlaceAnnotation (dpuSet : DPUSet) : DPUSet :=
  with_ds_Annotations (delete DPUSetInPlaceReconfigAnnotation (ds_Annotations dpuSet)) dpuSet.

Definition with_rd_Active (active : option bool) (status : DPUSetReconfigStatus) : DPUSetReconfigStatus :=
  mkDPUSetReconfig (rd_Round status) active (rd_StartedAt status).

(** ** The status of a DPU *)

Definition completedRound (status : option DPUReconfigStatus) : Z :=
  match status with None => 0%Z | Some s => rc_CompletedRound s end.

(** A copy; a nil status gives an empty one. *)
Definition cloneReconfig (status : option DPUReconfigStatus) : DPUReconfigStatus :=
  deref status (mkDPUReconfig None 0 0).

Definition with_InProgress (b : option bool) (s : DPUReconfigStatus) : DPUReconfigStatus :=
  mkDPUReconfig b (rc_Round s) (rc_CompletedRound s).
Definition with_CompletedRound (round : Z) (s : DPUReconfigStatus) : DPUReconfigStatus :=
  mkDPUReconfig (rc_InProgress s) (rc_Round s) round.
Definition with_Round (round : Z) (s : DPUReconfigStatus) : DPUReconfigStatus :=
  mkDPUReconfig (rc_InProgress s) round (rc_CompletedRound s).

Definition reconfigEqual (a b : option DPUReconfigStatus) : bool :=
  match a, b with
  | None, None => true
  | Some a, Some b =>
      (rc_Round a =? rc_Round b)%Z && (rc_CompletedRound a =? rc_CompletedRound b)%Z &&
      bool_decide (rc_InProgress a = rc_InProgress b)
  | _, _ => false
  end.

Definition agentSupportsInPlace (dpu : DPU) : bool :=
  match st_AgentStatus (dpu_Status dpu) with None => false | Some a => bool_decide (ag_Version a ≠ "") end.

Definition phaseJoinsWithoutNewSlot (phase : DPUPhase) : bool :=
  match phase with
  | DPUHostNetworkConfiguration | DPUClusterConfig | DPUServiceReadiness
  | DPUNodeEffectRemoval | DPUNodeEffect => true
  | _ => false
  end.

Definition phaseJoinsRound (phase : DPUPhase) : bool :=
  bool_decide (phase = DPUReady) || phaseJoinsWithoutNewSlot phase.

(** [None] is the result with false. *)
Definition readyConditionTime (dpu : DPU) : option Time :=
  if negb (bool_decide (st_Phase (dpu_Status dpu) = DPUReady)) then None
  else match GetDPUCondition (dpu_Status dpu) DPUCondReady with
       | None => None
       | Some (_, cond) => if status_is ConditionTrue cond then Some (c_LastTransitionTime cond) else None
       end.

Definition readyBeforeRound (dpu : DPU) (startedAt : Time) : bool :=
  match readyConditionTime dpu with
  | None => false
  | Some transition => time_is_zero transition || (transition <? startedAt)%Z
  end.

Definition readyAtOrAfter (dpu : DPU) (startedAt : Time) : bool :=
  match readyConditionTime dpu with
  | None => false
  | Some transition => negb (time_is_zero transition) && negb (transition <? startedAt)%Z
  end.

Definition createdAfterRound (dpu : DPU) (startedAt : Time) : bool :=
  negb (time_is_zero (dpu_CreationTimestamp dpu)) && (dpu_CreationTimestamp dpu >? startedAt)%Z.

(** ** Plans *)

(** plannedReconfig *)
Record plannedReconfig := mkPlan { pl_dpu : DPU; pl_next : option DPUReconfigStatus }.

Definition effective (p : plannedReconfig) : option DPUReconfigStatus :=
  match pl_next p with Some next => Some next | None => st_DPUReconfig (dpu_Status (pl_dpu p)) end.

Definition is_outdated (dpu : DPU) : bool := bool_decide (is_Some (st_Outdated (dpu_Status dpu))).

Definition planInPlaceCompletion (dpu : DPU) (round : Z) (startedAt : Time) (stampFirstReady : bool) : plannedReconfig :=
  let current := st_DPUReconfig (dpu_Status dpu) in
  if deleting dpu || negb (agentSupportsInPlace dpu) then mkPlan dpu None
  else if is_outdated dpu then
    mkPlan dpu (if reconfigInProgress current then Some (with_InProgress (Some false) (cloneReconfig current)) else None)
  else if reconfigInProgress current && readyAtOrAfter dpu startedAt then
    mkPlan dpu (Some (with_CompletedRound round (with_InProgress (Some false) (cloneReconfig current))))
  else if stampFirstReady && negb (reconfigInProgress current) && (completedRound current <? round)%Z &&
          readyAtOrAfter dpu startedAt
  then mkPlan dpu (Some (with_CompletedRound round (cloneReconfig current)))
  else mkPlan dpu None.

(** The plan and the slots it takes. *)
Definition planInPlaceStart (dpu : DPU) (round : Z) (startedAt : Time) (allowStart : bool) (slots : Z)
    : plannedReconfig * Z :=
  let current := st_DPUReconfig (dpu_Status dpu) in
  let started := mkPlan dpu (Some (with_Round round (with_InProgress (Some true) (cloneReconfig current)))) in
  if negb allowStart || deleting dpu || is_outdated dpu || negb (agentSupportsInPlace dpu) then (mkPlan dpu None, 0%Z)
  else if reconfigInProgress current || (completedRound current >=? round)%Z || createdAfterRound dpu startedAt
  then (mkPlan dpu None, 0%Z)
  else if readyBeforeRound dpu startedAt then
    if (slots <=? 0)%Z then (mkPlan dpu None, 0%Z) else (started, 1%Z)
  else if phaseJoinsWithoutNewSlot (st_Phase (dpu_Status dpu)) then (started, 0%Z)
  else (mkPlan dpu None, 0%Z).

Definition completionFreedSlot (dpu : DPU) (next : option DPUReconfigStatus) : bool :=
  match next with
  | None => false
  | Some _ => if reconfigInProgress next then false else inProgressStillReady dpu
  end.

Definition inPlaceReadySlots (maxUnavailable totalDPUDevices : Z) (dpus : list DPU) (freed : Z) : Z :=
  let maxSlots := budget maxUnavailable totalDPUDevices in
  let unavailable :=
    foldl (λ unavailable dpu, if isUnavailable dpu || inProgressStillReady dpu then (unavailable + 1)%Z else unavailable)
      (missing totalDPUDevices (Z.of_nat (length dpus))) dpus in
  let unavailable := (unavailable - freed)%Z in
  if (unavailable >=? maxSlots)%Z then 0%Z else (maxSlots - unavailable)%Z.

(** The second loop over the DPUs. *)
Fixpoint plan_starts (round : Z) (startedAt : Time) (allowStart : bool) (slots : Z) (planned : list plannedReconfig)
    : list plannedReconfig :=
  match planned with
  | [] => []
  | p :: planned =>
      match pl_next p with
      | Some _ => p :: plan_starts round startedAt allowStart slots planned
      | None =>
          let '(p, used) := planInPlaceStart (pl_dpu p) round startedAt allowStart slots in
          p :: plan_starts round startedAt allowStart (slots - used)%Z planned
      end
  end.

(** The number of slots the completions give back. *)
Definition freed_slots (planned : list plannedReconfig) : Z :=
  foldl (λ freed p, if completionFreedSlot (pl_dpu p) (pl_next p) then (freed + 1)%Z else freed) 0%Z planned.

(** What a pass plans. *)
Definition plan_round (maxUnavailable totalDPUDevices round : Z) (startedAt : Time) (requested : bool) (dpus : list DPU)
    : list plannedReconfig :=
  let planned := (λ dpu, planInPlaceCompletion dpu round startedAt requested) <$> dpus in
  let slots := inPlaceReadySlots maxUnavailable totalDPUDevices dpus (freed_slots planned) in
  plan_starts round startedAt requested slots planned.

(** ** The end of a round *)

Definition blocksRound (dpu : DPU) (reconfig : option DPUReconfigStatus) (round : Z) (startedAt : Time) : bool :=
  if deleting dpu || is_outdated dpu || negb (agentSupportsInPlace dpu) then false
  else if (completedRound reconfig =? round)%Z || reconfigInProgress reconfig then reconfigInProgress reconfig
  else if createdAfterRound dpu startedAt then false
  else if (completedRound reconfig =? 0)%Z && negb (phaseJoinsRound (st_Phase (dpu_Status dpu))) then false
  else true.

Definition roundHasOutstandingMember (planned : list plannedReconfig) (round : Z) (startedAt : Time) : bool :=
  existsb (λ p, blocksRound (pl_dpu p) (effective p) round startedAt) planned.

Definition roundHasInProgress (planned : list plannedReconfig) : bool :=
  existsb (λ p, negb (deleting (pl_dpu p)) && reconfigInProgress (effective p)) planned.

(** An error is the panic of a nil [StartedAt]. *)
Definition finishInPlaceRound (dpuSet : DPUSet) (requested : bool) (planned : list plannedReconfig) : Res DPUSet :=
  match ds_DPUReconfig dpuSet with
  | None => Ok dpuSet
  | Some status =>
      let closed := with_ds_DPUReconfig (Some (with_rd_Active (Some false) status)) in
      if requested then
        match rd_StartedAt status with
        | None => Err nil_dereference
        | Some startedAt =>
            if roundHasOutstandingMember planned (rd_Round status) startedAt then Ok dpuSet
            else Ok (closed (clearInPlaceAnnotation dpuSet))
        end
      else if roundHasInProgress planned then Ok dpuSet else Ok (closed dpuSet)
  end.

(** ** A pass *)

Section Pass.
Context {W : Type} {C : SetClient W} {R : MapRange}.

(** The object that is written. *)
Definition with_plan (p : plannedReconfig) : DPU :=
  with_Status (with_DPUReconfig (effective p) (dpu_Status (pl_dpu p))) (pl_dpu p).

Definition patchDPUReconfig (plan : plannedReconfig) : SM W (option GoError * plannedReconfig) :=
  let unchanged := mkPlan (pl_dpu plan) None in
  if bool_decide (pl_next plan = None) || reconfigEqual (st_DPUReconfig (dpu_Status (pl_dpu plan))) (pl_next plan)
  then mret (None, unchanged)
  else
    err ← mergePatchDPUStatus (pl_dpu plan) (with_plan plan);
    mret (match err with
          | None => (None, plan)
          | Some e =>
              if IsNotFound e then (None, unchanged)
              else (Some (wrapf ("patch DPU (" +:+ dpu_Namespace (pl_dpu plan) +:+ "/" +:+ dpu_Name (pl_dpu plan)
                                 +:+ ") in-place reconfig: ") e), plan)
          end).

Fixpoint patchInPlacePlans (planned : list plannedReconfig) (starts : bool)
    : SM W (option GoError * list plannedReconfig) :=
  match planned with
  | [] => mret (None, [])
  | p :: planned =>
      if bool_decide (pl_next p = None) || negb (Bool.eqb (reconfigInProgress (pl_next p)) starts) then
        r ← patchInPlacePlans planned starts;
        mret (r.1, p :: r.2)
      else
        r ← patchDPUReconfig p;
        match r.1 with
        | Some err => mret (Some err, r.2 :: planned)
        | None =>
            rs ← patchInPlacePlans planned starts;
            mret (rs.1, r.2 :: rs.2)
        end
  end.

Definition sortedDPUs (dpuMap : gmap string DPU) : list DPU :=
  merge_sort (λ a b, String.le (dpu_Name a) (dpu_Name b)) (range_map dpuMap).*2.

(** The part of a pass after the round is open: the DPUs, the two writes and the end. *)
Definition run_round (maxUnavailable totalDPUDevices : Z) (dpuSet : DPUSet) (requested : bool)
    (round : Z) (startedAt : Time) : SM W (option GoError * DPUSet) :=
  r ← GetDPUsMap dpuSet;
  match r with
  | Err err => mret (Some (wrapf "list DPUs for in-place reconfig: " err), dpuSet)
  | Ok dpuMap =>
      let planned := plan_round maxUnavailable totalDPUDevices round startedAt requested (sortedDPUs dpuMap) in
      c ← patchInPlacePlans planned false;
      match c.1 with
      | Some err => mret (Some err, dpuSet)
      | None =>
          s ← patchInPlacePlans c.2 true;
          match s.1 with
          | Some err => mret (Some err, dpuSet)
          | None =>
              mret (match finishInPlaceRound dpuSet requested s.2 with
                    | Ok dpuSet => (None, dpuSet)
                    | Err e => (Some e, dpuSet)
                    end)
          end
      end
  end.

(** [reconcileInPlaceReconfig]: the error and the DPUSet afterwards. *)
Definition reconcileInPlaceReconfig (now : Time) (maxUnavailable : Z) (dpuSet : DPUSet) (totalDPUDevices : Z)
    : SM W (option GoError * DPUSet) :=
  let requested := inPlaceReconfigRequested dpuSet in
  if negb requested && negb (inPlaceRoundActive dpuSet) then mret (None, dpuSet)
  else
    let dpuSet := ensureInPlaceRound now dpuSet requested in
    match ds_DPUReconfig dpuSet with
    | Some (mkDPUSetReconfig round _ (Some startedAt)) =>
        run_round maxUnavailable totalDPUDevices dpuSet requested round startedAt
    | _ => mret (Some nil_dereference, dpuSet)
    end.
End Pass.

(** ** What a pass may do to a DPU

    The abstract description of a round: the moves of one DPU. *)

Section Moves.
Context (requested : bool) (round : Z) (startedAt : Time).

(** A DPU that takes part: not being deleted, not outdated, with an agent that
    knows in-place reconfiguration. *)
Definition member (d : DPU) : Prop :=
  deleting d = false ∧ st_Outdated (dpu_Status d) = None ∧ agentSupportsInPlace d = true.

Inductive move (d : DPU) (cur : option DPUReconfigStatus) : DPUReconfigStatus → Prop :=
| move_drop o :
    st_Outdated (dpu_Status d) = Some o → reconfigInProgress cur = true →
    move d cur (with_InProgress (Some false) (cloneReconfig cur))
| move_finish :
    member d → reconfigInProgress cur = true → readyAtOrAfter d startedAt = true →
    move d cur (with_CompletedRound round (with_InProgress (Some false) (cloneReconfig cur)))
| move_stamp :
    requested = true → member d → reconfigInProgress cur = false → (completedRound cur < round)%Z →
    readyAtOrAfter d startedAt = true →
    move d cur (with_CompletedRound round (cloneReconfig cur))
| move_start :
    requested = true → member d → reconfigInProgress cur = false → (completedRound cur < round)%Z →
    createdAfterRound d startedAt = false →
    readyBeforeRound d startedAt = true ∨ phaseJoinsWithoutNewSlot (st_Phase (dpu_Status d)) = true →
    move d cur (with_Round round (with_InProgress (Some true) (cloneReconfig cur))).

(** What a DPU still has to do in the round. *)
Definition to_go (s : option DPUReconfigStatus) : nat :=
  if reconfigInProgress s then 1 else if (completedRound s <? round)%Z then 2 else 0.
End Moves.

(** ** Lemmas *)

Lemma is_outdated_false d : is_outdated d = false ↔ st_Outdated (dpu_Status d) = None.
Proof. unfold is_outdated. rewrite bool_decide_eq_false, eq_None_not_Some. done. Qed.

(** Being ready before the round and since then exclude each other. *)
Lemma ready_exclusive d t : readyAtOrAfter d t = true → readyBeforeRound d t = false.
Proof.
  unfold readyAtOrAfter, readyBeforeRound. destruct (readyConditionTime d) as [tr|]; [|done].
  rewrite andb_true_iff, !negb_true_iff. by intros [-> ->].
Qed.

(** Only a start puts a DPU in progress. *)
Lemma move_in_progress requested round startedAt d cur next :
  move requested round startedAt d cur next → reconfigInProgress (Some next) = true →
  requested = true ∧ member d ∧ reconfigInProgress cur = false.
Proof.
  intros [o Ho Hp|Hm Hp Hr|Hq Hm Hp Hc Hr|Hq Hm Hp Hc Hn Hr] H; try discriminate H; [|done].
  destruct cur as [[b r c]|]; simpl in *; congruence.
Qed.

(** A DPU that is Ready since before the round is in service unless it is deleted. *)
Lemma readyBefore_available d t : readyBeforeRound d t = true → deleting d = false → isUnavailable d = false.
Proof.
  unfold readyBeforeRound, readyConditionTime, isUnavailable.
  destruct (bool_decide _); simpl; [|done]. destruct (GetDPUCondition _ _) as [[i c]|]; [|done].
  unfold status_is. destruct (bool_decide (c_Status c = ConditionTrue)) eqn:E; [|done].
  apply bool_decide_eq_true in E. rewrite E. intros _ ->. done.
Qed.

Section Plans.
Context (round : Z) (startedAt : Time) (requested : bool).

Abbreviation complete := (λ d, planInPlaceCompletion d round startedAt requested).
Abbreviation start := (λ d slots, planInPlaceStart d round startedAt requested slots).

Lemma plan_completion_spec d :
  pl_dpu (complete d) = d ∧
  match pl_next (complete d) with
  | None => True
  | Some next => move requested round startedAt d (st_DPUReconfig (dpu_Status d)) next ∧ reconfigInProgress (Some next) = false
  end.
Proof.
  unfold planInPlaceCompletion.
  destruct (deleting d) eqn:Hd; [done|]. destruct (agentSupportsInPlace d) eqn:Ha; [|done]. simpl.
  destruct (is_outdated d) eqn:Ho.
  { split; [done|]. simpl. destruct (reconfigInProgress _) eqn:Hp; [|done]. split; [|done].
    unfold is_outdated in Ho. apply bool_decide_eq_true in Ho as [o Ho]. by apply (move_drop _ _ _ _ _ o). }
  apply is_outdated_false in Ho. destruct (reconfigInProgress _ && _) eqn:Hf.
  { apply andb_true_iff in Hf as [??]. split; [done|]. simpl. split; [|done]. by apply move_finish. }
  destruct (requested && _ && _ && _) eqn:Hs; [|done]. rewrite !andb_true_iff in Hs.
  destruct Hs as [[[Hr Hp%negb_true_iff] Hc%Z.ltb_lt] Ht]. split; [done|]. simpl. split; [by apply move_stamp|].
  unfold reconfigInProgress in Hp. destruct (st_DPUReconfig _) as [s|]; [by destruct s|done].
Qed.

Lemma plan_start_spec d slots :
  let r := start d slots in
  pl_dpu r.1 = d ∧
  match pl_next r.1 with
  | None => r.2 = 0%Z
  | Some next => move requested round startedAt d (st_DPUReconfig (dpu_Status d)) next ∧ reconfigInProgress (Some next) = true ∧
      (if readyBeforeRound d startedAt then (0 < slots)%Z ∧ r.2 = 1%Z
       else phaseJoinsWithoutNewSlot (st_Phase (dpu_Status d)) = true ∧ r.2 = 0%Z)
  end.
Proof.
  unfold planInPlaceStart. cbn zeta.
  destruct requested eqn:Hr, (deleting d) eqn:Hd, (is_outdated d) eqn:Ho, (agentSupportsInPlace d) eqn:Ha; simpl; try done.
  apply is_outdated_false in Ho.
  destruct (reconfigInProgress _) eqn:Hp; simpl; [done|]. rewrite Z.geb_leb.
  destruct (Z.leb_spec round (completedRound (st_DPUReconfig (dpu_Status d)))); simpl; [done|].
  destruct (createdAfterRound d startedAt) eqn:Hc; simpl; [done|].
  destruct (readyBeforeRound d startedAt) eqn:Hb.
  - destruct (Z.leb_spec slots 0); simpl; [done|]. split; [done|]. split; [|done]. apply move_start; auto. done.
  - destruct (phaseJoinsWithoutNewSlot _) eqn:Hj; simpl; [|done]. split; [done|]. split; [|done].
    apply move_start; auto. done.
Qed.

(** A DPU that waits for a slot. *)
Definition waiting (d : DPU) : bool := ((start d 1%Z).2 =? 1)%Z.

Lemma start_slots d slots :
  (start d slots).2 = if waiting d && (0 <? slots)%Z then 1%Z else 0%Z.
Proof.
  unfold waiting, planInPlaceStart. cbn zeta. destruct (negb requested || _ || _ || _); [done|].
  destruct (_ || _ || createdAfterRound _ _); [done|]. destruct (readyBeforeRound _ _).
  - simpl. destruct (Z.leb_spec slots 0), (Z.ltb_spec 0 slots); simpl; (done || lia).
  - by destruct (phaseJoinsWithoutNewSlot _).
Qed.

(** No plan that completes is made for a DPU that waits. *)
Lemma complete_not_waiting d : is_Some (pl_next (complete d)) → waiting d = false.
Proof.
  intros [next Hn]. destruct (plan_completion_spec d) as [_ H]. rewrite Hn in H. destruct H as [Hm Hnp].
  unfold waiting, planInPlaceStart. cbn zeta. destruct (negb requested || _ || _ || _) eqn:E; [done|].
  rewrite !orb_false_iff in E. destruct E as [[[_ _] Ho%is_outdated_false] _].
  inversion Hm as [o H1 H2|H1 H2 H3|H1 H2 H3 H4 H5|H1 H2 H3 H4 H5 H6]; subst.
  - congruence.
  - by rewrite H2.
  - rewrite (ready_exclusive _ _ H5). destruct (_ || _); [done|]. by destruct (phaseJoinsWithoutNewSlot _).
  - discriminate Hnp.
Qed.
End Plans.

(** *** Counting *)

Lemma alreadyUnavailable_eq d :
  alreadyUnavailable d = isUnavailable d || reconfigInProgress (st_DPUReconfig (dpu_Status d)).
Proof. unfold alreadyUnavailable, inProgressStillReady. destruct (isUnavailable d); simpl; [done|]. by rewrite andb_true_r. Qed.

Lemma alreadyUnavailable_with_plan p :
  alreadyUnavailable (with_plan p) = isUnavailable (pl_dpu p) || reconfigInProgress (effective p).
Proof. rewrite alreadyUnavailable_eq. done. Qed.

Section Counting.
Context (round : Z) (startedAt : Time) (requested : bool).

(** The plans that take a slot. *)
Definition takes_slot (p : plannedReconfig) : bool :=
  reconfigInProgress (pl_next p) && readyBeforeRound (pl_dpu p) startedAt.
(** The plans that take none for a DPU that is still in service: the code takes its phase
    for one out of service, but its Ready condition is not False. *)
Definition joins_in_service (p : plannedReconfig) : bool :=
  reconfigInProgress (pl_next p) && phaseJoinsWithoutNewSlot (st_Phase (dpu_Status (pl_dpu p))) && negb (isUnavailable (pl_dpu p)).

Lemma readyBefore_no_join d : readyBeforeRound d startedAt = true → phaseJoinsWithoutNewSlot (st_Phase (dpu_Status d)) = false.
Proof.
  unfold readyBeforeRound, readyConditionTime. case_bool_decide as E; [|done]. by rewrite E.
Qed.

Lemma complete_count dpus :
  let planned := (λ d, planInPlaceCompletion d round startedAt requested) <$> dpus in
  count alreadyUnavailable dpus =
  count alreadyUnavailable (with_plan <$> planned) + count (λ p, completionFreedSlot (pl_dpu p) (pl_next p)) planned.
Proof.
  cbn zeta. induction dpus as [|d dpus IH]; [done|]. rewrite !fmap_cons, !count_cons, IH.
  rewrite alreadyUnavailable_with_plan, alreadyUnavailable_eq.
  destruct (plan_completion_spec round startedAt requested d) as [-> H].
  unfold effective, completionFreedSlot. destruct (pl_next _) as [next|] eqn:En.
  - destruct H as [_ ->]. unfold inProgressStillReady. destruct (isUnavailable d), (reconfigInProgress _); simpl; lia.
  - destruct (plan_completion_spec round startedAt requested d) as [-> _].
    destruct (isUnavailable d || _); simpl; lia.
Qed.

(** A completion, or nothing yet. *)
Definition ready_to_start (p : plannedReconfig) : Prop :=
  reconfigInProgress (pl_next p) = false ∧ (is_Some (pl_next p) → waiting round startedAt requested (pl_dpu p) = false).

Lemma starts_count planned : ∀ slots,
  Forall ready_to_start planned →
  let after := plan_starts round startedAt requested slots planned in
  count alreadyUnavailable (with_plan <$> after) =
    count alreadyUnavailable (with_plan <$> planned) + count takes_slot after + count joins_in_service after ∧
  Z.of_nat (count takes_slot after) =
    Z.min (Z.max 0 slots) (Z.of_nat (count (waiting round startedAt requested) (pl_dpu <$> planned))).
Proof.
  induction planned as [|p planned IH]; intros slots Hall; cbn zeta.
  { cbn [plan_starts fmap list_fmap]. rewrite !count_nil. lia. }
  apply Forall_cons in Hall as [(Hp & Hw) Hall]. cbn [plan_starts].
  destruct (pl_next p) as [next|] eqn:En.
  - destruct (IH slots Hall) as [E1 E2]. rewrite !fmap_cons, !count_cons, E1.
    assert (takes_slot p = false ∧ joins_in_service p = false) as [-> ->] by (unfold takes_slot, joins_in_service; by rewrite En, Hp).
    rewrite (Hw ltac:(done)). simpl. lia.
  - pose proof (start_slots round startedAt requested (pl_dpu p) slots) as Hs.
    pose proof (plan_start_spec round startedAt requested (pl_dpu p) slots) as [Ed H]. cbv beta in Hs, Ed, H.
    destruct (planInPlaceStart _ _ _ _ slots) as [p' used]. cbn [fst snd] in *. subst used.
    destruct (IH (slots - if waiting round startedAt requested (pl_dpu p) && (0 <? slots)%Z then 1 else 0)%Z Hall) as [E1 E2].
    cbv beta iota zeta.
    rewrite !fmap_cons, !count_cons, E1. rewrite !alreadyUnavailable_with_plan. unfold effective. rewrite En, Ed.
    assert (takes_slot p' = reconfigInProgress (pl_next p') && readyBeforeRound (pl_dpu p) startedAt) as ->
      by (unfold takes_slot; by rewrite Ed).
    assert (joins_in_service p' = reconfigInProgress (pl_next p') && phaseJoinsWithoutNewSlot (st_Phase (dpu_Status (pl_dpu p))) &&
      negb (isUnavailable (pl_dpu p))) as -> by (unfold joins_in_service; by rewrite Ed).
    destruct (pl_next p') as [next|].
    + destruct H as (Hm & Hrp & Hb). rewrite Hrp. simpl. rewrite orb_true_r.
      destruct (move_in_progress _ _ _ _ _ _ Hm Hrp) as (_ & H2 & ->). destruct (readyBeforeRound _ _) eqn:Hrb.
      * rewrite (readyBefore_available _ _ Hrb (proj1 H2)), (readyBefore_no_join _ Hrb). simpl. destruct Hb as [Hpos Hu].
        destruct (waiting _ _ _ _); [|done]. rewrite (proj2 (Z.ltb_lt _ _) Hpos) in *. simpl in *. lia.
      * destruct Hb as [Hjoin Hu]. rewrite Hjoin. simpl.
        assert (waiting round startedAt requested (pl_dpu p) = false) as Hnw.
        { unfold waiting. unfold planInPlaceStart. cbn zeta. rewrite Hrb. destruct (_ || _ || _ || _); [done|].
          destruct (_ || _ || createdAfterRound _ _); [done|]. by destruct (phaseJoinsWithoutNewSlot _). }
        rewrite Hnw in *. destruct (isUnavailable (pl_dpu p)); simpl in *; lia.
    + simpl. destruct (isUnavailable _ || _); destruct (waiting _ _ _ _); destruct (Z.ltb_spec 0 slots); simpl in *; try done; lia.
Qed.
End Counting.

Lemma slots_value maxUnavailable total dpus freed :
  inPlaceReadySlots maxUnavailable total dpus freed =
  Z.max 0 (budget maxUnavailable total - (out_of_service total dpus - freed)).
Proof.
  unfold inPlaceReadySlots, out_of_service. cbn zeta.
  change (λ unavailable dpu, if isUnavailable dpu || inProgressStillReady dpu then (unavailable + 1)%Z else unavailable)
    with (λ n dpu, if alreadyUnavailable dpu then (n + 1)%Z else n).
  rewrite foldl_count, Z.geb_leb. destruct (Z.leb_spec (budget maxUnavailable total)
    (missing total (Z.of_nat (length dpus)) + Z.of_nat (count alreadyUnavailable dpus) - freed)); lia.
Qed.

Lemma plan_starts_length round startedAt requested planned : ∀ slots,
  length (plan_starts round startedAt requested slots planned) = length planned.
Proof.
  induction planned as [|p planned IH]; intros slots; [done|]. cbn [plan_starts].
  destruct (pl_next p); [simpl; by rewrite IH|]. destruct (planInPlaceStart _ _ _ _ _). simpl. by rewrite IH.
Qed.

(** *** The moves of a pass *)

(** A move of a DPU that is not outdated at the time, in a given round. *)
Definition round_step (round : Z) (startedAt : Time) (s s' : option DPUReconfigStatus) : Prop :=
  ∃ requested d next, st_Outdated (dpu_Status d) = None ∧ move requested round startedAt d s next ∧ s' = Some next.

Lemma move_to_go requested round startedAt d cur next :
  move requested round startedAt d cur next → st_Outdated (dpu_Status d) = None →
  to_go round (Some next) < to_go round cur.
Proof.
  unfold to_go. intros [o Ho Hp|Hm Hp Hr|Hq Hm Hp Hc Hr|Hq Hm Hp Hc Hn Hr] Hcur; [congruence|..];
    rewrite Hp; [|rewrite (proj2 (Z.ltb_lt _ _) Hc)..].
  - simpl. rewrite Z.ltb_irrefl. lia.
  - assert (reconfigInProgress (Some (with_CompletedRound round (cloneReconfig cur))) = false) as ->
      by (destruct cur as [[b r c]|]; [exact Hp|done]).
    simpl. rewrite Z.ltb_irrefl. lia.
  - simpl. lia.
Qed.

Lemma plan_starts_moves requested round startedAt planned : ∀ slots,
  Forall2 (λ p p', pl_dpu p' = pl_dpu p ∧
    match pl_next p with
    | Some _ => pl_next p' = pl_next p
    | None => match pl_next p' with
              | Some next => move requested round startedAt (pl_dpu p) (st_DPUReconfig (dpu_Status (pl_dpu p))) next ∧
                             reconfigInProgress (Some next) = true
              | None => True
              end
    end) planned (plan_starts round startedAt requested slots planned).
Proof.
  induction planned as [|p planned IH]; intros slots; [by constructor|]. cbn [plan_starts].
  destruct (pl_next p) as [next|] eqn:En; [constructor; [rewrite En; done|apply IH]|].
  pose proof (plan_start_spec round startedAt requested (pl_dpu p) slots) as [Ed H]. cbv beta in Ed, H.
  destruct (planInPlaceStart _ _ _ _ _) as [p' used]. cbn [fst snd] in *. constructor; [|apply IH].
  split; [done|]. rewrite En. destruct (pl_next p'); [|done]. by destruct H as (? & ? & _).
Qed.

Lemma plan_round_plans maxUnavailable total round startedAt requested dpus :
  Forall2 (λ d p, pl_dpu p = d ∧
    match pl_next p with
    | None => True
    | Some next => move requested round startedAt d (st_DPUReconfig (dpu_Status d)) next
    end) dpus (plan_round maxUnavailable total round startedAt requested dpus).
Proof.
  unfold plan_round. cbn zeta. generalize (inPlaceReadySlots maxUnavailable total dpus
    (freed_slots ((λ dpu, planInPlaceCompletion dpu round startedAt requested) <$> dpus))). intros slots.
  pose proof (plan_starts_moves requested round startedAt ((λ d, planInPlaceCompletion d round startedAt requested) <$> dpus) slots) as H.
  apply Forall2_fmap_l in H. eapply Forall2_impl; [exact H|]. intros d p [Ed Hn]. cbn in Ed, Hn.
  destruct (plan_completion_spec round startedAt requested d) as [Hd Hc]. cbv beta in Hd, Hc. rewrite Hd in *.
  split; [done|]. destruct (pl_next (planInPlaceCompletion d round startedAt requested)) as [next|].
  - rewrite Hn. by destruct Hc.
  - destruct (pl_next p); [|done]. by destruct Hn.
Qed.

(** *** The writes of a pass *)

Lemma reconfigEqual_eq a b : reconfigEqual a b = true → a = b.
Proof.
  destruct a as [[p r c]|], b as [[p' r' c']|]; simpl; try done.
  rewrite !andb_true_iff, !Z.eqb_eq, bool_decide_eq_true. intros [[-> ->] ->]. done.
Qed.

(** How the writes leave the plan of a DPU: what [effective] says is what the
    log of the writes [k] and the DPU say. *)
Definition written (k : list Write) (p p' : plannedReconfig) : Prop :=
  pl_dpu p' = pl_dpu p ∧
  (pl_next p' = pl_next p ∨ pl_next p' = None) ∧
  (effective p' = st_DPUReconfig (dpu_Status (pl_dpu p)) ∨ WStatus (pl_dpu p) (with_plan p) None ∈ k ∧ effective p' = effective p).

Section TracedPatches.
Context {W : Type} {C : SetClient W}.

Lemma patchDPUReconfig_log p w l :
  let r := patchDPUReconfig (C:=traced C) p (w, l) in
  ∃ k, r.2.2 = l ++ k ∧
    Forall (λ x, ∃ e, x = WStatus (pl_dpu p) (with_plan p) e ∧ (r.1.1 = None → from_option IsNotFound true e = true)) k ∧
    (r.1.1 = None → written k p r.1.2).
Proof.
  cbn zeta. unfold patchDPUReconfig. destruct (bool_decide _ || _) eqn:E.
  { exists []. rewrite app_nil_r. split; [done|]. split; [done|]. intros _. split; [done|]. split; [by right|]. by left. }
  unfold mbind, SM_bind. simpl. unfold logged. simpl. destruct (mergePatchDPUStatus _ _ w) as [[e|] w1]; simpl.
  - destruct (IsNotFound e) eqn:En; simpl.
    + exists [WStatus (pl_dpu p) (with_plan p) (Some e)]. split; [done|]. split; [apply Forall_singleton; by exists (Some e)|].
      intros _. split; [done|]. split; [by right|]. by left.
    + exists [WStatus (pl_dpu p) (with_plan p) (Some e)]. split; [done|]. split; [apply Forall_singleton; by exists (Some e)|done].
  - exists [WStatus (pl_dpu p) (with_plan p) None]. split; [done|]. split; [apply Forall_singleton; by exists None|].
    intros _. split; [done|]. split; [by left|]. right. split; [left|done].
Qed.

Lemma written_app_l k k' p p' : written k p p' → written (k ++ k') p p'.
Proof. intros (? & ? & H). split_and!; [done..|]. rewrite elem_of_app. naive_solver. Qed.
Lemma written_app_r k k' p p' : written k p p' → written (k' ++ k) p p'.
Proof. intros (? & ? & H). split_and!; [done..|]. rewrite elem_of_app. naive_solver. Qed.

(** The plans a call of [patchInPlacePlans] writes. *)
Definition selected (starts : bool) (p : plannedReconfig) : Prop :=
  is_Some (pl_next p) ∧ reconfigInProgress (pl_next p) = starts.

Lemma patchInPlacePlans_log starts planned : ∀ w l,
  let r := patchInPlacePlans (C:=traced C) planned starts (w, l) in
  ∃ k, r.2.2 = l ++ k ∧
    Forall (λ x, ∃ p e, p ∈ planned ∧ selected starts p ∧ x = WStatus (pl_dpu p) (with_plan p) e ∧
                        (r.1.1 = None → from_option IsNotFound true e = true)) k ∧
    (r.1.1 = None → Forall2 (λ p p', (selected starts p ∧ written k p p') ∨ (¬ selected starts p ∧ p' = p)) planned r.1.2).
Proof.
  induction planned as [|p planned IH]; intros w l.
  { exists []. rewrite app_nil_r. split; [done|]. split; [done|]. constructor. }
  cbn [patchInPlacePlans]. destruct (bool_decide _ || _) eqn:E; unfold mbind, SM_bind.
  - destruct (IH w l) as (k & Hk & Hf & Hok). destruct (patchInPlacePlans planned starts (w, l)) as [[e ps] [w' l']].
    simpl in *. subst l'. exists k. split; [done|]. split.
    + eapply Forall_impl; [done|]. intros x (p0 & e0 & Hin & H). exists p0, e0. split; [by right|done].
    + intros He. constructor; [|by apply Hok]. right. split; [|done]. intros [Hs Hp].
      apply orb_true_iff in E as [E%bool_decide_eq_true|E%negb_true_iff]; [rewrite E in Hs; by destruct Hs|].
      rewrite Hp in E. by destruct starts.
  - apply orb_false_iff in E as [E1%bool_decide_eq_false E2%negb_false_iff%eqb_prop].
    assert (selected starts p) as Hs by (split; [by destruct (pl_next p); [|done]|done]).
    destruct (patchDPUReconfig_log p w l) as (k1 & Hk1 & Hf1 & Hok1).
    destruct (patchDPUReconfig (C:=traced C) p (w, l)) as [[e p'] [w1 l1]]. simpl in *. subst l1. destruct e as [e|]; simpl.
    { exists k1. split; [done|]. split; [|done]. eapply Forall_impl; [done|]. intros x (e0 & -> & H).
      exists p, e0. split; [left|]. done. }
    destruct (IH w1 (l ++ k1)) as (k & Hk & Hf & Hok).
    destruct (patchInPlacePlans planned starts (w1, l ++ k1)) as [[e ps] [w' l']]. simpl in *. subst l'.
    exists (k1 ++ k). rewrite app_assoc. split; [done|]. split.
    + apply Forall_app. split; (eapply Forall_impl; [done|]).
      * intros x (e0 & -> & H). exists p, e0. split; [left|]. split; [done|]. split; [done|]. intros _. by apply H.
      * intros x (p0 & e0 & Hin & H). exists p0, e0. split; [by right|done].
    + intros He. constructor; [left; split; [done|]; apply written_app_l; by apply Hok1|].
      eapply Forall2_impl; [by apply Hok|]. intros p0 p1 [[? ?]|?]; [left|by right]. split; [done|]. by apply written_app_r.
Qed.
End TracedPatches.

(** *** A whole pass *)

(** A write of one of the plans. *)
Definition write_of (planned : list plannedReconfig) (starts : bool) (x : Write) : Prop :=
  ∃ p e, p ∈ planned ∧ selected starts p ∧ x = WStatus (pl_dpu p) (with_plan p) e.

(** A write the pass goes on after. *)
Definition write_done (x : Write) : Prop :=
  match x with WStatus _ _ e => from_option IsNotFound true e = true | _ => False end.

Lemma GetDPUsMap_traced {W} {C : SetClient W} dpuSet (w : W) l :
  GetDPUsMap (C:=traced C) dpuSet (w, l) = ((GetDPUsMap dpuSet w).1, ((GetDPUsMap dpuSet w).2, l)).
Proof. unfold GetDPUsMap, mbind, SM_bind. simpl. unfold unlogged. simpl. by destruct (listSetDPUs _ _ w). Qed.

(** What the first call leaves for the second. *)
Lemma selected_after_completions k p p' :
  ((selected false p ∧ written k p p') ∨ (¬ selected false p ∧ p' = p)) → selected true p' → p' = p.
Proof.
  intros [[[Hs Hf] (Hd & [Hn|Hn] & _)]|[_ ->]] [Ht Hp]; [| |done].
  - rewrite Hn in Hp. congruence.
  - rewrite Hn in Ht. by destruct Ht.
Qed.

Lemma written_self k p : pl_next p = None → written k p p.
Proof. intros Hn. split; [done|]. split; [by left|]. left. unfold effective. by rewrite Hn. Qed.

Lemma written_both kc ks p p' p'' :
  ((selected false p ∧ written kc p p') ∨ (¬ selected false p ∧ p' = p)) →
  ((selected true p' ∧ written ks p' p'') ∨ (¬ selected true p' ∧ p'' = p')) →
  written (kc ++ ks) p p''.
Proof.
  intros H1 [[Ht H2]|[Hnt ->]].
  - rewrite (selected_after_completions _ _ _ H1 Ht) in H2. by apply written_app_r.
  - destruct H1 as [[_ H1]|[Hnf ->]]; [by apply written_app_l|]. apply written_self.
    destruct (pl_next p) as [next|] eqn:En; [|done]. exfalso.
    destruct (reconfigInProgress (pl_next p)) eqn:Ep; [apply Hnt|apply Hnf]; (split; [by rewrite En|done]).
Qed.

Lemma Forall2_compose {A} (P Q R' : A → A → Prop) xs ys zs :
  (∀ x y z, P x y → Q y z → R' x z) → Forall2 P xs ys → Forall2 Q ys zs → Forall2 R' xs zs.
Proof.
  intros HR H. revert zs. induction H as [|x y xs ys Hp _ IH]; intros zs Hq; inversion Hq; subst; constructor; eauto.
Qed.

Section TracedPass.
Context {W : Type} {C : SetClient W} {R : MapRange}.

Lemma run_round_log maxUnavailable total dpuSet requested round startedAt (w : W) :
  let r := run_round (C:=traced C) maxUnavailable total dpuSet requested round startedAt (w, []) in
  match (GetDPUsMap dpuSet w).1 with
  | Err err => r.1 = (Some (wrapf "list DPUs for in-place reconfig: " err), dpuSet) ∧ r.2.2 = []
  | Ok m =>
      let planned := plan_round maxUnavailable total round startedAt requested (sortedDPUs m) in
      ∃ kc ks, r.2.2 = kc ++ ks ∧ Forall (write_of planned false) kc ∧ Forall (write_of planned true) ks ∧
        (ks ≠ [] → Forall write_done kc) ∧
        ((∃ err, r.1 = (Some err, dpuSet)) ∨
         ∃ planned', Forall2 (written (kc ++ ks)) planned planned' ∧
           r.1 = match finishInPlaceRound dpuSet requested planned' with Ok s => (None, s) | Err e => (Some e, dpuSet) end)
  end.
Proof.
  cbn zeta. unfold run_round, mbind, SM_bind. rewrite GetDPUsMap_traced.
  destruct (GetDPUsMap dpuSet w) as [[m|err] w1]; [|done]. cbn [fst snd].
  set (planned := plan_round _ _ _ _ _ _).
  destruct (patchInPlacePlans_log (C:=C) false planned w1 []) as (kc & Hkc & Hfc & Hokc).
  destruct (patchInPlacePlans (C:=traced C) planned false (w1, [])) as [[ec pc] [w2 l2]]. cbn [fst snd app] in *. subst l2.
  assert (Forall (write_of planned false) kc) as Hc
    by (eapply Forall_impl; [exact Hfc|]; intros x (p & e & ? & ? & -> & _); by exists p, e).
  destruct ec as [err|].
  { exists kc, []. rewrite app_nil_r. split_and!; [done..|]. left. by exists err. }
  specialize (Hokc eq_refl).
  destruct (patchInPlacePlans_log (C:=C) true pc w2 kc) as (ks & Hks & Hfs & Hoks).
  destruct (patchInPlacePlans (C:=traced C) pc true (w2, kc)) as [[es ps] [w3 l3]]. cbn [fst snd] in *. subst l3.
  assert (Forall (write_of planned true) ks) as Hs.
  { eapply Forall_impl; [exact Hfs|]. intros x (p & e & Hin & Hsel & -> & _). exists p, e.
    apply list_elem_of_lookup in Hin as [i Hi]. destruct (Forall2_lookup_r _ _ _ _ _ Hokc Hi) as (p0 & Hi0 & H0).
    pose proof (selected_after_completions _ _ _ H0 Hsel) as ->. split; [by eapply list_elem_of_lookup_2|done]. }
  assert (Forall write_done kc) as Hd
    by (eapply Forall_impl; [exact Hfc|]; intros x (p & e & _ & _ & -> & He); by apply He).
  exists kc, ks. split; [by destruct es|]. split; [done|]. split; [done|]. split; [done|].
  destruct es as [err|]; [left; by exists err|]. right. exists ps. split; [|done].
  eapply Forall2_compose; [|exact Hokc|by apply Hoks]. intros p p' p''. apply written_both.
Qed.
End TracedPass.

(** The round that a pass works on is open and has a start. *)
Lemma ensure_open now dpuSet requested :
  requested = true ∨ inPlaceRoundActive dpuSet = true →
  let old := from_option rd_Round 0%Z (ds_DPUReconfig dpuSet) in
  let round := if inPlaceRoundActive dpuSet then old else wrap32 (old + 1) in
  ∃ t, ensureInPlaceRound now dpuSet requested =
         with_ds_DPUReconfig (Some (mkDPUSetReconfig round (Some true) (Some t))) dpuSet ∧
    t = if inPlaceRoundActive dpuSet then deref (ds_DPUReconfig dpuSet ≫= rd_StartedAt) now else now.
Proof.
  unfold ensureInPlaceRound, inPlaceRoundActive. intros H.
  destruct dpuSet as [n ns g lb an fin del sel1 sel2 sel3 str tpl ta stt cs [[rd ac stt0]|] og]; simpl in *.
  - destruct ac as [[]|]; simpl in *.
    + destruct stt0 as [t|]; eexists; (split; [|reflexivity]); done.
    + destruct H as [->|H]; [|done]. eexists. split; reflexivity.
    + destruct H as [->|H]; [|done]. eexists. split; reflexivity.
  - destruct H as [->|H]; [|done]. eexists. split; reflexivity.
Qed.

Lemma sortedDPUs_perm {R : MapRange} {RL : MapRangeLaws R} m : sortedDPUs m ≡ₚ (map_to_list m).*2.
Proof. unfold sortedDPUs. rewrite merge_sort_Permutation. apply range_map_snd. Qed.

(** ** Properties *)


(** What a pass plans for a DPU is one of the moves of the round: giving up
    when the DPU is outdated, finishing once it is Ready again, being stamped when
    it is first Ready during the round, being marked.  It is stamped or marked only
    while the annotation is "true" and never when it is being deleted, outdated or
    has an old agent.  A DPU that stays current takes at most two moves in a
    round, so it is marked at most once and every round of it ends. *)
Theorem plan_round_moves maxUnavailable total round startedAt requested dpus :
  Forall2 (λ d p, pl_dpu p = d ∧
    match pl_next p with
    | None => True
    | Some next => move requested round startedAt d (st_DPUReconfig (dpu_Status d)) next
    end) dpus (plan_round maxUnavailable total round startedAt requested dpus) ∧
  ∀ n s s', nsteps (round_step round startedAt) n s s' → n + to_go round s' ≤ to_go round s ∧ to_go round s ≤ 2.
Proof.
  split; [apply plan_round_plans|]. intros n s s' H. split.
  - induction H as [s|n s s1 s' (rq & d & next & Ho & Hm & ->) _ IH]; [done|].
    assert (to_go round (Some next) < to_go round s) by (by eapply move_to_go). lia.
  - unfold to_go. destruct (reconfigInProgress s); [lia|]. destruct (completedRound s <? round)%Z; lia.
Qed.

(** The writes of a pass: every write carries one of the plans to its DPU.
    All completions are tried before the first DPU is marked, and a DPU is marked
    only when none of the completions failed other than on a DPU that is gone, so
    a conflict on the DPU that frees a slot never leaves two DPUs out.  A pass
    without a request and without an open round does nothing at all. *)
Theorem reconcileInPlaceReconfig_writes {W} {C : SetClient W} {R : MapRange} now maxUnavailable dpuSet total (w : W) :
  let r := reconcileInPlaceReconfig (C:=traced C) now maxUnavailable dpuSet total (w, []) in
  let requested := inPlaceReconfigRequested dpuSet in
  (requested = false → inPlaceRoundActive dpuSet = false → r = ((None, dpuSet), (w, []))) ∧
  (requested = true ∨ inPlaceRoundActive dpuSet = true →
   ∃ round startedAt,
     ds_DPUReconfig (ensureInPlaceRound now dpuSet requested) = Some (mkDPUSetReconfig round (Some true) (Some startedAt)) ∧
     match (GetDPUsMap dpuSet w).1 with
     | Err _ => r.2.2 = [] ∧ r.1.1 ≠ None
     | Ok m =>
         let planned := plan_round maxUnavailable total round startedAt requested (sortedDPUs m) in
         ∃ completions starts, r.2.2 = completions ++ starts ∧
           Forall (write_of planned false) completions ∧ Forall (write_of planned true) starts ∧
           (starts ≠ [] → Forall write_done completions)
     end).
Proof.
  cbn zeta. unfold reconcileInPlaceReconfig. split.
  { intros -> ->. done. }
  intros Hopen. destruct (ensure_open now dpuSet _ Hopen) as (t & E & _). rewrite E.
  eexists _, t. split; [reflexivity|]. set (round := if inPlaceRoundActive dpuSet then _ else _) in *.
  assert (negb (inPlaceReconfigRequested dpuSet) && negb (inPlaceRoundActive dpuSet) = false) as ->
    by (destruct Hopen as [-> | ->]; [done|by rewrite andb_false_r]).
  pose proof (run_round_log (C:=C) maxUnavailable total (with_ds_DPUReconfig (Some (mkDPUSetReconfig round (Some true) (Some t))) dpuSet)
    (inPlaceReconfigRequested dpuSet) round t w) as H. cbn zeta in H.
  change (GetDPUsMap (with_ds_DPUReconfig _ dpuSet) w) with (GetDPUsMap dpuSet w) in H. simpl.
  destruct (GetDPUsMap dpuSet w).1 as [m|err].
  - destruct H as (kc & ks & H1 & H2 & H3 & H4 & _). by exists kc, ks.
  - destruct H as [H1 H2]. split; [done|]. by rewrite H1.
Qed.

(** What a DPU of a closed round has reached: [s] is its status. *)
Definition round_over (requested : bool) (round : Z) (startedAt : Time) (d : DPU) (s : option DPUReconfigStatus) : Prop :=
  if requested then
    member d → reconfigInProgress s = false ∧
      (completedRound s = round ∨ createdAfterRound d startedAt = true ∨
       completedRound s = 0%Z ∧ phaseJoinsRound (st_Phase (dpu_Status d)) = false)
  else deleting d = false → reconfigInProgress s = false.

Lemma finish_over dpuSet requested planned round active startedAt dpuSet' :
  ds_DPUReconfig dpuSet = Some (mkDPUSetReconfig round active (Some startedAt)) →
  finishInPlaceRound dpuSet requested planned = Ok dpuSet' →
  dpuSet' = dpuSet ∨
  dpuSet' = with_ds_DPUReconfig (Some (mkDPUSetReconfig round (Some false) (Some startedAt)))
              (if requested then clearInPlaceAnnotation dpuSet else dpuSet) ∧
  ∀ p, p ∈ planned → round_over requested round startedAt (pl_dpu p) (effective p).
Proof.
  intros E. unfold finishInPlaceRound, round_over, roundHasOutstandingMember, roundHasInProgress. rewrite E. simpl.
  destruct requested.
  - destruct (existsb _ planned) eqn:Ex; intros [= <-]; [by left|]. right. split; [done|]. intros p Hp (Hd & Ho & Ha).
    assert (blocksRound (pl_dpu p) (effective p) round startedAt = false) as Hb.
    { apply not_true_iff_false. intros Ht. apply not_true_iff_false in Ex. apply Ex, existsb_exists.
      exists p. by rewrite <- list_elem_of_In. }
    unfold blocksRound in Hb. rewrite Hd, (proj2 (is_outdated_false _) Ho), Ha in Hb. simpl in Hb.
    destruct (Z.eqb_spec (completedRound (effective p)) round) as [Ec|]; simpl in Hb; [by split; [|left]|].
    destruct (reconfigInProgress (effective p)); [done|]. split; [done|].
    destruct (createdAfterRound _ _); [by right; left|]. destruct (Z.eqb_spec (completedRound (effective p)) 0); [|done].
    right. right. split; [done|]. by destruct (phaseJoinsRound _).
  - destruct (existsb _ planned) eqn:Ex; intros [= <-]; [by left|]. right. split; [done|]. intros p Hp Hd.
    apply not_true_iff_false. intros Ht. apply not_true_iff_false in Ex. apply Ex, existsb_exists.
    exists p. rewrite <- list_elem_of_In, Hd, Ht. done.
Qed.

(** The life of a round.  A pass opens one only when it is asked for and none
    is open, with the next number (an int32) and the current time; otherwise the
    number and the start stay.  It closes the round only after a pass without an
    error and, as far as the API server told it (the status a DPU was listed with,
    or the one written to it in this pass), when nobody is outstanding: while the
    annotation is "true", every listed DPU that takes part is done with this round
    or was never in it, and the annotation is removed with it; once the user has
    removed the annotation, no DPU is in progress any more. *)
Theorem reconcileInPlaceReconfig_round {W} {C : SetClient W} {R : MapRange} {RL : MapRangeLaws R}
    now maxUnavailable dpuSet total (w : W) :
  let r := reconcileInPlaceReconfig (C:=traced C) now maxUnavailable dpuSet total (w, []) in
  let requested := inPlaceReconfigRequested dpuSet in
  let active := inPlaceRoundActive dpuSet in
  let old := from_option rd_Round 0%Z (ds_DPUReconfig dpuSet) in
  let round := if active then old else wrap32 (old + 1) in
  let startedAt := if active then deref (ds_DPUReconfig dpuSet ≫= rd_StartedAt) now else now in
  let with_active b := with_ds_DPUReconfig (Some (mkDPUSetReconfig round (Some b) (Some startedAt))) in
  requested = true ∨ active = true →
  r.1.2 = with_active true dpuSet ∨
  r.1 = (None, with_active false (if requested then clearInPlaceAnnotation dpuSet else dpuSet)) ∧
  ∃ m, (GetDPUsMap dpuSet w).1 = Ok m ∧
    ∀ k d, m !! k = Some d → ∃ s, round_over requested round startedAt d s ∧
      (s = st_DPUReconfig (dpu_Status d) ∨
       ∃ d', WStatus d d' None ∈ r.2.2 ∧ s = st_DPUReconfig (dpu_Status d')).
Proof.
  cbn zeta. intros Hopen. unfold reconcileInPlaceReconfig.
  destruct (ensure_open now dpuSet _ Hopen) as (t & E & <-). rewrite E.
  set (round := if inPlaceRoundActive dpuSet then _ else _) in *.
  assert (negb (inPlaceReconfigRequested dpuSet) && negb (inPlaceRoundActive dpuSet) = false) as ->
    by (destruct Hopen as [-> | ->]; [done|by rewrite andb_false_r]).
  set (opened := with_ds_DPUReconfig (Some (mkDPUSetReconfig round (Some true) (Some t))) dpuSet). simpl.
  pose proof (run_round_log (C:=C) maxUnavailable total opened (inPlaceReconfigRequested dpuSet) round t w) as H. cbn zeta in H.
  change (GetDPUsMap opened w) with (GetDPUsMap dpuSet w) in H.
  destruct (GetDPUsMap dpuSet w).1 as [m|err]; [|destruct H as [-> _]; by left].
  destruct H as (kc & ks & H1 & _ & _ & _ & [[err ->]|(planned' & Hw & ->)]); [by left|].
  destruct (finishInPlaceRound opened _ planned') as [s|e] eqn:Ef; [|by left].
  destruct (finish_over opened _ planned' round (Some true) t s eq_refl Ef) as [->|[-> Hover]]; [by left|right].
  split; [by destruct (inPlaceReconfigRequested dpuSet)|]. exists m. split; [done|]. intros key d Hd.
  assert (d ∈ sortedDPUs m) as Hin.
  { rewrite sortedDPUs_perm. apply list_elem_of_fmap. exists (key, d). split; [done|]. by apply elem_of_map_to_list. }
  apply list_elem_of_lookup in Hin as [i Hi].
  destruct (Forall2_lookup_l _ _ _ _ _ (plan_round_plans maxUnavailable total round t (inPlaceReconfigRequested dpuSet) _) Hi)
    as (p & Hp & Epd & _).
  destruct (Forall2_lookup_l _ _ _ _ _ Hw Hp) as (p' & Hp' & Hd' & _ & Heff).
  exists (effective p'). split; [rewrite <- Epd, <- Hd'; apply Hover; by eapply list_elem_of_lookup_2|].
  rewrite H1. destruct Heff as [->|[Hlog ->]]; [left; by rewrite Epd|]. right. exists (with_plan p). rewrite <- Epd. done.
Qed.

(** *** A round that its own time stamp cuts short

    [startedAt] is a time with nanoseconds in the pass that opens the round and a
    time in whole seconds in every later pass, as [metav1.Time] is stored.  A DPU
    that became Ready in the second in which the round was opened is before the
    round in the first pass, so it is marked, and in the round in the next one, so
    it is completed at once, with the Ready condition it had all along. *)
Lemma startedAt_truncated d round stored started slots transition :
  readyConditionTime d = Some transition → time_is_zero transition = false →
  (stored <= transition)%Z → (transition < started)%Z →
  st_DPUReconfig (dpu_Status d) = None → (0 < round)%Z → (0 < slots)%Z →
  member d → createdAfterRound d started = false →
  let first := (planInPlaceStart d round started true slots).1 in
  let second := planInPlaceCompletion (with_plan first) round stored true in
  pl_next first = Some (mkDPUReconfig (Some true) round 0) ∧
  pl_next second = Some (mkDPUReconfig (Some false) round round).
Proof.
  intros Ht Hz Hle Hlt Hs Hr Hsl (Hd & Ho & Ha) Hc. cbn zeta.
  assert (pl_next (planInPlaceStart d round started true slots).1 = Some (mkDPUReconfig (Some true) round 0)) as E.
  { unfold planInPlaceStart, readyBeforeRound. cbn zeta. rewrite Hd, (proj2 (is_outdated_false _) Ho), Ha, Hs, Hc, Ht, Hz.
    simpl. rewrite Z.geb_leb, (proj2 (Z.leb_gt round 0)) by done. simpl.
    rewrite (proj2 (Z.ltb_lt _ _) Hlt), (proj2 (Z.leb_gt slots 0)) by done. done. }
  split; [done|]. destruct (plan_start_spec round started true d slots) as [Ed _]. cbv beta in Ed.
  unfold planInPlaceCompletion, with_plan, effective. rewrite E, Ed. cbn zeta.
  change (deleting _) with (deleting d). change (agentSupportsInPlace _) with (agentSupportsInPlace d).
  change (is_outdated _) with (is_outdated d). rewrite Hd, (proj2 (is_outdated_false _) Ho), Ha. simpl.
  unfold readyAtOrAfter. change (readyConditionTime _) with (readyConditionTime d). rewrite Ht, Hz.
  by rewrite (proj2 (Z.ltb_ge _ _) Hle).
Qed.

(** ** Witnesses *)

Definition example_agent : AgentStatus := mkAgentStatus None None "25.10" None None [] None None.
Definition example_ready (name : string) (reconfig : option DPUReconfigStatus) : DPU :=
  let d := example_drifting name ConditionTrue in
  with_Labels {[ DPUProvisioningPrefix +:+ "dpuset-name" := "set"; DPUProvisioningPrefix +:+ "dpuset-namespace" := "ns" ]}
    (with_Status (with_DPUReconfig reconfig (with_AgentStatus (Some example_agent) (dpu_Status d))) d).
Definition example_requested : DPUSet :=
  with_ds_Annotations {[ DPUSetInPlaceReconfigAnnotation := "true" ]} example_set.
(** The first DPU is marked and still in service, two more have to follow. *)
Definition example_round : list DPU :=
  [example_ready "a" (Some (mkDPUReconfig (Some true) 1 0)); example_ready "b" None; example_ready "c" None].

Example example_round_marks : (out_of_service 3 (with_plan <$> plan_round 2 3 1 100 true example_round) = 2)%Z ∧
  count (takes_slot 100) (plan_round 2 3 1 100 true example_round) = 1 ∧ count joins_in_service (plan_round 2 3 1 100 true example_round) = 0.
Proof. by vm_compute. Qed.

Lemma plan_round_moves_witness :
  0 + to_go 1 None ≤ to_go 1 None ∧ to_go 1 None ≤ 2.
Proof. exact (proj2 (plan_round_moves 2 3 1 100 true example_round) 0 None None (nsteps_O _ _)). Defined.

Definition example_round_world : World :=
  with_dpus (list_to_map ((λ d, (dpu_key d, d)) <$> example_round)) empty_world.

Lemma reconcileInPlaceReconfig_writes_witness :
  let r := reconcileInPlaceReconfig (C:=traced fake_set_client) (R:=map_to_list_range) 100 2 example_requested 3
             (example_round_world, []) in
  length r.2.2 = 1 ∧ ∃ round startedAt, ds_DPUReconfig (ensureInPlaceRound 100 example_requested true) =
    Some (mkDPUSetReconfig round (Some true) (Some startedAt)).
Proof.
  split; [vm_compute; reflexivity|].
  destruct (proj2 (reconcileInPlaceReconfig_writes (C:=fake_set_client) (R:=map_to_list_range) 100 2 example_requested 3 example_round_world)
              (or_introl eq_refl)) as (round & startedAt & H & _).
  exists round, startedAt. exact H.
Defined.

(** With every DPU done the round closes and the annotation goes. *)
Definition example_done_world : World :=
  with_dpus (list_to_map ((λ d, (dpu_key d, d)) <$> [example_ready "a" (Some (mkDPUReconfig (Some false) 1 1))])) empty_world.

Lemma reconcileInPlaceReconfig_round_witness :
  let r := reconcileInPlaceReconfig (C:=traced fake_set_client) (R:=map_to_list_range) 100 1
             (with_ds_DPUReconfig (Some (mkDPUSetReconfig 1 (Some true) (Some 5%Z))) example_requested) 1 (example_done_world, []) in
  inPlaceReconfigRequested r.1.2 = false ∧ ∃ m, (GetDPUsMap (C:=fake_set_client) example_requested example_done_world).1 = Ok m.
Proof.
  split; [vm_compute; reflexivity|].
  destruct (reconcileInPlaceReconfig_round (C:=fake_set_client) (R:=map_to_list_range) 100 1
     (with_ds_DPUReconfig (Some (mkDPUSetReconfig 1 (Some true) (Some 5%Z))) example_requested) 1 example_done_world
     (or_introl eq_refl)) as [H|(_ & m & Hm & _)].
  - exfalso. apply (f_equal inPlaceReconfigRequested) in H. vm_compute in H. discriminate H.
  - exists m. exact Hm.
Defined.
