(* ===== verification/DPUSetDevices.v ===== *)
(** What a DPUSet owns (dpuset_controller.go): the devices it selects, the DPUs it
    creates for them, DPUs that belong to another DPUSet and the labels that say
    so, the protection of BlueFieldSoftware, and the deletion of the DPUSet. *)

From S2P Require Import Prelude.
From S2P Require Import Meta.
From S2P Require Import Conditions.
From S2P Require Import DPUTypes.
From S2P Require Import DPUConditions.
From S2P Require Import Kubernetes.
From S2P Require Import FakeClient.
From S2P Require Import Maintenance.
From S2P Require Import ClusterMetadata.
From S2P Require Import WriteLog.
From S2P Require Import DPUSetTypes.
From S2P Require Import DPUSetTemplate.
From S2P Require Import DPUSetRollout.
From S2P Require Import DPUSetFlavor.

(** ** Selectors *)

Record dpuSetSelectors := mkSelectors {
  sel_node : gmap string string → bool;
  sel_device : gmap string string → bool }.

Section Selectors.
Context {S : SelectorAPI} {R : MapRange}.

(** The loop over the entries of the deprecated selector. *)
Fixpoint equals_selector (selector : gmap string string → bool) (entries : list (string * string))
    : Res (gmap string string → bool) :=
  match entries with
  | [] => Ok selector
  | (key, value) :: entries =>
      match NewEqualsRequirement key value with
      | Some err => Err (wrapf ("invalid requirement for key " +:+ key +:+ ": ") err)
      | None => equals_selector (λ labels, selector labels && bool_decide (labels !! key = Some value)) entries
      end
  end.

Definition parseDPUSetSelectors (dpuSet : DPUSet) : Res dpuSetSelectors :=
  match LabelSelectorAsSelector (ds_DPUNodeSelector dpuSet) with
  | Err err => Err (wrapf "invalid dpuNodeSelector: " err)
  | Ok node =>
      match ds_DPUDeviceSelector dpuSet with
      | Some sel =>
          match ParseLabelSelector sel with
          | Err err => Err (wrapf "invalid dpuDeviceSelector: " err)
          | Ok device => Ok (mkSelectors node device)
          end
      | None =>
          match equals_selector (λ _, true) (range_map (ds_DPUSelector dpuSet)) with
          | Err err => Err err
          | Ok device => Ok (mkSelectors node device)
          end
      end
  end.
End Selectors.

Section Devices.
Context {W : Type} {C : SetClient W} {S : SelectorAPI} {R : MapRange}.

(** The loop over the nodes. *)
Fixpoint device_loop (dpuSet : DPUSet) (selector : gmap string string → bool) (dpuDeviceMap : gmap string DPUDevice)
    (nodes : list DPUNode) : SM W (Res (gmap string DPUDevice)) :=
  match nodes with
  | [] => mret (Ok dpuDeviceMap)
  | node :: nodes =>
      if negb (timep_is_zero (dn_DeletionTimestamp node)) then device_loop dpuSet selector dpuDeviceMap nodes
      else match NewEqualsRequirement DPUNodeNameLabel (dn_Name node) with
           | Some err => mret (Err (wrapf ("invalid requirement for key " +:+ DPUNodeNameLabel +:+ ": ") err))
           | None =>
               r ← listSetDPUDevices (ds_Namespace dpuSet)
                     (λ labels, selector labels && bool_decide (labels !! DPUNodeNameLabel = Some (dn_Name node)));
               match r with
               | Err err => mret (Err (wrapf "failed to list DPUDevices: " err))
               | Ok devices =>
                   device_loop dpuSet selector (foldl (λ m d, <[dd_Name d := d]> m) dpuDeviceMap devices) nodes
               end
           end
  end.

Definition getDPUDeviceMap (dpuSet : DPUSet) (selectors : dpuSetSelectors) : SM W (Res (gmap string DPUDevice)) :=
  r ← listSetDPUNodes (ds_Namespace dpuSet) (sel_node selectors);
  match r with
  | Err err => mret (Err (wrapf "failed to list DPUNodes: " err))
  | Ok nodes => device_loop dpuSet (sel_device selectors) ∅ nodes
  end.

(** The loop of [validateDPUClusterMetadata]. *)
Fixpoint metadata_loop (dpuSet : DPUSet) (devices : list (string * DPUDevice)) : option GoError :=
  match devices with
  | [] => None
  | (name, dd) :: devices =>
      match MergeDPUClusterNodeMetadata (cluster_metadata dpuSet) (dd_NodeLabels dd) with
      | Err err => Some (wrapf ("DPUDevice " +:+ quoted name +:+ ": ") err)
      | Ok _ => metadata_loop dpuSet devices
      end
  end.
Definition validateDPUClusterMetadata (dpuSet : DPUSet) (dpuDeviceMap : gmap string DPUDevice) : option GoError :=
  metadata_loop dpuSet (range_map dpuDeviceMap).

(** ** Collisions *)

Definition addCollisionLabel (dpu : DPU) (dpuSetName : string) : SM W (option GoError) :=
  let collisionKey := GenerateDPUSetCollisionLabelKey dpuSetName in
  if bool_decide (deref (dpu_Labels dpu !! collisionKey) "" = "true") then mret None
  else patchSetDPU dpu (with_Labels (<[collisionKey := "true"]> (dpu_Labels dpu)) dpu).

Definition removeCollisionLabel (dpu : DPU) (collisionKey : string) : SM W (option GoError) :=
  if bool_decide (dpu_Labels dpu !! collisionKey = None) then mret None
  else patchSetDPU dpu (with_Labels (delete collisionKey (dpu_Labels dpu)) dpu).

Definition cleanupCollisionLabels (dpuSet : DPUSet) : SM W (option GoError) :=
  let collisionKey := GenerateDPUSetCollisionLabelKey (ds_Name dpuSet) in
  r ← listLabelledDPUs (ds_Namespace dpuSet) collisionKey;
  match r with
  | Err err => mret (Some (wrapf ("failed to list DPUs with collision label for DPUSet " +:+ ds_Name dpuSet +:+ ": ") err))
  | Ok items =>
      for_each (λ dpu,
        e ← removeCollisionLabel dpu collisionKey;
        mret (wrapf ("failed to remove collision label from DPU " +:+ dpu_Name dpu +:+ ": ") <$> e)) items
  end.

Definition removeStaleCollisionLabels (dpuSet : DPUSet) (dpuDeviceMap : gmap string DPUDevice) : SM W (option GoError) :=
  let collisionKey := GenerateDPUSetCollisionLabelKey (ds_Name dpuSet) in
  r ← listLabelledDPUs (ds_Namespace dpuSet) collisionKey;
  match r with
  | Err err => mret (Some (wrapf ("failed to list DPUs with collision label for DPUSet " +:+ ds_Name dpuSet +:+ ": ") err))
  | Ok items =>
      for_each (λ dpu,
        match dpuDeviceMap !! sp_DPUDeviceName (dpu_Spec dpu) with
        | Some _ => mret None
        | None =>
            e ← removeCollisionLabel dpu collisionKey;
            mret (wrapf ("failed to remove collision label from DPU " +:+ dpu_Name dpu +:+ ": ") <$> e)
        end) items
  end.

(** An error is a label that could not be added, or the panic of [GenerateDPUName]. *)
Definition isDPUOwnedByOtherDPUSet (dpuSet : DPUSet) (dpuDevice : DPUDevice) : SM W (Res bool) :=
  match GenerateDPUName (deref (dd_Labels dpuDevice !! DPUNodeNameLabel) "") (dd_Name dpuDevice) with
  | Err e => mret (Err e)
  | Ok dpuName =>
      r ← getSetDPU (mkNN (ds_Namespace dpuSet) dpuName);
      match r with
      | Err _ => mret (Ok false)
      | Ok existingDPU =>
          let ownerDPUSetName := deref (dpu_Labels existingDPU !! DPUSetNameLabel) "" in
          if bool_decide (ownerDPUSetName = ds_Name dpuSet) then mret (Ok false)
          else
            e ← addCollisionLabel existingDPU (ds_Name dpuSet);
            mret (match e with
                  | Some err => Err (wrapf ("failed to add collision label to DPU " +:+ dpu_Namespace existingDPU +:+ "/"
                                            +:+ dpu_Name existingDPU +:+ ": ") err)
                  | None => Ok true
                  end)
      end
  end.

(** ** Missing DPUs *)

Definition updatePCIAddress (dpu : DPU) (dpuDevice : DPUDevice) : SM W (option GoError) :=
  match dd_PCIAddress dpuDevice with
  | None => mret None
  | Some addr =>
      if bool_decide (sp_PCIAddress (dpu_Spec dpu) = Some addr) then mret None
      else patchSetDPU dpu (with_Spec (with_PCIAddress (Some addr) (dpu_Spec dpu)) dpu)
  end.

Context {K : Codec} {F : FlavorRenderer} (DPFVersion : string).

(** The loop of [createMissingDPUs]: whether a DPU was created, the DPUs that
    belong to another DPUSet, and the error. *)
Fixpoint create_loop (dpuSet : DPUSet) (dpuMap : gmap string DPU) (dpusCreated : bool) (dpusOwnedByOtherDPUSet : Z)
    (devices : list (string * DPUDevice)) : SM W (bool * Z * option GoError) :=
  match devices with
  | [] => mret (dpusCreated, dpusOwnedByOtherDPUSet, None)
  | (dpuDeviceName, dpuDevice) :: devices =>
      match dpuMap !! dpuDeviceName with
      | Some dpu =>
          err ← updatePCIAddress dpu dpuDevice;
          match err with
          | Some e => mret (dpusCreated, dpusOwnedByOtherDPUSet, Some e)
          | None => create_loop dpuSet dpuMap dpusCreated dpusOwnedByOtherDPUSet devices
          end
      | None =>
          if IsAstraEnabledForNonBlueField4 dpuSet dpuDevice
          then create_loop dpuSet dpuMap dpusCreated dpusOwnedByOtherDPUSet devices
          else
            err ← createDPU DPFVersion dpuSet dpuDevice;
            match err with
            | None => create_loop dpuSet dpuMap true dpusOwnedByOtherDPUSet devices
            | Some e =>
                if IsAlreadyExists e then
                  owned ← isDPUOwnedByOtherDPUSet dpuSet dpuDevice;
                  match owned with
                  | Err labelErr => mret (dpusCreated, dpusOwnedByOtherDPUSet, Some labelErr)
                  | Ok o => create_loop dpuSet dpuMap dpusCreated
                              (dpusOwnedByOtherDPUSet + Z.b2z o)%Z devices
                  end
                else mret (dpusCreated, dpusOwnedByOtherDPUSet, Some e)
            end
      end
  end.

Definition createMissingDPUs (dpuSet : DPUSet) (dpuDeviceMap : gmap string DPUDevice) (dpuMap : gmap string DPU)
    : SM W (bool * Z * option GoError) :=
  create_loop dpuSet dpuMap false 0 (range_map dpuDeviceMap).

(** ** Protection of BlueFieldSoftware *)

Context {FA : FinalizerAPI}.

Definition BlueFieldSoftwareFinalizerForDPUSet (dpuSetName : string) : string :=
  BlueFieldSoftwareFinalizerPrefix +:+ dpuSetName.

Definition addBlueFieldSoftwareFinalizer (dpuSet : DPUSet) : SM W (option GoError) :=
  match nonempty (t_BlueFieldSoftware (ds_Template dpuSet)) with
  | None => mret None
  | Some bfsName =>
      let finalizer := BlueFieldSoftwareFinalizerForDPUSet (ds_Name dpuSet) in
      r ← getSetBlueFieldSoftware (mkNN (ds_Namespace dpuSet) bfsName);
      match r with
      | Err err => mret (Some (wrapf "failed to get BlueFieldSoftware: " err))
      | Ok bfs =>
          if ContainsFinalizer (bfs_Finalizers bfs) finalizer then mret None
          else
            e ← updateBlueFieldSoftware (with_bfs_Finalizers (AddFinalizer (bfs_Finalizers bfs) finalizer) bfs);
            mret (wrapf "failed to update BlueFieldSoftware: " <$> e)
      end
  end.

Definition removeBlueFieldSoftwareFinalizer (dpuSet : DPUSet) (keep : gset string) : SM W (option GoError) :=
  let finalizer := BlueFieldSoftwareFinalizerForDPUSet (ds_Name dpuSet) in
  r ← listBlueFieldSoftware (ds_Namespace dpuSet);
  match r with
  | Err err => mret (Some (wrapf "failed to list BlueFieldSoftware: " err))
  | Ok items =>
      for_each (λ bfs,
        if bool_decide (bfs_Name bfs ∈ keep) then mret None
        else if ContainsFinalizer (bfs_Finalizers bfs) finalizer then
          e ← updateBlueFieldSoftware (with_bfs_Finalizers (RemoveFinalizer (bfs_Finalizers bfs) finalizer) bfs);
          mret (match e with
                | None => None
                | Some err => if IsNotFound err then None
                              else Some (wrapf ("failed to update BlueFieldSoftware " +:+ bfs_Name bfs +:+ ": ") err)
                end)
        else mret None) items
  end.

(** The software that stays protected: that of the template and of the owned DPUs. *)
Definition keepBFS (dpuSet : DPUSet) (dpuMap : gmap string DPU) : gset string :=
  let keep := match t_BlueFieldSoftware (ds_Template dpuSet) with Some name => {[ name ]} | None => ∅ end in
  foldl (λ keep kd, match nonempty (sp_BlueFieldSoftware (dpu_Spec kd.2)) with
                    | Some name => {[ name ]} ∪ keep
                    | None => keep
                    end) keep (range_map dpuMap).

(** ** The deletion of the DPUSet *)

Definition DPUSetFinalizer := "provisioning.dpu.nvidia.com/dpuset-protection".

(** The body of the loop over the DPUs. *)
Definition delete_listed (dpu : DPU) : SM W (option GoError) :=
  if deleting dpu then mret None
  else
    e ← deleteDPU dpu;
    mret (wrapf "failed to delete DPU " <$> e).

Definition reconcileDelete (dpuSet : DPUSet) : SM W (option GoError * DPUSet) :=
  r ← listSetDPUs (ds_Name dpuSet) (ds_Namespace dpuSet);
  match r with
  | Err err => mret (Some (wrapf "failed to list DPUs " err), dpuSet)
  | Ok items =>
      e ← for_each delete_listed items;
      match e with
      | Some err => mret (Some err, dpuSet)
      | None =>
          if bool_decide (items ≠ []) then mret (Some (errorf "not all DPUs are deleted"), dpuSet)
          else
            e ← removeBlueFieldSoftwareFinalizer dpuSet ∅;
            match e with
            | Some err => mret (Some err, dpuSet)
            | None =>
                e ← cleanupCollisionLabels dpuSet;
                match e with
                | Some err => mret (Some (wrapf "failed to clean up collision labels: " err), dpuSet)
                | None => mret (None, with_ds_Finalizers (RemoveFinalizer (ds_Finalizers dpuSet) DPUSetFinalizer) dpuSet)
                end
            end
      end
  end.
End Devices.

(** ** Lemmas *)

Lemma elem_of_keepBFS {R : MapRange} {RL : MapRangeLaws R} dpuSet dpuMap name :
  name ∈ keepBFS dpuSet dpuMap ↔
  t_BlueFieldSoftware (ds_Template dpuSet) = Some name ∨
  name ≠ "" ∧ ∃ k d, dpuMap !! k = Some d ∧ sp_BlueFieldSoftware (dpu_Spec d) = Some name.
Proof.
  unfold keepBFS. set (keep0 := match t_BlueFieldSoftware (ds_Template dpuSet) with Some n => {[ n ]} | None => ∅ end : gset string).
  assert (∀ (kds : list (string * DPU)) (keep : gset string), name ∈ foldl (λ keep (kd : string * DPU),
      match nonempty (sp_BlueFieldSoftware (dpu_Spec kd.2)) with Some n => {[ n ]} ∪ keep | None => keep end) keep kds ↔
    name ∈ keep ∨ name ≠ "" ∧ ∃ k d, (k, d) ∈ kds ∧ sp_BlueFieldSoftware (dpu_Spec d) = Some name) as Hf.
  { induction kds as [|[k d] kds IH]; intros keep; simpl.
    - split; [auto|]. intros [?|(_ & k & d & Hin & _)]; [done|]. by apply elem_of_nil in Hin.
    - rewrite IH. unfold nonempty. setoid_rewrite elem_of_cons.
      destruct (sp_BlueFieldSoftware (dpu_Spec d)) as [n|] eqn:E; [case_bool_decide|]; rewrite ?elem_of_union, ?elem_of_singleton; naive_solver. }
  rewrite Hf. setoid_rewrite elem_of_range_map. unfold keep0.
  destruct (t_BlueFieldSoftware (ds_Template dpuSet)); rewrite ?elem_of_singleton, ?elem_of_empty; naive_solver.
Qed.

Section DeviceLemmas.
Context {W : Type} {C : SetClient W} {FA : FinalizerAPI}.

(** Software is only written to take the finalizer of the DPUSet from one that is not kept. *)
Definition released (dpuSet : DPUSet) (keep : gset string) (x : Write) : Prop :=
  match x with
  | WSoftware b _ => ∃ b0, b = with_bfs_Finalizers
        (RemoveFinalizer (bfs_Finalizers b0) (BlueFieldSoftwareFinalizerForDPUSet (ds_Name dpuSet))) b0 ∧ bfs_Name b ∉ keep
  | _ => False
  end.

Lemma removeBlueFieldSoftwareFinalizer_emits dpuSet keep :
  emits (released dpuSet keep) (removeBlueFieldSoftwareFinalizer (C:=traced C) dpuSet keep).
Proof.
  unfold removeBlueFieldSoftwareFinalizer. apply emits_bind; [emits|]. intros [items|]; [|emits].
  apply emits_for_each. intros b _. case_bool_decide as Hk; [emits|]. destruct (ContainsFinalizer _ _); [|emits].
  apply emits_bind; [|intros a; emits]. apply emits_logged. intros r. by exists b.
Qed.

(** Collision labels are the only thing written on a DPU of somebody else. *)
Definition collision_write (dpuSet : DPUSet) (x : Write) : Prop :=
  match x with
  | WPatch d d' _ => let key := GenerateDPUSetCollisionLabelKey (ds_Name dpuSet) in
      d' = with_Labels (<[key := "true"]> (dpu_Labels d)) d ∧
        deref (dpu_Labels d !! DPUSetNameLabel) "" ≠ ds_Name dpuSet ∨
      d' = with_Labels (delete key (dpu_Labels d)) d
  | _ => False
  end.

Lemma removeCollisionLabel_emits dpuSet d :
  emits (collision_write dpuSet) (removeCollisionLabel (C:=traced C) d (GenerateDPUSetCollisionLabelKey (ds_Name dpuSet))).
Proof. unfold removeCollisionLabel. case_bool_decide; [emits|]. apply emits_logged. intros r. by right. Qed.

Lemma cleanupCollisionLabels_emits dpuSet : emits (collision_write dpuSet) (cleanupCollisionLabels (C:=traced C) dpuSet).
Proof.
  unfold cleanupCollisionLabels. apply emits_bind; [emits|]. intros [items|]; [|emits]. apply emits_for_each. intros d _.
  apply emits_bind; [apply removeCollisionLabel_emits|emits].
Qed.

Lemma removeStaleCollisionLabels_emits dpuSet devs :
  emits (collision_write dpuSet) (removeStaleCollisionLabels (C:=traced C) dpuSet devs).
Proof.
  unfold removeStaleCollisionLabels. apply emits_bind; [emits|]. intros [items|]; [|emits]. apply emits_for_each. intros d _.
  destruct (devs !! _); [emits|]. apply emits_bind; [apply removeCollisionLabel_emits|emits].
Qed.

Lemma isDPUOwnedByOtherDPUSet_emits dpuSet dev :
  emits (collision_write dpuSet) (isDPUOwnedByOtherDPUSet (C:=traced C) dpuSet dev).
Proof.
  unfold isDPUOwnedByOtherDPUSet. destruct (GenerateDPUName _ _); [|emits]. apply emits_bind; [emits|].
  intros [d|]; [|emits]. case_bool_decide as Hn; [emits|]. apply emits_bind; [|emits].
  unfold addCollisionLabel. case_bool_decide; [emits|]. apply emits_logged. intros r. by left.
Qed.
End DeviceLemmas.

(** *** Creation *)

Section Creation.
Context {W : Type} {C : SetClient W} {R : MapRange} {K : Codec} {F : FlavorRenderer} (version : string).

(** The writes of the creation of a DPU for a device. *)
Definition created_for (dpuSet : DPUSet) (dev : DPUDevice) (x : Write) : Prop :=
  match x with
  | WCreate d _ => ∃ dpu, newDPU version dpuSet dev = Ok dpu ∧
      dpu_key d = dpu_key dpu ∧ sp_DPUDeviceName (dpu_Spec d) = dd_Name dev ∧
      (isTemplateMode dpuSet = false → d = dpu)
  | WCreateFlavor f _ => isTemplateMode dpuSet = true ∧ ∃ dpu, newDPU version dpuSet dev = Ok dpu ∧
      fl_Name f = dpu_Name dpu ∧ fl_Labels f !! GeneratedByLabel = Some GeneratedByDPUFlavorTemplate
  | _ => False
  end.

Lemma createDPU_emits dpuSet dev : emits (created_for dpuSet dev) (createDPU (C:=traced C) version dpuSet dev).
Proof.
  unfold createDPU. destruct (newDPU version dpuSet dev) as [dpu|] eqn:En; [|emits].
  destruct (newDPU_names _ _ _ _ En) as [Hns Hdev].
  destruct (isTemplateMode dpuSet) eqn:Em.
  2: { apply emits_logged. intros r. by exists dpu. }
  assert (∀ n th vh ann, emits (created_for dpuSet dev)
    (createDPU_api (SetClient:=traced C) (with_Annotations ann (with_inputs n th vh dpu)))) as Hc.
  { intros n th vh ann. apply emits_logged. intros r. exists dpu. split_and!; [done..|]. by rewrite Em. }
  unfold createTemplateModeDPU. apply emits_bind; [emits|]. intros [template|]; [|emits].
  destruct (inputHashes _ _) as [[th vh]|]; [|emits]. unfold renderGeneratedFlavor.
  destruct (Render _ _) as [f|]; [|apply Hc]. apply emits_bind.
  - apply emits_logged. intros r. split; [done|]. exists dpu. split_and!; [done..|].
    simpl. by rewrite !lookup_insert_ne, lookup_insert_eq by done.
  - intros [e|]; [|apply (Hc _ _ _ (dpu_Annotations dpu))].
    destruct (IsAlreadyExists e); [apply (Hc _ _ _ (dpu_Annotations dpu))|]. destruct (rejected e); [apply Hc|emits].
Qed.

(** The writes of [createMissingDPUs]. *)
Definition missing_write (dpuSet : DPUSet) (devs : gmap string DPUDevice) (dpuMap : gmap string DPU) (x : Write) : Prop :=
  collision_write dpuSet x ∨
  ∃ name dev, devs !! name = Some dev ∧
    match dpuMap !! name with
    | Some dpu => ∃ addr e, dd_PCIAddress dev = Some addr ∧ sp_PCIAddress (dpu_Spec dpu) ≠ Some addr ∧
        x = WPatch dpu (with_Spec (with_PCIAddress (Some addr) (dpu_Spec dpu)) dpu) e
    | None => IsAstraEnabledForNonBlueField4 dpuSet dev = false ∧ created_for dpuSet dev x
    end.

Lemma create_loop_emits {RL : MapRangeLaws R} dpuSet devs dpuMap l : (∀ x, x ∈ l → x ∈ range_map devs) → ∀ c o,
  emits (missing_write dpuSet devs dpuMap) (create_loop (C:=traced C) version dpuSet dpuMap c o l).
Proof.
  induction l as [|[name dev] l IH]; intros Hl c o; [emits|]. cbn [create_loop].
  assert (devs !! name = Some dev) as Hdev by (apply elem_of_range_map, Hl; left).
  assert (∀ c o, emits (missing_write dpuSet devs dpuMap) (create_loop (C:=traced C) version dpuSet dpuMap c o l)) as IH'
    by (apply IH; intros x Hx; apply Hl; by right).
  destruct (dpuMap !! name) as [dpu|] eqn:Ed.
  - apply emits_bind; [|intros [e|]; [emits|apply IH']]. unfold updatePCIAddress.
    destruct (dd_PCIAddress dev) as [addr|] eqn:Ea; [|emits]. case_bool_decide as Hp; [emits|]. apply emits_logged.
    intros r. right. exists name, dev. split; [done|]. rewrite Ed. by exists addr, r.
  - destruct (IsAstraEnabledForNonBlueField4 dpuSet dev) eqn:Eb; [apply IH'|]. apply emits_bind.
    + eapply emits_weaken; [|apply createDPU_emits]. intros x Hx. right. exists name, dev. split; [done|]. by rewrite Ed.
    + intros [e|]; [|apply IH']. destruct (IsAlreadyExists e); [|emits]. apply emits_bind.
      * eapply emits_weaken; [|apply isDPUOwnedByOtherDPUSet_emits]. intros x Hx. by left.
      * intros [b|]; [apply IH'|emits].
Qed.

Lemma createMissingDPUs_emits {RL : MapRangeLaws R} dpuSet devs dpuMap :
  emits (missing_write dpuSet devs dpuMap) (createMissingDPUs (C:=traced C) version dpuSet devs dpuMap).
Proof. by apply create_loop_emits. Qed.
End Creation.

Section CreationResults.
Context {W : Type} {C : SetClient W} {R : MapRange} {K : Codec} {F : FlavorRenderer} (version : string).

(** A DPU was created. *)
Definition has_created (log : list Write) : Prop := ∃ d, WCreate d None ∈ log.

Lemma has_created_app l k : has_created (l ++ k) ↔ has_created l ∨ has_created k.
Proof. unfold has_created. setoid_rewrite elem_of_app. naive_solver. Qed.

Lemma not_created (Q : Write → Prop) k : Forall Q k → (∀ d e, ¬ Q (WCreate d e)) → ¬ has_created k.
Proof. intros Hk HQ [d Hd]. rewrite Forall_forall in Hk. by apply (HQ d None), Hk. Qed.

Lemma createDPU_api_result d (w : W) l :
  let r := createDPU_api (SetClient:=traced C) d (w, l) in
  ∃ k, r.2.2 = l ++ k ∧ (r.1 = None ↔ has_created k).
Proof.
  simpl. unfold logged. simpl. destruct (createDPU_api d w) as [r w']. exists [WCreate d r]. split; [done|]. simpl.
  unfold has_created. setoid_rewrite list_elem_of_singleton. split; [intros ->; by exists d|]. by intros (d' & [= _ <-]).
Qed.

(** The result of a creation says whether the DPU was created. *)
Lemma createDPU_result dpuSet dev (w : W) l :
  let r := createDPU (C:=traced C) version dpuSet dev (w, l) in
  ∃ k, r.2.2 = l ++ k ∧ (r.1 = None ↔ has_created k).
Proof.
  assert (∀ (e : GoError) (w : W) l, ∃ k, ((Some e, (w, l)) : option GoError * (W * list Write)).2.2 = l ++ k ∧
    ((Some e : option GoError) = None ↔ has_created k)) as Hfail.
  { intros e w' l'. exists []. rewrite app_nil_r. split; [done|]. split; [done|]. intros [d Hd]. by apply elem_of_nil in Hd. }
  unfold createDPU. destruct (newDPU version dpuSet dev) as [dpu|]; [|apply Hfail].
  destruct (isTemplateMode dpuSet); [|apply createDPU_api_result].
  unfold createTemplateModeDPU, mbind, SM_bind. simpl. unfold unlogged, logged. simpl.
  destruct (getDPUFlavorTemplate _ w) as [[template|] w1]; [|apply Hfail]. simpl.
  destruct (inputHashes _ _) as [[th vh]|]; [|apply Hfail].
  destruct (renderGeneratedFlavor _ _ _ _) as [flavor|]; [|apply createDPU_api_result]. simpl.
  assert (∀ d (w : W), let r := createDPU_api (SetClient:=traced C) d (w, l ++ [WCreateFlavor flavor (createDPUFlavor flavor w1).1]) in
    ∃ k, r.2.2 = l ++ k ∧ (r.1 = None ↔ has_created k)) as Hc.
  { intros d w'. destruct (createDPU_api_result d w' (l ++ [WCreateFlavor flavor (createDPUFlavor flavor w1).1])) as (k & Hk & Hr).
    exists (WCreateFlavor flavor (createDPUFlavor flavor w1).1 :: k). rewrite Hk, <- app_assoc. split; [done|]. rewrite Hr.
    unfold has_created. setoid_rewrite elem_of_cons. naive_solver. }
  destruct (createDPUFlavor flavor w1) as [[e|] w2]; [|apply Hc].
  destruct (IsAlreadyExists e); [apply Hc|]. destruct (rejected e); [apply Hc|].
  exists [WCreateFlavor flavor (Some e)]. split; [done|]. split; [done|]. intros [d [=]%list_elem_of_singleton].
Qed.

(** A creation was tried and the DPU is there. *)
Definition attempted (dpuSet : DPUSet) (dev : DPUDevice) : Prop :=
  ∃ s, from_option IsAlreadyExists true (createDPU (C:=traced C) version dpuSet dev s).1 = true.

Definition loop_result (dpuSet : DPUSet) (dpuMap : gmap string DPU) (devices : list (string * DPUDevice)) (c : bool) (o : Z)
    (l : list Write) (r : bool * Z * option GoError * (W * list Write)) : Prop :=
  ∃ k, r.2.2 = l ++ k ∧ (r.1.1.1 = true ↔ c = true ∨ has_created k) ∧
    (o <= r.1.1.2 <= o + Z.of_nat (length devices))%Z ∧
    (r.1.2 = None → ∀ name dev, (name, dev) ∈ devices → dpuMap !! name = None →
       IsAstraEnabledForNonBlueField4 dpuSet dev = false → attempted dpuSet dev).

(** A step of the loop that goes on, and one that ends it. *)
Lemma loop_result_cons dpuSet dpuMap name dev devices c c' o o' l k1 r :
  (c' = true ↔ c = true ∨ has_created k1) → (o <= o' <= o + 1)%Z →
  (dpuMap !! name = None → IsAstraEnabledForNonBlueField4 dpuSet dev = false → attempted dpuSet dev) →
  loop_result dpuSet dpuMap devices c' o' (l ++ k1) r → loop_result dpuSet dpuMap ((name, dev) :: devices) c o l r.
Proof.
  intros Hc' Ho Ha (k & Hk & Hc & Hb & Hall). exists (k1 ++ k). rewrite app_assoc. split; [done|].
  rewrite Hc, has_created_app. split; [naive_solver|]. split; [cbn [length]; lia|].
  intros Hr n0 d0 [[= -> ->]|Hin]%elem_of_cons; [done|]. by apply Hall.
Qed.

Lemma loop_result_end dpuSet dpuMap devices c o l k1 e (w : W) :
  ¬ has_created k1 → loop_result dpuSet dpuMap devices c o l (c, o, Some e, (w, l ++ k1)).
Proof. intros Hk1. exists k1. split; [done|]. split; [naive_solver|]. split; [simpl; lia|done]. Qed.

(** A computation that creates no DPU. *)
Lemma emits_no_creation {A} (Q : Write → Prop) (m : SM (W * list Write) A) (w : W) l :
  emits Q m → (∀ d e, ¬ Q (WCreate d e)) → ∃ a w' k, m (w, l) = (a, (w', l ++ k)) ∧ ¬ has_created k.
Proof.
  intros Hm HQ. destruct (Hm w l) as (k & Hk & Hf). destruct (m (w, l)) as [a [w' l']]. simpl in Hk. subst l'.
  exists a, w', k. split; [done|]. by eapply not_created.
Qed.

Lemma create_loop_result dpuSet dpuMap devices : ∀ c o (w : W) l,
  loop_result dpuSet dpuMap devices c o l (create_loop (C:=traced C) version dpuSet dpuMap c o devices (w, l)).
Proof.
  induction devices as [|[name dev] devices IH]; intros c o w l.
  { exists []. rewrite app_nil_r. split; [done|]. split.
    - split; [by left|]. intros [?|[d Hd%elem_of_nil]]; done.
    - split; [simpl; lia|]. intros _ ? ? ?%elem_of_nil. done. }
  assert (∀ k1, ¬ has_created k1 → (c = true ↔ c = true ∨ has_created k1)) as Hsame by naive_solver.
  cbn [create_loop]. destruct (dpuMap !! name) as [dpu|] eqn:Ed; unfold mbind, SM_bind.
  - destruct (emits_no_creation (λ x, match x with WPatch _ _ _ => True | _ => False end) (updatePCIAddress (C:=traced C) dpu dev) w l)
      as (err & w1 & k1 & -> & Hk1); [unfold updatePCIAddress; emits; done|by intros ? ? []|].
    destruct err as [e|]; [by apply loop_result_end|]. apply (loop_result_cons _ _ _ _ _ _ c _ o _ k1); [auto|lia|congruence|]. apply IH.
  - destruct (IsAstraEnabledForNonBlueField4 dpuSet dev) eqn:Eb.
    { apply (loop_result_cons _ _ _ _ _ _ c _ o _ []); [apply Hsame; by intros [d Hd%elem_of_nil]|lia|congruence|].
      rewrite app_nil_r. apply IH. }
    destruct (createDPU_result dpuSet dev w l) as (k1 & Hk1 & Hr).
    assert (∀ a, (createDPU (C:=traced C) version dpuSet dev (w, l)).1 = a → from_option IsAlreadyExists true a = true →
      attempted dpuSet dev) as Hatt by (intros a <- Ha; by exists (w, l)).
    destruct (createDPU (C:=traced C) version dpuSet dev (w, l)) as [err [w1 l1]]. cbn [fst snd] in *. subst l1.
    destruct err as [e|].
    2: { apply (loop_result_cons _ _ _ _ _ _ true _ o _ k1); [naive_solver|lia|by intros; eapply Hatt|]. apply IH. }
    assert (¬ has_created k1) as Hk1 by (intros H; by apply Hr in H).
    destruct (IsAlreadyExists e) eqn:Ea; [|by apply loop_result_end].
    destruct (emits_no_creation (collision_write dpuSet) (isDPUOwnedByOtherDPUSet (C:=traced C) dpuSet dev) w1 (l ++ k1))
      as (owned & w2 & k2 & -> & Hk2); [apply isDPUOwnedByOtherDPUSet_emits|by intros ? ? []|].
    assert (¬ has_created (k1 ++ k2)) as Hk by (rewrite has_created_app; tauto). rewrite <- app_assoc.
    destruct owned as [b|e']; [|by apply loop_result_end].
    apply (loop_result_cons _ _ _ _ _ _ c _ (o + Z.b2z b) _ (k1 ++ k2)); [auto|destruct b; simpl; lia| |apply IH].
    intros _ _. by eapply Hatt.
Qed.
End CreationResults.

(** ** Properties *)

Lemma delete_listed_loop {W} {C : SetClient W} dpus : ∀ (w : W) l,
  let r := for_each (delete_listed (C:=traced C)) dpus (w, l) in
  ∃ k, r.2.2 = l ++ k ∧ Forall (λ x, ∃ d e, x = WDelete d e ∧ d ∈ dpus ∧ deleting d = false) k ∧
    (r.1 = None → ∀ d, d ∈ dpus → deleting d = false → WDelete d None ∈ k) ∧
    (r.1 ≠ None → ∃ d e, WDelete d (Some e) ∈ k).
Proof.
  induction dpus as [|d dpus IH]; intros w l.
  { exists []. rewrite app_nil_r. split; [done|]. split; [done|]. split; [by intros _ ? ?%elem_of_nil|done]. }
  cbn [for_each]. unfold mbind, SM_bind. unfold delete_listed at 1 3 5. destruct (deleting d) eqn:Ed.
  - simpl. destruct (IH w l) as (k & -> & Hf & Hok & Hfail). exists k. split; [done|]. split.
    + eapply Forall_impl; [done|]. intros x (d' & e & -> & Hin & Hd). exists d', e. split; [done|]. split; [by right|done].
    + split; [|done]. intros Hr d' [->|Hin]%elem_of_cons Hd; [congruence|]. by apply Hok.
  - unfold mbind, SM_bind. simpl. unfold logged. simpl. destruct (deleteDPU d w) as [[e|] w1]; simpl.
    + exists [WDelete d (Some e)]. split; [done|]. split.
      * apply Forall_singleton. exists d, (Some e). split; [done|]. split; [left|done].
      * split; [done|]. intros _. exists d, e. left.
    + destruct (IH w1 (l ++ [WDelete d None])) as (k & -> & Hf & Hok & Hfail). exists (WDelete d None :: k).
      rewrite <- app_assoc. split; [done|]. split; [|split].
      * constructor; [exists d, None; split; [done|]; split; [left|done]|]. eapply Forall_impl; [done|].
        intros x (d' & e & -> & Hin & Hd). exists d', e. split; [done|]. split; [by right|done].
      * intros Hr d' [->|Hin]%elem_of_cons Hd; [left|]. right. by apply Hok.
      * intros Hr. destruct (Hfail Hr) as (d' & e & H). exists d', e. by right.
Qed.

(** Creation: a DPU is created only for a selected device that has none yet and
    that the template may be installed on, as the DPU made from the template; a
    DPU that is there only gets the PCI address of its device, and a DPU of
    another DPUSet only the collision label.  The result tells whether a DPU was
    created, and after a pass without an error every missing DPU was tried and is
    there, its own or somebody else's; at most one DPU per device is counted as
    somebody else's. *)
Theorem createMissingDPUs_spec {W} {C : SetClient W} {R : MapRange} {RL : MapRangeLaws R} {K : Codec} {F : FlavorRenderer}
    version dpuSet devs dpuMap (w : W) :
  let r := createMissingDPUs (C:=traced C) version dpuSet devs dpuMap (w, []) in
  Forall (missing_write version dpuSet devs dpuMap) r.2.2 ∧
  (r.1.1.1 = true ↔ has_created r.2.2) ∧
  (0 <= r.1.1.2 <= Z.of_nat (size devs))%Z ∧
  (r.1.2 = None → ∀ name dev, devs !! name = Some dev → dpuMap !! name = None →
     IsAstraEnabledForNonBlueField4 dpuSet dev = false → attempted (C:=C) version dpuSet dev).
Proof.
  cbn zeta. split; [by apply emits_log, createMissingDPUs_emits|]. unfold createMissingDPUs.
  destruct (create_loop_result (C:=C) version dpuSet dpuMap (range_map devs) false 0 w []) as (k & Hk & Hc & Hb & Hall).
  split; [|split].
  - rewrite Hc, Hk. simpl. naive_solver.
  - pose proof (Permutation_length (range_map_perm devs)) as El. rewrite length_map_to_list in El. lia.
  - intros Hr name dev Hdev. apply Hall; [done|]. by apply elem_of_range_map.
Qed.

(** BlueFieldSoftware stays protected while it is used: what a pass takes the
    finalizer of the DPUSet from is never the software of the template nor that
    of a DPU it owns, and nothing but that finalizer is taken; and the finalizer
    is on the software of the template once it could be added without an error. *)
Theorem software_protected {W} {C : SetClient W} {R : MapRange} {RL : MapRangeLaws R} {FA : FinalizerAPI} {FL : FinalizerAPILaws FA}
    dpuSet dpuMap (w : W) :
  let finalizer := BlueFieldSoftwareFinalizerForDPUSet (ds_Name dpuSet) in
  let used name := t_BlueFieldSoftware (ds_Template dpuSet) = Some name ∨
    name ≠ "" ∧ ∃ k d, dpuMap !! k = Some d ∧ sp_BlueFieldSoftware (dpu_Spec d) = Some name in
  Forall (λ x, ∃ b b' e, x = WSoftware b' e ∧ ¬ used (bfs_Name b') ∧ b' = with_bfs_Finalizers (bfs_Finalizers b') b ∧
            ∀ g, g ∈ bfs_Finalizers b' ↔ g ∈ bfs_Finalizers b ∧ g ≠ finalizer)
    (removeBlueFieldSoftwareFinalizer (C:=traced C) dpuSet (keepBFS dpuSet dpuMap) (w, [])).2.2 ∧
  (let r := addBlueFieldSoftwareFinalizer (C:=traced C) dpuSet (w, []) in
   r.1 = None → ∀ name, t_BlueFieldSoftware (ds_Template dpuSet) = Some name → name ≠ "" →
   ∃ b, finalizer ∈ bfs_Finalizers b ∧
     ((getSetBlueFieldSoftware (mkNN (ds_Namespace dpuSet) name) w).1 = Ok b ∨ WSoftware b None ∈ r.2.2)).
Proof.
  cbn zeta. split.
  - apply emits_log. eapply emits_weaken; [|apply removeBlueFieldSoftwareFinalizer_emits].
    intros [] Hx; try done. destruct Hx as (b0 & -> & Hk). eexists b0, _, _. split; [done|].
    rewrite elem_of_keepBFS in Hk. split; [done|]. split; [done|]. intros g. apply remove_finalizer.
  - unfold addBlueFieldSoftwareFinalizer. intros Hr name Hn Hne. rewrite Hn in Hr |- *.
    unfold nonempty in Hr |- *. rewrite bool_decide_eq_true_2 in Hr |- * by done. revert Hr.
    unfold mbind, SM_bind. simpl. unfold unlogged, logged. simpl.
    destruct (getSetBlueFieldSoftware _ w) as [[b|e] w1]; [|done]. simpl.
    destruct (ContainsFinalizer (bfs_Finalizers b) _) eqn:Ec.
    + intros _. exists b. apply contains_finalizer in Ec. split; [done|]. by left.
    + simpl. destruct (updateBlueFieldSoftware _ w1) as [[e|] w2]; simpl; [done|]. intros _.
      eexists. split; [|right; by left]. simpl. apply add_finalizer. by right.
Qed.

(** The deletion of a DPUSet: every pass deletes the listed DPUs that are not being
    deleted yet and nothing else; as long as one is listed, nothing is released
    and the pass ends with an error, so it is repeated; the finalizer of the
    DPUSet goes only in a pass that listed no DPU and released the software and
    the collision labels without an error. *)
Theorem reconcileDelete_spec {W} {C : SetClient W} {FA : FinalizerAPI} dpuSet (w : W) :
  let r := reconcileDelete (C:=traced C) dpuSet (w, []) in
  match (listSetDPUs (ds_Name dpuSet) (ds_Namespace dpuSet) w).1 with
  | Err _ => r.1.1 ≠ None ∧ r.1.2 = dpuSet ∧ r.2.2 = []
  | Ok [] =>
      Forall (λ x, released dpuSet ∅ x ∨ collision_write dpuSet x) r.2.2 ∧
      (r.1.1 = None → r.1.2 = with_ds_Finalizers (RemoveFinalizer (ds_Finalizers dpuSet) DPUSetFinalizer) dpuSet) ∧
      (r.1.1 ≠ None → r.1.2 = dpuSet)
  | Ok dpus =>
      r.1.1 ≠ None ∧ r.1.2 = dpuSet ∧
      Forall (λ x, ∃ d e, x = WDelete d e ∧ d ∈ dpus ∧ deleting d = false) r.2.2 ∧
      ((∃ d e, WDelete d (Some e) ∈ r.2.2) ∨
       r.1.1 = Some (errorf "not all DPUs are deleted") ∧ ∀ d, d ∈ dpus → deleting d = false → WDelete d None ∈ r.2.2)
  end.
Proof.
  cbn zeta. unfold reconcileDelete, mbind, SM_bind. simpl. unfold unlogged. simpl.
  destruct (listSetDPUs _ _ w) as [[dpus|e] w1]; [|done]. cbn [fst snd].
  destruct (delete_listed_loop (C:=C) dpus w1 []) as (k & Hk & Hdel & Hok & Hfail).
  destruct (for_each (delete_listed (C:=traced C)) dpus (w1, [])) as [err [w2 l2]] eqn:Eloop. cbn [fst snd app] in *. subst l2.
  destruct dpus as [|d dpus].
  - injection Eloop as <- _ Hl. rewrite <- Hl. simpl.
    assert (emits (λ x, released dpuSet ∅ x ∨ collision_write dpuSet x) (removeBlueFieldSoftwareFinalizer (C:=traced C) dpuSet ∅)) as He1
      by (eapply emits_weaken; [|apply removeBlueFieldSoftwareFinalizer_emits]; auto).
    assert (emits (λ x, released dpuSet ∅ x ∨ collision_write dpuSet x) (cleanupCollisionLabels (C:=traced C) dpuSet)) as He2
      by (eapply emits_weaken; [|apply cleanupCollisionLabels_emits]; auto).
    destruct (He1 w2 []) as (k1 & Hk1 & Hq1).
    destruct (removeBlueFieldSoftwareFinalizer _ _ (w2, [])) as [[e|] [w3 l3]]; simpl in *; subst l3; [done|].
    destruct (He2 w3 k1) as (k2 & Hk2 & Hq2). destruct (cleanupCollisionLabels _ (w3, k1)) as [[e|] [w4 l4]]; simpl in *; subst l4;
      (split; [by apply Forall_app|done]).
  - destruct err as [err|]; simpl; (split; [done|]); (split; [done|]); (split; [done|]).
    + left. by apply Hfail.
    + right. split; [done|]. by apply Hok.
Qed.

(** ** Witnesses *)

(** One device without a DPU: it gets one. *)
Lemma createMissingDPUs_spec_witness :
  let r := createMissingDPUs (C:=traced fake_set_client) (R:=map_to_list_range) (K:=fake_codec) (F:=fake_renderer) "v1"
             example_set {[ "a" := example_device ]} ∅ (empty_world, []) in
  r.1.1.1 = true ∧ has_created r.2.2.
Proof.
  split; [vm_compute; reflexivity|].
  apply (proj1 (proj1 (proj2 (createMissingDPUs_spec (C:=fake_set_client) (R:=map_to_list_range) (K:=fake_codec) (F:=fake_renderer) "v1"
    example_set {[ "a" := example_device ]} ∅ empty_world)))).
  vm_compute. reflexivity.
Defined.

(** Software nobody uses any more is released. *)
Lemma software_protected_witness :
  let old := example_software "old" [BlueFieldSoftwareFinalizerForDPUSet "set"] in
  let w := with_softwares {[ mkNN "ns" "old" := old ]} empty_world in
  let r := removeBlueFieldSoftwareFinalizer (C:=traced fake_set_client) (FA:=finalizer_list) example_set
             (keepBFS (R:=map_to_list_range) example_set ∅) (w, []) in
  length r.2.2 = 1 ∧
  Forall (λ x, ∃ b e, x = WSoftware b e ∧ BlueFieldSoftwareFinalizerForDPUSet "set" ∉ bfs_Finalizers b) r.2.2.
Proof.
  split; [vm_compute; reflexivity|].
  eapply Forall_impl; [exact (proj1 (software_protected (C:=fake_set_client) (R:=map_to_list_range) (FA:=finalizer_list) example_set ∅
    (with_softwares {[ mkNN "ns" "old" := example_software "old" [BlueFieldSoftwareFinalizerForDPUSet "set"] ]} empty_world)))|].
  intros x (b & b' & e & -> & _ & _ & Hg). exists b', e. split; [done|]. intros H. by apply Hg in H as [_ ?].
Defined.
