(* ===== verification/DPUSetController.v ===== *)
(** The DPUSet controller (dpuset_controller.go): one reconcile of a DPUSet, with
    its checks, the protection by finalizers, and the order in which DPUs are
    created, deleted, updated and reconfigured.

    The deferred patch is the last call of [Reconcile]; that it also sets
    [status.observedGeneration] is part of the call.  The clock is read once per
    reconcile.  The digest of a template (internal/digest) is an operation of
    [TemplateDigest]. *)

From stdpp Require Import sorting.

From S2P Require Import Prelude.
From S2P Require Import Meta.
From S2P Require Import Conditions.
From S2P Require Import DPUTypes.
From S2P Require Import DPUConditions.
From S2P Require Import Kubernetes.
From S2P Require Import FakeClient.
From S2P Require Import Maintenance.
From S2P Require Import ClusterMetadata.
From S2P Require Import WriteLog.
From S2P Require Import DPUSetTypes.
From S2P Require Import DPUSetTemplate.
From S2P Require Import DPUSetRollout.
From S2P Require Import DPUSetFlavor.
From S2P Require Import DPUSetUpdate.
From S2P Require Import DPUSetInPlace.
From S2P Require Import DPUSetDevices.

Class TemplateDigest := calculateDPUTemplateSpecDigest : DPUTemplateSpec → string.

Record DPUSetOptions := mkDPUSetOptions {
  so_DPUInstallInterface : string;
  so_MaxUnavailableDPUNodes : Z }.

Definition ConditionDPUSetReconciled := "DPUSetPrereqsReconciled".
Definition DPUSetConditions : list string := [TypeReady; ConditionDPUSetReconciled].
Definition OnDeleteStrategyType := "OnDelete".
Definition RollingUpdateStrategyType := "RollingUpdate".

Section Controller.
Context {W : Type} {C : SetClient W} {S : SelectorAPI} {R : MapRange} {K : Codec} {F : FlavorRenderer}.
Context {FA : FinalizerAPI} {API : MetaAPI} {TD : TemplateDigest}.
Context (DPFVersion : string) (options : DPUSetOptions) (now : Time).

(** The selectors or the error, and the DPUSet with the outcome in its condition. *)
Definition validateDPUSet (dpuSet : DPUSet) : Res dpuSetSelectors * DPUSet :=
  let effect := t_NodeEffect (ds_Template dpuSet) in
  if bool_decide (so_DPUInstallInterface options = InstallViaRedFish) && (IsCustomLabel effect || IsTaint effect || IsDrain effect)
  then
    let message := "NodeEffect is not allowed to be " +:+ NodeEffect_String effect +:+ " when using RedFish Install Interface" in
    (Err (errorf ("invalid NodeEffect: " +:+ message)),
     AddFalse now dpuSet ConditionDPUSetReconciled ReasonError message)
  else
    match parseDPUSetSelectors dpuSet with
    | Err err => (Err err, AddFalse now dpuSet ConditionDPUSetReconciled ReasonError (err_msg err))
    | Ok selectors => (Ok selectors, AddTrue now dpuSet ConditionDPUSetReconciled)
    end.

(** The hash is computed again only when the generation changed or there is none. *)
Definition with_template_hash (dpuSet : DPUSet) : DPUSet :=
  let computed := calculateDPUTemplateSpecDigest (ds_Template dpuSet) in
  let hash := match ds_Labels dpuSet !! DPUSetDPUTemplateSpecHashLabelKey with
              | Some existingHash =>
                  if (ds_ObservedGeneration dpuSet =? ds_Generation dpuSet)%Z then existingHash else computed
              | None => computed
              end in
  with_ds_Labels (<[DPUSetDPUTemplateSpecHashLabelKey := hash]> (ds_Labels dpuSet)) dpuSet.

(** [return ctrl.Result{}, fmt.Errorf(pre + "%w", err)] with the DPUSet as it is. *)
Definition fail (dpuSet : DPUSet) (pre : string) (err : GoError) : option GoError * DPUSet := (Some (wrapf pre err), dpuSet).

(** A call that changes the DPUSet and may fail. *)
Definition update_or_return (m : SM W (option GoError * DPUSet)) (pre : string) : Fn W (option GoError * DPUSet) DPUSet := λ w,
  match m w with
  | ((Some err, dpuSet), w) => (inl (fail dpuSet pre err), w)
  | ((None, dpuSet), w) => (inr dpuSet, w)
  end.

(** The switch over the strategy. *)
Definition strategy (dpuSet : DPUSet) (dpuMap : gmap string DPU) (provisionableDPUs : Z) (clusters : list DPUCluster)
    (templateEvals : gmap string templateEval) : SM W (option GoError) :=
  if bool_decide (ds_Strategy dpuSet = OnDeleteStrategyType) then
    e ← onDelete dpuSet dpuMap clusters;
    mret (wrapf "failed to on delete DPUs " <$> e)
  else if bool_decide (ds_Strategy dpuSet = RollingUpdateStrategyType) then
    e ← rolloutRolling (so_MaxUnavailableDPUNodes options) dpuSet dpuMap provisionableDPUs clusters templateEvals;
    mret (wrapf "failed to rollout DPU " <$> e)
  else mret (Some (errorf ("unsupported strategy type " +:+ quoted (ds_Strategy dpuSet)))).

(** [Handle] from the evaluation of the DPUs on: they are replaced, updated and reconfigured. *)
Definition handle_existing (dpuSet : DPUSet) (dpuDeviceMap : gmap string DPUDevice) (clusters : list DPUCluster)
    (dpusCreated : bool) (dpusOwnedByOtherDPUSet : Z) (dpuMap : gmap string DPU)
    : Fn W (option GoError * DPUSet) (option GoError * DPUSet) :=
  templateEvals ← lift (evalTemplateDPUs dpuSet dpuMap);
  _ ← check (reconcileTemplateDPUs dpuSet dpuMap templateEvals) (fail dpuSet "failed to reconcile template DPUs ");
  let provisionableDPUs := provisionableDPUCount dpuSet dpuDeviceMap dpusOwnedByOtherDPUSet in
  _ ← check (strategy dpuSet dpuMap provisionableDPUs clusters templateEvals) (λ err, (Some err, dpuSet));
  u ← lift (UpdateDPUs dpuSet dpuMap dpuDeviceMap);
  let dpuSet := u.2 in
  match u.1 with
  | Err err => return_early (fail dpuSet "failed to update node effect ApplyOnLabelChange for DPUs " err)
  | Ok dpusUpdated =>
      _ ← check (reconcileDPUOutdatedStatus now dpuSet dpuMap clusters templateEvals)
            (fail dpuSet "failed to reconcile DPU Outdated status: ");
      dpuSet ← update_or_return
                 (reconcileInPlaceReconfig now (so_MaxUnavailableDPUNodes options) dpuSet provisionableDPUs)
                 "failed to reconcile in-place reconfig: ";
      dpuSet ← update_or_return
                 (UpdateDPUSetStatus now dpuSet (dpusCreated || dpusUpdated) (Z.of_nat (size dpuDeviceMap))
                    dpusOwnedByOtherDPUSet) "failed to update DPUSet status: ";
      mret (None, dpuSet)
  end.

(** [Handle] once the devices and the DPUs are known: missing DPUs are created and stale ones deleted first. *)
Definition handle_listed (dpuSet : DPUSet) (dpuDeviceMap : gmap string DPUDevice) (clusters : list DPUCluster) (dpuMap : gmap string DPU)
    : Fn W (option GoError * DPUSet) (option GoError * DPUSet) :=
  _ ← check (removeBlueFieldSoftwareFinalizer dpuSet (keepBFS dpuSet dpuMap)) (λ err, (Some err, dpuSet));
  dpuSet ← update_or_return (reconcileDPUFlavorTemplateCondition now dpuSet) "";
  c ← lift (createMissingDPUs DPFVersion dpuSet dpuDeviceMap dpuMap);
  match c with
  | (_, _, Some err) => return_early (Some err, dpuSet)
  | (dpusCreated, dpusOwnedByOtherDPUSet, None) =>
      _ ← check (removeStaleCollisionLabels dpuSet dpuDeviceMap) (λ err, (Some err, dpuSet));
      _ ← check (deleteStaleDPUs dpuDeviceMap dpuMap) (λ err, (Some err, dpuSet));
      dpuMap ← or_return (GetDPUsMap dpuSet) (fail dpuSet "failed to get DPUs ");
      handle_existing dpuSet dpuDeviceMap clusters dpusCreated dpusOwnedByOtherDPUSet dpuMap
  end.

(** [Handle] once the devices are known. *)
Definition handle_devices (dpuSet : DPUSet) (dpuDeviceMap : gmap string DPUDevice) (clusters : list DPUCluster)
    : Fn W (option GoError * DPUSet) (option GoError * DPUSet) :=
  dpuMap ← or_return (GetDPUsMap dpuSet) (fail dpuSet "failed to get DPU map ");
  handle_listed dpuSet dpuDeviceMap clusters dpuMap.

(** [Handle] after the validation. *)
Definition handle_validated (dpuSet : DPUSet) (selectors : dpuSetSelectors)
    : Fn W (option GoError * DPUSet) (option GoError * DPUSet) :=
  clusters ← or_return listSetDPUClusters (fail dpuSet "failed to list DPUClusters ");
  let dpuSet := with_template_hash dpuSet in
  if negb (ContainsFinalizer (ds_Finalizers dpuSet) DPUSetFinalizer)
  then return_early (None, with_ds_Finalizers (AddFinalizer (ds_Finalizers dpuSet) DPUSetFinalizer) dpuSet)
  else
    _ ← check (addBlueFieldSoftwareFinalizer dpuSet) (λ err, (Some err, dpuSet));
    dpuDeviceMap ← or_return (getDPUDeviceMap dpuSet selectors) (fail dpuSet "failed to get DPUDevice map ");
    match validateDPUClusterMetadata dpuSet dpuDeviceMap with
    | Some err => return_early (None, AddFalse now dpuSet TypeReady "ClusterMetadataConflict" (err_msg err))
    | None => handle_devices dpuSet dpuDeviceMap clusters
    end.

Definition Handle (dpuSet : DPUSet) : SM W (option GoError * DPUSet) := run (
  match validateDPUSet dpuSet with
  | (Err err, dpuSet) => return_early (fail dpuSet "failed to validate DPUSet " err)
  | (Ok selectors, dpuSet) => handle_validated dpuSet selectors
  end).

(** [Reconcile]: the errors it returns. *)
Definition Reconcile (key : NamespacedName) : SM W (list GoError) :=
  r ← getDPUSet key;
  match r with
  | Err err => mret (if IsNotFound err then [] else [wrapf "failed to get DPUSet " err])
  | Ok base =>
      let dpuSet := EnsureConditions now base DPUSetConditions in
      r ← (if negb (timep_is_zero (ds_DeletionTimestamp dpuSet)) then reconcileDelete dpuSet else Handle dpuSet);
      e ← patchDPUSet base r.2;
      mret (option_list r.1 ++ option_list e)
  end.
End Controller.

(** ** What the parts of a pass write *)

(** Of a DPU, [UpdateDPUs] and the bookkeeping write everything but the status, and
    the status passes only the outdated and the in-place status. *)
Definition spec_write (x : Write) : Prop :=
  match x with
  | WPatch d d' _ => dpu_key d' = dpu_key d ∧ dpu_Status d' = dpu_Status d
  | _ => False
  end.
Definition status_write (x : Write) : Prop :=
  match x with
  | WStatus d d' _ => d' = with_Status (with_DPUReconfig (st_DPUReconfig (dpu_Status d'))
                                 (with_Outdated (st_Outdated (dpu_Status d')) (dpu_Status d))) d
  | _ => False
  end.

Section Parts.
Context {W : Type} {C : SetClient W}.

Lemma with_status_self (s : DPUStatus) :
  (∀ o, with_DPUReconfig (st_DPUReconfig s) (with_Outdated o s) = with_Outdated o s) ∧
  (∀ r, with_DPUReconfig r (with_Outdated (st_Outdated s) s) = with_DPUReconfig r s).
Proof. by destruct s. Qed.

Lemma stamp_and_delete_emits (Q : Write → Prop) d : (∀ e, Q (WDelete d e)) → emits Q (stamp_and_delete (C:=traced C) d).
Proof.
  intros HQ. unfold stamp_and_delete. apply emits_bind; [apply emits_unlogged|]. intros [e|]; [apply emits_ret|].
  by apply emits_logged.
Qed.

Lemma rollout_loop_emits {S : SelectorAPI} dpuSet clusters evals cap dpus : ∀ U,
  emits (λ x, ∃ d e, x = WDelete d e ∧ d ∈ dpus.*2 ∧ drifted dpuSet clusters evals d = true)
    (rollout_loop (C:=traced C) dpuSet clusters evals cap U dpus).
Proof.
  induction dpus as [|[k d] dpus IH]; intros U; [apply emits_ret|]. cbn [rollout_loop]. cbv zeta.
  assert (∀ U, emits (λ x, ∃ d0 e, x = WDelete d0 e ∧ d0 ∈ ((k, d) :: dpus).*2 ∧ drifted dpuSet clusters evals d0 = true)
    (rollout_loop (C:=traced C) dpuSet clusters evals cap U dpus)) as IH'.
  { intros U'. eapply emits_weaken; [|apply IH]. intros x (d' & e & -> & Hin & H). exists d', e. split; [done|]. split; [by right|done]. }
  destruct (drift_empty _) eqn:Ed; [apply IH'|]. destruct (_ && _); [apply IH'|]. apply emits_bind; [|intros [e|]; [apply emits_ret|apply IH']].
  apply stamp_and_delete_emits. intros e. exists d, e. split; [done|]. split; [by left|].
  unfold drifted, needDisruptDPU. by rewrite Ed.
Qed.

Lemma onDelete_emits {S : SelectorAPI} {R : MapRange} dpuSet dpuMap clusters :
  emits (λ x, ∃ d e c, x = WDelete d e ∧ t_Cluster (ds_Template dpuSet) = Some c ∧
           matchDPUClusterSelector (cl_Selector c) (sp_Cluster (dpu_Spec d)) clusters = false)
    (onDelete (C:=traced C) dpuSet dpuMap clusters).
Proof.
  unfold onDelete. destruct (t_Cluster _) as [c|]; [|apply emits_ret]. apply emits_for_each. intros [k d] _.
  destruct (matchDPUClusterSelector _ _ _) eqn:Em; cbn [negb]; [apply emits_ret|]. apply stamp_and_delete_emits. intros e.
  by exists d, e, c.
Qed.

Lemma deleteStaleDPUs_emits {R : MapRange} {RL : MapRangeLaws R} devs dpuMap :
  emits (λ x, ∃ k d e, x = WDelete d e ∧ dpuMap !! k = Some d ∧ devs !! k = None) (deleteStaleDPUs (C:=traced C) devs dpuMap).
Proof.
  unfold deleteStaleDPUs. apply emits_for_each. intros [k d] Hin%elem_of_range_map. cbn [fst snd].
  destruct (devs !! k) eqn:E; [apply emits_ret|]. apply emits_bind; [|intros; apply emits_ret]. apply emits_logged.
  intros e. by exists k, d, e.
Qed.

Lemma update_dpu_writes {K : Codec} {KL : CodecLaws K} {R : MapRange} {RL : MapRangeLaws R} dpuSet h ul ua d u d' :
  update_dpu dpuSet h ul ua d = (u, d') → dpu_key d' = dpu_key d ∧ dpu_Status d' = dpu_Status d.
Proof.
  intros E. unfold update_dpu in E. destruct (update_spec_result dpuSet ul ua d) as [Es _].
  destruct (updateLabelsAndAnnotations_spec d dpuSet ul ua) as (Hm & _ & _).
  destruct (update_spec dpuSet ul ua d) as [u1 d1]. simpl in Es. subst d1.
  destruct (mo_same _ _ _ _ _ Hm) as (Hk & _ & _). pose proof (same_dpu_Status _ _ (mo_same _ _ _ _ _ Hm)) as Hs.
  assert (dpu_key d' = dpu_key (updateLabelsAndAnnotationsForDPU d dpuSet ul ua).2 ∧
          dpu_Status d' = dpu_Status (updateLabelsAndAnnotationsForDPU d dpuSet ul ua).2) as [-> ->].
  { unfold update_hash in E. destruct (_ && _); by injection E as _ <-. }
  split; [|done]. unfold dpu_key. congruence.
Qed.

Lemma UpdateDPUs_emits {K : Codec} {KL : CodecLaws K} {R : MapRange} {RL : MapRangeLaws R} dpuSet dpuMap devs :
  emits spec_write (UpdateDPUs (C:=traced C) dpuSet dpuMap devs).
Proof.
  intros w l. unfold UpdateDPUs.
  destruct (update_loop_log (C:=C) (template_hash (ds_Labels dpuSet)) devs (range_map dpuMap) dpuSet false w l) as (k & -> & Hf & _).
  exists k. split; [done|]. eapply Forall_impl; [exact Hf|]. intros x (d & d' & e & _ & -> & ul & ua & _ & Hu).
  by apply update_dpu_writes in Hu.
Qed.

Lemma reconcileDPUOutdatedStatus_emits {S : SelectorAPI} {R : MapRange} now dpuSet dpuMap clusters evals :
  emits status_write (reconcileDPUOutdatedStatus (C:=traced C) now dpuSet dpuMap clusters evals).
Proof.
  unfold reconcileDPUOutdatedStatus. apply emits_for_each. intros [k d] _. unfold reconcile_outdated. cbn [snd].
  destruct (deleting d); [apply emits_ret|]. destruct (negb _); [apply emits_ret|].
  apply emits_bind; [|intros; apply emits_ret]. apply emits_logged. intros e. unfold status_write, patched_outdated. simpl.
  by rewrite (proj1 (with_status_self (dpu_Status d))).
Qed.

Lemma patchInPlacePlans_emits planned starts : emits status_write (patchInPlacePlans (C:=traced C) planned starts).
Proof.
  induction planned as [|p planned IH]; [apply emits_ret|]. cbn [patchInPlacePlans].
  assert (emits status_write (patchDPUReconfig (C:=traced C) p)) as Hp.
  { unfold patchDPUReconfig. destruct (_ || _); [apply emits_ret|]. apply emits_bind; [|intros; apply emits_ret].
    apply emits_logged. intros e. unfold status_write, with_plan. simpl.
    by rewrite (proj2 (with_status_self (dpu_Status (pl_dpu p)))). }
  destruct (_ || _); apply emits_bind; [done|intros; apply emits_ret|done|].
  intros r. destruct (r.1); [apply emits_ret|]. apply emits_bind; [done|intros; apply emits_ret].
Qed.

Lemma GetDPUsMap_emits Q dpuSet : emits Q (GetDPUsMap (C:=traced C) dpuSet).
Proof. unfold GetDPUsMap. emits. Qed.

Lemma reconcileInPlaceReconfig_emits {R : MapRange} now maxUnavailable dpuSet total :
  emits status_write (reconcileInPlaceReconfig (C:=traced C) now maxUnavailable dpuSet total).
Proof.
  unfold reconcileInPlaceReconfig. destruct (_ && _); [apply emits_ret|]. cbv zeta.
  destruct (ds_DPUReconfig _) as [[round active [startedAt|]]|]; [|apply emits_ret..]. unfold run_round.
  apply emits_bind; [apply GetDPUsMap_emits|]. intros [m|]; [|apply emits_ret]. cbv zeta.
  apply emits_bind; [apply patchInPlacePlans_emits|]. intros c. destruct (c.1); [apply emits_ret|].
  apply emits_bind; [apply patchInPlacePlans_emits|]. intros c'. destruct (c'.1); apply emits_ret.
Qed.

Lemma UpdateDPUSetStatus_emits {R : MapRange} {API : MetaAPI} Q now dpuSet changed total owned :
  emits Q (UpdateDPUSetStatus (C:=traced C) now dpuSet changed total owned).
Proof. unfold UpdateDPUSetStatus. apply emits_bind; [apply GetDPUsMap_emits|]. intros; apply emits_ret. Qed.

Lemma reconcileDPUFlavorTemplateCondition_emits {API : MetaAPI} Q now dpuSet :
  emits Q (reconcileDPUFlavorTemplateCondition (C:=traced C) now dpuSet).
Proof. unfold reconcileDPUFlavorTemplateCondition, dpuFlavorTemplateExists. emits. Qed.

Lemma getDPUDeviceMap_emits {S : SelectorAPI} Q dpuSet selectors : emits Q (getDPUDeviceMap (C:=traced C) dpuSet selectors).
Proof.
  unfold getDPUDeviceMap. apply emits_bind; [apply emits_unlogged|]. intros [nodes|]; [|apply emits_ret].
  generalize (∅ : gmap string DPUDevice). induction nodes as [|node nodes IH]; intros m; [apply emits_ret|]. cbn [device_loop].
  destruct (negb _); [apply IH|]. destruct (NewEqualsRequirement _ _); [apply emits_ret|].
  apply emits_bind; [apply emits_unlogged|]. intros [ds|]; [apply IH|apply emits_ret].
Qed.
End Parts.

(** ** What a pass may write *)

Section PassWrites.
Context {W : Type} {C : SetClient W} {S : SelectorAPI} {F : FlavorRenderer}.

(** A result of listing the DPUs of the DPUSet. *)
Definition listed (dpuSet : DPUSet) (dpuMap : gmap string DPU) : Prop :=
  ∃ w : W, (GetDPUsMap dpuSet w).1 = Ok dpuMap.

(** Evaluations of template-mode DPUs are results of [evalTemplateDPU]. *)
Definition evaluated (dpuSet : DPUSet) (evals : gmap string templateEval) : Prop :=
  ∀ name, eval_of evals name = no_eval ∨
    ∃ d (w : W), dpu_Name d = name ∧ eval_of evals name = (evalTemplateDPU dpuSet d w).1.

(** Why a DPU of the set may be deleted: its device is not selected any more, or it
    differs from the template under RollingUpdate, or it lost its cluster under
    OnDelete. *)
Definition justified (dpuSet : DPUSet) (devs : gmap string DPUDevice) (clusters : list DPUCluster) (d : DPU) : Prop :=
  devs !! sp_DPUDeviceName (dpu_Spec d) = None ∨
  ds_Strategy dpuSet = RollingUpdateStrategyType ∧
    (∃ evals, evaluated dpuSet evals ∧ drifted dpuSet clusters evals d = true) ∨
  ds_Strategy dpuSet = OnDeleteStrategyType ∧
    ∃ c, t_Cluster (ds_Template dpuSet) = Some c ∧
      matchDPUClusterSelector (cl_Selector c) (sp_Cluster (dpu_Spec d)) clusters = false.

(** The software of the template and of the DPUs the pass found first. *)
Definition in_use (dpuSet : DPUSet) (owned : gmap string DPU) (name : string) : Prop :=
  t_BlueFieldSoftware (ds_Template dpuSet) = Some name ∨
  name ≠ "" ∧ ∃ k d, owned !! k = Some d ∧ sp_BlueFieldSoftware (dpu_Spec d) = Some name.

Definition pass_write {K : Codec} {R : MapRange} {FA : FinalizerAPI} (version : string) (dpuSet : DPUSet) (devs : gmap string DPUDevice)
    (clusters : list DPUCluster) (owned : gmap string DPU) (x : Write) : Prop :=
  match x with
  | WDelete d _ => justified dpuSet devs clusters d
  | WCreate _ _ | WCreateFlavor _ _ =>
      ∃ name dev, devs !! name = Some dev ∧ owned !! name = None ∧
        IsAstraEnabledForNonBlueField4 dpuSet dev = false ∧ created_for version dpuSet dev x
  | WPatch _ _ _ => spec_write x
  | WStatus _ _ _ => status_write x
  | WFlavor f f' _ => f' = with_fl_Spec (fl_Spec f') f ∧ fl_Labels f !! GeneratedByLabel = Some GeneratedByDPUFlavorTemplate
  | WSoftware b' _ => ¬ in_use dpuSet owned (bfs_Name b') ∧
      ∃ b, b' = with_bfs_Finalizers (RemoveFinalizer (bfs_Finalizers b) (BlueFieldSoftwareFinalizerForDPUSet (ds_Name dpuSet))) b
  | WDPUSet _ _ _ => False
  end.

(** A listed DPU is filed under its device. *)
Lemma listed_device dpuSet dpuMap k d : listed dpuSet dpuMap → dpuMap !! k = Some d → sp_DPUDeviceName (dpu_Spec d) = k.
Proof.
  intros [w Hw] Hk. revert Hw. unfold GetDPUsMap, mbind, SM_bind. destruct (listSetDPUs _ _ w) as [[items|e] w1]; [|done].
  simpl. intros [= <-].
  assert (∀ m : gmap string DPU, (∀ k d, m !! k = Some d → sp_DPUDeviceName (dpu_Spec d) = k) →
    ∀ k d, foldl (λ m dpu, <[sp_DPUDeviceName (dpu_Spec dpu) := dpu]> m) m items !! k = Some d → sp_DPUDeviceName (dpu_Spec d) = k) as H.
  { clear. induction items as [|d0 items IH]; intros m Hm k d; simpl; [apply Hm|]. apply IH. intros k' d'.
    rewrite lookup_insert_Some. intros [[<- <-]|[_ ?]]; [done|by apply Hm]. }
  by apply (H ∅ ltac:(intros ? ?; by rewrite lookup_empty) _ _ Hk).
Qed.

Lemma listed_traced dpuSet dpuMap : (∃ s, (GetDPUsMap (C:=traced C) dpuSet s).1 = Ok dpuMap) → listed dpuSet dpuMap.
Proof. intros [[w l] H]. rewrite GetDPUsMap_traced in H. by exists w. Qed.

Lemma evalTemplateDPU_traced dpuSet d (w : W) l :
  (evalTemplateDPU (C:=traced C) dpuSet d (w, l)).1 = (evalTemplateDPU dpuSet d w).1.
Proof.
  unfold evalTemplateDPU, classifyRenderedDrift, mbind, SM_bind. simpl. unfold unlogged. simpl.
  repeat (case_match; simplify_eq/=; try done).
Qed.

Lemma evaluated_traced {R : MapRange} dpuSet dpuMap evals :
  (∃ s, (evalTemplateDPUs (C:=traced C) dpuSet dpuMap s).1 = evals) → evaluated dpuSet evals.
Proof.
  intros [s <-]. unfold evalTemplateDPUs. destruct (negb (isTemplateMode dpuSet)); [by left|].
  assert (evaluated dpuSet ∅) as H0 by (intros name; by left). revert s H0. generalize (∅ : gmap string templateEval).
  induction (range_map dpuMap) as [|[k d] dpus IH]; intros evals s He; [done|]. cbn [eval_loop]. unfold mbind, SM_bind.
  destruct s as [w l]. pose proof (evalTemplateDPU_traced dpuSet d w l) as Et.
  destruct (evalTemplateDPU (C:=traced C) dpuSet d (w, l)) as [eval s']. simpl in Et. apply IH. intros name.
  unfold eval_of. destruct (decide (dpu_Name d = name)) as [<-|Hne].
  - right. exists d, w. split; [done|]. by rewrite lookup_insert_eq.
  - rewrite lookup_insert_ne by done. apply He.
Qed.

(** The condition is all that changes in the DPUSet before DPUs are created. *)
Lemma template_condition_frame {API : MetaAPI} now dpuSet s :
  ∃ cs, (reconcileDPUFlavorTemplateCondition (C:=traced C) now dpuSet s).1.2 = with_ds_Conditions cs dpuSet.
Proof.
  unfold reconcileDPUFlavorTemplateCondition. destruct (negb (isTemplateMode dpuSet)); [by eexists|].
  unfold mbind, SM_bind. destruct (dpuFlavorTemplateExists dpuSet s) as [[[]|e] s']; simpl; [by eexists..|].
  exists (ds_Conditions dpuSet). by destruct dpuSet.
Qed.
End PassWrites.

(** ** The writes of a pass *)

Section HandleWrites.
Context {W : Type} {C : SetClient W} {S : SelectorAPI} {R : MapRange} {RL : MapRangeLaws R} {K : Codec} {KL : CodecLaws K}.
Context {F : FlavorRenderer} {FA : FinalizerAPI} {API : MetaAPI}.
Context (version : string) (options : DPUSetOptions) (now : Time).
Context (dpuSet : DPUSet) (devs : gmap string DPUDevice) (clusters : list DPUCluster) (owned_DPUs : gmap string DPU).

#[local] Abbreviation Q := (pass_write version dpuSet devs clusters owned_DPUs).

Lemma update_or_return_emits (m : SM (W * list Write) (option GoError * DPUSet)) pre :
  emits Q m → fn_emits Q (update_or_return m pre).
Proof. intros Hm w l. unfold update_or_return. destruct (Hm w l) as (k & Hk & HQ). destruct (m (w, l)) as [[[e|] d] [w' l']]; by exists k. Qed.

Lemma update_or_return_result (m : SM (W * list Write) (option GoError * DPUSet)) pre a :
  (∃ s s', update_or_return m pre s = (inr a, s')) → ∃ s, (m s).1.2 = a.
Proof. intros (s & s' & E). exists s. unfold update_or_return in E. destruct (m s) as [[[e|] d] s0]; [done|]. by injection E as -> _. Qed.

Lemma status_emits {A} (m : SM (W * list Write) A) : emits status_write m → emits Q m.
Proof. apply emits_weaken. by intros []. Qed.
Lemma spec_emits {A} (m : SM (W * list Write) A) : emits spec_write m → emits Q m.
Proof. apply emits_weaken. by intros []. Qed.

Lemma collision_spec_write x : collision_write dpuSet x → spec_write x.
Proof. by destruct x; simpl; try done; intros [[-> _]| ->]. Qed.

Lemma missing_pass_write x : missing_write version dpuSet devs owned_DPUs x → Q x.
Proof.
  intros [Hc|(name & dev & Hdev & Hx)].
  - apply collision_spec_write in Hc. by destruct x.
  - destruct (owned_DPUs !! name) as [d|] eqn:Ed.
    + destruct Hx as (addr & e & _ & _ & ->). done.
    + destruct Hx as [Ha Hx]. destruct x; try done; by exists name, dev.
Qed.

Lemma strategy_emits dpuMap n evals : evaluated (C:=C) dpuSet evals →
  emits Q (strategy (C:=traced C) options dpuSet dpuMap n clusters evals).
Proof.
  intros He. unfold strategy. case_bool_decide as Ho; [|case_bool_decide as Hr; [|emits]].
  - apply emits_bind; [|emits]. eapply emits_weaken; [|apply onDelete_emits]. intros x (d & e & c & -> & Hc & Hm).
    right. right. split; [done|]. by exists c.
  - apply emits_bind; [|emits]. eapply emits_weaken; [|apply rollout_loop_emits]. intros x (d & e & -> & _ & Hd).
    right. left. split; [done|]. by exists evals.
Qed.

Lemma handle_existing_emits created owned dpuMap :
  fn_emits Q (handle_existing (C:=traced C) options now dpuSet devs clusters created owned dpuMap).
Proof.
  unfold handle_existing. apply fn_emits_bind.
  { apply fn_emits_lift. eapply emits_weaken; [|apply evalTemplateDPUs_emits]. done. }
  intros evals He%lift_result%evaluated_traced. apply fn_emits_bind.
  { apply fn_emits_check. eapply emits_weaken; [|apply reconcileTemplateDPUs_emits].
    intros [] Hx; try done. destruct Hx as (_ & _ & _ & _ & -> & _). done. }
  intros _ _. cbv zeta. apply fn_emits_bind; [by apply fn_emits_check, strategy_emits|]. intros _ _.
  apply fn_emits_bind; [apply fn_emits_lift, spec_emits, UpdateDPUs_emits|]. intros u _.
  destruct (u.1); [|apply fn_emits_early].
  apply fn_emits_bind; [apply fn_emits_check, status_emits, reconcileDPUOutdatedStatus_emits|]. intros _ _.
  apply fn_emits_bind; [apply update_or_return_emits, status_emits, reconcileInPlaceReconfig_emits|]. intros s1 _.
  apply fn_emits_bind; [apply update_or_return_emits, UpdateDPUSetStatus_emits|]. intros s2 _. apply fn_emits_ret.
Qed.
End HandleWrites.

(** A new condition changes nothing about what may be written. *)
Lemma pass_write_condition {W} {C : SetClient W} {S : SelectorAPI} {R : MapRange} {K : Codec} {F : FlavorRenderer}
    {FA : FinalizerAPI} version dpuSet cs devs clusters owned x :
  pass_write (C:=C) version (with_ds_Conditions cs dpuSet) devs clusters owned x → pass_write (C:=C) version dpuSet devs clusters owned x.
Proof. exact id. Qed.

(** The DPUs that are listed first justify what follows. *)
Lemma handle_listed_emits {W} {C : SetClient W} {S : SelectorAPI} {R : MapRange} {RL : MapRangeLaws R} {K : Codec} {KL : CodecLaws K}
    {F : FlavorRenderer} {FA : FinalizerAPI} {API : MetaAPI} version options now dpuSet devs clusters owned : listed (C:=C) dpuSet owned →
  fn_emits (pass_write (C:=C) version dpuSet devs clusters owned)
    (handle_listed (C:=traced C) version options now dpuSet devs clusters owned).
Proof.
  intros Hl. unfold handle_listed. apply fn_emits_bind.
  { apply fn_emits_check. eapply emits_weaken; [|apply removeBlueFieldSoftwareFinalizer_emits].
    intros [] Hx; try done. destruct Hx as (b0 & -> & Hk). split; [|by exists b0]. intros Hu. by apply Hk, elem_of_keepBFS. }
  intros _ _. apply fn_emits_bind; [apply update_or_return_emits, reconcileDPUFlavorTemplateCondition_emits|].
  intros dpuSet' (s & Hs)%update_or_return_result. destruct (template_condition_frame (C:=C) now dpuSet s) as [cs E].
  rewrite E in Hs. subst dpuSet'. eapply fn_emits_weaken; [apply (pass_write_condition _ _ cs)|].
  apply fn_emits_bind.
  { apply fn_emits_lift. eapply emits_weaken; [|apply createMissingDPUs_emits; exact RL]. intros x. by eapply missing_pass_write. }
  intros [[created owned'] [e|]] _; [apply fn_emits_early|].
  apply fn_emits_bind.
  { apply fn_emits_check, spec_emits. eapply emits_weaken; [|apply removeStaleCollisionLabels_emits]. apply collision_spec_write. }
  intros _ _. apply fn_emits_bind.
  { apply fn_emits_check. eapply emits_weaken; [|apply deleteStaleDPUs_emits]. intros x (k & d & e & -> & Hk & Hd).
    left. by rewrite (listed_device (C:=C) _ _ _ _ Hl Hk). }
  intros _ _. apply fn_emits_bind; [apply fn_emits_or_return, GetDPUsMap_emits|].
  intros dpuMap' _. by apply handle_existing_emits.
Qed.

Lemma handle_devices_log {W} {C : SetClient W} {S : SelectorAPI} {R : MapRange} {RL : MapRangeLaws R} {K : Codec} {KL : CodecLaws K}
    {F : FlavorRenderer} {FA : FinalizerAPI} {API : MetaAPI} version options now dpuSet devs clusters (w : W) l :
  ∃ k, (run (handle_devices (C:=traced C) version options now dpuSet devs clusters) (w, l)).2.2 = l ++ k ∧
    (k = [] ∨ ∃ owned, (GetDPUsMap dpuSet w).1 = Ok owned ∧ Forall (pass_write (C:=C) version dpuSet devs clusters owned) k).
Proof.
  unfold handle_devices. unfold run, mbind, Fn_bind, or_return. rewrite GetDPUsMap_traced.
  destruct ((GetDPUsMap dpuSet w).1) as [owned|e] eqn:Eo.
  2: { exists []. rewrite app_nil_r. split; [done|]. by left. }
  assert (listed (C:=C) dpuSet owned) as Hl by (by exists w).
  destruct (emits_run _ _ (handle_listed_emits (C:=C) version options now dpuSet devs clusters owned Hl) (GetDPUsMap dpuSet w).2 l) as (k & Hk & Hq).
  exists k. split; [exact Hk|]. right. by exists owned.
Qed.

(** ** What a pass leaves of the DPUSet *)

(** A DPUSet without its labels, annotations, finalizers and status, and without the
    additional requestors of its template. *)
Definition spec_of (s : DPUSet) : DPUSet :=
  mkDPUSet (ds_Name s) (ds_Namespace s) (ds_Generation s) ∅ ∅ [] (ds_DeletionTimestamp s) (ds_DPUNodeSelector s)
    (ds_DPUDeviceSelector s) (ds_DPUSelector s) (ds_Strategy s)
    (with_t_NodeEffect (with_additional_requestors [] (t_NodeEffect (ds_Template s))) (ds_Template s))
    (ds_TemplateAnnotations s) ∅ [] None 0.

(** The same spec but for the order of the requestors; and the same finalizers. *)
Definition same_spec (s s' : DPUSet) : Prop := spec_of s' = spec_of s ∧ template_requestors s' ≡ₚ template_requestors s.
Definition same_set (s s' : DPUSet) : Prop := same_spec s s' ∧ ds_Finalizers s' = ds_Finalizers s.

#[export] Instance same_spec_preorder : PreOrder same_spec.
Proof.
  split; [done|]. intros s1 s2 s3 [H1 H2] [H3 H4]. split; [congruence|]. by etrans.
Qed.
#[export] Instance same_set_preorder : PreOrder same_set.
Proof. split; [done|]. intros s1 s2 s3 [H1 E1] [H2 E2]. split; [by etrans|congruence]. Qed.

Section Frames.
Context {W : Type} {C : SetClient W} {S : SelectorAPI} {R : MapRange} {K : Codec} {F : FlavorRenderer}.
Context {FA : FinalizerAPI} {API : MetaAPI} {TD : TemplateDigest}.
Context (version : string) (options : DPUSetOptions) (now : Time).

Lemma update_frame h devs dpus : ∀ dpuSet any (w : W), same_set dpuSet (update_loop h devs dpuSet any dpus w).1.2.
Proof.
  induction dpus as [|[k d] dpus IH]; intros dpuSet any w; [done|]. cbn [update_loop].
  destruct (devs !! _) as [dev|]; [|apply IH]. destruct (MergeDPUClusterNodeMetadata _ _) as [[ul ua]|]; [|done].
  destruct (update_dpu _ _ _ _ _) as [u d']. cbv zeta.
  assert (same_set dpuSet (sort_template_requestors dpuSet)) as Hs.
  { split; [|done]. split; [done|]. apply merge_sort_Permutation. }
  destruct u; [|etrans; [exact Hs|apply IH]]. unfold mbind, SM_bind.
  destruct (patchSetDPU d d' w) as [[e|] w1]; [done|]. etrans; [exact Hs|apply IH].
Qed.

Lemma finish_frame dpuSet requested planned s : finishInPlaceRound dpuSet requested planned = Ok s → same_set dpuSet s.
Proof. unfold finishInPlaceRound. repeat case_match; by intros [= <-]. Qed.

Lemma ensure_frame dpuSet requested : same_set dpuSet (ensureInPlaceRound now dpuSet requested).
Proof. unfold ensureInPlaceRound. by repeat case_match. Qed.

Lemma in_place_frame n dpuSet total (w : W) : same_set dpuSet (reconcileInPlaceReconfig now n dpuSet total w).1.2.
Proof.
  unfold reconcileInPlaceReconfig. destruct (_ && _); [done|]. cbv zeta. etrans; [apply (ensure_frame dpuSet (inPlaceReconfigRequested dpuSet))|].
  generalize (ensureInPlaceRound now dpuSet (inPlaceReconfigRequested dpuSet)). intros s.
  destruct (ds_DPUReconfig s) as [[round active [startedAt|]]|]; [|done..]. unfold run_round, mbind, SM_bind.
  destruct (GetDPUsMap s w) as [[m|e] w1]; [|done]. cbv zeta. destruct (patchInPlacePlans _ _ w1) as [[[e|] p] w2]; [done|].
  cbn [fst snd]. destruct (patchInPlacePlans _ _ w2) as [[[e|] p'] w3]; [done|]. cbn [fst snd].
  destruct (finishInPlaceRound _ _ _) as [s'|e] eqn:E; [|done]. by eapply finish_frame.
Qed.

Lemma status_frame dpuSet changed total owned (w : W) : same_set dpuSet (UpdateDPUSetStatus now dpuSet changed total owned w).1.2.
Proof.
  unfold UpdateDPUSetStatus, mbind, SM_bind. destruct (GetDPUsMap dpuSet w) as [[m|e] w1]; [|done]. simpl. by repeat case_match.
Qed.

Lemma condition_frame dpuSet (w : W) : same_set dpuSet (reconcileDPUFlavorTemplateCondition now dpuSet w).1.2.
Proof.
  unfold reconcileDPUFlavorTemplateCondition. destruct (negb (isTemplateMode dpuSet)); [done|].
  unfold mbind, SM_bind. by destruct (dpuFlavorTemplateExists dpuSet w) as [[[]|e] w'].
Qed.

Lemma validate_frame dpuSet : same_set dpuSet (validateDPUSet options now dpuSet).2.
Proof. unfold validateDPUSet. by repeat case_match. Qed.

(** Followed by what continues with the DPUSet, such a call keeps the frame. *)
Lemma returns_update dpuSet (m : SM W (option GoError * DPUSet)) pre f :
  (∀ s, same_set dpuSet (m s).1.2) → (∀ d, same_set dpuSet d → returns (λ r, same_set dpuSet r.2) (f d)) →
  returns (λ r : option GoError * DPUSet, same_set dpuSet r.2) (update_or_return m pre ≫= f).
Proof.
  intros Hm Hf. apply returns_bind.
  - intros s r s'. unfold update_or_return. specialize (Hm s). destruct (m s) as [[[e|] d] s1]; [|done]. by intros [= <- _].
  - intros d (s & s' & E). apply Hf. specialize (Hm s). unfold update_or_return in E.
    destruct (m s) as [[[e|] d'] s1]; [done|]. by injection E as <- _.
Qed.

Lemma handle_existing_frame dpuSet devs clusters created owned dpuMap s0 : same_set s0 dpuSet →
  returns (λ r, same_set s0 r.2) (handle_existing options now dpuSet devs clusters created owned dpuMap).
Proof.
  intros H0. unfold handle_existing. apply returns_lift. intros evals _. apply returns_check; [done|]. cbv zeta.
  apply returns_check; [done|]. apply returns_lift. intros u [s <-].
  assert (same_set s0 (UpdateDPUs dpuSet dpuMap devs s).1.2) as Hu by (etrans; [exact H0|apply update_frame]).
  destruct (UpdateDPUs dpuSet dpuMap devs s).1 as [[b|e] d]; simpl in *; [|by intros ?].
  apply returns_check; [done|].
  apply returns_update; [intros s1; etrans; [exact Hu|apply in_place_frame]|]. intros d1 H1.
  apply returns_update; [intros s2; etrans; [exact H1|apply status_frame]|]. intros d2 H2. by intros ?.
Qed.

Lemma handle_devices_frame dpuSet devs clusters :
  returns (λ r, same_set dpuSet r.2) (handle_devices version options now dpuSet devs clusters).
Proof.
  unfold handle_devices, handle_listed. apply returns_or_return; [done|]. intros dpuMap _. apply returns_check; [done|].
  apply returns_update; [apply condition_frame|]. intros d Hd. apply returns_lift. intros [[created owned] [e|]] _; [by intros ?|].
  apply returns_check; [done|]. apply returns_check; [done|]. apply returns_or_return; [done|]. intros dpuMap' _.
  by apply handle_existing_frame.
Qed.
End Frames.

Section HandleLog.
Context {W : Type} {C : SetClient W} {S : SelectorAPI} {R : MapRange} {K : Codec} {F : FlavorRenderer}.
Context {FA : FinalizerAPI} {API : MetaAPI} {TD : TemplateDigest}.
Context (version : string) (options : DPUSetOptions) (now : Time).

(** The DPUSet once its condition and the hash of its template are written. *)
Definition prepared (dpuSet : DPUSet) : DPUSet := with_template_hash (validateDPUSet options now dpuSet).2.

(** The finalizer of the DPUSet is put on some software. *)
Definition protects (dpuSet : DPUSet) (x : Write) : Prop :=
  match x with
  | WSoftware b _ => ∃ b0, b = with_bfs_Finalizers
      (AddFinalizer (bfs_Finalizers b0) (BlueFieldSoftwareFinalizerForDPUSet (ds_Name dpuSet))) b0
  | _ => False
  end.

(** The devices a pass works on. *)
Definition selected (dpuSet : DPUSet) (devs : gmap string DPUDevice) : Prop :=
  ∃ selectors (w : W), (validateDPUSet options now dpuSet).1 = Ok selectors ∧
    (getDPUDeviceMap (prepared dpuSet) selectors w).1 = Ok devs ∧ validateDPUClusterMetadata (prepared dpuSet) devs = None.

Lemma device_loop_traced dpuSet selector nodes : ∀ m (w : W) l,
  (device_loop (C:=traced C) dpuSet selector m nodes (w, l)).1 = (device_loop dpuSet selector m nodes w).1.
Proof.
  induction nodes as [|node nodes IH]; intros m w l; [done|]. cbn [device_loop]. destruct (negb _); [apply IH|].
  destruct (NewEqualsRequirement _ _); [done|]. unfold mbind, SM_bind. simpl. unfold unlogged. simpl.
  destruct (listSetDPUDevices _ _ w) as [[ds|e] w1]; [apply IH|done].
Qed.

Lemma getDPUDeviceMap_traced dpuSet selectors (w : W) l :
  (getDPUDeviceMap (C:=traced C) dpuSet selectors (w, l)).1 = (getDPUDeviceMap dpuSet selectors w).1.
Proof.
  unfold getDPUDeviceMap, mbind, SM_bind. simpl. unfold unlogged. simpl.
  destruct (listSetDPUNodes _ _ w) as [[nodes|e] w1]; [apply device_loop_traced|done].
Qed.

Lemma addBlueFieldSoftwareFinalizer_emits dpuSet : emits (protects dpuSet) (addBlueFieldSoftwareFinalizer (C:=traced C) dpuSet).
Proof.
  unfold addBlueFieldSoftwareFinalizer. destruct (nonempty _); [|emits]. apply emits_bind; [emits|]. intros [b|]; [|emits].
  destruct (ContainsFinalizer _ _); [emits|]. apply emits_bind; [|emits]. apply emits_logged. intros r. by exists b.
Qed.

(** What a pass writes: first the protection of the software, and then what is
    justified by the devices and clusters it has read. *)
Lemma Handle_log {RL : MapRangeLaws R} {KL : CodecLaws K} dpuSet (w : W) :
  let r := Handle (C:=traced C) version options now dpuSet (w, []) in
  (ContainsFinalizer (ds_Finalizers dpuSet) DPUSetFinalizer = false → r.2.2 = []) ∧
  ∃ k1 k2, r.2.2 = k1 ++ k2 ∧ Forall (protects dpuSet) k1 ∧
    (k2 = [] ∨ ∃ clusters devs owned, (listSetDPUClusters w).1 = Ok clusters ∧ selected dpuSet devs ∧ listed (C:=C) (prepared dpuSet) owned ∧
       Forall (pass_write (C:=C) version (prepared dpuSet) devs clusters owned) k2).
Proof.
  cbn zeta. unfold Handle. destruct (validateDPUSet options now dpuSet) as [[selectors|e] dpuSet1] eqn:Ev.
  2: { unfold run. simpl. split; [done|]. exists [], []. repeat split; [done|]. by left. }
  destruct (validate_frame options now dpuSet) as [[Es _] Ef]. rewrite Ev in Es, Ef. simpl in Es, Ef.
  assert (ds_Name dpuSet1 = ds_Name dpuSet) as En by (by injection Es).
  assert (prepared dpuSet = with_template_hash dpuSet1) as Ep by (unfold prepared; by rewrite Ev).
  unfold run, handle_validated, mbind, Fn_bind, or_return, check. cbn [listSetDPUClusters traced]. unfold unlogged. cbn [fst snd].
  destruct (listSetDPUClusters w) as [[clusters|e] w1].
  2: { split; [done|]. exists [], []. repeat split; [done|]. by left. }
  cbv zeta. change (ds_Finalizers (with_template_hash dpuSet1)) with (ds_Finalizers dpuSet1). rewrite Ef, <- Ep. destruct (ContainsFinalizer (ds_Finalizers dpuSet) DPUSetFinalizer); cbn [negb].
  2: { split; [done|]. exists [], []. repeat split; [done|]. by left. }
  split; [done|].
  destruct (addBlueFieldSoftwareFinalizer_emits (prepared dpuSet) w1 []) as (k1 & Hk1 & Hp).
  assert (Forall (protects dpuSet) k1) as Hp' by (rewrite Ep in Hp; unfold protects in Hp; simpl in Hp; by rewrite En in Hp).
  destruct (addBlueFieldSoftwareFinalizer _ (w1, [])) as [[e|] [w2 l2]]; simpl in Hk1; subst l2.
  { exists k1, []. rewrite app_nil_r. repeat split; [done|]. by left. }
  pose proof (getDPUDeviceMap_traced (prepared dpuSet) selectors w2 k1) as Et.
  destruct (getDPUDeviceMap_emits (λ _, False) (prepared dpuSet) selectors w2 k1) as (k & Hk & Hf).
  assert (k = []) as -> by (destruct k as [|x k]; [done|by apply Forall_cons in Hf as [[] _]]). rewrite app_nil_r in Hk.
  destruct (getDPUDeviceMap (prepared dpuSet) selectors (w2, k1)) as [[devs|e] [w3 l3]]; simpl in Hk, Et; subst l3; simpl.
  2: { exists k1, []. rewrite app_nil_r. repeat split; [done|]. by left. }
  destruct (validateDPUClusterMetadata _ devs) eqn:Em; simpl.
  { exists k1, []. rewrite app_nil_r. repeat split; [done|]. by left. }
  destruct (handle_devices_log (C:=C) version options now (prepared dpuSet) devs clusters w3 k1) as (k2 & Hk2 & Hq).
  exists k1, k2. split; [exact Hk2|]. split; [done|]. destruct Hq as [->|(owned & Ho & Hq)]; [by left|]. right.
  exists clusters, devs, owned. split; [done|]. split; [|split; [by exists w3|done]]. exists selectors, w2. by rewrite Ev.
Qed.

Lemma Handle_frame dpuSet (w : W) :
  let d := (Handle version options now dpuSet w).1.2 in
  same_spec dpuSet d ∧
  (ds_Finalizers d = ds_Finalizers dpuSet ∨ ContainsFinalizer (ds_Finalizers dpuSet) DPUSetFinalizer = false ∧
     ds_Finalizers d = AddFinalizer (ds_Finalizers dpuSet) DPUSetFinalizer).
Proof.
  cbn zeta. revert w. unfold Handle. pose proof (validate_frame options now dpuSet) as Hv.
  destruct (validateDPUSet options now dpuSet) as [[selectors|e] d1]; simpl in Hv.
  2: { intros w. simpl. destruct Hv as [Hs Hf]. split; [done|]. by left. }
  set (P := λ r : option GoError * DPUSet, same_spec dpuSet r.2 ∧
    (ds_Finalizers r.2 = ds_Finalizers dpuSet ∨ ContainsFinalizer (ds_Finalizers dpuSet) DPUSetFinalizer = false ∧
     ds_Finalizers r.2 = AddFinalizer (ds_Finalizers dpuSet) DPUSetFinalizer)).
  assert (∀ e d, same_set dpuSet d → P (e, d)) as HP by (intros e d [H1 H2]; split; [done|by left]).
  change (returns P (handle_validated version options now d1 selectors)). unfold handle_validated.
  apply returns_or_return; [by intros e; apply HP|]. intros clusters _. cbv zeta.
  assert (same_set dpuSet (with_template_hash d1)) as Hh by exact Hv.
  destruct (ContainsFinalizer (ds_Finalizers (with_template_hash d1)) DPUSetFinalizer) eqn:Ec; cbn [negb].
  2: { destruct Hh as [Hs Hf]. intros w. split; [exact Hs|]. right. simpl in Hf, Ec. by rewrite <- Hf. }
  apply returns_check; [by intros e; apply HP|]. apply returns_or_return; [by intros e; apply HP|]. intros devs _.
  destruct (validateDPUClusterMetadata _ devs); [intros w; by apply HP|]. intros w.
  pose proof (handle_devices_frame (C:=C) version options now (with_template_hash d1) devs clusters w) as Hd.
  destruct (run (handle_devices version options now (with_template_hash d1) devs clusters) w) as [[e d] w']. apply HP. by etrans.
Qed.

Lemma reconcileDelete_frame dpuSet (w : W) :
  let d := (reconcileDelete dpuSet w).1.2 in
  same_spec dpuSet d ∧
  (ds_Finalizers d = ds_Finalizers dpuSet ∨
   (listSetDPUs (ds_Name dpuSet) (ds_Namespace dpuSet) w).1 = Ok [] ∧
   ds_Finalizers d = RemoveFinalizer (ds_Finalizers dpuSet) DPUSetFinalizer).
Proof.
  cbn zeta. unfold reconcileDelete, mbind, SM_bind.
  destruct (listSetDPUs _ _ w) as [[items|e] w1]; [|by split; [|left]].
  destruct (for_each _ items w1) as [[e|] w2]; [by split; [|left]|]. case_bool_decide as Hi; [by split; [|left]|].
  subst items.
  destruct (removeBlueFieldSoftwareFinalizer _ _ w2) as [[e|] w3]; [by split; [|left]|].
  destruct (cleanupCollisionLabels _ w3) as [[e|] w4]; (split; [done|]); [by left|by right].
Qed.
End HandleLog.

(** ** Properties *)

Definition is_DPUSet (x : Write) : Prop := match x with WDPUSet _ _ _ => True | _ => False end.

Lemma no_DPUSet (Q : Write → Prop) : (∀ s s' e, ¬ Q (WDPUSet s s' e)) → ∀ x, Q x → ¬ is_DPUSet x.
Proof. intros HQ [] Hx Hd; simpl in Hd; [done..|]. by eapply HQ. Qed.

Lemma not_DPUSet (Q : Write → Prop) k : Forall Q k → (∀ s s' e, ¬ Q (WDPUSet s s' e)) → Forall (λ x, ¬ is_DPUSet x) k.
Proof. intros Hk HQ. eapply Forall_impl; [exact Hk|]. by apply no_DPUSet. Qed.

Lemma reconcileDelete_emits {W} {C : SetClient W} {FA : FinalizerAPI} dpuSet :
  emits (λ x, ¬ is_DPUSet x) (reconcileDelete (C:=traced C) dpuSet).
Proof.
  unfold reconcileDelete. apply emits_bind; [emits|]. intros [items|]; [|emits]. apply emits_bind.
  { apply emits_for_each. intros d _. unfold delete_listed. destruct (deleting d); [emits|].
    apply emits_bind; [|emits]. apply emits_logged. by intros r H. }
  intros [e|]; [emits|]. case_bool_decide; [emits|]. apply emits_bind.
  { eapply emits_weaken; [|apply removeBlueFieldSoftwareFinalizer_emits]. apply no_DPUSet. intros ? ? ? []. }
  intros [e|]; [emits|]. apply emits_bind; [|intros [e|]; emits].
  eapply emits_weaken; [|apply cleanupCollisionLabels_emits]. apply no_DPUSet. intros ? ? ? [].
Qed.


(** C10. A reconcile of a DPUSet ends with one patch of it, whatever happened before,
    and that is its only write of the DPUSet; an error of that patch is reported.
    Of the spec it never changes more than the order of the additional requestors.
    A DPUSet that is not being deleted keeps its finalizers, and nothing else is
    written as long as the finalizer of the controller is not on it; that
    finalizer is taken only from a DPUSet that is being deleted, in a pass that
    found no DPU of it. *)
Theorem Reconcile_protocol {W} {C : SetClient W} {S : SelectorAPI} {R : MapRange} {RL : MapRangeLaws R} {K : Codec} {KL : CodecLaws K}
    {F : FlavorRenderer} {FA : FinalizerAPI} {FL : FinalizerAPILaws FA} {API : MetaAPI} {TD : TemplateDigest}
    version options now key (w : W) :
  let r := Reconcile (C:=traced C) version options now key (w, []) in
  match getDPUSet key w with
  | (Err e, _) => r.2.2 = [] ∧ (r.1 = [] ↔ IsNotFound e = true)
  | (Ok base, w1) =>
      ∃ k final e, r.2.2 = k ++ [WDPUSet base final e] ∧ Forall (λ x, ¬ is_DPUSet x) k ∧
        (∀ err, e = Some err → err ∈ r.1) ∧ same_spec base final ∧
        (timep_is_zero (ds_DeletionTimestamp base) = true →
           (∀ f, f ∈ ds_Finalizers base → f ∈ ds_Finalizers final) ∧
           (k ≠ [] → DPUSetFinalizer ∈ ds_Finalizers base)) ∧
        (DPUSetFinalizer ∈ ds_Finalizers base → DPUSetFinalizer ∉ ds_Finalizers final →
           timep_is_zero (ds_DeletionTimestamp base) = false ∧
           (listSetDPUs (ds_Name base) (ds_Namespace base) w1).1 = Ok [])
  end.
Proof.
  cbn zeta. unfold Reconcile, mbind, SM_bind. cbn [getDPUSet traced]. unfold unlogged. cbn [fst snd].
  destruct (getDPUSet key w) as [[base|e] w1].
  2: { split; [done|]. unfold mret, SM_ret. simpl. by destruct (IsNotFound e). }
  set (dpuSet := EnsureConditions now base DPUSetConditions). assert (same_set base dpuSet) as [Hs Hf] by done.
  change (ds_DeletionTimestamp dpuSet) with (ds_DeletionTimestamp base).
  assert (∀ (r : option GoError * DPUSet) (s : W * list Write) errs,
    let p := patchDPUSet (SetClient:=traced C) base r.2 s in
    ∃ e, p.1 = e ∧ p.2.2 = s.2 ++ [WDPUSet base r.2 e] ∧ ∀ err, e = Some err → err ∈ errs ++ option_list e) as Hp.
  { intros r [w' l] errs. simpl. unfold logged. simpl. destruct (patchDPUSet base r.2 w') as [e w'']. exists e.
    split; [done|]. split; [done|]. intros err ->. apply elem_of_app. right. by left. }
  destruct (timep_is_zero (ds_DeletionTimestamp base)) eqn:Ed; cbn [negb].
  - destruct (Handle_log (C:=C) version options now dpuSet w1) as [H0 (k1 & k2 & Hk & Hk1 & Hk2)].
    destruct (Handle_frame (C:=traced C) version options now dpuSet (w1, [])) as [Hspec Hfin].
    destruct (Handle (C:=traced C) version options now dpuSet (w1, [])) as [[err d] [w2 l2]]. cbn [fst snd] in *. subst l2.
    destruct (Hp (err, d) (w2, k1 ++ k2) (option_list err)) as (e & He & Hl & Herr). cbn [fst snd] in *.
    destruct (patchDPUSet base d (w2, k1 ++ k2)) as [e' [w3 l3]]. cbn [fst snd] in *. subst e' l3.
    exists (k1 ++ k2), d, e. split; [done|]. split.
    { apply Forall_app. split.
      - eapply not_DPUSet; [exact Hk1|]. intros ? ? ? [].
      - destruct Hk2 as [->|(clusters & devs & owned & _ & _ & _ & Hk2)]; [done|]. eapply not_DPUSet; [exact Hk2|]. intros ? ? ? []. }
    split; [done|]. split; [by etrans|]. rewrite Hf in Hfin, H0.
    assert (∀ f, f ∈ ds_Finalizers base → f ∈ ds_Finalizers d) as Hkeep.
    { intros f Hin. destruct Hfin as [->|[_ ->]]; [done|]. apply add_finalizer. by left. }
    split; [|intros H1 H2; exfalso; by apply H2, Hkeep]. intros _. split; [done|]. intros Hne. apply contains_finalizer, not_false_iff_true.
    intros Hc. by apply Hne, H0.
  - destruct (reconcileDelete_emits (C:=C) dpuSet w1 []) as (k & Hk & Hq).
    destruct (reconcileDelete_frame (C:=traced C) dpuSet (w1, [])) as [Hspec Hfin].
    destruct (reconcileDelete (C:=traced C) dpuSet (w1, [])) as [[err d] [w2 l2]]. cbn [fst snd app] in *. subst l2.
    destruct (Hp (err, d) (w2, k) (option_list err)) as (e & He & Hl & Herr). cbn [fst snd] in *.
    destruct (patchDPUSet base d (w2, k)) as [e' [w3 l3]]. cbn [fst snd] in *. subst e' l3.
    exists k, d, e. split; [done|]. split; [done|]. split; [done|]. split; [by etrans|]. split; [done|].
    intros H1 H2. split; [done|]. destruct Hfin as [E|[Hlist _]]; [rewrite E, Hf in H2; done|].
    revert Hlist. simpl. unfold unlogged. simpl. by destruct (listSetDPUs _ _ w1).
Qed.

(** ** Witnesses *)

Definition fake_digest : TemplateDigest := λ _, "digest".
Definition example_options : DPUSetOptions := mkDPUSetOptions "" 1.

(** A DPU of the set whose device is gone. *)
Definition example_stray : DPU :=
  with_Labels {[ (DPUProvisioningPrefix +:+ "dpuset-name") := "set"; (DPUProvisioningPrefix +:+ "dpuset-namespace") := "ns" ]}
    (example_drifting "a" ConditionTrue).
Definition example_stray_world : World := with_dpus {[ dpu_key example_stray := example_stray ]} empty_world.
Definition example_protected_set : DPUSet := with_ds_Finalizers [DPUSetFinalizer] example_set.


Definition example_leaving_set : DPUSet :=
  mkDPUSet "set" "ns" 1 ∅ ∅ [DPUSetFinalizer] (Some 5%Z) None None ∅ "RollingUpdate" example_template ∅ ∅ [] None 0.

(** The DPUSet is being deleted and no DPU of it is left: its finalizer goes. *)
Lemma Reconcile_protocol_witness :
  let r := Reconcile (C:=traced (fake_set_client_with ∅ (Some example_leaving_set))) (S:=fake_selectors) (R:=map_to_list_range)
             (K:=fake_codec) (F:=fake_renderer) (FA:=finalizer_list) (API:=meta_list) (TD:=fake_digest) "v1" example_options 7
             (mkNN "ns" "set") (empty_world, []) in
  r.1 = [] ∧
  ∃ final e, r.2.2 = [WDPUSet example_leaving_set final e] ∧ ds_Finalizers final = [] ∧ same_spec example_leaving_set final.
Proof.
  split; [vm_compute; reflexivity|].
  destruct (Reconcile_protocol (C:=fake_set_client_with ∅ (Some example_leaving_set)) (S:=fake_selectors) (R:=map_to_list_range)
    (K:=fake_codec) (F:=fake_renderer) (FA:=finalizer_list) (API:=meta_list) (TD:=fake_digest) "v1" example_options 7
    (mkNN "ns" "set") empty_world) as (k & final & e & H & _ & _ & Hs & _).
  assert (length k = 0) as Hk.
  { apply (f_equal length) in H. rewrite length_app in H. cbn [length] in H.
    match type of H with ?n = _ => assert (n = 1) as E by (vm_compute; reflexivity) end. lia. }
  apply nil_length_inv in Hk. subst k. exists final, e. split; [exact H|]. split; [|exact Hs].
  apply (f_equal (fmap (λ x, match x with WDPUSet _ s _ => ds_Finalizers s | _ => [] end))) in H.
  match type of H with ?l = _ => assert (l = [[]]) as E by (vm_compute; reflexivity) end.
  rewrite E in H. by injection H as <-.
Defined.
