(* ===== verification/DownloadTasks.v ===== *)
(** The downloads a process keeps in memory, shared by the BFB and the
    BlueFieldSoftware controllers: a task of type [T] runs in a goroutine of its own,
    and the process keeps a [Future] for it (util/future/future.go) and the cancel
    function of its context, both in a [sync.Map] by the name of the task, and a
    counter of failed attempts by another key.  The errors of downloads and of the
    file system are classified here too (util/download_error.go, util/filesystem.go). *)

From S2P Require Import Prelude.

(** ** State *)

(** A future with the context its task runs in: [fu_Result] is [None] in state Poll
    and the error of the task in state Ready. *)
Record TaskFuture (T : Type) := mkFuture { fu_Task : T; fu_Canceled : bool; fu_Result : option (option GoError) }.
Arguments mkFuture {T}. Arguments fu_Task {T}. Arguments fu_Canceled {T}. Arguments fu_Result {T}.

(** A value of [DownloadingTaskMap]: a future, or the cancel function of the
    context of one, each by the position of the future in the heap. *)
Inductive TaskValue := TFuture (f : nat) | TCancel (f : nat).

Record TaskMemory (T : Type) := mkMemory {
  DownloadingTaskMap : gmap string TaskValue;
  downloadRetryCounter : gmap string Z;
  futures : list (TaskFuture T) }.
Arguments mkMemory {T}. Arguments DownloadingTaskMap {T}. Arguments downloadRetryCounter {T}. Arguments futures {T}.

Definition cancel_key (taskName : string) : string := taskName +:+ "cancel".

(** [f.(T)] on a value of another type. *)
Definition interface_conversion : GoError := mkGoError KPanic "interface conversion".

(** ** Operations *)

Section Operations.
Context {T W : Type}.
Local Abbreviation Memory := (TaskMemory T).
Local Abbreviation Future := (TaskFuture T).

Definition with_tasks (f : gmap string TaskValue → gmap string TaskValue) (m : Memory) : Memory :=
  mkMemory (f (DownloadingTaskMap m)) (downloadRetryCounter m) (futures m).
Definition with_retries (f : gmap string Z → gmap string Z) (m : Memory) : Memory :=
  mkMemory (DownloadingTaskMap m) (f (downloadRetryCounter m)) (futures m).
Definition with_futures (f : list Future → list Future) (m : Memory) : Memory :=
  mkMemory (DownloadingTaskMap m) (downloadRetryCounter m) (f (futures m)).

Definition cancel_future (f : Future) : Future := mkFuture (fu_Task f) true (fu_Result f).
Definition finish_future (e : option GoError) (f : Future) : Future := mkFuture (fu_Task f) (fu_Canceled f) (Some e).

(** An operation on the memory, and one on the world outside. *)
Definition mem {A} (f : Memory → A * Memory) : SM (Memory * W) A := λ s,
  match f s.1 with (a, m) => (a, (m, s.2)) end.
Definition ext {A} (f : SM W A) : SM (Memory * W) A := λ s,
  match f s.2 with (a, w) => (a, (s.1, w)) end.

Definition TaskMap_Load (key : string) : SM (Memory * W) (option TaskValue) := mem (λ m, (DownloadingTaskMap m !! key, m)).
Definition TaskMap_Delete (key : string) : SM (Memory * W) unit := mem (λ m, (tt, with_tasks (delete key) m)).
Definition TaskMap_Store (key : string) (v : TaskValue) : SM (Memory * W) unit := mem (λ m, (tt, with_tasks <[key := v]> m)).
Definition cancel (f : nat) : SM (Memory * W) unit := mem (λ m, (tt, with_futures (alter cancel_future f) m)).
(** [GetState] and [GetResult] of a future in state Ready. *)
Definition GetState (f : nat) : SM (Memory * W) (option (option GoError)) :=
  mem (λ m, (futures m !! f ≫= fu_Result, m)).

Definition getRetryCount (taskName : string) : SM (Memory * W) Z :=
  mem (λ m, (default 0%Z (downloadRetryCounter m !! taskName), m)).
Definition incrementRetryCounter (taskName : string) : SM (Memory * W) unit :=
  n ← getRetryCount taskName; mem (λ m, (tt, with_retries <[taskName := (n + 1)%Z]> m)).
Definition clearRetryCounter (taskName : string) : SM (Memory * W) unit :=
  mem (λ m, (tt, with_retries (delete taskName) m)).

(** [context.WithCancel], the cancel function stored, and [future.New] up to the
    goroutine: the future is made, and stored in state Poll. *)
Definition start_task (taskName : string) (task : T) : SM (Memory * W) unit :=
  f ← mem (λ m, (length (futures m), with_futures (λ fs, fs ++ [mkFuture task false None]) m));
  _ ← TaskMap_Store (cancel_key taskName) (TCancel f);
  TaskMap_Store taskName (TFuture f).
End Operations.

(** ** Errors of downloads and of the file system *)

(** PC/util/download_error.go *)
Definition IsRecoverableDownloadError (err : option GoError) : bool :=
  match err with
  | None => false
  | Some e => match err_kind e with KNotExist | KStale | KPath | KNetwork => true | _ => false end
  end.

(** PC/util/filesystem.go *)
Definition IsIgnorableRemoveErr (err : option GoError) : bool :=
  match err with
  | None => false
  | Some e => bool_decide (err_kind e = KNotExist) || bool_decide (err_kind e = KStale)
  end.

(** RemoveFileEx and RemoveAllEx on the call of the [os] package they make. *)
Definition unless_ignorable {W} (remove : SM W (option GoError)) : SM W (option GoError) :=
  err ← remove;
  mret (match err with Some e => if IsIgnorableRemoveErr (Some e) then None else Some e | None => None end).
