(* ===== verification/BFBTypes.v ===== *)
(** The data of the BFB controller (internal/provisioning/controllers/bfb): the
    object, the downloads the process keeps in memory, and what the controller
    asks of the API server and of the BFB volume.

    The downloads are kept as DownloadTasks.v says, with a [BFBTask] each. *)

From S2P Require Import Prelude.
From S2P Require Import Meta.
From S2P Require Import Conditions.
From S2P Require Import DPUTypes.
From S2P Require Import DPUSetTypes.
From S2P Require Import DownloadTasks.

(** ** The object *)

Definition BFBFinalizer := "provisioning.dpu.nvidia.com/bfb-protection".
Definition BFBInitializing := "Initializing".
Definition BFBDownloading := "Downloading".
Definition BFBDeleting := "Deleting".
Definition BFBError := "Error".
Definition BFBCondInitialized := "Initialized".
Definition BFBCondDownloaded := "Downloaded".
Definition BFBCondReady := TypeReady.
Definition BFBCondError := "Error".
Definition BFBCondDeleted := "Deleted".
Definition BFBConditions : list string :=
  [BFBCondInitialized; BFBCondDownloaded; BFBCondReady; BFBCondError; BFBCondDeleted].

Definition with_bfb_Finalizers (v : list string) (b : BFB) : BFB :=
  mkBFB (bfb_Name b) (bfb_Namespace b) (bfb_UID b) (bfb_Generation b) v (bfb_DeletionTimestamp b) (bfb_Spec b)
    (bfb_FileName b) (bfb_Phase b) (bfb_Versions b) (bfb_ObservedGeneration b) (bfb_Conditions b).
Definition with_bfb_FileName (v : string) (b : BFB) : BFB :=
  mkBFB (bfb_Name b) (bfb_Namespace b) (bfb_UID b) (bfb_Generation b) (bfb_Finalizers b) (bfb_DeletionTimestamp b)
    (bfb_Spec b) v (bfb_Phase b) (bfb_Versions b) (bfb_ObservedGeneration b) (bfb_Conditions b).
Definition with_bfb_Phase (v : string) (b : BFB) : BFB :=
  mkBFB (bfb_Name b) (bfb_Namespace b) (bfb_UID b) (bfb_Generation b) (bfb_Finalizers b) (bfb_DeletionTimestamp b)
    (bfb_Spec b) (bfb_FileName b) v (bfb_Versions b) (bfb_ObservedGeneration b) (bfb_Conditions b).
Definition with_bfb_Versions (v : BFBVersions) (b : BFB) : BFB :=
  mkBFB (bfb_Name b) (bfb_Namespace b) (bfb_UID b) (bfb_Generation b) (bfb_Finalizers b) (bfb_DeletionTimestamp b)
    (bfb_Spec b) (bfb_FileName b) (bfb_Phase b) v (bfb_ObservedGeneration b) (bfb_Conditions b).
Definition with_bfb_Conditions (v : list Condition) (b : BFB) : BFB :=
  mkBFB (bfb_Name b) (bfb_Namespace b) (bfb_UID b) (bfb_Generation b) (bfb_Finalizers b) (bfb_DeletionTimestamp b)
    (bfb_Spec b) (bfb_FileName b) (bfb_Phase b) (bfb_Versions b) (bfb_ObservedGeneration b) v.

#[export] Instance BFB_GetSet : GetSet BFB :=
  {| GetConditions := bfb_Conditions;
     SetConditions b cs := with_bfb_Conditions cs b;
     GetGeneration := bfb_Generation |}.
#[export] Instance BFB_GetSet_laws : GetSetLaws BFB BFB_GetSet.
Proof. by split. Qed.

Definition bfb_key (b : BFB) : NamespacedName := mkNN (bfb_Namespace b) (bfb_Name b).
Definition isDeleting (b : BFB) : bool := negb (timep_is_zero (bfb_DeletionTimestamp b)).

(** ** Names (PC/util/util.go, bfb/util/task.go) *)

Definition GenerateBFBTaskName (b : BFB) : string :=
  bfb_Namespace b +:+ "-" +:+ bfb_Name b +:+ "-" +:+ bfb_UID b.
Definition BFBFileNameExtension := ".bfb".
Definition DefaultBFBFilename (b : BFB) : string :=
  bfb_Namespace b +:+ "-" +:+ bfb_Name b +:+ BFBFileNameExtension.

(** ** Downloads in memory *)

Record BFBTask := mkBFBTask { tk_TaskName : string; tk_URL : string; tk_FileName : string; tk_UID : string }.

Abbreviation Future := (TaskFuture BFBTask).
Abbreviation Memory := (TaskMemory BFBTask).

Definition startDownload {W} (task : BFBTask) : SM (Memory * W) unit := start_task (tk_TaskName task) task.

(** ** What the controller asks of the API server and of the volume

    [openFile] gives the bytes that can be read until the first error, and the
    error of closing the file. *)
Class BFBClient (W : Type) := {
  fetchBFB : NamespacedName → SM W (Res BFB);
  patchBFB : BFB → BFB → SM W (option GoError);
  dpuSetsIn : string → SM W (Res (list DPUSet));
  dpusIn : string → SM W (Res (list DPU));
  statFile : string → SM W (option GoError);
  unlinkFile : string → SM W (option GoError);
  openFile : string → SM W (Res (string * option GoError)) }.

Definition RemoveFileEx {W} {C : BFBClient W} (path : string) : SM W (option GoError) := unless_ignorable (unlinkFile path).
