(* ===== verification/BFBVersion.v ===== *)
(** Versions of a BFB (bfb/util/version.go): the software inventory embedded in
    the image as printable text, and the DOCA version in its user-facing form. *)

From S2P Require Import Prelude.
From S2P Require Import DPUTypes.
From S2P Require Import Conditions.
From S2P Require Import DownloadTasks.
From S2P Require Import BFBTypes.
From Stdlib Require Import Ascii.

(** ** DOCA versions *)

Definition dash : ascii := "-"%char.
Definition dot : ascii := "."%char.

(** [patchBuild[0] < '0' || patchBuild[0] > '9'], negated *)
Definition is_digit (c : ascii) : bool := (48 <=? N_of_ascii c)%N && (N_of_ascii c <=? 57)%N.

Definition FormatDOCAVersion (version : string) : Res string :=
  if bool_decide (version = "") then Err (errorf "DOCA version cannot be empty")
  else
    let majorMinorPatch := hd "" (strings_Split dash version) in
    match strings_Split dot majorMinorPatch with
    | [major; minor; patchBuild] =>
        match patchBuild with
        | EmptyString => Err (errorf "DOCA version patchbuild component cannot be empty")
        | String c _ =>
            if is_digit c then Ok (major +:+ "." +:+ minor +:+ "." +:+ String c "")
            else Err (errorf ("patchbuild contains non-numeric leading character: " +:+ patchBuild))
        end
    | _ => Err (errorf ("DOCA version must have 3 components (major.minor.patchbuild), got: " +:+ version))
    end.

Definition formatDOCAVersion := FormatDOCAVersion.

(** ** The printable text of an image *)

(** [char <= 0x7F && unicode.IsPrint(char)].  The runes beyond 0x7F are made of bytes
    beyond 0x7F, invalid ones included, and several separators in a row are like
    one, so the loop over runes is a loop over bytes. *)
Definition is_print (c : ascii) : bool := (32 <=? N_of_ascii c)%N && (N_of_ascii c <=? 126)%N.

Definition is_space (c : ascii) : bool := bool_decide (c = " "%char ∨ (9 ≤ N_of_ascii c ≤ 13)%N).
Fixpoint trim_left (s : string) : string :=
  match s with String c t => if is_space c then trim_left t else s | EmptyString => "" end.
Fixpoint trim_right (s : string) : string :=
  match s with
  | EmptyString => ""
  | String c t => match trim_right t with
                  | EmptyString => if is_space c then "" else String c ""
                  | t' => String c t'
                  end
  end.
(** [strings.TrimSpace] of ASCII text *)
Definition TrimSpace (s : string) : string := trim_right (trim_left s).

Definition inventory_marker := "This JSON represents".
Definition quote : string := String (ascii_of_nat 34) "".
Definition count_marker := quote +:+ "Members@odata.count" +:+ quote +:+ ":".

(** What a printable line of at least four characters does to [inJSON] and
    [jsonLines]; the last component is [break]. *)
Definition json_line (line : string) (inJSON : bool) (jsonLines : list string) : bool * list string * bool :=
  let '(inJSON, jsonLines) :=
    if strings_Contains line inventory_marker then (true, jsonLines ++ ["{"]) else (inJSON, jsonLines) in
  if inJSON then
    let jsonLines := jsonLines ++ [TrimSpace line] in
    if strings_Contains line count_marker then (true, jsonLines ++ ["}"], true) else (true, jsonLines, false)
  else (false, jsonLines, false).

(** The loop over the characters of the file; it ends at the first read that fails. *)
Fixpoint extract_loop (bytes currentString : string) (inJSON : bool) (jsonLines : list string) : list string :=
  match bytes with
  | EmptyString => jsonLines
  | String c bytes =>
      if is_print c then extract_loop bytes (currentString +:+ String c "") inJSON jsonLines
      else
        let '(inJSON, jsonLines, break) :=
          if (4 <=? String.length currentString)%nat then json_line currentString inJSON jsonLines
          else (inJSON, jsonLines, false) in
        if break then jsonLines else extract_loop bytes "" inJSON jsonLines
  end.

Definition extractJSONLinesFromBFB (bytes : string) : Res (list string) :=
  match extract_loop bytes "" false [] with
  | [] => Err (errorf "software inventory JSON not found in BFB")
  | jsonLines => Ok jsonLines
  end.

(** ** The inventory *)

Record softwareInventoryMember := mkMember {
  si_ODataID : string;
  si_ID : string;
  si_Name : string;
  si_Version : string;
  si_ODataType : string;
  si_SoftwareID : string }.
Record softwareInventory := mkInventory { sw_ODataID : string; sw_Name : string; sw_Members : list softwareInventoryMember }.

(** [json.Unmarshal] into a [softwareInventory]. *)
Class InventoryJSON := unmarshal_inventory : string → Res softwareInventory.

(** One member of the inventory: the [switch] on its name. *)
Definition inventory_step (versions : BFBVersions) (item : softwareInventoryMember) : Res BFBVersions :=
  let '(mkBFBVersions bsp doca uefi atf) := versions in
  if bool_decide (si_Name item = "BF3_ATF") then Ok (mkBFBVersions bsp doca uefi (si_Version item))
  else if bool_decide (si_Name item = "DOCA") then
    match formatDOCAVersion (si_Version item) with
    | Ok formattedVersion => Ok (mkBFBVersions bsp formattedVersion uefi atf)
    | Err err => Err (wrapf "failed to format DOCA version: " err)
    end
  else if bool_decide (si_Name item = "BF3_BSP") then Ok (mkBFBVersions (si_Version item) doca uefi atf)
  else if bool_decide (si_Name item = "BF3_UEFI") then Ok (mkBFBVersions bsp doca (si_Version item) atf)
  else Ok versions.

Fixpoint inventory_versions (versions : BFBVersions) (items : list softwareInventoryMember) : Res BFBVersions :=
  match items with
  | [] => Ok versions
  | item :: items =>
      match inventory_step versions item with Ok versions => inventory_versions versions items | Err err => Err err end
  end.
Definition extractVersionsFromInventory (inventory : softwareInventory) : Res BFBVersions :=
  inventory_versions (mkBFBVersions "" "" "" "") (sw_Members inventory).

(** The two results, [version] and [reterr]; the deferred close sets [reterr]. *)
Definition VersionFromBFBFile {W} {C : BFBClient W} {J : InventoryJSON} (filename : string)
    : SM W (option BFBVersions * option GoError) :=
  file ← openFile filename;
  mret (match file with
  | Err err => (None, Some err)
  | Ok (bytes, closed) =>
      let result :=
        match extractJSONLinesFromBFB bytes with
        | Err err => Err err
        | Ok jsonLines =>
            match unmarshal_inventory (strings_Join LF jsonLines) with
            | Err err => Err err
            | Ok inventory => extractVersionsFromInventory inventory
            end
        end in
      match result, closed with
      | Ok versions, reterr => (Some versions, reterr)
      | Err _, Some err => (None, Some err)
      | Err err, None => (None, Some err)
      end
  end).

(** ** What a DOCA version is made of *)

Lemma Split_one sep s part : strings_Split sep s = [part] → s = part ∧ has_char sep part = false.
Proof.
  intros E. destruct (strings_Split_spec sep s) as [H1 H2]. rewrite E in H1, H2. simpl in H2. split; [by symmetry|].
  by inversion H1.
Qed.

(** The text before the first separator, and what follows it. *)
Lemma Split_head sep s :
  ∃ tail, s = hd "" (strings_Split sep s) +:+ tail ∧ has_char sep (hd "" (strings_Split sep s)) = false ∧
    (tail = "" ∨ ∃ t, tail = String sep t).
Proof.
  destruct (strings_Split_spec sep s) as [H1 H2]. destruct (strings_Split sep s) as [|p [|q ps]] eqn:E.
  - by apply strings_Split_nonempty in E.
  - exists "". simpl in *. subst. apply Forall_cons in H1 as [? _]. split; [by rewrite string_app_empty_r|]. auto.
  - exists (String sep (strings_Join (String sep "") (q :: ps))). apply Forall_cons in H1 as [? _].
    split; [by rewrite <- H2 at 1|]. split; [done|]. right. by eexists.
Qed.

Lemma hd_Split_app sep s tail :
  has_char sep s = false → (tail = "" ∨ ∃ t, tail = String sep t) → hd "" (strings_Split sep (s +:+ tail)) = s.
Proof.
  intros Hs [->|[t ->]].
  - rewrite string_app_empty_r. by rewrite strings_Split_free.
  - by rewrite strings_Split_app.
Qed.

(** [version] is major.minor.patchbuild with an optional part after a dash, where
    [d] is the first digit of patchbuild; major and minor are any text. *)
Definition doca_shape (version major minor : string) (d : ascii) : Prop :=
  ∃ build tail, version = (major +:+ "." +:+ minor +:+ "." +:+ String d build) +:+ tail ∧
    is_digit d = true ∧ Forall (λ p, has_char dash p = false ∧ has_char dot p = false) [major; minor; build] ∧
    (tail = "" ∨ ∃ t, tail = String dash t).

Lemma digit_no_separator d : is_digit d = true → Ascii.eqb d dash = false ∧ Ascii.eqb d dot = false.
Proof. intros Hd. split; apply Ascii.eqb_neq; intros ->; by vm_compute in Hd. Qed.

Lemma Format_of_shape version major minor d :
  doca_shape version major minor d → FormatDOCAVersion version = Ok (major +:+ "." +:+ minor +:+ "." +:+ String d "").
Proof.
  intros (build & tail & -> & Hd & Hf & Ht). rewrite !Forall_cons in Hf. destruct Hf as ([Ha1 Ha2] & [Hb1 Hb2] & [Hc1 Hc2] & _).
  destruct (digit_no_separator d Hd) as [Hd1 Hd2]. unfold FormatDOCAVersion. rewrite bool_decide_false.
  2:{ destruct major; simpl; [|done]. done. }
  rewrite hd_Split_app; [|by rewrite !has_char_app, Ha1, Hb1; simpl; rewrite Hd1, Hc1|done].
  change (major +:+ "." +:+ minor +:+ "." +:+ String d build) with (major +:+ String dot (minor +:+ String dot (String d build))).
  rewrite !strings_Split_app by done. rewrite strings_Split_free by (simpl; by rewrite Hd2). by rewrite Hd.
Qed.

Lemma has_char_Join c sep xs :
  Ascii.eqb sep c = false → has_char c (strings_Join (String sep "") xs) = false → Forall (λ p, has_char c p = false) xs.
Proof.
  intros Hs. induction xs as [|x [|y xs] IH]; intros H; [constructor|by repeat constructor|].
  change (has_char c (x +:+ String sep (strings_Join (String sep "") (y :: xs))) = false) in H.
  rewrite has_char_app in H. apply orb_false_iff in H as [H1 H2]. constructor; [done|]. apply IH.
  cbn [has_char] in H2. by rewrite Hs in H2.
Qed.

Lemma Format_shape version s :
  FormatDOCAVersion version = Ok s → ∃ major minor d, s = major +:+ "." +:+ minor +:+ "." +:+ String d "" ∧ doca_shape version major minor d.
Proof.
  unfold FormatDOCAVersion. case_bool_decide; [done|]. destruct (Split_head dash version) as (tail & Hv & Hh & Ht).
  destruct (strings_Split_spec dot (hd "" (strings_Split dash version))) as [H1 H2].
  destruct (strings_Split dot _) as [|major [|minor [|[|d build] [|? ?]]]] eqn:E; try done.
  destruct (is_digit d) eqn:Hd; [|done]. intros [= <-]. exists major, minor, d. split; [done|].
  exists build, tail. rewrite <- H2 in Hh. apply has_char_Join in Hh; [|done]. rewrite !Forall_cons in Hh, H1.
  destruct Hh as (A1 & A2 & A3 & _), H1 as (B1 & B2 & B3 & _). simpl in A3, B3.
  apply orb_false_iff in A3 as [_ A3]. apply orb_false_iff in B3 as [_ B3].
  split; [|split; [done|split; [by repeat constructor|done]]]. rewrite Hv at 1. by rewrite <- H2.
Qed.

(** A DOCA version is accepted exactly when, up to its first dash, it has three
    parts separated by dots of which the third starts with a digit; the result is
    the first two parts, whatever they are, and that digit.  A result formatted
    again does not change. *)
Theorem FormatDOCAVersion_spec version s :
  (FormatDOCAVersion version = Ok s ↔
    ∃ major minor d, s = major +:+ "." +:+ minor +:+ "." +:+ String d "" ∧ doca_shape version major minor d) ∧
  (FormatDOCAVersion version = Ok s → FormatDOCAVersion s = Ok s).
Proof.
  split; [split; [apply Format_shape|]|].
  - intros (major & minor & d & -> & H). by apply Format_of_shape.
  - intros (major & minor & d & -> & build & tail & _ & Hd & Hf & _)%Format_shape. apply Format_of_shape.
    exists "", "". rewrite string_app_empty_r. split; [done|]. split; [done|]. split; [|by left].
    rewrite !Forall_cons in Hf. destruct Hf as ([??] & [??] & _). rewrite !Forall_cons.
    by split_and!.
Qed.

Lemma FormatDOCAVersion_spec_witness :
  FormatDOCAVersion "3.3.0202-1.5" = Ok "3.3.0" ∧ FormatDOCAVersion "3.3.0" = Ok "3.3.0" ∧ FormatDOCAVersion "3.0.a0053" ≠ Ok "3.0.a".
Proof. split; [reflexivity|]. split; [apply (FormatDOCAVersion_spec "3.3.0202-1.5" "3.3.0"); reflexivity|]. intros H. vm_compute in H. discriminate H. Defined.

(** ** The pipeline of strings and grep *)

(** A basic regular expression of characters and dots; [None] is the dot. *)
Definition literal (s : string) : list (option ascii) := Some <$> String.list_ascii_of_string s.
Fixpoint matches_at (pat : list (option ascii)) (s : string) : bool :=
  match pat, s with
  | [], _ => true
  | _ :: _, EmptyString => false
  | d :: pat, String c s => match d with None => true | Some d => Ascii.eqb d c end && matches_at pat s
  end.
Fixpoint grep_matches (pat : list (option ascii)) (s : string) : bool :=
  matches_at pat s || match s with EmptyString => false | String _ s => grep_matches pat s end.

(** [strings]: the runs of four and more graphic characters, blanks and tabs, with the
    one that ends with the file. *)
Definition is_text (c : ascii) : bool := is_print c || Ascii.eqb c (ascii_of_nat 9).
Fixpoint runs (bytes cur : string) : list string :=
  match bytes with
  | EmptyString => [cur]
  | String c bytes => if is_text c then runs bytes (cur +:+ String c "") else cur :: runs bytes ""
  end.
Definition long (lines : list string) : list string := filter (λ l, 4 ≤ String.length l) lines.
Definition strings_1 (bytes : string) : list string := long (runs bytes "").

(** [grep -A n] and [grep -B n]: a line with whether it is printed, and the printed
    lines, with a separator where lines are left out between them. *)
Fixpoint after_context (n : nat) (p : string → bool) (left : nat) (lines : list string) : list (string * bool) :=
  match lines with
  | [] => []
  | l :: lines => if p l then (l, true) :: after_context n p n lines
                  else (l, bool_decide (0 < left)) :: after_context n p (left - 1) lines
  end.
Fixpoint before_context (n : nat) (p : string → bool) (lines : list string) : list (string * bool) :=
  match lines with [] => [] | l :: lines => (l, existsb p (take (S n) (l :: lines))) :: before_context n p lines end.
Fixpoint print_selected (printed gap : bool) (lines : list (string * bool)) : list string :=
  match lines with
  | [] => []
  | (l, true) :: lines => (if printed && gap then ["--"] else []) ++ l :: print_selected true false lines
  | (_, false) :: lines => print_selected printed true lines
  end.
Definition grep_A (n : nat) (pat : list (option ascii)) (lines : list string) : list string :=
  print_selected false false (after_context n (grep_matches pat) 0 lines).
Definition grep_B (n : nat) (pat : list (option ascii)) (lines : list string) : list string :=
  print_selected false false (before_context n (grep_matches pat) lines).

(** [strings bfb-file.bfb | grep -A1000 "This JSON represents" | grep -B 1000 "Members@odata.count"] *)
Definition count_pattern : list (option ascii) := literal "Members@odata" ++ None :: literal "count".
Definition pipeline (bytes : string) : list string :=
  grep_B 1000 count_pattern (grep_A 1000 (literal inventory_marker) (strings_1 bytes)).

(** *** Matching *)

Definition marked (l : string) : bool := strings_Contains l inventory_marker.
Definition counted (l : string) : bool := strings_Contains l count_marker.

Lemma prefix_matches t s : String.prefix t s = matches_at (literal t) s.
Proof.
  revert s. induction t as [|d t IH]; intros [|c s]; [done..|]. cbn. rewrite IH. destruct (ascii_dec d c) as [->|Hn].
  - by rewrite Ascii.eqb_refl.
  - by rewrite (proj2 (Ascii.eqb_neq d c) Hn).
Qed.

Lemma Contains_matches s t : strings_Contains s t = grep_matches (literal t) s.
Proof.
  unfold strings_Contains. induction s as [|c s IH].
  - cbn. rewrite <- prefix_matches. by destruct t.
  - cbn [String.index grep_matches]. rewrite <- prefix_matches, <- IH. destruct (String.prefix t (String c s)); [done|].
    by destruct (String.index 0 t s).
Qed.

Lemma matches_at_app pat s t : matches_at pat s = true → matches_at pat (s +:+ t) = true.
Proof.
  revert s. induction pat as [|d pat IH]; intros [|c s]; [done..|]. change (String c s +:+ t) with (String c (s +:+ t)). cbn.
  intros [H1 H2]%andb_true_iff. by rewrite H1, IH.
Qed.

Lemma grep_matches_app pat a s b : grep_matches pat s = true → grep_matches pat (a +:+ s +:+ b) = true.
Proof.
  intros H. assert (grep_matches pat (s +:+ b) = true) as Hb.
  { revert H. induction s as [|c s IH]; cbn [grep_matches].
    - rewrite orb_false_r. change ("" +:+ b) with b. intros H. pose proof (matches_at_app _ "" b H) as Hb. change ("" +:+ b) with b in Hb.
      destruct b; cbn [grep_matches]; by rewrite Hb.
    - change (String c s +:+ b) with (String c (s +:+ b)). cbn [grep_matches]. intros [H|H]%orb_true_iff; [|by rewrite IH, orb_true_r].
      pose proof (matches_at_app _ _ b H) as Hb. change (String c s +:+ b) with (String c (s +:+ b)) in Hb. by rewrite Hb. }
  induction a as [|c a IH]; [done|]. change (String c a +:+ s +:+ b) with (String c (a +:+ s +:+ b)).
  cbn [grep_matches]. by rewrite IH, orb_true_r.
Qed.

(** A run is part of the text. *)
Lemma run_within pat bytes cur l : l ∈ runs bytes cur → grep_matches pat (cur +:+ bytes) = false → grep_matches pat l = false.
Proof.
  intros Hl Hn. destruct (grep_matches pat l) eqn:E; [|done]. rewrite <- Hn. symmetry. clear Hn.
  revert cur Hl. induction bytes as [|c bytes IH]; intros cur; cbn [runs].
  - intros ->%list_elem_of_singleton. by rewrite string_app_empty_r.
  - destruct (is_text c); intros Hl.
    + apply IH in Hl. by rewrite <- string_app_assoc in Hl.
    + apply elem_of_cons in Hl as [->|Hl]; [by apply (grep_matches_app pat "")|]. apply IH in Hl.
      pose proof (grep_matches_app pat (cur +:+ String c "") bytes "") as H. rewrite string_app_empty_r, <- string_app_assoc in H. by apply H.
Qed.

(** *** The inventory in an image *)

Fixpoint printable (s : string) : bool :=
  match s with EmptyString => true | String c s => is_print c && printable s end.

(** Printable lines, each ended by a character, and what follows them. *)
Definition text (lines : list (string * ascii)) (post : string) : string :=
  foldr (λ lc bytes, lc.1 +:+ String lc.2 bytes) post lines.

(** An image with one inventory of at most a thousand lines: what comes before it has no
    marker, the first of its lines has it, the last has the count, and there is no
    other marker or count in it or after it.  A character that ends a line is not a
    tab. *)
Record one_inventory (pre : string) (sep : ascii) (lines : list (string * ascii)) (post : string) : Prop := {
  oi_before : strings_Contains pre inventory_marker = false;
  oi_sep : is_text sep = false;
  oi_lines : Forall (λ lc : string * ascii, printable lc.1 = true ∧ is_text lc.2 = false) lines;
  oi_length : length lines ≤ 1000;
  oi_marks : ∃ start mid last, lines.*1 = start :: mid ++ [last] ∧ marked start = true ∧ counted last = true ∧
    grep_matches count_pattern start = false ∧ marked last = false ∧
    Forall (λ l, marked l = false ∧ grep_matches count_pattern l = false) mid;
  oi_after : strings_Contains post inventory_marker = false ∧ grep_matches count_pattern post = false }.

Lemma matches_longer pat s : grep_matches pat s = true → length pat ≤ String.length s.
Proof.
  assert (∀ pat s, matches_at pat s = true → length pat ≤ String.length s) as Hat.
  { clear. intros pat. induction pat as [|d pat IH]; intros [|c s]; cbn; [lia..|done|]. intros [_ H]%andb_true_iff. apply IH in H. lia. }
  induction s as [|c s IH]; cbn [grep_matches]; intros [H|H]%orb_true_iff; [by apply Hat|done|by apply Hat|]. apply IH in H. simpl. lia.
Qed.

(** A pattern with dots for characters matches more. *)
Lemma matches_weaker pat pat' rest s :
  Forall2 (λ d e : option ascii, e = None ∨ e = d) pat pat' → matches_at (pat ++ rest) s = true → matches_at pat' s = true.
Proof.
  intros H. revert s. induction H as [|d e pat pat' Hd _ IH]; intros s; [by destruct s|]. destruct s as [|c s]; [done|]. cbn.
  intros [H1 H2]%andb_true_iff. rewrite (IH _ H2), andb_true_r. destruct Hd as [->| ->]; [done|exact H1].
Qed.

(** The line of the count matches the pattern of grep. *)
Lemma counted_matches l : counted l = true → grep_matches count_pattern l = true.
Proof.
  unfold counted. rewrite Contains_matches.
  change (literal count_marker) with (Some (ascii_of_nat 34) :: literal "Members@odata.count" ++ literal (quote +:+ ":")).
  induction l as [|c l IH]; [done|]. cbn [grep_matches]. intros [H|H]%orb_true_iff; [|by rewrite IH, orb_true_r].
  cbn [matches_at] in H. apply andb_true_iff in H as [_ H].
  assert (Forall2 (λ d e : option ascii, e = None ∨ e = d) (literal "Members@odata.count") count_pattern) as Hd
    by (repeat first [apply Forall2_cons; split; [by auto|]|constructor]).
  apply (matches_weaker _ _ _ _ Hd) in H.
  apply orb_true_iff. right. destruct l; [by apply orb_true_iff; left|]. apply orb_true_iff. by left.
Qed.

(** *** What the pipeline prints of it *)

Lemma runs_text pre sep rest cur : is_text sep = false → runs (pre +:+ String sep rest) cur = runs pre cur ++ runs rest "".
Proof.
  intros Hs. revert cur. induction pre as [|c pre IH]; intros cur.
  - change ("" +:+ String sep rest) with (String sep rest). cbn [runs]. by rewrite Hs.
  - change (String c pre +:+ String sep rest) with (String c (pre +:+ String sep rest)). cbn [runs].
    destruct (is_text c); rewrite IH; [done|]. done.
Qed.

Lemma runs_printable l cur : printable l = true → runs l cur = [cur +:+ l].
Proof.
  revert cur. induction l as [|c l IH]; intros cur; [by rewrite string_app_empty_r|]. cbn [printable runs].
  intros [Hc Hl]%andb_true_iff. unfold is_text. rewrite Hc. cbn [orb]. rewrite IH by done. by rewrite <- string_app_assoc.
Qed.

Lemma runs_lines lines post : Forall (λ lc : string * ascii, printable lc.1 = true ∧ is_text lc.2 = false) lines →
  runs (text lines post) "" = lines.*1 ++ runs post "".
Proof.
  induction 1 as [|[l c] lines [Hp Hc] _ IH]; [done|]. cbn [text foldr fst snd]. fold (text lines post).
  rewrite runs_text by done. rewrite IH, runs_printable by done. done.
Qed.

Lemma after_none n p A lines : Forall (λ l, p l = false) A →
  after_context n p 0 (A ++ lines) = ((λ l, (l, false)) <$> A) ++ after_context n p 0 lines.
Proof. induction 1 as [|l A Hl _ IH]; [done|]. cbn [app after_context fmap list_fmap]. rewrite Hl. simpl. by rewrite IH. Qed.
Lemma after_some n p left B lines : Forall (λ l, p l = false) B → length B ≤ left →
  after_context n p left (B ++ lines) = ((λ l, (l, true)) <$> B) ++ after_context n p (left - length B) lines.
Proof.
  intros HB. revert left. induction HB as [|l B Hl _ IH]; intros left Hn; [by rewrite Nat.sub_0_r|]. cbn [app after_context fmap list_fmap length] in *.
  rewrite Hl, bool_decide_true by lia. rewrite IH by lia. by replace (left - 1 - length B) with (left - S (length B)) by lia.
Qed.
Lemma after_end n p left C : Forall (λ l, p l = false) C →
  after_context n p left C = ((λ l, (l, true)) <$> take left C) ++ ((λ l, (l, false)) <$> drop left C).
Proof.
  intros HC. revert left. induction HC as [|l C Hl _ IH]; intros [|left]; [done..| |]; cbn [after_context]; rewrite Hl, IH; [done|].
  rewrite bool_decide_true by lia. by replace (S left - 1) with left by lia.
Qed.

Lemma print_false printed gap A lines :
  print_selected printed gap (((λ l, (l, false)) <$> A) ++ lines) = print_selected printed (gap || negb (bool_decide (A = []))) lines.
Proof.
  revert gap. induction A as [|l A IH]; intros gap; [by rewrite orb_false_r|]. cbn [fmap list_fmap app print_selected]. rewrite IH.
  by rewrite orb_true_r.
Qed.
Lemma print_start gap gap' lines : print_selected false gap lines = print_selected false gap' lines.
Proof. by destruct lines as [|[l []] lines]. Qed.
Lemma print_true l B lines printed : print_selected printed false (((λ l, (l, true)) <$> l :: B) ++ lines) = (l :: B) ++ print_selected true false lines.
Proof.
  revert l printed. induction B as [|m B IH]; intros l printed; cbn [fmap list_fmap app print_selected]; rewrite andb_false_r; [done|].
  change (l :: print_selected true false (((λ l, (l, true)) <$> m :: B) ++ lines) = l :: (m :: B) ++ print_selected true false lines). by rewrite IH.
Qed.

(** One group of lines, with lines that are left out before and after it. *)
Lemma print_group A l B C :
  print_selected false false (((λ l, (l, false)) <$> A) ++ ((λ l, (l, true)) <$> l :: B) ++ ((λ l, (l, false)) <$> C)) = l :: B.
Proof.
  rewrite print_false, (print_start _ false), print_true. rewrite <- (app_nil_r ((λ l, (l, false)) <$> C)), print_false. cbn. by rewrite app_nil_r.
Qed.

Lemma before_true n p B last D : length B ≤ n → p last = true → Forall (λ l, p l = false) D →
  before_context n p (B ++ last :: D) = ((λ l, (l, true)) <$> B ++ [last]) ++ ((λ l, (l, false)) <$> D).
Proof.
  intros Hn Hp HD. induction B as [|l B IH].
  - cbn [app before_context fmap list_fmap take existsb]. rewrite Hp. cbn [orb]. f_equal. induction HD as [|d D Hd HD IH]; [done|].
    cbn [before_context fmap list_fmap take existsb]. rewrite Hd, IH. cbn [orb]. f_equal. f_equal. apply not_true_is_false.
    intros (x & Hx & Hpx)%existsb_exists. apply list_elem_of_In, elem_of_take in Hx as (i & Hx & _).
    apply list_elem_of_lookup_2 in Hx. rewrite Forall_forall in HD. by rewrite HD in Hpx.
  - cbn [app before_context fmap list_fmap length] in *. rewrite IH by lia. f_equal. f_equal. apply existsb_exists. exists last. split; [|done].
    apply list_elem_of_In, elem_of_take. exists (S (length B)). split; [|lia]. exact (list_lookup_middle B D last _ eq_refl).
Qed.

Lemma long_keep l lines : 4 ≤ String.length l → long (l :: lines) = l :: long lines.
Proof. intros H. unfold long. by rewrite filter_cons_True. Qed.

(** No run of a text has a pattern the text does not have. *)
Lemma long_runs_free pat bytes : grep_matches pat bytes = false → Forall (λ l, grep_matches pat l = false) (long (runs bytes "")).
Proof.
  intros Hn. apply Forall_forall. intros l [_ Hl]%list_elem_of_filter. by eapply run_within.
Qed.

Lemma pipeline_prints pre sep lines post : one_inventory pre sep lines post →
  pipeline (pre +:+ String sep (text lines post)) = long lines.*1.
Proof.
  intros [Hpre Hsep Hl Hlen (start & mid & last & Hm & Hs & Hc & Hsc & Hlm & Hmid) [Hp1 Hp2]].
  unfold pipeline, strings_1. rewrite runs_text, runs_lines by done. unfold long. rewrite !filter_app. fold (long (runs pre "")) (long lines.*1) (long (runs post "")).
  rewrite Contains_matches in Hpre, Hp1. pose proof (long_runs_free _ _ Hpre) as HA. pose proof (long_runs_free _ _ Hp1) as HC.
  pose proof (long_runs_free _ _ Hp2) as HD. revert HA HC HD. generalize (long (runs pre "")) (long (runs post "")). intros A C HA HC HD.
  assert (long lines.*1 = start :: long mid ++ [last]) as ->.
  { rewrite Hm, long_keep; [|unfold marked in Hs; rewrite Contains_matches in Hs; by apply matches_longer in Hs; cbn in Hs; lia].
    unfold long. rewrite filter_app. f_equal. f_equal. apply (long_keep last []).
    apply counted_matches, matches_longer in Hc. cbn in Hc. lia. }
  assert (length (long mid) ≤ 998) as Hmidl.
  { unfold long. pose proof (length_filter (λ l, 4 ≤ String.length l) mid). apply (f_equal length) in Hm. rewrite length_fmap in Hm. simpl in Hm.
    rewrite length_app in Hm. simpl in Hm. lia. }
  assert (Forall (λ l, marked l = false ∧ grep_matches count_pattern l = false) (long mid)) as Hlong.
  { unfold long. apply Forall_forall. intros l [_ Hin]%list_elem_of_filter. by eapply Forall_forall in Hmid. }
  clear Hm Hmid. generalize dependent (long mid). clear mid. intros mid Hmidl Hlong.
  unfold marked in *. setoid_rewrite Contains_matches in Hlong. rewrite Contains_matches in Hs, Hlm. apply counted_matches in Hc.
  assert (grep_A 1000 (literal inventory_marker) (A ++ (start :: mid ++ [last]) ++ C) = start :: mid ++ [last] ++ take (1000 - length (mid ++ [last])) C) as ->.
  { unfold grep_A. rewrite after_none by done. cbn [app after_context]. rewrite Hs. rewrite after_some.
    2:{ apply Forall_app. split; [|by constructor]. eapply Forall_impl; [exact Hlong|]. by intros l [? _]. }
    2:{ rewrite length_app. simpl. lia. }
    rewrite after_end by done. rewrite app_assoc, <- fmap_app. rewrite <- (app_assoc mid). 
    apply (print_group A start). }
  unfold grep_B. rewrite (app_assoc mid [last]). change (start :: (mid ++ [last]) ++ ?D) with ((start :: mid ++ [last]) ++ D).
  assert (∀ D, (start :: mid ++ [last]) ++ D = (start :: mid) ++ last :: D) as Happ by (intros D; simpl; by rewrite <- app_assoc).
  rewrite Happ, before_true; [|simpl; lia|done|by apply Forall_take].
  apply (print_group [] start (mid ++ [last])).
Qed.

(** *** What the loop finds of it *)

Lemma is_text_print c : is_text c = false → is_print c = false.
Proof. unfold is_text. by intros [? _]%orb_false_iff. Qed.

Lemma Contains_app a s b t : strings_Contains (a +:+ s +:+ b) t = false → strings_Contains s t = false.
Proof. rewrite !Contains_matches. intros H. apply not_true_is_false. intros Hs. by rewrite (grep_matches_app _ a s b Hs) in H. Qed.

Lemma unmarked_line l jsonLines : marked l = false → json_line l false jsonLines = (false, jsonLines, false).
Proof. unfold json_line, marked. by intros ->. Qed.

(** Before the marker the loop keeps nothing. *)
Lemma extract_before pre sep rest cur : is_print sep = false → strings_Contains (cur +:+ pre) inventory_marker = false →
  extract_loop (pre +:+ String sep rest) cur false [] = extract_loop rest "" false [].
Proof.
  intros Hs. revert cur. induction pre as [|c pre IH]; intros cur Hn.
  - change ("" +:+ String sep rest) with (String sep rest). cbn [extract_loop]. rewrite Hs. rewrite string_app_empty_r in Hn.
    destruct (4 <=? _)%nat; [|done]. by rewrite unmarked_line.
  - change (String c pre +:+ String sep rest) with (String c (pre +:+ String sep rest)). cbn [extract_loop].
    assert (strings_Contains pre inventory_marker = false ∧ strings_Contains cur inventory_marker = false) as [Hp Hc].
    { split; [apply (Contains_app (cur +:+ String c "") pre "")|by apply (Contains_app "" cur (String c pre))].
      rewrite string_app_empty_r, <- string_app_assoc. exact Hn. }
    destruct (is_print c); [apply IH; by rewrite <- string_app_assoc|].
    destruct (4 <=? _)%nat; [rewrite unmarked_line by done|]; by apply IH.
Qed.
Lemma extract_none bytes cur : strings_Contains (cur +:+ bytes) inventory_marker = false → extract_loop bytes cur false [] = [].
Proof.
  revert cur. induction bytes as [|c bytes IH]; intros cur Hn; [done|]. cbn [extract_loop].
  assert (strings_Contains bytes inventory_marker = false ∧ strings_Contains cur inventory_marker = false) as [Hp Hc].
  { split; [apply (Contains_app (cur +:+ String c "") bytes "")|by apply (Contains_app "" cur (String c bytes))].
    rewrite string_app_empty_r, <- string_app_assoc. exact Hn. }
  destruct (is_print c); [apply IH; by rewrite <- string_app_assoc|].
  destruct (4 <=? _)%nat; [rewrite unmarked_line by done|]; by apply IH.
Qed.

Lemma extract_run line rest cur inJSON jsonLines :
  printable line = true → extract_loop (line +:+ rest) cur inJSON jsonLines = extract_loop rest (cur +:+ line) inJSON jsonLines.
Proof.
  revert cur. induction line as [|c line IH]; intros cur; [by rewrite string_app_empty_r|].
  cbn [printable]. intros [Hc Hl]%andb_true_iff. change (String c line +:+ rest) with (String c (line +:+ rest)).
  cbn [extract_loop]. rewrite Hc, IH by done.
  by rewrite <- string_app_assoc.
Qed.

(** A printable line and the character that ends it. *)
Lemma extract_line l c rest inJSON jsonLines : printable l = true → is_text c = false →
  extract_loop (l +:+ String c rest) "" inJSON jsonLines =
    let '(inJSON, jsonLines, break) := if (4 <=? String.length l)%nat then json_line l inJSON jsonLines else (inJSON, jsonLines, false) in
    if break then jsonLines else extract_loop rest "" inJSON jsonLines.
Proof. intros Hl Hc. rewrite extract_run by done. cbn [extract_loop]. by rewrite (is_text_print _ Hc). Qed.

Lemma extract_section mid c_mid last c post jsonLines :
  Forall (λ lc : string * ascii, printable lc.1 = true ∧ is_text lc.2 = false) (c_mid ++ [(last, c)]) → c_mid.*1 = mid →
  Forall (λ l, marked l = false ∧ counted l = false) mid → marked last = false → counted last = true →
  extract_loop (text (c_mid ++ [(last, c)]) post) "" true jsonLines = jsonLines ++ (TrimSpace <$> long (mid ++ [last])) ++ ["}"].
Proof.
  intros Hf <- Hm Hml Hcl. revert jsonLines. induction c_mid as [|[l d] c_mid IH]; intros jsonLines.
  - cbn [app fmap list_fmap text foldr fst snd]. apply Forall_cons in Hf as [[Hp Ht] _]. rewrite extract_line by done.
    assert (4 ≤ String.length last) as H4 by (apply counted_matches, matches_longer in Hcl; cbn in Hcl; lia).
    rewrite (proj2 (Nat.leb_le 4 _)) by lia. unfold json_line. unfold marked, counted in *. rewrite Hml, Hcl. cbn [app long].
    unfold long. rewrite filter_cons_True by lia. by rewrite <- app_assoc.
  - cbn [app fmap list_fmap] in *. apply Forall_cons in Hf as [[Hp Ht] Hf], Hm as [[Hl1 Hl2] Hm]. unfold text. cbn [foldr fst snd] in *.
    fold (text (c_mid ++ [(last, c)]) post). rewrite extract_line by done. specialize (IH Hf Hm). destruct (Nat.leb_spec 4 (String.length l)) as [H4|H4].
    + rewrite long_keep by done. unfold json_line. unfold marked, counted in *. rewrite Hl1, Hl2, IH. by rewrite <- app_assoc.
    + unfold long. rewrite filter_cons_False by lia. apply IH.
Qed.

Lemma extract_finds pre sep lines post : one_inventory pre sep lines post →
  extractJSONLinesFromBFB (pre +:+ String sep (text lines post)) = Ok ("{" :: (TrimSpace <$> long lines.*1) ++ ["}"]).
Proof.
  intros [Hpre Hsep Hl Hlen (start & mid & last & Hm & Hs & Hc & Hsc & Hlm & Hmid) [Hp1 Hp2]].
  unfold extractJSONLinesFromBFB. rewrite extract_before; [|by apply is_text_print|done].
  destruct lines as [|[l c] lines]; [done|]. cbn [fmap list_fmap fst] in Hm |- *. injection Hm as -> Hm.
  destruct lines as [|lc lines _] using rev_ind; [by destruct mid|]. rewrite fmap_app in Hm. apply app_inj_tail in Hm as [Hm1 Hm2].
  destruct lc as [l d]. cbn in Hm2. subst l. unfold text. cbn [foldr fst snd]. fold (text (lines ++ [(last, d)]) post).
  apply Forall_cons in Hl as [[Hp Ht] Hl]. rewrite extract_line by done.
  assert (4 ≤ String.length start) as H4 by (unfold marked in Hs; rewrite Contains_matches in Hs; apply matches_longer in Hs; cbn in Hs; lia).
  rewrite (proj2 (Nat.leb_le 4 _)) by lia.
  assert (∀ l, grep_matches count_pattern l = false → counted l = false) as Hcount.
  { intros l Hn. apply not_true_is_false. intros Hl'. apply counted_matches in Hl'. congruence. }
  unfold json_line. unfold marked in Hs. rewrite Hs. pose proof (Hcount _ Hsc) as Hsc'. unfold counted in Hsc'. rewrite Hsc'.
  rewrite (extract_section mid); [|done|done| |done|done].
  2:{ eapply Forall_impl; [exact Hmid|]. intros l [? ?]. split; [done|by apply Hcount]. }
  rewrite long_keep, fmap_app, Hm1 by done. done.
Qed.

(** C28. On an image with one inventory, whatever else it holds, the loop over the
    characters finds what [strings bfb-file.bfb | grep -A1000 "This JSON represents" |
    grep -B 1000 "Members@odata.count"] prints: the lines of the inventory that have
    four characters or more, which the code trims and puts within braces.  The
    conditions are those of [one_inventory]: the marker starts the first line and occurs
    nowhere else, the count is in the last line and not before or after it in what
    follows the marker, the inventory has at most a thousand lines, of characters that
    can be printed, and no tab ends one.  On an image without the marker the pipeline
    prints nothing and the code returns an error. *)
Theorem extract_is_grep :
  (∀ pre sep lines post, one_inventory pre sep lines post →
    let bytes := pre +:+ String sep (text lines post) in
    pipeline bytes = long lines.*1 ∧ extractJSONLinesFromBFB bytes = Ok ("{" :: (TrimSpace <$> pipeline bytes) ++ ["}"])) ∧
  (∀ bytes, strings_Contains bytes inventory_marker = false →
    pipeline bytes = [] ∧ ∃ e, extractJSONLinesFromBFB bytes = Err e).
Proof.
  split.
  - intros pre sep lines post H. cbv zeta. rewrite (pipeline_prints _ _ _ _ H). split; [done|by apply extract_finds].
  - intros bytes Hn. split; [|unfold extractJSONLinesFromBFB; rewrite extract_none by done; by eexists].
    rewrite Contains_matches in Hn. pose proof (long_runs_free _ _ Hn) as HA. unfold pipeline, strings_1, grep_A.
    rewrite <- (app_nil_r (long _)), after_none by done. by rewrite print_false.
Qed.

Lemma extract_is_grep_witness :
  let nl := ascii_of_nat 10 in
  let lines := [("This JSON represents the image", nl); ("  a", nl); ("  member", nl); (count_marker +:+ " 4", nl)] in
  let bytes := ("abcdef" +:+ String (ascii_of_nat 9) "tab") +:+ String nl (text lines "tail") in
  pipeline bytes = ["This JSON represents the image"; "  member"; count_marker +:+ " 4"] ∧
  extractJSONLinesFromBFB bytes = Ok ["{"; "This JSON represents the image"; "member"; count_marker +:+ " 4"; "}"] ∧
  ∃ e, extractJSONLinesFromBFB "an image of another kind" = Err e.
Proof.
  cbv zeta. set (nl := ascii_of_nat 10).
  assert (one_inventory ("abcdef" +:+ String (ascii_of_nat 9) "tab") nl
    [("This JSON represents the image", nl); ("  a", nl); ("  member", nl); (count_marker +:+ " 4", nl)] "tail") as Hi.
  { split; [reflexivity|reflexivity|repeat constructor|cbn; lia| |split; reflexivity]. exists "This JSON represents the image", ["  a"; "  member"], (count_marker +:+ " 4").
    split_and!; try reflexivity. repeat constructor. }
  destruct (proj1 extract_is_grep _ _ _ _ Hi) as [Hp He].
  split; [exact Hp|]. split; [rewrite He, Hp; reflexivity|]. exact (proj2 (proj2 extract_is_grep "an image of another kind" eq_refl)).
Defined.
