(* ===== verification/BFBDownload.v ===== *)
(** The download of a BFB: HTTP requests with retries (provisioning/utils/http/http.go)
    and the task [downloadBFB] runs in a goroutine (bfb/state/downloading.go).

    A response carries its body as the finite sequence of what reading it gives, up to
    its io.EOF; a body that never ends is not modelled.  The context of the task is asked with
    [ctxDone] wherever the code looks at it, so it may be cancelled in between. *)

From S2P Require Import Prelude.
From S2P Require Import DPUTypes.
From S2P Require Import DownloadTasks.
From S2P Require Import BFBTypes.

(** ** What a task asks of the network, the context and the file system *)

Inductive ReadError := NoError | EOF | ReadFailed (e : GoError).
Record Read := mkRead { rd_Data : string; rd_Err : ReadError }.
Record Response := mkResponse { rs_StatusCode : Z; rs_ContentLength : Z; rs_Body : list Read }.

Class Transfer (W : Type) := {
  newRequest : string → string → option GoError;
  httpDo : string → string → SM W (Res Response);
  StatusText : Z → string;
  (** [ctx.Err() != nil] *)
  ctxDone : SM W bool;
  (** Waits for the context or for an interval; true when the context was first. *)
  wait : Z → SM W bool;
  createFile : string → SM W (option GoError);
  appendFile : string → string → SM W (option GoError);
  closeFile : string → SM W (option GoError);
  chmodFile : string → Z → SM W (option GoError);
  renameFile : string → string → SM W (option GoError) }.

Definition Canceled : GoError := mkGoError KCanceled "context canceled".
Definition StatusOK : Z := 200.

(** What [io.ReadAll] makes of a body. *)
Fixpoint read_all (reads : list Read) : string :=
  match reads with
  | [] => ""
  | r :: reads => rd_Data r +:+ match rd_Err r with NoError => read_all reads | _ => "" end
  end.

(** What reading a body to its end gives: after io.EOF or an error there is no more. *)
Fixpoint until_end (reads : list Read) : list Read :=
  match reads with
  | [] => []
  | r :: reads => r :: match rd_Err r with NoError => until_end reads | _ => [] end
  end.

Section Requests.
Context {W : Type} {C : BFBClient W} {T : Transfer W}.

Definition CheckHTTPResponse (url : string) (resp : option Response) (expectedStatus : list Z) : option GoError :=
  match resp with
  | None => Some (errorf "nil HTTP response")
  | Some resp =>
      let expected := match expectedStatus with [] => [StatusOK] | _ => expectedStatus end in
      if bool_decide (rs_StatusCode resp ∈ expected) then None
      else Some (errorf ("unexpected HTTP status " +:+ pretty (rs_StatusCode resp) +:+ " (" +:+ StatusText (rs_StatusCode resp)
        +:+ ") from " +:+ url +:+ ": " +:+ String.substring 0 1024 (read_all (rs_Body resp))))
  end.

Definition DoRequest (method url : string) (expectedStatus : list Z) : SM W (Res Response) :=
  match newRequest method url with
  | Some err => mret (Err err)
  | None =>
      r ← httpDo method url;
      mret (match r with
            | Err err => Err err
            | Ok resp => match CheckHTTPResponse url (Some resp) expectedStatus with Some err => Err err | None => Ok resp end
            end)
  end.

(** The loop with [togo] attempts to go. *)
Fixpoint request_loop (togo maxRetries : nat) (method url : string) (expectedStatus : list Z) (retryInterval : Z)
    (lastErr : GoError) : SM W (Res Response) :=
  match togo with
  | 0 => mret (Err (wrapf ("HTTP " +:+ method +:+ " " +:+ url +:+ " failed after " +:+ pretty (S maxRetries) +:+ " attempts: ") lastErr))
  | S togo =>
      stopped ← ctxDone;
      if stopped : bool then mret (Err Canceled) else
      r ← DoRequest method url expectedStatus;
      match r with
      | Ok resp => mret (Ok resp)
      | Err err =>
          stopped ← ctxDone;
          if stopped : bool then mret (Err Canceled)
          else if bool_decide (togo = 0) then request_loop togo maxRetries method url expectedStatus retryInterval err
          else
            stopped ← wait retryInterval;
            if stopped : bool then mret (Err Canceled)
            else request_loop togo maxRetries method url expectedStatus (2 * retryInterval)%Z err
      end
  end.
Definition DoRequestWithRetry (method url : string) (maxRetries : nat) (retryInterval : Z) (expectedStatus : list Z)
    : SM W (Res Response) :=
  request_loop (S maxRetries) maxRetries method url expectedStatus retryInterval (errorf "%!w(<nil>)").

(** ** The task *)

Inductive Copied := CopyStopped (err : option GoError) | CopyDone (totalWritten : Z).

(** [copyLoop] *)
Fixpoint copy_loop (tempFile : string) (reads : list Read) (totalWritten : Z) : SM W Copied :=
  stopped ← ctxDone;
  if stopped : bool then mret (CopyStopped None) else
  match reads with
  | [] => mret (CopyDone totalWritten)
  | mkRead data (ReadFailed err) :: _ =>
      if bool_decide (err_kind err = KCanceled)
      then stopped ← ctxDone; mret (CopyStopped (if stopped : bool then Some Canceled else None))
      else mret (CopyStopped (Some (wrapf "failed to read from source file: " err)))
  | mkRead data _ :: reads =>
      if bool_decide (data = "") then mret (CopyDone totalWritten)
      else
        writeErr ← appendFile tempFile data;
        match writeErr with
        | Some err => mret (CopyStopped (Some err))
        | None => copy_loop tempFile reads (totalWritten + Z.of_nat (String.length data))%Z
        end
  end.

(** After the copy: the size is checked, and the file moved to its place. *)
Definition complete (bfbTask : BFBTask) (tempFile : string) (expectedSize totalWritten : Z) : SM W (bool * option GoError) :=
  if (0 <? expectedSize)%Z && negb (totalWritten =? expectedSize)%Z
  then mret (false, Some (errorf ("downloaded file size mismatch: expected " +:+ pretty expectedSize +:+ " bytes, got "
                                  +:+ pretty totalWritten +:+ " bytes")))
  else
    err ← closeFile tempFile;
    match err with Some e => mret (false, Some e) | None =>
    err ← chmodFile tempFile 420;
    match err with Some e => mret (false, Some e) | None =>
    err ← renameFile tempFile (GenerateBFBFilePath (tk_FileName bfbTask));
    match err with Some e => mret (false, Some e) | None => mret (true, None) end end end.

(** After the temporary file was created: the result of the task and its error. *)
Definition fetch (bfbTask : BFBTask) (tempFile : string) : SM W (bool * option GoError) :=
  r ← DoRequestWithRetry "GET" (tk_URL bfbTask) 3 second [];
  match r with
  | Err err => mret (false, Some err)
  | Ok resp =>
      copied ← copy_loop tempFile (until_end (rs_Body resp)) 0;
      match copied with
      | CopyStopped err => mret (false, err)
      | CopyDone totalWritten => complete bfbTask tempFile (rs_ContentLength resp) totalWritten
      end
  end.

(** The function of the future; [os.Remove] is deferred. *)
Definition downloadBFB (bfbTask : BFBTask) : SM W (bool * option GoError) :=
  let tempFile := GenerateBFBTMPFilePath (tk_UID bfbTask) in
  err ← createFile tempFile;
  match err with
  | Some e => mret (false, Some e)
  | None =>
      r ← fetch bfbTask tempFile;
      _ ← unlinkFile tempFile;
      mret r
  end.
End Requests.

(** ** The file system *)

(** Files by path.  A call changes the files it is given, or none when it fails;
    a failed creation or write may leave anything in its own file. *)
Class FileSystem (W : Type) (C : BFBClient W) (T : Transfer W) := {
  files : W → gmap string string;
  create_files p w : match createFile p w with
    | (None, w') => files w' = <[p := ""]> (files w)
    | (Some _, w') => ∀ q, q ≠ p → files w' !! q = files w !! q end;
  append_files p data w : match appendFile p data w with
    | (None, w') => files w' = alter (λ s, s +:+ data) p (files w)
    | (Some _, w') => ∀ q, q ≠ p → files w' !! q = files w !! q end;
  rename_files p q w : match renameFile p q w with
    | (None, w') => ∃ data, files w !! p = Some data ∧ files w' = <[q := data]> (delete p (files w))
    | (Some _, w') => files w' = files w end;
  unlink_files p w : match unlinkFile p w with
    | (None, w') => files w' = delete p (files w)
    | (Some _, w') => files w' = files w end;
  stat_files p w : files (statFile p w).2 = files w ∧ match (statFile p w).1 with
    | None => is_Some (files w !! p)
    | Some e => err_kind e = KNotExist → files w !! p = None end;
  close_files p : keeps files (closeFile p);
  chmod_files p mode : keeps files (chmodFile p mode);
  do_files method url : keeps files (httpDo method url);
  ctx_files : keeps files ctxDone;
  wait_files d : keeps files (wait d) }.

#[export] Hint Resolve close_files chmod_files do_files ctx_files wait_files : handlers.

(** [data] is what comes before a read that gives no bytes, no error and no end.  A
    caller of [Read] is to take such a read for nothing; the loop takes it for the end. *)
Definition cut_at_empty_read (body : list Read) (data : string) : Prop :=
  ∃ before after, body = before ++ mkRead "" NoError :: after ∧ Forall (λ r, rd_Err r = NoError) before ∧ data = read_all before.
Definition copied (body : list Read) (data : string) : Prop := data = read_all body ∨ cut_at_empty_read body data.

Lemma copied_cons bytes body data : copied body data → copied (mkRead bytes NoError :: body) (bytes +:+ data).
Proof.
  intros [->|(before & after & -> & Hb & ->)]; [by left|right]. exists (mkRead bytes NoError :: before), after.
  split; [done|]. split; [by constructor|done].
Qed.

Lemma string_length_app (s t : string) : String.length (s +:+ t) = String.length s + String.length t.
Proof. induction s as [|c s IH]; [done|]. apply (f_equal S), IH. Qed.

Section Integrity.
Context {W : Type} {C : BFBClient W} {T : Transfer W} {FS : FileSystem W C T}.

Lemma request_files togo n method url st d e : keeps files (request_loop togo n method url st d e).
Proof.
  revert d e. induction togo as [|togo IH]; intros d e; cbn [request_loop]; [by keeps_step|].
  unfold DoRequest. repeat (keeps_step || apply IH).
Qed.

Lemma request_result togo n method url d e w resp :
  (request_loop togo n method url [] d e w).1 = Ok resp →
  rs_StatusCode resp = StatusOK ∧ ∃ w0, (httpDo method url w0).1 = Ok resp.
Proof.
  revert d e w. induction togo as [|togo IH]; intros d e w; [done|]. cbn [request_loop]. unfold mbind, SM_bind.
  destruct (ctxDone w) as [[] w1]; [done|]. destruct (DoRequest method url [] w1) as [[r|e1] w2] eqn:E.
  - intros [= ->]. unfold DoRequest in E. destruct (newRequest method url); [done|]. unfold mbind, SM_bind in E.
    destruct (httpDo method url w1) as [[r|]  w3] eqn:Eh; [|done]. unfold CheckHTTPResponse in E. case_bool_decide as Hs; [|done].
    apply list_elem_of_singleton in Hs. injection E as -> ->. split; [done|]. exists w1. by rewrite Eh.
  - destruct (ctxDone w2) as [[] w3]; [done|]. case_bool_decide; [apply IH|]. destruct (wait d w3) as [[] w4]; [done|]. apply IH.
Qed.

(** The loop writes the temporary file and no other. *)
Lemma copy_loop_spec tempFile reads n w data :
  files w !! tempFile = Some data →
  let r := copy_loop tempFile (until_end reads) n w in
  (∀ q, q ≠ tempFile → files r.2 !! q = files w !! q) ∧
  (∀ n', r.1 = CopyDone n' → ∃ new, copied reads new ∧ files r.2 !! tempFile = Some (data +:+ new) ∧
    n' = (n + Z.of_nat (String.length new))%Z).
Proof.
  revert n w data. induction reads as [|[bytes err] reads IH]; intros n w data Hd; cbn [until_end copy_loop rd_Err];
    unfold mbind, SM_bind; pose proof (ctx_files w) as Hc; destruct (ctxDone w) as [[] w1]; simpl in Hc; rewrite <- Hc in Hd |- *; clear Hc;
    try (split; [done|]; intros n' [=]).
  - subst. exists "". split; [by left|]. rewrite string_app_empty_r, Z.add_0_r. done.
  - destruct err as [| |e].
    3:{ case_bool_decide; [|split; [done|]; by intros n' [=]]. pose proof (ctx_files w1) as Hc'.
        destruct (ctxDone w1) as [stopped w2]. simpl in Hc'. rewrite <- Hc'. split; [done|]. by intros n' [=]. }
    all: case_bool_decide as Hb.
    + split; [done|]. intros n' [= <-]. exists "". rewrite string_app_empty_r, Z.add_0_r. split; [|done]. right. subst bytes.
      by exists [], reads.
    + pose proof (append_files tempFile bytes w1) as Ha; destruct (appendFile tempFile bytes w1) as [[e|] w2]; simpl in Ha.
      { split; [intros q Hq; by rewrite Ha|]; by intros n' [=]. }
      destruct (IH (n + Z.of_nat (String.length bytes))%Z w2 (data +:+ bytes)) as [H1 H2]; [by rewrite Ha, lookup_alter_eq, Hd|].
      split; [intros q Hq; by rewrite H1, Ha, lookup_alter_ne by done|]. intros n' Hn'. destruct (H2 n' Hn') as (new & H3 & H4 & H5).
      exists (bytes +:+ new). split; [by apply copied_cons|]. rewrite string_app_assoc, H4. split; [done|].
      rewrite H5, string_length_app; lia.
    + split; [done|]. intros n' [= <-]. exists "". rewrite string_app_empty_r, Z.add_0_r. split; [|done]. left. by subst bytes.
    + pose proof (append_files tempFile bytes w1) as Ha; destruct (appendFile tempFile bytes w1) as [[e|] w2]; simpl in Ha.
      { split; [intros q Hq; by rewrite Ha|]; by intros n' [=]. }
      cbn [copy_loop]. unfold mbind, SM_bind. pose proof (ctx_files w2) as Hc'. destruct (ctxDone w2) as [[] w3]; simpl in Hc';
        unfold mret, SM_ret; cbn [fst snd]; rewrite Hc', Ha; (split; [intros q Hq; by rewrite lookup_alter_ne by done|]); [by intros n' [=]|].
      intros n' [= <-]. exists bytes. split; [left; symmetry; apply string_app_empty_r|]. by rewrite lookup_alter_eq, Hd.
Qed.

Lemma complete_spec bfbTask tempFile size n w data :
  let dest := GenerateBFBFilePath (tk_FileName bfbTask) in
  files w !! tempFile = Some data → tempFile ≠ dest →
  let r := complete bfbTask tempFile size n w in
  (∀ q, q ≠ tempFile → q ≠ dest → files r.2 !! q = files w !! q) ∧
  (r.1 ≠ (true, None) → files r.2 !! dest = files w !! dest) ∧
  (r.1 = (true, None) → files r.2 !! dest = Some data ∧ ((0 < size)%Z → n = size)).
Proof.
  cbn zeta. intros Ht Hne. unfold complete. destruct ((0 <? size)%Z && negb (n =? size)%Z) eqn:Es; [by split_and!|].
  unfold mbind, SM_bind. pose proof (close_files tempFile w) as Hc. destruct (closeFile tempFile w) as [[e|] w1]; simpl in *.
  { rewrite Hc. by split_and!. }
  pose proof (chmod_files tempFile 420 w1) as Hm. destruct (chmodFile tempFile 420 w1) as [[e|] w2]; simpl in *.
  { rewrite Hm, Hc. by split_and!. }
  pose proof (rename_files tempFile (GenerateBFBFilePath (tk_FileName bfbTask)) w2) as Hr.
  destruct (renameFile _ _ w2) as [[e|] w3]; simpl in *.
  { rewrite Hr, Hm, Hc. by split_and!. }
  rewrite Hm, Hc, Ht in Hr. destruct Hr as (d & [= <-] & ->). split; [|split; [done|]].
  - intros q H1 H2. by rewrite lookup_insert_ne, lookup_delete_ne by congruence.
  - intros _. rewrite lookup_insert_eq. split; [done|]. intros Hs. apply andb_false_iff in Es as [Es|Es].
    + apply Z.ltb_ge in Es. lia.
    + apply negb_false_iff, Z.eqb_eq in Es. done.
Qed.

(** What of a body may be put in place: all of it, or, when the response announced no
    size or another than that of its body, the part before an empty read. *)
Definition placed (resp : Response) (data : string) : Prop :=
  data = read_all (rs_Body resp) ∨
  cut_at_empty_read (rs_Body resp) data ∧
    ((rs_ContentLength resp <= 0)%Z ∨ Z.of_nat (String.length (read_all (rs_Body resp))) ≠ rs_ContentLength resp).

Lemma read_all_app before body : Forall (λ r, rd_Err r = NoError) before → read_all (before ++ body) = read_all before +:+ read_all body.
Proof. induction 1 as [|[d e] before He _ IH]; [done|]. simpl in *. by rewrite He, IH, string_app_assoc. Qed.

Lemma app_length_same (s t : string) : String.length (s +:+ t) = String.length s → t = "".
Proof. rewrite string_length_app. intros. destruct t; [done|]. simpl in *. lia. Qed.

(** A body of the announced size is put in place whole. *)
Lemma copied_placed resp data : copied (rs_Body resp) data →
  ((0 < rs_ContentLength resp)%Z → Z.of_nat (String.length data) = rs_ContentLength resp) → placed resp data.
Proof.
  intros [?|Hc] Hl; [by left|]. destruct (decide (rs_ContentLength resp <= 0)%Z) as [?|Hp]; [right; by split; [|left]|].
  destruct (decide (Z.of_nat (String.length (read_all (rs_Body resp))) = rs_ContentLength resp)) as [He|?]; [|right; by split; [|right]].
  left. rewrite <- Hl in He by lia. destruct Hc as (before & after & Hb & Hf & ->). rewrite Hb, read_all_app in He |- * by done.
  apply Nat2Z.inj in He. by rewrite (app_length_same _ _ He), string_app_empty_r.
Qed.

Lemma fetch_spec bfbTask tempFile w :
  let dest := GenerateBFBFilePath (tk_FileName bfbTask) in
  files w !! tempFile = Some "" → tempFile ≠ dest →
  let r := fetch bfbTask tempFile w in
  (∀ q, q ≠ tempFile → q ≠ dest → files r.2 !! q = files w !! q) ∧
  (r.1 ≠ (true, None) → files r.2 !! dest = files w !! dest) ∧
  (r.1 = (true, None) → ∃ resp w0 data, (httpDo "GET" (tk_URL bfbTask) w0).1 = Ok resp ∧ rs_StatusCode resp = StatusOK ∧
    files r.2 !! dest = Some data ∧ ((0 < rs_ContentLength resp)%Z → Z.of_nat (String.length data) = rs_ContentLength resp) ∧
    placed resp data).
Proof.
  cbn zeta. intros Ht Hne. unfold fetch, mbind, SM_bind, DoRequestWithRetry.
  pose proof (request_files 4 3 "GET" (tk_URL bfbTask) [] second (errorf "%!w(<nil>)") w) as Hf.
  pose proof (request_result 4 3 "GET" (tk_URL bfbTask) second (errorf "%!w(<nil>)") w) as Hr.
  destruct (request_loop _ _ _ _ _ _ _ w) as [[resp|e] w1]; simpl in Hf; [|by rewrite <- Hf].
  destruct (Hr resp eq_refl) as (Hs & w0 & Hdo). clear Hr. rewrite <- Hf in Ht |- *. clear Hf.
  destruct (copy_loop_spec tempFile (rs_Body resp) 0 w1 "" Ht) as [Ho Hc].
  destruct (copy_loop tempFile (until_end (rs_Body resp)) 0 w1) as [[e|n] w2]; simpl in Ho, Hc.
  { simpl. split; [auto|]. split; [auto|]. intros [=]. }
  destruct (Hc n eq_refl) as (data & Hcopied & Hd & Hn).
  destruct (complete_spec bfbTask tempFile (rs_ContentLength resp) n w2 _ Hd Hne) as (H1 & H2 & H3). split; [|split].
  - intros q Hq Hq'. by rewrite H1, Ho.
  - intros Hr. by rewrite H2, Ho.
  - intros Hr. destruct (H3 Hr) as [H4 H5].
    assert ((0 < rs_ContentLength resp)%Z → Z.of_nat (String.length data) = rs_ContentLength resp) as Hl by (intros Hl; rewrite <- (H5 Hl), Hn; lia).
    exists resp, w0, data. split_and!; try done. by apply copied_placed.
Qed.

End Integrity.
