(* ===== verification/ExampleBFB.v ===== *)
(** An instance of the services of the BFB controller: the objects of one
    namespace, a volume of files and a server that always answers the same.  The
    witnesses evaluate on it; no theorem depends on it. *)

From S2P Require Import Prelude.
From S2P Require Import Meta.
From S2P Require Import DPUTypes.
From S2P Require Import DPUSetTypes.
From S2P Require Import DownloadTasks.
From S2P Require Import BFBTypes.
From S2P Require Import BFBVersion.
From S2P Require Import BFBDownload.

Record BWorld := mkBWorld {
  bw_bfb : option BFB;
  bw_sets : list DPUSet;
  bw_dpus : list DPU;
  bw_files : gmap string string;
  bw_response : Res Response }.

Definition with_bw_files (f : gmap string string → gmap string string) (w : BWorld) : BWorld :=
  mkBWorld (bw_bfb w) (bw_sets w) (bw_dpus w) (f (bw_files w)) (bw_response w).
Definition no_such_file : GoError := mkGoError KNotExist "no such file or directory".

Definition fake_bfb_client : BFBClient BWorld := {|
  fetchBFB _ w := (match bw_bfb w with Some b => Ok b | None => Err (mkGoError KNotFound "not found") end, w);
  patchBFB _ b w := (None, mkBWorld (Some b) (bw_sets w) (bw_dpus w) (bw_files w) (bw_response w));
  dpuSetsIn _ w := (Ok (bw_sets w), w);
  dpusIn _ w := (Ok (bw_dpus w), w);
  statFile p w := (if bool_decide (is_Some (bw_files w !! p)) then None else Some no_such_file, w);
  unlinkFile p w := if bool_decide (is_Some (bw_files w !! p)) then (None, with_bw_files (delete p) w) else (Some no_such_file, w);
  openFile p w := (match bw_files w !! p with Some bytes => Ok (bytes, None) | None => Err no_such_file end, w) |}.

Definition fake_transfer : Transfer BWorld := {|
  newRequest _ _ := None;
  httpDo _ _ w := (bw_response w, w);
  StatusText _ := "";
  ctxDone w := (false, w);
  wait _ w := (false, w);
  createFile p w := (None, with_bw_files <[p := ""]> w);
  appendFile p data w := (None, with_bw_files (alter (λ s, s +:+ data) p) w);
  closeFile _ w := (None, w);
  chmodFile _ _ w := (None, w);
  renameFile p q w :=
    match bw_files w !! p with
    | Some data => (None, with_bw_files (λ fs, <[q := data]> (delete p fs)) w)
    | None => (Some no_such_file, w)
    end |}.

#[export] Instance fake_files : FileSystem BWorld fake_bfb_client fake_transfer.
Proof.
  refine {| files := bw_files |}; try done.
  - intros p q w. simpl. destruct (bw_files w !! p) as [data|] eqn:E; [|done]. by exists data.
  - intros p w. simpl. by case_bool_decide.
  - intros p w. simpl. split; [done|]. case_bool_decide as H; [done|]. intros _. by apply eq_None_not_Some.
Defined.

(** An inventory that names no version. *)
Definition fake_inventory : InventoryJSON := λ _, Ok (mkInventory "" "" []).

Definition example_spec : BFBSpec := mkBFBSpec None "http://images/a" (Some (mkBFBVersions "4.11" "3.0.0" "4.11" "4.11")).
Definition example_bfb_in (phase : string) (deleted : option Time) (conditions : list Condition) : BFB :=
  mkBFB "image" "ns" "uid-0" 1 [BFBFinalizer] deleted example_spec "ns-image.bfb" phase (mkBFBVersions "" "" "" "") 1 conditions.
Definition example_bworld (fs : gmap string string) (r : Res Response) : BWorld := mkBWorld None [] [] fs r.
Definition fresh_memory : Memory := mkMemory ∅ ∅ [].

(** A body in two parts, of the announced size. *)
Definition example_response : Response := mkResponse StatusOK 6 [mkRead "abcd" NoError; mkRead "ef" EOF].
Definition example_task : BFBTask := mkBFBTask "ns-image-uid-0" "http://images/a" "ns-image.bfb" "uid-0".

(** A body of unknown length with a read of no bytes in it. *)
Definition stalling_response : Response := mkResponse StatusOK (-1) [mkRead "ab" NoError; mkRead "" NoError; mkRead "cd" EOF].

