(* ===== verification/BFBStates.v ===== *)
(** The states of a BFB (bfb/state) and the reconcile of its controller
    (bfb/bfb_controller.go): one definition per handler.

    A handler changes the BFB in place: it gives back the BFB as it left it and its
    error, and runs on the memory of the process and the world outside.  A
    panic leaves the BFB as it was at that point, which the deferred patch writes. *)

From S2P Require Import Prelude.
From S2P Require Import Meta.
From S2P Require Import Conditions.
From S2P Require Import DPUTypes.
From S2P Require Import DPUSetTypes.
From S2P Require Import DownloadTasks.
From S2P Require Import BFBTypes.
From S2P Require Import BFBVersion.
From S2P Require Import WriteLog.
From S2P Require Import BFBDownload.
From S2P Require Import ExampleBFB.

Definition maxDownloadRetries : Z := 3.
Definition RetryWindow : Z := (6 * 3600 * second)%Z.
Definition RetryInterval : Z := (10 * 60 * second)%Z.
(** [cutil.RequeueInterval] *)
Definition BFBRequeueInterval : Z := (5 * second)%Z.

Definition Handled : Type := BFB * option GoError.

Section States.
Context {API : MetaAPI} {W : Type} {C : BFBClient W} {J : InventoryJSON}.
Context (now : Time).
Local Abbreviation M := (SM (Memory * W)).

Definition bfb_name (bfb : BFB) : string := "(" +:+ bfb_Namespace bfb +:+ "/" +:+ bfb_Name bfb +:+ ")".

(** initializing.go *)
Definition Initializing (bfb : BFB) : Handled :=
  if isDeleting bfb then
    (AddFalse now (with_bfb_Phase BFBDeleting bfb) BFBCondInitialized ReasonAwaitingDeletion "BFB is being deleted", None)
  else
    let bfb := with_bfb_FileName (match bs_FileName (bfb_Spec bfb) with Some f => f | None => DefaultBFBFilename bfb end) bfb in
    (with_bfb_Phase BFBDownloading (AddTrue now bfb BFBCondInitialized), None).

(** error.go *)
Definition shouldRetry (bfb : BFB) : bool :=
  match Get bfb BFBCondDownloaded with
  | None => false
  | Some downloadCond =>
      if negb (bool_decide (c_Reason downloadCond = ReasonError)) then false
      else
        let timeSinceError := (now - c_LastTransitionTime downloadCond)%Z in
        (RetryInterval <=? timeSinceError)%Z && (timeSinceError <? RetryWindow)%Z
  end.

Definition Error (bfb : BFB) : Handled :=
  if isDeleting bfb then
    (AddFalse now (with_bfb_Phase BFBDeleting bfb) BFBCondError ReasonAwaitingDeletion "BFB is being deleted", None)
  else if shouldRetry bfb then
    let bfb := AddFalse now (with_bfb_Phase BFBDownloading bfb) BFBCondDownloaded ReasonPending
                 "Retrying download after transient error" in
    (AddFalse now bfb BFBCondError ReasonPending "Retry initiated", None)
  else (AddTrue now bfb BFBCondError, None).

(** ready.go *)
Definition checkingBFBFile (bfb : BFB) : M (bool * option GoError) :=
  err ← ext (statFile (GenerateBFBFilePath (bfb_FileName bfb)));
  mret (match err with Some err => (false, Some err) | None => (true, None) end).

Definition Ready (bfb : BFB) : M Handled :=
  if isDeleting bfb then
    mret (AddFalse now (with_bfb_Phase BFBDeleting bfb) BFBCondReady ReasonAwaitingDeletion "BFB is being deleted", None)
  else
    r ← checkingBFBFile bfb;
    mret (if negb r.1
          then (AddFalse now (with_bfb_Phase BFBDownloading bfb) BFBCondReady ReasonError
                  ("BFB file " +:+ bfb_FileName bfb +:+ " not found"), r.2)
          else (AddTrue now bfb BFBCondReady, None)).

(** downloading.go *)
Definition checkBFB (fileName : string) : M (Res bool) :=
  err ← ext (statFile (GenerateBFBFilePath fileName));
  mret (match err with
        | None => Ok true
        | Some err => if bool_decide (err_kind err = KNotExist) then Ok false else Err err
        end).

Definition handleDownloadError (err : GoError) (bfb : BFB) (taskName : string) : M Handled :=
  if bool_decide (err_kind err = KCanceled) then
    _ ← clearRetryCounter taskName;
    mret (AddFalse now (with_bfb_Phase BFBDeleting bfb) BFBCondDownloaded ReasonAwaitingDeletion
            "BFB download canceled, deletion in progress", None)
  else
    currentRetries ← getRetryCount taskName;
    if (currentRetries <? maxDownloadRetries)%Z then
      _ ← incrementRetryCounter taskName;
      mret (AddFalse now (with_bfb_Phase BFBDownloading bfb) BFBCondDownloaded ReasonRetrying
              ("Download BFB: " +:+ bfb_name bfb +:+ " failed with error: " +:+ err_msg err +:+ ". Retry attempt "
               +:+ pretty (currentRetries + 1)%Z +:+ "/" +:+ pretty maxDownloadRetries), None)
    else
      _ ← clearRetryCounter taskName;
      let reason := if IsRecoverableDownloadError (Some err) then ReasonError else ReasonFailure in
      mret (AddFalse now (with_bfb_Phase BFBError bfb) BFBCondDownloaded reason
              ("Download BFB: " +:+ bfb_name bfb +:+ " failed after " +:+ pretty maxDownloadRetries +:+ " retries with error: "
               +:+ err_msg err), Some err).

(** The file is there: its versions, and Ready. *)
Definition downloaded (bfb : BFB) (taskName : string) : M Handled :=
  let ready bfb := _ ← clearRetryCounter taskName; mret (AddTrue now (with_bfb_Phase BFBReady bfb) BFBCondDownloaded, None) in
  match bs_Versions (bfb_Spec bfb) with
  | Some versions => ready (with_bfb_Versions versions bfb)
  | None =>
      r ← ext (VersionFromBFBFile (GenerateBFBFilePath (bfb_FileName bfb)));
      match r with
      | (_, Some err) =>
          mret (AddFalse now (with_bfb_Phase BFBError bfb) BFBCondDownloaded ReasonFailure (err_msg err), Some err)
      | (Some versions, None) => ready (with_bfb_Versions versions bfb)
      | (None, None) => mret (bfb, Some nil_dereference)
      end
  end.

Definition new_task (bfb : BFB) : BFBTask :=
  mkBFBTask (GenerateBFBTaskName bfb) (bs_URL (bfb_Spec bfb)) (bfb_FileName bfb) (bfb_UID bfb).

Definition Downloading (bfb : BFB) : M Handled :=
  let bfbTaskName := GenerateBFBTaskName bfb in
  if isDeleting bfb then
    cancelFunc ← TaskMap_Load (cancel_key bfbTaskName);
    let deleting := _ ← clearRetryCounter bfbTaskName;
      mret (AddFalse now (with_bfb_Phase BFBDeleting bfb) BFBCondDownloaded ReasonAwaitingDeletion "BFB is being deleted", None) in
    match cancelFunc with
    | None => deleting
    | Some (TFuture _) => mret (bfb, Some interface_conversion)
    | Some (TCancel f) =>
        _ ← cancel f; _ ← TaskMap_Delete bfbTaskName; _ ← TaskMap_Delete (cancel_key bfbTaskName); deleting
    end
  else
    there ← checkBFB (bfb_FileName bfb);
    match there with
    | Err err =>
        mret (AddFalse now (with_bfb_Phase BFBError bfb) BFBCondDownloaded ReasonFailure (err_msg err), Some err)
    | Ok there =>
        bfbDownloader ← TaskMap_Load bfbTaskName;
        match bfbDownloader with
        | Some (TCancel _) => mret (bfb, Some interface_conversion)
        | Some (TFuture f) =>
            state ← GetState f;
            match state with
            | None => mret (bfb, None)
            | Some result =>
                _ ← TaskMap_Delete bfbTaskName; _ ← TaskMap_Delete (cancel_key bfbTaskName);
                match result with
                | Some err => handleDownloadError err bfb bfbTaskName
                | None => _ ← clearRetryCounter bfbTaskName; downloaded bfb bfbTaskName
                end
            end
        | None =>
            if there : bool then downloaded bfb bfbTaskName
            else _ ← startDownload (new_task bfb); mret (bfb, None)
        end
    end.

(** deleting.go *)
Definition dpuSet_uses (bfb : BFB) (ds : DPUSet) : bool :=
  bool_decide (t_BFB (ds_Template ds) = Some (bfb_Name bfb)).
Definition dpu_uses (bfb : BFB) (dpu : DPU) : bool := bool_decide (deref (sp_BFB (dpu_Spec dpu)) "" = bfb_Name bfb).

Definition deleting_error (bfb : BFB) (reason : string) (err : GoError) : Handled :=
  (AddFalse now bfb BFBCondDeleted reason (err_msg err), Some err).
Definition still_referenced (bfb : BFB) (by_what : string) : GoError :=
  errorf ("BFB " +:+ bfb_Namespace bfb +:+ "/" +:+ bfb_Name bfb +:+ " cannot be deleted, still referenced by " +:+ by_what).

Definition cancel_download (taskName : string) : M (option GoError) :=
  cancelFunc ← TaskMap_Load (cancel_key taskName);
  match cancelFunc with
  | None => mret None
  | Some (TFuture _) => mret (Some interface_conversion)
  | Some (TCancel f) => _ ← cancel f; mret None
  end.

(** From the check of the references on. *)
Definition delete_unused {FA : FinalizerAPI} (bfb : BFB) : Fn (Memory * W) Handled Handled :=
  dpusetList ← or_return (ext (dpuSetsIn (bfb_Namespace bfb)))
    (λ err, deleting_error bfb ReasonError (wrapf "failed to list DPUSets for reference checking: " err));
  _ ← match snd <$> find_idx (dpuSet_uses bfb) dpusetList with
      | Some ds => return_early (deleting_error bfb ReasonPending (still_referenced bfb ("DPUSet: " +:+ ds_Name ds)))
      | None => mret tt
      end;
  dpuList ← or_return (ext (dpusIn (bfb_Namespace bfb)))
    (λ err, deleting_error bfb ReasonError (wrapf "failed to list DPUs for reference checking: " err));
  _ ← match snd <$> find_idx (dpu_uses bfb) dpuList with
      | Some dpu => return_early (deleting_error bfb ReasonPending (still_referenced bfb ("DPU: " +:+ dpu_Name dpu)))
      | None => mret tt
      end;
  _ ← check (if bool_decide (bfb_FileName bfb = "") then mret None
             else ext (RemoveFileEx (GenerateBFBFilePath (bfb_FileName bfb)))) (deleting_error bfb ReasonError);
  _ ← check (ext (RemoveFileEx (GenerateBFBTMPFilePath (bfb_UID bfb)))) (deleting_error bfb ReasonError);
  let bfb := AddTrue now bfb BFBCondDeleted in
  mret (with_bfb_Finalizers (RemoveFinalizer (bfb_Finalizers bfb) BFBFinalizer) bfb, None).

Definition Deleting {FA : FinalizerAPI} (bfb : BFB) : M Handled := run (
  let taskName := GenerateBFBTaskName bfb in
  _ ← check (cancel_download taskName) (λ err, (bfb, Some err));
  _ ← lift (TaskMap_Delete taskName);
  _ ← lift (TaskMap_Delete (cancel_key taskName));
  delete_unused bfb).

(** [GetBFBState(bfb, recorder).Handle(ctx, client)] *)
Definition Handle {FA : FinalizerAPI} (bfb : BFB) : M Handled :=
  let phase := bfb_Phase bfb in
  if bool_decide (phase = BFBDownloading) then Downloading bfb
  else if bool_decide (phase = BFBReady) then Ready bfb
  else if bool_decide (phase = BFBDeleting) then Deleting bfb
  else if bool_decide (phase = BFBError) then mret (Error bfb)
  else mret (Initializing bfb).

(** Between the read and the deferred patch: the BFB, when to come back, the error. *)
Definition reconcile_bfb {FA : FinalizerAPI} (bfb : BFB) : M (BFB * Z * option GoError) :=
  if negb (ContainsFinalizer (bfb_Finalizers bfb) BFBFinalizer) && timep_is_zero (bfb_DeletionTimestamp bfb)
  then mret (with_bfb_Finalizers (AddFinalizer (bfb_Finalizers bfb) BFBFinalizer) bfb, 0%Z, None)
  else
    r ← Handle bfb;
    mret (match r with
          | (bfb, Some err) => (bfb, 0%Z, Some err)
          | (bfb, None) => (bfb, BFBRequeueInterval, None)
          end).

Definition Reconcile {FA : FinalizerAPI} (key : NamespacedName) : M (Z * list GoError) :=
  r ← ext (fetchBFB key);
  match r with
  | Err err => mret (0%Z, if IsNotFound err then [] else [wrapf "failed to get BFB " err])
  | Ok bfb =>
      r ← reconcile_bfb bfb;
      e ← ext (patchBFB bfb r.1.1);
      mret (r.1.2, option_list r.2 ++ option_list e)
  end.
End States.

(** ** A pass in phase Downloading, in one step *)

(** The entries of a download taken out of the map. *)
Definition forget_download (taskName : string) (m : Memory) : Memory :=
  with_tasks (λ tasks, delete (cancel_key taskName) (delete taskName tasks)) m.
(** A download started. *)
Definition start_download (task : BFBTask) (m : Memory) : Memory :=
  mkMemory (<[tk_TaskName task := TFuture (length (futures m))]>
             (<[cancel_key (tk_TaskName task) := TCancel (length (futures m))]> (DownloadingTaskMap m)))
    (downloadRetryCounter m) (futures m ++ [mkFuture task false None]).
Definition file_there (err : option GoError) : Res bool :=
  match err with
  | None => Ok true
  | Some err => if bool_decide (err_kind err = KNotExist) then Ok false else Err err
  end.

Section Runs.
Context {API : MetaAPI} {W : Type} {C : BFBClient W} {J : InventoryJSON}.
Context (now : Time) (b : BFB) (s : Memory * W).

Lemma Downloading_run :
  isDeleting b = false →
  Downloading now b s =
    let n := GenerateBFBTaskName b in
    match statFile (GenerateBFBFilePath (bfb_FileName b)) s.2 with
    | (e, w) =>
        match file_there e with
        | Err err => ((AddFalse now (with_bfb_Phase BFBError b) BFBCondDownloaded ReasonFailure (err_msg err), Some err), (s.1, w))
        | Ok there =>
            match DownloadingTaskMap s.1 !! n with
            | Some (TCancel _) => ((b, Some interface_conversion), (s.1, w))
            | Some (TFuture f) =>
                match futures s.1 !! f ≫= fu_Result with
                | None => ((b, None), (s.1, w))
                | Some (Some err) => handleDownloadError now err b n (forget_download n s.1, w)
                | Some None => downloaded now b n (with_retries (delete n) (forget_download n s.1), w)
                end
            | None =>
                if there then downloaded now b n (s.1, w)
                else ((b, None), (start_download (new_task b) s.1, w))
            end
        end
    end.
Proof.
  intros Hd. unfold Downloading. rewrite Hd. unfold checkBFB, ext, TaskMap_Load, GetState, TaskMap_Delete, clearRetryCounter, mem, mbind, SM_bind.
  destruct (statFile _ s.2) as [e w]. unfold file_there. simpl. destruct e as [e|].
  1: case_bool_decide; [|done].
  all: simpl; destruct (DownloadingTaskMap s.1 !! _) as [[f|f]|]; try done.
  all: simpl; unfold mbind; destruct (option_bind _ _ _ _) as [[err|]|]; done.
Qed.

Lemma Downloading_deleting :
  isDeleting b = true →
  Downloading now b s =
    let n := GenerateBFBTaskName b in
    let b' := AddFalse now (with_bfb_Phase BFBDeleting b) BFBCondDownloaded ReasonAwaitingDeletion "BFB is being deleted" in
    match DownloadingTaskMap s.1 !! cancel_key n with
    | None => ((b', None), (with_retries (delete n) s.1, s.2))
    | Some (TFuture _) => ((b, Some interface_conversion), s)
    | Some (TCancel f) =>
        ((b', None), (with_retries (delete n) (forget_download n (with_futures (alter cancel_future f) s.1)), s.2))
    end.
Proof.
  intros Hd. unfold Downloading. rewrite Hd. unfold TaskMap_Load, TaskMap_Delete, clearRetryCounter, cancel, mem, mbind, SM_bind.
  destruct s as [m w]. simpl. by destruct (DownloadingTaskMap m !! _) as [[f|f]|].
Qed.
End Runs.

(** What the handlers leave in memory. *)
Section Memories.
Context {API : MetaAPI} {FA : FinalizerAPI} {W : Type} {C : BFBClient W} {J : InventoryJSON}.
Context (now : Time).

Lemma keeps_ext {A} (m : SM W A) : keeps (@fst Memory W) (ext m).
Proof. intros s. unfold ext. by destruct (m s.2). Qed.
#[local] Hint Resolve keeps_ext : handlers.

Lemma delete_unused_memory bfb : keeps (@fst Memory W) (delete_unused (W:=W) now bfb : SM (Memory * W) (Handled + Handled)).
Proof. unfold delete_unused. repeat keeps_step. Qed.

Lemma Deleting_memory bfb (s : Memory * W) :
  let n := GenerateBFBTaskName bfb in
  (Deleting now bfb s).2.1 =
    match DownloadingTaskMap s.1 !! cancel_key n with
    | Some (TFuture _) => s.1
    | Some (TCancel f) => forget_download n (with_futures (alter cancel_future f) s.1)
    | None => forget_download n s.1
    end.
Proof.
  cbn zeta. unfold Deleting. unfold run, check, lift, cancel_download, cancel, TaskMap_Load, TaskMap_Delete, mem, mbind, Fn_bind, SM_bind.
  simpl. pose proof (delete_unused_memory bfb) as Hk. unfold keeps in Hk.
  destruct (DownloadingTaskMap s.1 !! _) as [[f|f]|]; [done| |]; simpl;
    match goal with |- context [delete_unused now bfb ?s'] => specialize (Hk s'); destruct (delete_unused now bfb s') as [[r|r] [m w]] end;
    exact Hk.
Qed.

Lemma Ready_memory bfb : keeps (@fst Memory W) (Ready (W:=W) now bfb).
Proof. unfold Ready, checkingBFBFile. repeat keeps_step. Qed.

Lemma downloaded_memory bfb n (s : Memory * W) :
  (downloaded now bfb n s).2.1 = s.1 ∨ (downloaded now bfb n s).2.1 = with_retries (delete n) s.1.
Proof.
  unfold downloaded, clearRetryCounter, mem, mbind, SM_bind. destruct (bs_Versions _); [by right|].
  pose proof (keeps_ext (VersionFromBFBFile (GenerateBFBFilePath (bfb_FileName bfb))) s) as Hk.
  destruct (ext _ s) as [[[v|] [e|]] s1]; simpl in *; subst; rewrite ?Hk; auto.
Qed.

Lemma download_error_memory err bfb n (s : Memory * W) :
  (handleDownloadError now err bfb n s).2.1 = with_retries (delete n) s.1 ∨
  let c := default 0%Z (downloadRetryCounter s.1 !! n) in
  (c < maxDownloadRetries)%Z ∧ (handleDownloadError now err bfb n s).2.1 = with_retries <[n := (c + 1)%Z]> s.1.
Proof.
  unfold handleDownloadError, incrementRetryCounter, getRetryCount, clearRetryCounter, mem, mbind, SM_bind. simpl.
  case_bool_decide; [by left|]. destruct (_ <? _)%Z eqn:E; [right|by left]. by apply Z.ltb_lt in E.
Qed.
End Memories.

(** ** What a pass does to a BFB *)

(** The edges of the state machine; a pass may also leave the phase. *)
Definition bfb_edges : list (string * string) :=
  [(BFBDownloading, BFBReady); (BFBDownloading, BFBError); (BFBDownloading, BFBDeleting); (BFBReady, BFBDownloading);
   (BFBReady, BFBDeleting); (BFBError, BFBDownloading); (BFBError, BFBDeleting)].
Definition known_phases : list string := [BFBDownloading; BFBReady; BFBDeleting; BFBError].
Definition bfb_goes (p q : string) : Prop :=
  p = q ∨ (p, q) ∈ bfb_edges ∨ ((p ∉ known_phases) ∧ q ∈ [BFBDownloading; BFBDeleting]).

(** What no handler changes. *)
Definition same_bfb (b b' : BFB) : Prop :=
  bfb_key b' = bfb_key b ∧ bfb_UID b' = bfb_UID b ∧ bfb_Spec b' = bfb_Spec b ∧ bfb_Generation b' = bfb_Generation b ∧
  bfb_DeletionTimestamp b' = bfb_DeletionTimestamp b.

Section Passes.
Context {API : MetaAPI} {FA : FinalizerAPI} {W : Type} {C : BFBClient W} {J : InventoryJSON}.
Context (now : Time).
Implicit Types (b : BFB) (s : Memory * W).

(** The file of [b] was there when the pass looked, or its download is over without an error. *)
Definition file_evidence b s : Prop :=
  (statFile (GenerateBFBFilePath (bfb_FileName b)) s.2).1 = None ∨
  ∃ f fu, DownloadingTaskMap s.1 !! GenerateBFBTaskName b = Some (TFuture f) ∧ futures s.1 !! f = Some fu ∧ fu_Result fu = Some None.

(** The conditions of [b'] are those of [b] with conditions of [BFBConditions] set. *)
Definition added b b' : Prop :=
  ∀ P : list Condition → Prop, (∀ cs c, c_Type c ∈ BFBConditions → P cs → P (SetStatusCondition now cs c)) →
    P (bfb_Conditions b) → P (bfb_Conditions b').

(** What a handler that keeps the finalizers does. *)
Definition handled_ok b s (r : Handled) : Prop :=
  same_bfb b r.1 ∧ added b r.1 ∧ bfb_Finalizers r.1 = bfb_Finalizers b ∧ bfb_goes (bfb_Phase b) (bfb_Phase r.1) ∧
  (bfb_Phase r.1 = BFBReady → bfb_Phase b ≠ BFBReady → bfb_FileName r.1 = bfb_FileName b ∧ file_evidence b s).

(** Conditions set one after the other. *)
Ltac added := intros P Hadd Hcs; simpl; repeat (apply Hadd; [set_solver|]); exact Hcs.
(** The outcomes of a handler in a known phase. *)
Ltac handled :=
  unfold handled_ok, same_bfb, bfb_goes, bfb_edges; simpl; split_and!; try solve [added]; try done; try (intros; congruence);
  try match goal with H : bfb_Phase _ = _ |- _ => rewrite H end; try set_solver.

Lemma Initializing_ok b s : bfb_Phase b ∉ known_phases → handled_ok b s (Initializing now b).
Proof. intros Hp. unfold Initializing. destruct (isDeleting b), (bs_FileName (bfb_Spec b)); handled; right; right; (split; [done|set_solver]). Qed.

Lemma Error_ok b s : bfb_Phase b = BFBError → handled_ok b s (Error now b).
Proof. intros Hp. unfold Error. destruct (isDeleting b); [|destruct (shouldRetry now b)]; handled. Qed.

Lemma Ready_ok b s : bfb_Phase b = BFBReady → handled_ok b s (Ready now b s).1.
Proof.
  intros Hp. unfold Ready, checkingBFBFile, mbind, SM_bind, ext. destruct (isDeleting b); [by handled|].
  destruct (statFile _ s.2) as [[e|] w]; handled.
Qed.

Lemma downloaded_ok b s t s' :
  bfb_Phase b = BFBDownloading → file_evidence b s → handled_ok b s (downloaded now b t s').1.
Proof.
  intros Hp He. unfold downloaded, clearRetryCounter, mem, ext, mbind, SM_bind.
  destruct (bs_Versions (bfb_Spec b)); [handled|].
  destruct (VersionFromBFBFile _ s'.2) as [[[v|] [e|]] w]; handled.
Qed.

Lemma download_error_ok b s err t s' : bfb_Phase b = BFBDownloading → handled_ok b s (handleDownloadError now err b t s').1.
Proof.
  intros Hp. unfold handleDownloadError, incrementRetryCounter, getRetryCount, clearRetryCounter, mem, mbind, SM_bind.
  repeat case_match; simplify_eq/=; handled.
Qed.

Lemma Downloading_ok b s : bfb_Phase b = BFBDownloading → handled_ok b s (Downloading now b s).1.
Proof.
  intros Hp. destruct (isDeleting b) eqn:Hd.
  { rewrite Downloading_deleting by done. cbn zeta. destruct (DownloadingTaskMap s.1 !! _) as [[f|f]|]; handled. }
  rewrite Downloading_run by done. cbn zeta. destruct (statFile _ s.2) as [e w] eqn:Es.
  assert (∀ t s', e = None → handled_ok b s (downloaded now b t s').1) as Hf.
  { intros t s' ->. apply downloaded_ok; [done|]. left. by rewrite Es. }
  destruct (file_there e) as [there|err] eqn:Ee; [|handled].
  destruct (DownloadingTaskMap s.1 !! _) as [[f|f]|] eqn:Et; [|handled|].
  - destruct (futures s.1 !! f) as [fu|] eqn:Ef; simpl; [|handled].
    destruct (fu_Result fu) as [[err|]|] eqn:Er; [by apply download_error_ok| |handled].
    apply downloaded_ok; [done|]. right. by exists f, fu.
  - destruct there; [|handled]. apply Hf. destruct e as [e|]; [|done]. simpl in Ee. by case_bool_decide.
Qed.

(** What allows the finalizer to go: no DPUSet and no DPU of the namespace names
    the BFB, and its files were removed or were not there. *)
Definition unused b : Prop :=
  (∃ w sets, (dpuSetsIn (bfb_Namespace b) w).1 = Ok sets ∧ ∀ ds, ds ∈ sets → t_BFB (ds_Template ds) ≠ Some (bfb_Name b)) ∧
  (∃ w dpus, (dpusIn (bfb_Namespace b) w).1 = Ok dpus ∧ ∀ d, d ∈ dpus → deref (sp_BFB (dpu_Spec d)) "" ≠ bfb_Name b) ∧
  (bfb_FileName b ≠ "" → ∃ w, (RemoveFileEx (GenerateBFBFilePath (bfb_FileName b)) w).1 = None) ∧
  (∃ w, (RemoveFileEx (GenerateBFBTMPFilePath (bfb_UID b)) w).1 = None).

Definition deleting_ok b (r : Handled) : Prop :=
  same_bfb b r.1 ∧ added b r.1 ∧ bfb_Phase r.1 = bfb_Phase b ∧
  (bfb_Finalizers r.1 = bfb_Finalizers b ∨
   r.2 = None ∧ unused b ∧ bfb_Finalizers r.1 = RemoveFinalizer (bfb_Finalizers b) BFBFinalizer).

Lemma Deleting_ok b s : deleting_ok b (Deleting now b s).1.
Proof.
  assert (∀ reason err, deleting_ok b (deleting_error now b reason err)) as Herr.
  { intros reason err. unfold deleting_ok, same_bfb. simpl. split_and!; auto. added. }
  assert (∀ A (m : SM W A) a, (∃ s : Memory * W, (ext m s).1 = a) → ∃ w, (m w).1 = a) as Hext.
  { intros A m a [[mm w] H]. exists w. unfold ext in H. simpl in H. by destruct (m w). }
  assert (∀ err, deleting_ok b (b, Some err)) as Hp by (intros err; unfold deleting_ok, same_bfb; simpl; split_and!; auto; added).
  revert s. unfold Deleting. match goal with |- ∀ s, _ (run ?h s).1 => change (returns (deleting_ok b) h) end.
  apply returns_check; [apply Hp|]. apply returns_lift. intros _ _. apply returns_lift. intros _ _.
  unfold delete_unused. apply returns_or_return; [intros e; apply Herr|]. intros sets Hs%Hext.
  apply returns_bind. { intros s r s'. destruct (snd <$> find_idx _ sets); [|done]. intros [= <- _]. apply Herr. }
  intros [] (s1 & s2 & Es). destruct (snd <$> find_idx _ sets) eqn:Ef; [done|]. clear s1 s2 Es.
  apply returns_or_return; [intros e; apply Herr|]. intros dpus Hd%Hext.
  apply returns_bind. { intros s r s'. destruct (snd <$> find_idx _ dpus); [|done]. intros [= <- _]. apply Herr. }
  intros [] (s1 & s2 & Es). destruct (snd <$> find_idx (dpu_uses b) dpus) eqn:Eg; [done|]. clear s1 s2 Es.
  apply returns_check_none; [intros e; apply Herr|]. intros Hfile. apply returns_check_none; [intros e; apply Herr|]. intros Htmp%Hext.
  intros s. unfold deleting_ok, same_bfb. simpl. split_and!; try done; [added|]. right. split_and!; try done.
  destruct Hs as [w1 Hs], Hd as [w2 Hd]. split_and!.
  - exists w1, sets. split; [done|]. intros ds Hds Hu. pose proof (find_idx_first_none _ _ Ef ds Hds) as Hn.
    unfold dpuSet_uses in Hn. by case_bool_decide.
  - exists w2, dpus. split; [done|]. intros d Hds Hu. pose proof (find_idx_first_none _ _ Eg d Hds) as Hn.
    unfold dpu_uses in Hn. by case_bool_decide.
  - intros Hne. rewrite bool_decide_false in Hfile by done. by apply Hext.
  - done.
Qed.

Lemma Handle_ok b s :
  let r := (Handle now b s).1 in
  bfb_Phase b ≠ BFBDeleting ∧ handled_ok b s r ∨ bfb_Phase b = BFBDeleting ∧ deleting_ok b r.
Proof.
  unfold Handle. repeat case_bool_decide; simpl.
  - left. split; [by match goal with H : bfb_Phase b = _ |- _ => rewrite H end|]. by apply Downloading_ok.
  - left. split; [by match goal with H : bfb_Phase b = _ |- _ => rewrite H end|]. by apply Ready_ok.
  - right. split; [done|]. apply Deleting_ok.
  - left. split; [by match goal with H : bfb_Phase b = _ |- _ => rewrite H end|]. by apply Error_ok.
  - left. split; [done|]. apply Initializing_ok. set_solver.
Qed.

(** C19. One pass of the reconcile over a BFB follows the state machine.  It becomes
    Ready only where its file was seen or its own download has just ended without
    an error, and only from Downloading; its protection goes only in Deleting, when
    no DPUSet and no DPU of the namespace names the BFB and its files are removed. *)
Theorem bfb_pass {FL : FinalizerAPILaws FA} b s :
  let b' := (reconcile_bfb now b s).1.1.1 in
  same_bfb b b' ∧ bfb_goes (bfb_Phase b) (bfb_Phase b') ∧
  (bfb_Phase b' = BFBReady → bfb_Phase b ≠ BFBReady → bfb_Phase b = BFBDownloading ∧ bfb_FileName b' = bfb_FileName b ∧ file_evidence b s) ∧
  (BFBFinalizer ∈ bfb_Finalizers b → BFBFinalizer ∉ bfb_Finalizers b' → bfb_Phase b = BFBDeleting ∧ unused b).
Proof.
  cbn zeta. unfold reconcile_bfb. destruct (_ && _).
  { unfold same_bfb, bfb_goes. simpl. split_and!; auto; try done. intros Hf Hn. destruct Hn. apply add_finalizer. by left. }
  unfold mbind, SM_bind. destruct (Handle_ok b s) as [[Hne (H1 & _ & H2 & H3 & H4)]|[Hp (H1 & _ & H2 & H3)]];
    destruct (Handle now b s) as [[b' e] s']; simpl in *.
  - assert (bfb_Phase b' = BFBReady → bfb_Phase b ≠ BFBReady → bfb_Phase b = BFBDownloading) as Hd.
    { intros Hr Hnr. unfold bfb_goes, bfb_edges in H3. rewrite Hr in H3.
      destruct H3 as [H3|[H3|[_ H3]]]; [congruence|set_solver|exfalso; set_solver]. }
    destruct e; simpl; rewrite H2; (split_and!; try done; intros Hr Hnr; destruct (H4 Hr Hnr); split_and!; auto).
  - destruct e; simpl; (split_and!; [done|by left; rewrite H2|intros Hr; by rewrite H2, Hp in Hr|];
      intros Hf Hn; destruct H3 as [H3|(_ & Hu & _)]; [by rewrite H3 in Hn|done]).
Qed.

(** C29. The conditions of a BFB stay well formed: a pass keeps at most one condition
    per type, and adds none beyond those declared for BFBs. *)
Theorem bfb_conditions_wf {AL : MetaAPILaws API} b s :
  wf_conditions (bfb_Conditions b) → (c_Type <$> bfb_Conditions b) ⊆ BFBConditions →
  let b' := (reconcile_bfb now b s).1.1.1 in
  wf_conditions (bfb_Conditions b') ∧ (c_Type <$> bfb_Conditions b') ⊆ BFBConditions.
Proof.
  intros Hw Hs. cbn zeta. assert (added b (reconcile_bfb now b s).1.1.1) as Ha.
  { unfold reconcile_bfb. destruct (_ && _); [added|]. unfold mbind, SM_bind.
    destruct (Handle_ok b s) as [[_ (_ & Ha & _)]|[_ (_ & Ha & _)]]; destruct (Handle now b s) as [[b' [e|]] s']; exact Ha. }
  apply (Ha (λ cs, wf_conditions cs ∧ (c_Type <$> cs) ⊆ BFBConditions)); [|done].
  intros cs c Hc [Hwf Hsub]. unfold wf_conditions. rewrite meta_set_types. case_decide as Hin; [done|]. split.
  - apply NoDup_app. split_and!; [done| |apply NoDup_singleton]. intros t Ht ->%list_elem_of_singleton. done.
  - intros t [Ht|Ht]%elem_of_app; [by apply Hsub|]. by apply list_elem_of_singleton in Ht as ->.
Qed.
End Passes.

(** A deleted BFB that nothing names: its file goes, and its protection. *)
Lemma bfb_pass_witness :
  let w := example_bworld {[ "/bfb/ns-image.bfb" := "bytes" ]} (Err no_such_file) in
  let b := example_bfb_in BFBDeleting (Some 5%Z) [] in
  let r := reconcile_bfb (API:=meta_list) (FA:=finalizer_list) (C:=fake_bfb_client) (J:=fake_inventory) 7 b (fresh_memory, w) in
  bfb_Finalizers r.1.1.1 = [] ∧ unused (C:=fake_bfb_client) b.
Proof.
  split; [reflexivity|].
  apply (bfb_pass (API:=meta_list) (FA:=finalizer_list) (C:=fake_bfb_client) (J:=fake_inventory) 7 (example_bfb_in BFBDeleting (Some 5%Z) [])
    (fresh_memory, example_bworld {[ "/bfb/ns-image.bfb" := "bytes" ]} (Err no_such_file))); vm_compute; [left|inversion 1].
Defined.

Lemma bfb_conditions_wf_witness :
  let b := example_bfb_in BFBInitializing None [] in
  let r := reconcile_bfb (API:=meta_list) (FA:=finalizer_list) (C:=fake_bfb_client) (J:=fake_inventory) 7 b
    (fresh_memory, example_bworld ∅ (Err no_such_file)) in
  c_Type <$> bfb_Conditions r.1.1.1 = [BFBCondInitialized] ∧ wf_conditions (bfb_Conditions r.1.1.1).
Proof.
  split; [reflexivity|].
  apply (bfb_conditions_wf (API:=meta_list) (FA:=finalizer_list) (C:=fake_bfb_client) (J:=fake_inventory) 7 (example_bfb_in BFBInitializing None [])
    (fresh_memory, example_bworld ∅ (Err no_such_file))); [constructor|]. intros t Ht. inversion Ht.
Defined.
