(* ===== verification/BFBProtocol.v ===== *)
(** What the passes of the BFB controller and its downloads do together: the
    downloads the process keeps, how often a failed one is tried again, and when a
    BFB in phase Error leaves it. *)

From S2P Require Import Prelude.
From S2P Require Import Meta.
From S2P Require Import Conditions.
From S2P Require Import DPUTypes.
From S2P Require Import DownloadTasks.
From S2P Require Import BFBTypes.
From S2P Require Import BFBVersion.
From S2P Require Import BFBDownload.
From S2P Require Import BFBStates.
From S2P Require Import ExampleBFB.
From Stdlib Require Import Ascii.

(** ** Names of tasks *)

(** The last character of a UID is a hexadecimal digit, so no [l]. *)
Fixpoint last_char (s : string) : option ascii :=
  match s with EmptyString => None | String c EmptyString => Some c | String _ s => last_char s end.
Definition valid_uid (uid : string) : Prop := ∃ c, last_char uid = Some c ∧ c ≠ "l"%char.

Lemma last_char_app s t : t ≠ "" → last_char (s +:+ t) = last_char t.
Proof.
  intros Ht. induction s as [|c s IH]; [done|]. rewrite <- IH. simpl.
  destruct (s +:+ t) eqn:E; [|done]. destruct s; [|done]. by simpl in E.
Qed.

Lemma valid_nonempty uid : valid_uid uid → uid ≠ "".
Proof. by intros (c & Hc & _) ->. Qed.

Lemma task_name_not_cancel b k : valid_uid (bfb_UID b) → GenerateBFBTaskName b ≠ cancel_key k.
Proof.
  intros Hu E. apply (f_equal last_char) in E. unfold GenerateBFBTaskName, cancel_key in E.
  rewrite !string_app_assoc, last_char_app in E by (by apply valid_nonempty).
  destruct Hu as (c & Hc & Hl). rewrite last_char_app, Hc in E by done. simpl in E. congruence.
Qed.

Lemma string_app_inj_r (s t u : string) : s +:+ u = t +:+ u → s = t.
Proof.
  revert t. induction s as [|c s IH]; intros [|d t] E; [done| | |].
  - apply (f_equal String.length) in E. rewrite !string_length_app in E. simpl in E. lia.
  - apply (f_equal String.length) in E. rewrite !string_length_app in E. simpl in E. lia.
  - injection E as -> E. f_equal. by apply IH.
Qed.
Lemma cancel_key_inj k k' : cancel_key k = cancel_key k' → k = k'.
Proof. apply string_app_inj_r. Qed.

(** ** Downloads are known to the process *)

(** A download whose result is not there yet and whose context is not cancelled. *)
Definition live (f : Future) : Prop := fu_Result f = None ∧ fu_Canceled f = false.
Definition task_of (f : Future) : string := tk_TaskName (fu_Task f).

Record memory_ok (m : Memory) : Prop := {
  (** A future in the map is under the name of its task, with its cancel function. *)
  ok_future k f : DownloadingTaskMap m !! k = Some (TFuture f) →
    ∃ fu, futures m !! f = Some fu ∧ task_of fu = k ∧ DownloadingTaskMap m !! cancel_key k = Some (TCancel f);
  ok_cancel k f : DownloadingTaskMap m !! k = Some (TCancel f) →
    ∃ fu, futures m !! f = Some fu ∧ cancel_key (task_of fu) = k ∧ DownloadingTaskMap m !! task_of fu = Some (TFuture f);
  ok_live f fu : futures m !! f = Some fu → live fu → DownloadingTaskMap m !! task_of fu = Some (TFuture f);
  ok_retries k n : downloadRetryCounter m !! k = Some n → (0 <= n <= maxDownloadRetries)%Z;
  ok_names f fu k : futures m !! f = Some fu → task_of fu ≠ cancel_key k }.

Lemma fresh_memory_ok : memory_ok fresh_memory.
Proof. by split. Qed.

(** The effects of a pass on the memory keep it so. *)
Lemma with_retries_ok m g :
  memory_ok m → (∀ k n, g (downloadRetryCounter m) !! k = Some n → (0 <= n <= maxDownloadRetries)%Z) → memory_ok (with_retries g m).
Proof. intros []. by split. Qed.

Lemma clear_ok m k : memory_ok m → memory_ok (with_retries (delete k) m).
Proof.
  intros Hm. apply with_retries_ok; [done|]. intros k' n [_ H]%lookup_delete_Some. by eapply ok_retries.
Qed.

(** A download that is over or cancelled can be forgotten. *)
Lemma forget_ok m k :
  memory_ok m → (∀ k', k ≠ cancel_key k') → (∀ f fu, futures m !! f = Some fu → task_of fu = k → ¬ live fu) →
  memory_ok (forget_download k m).
Proof.
  intros Hm Hk Hl. destruct Hm as [H1 H2 H3 H4 H5]. split; simpl; [| | |done|done].
  - intros k' f [Hne1 [Hne2 H]%lookup_delete_Some]%lookup_delete_Some. destruct (H1 _ _ H) as (fu & Hf & Ht & Hc).
    exists fu. split_and!; [done|done|]. rewrite !lookup_delete_ne; [done|done|]. intros E%cancel_key_inj. by subst.
  - intros k' f [Hne1 [Hne2 H]%lookup_delete_Some]%lookup_delete_Some. destruct (H2 _ _ H) as (fu & Hf & Ht & Hc).
    exists fu. split_and!; [done|done|]. rewrite !lookup_delete_ne; [done| |].
    + intros ->. by subst.
    + intros E. by apply (H5 _ _ k Hf).
  - intros f fu Hf Hlive. pose proof (H3 _ _ Hf Hlive) as H. rewrite !lookup_delete_ne; [done| |].
    + intros E. by apply (Hl f fu).
    + intros E. by apply (H5 _ _ k Hf).
Qed.

Lemma start_ok m task :
  memory_ok m → (∀ k, tk_TaskName task ≠ cancel_key k) → DownloadingTaskMap m !! tk_TaskName task = None →
  memory_ok (start_download task m).
Proof.
  intros [H1 H2 H3 H4 H5] Hk Hn. unfold start_download. set (n := tk_TaskName task) in *. set (new := length (futures m)).
  assert (∀ f fu, futures m !! f = Some fu → (futures m ++ [mkFuture task false None]) !! f = Some fu) as Hold.
  { intros f fu Hf. by apply lookup_app_l_Some. }
  assert ((futures m ++ [mkFuture task false None]) !! new = Some (mkFuture task false None)) as Hnew by (by apply list_lookup_middle).
  assert (∀ f fu, (futures m ++ [mkFuture task false None]) !! f = Some fu →
    futures m !! f = Some fu ∨ f = new ∧ fu = mkFuture task false None) as Hcase.
  { intros f fu [Hf|[Hlen Hf]]%lookup_app_Some; [by left|right]. apply list_lookup_singleton_Some in Hf as [? <-].
    unfold new. split; [lia|done]. }
  split; simpl; [| | |done|].
  - intros k f. destruct (decide (k = n)) as [->|Hkn].
    + rewrite lookup_insert_eq. intros [= <-]. eexists. split_and!; [done..|].
      by rewrite lookup_insert_ne, lookup_insert_eq by (apply Hk).
    + rewrite lookup_insert_ne by done. destruct (decide (k = cancel_key n)) as [->|Hkc]; [by rewrite lookup_insert_eq|].
      rewrite lookup_insert_ne by done. intros H. destruct (H1 _ _ H) as (fu & Hf & Ht & Hc). exists fu. split_and!; [by apply Hold|done|].
      rewrite !lookup_insert_ne; [done|by intros E%cancel_key_inj|]. apply Hk.
  - intros k f. destruct (decide (k = n)) as [->|Hkn]; [by rewrite lookup_insert_eq|]. rewrite lookup_insert_ne by done.
    destruct (decide (k = cancel_key n)) as [->|Hkc].
    + rewrite lookup_insert_eq. intros [= <-]. eexists. split_and!; [done..|]. unfold task_of. simpl. by rewrite lookup_insert_eq.
    + rewrite lookup_insert_ne by done. intros H. destruct (H2 _ _ H) as (fu & Hf & Ht & Hc). exists fu. split_and!; [by apply Hold|done|].
      assert (task_of fu ≠ n) by (intros E; rewrite E in Hc; congruence). rewrite !lookup_insert_ne; [done| |done].
      intros E. by apply (H5 _ _ n Hf).
  - intros f fu [Hf|[-> ->]]%Hcase Hl; [|unfold task_of; simpl; by rewrite lookup_insert_eq].
    pose proof (H3 _ _ Hf Hl) as H. rewrite !lookup_insert_ne; [done| |intros E; rewrite <- E in H; congruence].
    intros E. by apply (H5 _ _ n Hf).
  - intros f fu k [Hf|[-> ->]]%Hcase; [by eapply H5|apply Hk].
Qed.

(** A change of a future that keeps its task and does not bring it back to life. *)
Lemma alter_future_ok m f g :
  memory_ok m → (∀ fu, fu_Task (g fu) = fu_Task fu ∧ (live (g fu) → live fu)) → memory_ok (with_futures (alter g f) m).
Proof.
  intros [H1 H2 H3 H4 H5] Hg.
  assert (∀ i fu, futures m !! i = Some fu → ∃ fu', alter g f (futures m) !! i = Some fu' ∧ task_of fu' = task_of fu) as Hto.
  { intros i fu Hi. destruct (decide (i = f)) as [->|Hne].
    - exists (g fu). rewrite list_lookup_alter_eq, Hi. split; [done|]. unfold task_of. by rewrite (proj1 (Hg fu)).
    - exists fu. by rewrite list_lookup_alter_ne. }
  assert (∀ i fu', alter g f (futures m) !! i = Some fu' → ∃ fu, futures m !! i = Some fu ∧ task_of fu' = task_of fu ∧ (live fu' → live fu)) as Hfrom.
  { intros i fu' Hi. destruct (decide (i = f)) as [->|Hne].
    - rewrite list_lookup_alter_eq in Hi. destruct (futures m !! f) as [fu|]; simplify_eq/=. exists fu. unfold task_of.
      destruct (Hg fu) as [-> ?]. done.
    - rewrite list_lookup_alter_ne in Hi by done. by exists fu'. }
  split; simpl; [| | |done|].
  - intros k i H. destruct (H1 _ _ H) as (fu & Hf & <- & Hc). destruct (Hto _ _ Hf) as (fu' & Hf' & Ht). exists fu'. by rewrite Ht.
  - intros k i H. destruct (H2 _ _ H) as (fu & Hf & <- & Hc). destruct (Hto _ _ Hf) as (fu' & Hf' & Ht). exists fu'. by rewrite Ht.
  - intros i fu' (fu & Hf & -> & Hl)%Hfrom Hl'. auto.
  - intros i fu' k (fu & Hf & -> & _)%Hfrom. by eapply H5.
Qed.

Lemma cancel_ok m f : memory_ok m → memory_ok (with_futures (alter cancel_future f) m).
Proof. intros Hm. apply alter_future_ok; [done|]. intros fu. split; [done|]. by intros [_ ?]. Qed.
Lemma finish_ok m f e : memory_ok m → memory_ok (with_futures (alter (finish_future e) f) m).
Proof. intros Hm. apply alter_future_ok; [done|]. intros fu. split; [done|]. by intros [? _]. Qed.

(** Cancelling through the map and forgetting: nothing of that name is live. *)
Lemma cancel_forget_ok m k f :
  memory_ok m → (∀ k', k ≠ cancel_key k') → DownloadingTaskMap m !! cancel_key k = Some (TCancel f) →
  let m' := forget_download k (with_futures (alter cancel_future f) m) in
  memory_ok m' ∧ ∀ i fu, futures m' !! i = Some fu → task_of fu = k → ¬ live fu.
Proof.
  intros Hm Hk Hc. cbn zeta. pose proof (cancel_ok m f Hm) as Hm'.
  assert (∀ i fu, alter cancel_future f (futures m) !! i = Some fu → task_of fu = k → ¬ live fu) as Hdead.
  { intros i fu Hi Ht Hl. pose proof (ok_live _ Hm' i fu Hi Hl) as Hmap. simpl in Hmap. rewrite Ht in Hmap.
    destruct (ok_future _ Hm _ _ Hmap) as (_ & _ & _ & Hc'). rewrite Hc in Hc'. injection Hc' as <-.
    rewrite list_lookup_alter_eq in Hi. destruct (futures m !! f); simplify_eq/=. by destruct Hl. }
  split; [|done]. by apply forget_ok.
Qed.

Lemma forget_idle_ok m k :
  memory_ok m → (∀ k', k ≠ cancel_key k') → DownloadingTaskMap m !! cancel_key k = None →
  memory_ok (forget_download k m) ∧ ∀ i fu, futures m !! i = Some fu → task_of fu = k → ¬ live fu.
Proof.
  intros Hm Hk Hc. assert (∀ i fu, futures m !! i = Some fu → task_of fu = k → ¬ live fu) as Hdead.
  { intros i fu Hi Ht Hl. pose proof (ok_live _ Hm i fu Hi Hl) as Hmap. rewrite Ht in Hmap.
    destruct (ok_future _ Hm _ _ Hmap) as (_ & _ & _ & Hc'). congruence. }
  split; [|done]. by apply forget_ok.
Qed.

(** *** The counter of retries *)

Definition retries (n : string) (m : Memory) : Z := default 0%Z (downloadRetryCounter m !! n).

(** Each counter is kept, reset, or raised by one below the limit. *)
Definition counts (m m' : Memory) : Prop :=
  ∀ n, downloadRetryCounter m' !! n = downloadRetryCounter m !! n ∨ downloadRetryCounter m' !! n = None ∨
    (retries n m < maxDownloadRetries)%Z ∧ downloadRetryCounter m' !! n = Some (retries n m + 1)%Z.

Lemma counts_same m m' : downloadRetryCounter m' = downloadRetryCounter m → counts m m'.
Proof. intros E n. left. by rewrite E. Qed.
Lemma counts_clear m m' k : downloadRetryCounter m' = delete k (downloadRetryCounter m) → counts m m'.
Proof. intros E n. rewrite E. destruct (decide (n = k)) as [->|Hn]; [right; left; apply lookup_delete_eq|left; by apply lookup_delete_ne]. Qed.

(** ** Runs of the process *)

Section Protocol.
Context {API : MetaAPI} {FA : FinalizerAPI} {W : Type} {C : BFBClient W} {J : InventoryJSON}.

Lemma task_name_ok b : valid_uid (bfb_UID b) → ∀ k, GenerateBFBTaskName b ≠ cancel_key k.
Proof. intros Hu k. by apply task_name_not_cancel. Qed.

Lemma finished_not_live m k f r :
  memory_ok m → DownloadingTaskMap m !! k = Some (TFuture f) → futures m !! f ≫= fu_Result = Some r →
  ∀ i fu, futures m !! i = Some fu → task_of fu = k → ¬ live fu.
Proof.
  intros Hm Hk Hr i fu Hi Ht Hl. pose proof (ok_live _ Hm i fu Hi Hl) as Hmap. rewrite Ht, Hk in Hmap. injection Hmap as ->.
  rewrite Hi in Hr. simpl in Hr. destruct Hl as [Hl _]. congruence.
Qed.

(** A pass in phase Downloading. *)
Lemma Downloading_memory_ok now b (s : Memory * W) :
  valid_uid (bfb_UID b) → memory_ok s.1 → memory_ok (Downloading now b s).2.1.
Proof.
  intros Hu Hm. pose proof (task_name_ok b Hu) as Hk. destruct (isDeleting b) eqn:Hd.
  - rewrite Downloading_deleting by done. cbn zeta. destruct (DownloadingTaskMap s.1 !! _) as [[f|f]|] eqn:Ec; [done| |].
    + apply clear_ok. by apply cancel_forget_ok.
    + by apply clear_ok.
  - rewrite Downloading_run by done. cbn zeta. destruct (statFile _ s.2) as [e w].
    destruct (file_there e) as [there|err]; [|done].
    assert (∀ s' : Memory * W, memory_ok s'.1 → memory_ok (downloaded now b (GenerateBFBTaskName b) s').2.1) as Hdl.
    { intros s' Hs'. destruct (downloaded_memory now b (GenerateBFBTaskName b) s') as [-> | ->]; [done|by apply clear_ok]. }
    destruct (DownloadingTaskMap s.1 !! _) as [[f|f]|] eqn:Ef; [|done|].
    + destruct (futures s.1 !! f ≫= fu_Result) as [[err|]|] eqn:Er; [| |done].
      * assert (memory_ok (forget_download (GenerateBFBTaskName b) s.1)) as Hf.
        { apply forget_ok; [done..|]. by eapply finished_not_live. }
        destruct (download_error_memory now err b (GenerateBFBTaskName b) (forget_download (GenerateBFBTaskName b) s.1, w)) as [-> |[Hlt ->]];
          [by apply clear_ok|]. apply with_retries_ok; [done|]. intros k n. destruct (decide (k = GenerateBFBTaskName b)) as [->|Hne].
        -- rewrite lookup_insert_eq. intros [= <-]. simpl in *. destruct (downloadRetryCounter s.1 !! _) eqn:Ec; simpl in *; [|done].
           apply (ok_retries _ Hm) in Ec. lia.
        -- rewrite lookup_insert_ne by done. by apply ok_retries.
      * apply Hdl. apply clear_ok. apply forget_ok; [done..|]. by eapply finished_not_live.
    + destruct there; [by apply Hdl|]. simpl. by apply start_ok.
Qed.

Lemma Deleting_memory_ok now b (s : Memory * W) :
  valid_uid (bfb_UID b) → memory_ok s.1 →
  memory_ok (Deleting now b s).2.1 ∧
  ∀ i fu, futures (Deleting now b s).2.1 !! i = Some fu → task_of fu = GenerateBFBTaskName b → ¬ live fu.
Proof.
  intros Hu Hm. pose proof (task_name_ok b Hu) as Hk. rewrite Deleting_memory. cbn zeta.
  destruct (DownloadingTaskMap s.1 !! cancel_key _) as [[f|f]|] eqn:Ec.
  - destruct (ok_future _ Hm _ _ Ec) as (fu & Hf & Ht & _). by destruct (ok_names _ Hm _ _ (GenerateBFBTaskName b) Hf).
  - by apply cancel_forget_ok.
  - exact (forget_idle_ok _ _ Hm Hk Ec).
Qed.

Lemma pass_memory_ok now b (s : Memory * W) :
  valid_uid (bfb_UID b) → memory_ok s.1 → memory_ok (reconcile_bfb now b s).2.1.
Proof.
  intros Hu Hm. unfold reconcile_bfb. destruct (_ && _); [done|].
  assert (memory_ok (Handle now b s).2.1) as Hh.
  { unfold Handle. repeat case_bool_decide; [by apply Downloading_memory_ok| |by apply Deleting_memory_ok|done|done].
    by rewrite Ready_memory. }
  unfold mbind, SM_bind. by destruct (Handle now b s) as [[b' [e|]] s'].
Qed.

(** *** What a pass does to the counters *)

Lemma Downloading_counts now b (s : Memory * W) : counts s.1 (Downloading now b s).2.1.
Proof.
  destruct (isDeleting b) eqn:Hd.
  - rewrite Downloading_deleting by done. cbn zeta. by destruct (DownloadingTaskMap s.1 !! _) as [[f|f]|]; [apply counts_same|eapply counts_clear..].
  - rewrite Downloading_run by done. cbn zeta. destruct (statFile _ s.2) as [e w]. destruct (file_there e) as [there|err]; [|by apply counts_same].
    assert (∀ s' : Memory * W, downloadRetryCounter s'.1 = downloadRetryCounter s.1 ∨
      downloadRetryCounter s'.1 = delete (GenerateBFBTaskName b) (downloadRetryCounter s.1) →
      counts s.1 (downloaded now b (GenerateBFBTaskName b) s').2.1) as Hdl.
    { intros s' Hs'. destruct (downloaded_memory now b (GenerateBFBTaskName b) s') as [-> | ->].
      - destruct Hs'; [by apply counts_same|by eapply counts_clear].
      - apply (counts_clear _ _ (GenerateBFBTaskName b)). cbn. destruct Hs' as [->| ->]; [done|]. by rewrite delete_delete_eq. }
    destruct (DownloadingTaskMap s.1 !! _) as [[f|f]|] eqn:Ef; [|by apply counts_same|].
    + destruct (futures s.1 !! f ≫= fu_Result) as [[err|]|]; [|apply Hdl; by right|by apply counts_same].
      destruct (download_error_memory now err b (GenerateBFBTaskName b) (forget_download (GenerateBFBTaskName b) s.1, w)) as [-> |[Hlt ->]];
        [by eapply counts_clear|]. intros k. cbn in *. destruct (decide (k = GenerateBFBTaskName b)) as [->|Hne].
      * right. right. rewrite lookup_insert_eq. by split.
      * left. by rewrite lookup_insert_ne.
    + destruct there; [apply Hdl; by left|by apply counts_same].
Qed.

Lemma pass_counts now b (s : Memory * W) : counts s.1 (reconcile_bfb now b s).2.1.
Proof.
  unfold reconcile_bfb. destruct (_ && _); [by apply counts_same|]. assert (counts s.1 (Handle now b s).2.1) as Hh.
  { unfold Handle. repeat case_bool_decide; [apply Downloading_counts| |apply counts_same|by apply counts_same..].
    - rewrite Ready_memory. by apply counts_same.
    - rewrite Deleting_memory. cbn zeta. by destruct (DownloadingTaskMap s.1 !! _) as [[f|f]|]. }
  unfold mbind, SM_bind. by destruct (Handle now b s) as [[b' [e|]] s'].
Qed.

(** The pass finds the download of [b] ended with an error that is no cancellation. *)
Definition failed_download (b : BFB) (err : GoError) (s : Memory * W) : Prop :=
  isDeleting b = false ∧ err_kind err ≠ KCanceled ∧
  (∃ f, DownloadingTaskMap s.1 !! GenerateBFBTaskName b = Some (TFuture f) ∧ futures s.1 !! f ≫= fu_Result = Some (Some err)) ∧
  ∃ there, file_there (statFile (GenerateBFBFilePath (bfb_FileName b)) s.2).1 = Ok there.

Lemma failed_download_counted now b err (s : Memory * W) : failed_download b err s →
  let r := Downloading now b s in let n := GenerateBFBTaskName b in let c := retries n s.1 in
  if (c <? maxDownloadRetries)%Z then bfb_Phase r.1.1 = BFBDownloading ∧ downloadRetryCounter r.2.1 = <[n := (c + 1)%Z]> (downloadRetryCounter s.1)
  else bfb_Phase r.1.1 = BFBError ∧ downloadRetryCounter r.2.1 = delete n (downloadRetryCounter s.1).
Proof.
  intros (Hd & Hk & (f & Hf & Hr) & there & Ht). cbv zeta. rewrite Downloading_run by done. cbv zeta.
  destruct (statFile _ s.2) as [e w]. cbn [fst] in Ht. rewrite Ht, Hf, Hr.
  unfold handleDownloadError, incrementRetryCounter, getRetryCount, clearRetryCounter, mem, mbind, SM_bind, retries.
  rewrite bool_decide_false by done. cbn [fst snd forget_download with_tasks downloadRetryCounter]. by destruct (_ <? _)%Z.
Qed.

(** The steps of the process: a reconcile of some BFB, a download that ends, and
    anything else in the world outside.  UIDs are those the API server gives. *)
Inductive step : Memory * W → Memory * W → Prop :=
| step_reconcile now key s : step s (Reconcile now key s).2
| step_finish f e m w w' : step (m, w) (with_futures (alter (finish_future e) f) m, w')
| step_world m w w' : step (m, w) (m, w').

Context (uids : ∀ key w b, (fetchBFB key w).1 = Ok b → valid_uid (bfb_UID b)).

Lemma step_memory_ok s s' : step s s' → memory_ok s.1 → memory_ok s'.1.
Proof.
  intros [now key [m w]|f e m w w'|m w w'] Hm; simpl in *; [|by apply finish_ok|done].
  unfold Reconcile, mbind, SM_bind, ext. simpl. pose proof (uids key w) as Hu. destruct (fetchBFB key w) as [[b|e] w1]; [|done].
  simpl. pose proof (pass_memory_ok now b (m, w1) (Hu b eq_refl) Hm) as Hp.
  destruct (reconcile_bfb now b (m, w1)) as [r [m2 w2]]. simpl in *. by destruct (patchBFB b _ w2).
Qed.

Lemma step_counts s s' : step s s' → counts s.1 s'.1.
Proof.
  intros [now key [m w]|f e m w w'|m w w']; [|by apply counts_same..]. cbn. unfold Reconcile, mbind, SM_bind, ext. cbn.
  destruct (fetchBFB key w) as [[b|e] w1]; [|by apply counts_same]. pose proof (pass_counts now b (m, w1)) as Hp.
  destruct (reconcile_bfb now b (m, w1)) as [r [m2 w2]]. cbn in *. by destruct (patchBFB b _ w2).
Qed.

End Protocol.

(** ** Failed downloads *)

Section Retries.
Context {API : MetaAPI} {AL : MetaAPILaws API} {W : Type} {C : BFBClient W} {J : InventoryJSON}.

(** The download started last ends with an error. *)
Definition finish_last (err : GoError) (m : Memory) : Memory :=
  with_futures (alter (finish_future (Some err)) (pred (length (futures m)))) m.

(** A pass that starts a download, the download failing, and the pass that sees it. *)
Definition failed_round (bs : BFB * (Memory * W)) (te : Time * GoError) : BFB * (Memory * W) :=
  let '((b, _), (m, w)) := Downloading te.1 bs.1 bs.2 in
  let '((b, _), s) := Downloading te.1 b (finish_last te.2 m, w) in
  (b, s).

Definition downloading (b : BFB) : Prop := bfb_Phase b = BFBDownloading ∧ isDeleting b = false.

Lemma error_handled now err b n (s : Memory * W) :
  err_kind err ≠ KCanceled →
  let r := handleDownloadError now err b n s in
  let c := retries n s.1 in
  same_bfb b r.1.1 ∧ bfb_FileName r.1.1 = bfb_FileName b ∧
  if (c <? maxDownloadRetries)%Z
  then bfb_Phase r.1.1 = BFBDownloading ∧ r.2.1 = with_retries <[n := (c + 1)%Z]> s.1 ∧ r.1.2 = None
  else bfb_Phase r.1.1 = BFBError ∧ r.2.1 = with_retries (delete n) s.1 ∧ r.1.2 = Some err ∧
       c_Reason <$> Get r.1.1 BFBCondDownloaded = Some (if IsRecoverableDownloadError (Some err) then ReasonError else ReasonFailure).
Proof.
  intros Hk. unfold handleDownloadError, incrementRetryCounter, getRetryCount, clearRetryCounter, mem, mbind, SM_bind, retries.
  rewrite bool_decide_false by done. destruct s as [m w]. cbn [fst snd]. destruct (_ <? _)%Z; [done|]. cbn [mret SM_ret fst snd].
  split_and!; try done.
  match goal with |- context [AddFalse now ?b' ?ct ?cr ?cm] => destruct (AddFalse_get now b' ct cr cm) as (c & -> & <- & _) end.
  done.
Qed.

Lemma failed_round_spec bs now err :
  let b := bs.1 in let n := GenerateBFBTaskName b in let c := retries n bs.2.1 in
  downloading b → DownloadingTaskMap bs.2.1 !! n = None → (0 <= c <= maxDownloadRetries)%Z → err_kind err ≠ KCanceled →
  (∀ w, ∃ e, (statFile (GenerateBFBFilePath (bfb_FileName b)) w).1 = Some e ∧ err_kind e = KNotExist) →
  let r := failed_round bs (now, err) in
  same_bfb b r.1 ∧ bfb_FileName r.1 = bfb_FileName b ∧ DownloadingTaskMap r.2.1 !! n = None ∧
  length (futures r.2.1) = S (length (futures bs.2.1)) ∧
  if (c <? maxDownloadRetries)%Z then bfb_Phase r.1 = BFBDownloading ∧ retries n r.2.1 = (c + 1)%Z
  else bfb_Phase r.1 = BFBError ∧ retries n r.2.1 = 0%Z ∧
    c_Reason <$> Get r.1 BFBCondDownloaded = Some (if IsRecoverableDownloadError (Some err) then ReasonError else ReasonFailure).
Proof.
  cbn zeta. destruct bs as [b [m w]]. cbn [fst snd]. set (n := GenerateBFBTaskName b). intros [Hp Hd] Hn Hc Hk Habs.
  unfold failed_round. cbn [fst snd]. rewrite Downloading_run by done. cbn zeta. cbn [fst snd]. fold n.
  destruct (Habs w) as (e & Hs & He). destruct (statFile _ w) as [e' w1]. simpl in Hs. subst e'. unfold file_there.
  rewrite bool_decide_true, Hn by done. cbn [fst snd].
  set (m1 := finish_last err (start_download (new_task b) m)).
  assert (DownloadingTaskMap m1 !! n = Some (TFuture (length (futures m)))) as H1 by (unfold m1, n; simpl; by rewrite lookup_insert_eq).
  assert (futures m1 !! length (futures m) = Some (mkFuture (new_task b) false (Some (Some err)))) as H2.
  { unfold m1, finish_last. simpl. rewrite length_app. simpl. replace (pred (length (futures m) + 1)) with (length (futures m)) by lia.
    rewrite list_lookup_alter_eq. by rewrite list_lookup_middle. }
  assert (length (futures m1) = S (length (futures m))) as H3.
  { unfold m1, finish_last. simpl. rewrite length_alter, length_app. simpl. lia. }
  assert (downloadRetryCounter m1 = downloadRetryCounter m) as H4 by done.
  rewrite Downloading_run by done. cbn zeta. cbn [fst snd]. fold n.
  destruct (Habs w1) as (e' & Hs & He'). destruct (statFile _ w1) as [e'' w2]. simpl in Hs. subst e''. unfold file_there.
  rewrite bool_decide_true, H1, H2 by done. cbn [mbind option_bind fu_Result].
  destruct (error_handled now err b n (forget_download n m1, w2) Hk) as (Hsame & Hfile & Hr).
  destruct (handleDownloadError now err b n _) as [[b2 e2] [m2 w3]]. cbn [fst snd] in *.
  change (retries n (forget_download n m1)) with (retries n m) in Hr.
  assert (DownloadingTaskMap (forget_download n m1) !! n = None) as Hforget.
  { simpl. rewrite lookup_delete_None. right. by rewrite lookup_delete_eq. }
  split; [done|]. split; [done|]. destruct (retries n m <? maxDownloadRetries)%Z.
  - destruct Hr as (-> & -> & _). split; [done|]. split; [by rewrite <- H3|]. split; [done|].
    unfold retries at 1. simpl. by rewrite lookup_insert_eq.
  - destruct Hr as (-> & -> & _ & ->). split; [done|]. split; [by rewrite <- H3|]. split_and!; [done| |done].
    unfold retries at 1. simpl. by rewrite lookup_delete_eq.
Qed.

(** C27. A download that keeps failing is started four times and no more: the first
    three failures leave the BFB in Downloading, to be tried again, and the fourth
    takes it to Error, with the counter cleared and the reason that says whether the
    last failure is worth trying again later. *)
Theorem failed_downloads_end b m (w : W) rounds :
  downloading b → DownloadingTaskMap m !! GenerateBFBTaskName b = None → downloadRetryCounter m !! GenerateBFBTaskName b = None →
  Forall (λ te : Time * GoError, err_kind te.2 ≠ KCanceled) rounds → (length rounds <= 4)%nat →
  (∀ w, ∃ e, (statFile (GenerateBFBFilePath (bfb_FileName b)) w).1 = Some e ∧ err_kind e = KNotExist) →
  let r := foldl failed_round (b, (m, w)) rounds in
  length (futures r.2.1) = length (futures m) + length rounds ∧
  match rounds with
  | [_; _; _; (_, err)] => bfb_Phase r.1 = BFBError ∧ retries (GenerateBFBTaskName b) r.2.1 = 0%Z ∧
      c_Reason <$> Get r.1 BFBCondDownloaded = Some (if IsRecoverableDownloadError (Some err) then ReasonError else ReasonFailure)
  | _ => downloading r.1 ∧ retries (GenerateBFBTaskName b) r.2.1 = Z.of_nat (length rounds)
  end.
Proof.
  intros Hb Hn Hc Hk Hlen Habs. cbn zeta.
  assert (∀ rounds, Forall (λ te : Time * GoError, err_kind te.2 ≠ KCanceled) rounds → length rounds ≤ 3 →
    let r := foldl failed_round (b, (m, w)) rounds in
    downloading r.1 ∧ GenerateBFBTaskName r.1 = GenerateBFBTaskName b ∧ bfb_FileName r.1 = bfb_FileName b ∧
    DownloadingTaskMap r.2.1 !! GenerateBFBTaskName b = None ∧ length (futures r.2.1) = length (futures m) + length rounds ∧
    retries (GenerateBFBTaskName b) r.2.1 = Z.of_nat (length rounds)) as Hmany.
  { clear rounds Hk Hlen. intros rounds. induction rounds as [|[now err] rounds IH] using rev_ind; intros Hk Hl.
    { simpl. unfold retries. rewrite Hc. split_and!; done || lia. }
    rewrite Forall_app, Forall_singleton in Hk. rewrite length_app in Hl. simpl in Hl. destruct Hk as [Hk Hk'].
    destruct (IH Hk ltac:(lia)) as (H1 & H2 & H3 & H4 & H5 & H6). rewrite foldl_app. cbn [foldl].
    destruct (foldl failed_round (b, (m, w)) rounds) as [b' s']. cbn [fst snd] in *.
    pose proof (failed_round_spec (b', s') now err) as Hr. cbn [fst snd] in Hr. rewrite H2, H3, H6 in Hr.
    destruct (Hr H1 H4 ltac:(unfold maxDownloadRetries; lia) Hk' Habs) as (Hs & Hf & Ht & Hnum & Hcase).
    replace (Z.of_nat (length rounds) <? maxDownloadRetries)%Z with true in Hcase by (symmetry; apply Z.ltb_lt; unfold maxDownloadRetries; lia).
    destruct Hcase as [Hp Hcount], Hs as (Hkey & Huid & _ & _ & Hdel), H1 as [_ Hnd]. rewrite length_app. simpl. split_and!.
    - split; [done|]. unfold isDeleting in *. by rewrite Hdel.
    - rewrite <- H2. unfold GenerateBFBTaskName. unfold bfb_key in Hkey. injection Hkey as -> ->. by rewrite Huid.
    - by rewrite Hf.
    - done.
    - lia.
    - rewrite Hcount. lia. }
  destruct rounds as [|r1 [|r2 [|r3 [|[now err] [|r5 rounds]]]]]; [| | | | |simpl in Hlen; lia].
  1-4: match goal with |- context [foldl failed_round _ ?rs] => destruct (Hmany rs Hk ltac:(simpl; lia)) as (? & ? & ? & ? & ? & ?) end; done.
  change [r1; r2; r3; (now, err)] with ([r1; r2; r3] ++ [(now, err)]) in Hk |- *. rewrite foldl_app. cbn [foldl app].
  apply Forall_app in Hk as [Hk Hk']. destruct (Hmany [r1; r2; r3] Hk ltac:(simpl; lia)) as (H1 & H2 & H3 & H4 & H5 & H6).
  cbn [foldl] in *. destruct (failed_round (failed_round (failed_round (b, (m, w)) r1) r2) r3) as [b' s']. cbn [fst snd] in *.
  pose proof (failed_round_spec (b', s') now err) as Hr. cbn [fst snd] in Hr. rewrite H2, H3, H6 in Hr. rewrite Forall_singleton in Hk'.
  destruct (Hr H1 H4 ltac:(done) Hk' Habs) as (_ & _ & _ & Hnum & Hcase). split; [rewrite Hnum, H5; simpl; lia|exact Hcase].
Qed.
End Retries.

(** ** Behaviours worth knowing *)

Section Behaviours.
Context {API : MetaAPI} {AL : MetaAPILaws API} {W : Type} {C : BFBClient W} {J : InventoryJSON}.

Lemma shouldRetry_iff later b c :
  Get b BFBCondDownloaded = Some c → c_Reason c = ReasonError →
  shouldRetry later b = true ↔
    (c_LastTransitionTime c + RetryInterval <= later < c_LastTransitionTime c + RetryWindow)%Z.
Proof. intros Hc Hr. unfold shouldRetry. rewrite Hc, Hr. simpl. rewrite andb_true_iff, Z.leb_le, Z.ltb_lt. lia. Qed.

(** The wait before a BFB in Error is tried again does not count from the last
    failure.  It counts from the moment Downloaded last became False, which neither a
    new failure nor a retry changes: once [RetryInterval] has passed since the first
    failure, every later one is tried again at once, until [RetryWindow] closes. *)
Theorem retry_counts_from_first_failure now err b n (s : Memory * W) c :
  Get b BFBCondDownloaded = Some c → c_Status c = ConditionFalse → IsRecoverableDownloadError (Some err) = true →
  let b' := (handleDownloadError now err b n s).1.1 in
  bfb_Phase b' = BFBError →
  (∀ later, shouldRetry later b' = true ↔
     (c_LastTransitionTime c + RetryInterval <= later < c_LastTransitionTime c + RetryWindow)%Z) ∧
  (∀ later, shouldRetry later b' = true → isDeleting b' = false →
     let b2 := (Error later b').1 in
     bfb_Phase b2 = BFBDownloading ∧
     ∃ c2, Get b2 BFBCondDownloaded = Some c2 ∧ c_Status c2 = ConditionFalse ∧ c_LastTransitionTime c2 = c_LastTransitionTime c).
Proof.
  intros Hc Hf Hrec. cbn zeta. intros Hp.
  assert (∃ c', Get (handleDownloadError now err b n s).1.1 BFBCondDownloaded = Some c' ∧ c_Reason c' = ReasonError ∧
    c_Status c' = ConditionFalse ∧ c_LastTransitionTime c' = c_LastTransitionTime c) as (c' & Hc' & Hr' & Hs' & Ht').
  { revert Hp. unfold handleDownloadError, incrementRetryCounter, getRetryCount, clearRetryCounter, mem, mbind, SM_bind.
    case_bool_decide; [by intros|]. cbn [fst snd]. destruct (_ <? _)%Z; [by intros|]. cbn [mret SM_ret fst snd]. intros _.
    match goal with |- context [AddFalse now ?b' ?ct ?cr ?cm] => destruct (AddFalse_get now b' ct cr cm) as (c' & -> & Hr & Hs & Ht) end.
    exists c'. rewrite Hrec in Hr. split_and!; [done..|]. rewrite Ht. change (Get (with_bfb_Phase BFBError b) BFBCondDownloaded) with (Get b BFBCondDownloaded).
    rewrite Hc. by rewrite bool_decide_true. }
  generalize dependent (handleDownloadError now err b n s).1.1. intros b' Hp Hc'. split.
  - intros later. rewrite (shouldRetry_iff later b' c'), Ht' by done. done.
  - intros later Hs Hd. unfold Error. rewrite Hd, Hs. cbn [fst].
    destruct (AddFalse_get later (with_bfb_Phase BFBDownloading b') BFBCondDownloaded ReasonPending "Retrying download after transient error")
      as (c2 & Hc2 & _ & Hs2 & Ht2). split; [done|]. exists c2.
    destruct (Get_add later (AddFalse later (with_bfb_Phase BFBDownloading b') BFBCondDownloaded ReasonPending "Retrying download after transient error")
      ConditionFalse BFBCondError ReasonPending "Retry initiated" BFBCondDownloaded) as (? & Hg & _).
    unfold AddFalse at 1. rewrite Hg, decide_False by done. split_and!; [done..|]. rewrite Ht2.
    change (Get (with_bfb_Phase BFBDownloading b') BFBCondDownloaded) with (Get b' BFBCondDownloaded). rewrite Hc', bool_decide_true by done. done.
Qed.

(** An answer of the server other than 200 is final: when every request gets one,
    the error the download ends with is not recoverable, so the BFB goes to Error
    with a reason that nothing in the controller tries again. *)
Theorem server_error_is_final {T : Transfer W} bfbTask (w : W) :
  (∀ w, ∃ w', ctxDone w = (false, w')) → (∀ d w, ∃ w', wait d w = (false, w')) → (∀ m u, newRequest m u = None) →
  (∀ p w, (createFile p w).1 = None) →
  (∀ u w, ∃ resp, (httpDo "GET" u w).1 = Ok resp ∧ rs_StatusCode resp ≠ StatusOK) →
  ∃ e, (downloadBFB bfbTask w).1 = (false, Some e) ∧
    ∀ now b n (s : Memory * W) later, bfb_Phase (handleDownloadError now e b n s).1.1 = BFBError →
      shouldRetry later (handleDownloadError now e b n s).1.1 = false.
Proof.
  intros Hctx Hwait Hnew Hcreate Hdo.
  assert (∀ togo n url d e w, err_kind e = KOther →
    ∃ e', (request_loop togo n "GET" url [] d e w).1 = Err e' ∧ err_kind e' = KOther) as Hloop.
  { intros togo n url. induction togo as [|togo IH]; intros d e w0 He; [by eexists|]. cbn [request_loop]. unfold mbind, SM_bind.
    destruct (Hctx w0) as [w1 ->]. unfold DoRequest. rewrite Hnew. unfold mbind, SM_bind.
    destruct (Hdo url w1) as (resp & Hr & Hst). destruct (httpDo "GET" url w1) as [r w2]. simpl in Hr. subst r. unfold CheckHTTPResponse.
    rewrite bool_decide_false by (rewrite list_elem_of_singleton; done). cbn [mret SM_ret].
    destruct (Hctx w2) as [w3 ->]. case_bool_decide; [by apply IH|]. destruct (Hwait d w3) as [w4 ->]. by apply IH. }
  assert (∃ e, (downloadBFB bfbTask w).1 = (false, Some e) ∧ err_kind e = KOther) as (e & He & Hk).
  { unfold downloadBFB, mbind, SM_bind. pose proof (Hcreate (GenerateBFBTMPFilePath (tk_UID bfbTask)) w) as Hc.
    destruct (createFile _ w) as [ce w1]. simpl in Hc. subst ce. unfold fetch, DoRequestWithRetry, mbind, SM_bind.
    destruct (Hloop 4 3 (tk_URL bfbTask) second (errorf "%!w(<nil>)") w1 eq_refl) as (e & He & Hk).
    destruct (request_loop _ _ _ _ _ _ _ w1) as [r w2]. simpl in He. subst r. cbn [mret SM_ret].
    destruct (unlinkFile _ w2) as [u w3]. by exists e. }
  exists e. split; [done|]. intros now b n s later Hp.
  destruct (error_handled now e b n s) as (_ & _ & Hr); [by rewrite Hk|]. destruct (_ <? _)%Z.
  - destruct Hr as [Hr _]. by rewrite Hr in Hp.
  - destruct Hr as (_ & _ & _ & Hr). unfold shouldRetry. destruct (Get _ _) as [c|]; [|done]. simpl in Hr. injection Hr as ->.
    unfold IsRecoverableDownloadError. by rewrite Hk.
Qed.

(** The default file name does not tell all BFBs apart: namespace and name are
    joined by a dash that both may contain.  Two such BFBs share one file, and the one
    that finds it there becomes Ready without a download from its own URL. *)
Theorem default_file_shared now b1 b2 x :
  bfb_Namespace b2 = bfb_Namespace b1 +:+ "-" +:+ x → bfb_Name b1 = x +:+ "-" +:+ bfb_Name b2 →
  bs_FileName (bfb_Spec b1) = None → bs_FileName (bfb_Spec b2) = None → isDeleting b1 = false → isDeleting b2 = false →
  let i1 := (Initializing now b1).1 in let i2 := (Initializing now b2).1 in
  bfb_FileName i1 = bfb_FileName i2 ∧
  ∀ (s : Memory * W) v, (statFile (GenerateBFBFilePath (bfb_FileName i1)) s.2).1 = None →
    DownloadingTaskMap s.1 !! GenerateBFBTaskName b2 = None → bs_Versions (bfb_Spec b2) = Some v →
    let r := Downloading now i2 s in
    bfb_Phase r.1.1 = BFBReady ∧ futures r.2.1 = futures s.1 ∧ DownloadingTaskMap r.2.1 = DownloadingTaskMap s.1.
Proof.
  intros Hns Hname Hf1 Hf2 Hd1 Hd2. cbn zeta. unfold Initializing. rewrite Hd1, Hd2, Hf1, Hf2. cbn [fst].
  assert (DefaultBFBFilename b1 = DefaultBFBFilename b2) as Hfile.
  { unfold DefaultBFBFilename. rewrite Hns, Hname. by rewrite !string_app_assoc. }
  split; [exact Hfile|]. intros s v Hs Ht Hv.
  rewrite Downloading_run by done. cbn zeta.
  change (bfb_FileName (with_bfb_Phase BFBDownloading (AddTrue now (with_bfb_FileName (DefaultBFBFilename b1) b1) BFBCondInitialized)))
    with (DefaultBFBFilename b1) in Hs.
  change (bfb_FileName (with_bfb_Phase BFBDownloading (AddTrue now (with_bfb_FileName (DefaultBFBFilename b2) b2) BFBCondInitialized)))
    with (DefaultBFBFilename b2). rewrite <- Hfile. destruct (statFile _ s.2) as [e w]. simpl in Hs. subst e. cbn [file_there].
  match goal with |- context [DownloadingTaskMap s.1 !! ?k] => change k with (GenerateBFBTaskName b2) end. rewrite Ht.
  unfold downloaded, clearRetryCounter, mem, mbind, SM_bind.
  match goal with |- context [bs_Versions (bfb_Spec ?b)] => change (bfb_Spec b) with (bfb_Spec b2) end. rewrite Hv. done.
Qed.
End Behaviours.

(** ** Instances *)

Definition example_downloading : BFB := example_bfb_in BFBDownloading None [].
(** The client whose only BFB is being downloaded. *)
Definition one_bfb_client : BFBClient BWorld := {|
  fetchBFB _ w := (Ok example_downloading, w);
  patchBFB := patchBFB (BFBClient:=fake_bfb_client);
  dpuSetsIn := dpuSetsIn (BFBClient:=fake_bfb_client);
  dpusIn := dpusIn (BFBClient:=fake_bfb_client);
  statFile := statFile (BFBClient:=fake_bfb_client);
  unlinkFile := unlinkFile (BFBClient:=fake_bfb_client);
  openFile := openFile (BFBClient:=fake_bfb_client) |}.

Lemma example_uid_valid : valid_uid (bfb_UID example_downloading).
Proof. exists "0"%char. split; [reflexivity|discriminate]. Qed.


(** Three timeouts and an answer that is not worth another try. *)
Definition example_rounds : list (Time * GoError) :=
  let timeout := mkGoError KNetwork "timeout" in [(1%Z, timeout); (2%Z, timeout); (3%Z, timeout); (4%Z, errorf "unexpected HTTP status")].
(** A volume that never holds the file. *)
Definition empty_volume : BFBClient BWorld := {|
  fetchBFB := fetchBFB (BFBClient:=fake_bfb_client);
  patchBFB := patchBFB (BFBClient:=fake_bfb_client);
  dpuSetsIn := dpuSetsIn (BFBClient:=fake_bfb_client);
  dpusIn := dpusIn (BFBClient:=fake_bfb_client);
  statFile _ w := (Some no_such_file, w);
  unlinkFile _ w := (Some no_such_file, w);
  openFile _ w := (Err no_such_file, w) |}.

Lemma failed_downloads_end_witness :
  let r := foldl (failed_round (API:=meta_list) (C:=empty_volume) (J:=fake_inventory))
             (example_downloading, (fresh_memory, example_bworld ∅ (Err no_such_file))) example_rounds in
  length (futures r.2.1) = 4 ∧ bfb_Phase r.1 = BFBError ∧ c_Reason <$> Get r.1 BFBCondDownloaded = Some ReasonFailure.
Proof.
  cbn zeta.
  destruct (failed_downloads_end (API:=meta_list) (C:=empty_volume) (J:=fake_inventory) example_downloading fresh_memory
    (example_bworld ∅ (Err no_such_file)) example_rounds) as (Hn & Hp & _ & Hr).
  - split; reflexivity.
  - reflexivity.
  - reflexivity.
  - repeat constructor; discriminate.
  - repeat constructor.
  - intros w. exists no_such_file. split; reflexivity.
  - split; [exact Hn|]. split; [exact Hp|exact Hr].
Defined.

(** Downloaded is False since second 0; the download fails again an hour later, and is
    tried again a second after that. *)
Definition hour : Z := (3600 * second)%Z.
Definition example_failed : Condition := mkCondition BFBCondDownloaded ConditionFalse 1 0 ReasonRetrying "".
Definition example_tried : Memory := mkMemory ∅ {["ns-image-uid-0" := 3%Z]} [].

Lemma retry_counts_from_first_failure_witness :
  let b := example_bfb_in BFBDownloading None [example_failed] in
  let b' := (handleDownloadError (API:=meta_list) hour no_such_file b "ns-image-uid-0" (example_tried, example_bworld ∅ (Err no_such_file))).1.1 in
  bfb_Phase b' = BFBError ∧ shouldRetry (hour + second) b' = true.
Proof.
  cbn zeta. split; [reflexivity|].
  apply (retry_counts_from_first_failure (API:=meta_list) hour no_such_file (example_bfb_in BFBDownloading None [example_failed])
    "ns-image-uid-0" (example_tried, example_bworld ∅ (Err no_such_file)) example_failed); try reflexivity.
  vm_compute. split; [discriminate|reflexivity].
Defined.

Definition not_found_response : Response := mkResponse 404 0 [].
(** A server that has nothing. *)
Definition no_image_transfer : Transfer BWorld := {|
  newRequest := newRequest (Transfer:=fake_transfer);
  httpDo _ _ w := (Ok not_found_response, w);
  StatusText := StatusText (Transfer:=fake_transfer);
  ctxDone := ctxDone (Transfer:=fake_transfer);
  wait := wait (Transfer:=fake_transfer);
  createFile := createFile (Transfer:=fake_transfer);
  appendFile := appendFile (Transfer:=fake_transfer);
  closeFile := closeFile (Transfer:=fake_transfer);
  chmodFile := chmodFile (Transfer:=fake_transfer);
  renameFile := renameFile (Transfer:=fake_transfer) |}.

Lemma server_error_is_final_witness :
  ∃ e, (downloadBFB (C:=fake_bfb_client) (T:=no_image_transfer) example_task (example_bworld ∅ (Err no_such_file))).1 = (false, Some e) ∧
    ∀ later, shouldRetry later (handleDownloadError (API:=meta_list) 7 e example_downloading "ns-image-uid-0"
      (example_tried, example_bworld ∅ (Err no_such_file))).1.1 = false.
Proof.
  destruct (server_error_is_final (API:=meta_list) (C:=fake_bfb_client) (T:=no_image_transfer) example_task
    (example_bworld ∅ (Err no_such_file))) as (e & He & Hf).
  - intros w. by exists w.
  - intros d w. by exists w.
  - done.
  - done.
  - intros u w. exists not_found_response. done.
  - exists e. split; [exact He|]. intros later. apply Hf. vm_compute in He. injection He as <-. reflexivity.
Defined.

Definition example_bfb_named (ns name url : string) : BFB :=
  mkBFB name ns (ns +:+ name) 1 [BFBFinalizer] None (mkBFBSpec None url (Some (mkBFBVersions "4.11" "3.0.0" "4.11" "4.11"))) "" BFBInitializing
    (mkBFBVersions "" "" "" "") 1 [].

(** team/a-image and team-a/image. *)
Lemma default_file_shared_witness :
  let b1 := example_bfb_named "team" "a-image" "http://images/1" in
  let b2 := example_bfb_named "team-a" "image" "http://images/2" in
  bfb_Phase (Downloading (API:=meta_list) (C:=fake_bfb_client) (J:=fake_inventory) 7 (Initializing (API:=meta_list) 7 b2).1
    (fresh_memory, example_bworld {[ "/bfb/team-a-image.bfb" := "image 1" ]} (Err no_such_file))).1.1 = BFBReady.
Proof.
  cbn zeta.
  refine (proj1 (proj2 (default_file_shared (API:=meta_list) (C:=fake_bfb_client) (J:=fake_inventory) 7
    (example_bfb_named "team" "a-image" "http://images/1") (example_bfb_named "team-a" "image" "http://images/2") "a" _ _ _ _ _ _)
    (fresh_memory, example_bworld {[ "/bfb/team-a-image.bfb" := "image 1" ]} (Err no_such_file)) (mkBFBVersions "4.11" "3.0.0" "4.11" "4.11") _ _ _));
  reflexivity.
Defined.
