(* ===== verification/CSRController.v ===== *)
(** The controller that approves certificate signing requests of agents
    (csr/csr_controller.go) and the names of their certificates
    (provisioning/utils/certificate/identity).

    PEM, X.509 and the signature of a request are operations of the class [X509]. *)

From S2P Require Import Prelude.
From S2P Require Import DPUTypes.
From S2P Require Import Kubernetes.
From S2P Require Import Meta.
From S2P Require Import Allocator.
From S2P Require Import ClusterMetadata.
From S2P Require Import WriteLog.
From Stdlib Require Import Ascii.

(** ** Data *)

Definition hostAgentBootstrapGroup := "system:bootstrappers:dpf:host-agent".
Definition dpuAgentApprovedReason := "DPUAgentApproved".
Definition hostAgentApprovedReason := "HostAgentApproved".
Definition DPUAgentBootstrapGroup := "system:bootstrappers:dpf:dpu-agent".
Definition DPUAgentOrganization := "dpu-agents".
Definition DPFNamespace := "dpf-operator-system".
Definition KubeAPIServerClientSignerName := "kubernetes.io/kube-apiserver-client".
Definition CertificateApproved := "Approved".
Definition CertificateDenied := "Denied".

Record CSRCondition := mkCSRCondition {
  cc_Type : string; cc_Status : ConditionStatus; cc_Reason : string; cc_Message : string; cc_LastUpdateTime : Time; cc_LastTransitionTime : Time }.
(** A CertificateSigningRequest; [csr_Username] is the user that made the request. *)
Record CSR := mkCSR {
  csr_Name : string;
  csr_Username : string;
  csr_Groups : list string;
  csr_SignerName : string;
  csr_Request : string;
  csr_Conditions : list CSRCondition }.
(** An X.509 certificate request: its bytes, and the two fields of its subject the code reads. *)
Record CertificateRequest := mkCertificateRequest { cr_Raw : string; cr_CommonName : string; cr_Organization : list string }.

Class X509 := {
  pem_Decode : string → option string;
  ParseCertificateRequest : string → Res CertificateRequest;
  CheckSignature : CertificateRequest → option GoError }.

Class CSRClient (W : Type) := {
  getCSR : NamespacedName → SM W (Res CSR);
  getDPUNamed : NamespacedName → SM W (Res DPU);
  UpdateApproval : CSR → SM W (option GoError) }.

(** ** Names of certificates *)

Definition DPUAgentUsername (dpuName : string) : string := "da-" +:+ dpuName.
Definition DPUNameFromAgentUsername (username : string) : option string :=
  match username with
  | String "d"%char (String "a"%char (String "-"%char dpuName)) => if bool_decide (dpuName = "") then None else Some dpuName
  | _ => None
  end.

(** ** The controller *)

Definition shouldProcessCSRObject (csr : CSR) : bool :=
  existsb (λ group, bool_decide (group = hostAgentBootstrapGroup) || bool_decide (group = DPUAgentBootstrapGroup)
                    || bool_decide (group = DPUAgentOrganization)) (csr_Groups csr).
Definition isDPUAgentCSR (csr : CSR) : bool :=
  existsb (λ group, bool_decide (group = DPUAgentBootstrapGroup) || bool_decide (group = DPUAgentOrganization)) (csr_Groups csr).

(** A [csrValidationError], or another error. *)
Inductive CSRError := csrValidationError (message : string) | OtherError (err : GoError).

Section Controller.
Context {W : Type} {C : CSRClient W} {X : X509}.
(** The two readings of the clock in [updateApprovalCondition]. *)
Context (now now' : Time).

Definition validateDPUAgentCSR (csr : CSR) : SM W (option CSRError) := run (
  _ ← return_if (negb (bool_decide (csr_SignerName csr = KubeAPIServerClientSignerName)))
        (Some (csrValidationError ("unsupported signer " +:+ quoted (csr_SignerName csr))));
  block ← match pem_Decode (csr_Request csr) with
          | Some block => mret block
          | None => return_early (Some (csrValidationError "invalid CSR PEM payload"))
          end;
  request ← match ParseCertificateRequest block with
            | Ok request => mret request
            | Err err => return_early (Some (csrValidationError ("parsing CSR request: " +:+ err_msg err)))
            end;
  _ ← match CheckSignature request with
      | Some err => return_early (Some (csrValidationError ("invalid CSR signature: " +:+ err_msg err)))
      | None => mret tt
      end;
  dpuName ← match DPUNameFromAgentUsername (cr_CommonName request) with
            | Some dpuName => mret dpuName
            | None => return_early (Some (csrValidationError ("common name " +:+ quoted (cr_CommonName request) +:+ " must match da-{dpu-name}")))
            end;
  _ ← return_if (negb (bool_decide (cr_Organization request = [DPUAgentOrganization])))
        (Some (csrValidationError ("organization must be " +:+ quoted DPUAgentOrganization)));
  dpu ← lift (getDPUNamed (mkNN DPFNamespace dpuName));
  match dpu with
  | Err err =>
      if IsNotFound err then return_early (Some (csrValidationError ("DPU " +:+ DPFNamespace +:+ "/" +:+ dpuName +:+ " not found")))
      else return_early (Some (OtherError (wrapf ("getting DPU " +:+ DPFNamespace +:+ "/" +:+ dpuName +:+ ": ") err)))
  | Ok _ => mret None
  end).

Definition approve (reason : string) (csr : CSR) : CSR :=
  mkCSR (csr_Name csr) (csr_Username csr) (csr_Groups csr) (csr_SignerName csr) (csr_Request csr)
    (csr_Conditions csr ++ [mkCSRCondition CertificateApproved ConditionTrue reason "approved by controller" now now']).
Definition updateApprovalCondition (csr : CSR) (reason : string) : SM W (option GoError) := UpdateApproval (approve reason csr).

Definition decided (csr : CSR) : bool :=
  existsb (λ cond, bool_decide (cc_Type cond = CertificateApproved) || bool_decide (cc_Type cond = CertificateDenied)) (csr_Conditions csr).

Definition reconcile_csr (csr : CSR) : SM W (option GoError) :=
  if decided csr then mret None
  else if isDPUAgentCSR csr then
    e ← validateDPUAgentCSR csr;
    match e with
    | Some (csrValidationError _) => mret None
    | Some (OtherError err) => mret (Some err)
    | None => updateApprovalCondition csr dpuAgentApprovedReason
    end
  else updateApprovalCondition csr hostAgentApprovedReason.

Definition Reconcile (key : NamespacedName) : SM W (option GoError) :=
  csr ← getCSR key;
  match csr with
  | Err err => mret (Some err)
  | Ok csr => reconcile_csr csr
  end.
End Controller.

(** ** Theorems *)

Section Theorems.
Context {W : Type} {C : CSRClient W} {X : X509} (now now' : Time).

(** The client with its approvals logged. *)
Definition logged_csr_client : CSRClient (W * list CSR) := {|
  getCSR key := unlogged (getCSR key);
  getDPUNamed key := unlogged (getDPUNamed key);
  UpdateApproval csr := logged (λ _, csr) (UpdateApproval csr) |}.
#[local] Existing Instance logged_csr_client | 0.

(** A request for the certificate of the agent of an existing DPU [n], signed by its key. *)
Record acceptable (w : W) (csr : CSR) (n : string) : Prop := {
  ac_name : n ≠ "";
  ac_signer : csr_SignerName csr = KubeAPIServerClientSignerName;
  ac_request : ∃ block request, pem_Decode (csr_Request csr) = Some block ∧
    ParseCertificateRequest block = Ok request ∧ CheckSignature request = None ∧
    cr_CommonName request = DPUAgentUsername n ∧ cr_Organization request = [DPUAgentOrganization];
  ac_dpu : ∃ dpu, (getDPUNamed (mkNN DPFNamespace n) w).1 = Ok dpu }.

Lemma DPUNameFromAgentUsername_spec u n : DPUNameFromAgentUsername u = Some n ↔ n ≠ "" ∧ u = DPUAgentUsername n.
Proof.
  split.
  - unfold DPUNameFromAgentUsername. intros H. repeat case_match; simplify_eq. by case_bool_decide; simplify_eq.
  - intros [Hn ->]. simpl. by rewrite bool_decide_false.
Qed.

(** What a validation answers, and that it writes nothing. *)
Lemma validate_spec w l csr : let r := validateDPUAgentCSR (W:=W * list CSR) csr (w, l) in
  r.2.2 = l ∧
  match r.1 with
  | None => ∃ n, acceptable w csr n
  | Some e => (∀ n, ¬ acceptable w csr n) ∧
      ∀ err, e = OtherError err → ∃ n err', (getDPUNamed (mkNN DPFNamespace n) w).1 = Err err' ∧ IsNotFound err' = false
  end.
Proof.
  unfold validateDPUAgentCSR, run, mbind, Fn_bind, return_if, return_early.
  destruct (decide (csr_SignerName csr = KubeAPIServerClientSignerName)) as [Hs|Hs];
    [rewrite bool_decide_true by done|rewrite bool_decide_false by done]; cbn.
  2: { split; [done|]. split; [by intros n []|done]. }
  destruct (pem_Decode (csr_Request csr)) as [block|] eqn:Hb; cbn.
  2: { split; [done|]. split; [|done]. intros n [_ _ (b & q & ? & _) _]. congruence. }
  destruct (ParseCertificateRequest block) as [q|err] eqn:Hq; cbn.
  2: { split; [done|]. split; [|done]. intros n [_ _ (b & q & ? & ? & _) _]. congruence. }
  destruct (CheckSignature q) as [err|] eqn:Hc; cbn.
  { split; [done|]. split; [|done]. intros n [_ _ (b & q' & ? & ? & ? & _) _]. congruence. }
  assert (Hreq : ∀ n, acceptable w csr n → n ≠ "" ∧ cr_CommonName q = DPUAgentUsername n ∧ cr_Organization q = [DPUAgentOrganization] ∧
    ∃ dpu, (getDPUNamed (mkNN DPFNamespace n) w).1 = Ok dpu).
  { intros n [? _ (b & q' & Hb2 & Hq2 & _ & ? & ?) ?]. rewrite Hb in Hb2. injection Hb2 as <-. rewrite Hq in Hq2. injection Hq2 as <-. done. }
  destruct (DPUNameFromAgentUsername (cr_CommonName q)) as [n|] eqn:Hn; cbn.
  2: { split; [done|]. split; [|done]. intros n (? & ? & _)%Hreq.
       by rewrite (proj2 (DPUNameFromAgentUsername_spec _ n)) in Hn. }
  apply DPUNameFromAgentUsername_spec in Hn as [Hne Hcn].
  destruct (decide (cr_Organization q = [DPUAgentOrganization])) as [Ho|Ho];
    [rewrite bool_decide_true by done|rewrite bool_decide_false by done]; cbn.
  2: { split; [done|]. split; [by intros ? (_ & _ & ? & _)%Hreq|done]. }
  unfold lift, unlogged. cbn. destruct (getDPUNamed (mkNN DPFNamespace n) w) as [[dpu|err] w'] eqn:Hd; cbn.
  - split; [done|]. exists n. constructor; [done|done|by exists block, q|]. rewrite Hd. by eexists.
  - assert (∀ m, ¬ acceptable w csr m).
    { intros m (_ & Hm & _ & dpu & Hdpu)%Hreq. assert (m = n) as -> by (rewrite Hcn in Hm; by injection Hm).
      by rewrite Hd in Hdpu. }
    destruct (IsNotFound err) eqn:He; cbn; (split; [done|]; split; [done|]); [done|].
    intros _ _. exists n, err. by rewrite Hd.
Qed.

Lemma updateApproval_log w l csr reason :
  (updateApprovalCondition (W:=W * list CSR) now now' csr reason (w, l)).2.2 = l ++ [approve now now' reason csr].
Proof. unfold updateApprovalCondition. cbn. unfold logged. cbn. by destruct (UpdateApproval _ w). Qed.

(** C15. An approval is the only write of a pass of the CSR controller.  A request already
    approved or denied is left alone; the request of a DPU agent is approved exactly
    when it asks the API server's client signer, with a valid signature of its own
    key, for the name of the agent of an existing DPU and for the organization of
    DPU agents; otherwise it stays pending and the pass succeeds, unless the look-up
    of the DPU failed.  Any other request is approved as it is. *)
Theorem csr_approvals key w csr :
  (getCSR key w).1 = Ok csr →
  let w' := (getCSR key w).2 in
  let r := Reconcile (W:=W * list CSR) now now' key (w, []) in
  (decided csr = true → r.1 = None ∧ r.2.2 = []) ∧
  (decided csr = false → isDPUAgentCSR csr = false → r.2.2 = [approve now now' hostAgentApprovedReason csr]) ∧
  (decided csr = false → isDPUAgentCSR csr = true →
    (r.2.2 = [approve now now' dpuAgentApprovedReason csr] ∧ ∃ n, acceptable w' csr n) ∨
    (r.2.2 = [] ∧ (∀ n, ¬ acceptable w' csr n) ∧
     (r.1 ≠ None → ∃ n err, (getDPUNamed (mkNN DPFNamespace n) w').1 = Err err ∧ IsNotFound err = false))).
Proof.
  intros Hc w' r. subst w' r. unfold Reconcile, mbind, SM_bind. cbn. unfold unlogged. cbn.
  destruct (getCSR key w) as [? w']. cbn in *. subst. unfold reconcile_csr.
  split; [by intros ->|]. split; intros -> ->; [by rewrite updateApproval_log|].
  unfold mbind, SM_bind. pose proof (validate_spec w' [] csr) as Hv. cbn in Hv.
  destruct (validateDPUAgentCSR csr (w', [])) as [[[|]|] [w1 l1]]; cbn in *; destruct Hv as [-> Hv].
  - right. split; [done|]. by split; [apply Hv|].
  - right. split; [done|]. split; [apply Hv|]. intros _. by eapply Hv.
  - left. split; [apply (updateApproval_log w1 [])|exact Hv].
Qed.

(** The user that makes a request is not compared with the name it asks for:
    with the certificate, or the bootstrap token, of the agent of one DPU, a request
    for the certificate of the agent of any other DPU is approved. *)
Theorem other_agents_certificate key w csr a b :
  (getCSR key w).1 = Ok csr → decided csr = false →
  csr_Groups csr = [DPUAgentOrganization] → csr_Username csr = DPUAgentUsername a → a ≠ b →
  acceptable (getCSR key w).2 csr b →
  (Reconcile (W:=W * list CSR) now now' key (w, [])).2.2 = [approve now now' dpuAgentApprovedReason csr].
Proof.
  intros Hc Hd Hg _ _ Ha. unfold Reconcile, mbind, SM_bind. cbn. unfold unlogged. cbn.
  destruct (getCSR key w) as [? w']. cbn in *. subst. unfold reconcile_csr. rewrite Hd.
  assert (isDPUAgentCSR csr = true) as -> by (unfold isDPUAgentCSR; by rewrite Hg).
  unfold mbind, SM_bind. pose proof (validate_spec w' [] csr) as Hv. cbn in Hv.
  destruct (validateDPUAgentCSR csr (w', [])) as [[[|]|] [w1 l1]]; cbn in *; destruct Hv as [-> Hv];
    [by destruct (proj1 Hv b)..|apply (updateApproval_log w1 [])].
Qed.
End Theorems.

(** ** A cluster with one DPU and one request *)

Section Example.
Definition example_request (signer username : string) (groups : list string) : CSR :=
  mkCSR "csr-1" username groups signer "pem" [].
#[local] Instance example_x509 : X509 := {|
  pem_Decode request := Some request;
  ParseCertificateRequest block := Ok (mkCertificateRequest block (DPUAgentUsername "dpu-b") [DPUAgentOrganization]);
  CheckSignature request := None |}.
(** The store: the requests, and the names of the DPUs. *)
#[local] Instance example_csr_client : CSRClient (list CSR * list string) := {|
  getCSR key s := match list_find (λ csr, csr_Name csr = nn_name key) s.1 with
                  | Some (_, csr) => (Ok csr, s)
                  | None => (Err (mkGoError KNotFound "not found"), s)
                  end;
  getDPUNamed key s := if bool_decide (nn_name key ∈ s.2) then (Ok (example_dpu (nn_name key) "c1"), s) else (Err (mkGoError KNotFound "not found"), s);
  UpdateApproval csr s := (None, ((λ c, if bool_decide (csr_Name c = csr_Name csr) then csr else c) <$> s.1, s.2)) |}.

Lemma csr_approvals_witness :
  let csr := example_request KubeAPIServerClientSignerName "" [DPUAgentBootstrapGroup] in
  (Reconcile (C:=logged_csr_client (C:=example_csr_client)) 1 2 (mkNN "" "csr-1") (([csr], ["dpu-b"]), [])).2.2
  = [approve 1 2 dpuAgentApprovedReason csr].
Proof.
  intros csr. destruct (csr_approvals (C:=example_csr_client) 1 2 (mkNN "" "csr-1") ([csr], ["dpu-b"]) csr eq_refl) as (_ & _ & H).
  destruct (H eq_refl eq_refl) as [[? _]|(_ & H' & _)]; [done|]. exfalso. apply (H' "dpu-b"). constructor; [done|done| |by eexists].
  by eexists "pem", _.
Defined.

Lemma other_agents_certificate_witness :
  let csr := example_request KubeAPIServerClientSignerName (DPUAgentUsername "dpu-a") [DPUAgentOrganization] in
  (Reconcile (C:=logged_csr_client (C:=example_csr_client)) 1 2 (mkNN "" "csr-1") (([csr], ["dpu-b"]), [])).2.2
  = [approve 1 2 dpuAgentApprovedReason csr].
Proof.
  intros csr.
  refine (other_agents_certificate (C:=example_csr_client) 1 2 (mkNN "" "csr-1") ([csr], ["dpu-b"]) csr "dpu-a" "dpu-b" eq_refl eq_refl eq_refl eq_refl _ _);
    [done|]. constructor; [done|done| |by eexists]. by eexists "pem", _.
Defined.
End Example.
