(* ===== verification/DPUClusterController.v ===== *)
(** The controller of DPUClusters (dpucluster/dpucluster_controller.go), which feeds
    the allocator of the DPU controller.

    A pass saves the object it read in the allocator by reference and then writes
    its status through that reference: [publish] makes each such write one of the
    cluster in the cache.  The clients of DPU clusters, kept by UID, are values of a
    type [K]; [ClusterClients] makes them and asks them for their version. *)

From S2P Require Import Prelude.
From S2P Require Import Meta.
From S2P Require Import Conditions.
From S2P Require Import DPUTypes.
From S2P Require Import DPUConditions.
From S2P Require Import Kubernetes.
From S2P Require Import FakeClient.
From S2P Require Import Allocator.
From S2P Require Import WriteLog.

Definition PhasePending := "Pending".
Definition PhaseCreating := "Creating".
Definition PhaseNotReady := "NotReady".
Definition ConditionCreated := "Created".
Definition ConditionReady := "Ready".
Definition ConditionEtcdEncryptionRotationInProgress := "EtcdEncryptionRotationInProgress".
Definition ConditionEtcdEncryptionRotationBlocked := "EtcdEncryptionRotationBlocked".
Definition FinalizerInternalCleanUp := "provisioning.dpu.nvidia.com/cluster-manager-internal-clean-up".

Definition with_dc_Finalizers (fs : list string) (dc : DPUCluster) : DPUCluster :=
  mkDPUCluster (dc_Name dc) (dc_Namespace dc) (dc_UID dc) (dc_Labels dc) fs (dc_DeletionTimestamp dc) (dc_MaxNodes dc)
    (dc_Phase dc) (dc_Version dc) (dc_NodesCount dc) (dc_Conditions dc).
Definition with_dc_status (phase version : string) (count : Z) (conds : list Condition) (dc : DPUCluster) : DPUCluster :=
  mkDPUCluster (dc_Name dc) (dc_Namespace dc) (dc_UID dc) (dc_Labels dc) (dc_Finalizers dc) (dc_DeletionTimestamp dc)
    (dc_MaxNodes dc) phase version count conds.
Definition with_dc_Phase (phase : string) (dc : DPUCluster) : DPUCluster :=
  with_dc_status phase (dc_Version dc) (dc_NodesCount dc) (dc_Conditions dc) dc.
Definition with_dc_Version (version : string) (dc : DPUCluster) : DPUCluster :=
  with_dc_status (dc_Phase dc) version (dc_NodesCount dc) (dc_Conditions dc) dc.
Definition with_dc_NodesCount (count : Z) (dc : DPUCluster) : DPUCluster :=
  with_dc_status (dc_Phase dc) (dc_Version dc) count (dc_Conditions dc) dc.
Definition with_dc_Conditions (conds : list Condition) (dc : DPUCluster) : DPUCluster :=
  with_dc_status (dc_Phase dc) (dc_Version dc) (dc_NodesCount dc) conds dc.

(** Gets of clusters and lists of DPUs; writes, which give back the object the server
    stored, for the code decodes it into the one it wrote; and the [NewAggregate] of
    k8s.io/apimachinery. *)
Class ClusterClient (W : Type) := {
  readDPUCluster : NamespacedName → SM W (Res DPUCluster);
  listAllDPUs : SM W (Res (list DPU));
  updateDPUCluster : DPUCluster → SM W (Res DPUCluster);
  updateDPUClusterStatus : DPUCluster → SM W (Res DPUCluster);
  NewAggregate : list GoError → option GoError }.

Class ClusterClients (W K : Type) := {
  GetClientset : DPUCluster → SM W (Res K);
  ServerVersion : K → SM W (Res string) }.

Class ClusterClientLaws (W : Type) (D : ClusterClient W) := {
  (** Names and UIDs do not change. *)
  update_cluster dc w dc' : (updateDPUCluster dc w).1 = Ok dc' → dc_UID dc' = dc_UID dc ∧ dc_key dc' = dc_key dc;
  (** Names and UIDs do not change, and a status write stores the status. *)
  update_cluster_status dc w dc' : (updateDPUClusterStatus dc w).1 = Ok dc' →
    dc_UID dc' = dc_UID dc ∧ dc_key dc' = dc_key dc ∧ dc_Phase dc' = dc_Phase dc;
  (** "If the errlist is empty, this returns nil". *)
  aggregate_nil errs : NewAggregate errs = None ↔ errs = [] }.

(** ** Readiness *)

Definition isDPUClusterReadinessAggregationIgnoredCondition (conditionType : string) : bool :=
  bool_decide (conditionType = ConditionReady) || bool_decide (conditionType = ConditionEtcdEncryptionRotationInProgress)
  || bool_decide (conditionType = ConditionEtcdEncryptionRotationBlocked).

(** The body of the loop on (allTrue, isCreated). *)
Definition readiness_step (acc : bool * bool) (cond : Condition) : bool * bool :=
  if isDPUClusterReadinessAggregationIgnoredCondition (c_Type cond) then acc
  else (acc.1 && status_is ConditionTrue cond,
        if bool_decide (c_Type cond = ConditionCreated) then status_is ConditionTrue cond else acc.2).
Definition allTrue (conds : list Condition) : bool :=
  let acc := foldl readiness_step (true, false) conds in acc.1 && acc.2.

(** ** The reconcile *)

(** The allocator, and the [sync.Map] of clients. *)
Record ClusterMemory (K : Type) := mkClusterMemory { cm_allocator : allocator; adminClients : gmap string K }.
Arguments mkClusterMemory {K}. Arguments cm_allocator {K}. Arguments adminClients {K}.

Section Controller.
Context {API : MetaAPI} {F : FinalizerAPI} {W K : Type} {D : ClusterClient W} {L : ClusterClients W K}.
Context (now : Time).
Local Abbreviation M := (SM (ClusterMemory K * W)).

Definition alloc_op (f : allocator → allocator) : M unit := λ s,
  (tt, (mkClusterMemory (f (cm_allocator s.1)) (adminClients s.1), s.2)).
Definition clients_op (f : gmap string K → gmap string K) : M unit := λ s,
  (tt, (mkClusterMemory (cm_allocator s.1) (f (adminClients s.1)), s.2)).
Definition outside {A} (m : SM W A) : M A := λ s, match m s.2 with (a, w) => (a, (s.1, w)) end.

(** [dc], to which the cache has a pointer, has changed. *)
Definition publish (dc : DPUCluster) (a : allocator) : allocator :=
  match al_clusterInfoMap a !! dc_UID dc with
  | Some l => with_heap (alter (λ ci, mkCI dc (ci_dpus ci)) l (al_heap a)) a
  | None => a
  end.

Definition getOrCreateClient (dc : DPUCluster) : M (Res K) := λ s,
  match adminClients s.1 !! dc_UID dc with
  | Some client => (Ok client, s)
  | None =>
      (clientSet ← outside (GetClientset dc);
       match clientSet with
       | Err err => mret (Err err)
       | Ok clientSet => _ ← clients_op <[dc_UID dc := clientSet]>; mret (Ok clientSet)
       end) s
  end.

Definition reconcileDelete (dc : DPUCluster) : M (option GoError) := run (
  _ ← lift (alloc_op (saveCluster dc));
  dpuList ← or_return (outside listAllDPUs) (λ err, Some (wrapf "failed to list DPUs " err));
  let dpuCountOfCluster := count (λ dpu, bool_decide (kc_Name (sp_Cluster (dpu_Spec dpu)) = dc_Name dc)
                             && bool_decide (kc_Namespace (sp_Cluster (dpu_Spec dpu)) = dc_Namespace dc)) dpuList in
  _ ← return_if (negb (dpuCountOfCluster =? 0)%nat) (Some (errorf "there are still DPUs in the cluster"));
  _ ← lift (alloc_op (removeCluster dc));
  _ ← lift (clients_op (delete (dc_UID dc)));
  _ ← or_return (outside (updateDPUCluster (with_dc_Finalizers (RemoveFinalizer (dc_Finalizers dc) FinalizerInternalCleanUp) dc)))
        (λ err, Some (wrapf "failed to update DPUCluster " err));
  mret None).

(** The version of the cluster, or the error of its check with its message. *)
Definition healthCheck (dc : DPUCluster) : M (string * GoError + string) :=
  adminClient ← getOrCreateClient dc;
  match adminClient with
  | Err err => mret (inl ("failed to get admin client", err))
  | Ok adminClient =>
      serverVersion ← outside (ServerVersion adminClient);
      mret (match serverVersion with
            | Err err => inl ("health check failed", err)
            | Ok version => inr version
            end)
  end.

(** The phase, the version and the Ready condition a pass sets, and its errors. *)
Definition assess (dc : DPUCluster) : M (DPUCluster * list GoError) :=
  if allTrue (dc_Conditions dc) then
    health ← healthCheck dc;
    mret (match health with
          | inl (healthCheckMsg, healthCheckErr) =>
              let cond := NewDPUCondition ConditionReady (Some healthCheckErr) "HealthCheckFailed" "" in
              (with_dc_Phase PhaseNotReady (with_dc_Conditions (SetStatusCondition now (dc_Conditions dc) cond) dc),
               [errorf (healthCheckMsg +:+ ", err: " +:+ err_msg healthCheckErr)])
          | inr version =>
              let cond := NewDPUCondition ConditionReady None "HealthCheckPassed" "" in
              let dc := with_dc_Version version dc in
              (with_dc_Phase PhaseReady (with_dc_Conditions (SetStatusCondition now (dc_Conditions dc) cond) dc), [])
          end)
  else mret (if bool_decide (dc_Phase dc = PhaseReady) || bool_decide (dc_Phase dc = PhaseNotReady)
             then (with_dc_Phase PhaseNotReady dc, []) else (dc, [])).

(** A status write of the object the cache points to. *)
Definition write_status (dc : DPUCluster) : M (option GoError) :=
  r ← outside (updateDPUClusterStatus dc);
  match r with
  | Err err => mret (Some err)
  | Ok dc => _ ← alloc_op (publish dc); mret None
  end.

(** From [SaveCluster] on. *)
Definition reconcile_saved (dc : DPUCluster) : Fn (ClusterMemory K * W) (option GoError) (option GoError) :=
  _ ← lift (alloc_op (saveCluster dc));
  n ← lift (λ s, (getDPUsCount dc (cm_allocator s.1), s));
  let dc := with_dc_NodesCount (Z.of_nat n) dc in
  _ ← lift (alloc_op (publish dc));
  if bool_decide (dc_Phase dc = PhasePending) then
    let dc := with_dc_Phase PhaseCreating dc in
    _ ← lift (alloc_op (publish dc));
    _ ← check (write_status dc) (λ err, Some (wrapf "failed to set Creating phase " err));
    mret None
  else
    r ← lift (assess dc);
    _ ← lift (alloc_op (publish r.1));
    err ← lift (write_status r.1);
    mret (match err with
          | Some err => NewAggregate (r.2 ++ [wrapf "failed to update status, err: " err])
          | None => NewAggregate r.2
          end).

Definition reconcile_live (dc : DPUCluster) : M (option GoError) := run (
  dc ← (if negb (ContainsFinalizer (dc_Finalizers dc) FinalizerInternalCleanUp)
        then or_return (outside (updateDPUCluster (with_dc_Finalizers (AddFinalizer (dc_Finalizers dc) FinalizerInternalCleanUp) dc)))
               (λ err, Some (wrapf "failed to add finalizer " err))
        else mret dc);
  reconcile_saved dc).

Definition Reconcile (key : NamespacedName) : M (option GoError) :=
  dc ← outside (readDPUCluster key);
  match dc with
  | Err err => mret (if IsNotFound err then None else Some (wrapf "failed to get DPUCluster " err))
  | Ok dc => if negb (timep_is_zero (dc_DeletionTimestamp dc)) then reconcileDelete dc else reconcile_live dc
  end.
End Controller.

(** ** Theorems *)

(** Every condition but Ready and those of key rotation is True, and Created is among them. *)
Definition gates_open (conds : list Condition) : Prop :=
  (∀ c, c ∈ conds → isDPUClusterReadinessAggregationIgnoredCondition (c_Type c) = false → c_Status c = ConditionTrue) ∧
  ∃ c, c ∈ conds ∧ c_Type c = ConditionCreated.

Lemma allTrue_spec conds : allTrue conds = true ↔ gates_open conds.
Proof.
  assert (∀ cs t i, let acc := foldl readiness_step (t, i) cs in acc.1 && acc.2 = true ↔
    t = true ∧ (∀ c, c ∈ cs → isDPUClusterReadinessAggregationIgnoredCondition (c_Type c) = false → c_Status c = ConditionTrue) ∧
    (i = true ∨ ∃ c, c ∈ cs ∧ c_Type c = ConditionCreated)) as H.
  2: { unfold allTrue, gates_open. rewrite H. naive_solver. }
  induction cs as [|c cs IH]; intros t i; cbn zeta; simpl.
  { rewrite andb_true_iff. split; [|by intros (? & _ & [?|(c & Hc & _)]); [|by apply elem_of_nil in Hc]].
    intros [? ?]. split_and!; [done| |by left]. intros c Hc. by apply elem_of_nil in Hc. }
  unfold readiness_step at 2 4. setoid_rewrite elem_of_cons.
  destruct (isDPUClusterReadinessAggregationIgnoredCondition (c_Type c)) eqn:Hi; rewrite IH.
  - assert (c_Type c ≠ ConditionCreated) as Hne by (intros E; by rewrite E in Hi).
    split; intros (? & Hc & Hor); (split_and!; [done| |]).
    + intros d [->|Hd] ?; [congruence|by apply Hc].
    + destruct Hor as [?|(d & ? & ?)]; [by left|right; exists d; auto].
    + intros d Hd. apply Hc. by right.
    + destruct Hor as [?|(d & [->|?] & ?)]; [by left|done|right; by exists d].
  - simpl. unfold status_is. rewrite andb_true_iff, bool_decide_eq_true. split.
    + intros ((? & Hs) & Hc & Hor). split_and!; [done| |].
      * intros d [->|Hd] ?; [done|by apply Hc].
      * destruct Hor as [Hor|(d & Hd & ?)]; [|right; exists d; auto].
        destruct (decide (c_Type c = ConditionCreated)); [right; exists c; auto|left].
        by rewrite bool_decide_false in Hor.
    + intros (? & Hc & Hor). assert (c_Status c = ConditionTrue) as Hs by (apply Hc; auto).
      split_and!; [done..| |]; [intros d Hd; apply Hc; auto|]. rewrite Hs, (bool_decide_true (ConditionTrue = _)) by done.
      destruct Hor as [->|(d & [->|Hd] & Ht)]; [left; by case_bool_decide|left; by rewrite bool_decide_true|right; eauto].
Qed.

#[export] Instance gates_open_dec conds : Decision (gates_open conds).
Proof. destruct (allTrue conds) eqn:E; [left; by apply allTrue_spec|right; intros H%allTrue_spec; congruence]. Defined.

(** *** The cluster in the cache *)

Definition live (dc : DPUCluster) : Prop := timep_is_zero (dc_DeletionTimestamp dc) = true.

(** The well-formed cache has [dc] with its DPUs. *)
Definition caches (a : allocator) (dc : DPUCluster) (dpus : gmap string DPU) : Prop :=
  alloc_wf a ∧ as_info (view a) !! dc_UID dc = Some (dc, dpus).
(** The entries of the other clusters are the same. *)
Definition others_kept (uid : string) (a a' : allocator) : Prop :=
  ∀ u, u ≠ uid → as_info (view a') !! u = as_info (view a) !! u.

Lemma saveCluster_caches a dc :
  alloc_wf a → not_renamed (view a) (CallSaveCluster dc) →
  (∃ dpus, caches (saveCluster dc a) dc dpus) ∧ others_kept (dc_UID dc) a (saveCluster dc a).
Proof.
  intros Hwf Hn. destruct (saveCluster_step a dc Hwf Hn) as [Hwf' Hv]. unfold caches, others_kept. rewrite Hv. unfold spec_step.
  destruct (as_info (view a) !! dc_UID dc) as [[d ds]|]; (split;
    [eexists; split; [done|apply lookup_insert_eq]|intros u Hu; by apply lookup_insert_ne]).
Qed.

Lemma publish_caches a dc dc' dpus :
  caches a dc dpus → dc_UID dc' = dc_UID dc → dc_key dc' = dc_key dc →
  caches (publish dc' a) dc' dpus ∧ others_kept (dc_UID dc) a (publish dc' a).
Proof.
  intros [Hwf Hv] Hu Hk. assert (publish dc' a = saveCluster dc' a) as ->.
  { unfold publish, saveCluster. destruct (al_clusterInfoMap a !! dc_UID dc') eqn:E; [done|].
    apply (view_info_None a _ Hwf) in E. by rewrite Hu, Hv in E. }
  assert (not_renamed (view a) (CallSaveCluster dc')) as Hn.
  { intros d ds. rewrite Hu, Hv. intros [= <- <-]. by symmetry. }
  rewrite <- Hu. split; [|by apply saveCluster_caches]. destruct (saveCluster_step a dc' Hwf Hn) as [Hwf' Hv']. unfold caches. rewrite Hv'.
  split; [done|]. unfold spec_step. rewrite Hu, Hv. simpl. apply lookup_insert_eq.
Qed.

Lemma others_kept_trans uid a b c : others_kept uid a b → others_kept uid b c → others_kept uid a c.
Proof. intros H1 H2 u Hu. by rewrite H2, H1. Qed.

Lemma feasible_chosen {R : MapRange} {RL : MapRangeLaws R} {S : SelectorAPI} sel a l :
  alloc_wf a → getFeasibleClusterBinPacking sel a = Ok l →
  ∃ ci, al_heap a !! l = Some ci ∧ feasible ci = true ∧
        as_info (view a) !! dc_UID (ci_cluster ci) = Some (ci_cluster ci, ci_dpus ci).
Proof.
  intros Hwf. unfold getFeasibleClusterBinPacking. destruct (LabelSelectorAsSelector sel) as [Matches|]; [|done].
  destruct (best_fold (al_heap a) (range_map (matching Matches a)).*2) as [_ Hb].
  destruct (foldl _ _ _) as [[b|] r]; [|done]. intros [= <-]. destruct Hb as (Hin & ci & Hf & _). exists ci.
  destruct (proj1 (matching_candidate Matches a b ci Hwf) (conj Hin Hf)) as (Hm & Hci & _ & ?).
  split_and!; [done..|]. by eapply view_info.
Qed.

(** *** What a pass sets *)

Section Pass.
Context {API : MetaAPI} {AL : MetaAPILaws API} {F : FinalizerAPI} {W K : Type}.
Context {D : ClusterClient W} {DL : ClusterClientLaws W D} {L : ClusterClients W K}.
Context (now : Time).

(** The API server of the cluster tells its version, through the client kept for
    its UID or, when none is kept, a new one. *)
Definition answers (clients : gmap string K) (dc : DPUCluster) (w : W) : Prop :=
  match clients !! dc_UID dc with
  | Some client => ∃ v, (ServerVersion client w).1 = Ok v
  | None => ∃ client v, (GetClientset dc w).1 = Ok client ∧ (ServerVersion client (GetClientset dc w).2).1 = Ok v
  end.

Lemma healthCheck_spec dc (s : ClusterMemory K * W) : let r := healthCheck dc s in
  cm_allocator r.2.1 = cm_allocator s.1 ∧
  match r.1 with inl _ => ¬ answers (adminClients s.1) dc s.2 | inr _ => answers (adminClients s.1) dc s.2 end.
Proof.
  destruct s as [m w]. unfold healthCheck, getOrCreateClient, answers, outside, mbind, SM_bind, mret, SM_ret. simpl.
  destruct (adminClients m !! dc_UID dc) as [client|].
  - simpl. destruct (ServerVersion client w) as [[v|e] w']; simpl; (split; [done|]); [by exists v|]. by intros [? ?].
  - destruct (GetClientset dc w) as [[client|e] w'] eqn:E; simpl.
    + unfold clients_op. simpl. destruct (ServerVersion client w') as [[v|e] w2] eqn:Ev; simpl; (split; [done|]).
      * exists client, v. by rewrite Ev.
      * intros (? & ? & [= <-] & H). by rewrite Ev in H.
    + split; [done|]. by intros (? & ? & ? & _).
Qed.

(** The outcome of [assess] on a cluster whose phase is not Pending. *)
Definition assessed (healthy : Prop) (dc dc' : DPUCluster) (errs : list GoError) : Prop :=
  (∃ phase version conds, dc' = with_dc_status phase version (dc_NodesCount dc) conds dc) ∧
  (gates_open (dc_Conditions dc) →
    (healthy ∧ dc_Phase dc' = PhaseReady ∧ errs = [] ∨ ¬ healthy ∧ dc_Phase dc' = PhaseNotReady ∧ errs ≠ []) ∧
    (∃ c, first_of_type (dc_Conditions dc') ConditionReady = Some c ∧
       (c_Status c = ConditionTrue ↔ dc_Phase dc' = PhaseReady)) ∧
    ∀ t, t ≠ ConditionReady → first_of_type (dc_Conditions dc') t = first_of_type (dc_Conditions dc) t) ∧
  (¬ gates_open (dc_Conditions dc) → errs = [] ∧ dc_Conditions dc' = dc_Conditions dc ∧ dc_Version dc' = dc_Version dc ∧
    dc_Phase dc' = if decide (dc_Phase dc = PhaseReady) then PhaseNotReady else dc_Phase dc).

Lemma assess_spec dc (s : ClusterMemory K * W) : let r := assess now dc s in
  cm_allocator r.2.1 = cm_allocator s.1 ∧ assessed (answers (adminClients s.1) dc s.2) dc r.1.1 r.1.2.
Proof.
  unfold assess, mbind, SM_bind, mret, SM_ret. destruct (allTrue (dc_Conditions dc)) eqn:Ha.
  - apply allTrue_spec in Ha. pose proof (healthCheck_spec dc s) as Hh. destruct (healthCheck dc s) as [[[msg e]|v] s'].
    all: cbn in *; destruct Hh as [-> Hh]; (split; [done|]); (split; [by eexists _, _, _|]); (split; [|done]); intros _.
    + split; [right; done|].
      destruct (meta_set_same now (dc_Conditions dc) (NewDPUCondition ConditionReady (Some e) "HealthCheckFailed" ""))
        as (c & Hc & _ & Hs & _). split; [|intros t Ht; by apply meta_set_other].
      exists c. split; [done|]. by rewrite Hs.
    + split; [left; done|].
      destruct (meta_set_same now (dc_Conditions dc) (NewDPUCondition ConditionReady None "HealthCheckPassed" ""))
        as (c & Hc & _ & Hs & _). split; [|intros t Ht; by apply meta_set_other].
      exists c. split; [done|]. by rewrite Hs.
  - assert (¬ gates_open (dc_Conditions dc)) as Hg by (intros Hg%allTrue_spec; congruence).
    cbn. split; [done|]. destruct (_ || _) eqn:E; cbn; (split; [|split; [done|]]).
    + by eexists _, _, _.
    + intros _. split_and!; [done..|]. apply orb_true_iff in E as [E%bool_decide_eq_true|E%bool_decide_eq_true]; rewrite E; by case_decide.
    + exists (dc_Phase dc), (dc_Version dc), (dc_Conditions dc). by destruct dc.
    + intros _. apply orb_false_iff in E as [E%bool_decide_eq_false _]. by rewrite decide_False.
Qed.

(** A chosen cluster that the cache has is ready and not being deleted. *)
Lemma chosen_cached {R : MapRange} {RL : MapRangeLaws R} {S : SelectorAPI} sel a l ci dc dpus :
  caches a dc dpus → getFeasibleClusterBinPacking sel a = Ok l → al_heap a !! l = Some ci →
  dc_UID (ci_cluster ci) = dc_UID dc → dc_Phase dc = PhaseReady ∧ live dc.
Proof.
  intros [Hwf Hv] Hl Hci Hu. destruct (feasible_chosen sel a l Hwf Hl) as (ci' & ? & Hf & Hv'). simplify_eq.
  rewrite Hu, Hv in Hv'. injection Hv' as Hd _. unfold feasible in Hf. rewrite <- Hd in Hf. unfold live.
  destruct (timep_is_zero _); [|done]. by case_bool_decide.
Qed.

Lemma delete_caches dc (s : ClusterMemory K * W) :
  alloc_wf (cm_allocator s.1) → not_renamed (view (cm_allocator s.1)) (CallSaveCluster dc) →
  let a := cm_allocator (reconcileDelete dc s).2.1 in
  alloc_wf a ∧ others_kept (dc_UID dc) (cm_allocator s.1) a ∧
  ((∃ dpus, caches a dc dpus) ∨ as_info (view a) !! dc_UID dc = None).
Proof.
  intros Hwf Hn. destruct s as [[a0 cl] w]. cbn in Hwf, Hn. destruct (saveCluster_caches a0 dc Hwf Hn) as [(dpus & Hc) Ho].
  unfold reconcileDelete, run, mbind, Fn_bind, lift, or_return, return_if, outside, alloc_op, clients_op, return_early. cbn.
  destruct (listAllDPUs w) as [[dpuList|e] w1]; cbn; [|split; [apply Hc|]; split; [done|]; left; by exists dpus].
  destruct (negb _); cbn; [split; [apply Hc|]; split; [done|]; left; by exists dpus|].
  assert (not_renamed (view (saveCluster dc a0)) (CallRemoveCluster dc)) as Hr.
  { intros d ds. rewrite (proj2 Hc). by intros [= <- _]. }
  destruct (removeCluster_step _ dc (proj1 Hc) Hr) as [Hwf' Hv].
  assert (others_kept (dc_UID dc) a0 (removeCluster dc (saveCluster dc a0))) as Hk.
  { eapply others_kept_trans; [exact Ho|]. intros u Hu. rewrite Hv. simpl. by apply lookup_delete_ne. }
  assert (as_info (view (removeCluster dc (saveCluster dc a0))) !! dc_UID dc = None) as Hnone.
  { rewrite Hv. apply lookup_delete_eq. }
  destruct (updateDPUCluster _ w1) as [[d|e] w2]; cbn; (split; [done|]; split; [done|]; by right).
Qed.

(** A write of the status through the cached pointer. *)
Lemma write_status_caches dc dpus (s : ClusterMemory K * W) : caches (cm_allocator s.1) dc dpus →
  let a := cm_allocator (write_status dc s).2.1 in
  others_kept (dc_UID dc) (cm_allocator s.1) a ∧
  ∃ dc', caches a dc' dpus ∧ dc_UID dc' = dc_UID dc ∧ dc_Phase dc' = dc_Phase dc.
Proof.
  intros Hc. destruct s as [m w]. cbn in Hc. unfold write_status, outside, alloc_op, mbind, SM_bind, mret, SM_ret. cbn.
  destruct (updateDPUClusterStatus dc w) as [[dc'|e] w'] eqn:E; cbn; [|split; [done|]; by exists dc].
  destruct (update_cluster_status dc w dc') as (Hu & Hk & Hp); [by rewrite E|].
  destruct (publish_caches _ dc dc' dpus Hc Hu Hk). split; [done|]. by exists dc'.
Qed.

Lemma saved_caches dc (s : ClusterMemory K * W) :
  alloc_wf (cm_allocator s.1) → not_renamed (view (cm_allocator s.1)) (CallSaveCluster dc) →
  let a := cm_allocator (run (reconcile_saved now dc) s).2.1 in
  others_kept (dc_UID dc) (cm_allocator s.1) a ∧ ∃ dc' dpus, caches a dc' dpus ∧ dc_UID dc' = dc_UID dc ∧
    (dc_Phase dc' = PhaseReady →
     dc_Phase dc ≠ PhasePending ∧ gates_open (dc_Conditions dc) ∧ ∃ n, answers (adminClients s.1) (with_dc_NodesCount n dc) s.2).
Proof.
  intros Hwf Hn. destruct s as [[a0 cl] w]. cbn in Hwf, Hn. destruct (saveCluster_caches a0 dc Hwf Hn) as [(dpus & Hc) Ho].
  unfold reconcile_saved, run, lift, check, alloc_op. unfold mbind, Fn_bind. cbn.
  set (dc1 := with_dc_NodesCount _ dc).
  destruct (publish_caches _ dc dc1 dpus Hc eq_refl eq_refl) as [Hc1 Ho1].
  set (a1 := publish dc1 _) in *. pose proof (others_kept_trans _ _ _ _ Ho Ho1) as Ho'.
  case_bool_decide as Hp; cbn.
  - set (dc2 := with_dc_Phase PhaseCreating dc1). destruct (publish_caches a1 dc1 dc2 dpus Hc1 eq_refl eq_refl) as [Hc2 Ho2].
    set (s2 := (mkClusterMemory (publish dc2 a1) cl, w)).
    destruct (write_status_caches dc2 dpus s2 Hc2) as (Ho3 & dc' & Hc' & Hu & Hph).
    destruct (write_status dc2 s2) as [[e|] s3]; cbn in *; (split; [by repeat (eapply others_kept_trans; [eassumption|])|]);
      exists dc', dpus; (split; [done|]; split; [done|]); by rewrite Hph.
  - set (s1 := (mkClusterMemory a1 cl, w)). destruct (assess_spec dc1 s1) as [Ha Has].
    destruct (assess now dc1 s1) as [[dc2 errs] s2] eqn:E. cbn in Ha, Has |- *. destruct Has as ((ph & v & cs & ->) & Hopen & Hclosed).
    cbn in Hopen, Hclosed. rewrite Ha. set (dc2 := with_dc_status ph v _ cs dc1).
    destruct (publish_caches a1 dc1 dc2 dpus Hc1 eq_refl eq_refl) as [Hc2 Ho2].
    set (s3 := (mkClusterMemory (publish dc2 a1) (adminClients s2.1), s2.2)).
    destruct (write_status_caches dc2 dpus s3 Hc2) as (Ho3 & dc' & Hc' & Hu & Hph).
    destruct (write_status dc2 s3) as [[e|] s4]; cbn in *; (split; [by repeat (eapply others_kept_trans; [eassumption|])|]);
      exists dc', dpus; (split; [done|]; split; [done|]); rewrite Hph; intros ->; (split; [done|]);
      (destruct (decide (gates_open (dc_Conditions dc))) as [Hg|Hg];
       [destruct (Hopen Hg) as [[(Hans & _)|(_ & Hno & _)] _]; [split; [exact Hg|eexists; exact Hans]|discriminate Hno]|]);
      destruct (Hclosed Hg) as (_ & _ & _ & Hph'); by case_decide.
Qed.

(** The object a pass over a live [dc] works on and the world it does so in: [dc] where
    it has the finalizer, and otherwise what the server stored when it was added. *)
Definition works_on (dc : DPUCluster) (w : W) (d : DPUCluster) (w' : W) : Prop :=
  if ContainsFinalizer (dc_Finalizers dc) FinalizerInternalCleanUp then d = dc ∧ w' = w
  else updateDPUCluster (with_dc_Finalizers (AddFinalizer (dc_Finalizers dc) FinalizerInternalCleanUp) dc) w = (Ok d, w').
Definition finalizer_refused (dc : DPUCluster) (w : W) : Prop :=
  ContainsFinalizer (dc_Finalizers dc) FinalizerInternalCleanUp = false ∧
  ∃ err, (updateDPUCluster (with_dc_Finalizers (AddFinalizer (dc_Finalizers dc) FinalizerInternalCleanUp) dc) w).1 = Err err.

Lemma live_cases dc (s : ClusterMemory K * W) :
  (finalizer_refused dc s.2 ∧ (reconcile_live now dc s).2.1 = s.1) ∨
  ∃ d w', works_on dc s.2 d w' ∧ dc_UID d = dc_UID dc ∧ dc_key d = dc_key dc ∧
    reconcile_live now dc s = run (reconcile_saved now d) (s.1, w').
Proof.
  destruct s as [m w]. unfold reconcile_live, finalizer_refused, works_on. destruct (ContainsFinalizer _ _); cbn.
  { right. by exists dc, w. }
  set (dc0 := with_dc_Finalizers _ dc). unfold run, mbind, Fn_bind, or_return, outside. cbn.
  destruct (updateDPUCluster dc0 w) as [[d|e] w'] eqn:E; cbn.
  - right. exists d, w'. split; [done|]. destruct (update_cluster dc0 w d) as [Hu Hk]; [by rewrite E|]. split; [exact Hu|]. by split; [exact Hk|].
  - left. split; [|done]. split; [done|]. by exists e.
Qed.
End Pass.

(** *** The writes of a pass *)

Inductive ClusterWrite := WroteObject (dc : DPUCluster) | WroteStatus (dc : DPUCluster).

Definition logged_cluster_client {W} (D : ClusterClient W) : ClusterClient (W * list ClusterWrite) := {|
  readDPUCluster key := unlogged (readDPUCluster key);
  listAllDPUs := unlogged listAllDPUs;
  updateDPUCluster dc := logged (λ _, WroteObject dc) (updateDPUCluster dc);
  updateDPUClusterStatus dc := logged (λ _, WroteStatus dc) (updateDPUClusterStatus dc);
  NewAggregate := NewAggregate |}.
Definition logged_cluster_clients {W K} (L : ClusterClients W K) : ClusterClients (W * list ClusterWrite) K := {|
  GetClientset dc := unlogged (GetClientset dc);
  ServerVersion client := unlogged (ServerVersion client) |}.

Section Properties.
Context {API : MetaAPI} {AL : MetaAPILaws API} {F : FinalizerAPI} {W K : Type}.
Context {D : ClusterClient W} {DL : ClusterClientLaws W D} {L : ClusterClients W K}.
Context (now : Time) (key : NamespacedName) (m : ClusterMemory K) (w : W).
#[local] Existing Instance logged_cluster_client | 0.
#[local] Existing Instance logged_cluster_clients | 0.

Definition of_cluster (dc : DPUCluster) (dpu : DPU) : Prop := dpu_cluster_key dpu = dc_key dc.

Lemma assess_unlogged dc (s : ClusterMemory K * (W * list ClusterWrite)) : (assess now dc s).2.2.2 = s.2.2.
Proof.
  destruct s as [m0 [w0 l]]. unfold assess. destruct (allTrue _); [|by destruct (_ || _)].
  unfold healthCheck, getOrCreateClient, mbind, SM_bind, mret, SM_ret, outside. cbn.
  destruct (adminClients m0 !! dc_UID dc) as [client|]; cbn; unfold unlogged; cbn.
  - by destruct (ServerVersion client w0) as [[v|e] w1].
  - destruct (GetClientset dc w0) as [[client|e] w1]; cbn; [|done]. by destruct (ServerVersion client w1) as [[v|e] w2].
Qed.

Lemma answers_logged clients dc w0 l :
  answers (W:=W * list ClusterWrite) clients dc (w0, l) ↔ answers clients dc w0.
Proof.
  unfold answers. cbn. unfold unlogged. cbn. destruct (clients !! dc_UID dc) as [client|].
  - by destruct (ServerVersion client w0).
  - destruct (GetClientset dc w0) as [r w1]. cbn. split; intros (client & v & -> & Hv); exists client, v; (split; [done|]);
      revert Hv; cbn; by destruct (ServerVersion client w1).
Qed.

Lemma assessed_iff P Q dc dc' errs : (P ↔ Q) → assessed P dc dc' errs → assessed Q dc dc' errs.
Proof. unfold assessed. naive_solver. Qed.

(** C14. Let the allocator's cache be well-formed (the empty one is, and the pass keeps
    it so) and have the cluster, if at all, under its own name (Kubernetes never renames
    an object).  After a pass over the cluster what the cache has of others is untouched,
    and the allocator chooses this cluster for a DPU only if it was not being deleted
    when read and the object the pass worked on (the one read, or the one the server
    stored when the pass added the finalizer) was not Pending, had its own gates open
    (every condition True but Ready and those of key rotation, Created there) and its
    API server answered.  The one exception: when the server refuses the finalizer, the
    pass ends with the allocator as it was.  Writes of the pass to the object it saved
    are writes to the cache, and this holds whether or not the API server took them; one
    it took gives back the status that was written. *)
Theorem chosen_clusters_answer dc {R : MapRange} {RL : MapRangeLaws R} {S : SelectorAPI} :
  alloc_wf (cm_allocator m) → (readDPUCluster key w).1 = Ok dc →
  not_renamed (view (cm_allocator m)) (CallSaveCluster dc) →
  let w1 := (readDPUCluster key w).2 in
  let a := cm_allocator (Reconcile now key (m, w)).2.1 in
  alloc_wf a ∧ others_kept (dc_UID dc) (cm_allocator m) a ∧
  ∀ sel l ci, getFeasibleClusterBinPacking sel a = Ok l → al_heap a !! l = Some ci → dc_UID (ci_cluster ci) = dc_UID dc →
    live dc ∧
    ((finalizer_refused dc w1 ∧ a = cm_allocator m) ∨
     ∃ d w', works_on dc w1 d w' ∧ dc_Phase d ≠ PhasePending ∧ gates_open (dc_Conditions d) ∧
       ∃ n, answers (adminClients m) (with_dc_NodesCount n d) w').
Proof.
  intros Hwf Hr Hn. unfold Reconcile, mbind, SM_bind, outside. simpl. destruct (readDPUCluster key w) as [r w1].
  simpl in Hr. subst r. destruct (timep_is_zero (dc_DeletionTimestamp dc)) eqn:Hd; simpl.
  - destruct (live_cases now dc (m, w1)) as [[Hf Hm]|(d & w2 & Hw & Hu & Hk & ->)].
    { cbn in Hf, Hm. rewrite Hm. split; [done|]. split; [by intros u _|]. intros sel l ci _ _ _. split; [done|]. by left. }
    destruct (saved_caches now d (m, w2) Hwf) as (Ho & dc' & dpus & Hc & Hu' & Hph).
    { intros d0 ds. cbn. rewrite Hu, Hk. apply Hn. }
    cbn in Ho, Hc, Hph. rewrite Hu in Ho. split; [apply Hc|]. split; [done|]. intros sel l ci Hl Hci Hci'. split; [done|]. right. exists d, w2. split; [done|].
    apply Hph. by eapply (chosen_cached sel _ l ci dc'); [..|congruence].
  - destruct (delete_caches dc (m, w1) Hwf Hn) as (Hwf' & Ho & Hc). split; [done|]. split; [done|].
    intros sel l ci Hl Hci Hu. exfalso. destruct Hc as [[dpus Hc]|Hc].
    + destruct (chosen_cached _ _ _ _ _ _ Hc Hl Hci Hu) as [_ Hlive]. unfold live in Hlive. congruence.
    + destruct (feasible_chosen _ _ _ Hwf' Hl) as (ci' & ? & _ & Hv). simplify_eq. by rewrite Hu, Hc in Hv.
Qed.

(** A pass over a live cluster that has its finalizer writes its status exactly
    once: with the number of DPUs assigned to it in the allocator, and a phase that
    is Creating after Pending; Ready exactly when the gates are open and the API
    server answers; NotReady when the gates are open and it does not, and, from
    Ready, when a gate is closed.  The Ready condition says whether the phase is Ready
    if the gates are open; otherwise the conditions are written back as they were,
    so Ready stays True on a cluster whose phase becomes NotReady.  The pass succeeds
    if the write does and an open gate is not met with a failed check. *)
Theorem cluster_status_spec dc :
  (readDPUCluster key w).1 = Ok dc → live dc → ContainsFinalizer (dc_Finalizers dc) FinalizerInternalCleanUp = true →
  let n := Z.of_nat (getDPUsCount dc (saveCluster dc (cm_allocator m))) in
  let dc1 := with_dc_NodesCount n dc in
  let healthy := answers (adminClients m) dc1 (readDPUCluster key w).2 in
  let r := Reconcile now key (m, (w, [])) in
  ∃ dc' errs, r.2.2.2 = [WroteStatus dc'] ∧
    (r.1 = None → errs = []) ∧
    if decide (dc_Phase dc = PhasePending) then dc' = with_dc_Phase PhaseCreating dc1 ∧ errs = []
    else assessed healthy dc1 dc' errs.
Proof.
  intros Hr Hl Hf. cbv zeta. unfold Reconcile, mbind, SM_bind, outside. cbn. unfold unlogged. cbn.
  destruct (readDPUCluster key w) as [r w1]. cbn in Hr |- *. subst r. unfold live in Hl. rewrite Hl. cbn.
  unfold reconcile_live, reconcile_saved, run, lift, check, alloc_op. rewrite Hf. cbn. unfold mbind, Fn_bind. cbn.
  set (dc1 := with_dc_NodesCount _ dc). set (a1 := publish dc1 _).
  destruct (decide (dc_Phase dc = PhasePending)) as [Hp|Hp];
    [rewrite (bool_decide_true (dc_Phase dc1 = _)) by done|rewrite (bool_decide_false (dc_Phase dc1 = _)) by done]; cbn.
  - set (dc2 := with_dc_Phase PhaseCreating dc1). exists dc2, []. unfold write_status, outside, alloc_op, mbind, SM_bind, mret, SM_ret. cbn.
    unfold logged. cbn. by destruct (updateDPUClusterStatus dc2 w1) as [[d|e] w2].
  - set (s1 := (mkClusterMemory a1 (adminClients m), (w1, []))).
    destruct (assess_spec now dc1 s1) as [_ Has]. pose proof (assess_unlogged dc1 s1) as Hlog.
    destruct (assess now dc1 s1) as [[dc2 errs] [m2 [w2 l2]]]. cbn in Has, Hlog |- *. subst l2. exists dc2, errs.
    unfold write_status, outside, alloc_op, mbind, SM_bind, mret, SM_ret. cbn. unfold logged. cbn.
    destruct (updateDPUClusterStatus dc2 w2) as [[d|e] w3]; cbn; (split; [done|]; split; [|by eapply assessed_iff; [apply answers_logged|]]);
      [by intros ?%aggregate_nil|]. intros Hnil%aggregate_nil. by destruct errs.
Qed.

Lemma of_cluster_spec dc dpu :
  bool_decide (kc_Name (sp_Cluster (dpu_Spec dpu)) = dc_Name dc) && bool_decide (kc_Namespace (sp_Cluster (dpu_Spec dpu)) = dc_Namespace dc)
  = true ↔ of_cluster dc dpu.
Proof.
  unfold of_cluster, dpu_cluster_key, dc_key. rewrite andb_true_iff, !bool_decide_eq_true.
  split; [by intros [-> ->]|by intros [= -> ->]].
Qed.

(** A pass over a cluster being deleted takes its finalizer off, which is its only
    write, exactly when the DPUs are listed and none of them names the cluster; the
    allocator and the clients have then forgotten it.  Otherwise the pass fails and
    writes nothing.  What the allocator has assigned to the cluster does not count. *)
Theorem cluster_deletion_spec dc :
  (readDPUCluster key w).1 = Ok dc → ¬ live dc →
  let listed := (listAllDPUs (readDPUCluster key w).2).1 in
  let r := Reconcile now key (m, (w, [])) in
  ((∃ dpus, listed = Ok dpus ∧ ∀ dpu, dpu ∈ dpus → ¬ of_cluster dc dpu) ∧
   r.2.2.2 = [WroteObject (with_dc_Finalizers (RemoveFinalizer (dc_Finalizers dc) FinalizerInternalCleanUp) dc)] ∧
   al_clusterInfoMap (cm_allocator r.2.1) !! dc_UID dc = None ∧ adminClients r.2.1 !! dc_UID dc = None) ∨
  ((∀ dpus, listed = Ok dpus → ∃ dpu, dpu ∈ dpus ∧ of_cluster dc dpu) ∧ r.2.2.2 = [] ∧ r.1 ≠ None).
Proof.
  intros Hr Hl. cbv zeta. unfold Reconcile, mbind, SM_bind, outside. cbn. unfold unlogged. cbn.
  destruct (readDPUCluster key w) as [r w1]. cbn in Hr |- *. subst r. unfold live in Hl. apply not_true_is_false in Hl. rewrite Hl. cbn.
  unfold reconcileDelete, run, mbind, Fn_bind, lift, or_return, return_if, outside, alloc_op, clients_op, return_early. cbn.
  unfold unlogged. cbn. destruct (listAllDPUs w1) as [[dpus|e] w2]; cbn; [|by right].
  destruct (count _ dpus =? 0)%nat eqn:Hc; cbn.
  - apply Nat.eqb_eq in Hc. left. split.
    + exists dpus. split; [done|]. intros dpu Hd Hof%of_cluster_spec.
      by rewrite (proj1 (count_zero _ dpus) Hc dpu Hd) in Hof.
    + unfold logged. cbn. destruct (updateDPUCluster _ w2) as [[d|e] w3]; cbn; (split; [done|]); by rewrite !lookup_delete_eq.
  - apply Nat.eqb_neq in Hc. right. split; [|done]. intros ? [= <-].
    destruct (count_nonzero _ _ Hc) as (dpu & Hd & Hof%of_cluster_spec). by exists dpu.
Qed.
End Properties.

(** ** A server with clusters and DPUs

    Every write succeeds and gives back what was written; [cw_versions] are the
    clusters that answer. *)

Record ClusterWorld := mkClusterWorld {
  cw_clusters : gmap NamespacedName DPUCluster; cw_dpus : list DPU; cw_versions : gmap string string }.

Definition fake_cluster_client : ClusterClient ClusterWorld := {|
  readDPUCluster key w := (match cw_clusters w !! key with
                           | Some dc => Ok dc
                           | None => Err (mkGoError KNotFound "not found")
                           end, w);
  listAllDPUs w := (Ok (cw_dpus w), w);
  updateDPUCluster dc w := (Ok dc, mkClusterWorld (<[dc_key dc := dc]> (cw_clusters w)) (cw_dpus w) (cw_versions w));
  updateDPUClusterStatus dc w := (Ok dc, mkClusterWorld (<[dc_key dc := dc]> (cw_clusters w)) (cw_dpus w) (cw_versions w));
  NewAggregate errs := match errs with [] => None | err :: _ => Some err end |}.
#[export] Instance fake_cluster_client_laws : ClusterClientLaws ClusterWorld fake_cluster_client.
Proof. split; [by intros dc w dc' [= <-]|by intros dc w dc' [= <-]|]. by intros [|]. Qed.

(** A client is the UID of its cluster. *)
Definition fake_cluster_clients : ClusterClients ClusterWorld string := {|
  GetClientset dc w := (Ok (dc_UID dc), w);
  ServerVersion client w := (match cw_versions w !! client with
                             | Some v => Ok v
                             | None => Err (mkGoError KNetwork "connection refused")
                             end, w) |}.

Definition example_live_cluster (phase : string) (conds : list Condition) : DPUCluster :=
  mkDPUCluster "c1" "ns" "c1-uid" (<["zone" := "a"]> ∅) [FinalizerInternalCleanUp] None 10 phase "" 0 conds.
Definition example_cluster_world (dc : DPUCluster) (answering : bool) : ClusterWorld :=
  mkClusterWorld {[ dc_key dc := dc ]} [] (if answering then {[ dc_UID dc := "v1.30" ]} else ∅).
Definition condition (t : string) (st : ConditionStatus) : Condition := mkCondition t st 0 1 t "".

Lemma chosen_clusters_answer_witness :
  let dc := example_live_cluster PhaseCreating [condition ConditionCreated ConditionTrue] in
  let a := cm_allocator (Reconcile (API:=meta_list) (F:=finalizer_list) (D:=fake_cluster_client) (L:=fake_cluster_clients) 7
             (dc_key dc) (mkClusterMemory NewAllocator ∅, example_cluster_world dc true)).2.1 in
  getFeasibleClusterBinPacking (R:=map_to_list_range) (S:=fake_selectors) None a = Ok 1%positive ∧ gates_open (dc_Conditions dc).
Proof.
  intros dc a.
  destruct (chosen_clusters_answer (API:=meta_list) (F:=finalizer_list) (D:=fake_cluster_client) (L:=fake_cluster_clients) 7
    (dc_key dc) (mkClusterMemory NewAllocator ∅) (example_cluster_world dc true) dc (R:=map_to_list_range) (S:=fake_selectors)
    NewAllocator_wf eq_refl ltac:(intros ? ?; cbn; by rewrite lookup_omap, lookup_empty)) as (Hwf & _ & H).
  split; [by vm_compute|].
  destruct (al_heap (cm_allocator (Reconcile (API:=meta_list) (F:=finalizer_list) (D:=fake_cluster_client) (L:=fake_cluster_clients) 7
             (dc_key dc) (mkClusterMemory NewAllocator ∅, example_cluster_world dc true)).2.1) !! 1%positive) as [ci|] eqn:E.
  - destruct (H None 1%positive ci) as (_ & [[[? _] _]|(d & w' & [-> _] & _ & ? & _)]); [by vm_compute|done| |done|done].
    apply (f_equal (fmap (λ ci, dc_UID (ci_cluster ci)))) in E. vm_compute in E. by injection E.
  - by vm_compute in E.
Defined.

(** From Ready, with a condition that turned False: the phase is NotReady and the
    Ready condition is still True. *)
Lemma cluster_status_spec_witness :
  let dc := example_live_cluster PhaseReady [condition ConditionCreated ConditionFalse; condition ConditionReady ConditionTrue] in
  ∃ dc', (Reconcile (API:=meta_list) (F:=finalizer_list) (D:=logged_cluster_client fake_cluster_client)
            (L:=logged_cluster_clients fake_cluster_clients) 7 (dc_key dc)
            (mkClusterMemory NewAllocator ∅, (example_cluster_world dc true, []))).2.2.2 = [WroteStatus dc'] ∧
    dc_Phase dc' = PhaseNotReady ∧ In (condition ConditionReady ConditionTrue) (dc_Conditions dc').
Proof.
  intros dc.
  destruct (cluster_status_spec (API:=meta_list) (F:=finalizer_list) (D:=fake_cluster_client) (L:=fake_cluster_clients) 7
    (dc_key dc) (mkClusterMemory NewAllocator ∅) (example_cluster_world dc true) dc eq_refl eq_refl eq_refl)
    as (dc' & errs & Hlog & _ & Has). exists dc'. split; [done|]. rewrite decide_False in Has by done.
  destruct Has as (_ & _ & Hc). destruct Hc as (_ & -> & _ & ->); [|split; [done|by right; left]].
  by intros Hg%allTrue_spec.
Defined.

(** A DPU is assigned to the cluster in the allocator and not listed yet. *)
Lemma cluster_deletion_spec_witness :
  let dc := mkDPUCluster "c1" "ns" "c1-uid" (<["zone" := "a"]> ∅) [FinalizerInternalCleanUp] (Some 5%Z) 10 PhaseReady "" 1 [] in
  let a := saveDPU (example_dpu "d1" "c1") (saveCluster dc NewAllocator) in
  getDPUsCount dc a = 1 ∧
  (Reconcile (API:=meta_list) (F:=finalizer_list) (D:=logged_cluster_client fake_cluster_client)
     (L:=logged_cluster_clients fake_cluster_clients) 7 (dc_key dc)
     (mkClusterMemory a ∅, (example_cluster_world dc true, []))).2.2.2 = [WroteObject (with_dc_Finalizers [] dc)].
Proof.
  intros dc a. split; [by vm_compute|].
  destruct (cluster_deletion_spec (API:=meta_list) (F:=finalizer_list) (D:=fake_cluster_client) (L:=fake_cluster_clients) 7
    (dc_key dc) (mkClusterMemory a ∅) (example_cluster_world dc true) dc eq_refl ltac:(done)) as [(_ & -> & _)|(H & _)]; [done|].
  destruct (H [] eq_refl) as (dpu & Hd & _). by apply elem_of_nil in Hd.
Defined.
