(* ===== verification/SoftwareTypes.v ===== *)
(** The data of the BlueFieldSoftware controller
    (internal/provisioning/controllers/bluefieldsoftware): the components an object
    asks for, the names of their tasks and files (util/task.go), the version in the
    name of an image (util/iso_metadata.go), and what the controller asks of the
    outside.

    Texts are bytes, and their upper case is that of ASCII; [url.Parse] is an
    operation of a class. *)

From S2P Require Import Prelude.
From S2P Require Import Meta.
From S2P Require Import Conditions.
From S2P Require Import DPUTypes.
From S2P Require Import DownloadTasks.
From S2P Require Import BFBVersion.
From Stdlib Require Import Ascii.

(** ** The object *)

Definition BlueFieldSoftwareFinalizer := "provisioning.dpu.nvidia.com/bluefieldsoftware-protection".
Definition BlueFieldSoftwareInitializing := "Initializing".
Definition BlueFieldSoftwareDownloading := "Downloading".
Definition BlueFieldSoftwareExtracting := "Extracting".
Definition BlueFieldSoftwareDeleting := "Deleting".
Definition BlueFieldSoftwareError := "Error".
Definition BlueFieldSoftwareCondInitialized := "Initialized".
Definition BlueFieldSoftwareCondDownloaded := "Downloaded".
Definition BlueFieldSoftwareCondReady := TypeReady.
Definition BlueFieldSoftwareCondError := "Error".
Definition BlueFieldSoftwareCondDeleted := "Deleted".

Definition with_bfs_Phase (v : string) (b : BlueFieldSoftware) : BlueFieldSoftware :=
  with_bfs_status v (bfs_Versions b) (bfs_DownloadedComponents b) (bfs_Conditions b) b.
Definition with_bfs_Versions (v : option BluefieldSoftwareVersions) (b : BlueFieldSoftware) : BlueFieldSoftware :=
  with_bfs_status (bfs_Phase b) v (bfs_DownloadedComponents b) (bfs_Conditions b) b.
Definition with_bfs_Downloaded (v : DownloadedComponents) (b : BlueFieldSoftware) : BlueFieldSoftware :=
  with_bfs_status (bfs_Phase b) (bfs_Versions b) v (bfs_Conditions b) b.

#[export] Instance BlueFieldSoftware_GetSet : GetSet BlueFieldSoftware :=
  {| GetConditions := bfs_Conditions;
     SetConditions b cs := with_bfs_status (bfs_Phase b) (bfs_Versions b) (bfs_DownloadedComponents b) cs b;
     GetGeneration := bfs_Generation |}.
#[export] Instance BlueFieldSoftware_GetSet_laws : GetSetLaws BlueFieldSoftware BlueFieldSoftware_GetSet.
Proof. by split. Qed.

Definition bfs_isDeleting (b : BlueFieldSoftware) : bool := negb (timep_is_zero (bfs_DeletionTimestamp b)).

(** ** Texts and paths *)

Definition strings_HasPrefix (s p : string) : bool := String.prefix p s.
Definition strings_HasSuffix (s p : string) : bool :=
  (String.length p <=? String.length s)%nat && bool_decide (String.substring (String.length s - String.length p) (String.length p) s = p).
Definition strings_TrimSuffix (s p : string) : string :=
  if strings_HasSuffix s p then String.substring 0 (String.length s - String.length p) s else s.

Definition ascii_upper (c : ascii) : ascii :=
  let n := nat_of_ascii c in if ((97 <=? n) && (n <=? 122))%nat then ascii_of_nat (n - 32) else c.
Fixpoint strings_ToUpper (s : string) : string :=
  match s with EmptyString => "" | String c s => String (ascii_upper c) (strings_ToUpper s) end.
Definition strings_EqualFold (s t : string) : bool := bool_decide (strings_ToUpper s = strings_ToUpper t).

(** [path.Base] and [filepath.Base] *)
Definition path_Base (p : string) : string :=
  if bool_decide (p = "") then "."
  else default "/" (last (filter (λ seg, seg ≠ "") (strings_Split "/"%char p))).

(** [filepath.Join] of "/" and more elements, with its [Clean]. *)
Fixpoint clean_rooted (segs acc : list string) : list string :=
  match segs with
  | [] => rev acc
  | seg :: segs =>
      if bool_decide (seg = "") || bool_decide (seg = ".") then clean_rooted segs acc
      else if bool_decide (seg = "..") then clean_rooted segs (tail acc)
      else clean_rooted segs (seg :: acc)
  end.
Definition filepath_Join_root (elems : list string) : string :=
  "/" +:+ strings_Join "/" (clean_rooted (mjoin (strings_Split "/"%char <$> elems)) []).

(** [errors.Join] *)
Definition errors_Join (errs : list GoError) : option GoError :=
  match errs with [] => None | _ => Some (errorf (strings_Join LF (err_msg <$> errs))) end.

(** [url.Parse]: the scheme and the path. *)
Class URLs := url_Parse : string → option (string * string).

Definition isURL {U : URLs} (str : string) : bool :=
  match url_Parse str with
  | Some (scheme, _) => bool_decide (scheme = "http") || bool_decide (scheme = "https")
  | None => false
  end.

(** ** Components *)

Inductive ComponentType := ComponentTypeFwBundle | ComponentTypePlatformFwBundle | ComponentTypeOSISO | ComponentTypeNicFw.
#[export] Instance ComponentType_eq_dec : EqDecision ComponentType.
Proof. solve_decision. Defined.
Definition component_string (t : ComponentType) : string :=
  match t with
  | ComponentTypeFwBundle => "fwbundle"
  | ComponentTypePlatformFwBundle => "platformpldmfwbundle"
  | ComponentTypeOSISO => "osiso"
  | ComponentTypeNicFw => "nicfw"
  end.

(** [cp_Key] is the PSID of a bundle for one DPU model, and empty otherwise. *)
Record componentInfo := mkComponent { cp_URL : string; cp_ComponentType : ComponentType; cp_Key : string }.
#[export] Instance componentInfo_eq_dec : EqDecision componentInfo.
Proof. solve_decision. Defined.

Record ComponentDownloadTask := mkComponentTask {
  ct_TaskName : string; ct_URL : string; ct_FileName : string; ct_ComponentName : string; ct_UID : string }.

Section Names.
Context {U : URLs} {R : MapRange}.
Implicit Types (bfs : BlueFieldSoftware).

Definition PldmFwBundles bfs : gmap string string := filter (λ kv, kv.2 ≠ "") (bf_PldmFwBundle (bfs_Spec bfs)).

Definition FilenameFromHTTPURL (rawURL : string) : string :=
  match url_Parse rawURL with
  | None => ""
  | Some (scheme, p) =>
      if negb (bool_decide (scheme = "http") || bool_decide (scheme = "https")) then ""
      else if bool_decide (p = "") then ""
      else
        let base := path_Base (strings_TrimSuffix p "/") in
        if bool_decide (base = ".") || bool_decide (base = "/") || bool_decide (base = "") then ""
        else if has_char "/"%char base || has_char (ascii_of_nat 92) base then ""
        else if bool_decide (base = "..") || strings_HasPrefix base ".." then ""
        else base
  end.

Definition GenerateComponentTaskName bfs (t : ComponentType) : string :=
  bfs_Namespace bfs +:+ "-" +:+ bfs_Name bfs +:+ "-" +:+ component_string t.
Definition ComponentDownloadFilename bfs (t : ComponentType) (specValue : string) : string :=
  let name := FilenameFromHTTPURL specValue in
  if bool_decide (name ≠ "") then bfs_Namespace bfs +:+ "-" +:+ bfs_Name bfs +:+ "-" +:+ name
  else GenerateComponentTaskName bfs t.
Definition PldmTaskName bfs (psid : string) : string :=
  let name := GenerateComponentTaskName bfs ComponentTypeFwBundle in
  if bool_decide (psid = "") then name else name +:+ "-" +:+ psid.
Definition PldmComponentFilename bfs (psid url : string) : string :=
  let name := FilenameFromHTTPURL url in
  if bool_decide (name ≠ "") then
    if bool_decide (psid = "") then bfs_Namespace bfs +:+ "-" +:+ bfs_Name bfs +:+ "-" +:+ name
    else bfs_Namespace bfs +:+ "-" +:+ bfs_Name bfs +:+ "-" +:+ psid +:+ "-" +:+ name
  else PldmTaskName bfs psid.

Definition componentTaskName bfs (c : componentInfo) : string :=
  if bool_decide (cp_ComponentType c = ComponentTypeFwBundle) then PldmTaskName bfs (cp_Key c)
  else GenerateComponentTaskName bfs (cp_ComponentType c).
Definition componentFileName bfs (c : componentInfo) : string :=
  if bool_decide (cp_ComponentType c = ComponentTypeFwBundle) then PldmComponentFilename bfs (cp_Key c) (cp_URL c)
  else ComponentDownloadFilename bfs (cp_ComponentType c) (cp_URL c).

Definition generateComponentFilePath (fileName : string) : string := filepath_Join_root [BFBBaseDir; "components"; fileName].
Definition componentDestinationPath (t : ComponentType) (fileName : string) : string :=
  if bool_decide (t = ComponentTypeOSISO) then GenerateBFBFilePath fileName else generateComponentFilePath fileName.
Definition destination bfs (c : componentInfo) : string :=
  componentDestinationPath (cp_ComponentType c) (componentFileName bfs c).

(** The components an object asks for, the bundles of the PSIDs in any order. *)
Definition specComponentUnits bfs : list componentInfo :=
  let spec := bfs_Spec bfs in
  let platformBundle := deref (bf_PlatformPldmFwBundle spec) "" in
  let nicFw := deref (bf_NicFw spec) "" in
  (if bool_decide (bf_OsIso spec ≠ "") then [mkComponent (bf_OsIso spec) ComponentTypeOSISO ""] else []) ++
  ((λ kv, mkComponent kv.2 ComponentTypeFwBundle kv.1) <$> range_map (PldmFwBundles bfs)) ++
  (if bool_decide (platformBundle ≠ "") then [mkComponent platformBundle ComponentTypePlatformFwBundle ""] else []) ++
  (if bool_decide (nicFw ≠ "") then [mkComponent nicFw ComponentTypeNicFw ""] else []).

(** The bundles that are unpacked. *)
Definition is_bundle (t : ComponentType) : bool :=
  match t with ComponentTypeFwBundle | ComponentTypePlatformFwBundle => true | _ => false end.
Definition extractionUnits bfs : list componentInfo := filter (λ u, is_bundle (cp_ComponentType u) = true) (specComponentUnits bfs).

Definition extractOutputDirForBFS bfs (t : ComponentType) (key : string) : string :=
  let name := bfs_Namespace bfs +:+ "-" +:+ bfs_Name bfs +:+ "-" +:+ component_string t in
  let name := if bool_decide (key ≠ "") then name +:+ "-" +:+ key else name in
  filepath_Join_root [BFBBaseDir; "components"; name +:+ "-extracted"].

(** ** What the status records *)

Definition downloadedComponentPath bfs (t : ComponentType) (key : string) : string :=
  let d := bfs_DownloadedComponents bfs in
  match t with
  | ComponentTypeFwBundle => default "" (dl_PldmFwBundle d !! key)
  | ComponentTypePlatformFwBundle => dl_PlatformPldmFwBundle d
  | ComponentTypeOSISO => dl_OsIso d
  | ComponentTypeNicFw => dl_NicFw d
  end.
Definition set_path (t : ComponentType) (key path : string) (d : DownloadedComponents) : DownloadedComponents :=
  match t with
  | ComponentTypeFwBundle => mkDownloadedComponents (<[key := path]> (dl_PldmFwBundle d)) (dl_PlatformPldmFwBundle d) (dl_OsIso d) (dl_NicFw d)
  | ComponentTypePlatformFwBundle => mkDownloadedComponents (dl_PldmFwBundle d) path (dl_OsIso d) (dl_NicFw d)
  | ComponentTypeOSISO => mkDownloadedComponents (dl_PldmFwBundle d) (dl_PlatformPldmFwBundle d) path (dl_NicFw d)
  | ComponentTypeNicFw => mkDownloadedComponents (dl_PldmFwBundle d) (dl_PlatformPldmFwBundle d) (dl_OsIso d) path
  end.
Definition setDownloadedComponentPath bfs (t : ComponentType) (key path : string) : BlueFieldSoftware :=
  with_bfs_Downloaded (set_path t key path (bfs_DownloadedComponents bfs)) bfs.
End Names.

(** ** The version in the name of an image (util/iso_metadata.go) *)

Fixpoint take_digits (s : string) : string * string :=
  match s with
  | String c s' => if is_digit c then let '(d, rest) := take_digits s' in (String c d, rest) else ("", s)
  | EmptyString => ("", "")
  end.
(** One or more digits, and what follows them. *)
Definition digits1 (s : string) : option (string * string) :=
  let '(d, rest) := take_digits s in if bool_decide (d = "") then None else Some (d, rest).
Definition literal (p s : string) : option string :=
  if strings_HasPrefix (strings_ToUpper s) (strings_ToUpper p) then Some (String.substring (String.length p) (String.length s - String.length p) s)
  else None.

(** The group of [docaBundleVersionPattern] matched at the start of a text. *)
Definition docaBundleVersion_at (s : string) : option string :=
  s ← literal "doca-bundle-" s;
  '(a, s) ← digits1 s;
  s ← literal "." s;
  '(b, s) ← digits1 s;
  s ← literal "." s;
  '(c, s) ← digits1 s;
  let core := a +:+ "." +:+ b +:+ "." +:+ c in
  Some match literal "-" s ≫= digits1 with
       | Some (d, _) => core +:+ "-" +:+ d
       | None => core
       end.
(** The leftmost match. *)
Fixpoint docaBundleVersionPattern (s : string) : option string :=
  match docaBundleVersion_at s with
  | Some v => Some v
  | None => match s with EmptyString => None | String _ s => docaBundleVersionPattern s end
  end.

Definition parseDOCAVersionFromFilename (isoPath : string) : string := default "" (docaBundleVersionPattern (path_Base isoPath)).

Definition ExtractDOCAVersionFromISO (isoPath : string) : Res (string * string) :=
  let raw := parseDOCAVersionFromFilename isoPath in
  if bool_decide (raw = "") then Err (errorf ("DOCA version not found in ISO filename " +:+ quoted (path_Base isoPath)))
  else match FormatDOCAVersion raw with
       | Err err => Err (wrapf ("format DOCA version from ISO filename " +:+ quoted (path_Base isoPath) +:+ ": ") err)
       | Ok formatted => Ok (formatted, raw)
       end.

Definition no_versions : BluefieldSoftwareVersions := mkSoftwareVersions "" "" "" ∅.
Definition ApplyDOCAVersionFromISO (bfs : BlueFieldSoftware) (isoPath : string) : Res BlueFieldSoftware :=
  match ExtractDOCAVersionFromISO isoPath with
  | Err err => Err err
  | Ok (formatted, raw) =>
      let v := default no_versions (bfs_Versions bfs) in
      Ok (with_bfs_Versions (Some (mkSoftwareVersions formatted raw (sv_EWNicFwVersion v) (sv_BluefieldSoftwareVersions v))) bfs)
  end.
