(* ===== verification/SoftwareDownload.v ===== *)
(** The downloads of the components of a BlueFieldSoftware (state/downloading.go):
    which are missing, their tasks, and the clean-up of what is left of them.

    A handler changes the object in place: it gives back the object as it left it. *)

From S2P Require Import Prelude.
From S2P Require Import Meta.
From S2P Require Import Conditions.
From S2P Require Import DPUTypes.
From S2P Require Import DPUSetTypes.
From S2P Require Import DownloadTasks.
From S2P Require Import BFBTypes.
From S2P Require Import SoftwareTypes.

(** What the controller asks of the API server, of the volume and of the unpack
    service, beside the calls of [BFBClient]: [globFiles] is [filepath.Glob],
    [removeTree] is [os.RemoveAll], and [postUnpack] gives the status and the body of
    the answer to a request for a package and an output directory. *)
Class SoftwareClient (W : Type) := {
  fetchSoftware : NamespacedName → SM W (Res BlueFieldSoftware);
  patchSoftware : BlueFieldSoftware → BlueFieldSoftware → SM W (option GoError);
  globFiles : string → SM W (Res (list string));
  removeTree : string → SM W (option GoError);
  postUnpack : string → string → SM W (Res (Z * Res string)) }.

Definition SoftwareMemory := TaskMemory ComponentDownloadTask.
Definition maxDownloadRetries : Z := 3.

(** [filepath.Dir] and [filepath.Base] of a clean path joined again are the path. *)
Definition tmp_pattern (destPath : string) : string := destPath +:+ "-*.tmp".

Section Downloading.
Context {API : MetaAPI} {W : Type} {C : BFBClient W} {S : SoftwareClient W} {U : URLs} {R : MapRange}.
Context (now : Time).
Local Abbreviation M := (SM (SoftwareMemory * W)).
Implicit Types (bfs : BlueFieldSoftware) (component : componentInfo).

Definition bfs_name bfs : string := "(" +:+ bfs_Namespace bfs +:+ "/" +:+ bfs_Name bfs +:+ ")".

Definition RemoveAllEx (path : string) : SM W (option GoError) := unless_ignorable (removeTree path).

Definition isFileExist (filePath : string) : M (Res bool) :=
  err ← ext (statFile filePath);
  mret (match err with
        | None => Ok true
        | Some err => if bool_decide (err_kind err = KNotExist) then Ok false else Err err
        end).

Definition getRetryKey bfs component : string :=
  bfs_Namespace bfs +:+ "/" +:+ bfs_Name bfs +:+ "/" +:+ componentTaskName bfs component.

(** ** One component *)

Definition componentDownloadSatisfied bfs component : M bool :=
  let expected := destination bfs component in
  if bool_decide (downloadedComponentPath bfs (cp_ComponentType component) (cp_Key component) ≠ expected) then mret false
  else if isURL (cp_URL component) then
    exists_ ← isFileExist expected;
    mret (match exists_ with Ok exists_ => exists_ | Err _ => false end)
  else mret true.

Definition updateComponentStatus bfs component (destinationPath : string) : M BlueFieldSoftware :=
  _ ← clearRetryCounter (getRetryKey bfs component);
  mret (setDownloadedComponentPath bfs (cp_ComponentType component) (cp_Key component) destinationPath).

Definition forget_task (taskName : string) : M unit :=
  _ ← TaskMap_Delete (cancel_key taskName);
  TaskMap_Delete taskName.

Definition handleDownloadError (err : GoError) bfs component : M (BlueFieldSoftware * option GoError) :=
  let componentType := component_string (cp_ComponentType component) in
  if bool_decide (err_kind err = KCanceled) then
    _ ← clearRetryCounter (getRetryKey bfs component);
    mret (AddFalse now (with_bfs_Phase BlueFieldSoftwareDeleting bfs) BlueFieldSoftwareCondDownloaded ReasonAwaitingDeletion
            ("BlueFieldSoftware " +:+ componentType +:+ " download canceled, deletion in progress"), None)
  else
    let retryKey := getRetryKey bfs component in
    currentRetries ← getRetryCount retryKey;
    if (currentRetries <? maxDownloadRetries)%Z then
      _ ← incrementRetryCounter retryKey;
      _ ← forget_task (componentTaskName bfs component);
      mret (AddFalse now (with_bfs_Phase BlueFieldSoftwareDownloading bfs) BlueFieldSoftwareCondDownloaded ReasonRetrying
              ("Download component " +:+ componentType +:+ ": " +:+ bfs_name bfs +:+ " failed with error: " +:+ err_msg err
               +:+ ". Retry attempt " +:+ pretty (currentRetries + 1)%Z +:+ "/" +:+ pretty maxDownloadRetries), None)
    else
      _ ← clearRetryCounter retryKey;
      let reason := if IsRecoverableDownloadError (Some err) then ReasonError else ReasonFailure in
      mret (AddFalse now (with_bfs_Phase BlueFieldSoftwareError bfs) BlueFieldSoftwareCondDownloaded reason
              ("Download component " +:+ componentType +:+ ": " +:+ bfs_name bfs +:+ " failed after " +:+ pretty maxDownloadRetries
               +:+ " attempts with error: " +:+ err_msg err), Some err).

(** The object, [completed] and the error. *)
Definition Processed : Type := BlueFieldSoftware * bool * option GoError.

Definition handleExistingTask (taskFuture : TaskValue) (taskName : string) bfs component : M Processed :=
  match taskFuture with
  | TCancel _ => mret (bfs, false, Some interface_conversion)
  | TFuture f =>
      state ← GetState f;
      match state with
      | None => mret (bfs, false, None)
      | Some result =>
          _ ← forget_task taskName;
          match result with
          | Some err => r ← handleDownloadError err bfs component; mret (r.1, false, r.2)
          | None => bfs ← updateComponentStatus bfs component (destination bfs component); mret (bfs, true, None)
          end
      end
  end.

Definition handleFileCheckError (err : GoError) bfs : BlueFieldSoftware :=
  AddFalse now (with_bfs_Phase BlueFieldSoftwareError bfs) BlueFieldSoftwareCondDownloaded ReasonError (err_msg err).

Definition handleNewDownload bfs component (taskName : string) : M Processed :=
  let filePath := destination bfs component in
  exist ← isFileExist filePath;
  match exist with
  | Err err => mret (handleFileCheckError err bfs, false, Some err)
  | Ok true => bfs ← updateComponentStatus bfs component filePath; mret (bfs, true, None)
  | Ok false =>
      _ ← start_task taskName (mkComponentTask taskName (cp_URL component) (componentFileName bfs component)
                                 (component_string (cp_ComponentType component)) (bfs_UID bfs));
      mret (bfs, false, None)
  end.

Definition processComponent bfs component : M Processed :=
  if negb (isURL (cp_URL component)) then
    bfs ← updateComponentStatus bfs component (destination bfs component);
    mret (bfs, true, None)
  else
    let taskName := componentTaskName bfs component in
    taskFuture ← TaskMap_Load taskName;
    match taskFuture with
    | Some taskFuture => handleExistingTask taskFuture taskName bfs component
    | None => handleNewDownload bfs component taskName
    end.

(** The loop of [processComponents], with [allCompleted]. *)
Fixpoint processComponents bfs (components : list componentInfo) (allCompleted : bool) : M Processed :=
  match components with
  | [] => mret (bfs, allCompleted, None)
  | component :: components =>
      r ← processComponent bfs component;
      let '(bfs, completed, err) := r in
      match err with
      | Some err => mret (bfs, false, Some err)
      | None => processComponents bfs components (allCompleted && completed)
      end
  end.

Fixpoint filter_missing bfs (units : list componentInfo) : M (list componentInfo) :=
  match units with
  | [] => mret []
  | c :: units =>
      satisfied ← componentDownloadSatisfied bfs c;
      rest ← filter_missing bfs units;
      mret (if (satisfied : bool) then rest else c :: rest)
  end.
Definition getComponentsToDownload bfs : M (list componentInfo) := filter_missing bfs (specComponentUnits bfs).

(** ** The state *)

Definition ensureOSISODOCAVersion bfs : BlueFieldSoftware :=
  let iso := bf_OsIso (bfs_Spec bfs) in
  let isoPath := dl_OsIso (bfs_DownloadedComponents bfs) in
  if bool_decide (iso = "") || negb (isURL iso) then bfs
  else if bool_decide (isoPath = "") then bfs
  else match ApplyDOCAVersionFromISO bfs isoPath with Ok bfs => bfs | Err _ => bfs end.

Definition markAllComponentsReady bfs : BlueFieldSoftware :=
  AddTrue now (with_bfs_Phase BlueFieldSoftwareExtracting (ensureOSISODOCAVersion bfs)) BlueFieldSoftwareCondDownloaded.

(** The body of the loop of [cancelDownloadsForBFS]; the error is a panic. *)
Definition cancel_unit bfs (unit : componentInfo) : M (option GoError) :=
  let taskName := componentTaskName bfs unit in
  cancelFunc ← TaskMap_Load (cancel_key taskName);
  match cancelFunc with
  | None => mret None
  | Some (TFuture _) => mret (Some interface_conversion)
  | Some (TCancel f) =>
      _ ← cancel f;
      _ ← TaskMap_Delete taskName;
      _ ← TaskMap_Delete (cancel_key taskName);
      mret None
  end.
Definition cancelDownloadsForBFS bfs : M (option GoError) := for_each (cancel_unit bfs) (specComponentUnits bfs).

Definition Downloading bfs : M (BlueFieldSoftware * option GoError) :=
  if bfs_isDeleting bfs then
    panic ← cancelDownloadsForBFS bfs;
    match panic with
    | Some p => mret (bfs, Some p)
    | None => mret (AddFalse now (with_bfs_Phase BlueFieldSoftwareDeleting bfs) BlueFieldSoftwareCondDownloaded ReasonAwaitingDeletion
                      "BlueFieldSoftware is being deleted", None)
    end
  else
    componentsToDownload ← getComponentsToDownload bfs;
    match componentsToDownload with
    | [] => mret (markAllComponentsReady bfs, None)
    | _ =>
        r ← processComponents bfs componentsToDownload true;
        let '(bfs, allCompleted, lastError) := r in
        mret (if (allCompleted : bool) then (markAllComponentsReady bfs, None) else (bfs, lastError))
    end.

(** ** Clean-up *)

(** The errors of a call for each element, in order. *)
Fixpoint each_error {A} (f : A → M (list GoError)) (xs : list A) : M (list GoError) :=
  match xs with
  | [] => mret []
  | x :: xs => errs ← f x; rest ← each_error f xs; mret (errs ++ rest)
  end.
Definition wrapped (prefix : string) (err : option GoError) : list GoError := option_list (wrapf prefix <$> err).

Definition remove_partial bfs (unit : componentInfo) : M (list GoError) :=
  if bool_decide (cp_URL unit = "") || negb (isURL (cp_URL unit)) then mret []
  else
    let destPath := destination bfs unit in
    if bool_decide (downloadedComponentPath bfs (cp_ComponentType unit) (cp_Key unit) = destPath) then mret []
    else
      matches ← ext (globFiles (tmp_pattern destPath));
      match matches with
      | Err err => mret [wrapf ("glob partial component files " +:+ quoted (tmp_pattern destPath) +:+ ": ") err]
      | Ok matches =>
          each_error (λ file, err ← ext (RemoveFileEx file);
                              mret (wrapped ("remove partial component file " +:+ quoted file +:+ ": ") err)) matches
      end.
Definition cleanupPartialComponentFiles bfs : M (option GoError) :=
  errs ← each_error (remove_partial bfs) (specComponentUnits bfs); mret (errors_Join errs).

Definition remove_extracted bfs (unit : componentInfo) : M (list GoError) :=
  let extractDir := extractOutputDirForBFS bfs (cp_ComponentType unit) (cp_Key unit) in
  if bool_decide (extractDir = "") then mret []
  else err ← ext (RemoveAllEx extractDir);
       mret (wrapped ("remove extract output directory " +:+ quoted extractDir +:+ ": ") err).
Definition cleanupExtractedComponentDirs bfs : M (option GoError) :=
  errs ← each_error (remove_extracted bfs) (extractionUnits bfs); mret (errors_Join errs).

(** The two results are the error and a panic. *)
Definition cleanupInFlightComponentArtifacts bfs : M (option GoError * option GoError) :=
  panic ← cancelDownloadsForBFS bfs;
  match panic with
  | Some p => mret (None, Some p)
  | None =>
      e1 ← cleanupPartialComponentFiles bfs;
      e2 ← cleanupExtractedComponentDirs bfs;
      mret (errors_Join (option_list e1 ++ option_list e2), None)
  end.

Definition completedComponentFilePath bfs (unit : componentInfo) : string :=
  if bool_decide (cp_URL unit = "") || negb (isURL (cp_URL unit)) then ""
  else
    let p := downloadedComponentPath bfs (cp_ComponentType unit) (cp_Key unit) in
    if bool_decide (p ≠ "") then p else destination bfs unit.

Definition remove_completed bfs (unit : componentInfo) : M (list GoError) :=
  let filePath := completedComponentFilePath bfs unit in
  if bool_decide (filePath = "") then mret []
  else err ← ext (RemoveFileEx filePath);
       mret (wrapped ("remove completed component file " +:+ quoted filePath +:+ ": ") err).
Definition cleanupCompletedComponentFiles bfs : M (option GoError) :=
  errs ← each_error (remove_completed bfs) (specComponentUnits bfs); mret (errors_Join errs).
End Downloading.
