(* ===== verification/SoftwareExtract.v ===== *)
(** The unpacking of the firmware bundles of a BlueFieldSoftware
    (state/extracting.go): the answer of the unpack service, the versions it gives,
    and the state Extracting.

    JSON is decoded by operations of the class [UnpackJSON]. *)

From S2P Require Import Prelude.
From S2P Require Import Meta.
From S2P Require Import Conditions.
From S2P Require Import DPUTypes.
From S2P Require Import DownloadTasks.
From S2P Require Import BFBTypes.
From S2P Require Import BFBDownload.
From S2P Require Import SoftwareTypes.
From S2P Require Import SoftwareDownload.
From Stdlib Require Import Ascii.

(** ** The answer of the service *)

Record unpackResponse := mkUnpackResponse {
  ur_Success : bool; ur_ExitCode : Z; ur_Stdout : string; ur_Stderr : string; ur_Error : string }.
Record unpackedComponent := mkUnpacked { uc_ComponentVersionString : string; uc_FWImage : string }.
#[export] Instance unpackedComponent_eq_dec : EqDecision unpackedComponent.
Proof. solve_decision. Defined.

(** [json.Unmarshal] of the answer, and of the records in its stdout with the
    components of each. *)
Class UnpackJSON := {
  unmarshal_response : string → Res unpackResponse;
  unmarshal_stdout : string → Res (list (list unpackedComponent)) }.

(** The body of the loops of [extractUnpackedComponents]; [seen] has the elements of the list. *)
Definition add_component (components : list unpackedComponent) (comp : unpackedComponent) : list unpackedComponent :=
  if bool_decide (uc_ComponentVersionString comp = "") && bool_decide (uc_FWImage comp = "") then components
  else if bool_decide (comp ∈ components) then components
  else components ++ [comp].

Definition extractUnpackedComponents {J : UnpackJSON} (stdout : string) : Res (list unpackedComponent) :=
  if bool_decide (stdout = "") then Ok []
  else match unmarshal_stdout stdout with
       | Err err => Err (wrapf "parse stdout json: " err)
       | Ok records => Ok (foldl add_component [] (mjoin records))
       end.

Definition callPldmUnpackService {W} {S : SoftwareClient W} {J : UnpackJSON} (packagePath outDir : string)
    : SM W (Res (list unpackedComponent)) :=
  resp ← postUnpack packagePath outDir;
  mret (match resp with
  | Err err => Err (wrapf "call unpack service: " err)
  | Ok (_, Err err) => Err (wrapf "read unpack response body: " err)
  | Ok (statusCode, Ok body) =>
      if negb (statusCode =? StatusOK)%Z then Err (errorf ("unpack service returned status " +:+ pretty statusCode +:+ ": " +:+ body))
      else match unmarshal_response body with
      | Err err => Err (wrapf "parse unpack response: " err)
      | Ok parsed =>
          if negb (ur_Success parsed) then
            Err (errorf ("unpack failed (exitCode=" +:+ pretty (ur_ExitCode parsed) +:+ "): " +:+ ur_Error parsed +:+ " "
                         +:+ ur_Stdout parsed +:+ " " +:+ ur_Stderr parsed))
          else match extractUnpackedComponents (ur_Stdout parsed) with
          | Err err => Err (wrapf "extract components from unpack stdout: " err)
          | Ok components => Ok components
          end
      end
  end).

(** ** The versions *)

Definition deviceVersionsComplete (v : BluefieldDeviceVersions) : bool :=
  negb (bool_decide (dv_BMCVersion v = "")) && negb (bool_decide (dv_BMCErotVersion v = ""))
  && negb (bool_decide (dv_SBIOSVersion v = "")) && negb (bool_decide (dv_BFNicFwVersion v = "")).
Definition no_device_versions : BluefieldDeviceVersions := mkDeviceVersions "" "" "" "".

Definition extractedVersionsRecorded (bfs : BlueFieldSoftware) (t : ComponentType) (key : string) : bool :=
  match bfs_Versions bfs with
  | None => false
  | Some v =>
      match t with
      | ComponentTypeFwBundle => deviceVersionsComplete (default no_device_versions (sv_BluefieldSoftwareVersions v !! key))
      | ComponentTypePlatformFwBundle => negb (bool_decide (sv_EWNicFwVersion v = ""))
      | _ => false
      end
  end.

Definition cx9_marker := "CX9_".
Definition psidFromCX9ImageName (imageName : string) : Res string :=
  match String.index 0 cx9_marker imageName with
  | None => Err (errorf ("CX9 image name " +:+ quoted imageName +:+ " does not contain " +:+ quoted cx9_marker +:+ " prefix"))
  | Some idx =>
      let rest := String.substring (idx + String.length cx9_marker) (String.length imageName - (idx + String.length cx9_marker)) imageName in
      match strings_Split "_"%char rest with
      | p0 :: p1 :: _ =>
          if negb (bool_decide (p0 = "MT")) || bool_decide (p1 = "")
          then Err (errorf ("CX9 image name " +:+ quoted imageName +:+ " does not contain a PSID after " +:+ quoted cx9_marker))
          else Ok (p0 +:+ "_" +:+ p1)
      | _ => Err (errorf ("CX9 image name " +:+ quoted imageName +:+ " does not contain a PSID after " +:+ quoted cx9_marker))
      end
  end.
Definition ensureCX9ImagePSID (imageName key : string) : option GoError :=
  match psidFromCX9ImageName imageName with
  | Err err => Some err
  | Ok psid =>
      if negb (strings_EqualFold psid key)
      then Some (errorf ("CX9 image PSID " +:+ quoted psid +:+ " does not match expected PSID " +:+ quoted key)) else None
  end.

(** One component: the [switch] on the name of its image. *)
Definition device_step (psid : string) (versions : BluefieldDeviceVersions) (component : unpackedComponent) : Res BluefieldDeviceVersions :=
  let imageName := strings_ToUpper (path_Base (uc_FWImage component)) in
  let version := uc_ComponentVersionString component in
  let '(mkDeviceVersions bmc erot sbios nic) := versions in
  if strings_Contains imageName "CX9" then
    match ensureCX9ImagePSID imageName psid with
    | Some err => Err err
    | None => Ok (mkDeviceVersions bmc erot sbios version)
    end
  else if strings_Contains imageName "BMC_BF4" then Ok (mkDeviceVersions version erot sbios nic)
  else if strings_Contains imageName "EROT" then Ok (mkDeviceVersions bmc version sbios nic)
  else if strings_Contains imageName "SBIOS" then Ok (mkDeviceVersions bmc erot version nic)
  else Ok versions.
Fixpoint device_versions (psid : string) (versions : BluefieldDeviceVersions) (components : list unpackedComponent) : Res BluefieldDeviceVersions :=
  match components with
  | [] => Ok versions
  | component :: components =>
      match device_step psid versions component with Ok versions => device_versions psid versions components | Err err => Err err end
  end.

(** [versions] is the record of the status, already there. *)
Definition applyDeviceVersions (v : BluefieldSoftwareVersions) (psid : string) (components : list unpackedComponent) : Res BluefieldSoftwareVersions :=
  match device_versions psid (default no_device_versions (sv_BluefieldSoftwareVersions v !! psid)) components with
  | Err err => Err err
  | Ok versions =>
      if negb (deviceVersionsComplete versions)
      then Err (errorf ("DPU PLDM bundle for PSID " +:+ psid +:+ " missing required component versions (need BMC, BMC ERoT, SBIOS, and BF NIC)"))
      else Ok (mkSoftwareVersions (sv_DOCA v) (sv_OSISOVersion v) (sv_EWNicFwVersion v) (<[psid := versions]> (sv_BluefieldSoftwareVersions v)))
  end.

Definition platform_step (bfs : BlueFieldSoftware) (component : unpackedComponent) : BlueFieldSoftware :=
  if negb (strings_Contains (strings_ToUpper (path_Base (uc_FWImage component))) "CX9") then bfs
  else
    let v := default no_versions (bfs_Versions bfs) in
    with_bfs_Versions (Some (mkSoftwareVersions (sv_DOCA v) (sv_OSISOVersion v) (uc_ComponentVersionString component) (sv_BluefieldSoftwareVersions v)))
      (setDownloadedComponentPath bfs ComponentTypeNicFw "" (uc_FWImage component)).
Definition applyPlatformNicFw (bfs : BlueFieldSoftware) (components : list unpackedComponent) : BlueFieldSoftware :=
  foldl platform_step bfs components.

Definition applyUnpackedComponentsToDownloaded (bfs : BlueFieldSoftware) (t : ComponentType) (key : string)
    (components : list unpackedComponent) : BlueFieldSoftware * option GoError :=
  let v := default no_versions (bfs_Versions bfs) in
  let bfs := with_bfs_Versions (Some v) bfs in
  match t with
  | ComponentTypeFwBundle =>
      match applyDeviceVersions v key components with
      | Err err => (bfs, Some err)
      | Ok v => (with_bfs_Versions (Some v) bfs, None)
      end
  | ComponentTypePlatformFwBundle => (applyPlatformNicFw bfs components, None)
  | _ => (bfs, None)
  end.

(** ** The state *)

Section Extracting.
Context {API : MetaAPI} {W : Type} {C : BFBClient W} {S : SoftwareClient W} {U : URLs} {R : MapRange} {J : UnpackJSON}.
Context (now : Time).
Local Abbreviation M := (SM (SoftwareMemory * W)).
Implicit Types (bfs : BlueFieldSoftware).

Record extractTarget := mkTarget { et_componentType : ComponentType; et_key : string; et_packagePath : string }.

Definition resolvePackagePath bfs (unit : componentInfo) : string :=
  let packageRef := downloadedComponentPath bfs (cp_ComponentType unit) (cp_Key unit) in
  let packageRef := if bool_decide (packageRef = "") then cp_URL unit else packageRef in
  if bool_decide (packageRef = "") then ""
  else if isURL packageRef then destination bfs unit
  else packageRef.

Definition resolveExtractTargets bfs : list extractTarget :=
  omap (λ unit, let packagePath := resolvePackagePath bfs unit in
                if bool_decide (packagePath ≠ "") then Some (mkTarget (cp_ComponentType unit) (cp_Key unit) packagePath) else None)
       (extractionUnits bfs).

Definition failExtract bfs (err : GoError) (msg : string) : BlueFieldSoftware * option GoError :=
  (AddFalse now (with_bfs_Phase BlueFieldSoftwareError bfs) BlueFieldSoftwareCondReady ReasonFailure msg, Some err).

Definition unpackTargetIfNeeded bfs (target : extractTarget) : M (BlueFieldSoftware * option GoError) :=
  let t := et_componentType target in
  let key := et_key target in
  let what := component_string t +:+ " " +:+ bfs_name bfs in
  if extractedVersionsRecorded bfs t key then mret (bfs, None)
  else
    let outDir := extractOutputDirForBFS bfs t key in
    err ← ext (RemoveAllEx outDir);
    match err with
    | Some err => mret (failExtract bfs err ("Clear extract output directory for " +:+ what +:+ ": " +:+ err_msg err))
    | None =>
        components ← ext (callPldmUnpackService (et_packagePath target) outDir);
        match components with
        | Err err => mret (failExtract bfs err ("Extract PLDM firmware bundle for " +:+ what +:+ " failed: " +:+ err_msg err))
        | Ok components =>
            mret (match applyUnpackedComponentsToDownloaded bfs t key components with
                  | (bfs, Some err) => failExtract bfs err ("Apply unpacked components for " +:+ what +:+ " failed: " +:+ err_msg err)
                  | (bfs, None) => (bfs, None)
                  end)
        end
    end.

Fixpoint unpack_targets bfs (targets : list extractTarget) : M (BlueFieldSoftware * option GoError) :=
  match targets with
  | [] => mret (AddTrue now (with_bfs_Phase BlueFieldSoftwareReady bfs) BlueFieldSoftwareCondReady, None)
  | target :: targets =>
      r ← unpackTargetIfNeeded bfs target;
      match r with
      | (bfs, Some err) => mret (bfs, Some err)
      | (bfs, None) => unpack_targets bfs targets
      end
  end.

Definition Extracting bfs : M (BlueFieldSoftware * option GoError) :=
  if bfs_isDeleting bfs then
    mret (AddFalse now (with_bfs_Phase BlueFieldSoftwareDeleting bfs) BlueFieldSoftwareCondReady ReasonAwaitingDeletion
            "BlueFieldSoftware is being deleted", None)
  else unpack_targets bfs (resolveExtractTargets bfs).
End Extracting.
