(* ===== verification/SoftwareStates.v ===== *)
(** The other states of a BlueFieldSoftware (state/*.go) and the reconcile of its
    controller (bluefieldsoftware_controller.go). *)

From S2P Require Import Prelude.
From S2P Require Import Meta.
From S2P Require Import Conditions.
From S2P Require Import DPUTypes.
From S2P Require Import DPUSetTypes.
From S2P Require Import DownloadTasks.
From S2P Require Import BFBTypes.
From S2P Require Import SoftwareTypes.
From S2P Require Import SoftwareDownload.
From S2P Require Import SoftwareExtract.

Definition RetryWindow : Z := (30 * 60 * second)%Z.
Definition RetryInterval : Z := (60 * second)%Z.
Definition RequeueInterval : Z := (5 * second)%Z.

Section States.
Context {API : MetaAPI} {FA : FinalizerAPI} {W : Type} {C : BFBClient W} {S : SoftwareClient W} {U : URLs} {R : MapRange} {J : UnpackJSON}.
Context (now : Time).
Local Abbreviation M := (SM (SoftwareMemory * W)).
Local Abbreviation Handled := (BlueFieldSoftware * option GoError)%type.
Implicit Types (bfs : BlueFieldSoftware).

(** initializing.go *)
Definition Initializing bfs : Handled :=
  if bfs_isDeleting bfs then
    (AddFalse now (with_bfs_Phase BlueFieldSoftwareDeleting bfs) BlueFieldSoftwareCondInitialized ReasonAwaitingDeletion
       "BlueFieldSoftware is being deleted", None)
  else (with_bfs_Phase BlueFieldSoftwareDownloading (AddTrue now bfs BlueFieldSoftwareCondInitialized), None).

(** ready.go *)
Definition extractedNicFwMissing bfs (unit : componentInfo) : M bool :=
  if negb (bool_decide (cp_ComponentType unit = ComponentTypePlatformFwBundle)) then mret false
  else
    let nicFw := dl_NicFw (bfs_DownloadedComponents bfs) in
    if bool_decide (nicFw = "") then mret false
    else ok ← isFileExist nicFw; mret (match ok with Ok true => false | _ => true end).

(** The body of the loop: is the component missing? *)
Definition component_missing bfs (unit : componentInfo) : M bool :=
  if bool_decide (cp_URL unit = "") then mret false
  else if isURL (cp_URL unit) then
    ok ← isFileExist (destination bfs unit);
    match ok with
    | Ok true => extractedNicFwMissing bfs unit
    | _ => mret true
    end
  else if bool_decide (downloadedComponentPath bfs (cp_ComponentType unit) (cp_Key unit) ≠ cp_URL unit) then mret true
  else extractedNicFwMissing bfs unit.
Fixpoint collect_missing bfs (units : list componentInfo) : M (list componentInfo) :=
  match units with
  | [] => mret []
  | unit :: units =>
      missing ← component_missing bfs unit;
      rest ← collect_missing bfs units;
      mret (if (missing : bool) then unit :: rest else rest)
  end.
Definition checkMissingComponents bfs : M (list componentInfo) := collect_missing bfs (specComponentUnits bfs).

Definition on_versions (f : BluefieldSoftwareVersions → BluefieldSoftwareVersions) bfs : BlueFieldSoftware :=
  with_bfs_Versions (f <$> bfs_Versions bfs) bfs.
Definition clearComponentStatus bfs (unit : componentInfo) : BlueFieldSoftware :=
  let d := bfs_DownloadedComponents bfs in
  match cp_ComponentType unit with
  | ComponentTypeFwBundle =>
      on_versions (λ v, mkSoftwareVersions (sv_DOCA v) (sv_OSISOVersion v) (sv_EWNicFwVersion v)
                          (delete (cp_Key unit) (sv_BluefieldSoftwareVersions v)))
        (with_bfs_Downloaded (mkDownloadedComponents (delete (cp_Key unit) (dl_PldmFwBundle d)) (dl_PlatformPldmFwBundle d)
                                (dl_OsIso d) (dl_NicFw d)) bfs)
  | ComponentTypePlatformFwBundle =>
      on_versions (λ v, mkSoftwareVersions (sv_DOCA v) (sv_OSISOVersion v) "" (sv_BluefieldSoftwareVersions v))
        (with_bfs_Downloaded (mkDownloadedComponents (dl_PldmFwBundle d) "" (dl_OsIso d) "") bfs)
  | ComponentTypeNicFw => setDownloadedComponentPath bfs ComponentTypeNicFw "" ""
  | ComponentTypeOSISO => setDownloadedComponentPath bfs ComponentTypeOSISO "" ""
  end.

(** [%v] of the slice. *)
Definition print_components (cs : list componentInfo) : string :=
  "[" +:+ strings_Join " " ((λ c, "{" +:+ cp_URL c +:+ " " +:+ component_string (cp_ComponentType c) +:+ " " +:+ cp_Key c +:+ "}") <$> cs) +:+ "]".

Definition Ready bfs : M Handled :=
  if bfs_isDeleting bfs then
    mret (AddFalse now (with_bfs_Phase BlueFieldSoftwareDeleting bfs) BlueFieldSoftwareCondReady ReasonAwaitingDeletion
            "BlueFieldSoftware is being deleted", None)
  else
    missing ← checkMissingComponents bfs;
    mret (match missing with
          | [] => (AddTrue now bfs BlueFieldSoftwareCondReady, None)
          | _ =>
              let bfs := AddFalse now (with_bfs_Phase BlueFieldSoftwareDownloading bfs) BlueFieldSoftwareCondReady ReasonError
                           ("Component files missing: " +:+ print_components missing +:+ ", triggering re-download") in
              (foldl clearComponentStatus bfs missing, None)
          end).

(** error.go *)
Inductive errorOutcome := retryLater | retryNow | terminal.
Definition classifyError bfs : errorOutcome :=
  match Get bfs BlueFieldSoftwareCondDownloaded with
  | None => retryLater
  | Some downloadCond =>
      if bool_decide (c_Reason downloadCond = ReasonFailure) then terminal
      else
        let timeSinceError := (now - c_LastTransitionTime downloadCond)%Z in
        if (RetryWindow <=? timeSinceError)%Z then terminal
        else if (RetryInterval <=? timeSinceError)%Z then retryNow
        else retryLater
  end.

Definition error_stays bfs (cleanupErr : option GoError) : Handled :=
  (AddTrue now bfs BlueFieldSoftwareCondError, wrapf "cleanup component artifacts on error: " <$> cleanupErr).
Definition Error bfs : M Handled :=
  r ← cleanupInFlightComponentArtifacts bfs;
  match r with
  | (_, Some p) => mret (bfs, Some p)
  | (cleanupErr, None) =>
      if bfs_isDeleting bfs then
        mret (AddFalse now (with_bfs_Phase BlueFieldSoftwareDeleting bfs) BlueFieldSoftwareCondError ReasonAwaitingDeletion
                "BlueFieldSoftware is being deleted", None)
      else
        match classifyError bfs, cleanupErr with
        | retryNow, None =>
            let bfs := AddFalse now (with_bfs_Phase BlueFieldSoftwareDownloading bfs) BlueFieldSoftwareCondDownloaded ReasonPending
                         "Retrying download after transient error" in
            mret (AddFalse now bfs BlueFieldSoftwareCondError ReasonPending "Retry initiated", None)
        | terminal, _ =>
            completedErr ← cleanupCompletedComponentFiles bfs;
            mret (error_stays bfs (errors_Join (option_list cleanupErr ++ option_list completedErr)))
        | _, _ => mret (error_stays bfs cleanupErr)
        end
  end.

(** deleting.go *)
Definition blockDeletion bfs (msg : string) : Handled :=
  (AddFalse now bfs BlueFieldSoftwareCondDeleted ReasonPending msg, Some (errorf msg)).
Definition cannot_delete bfs (why : string) : string :=
  "Cannot delete BlueFieldSoftware " +:+ bfs_Namespace bfs +:+ "/" +:+ bfs_Name bfs +:+ ": still " +:+ why.

Definition claimed_by bfs (ds : DPUSet) : bool :=
  bool_decide (t_BlueFieldSoftware (ds_Template ds) = Some (bfs_Name bfs)) && timep_is_zero (ds_DeletionTimestamp ds).
Definition blockedByDPUSet bfs : Fn (SoftwareMemory * W) Handled unit :=
  dpuSetList ← or_return (ext (dpuSetsIn (bfs_Namespace bfs)))
    (λ err, blockDeletion bfs (err_msg (wrapf "failed to list DPUSets for reference checking: " err)));
  _ ← match snd <$> find_idx (claimed_by bfs) dpuSetList with
      | Some ds => return_early (blockDeletion bfs (cannot_delete bfs ("referenced by DPUSet " +:+ ds_Name ds)))
      | None => mret tt
      end;
  match snd <$> find_idx (λ f, strings_HasPrefix f BlueFieldSoftwareFinalizerPrefix) (bfs_Finalizers bfs) with
  | Some f => return_early (blockDeletion bfs (cannot_delete bfs ("protected by DPUSet finalizer " +:+ f)))
  | None => mret tt
  end.
Definition software_of bfs (dpu : DPU) : bool := bool_decide (deref (sp_BlueFieldSoftware (dpu_Spec dpu)) "" = bfs_Name bfs).
Definition blockedByDPU bfs : Fn (SoftwareMemory * W) Handled unit :=
  dpuList ← or_return (ext (dpusIn (bfs_Namespace bfs)))
    (λ err, blockDeletion bfs (err_msg (wrapf "failed to list DPUs for reference checking: " err)));
  match snd <$> find_idx (software_of bfs) dpuList with
  | Some dpu => return_early (blockDeletion bfs (cannot_delete bfs ("referenced by DPU " +:+ dpu_Name dpu)))
  | None => mret tt
  end.

(** The errors of the removals are only told in an event. *)
Definition Deleting bfs : M Handled := run (
  _ ← blockedByDPUSet bfs;
  _ ← blockedByDPU bfs;
  _ ← lift (each_error (remove_completed bfs) (specComponentUnits bfs));
  _ ← lift (each_error (remove_extracted bfs) (extractionUnits bfs));
  let bfs := with_bfs_Finalizers (RemoveFinalizer (bfs_Finalizers bfs) BlueFieldSoftwareFinalizer) bfs in
  mret (AddTrue now bfs BlueFieldSoftwareCondDeleted, None)).

(** factory.go and the reconcile *)
Definition Handle bfs : M Handled :=
  let phase := bfs_Phase bfs in
  if bool_decide (phase = BlueFieldSoftwareDownloading) then Downloading now bfs
  else if bool_decide (phase = BlueFieldSoftwareExtracting) then Extracting now bfs
  else if bool_decide (phase = BlueFieldSoftwareReady) then Ready bfs
  else if bool_decide (phase = BlueFieldSoftwareDeleting) then Deleting bfs
  else if bool_decide (phase = BlueFieldSoftwareError) then Error bfs
  else mret (Initializing bfs).

Definition reconcile_software bfs : M (BlueFieldSoftware * Z * option GoError) :=
  if negb (ContainsFinalizer (bfs_Finalizers bfs) BlueFieldSoftwareFinalizer) && timep_is_zero (bfs_DeletionTimestamp bfs)
  then mret (with_bfs_Finalizers (AddFinalizer (bfs_Finalizers bfs) BlueFieldSoftwareFinalizer) bfs, 0%Z, None)
  else
    r ← Handle bfs;
    mret (match r with
          | (bfs, Some err) => (bfs, 0%Z, Some err)
          | (bfs, None) => (bfs, RequeueInterval, None)
          end).

Definition Reconcile (key : NamespacedName) : M (Z * list GoError) :=
  r ← ext (fetchSoftware key);
  match r with
  | Err err => mret (0%Z, if IsNotFound err then [] else [wrapf "failed to get BlueFieldSoftware " err])
  | Ok bfs =>
      r ← reconcile_software bfs;
      e ← ext (patchSoftware bfs r.1.1);
      mret (r.1.2, option_list r.2 ++ option_list e)
  end.
End States.
