(* ===== verification/SoftwareProtocol.v ===== *)
(** What passes over a BlueFieldSoftware do: the edges of its phases and the end of
    its finalizer, what Ready says of its firmware versions, and two loops a run of
    passes cannot leave. *)

From S2P Require Import Prelude.
From S2P Require Import Meta.
From S2P Require Import Conditions.
From S2P Require Import DPUTypes.
From S2P Require Import DPUSetTypes.
From S2P Require Import WriteLog.
From S2P Require Import DownloadTasks.
From S2P Require Import BFBTypes.
From S2P Require Import SoftwareTypes.
From S2P Require Import SoftwareDownload.
From S2P Require Import SoftwareExtract.
From S2P Require Import SoftwareStates.

(** ** The edges of the phases *)

Definition same_software (b b' : BlueFieldSoftware) : Prop :=
  bfs_Name b' = bfs_Name b ∧ bfs_Namespace b' = bfs_Namespace b ∧ bfs_UID b' = bfs_UID b ∧ bfs_Spec b' = bfs_Spec b ∧
  bfs_DeletionTimestamp b' = bfs_DeletionTimestamp b ∧ bfs_Finalizers b' = bfs_Finalizers b.

Lemma same_software_refl b : same_software b b.
Proof. done. Qed.
Lemma same_software_trans a b c : same_software a b → same_software b c → same_software a c.
Proof. unfold same_software. naive_solver congruence. Qed.

Definition software_phases : list string :=
  [BlueFieldSoftwareDownloading; BlueFieldSoftwareExtracting; BlueFieldSoftwareReady; BlueFieldSoftwareDeleting; BlueFieldSoftwareError].
(** Where a pass goes from a phase, apart from staying and from Deleting. *)
Definition software_edges (p : string) : list string :=
  if bool_decide (p = BlueFieldSoftwareDownloading) then [BlueFieldSoftwareExtracting; BlueFieldSoftwareError]
  else if bool_decide (p = BlueFieldSoftwareExtracting) then [BlueFieldSoftwareReady; BlueFieldSoftwareError]
  else if bool_decide (p = BlueFieldSoftwareReady) then [BlueFieldSoftwareDownloading]
  else if bool_decide (p = BlueFieldSoftwareError) then [BlueFieldSoftwareDownloading]
  else if bool_decide (p = BlueFieldSoftwareDeleting) then []
  else [BlueFieldSoftwareDownloading].

Section Pass.
Context {API : MetaAPI} {FA : FinalizerAPI} {W : Type} {C : BFBClient W} {S : SoftwareClient W} {U : URLs} {R : MapRange} {J : UnpackJSON}.
Context (now : Time).
Local Abbreviation Handled := (BlueFieldSoftware * option GoError)%type.
Implicit Types (b : BlueFieldSoftware) (s : SoftwareMemory * W).

(** The process has a download of a component of the software that ended as cancelled. *)
Definition download_cancelled (m : SoftwareMemory) b : Prop :=
  ∃ c f err, c ∈ specComponentUnits b ∧ DownloadingTaskMap m !! componentTaskName b c = Some (TFuture f) ∧
    futures m !! f ≫= fu_Result = Some (Some err) ∧ err_kind err = KCanceled.

(** Where a pass that starts with the memory [m] may go. *)
Definition software_goes (m : SoftwareMemory) b b' : Prop :=
  bfs_Phase b' = bfs_Phase b ∨ bfs_Phase b' ∈ software_edges (bfs_Phase b) ∨
  bfs_Phase b' = BlueFieldSoftwareDeleting ∧
    (bfs_isDeleting b = true ∨ bfs_Phase b = BlueFieldSoftwareDownloading ∧ download_cancelled m b).
Definition software_ok (m : SoftwareMemory) b b' : Prop := same_software b b' ∧ software_goes m b b'.

(** *** What ended before the pass

    A pass forgets downloads and starts new ones, which have not ended: what it finds
    ended had ended before it. *)
Definition later (m m' : SoftwareMemory) : Prop :=
  ∀ k f err, DownloadingTaskMap m' !! k = Some (TFuture f) → futures m' !! f ≫= fu_Result = Some (Some err) →
    DownloadingTaskMap m !! k = Some (TFuture f) ∧ futures m !! f ≫= fu_Result = Some (Some err).

Lemma later_refl m : later m m.
Proof. done. Qed.
Lemma later_retries m0 m g : later m0 m → later m0 (with_retries g m).
Proof. done. Qed.
Lemma later_delete m0 m k : later m0 m → later m0 (with_tasks (delete k) m).
Proof. intros H k' f err Hk. cbn in Hk. apply lookup_delete_Some in Hk as [_ Hk]. by apply H. Qed.
Lemma later_start m0 m n (task : ComponentDownloadTask) (w : W) : later m0 m → later m0 (start_task n task (m, w)).2.1.
Proof.
  intros H k f err. assert ((start_task n task (m, w)).2.1 = mkMemory
    (<[n := TFuture (length (futures m))]> (<[cancel_key n := TCancel (length (futures m))]> (DownloadingTaskMap m)))
    (downloadRetryCounter m) (futures m ++ [mkFuture task false None])) as -> by done.
  cbn [DownloadingTaskMap futures]. set (new := length (futures m)).
  assert ((futures m ++ [mkFuture task false None]) !! f ≫= fu_Result = Some (Some err) → futures m !! f ≫= fu_Result = Some (Some err)) as Hf.
  { destruct ((futures m ++ [mkFuture task false None]) !! f) as [fu|] eqn:E; [|done]. apply lookup_app_Some in E as [E|[_ E]]; [by rewrite E|].
    apply list_lookup_singleton_Some in E as [_ <-]. done. }
  assert ((futures m ++ [mkFuture task false None]) !! new ≫= fu_Result = None) as Hnew by (unfold new; by rewrite list_lookup_middle).
  intros Hk Hr. destruct (decide (k = n)) as [->|Hn].
  - rewrite lookup_insert_eq in Hk. injection Hk as <-. fold new in Hr. by rewrite Hnew in Hr.
  - rewrite lookup_insert_ne in Hk by done. destruct (decide (k = cancel_key n)) as [->|Hc]; [by rewrite lookup_insert_eq in Hk|].
    rewrite lookup_insert_ne in Hk by done. apply H; [done|by apply Hf].
Qed.

(** Only a cancelled download takes the object to Deleting. *)
Definition kept_by (m0 : SoftwareMemory) b b' : Prop :=
  same_software b b' ∧ (bfs_Phase b' = BlueFieldSoftwareDeleting → bfs_Phase b = BlueFieldSoftwareDeleting ∨ download_cancelled m0 b).

Lemma same_task b b' c : same_software b b' → componentTaskName b' c = componentTaskName b c.
Proof.
  intros (Hn & Hns & Hu & Hs & _ & _). unfold componentTaskName, PldmTaskName, GenerateComponentTaskName. by rewrite Hn, Hns.
Qed.

Lemma handle_error_kept m0 b b' err c s : c ∈ specComponentUnits b → later m0 s.1 → kept_by m0 b b' →
  (err_kind err = KCanceled → download_cancelled m0 b) →
  let r := handleDownloadError now err b' c s in later m0 r.2.1 ∧ kept_by m0 b r.1.1.
Proof.
  intros Hc Hl [Hs Hp] He. cbv zeta. unfold handleDownloadError, clearRetryCounter, incrementRetryCounter, forget_task, TaskMap_Delete,
    getRetryCount, mem, mbind, SM_bind. destruct s as [m w]. cbn [fst snd]. case_bool_decide as Hk.
  - split; [by apply later_retries|]. split; [exact Hs|]. intros _. right. by apply He.
  - destruct (_ <? _)%Z; cbn [fst snd mret SM_ret].
    + split; [by apply later_delete, later_delete, later_retries|]. by split.
    + split; [by apply later_retries|]. by split.
Qed.

Lemma component_kept m0 b b' c s : c ∈ specComponentUnits b → later m0 s.1 → kept_by m0 b b' →
  let r := processComponent now b' c s in later m0 r.2.1 ∧ kept_by m0 b r.1.1.1.
Proof.
  intros Hc Hl Hb. cbv zeta. unfold processComponent. destruct (isURL (cp_URL c)); cbn [negb].
  2: { unfold updateComponentStatus, clearRetryCounter, mem, mbind, SM_bind. destruct s as [m w]. split; [by apply later_retries|exact Hb]. }
  unfold handleExistingTask, GetState, mbind, SM_bind, option_bind, TaskMap_Load, mem. destruct s as [m w]. cbn [fst snd].
  destruct (DownloadingTaskMap m !! componentTaskName b' c) as [[f|f]|] eqn:Ek.
  - match goal with |- context [match ?x with Some y => fu_Result y | None => None end] => destruct x as [fu|] eqn:Ef end;
      [destruct (fu_Result fu) as [[err|]|] eqn:Er|]; cbn [fst snd];
      [| |split; [exact Hl|exact Hb]..].
    + unfold forget_task, TaskMap_Delete, mem, mbind, SM_bind. cbn [fst snd].
      set (s1 := (with_tasks _ _, w)).
      destruct (handle_error_kept m0 b b' err c s1 Hc) as [H1 H2]; [by apply later_delete, later_delete|exact Hb| |].
      { intros Hk. destruct (Hl (componentTaskName b' c) f err Ek) as [H1 H2]; [rewrite <- Er; assert (∀ o, o = Some fu → o ≫= fu_Result = fu_Result fu) as Hbind by (by intros ? ->); exact (Hbind _ Ef)|]. exists c, f, err. rewrite <- (same_task b b' c) by apply Hb. done. }
      destruct (handleDownloadError now err b' c s1) as [r s2]. done.
    + unfold forget_task, TaskMap_Delete, updateComponentStatus, clearRetryCounter, mem, mbind, SM_bind. cbn [fst snd].
      split; [by apply later_retries, later_delete, later_delete|exact Hb].
  - done.
  - unfold handleNewDownload, isFileExist, ext, mbind, SM_bind. cbn [fst snd]. destruct (statFile _ w) as [[e|] w1]; cbn [fst snd mret SM_ret].
    + case_bool_decide; cbn [fst snd mret SM_ret].
      * pose proof (later_start m0 m (componentTaskName b' c) (mkComponentTask (componentTaskName b' c) (cp_URL c) (componentFileName b' c)
          (component_string (cp_ComponentType c)) (bfs_UID b')) w1 Hl) as H2.
        split; [exact H2|exact Hb].
      * split; [done|]. destruct Hb as [Hs _]. by split.
    + unfold updateComponentStatus, clearRetryCounter, mem, mbind, SM_bind. split; [by apply later_retries|exact Hb].
Qed.

Lemma components_kept m0 b b' cs ok s : (∀ c, c ∈ cs → c ∈ specComponentUnits b) → later m0 s.1 → kept_by m0 b b' →
  kept_by m0 b (processComponents now b' cs ok s).1.1.1.
Proof.
  revert b' ok s. induction cs as [|c cs IH]; intros b' ok s Hcs Hl Hb; [done|]. cbn [processComponents]. unfold mbind, SM_bind.
  destruct (component_kept m0 b b' c s) as [Hl2 Hb2]; [apply Hcs; left|done|done|].
  destruct (processComponent now b' c s) as [[[b2 done] [err|]] s2]; [exact Hb2|]. apply IH; [|done|done]. intros c' Hc'. apply Hcs. by right.
Qed.

(** The components to download are among those of the object, and looking for them
    leaves the memory alone. *)
Lemma missing_units b units s : let r := filter_missing b units s in r.2.1 = s.1 ∧ ∀ c, c ∈ r.1 → c ∈ units.
Proof.
  cbv zeta. revert s. induction units as [|u units IH]; intros s; [done|]. cbn [filter_missing]. unfold mbind, SM_bind.
  assert ((componentDownloadSatisfied b u s).2.1 = s.1) as Hm.
  { unfold componentDownloadSatisfied, isFileExist, ext, mbind, SM_bind. case_bool_decide; [done|]. destruct (isURL _); [|done].
    by destruct (statFile _ _) as [[e|] w1]. }
  destruct (componentDownloadSatisfied b u s) as [sat s1]. cbn in Hm. destruct (IH s1) as [H1 H2].
  destruct (filter_missing b units s1) as [rest s2]. cbn in *. split; [congruence|]. intros c. destruct sat; set_solver.
Qed.

(** The phases of the objects a download can leave. *)
Definition download_phases : list string := [BlueFieldSoftwareDownloading; BlueFieldSoftwareDeleting; BlueFieldSoftwareError].
Definition downloads_to b b' : Prop := same_software b b' ∧ bfs_Phase b' ∈ download_phases.

Lemma update_downloads_to b b' c path : downloads_to b b' → gives (downloads_to b) (updateComponentStatus (W:=W) b' c path).
Proof. intros H [m w]. exact H. Qed.

Lemma error_downloads_to b b' err c : downloads_to b b' →
  gives (λ r, downloads_to b r.1) (handleDownloadError (W:=W) now err b' c).
Proof.
  intros [Hs _] s. unfold handleDownloadError, incrementRetryCounter, forget_task, TaskMap_Delete, getRetryCount, clearRetryCounter, mem, mbind, SM_bind.
  unfold downloads_to, download_phases. repeat case_match; simplify_eq/=; (split; [exact Hs|set_solver]).
Qed.

Lemma component_downloads_to b b' c : downloads_to b b' →
  gives (λ r : Processed, downloads_to b r.1.1) (processComponent (W:=W) now b' c).
Proof.
  intros Hb. unfold processComponent.
  assert (∀ path, gives (λ r : Processed, downloads_to b r.1.1)
    (b2 ← updateComponentStatus (W:=W) b' c path; mret (b2, true, None))) as Hup.
  { intros path. eapply gives_bind_result; [by apply update_downloads_to|]. intros b2 Hb2. by apply gives_ret. }
  destruct (isURL (cp_URL c)); [|apply Hup]. cbn [negb]. apply gives_bind. intros [[f|f]|].
  - unfold handleExistingTask. apply gives_bind. intros [[err|]|]; [..|by apply gives_ret]; apply gives_bind; intros _; [|apply Hup].
    eapply gives_bind_result; [by apply (error_downloads_to b)|]. intros r Hr. by apply gives_ret.
  - by apply gives_ret.
  - unfold handleNewDownload. apply gives_bind. intros [[]|err].
    + apply Hup.
    + apply gives_bind. intros _. by apply gives_ret.
    + apply gives_ret. destruct Hb as [Hs _]. split; [exact Hs|]. unfold download_phases. simpl. set_solver.
Qed.

Lemma components_downloads_to b b' cs ok : downloads_to b b' →
  gives (λ r : Processed, downloads_to b r.1.1) (processComponents (W:=W) now b' cs ok).
Proof.
  revert b' ok. induction cs as [|c cs IH]; intros b' ok Hb; [by apply gives_ret|]. cbn [processComponents].
  eapply gives_bind_result; [by apply component_downloads_to|]. intros [[b2 done] [err|]] Hb2; [by apply gives_ret|by apply IH].
Qed.

Lemma markAllComponentsReady_same b : same_software b (markAllComponentsReady now b) ∧
  bfs_Phase (markAllComponentsReady now b) = BlueFieldSoftwareExtracting.
Proof.
  unfold markAllComponentsReady, ensureOSISODOCAVersion. split; [|done].
  destruct (_ || _); [done|]. case_bool_decide; [done|]. unfold ApplyDOCAVersionFromISO.
  destruct (ExtractDOCAVersionFromISO _) as [[formatted raw]|]; done.
Qed.

Lemma software_Downloading_ok b s : bfs_Phase b = BlueFieldSoftwareDownloading → software_ok s.1 b (Downloading now b s).1.1.
Proof.
  intros Hp. assert (software_ok s.1 b b) as Hself by (split; [done|by left]).
  assert (∀ b', same_software b b' → software_ok s.1 b (markAllComponentsReady now b')) as Hmark.
  { intros b' Hs. destruct (markAllComponentsReady_same b') as [H1 H2]. split; [by eapply same_software_trans|].
    right. left. rewrite H2, Hp. unfold software_edges. simpl. set_solver. }
  unfold Downloading. destruct (bfs_isDeleting b) eqn:Hd; unfold mbind, SM_bind.
  - destruct (cancelDownloadsForBFS b s) as [[p|] s1]; [done|]. split; [done|]. right. right. by split; [|left].
  - unfold getComponentsToDownload. destruct (missing_units b (specComponentUnits b) s) as [Hm Hin].
    destruct (filter_missing b _ s) as [[|c cs] s1]; [by apply Hmark|]. cbn [fst snd] in Hm, Hin.
    assert (kept_by s.1 b b) as Hk by (split; [done|by left]).
    pose proof (components_kept s.1 b b (c :: cs) true s1 Hin ltac:(by rewrite Hm) Hk) as [_ Hdel].
    destruct (components_downloads_to b b (c :: cs) true ltac:(split; [done|rewrite Hp; unfold download_phases; set_solver]) s1) as [Hs Hph].
    destruct (processComponents now b (c :: cs) true s1) as [[[b2 done] e] s2]. cbn [fst snd] in *. destruct done; [by apply Hmark|].
    split; [done|]. cbn. unfold software_goes. rewrite Hp. unfold download_phases in Hph.
    apply elem_of_cons in Hph as [->|[Hph|[->|[]%elem_of_nil]%elem_of_cons]%elem_of_cons]; [by left| |].
    + right. right. split; [done|]. right. split; [done|]. destruct (Hdel Hph) as [E|?]; [by rewrite Hp in E|done].
    + right. left. unfold software_edges. simpl. set_solver.
Qed.

Lemma failExtract_ok m b b' err msg : bfs_Phase b = BlueFieldSoftwareExtracting → same_software b b' →
  software_ok m b (failExtract now b' err msg).1.
Proof. intros Hp Hs. split; [exact Hs|]. right. left. rewrite Hp. unfold software_edges. simpl. set_solver. Qed.

Lemma apply_same b t key cs : same_software b (applyUnpackedComponentsToDownloaded b t key cs).1 ∧
  bfs_Phase (applyUnpackedComponentsToDownloaded b t key cs).1 = bfs_Phase b.
Proof.
  unfold applyUnpackedComponentsToDownloaded. destruct t; simpl; [by destruct (applyDeviceVersions _ _ _)| |done|done].
  set (b0 := with_bfs_Versions _ b). assert (same_software b b0 ∧ bfs_Phase b0 = bfs_Phase b) as H0 by done. clearbody b0.
  revert b0 H0. induction cs as [|c cs IH]; intros b0 H0; [done|]. simpl. apply IH. unfold platform_step. by destruct (negb _).
Qed.

(** What a target leaves: the object in its phase, or an error in Error. *)
Definition target_ok m b (r : Handled) : Prop :=
  (r.2 = None → same_software b r.1 ∧ bfs_Phase r.1 = BlueFieldSoftwareExtracting) ∧ software_ok m b r.1.

Lemma unpackTarget_ok m b b' t : bfs_Phase b = BlueFieldSoftwareExtracting → same_software b b' → bfs_Phase b' = BlueFieldSoftwareExtracting →
  gives (target_ok m b) (unpackTargetIfNeeded (W:=W) now b' t).
Proof.
  intros Hp Hs Hp'. assert (∀ err msg, target_ok m b (failExtract now b' err msg)) as Hfail
    by (intros; split; [done|by apply failExtract_ok]).
  assert (target_ok m b (b', None)) as Hok by (split; [done|split; [done|left; simpl; congruence]]).
  unfold unpackTargetIfNeeded. cbv zeta. destruct (extractedVersionsRecorded _ _ _); [by apply gives_ret|].
  apply gives_bind. intros [err|]; [by apply gives_ret|]. apply gives_bind. intros [cs|err]; [|by apply gives_ret].
  destruct (apply_same b' (et_componentType t) (et_key t) cs) as [Ha1 Ha2]. apply gives_ret.
  destruct (applyUnpackedComponentsToDownloaded _ _ _ _) as [b2 [err|]]; simpl in Ha1, Ha2.
  - split; [done|]. apply failExtract_ok; [done|]. by eapply same_software_trans.
  - pose proof (same_software_trans _ _ _ Hs Ha1) as Hs2. split; [intros _; simpl; split; [done|congruence]|]. split; [done|]. left. simpl. congruence.
Qed.

Lemma unpack_targets_ok m b b' ts : bfs_Phase b = BlueFieldSoftwareExtracting → same_software b b' → bfs_Phase b' = BlueFieldSoftwareExtracting →
  gives (λ r, software_ok m b r.1) (unpack_targets (W:=W) now b' ts).
Proof.
  intros Hp. revert b'. induction ts as [|t ts IH]; intros b' Hs Hp'; cbn [unpack_targets].
  - apply gives_ret. split; [exact Hs|]. right. left. rewrite Hp. unfold software_edges. simpl. set_solver.
  - eapply gives_bind_result; [by apply (unpackTarget_ok m b)|]. intros [b2 [err|]] [Hn Hok]; [by apply gives_ret|].
    destruct (Hn eq_refl). by apply IH.
Qed.

Lemma Extracting_ok m b : bfs_Phase b = BlueFieldSoftwareExtracting → gives (λ r, software_ok m b r.1) (Extracting (W:=W) now b).
Proof.
  intros Hp. unfold Extracting. destruct (bfs_isDeleting b) eqn:Hd; [|by apply unpack_targets_ok].
  apply gives_ret. split; [done|]. right. right. by split; [|left].
Qed.

Lemma clear_same b b' u : same_software b b' → same_software b (clearComponentStatus b' u) ∧ bfs_Phase (clearComponentStatus b' u) = bfs_Phase b'.
Proof. intros H. unfold clearComponentStatus. by destruct (cp_ComponentType u). Qed.

Lemma clear_all_same b b' us : same_software b b' →
  same_software b (foldl clearComponentStatus b' us) ∧ bfs_Phase (foldl clearComponentStatus b' us) = bfs_Phase b'.
Proof.
  revert b'. induction us as [|u us IH]; intros b' H; [done|]. simpl. destruct (clear_same b b' u H) as [H1 H2].
  destruct (IH _ H1) as [H3 H4]. by rewrite H4.
Qed.

Lemma software_Ready_ok m b : bfs_Phase b = BlueFieldSoftwareReady → gives (λ r, software_ok m b r.1) (Ready (W:=W) now b).
Proof.
  intros Hp. unfold Ready. destruct (bfs_isDeleting b) eqn:Hd.
  - apply gives_ret. split; [done|]. right. right. by split; [|left].
  - apply gives_bind. intros [|u us]; apply gives_ret; [split; [done|by left]|].
    set (b1 := AddFalse now _ _ _ _). destruct (clear_all_same b b1 (u :: us)) as [Hs Hph]; [done|].
    split; [exact Hs|]. right. left. cbn [fst]. rewrite Hph, Hp. unfold software_edges. simpl. set_solver.
Qed.

Lemma software_Error_ok m b : bfs_Phase b = BlueFieldSoftwareError → gives (λ r, software_ok m b r.1) (Error (W:=W) now b).
Proof.
  intros Hp. assert (∀ e, software_ok m b (error_stays now b e).1) as Hstay by (intros e; split; [done|by left]).
  unfold Error. apply gives_bind. intros [e1 [p|]]; [apply gives_ret; split; [done|by left]|].
  destruct (bfs_isDeleting b) eqn:Hd; [apply gives_ret; split; [done|]; right; right; by split; [|left]|].
  destruct (classifyError now b); [by apply gives_ret| |by apply gives_bind; intros e2; apply gives_ret].
  destruct e1; apply gives_ret; [done|]. split; [done|]. right. left. rewrite Hp. unfold software_edges. simpl. set_solver.
Qed.

(** What allows the finalizer to go: no DPUSet that is not being deleted and no DPU of the
    namespace names the software, and no DPUSet protects it with a finalizer. *)
Definition unclaimed b : Prop :=
  (∃ w sets, (dpuSetsIn (bfs_Namespace b) w).1 = Ok sets ∧
     ∀ ds, ds ∈ sets → t_BlueFieldSoftware (ds_Template ds) = Some (bfs_Name b) → timep_is_zero (ds_DeletionTimestamp ds) = false) ∧
  (∀ f, f ∈ bfs_Finalizers b → strings_HasPrefix f BlueFieldSoftwareFinalizerPrefix = false) ∧
  (∃ w dpus, (dpusIn (bfs_Namespace b) w).1 = Ok dpus ∧ ∀ d, d ∈ dpus → deref (sp_BlueFieldSoftware (dpu_Spec d)) "" ≠ bfs_Name b).

(** The same object but for its finalizers. *)
Definition same_but_finalizers b b' : Prop := same_software (with_bfs_Finalizers (bfs_Finalizers b') b) b'.
Definition deleting_ok b (r : Handled) : Prop :=
  same_but_finalizers b r.1 ∧ bfs_Phase r.1 = bfs_Phase b ∧
  (bfs_Finalizers r.1 = bfs_Finalizers b ∨
   r.2 = None ∧ unclaimed b ∧ bfs_Finalizers r.1 = RemoveFinalizer (bfs_Finalizers b) BlueFieldSoftwareFinalizer).

Lemma software_Deleting_ok b : gives (deleting_ok b) (Deleting (W:=W) now b).
Proof.
  assert (∀ msg, deleting_ok b (blockDeletion now b msg)) as Hblock by (intros msg; split; [done|]; split; [done|by left]).
  unfold gives, Deleting. match goal with |- ∀ s, _ (run ?h s).1 => change (returns (deleting_ok b) h) end.
  apply returns_bind.
  { intros s r s'. unfold blockedByDPUSet, or_return, return_early, mbind, Fn_bind. destruct (ext _ s) as [[sets|e] s1]; [|intros [= <- _]; apply Hblock].
    destruct (snd <$> _); [intros [= <- _]; apply Hblock|]. simpl. destruct (snd <$> _); [intros [= <- _]; apply Hblock|done]. }
  intros [] (s0 & s1 & E).
  assert (∃ w sets, (dpuSetsIn (bfs_Namespace b) w).1 = Ok sets ∧ ∀ ds, ds ∈ sets → claimed_by b ds = false) as Hsets.
  { revert E. unfold blockedByDPUSet, or_return, return_early, mbind, Fn_bind, ext. destruct s0 as [m w]. simpl.
    destruct (dpuSetsIn _ w) as [[sets|e] w1] eqn:Ew; [|done]. destruct (snd <$> find_idx (claimed_by b) sets) eqn:Ef; [done|].
    intros _. exists w, sets. rewrite Ew. split; [done|]. by apply find_idx_first_none. }
  assert (∀ f, f ∈ bfs_Finalizers b → strings_HasPrefix f BlueFieldSoftwareFinalizerPrefix = false) as Hfin.
  { apply find_idx_first_none. revert E. unfold blockedByDPUSet, or_return, return_early, mbind, Fn_bind.
    destruct (ext _ s0) as [[sets|e] s2]; [|done]. destruct (snd <$> find_idx (claimed_by b) sets); [done|]. simpl.
    by destruct (snd <$> find_idx _ (bfs_Finalizers b)). }
  clear E. apply returns_bind.
  { intros s r s'. unfold blockedByDPU, or_return, return_early, mbind, Fn_bind. destruct (ext _ s) as [[ds|e] s2]; [|intros [= <- _]; apply Hblock].
    destruct (snd <$> _); [intros [= <- _]; apply Hblock|done]. }
  intros [] (s2 & s3 & E).
  assert (∃ w dpus, (dpusIn (bfs_Namespace b) w).1 = Ok dpus ∧ ∀ d, d ∈ dpus → software_of b d = false) as Hdpus.
  { revert E. unfold blockedByDPU, or_return, return_early, mbind, Fn_bind, ext. destruct s2 as [m w]. simpl.
    destruct (dpusIn _ w) as [[ds|e] w1] eqn:Ew; [|done]. destruct (snd <$> find_idx (software_of b) ds) eqn:Ef; [done|].
    intros _. exists w, ds. rewrite Ew. split; [done|]. by apply find_idx_first_none. }
  apply returns_lift. intros _ _. apply returns_lift. intros _ _ s. split; [done|]. split; [done|]. right. split; [done|]. split; [|done].
  destruct Hsets as (w1 & sets & Hw1 & Hs), Hdpus as (w2 & ds & Hw2 & Hds). split_and!; [|done|].
  - exists w1, sets. split; [done|]. intros d Hd Ht. specialize (Hs d Hd). unfold claimed_by in Hs. by rewrite bool_decide_true in Hs.
  - exists w2, ds. split; [done|]. intros d Hd Hn. specialize (Hds d Hd). unfold software_of in Hds. by rewrite bool_decide_true in Hds.
Qed.

Lemma software_Initializing_ok m b : bfs_Phase b ∉ software_phases → software_ok m b (Initializing now b).1.
Proof.
  intros Hp. unfold Initializing. destruct (bfs_isDeleting b) eqn:Hd; [split; [done|]; right; right; by split; [|left]|].
  split; [done|]. right. left. unfold software_phases in Hp. unfold software_edges.
  rewrite !bool_decide_false by (intros E; rewrite E in Hp; set_solver). simpl. set_solver.
Qed.

(** The first pass over a live object. *)
Definition adds_finalizer b : bool :=
  negb (ContainsFinalizer (bfs_Finalizers b) BlueFieldSoftwareFinalizer) && timep_is_zero (bfs_DeletionTimestamp b).

(** C20. Every pass over a BlueFieldSoftware follows the state machine: it keeps the
    object but for its status and finalizers, and stays in its phase, takes an edge of
    [software_edges], or goes to Deleting, when the object is being deleted or, from
    Downloading, when the process has a download of one of its components that ended as
    cancelled before the pass.  The finalizer of the controller is added by a pass that
    does nothing else, and taken off only in Deleting, when no DPUSet that stays and no
    DPU names the software and no DPUSet protects it. *)
Theorem software_pass b s :
  let r := reconcile_software now b s in
  let b' := r.1.1.1 in
  same_but_finalizers b b' ∧
  if adds_finalizer b then b' = with_bfs_Finalizers (AddFinalizer (bfs_Finalizers b) BlueFieldSoftwareFinalizer) b ∧ r.2 = s
  else software_goes s.1 b b' ∧
    (bfs_Finalizers b' = bfs_Finalizers b ∨
     bfs_Phase b = BlueFieldSoftwareDeleting ∧ r.1.2 = None ∧ unclaimed b ∧
     bfs_Finalizers b' = RemoveFinalizer (bfs_Finalizers b) BlueFieldSoftwareFinalizer).
Proof.
  cbv zeta. unfold reconcile_software. fold (adds_finalizer b). destruct (adds_finalizer b); [done|].
  assert (∀ h : SM (SoftwareMemory * W) Handled, software_ok s.1 b (h s).1.1 → let r := (r ← h;
      mret match r with (bfs, Some err) => (bfs, 0%Z, Some err) | (bfs, None) => (bfs, RequeueInterval, None) end) s in
    same_but_finalizers b r.1.1.1 ∧ software_goes s.1 b r.1.1.1 ∧ bfs_Finalizers r.1.1.1 = bfs_Finalizers b) as Hh.
  { intros h Hh. unfold mbind, SM_bind. destruct (h s) as [[b' e] s']. destruct Hh as [Hs Hg]. destruct e; cbn in *;
      (split; [unfold same_but_finalizers, same_software in *; cbn; tauto|split; [done|apply Hs]]). }
  unfold Handle. cbv zeta.
  destruct (decide (bfs_Phase b = BlueFieldSoftwareDeleting)) as [Hp|Hp].
  - rewrite Hp. unfold mbind, SM_bind. simpl. pose proof (software_Deleting_ok b s) as (H1 & H2 & H3). destruct (Deleting now b s) as [[b' [e|]] s'];
      (split; [done|]; split; [left; simpl in *; congruence|]); simpl in *.
    + destruct H3 as [?|(? & _)]; [by left|done].
    + destruct H3 as [?|(_ & ? & ?)]; [by left|by right].
  - rewrite (bool_decide_false (bfs_Phase b = BlueFieldSoftwareDeleting)) by done.
    repeat case_bool_decide;
      (edestruct Hh as (Hs1 & Hg1 & Hf1); [|split; [exact Hs1|]; split; [exact Hg1|]; left; exact Hf1]);
      [by apply software_Downloading_ok|by apply Extracting_ok|by apply software_Ready_ok|by apply software_Error_ok|].
    apply software_Initializing_ok. unfold software_phases. set_solver.
Qed.

(** ** What Ready says of the firmware versions *)

(** The versions recorded for a PSID. *)
Definition recorded b (psid : string) : BluefieldDeviceVersions :=
  default no_device_versions (bfs_Versions b ≫= λ v, sv_BluefieldSoftwareVersions v !! psid).

(** What the words in the name of an image say it is: the first that occurs decides. *)
Inductive Firmware := BFNic | BMC | BMCErot | SBIOS.
#[local] Instance Firmware_eq_dec : EqDecision Firmware.
Proof. solve_decision. Defined.
Definition firmware_words : list (string * Firmware) := [("CX9", BFNic); ("BMC_BF4", BMC); ("EROT", BMCErot); ("SBIOS", SBIOS)].
Definition image_name (c : unpackedComponent) : string := strings_ToUpper (path_Base (uc_FWImage c)).
Definition image_for (c : unpackedComponent) : option Firmware :=
  snd <$> head (filter (λ e : string * Firmware, strings_Contains (image_name c) e.1 = true) firmware_words).
Definition version_of (k : Firmware) (v : BluefieldDeviceVersions) : string :=
  match k with BFNic => dv_BFNicFwVersion v | BMC => dv_BMCVersion v | BMCErot => dv_BMCErotVersion v | SBIOS => dv_SBIOSVersion v end.

(** The version of each firmware in a list of components: that of the last of its
    images, and the old one when there is none. *)
Definition versions_in (cs : list unpackedComponent) (old v : BluefieldDeviceVersions) : Prop :=
  ∀ k, version_of k v = default (version_of k old) (uc_ComponentVersionString <$> last (filter (λ c, image_for c = Some k) cs)).

(** Every ConnectX image of the components is for the PSID. *)
Definition images_for_psid (psid : string) (cs : list unpackedComponent) : Prop :=
  ∀ c, c ∈ cs → image_for c = Some BFNic →
  ∃ image_psid, psidFromCX9ImageName (image_name c) = Ok image_psid ∧ strings_EqualFold image_psid psid = true.

(** The versions [v] are those of the components the unpack service gave for the
    package in a directory that was cleared before. *)
Definition unpacked_from (packagePath outDir psid : string) (old v : BluefieldDeviceVersions) : Prop :=
  ∃ w cs, let cleared := RemoveAllEx outDir w in
    cleared.1 = None ∧ (callPldmUnpackService (W:=W) packagePath outDir cleared.2).1 = Ok cs ∧
    images_for_psid psid cs ∧ versions_in cs old v ∧ deviceVersionsComplete v = true.

Lemma recorded_complete b psid : extractedVersionsRecorded b ComponentTypeFwBundle psid = deviceVersionsComplete (recorded b psid).
Proof. unfold extractedVersionsRecorded, recorded. by destruct (bfs_Versions b). Qed.

Lemma versions_in_nil v : versions_in [] v v.
Proof. done. Qed.

Lemma versions_in_cons c cs v0 v1 v : 
  (∀ k, version_of k v1 = if decide (image_for c = Some k) then uc_ComponentVersionString c else version_of k v0) →
  versions_in cs v1 v → versions_in (c :: cs) v0 v.
Proof.
  intros H1 H k. rewrite (H k), H1, filter_cons. case_decide; [|done]. rewrite last_cons. by destruct (last _).
Qed.

Lemma image_for_words c : image_for c =
  if strings_Contains (image_name c) "CX9" then Some BFNic else if strings_Contains (image_name c) "BMC_BF4" then Some BMC
  else if strings_Contains (image_name c) "EROT" then Some BMCErot else if strings_Contains (image_name c) "SBIOS" then Some SBIOS else None.
Proof.
  unfold image_for, firmware_words. rewrite !filter_cons. cbn [fst]. generalize (strings_Contains (image_name c)). intros f.
  by destruct (f "CX9"), (f "BMC_BF4"), (f "EROT"), (f "SBIOS").
Qed.

(** A component gives the version of the firmware its image is. *)
Lemma device_step_spec psid v0 c v1 : device_step psid v0 c = Ok v1 →
  (∀ k, version_of k v1 = if decide (image_for c = Some k) then uc_ComponentVersionString c else version_of k v0) ∧
  images_for_psid psid [c].
Proof.
  unfold device_step. fold (image_name c). destruct v0 as [bmc erot sbios nic]. unfold images_for_psid.
  setoid_rewrite list_elem_of_singleton. intros H.
  assert ((∀ k, version_of k v1 = if decide (image_for c = Some k) then uc_ComponentVersionString c
      else version_of k (mkDeviceVersions bmc erot sbios nic)) ∧
    (image_for c = Some BFNic → ∃ p, psidFromCX9ImageName (image_name c) = Ok p ∧ strings_EqualFold p psid = true)) as [H1 H2];
    [|split; [exact H1|by intros ? ->]].
  rewrite image_for_words. destruct (strings_Contains (image_name c) "CX9").
  { unfold ensureCX9ImagePSID in H. destruct (psidFromCX9ImageName (image_name c)) as [p|]; [|done].
    destruct (strings_EqualFold p psid) eqn:Ep; [|done]. injection H as <-. split; [by intros []|]. intros _. by exists p. }
  repeat case_match; injection H as <-; (split; [by intros []|done]).
Qed.

Lemma device_versions_spec psid v cs v' : device_versions psid v cs = Ok v' → images_for_psid psid cs ∧ versions_in cs v v'.
Proof.
  revert v. induction cs as [|c cs IH]; intros v Hv; [injection Hv as <-; split; [intros c Hc; by apply elem_of_nil in Hc|done]|].
  cbn [device_versions] in Hv. destruct (device_step psid v c) as [v1|] eqn:E; [|done]. destruct (IH v1 Hv) as [Hi Hin].
  destruct (device_step_spec _ _ _ _ E) as [Hs Hc]. split; [|by eapply versions_in_cons].
  intros d [->|Hd]%elem_of_cons; [apply Hc; left|by apply Hi].
Qed.

Lemma platform_recorded b cs psid : recorded (applyPlatformNicFw b cs) psid = recorded b psid.
Proof.
  revert b. induction cs as [|c cs IH]; intros b; [done|]. unfold applyPlatformNicFw in *. simpl. rewrite IH.
  unfold platform_step, recorded. destruct (negb _); [done|]. simpl. by destruct (bfs_Versions b).
Qed.

Lemma recorded_init b psid : recorded (with_bfs_Versions (Some (default no_versions (bfs_Versions b))) b) psid = recorded b psid.
Proof. unfold recorded. simpl. by destruct (bfs_Versions b). Qed.

(** A target that fails leaves the object in Error. *)
Lemma unpackTarget_failed b t : gives (λ r : Handled, r.2 ≠ None → bfs_Phase r.1 = BlueFieldSoftwareError) (unpackTargetIfNeeded (W:=W) now b t).
Proof.
  unfold unpackTargetIfNeeded. cbv zeta. destruct (extractedVersionsRecorded b _ _); [by apply gives_ret|].
  apply gives_bind. intros [err|]; [by apply gives_ret|]. apply gives_bind. intros [cs|err]; apply gives_ret; [|done].
  by destruct (applyUnpackedComponentsToDownloaded _ _ _ _) as [b2 [err|]].
Qed.

(** What a target does to the record of a PSID. *)
Definition recorded_by b (t : extractTarget) (psid : string) b' : Prop :=
  recorded b' psid = recorded b psid ∨
  et_componentType t = ComponentTypeFwBundle ∧ et_key t = psid ∧ deviceVersionsComplete (recorded b psid) = false ∧
  unpacked_from (et_packagePath t) (extractOutputDirForBFS b ComponentTypeFwBundle psid) psid (recorded b psid) (recorded b' psid).

Lemma unpacked_complete path dir psid old v : unpacked_from path dir psid old v → deviceVersionsComplete v = true.
Proof. by intros (w & cs & _ & _ & _ & _ & H). Qed.

Lemma unpack_one b t s : let r := unpackTargetIfNeeded now b t s in
  r.1.2 = None →
  (∀ psid, recorded_by b t psid r.1.1) ∧ same_software b r.1.1 ∧
  (et_componentType t = ComponentTypeFwBundle → deviceVersionsComplete (recorded r.1.1 (et_key t)) = true).
Proof.
  cbv zeta. unfold unpackTargetIfNeeded. cbv zeta. destruct (extractedVersionsRecorded b _ _) eqn:He.
  { intros _. simpl. split; [by left|]. split; [done|]. intros Ht. by rewrite Ht, recorded_complete in He. }
  unfold mbind, SM_bind, ext. destruct s as [m w]. simpl. destruct (RemoveAllEx _ w) as [[err|] w1] eqn:Er; [done|]. simpl.
  set (outDir := extractOutputDirForBFS _ _ _) in *.
  destruct (callPldmUnpackService _ outDir w1) as [[cs|err] w2] eqn:Ec; [|done]. simpl.
  pose proof (apply_same b (et_componentType t) (et_key t) cs) as [Hsame _]. revert Hsame.
  unfold applyUnpackedComponentsToDownloaded. destruct (et_componentType t) eqn:Ht; cbn zeta iota.
  - unfold applyDeviceVersions. destruct (device_versions _ _ cs) as [dv|] eqn:Ed; [|done].
    destruct (deviceVersionsComplete dv) eqn:Edc; [|done]. intros Hsame _. cbn [negb mret SM_ret fst snd].
    match goal with |- context [recorded ?b2 _] => assert (∀ psid, recorded b2 psid = if decide (psid = et_key t) then dv else recorded b psid) as Hrec end.
    { intros psid. unfold recorded. simpl. case_decide as Hk; [subst; by rewrite lookup_insert_eq|].
      rewrite lookup_insert_ne by done. by destruct (bfs_Versions b). }
    split; [|split; [exact Hsame|]]; [intros psid|intros _]; unfold recorded_by; rewrite ?Hrec, ?decide_True by done; [|done].
    case_decide as Hk; [right|by left]. subst psid. split; [exact Ht|]. split; [done|].
    rewrite <- recorded_complete. split; [done|].
    exists w, cs. cbv zeta. fold outDir. rewrite Er. cbn [fst snd]. rewrite Ec. split; [done|]. split; [done|].
    destruct (device_versions_spec _ _ _ _ Ed) as [Hi Hv]. split; [exact Hi|]. split; [|done].
    assert (default no_device_versions (sv_BluefieldSoftwareVersions (default no_versions (bfs_Versions b)) !! et_key t) = recorded b (et_key t)) as <-; [|exact Hv].
    unfold recorded. by destruct (bfs_Versions b).
  - intros Hsame _. cbn [mret SM_ret fst snd]. split; [|by split]. intros psid. left. by rewrite platform_recorded, recorded_init.
  - intros Hsame _. cbn [mret SM_ret fst snd]. split; [|by split]. intros psid. left. by rewrite recorded_init.
  - intros Hsame _. cbn [mret SM_ret fst snd]. split; [|by split]. intros psid. left. by rewrite recorded_init.
Qed.

Lemma same_directory b b' t psid : same_software b b' → extractOutputDirForBFS b' t psid = extractOutputDirForBFS b t psid.
Proof. intros (Hn & Hns & _). unfold extractOutputDirForBFS. by rewrite Hn, Hns. Qed.

(** The targets of a PSID: the first that has to be unpacked gives its versions. *)
Lemma unpack_all b ts s : let r := unpack_targets now b ts s in
  r.1.2 = None →
  (∀ psid, recorded r.1.1 psid = recorded b psid ∨ ∃ t, t ∈ ts ∧ recorded_by b t psid r.1.1) ∧
  ∀ t, t ∈ ts → et_componentType t = ComponentTypeFwBundle → deviceVersionsComplete (recorded r.1.1 (et_key t)) = true.
Proof.
  cbv zeta. revert b s. induction ts as [|t ts IH]; intros b s; cbn [unpack_targets].
  { intros _. split; [by left|]. intros t Ht. by apply elem_of_nil in Ht. }
  unfold mbind, SM_bind. pose proof (unpack_one b t s) as H1. destruct (unpackTargetIfNeeded now b t s) as [[b2 [err|]] s2]; [done|].
  intros Hn. destruct (H1 eq_refl) as (He & Hs & Ht). cbn [fst snd] in *. destruct (IH b2 s2 Hn) as (He2 & Ht2).
  generalize dependent (unpack_targets now b2 ts s2).1.1. intros b3 He2 Ht2.
  assert (∀ psid, deviceVersionsComplete (recorded b2 psid) = true → recorded b3 psid = recorded b2 psid) as Hkeep.
  { intros psid Hc. destruct (He2 psid) as [?|(t' & _ & [?|(_ & _ & Hc' & _)])]; congruence. }
  split.
  - intros psid. destruct (He psid) as [Heq|(Htype & Hk & Hc & Hu)].
    + destruct (He2 psid) as [?|(t' & Hin & Hrec)]; [left; congruence|right]. exists t'. split; [by right|]. revert Hrec.
      unfold recorded_by. by rewrite Heq, (same_directory b b2) by done.
    + right. exists t. split; [left|]. unfold recorded_by. rewrite Hkeep by (by eapply unpacked_complete). by right.
  - intros t' [->|Hin]%elem_of_cons Htype; [|by apply Ht2]. rewrite Hkeep by (by apply Ht). by apply Ht.
Qed.

Lemma destination_nonempty b c : destination b c ≠ "".
Proof. unfold destination, componentDestinationPath. by case_bool_decide. Qed.

(** The bundles of the spec are what is unpacked for the PSIDs. *)
Definition bundle (psid url : string) : componentInfo := mkComponent url ComponentTypeFwBundle psid.

Lemma bundle_target {RL : MapRangeLaws R} b psid url :
  bf_PldmFwBundle (bfs_Spec b) !! psid = Some url → url ≠ "" →
  mkTarget ComponentTypeFwBundle psid (resolvePackagePath b (bundle psid url)) ∈ resolveExtractTargets b.
Proof.
  intros Hu Hne. set (u := bundle psid url).
  assert (resolvePackagePath b u ≠ "") as Hp.
  { unfold resolvePackagePath. set (ref := downloadedComponentPath b _ _). cbv zeta.
    assert ((if bool_decide (ref = "") then cp_URL u else ref) ≠ "") as Href by (by case_bool_decide).
    generalize dependent (if bool_decide (ref = "") then cp_URL u else ref). intros r Href. rewrite bool_decide_false by done.
    destruct (isURL r); [apply destination_nonempty|done]. }
  unfold resolveExtractTargets. apply list_elem_of_omap. exists u. split; [|by rewrite bool_decide_true].
  unfold extractionUnits. apply list_elem_of_filter. split; [done|]. unfold specComponentUnits. rewrite !elem_of_app. right. left.
  apply list_elem_of_fmap. exists (psid, url). split; [done|]. apply elem_of_range_map. unfold PldmFwBundles.
  by apply map_lookup_filter_Some.
Qed.

Lemma target_bundle {RL : MapRangeLaws R} b t : t ∈ resolveExtractTargets b → et_componentType t = ComponentTypeFwBundle →
  ∃ url, bf_PldmFwBundle (bfs_Spec b) !! et_key t = Some url ∧ et_packagePath t = resolvePackagePath b (bundle (et_key t) url).
Proof.
  unfold resolveExtractTargets. intros (u & Hu & Ht)%list_elem_of_omap Htype. cbv zeta in Ht. case_bool_decide; [|done]. injection Ht as <-.
  cbn [et_componentType et_key et_packagePath] in *. unfold extractionUnits in Hu. apply list_elem_of_filter in Hu as [_ Hu].
  unfold specComponentUnits in Hu. rewrite !elem_of_app in Hu. destruct Hu as [Hu|[Hu|[Hu|Hu]]].
  1,3,4: case_bool_decide; rewrite ?list_elem_of_singleton, ?elem_of_nil in Hu; by subst.
  apply list_elem_of_fmap in Hu as ([psid url] & -> & Hin). apply elem_of_range_map in Hin. unfold PldmFwBundles in Hin.
  apply map_lookup_filter_Some in Hin as [Hin _]. by exists url.
Qed.

(** A pass that reaches Ready unpacked every target. *)
Lemma ready_unpacked b ts s : bfs_Phase b = BlueFieldSoftwareExtracting →
  bfs_Phase (unpack_targets now b ts s).1.1 = BlueFieldSoftwareReady → (unpack_targets now b ts s).1.2 = None.
Proof.
  revert b s. induction ts as [|t ts IH]; intros b s; [done|]. cbn [unpack_targets]. unfold mbind, SM_bind.
  intros Hp Hr. pose proof (unpackTarget_ok s.1 b b t Hp (same_software_refl b) Hp s) as [Hn Hok].
  pose proof (unpackTarget_failed b t s) as Hfail.
  destruct (unpackTargetIfNeeded now b t s) as [[b2 [err|]] s2]; [cbn in Hfail, Hr; by rewrite Hfail in Hr|].
  apply IH; [|done]. by destruct (Hn eq_refl).
Qed.

(** C21. A BlueFieldSoftware that becomes Ready has, for every PSID whose firmware
    bundle its spec names, the four versions an update compares with the device.  When
    it had the four before, they are as they were.  Otherwise they come from the answer
    the unpack service gave for that bundle in a cleared directory: every ConnectX image
    of the answer is for the PSID, and the BMC, ERoT, SBIOS and NIC versions are each
    the version of the last component whose image is of that kind, told by the first of
    CX9, BMC_BF4, EROT and SBIOS in its name (or, without such a component, what was on
    record). *)
Theorem ready_has_versions {RL : MapRangeLaws R} b s :
  let r := Extracting now b s in
  bfs_Phase b = BlueFieldSoftwareExtracting → bfs_Phase r.1.1 = BlueFieldSoftwareReady →
  ∀ psid url, bf_PldmFwBundle (bfs_Spec b) !! psid = Some url → url ≠ "" →
  deviceVersionsComplete (recorded r.1.1 psid) = true ∧
  if deviceVersionsComplete (recorded b psid) then recorded r.1.1 psid = recorded b psid
  else unpacked_from (resolvePackagePath b (bundle psid url)) (extractOutputDirForBFS b ComponentTypeFwBundle psid) psid
         (recorded b psid) (recorded r.1.1 psid).
Proof.
  cbv zeta. unfold Extracting. destruct (bfs_isDeleting b); [done|]. intros Hp Hr psid url Hu Hne.
  destruct (unpack_all b (resolveExtractTargets b) s (ready_unpacked _ _ _ Hp Hr)) as (He & Ht).
  pose proof (Ht _ (bundle_target b psid url Hu Hne) eq_refl) as Hc. cbn [et_key] in Hc. split; [done|].
  destruct (He psid) as [Heq|(t & Hin & [Heq|(Htype & <- & -> & Hun)])]; [by rewrite <- Heq, Hc..|].
  destruct (target_bundle b t Hin Htype) as (url' & Hu' & Hpath). rewrite Hu in Hu'. injection Hu' as <-. by rewrite <- Hpath.
Qed.
End Pass.

(** ** Runs of passes *)

Section Runs.
Context {API : MetaAPI} {AL : MetaAPILaws API} {FA : FinalizerAPI} {W : Type} {C : BFBClient W} {S : SoftwareClient W} {U : URLs}.
Context {R : MapRange} {RL : MapRangeLaws R} {J : UnpackJSON}.
Implicit Types (b : BlueFieldSoftware) (s : SoftwareMemory * W).

Definition software_step (bs : BlueFieldSoftware * (SoftwareMemory * W)) (now : Time) : BlueFieldSoftware * (SoftwareMemory * W) :=
  let r := reconcile_software now bs.1 bs.2 in (r.1.1.1, r.2).

(** The image is a name and not a URL. *)
Definition image_unit b : componentInfo := mkComponent (bf_OsIso (bfs_Spec b)) ComponentTypeOSISO "".
Record opaque_image b : Prop := {
  op_image : bf_OsIso (bfs_Spec b) ≠ "";
  op_name : isURL (bf_OsIso (bfs_Spec b)) = false;
  op_path : destination b (image_unit b) ≠ bf_OsIso (bfs_Spec b);
  op_live : timep_is_zero (bfs_DeletionTimestamp b) = true;
  op_finalizer : ContainsFinalizer (bfs_Finalizers b) BlueFieldSoftwareFinalizer = true }.
(** The image is all the object asks for. *)
Definition image_only b : Prop :=
  bf_PldmFwBundle (bfs_Spec b) = ∅ ∧ deref (bf_PlatformPldmFwBundle (bfs_Spec b)) "" = "" ∧ deref (bf_NicFw (bfs_Spec b)) "" = "".

Lemma image_only_units b : opaque_image b → image_only b → specComponentUnits b = [image_unit b].
Proof.
  intros Ho (Hf & Hp & Hn). unfold specComponentUnits. rewrite Hp, Hn, bool_decide_true by apply Ho. cbn [app].
  assert (PldmFwBundles b = ∅) as -> by (unfold PldmFwBundles; rewrite Hf; apply map_filter_empty).
  assert (range_map (∅ : gmap string string) = []) as ->; [|done].
  destruct (range_map ∅) as [|[k v] l] eqn:E; [done|]. exfalso.
  assert ((k, v) ∈ range_map (∅ : gmap string string)) as Hin by (rewrite E; left). by apply elem_of_range_map in Hin.
Qed.

Lemma opaque_same b b' : same_software b b' → opaque_image b → opaque_image b'.
Proof.
  intros (Hn & Hns & Hu & Hs & Hd & Hf) [H1 H2 H3 H4 H5]. split; rewrite ?Hs, ?Hd, ?Hf; try done.
  revert H3. unfold destination, image_unit, componentFileName, ComponentDownloadFilename, GenerateComponentTaskName.
  cbn [cp_ComponentType cp_URL]. by rewrite Hs, Hn, Hns.
Qed.

Lemma destination_same b b' : same_software b b' → destination b' (image_unit b') = destination b (image_unit b).
Proof.
  intros (Hn & Hns & Hu & Hs & Hd & Hf). unfold destination, image_unit, componentFileName, ComponentDownloadFilename, GenerateComponentTaskName.
  cbn [cp_ComponentType cp_URL]. by rewrite Hs, Hn, Hns.
Qed.

(** Past the finalizer a pass is the handler of the phase. *)
Lemma step_handles now b s : ContainsFinalizer (bfs_Finalizers b) BlueFieldSoftwareFinalizer = true →
  software_step (b, s) now = ((Handle now b s).1.1, (Handle now b s).2).
Proof.
  intros Hf. unfold software_step, reconcile_software. cbn [fst snd]. rewrite Hf. cbn [negb andb]. unfold mbind, SM_bind.
  by destruct (Handle now b s) as [[b' [e|]] s'].
Qed.

(** A step of the loop: from Ready the image counts as missing, in Downloading its
    path is recorded again, in Extracting there is nothing to unpack. *)
Definition next_in_loop (p : string) : string :=
  if bool_decide (p = BlueFieldSoftwareReady) then BlueFieldSoftwareDownloading
  else if bool_decide (p = BlueFieldSoftwareDownloading) then BlueFieldSoftwareExtracting
  else BlueFieldSoftwareReady.
Definition in_loop b : Prop :=
  opaque_image b ∧ image_only b ∧
  (bfs_Phase b = BlueFieldSoftwareDownloading ∧ dl_OsIso (bfs_DownloadedComponents b) = "" ∨
   (bfs_Phase b = BlueFieldSoftwareExtracting ∨ bfs_Phase b = BlueFieldSoftwareReady) ∧
   dl_OsIso (bfs_DownloadedComponents b) = destination b (image_unit b)).

Lemma loop_step now b s : in_loop b →
  let b' := (software_step (b, s) now).1 in same_software b b' ∧ in_loop b' ∧ bfs_Phase b' = next_in_loop (bfs_Phase b).
Proof.
  intros (Ho & Honly & Hst). cbv zeta. pose proof (image_only_units b Ho Honly) as Hunits. pose proof Ho as [H1 H2 H3 H4 H5].
  assert (∀ b', same_software b b' → opaque_image b' ∧ image_only b') as Hsame.
  { intros b' Hs. split; [by eapply opaque_same|]. unfold image_only. by destruct Hs as (_ & _ & _ & -> & _). }
  assert (bfs_isDeleting b = false) as Hdel by (unfold bfs_isDeleting; by rewrite H4).
  rewrite step_handles by done. unfold Handle. cbv zeta. cbn [fst].
  destruct Hst as [[Hp Hpath]|[[Hp|Hp] Hpath]]; rewrite Hp; simpl.
  - unfold Downloading. rewrite Hdel. unfold getComponentsToDownload. rewrite Hunits. cbn [filter_missing].
    unfold componentDownloadSatisfied. cbn [image_unit cp_ComponentType cp_Key downloadedComponentPath]. rewrite Hpath.
    rewrite bool_decide_true by (intros E; by apply (destination_nonempty b (image_unit b))).
    unfold mbind, SM_bind, mret, SM_ret. cbn [processComponents]. unfold processComponent. cbn [image_unit cp_URL]. rewrite H2.
    unfold updateComponentStatus, clearRetryCounter, mem, mbind, SM_bind, mret, SM_ret. cbn.
    match goal with |- context [ensureOSISODOCAVersion ?b0] => set (b1 := b0) end.
    assert (ensureOSISODOCAVersion b1 = b1) as ->.
    { unfold ensureOSISODOCAVersion. change (bfs_Spec b1) with (bfs_Spec b). by rewrite H2, orb_true_r. }
    split; [done|]. split; [|done]. destruct (Hsame b1 ltac:(done)). split; [by apply (opaque_same b1)|]. split; [done|].
    right. split; [by left|]. done.
  - unfold Extracting. rewrite Hdel. unfold resolveExtractTargets, extractionUnits. rewrite Hunits. cbn.
    split; [done|]. split; [|done]. destruct (Hsame b ltac:(done)). split; [by apply (opaque_same b)|]. split; [done|].
    right. split; [by right|]. done.
  - unfold Ready. rewrite Hdel. unfold checkMissingComponents. rewrite Hunits. cbn [collect_missing]. unfold component_missing.
    cbn [image_unit cp_ComponentType cp_Key cp_URL downloadedComponentPath]. rewrite H2, Hpath, bool_decide_false by done.
    rewrite bool_decide_true by done. unfold mbind, SM_bind, mret, SM_ret. cbn.
    split; [done|]. split; [|done]. destruct (Hsame b ltac:(done)). split; [by apply (opaque_same b)|]. split; [done|].
    left. done.
Qed.

(** C37. A BlueFieldSoftware whose image is a name and not a URL never settles: what the
    downloading state records for it is a path, and Ready takes the image for missing
    because the path is not the name.  An object that asks for nothing else goes round
    Ready, Downloading, Extracting and Ready again with every three passes, whatever
    the times and the state of the volume. *)
Theorem opaque_image_never_settles b s times :
  opaque_image b → image_only b → bfs_Phase b = BlueFieldSoftwareReady →
  dl_OsIso (bfs_DownloadedComponents b) = destination b (image_unit b) →
  let b' := (foldl software_step (b, s) times).1 in
  same_software b b' ∧ bfs_Phase b' = Nat.iter (length times) next_in_loop BlueFieldSoftwareReady.
Proof.
  intros Ho Hi Hp Hpath. assert (in_loop b) as Hl by (split; [done|]; split; [done|]; right; split; [by right|done]).
  cbv zeta. clear Ho Hi Hpath. rewrite <- Hp. clear Hp. revert b s Hl.
  induction times as [|t times IH]; intros b s Hl; [done|]. cbn [foldl length].
  destruct (loop_step t b s Hl) as (Hs & Hl' & Hp'). destruct (software_step (b, s) t) as [b1 s1]. cbn [fst] in *.
  destruct (IH b1 s1 Hl') as [Hs2 Hp2]. split; [by eapply same_software_trans|]. rewrite Hp2, Hp'. by rewrite Nat.iter_succ_r.
Qed.

(** ** The window of retries *)

Definition recorded_download b : option Condition := Get b BlueFieldSoftwareCondDownloaded.
Definition downloaded_false b : Prop := ∃ c, recorded_download b = Some c ∧ c_Status c = ConditionFalse.
Definition downloaded_at (t : Time) b : Prop :=
  ∃ c, recorded_download b = Some c ∧ c_Status c = ConditionTrue ∧ c_Reason c = ReasonSuccess ∧ c_LastTransitionTime c = t.

Lemma downloaded_AddFalse now b reason msg : downloaded_false (AddFalse now b BlueFieldSoftwareCondDownloaded reason msg).
Proof. destruct (AddFalse_get now b BlueFieldSoftwareCondDownloaded reason msg) as (c & Hc & _ & Hs & _). by exists c. Qed.

(** A condition of another type leaves Downloaded alone. *)
Lemma downloaded_add now b st ct reason msg : ct ≠ BlueFieldSoftwareCondDownloaded → recorded_download (add now b st ct reason msg) = recorded_download b.
Proof.
  intros Hne. unfold recorded_download. destruct (Get_add now b st ct reason msg BlueFieldSoftwareCondDownloaded) as (c & -> & _).
  by rewrite decide_False.
Qed.

Lemma downloaded_false_other now b ct reason msg : ct ≠ BlueFieldSoftwareCondDownloaded → downloaded_false b →
  downloaded_false (AddFalse now b ct reason msg).
Proof. intros Hne Hb. unfold downloaded_false, AddFalse. by rewrite downloaded_add. Qed.

Lemma component_downloaded_false now b c : downloaded_false b →
  gives (λ r : Processed, downloaded_false r.1.1) (processComponent (W:=W) now b c).
Proof.
  intros Hb. assert (∀ path, gives (λ r : Processed, downloaded_false r.1.1)
    (b2 ← updateComponentStatus (W:=W) b c path; mret (b2, true, None))) as Hup by (by intros path [m w]).
  unfold processComponent. destruct (isURL (cp_URL c)); [|apply Hup]. cbn [negb]. apply gives_bind. intros [[f|f]|].
  - unfold handleExistingTask. apply gives_bind. intros [[err|]|]; [..|by apply gives_ret]; apply gives_bind; intros _; [|apply Hup].
    apply (gives_bind_result _ _ _ (λ r, downloaded_false r.1)); [|intros r Hr; by apply gives_ret].
    intros s. unfold handleDownloadError, incrementRetryCounter, forget_task, TaskMap_Delete, getRetryCount, clearRetryCounter, mem, mbind, SM_bind.
    repeat case_match; simplify_eq; cbn [fst]; apply downloaded_AddFalse.
  - by apply gives_ret.
  - unfold handleNewDownload. apply gives_bind. intros [[]|err]; [apply Hup| |apply gives_ret, downloaded_AddFalse].
    apply gives_bind. intros _. by apply gives_ret.
Qed.

Lemma components_downloaded_false now b cs ok : downloaded_false b →
  gives (λ r : Processed, downloaded_false r.1.1) (processComponents (W:=W) now b cs ok).
Proof.
  revert b ok. induction cs as [|c cs IH]; intros b ok Hb; [by apply gives_ret|]. cbn [processComponents].
  eapply gives_bind_result; [by apply component_downloaded_false|]. intros [[b2 done] [err|]] Hb2; [by apply gives_ret|by apply IH].
Qed.

Lemma mark_downloaded_at now b : downloaded_false b → downloaded_at now (markAllComponentsReady now b).
Proof.
  intros (c & Hc & Hs). unfold markAllComponentsReady. set (b0 := with_bfs_Phase BlueFieldSoftwareExtracting (ensureOSISODOCAVersion b)).
  destruct (AddTrue_get now b0 BlueFieldSoftwareCondDownloaded) as (c' & Hc' & Hr & Hs' & Ht). exists c'. split_and!; [done..|].
  assert (Get b0 BlueFieldSoftwareCondDownloaded = recorded_download b) as E.
  { unfold b0, ensureOSISODOCAVersion. destruct (_ || _); [done|]. case_bool_decide; [done|]. unfold ApplyDOCAVersionFromISO.
    by destruct (ExtractDOCAVersionFromISO _) as [[f r]|]. }
  by rewrite Ht, E, Hc, Hs.
Qed.

(** A download that completes after a retry counts as done at that pass. *)
Lemma retried_download now b s : bfs_Phase b = BlueFieldSoftwareDownloading → downloaded_false b →
  bfs_Phase (Downloading now b s).1.1 = BlueFieldSoftwareExtracting → downloaded_at now (Downloading now b s).1.1.
Proof.
  intros Hp Hb. revert s. change (gives (λ r : BlueFieldSoftware * option GoError, bfs_Phase r.1 = BlueFieldSoftwareExtracting → downloaded_at now r.1) (Downloading (W:=W) now b)).
  unfold Downloading. destruct (bfs_isDeleting b).
  { apply gives_bind. intros [p|]; [by apply gives_ret; intros E; simpl in E; rewrite Hp in E|by apply gives_ret]. }
  apply gives_bind. intros [|c cs]; [apply gives_ret; intros _; by apply mark_downloaded_at|].
  apply (gives_bind_result _ _ _ (λ r : Processed, downloads_to b r.1.1 ∧ downloaded_false r.1.1)).
  - intros s. split; [apply components_downloads_to; split; [done|]; rewrite Hp; unfold download_phases; set_solver|by apply components_downloaded_false].
  - intros [[b2 done] e] [[_ Hph] Hf]. apply gives_ret. destruct done; intros E; [by apply mark_downloaded_at|]. simpl in E, Hph.
    rewrite E in Hph. unfold download_phases in Hph. set_solver.
Qed.

(** An unpacking that fails: the phase, the reason it gives, and Downloaded as it was. *)
Definition extraction_failed b b' : Prop :=
  bfs_Phase b' = BlueFieldSoftwareError ∧ recorded_download b' = recorded_download b ∧
  ∃ c, Get b' BlueFieldSoftwareCondReady = Some c ∧ c_Reason c = ReasonFailure ∧ c_Status c = ConditionFalse.

Lemma failExtract_failed now b b' err msg : recorded_download b' = recorded_download b → extraction_failed b (failExtract now b' err msg).1.
Proof.
  intros Hd. split; [done|]. split; [unfold failExtract; cbn [fst]; unfold AddFalse; by rewrite downloaded_add|].
  destruct (AddFalse_get now (with_bfs_Phase BlueFieldSoftwareError b') BlueFieldSoftwareCondReady ReasonFailure msg) as (c & ? & ? & ? & _). by exists c.
Qed.

Lemma apply_downloaded b t key cs : recorded_download (applyUnpackedComponentsToDownloaded b t key cs).1 = recorded_download b.
Proof.
  unfold applyUnpackedComponentsToDownloaded. destruct t; simpl; [by destruct (applyDeviceVersions _ _ _)| |done|done].
  set (b0 := with_bfs_Versions _ b). assert (recorded_download b0 = recorded_download b) as <- by done. clearbody b0. revert b0.
  induction cs as [|c cs IH]; intros b0; [done|]. simpl. rewrite IH. unfold platform_step. by destruct (negb _).
Qed.

Lemma unpack_targets_failed now b b' ts : recorded_download b' = recorded_download b →
  gives (λ r, r.2 ≠ None → extraction_failed b r.1) (unpack_targets (W:=W) now b' ts).
Proof.
  revert b'. induction ts as [|t ts IH]; intros b' Hd; cbn [unpack_targets]; [by apply gives_ret|].
  apply (gives_bind_result _ _ _ (λ r, match r.2 with None => recorded_download r.1 = recorded_download b | Some _ => extraction_failed b r.1 end)).
  - unfold unpackTargetIfNeeded. cbv zeta. destruct (extractedVersionsRecorded _ _ _); [by apply gives_ret|].
    apply gives_bind. intros [err|]; [apply gives_ret; by apply failExtract_failed|]. apply gives_bind. intros [cs|err]; apply gives_ret; [|by apply failExtract_failed].
    pose proof (apply_downloaded b' (et_componentType t) (et_key t) cs) as Ha.
    destruct (applyUnpackedComponentsToDownloaded _ _ _ _) as [b2 [err|]]; simpl in Ha; [apply failExtract_failed; congruence|simpl; congruence].
  - intros [b2 [err|]] H2; [by apply gives_ret|by apply IH].
Qed.

(** A failed unpacking is recorded as a failure, but in the Ready condition; Error
    looks at Downloaded, which is True since the download at [t0], and so takes the
    failure for a transient one: it is terminal exactly from [t0 + RetryWindow] on.  A
    retry that [RetryInterval] allows before then goes back to Downloading, with
    Downloaded False, and the pass that finds the files in place makes it True at its
    own time: for the next failure the window counts from there, however many came
    before. *)
Theorem failed_unpacking_restarts_window t0 t1 b s :
  bfs_Phase b = BlueFieldSoftwareExtracting → downloaded_at t0 b → (Extracting t1 b s).1.2 ≠ None →
  let b1 := (Extracting t1 b s).1.1 in
  extraction_failed b b1 ∧
  (∀ t, classifyError t b1 = terminal ↔ (t0 + RetryWindow <= t)%Z) ∧
  ∀ t s1, (t0 + RetryInterval <= t < t0 + RetryWindow)%Z → bfs_isDeleting b1 = false → (Error t b1 s1).1.2 = None →
    let b2 := (Error t b1 s1).1.1 in
    bfs_Phase b2 = BlueFieldSoftwareDownloading ∧
    ∀ t2 s2, bfs_Phase (Downloading t2 b2 s2).1.1 = BlueFieldSoftwareExtracting → downloaded_at t2 (Downloading t2 b2 s2).1.1.
Proof.
  intros Hp (c & Hc & Hs & Hr & Ht) Hfail. cbv zeta.
  assert (extraction_failed b (Extracting t1 b s).1.1) as Hf.
  { revert Hfail. unfold Extracting. destruct (bfs_isDeleting b); [done|]. by apply unpack_targets_failed. }
  split; [done|]. destruct Hf as (Hp1 & Hd1 & _). generalize dependent (Extracting t1 b s).1.1. intros b1 Hp1 Hd1.
  assert (∀ t, classifyError t b1 = if (t0 + RetryWindow <=? t)%Z then terminal else if (t0 + RetryInterval <=? t)%Z then retryNow else retryLater) as Hcl.
  { intros t. unfold classifyError. fold (recorded_download b1). rewrite Hd1, Hc, Hr, Ht. simpl.
    assert ((RetryWindow <=? t - t0)%Z = (t0 + RetryWindow <=? t)%Z) as -> by (apply Bool.eq_iff_eq_true; rewrite !Z.leb_le; lia).
    assert ((RetryInterval <=? t - t0)%Z = (t0 + RetryInterval <=? t)%Z) as -> by (apply Bool.eq_iff_eq_true; rewrite !Z.leb_le; lia). done. }
  split.
  - intros t. rewrite Hcl, <- Z.leb_le. destruct (_ <=? _)%Z; [done|]. by destruct (_ <=? _)%Z.
  - intros t s1 Hw Hdel. unfold Error, mbind, SM_bind. destruct (cleanupInFlightComponentArtifacts b1 s1) as [[e1 [p|]] s2]; [done|].
    rewrite Hdel, Hcl. rewrite (proj2 (Z.leb_gt _ _)) by lia. rewrite (proj2 (Z.leb_le _ _)) by lia.
    destruct e1 as [e1|]; [done|]. unfold mret, SM_ret. cbn [fst snd]. intros _. split; [done|]. intros t2 s3.
    apply retried_download; [done|]. apply downloaded_false_other; [done|apply downloaded_AddFalse].
Qed.
End Runs.

(** ** Smaller observations *)

(** A platform bundle without a CX9 image is accepted and records no version. *)
Lemma platform_without_version b key cs :
  Forall (λ c, strings_Contains (strings_ToUpper (path_Base (uc_FWImage c))) "CX9" = false) cs →
  applyUnpackedComponentsToDownloaded b ComponentTypePlatformFwBundle key cs =
    (with_bfs_Versions (Some (default no_versions (bfs_Versions b))) b, None).
Proof.
  intros Hcs. cbn. f_equal. generalize (with_bfs_Versions (Some (default no_versions (bfs_Versions b))) b). intros b0.
  induction Hcs as [|c cs Hc Hcs IH]; [done|]. cbn [applyPlatformNicFw foldl].
  assert (platform_step b0 c = b0) as -> by (unfold platform_step; by rewrite Hc). exact IH.
Qed.

(** Namespace, name and file are joined by dashes: two objects of a namespace can
    have one path. *)
Lemma filenames_collide {U : URLs} b1 b2 t url1 url2 rest :
  bfs_Namespace b2 = bfs_Namespace b1 → bfs_Name b2 = bfs_Name b1 +:+ "-b" →
  FilenameFromHTTPURL url1 = "b-" +:+ rest → FilenameFromHTTPURL url2 = rest → rest ≠ "" →
  ComponentDownloadFilename b1 t url1 = ComponentDownloadFilename b2 t url2.
Proof.
  intros Hns Hn H1 H2 Hne. unfold ComponentDownloadFilename. rewrite H1, H2, !bool_decide_true by done.
  rewrite Hns, Hn, <- !string_app_assoc. done.
Qed.
