(* ===== verification/ExampleSoftware.v ===== *)
(** An instance of the services of the BlueFieldSoftware controller: the volume of
    [ExampleBFB], URLs that begin with http, and an unpack service that answers with
    the four images of one bundle.  The witnesses evaluate on it; no theorem depends on
    it. *)

From S2P Require Import Prelude.
From S2P Require Import Meta.
From S2P Require Import Conditions.
From S2P Require Import DPUTypes.
From S2P Require Import DPUSetTypes.
From S2P Require Import DownloadTasks.
From S2P Require Import BFBTypes.
From S2P Require Import ExampleBFB.
From S2P Require Import SoftwareTypes.
From S2P Require Import SoftwareDownload.
From S2P Require Import SoftwareExtract.
From S2P Require Import SoftwareStates.
From S2P Require Import SoftwareProtocol.

Definition fake_urls : URLs := λ s,
  if String.prefix "http://" s
  then let rest := String.substring 7 (String.length s) s in
       Some ("http", match String.index 0 "/" rest with Some i => String.substring i (String.length rest) rest | None => "" end)
  else Some ("", s).

Definition fake_software_client (answer : Res (Z * Res string)) : SoftwareClient BWorld := {|
  fetchSoftware _ w := (Err (mkGoError KNotFound "not found"), w);
  patchSoftware _ _ w := (None, w);
  globFiles _ w := (Ok [], w);
  removeTree _ w := (None, w);
  postUnpack _ _ w := (answer, w) |}.

Definition example_images : list unpackedComponent :=
  [mkUnpacked "26.01" "/out/cx9_MT_0001_fw.bin"; mkUnpacked "4.15" "/out/bmc_bf4.bin";
   mkUnpacked "0.9" "/out/erot.bin"; mkUnpacked "1.2" "/out/sbios.bin"].
Definition fake_unpack_json : UnpackJSON := {|
  unmarshal_response body := Ok (mkUnpackResponse true 0 body "" "");
  unmarshal_stdout _ := Ok [example_images] |}.

#[local] Existing Instance meta_list.
#[local] Existing Instance finalizer_list.
#[local] Existing Instance map_to_list_range.
#[local] Existing Instance fake_bfb_client.
#[local] Existing Instance fake_urls.
#[local] Existing Instance fake_unpack_json.

Definition fresh_tasks : SoftwareMemory := mkMemory ∅ ∅ [].
Definition example_state : SoftwareMemory * BWorld := (fresh_tasks, example_bworld ∅ (Err no_such_file)).
Definition software_in (phase : string) (spec : BlueFieldSpec) (iso : string) (conditions : list Condition) : BlueFieldSoftware :=
  mkBFS "soft" "ns" "uid-0" 1 [BlueFieldSoftwareFinalizer] None spec phase None (mkDownloadedComponents ∅ "" iso "") 1 conditions.

Definition bundle_spec : BlueFieldSpec := mkBlueFieldSpec "" {["MT_0001" := "http://images/bundle.fwpkg"]} None None.

(** The process has one download of the bundle, which ended with the error. *)
Definition bundle_component : componentInfo := mkComponent "http://images/bundle.fwpkg" ComponentTypeFwBundle "MT_0001".
Definition ended_with (b : BlueFieldSoftware) (kind : ErrKind) : SoftwareMemory * BWorld :=
  let name := componentTaskName b bundle_component in
  (mkMemory {[name := TFuture 0]} ∅ [mkFuture (mkComponentTask name (cp_URL bundle_component) "bundle.fwpkg" "fw" "uid-0") false
     (Some (Some (mkGoError kind "download ended")))], example_state.2).

(** A cancelled download takes the software to Deleting; one that failed does not. *)
Lemma software_pass_witness :
  let b := software_in BlueFieldSoftwareDownloading bundle_spec "" [] in
  let pass k := reconcile_software (S:=fake_software_client (Err no_such_file)) (U:=fake_urls) 0 b (ended_with b k) in
  bfs_Phase (pass KCanceled).1.1.1 = BlueFieldSoftwareDeleting ∧ software_goes (ended_with b KCanceled).1 b (pass KCanceled).1.1.1 ∧
  bfs_Phase (pass KOther).1.1.1 = BlueFieldSoftwareDownloading ∧ software_goes (ended_with b KOther).1 b (pass KOther).1.1.1.
Proof.
  cbv zeta. split; [vm_compute; reflexivity|].
  split; [exact (proj1 (proj2 (software_pass (S:=fake_software_client (Err no_such_file)) 0 (software_in BlueFieldSoftwareDownloading bundle_spec "" [])
            (ended_with (software_in BlueFieldSoftwareDownloading bundle_spec "" []) KCanceled))))|].
  split; [vm_compute; reflexivity|].
  exact (proj1 (proj2 (software_pass (S:=fake_software_client (Err no_such_file)) 0 (software_in BlueFieldSoftwareDownloading bundle_spec "" [])
            (ended_with (software_in BlueFieldSoftwareDownloading bundle_spec "" []) KOther)))).
Defined.

Lemma ready_has_versions_witness :
  let b := software_in BlueFieldSoftwareExtracting bundle_spec "" [] in
  let r := Extracting (S:=fake_software_client (Ok (200%Z, Ok "out"))) (U:=fake_urls)
             0 b example_state in
  bfs_Phase r.1.1 = BlueFieldSoftwareReady ∧ recorded r.1.1 "MT_0001" = mkDeviceVersions "4.15" "0.9" "1.2" "26.01" ∧
  deviceVersionsComplete (recorded r.1.1 "MT_0001") = true.
Proof.
  split; [vm_compute; reflexivity|]. split; [vm_compute; reflexivity|].
  apply (proj1 (ready_has_versions (S:=fake_software_client (Ok (200%Z, Ok "out"))) 0 (software_in BlueFieldSoftwareExtracting bundle_spec "" []) example_state
    ltac:(reflexivity) ltac:(vm_compute; reflexivity) "MT_0001" "http://images/bundle.fwpkg" ltac:(vm_compute; reflexivity) ltac:(discriminate))).
Defined.

Definition opaque_spec : BlueFieldSpec := mkBlueFieldSpec "jammy-image" ∅ None None.
Definition opaque_path : string := "/bfb/ns-soft-osiso".

Lemma opaque_image_never_settles_witness :
  let b := software_in BlueFieldSoftwareReady opaque_spec opaque_path [] in
  let b' := (foldl (software_step (S:=fake_software_client (Err no_such_file))
              ) (b, example_state) [10; 20; 30; 40]%Z).1 in
  bfs_Phase b' = BlueFieldSoftwareDownloading.
Proof.
  exact (proj2 (opaque_image_never_settles
    (S:=fake_software_client (Err no_such_file)) (RL:=map_to_list_range_laws)
    (software_in BlueFieldSoftwareReady opaque_spec opaque_path []) example_state [10; 20; 30; 40]%Z
    ltac:(split; [discriminate|vm_compute; reflexivity|vm_compute; discriminate|reflexivity|vm_compute; reflexivity])
    ltac:(split; [reflexivity|split; reflexivity]) ltac:(reflexivity) ltac:(vm_compute; reflexivity))).
Defined.

Definition downloaded_then (t : Time) : list Condition :=
  [mkCondition BlueFieldSoftwareCondDownloaded ConditionTrue 1 t ReasonSuccess ""].

Lemma failed_unpacking_restarts_window_witness :
  let b := software_in BlueFieldSoftwareExtracting bundle_spec "" (downloaded_then 100%Z) in
  let b1 := (Extracting (S:=fake_software_client (Err no_such_file)) (U:=fake_urls)
              150 b example_state).1.1 in
  bfs_Phase b1 = BlueFieldSoftwareError ∧ (∀ t, classifyError t b1 = terminal ↔ (100 + RetryWindow <= t)%Z).
Proof.
  destruct (failed_unpacking_restarts_window
    (S:=fake_software_client (Err no_such_file)) 100 150
    (software_in BlueFieldSoftwareExtracting bundle_spec "" (downloaded_then 100%Z)) example_state
    ltac:(reflexivity)
    ltac:(eexists; split; [vm_compute; reflexivity|split; [reflexivity|split; reflexivity]]) ltac:(vm_compute; discriminate))
    as ((Hp & _) & Hw & _).
  exact (conj Hp Hw).
Defined.
