(* ===== verification/BlockRanges.v ===== *)
(** Ranges of block indices (the second half of
    internal/dpuservicechain/controllers/dpuserviceipam_ipamallocator.go): merging,
    subtracting, taking and counting, and what each does to the set of indices.

    [big.Int] is [Z]; the functions copy what they keep, so no range is shared.  The
    order a sort gives to ranges of one start does not matter, since the result of a
    merge is the one canonical list of its set ([canonical_unique]). *)

From S2P Require Import Prelude.
From stdpp Require Import sorting.

Record blockIndexRange := mkBlocks { br_Start : Z; br_End : Z }.
#[export] Instance blockIndexRange_eq_dec : EqDecision blockIndexRange.
Proof. solve_decision. Defined.

(** ** The operations *)

Definition by_start (a b : blockIndexRange) : Prop := (br_Start a <= br_Start b)%Z.
#[export] Instance by_start_dec : RelDecision by_start := λ a b, decide (br_Start a <= br_Start b)%Z.

(** The loop of [mergeBlockIndexRanges]: [last] is the last range of the result so far. *)
Fixpoint merge_blocks (last : blockIndexRange) (ranges : list blockIndexRange) : list blockIndexRange :=
  match ranges with
  | [] => [last]
  | r :: ranges =>
      if (br_Start r <=? br_End last + 1)%Z then
        merge_blocks (if (br_End last <? br_End r)%Z then mkBlocks (br_Start last) (br_End r) else last) ranges
      else last :: merge_blocks r ranges
  end.
Definition mergeBlockIndexRanges (ranges : list blockIndexRange) : list blockIndexRange :=
  match merge_sort by_start ranges with [] => [] | r :: ranges => merge_blocks r ranges end.

(** What subtracting one range leaves of another. *)
Definition subtract_one (sub current : blockIndexRange) : list blockIndexRange :=
  if (br_End sub <? br_Start current)%Z || (br_End current <? br_Start sub)%Z then [current]
  else (if (br_Start current <? br_Start sub)%Z then [mkBlocks (br_Start current) (br_Start sub - 1)] else []) ++
       (if (br_End sub <? br_End current)%Z then [mkBlocks (br_End sub + 1) (br_End current)] else []).
Definition subtractBlockIndexRanges (ranges subtract : list blockIndexRange) : list blockIndexRange :=
  foldl (λ result sub, result ≫= subtract_one sub) (mergeBlockIndexRanges ranges) (mergeBlockIndexRanges subtract).

Definition range_count (r : blockIndexRange) : Z := (br_End r - br_Start r + 1)%Z.

Fixpoint takeBlockIndices (ranges : list blockIndexRange) (left : Z) : list blockIndexRange * list blockIndexRange :=
  match ranges with
  | [] => ([], [])
  | r :: ranges =>
      if (left =? 0)%Z then let '(selected, remaining) := takeBlockIndices ranges left in (selected, r :: remaining)
      else if (range_count r <=? left)%Z then
        let '(selected, remaining) := takeBlockIndices ranges (left - range_count r) in (r :: selected, remaining)
      else
        let selectedEnd := (br_Start r + left - 1)%Z in
        let '(selected, remaining) := takeBlockIndices ranges 0 in
        (mkBlocks (br_Start r) selectedEnd :: selected, mkBlocks (selectedEnd + 1) (br_End r) :: remaining)
  end.

Definition blockIndexRangeCount (ranges : list blockIndexRange) : Z := foldl (λ total r, total + range_count r)%Z 0%Z ranges.

Definition ceilDiv (value divisor : Z) : Z := if (value =? 0)%Z then 0%Z else Z.quot (value + (divisor - 1)) divisor.

(** ** The set of indices of a list of ranges *)

Definition proper (r : blockIndexRange) : Prop := (br_Start r <= br_End r)%Z.
Definition in_block (x : Z) (r : blockIndexRange) : Prop := (br_Start r <= x <= br_End r)%Z.
Definition covers (ranges : list blockIndexRange) (x : Z) : Prop := Exists (in_block x) ranges.

(** Proper ranges in order, with a gap between any two. *)
Definition apart (a b : blockIndexRange) : Prop := (br_End a + 1 < br_Start b)%Z.
Definition canonical (ranges : list blockIndexRange) : Prop := Forall proper ranges ∧ StronglySorted apart ranges.

Lemma covers_nil x : ¬ covers [] x.
Proof. by intros ?%Exists_nil. Qed.
Lemma covers_cons r rs x : covers (r :: rs) x ↔ in_block x r ∨ covers rs x.
Proof. apply Exists_cons. Qed.
Lemma covers_app rs rs' x : covers (rs ++ rs') x ↔ covers rs x ∨ covers rs' x.
Proof. apply Exists_app. Qed.
Lemma covers_perm rs rs' x : rs ≡ₚ rs' → covers rs x ↔ covers rs' x.
Proof. intros Hp. unfold covers. by rewrite Hp. Qed.
Lemma covers_bind (f : blockIndexRange → list blockIndexRange) rs x : covers (rs ≫= f) x ↔ Exists (λ r, covers (f r) x) rs.
Proof.
  induction rs as [|r rs IH]; [by rewrite Exists_nil; split; [intros ?%covers_nil|]|].
  rewrite bind_cons, covers_app, Exists_cons. by rewrite IH.
Qed.

Lemma canonical_nil : canonical [].
Proof. split; constructor. Qed.
Lemma canonical_cons r rs : canonical (r :: rs) ↔ proper r ∧ Forall (apart r) rs ∧ canonical rs.
Proof.
  unfold canonical. rewrite Forall_cons. split.
  - intros [[Hr Hrs] Hs]. apply StronglySorted_inv in Hs as [Hs Ha]. done.
  - intros (Hr & Ha & Hrs & Hs). split; [done|]. by constructor.
Qed.
Lemma canonical_singleton r : proper r → canonical [r].
Proof. intros Hr. apply canonical_cons. split; [done|]. split; [constructor|apply canonical_nil]. Qed.

(** Beyond the first range of a canonical list every index is greater. *)
Lemma covers_after r rs x : Forall (apart r) rs → covers rs x → (br_End r + 1 < x)%Z.
Proof.
  intros Ha Hx. apply Exists_exists in Hx as (s & Hs & Hx). rewrite Forall_forall in Ha. specialize (Ha s Hs).
  unfold apart, in_block in *. lia.
Qed.

(** Two canonical lists of one set are the same list. *)
Lemma canonical_unique rs rs' : canonical rs → canonical rs' → (∀ x, covers rs x ↔ covers rs' x) → rs = rs'.
Proof.
  revert rs'. induction rs as [|r rs IH]; intros [|r' rs'] Hc Hc' Heq; [done| | |].
  - apply canonical_cons in Hc' as (Hp & _). destruct (covers_nil (br_Start r')). apply Heq, covers_cons. left. unfold in_block, proper in *. lia.
  - apply canonical_cons in Hc as (Hp & _). destruct (covers_nil (br_Start r)). apply Heq, covers_cons. left. unfold in_block, proper in *. lia.
  - apply canonical_cons in Hc as (Hp & Ha & Hc). apply canonical_cons in Hc' as (Hp' & Ha' & Hc').
    assert (∀ x, in_block x r ∨ covers rs x ↔ in_block x r' ∨ covers rs' x) as Heq' by (intros x; rewrite <- !covers_cons; apply Heq).
    unfold in_block, proper in *.
    assert (br_Start r = br_Start r').
    { destruct (proj1 (Heq' (br_Start r)) ltac:(lia)) as [?|H1]; destruct (proj2 (Heq' (br_Start r')) ltac:(lia)) as [?|H2]; try lia;
        try (apply (covers_after _ _ _ Ha') in H1); try (apply (covers_after _ _ _ Ha) in H2); lia. }
    assert (br_End r = br_End r').
    { pose proof (proj1 (Heq' (br_End r)) ltac:(lia)) as H1. pose proof (proj2 (Heq' (br_End r')) ltac:(lia)) as H2.
      destruct (Z.lt_total (br_End r) (br_End r')) as [Hlt|[?|Hlt]]; [|done|].
      - destruct (proj2 (Heq' (br_End r + 1)%Z) ltac:(lia)) as [?|H3]; [lia|]. apply (covers_after _ _ _ Ha) in H3. lia.
      - destruct (proj1 (Heq' (br_End r' + 1)%Z) ltac:(lia)) as [?|H3]; [lia|]. apply (covers_after _ _ _ Ha') in H3. lia. }
    assert (r = r') as -> by (destruct r, r'; simpl in *; congruence). f_equal. apply IH; [done..|]. intros x. split; intros Hx.
    + destruct (proj1 (Heq' x) (or_intror Hx)) as [?|?]; [|done]. apply (covers_after _ _ _ Ha) in Hx. lia.
    + destruct (proj2 (Heq' x) (or_intror Hx)) as [?|?]; [|done]. apply (covers_after _ _ _ Ha') in Hx. lia.
Qed.

(** ** Merging *)

#[export] Instance by_start_total : Total by_start.
Proof. intros a b. unfold by_start. lia. Qed.
#[export] Instance by_start_trans : Transitive by_start.
Proof. intros a b c. unfold by_start. lia. Qed.

Lemma merge_blocks_spec last rs :
  proper last → Forall proper rs → StronglySorted by_start (last :: rs) →
  canonical (merge_blocks last rs) ∧ (∀ x, covers (merge_blocks last rs) x ↔ covers (last :: rs) x) ∧
  Forall (λ r, (br_Start last <= br_Start r)%Z) (merge_blocks last rs).
Proof.
  revert last. induction rs as [|r rs IH]; intros last Hp Hps Hs.
  { split; [by apply canonical_singleton|]. split; [done|]. by constructor. }
  apply Forall_cons in Hps as [Hr Hps]. apply StronglySorted_inv in Hs as [Hs Hl]. apply Forall_cons in Hl as [Hlr Hl].
  apply StronglySorted_inv in Hs as [Hs Hrs]. unfold proper, by_start in *. simpl.
  destruct (Z.leb_spec (br_Start r) (br_End last + 1)).
  - set (last' := if (br_End last <? br_End r)%Z then mkBlocks (br_Start last) (br_End r) else last).
    assert (br_Start last' = br_Start last ∧ br_End last' = Z.max (br_End last) (br_End r)) as [H1 H2].
    { unfold last'. destruct (Z.ltb_spec (br_End last) (br_End r)); simpl; lia. }
    destruct (IH last') as (Hc & Hcov & Hst); [lia|done| |].
    { constructor; [done|]. eapply Forall_impl; [exact Hl|]. intros s. by rewrite H1. }
    split; [done|]. split; [|eapply Forall_impl; [exact Hst|]; intros s; simpl; lia].
    intros x. rewrite Hcov, !covers_cons. unfold in_block. rewrite H1, H2. split.
    + intros [?|?]; [|tauto]. destruct (Z.le_gt_cases x (br_End last)); [left|right; left]; lia.
    + intros [?|[?|?]]; [left; lia..|tauto].
  - destruct (IH r) as (Hc & Hcov & Hst); [done|done|by constructor|]. split; [|split].
    + apply canonical_cons. split; [done|]. split; [|done]. eapply Forall_impl; [exact Hst|]. intros s. unfold apart. lia.
    + intros x. rewrite !covers_cons, Hcov, covers_cons. done.
    + constructor; [lia|]. eapply Forall_impl; [exact Hst|]. intros s. simpl. lia.
Qed.

Lemma mergeBlockIndexRanges_spec rs : Forall proper rs →
  canonical (mergeBlockIndexRanges rs) ∧ ∀ x, covers (mergeBlockIndexRanges rs) x ↔ covers rs x.
Proof.
  intros Hp. unfold mergeBlockIndexRanges. pose proof (merge_sort_Permutation by_start rs) as Hperm.
  assert (StronglySorted by_start (merge_sort by_start rs)) as Hs by (apply (StronglySorted_merge_sort by_start)).
  assert (∀ x, covers (merge_sort by_start rs) x ↔ covers rs x) as Hc by (intros x; by apply covers_perm).
  rewrite <- Hperm in Hp. destruct (merge_sort by_start rs) as [|r rs']; [split; [apply canonical_nil|done]|].
  apply Forall_cons in Hp as [Hr Hrs]. destruct (merge_blocks_spec r rs' Hr Hrs Hs) as (Hcan & Hcov & _).
  split; [done|]. intros x. by rewrite Hcov.
Qed.

Lemma merge_canonical rs : canonical rs → mergeBlockIndexRanges rs = rs.
Proof.
  intros Hc. destruct (mergeBlockIndexRanges_spec rs (proj1 Hc)) as [Hm Hx]. by apply canonical_unique.
Qed.

(** ** Subtracting *)

Definition within (s r : blockIndexRange) : Prop := (br_Start r <= br_Start s)%Z ∧ (br_End s <= br_End r)%Z.

Lemma canonical_app rs rs' : canonical rs → canonical rs' → (∀ r s, r ∈ rs → s ∈ rs' → apart r s) → canonical (rs ++ rs').
Proof.
  intros Hc Hc' Ha. induction rs as [|r rs IH]; [done|]. apply canonical_cons in Hc as (Hp & Hr & Hc). simpl. apply canonical_cons.
  split; [done|]. split; [|apply IH; [done|]; intros; apply Ha; [by right|done]].
  apply Forall_app. split; [done|]. apply Forall_forall. intros s Hs. apply Ha; [by left|done].
Qed.

Lemma subtract_one_spec sub r : proper sub → proper r →
  canonical (subtract_one sub r) ∧ Forall (λ s, within s r) (subtract_one sub r) ∧
  ∀ x, covers (subtract_one sub r) x ↔ in_block x r ∧ ¬ in_block x sub.
Proof.
  intros Hs Hr. unfold subtract_one, proper, within, covers, in_block in *.
  destruct (Z.ltb_spec (br_End sub) (br_Start r)), (Z.ltb_spec (br_End r) (br_Start sub)),
    (Z.ltb_spec (br_Start r) (br_Start sub)), (Z.ltb_spec (br_End sub) (br_End r)); try lia; simpl.
  all: split; [repeat (apply canonical_cons; split; [unfold proper; simpl; lia|split; [repeat constructor; unfold apart; simpl; lia|]]); apply canonical_nil|].
  all: split; [repeat constructor; simpl; lia|].
  all: intros x; rewrite ?Exists_cons, ?Exists_nil; simpl; unfold in_block; simpl; lia.
Qed.

Lemma subtract_range_spec sub rs : proper sub → canonical rs →
  canonical (rs ≫= subtract_one sub) ∧ ∀ x, covers (rs ≫= subtract_one sub) x ↔ covers rs x ∧ ¬ in_block x sub.
Proof.
  intros Hs Hc. split.
  - induction rs as [|r rs IH]; [done|]. apply canonical_cons in Hc as (Hp & Ha & Hc). rewrite bind_cons.
    destruct (subtract_one_spec sub r Hs Hp) as (H1 & H2 & _). apply canonical_app; [done|by apply IH|].
    intros s t Hsr (u & Ht & Hu)%list_elem_of_bind. rewrite Forall_forall in H2, Ha. specialize (H2 s Hsr). specialize (Ha u Hu).
    destruct (subtract_one_spec sub u Hs) as (_ & H3 & _); [by destruct Hc as [Hc _]; rewrite Forall_forall in Hc; apply Hc|].
    rewrite Forall_forall in H3. specialize (H3 t Ht). unfold within, apart in *. lia.
  - intros x. rewrite covers_bind. unfold covers. rewrite !Exists_exists. destruct Hc as [Hp _]. rewrite Forall_forall in Hp. split.
    + intros (r & Hr & Hx). apply (subtract_one_spec sub r Hs (Hp r Hr)) in Hx as [? ?]. split; [|done]. by exists r.
    + intros [(r & Hr & Hx) Hn]. exists r. split; [done|]. by apply (subtract_one_spec sub r Hs (Hp r Hr)).
Qed.

Lemma subtract_all_spec subs rs : Forall proper subs → canonical rs →
  let result := foldl (λ result sub, result ≫= subtract_one sub) rs subs in
  canonical result ∧ ∀ x, covers result x ↔ covers rs x ∧ ¬ covers subs x.
Proof.
  intros Hs. revert rs. induction Hs as [|sub subs Hp Hps IH]; intros rs Hc; cbn [foldl].
  - split; [done|]. intros x. pose proof (covers_nil x). tauto.
  - destruct (subtract_range_spec sub rs Hp Hc) as [Hc' Hx']. destruct (IH _ Hc') as [Hr Hx]. split; [done|].
    intros x. rewrite Hx, Hx', covers_cons. tauto.
Qed.

Lemma subtractBlockIndexRanges_spec rs subs : Forall proper rs → Forall proper subs →
  canonical (subtractBlockIndexRanges rs subs) ∧ ∀ x, covers (subtractBlockIndexRanges rs subs) x ↔ covers rs x ∧ ¬ covers subs x.
Proof.
  intros Hr Hs. destruct (mergeBlockIndexRanges_spec rs Hr) as [Hcr Hxr]. destruct (mergeBlockIndexRanges_spec subs Hs) as [Hcs Hxs].
  destruct (subtract_all_spec (mergeBlockIndexRanges subs) (mergeBlockIndexRanges rs) (proj1 Hcs) Hcr) as [Hc Hx].
  split; [done|]. intros x. unfold subtractBlockIndexRanges. by rewrite Hx, Hxr, Hxs.
Qed.

(** ** Counting and taking *)

Lemma count_fold rs n : foldl (λ total r, total + range_count r)%Z n rs = (n + blockIndexRangeCount rs)%Z.
Proof.
  unfold blockIndexRangeCount. revert n. induction rs as [|r rs IH]; intros n; cbn [foldl]; [lia|].
  rewrite (IH (n + range_count r)%Z), (IH (0 + range_count r)%Z). lia.
Qed.
Lemma block_count_cons r rs : blockIndexRangeCount (r :: rs) = (range_count r + blockIndexRangeCount rs)%Z.
Proof. unfold blockIndexRangeCount at 1. cbn [foldl]. rewrite count_fold. lia. Qed.
Lemma count_proper rs : Forall proper rs → (0 <= blockIndexRangeCount rs)%Z ∧ (blockIndexRangeCount rs = 0%Z → rs = []).
Proof.
  induction 1 as [|r rs Hr Hrs [IH1 IH2]]; [done|]. rewrite block_count_cons. unfold range_count, proper in *. split; [lia|]. lia.
Qed.

(** Ranges are taken from the front, and what is taken and what remains are again
    canonical. *)
Lemma take_none rs : takeBlockIndices rs 0 = ([], rs).
Proof. induction rs as [|r rs IH]; [done|]. simpl. by rewrite IH. Qed.

Record taken (rs : list blockIndexRange) (n : Z) (selected remaining : list blockIndexRange) : Prop := {
  taken_selected : canonical selected;
  taken_remaining : canonical remaining;
  taken_covers x : covers rs x ↔ covers selected x ∨ covers remaining x;
  taken_first x y : covers selected x → covers remaining y → (x < y)%Z;
  taken_count : blockIndexRangeCount selected = Z.min n (blockIndexRangeCount rs);
  taken_within r : r ∈ selected ∨ r ∈ remaining → ∃ r0, r0 ∈ rs ∧ within r r0 }.

Lemma within_refl r : within r r.
Proof. unfold within. lia. Qed.
Lemma apart_within r rs rs0 : Forall (apart r) rs0 → (∀ s, s ∈ rs → ∃ s0, s0 ∈ rs0 ∧ within s s0) → Forall (apart r) rs.
Proof.
  rewrite !Forall_forall. intros Ha Hw s (s0 & Hs0 & Hw0)%Hw. specialize (Ha s0 Hs0). unfold apart, within in *. lia.
Qed.

Lemma takeBlockIndices_spec rs n : canonical rs → (0 <= n)%Z → taken rs n (takeBlockIndices rs n).1 (takeBlockIndices rs n).2.
Proof.
  revert n. induction rs as [|r rs IH]; intros n Hc Hn.
  { split; simpl; [apply canonical_nil..| | |change (0 = Z.min n 0)%Z; lia|].
    - intros x. pose proof (covers_nil x). tauto.
    - by intros x y ?%covers_nil.
    - by intros r [?%elem_of_nil|?%elem_of_nil]. }
  pose proof Hc as (Hp & Ha & Hc')%canonical_cons. cbn [takeBlockIndices]. pose proof (proj1 (count_proper rs (proj1 Hc'))) as Hrs.
  assert (0 < range_count r)%Z as Hrc by (unfold range_count, proper in *; lia).
  destruct (Z.eqb_spec n 0) as [->|].
  { rewrite take_none. cbn [fst snd]. split; [apply canonical_nil|done| | |rewrite block_count_cons; change (0 = Z.min 0 (range_count r + blockIndexRangeCount rs))%Z; lia|].
    - intros x. pose proof (covers_nil x). tauto.
    - by intros x y ?%covers_nil.
    - intros s [?%elem_of_nil|Hs]; [done|]. exists s. split; [done|apply within_refl]. }
  destruct (Z.leb_spec (range_count r) n).
  - destruct (IH (n - range_count r)%Z Hc' ltac:(lia)) as [H1 H2 H3 H4 H5 H6]. destruct (takeBlockIndices rs _) as [sel rem]. cbn [fst snd] in *.
    split; [|done|intros x; rewrite !covers_cons, H3; tauto| |rewrite !block_count_cons, H5; lia|].
    + apply canonical_cons. split; [done|]. split; [|done]. eapply apart_within; [done|]. intros s Hs. apply H6. by left.
    + intros x y [Hx|Hx]%covers_cons Hy; [|by apply H4]. assert (covers rs y) as Hy' by (apply H3; by right).
      apply (covers_after _ _ _ Ha) in Hy'. unfold in_block in Hx. lia.
    + intros s [[->|Hs]%elem_of_cons|Hs]; [exists r; split; [left|apply within_refl]|..];
        (destruct (H6 s) as (s0 & Hs0 & Hw); [auto|exists s0; split; [by right|done]]).
  - rewrite take_none. cbn [fst snd]. unfold range_count, proper in *.
    split; [apply canonical_singleton; unfold proper; simpl; lia| | | | |].
    + apply canonical_cons. split; [unfold proper; simpl; lia|]. split; [|done]. eapply Forall_impl; [exact Ha|]. intros s. unfold apart. done.
    + intros x. rewrite !covers_cons. pose proof (covers_nil x). unfold in_block. simpl.
      assert ((br_Start r <= x <= br_End r)%Z ↔ (br_Start r <= x <= br_Start r + n - 1)%Z ∨ (br_Start r + n - 1 + 1 <= x <= br_End r)%Z) as -> by lia.
      tauto.
    + intros x y [Hx|Hx]%covers_cons Hy; [|by apply covers_nil in Hx]. unfold in_block in Hx. simpl in Hx.
      apply covers_cons in Hy as [Hy|Hy]; [unfold in_block in Hy; simpl in Hy; lia|]. apply (covers_after _ _ _ Ha) in Hy. lia.
    + rewrite !block_count_cons. unfold range_count. simpl. change (blockIndexRangeCount []) with 0%Z. lia.
    + intros s [[->|?%elem_of_nil]%elem_of_cons|[->|Hs]%elem_of_cons]; [|done| |].
      * exists r. split; [left|]. unfold within. simpl. lia.
      * exists r. split; [left|]. unfold within. simpl. lia.
      * exists s. split; [by right|apply within_refl].
Qed.

Lemma take_all rs n : canonical rs → (blockIndexRangeCount rs <= n)%Z → takeBlockIndices rs n = (rs, []).
Proof.
  revert n. induction rs as [|r rs IH]; intros n Hc Hn; [done|]. pose proof Hc as (Hp & _ & Hc')%canonical_cons. rewrite block_count_cons in Hn.
  pose proof (proj1 (count_proper rs (proj1 Hc'))). cbn [takeBlockIndices].
  assert (0 < range_count r)%Z by (unfold range_count, proper in *; lia).
  destruct (Z.eqb_spec n 0); [lia|]. destruct (Z.leb_spec (range_count r) n); [|lia]. by rewrite IH by (try done; lia).
Qed.
