(* ===== verification/NetIP.v ===== *)
(** IP addresses and prefixes: what the IPAM code uses of Go's [net/netip].

    An [Addr] is invalid, an IPv4 address or an IPv6 address with a zone; its value is
    the number its bytes spell.  [ParseAddr] and [Addr_String] follow the algorithms of
    the Go library, which read and write the canonical text of RFC 5952; that one undoes
    the other is [ParseAddr_String]. *)

From S2P Require Import Prelude.
From Stdlib Require Import Ascii.

Inductive Addr := AddrInvalid | Addr4 (v : Z) | Addr6 (v : Z) (zone : string).
#[export] Instance Addr_eq_dec : EqDecision Addr.
Proof. solve_decision. Defined.

Definition BitLen (a : Addr) : Z := match a with AddrInvalid => 0 | Addr4 _ => 32 | Addr6 _ _ => 128 end.
Definition addr_value (a : Addr) : Z := match a with AddrInvalid => 0 | Addr4 v | Addr6 v _ => v end.
Definition addr_zone (a : Addr) : string := match a with Addr6 _ zone => zone | _ => "" end.
Definition IsValid (a : Addr) : bool := match a with AddrInvalid => false | _ => true end.
Definition Is4 (a : Addr) : bool := match a with Addr4 _ => true | _ => false end.
Definition Is6 (a : Addr) : bool := match a with Addr6 _ _ => true | _ => false end.
Definition Is4In6 (a : Addr) : bool := match a with Addr6 v _ => (Z.shiftr v 32 =? 65535)%Z | _ => false end.

(** [Compare]: the family, the value, then the zone. *)
Definition Addr_Compare (a b : Addr) : comparison :=
  match (BitLen a ?= BitLen b)%Z with
  | Eq => match (addr_value a ?= addr_value b)%Z with
          | Eq => String.compare (addr_zone a) (addr_zone b)
          | c => c
          end
  | c => c
  end.
Definition addr_le (a b : Addr) : bool := match Addr_Compare a b with Gt => false | _ => true end.
Definition addr_lt (a b : Addr) : bool := match Addr_Compare a b with Lt => true | _ => false end.

Definition Addr_Next (a : Addr) : Addr :=
  match a with
  | AddrInvalid => AddrInvalid
  | Addr4 v => if (v + 1 =? 2 ^ 32)%Z then AddrInvalid else Addr4 (v + 1)
  | Addr6 v zone => if (v + 1 =? 2 ^ 128)%Z then AddrInvalid else Addr6 (v + 1) zone
  end.
Definition Addr_Prev (a : Addr) : Addr :=
  match a with
  | AddrInvalid => AddrInvalid
  | Addr4 v => if (v =? 0)%Z then AddrInvalid else Addr4 (v - 1)
  | Addr6 v zone => if (v =? 0)%Z then AddrInvalid else Addr6 (v - 1) zone
  end.

(** ** Reading *)

Definition parseAddrError (input msg at_ : string) : GoError :=
  errorf ("ParseAddr(" +:+ quoted input +:+ "): " +:+ msg +:+ (if bool_decide (at_ = "") then "" else " (at " +:+ quoted at_ +:+ ")")).

Definition code (c : ascii) : Z := Z.of_nat (nat_of_ascii c).
Definition digit_value (c : ascii) : option Z :=
  if (48 <=? code c)%Z && (code c <=? 57)%Z then Some (code c - 48)%Z else None.
Definition hex_value (c : ascii) : option Z :=
  match digit_value c with
  | Some d => Some d
  | None =>
      if (97 <=? code c)%Z && (code c <=? 102)%Z then Some (code c - 97 + 10)%Z
      else if (65 <=? code c)%Z && (code c <=? 70)%Z then Some (code c - 65 + 10)%Z
      else None
  end.

(** [parseIPv4Fields]: the fields so far, the value of the current one and its digits. *)
Fixpoint parseIPv4Fields (input s : string) (val : Z) (digLen : nat) (fields : list Z) : Res (list Z) :=
  match s with
  | EmptyString =>
      if (length fields <? 3)%nat then Err (parseAddrError input "IPv4 address too short" "") else Ok (fields ++ [val])
  | String c s' =>
      match digit_value c with
      | Some d =>
          if (digLen =? 1)%nat && (val =? 0)%Z then Err (parseAddrError input "IPv4 field has octet with leading zero" "")
          else
            let val := (val * 10 + d)%Z in
            if (255 <? val)%Z then Err (parseAddrError input "IPv4 field has value >255" "")
            else parseIPv4Fields input s' val (digLen + 1) fields
      | None =>
          if Ascii.eqb c "."%char then
            if (digLen =? 0)%nat || bool_decide (s' = "") then Err (parseAddrError input "IPv4 field must have at least one digit" s)
            else if (length fields =? 3)%nat then Err (parseAddrError input "IPv4 address too long" "")
            else parseIPv4Fields input s' 0 0 (fields ++ [val])
          else Err (parseAddrError input "unexpected character" s)
      end
  end.

(** The number the fields of [w] bits spell. *)
Definition from_fields (w : Z) (fields : list Z) : Z := foldl (λ v f, v * 2 ^ w + f)%Z 0%Z fields.

Definition parseIPv4 (input : string) : Res Addr :=
  match parseIPv4Fields input input 0 0 [] with Ok fields => Ok (Addr4 (from_fields 8 fields)) | Err err => Err err end.

(** The hex number at the start of a field, its length, and what follows. *)
Fixpoint hex_run (input start s : string) (off : nat) (acc : Z) : Res (nat * Z * string) :=
  match s with
  | EmptyString => Ok (off, acc, s)
  | String c s' =>
      match hex_value c with
      | None => Ok (off, acc, s)
      | Some h =>
          let acc := (acc * 16 + h)%Z in
          if (3 <? off)%nat then Err (parseAddrError input "each group must have 4 or less digits" start)
          else if (65535 <? acc)%Z then Err (parseAddrError input "IPv6 field has value >=2^16" start)
          else hex_run input start s' (off + 1) acc
      end
  end.

(** The loop of [parseIPv6] over the groups of 16 bits, at most [n] more; the position of
    "::" counts groups, and an embedded IPv4 address is two. *)
Fixpoint parseIPv6Groups (n : nat) (input s : string) (groups : list Z) (ellipsis : option nat) : Res (string * list Z * option nat) :=
  match n with
  | O => Ok (s, groups, ellipsis)
  | S n =>
      match hex_run input s s 0 0 with
      | Err err => Err err
      | Ok (off, acc, rest) =>
          if (off =? 0)%nat then Err (parseAddrError input "each colon-separated field must have at least one digit" s)
          else
            let groups' := groups ++ [acc] in
            match rest with
            | EmptyString => Ok ("", groups', ellipsis)
            | String c rest' =>
                if Ascii.eqb c "."%char then
                  if bool_decide (ellipsis = None) && negb (length groups =? 6)%nat then
                    Err (parseAddrError input "embedded IPv4 address must replace the final 2 fields of the address" s)
                  else if (8 <? length groups + 2)%nat then
                    Err (parseAddrError input "too many hex fields to fit an embedded IPv4 at the end of the address" s)
                  else
                    match parseIPv4Fields input s 0 0 [] with
                    | Err err => Err err
                    | Ok fields => Ok ("", groups ++ [from_fields 8 (take 2 fields); from_fields 8 (drop 2 fields)], ellipsis)
                    end
                else if negb (Ascii.eqb c ":"%char) then Err (parseAddrError input "unexpected character, want colon" rest)
                else
                  match rest' with
                  | EmptyString => Err (parseAddrError input "colon must be followed by more characters" rest)
                  | String c' rest'' =>
                      if Ascii.eqb c' ":"%char then
                        if bool_decide (ellipsis ≠ None) then Err (parseAddrError input "multiple :: in address" rest')
                        else if bool_decide (rest'' = "") then Ok ("", groups', Some (length groups'))
                        else parseIPv6Groups n input rest'' groups' (Some (length groups'))
                      else parseIPv6Groups n input rest' groups' ellipsis
                  end
            end
      end
  end.

Definition expand (groups : list Z) (at_ : nat) : list Z := take at_ groups ++ replicate (8 - length groups) 0%Z ++ drop at_ groups.

Definition parseIPv6Body (input s zone : string) (ellipsis : option nat) : Res Addr :=
  match parseIPv6Groups 8 input s [] ellipsis with
  | Err err => Err err
  | Ok (s, groups, ellipsis) =>
      if bool_decide (s ≠ "") then Err (parseAddrError input "trailing garbage after address" s)
      else if (length groups <? 8)%nat then
        match ellipsis with
        | None => Err (parseAddrError input "address string too short" "")
        | Some at_ => Ok (Addr6 (from_fields 16 (expand groups at_)) zone)
        end
      else if bool_decide (ellipsis ≠ None) then Err (parseAddrError input "the :: must expand to at least one field of zeros" "")
      else Ok (Addr6 (from_fields 16 groups) zone)
  end.

(** The text before the first "%", and the zone after it. *)
Fixpoint cut_char (c : ascii) (s : string) : string * option string :=
  match s with
  | EmptyString => ("", None)
  | String d s' => if Ascii.eqb d c then ("", Some s') else let '(a, b) := cut_char c s' in (String d a, b)
  end.

Definition parseIPv6 (input : string) : Res Addr :=
  match cut_char "%"%char input with
  | (_, Some "") => Err (parseAddrError input "zone must be a non-empty string" "")
  | (s, zone) =>
      let zone := default "" zone in
      match s with
      | String ":" (String ":" s) => if bool_decide (s = "") then Ok (Addr6 0 zone) else parseIPv6Body input s zone (Some 0)
      | _ => parseIPv6Body input s zone None
      end
  end.

(** The first of the characters decides which kind of address it is. *)
Fixpoint address_kind (s : string) : option ascii :=
  match s with
  | EmptyString => None
  | String c s => if Ascii.eqb c "."%char || Ascii.eqb c ":"%char || Ascii.eqb c "%"%char then Some c else address_kind s
  end.
Definition netip_ParseAddr (s : string) : Res Addr :=
  match address_kind s with
  | Some c => if Ascii.eqb c "."%char then parseIPv4 s
              else if Ascii.eqb c ":"%char then parseIPv6 s
              else Err (parseAddrError s "missing IPv6 address" "")
  | None => Err (parseAddrError s "unable to parse IP" "")
  end.

(** ** Writing *)

Fixpoint to_fields (w : Z) (n : nat) (v : Z) : list Z :=
  match n with O => [] | S n => to_fields w n (Z.shiftr v w) ++ [Z.land v (2 ^ w - 1)] end.

Definition decimal_digit (d : Z) : string := String (ascii_of_nat (Z.to_nat (48 + d))) "".
(** [appendDecimal] of a byte *)
Definition appendDecimal (x : Z) : string :=
  (if (100 <=? x)%Z then decimal_digit (x / 100) else "") +:+
  (if (10 <=? x)%Z then decimal_digit ((x / 10) mod 10) else "") +:+
  decimal_digit (x mod 10).
Definition string4 (v : Z) : string := strings_Join "." (appendDecimal <$> to_fields 8 4 v).

Definition hex_digit (d : Z) : string := String (ascii_of_nat (Z.to_nat (if (d <? 10)%Z then 48 + d else 87 + d))) "".
(** [appendHex]: no leading zeros. *)
Definition appendHex (x : Z) : string :=
  (if (4096 <=? x)%Z then hex_digit (Z.shiftr x 12) else "") +:+
  (if (256 <=? x)%Z then hex_digit (Z.land (Z.shiftr x 8) 15) else "") +:+
  (if (16 <=? x)%Z then hex_digit (Z.land (Z.shiftr x 4) 15) else "") +:+
  hex_digit (Z.land x 15).

(** The zeros from a group on. *)
Fixpoint zero_run (groups : list Z) : nat :=
  match groups with g :: groups => if (g =? 0)%Z then S (zero_run groups) else 0 | [] => 0 end.
(** The longest run of at least two zeros, the first of these: start and length. *)
Fixpoint longest_zeros (groups : list Z) (i : nat) (best : nat * nat) : nat * nat :=
  match groups with
  | [] => best
  | _ :: groups' =>
      let l := zero_run groups in
      longest_zeros groups' (S i) (if (2 <=? l)%nat && (best.2 <? l)%nat then (i, l) else best)
  end.
Definition hex_groups (groups : list Z) : string := strings_Join ":" (appendHex <$> groups).
Definition string6 (v : Z) : string :=
  let groups := to_fields 16 8 v in
  let '(start, len) := longest_zeros groups 0 (0, 0) in
  if (len =? 0)%nat then hex_groups groups
  else hex_groups (take start groups) +:+ "::" +:+ hex_groups (drop (start + len) groups).

Definition with_zone (s zone : string) : string := if bool_decide (zone = "") then s else s +:+ "%" +:+ zone.
Definition Addr_String (a : Addr) : string :=
  match a with
  | AddrInvalid => "invalid IP"
  | Addr4 v => string4 v
  | Addr6 v zone =>
      with_zone (if Is4In6 a then "::ffff:" +:+ string4 (Z.land v (2 ^ 32 - 1)) else string6 v) zone
  end.

(** ** Prefixes *)

(** An invalid prefix has [-1] bits. *)
Record Prefix := mkPrefix { pf_Addr : Addr; pf_Bits : Z }.
Definition Prefix_IsValid (p : Prefix) : bool := (0 <=? pf_Bits p)%Z.

(** The first [bits] of the bits of an address, the others zero. *)
Definition mask_value (len bits v : Z) : Z := Z.shiftl (Z.shiftr v (len - bits)) (len - bits).
Definition mask_addr (bits : Z) (a : Addr) : Addr :=
  match a with
  | AddrInvalid => AddrInvalid
  | Addr4 v => Addr4 (mask_value 32 bits v)
  | Addr6 v _ => Addr6 (mask_value 128 bits v) ""
  end.
Definition Masked (p : Prefix) : Prefix := mkPrefix (mask_addr (pf_Bits p) (pf_Addr p)) (pf_Bits p).
Definition Prefix_String (p : Prefix) : string :=
  if Prefix_IsValid p then Addr_String (pf_Addr p) +:+ "/" +:+ pretty (pf_Bits p) else "invalid Prefix".

Definition parsePrefixError (input msg : string) : GoError := errorf ("netip.ParsePrefix(" +:+ quoted input +:+ "): " +:+ msg).

Fixpoint all_digits (s : string) : bool := match s with EmptyString => true | String c s => bool_decide (is_Some (digit_value c)) && all_digits s end.
Fixpoint decimal_value (s : string) (acc : Z) : Z :=
  match s with EmptyString => acc | String c s => decimal_value s (acc * 10 + default 0 (digit_value c))%Z end.
(** The bits after the slash: digits without sign and without leading zeros, that an
    [int] holds. *)
Definition prefix_bits (s : string) : option Z :=
  match s with
  | EmptyString => None
  | String c s' =>
      if negb (bool_decide (s' = "")) && ((code c <? 49)%Z || (57 <? code c)%Z) then None
      else if all_digits s && (decimal_value s 0 <? 2 ^ 63)%Z then Some (decimal_value s 0) else None
  end.

(** What is before and after the last "/". *)
Fixpoint cut_last (c : ascii) (s : string) : option (string * string) :=
  match s with
  | EmptyString => None
  | String d s =>
      match cut_last c s with
      | Some (a, b) => Some (String d a, b)
      | None => if Ascii.eqb d c then Some ("", s) else None
      end
  end.

Definition netip_ParsePrefix (s : string) : Res Prefix :=
  match cut_last "/"%char s with
  | None => Err (parsePrefixError s "no '/'")
  | Some (addr, bits) =>
      match netip_ParseAddr addr with
      | Err err => Err (parsePrefixError s (err_msg err))
      | Ok ip =>
          if negb (bool_decide (addr_zone ip = "")) then Err (parsePrefixError s "IPv6 zones cannot be present in a prefix")
          else match prefix_bits bits with
               | None => Err (parsePrefixError s ("bad bits after slash: " +:+ quoted bits))
               | Some n => if (BitLen ip <? n)%Z then Err (parsePrefixError s "prefix length out of range") else Ok (mkPrefix ip n)
               end
      end
  end.

Example print_and_read : map (λ s, match netip_ParseAddr s with Ok a => Addr_String a | Err _ => "-" end)
  ["10.0.0.1"; "fd00::1"; "::"; "::1"; "1::"; "1:0:0:2:0:0:0:3"; "::ffff:10.0.0.1"; "fe80::1%eth0"; "1:2:3:4:5:6:7:8"; "10.0.0.01"; "1::2::3"; "10.0.0";
   "2001:DB8:0:0:1:0:0:1"; "1:0:2:3:4:5:6:7"; "::10.0.0.1"; "1:2:3:4:5:6:7::"]
  = ["10.0.0.1"; "fd00::1"; "::"; "::1"; "1::"; "1:0:0:2::3"; "::ffff:10.0.0.1"; "fe80::1%eth0"; "1:2:3:4:5:6:7:8"; "-"; "-"; "-";
     "2001:db8::1:0:0:1"; "1:0:2:3:4:5:6:7"; "::a00:1"; "1:2:3:4:5:6:7:0"].
Proof. vm_compute. reflexivity. Qed.

(** ** Reading what was written *)

Definition addr_wf (a : Addr) : Prop := IsValid a = true ∧ (0 <= addr_value a < 2 ^ BitLen a)%Z.

Lemma from_fields_app w fields f : from_fields w (fields ++ [f]) = (from_fields w fields * 2 ^ w + f)%Z.
Proof. unfold from_fields. by rewrite foldl_app. Qed.

Lemma from_to_fields w n v : (0 < w)%Z → (0 <= v < 2 ^ (w * Z.of_nat n))%Z → from_fields w (to_fields w n v) = v.
Proof.
  intros Hw. revert v. induction n as [|n IH]; intros v Hv.
  - simpl. change (0 = v)%Z. rewrite Z.mul_0_r in Hv. simpl in Hv. lia.
  - cbn [to_fields]. rewrite from_fields_app, IH.
    + rewrite Z.shiftr_div_pow2 by lia. replace (2 ^ w - 1)%Z with (Z.ones w) by (rewrite Z.ones_equiv; lia).
      rewrite Z.land_ones by lia. pose proof (Z.div_mod v (2 ^ w) ltac:(lia)). lia.
    + rewrite Z.shiftr_div_pow2 by lia. replace (w * Z.of_nat (S n))%Z with (w * Z.of_nat n + w)%Z in Hv by lia.
      rewrite Z.pow_add_r in Hv by lia. split; [apply Z.div_pos; lia|]. apply Z.div_lt_upper_bound; lia.
Qed.

Lemma to_fields_length w n v : length (to_fields w n v) = n.
Proof. revert v. induction n as [|n IH]; intros v; [done|]. cbn [to_fields]. rewrite length_app, IH. simpl. lia. Qed.

Lemma to_fields_bound w n v : (0 < w)%Z → Forall (λ f, (0 <= f < 2 ^ w)%Z) (to_fields w n v).
Proof.
  intros Hw. revert v. induction n as [|n IH]; intros v; [constructor|]. cbn [to_fields]. apply Forall_app. split; [apply IH|].
  constructor; [|constructor]. replace (2 ^ w - 1)%Z with (Z.ones w) by (rewrite Z.ones_equiv; lia).
  rewrite Z.land_ones by lia. apply Z.mod_pos_bound. lia.
Qed.

(** A property of all numbers below a bound, by computing it for each. *)
Fixpoint all_from (f : Z → bool) (n : nat) (x : Z) : bool :=
  match n with O => true | S n => f x && all_from f n (x + 1)%Z end.
Lemma all_from_spec f n x y : all_from f n x = true → (x <= y < x + Z.of_nat n)%Z → f y = true.
Proof.
  revert x. induction n as [|n IH]; intros x; [lia|]. cbn [all_from]. intros [Hf Hn]%andb_true_iff Hy.
  destruct (Z.eq_dec x y) as [<-|]; [done|]. apply (IH (x + 1)%Z); [done|lia].
Qed.
Lemma below (f : Z → bool) n : all_from f (Z.to_nat n) 0 = true → ∀ x, (0 <= x < n)%Z → f x = true.
Proof. intros Hf x Hx. apply (all_from_spec f (Z.to_nat n) 0 x Hf). lia. Qed.

(** A decimal field is read digit by digit. *)
Fixpoint read_digits (s : string) (val : Z) (digLen : nat) : option (Z * nat) :=
  match s with
  | EmptyString => Some (val, digLen)
  | String c s =>
      match digit_value c with
      | Some d => if ((digLen =? 1)%nat && (val =? 0)%Z) || (255 <? val * 10 + d)%Z then None else read_digits s (val * 10 + d)%Z (digLen + 1)
      | None => None
      end
  end.
Lemma parse_digits input s rest val n fields val' n' : read_digits s val n = Some (val', n') →
  parseIPv4Fields input (s +:+ rest) val n fields = parseIPv4Fields input rest val' n' fields.
Proof.
  revert val n. induction s as [|c s IH]; intros val n; simpl; [by intros [= -> ->]|].
  destruct (digit_value c) as [d|]; [|done]. destruct ((n =? 1)%nat && (val =? 0)%Z); [done|]. simpl.
  destruct (255 <? val * 10 + d)%Z; [done|]. apply IH.
Qed.
Definition decimal_reads (x : Z) : bool :=
  match read_digits (appendDecimal x) 0 0 with Some (x', n) => (x' =? x)%Z && negb (n =? 0)%nat | None => false end &&
  bool_decide (address_kind (appendDecimal x) = None) && negb (bool_decide (appendDecimal x = "")).
Lemma appendDecimal_reads x : (0 <= x < 256)%Z →
  (∃ n, read_digits (appendDecimal x) 0 0 = Some (x, S n)) ∧ address_kind (appendDecimal x) = None ∧ appendDecimal x ≠ "".
Proof.
  intros Hx. assert (decimal_reads x = true) as H by (apply (below decimal_reads 256); [vm_compute; reflexivity|done]).
  unfold decimal_reads in H. rewrite !andb_true_iff, negb_true_iff, bool_decide_eq_true, bool_decide_eq_false in H.
  destruct H as [[Hr Hk] Hn]. split; [|done]. destruct (read_digits _ 0 0) as [[x' [|n]]|]; [by rewrite andb_false_r in Hr| |done].
  exists n. rewrite andb_true_r in Hr. apply Z.eqb_eq in Hr. by subst x'.
Qed.

Lemma address_kind_app s t : address_kind s = None → address_kind (s +:+ t) = address_kind t.
Proof. induction s as [|c s IH]; [done|]. simpl. by destruct (_ || _). Qed.

Lemma parse_field input x rest fields : (0 <= x < 256)%Z → (length fields <> 3)%nat → rest ≠ "" →
  parseIPv4Fields input (appendDecimal x +:+ "." +:+ rest) 0 0 fields = parseIPv4Fields input rest 0 0 (fields ++ [x]).
Proof.
  intros Hx Hl Hr. destruct (appendDecimal_reads x Hx) as ((n & Hn) & _). rewrite (parse_digits _ _ _ _ _ _ _ _ Hn).
  simpl. rewrite bool_decide_false by done. by destruct (Nat.eqb_spec (length fields) 3).
Qed.

Lemma app_nonempty s t : s ≠ "" → s +:+ t ≠ "".
Proof. by destruct s. Qed.

Lemma parse_string4 input v : (0 <= v < 2 ^ 32)%Z →
  address_kind (string4 v) = Some "."%char ∧ parseIPv4Fields input (string4 v) 0 0 [] = Ok (to_fields 8 4 v).
Proof.
  intros Hv. unfold string4. pose proof (to_fields_bound 8 4 v ltac:(lia)) as Hb. pose proof (to_fields_length 8 4 v) as Hl.
  destruct (to_fields 8 4 v) as [|a [|b [|c [|d [|? ?]]]]]; try done. change (2 ^ 8)%Z with 256%Z in Hb.
  repeat (apply Forall_cons in Hb as [? Hb]). cbn [fmap list_fmap strings_Join].
  split.
  - destruct (appendDecimal_reads a) as (_ & Hk & _); [done|]. by rewrite (address_kind_app _ _ Hk).
  - rewrite !(parse_field input) by (try done; try (simpl; lia); destruct (appendDecimal_reads b) as (_ & _ & ?);
      destruct (appendDecimal_reads c) as (_ & _ & ?); destruct (appendDecimal_reads d) as (_ & _ & ?); try done; by apply app_nonempty).
    destruct (appendDecimal_reads d) as ((n & Hn) & _); [done|]. rewrite <- (string_app_empty_r (appendDecimal d)).
    by rewrite (parse_digits _ _ _ _ _ _ _ _ Hn).
Qed.

(** The same for a group of hex digits. *)
Definition ends_hex (rest : string) : Prop := match rest with EmptyString => True | String c _ => hex_value c = None end.
Definition hex_digit_reads (d : Z) : bool :=
  match hex_digit d with
  | String c "" => bool_decide (hex_value c = Some d) && bool_decide (address_kind (String c "") = None)
  | _ => false
  end.
Lemma hex_digit_reads_at d : (0 <= d < 16)%Z → ∃ c, hex_digit d = String c "" ∧ hex_value c = Some d ∧ address_kind (String c "") = None.
Proof.
  intros Hd. assert (hex_digit_reads d = true) as H by (apply (below hex_digit_reads 16); [reflexivity|done]). unfold hex_digit_reads in H.
  destruct (hex_digit d) as [|c [|? ?]]; [done| |done]. rewrite andb_true_iff, !bool_decide_eq_true in H. by exists c.
Qed.
Lemma hex_run_digit input start d s off acc : (0 <= d < 16)%Z → (off <= 3)%nat → (acc * 16 + d < 65536)%Z →
  hex_run input start (hex_digit d +:+ s) off acc = hex_run input start s (off + 1) (acc * 16 + d)%Z.
Proof.
  intros Hd Ho Ha. destruct (hex_digit_reads_at d Hd) as (c & -> & Hc & _). simpl. rewrite Hc.
  destruct (Nat.ltb_spec 3 off); [lia|]. by destruct (Z.ltb_spec 65535 (acc * 16 + d)); [lia|].
Qed.
Lemma hex_run_end input start rest off acc : ends_hex rest → hex_run input start rest off acc = Ok (off, acc, rest).
Proof. destruct rest as [|c rest]; simpl; [done|]. by intros ->. Qed.

Lemma shift_div x n : (0 <= n)%Z → Z.shiftr x n = (x / 2 ^ n)%Z.
Proof. apply Z.shiftr_div_pow2. Qed.
Lemma land_15 x : Z.land x 15 = (x mod 16)%Z.
Proof. apply (Z.land_ones x 4). lia. Qed.

Ltac drop_empty := repeat match goal with |- context [EmptyString +:+ ?s] => change (EmptyString +:+ s) with s end.
Lemma appendHex_reads x : (0 <= x < 65536)%Z →
  (∃ n, ∀ input start rest, ends_hex rest → hex_run input start (appendHex x +:+ rest) 0 0 = Ok (S n, x, rest)) ∧ address_kind (appendHex x) = None.
Proof.
  intros Hx. unfold appendHex. rewrite !land_15, !shift_div by lia.
  change (2 ^ 12)%Z with 4096%Z. change (2 ^ 8)%Z with 256%Z. change (2 ^ 4)%Z with 16%Z.
  pose proof (Z.mod_pos_bound x 16). pose proof (Z.mod_pos_bound (x / 16) 16). pose proof (Z.mod_pos_bound (x / 256) 16).
  assert (0 <= x / 4096 < 16)%Z by (split; [apply Z.div_pos; lia|apply Z.div_lt_upper_bound; lia]).
  split.
  - destruct (Z.leb_spec 4096 x), (Z.leb_spec 256 x), (Z.leb_spec 16 x); try lia; [exists 3%nat|exists 2%nat|exists 1%nat|exists 0%nat];
      intros input start rest He; rewrite <- ?string_app_assoc; drop_empty;
      repeat (rewrite hex_run_digit by (Z.div_mod_to_equations; lia)); rewrite (hex_run_end _ _ _ _ _ He); repeat f_equal; Z.div_mod_to_equations; lia.
  - assert (∀ d s, (0 <= d < 16)%Z → address_kind (hex_digit d +:+ s) = address_kind s) as Hk.
    { intros d s Hd. destruct (hex_digit_reads_at d Hd) as (c & -> & _ & Hc). by apply address_kind_app. }
    rewrite <- (string_app_empty_r (hex_digit (x mod 16))).
    destruct (4096 <=? x)%Z, (256 <=? x)%Z, (16 <=? x)%Z; drop_empty; by rewrite !Hk by lia.
Qed.

Definition groups_ok (gs : list Z) : Prop := Forall (λ g, (0 <= g < 65536)%Z) gs.

Lemma hex_groups_cons g gs : gs ≠ [] → hex_groups (g :: gs) = appendHex g +:+ ":" +:+ hex_groups gs.
Proof. by destruct gs. Qed.
Lemma appendHex_cons x : (0 <= x < 65536)%Z → ∃ c s, appendHex x = String c s ∧ Ascii.eqb c ":"%char = false.
Proof.
  intros Hx. destruct (appendHex_reads x Hx) as ((n & Hn) & Hk). destruct (appendHex x) as [|c s].
  - by specialize (Hn "" "" "" I).
  - exists c, s. split; [done|]. simpl in Hk. destruct (Ascii.eqb c ":"); [|done]. by rewrite orb_true_r in Hk.
Qed.
Lemma hex_groups_head gs : gs ≠ [] → groups_ok gs → ∃ c s, hex_groups gs = String c s ∧ Ascii.eqb c ":"%char = false.
Proof.
  intros Hn Hg. destruct gs as [|g gs]; [done|]. apply Forall_cons in Hg as [Hg _]. destruct (appendHex_cons g Hg) as (c & s & E & Hc).
  destruct gs as [|g' gs]; [by exists c, s; rewrite <- E|]. rewrite hex_groups_cons by done. rewrite E. by eexists _, _.
Qed.

(** The loop over groups written with single colons, up to the end or to "::". *)
Lemma parse_group_last n input g gp e : (0 <= g < 65536)%Z → parseIPv6Groups (S n) input (appendHex g) gp e = Ok ("", gp ++ [g], e).
Proof.
  intros Hg. destruct (appendHex_reads g Hg) as ((k & Hk) & _). cbn [parseIPv6Groups].
  rewrite <- (string_app_empty_r (appendHex g)), Hk by done. done.
Qed.
Lemma parse_group_colon n input g c s gp e : (0 <= g < 65536)%Z → Ascii.eqb c ":"%char = false →
  parseIPv6Groups (S n) input (appendHex g +:+ String ":" (String c s)) gp e = parseIPv6Groups n input (String c s) (gp ++ [g]) e.
Proof.
  intros Hg Hc. destruct (appendHex_reads g Hg) as ((k & Hk) & _). cbn [parseIPv6Groups]. rewrite Hk by done. cbn. by rewrite Hc.
Qed.
Lemma parse_group_colons n input g s gp : (0 <= g < 65536)%Z →
  parseIPv6Groups (S n) input (appendHex g +:+ String ":" (String ":" s)) gp None =
    if bool_decide (s = "") then Ok ("", gp ++ [g], Some (length (gp ++ [g]))) else parseIPv6Groups n input s (gp ++ [g]) (Some (length (gp ++ [g]))).
Proof.
  intros Hg. destruct (appendHex_reads g Hg) as ((k & Hk) & _). cbn [parseIPv6Groups]. rewrite Hk by done. done.
Qed.

Lemma parse_groups n input gs gp e : gs ≠ [] → groups_ok gs → (length gs <= n)%nat →
  parseIPv6Groups n input (hex_groups gs) gp e = Ok ("", gp ++ gs, e).
Proof.
  revert n gp. induction gs as [|g gs IH]; intros n gp Hne Hg Hn; [done|]. apply Forall_cons in Hg as [Hg Hgs]. destruct n as [|n]; [simpl in Hn; lia|].
  destruct gs as [|g' gs]; [by apply parse_group_last|].
  rewrite hex_groups_cons by done. destruct (hex_groups_head (g' :: gs)) as (c & s & E & Hc); [done..|]. rewrite E.
  change (":" +:+ String c s) with (String ":" (String c s)). rewrite (parse_group_colon n input g c s gp e Hg Hc), <- E. rewrite IH by (try done; simpl in *; lia). by rewrite <- app_assoc.
Qed.

Lemma parse_groups_ellipsis n input gs gp gs' : gs ≠ [] → groups_ok gs → groups_ok gs' → (length gs + length gs' <= n)%nat →
  parseIPv6Groups n input (hex_groups gs +:+ "::" +:+ hex_groups gs') gp None = Ok ("", gp ++ gs ++ gs', Some (length (gp ++ gs))).
Proof.
  revert n gp. induction gs as [|g gs IH]; intros n gp Hne Hg Hg' Hn; [done|]. apply Forall_cons in Hg as [Hg Hgs].
  destruct n as [|n]; [simpl in Hn; lia|]. destruct gs as [|g1 gs].
  - change (hex_groups [g] +:+ "::" +:+ hex_groups gs') with (appendHex g +:+ String ":" (String ":" (hex_groups gs'))).
    rewrite parse_group_colons by done. destruct gs' as [|g' gs']; [by rewrite !app_nil_r|].
    destruct (hex_groups_head (g' :: gs')) as (c & s & E & Hc); [done..|]. rewrite bool_decide_false by (by rewrite E).
    rewrite parse_groups by (try done; simpl in *; lia). by rewrite <- app_assoc.
  - rewrite hex_groups_cons by done. rewrite <- !string_app_assoc.
    destruct (hex_groups_head (g1 :: gs)) as (c & s & E & Hc); [done..|]. rewrite E.
    change (":" +:+ String c s +:+ "::" +:+ hex_groups gs') with (String ":" (String c (s +:+ "::" +:+ hex_groups gs'))).
    rewrite (parse_group_colon n input g c _ gp None Hg Hc).
    change (String c (s +:+ "::" +:+ hex_groups gs')) with (String c s +:+ "::" +:+ hex_groups gs'). rewrite <- E.
    rewrite IH by (try done; simpl in *; lia). by rewrite <- !app_assoc.
Qed.

(** The zeros that "::" stands for. *)
Lemma zero_run_spec gs : (zero_run gs <= length gs)%nat ∧ take (zero_run gs) gs = replicate (zero_run gs) 0%Z.
Proof.
  induction gs as [|g gs [IH1 IH2]]; [done|]. simpl. destruct (Z.eqb_spec g 0) as [->|]; simpl; [|split; [lia|done]]. split; [lia|by f_equal].
Qed.
Definition zeros_at (gs : list Z) (b : nat * nat) : Prop :=
  b.2 = 0%nat ∨ (2 <= b.2)%nat ∧ (b.1 + b.2 <= length gs)%nat ∧ take b.2 (drop b.1 gs) = replicate b.2 0%Z.
Lemma longest_zeros_spec all gs i b : drop i all = gs → zeros_at all b → zeros_at all (longest_zeros gs i b).
Proof.
  revert i b. induction gs as [|g gs IH]; intros i b Hd Hb; [done|]. cbn [longest_zeros]. apply IH.
  - replace (S i) with (i + 1)%nat by lia. by rewrite <- drop_drop, Hd.
  - destruct (_ && _) eqn:E; [|done]. apply andb_true_iff in E as [E%Nat.leb_le _]. right. cbn [fst snd].
    destruct (zero_run_spec (g :: gs)) as [Hl Ht]. split; [done|]. rewrite Hd. split; [|done].
    assert (length (drop i all) = length (g :: gs)) as Hlen by (by rewrite Hd). rewrite length_drop in Hlen. change (length (g :: gs)) with (S (length gs)) in *. lia.
Qed.

Lemma expand_zeros gs start len : length gs = 8%nat → (start + len <= 8)%nat → take len (drop start gs) = replicate len 0%Z →
  expand (take start gs ++ drop (start + len) gs) start = gs.
Proof.
  intros Hl Hs Hz. unfold expand. assert (length (take start gs) = start) as Ht by (rewrite length_take; lia).
  rewrite take_app_length', drop_app_length' by done.
  replace (8 - length (take start gs ++ drop (start + len) gs))%nat with len by (rewrite length_app, length_take, length_drop; lia).
  rewrite <- Hz, <- (drop_drop gs len start), take_drop. apply take_drop.
Qed.

(** The characters of a written address. *)
Definition plain_hex (s : string) : Prop := address_kind s = None.
Lemma hex_groups_kind gs : groups_ok gs → (2 <= length gs)%nat → address_kind (hex_groups gs) = Some ":"%char.
Proof.
  intros Hg Hl. destruct gs as [|g [|g' gs]]; [simpl in Hl; lia..|]. apply Forall_cons in Hg as [Hg _]. rewrite hex_groups_cons by done.
  destruct (appendHex_reads g Hg) as (_ & Hk). by rewrite (address_kind_app _ _ Hk).
Qed.
Lemma no_percent s : address_kind s = None → has_char "%"%char s = false.
Proof.
  induction s as [|c s IH]; [done|]. simpl. destruct (_ || Ascii.eqb c "%") eqn:E; [done|]. apply orb_false_iff in E as [_ ->]. apply IH.
Qed.
Lemma hex_groups_percent gs : groups_ok gs → has_char "%"%char (hex_groups gs) = false.
Proof.
  intros Hg. induction gs as [|g gs IH]; [done|]. apply Forall_cons in Hg as [Hg Hgs]. destruct (appendHex_reads g Hg) as (_ & Hk%no_percent).
  destruct gs as [|g' gs]; [done|]. rewrite hex_groups_cons by done. rewrite has_char_app, Hk. by apply IH.
Qed.

Lemma cut_char_free c s : has_char c s = false → cut_char c s = (s, None).
Proof. induction s as [|d s IH]; [done|]. simpl. intros [-> Hs]%orb_false_iff. by rewrite IH. Qed.
Lemma cut_char_app c s t : has_char c s = false → cut_char c (s +:+ String c t) = (s, Some t).
Proof. induction s as [|d s IH]; simpl; [by rewrite Ascii.eqb_refl|]. intros [-> Hs]%orb_false_iff. by rewrite IH. Qed.

(** What stands before a zone is read like the whole text. *)
Lemma parseIPv6_zone s zone : has_char "%"%char s = false →
  parseIPv6 (with_zone s zone) =
    match s with
    | String ":" (String ":" s') => if bool_decide (s' = "") then Ok (Addr6 0 zone) else parseIPv6Body (with_zone s zone) s' zone (Some 0)
    | _ => parseIPv6Body (with_zone s zone) s zone None
    end.
Proof.
  intros Hs. unfold parseIPv6 at 1. assert (cut_char "%" (with_zone s zone) = (s, if bool_decide (zone = "") then None else Some zone)) as ->.
  { unfold with_zone. case_bool_decide as E; [by apply cut_char_free|]. by apply cut_char_app. }
  case_bool_decide as E; [by subst zone|]. destruct zone as [|c zone]; [done|]. done.
Qed.

Lemma parseIPv6Body_groups input s zone e e' gs v :
  parseIPv6Groups 8 input s [] e = Ok ("", gs, e') →
  match e' with Some at_ => (length gs < 8)%nat ∧ from_fields 16 (expand gs at_) = v | None => length gs = 8%nat ∧ from_fields 16 gs = v end →
  parseIPv6Body input s zone e = Ok (Addr6 v zone).
Proof.
  intros Hp Hv. unfold parseIPv6Body. rewrite Hp. cbn [negb]. rewrite bool_decide_false by naive_solver.
  destruct e' as [at_|]; destruct Hv as [Hl <-]; destruct (Nat.ltb_spec (length gs) 8); first [lia|done].
Qed.

Lemma ParseAddr_string6 v zone : (0 <= v < 2 ^ 128)%Z → netip_ParseAddr (with_zone (string6 v) zone) = Ok (Addr6 v zone).
Proof.
  intros Hv. pose proof (from_to_fields 16 8 v ltac:(lia) ltac:(simpl; lia)) as Hfrom.
  pose proof (to_fields_length 16 8 v) as Hl. assert (groups_ok (to_fields 16 8 v)) as Hg by (apply (to_fields_bound 16 8 v); lia).
  assert (zeros_at (to_fields 16 8 v) (longest_zeros (to_fields 16 8 v) 0 (0, 0))) as Hz by (apply longest_zeros_spec; [done|by left]).
  unfold string6. generalize dependent (to_fields 16 8 v). intros gs Hfrom Hl Hg Hz.
  destruct (longest_zeros gs 0 (0, 0)) as [start len]. unfold zeros_at in Hz. cbn [fst snd] in Hz.
  assert (∀ s, address_kind s = Some ":"%char → netip_ParseAddr (with_zone s zone) = parseIPv6 (with_zone s zone)) as Hkind.
  { intros s Hs. unfold netip_ParseAddr. assert (address_kind (with_zone s zone) = Some ":"%char) as ->; [|done].
    unfold with_zone. case_bool_decide; [done|]. clear -Hs. induction s as [|c s IH]; [done|]. simpl in *. destruct (_ || _); [done|]. by apply IH. }
  assert (∀ gs', groups_ok gs' → has_char "%"%char ("::" +:+ hex_groups gs') = false) as Hpct by (intros gs' Hgs'; rewrite has_char_app; by apply hex_groups_percent).
  destruct (Nat.eqb_spec len 0) as [->|Hlen].
  - destruct (hex_groups_head gs) as (c & s & E & Hc); [by destruct gs|done|].
    rewrite Hkind by (apply hex_groups_kind; [done|lia]). rewrite parseIPv6_zone by (by apply hex_groups_percent).
    assert (parseIPv6Body (with_zone (hex_groups gs) zone) (hex_groups gs) zone None = Ok (Addr6 v zone)) as Hb.
    { apply (parseIPv6Body_groups _ _ _ _ None gs); [|done]. rewrite parse_groups; [done|by destruct gs|done|lia]. }
    revert Hb. rewrite E. intros Hb. destruct (Ascii.eqb_spec c ":"%char); [done|]. clear -Hb n. destruct c as [[] [] [] [] [] [] [] []]; try done.
  - destruct Hz as [?|(H2 & Hsl & Hz)]; [done|].
    assert (groups_ok (take start gs)) as Hgt by (by apply Forall_take). assert (groups_ok (drop (start + len) gs)) as Hgd by (by apply Forall_drop).
    assert (length (take start gs) = start) as Hlt by (rewrite length_take; lia).
    assert (length (drop (start + len) gs) = 8 - (start + len))%nat as Hld by (rewrite length_drop; lia).
    assert (from_fields 16 (expand (take start gs ++ drop (start + len) gs) start) = v) as Hexp by (rewrite expand_zeros; [done|done|lia|done]).
    destruct (decide (start = 0%nat)) as [->|Hs0].
    + change (take 0 gs) with (@nil Z) in *. change (hex_groups [] +:+ "::" +:+ hex_groups (drop (0 + len) gs)) with ("::" +:+ hex_groups (drop (0 + len) gs)).
      rewrite Hkind by done. rewrite parseIPv6_zone by (by apply Hpct). revert Hgd Hld Hexp. generalize (drop (0 + len) gs). intros gd Hgd Hld Hexp.
      cbn. destruct gd as [|g gd].
      * assert (len = 8%nat) as -> by (simpl in Hld; lia). change (0%Z = v) in Hexp. by rewrite <- Hexp.
      * change ("::" +:+ ?t) with (String ":" (String ":" t)). cbv iota. rewrite bool_decide_false by (destruct (hex_groups_head (g :: gd)) as (c & s & E & _); [done..|by rewrite E]).
        apply (parseIPv6Body_groups _ _ _ _ (Some 0%nat) (g :: gd)); [|split; [simpl in Hld |- *; lia|done]].
        rewrite parse_groups; [done|done|done|simpl in *; lia].
    + destruct (take start gs) as [|g gt] eqn:Et; [simpl in Hlt; lia|]. rewrite <- Et in *.
      destruct (hex_groups_head (take start gs)) as (c & s & E & Hc); [by rewrite Et|done|].
      rewrite Hkind.
      2: { rewrite Et in Hgt |- *. apply Forall_cons in Hgt as [Hg0 Hgt]. destruct gt as [|g' gt].
           - change (hex_groups [g]) with (appendHex g). destruct (appendHex_reads g Hg0) as (_ & Hk). by rewrite (address_kind_app _ _ Hk).
           - rewrite hex_groups_cons by done. rewrite <- string_app_assoc. destruct (appendHex_reads g Hg0) as (_ & Hk). by rewrite (address_kind_app _ _ Hk). }
      rewrite parseIPv6_zone by (rewrite has_char_app, hex_groups_percent by done; by apply Hpct).
      match goal with |- _ = ?rhs => assert (∀ i, parseIPv6Body i (hex_groups (take start gs) +:+ "::" +:+ hex_groups (drop (start + len) gs)) zone None = rhs) as Hb end.
      { intros i. apply (parseIPv6Body_groups _ _ _ _ (Some start) (take start gs ++ drop (start + len) gs)).
        - rewrite parse_groups_ellipsis; [|by rewrite Et|done|done|lia]. change ([] ++ take start gs) with (take start gs). by rewrite Hlt.
        - split; [rewrite length_app; lia|done]. }
      revert Hb. rewrite E. intros Hb. change (String c s +:+ ?t) with (String c (s +:+ t)) in *.
      destruct (Ascii.eqb_spec c ":"%char); [done|]. clear -Hb n. destruct c as [[] [] [] [] [] [] [] []]; done.
Qed.

(** An embedded IPv4 address: its first field is read as a hex group, up to the dot. *)
Lemma hex_run_app input start input' start' s rest off acc off' acc' : ends_hex rest →
  hex_run input' start' s off acc = Ok (off', acc', "") → hex_run input start (s +:+ rest) off acc = Ok (off', acc', rest).
Proof.
  intros He. revert off acc. induction s as [|c s IH]; intros off acc.
  - cbn [hex_run]. intros [= -> ->]. by apply hex_run_end.
  - change (String c s +:+ rest) with (String c (s +:+ rest)). cbn [hex_run]. destruct (hex_value c) as [h|]; [|done].
    destruct (3 <? off)%nat; [done|]. destruct (65535 <? acc * 16 + h)%Z; [done|]. apply IH.
Qed.
Definition decimal_as_hex (x : Z) : bool :=
  match hex_run "" "" (appendDecimal x) 0 0 with Ok (S _, _, "") => true | _ => false end &&
  match appendDecimal x with String c _ => negb (Ascii.eqb c ":"%char) | _ => false end.
Lemma appendDecimal_as_hex x : (0 <= x < 256)%Z →
  (∃ n v, ∀ input start rest, ends_hex rest → hex_run input start (appendDecimal x +:+ rest) 0 0 = Ok (S n, v, rest)) ∧
  ∃ c s, appendDecimal x = String c s ∧ Ascii.eqb c ":"%char = false.
Proof.
  intros Hx. assert (decimal_as_hex x = true) as H by (apply (below decimal_as_hex 256); [vm_compute; reflexivity|done]).
  unfold decimal_as_hex in H. apply andb_true_iff in H as [H1 H2]. split.
  - destruct (hex_run "" "" (appendDecimal x) 0 0) as [[[[|n] v] [|]]|] eqn:E; try done. exists n, v. intros input start rest He. by apply (hex_run_app _ _ "" "").
  - destruct (appendDecimal x) as [|c s]; [done|]. exists c, s. split; [done|]. by destruct (Ascii.eqb c ":").
Qed.

Lemma parse_embedded input w : (0 <= w < 2 ^ 32)%Z →
  parseIPv6Groups 8 input ("ffff:" +:+ string4 w) [] (Some 0) =
    Ok ("", [65535%Z; from_fields 8 (take 2 (to_fields 8 4 w)); from_fields 8 (drop 2 (to_fields 8 4 w))], Some 0).
Proof.
  intros Hw. destruct (parse_string4 input w Hw) as [_ Hf]. revert Hf. unfold string4.
  pose proof (to_fields_bound 8 4 w ltac:(lia)) as Hb. pose proof (to_fields_length 8 4 w) as Hl.
  destruct (to_fields 8 4 w) as [|a [|b [|c [|d [|? ?]]]]]; try done. apply Forall_cons in Hb as [Ha _]. cbn [fmap list_fmap strings_Join]. intros Hf.
  destruct (appendDecimal_as_hex a Ha) as ((n & v & Hn) & e & s & E & He).
  set (rest := "." +:+ appendDecimal b +:+ "." +:+ appendDecimal c +:+ "." +:+ appendDecimal d) in *.
  change ("ffff:" +:+ (appendDecimal a +:+ rest)) with (appendHex 65535 +:+ String ":" (appendDecimal a +:+ rest)). rewrite E.
  change (String e s +:+ rest) with (String e (s +:+ rest)). rewrite (parse_group_colon 7 input 65535 e (s +:+ rest) [] (Some 0)); [|lia|done].
  change (String e (s +:+ rest)) with (String e s +:+ rest). rewrite <- E. cbn [parseIPv6Groups]. rewrite Hn by done. rewrite Hf. done.
Qed.

Lemma string4_percent w : (0 <= w < 2 ^ 32)%Z → has_char "%"%char (string4 w) = false.
Proof.
  intros Hw. unfold string4. pose proof (to_fields_bound 8 4 w ltac:(lia)) as Hb. pose proof (to_fields_length 8 4 w) as Hl.
  destruct (to_fields 8 4 w) as [|a [|b [|c [|d [|? ?]]]]]; try done. cbn [fmap list_fmap strings_Join]. rewrite !Forall_cons in Hb.
  destruct Hb as (Ha & Hb' & Hc & Hd & _). rewrite !has_char_app.
  assert (∀ x, (0 <= x < 2 ^ 8)%Z → has_char "%"%char (appendDecimal x) = false) as H by (intros x Hx; apply no_percent; by destruct (appendDecimal_reads x Hx) as (_ & ? & _)).
  by rewrite !H.
Qed.

Lemma ParseAddr_mapped v zone : (0 <= v < 2 ^ 128)%Z → Z.shiftr v 32 = 65535%Z →
  netip_ParseAddr (with_zone ("::ffff:" +:+ string4 (Z.land v (2 ^ 32 - 1))) zone) = Ok (Addr6 v zone).
Proof.
  intros Hv H4. replace (2 ^ 32 - 1)%Z with (Z.ones 32) by done. rewrite Z.land_ones by lia. rewrite Z.shiftr_div_pow2 in H4 by lia.
  pose proof (Z.mod_pos_bound v (2 ^ 32) ltac:(lia)) as Hw. pose proof (Z.div_mod v (2 ^ 32) ltac:(lia)) as Hdiv. rewrite H4 in Hdiv.
  set (w := (v mod 2 ^ 32)%Z) in *. clearbody w.
  assert (netip_ParseAddr (with_zone ("::ffff:" +:+ string4 w) zone) = parseIPv6 (with_zone ("::ffff:" +:+ string4 w) zone)) as ->.
  { unfold with_zone. by case_bool_decide. }
  rewrite parseIPv6_zone by (change ("::ffff:" +:+ string4 w) with ("::ffff:" +:+ string4 w); rewrite has_char_app; by apply string4_percent).
  change ("::ffff:" +:+ string4 w) with (String ":" (String ":" ("ffff:" +:+ string4 w))) at 1. cbv iota. rewrite bool_decide_false by done.
  apply (parseIPv6Body_groups _ _ _ _ (Some 0) _ _ (parse_embedded _ w Hw)). split; [simpl; lia|].
  pose proof (from_to_fields 8 4 w ltac:(lia) ltac:(simpl; lia)) as Hfrom. pose proof (to_fields_length 8 4 w) as Hl.
  destruct (to_fields 8 4 w) as [|a [|b [|c [|d [|? ?]]]]]; try done. unfold expand, from_fields in *. cbn -[Z.mul Z.add Z.pow] in *. lia.
Qed.

(** What [Addr.String] writes, [ParseAddr] reads back. *)
Lemma ParseAddr_String a : addr_wf a → netip_ParseAddr (Addr_String a) = Ok a.
Proof.
  intros [Hv Hr]. destruct a as [|v|v zone]; [done| |].
  - cbn [Addr_String]. destruct (parse_string4 (string4 v) v) as [Hk Hp]; [done|]. unfold netip_ParseAddr. rewrite Hk. simpl. unfold parseIPv4. rewrite Hp.
    by rewrite from_to_fields.
  - cbn [Addr_String]. destruct (Is4In6 (Addr6 v zone)) eqn:H4; [|by apply ParseAddr_string6]. apply ParseAddr_mapped; [done|]. by apply Z.eqb_eq.
Qed.

(** ** Addresses that were read *)

Lemma from_fields_bound w fs : (0 < w)%Z → Forall (λ f, (0 <= f < 2 ^ w)%Z) fs → (0 <= from_fields w fs < 2 ^ (w * Z.of_nat (length fs)))%Z.
Proof.
  intros Hw. induction fs as [|f fs IH] using rev_ind; intros Hf; [by rewrite Z.mul_0_r|].
  apply Forall_app in Hf as [Hfs [Hf _]%Forall_cons]. specialize (IH Hfs). rewrite from_fields_app, length_app. simpl length.
  replace (w * Z.of_nat (length fs + 1))%Z with (w * Z.of_nat (length fs) + w)%Z by (rewrite Nat2Z.inj_add; cbn; ring). rewrite Z.pow_add_r by lia.
  pose proof (Z.mul_le_mono_nonneg_r (from_fields w fs + 1) (2 ^ (w * Z.of_nat (length fs))) (2 ^ w) ltac:(lia) ltac:(lia)).
  pose proof (Z.mul_nonneg_nonneg (from_fields w fs) (2 ^ w) ltac:(lia) ltac:(lia)). lia.
Qed.

Definition byte (f : Z) : Prop := (0 <= f < 256)%Z.
Lemma digit_value_range c d : digit_value c = Some d → (0 <= d <= 9)%Z.
Proof. unfold digit_value. destruct (48 <=? code c)%Z eqn:E1, (code c <=? 57)%Z eqn:E2; intros [= <-]. lia. Qed.
Lemma hex_value_range c h : hex_value c = Some h → (0 <= h <= 15)%Z.
Proof.
  unfold hex_value. destruct (digit_value c) as [d|] eqn:Ed; [intros [= <-]; apply digit_value_range in Ed; lia|].
  destruct (97 <=? code c)%Z eqn:E1, (code c <=? 102)%Z eqn:E2, (65 <=? code c)%Z eqn:E3, (code c <=? 70)%Z eqn:E4; cbn; intros [= <-]; lia.
Qed.

Lemma parseIPv4Fields_wf input s val n fields fs : Forall byte fields → byte val → (length fields <= 3)%nat →
  parseIPv4Fields input s val n fields = Ok fs → Forall byte fs ∧ length fs = 4%nat.
Proof.
  revert val n fields. induction s as [|c s IH]; intros val n fields Hf Hv Hl; cbn [parseIPv4Fields].
  - destruct (Nat.ltb_spec (length fields) 3); [done|]. intros [= <-]. split; [apply Forall_app; by split; [|constructor]|]. rewrite length_app. simpl. lia.
  - destruct (digit_value c) as [d|] eqn:Ed.
    + destruct (_ && _); [done|]. destruct (Z.ltb_spec 255 (val * 10 + d)); [done|]. apply IH; [done| |done].
      apply digit_value_range in Ed. unfold byte in *. lia.
    + destruct (Ascii.eqb c "."); [|done]. destruct (_ || _); [done|]. destruct (Nat.eqb_spec (length fields) 3); [done|].
      apply IH; [apply Forall_app; by split; [|constructor]|unfold byte; lia|]. rewrite length_app. simpl. lia.
Qed.

Lemma hex_run_wf input start s off acc off' acc' rest : (0 <= acc < 65536)%Z →
  hex_run input start s off acc = Ok (off', acc', rest) → (0 <= acc' < 65536)%Z.
Proof.
  revert off acc. induction s as [|c s IH]; intros off acc Ha; cbn [hex_run]; [by intros [= _ <- _]|].
  destruct (hex_value c) as [h|] eqn:Eh; [|by intros [= _ <- _]]. destruct (3 <? off)%nat; [done|].
  destruct (Z.ltb_spec 65535 (acc * 16 + h)); [done|]. apply IH. apply hex_value_range in Eh. lia.
Qed.

Definition groups_read (gs : list Z) (e : option nat) : Prop :=
  groups_ok gs ∧ (length gs <= 8)%nat ∧ match e with Some at_ => (at_ <= length gs)%nat | None => True end.
Lemma groups_read_snoc gs e g : groups_read gs e → (0 <= g < 65536)%Z → (length gs < 8)%nat →
  groups_read (gs ++ [g]) e ∧ groups_read (gs ++ [g]) (Some (length (gs ++ [g]))).
Proof.
  intros (Hg & Hl & He) Hb Hlt. unfold groups_read. rewrite length_app. simpl length.
  assert (groups_ok (gs ++ [g])) as Hok by (apply Forall_app; by split; [|constructor]). split; (split; [done|]); split; try lia. destruct e; [lia|done].
Qed.
Lemma from_bytes_bound fs : Forall byte fs → length fs = 2%nat → (0 <= from_fields 8 fs < 65536)%Z.
Proof. intros Hf Hl. pose proof (from_fields_bound 8 fs ltac:(lia) Hf) as H. by rewrite Hl in H. Qed.

Lemma parseIPv6Groups_wf n input s gs e s' gs' e' : groups_read gs e → (length gs + n <= 8)%nat →
  parseIPv6Groups n input s gs e = Ok (s', gs', e') → groups_read gs' e'.
Proof.
  revert s gs e. induction n as [|n IH]; intros s gs e Hr Hn; cbn [parseIPv6Groups]; [by intros [= _ <- <-]|].
  destruct (hex_run input s s 0 0) as [[[off acc] rest]|] eqn:Eh; [|done]. apply hex_run_wf in Eh; [|lia].
  destruct (groups_read_snoc gs e acc Hr Eh ltac:(lia)) as [H1 H2].
  destruct (off =? 0)%nat; [done|]. destruct rest as [|c rest]; [by intros [= _ <- <-]|]. destruct (Ascii.eqb c ".").
  - destruct (_ && _); [done|]. destruct (Nat.ltb_spec 8 (length gs + 2)); [done|].
    destruct (parseIPv4Fields input s 0 0 []) as [fs|] eqn:Ef; [|done]. intros [= _ <- <-].
    apply parseIPv4Fields_wf in Ef as [Hf Hl]; [|constructor|unfold byte; lia|simpl; lia]. destruct Hr as (Hg & Hl' & He).
    split; [|split; [rewrite length_app; simpl; lia|rewrite length_app; destruct e; [lia|done]]]. apply Forall_app. split; [done|].
    repeat constructor; apply from_bytes_bound; try (by apply Forall_take); try (by apply Forall_drop); rewrite ?length_take, ?length_drop; lia.
  - destruct (negb _); [done|]. destruct rest as [|c' rest]; [done|].
    assert (length (gs ++ [acc]) + n <= 8)%nat as Hn' by (rewrite length_app; simpl; lia).
    destruct (Ascii.eqb c' ":"); [|by apply IH]. destruct (bool_decide _); [done|]. destruct (bool_decide _); [by intros [= _ <- <-]|by apply IH].
Qed.

Lemma parseIPv6Body_wf input s zone e a : match e with Some at_ => at_ = 0%nat | None => True end → parseIPv6Body input s zone e = Ok a →
  ∃ v, a = Addr6 v zone ∧ (0 <= v < 2 ^ 128)%Z.
Proof.
  intros He. unfold parseIPv6Body. destruct (parseIPv6Groups 8 input s [] e) as [[[s' gs] e']|] eqn:Eg; [|done].
  apply parseIPv6Groups_wf in Eg as (Hg & Hl & He'); [|split; [constructor|split; [simpl; lia|destruct e; [simpl; lia|done]]]|simpl; lia].
  destruct (bool_decide _); [done|]. assert (∀ l, groups_ok l → length l = 8%nat → (0 <= from_fields 16 l < 2 ^ 128)%Z) as Hb.
  { intros l Hgl Hll. pose proof (from_fields_bound 16 l ltac:(lia) Hgl) as H. by rewrite Hll in H. }
  destruct (Nat.ltb_spec (length gs) 8).
  - destruct e' as [at_|]; [|done]. intros [= <-]. eexists. split; [done|]. apply Hb.
    + unfold expand, groups_ok. rewrite !Forall_app. split; [by apply Forall_take|]. split; [|by apply Forall_drop]. apply Forall_replicate. lia.
    + unfold expand. rewrite !length_app, length_take, length_replicate, length_drop. lia.
  - destruct (bool_decide _); [done|]. intros [= <-]. eexists. split; [done|]. apply Hb; [done|lia].
Qed.

(** An address that was read is well formed; without "%" in the text it has no zone. *)
Lemma ParseAddr_wf s a : netip_ParseAddr s = Ok a → addr_wf a ∧ (has_char "%"%char s = false → addr_zone a = "").
Proof.
  unfold netip_ParseAddr. destruct (address_kind s) as [c|]; [|done]. destruct (Ascii.eqb c ".").
  - unfold parseIPv4. destruct (parseIPv4Fields s s 0 0 []) as [fs|] eqn:Ef; [|done]. intros [= <-].
    apply parseIPv4Fields_wf in Ef as [Hf Hl]; [|constructor|unfold byte; lia|simpl; lia]. pose proof (from_fields_bound 8 fs ltac:(lia) Hf) as Hb.
    rewrite Hl in Hb. done.
  - destruct (Ascii.eqb c ":"); [|done]. unfold parseIPv6. intros Hp.
    assert (∃ v z, a = Addr6 v z ∧ (0 <= v < 2 ^ 128)%Z ∧ (has_char "%"%char s = false → z = "")) as (v & z & -> & Hv & Hz); [|done].
    assert (has_char "%"%char s = false → (cut_char "%"%char s).2 = None) as Hc by (intros Hs; by rewrite (cut_char_free _ _ Hs)).
    destruct (cut_char "%"%char s) as [t zone]. cbn [snd] in Hc.
    assert (∃ v, a = Addr6 v (default "" zone) ∧ (0 <= v < 2 ^ 128)%Z) as (v & -> & Hv).
    { assert (match t with String ":" (String ":" s0) => if bool_decide (s0 = "") then Ok (Addr6 0 (default "" zone)) else parseIPv6Body s s0 (default "" zone) (Some 0%nat)
              | _ => parseIPv6Body s t (default "" zone) None end = Ok a) as H by (by destruct zone as [[|? ?]|]).
      revert H. repeat case_match; intros H'; first [refine (parseIPv6Body_wf _ _ _ _ _ _ H'); done|injection H' as <-; by exists 0%Z]. }
    exists v, (default "" zone). split; [done|]. split; [done|]. intros Hs. by rewrite (Hc Hs).
Qed.

Lemma decimal_value_nonneg s acc : (0 <= acc)%Z → (0 <= decimal_value s acc)%Z.
Proof.
  revert acc. induction s as [|c s IH]; intros acc Ha; cbn [decimal_value]; [done|]. apply IH.
  destruct (digit_value c) as [d|] eqn:E; cbn [default]; [apply digit_value_range in E|]; cbn; lia.
Qed.
Lemma ParsePrefix_wf s p : netip_ParsePrefix s = Ok p →
  addr_wf (pf_Addr p) ∧ addr_zone (pf_Addr p) = "" ∧ (0 <= pf_Bits p <= BitLen (pf_Addr p))%Z.
Proof.
  unfold netip_ParsePrefix. destruct (cut_last "/"%char s) as [[addr bits]|]; [|done].
  destruct (netip_ParseAddr addr) as [ip|] eqn:Ea; [|done]. apply ParseAddr_wf in Ea as [Hwf _].
  case_bool_decide as Hz; cbn [negb]; [|done]. destruct (prefix_bits bits) as [n|] eqn:Eb; [|done].
  destruct (Z.ltb_spec (BitLen ip) n); [done|]. intros [= <-]. cbn. split; [done|]. split; [done|]. split; [|done].
  unfold prefix_bits in Eb. destruct bits as [|c bits]; [done|]. destruct (_ && (_ || _)); [done|]. destruct (_ && _); [|done].
  injection Eb as <-. apply (decimal_value_nonneg (String c bits) 0). lia.
Qed.
