(* ===== verification/NetCIDR.v ===== *)
(** Addresses and networks of Go's package net: ParseIP, ParseCIDR and the methods of IP
    and IPNet that the webhook of DPUServiceIPAMs calls.

    A net.IP is 4 or 16 bytes; an IPv4 address of 4 bytes and its IPv4-mapped form of 16 are
    told apart nowhere here, so an IP is the number of its 16-byte form. *)

From S2P Require Import Prelude.
From S2P Require Import NetIP.
From Stdlib Require Import Ascii.

Definition IP := Z.
(** [Addr.As16]; the prefix of an IPv4-mapped address. *)
Definition v4InV6 : Z := Z.shiftl 65535 32.
Definition As16 (a : Addr) : IP := match a with AddrInvalid => 0 | Addr4 v => v4InV6 + v | Addr6 v _ => v end%Z.
Definition To4 (ip : IP) : option Z := if (Z.shiftr ip 32 =? 65535)%Z then Some (Z.land ip (2 ^ 32 - 1)) else None.
Definition IP_String (ip : IP) : string := Addr_String (match To4 ip with Some v => Addr4 v | None => Addr6 ip "" end).

Definition net_ParseIP (s : string) : option IP :=
  match netip_ParseAddr s with
  | Ok a => if bool_decide (addr_zone a = "") then Some (As16 a) else None
  | Err _ => None
  end.

(** A mask of [in_Ones] ones among [in_Bits] bits, the first of which an IPv4 mask lacks. *)
Record IPNet := mkIPNet { in_IP : IP; in_Ones : Z; in_Bits : Z }.
Definition Mask_Size (n : IPNet) : Z * Z := (in_Ones n, in_Bits n).

(** [networkNumberAndMask]: the address, its length in bits and the ones of the mask. *)
Definition networkNumberAndMask (n : IPNet) : option (Z * Z * Z) :=
  match To4 (in_IP n) with
  | Some v => Some (v, 32, if (in_Bits n =? 32)%Z then in_Ones n else Z.max 0 (in_Ones n - 96))%Z
  | None => if (in_Bits n =? 32)%Z then None else Some (in_IP n, 128, in_Ones n)%Z
  end.
Definition IPNet_Contains (n : IPNet) (ip : IP) : bool :=
  match networkNumberAndMask n with
  | None => false
  | Some (nn, len, ones) =>
      match To4 ip with
      | Some v => (len =? 32)%Z && (mask_value 32 ones nn =? mask_value 32 ones v)%Z
      | None => (len =? 128)%Z && (mask_value 128 ones nn =? mask_value 128 ones ip)%Z
      end
  end.
Definition IPNet_String (n : IPNet) : string :=
  match networkNumberAndMask n with
  | None => "<nil>"
  | Some (nn, len, ones) => Addr_String (if (len =? 32)%Z then Addr4 nn else Addr6 nn "") +:+ "/" +:+ pretty ones
  end.

(** [dtoi] of the whole text. *)
Fixpoint dtoi (s : string) (n : Z) : option Z :=
  match s with
  | EmptyString => Some n
  | String c s =>
      match digit_value c with
      | None => None
      | Some d => let n := (n * 10 + d)%Z in if (16777215 <=? n)%Z then None else dtoi s n
      end
  end.
Definition cidrError (s : string) : GoError := errorf ("invalid CIDR address: " +:+ s).
Definition net_ParseCIDR (s : string) : Res (IP * IPNet) :=
  match cut_char "/"%char s with
  | (_, None) => Err (cidrError s)
  | (addr, Some mask) =>
      match netip_ParseAddr addr with
      | Err _ => Err (cidrError s)
      | Ok a =>
          if negb (bool_decide (addr_zone a = "")) then Err (cidrError s)
          else match (if bool_decide (mask = "") then None else dtoi mask 0) with
               | None => Err (cidrError s)
               | Some n =>
                   if (BitLen a <? n)%Z then Err (cidrError s)
                   else Ok (As16 a, mkIPNet (As16 (mask_addr n a)) n (BitLen a))
               end
      end
  end.

(** ** One text, two readers *)

Lemma digit_not_slash c d : digit_value c = Some d → Ascii.eqb c "/"%char = false.
Proof. intros Hd. destruct (Ascii.eqb_spec c "/"%char) as [->|]; [done|done]. Qed.
Lemma hex_not_slash c d : hex_value c = Some d → Ascii.eqb c "/"%char = false.
Proof. intros Hd. destruct (Ascii.eqb_spec c "/"%char) as [->|]; [done|done]. Qed.

Lemma parseIPv4Fields_free input s val n fields fs : parseIPv4Fields input s val n fields = Ok fs → has_char "/"%char s = false.
Proof.
  revert val n fields. induction s as [|c s IH]; intros val n fields; cbn [parseIPv4Fields has_char]; [done|].
  destruct (digit_value c) as [d|] eqn:Ed.
  - rewrite (digit_not_slash c d Ed). destruct (_ && _); [done|]. destruct (255 <? _)%Z; [done|]. apply IH.
  - destruct (Ascii.eqb_spec c "."%char) as [->|]; [|done]. destruct (_ || _); [done|]. destruct (_ =? 3)%nat; [done|]. apply IH.
Qed.
Lemma hex_run_free input start s off acc off' acc' rest : hex_run input start s off acc = Ok (off', acc', rest) →
  has_char "/"%char rest = false → has_char "/"%char s = false.
Proof.
  revert off acc. induction s as [|c s IH]; intros off acc; cbn [hex_run has_char]; [by intros [= _ _ <-]|].
  destruct (hex_value c) as [h|] eqn:Eh; [|by intros [= _ _ <-]]. rewrite (hex_not_slash c h Eh).
  destruct (3 <? off)%nat; [done|]. destruct (65535 <? _)%Z; [done|]. apply IH.
Qed.
Lemma parseIPv6Groups_free n input s gs e s' gs' e' : parseIPv6Groups n input s gs e = Ok (s', gs', e') →
  has_char "/"%char s' = false → has_char "/"%char s = false.
Proof.
  revert s gs e. induction n as [|n IH]; intros s gs e; cbn [parseIPv6Groups]; [by intros [= -> _ _]|].
  destruct (hex_run input s s 0 0) as [[[off acc] rest]|] eqn:Eh; [|done]. pose proof (hex_run_free _ _ _ _ _ _ _ _ Eh) as Hr.
  destruct (off =? 0)%nat; [done|]. destruct rest as [|c rest]; [by intros _ _; apply Hr|].
  destruct (Ascii.eqb_spec c "."%char) as [->|].
  - destruct (_ && _); [done|]. destruct (8 <? _)%nat; [done|].
    destruct (parseIPv4Fields input s 0 0 []) as [fs|] eqn:Ef; [|done]. intros _ _. by apply parseIPv4Fields_free in Ef.
  - destruct (Ascii.eqb_spec c ":"%char) as [->|]; [|done]. cbn [negb]. destruct rest as [|c' rest]; [done|].
    destruct (Ascii.eqb_spec c' ":"%char) as [->|].
    + destruct (bool_decide _); [done|]. case_bool_decide as E0; [intros _ _; apply Hr; by rewrite E0|]. intros E Hs'. apply Hr. cbn. by apply (IH _ _ _ E).
    + intros E Hs'. apply Hr. cbn. by apply (IH _ _ _ E).
Qed.
Lemma parseIPv6Body_free input s zone e a : parseIPv6Body input s zone e = Ok a → has_char "/"%char s = false.
Proof.
  unfold parseIPv6Body. destruct (parseIPv6Groups 8 input s [] e) as [[[s' gs] e']|] eqn:Eg; [|done].
  case_bool_decide as Es; [done|]. intros _. apply (parseIPv6Groups_free _ _ _ _ _ _ _ _ Eg). by rewrite Es.
Qed.
Lemma cut_char_none c s t : cut_char c s = (t, None) → t = s.
Proof.
  revert t. induction s as [|d s IH]; intros t; cbn; [by intros [= <-]|]. destruct (Ascii.eqb d c); [done|].
  destruct (cut_char c s) as [a [b|]] eqn:E; intros [= <-]. f_equal. by apply IH.
Qed.
Lemma ParseAddr_free s a : netip_ParseAddr s = Ok a → addr_zone a = "" → has_char "/"%char s = false.
Proof.
  unfold netip_ParseAddr. destruct (address_kind s) as [c|]; [|done]. destruct (Ascii.eqb c ".").
  - unfold parseIPv4. destruct (parseIPv4Fields s s 0 0 []) as [fs|] eqn:Ef; [|done]. intros _ _. by apply parseIPv4Fields_free in Ef.
  - destruct (Ascii.eqb c ":"); [|done]. unfold parseIPv6. destruct (cut_char "%"%char s) as [t zone] eqn:Ec.
    destruct zone as [[|z zone]|]; [done| |].
    + intros Hp Hz. exfalso. assert (∃ v, a = Addr6 v (String z zone)) as [v ->]; [|done]. revert Hp.
      cbn [default]. repeat case_match; intros H'; try (injection H' as <-; by eexists);
        (apply parseIPv6Body_wf in H'; [destruct H' as (v & -> & _); by eexists|done]).
    + apply cut_char_none in Ec. subst t. intros Hp _. revert Hp. cbn [default].
      destruct s as [|c0 s0]; [by intros Hb%parseIPv6Body_free|]. repeat case_match; subst; intros H';
        first [apply parseIPv6Body_free in H'; exact H'|by rewrite (bool_decide_eq_true_1 _ ltac:(eassumption))].
Qed.

(** Both cut a text with one slash there. *)
Lemma cut_last_none c s : has_char c s = false → cut_last c s = None.
Proof. induction s as [|d s IH]; [done|]. cbn. intros [-> Hs]%orb_false_iff. by rewrite IH. Qed.
Lemma cut_last_char c s a b : cut_last c s = Some (a, b) → has_char c a = false → cut_char c s = (a, Some b).
Proof.
  revert a b. induction s as [|d s IH]; intros a b; cbn; [done|]. destruct (cut_last c s) as [[a' b']|] eqn:E.
  - intros [= <- <-] Ha. cbn in Ha. apply orb_false_iff in Ha as [-> Ha]. by rewrite (IH a' b').
  - destruct (Ascii.eqb d c); [|done]. by intros [= <- <-] _.
Qed.

Lemma decimal_value_mono s acc : (0 <= acc)%Z → (acc <= decimal_value s acc)%Z.
Proof.
  revert acc. induction s as [|c s IH]; intros acc Ha; cbn [decimal_value]; [lia|].
  assert (0 <= default 0%Z (digit_value c))%Z as Hd by (destruct (digit_value c) as [d|] eqn:E; cbn; [apply digit_value_range in E; lia|lia]).
  specialize (IH (acc * 10 + default 0 (digit_value c))%Z ltac:(lia)). lia.
Qed.
Lemma dtoi_decimal s acc : (0 <= acc)%Z → all_digits s = true → (decimal_value s acc < 16777215)%Z → dtoi s acc = Some (decimal_value s acc).
Proof.
  revert acc. induction s as [|c s IH]; intros acc Ha; cbn [dtoi decimal_value all_digits]; [done|]. rewrite andb_true_iff, bool_decide_eq_true.
  intros [[d Hd] Hs]. rewrite Hd. change (default 0%Z (Some d)) with d. apply digit_value_range in Hd. pose proof (decimal_value_mono s (acc * 10 + d)%Z ltac:(lia)). intros Hlt.
  destruct (Z.leb_spec 16777215 (acc * 10 + d)); [lia|]. apply IH; [lia|done|done].
Qed.

(** What [netip.ParsePrefix] reads [net.ParseCIDR] reads as the same network. *)
Definition net_of (p : Prefix) : IPNet := mkIPNet (As16 (mask_addr (pf_Bits p) (pf_Addr p))) (pf_Bits p) (BitLen (pf_Addr p)).
Lemma ParseCIDR_of_prefix s p : netip_ParsePrefix s = Ok p → net_ParseCIDR s = Ok (As16 (pf_Addr p), net_of p).
Proof.
  unfold netip_ParsePrefix, net_ParseCIDR. destruct (cut_last "/"%char s) as [[addr bits]|] eqn:Ec; [|done].
  destruct (netip_ParseAddr addr) as [ip|] eqn:Ea; [|done]. case_bool_decide as Hz; cbn [negb]; [|done].
  rewrite (cut_last_char _ _ _ _ Ec (ParseAddr_free _ _ Ea Hz)), Ea, bool_decide_true by done. cbn [negb].
  destruct (prefix_bits bits) as [n|] eqn:Eb; [|done]. destruct (Z.ltb_spec (BitLen ip) n) as [|Hn]; [done|]. intros [= <-].
  unfold prefix_bits in Eb. destruct bits as [|c bits]; [done|]. destruct (_ && (_ || _)); [done|].
  destruct (all_digits (String c bits)) eqn:Ed; [|done]. destruct (_ <? 2 ^ 63)%Z; [|done]. cbn [andb] in Eb. injection Eb as <-.
  rewrite bool_decide_false by done. assert (BitLen ip <= 128)%Z by (destruct ip; cbn; lia). change (decimal_value bits (0 * 10 + default 0%Z (digit_value c))) with (decimal_value (String c bits) 0) in *.
  rewrite dtoi_decimal by (try done; lia).
  destruct (Z.ltb_spec (BitLen ip) (decimal_value (String c bits) 0)); [lia|]. done.
Qed.
