(* ===== verification/IPRanges.v ===== *)
(** Ranges of IP addresses (internal/dpuservicechain/utils/iputils/iprange.go).

    On ranges of plain addresses, those without a zone, merging and subtracting are the
    operations on block indices under [position], which puts the IPv6 addresses after
    the IPv4 ones ([to_block]); what they do to the set of addresses follows from
    BlockRanges. *)

From S2P Require Import Prelude.
From S2P Require Import NetIP.
From S2P Require Import BlockRanges.
From stdpp Require Import sorting.

(** ** The operations *)

Definition ParseAddr (s : string) : Res Addr :=
  match netip_ParseAddr s with
  | Err err => Err err
  | Ok addr => if Is4In6 addr then Err (errorf ("IPv4-mapped IPv6 address " +:+ quoted s +:+ " is not supported")) else Ok addr
  end.

Definition PrefixAddressCount (addressBits prefixLen : Z) : Z :=
  if (prefixLen <? 0)%Z || (addressBits <? prefixLen)%Z then 0%Z else Z.shiftl 1 (addressBits - prefixLen).

(** The bytes of a number that fits are the bytes of its address. *)
Definition intToAddr (value bits : Z) : option Addr :=
  if (2 ^ bits <=? value)%Z then None
  else if (bits =? 32)%Z then Some (Addr4 value)
  else if (bits =? 128)%Z then Some (Addr6 value "")
  else None.

Definition Add (addr : Addr) (offset : Z) : option Addr :=
  if negb (IsValid addr) || (offset <? 0)%Z then None
  else
    let value := (addr_value addr + offset)%Z in
    if (Z.shiftl 1 (BitLen addr) <=? value)%Z then None else intToAddr value (BitLen addr).

Definition Distance (start end_ : Addr) : option Z :=
  if negb (IsValid start) || negb (IsValid end_) || negb (BitLen start =? BitLen end_)%Z || addr_lt end_ start then None
  else Some (addr_value end_ - addr_value start)%Z.

Record IPRange := mkIPRange { ip_Start : Addr; ip_End : Addr }.
#[export] Instance IPRange_eq_dec : EqDecision IPRange.
Proof. solve_decision. Defined.

Definition RangeFromPrefix (prefix : Prefix) : Res IPRange :=
  if negb (Prefix_IsValid prefix) then Err (errorf "invalid IP prefix")
  else
    let prefix := Masked prefix in
    let size := PrefixAddressCount (BitLen (pf_Addr prefix)) (pf_Bits prefix) in
    match Add (pf_Addr prefix) (size - 1) with
    | None => Err (errorf ("prefix " +:+ Prefix_String prefix +:+ " overflows its address family"))
    | Some end_ => Ok (mkIPRange (pf_Addr prefix) end_)
    end.

Definition sameFamily (a b : IPRange) : bool :=
  IsValid (ip_Start a) && IsValid (ip_End a) && IsValid (ip_Start b) && IsValid (ip_End b)
  && (BitLen (ip_Start a) =? BitLen (ip_End a))%Z && (BitLen (ip_Start b) =? BitLen (ip_End b))%Z
  && (BitLen (ip_Start a) =? BitLen (ip_Start b))%Z.
Definition Range_In (r other : IPRange) : bool :=
  sameFamily r other && addr_le (ip_Start other) (ip_Start r) && addr_le (ip_End r) (ip_End other).
Definition Overlaps (r other : IPRange) : bool :=
  sameFamily r other && addr_le (ip_Start r) (ip_End other) && addr_le (ip_Start other) (ip_End r).
Definition InAny (r : IPRange) (ranges : list IPRange) : bool := existsb (Range_In r) ranges.

(** The order of [SortRanges]: family, start, end. *)
Definition range_le (a b : IPRange) : Prop :=
  match (BitLen (ip_Start a) ?= BitLen (ip_Start b))%Z with
  | Lt => True
  | Gt => False
  | Eq => match Addr_Compare (ip_Start a) (ip_Start b) with
          | Lt => True
          | Gt => False
          | Eq => addr_le (ip_End a) (ip_End b) = true
          end
  end.
#[export] Instance range_le_dec : RelDecision range_le.
Proof. intros a b. unfold range_le. destruct (_ ?= _)%Z; try apply _. destruct (Addr_Compare _ _); apply _. Defined.
Definition SortRanges (ranges : list IPRange) : list IPRange := merge_sort range_le ranges.

(** The loop of [MergeRanges]: [last] is the last range of the result so far. *)
Definition joins (last r : IPRange) : bool :=
  Overlaps last r ||
  (sameFamily last r && (let next := Addr_Next (ip_End last) in IsValid next && addr_le (ip_Start r) next)).
Fixpoint merge_ranges (last : IPRange) (ranges : list IPRange) : list IPRange :=
  match ranges with
  | [] => [last]
  | r :: ranges =>
      if joins last r then merge_ranges (if addr_lt (ip_End last) (ip_End r) then mkIPRange (ip_Start last) (ip_End r) else last) ranges
      else last :: merge_ranges r ranges
  end.
Definition MergeRanges (ranges : list IPRange) : list IPRange :=
  match SortRanges ranges with [] => [] | r :: ranges => merge_ranges r ranges end.

(** What is left of [existing] around [sub]. *)
Definition split_range (sub existing : IPRange) : list IPRange :=
  if negb (Overlaps existing sub) then [existing]
  else
    (if addr_lt (ip_Start existing) (ip_Start sub) then
       let end_ := Addr_Prev (ip_Start sub) in if IsValid end_ then [mkIPRange (ip_Start existing) end_] else []
     else []) ++
    (if addr_lt (ip_End sub) (ip_End existing) then
       let start := Addr_Next (ip_End sub) in if IsValid start then [mkIPRange start (ip_End existing)] else []
     else []).
Definition SubtractRange (ranges : list IPRange) (sub : IPRange) : list IPRange := ranges ≫= split_range sub.
Fixpoint exclude (remaining allocated : list IPRange) : list IPRange :=
  match allocated with
  | [] => remaining
  | a :: allocated =>
      let remaining := SubtractRange remaining a in
      match remaining with [] => [] | _ => exclude remaining allocated end
  end.
Definition ExcludeRanges (parent : IPRange) (allocated : list IPRange) : list IPRange := exclude [parent] allocated.

(** ** Plain addresses and their positions *)

Definition plain (a : Addr) : Prop := addr_wf a ∧ addr_zone a = "".
Definition position (a : Addr) : Z := ((if Is6 a then 2 ^ 64 else 0) + addr_value a)%Z.
Record range_ok (r : IPRange) : Prop := {
  ok_start : plain (ip_Start r);
  ok_end : plain (ip_End r);
  ok_family : BitLen (ip_End r) = BitLen (ip_Start r);
  ok_order : (addr_value (ip_Start r) <= addr_value (ip_End r))%Z }.
Definition to_block (r : IPRange) : blockIndexRange := mkBlocks (position (ip_Start r)) (position (ip_End r)).

(** The set of addresses of a list of ranges. *)
Definition ip_covers (ranges : list IPRange) (a : Addr) : Prop := covers (to_block <$> ranges) (position a).

Lemma plain_cases a : plain a →
  (∃ v, a = Addr4 v ∧ (0 <= v < 2 ^ 32)%Z) ∨ (∃ v, a = Addr6 v "" ∧ (0 <= v < 2 ^ 128)%Z).
Proof. intros [[Hv Hr] Hz]. destruct a as [|v|v zone]; simpl in *; [done|left; by exists v|right; exists v; by subst]. Qed.

Lemma compare_position a b : plain a → plain b → Addr_Compare a b = (position a ?= position b)%Z.
Proof.
  intros Ha Hb. destruct (plain_cases a Ha) as [(v & -> & Hv)|(v & -> & Hv)], (plain_cases b Hb) as [(w & -> & Hw)|(w & -> & Hw)];
    unfold Addr_Compare, position; simpl BitLen; simpl addr_value; simpl Is6; cbv iota; simpl addr_zone; rewrite ?Z.compare_refl.
  - change (0 + v)%Z with v. change (0 + w)%Z with w. by destruct (v ?= w)%Z.
  - change (32 ?= 128)%Z with Lt. symmetry. rewrite Z.compare_lt_iff. lia.
  - change (128 ?= 32)%Z with Gt. symmetry. rewrite Z.compare_gt_iff. lia.
  - rewrite Z.add_compare_mono_l. by destruct (v ?= w)%Z.
Qed.
Lemma addr_le_position a b : plain a → plain b → addr_le a b = (position a <=? position b)%Z.
Proof. intros Ha Hb. unfold addr_le. rewrite compare_position by done. unfold Z.leb. by destruct (_ ?= _)%Z. Qed.
Lemma addr_lt_position a b : plain a → plain b → addr_lt a b = (position a <? position b)%Z.
Proof. intros Ha Hb. unfold addr_lt. rewrite compare_position by done. unfold Z.ltb. by destruct (_ ?= _)%Z. Qed.
Lemma position_inj a b : plain a → plain b → position a = position b → a = b.
Proof.
  intros Ha Hb. destruct (plain_cases a Ha) as [(v & -> & Hv)|(v & -> & Hv)], (plain_cases b Hb) as [(w & -> & Hw)|(w & -> & Hw)];
    unfold position; cbn; intros E; solve [lia|f_equal; lia].
Qed.
Lemma plain_valid a : plain a → IsValid a = true.
Proof. by intros [[? _] _]. Qed.
Lemma family_position a b : plain a → plain b → BitLen a = BitLen b → (position b - position a = addr_value b - addr_value a)%Z.
Proof.
  intros Ha Hb. destruct (plain_cases a Ha) as [(v & -> & Hv)|(v & -> & Hv)], (plain_cases b Hb) as [(w & -> & Hw)|(w & -> & Hw)];
    unfold position; cbn; lia.
Qed.
Lemma family_of_position a b : plain a → plain b → BitLen a ≠ BitLen b → (position a + 1 < position b)%Z ∨ (position b + 1 < position a)%Z.
Proof.
  intros Ha Hb. destruct (plain_cases a Ha) as [(v & -> & Hv)|(v & -> & Hv)], (plain_cases b Hb) as [(w & -> & Hw)|(w & -> & Hw)];
    unfold position; cbn; lia.
Qed.
Lemma range_proper r : range_ok r → proper (to_block r).
Proof. intros [Hs He Hf Ho]. unfold proper, to_block. simpl. pose proof (family_position _ _ Hs He (eq_sym Hf)). lia. Qed.

(** ** Sorting *)

Lemma Addr_Compare_antisym a b : Addr_Compare b a = CompOpp (Addr_Compare a b).
Proof.
  unfold Addr_Compare. rewrite (Z.compare_antisym (BitLen a)), (Z.compare_antisym (addr_value a)), (String.compare_antisym (addr_zone b)).
  by destruct (BitLen a ?= BitLen b)%Z, (addr_value a ?= addr_value b)%Z.
Qed.
#[export] Instance range_le_total : Total range_le.
Proof.
  intros a b. unfold range_le. rewrite (Z.compare_antisym (BitLen (ip_Start a))), (Addr_Compare_antisym (ip_Start a)).
  destruct (BitLen (ip_Start a) ?= BitLen (ip_Start b))%Z; [|by left|by right]. cbn.
  destruct (Addr_Compare (ip_Start a) (ip_Start b)); [|by left|by right]. cbn.
  unfold addr_le. rewrite (Addr_Compare_antisym (ip_End a)). destruct (Addr_Compare (ip_End a) (ip_End b)); auto.
Qed.

Lemma family_lt a b : plain a → plain b → (BitLen a < BitLen b)%Z → (position a < position b)%Z.
Proof.
  intros Ha Hb. destruct (plain_cases a Ha) as [(v & -> & Hv)|(v & -> & Hv)], (plain_cases b Hb) as [(w & -> & Hw)|(w & -> & Hw)];
    unfold position; cbn; lia.
Qed.
Lemma range_le_start a b : range_ok a → range_ok b → range_le a b → by_start (to_block a) (to_block b).
Proof.
  intros [Hsa _ _ _] [Hsb _ _ _]. unfold range_le, by_start. cbn [to_block br_Start].
  destruct (Z.compare_spec (BitLen (ip_Start a)) (BitLen (ip_Start b))); [|by intros _; apply Z.lt_le_incl, family_lt|done].
  rewrite compare_position by done. destruct (Z.compare_spec (position (ip_Start a)) (position (ip_Start b))); intros; lia || done.
Qed.

Lemma sorted_blocks rs : Forall range_ok rs → Sorted range_le rs → StronglySorted by_start (to_block <$> rs).
Proof.
  intros Hok Hs. apply Sorted_StronglySorted; [exact by_start_trans|]. induction Hs as [|r rs Hs IH Hh]; [constructor|].
  apply Forall_cons in Hok as [Hr Hrs]. cbn. constructor; [by apply IH|]. destruct Hh as [|s rs Hle]; [constructor|]. cbn. constructor.
  apply Forall_cons in Hrs as [Hs' _]. by apply range_le_start.
Qed.

(** ** Merging *)

Lemma blocks_proper rs : Forall range_ok rs → Forall proper (to_block <$> rs).
Proof. intros H. apply Forall_fmap. eapply Forall_impl; [exact H|]. intros r. apply range_proper. Qed.

Lemma sameFamily_ok a b : range_ok a → range_ok b → sameFamily a b = (BitLen (ip_Start a) =? BitLen (ip_Start b))%Z.
Proof.
  intros [Hsa Hea Hfa _] [Hsb Heb Hfb _]. unfold sameFamily. rewrite !plain_valid by done. rewrite Hfa, Hfb, !Z.eqb_refl. done.
Qed.

Ltac case_eqb := match goal with |- context [(?x =? ?y)%Z] => destruct (Z.eqb_spec x y) end.

(** The next address, and the one before. *)
Lemma next_plain a : plain a → IsValid (Addr_Next a) = true → plain (Addr_Next a) ∧ position (Addr_Next a) = (position a + 1)%Z ∧ BitLen (Addr_Next a) = BitLen a.
Proof.
  intros Ha. destruct (plain_cases a Ha) as [(v & -> & Hv)|(v & -> & Hv)]; cbn -[Z.add Z.pow Z.eqb]; case_eqb; try done.
  all: intros _; unfold plain, addr_wf, position; cbn -[Z.add Z.pow]; split_and!; try done; lia.
Qed.
Lemma next_invalid a b : plain a → plain b → IsValid (Addr_Next a) = false → BitLen a = BitLen b → (position b <= position a)%Z.
Proof.
  intros Ha Hb. destruct (plain_cases a Ha) as [(v & -> & Hv)|(v & -> & Hv)], (plain_cases b Hb) as [(w & -> & Hw)|(w & -> & Hw)];
    cbn -[Z.add Z.pow Z.eqb]; try (intros _ E; discriminate E); case_eqb; try done;
    intros _ _; unfold position; cbn -[Z.add Z.pow]; lia.
Qed.
Lemma prev_plain a : plain a → IsValid (Addr_Prev a) = true → plain (Addr_Prev a) ∧ position (Addr_Prev a) = (position a - 1)%Z ∧ BitLen (Addr_Prev a) = BitLen a.
Proof.
  intros Ha. destruct (plain_cases a Ha) as [(v & -> & Hv)|(v & -> & Hv)]; cbn -[Z.sub Z.pow Z.eqb]; destruct (Z.eqb_spec v 0); try done.
  all: intros _; unfold plain, addr_wf, position; cbn -[Z.add Z.sub Z.pow]; split_and!; try done; lia.
Qed.
Lemma prev_invalid a b : plain a → plain b → IsValid (Addr_Prev a) = false → BitLen a = BitLen b → (position a <= position b)%Z.
Proof.
  intros Ha Hb. destruct (plain_cases a Ha) as [(v & -> & Hv)|(v & -> & Hv)], (plain_cases b Hb) as [(w & -> & Hw)|(w & -> & Hw)];
    cbn -[Z.sub Z.pow Z.eqb]; try (intros _ E; discriminate E); destruct (Z.eqb_spec v 0); try done;
    intros _ _; unfold position; cbn -[Z.add Z.pow]; lia.
Qed.

(** A range of the other family starts well after one of an earlier start. *)
Lemma family_gap l r : range_ok l → range_ok r → by_start (to_block l) (to_block r) → BitLen (ip_Start l) ≠ BitLen (ip_Start r) →
  (position (ip_End l) + 1 < position (ip_Start r))%Z.
Proof.
  intros [Hsl Hel Hfl _] [Hsr _ _ _] Hst Hf. unfold by_start in Hst. cbn [to_block br_Start] in Hst.
  destruct (Z.lt_total (BitLen (ip_Start l)) (BitLen (ip_Start r))) as [Hlt|[?|Hlt]]; [|done|pose proof (family_lt _ _ Hsr Hsl Hlt); lia].
  assert (position (ip_End l) < position (ip_Start r))%Z by (apply family_lt; [done..|by rewrite Hfl]).
  destruct (family_of_position (ip_End l) (ip_Start r)); [done..|congruence|lia|lia].
Qed.

Lemma joins_spec last r : range_ok last → range_ok r → by_start (to_block last) (to_block r) →
  joins last r = (position (ip_Start r) <=? position (ip_End last) + 1)%Z.
Proof.
  intros Hl Hr Hst. pose proof (range_proper r Hr) as Hp. unfold by_start, proper in *. cbn [to_block br_Start br_End] in *.
  pose proof Hl as [Hsl Hel Hfl _]. pose proof Hr as [Hsr Her Hfr _].
  unfold joins, Overlaps. rewrite sameFamily_ok by done. rewrite !addr_le_position by done.
  destruct (Z.eqb_spec (BitLen (ip_Start last)) (BitLen (ip_Start r))) as [Hf|Hf].
  - rewrite (proj2 (Z.leb_le (position (ip_Start last)) (position (ip_End r)))) by lia. cbn [andb].
    destruct (IsValid (Addr_Next (ip_End last))) eqn:Hn; cbn [andb].
    + destruct (next_plain _ Hel Hn) as (Hpl & Hpos & _). rewrite addr_le_position by done. rewrite Hpos.
      apply Bool.eq_iff_eq_true. rewrite orb_true_iff, !Z.leb_le. lia.
    + pose proof (next_invalid (ip_End last) (ip_Start r) Hel Hsr Hn ltac:(congruence)). rewrite orb_false_r.
      apply Bool.eq_iff_eq_true. rewrite !Z.leb_le. lia.
  - cbn. symmetry. apply Z.leb_gt. by apply family_gap.
Qed.

Lemma merge_ranges_blocks last rs : range_ok last → Forall range_ok rs → StronglySorted by_start (to_block <$> last :: rs) →
  to_block <$> merge_ranges last rs = merge_blocks (to_block last) (to_block <$> rs) ∧ Forall range_ok (merge_ranges last rs).
Proof.
  revert last. induction rs as [|r rs IH]; intros last Hl Hrs Hs; [split; [done|by constructor]|].
  apply Forall_cons in Hrs as [Hr Hrs]. rewrite !fmap_cons in Hs. apply StronglySorted_inv in Hs as [Hs Ha]. pose proof Hs as Hs'.
  apply Forall_cons in Ha as [Hlr Ha]. apply StronglySorted_inv in Hs as [Hs Hra]. cbn [merge_ranges]. rewrite joins_spec by done.
  rewrite fmap_cons. cbn [merge_blocks]. cbn [to_block br_Start br_End]. pose proof Hl as [Hsl Hel Hfl Hol]. pose proof Hr as [Hsr Her Hfr Hor].
  rewrite addr_lt_position by done. pose proof (range_proper r Hr) as Hpr. pose proof (range_proper last Hl) as Hpl.
  unfold proper, by_start in *. cbn [to_block br_Start br_End] in *.
  destruct (Z.leb_spec (position (ip_Start r)) (position (ip_End last) + 1)) as [Hj|Hj].
  - destruct (Z.ltb_spec (position (ip_End last)) (position (ip_End r))).
    + assert (BitLen (ip_End r) = BitLen (ip_Start last)) as Hf.
      { destruct (Z.eq_dec (BitLen (ip_Start last)) (BitLen (ip_Start r))) as [|Hne]; [congruence|]. pose proof (family_gap last r Hl Hr Hlr Hne). lia. }
      apply (IH (mkIPRange (ip_Start last) (ip_End r))); [|done|].
      * split; cbn; [done..|]. pose proof (family_position _ _ Hsl Her (eq_sym Hf)). lia.
      * rewrite fmap_cons. constructor; [done|]. exact Ha.
    + apply IH; [done|done|]. rewrite fmap_cons. by constructor.
  - destruct (IH r Hr Hrs) as [IH1 IH2]; [by rewrite fmap_cons|]. rewrite fmap_cons, IH1. split; [done|]. by constructor.
Qed.

Lemma MergeRanges_spec rs : Forall range_ok rs →
  Forall range_ok (MergeRanges rs) ∧ canonical (to_block <$> MergeRanges rs) ∧
  ∀ x, covers (to_block <$> MergeRanges rs) x ↔ covers (to_block <$> rs) x.
Proof.
  intros Hok. unfold MergeRanges, SortRanges. pose proof (merge_sort_Permutation range_le rs) as Hperm.
  assert (Sorted range_le (merge_sort range_le rs)) as Hs by (apply (Sorted_merge_sort range_le)).
  assert (∀ x, covers (to_block <$> merge_sort range_le rs) x ↔ covers (to_block <$> rs) x) as Hc by (intros x; apply covers_perm; by rewrite Hperm).
  rewrite <- Hperm in Hok. destruct (merge_sort range_le rs) as [|r rs']; [split; [constructor|split; [apply canonical_nil|done]]|].
  apply (sorted_blocks _ Hok) in Hs. pose proof (blocks_proper _ Hok) as Hp. rewrite fmap_cons in Hp, Hs.
  apply Forall_cons in Hok as [Hr Hrs]. apply Forall_cons in Hp as [Hpr Hprs].
  destruct (merge_ranges_blocks r rs' Hr Hrs Hs) as [Hb Hok]. destruct (merge_blocks_spec _ _ Hpr Hprs Hs) as (Hcan & Hcov & _).
  split; [done|]. rewrite Hb. split; [done|]. intros x. rewrite Hcov. apply Hc.
Qed.

Lemma to_block_inj r s : range_ok r → range_ok s → to_block r = to_block s → r = s.
Proof.
  intros [Hsr Her _ _] [Hss Hes _ _] E. pose proof (f_equal br_Start E). pose proof (f_equal br_End E). destruct r, s. cbn in *.
  f_equal; by apply position_inj.
Qed.
Lemma blocks_inj rs ss : Forall range_ok rs → Forall range_ok ss → to_block <$> rs = to_block <$> ss → rs = ss.
Proof.
  intros Hrs. revert ss. induction Hrs as [|r rs Hr Hrs IH]; intros [|s ss] Hss E; try done. rewrite !fmap_cons in E.
  assert (to_block r = to_block s ∧ to_block <$> rs = to_block <$> ss) as [H1 H2] by (split; congruence).
  apply Forall_cons in Hss as [Hs Hss]. f_equal; [by apply to_block_inj|by apply IH].
Qed.
(** Two lists of separate ranges in order that have the same addresses are equal. *)
Lemma ranges_unique rs ss : Forall range_ok rs → Forall range_ok ss → canonical (to_block <$> rs) → canonical (to_block <$> ss) →
  (∀ x, covers (to_block <$> rs) x ↔ covers (to_block <$> ss) x) → rs = ss.
Proof. intros Hr Hs Hcr Hcs Hx. apply blocks_inj; [done..|]. by apply canonical_unique. Qed.

Lemma MergeRanges_canonical rs : Forall range_ok rs → canonical (to_block <$> rs) → MergeRanges rs = rs.
Proof. intros Hok Hc. destruct (MergeRanges_spec rs Hok) as (Hm & Hmc & Hx). by apply ranges_unique. Qed.

(** Every position inside a range is that of an address. *)
Lemma range_addresses r y : range_ok r → in_block y (to_block r) → ∃ a, plain a ∧ position a = y.
Proof.
  intros [Hs He Hf _] Hy. unfold in_block, to_block in Hy. cbn [br_Start br_End] in Hy.
  destruct (plain_cases _ Hs) as [(v & E & Hv)|(v & E & Hv)], (plain_cases _ He) as [(w & E' & Hw)|(w & E' & Hw)];
    rewrite E, E' in *; try done; unfold position in Hy; cbn in Hy.
  - exists (Addr4 y). split; [split; [split; [done|cbn; lia]|done]|unfold position; cbn; lia].
  - exists (Addr6 (y - 2 ^ 64) ""). split; [split; [split; [done|cbn; lia]|done]|unfold position; cbn; lia].
Qed.

(** C35. Merging is normalisation: two lists of ranges of addresses without zones merge to the
    same list exactly when they have the same addresses; so the order, the overlaps and the
    splitting of the ranges do not matter. *)
Theorem MergeRanges_same_addresses rs ss : Forall range_ok rs → Forall range_ok ss →
  MergeRanges rs = MergeRanges ss ↔ ∀ a, plain a → ip_covers rs a ↔ ip_covers ss a.
Proof.
  intros Hr Hs. destruct (MergeRanges_spec rs Hr) as (Hmr & Hcr & Hxr). destruct (MergeRanges_spec ss Hs) as (Hms & Hcs & Hxs). unfold ip_covers. split.
  - intros E a _. rewrite <- Hxr, <- Hxs, E. done.
  - intros Ha. apply ranges_unique; try done. intros y. rewrite Hxr, Hxs.
    assert (∀ ts, Forall range_ok ts → covers (to_block <$> ts) y → ∃ a, plain a ∧ position a = y) as Hpos.
    { intros ts Hts (b & (t & -> & Ht)%list_elem_of_fmap & Hin)%Exists_exists. rewrite Forall_forall in Hts. by apply (range_addresses t y (Hts t Ht)). }
    split; intros Hy; [destruct (Hpos rs Hr Hy) as (a & Hpa & <-)|destruct (Hpos ss Hs Hy) as (a & Hpa & <-)]; by apply Ha.
Qed.

(** ** Subtracting *)

Lemma one_range a b : plain a → plain b → BitLen b = BitLen a → (position a <= position b)%Z → Forall range_ok [mkIPRange a b].
Proof.
  intros Ha Hb Hf Hle. constructor; [|constructor]. split; cbn; [done..|]. pose proof (family_position a b Ha Hb (eq_sym Hf)). lia.
Qed.
Lemma split_range_blocks sub r : range_ok sub → range_ok r →
  to_block <$> split_range sub r = subtract_one (to_block sub) (to_block r) ∧ Forall range_ok (split_range sub r).
Proof.
  intros Hsub Hr. pose proof (range_proper _ Hsub) as Hps. pose proof (range_proper _ Hr) as Hpr.
  pose proof Hsub as [Hss Hes Hfs Hos]. pose proof Hr as [Hsr Her Hfr Hor]. unfold proper in *. cbn [to_block br_Start br_End] in *.
  unfold split_range, subtract_one, Overlaps. rewrite sameFamily_ok by done. rewrite !addr_le_position, !addr_lt_position by done.
  cbn [to_block br_Start br_End].
  destruct (Z.eqb_spec (BitLen (ip_Start r)) (BitLen (ip_Start sub))) as [Hf|Hf]; cbn [andb negb].
  2: { assert (position (ip_End sub) < position (ip_Start r) ∨ position (ip_End r) < position (ip_Start sub))%Z as Hapart.
       { destruct (Z.le_gt_cases (position (ip_Start r)) (position (ip_Start sub))).
         - right. pose proof (family_gap r sub Hr Hsub ltac:(done) Hf). lia.
         - left. pose proof (family_gap sub r Hsub Hr ltac:(unfold by_start; cbn; lia) ltac:(congruence)). lia. }
       split; [|by constructor]. destruct (Z.ltb_spec (position (ip_End sub)) (position (ip_Start r))), (Z.ltb_spec (position (ip_End r)) (position (ip_Start sub))); try lia; done. }
  destruct (Z.leb_spec (position (ip_Start r)) (position (ip_End sub))), (Z.leb_spec (position (ip_Start sub)) (position (ip_End r)));
    destruct (Z.ltb_spec (position (ip_End sub)) (position (ip_Start r))), (Z.ltb_spec (position (ip_End r)) (position (ip_Start sub))); try lia; cbn [andb orb negb];
    try (split; [done|by constructor]).
  assert (IsValid (Addr_Prev (ip_Start sub)) = false → (position (ip_Start sub) <= position (ip_Start r))%Z) as Hprev.
  { intros Hn. by apply prev_invalid. }
  assert (IsValid (Addr_Next (ip_End sub)) = false → (position (ip_End r) <= position (ip_End sub))%Z) as Hnext.
  { intros Hn. apply next_invalid; [done..|congruence]. }
  rewrite fmap_app, Forall_app.
  destruct (Z.ltb_spec (position (ip_Start r)) (position (ip_Start sub))) as [Hlow|Hlow];
    [destruct (IsValid (Addr_Prev (ip_Start sub))) eqn:Hvp; [|specialize (Hprev eq_refl); lia];
     destruct (prev_plain _ Hss Hvp) as (Hpp & Hppos & Hpf)|];
  (destruct (Z.ltb_spec (position (ip_End sub)) (position (ip_End r))) as [Hup|Hup];
    [destruct (IsValid (Addr_Next (ip_End sub))) eqn:Hvn; [|specialize (Hnext eq_refl); lia];
     destruct (next_plain _ Hes Hvn) as (Hnp & Hnpos & Hnf)|]); cbn [fmap list_fmap app]; unfold to_block; cbn [ip_Start ip_End]; rewrite ?Hppos, ?Hnpos;
  (split; [done|split]); first [constructor; fail|apply one_range; [done|done|congruence|lia]|constructor].
Qed.

Lemma SubtractRange_blocks rs sub : Forall range_ok rs → range_ok sub →
  to_block <$> SubtractRange rs sub = (to_block <$> rs) ≫= subtract_one (to_block sub) ∧ Forall range_ok (SubtractRange rs sub).
Proof.
  intros Hrs Hsub. unfold SubtractRange. induction Hrs as [|r rs Hr Hrs [IH1 IH2]]; [split; [done|constructor]|].
  destruct (split_range_blocks sub r Hsub Hr) as [H1 H2]. rewrite fmap_cons, !bind_cons, fmap_app, H1, IH1. split; [done|]. by apply Forall_app.
Qed.

Lemma exclude_fold rs allocated : exclude rs allocated = foldl SubtractRange rs allocated.
Proof.
  revert rs. induction allocated as [|a allocated IH]; intros rs; [done|]. cbn [exclude foldl]. rewrite <- IH.
  destruct (SubtractRange rs a); [|done]. clear IH. by induction allocated.
Qed.

Lemma exclude_blocks rs subs : Forall range_ok rs → Forall range_ok subs →
  to_block <$> foldl SubtractRange rs subs = foldl (λ result sub, result ≫= subtract_one sub) (to_block <$> rs) (to_block <$> subs) ∧
  Forall range_ok (foldl SubtractRange rs subs).
Proof.
  intros Hrs Hsubs. revert rs Hrs. induction Hsubs as [|sub subs Hsub Hsubs IH]; intros rs Hrs; [done|]. cbn [foldl fmap list_fmap].
  destruct (SubtractRange_blocks rs sub Hrs Hsub) as [H1 H2]. rewrite <- H1. by apply IH.
Qed.

(** Subtracting ranges one after the other leaves the addresses that are in none. *)
Lemma subtract_ranges_spec rs subs : Forall range_ok rs → canonical (to_block <$> rs) → Forall range_ok subs →
  let result := foldl SubtractRange rs subs in
  Forall range_ok result ∧ canonical (to_block <$> result) ∧
  ∀ x, covers (to_block <$> result) x ↔ covers (to_block <$> rs) x ∧ ¬ covers (to_block <$> subs) x.
Proof.
  intros Hrs Hc Hsubs. cbv zeta. destruct (exclude_blocks rs subs Hrs Hsubs) as [Hb Hok]. split; [done|]. rewrite Hb.
  apply subtract_all_spec; [by apply blocks_proper|done].
Qed.

Lemma ExcludeRanges_spec parent allocated : range_ok parent → Forall range_ok allocated →
  let result := ExcludeRanges parent allocated in
  Forall range_ok result ∧ canonical (to_block <$> result) ∧
  ∀ x, covers (to_block <$> result) x ↔ in_block x (to_block parent) ∧ ¬ covers (to_block <$> allocated) x.
Proof.
  intros Hp Ha. cbv zeta. unfold ExcludeRanges. rewrite exclude_fold.
  destruct (subtract_ranges_spec [parent] allocated) as (Hok & Hc & Hx); [by constructor| |done|].
  { apply canonical_singleton. by apply range_proper. }
  split; [done|]. split; [done|]. intros x. rewrite Hx. cbn [fmap list_fmap]. rewrite covers_cons. pose proof (covers_nil x). tauto.
Qed.

(** ** Arithmetic on addresses *)

Lemma Add_spec a off : plain a → (0 <= off)%Z →
  match Add a off with
  | Some b => plain b ∧ BitLen b = BitLen a ∧ addr_value b = (addr_value a + off)%Z
  | None => (2 ^ BitLen a <= addr_value a + off)%Z
  end.
Proof.
  intros Ha Hoff. unfold Add, intToAddr. rewrite plain_valid by done. rewrite (proj2 (Z.ltb_ge off 0)) by lia.
  destruct (plain_cases a Ha) as [(v & -> & Hv)|(v & -> & Hv)]; cbn [negb orb BitLen addr_value]; rewrite Z.shiftl_1_l.
  all: destruct (Z.leb_spec (2 ^ 32) (v + off)) || idtac; destruct (Z.leb_spec (2 ^ 128) (v + off)); cbn -[Z.add Z.pow Z.leb]; try done; try lia.
  all: unfold plain, addr_wf; cbn -[Z.pow Z.add]; split_and!; try done; lia.
Qed.
Lemma Add_some a off : plain a → (0 <= off)%Z → (addr_value a + off < 2 ^ BitLen a)%Z →
  ∃ b, Add a off = Some b ∧ plain b ∧ BitLen b = BitLen a ∧ addr_value b = (addr_value a + off)%Z.
Proof. intros Ha Hoff Hlt. pose proof (Add_spec a off Ha Hoff) as H. destruct (Add a off) as [b|]; [by exists b|lia]. Qed.

Lemma Distance_spec a b : plain a → plain b → BitLen a = BitLen b → (addr_value a <= addr_value b)%Z →
  Distance a b = Some (addr_value b - addr_value a)%Z.
Proof.
  intros Ha Hb Hf Hle. unfold Distance. rewrite !plain_valid by done. rewrite Hf, Z.eqb_refl, addr_lt_position by done.
  pose proof (family_position a b Ha Hb Hf). by rewrite (proj2 (Z.ltb_ge (position b) (position a))) by lia.
Qed.

(** A prefix as [ParsePrefix] returns it. *)
Definition prefix_ok (p : Prefix) : Prop := plain (pf_Addr p) ∧ (0 <= pf_Bits p <= BitLen (pf_Addr p))%Z.
Definition prefix_size (p : Prefix) : Z := (2 ^ (BitLen (pf_Addr p) - pf_Bits p))%Z.

Lemma mask_value_spec len bits v : (0 <= bits <= len)%Z → (0 <= v < 2 ^ len)%Z →
  let m := mask_value len bits v in let size := (2 ^ (len - bits))%Z in
  (0 <= m)%Z ∧ (m <= v < m + size)%Z ∧ (m + size <= 2 ^ len)%Z ∧ (size | m)%Z.
Proof.
  intros Hb Hv. cbv zeta. unfold mask_value. rewrite Z.shiftr_div_pow2, Z.shiftl_mul_pow2 by lia.
  assert (0 < 2 ^ (len - bits))%Z as Hs by lia. pose proof (Z.div_mod v (2 ^ (len - bits)) ltac:(lia)).
  pose proof (Z.mod_pos_bound v (2 ^ (len - bits)) Hs).
  assert (0 <= v / 2 ^ (len - bits) < 2 ^ bits)%Z as Hq.
  { split; [apply Z.div_pos; lia|]. apply Z.div_lt_upper_bound; [done|]. rewrite <- Z.pow_add_r by lia. replace (len - bits + bits)%Z with len by lia. lia. }
  assert (2 ^ len = 2 ^ bits * 2 ^ (len - bits))%Z as Hp by (rewrite <- Z.pow_add_r by lia; f_equal; lia).
  split_and!; [nia|nia|nia|nia|apply Z.divide_factor_r].
Qed.

Lemma mask_addr_spec p : prefix_ok p →
  plain (mask_addr (pf_Bits p) (pf_Addr p)) ∧ BitLen (mask_addr (pf_Bits p) (pf_Addr p)) = BitLen (pf_Addr p) ∧
  (addr_value (mask_addr (pf_Bits p) (pf_Addr p)) + prefix_size p <= 2 ^ BitLen (pf_Addr p))%Z ∧
  (prefix_size p | addr_value (mask_addr (pf_Bits p) (pf_Addr p)))%Z ∧ (0 < prefix_size p)%Z.
Proof.
  intros [Ha Hb]. unfold prefix_size in *. destruct (plain_cases _ Ha) as [(v & E & Hv)|(v & E & Hv)]; rewrite E in *; cbn -[Z.pow Z.add Z.sub mask_value] in *.
  all: destruct (mask_value_spec _ (pf_Bits p) v Hb Hv) as (H1 & H2 & H3 & H4); unfold plain, addr_wf; cbn -[Z.pow Z.add Z.sub mask_value]; split_and!; try done; lia.
Qed.

Lemma PrefixAddressCount_spec addressBits prefixLen : (0 <= prefixLen <= addressBits)%Z → PrefixAddressCount addressBits prefixLen = (2 ^ (addressBits - prefixLen))%Z.
Proof.
  intros H. unfold PrefixAddressCount. rewrite (proj2 (Z.ltb_ge prefixLen 0)), (proj2 (Z.ltb_ge addressBits prefixLen)) by lia. apply Z.shiftl_1_l.
Qed.

(** The range of a prefix: it never overflows. *)
Lemma RangeFromPrefix_spec p : prefix_ok p →
  ∃ r, RangeFromPrefix p = Ok r ∧ range_ok r ∧ ip_Start r = mask_addr (pf_Bits p) (pf_Addr p) ∧
    (addr_value (ip_End r) = addr_value (ip_Start r) + prefix_size p - 1)%Z.
Proof.
  intros Hp. pose proof Hp as [Ha Hb]. destruct (mask_addr_spec p Hp) as (Hm & Hf & Hs & _ & Hpos). unfold RangeFromPrefix, Prefix_IsValid.
  rewrite (proj2 (Z.leb_le 0 (pf_Bits p))) by lia. cbn [negb Masked pf_Addr pf_Bits]. rewrite Hf, PrefixAddressCount_spec by done.
  change (2 ^ (BitLen (pf_Addr p) - pf_Bits p))%Z with (prefix_size p).
  destruct (Add_some (mask_addr (pf_Bits p) (pf_Addr p)) (prefix_size p - 1)) as (e & He & Hep & Hef & Hev); [done|lia|rewrite Hf; lia|].
  rewrite He. eexists. split; [done|]. split; [split; cbn; [done..|lia]|]. split; [done|]. cbn. lia.
Qed.

Lemma mask_value_eq len bits m x : (0 <= bits <= len)%Z → (0 <= m < 2 ^ len)%Z → (0 <= x < 2 ^ len)%Z → (2 ^ (len - bits) | m)%Z →
  mask_value len bits x = m ↔ (m <= x < m + 2 ^ (len - bits))%Z.
Proof.
  intros Hb Hm Hx Hd. destruct (mask_value_spec len bits x Hb Hx) as (_ & H1 & _ & H2). split; [by intros <-|]. intros Hr.
  destruct Hd as [q1 ->], H2 as [q2 E]. rewrite E in *. assert (q2 = q1) as -> by nia. done.
Qed.

Lemma mask_value_idem len bits v : (0 <= bits <= len)%Z → (0 <= v < 2 ^ len)%Z → mask_value len bits (mask_value len bits v) = mask_value len bits v.
Proof.
  intros Hb Hv. destruct (mask_value_spec len bits v Hb Hv) as (H0 & H1 & H2 & H3). apply mask_value_eq; try done; [lia..|].
  assert (0 < 2 ^ (len - bits))%Z by lia. lia.
Qed.

Lemma Masked_idem p : prefix_ok p → Masked (Masked p) = Masked p.
Proof.
  intros [Ha Hb]. unfold Masked. cbn [pf_Addr pf_Bits]. f_equal. destruct (plain_cases _ Ha) as [(v & E & Hv)|(v & E & Hv)]; rewrite E in *;
    cbn -[mask_value] in *; by rewrite mask_value_idem.
Qed.
Lemma RangeFromPrefix_Masked p : prefix_ok p → RangeFromPrefix (Masked p) = RangeFromPrefix p.
Proof. intros Hp. unfold RangeFromPrefix. by rewrite (Masked_idem p Hp). Qed.

(** The addresses of a prefix: those of its family with its first bits. *)
Definition in_prefix (p : Prefix) (y : Z) : Prop :=
  ∃ a, plain a ∧ BitLen a = BitLen (pf_Addr p) ∧ position a = y ∧ (addr_value a / prefix_size p = addr_value (pf_Addr p) / prefix_size p)%Z.

Lemma mask_addr_value p : prefix_ok p →
  addr_value (mask_addr (pf_Bits p) (pf_Addr p)) = (prefix_size p * (addr_value (pf_Addr p) / prefix_size p))%Z.
Proof.
  intros Hp. destruct (mask_addr_spec p Hp) as (_ & _ & _ & [q Hq] & Hpos). destruct Hp as [Ha Hb]. unfold prefix_size in *.
  assert (addr_value (mask_addr (pf_Bits p) (pf_Addr p)) <= addr_value (pf_Addr p) <
    addr_value (mask_addr (pf_Bits p) (pf_Addr p)) + 2 ^ (BitLen (pf_Addr p) - pf_Bits p))%Z as Hx.
  { destruct (plain_cases _ Ha) as [(v & E & Hv)|(v & E & Hv)]; rewrite E in *; cbn -[mask_value Z.pow Z.add Z.sub] in *;
      by destruct (mask_value_spec _ (pf_Bits p) v Hb Hv) as (_ & ? & _). }
  set (size := (2 ^ (BitLen (pf_Addr p) - pf_Bits p))%Z) in *. set (m := addr_value (mask_addr _ _)) in *. set (v := addr_value (pf_Addr p)) in *.
  rewrite <- (Z.div_unique_pos v size q (v - m)) by lia. lia.
Qed.
Lemma in_prefix_range p r y : prefix_ok p → RangeFromPrefix p = Ok r → in_block y (to_block r) ↔ in_prefix p y.
Proof.
  intros Hp Hr. destruct (RangeFromPrefix_spec p Hp) as (r' & Er & Hok & Hs & He). rewrite Hr in Er. injection Er as <-.
  pose proof (mask_addr_value p Hp) as Hm. rewrite <- Hs in Hm. destruct (mask_addr_spec p Hp) as (_ & Hf & _ & _ & Hpos). rewrite <- Hs in Hf.
  pose proof Hok as [Hps Hpe Hpf _]. pose proof (family_position _ _ Hps Hpe (eq_sym Hpf)) as F1. set (size := prefix_size p) in *.
  unfold in_block, to_block. cbn [br_Start br_End]. split.
  - intros Hy. destruct (Add_some (ip_Start r) (y - position (ip_Start r))) as (a & _ & Ha & Haf & Hav); [done|lia| |].
    { pose proof Hpe as [[_ Hpr] _]. rewrite Hpf in Hpr. lia. }
    exists a. pose proof (family_position _ _ Hps Ha (eq_sym Haf)). split_and!; [done|congruence|lia|].
    change (prefix_size p) with size. set (q := (addr_value (pf_Addr p) / size)%Z) in *. clearbody q size. symmetry.
    apply (Z.div_unique_pos _ _ q (y - position (ip_Start r))); lia.
  - intros (a & Ha & Haf & <- & Hdiv). change (prefix_size p) with size in Hdiv. pose proof (family_position _ _ Hps Ha ltac:(congruence)) as F2.
    pose proof (Z.div_mod (addr_value a) size ltac:(lia)). pose proof (Z.mod_pos_bound (addr_value a) size Hpos). rewrite Hdiv in *. lia.
Qed.

Lemma Range_In_spec r other : range_ok r → range_ok other →
  Range_In r other = true ↔ BitLen (ip_Start r) = BitLen (ip_Start other) ∧ within (to_block r) (to_block other).
Proof.
  intros Hr Ho. pose proof Hr as [Hsr Her _ _]. pose proof Ho as [Hso Heo _ _]. unfold Range_In. rewrite sameFamily_ok, !addr_le_position by done.
  rewrite !andb_true_iff, Z.eqb_eq, !Z.leb_le. unfold within. cbn. tauto.
Qed.
