(* ===== verification/IPAMAllocator.v ===== *)
(** The division of the addresses of a DPUServiceIPAM among DPU clusters
    (internal/dpuservicechain/controllers/dpuserviceipam_ipamallocator.go): the
    calculator, which cuts the network into blocks and hands out those that are free,
    and the exclusions it derives for each cluster.

    The calculator is updated in place by the code; here each operation returns it. *)

From S2P Require Import Prelude.
From S2P Require Import NetIP.
From S2P Require Import BlockRanges.
From S2P Require Import IPRanges.

(** ** The specification (api/dpuservice/v1alpha1/dpuserviceipam_types.go) *)

Record ServiceIPRange := mkServiceIPRange { sr_StartIP : string; sr_EndIP : string }.
#[export] Instance ServiceIPRange_eq_dec : EqDecision ServiceIPRange.
Proof. solve_decision. Defined.
(** [Routes] keep their destinations. *)
Record Network := mkNetwork {
  nw_Network : string;
  nw_GatewayIndex : option Z;
  nw_PrefixSize : Z;
  nw_Exclusions : list string;
  nw_ExcludeRanges : list ServiceIPRange;
  nw_Allocations : gmap string string;
  nw_DefaultGateway : bool;
  nw_Routes : list string;
  nw_SubnetsPerDPUCluster : option Z }.
Record Subnet := mkSubnet {
  sn_Subnet : string;
  sn_Gateway : string;
  sn_PerNodeIPCount : Z;
  sn_ExcludeRanges : list ServiceIPRange;
  sn_DefaultGateway : bool;
  sn_Routes : list string;
  sn_BlocksPerDPUCluster : option Z }.

(** ** The calculator *)

Record Calculator := mkCalculator {
  availableBlockRanges : list blockIndexRange;
  excludedBlockRanges : list blockIndexRange;
  mergedExclusions : list IPRange;
  targetBlocksPerDPUCluster : Z;
  allocateAllRemainingBlocks : bool;
  parentRange : IPRange;
  effectiveStart : Addr;
  effectiveEnd : Addr;
  blockSizePerNode : Z;
  totalBlocks : Z;
  staticAllocations : gmap string string }.
Definition with_available (v : list blockIndexRange) (m : Calculator) : Calculator :=
  mkCalculator v (excludedBlockRanges m) (mergedExclusions m) (targetBlocksPerDPUCluster m) (allocateAllRemainingBlocks m) (parentRange m)
    (effectiveStart m) (effectiveEnd m) (blockSizePerNode m) (totalBlocks m) (staticAllocations m).

Definition poolBoundaryOffsets (prefix : Prefix) (isCIDRPool : bool) : Z * Z :=
  if isCIDRPool || (BitLen (pf_Addr prefix) - 1 <=? pf_Bits prefix)%Z then (0, 0)%Z
  else if Is4 (pf_Addr prefix) then (1, 1)%Z
  else (1, 0)%Z.

(** Texts of ranges, read and written. *)
Definition parse_range (r : ServiceIPRange) : Res IPRange :=
  match ParseAddr (sr_StartIP r) with
  | Err err => Err (wrapf ("invalid range start " +:+ quoted (sr_StartIP r) +:+ ": ") err)
  | Ok start =>
      match ParseAddr (sr_EndIP r) with
      | Err err => Err (wrapf ("invalid range end " +:+ quoted (sr_EndIP r) +:+ ": ") err)
      | Ok end_ =>
          if negb (BitLen start =? BitLen end_)%Z || addr_lt end_ start
          then Err (errorf ("invalid range " +:+ Addr_String start +:+ "-" +:+ Addr_String end_))
          else Ok (mkIPRange start end_)
      end
  end.
Fixpoint parseIPRanges (ranges : list ServiceIPRange) : Res (list IPRange) :=
  match ranges with
  | [] => Ok []
  | r :: ranges =>
      match parse_range r with
      | Err err => Err err
      | Ok r => match parseIPRanges ranges with Err err => Err err | Ok rs => Ok (r :: rs) end
      end
  end.
Definition parseAndMergeIPRanges (ranges : list ServiceIPRange) : Res (list IPRange) :=
  match parseIPRanges ranges with Err err => Err err | Ok parsed => Ok (MergeRanges parsed) end.
Definition toDPUServiceIPAMIPRanges (ranges : list IPRange) : list ServiceIPRange :=
  (λ r, mkServiceIPRange (Addr_String (ip_Start r)) (Addr_String (ip_End r))) <$> ranges.
(** [nvipamv1.ExcludeRange] has the same two fields. *)
Definition toNVIPAMExcludeRanges (ranges : list IPRange) : list ServiceIPRange := toDPUServiceIPAMIPRanges ranges.

(** The part of a range inside the blocks, as distances from the first of their addresses. *)
Definition clamped (effectiveStart effectiveEnd : Addr) (r : IPRange) : option (Z * Z) :=
  if negb (BitLen (ip_Start r) =? BitLen effectiveStart)%Z || addr_lt (ip_End r) effectiveStart || addr_lt effectiveEnd (ip_Start r) then None
  else
    let start := if addr_lt (ip_Start r) effectiveStart then effectiveStart else ip_Start r in
    let end_ := if addr_lt effectiveEnd (ip_End r) then effectiveEnd else ip_End r in
    Some (default 0%Z (Distance effectiveStart start), default 0%Z (Distance effectiveStart end_)).

Definition covered_blocks (effectiveStart effectiveEnd : Addr) (blockSize totalBlocks : Z) (r : IPRange) : option blockIndexRange :=
  '(startDistance, endDistance) ← clamped effectiveStart effectiveEnd r;
  let first := ceilDiv startDistance blockSize in
  if (endDistance + 1 <? blockSize)%Z then None
  else
    let last := Z.quot (endDistance + 1 - blockSize) blockSize in
    if (first <=? last)%Z && (first <? totalBlocks)%Z
    then Some (mkBlocks first (if (totalBlocks <=? last)%Z then totalBlocks - 1 else last))%Z
    else None.
Definition blockRangesFullyCoveredBy (ranges : list IPRange) (effectiveStart effectiveEnd : Addr) (blockSize totalBlocks : Z) : list blockIndexRange :=
  mergeBlockIndexRanges (omap (covered_blocks effectiveStart effectiveEnd blockSize totalBlocks) ranges).

Definition touched_blocks (effectiveStart effectiveEnd : Addr) (blockSize totalBlocks : Z) (r : IPRange) : option blockIndexRange :=
  '(startDistance, endDistance) ← clamped effectiveStart effectiveEnd r;
  let first := Z.quot startDistance blockSize in
  let last := Z.quot endDistance blockSize in
  if (first <? totalBlocks)%Z then Some (mkBlocks first (if (totalBlocks <=? last)%Z then totalBlocks - 1 else last))%Z else None.
Definition blockRangesOverlapping (ranges : list IPRange) (effectiveStart effectiveEnd : Addr) (blockSize totalBlocks : Z) : list blockIndexRange :=
  mergeBlockIndexRanges (omap (touched_blocks effectiveStart effectiveEnd blockSize totalBlocks) ranges).

Fixpoint parse_all (allocations : list (list ServiceIPRange)) : Res (list IPRange) :=
  match allocations with
  | [] => Ok []
  | ranges :: allocations =>
      match parseIPRanges ranges with
      | Err err => Err err
      | Ok parsed => match parse_all allocations with Err err => Err err | Ok rest => Ok (parsed ++ rest) end
      end
  end.

Definition newMultiDPUClusterExclusionCalculator (network : string) (blockSizePerNode : Z) (targetBlocks : option Z) (isCIDRPool : bool)
    (excludeRanges : list ServiceIPRange) (currentDPUClusterAllocations : list (list ServiceIPRange)) (staticAllocations : gmap string string)
    : Res Calculator :=
  match netip_ParsePrefix network with
  | Err err => Err (wrapf ("invalid network " +:+ quoted network +:+ ": ") err)
  | Ok prefix =>
  if Is4In6 (pf_Addr prefix) then Err (errorf ("IPv4-mapped IPv6 network " +:+ quoted network +:+ " is not supported")) else
  let prefix := Masked prefix in
  match RangeFromPrefix prefix with
  | Err err => Err (wrapf ("failed to calculate address range for network " +:+ Prefix_String prefix +:+ ": ") err)
  | Ok parentRange =>
  let parentSize := PrefixAddressCount (BitLen (pf_Addr prefix)) (pf_Bits prefix) in
  if (blockSizePerNode <=? 0)%Z then Err (errorf "per-node block size must be positive") else
  let '(startOffset, endOffset) := poolBoundaryOffsets prefix isCIDRPool in
  let effectiveSize := (parentSize - (startOffset + endOffset))%Z in
  if (effectiveSize <=? 0)%Z then Err (errorf ("network " +:+ Prefix_String prefix +:+ " contains no allocatable addresses")) else
  let totalBlocks := Z.quot effectiveSize blockSizePerNode in
  if (totalBlocks <=? 0)%Z
  then Err (errorf ("network " +:+ Prefix_String prefix +:+ " cannot fit a per-node block of " +:+ pretty blockSizePerNode +:+ " addresses")) else
  match Add (ip_Start parentRange) startOffset with
  | None => Err (errorf ("failed to calculate first allocatable address in " +:+ Prefix_String prefix))
  | Some effectiveStart =>
  match Add effectiveStart (totalBlocks * blockSizePerNode - 1) with
  | None => Err (errorf ("failed to calculate last allocatable address in " +:+ Prefix_String prefix))
  | Some effectiveEnd =>
  match parseAndMergeIPRanges excludeRanges with
  | Err err => Err err
  | Ok mergedExclusions =>
  let excludedBlockRanges := blockRangesFullyCoveredBy mergedExclusions effectiveStart effectiveEnd blockSizePerNode totalBlocks in
  match parse_all currentDPUClusterAllocations with
  | Err err => Err err
  | Ok existingRanges =>
  let preTaken := blockRangesOverlapping existingRanges effectiveStart effectiveEnd blockSizePerNode totalBlocks in
  let unavailable := mergeBlockIndexRanges (excludedBlockRanges ++ preTaken) in
  let available := subtractBlockIndexRanges [mkBlocks 0 (totalBlocks - 1)] unavailable in
  Ok (mkCalculator available excludedBlockRanges mergedExclusions (default 0%Z targetBlocks) (bool_decide (targetBlocks = None)) parentRange
        effectiveStart effectiveEnd blockSizePerNode totalBlocks staticAllocations)
  end end end end end end.

Definition NewMultiDPUClusterExclusionCalculatorForSubnet (spec : Subnet) (current : list (list ServiceIPRange)) : Res Calculator :=
  newMultiDPUClusterExclusionCalculator (sn_Subnet spec) (sn_PerNodeIPCount spec) (sn_BlocksPerDPUCluster spec) false (sn_ExcludeRanges spec) current ∅.

Definition NewMultiDPUClusterExclusionCalculatorForNetwork (spec : Network) (current : list (list ServiceIPRange)) : Res Calculator :=
  match netip_ParsePrefix (nw_Network spec) with
  | Err err => Err (wrapf ("invalid network " +:+ quoted (nw_Network spec) +:+ ": ") err)
  | Ok prefix =>
      if Is4In6 (pf_Addr prefix) then Err (errorf ("IPv4-mapped IPv6 network " +:+ quoted (nw_Network spec) +:+ " is not supported"))
      else
        let excludeRanges := ((λ address, mkServiceIPRange address address) <$> nw_Exclusions spec) ++ nw_ExcludeRanges spec in
        newMultiDPUClusterExclusionCalculator (nw_Network spec) (PrefixAddressCount (BitLen (pf_Addr prefix)) (nw_PrefixSize spec))
          (nw_SubnetsPerDPUCluster spec) true excludeRanges current (nw_Allocations spec)
  end.

(** ** Handing out blocks *)

Section Calculator.
Implicit Types (m : Calculator).

Definition block_addresses m (r : blockIndexRange) : option IPRange :=
  let startOffset := (br_Start r * blockSizePerNode m)%Z in
  let endOffset := ((br_End r + 1) * blockSizePerNode m - 1)%Z in
  match Add (effectiveStart m) startOffset, Add (effectiveStart m) endOffset with
  | Some start, Some end_ => Some (mkIPRange start end_)
  | _, _ => None
  end.
Fixpoint blockIndicesToIPRanges m (indices : list blockIndexRange) : Res (list IPRange) :=
  match indices with
  | [] => Ok []
  | r :: indices =>
      match block_addresses m r with
      | None => Err (errorf ("block index range " +:+ pretty (br_Start r) +:+ "-" +:+ pretty (br_End r) +:+ " overflows the allocatable address range"))
      | Some range => match blockIndicesToIPRanges m indices with Err err => Err err | Ok ranges => Ok (range :: ranges) end
      end
  end.

Definition no_blocks : GoError := errorf "no allocatable blocks remaining".
Definition consumeBlocks (count : Z) m : Res (list IPRange) * Calculator :=
  if (count <? 1)%Z then (Err (errorf "target blocks per DPUCluster must be at least 1"), m)
  else
    let '(selected, remaining) := takeBlockIndices (availableBlockRanges m) count in
    if (blockIndexRangeCount selected =? 0)%Z then (Err no_blocks, m)
    else let m := with_available remaining m in (blockIndicesToIPRanges m selected, m).
Definition consumeAllBlocks m : Res (list IPRange) * Calculator :=
  match availableBlockRanges m with
  | [] => (Err no_blocks, m)
  | selected => let m := with_available [] m in (blockIndicesToIPRanges m selected, m)
  end.

Definition areClusterBlocksCompatible m (clusterBlocks : list IPRange) : bool :=
  negb (existsb (λ block, negb (Range_In block (parentRange m))) clusterBlocks).

(** The complete blocks of one range, counted from its own start. *)
Definition allocatable_in m (allocated : IPRange) : Z :=
  match Distance (ip_Start allocated) (ip_End allocated) with
  | None => 0
  | Some distance =>
      let blockCount := Z.quot (distance + 1) (blockSizePerNode m) in
      if (blockCount =? 0)%Z then 0
      else match Add (ip_Start allocated) (blockCount * blockSizePerNode m - 1) with
           | None => 0
           | Some completeEnd =>
               blockCount - blockIndexRangeCount
                 (blockRangesFullyCoveredBy (mergedExclusions m) (ip_Start allocated) completeEnd (blockSizePerNode m) blockCount)
           end
  end%Z.
Definition countAllocatableBlocks m (ranges : list IPRange) : Z :=
  foldl (λ total allocated, total + allocatable_in m allocated)%Z 0%Z (MergeRanges ranges).

Definition consume m : Res (list IPRange) * Calculator :=
  if allocateAllRemainingBlocks m then consumeAllBlocks m else consumeBlocks (targetBlocksPerDPUCluster m) m.
(** More blocks for a cluster that keeps those it has. *)
Definition top_up (existing : list IPRange) (r : Res (list IPRange) * Calculator) : Res (list IPRange) * Calculator :=
  match r with
  | (Err _, m) => (Ok existing, m)
  | (Ok additional, m) => (Ok (existing ++ additional), m)
  end.
Definition computeBlocksForCluster m (existing : list IPRange) : Res (list IPRange) * Calculator :=
  if bool_decide (existing ≠ []) && areClusterBlocksCompatible m existing then
    let count := countAllocatableBlocks m existing in
    if (0 <? count)%Z then
      if allocateAllRemainingBlocks m then top_up existing (consumeAllBlocks m)
      else if (targetBlocksPerDPUCluster m <=? count)%Z then (Ok existing, m)
      else top_up existing (consumeBlocks (targetBlocksPerDPUCluster m - count) m)
    else consume m
  else consume m.

Definition AllocateClusterBlocks m (existingClusterBlocks : list ServiceIPRange) : Res (list ServiceIPRange) * Calculator :=
  match parseIPRanges existingClusterBlocks with
  | Err err => (Err err, m)
  | Ok parsed =>
      match computeBlocksForCluster m parsed with
      | (Err err, m) => (Err err, m)
      | (Ok blocks, m) => (Ok (toDPUServiceIPAMIPRanges (MergeRanges blocks)), m)
      end
  end.

(** ** The exclusions of a cluster *)

Definition subtract_static (exclusions : list IPRange) (prefixString : string) : Res (list IPRange) :=
  match netip_ParsePrefix prefixString with
  | Err _ => Ok exclusions
  | Ok prefix =>
      if Is4In6 (pf_Addr prefix) then Err (errorf ("IPv4-mapped IPv6 static allocation " +:+ quoted prefixString +:+ " is not supported"))
      else match RangeFromPrefix prefix with
           | Err err => Err (wrapf ("failed to calculate static allocation range " +:+ quoted prefixString +:+ ": ") err)
           | Ok allocationRange => Ok (SubtractRange exclusions allocationRange)
           end
  end.
Fixpoint subtract_all_static (exclusions : list IPRange) (prefixes : list string) : Res (list IPRange) :=
  match prefixes with
  | [] => Ok exclusions
  | p :: prefixes => match subtract_static exclusions p with Err err => Err err | Ok exclusions => subtract_all_static exclusions prefixes end
  end.
Definition subtractStaticAllocations {R : MapRange} (exclusions : list IPRange) (static : gmap string string) : Res (list IPRange) :=
  subtract_all_static exclusions (snd <$> range_map static).

Definition ComputeExclusions {R : MapRange} m (clusterBlocks : list ServiceIPRange) : Res (list ServiceIPRange) :=
  match parseIPRanges clusterBlocks with
  | Err err => Err (wrapf "failed to parse DPUCluster allocation: " err)
  | Ok allocs =>
      match subtractStaticAllocations (ExcludeRanges (parentRange m) (MergeRanges allocs)) (staticAllocations m) with
      | Err err => Err err
      | Ok partitionExclusions => Ok (toNVIPAMExcludeRanges (MergeRanges (partitionExclusions ++ mergedExclusions m)))
      end
  end.
End Calculator.

Definition subnet_example : Subnet := mkSubnet "10.0.0.0/24" "10.0.0.1" 10 [mkServiceIPRange "10.0.0.1" "10.0.0.20"] false [] (Some 3%Z).
Example allocate_example :
  match NewMultiDPUClusterExclusionCalculatorForSubnet subnet_example [[]; []] with
  | Ok m => let '(r1, m) := AllocateClusterBlocks m [] in let '(r2, m) := AllocateClusterBlocks m [] in Some (r1, r2, match r1 with Ok r1 => ComputeExclusions (R:=map_to_list_range) m r1 | e => e end)
  | Err _ => None
  end = Some (Ok [mkServiceIPRange "10.0.0.21" "10.0.0.50"], Ok [mkServiceIPRange "10.0.0.51" "10.0.0.80"],
              Ok [mkServiceIPRange "10.0.0.0" "10.0.0.20"; mkServiceIPRange "10.0.0.51" "10.0.0.255"]).
Proof. vm_compute. reflexivity. Qed.
