(* ===== verification/IPAMBlocks.v ===== *)
(** What the calculator of the IPAM allocator does: which blocks it starts from, which
    it hands out, and that it keeps them apart. *)

From S2P Require Import Prelude.
From S2P Require Import NetIP.
From S2P Require Import BlockRanges.
From S2P Require Import IPRanges.
From S2P Require Import IPAMAllocator.

(** ** Blocks as sets of addresses *)

(** The positions of the addresses of a block. *)
Definition block_start (m : Calculator) (x : Z) : Z := (position (effectiveStart m) + x * blockSizePerNode m)%Z.
Definition in_node_block (m : Calculator) (x y : Z) : Prop := (block_start m x <= y < block_start m (x + 1))%Z.
Definition stretch (m : Calculator) (r : blockIndexRange) : blockIndexRange := mkBlocks (block_start m (br_Start r)) (block_start m (br_End r + 1) - 1)%Z.

Record calc_ok (m : Calculator) : Prop := {
  co_start : plain (effectiveStart m);
  co_size : (0 < blockSizePerNode m)%Z;
  co_total : (0 < totalBlocks m)%Z;
  co_fits : (addr_value (effectiveStart m) + totalBlocks m * blockSizePerNode m <= 2 ^ BitLen (effectiveStart m))%Z;
  co_parent : range_ok (parentRange m);
  co_parent_family : BitLen (ip_Start (parentRange m)) = BitLen (effectiveStart m);
  co_parent_start : (position (ip_Start (parentRange m)) <= block_start m 0)%Z;
  co_parent_end : (block_start m (totalBlocks m) - 1 <= position (ip_End (parentRange m)))%Z;
  co_exclusions : Forall range_ok (mergedExclusions m) ∧ canonical (to_block <$> mergedExclusions m);
  co_available : canonical (availableBlockRanges m);
  co_bounds x : covers (availableBlockRanges m) x → (0 <= x < totalBlocks m)%Z }.

Lemma block_start_mono m x y : (0 < blockSizePerNode m)%Z → (x <= y)%Z → (block_start m x <= block_start m y)%Z.
Proof. intros Hs Hxy. unfold block_start. nia. Qed.
Lemma block_start_lt m x y : (0 < blockSizePerNode m)%Z → (block_start m x < block_start m y)%Z → (x < y)%Z.
Proof. intros Hs Hlt. unfold block_start in Hlt. nia. Qed.
(** An address is in one block. *)
Lemma node_block_inj m x x' y : (0 < blockSizePerNode m)%Z → in_node_block m x y → in_node_block m x' y → x = x'.
Proof.
  unfold in_node_block. intros Hs [H1 H2] [H3 H4].
  assert (x < x' + 1)%Z by (apply (block_start_lt m); [done|lia]). assert (x' < x + 1)%Z by (apply (block_start_lt m); [done|lia]). lia.
Qed.

(** The addresses of a stretch of blocks are those of its blocks. *)
Lemma stretch_spec m r y : (0 < blockSizePerNode m)%Z → proper r →
  in_block y (stretch m r) ↔ ∃ x, in_block x r ∧ in_node_block m x y.
Proof.
  intros Hs Hp. unfold in_block, stretch, in_node_block, proper in *. cbn. split.
  - intros Hy. set (x := ((y - position (effectiveStart m)) / blockSizePerNode m)%Z). exists x.
    assert (block_start m x <= y < block_start m (x + 1))%Z as Hx.
    { unfold block_start, x. pose proof (Z.div_mod (y - position (effectiveStart m)) (blockSizePerNode m) ltac:(lia)).
      pose proof (Z.mod_pos_bound (y - position (effectiveStart m)) (blockSizePerNode m) Hs). nia. }
    split; [|done]. assert (br_Start r < x + 1)%Z by (apply (block_start_lt m); [done|lia]).
    assert (x < br_End r + 1)%Z by (apply (block_start_lt m); [done|lia]). lia.
  - intros (x & Hx & Hy). pose proof (block_start_mono m (br_Start r) x Hs ltac:(lia)).
    pose proof (block_start_mono m (x + 1) (br_End r + 1) Hs ltac:(lia)). lia.
Qed.
Lemma covers_stretch m rs y : (0 < blockSizePerNode m)%Z → Forall proper rs →
  covers (stretch m <$> rs) y ↔ ∃ x, covers rs x ∧ in_node_block m x y.
Proof.
  intros Hs Hp. unfold covers. rewrite Exists_fmap, Exists_exists. rewrite Forall_forall in Hp. split.
  - intros (r & Hr & Hy). apply stretch_spec in Hy as (x & Hx & Hy); [|done|by apply Hp]. exists x. split; [|done]. apply Exists_exists. by exists r.
  - intros (x & (r & Hr & Hx)%Exists_exists & Hy). exists r. split; [done|]. apply stretch_spec; [done|by apply Hp|]. by exists x.
Qed.

(** The ranges of addresses of blocks: they never overflow. *)
Lemma block_addresses_spec m r : calc_ok m → proper r → (0 <= br_Start r)%Z → (br_End r < totalBlocks m)%Z →
  ∃ range, block_addresses m r = Some range ∧ range_ok range ∧ to_block range = stretch m r ∧ BitLen (ip_Start range) = BitLen (effectiveStart m).
Proof.
  intros Hok Hp H0 Ht. unfold proper in Hp. pose proof (co_start m Hok) as Hst. pose proof (co_size m Hok) as Hs. pose proof (co_fits m Hok) as Hf.
  unfold block_addresses.
  assert ((br_End r + 1) * blockSizePerNode m <= totalBlocks m * blockSizePerNode m)%Z by (apply Z.mul_le_mono_nonneg_r; lia).
  assert (br_Start r * blockSizePerNode m <= br_End r * blockSizePerNode m)%Z by (apply Z.mul_le_mono_nonneg_r; lia).
  assert (0 <= br_Start r * blockSizePerNode m)%Z by nia.
  destruct (Add_some (effectiveStart m) (br_Start r * blockSizePerNode m)) as (a & -> & Ha & Hfa & Hva); [done|lia|lia|].
  destruct (Add_some (effectiveStart m) ((br_End r + 1) * blockSizePerNode m - 1)) as (b & -> & Hb & Hfb & Hvb); [done|lia|lia|].
  eexists. split; [done|]. split; [split; cbn; [done|done|congruence|lia]|]. split; [|done].
  pose proof (family_position (effectiveStart m) a Hst Ha (eq_sym Hfa)). pose proof (family_position (effectiveStart m) b Hst Hb (eq_sym Hfb)).
  unfold to_block, stretch, block_start. cbn. f_equal; lia.
Qed.

Lemma canonical_bounds m rs : canonical rs → (∀ x, covers rs x → (0 <= x < totalBlocks m)%Z) →
  Forall (λ r, proper r ∧ (0 <= br_Start r)%Z ∧ (br_End r < totalBlocks m)%Z) rs.
Proof.
  intros [Hp _] Hb. rewrite Forall_forall in *. intros r Hr. specialize (Hp r Hr). unfold proper in Hp. split; [done|].
  assert (covers rs (br_Start r)) as H1 by (apply Exists_exists; exists r; split; [done|unfold in_block; lia]).
  assert (covers rs (br_End r)) as H2 by (apply Exists_exists; exists r; split; [done|unfold in_block; lia]).
  apply Hb in H1, H2. lia.
Qed.

Lemma blockIndicesToIPRanges_spec m rs : calc_ok m → Forall (λ r, proper r ∧ (0 <= br_Start r)%Z ∧ (br_End r < totalBlocks m)%Z) rs →
  ∃ ranges, blockIndicesToIPRanges m rs = Ok ranges ∧ Forall range_ok ranges ∧ to_block <$> ranges = stretch m <$> rs.
Proof.
  intros Hok Hrs. induction Hrs as [|r rs (Hp & H0 & Ht) Hrs IH]; [by exists []|]. destruct IH as (ranges & E & Hr & Hb).
  destruct (block_addresses_spec m r Hok Hp H0 Ht) as (range & Ea & Hro & Hrb & _). exists (range :: ranges). cbn [blockIndicesToIPRanges].
  rewrite Ea, E. split; [done|]. split; [by constructor|]. by rewrite !fmap_cons, Hrb, Hb.
Qed.

(** ** Handing out *)

(** [m'] has given the blocks [sel] of [m] away, and [ranges] are their addresses. *)
Record hands_out (m m' : Calculator) (sel : list blockIndexRange) (ranges : list IPRange) : Prop := {
  ho_calc : m' = with_available (availableBlockRanges m') m;
  ho_ok : calc_ok m';
  ho_sel : canonical sel;
  ho_split x : covers (availableBlockRanges m) x ↔ covers sel x ∨ covers (availableBlockRanges m') x;
  ho_apart x : covers sel x → ¬ covers (availableBlockRanges m') x;
  ho_ranges : Forall range_ok ranges;
  ho_blocks : to_block <$> ranges = stretch m <$> sel }.

Lemma with_available_same m : with_available (availableBlockRanges m) m = m.
Proof. by destruct m. Qed.

Lemma calc_ok_available m v : calc_ok m → canonical v → (∀ x, covers v x → covers (availableBlockRanges m) x) → calc_ok (with_available v m).
Proof. intros [] Hc Hv. split; try done. intros x Hx. apply co_bounds0, Hv, Hx. Qed.

(** Nothing handed out. *)
Lemma hands_nothing m : calc_ok m → hands_out m m [] [].
Proof.
  intros Hok. split; [by rewrite with_available_same|done|apply canonical_nil| | |constructor|done].
  - intros x. pose proof (covers_nil x). tauto.
  - by intros x ?%covers_nil.
Qed.

Lemma hands_selected m sel rem : calc_ok m → canonical sel → canonical rem →
  (∀ x, covers (availableBlockRanges m) x ↔ covers sel x ∨ covers rem x) → (∀ x, covers sel x → ¬ covers rem x) →
  ∃ ranges, blockIndicesToIPRanges (with_available rem m) sel = Ok ranges ∧ hands_out m (with_available rem m) sel ranges.
Proof.
  intros Hok Hs Hr Hsplit Hapart. assert (calc_ok (with_available rem m)) as Hok' by (apply calc_ok_available; [done..|]; intros x Hx; apply Hsplit; auto).
  destruct (blockIndicesToIPRanges_spec (with_available rem m) sel Hok') as (ranges & E & Hro & Hb).
  { apply canonical_bounds; [done|]. intros x Hx. apply (co_bounds m Hok), Hsplit. auto. }
  exists ranges. split; [done|]. by split.
Qed.

Lemma consumeAllBlocks_spec m : calc_ok m →
  match consumeAllBlocks m with
  | (Err _, m') => m' = m ∧ availableBlockRanges m = []
  | (Ok ranges, m') => ∃ sel, sel ≠ [] ∧ hands_out m m' sel ranges ∧ availableBlockRanges m' = []
  end.
Proof.
  intros Hok. unfold consumeAllBlocks. destruct (availableBlockRanges m) as [|r rs] eqn:E; [done|].
  destruct (hands_selected m (r :: rs) []) as (ranges & Er & Hh).
  - done.
  - rewrite <- E. apply (co_available m Hok).
  - apply canonical_nil.
  - intros x. rewrite E. pose proof (covers_nil x). tauto.
  - intros x _. apply covers_nil.
  - rewrite Er. by exists (r :: rs).
Qed.

Lemma consumeBlocks_spec count m : calc_ok m →
  match consumeBlocks count m with
  | (Err _, m') => m' = m ∧ ((count < 1)%Z ∨ availableBlockRanges m = [])
  | (Ok ranges, m') => ∃ sel, sel ≠ [] ∧ (blockIndexRangeCount sel <= count)%Z ∧ hands_out m m' sel ranges ∧
      ((blockIndexRangeCount sel < count)%Z → availableBlockRanges m' = [])
  end.
Proof.
  intros Hok. unfold consumeBlocks. destruct (Z.ltb_spec count 1); [by split; [|left]|].
  pose proof (takeBlockIndices_spec (availableBlockRanges m) count (co_available m Hok) ltac:(lia)) as [Hs Hr Hc Hf Hn Hw].
  assert ((blockIndexRangeCount (takeBlockIndices (availableBlockRanges m) count).1 < count)%Z → (takeBlockIndices (availableBlockRanges m) count).2 = []) as Hall.
  { intros Hlt. by rewrite take_all by (try apply (co_available m Hok); lia). }
  destruct (takeBlockIndices (availableBlockRanges m) count) as [sel rem]. cbn [fst snd] in *.
  destruct (Z.eqb_spec (blockIndexRangeCount sel) 0) as [E0|Hne].
  { split; [done|]. right. apply (count_proper _ (proj1 (co_available m Hok))). lia. }
  destruct (hands_selected m sel rem Hok Hs Hr Hc) as (ranges & -> & Hh).
  { intros x Hx Hx'. specialize (Hf x x Hx Hx'). lia. }
  exists sel. split; [intros ->; done|]. split; [lia|]. split; [done|]. exact Hall.
Qed.
