(* ===== verification/IPAMCalculator.v ===== *)
(** Where the calculator of the IPAM allocator starts: which blocks the exclusions cover,
    which blocks the existing allocations touch, and which are left to hand out. *)

From S2P Require Import Prelude.
From S2P Require Import NetIP.
From S2P Require Import BlockRanges.
From S2P Require Import IPRanges.
From S2P Require Import IPAMAllocator.
From S2P Require Import IPAMBlocks.

(** ** Blocks of a stretch of addresses *)

Section Grid.
Context (s e : Addr) (size total : Z).
Context (Hs : plain s) (He : plain e) (Hf : BitLen e = BitLen s) (Hsize : (0 < size)%Z) (Htotal : (0 < total)%Z).
Context (Hend : (addr_value e = addr_value s + total * size - 1)%Z).

(** The first address of a block, and the one after its last. *)
Definition grid (x : Z) : Z := (position s + x * size)%Z.

Lemma grid_end : (position e = grid total - 1)%Z.
Proof. pose proof (family_position s e Hs He (eq_sym Hf)). unfold grid. lia. Qed.

Lemma clamped_spec r : range_ok r →
  match clamped s e r with
  | Some (d1, d2) =>
      d1 = (Z.max (position (ip_Start r)) (position s) - position s)%Z ∧ d2 = (Z.min (position (ip_End r)) (position e) - position s)%Z ∧ (d1 <= d2)%Z
  | None => (position (ip_End r) < position s)%Z ∨ (position e < position (ip_Start r))%Z
  end.
Proof.
  intros Hr. pose proof Hr as [Hrs Hre Hrf Hro]. pose proof (range_proper r Hr) as Hp. unfold proper in Hp. cbn in Hp.
  unfold clamped. rewrite !addr_lt_position by done. pose proof grid_end as Hge. unfold grid in Hge.
  assert (position s <= position e)%Z by nia.
  destruct (Z.eqb_spec (BitLen (ip_Start r)) (BitLen s)) as [E|E]; cbn [negb orb].
  2: { destruct (Z.lt_total (BitLen (ip_Start r)) (BitLen s)) as [Hlt|[?|Hlt]]; [left|done|right]; apply family_lt; by rewrite ?Hrf, ?Hf. }
  destruct (Z.ltb_spec (position (ip_End r)) (position s)); cbn [orb]; [by left|].
  destruct (Z.ltb_spec (position e) (position (ip_Start r))); [by right|].
  set (a := if (position (ip_Start r) <? position s)%Z then s else ip_Start r).
  set (b := if (position e <? position (ip_End r))%Z then e else ip_End r).
  assert (plain a ∧ BitLen a = BitLen s ∧ position a = Z.max (position (ip_Start r)) (position s)) as (Ha & Hfa & Hpa).
  { unfold a. destruct (Z.ltb_spec (position (ip_Start r)) (position s)); split_and!; try done; lia. }
  assert (plain b ∧ BitLen b = BitLen s ∧ position b = Z.min (position (ip_End r)) (position e)) as (Hb & Hfb & Hpb).
  { unfold b. destruct (Z.ltb_spec (position e) (position (ip_End r))); split_and!; try done; try congruence; lia. }
  pose proof (family_position s a Hs Ha (eq_sym Hfa)). pose proof (family_position s b Hs Hb (eq_sym Hfb)).
  rewrite !Distance_spec by (try done; lia). cbn. lia.
Qed.

Lemma ceilDiv_spec v x : (0 <= v)%Z → (ceilDiv v size <= x)%Z ↔ (v <= x * size)%Z.
Proof.
  intros Hv. unfold ceilDiv. destruct (Z.eqb_spec v 0) as [->|].
  - split; nia.
  - rewrite Z.quot_div_nonneg by lia. pose proof (Z.div_mod (v + (size - 1)) size ltac:(lia)).
    pose proof (Z.mod_pos_bound (v + (size - 1)) size Hsize). split; intros; nia.
Qed.
Lemma quot_spec v x : (0 <= v)%Z → (x <= Z.quot v size)%Z ↔ (x * size <= v)%Z.
Proof.
  intros Hv. rewrite Z.quot_div_nonneg by lia. pose proof (Z.div_mod v size ltac:(lia)).
  pose proof (Z.mod_pos_bound v size Hsize). split; intros; nia.
Qed.

(** The whole of block [x] is in [r]; [r] has an address of block [x]. *)
Definition block_within (x : Z) (r : IPRange) : Prop := (position (ip_Start r) <= grid x)%Z ∧ (grid (x + 1) - 1 <= position (ip_End r))%Z.
Definition block_meets (x : Z) (r : IPRange) : Prop := (position (ip_Start r) <= grid (x + 1) - 1)%Z ∧ (grid x <= position (ip_End r))%Z.

Lemma covered_blocks_spec r x : range_ok r →
  (∃ b, covered_blocks s e size total r = Some b ∧ in_block x b) ↔ (0 <= x < total)%Z ∧ block_within x r.
Proof.
  intros Hr. pose proof (clamped_spec r Hr) as Hc. unfold covered_blocks, block_within. pose proof grid_end as Hge. unfold grid in *.
  destruct (clamped s e r) as [[d1 d2]|]; cbn [mbind option_bind].
  2: { split; [by intros (b & ? & _)|]. intros (Hx & H1 & H2). nia. }
  destruct Hc as (E1 & E2 & Hle). pose proof (ceilDiv_spec d1 x ltac:(lia)) as Hceil. pose proof (ceilDiv_spec d1 (ceilDiv d1 size) ltac:(lia)) as Hself.
  assert ((0 <= x < total)%Z → (position (ip_Start r) <= position s + x * size)%Z ↔ (d1 <= x * size)%Z) as Hstart by nia.
  assert ((0 <= x < total)%Z → (position s + (x + 1) * size - 1 <= position (ip_End r))%Z ↔ ((x + 1) * size <= d2 + 1)%Z) as Hlast by nia.
  destruct (Z.ltb_spec (d2 + 1) size) as [Hlt|Hge'].
  { split; [by intros (b & ? & _)|]. intros (Hx & H1 & H2). apply Hlast in H2; [|done]. nia. }
  pose proof (quot_spec (d2 + 1 - size) x ltac:(lia)) as Hq. set (first := ceilDiv d1 size) in *. set (last := Z.quot (d2 + 1 - size) size) in *.
  assert (0 <= first)%Z by (unfold first, ceilDiv; destruct (d1 =? 0)%Z; [done|apply Z.quot_pos; lia]).
  transitivity ((first <= x)%Z ∧ (x <= last)%Z ∧ (x < total)%Z).
  - destruct (Z.leb_spec first last); cbn [andb]; [destruct (Z.ltb_spec first total)|].
    + split.
      * intros (b & [= <-] & Hx). unfold in_block in Hx. cbn in Hx. destruct (Z.leb_spec total last); lia.
      * intros Hx. eexists. split; [done|]. unfold in_block. cbn. destruct (Z.leb_spec total last); lia.
    + split; [by intros (b & ? & _)|]. lia.
    + split; [by intros (b & ? & _)|]. lia.
  - rewrite Hceil, Hq. split.
    + intros (H1 & H2 & H3). assert (0 <= x < total)%Z as Hx by nia. split; [done|]. split; [by apply Hstart|apply Hlast; [done|lia]].
    + intros (Hx & H1 & H2). apply Hstart in H1; [|done]. apply Hlast in H2; [|done]. lia.
Qed.

Lemma touched_blocks_spec r x : range_ok r →
  (∃ b, touched_blocks s e size total r = Some b ∧ in_block x b) ↔ (0 <= x < total)%Z ∧ block_meets x r.
Proof.
  intros Hr. pose proof (clamped_spec r Hr) as Hc. unfold touched_blocks, block_meets. pose proof grid_end as Hge. unfold grid in *.
  destruct (clamped s e r) as [[d1 d2]|]; cbn [mbind option_bind].
  2: { split; [by intros (b & ? & _)|]. intros (Hx & H1 & H2). nia. }
  destruct Hc as (E1 & E2 & Hle). pose proof (quot_spec d1 (x + 1) ltac:(lia)) as Hq1. pose proof (quot_spec d2 x ltac:(lia)) as Hq2.
  set (first := Z.quot d1 size) in *. set (last := Z.quot d2 size) in *.
  assert ((0 <= x < total)%Z → (position (ip_Start r) <= position s + (x + 1) * size - 1)%Z ↔ (d1 <= (x + 1) * size - 1)%Z) as Hstart by nia.
  assert ((0 <= x < total)%Z → (position s + x * size <= position (ip_End r))%Z ↔ (x * size <= d2)%Z) as Hlast by nia.
  assert (0 <= first)%Z by (apply Z.quot_pos; lia).
  transitivity ((first <= x)%Z ∧ (x <= last)%Z ∧ (x < total)%Z).
  - destruct (Z.ltb_spec first total).
    + split.
      * intros (b & [= <-] & Hx). unfold in_block in Hx. cbn in Hx. destruct (Z.leb_spec total last); lia.
      * intros Hx. eexists. split; [done|]. unfold in_block. cbn. destruct (Z.leb_spec total last); lia.
    + split; [by intros (b & ? & _)|]. lia.
  - split.
    + intros (H1 & H2 & H3). assert (0 <= x < total)%Z as Hx by lia. split; [done|]. split; [apply Hstart; [done|nia]|apply Hlast; [done|lia]].
    + intros (Hx & H1 & H2). apply Hstart in H1; [|done]. apply Hlast in H2; [|done]. nia.
Qed.

(** What two loops make of their ranges. *)
Lemma merged_blocks (f : IPRange → option blockIndexRange) (P : Z → IPRange → Prop) rs :
  (∀ r x, range_ok r → (∃ b, f r = Some b ∧ in_block x b) ↔ (0 <= x < total)%Z ∧ P x r) →
  (∀ r b, range_ok r → f r = Some b → proper b) → Forall range_ok rs →
  canonical (mergeBlockIndexRanges (omap f rs)) ∧
  ∀ x, covers (mergeBlockIndexRanges (omap f rs)) x ↔ (0 <= x < total)%Z ∧ Exists (P x) rs.
Proof.
  intros Hf' Hp Hrs. destruct (mergeBlockIndexRanges_spec (omap f rs)) as [Hc Hx].
  { apply Forall_forall. intros b (r & Hr & Hb)%list_elem_of_omap. rewrite Forall_forall in Hrs. eapply Hp; [|exact Hb]. by apply Hrs. }
  split; [done|]. intros x. rewrite Hx. unfold covers. rewrite !Exists_exists. rewrite Forall_forall in Hrs. split.
  - intros (b & (r & Hr & Hb)%list_elem_of_omap & Hin). destruct (proj1 (Hf' r x (Hrs r Hr))) as [? ?]; [by exists b|]. split; [done|]. by exists r.
  - intros (Hx' & r & Hr & HP). destruct (proj2 (Hf' r x (Hrs r Hr))) as (b & Hb & Hin); [done|]. exists b. split; [|done].
    apply list_elem_of_omap. by exists r.
Qed.

Lemma covered_proper r b : covered_blocks s e size total r = Some b → proper b.
Proof.
  unfold covered_blocks. destruct (clamped s e r) as [[d1 d2]|]; [|done]. cbn [mbind option_bind]. destruct (_ <? size)%Z; [done|].
  destruct (Z.leb_spec (ceilDiv d1 size) (Z.quot (d2 + 1 - size) size)); [|done]. destruct (Z.ltb_spec (ceilDiv d1 size) total); [|done].
  intros [= <-]. unfold proper. cbn. destruct (Z.leb_spec total (Z.quot (d2 + 1 - size) size)); lia.
Qed.
Lemma touched_proper r b : range_ok r → touched_blocks s e size total r = Some b → proper b.
Proof.
  intros Hr. pose proof (clamped_spec r Hr) as Hc. unfold touched_blocks. destruct (clamped s e r) as [[d1 d2]|]; [|done]. destruct Hc as (E1 & _ & Hle).
  cbn [mbind option_bind]. destruct (Z.ltb_spec (Z.quot d1 size) total); [|done].
  intros [= <-]. unfold proper. cbn. pose proof (Z.quot_le_mono d1 d2 size Hsize ltac:(lia)).
  destruct (Z.leb_spec total (Z.quot d2 size)); lia.
Qed.

Lemma blockRangesFullyCoveredBy_spec rs : Forall range_ok rs →
  canonical (blockRangesFullyCoveredBy rs s e size total) ∧
  ∀ x, covers (blockRangesFullyCoveredBy rs s e size total) x ↔ (0 <= x < total)%Z ∧ Exists (block_within x) rs.
Proof. apply merged_blocks; [intros r x; apply covered_blocks_spec|intros r b _; apply covered_proper]. Qed.
Lemma blockRangesOverlapping_spec rs : Forall range_ok rs →
  canonical (blockRangesOverlapping rs s e size total) ∧
  ∀ x, covers (blockRangesOverlapping rs s e size total) x ↔ (0 <= x < total)%Z ∧ Exists (block_meets x) rs.
Proof. apply merged_blocks; [intros r x; apply touched_blocks_spec|intros r b; apply touched_proper]. Qed.
End Grid.

(** ** Texts of ranges *)

(** The text is not that of an address with a zone, such as fe80::1%eth0. *)
Definition no_zone (s : string) : Prop := ∀ a, netip_ParseAddr s = Ok a → addr_zone a = "".
Definition zoneless (r : ServiceIPRange) : Prop := no_zone (sr_StartIP r) ∧ no_zone (sr_EndIP r).

(** The positions of the addresses that texts of ranges give. *)
Definition text_block (r : ServiceIPRange) (y : Z) : Prop :=
  ∃ a b, netip_ParseAddr (sr_StartIP r) = Ok a ∧ netip_ParseAddr (sr_EndIP r) = Ok b ∧ (position a <= y <= position b)%Z.
Definition text_covers (rs : list ServiceIPRange) (y : Z) : Prop := Exists (λ r, text_block r y) rs.

Lemma ParseAddr_plain s a : no_zone s → ParseAddr s = Ok a → plain a ∧ netip_ParseAddr s = Ok a.
Proof.
  intros Hz. unfold ParseAddr. destruct (netip_ParseAddr s) as [b|] eqn:E; [|done]. destruct (Is4In6 b); [done|]. intros [= ->].
  pose proof (Hz _ E) as Hzone. apply ParseAddr_wf in E as [Hwf _]. done.
Qed.
Lemma plain_order a b : plain a → plain b → BitLen a = BitLen b → (position a <= position b)%Z → (addr_value a <= addr_value b)%Z.
Proof. intros Ha Hb Hf Hle. pose proof (family_position a b Ha Hb Hf). lia. Qed.

Lemma parse_range_ok t r : zoneless t → parse_range t = Ok r → range_ok r ∧ ∀ y, text_block t y ↔ in_block y (to_block r).
Proof.
  intros [Hz1 Hz2]. unfold parse_range. destruct (ParseAddr (sr_StartIP t)) as [a|] eqn:Ea; [|done]. destruct (ParseAddr (sr_EndIP t)) as [b|] eqn:Eb; [|done].
  apply ParseAddr_plain in Ea as [Ha Ea]; [|done]. apply ParseAddr_plain in Eb as [Hb Eb]; [|done]. rewrite addr_lt_position by done.
  destruct (Z.eqb_spec (BitLen a) (BitLen b)); [|done]. cbn. destruct (Z.ltb_spec (position b) (position a)); [done|]. intros [= <-].
  split; [split; cbn; try done; by apply plain_order|]. intros y. unfold text_block, in_block, to_block. cbn. split.
  - intros (a' & b' & E1 & E2 & Hy). congruence.
  - intros Hy. by exists a, b.
Qed.

Lemma parseIPRanges_ok ts rs : Forall zoneless ts → parseIPRanges ts = Ok rs →
  Forall range_ok rs ∧ ∀ y, text_covers ts y ↔ covers (to_block <$> rs) y.
Proof.
  intros Hz. revert rs. induction Hz as [|t ts Ht Hts IH]; intros rs; cbn [parseIPRanges].
  - intros [= <-]. split; [constructor|]. intros y. unfold text_covers, covers. cbn. by rewrite !Exists_nil.
  - destruct (parse_range t) as [r|] eqn:Er; [|done]. destruct (parseIPRanges ts) as [rs'|]; [|done]. intros [= <-].
    apply parse_range_ok in Er as [Hr Hy]; [|done]. destruct (IH rs' eq_refl) as [Hrs Hx]. split; [by constructor|].
    intros y. unfold text_covers in *. rewrite fmap_cons, covers_cons, Exists_cons, Hy, Hx. done.
Qed.
Lemma parse_all_ok tss rs : Forall (Forall zoneless) tss → parse_all tss = Ok rs →
  Forall range_ok rs ∧ ∀ y, Exists (λ ts, text_covers ts y) tss ↔ covers (to_block <$> rs) y.
Proof.
  intros Hz. revert rs. induction Hz as [|ts tss Ht Hts IH]; intros rs; cbn [parse_all].
  - intros [= <-]. split; [constructor|]. intros y. unfold covers. cbn. by rewrite !Exists_nil.
  - destruct (parseIPRanges ts) as [r|] eqn:Er; [|done]. destruct (parse_all tss) as [rs'|]; [|done]. intros [= <-].
    apply parseIPRanges_ok in Er as [Hr Hy]; [|done]. destruct (IH rs' eq_refl) as [Hrs Hx]. split; [by apply Forall_app|].
    intros y. by rewrite fmap_app, covers_app, Exists_cons, Hy, Hx.
Qed.

(** What is written is read back, addresses inside ::ffff:0:0/96 apart. *)
Definition unmapped (r : IPRange) : Prop := Is4In6 (ip_Start r) = false ∧ Is4In6 (ip_End r) = false.
Lemma ParseAddr_print a : plain a → Is4In6 a = false → ParseAddr (Addr_String a) = Ok a.
Proof. intros [Hwf _] H4. unfold ParseAddr. by rewrite ParseAddr_String, H4. Qed.
Lemma parse_print rs : Forall range_ok rs → Forall unmapped rs → parseIPRanges (toDPUServiceIPAMIPRanges rs) = Ok rs.
Proof.
  intros Hok Hun. induction Hok as [|r rs Hr Hrs IH]; [done|]. apply Forall_cons in Hun as [[H1 H2] Hun].
  cbn [toDPUServiceIPAMIPRanges fmap list_fmap parseIPRanges]. unfold parse_range at 1. cbn [sr_StartIP sr_EndIP].
  destruct Hr as [Hs He Hf Ho]. rewrite !ParseAddr_print by done. rewrite Hf, Z.eqb_refl, addr_lt_position by done.
  pose proof (family_position _ _ Hs He (eq_sym Hf)). destruct (Z.ltb_spec (position (ip_End r)) (position (ip_Start r))); [lia|]. cbn [negb orb].
  fold (toDPUServiceIPAMIPRanges rs). rewrite IH by done. by destruct r.
Qed.
(** C34. Allocations are read back: ranges of addresses without zones, none an IPv4-mapped
    one, that are written to the status are read as the same ranges in the next pass. *)
Theorem allocations_read_back rs : Forall range_ok rs → Forall unmapped rs → parseIPRanges (toDPUServiceIPAMIPRanges rs) = Ok rs.
Proof. apply parse_print. Qed.
Lemma print_block r y : range_ok r → text_block (mkServiceIPRange (Addr_String (ip_Start r)) (Addr_String (ip_End r))) y ↔ in_block y (to_block r).
Proof.
  intros [[Hs _] [He _] _ _]. unfold text_block, in_block, to_block. cbn. rewrite !ParseAddr_String by done. split.
  - intros (a & b & Ea & Eb & Hy). congruence.
  - intros Hy. by exists (ip_Start r), (ip_End r).
Qed.
Lemma text_print rs y : Forall range_ok rs → text_covers (toDPUServiceIPAMIPRanges rs) y ↔ covers (to_block <$> rs) y.
Proof.
  intros Hok. unfold text_covers, covers, toDPUServiceIPAMIPRanges. rewrite !Exists_fmap. rewrite !Exists_exists. rewrite Forall_forall in Hok.
  split; intros (r & Hr & Hy); exists r; (split; [done|]); pose proof (print_block r y (Hok r Hr)); tauto.
Qed.
Lemma zoneless_print rs : Forall range_ok rs → Forall zoneless (toDPUServiceIPAMIPRanges rs).
Proof.
  intros Hok. unfold toDPUServiceIPAMIPRanges. rewrite Forall_fmap. eapply Forall_impl; [exact Hok|]. intros r [[Hs Hzs] [He Hze] _ _].
  split; cbn; intros a; rewrite ParseAddr_String by done; by intros [= <-].
Qed.

(** ** The new calculator *)

(** What a block is available for: an address that is not excluded, and none that is allocated. *)
Record new_calc (m : Calculator) (excluded allocated : Z → Prop) : Prop := {
  nc_ok : calc_ok m;
  nc_end : plain (effectiveEnd m) ∧ BitLen (effectiveEnd m) = BitLen (effectiveStart m) ∧
    addr_value (effectiveEnd m) = (addr_value (effectiveStart m) + totalBlocks m * blockSizePerNode m - 1)%Z;
  nc_exclusions y : covers (to_block <$> mergedExclusions m) y ↔ excluded y;
  nc_available x : covers (availableBlockRanges m) x ↔
    (0 <= x < totalBlocks m)%Z ∧ (∃ y, in_node_block m x y ∧ ¬ excluded y) ∧ ∀ y, in_node_block m x y → ¬ allocated y }.

(** A stretch of addresses that are all in a canonical list is in one of its ranges. *)
Lemma canonical_convex rs a b : canonical rs → (a <= b)%Z → (∀ y, (a <= y <= b)%Z → covers rs y) →
  Exists (λ r, (br_Start r <= a)%Z ∧ (b <= br_End r)%Z) rs.
Proof.
  intros Hc Hab. induction rs as [|r rs IH]; intros Hy; [destruct (covers_nil a); apply Hy; lia|].
  apply canonical_cons in Hc as (Hp & Ha & Hc). unfold proper in Hp. apply Exists_cons.
  destruct (proj1 (covers_cons r rs a) (Hy a ltac:(lia))) as [Hin|Hin].
  - left. unfold in_block in Hin. split; [lia|]. destruct (Z.le_gt_cases b (br_End r)); [done|].
    destruct (proj1 (covers_cons r rs (br_End r + 1)%Z) (Hy (br_End r + 1)%Z ltac:(lia))) as [Hn|Hn]; [unfold in_block in Hn; lia|].
    apply (covers_after _ _ _ Ha) in Hn. lia.
  - right. apply IH; [done|]. intros y Hyb. destruct (proj1 (covers_cons r rs y) (Hy y Hyb)) as [Hn|Hn]; [|done].
    apply (covers_after _ _ _ Ha) in Hin. unfold in_block in Hn. lia.
Qed.

Lemma block_within_iff s size rs x : (0 < size)%Z → Forall range_ok rs → canonical (to_block <$> rs) →
  Exists (block_within s size x) rs ↔ ∀ y, (grid s size x <= y < grid s size (x + 1))%Z → covers (to_block <$> rs) y.
Proof.
  intros Hs Hok Hc. split.
  - rewrite Exists_exists. intros (r & Hr & H1 & H2) y Hy. unfold covers. rewrite Exists_fmap. apply Exists_exists. exists r. split; [done|].
    unfold in_block, to_block. cbn. lia.
  - intros Hy. assert (grid s size x <= grid s size (x + 1) - 1)%Z by (unfold grid; nia).
    pose proof (canonical_convex _ (grid s size x) (grid s size (x + 1) - 1)%Z Hc ltac:(done) ltac:(intros; apply Hy; lia)) as H'.
    rewrite Exists_fmap in H'. exact H'.
Qed.
Lemma block_meets_iff s size rs x : (0 < size)%Z → Forall range_ok rs →
  Exists (block_meets s size x) rs ↔ ∃ y, (grid s size x <= y < grid s size (x + 1))%Z ∧ covers (to_block <$> rs) y.
Proof.
  intros Hs Hok. unfold covers. assert (grid s size x < grid s size (x + 1))%Z by (unfold grid; nia). rewrite Exists_exists. rewrite Forall_forall in Hok. split.
  - intros (r & Hr & H1 & H2). pose proof (range_proper r (Hok r Hr)) as Hp. unfold proper in Hp. cbn in Hp.
    exists (Z.max (grid s size x) (position (ip_Start r))). split; [lia|]. rewrite Exists_fmap. apply Exists_exists. exists r. split; [done|].
    unfold in_block, to_block. cbn. lia.
  - intros (y & Hy & Hc). rewrite Exists_fmap in Hc. apply Exists_exists in Hc as (r & Hr & Hin). exists r. split; [done|].
    unfold in_block, to_block, block_meets in *. cbn in Hin. lia.
Qed.
(** A block is not within a range exactly when it has an address that no range has. *)
Lemma all_or_some s size rs x : (0 < size)%Z → Forall range_ok rs → canonical (to_block <$> rs) →
  ¬ Exists (block_within s size x) rs ↔ ∃ y, (grid s size x <= y < grid s size (x + 1))%Z ∧ ¬ covers (to_block <$> rs) y.
Proof.
  intros Hs Hok Hc. rewrite (block_within_iff s size rs x Hs Hok Hc). split; [|by intros (y & Hy & Hn) Hall; apply Hn, Hall].
  intros Hn. set (ys := seqZ (grid s size x) size). destruct (decide (Exists (λ y, ¬ covers (to_block <$> rs) y) ys)) as [He|He].
  - apply Exists_exists in He as (y & Hy%elem_of_seqZ & Hny). exists y. split; [|done]. unfold grid in *. lia.
  - destruct Hn. intros y Hy. destruct (decide (covers (to_block <$> rs) y)) as [|Hny]; [done|]. destruct He. apply Exists_exists. exists y.
    split; [|done]. apply elem_of_seqZ. unfold grid in *. lia.
Qed.

(** The offsets leave the blocks inside the network. *)
Lemma offsets_range p cidr : (0 <= (poolBoundaryOffsets p cidr).1)%Z ∧ (0 <= (poolBoundaryOffsets p cidr).2)%Z.
Proof. unfold poolBoundaryOffsets. destruct (_ || _); [done|]. by destruct (Is4 _). Qed.

(** The geometry of the blocks in the network [p]. *)
Lemma new_geometry p cidr size parent s e :
  prefix_ok p → RangeFromPrefix (Masked p) = Ok parent → (0 < size)%Z →
  let effective := (PrefixAddressCount (BitLen (pf_Addr (Masked p))) (pf_Bits (Masked p)) - ((poolBoundaryOffsets (Masked p) cidr).1 + (poolBoundaryOffsets (Masked p) cidr).2))%Z in
  let total := Z.quot effective size in
  (0 < effective)%Z → (0 < total)%Z →
  Add (ip_Start parent) (poolBoundaryOffsets (Masked p) cidr).1 = Some s → Add s (total * size - 1) = Some e →
  range_ok parent ∧ plain s ∧ plain e ∧ BitLen s = BitLen (ip_Start parent) ∧ BitLen e = BitLen s ∧
  (addr_value e = addr_value s + total * size - 1)%Z ∧ (addr_value s + total * size <= 2 ^ BitLen s)%Z ∧
  (position (ip_Start parent) <= position s)%Z ∧ (position s + total * size - 1 <= position (ip_End parent))%Z.
Proof.
  intros Hp Hr Hsize. cbv zeta. destruct (offsets_range (Masked p) cidr) as [Ho1 Ho2]. set (o1 := (poolBoundaryOffsets (Masked p) cidr).1) in *.
  set (o2 := (poolBoundaryOffsets (Masked p) cidr).2) in *. destruct (mask_addr_spec p Hp) as (Hm & Hmf & _).
  assert (prefix_ok (Masked p)) as Hp' by (split; cbn; [done|rewrite Hmf; apply Hp]).
  destruct (RangeFromPrefix_spec _ Hp') as (r & Er & Hok & Hst & Hend). rewrite Hr in Er. injection Er as <-.
  rewrite PrefixAddressCount_spec by apply Hp'. fold (prefix_size (Masked p)). intros He Ht Hs He'.
  pose proof (Z.mul_quot_le (prefix_size (Masked p) - (o1 + o2)) size ltac:(lia) ltac:(lia)) as Hq.
  set (total := Z.quot (prefix_size (Masked p) - (o1 + o2)) size) in *.
  assert (total * size <= prefix_size (Masked p) - (o1 + o2))%Z as Hfit by lia.
  pose proof Hok as [Hps Hpe Hpf _]. pose proof (Add_spec (ip_Start parent) o1 Hps Ho1) as Ha. rewrite Hs in Ha. destruct Ha as (Hsp & Hsf & Hsv).
  pose proof (Add_spec s (total * size - 1) Hsp ltac:(nia)) as Hb. rewrite He' in Hb. destruct Hb as (Hep & Hef & Hev).
  pose proof Hep as [[_ Hrange] _]. rewrite Hef in Hrange.
  pose proof (family_position _ _ Hps Hsp (eq_sym Hsf)). pose proof (family_position _ _ Hps Hpe (eq_sym Hpf)).
  split_and!; try done; lia.
Qed.

Lemma parseAndMerge_ok ts rs : Forall zoneless ts → parseAndMergeIPRanges ts = Ok rs →
  Forall range_ok rs ∧ canonical (to_block <$> rs) ∧ ∀ y, covers (to_block <$> rs) y ↔ text_covers ts y.
Proof.
  intros Hz. unfold parseAndMergeIPRanges. destruct (parseIPRanges ts) as [parsed|] eqn:E; [|done]. intros [= <-].
  apply parseIPRanges_ok in E as [Hok Hy]; [|done]. destruct (MergeRanges_spec parsed Hok) as (Hm & Hc & Hx).
  split; [done|]. split; [done|]. intros y. by rewrite Hx, Hy.
Qed.

(** The blocks left to hand out. *)
Lemma available_spec s e size total exclusions existing :
  plain s → plain e → BitLen e = BitLen s → (0 < size)%Z → (0 < total)%Z → (addr_value e = addr_value s + total * size - 1)%Z →
  Forall range_ok exclusions → canonical (to_block <$> exclusions) → Forall range_ok existing →
  let excluded := blockRangesFullyCoveredBy exclusions s e size total in
  let available := subtractBlockIndexRanges [mkBlocks 0 (total - 1)]
    (mergeBlockIndexRanges (excluded ++ blockRangesOverlapping existing s e size total)) in
  canonical available ∧
  ∀ x, covers available x ↔ (0 <= x < total)%Z ∧
    (∃ y, (grid s size x <= y < grid s size (x + 1))%Z ∧ ¬ covers (to_block <$> exclusions) y) ∧
    ∀ y, (grid s size x <= y < grid s size (x + 1))%Z → ¬ covers (to_block <$> existing) y.
Proof.
  intros Hs He Hf Hsize Htotal Hend Hx Hxc Hex. cbv zeta.
  destruct (blockRangesFullyCoveredBy_spec s e size total Hs He Hf Hsize Htotal Hend exclusions Hx) as [Hc1 Hx1].
  destruct (blockRangesOverlapping_spec s e size total Hs He Hf Hsize Htotal Hend existing Hex) as [Hc2 Hx2].
  destruct (mergeBlockIndexRanges_spec (blockRangesFullyCoveredBy exclusions s e size total ++ blockRangesOverlapping existing s e size total)) as [Hcu Hxu].
  { apply Forall_app. split; [apply Hc1|apply Hc2]. }
  destruct (subtractBlockIndexRanges_spec [mkBlocks 0 (total - 1)] _ ltac:(constructor; [unfold proper; cbn; lia|constructor]) (proj1 Hcu)) as [Hca Hxa].
  split; [done|]. intros x. rewrite Hxa, Hxu, covers_app, Hx1, Hx2, covers_cons.
  rewrite <- (all_or_some s size exclusions x Hsize Hx Hxc). pose proof (block_meets_iff s size existing x Hsize Hex) as Hm.
  pose proof (covers_nil x). unfold in_block. cbn. split.
  - intros [[Hin|?] Hn]; [|done]. split; [lia|]. split; [intros ?; apply Hn; left; split; [lia|done]|].
    intros y Hy Hcy. apply Hn. right. split; [lia|]. apply Hm. by exists y.
  - intros (Hin & Hn1 & Hn2). split; [left; lia|]. intros [[_ ?]|[_ Hmx]]; [done|]. apply Hm in Hmx as (y & Hy & Hcy). by apply (Hn2 y).
Qed.

Section New.
Context (network : string) (size : Z) (target : option Z) (cidr : bool) (excludes : list ServiceIPRange) (static : gmap string string).

Lemma new_calc_spec current m : Forall zoneless excludes → Forall (Forall zoneless) current →
  newMultiDPUClusterExclusionCalculator network size target cidr excludes current static = Ok m →
  new_calc m (text_covers excludes) (λ y, Exists (λ ts, text_covers ts y) current) ∧
  targetBlocksPerDPUCluster m = default 0%Z target ∧ allocateAllRemainingBlocks m = bool_decide (target = None) ∧ staticAllocations m = static.
Proof.
  intros Hze Hzc. unfold newMultiDPUClusterExclusionCalculator. destruct (netip_ParsePrefix network) as [p|] eqn:Ep; [|done].
  destruct (Is4In6 (pf_Addr p)); [done|]. destruct (RangeFromPrefix (Masked p)) as [parent|] eqn:Er; [|done].
  destruct (Z.leb_spec size 0); [done|]. pose proof (new_geometry p cidr size parent) as Hgeo. cbv zeta in Hgeo.
  destruct (poolBoundaryOffsets (Masked p) cidr) as [o1 o2]. cbn [fst snd] in Hgeo.
  destruct (Z.leb_spec (PrefixAddressCount (BitLen (pf_Addr (Masked p))) (pf_Bits (Masked p)) - (o1 + o2)) 0); [done|].
  destruct (Z.leb_spec (Z.quot (PrefixAddressCount (BitLen (pf_Addr (Masked p))) (pf_Bits (Masked p)) - (o1 + o2)) size) 0); [done|].
  set (total := Z.quot _ size) in *. destruct (Add (ip_Start parent) o1) as [s|] eqn:Es; [|done].
  destruct (Add s (total * size - 1)) as [e|] eqn:Ee; [|done]. destruct (parseAndMergeIPRanges excludes) as [exclusions|] eqn:Ex; [|done].
  destruct (parse_all current) as [existing|] eqn:Ec; [|done]. intros [= <-].
  destruct (Hgeo s e) as (Hpar & Hs & He & Hfs & Hfe & Hend & Hfits & Hps & Hpe); [|done|lia..|done|done|].
  { apply ParsePrefix_wf in Ep as (Hwf & Hz & Hb). by split. }
  apply parseAndMerge_ok in Ex as (Hxo & Hxc & Hxy); [|done]. apply parse_all_ok in Ec as (Heo & Hey); [|done].
  destruct (available_spec s e size total exclusions existing) as [Hac Hax]; try done; try lia.
  split; [|done]. split; [split|..]; cbn [effectiveStart effectiveEnd blockSizePerNode totalBlocks parentRange mergedExclusions availableBlockRanges];
    try done; try (unfold block_start; cbn; lia); try congruence.
  - intros x Hx. by apply Hax.
  - intros x. rewrite Hax. unfold in_node_block, block_start, grid. cbn [effectiveStart blockSizePerNode]. setoid_rewrite Hxy. setoid_rewrite <- Hey. done.
Qed.

(** The network of the calculator is that of its text. *)
Lemma new_calc_parent current m : newMultiDPUClusterExclusionCalculator network size target cidr excludes current static = Ok m →
  ∃ p, netip_ParsePrefix network = Ok p ∧ ∀ y, in_block y (to_block (parentRange m)) ↔ in_prefix p y.
Proof.
  unfold newMultiDPUClusterExclusionCalculator. destruct (netip_ParsePrefix network) as [p|] eqn:Ep; [|done].
  destruct (Is4In6 (pf_Addr p)); [done|]. pose proof Ep as (Hw & Hz & Hb)%ParsePrefix_wf. assert (prefix_ok p) as Hp by (by split).
  rewrite RangeFromPrefix_Masked by done. destruct (RangeFromPrefix p) as [r|] eqn:Er; [|done]. destruct (size <=? 0)%Z; [done|].
  destruct (poolBoundaryOffsets (Masked p) cidr). destruct (_ <=? 0)%Z; [done|]. destruct (_ <=? 0)%Z; [done|].
  destruct (Add _ _); [|done]. destruct (Add _ _); [|done]. destruct (parseAndMergeIPRanges excludes); [|done].
  destruct (parse_all current); [|done]. intros [= <-]. exists p. split; [done|]. intros y. by apply in_prefix_range.
Qed.

(** Whatever is allocated, it is the same calculator but for what is available. *)
Lemma new_calc_same current current' m m' :
  newMultiDPUClusterExclusionCalculator network size target cidr excludes current static = Ok m →
  newMultiDPUClusterExclusionCalculator network size target cidr excludes current' static = Ok m' →
  m' = with_available (availableBlockRanges m') m.
Proof.
  unfold newMultiDPUClusterExclusionCalculator. destruct (netip_ParsePrefix network) as [p|]; [|done].
  destruct (Is4In6 (pf_Addr p)); [done|]. destruct (RangeFromPrefix (Masked p)); [|done]. destruct (size <=? 0)%Z; [done|].
  destruct (poolBoundaryOffsets (Masked p) cidr). destruct (_ <=? 0)%Z; [done|]. destruct (_ <=? 0)%Z; [done|].
  destruct (Add _ _); [|done]. destruct (Add _ _); [|done]. destruct (parseAndMergeIPRanges excludes); [|done].
  destruct (parse_all current), (parse_all current'); try done. by intros [= <-] [= <-].
Qed.
(** Allocations that can be read are not in its way. *)
Lemma new_calc_total current current' m : newMultiDPUClusterExclusionCalculator network size target cidr excludes current static = Ok m →
  (∃ rs, parse_all current' = Ok rs) → ∃ m', newMultiDPUClusterExclusionCalculator network size target cidr excludes current' static = Ok m'.
Proof.
  unfold newMultiDPUClusterExclusionCalculator. destruct (netip_ParsePrefix network) as [p|]; [|done].
  destruct (Is4In6 (pf_Addr p)); [done|]. destruct (RangeFromPrefix (Masked p)); [|done]. destruct (size <=? 0)%Z; [done|].
  destruct (poolBoundaryOffsets (Masked p) cidr). destruct (_ <=? 0)%Z; [done|]. destruct (_ <=? 0)%Z; [done|].
  destruct (Add _ _); [|done]. destruct (Add _ _); [|done]. destruct (parseAndMergeIPRanges excludes); [|done].
  destruct (parse_all current'); [|by intros _ [? ?]]. intros _ _. cbn. eauto.
Qed.
End New.
