(* ===== verification/IPAMSharing.v ===== *)
(** How the calculator shares a network out: the blocks it gives to a cluster, and the
    addresses that are left to the pool of that cluster. *)

From S2P Require Import Prelude.
From S2P Require Import NetIP.
From S2P Require Import BlockRanges.
From S2P Require Import IPRanges.
From S2P Require Import IPAMAllocator.
From S2P Require Import IPAMBlocks.
From S2P Require Import IPAMCalculator.

(** ** The blocks of one cluster *)

(** Whether a cluster keeps the ranges it has. *)
Definition keeps_ranges (m : Calculator) (existing : list IPRange) : bool :=
  bool_decide (existing ≠ []) && areClusterBlocksCompatible m existing && (0 <? countAllocatableBlocks m existing)%Z.
Definition kept (m : Calculator) (existing : list IPRange) : list IPRange := if keeps_ranges m existing then existing else [].

(** A cluster with the ranges [K] and the blocks [sel] of [m] has its share, or nothing is left in [m']. *)
Definition filled (m m' : Calculator) (K : list IPRange) (sel : list blockIndexRange) : Prop :=
  availableBlockRanges m' = [] ∨
  allocateAllRemainingBlocks m = false ∧ (targetBlocksPerDPUCluster m <= countAllocatableBlocks m K + blockIndexRangeCount sel)%Z.

Record gives (m m' : Calculator) (K F : list IPRange) (sel : list blockIndexRange) : Prop := {
  gv_hands : hands_out m m' sel F;
  gv_filled : filled m m' K sel;
  gv_quota : allocateAllRemainingBlocks m = false → sel ≠ [] →
    (countAllocatableBlocks m K + blockIndexRangeCount sel <= targetBlocksPerDPUCluster m)%Z }.

Lemma hands_out_empty m m' F sel : hands_out m m' sel F → sel = [] → F = [].
Proof. intros [_ _ _ _ _ _ Hb] ->. by apply fmap_nil_inv in Hb. Qed.

Lemma consume_gives m : calc_ok m →
  match consume m with
  | (Err _, m') => m' = m
  | (Ok F, m') => ∃ sel, sel ≠ [] ∧ gives m m' [] F sel
  end.
Proof.
  intros Hok. unfold consume. destruct (allocateAllRemainingBlocks m) eqn:Eall.
  - pose proof (consumeAllBlocks_spec m Hok) as H. destruct (consumeAllBlocks m) as [[F|] m']; [|by destruct H].
    destruct H as (sel & Hne & Hh & Hav). exists sel. split; [done|]. split; [done|by left|by rewrite Eall].
  - pose proof (consumeBlocks_spec (targetBlocksPerDPUCluster m) m Hok) as H. destruct (consumeBlocks _ m) as [[F|] m']; [|by destruct H].
    destruct H as (sel & Hne & Hle & Hh & Hav). exists sel. split; [done|].
    change (countAllocatableBlocks m []) with 0%Z. split; [done| |intros _ _; change (countAllocatableBlocks m []) with 0%Z; lia].
    destruct (Z.lt_ge_cases (blockIndexRangeCount sel) (targetBlocksPerDPUCluster m)); [left; by apply Hav|right].
    split; [done|]. change (countAllocatableBlocks m []) with 0%Z. lia.
Qed.

Lemma gives_nothing m K : calc_ok m → filled m m K [] → gives m m K [] [].
Proof. intros Hok Hf. split; [by apply hands_nothing|done|done]. Qed.

Lemma computeBlocksForCluster_spec m existing : calc_ok m →
  match computeBlocksForCluster m existing with
  | (Err _, m') => m' = m ∧ keeps_ranges m existing = false
  | (Ok blocks, m') => ∃ F sel, blocks = kept m existing ++ F ∧ gives m m' (kept m existing) F sel ∧ (keeps_ranges m existing = false → sel ≠ [])
  end.
Proof.
  intros Hok. unfold computeBlocksForCluster, kept, keeps_ranges. pose proof (consume_gives m Hok) as Hc.
  assert (match consume m with
    | (Err _, m') => m' = m ∧ false = false
    | (Ok blocks, m') => ∃ F sel, blocks = [] ++ F ∧ gives m m' [] F sel ∧ (false = false → sel ≠ []) end) as Hc'.
  { destruct (consume m) as [[F|] m']; [|done]. destruct Hc as (sel & ? & ?). by exists F, sel. }
  destruct (bool_decide (existing ≠ []) && areClusterBlocksCompatible m existing); cbn [andb]; [|done].
  destruct (Z.ltb_spec 0 (countAllocatableBlocks m existing)); [|done]. clear Hc Hc'.
  destruct (allocateAllRemainingBlocks m) eqn:Eall.
  - pose proof (consumeAllBlocks_spec m Hok) as Hs. destruct (consumeAllBlocks m) as [[F|] m']; cbn [top_up].
    + destruct Hs as (sel & Hne & Hh & Hav). exists F, sel. split; [done|]. split; [|done]. split; [done|by left|by rewrite Eall].
    + destruct Hs as [-> Hav]. exists [], []. rewrite app_nil_r. split; [done|]. split; [|done]. apply gives_nothing; [done|by left].
  - destruct (Z.leb_spec (targetBlocksPerDPUCluster m) (countAllocatableBlocks m existing)).
    + exists [], []. rewrite app_nil_r. split; [done|]. split; [|done]. apply gives_nothing; [done|]. right. split; [done|].
      change (blockIndexRangeCount []) with 0%Z. lia.
    + pose proof (consumeBlocks_spec (targetBlocksPerDPUCluster m - countAllocatableBlocks m existing) m Hok) as Hs.
      destruct (consumeBlocks _ m) as [[F|] m']; cbn [top_up].
      * destruct Hs as (sel & Hne & Hle & Hh & Hav). exists F, sel. split; [done|]. split; [|done]. split; [done| |intros _ _; lia].
        destruct (Z.lt_ge_cases (blockIndexRangeCount sel) (targetBlocksPerDPUCluster m - countAllocatableBlocks m existing)); [left; by apply Hav|right].
        split; [done|lia].
      * destruct Hs as [-> [?|Hav]]; [lia|]. exists [], []. rewrite app_nil_r. split; [done|]. split; [|done]. apply gives_nothing; [done|by left].
Qed.

(** The addresses a calculator can still hand out. *)
Definition can_hand (m : Calculator) (y : Z) : Prop := ∃ x, covers (availableBlockRanges m) x ∧ in_node_block m x y.

Lemma hands_addresses m m' sel F y : calc_ok m → hands_out m m' sel F →
  (can_hand m y ↔ covers (to_block <$> F) y ∨ can_hand m' y) ∧ (covers (to_block <$> F) y → ¬ can_hand m' y).
Proof.
  intros Hok [Hm Hok' Hsel Hsplit Hapart Hr Hb]. rewrite Hb, (covers_stretch m sel y (co_size m Hok) (proj1 Hsel)).
  assert (∀ x, in_node_block m' x y ↔ in_node_block m x y) as Hin by (intros x; by rewrite Hm).
  unfold can_hand. setoid_rewrite Hin. setoid_rewrite Hsplit. split; [naive_solver|]. intros (x & Hx & Hy) (x' & Hx' & Hy').
  rewrite (node_block_inj m x x' y (co_size m Hok) Hy Hy') in Hx. by apply (Hapart x').
Qed.

(** ** Allocations as texts *)

Lemma AllocateClusterBlocks_spec m existing : calc_ok m → Forall zoneless existing →
  match AllocateClusterBlocks m existing with
  | (Err _, m') => m' = m
  | (Ok blocks, m') => ∃ K F sel,
      parseIPRanges existing = Ok K ∧ gives m m' (kept m K) F sel ∧ (keeps_ranges m K = false → sel ≠ []) ∧
      blocks = toDPUServiceIPAMIPRanges (MergeRanges (kept m K ++ F)) ∧ Forall range_ok (kept m K ++ F)
  end.
Proof.
  intros Hok Hz. unfold AllocateClusterBlocks. destruct (parseIPRanges existing) as [K|] eqn:E; [|done].
  apply parseIPRanges_ok in E as [HK _]; [|done]. pose proof (computeBlocksForCluster_spec m K Hok) as H.
  destruct (computeBlocksForCluster m K) as [[blocks|] m']; [|by destruct H]. destruct H as (F & sel & -> & Hg & Hne).
  exists K, F, sel. split; [done|]. split; [done|]. split; [done|]. split; [done|]. apply Forall_app. split; [|apply Hg].
  unfold kept. by destruct (keeps_ranges m K).
Qed.

(** The addresses a cluster ends up with: those it had, if it keeps them, and fresh ones. *)
Lemma allocated_addresses m existing blocks m' : calc_ok m → Forall zoneless existing → AllocateClusterBlocks m existing = (Ok blocks, m') →
  calc_ok m' ∧ m' = with_available (availableBlockRanges m') m ∧ Forall zoneless blocks ∧
  ∀ y, text_covers blocks y → (text_covers existing y ∨ can_hand m y) ∧ ¬ (can_hand m' y ∧ ¬ text_covers existing y).
Proof.
  intros Hok Hz E. pose proof (AllocateClusterBlocks_spec m existing Hok Hz) as H. rewrite E in H.
  destruct H as (K & F & sel & Hp & [Hh _ _] & _ & -> & Hr). destruct (MergeRanges_spec _ Hr) as (Hmr & _ & Hmx).
  split; [apply Hh|]. split; [apply Hh|]. split; [by apply zoneless_print|]. intros y. rewrite text_print, Hmx, fmap_app, covers_app by done.
  apply parseIPRanges_ok in Hp as [_ Hp]; [|done]. rewrite !Hp. destruct (hands_addresses m m' sel F y Hok Hh) as [Hs Ha].
  assert (covers (to_block <$> kept m K) y → covers (to_block <$> K) y) by (unfold kept; destruct (keeps_ranges m K); [done|by intros ?%covers_nil]).
  split; tauto.
Qed.

(** ** The exclusions of a pool *)

(** The addresses of a static allocation, and one that the code refuses. *)
Definition static_address (s : string) (y : Z) : Prop :=
  ∃ p r, netip_ParsePrefix s = Ok p ∧ Is4In6 (pf_Addr p) = false ∧ RangeFromPrefix p = Ok r ∧ in_block y (to_block r).
Definition static_refused (s : string) : bool := match netip_ParsePrefix s with Ok p => Is4In6 (pf_Addr p) | Err _ => false end.

Definition ranges_in_order (rs : list IPRange) : Prop := Forall range_ok rs ∧ canonical (to_block <$> rs).

Lemma subtract_static_spec rs s : ranges_in_order rs →
  match subtract_static rs s with
  | Err _ => static_refused s = true
  | Ok rs' => static_refused s = false ∧ ranges_in_order rs' ∧
      ∀ y, covers (to_block <$> rs') y ↔ covers (to_block <$> rs) y ∧ ¬ static_address s y
  end.
Proof.
  intros [Hr Hc]. unfold subtract_static, static_refused, static_address. destruct (netip_ParsePrefix s) as [p|] eqn:Ep.
  - destruct (Is4In6 (pf_Addr p)) eqn:E4; [done|]. apply ParsePrefix_wf in Ep as (Hwf & Hz & Hb).
    destruct (RangeFromPrefix_spec p) as (r & Er & Hok & _); [by split|]. rewrite Er. split; [done|].
    destruct (subtract_ranges_spec rs [r] Hr Hc ltac:(by constructor)) as (Hr' & Hc' & Hx). split; [done|]. intros y. cbn in Hx. rewrite Hx.
    rewrite covers_cons. pose proof (covers_nil y). split.
    + intros [Hy Hn]. split; [done|]. intros (p' & r' & [= <-] & _ & Er' & Hin). rewrite Er in Er'. injection Er' as <-. apply Hn. by left.
    + intros [Hy Hn]. split; [done|]. intros [Hin|?]; [|done]. apply Hn. by exists p, r.
  - split; [done|]. split; [done|]. intros y. split; [|tauto]. intros Hy. split; [done|]. by intros (p & r & ? & _).
Qed.

Lemma subtract_all_static_spec ss rs : ranges_in_order rs →
  match subtract_all_static rs ss with
  | Err _ => existsb static_refused ss = true
  | Ok rs' => existsb static_refused ss = false ∧ ranges_in_order rs' ∧
      ∀ y, covers (to_block <$> rs') y ↔ covers (to_block <$> rs) y ∧ ¬ Exists (λ s, static_address s y) ss
  end.
Proof.
  revert rs. induction ss as [|s ss IH]; intros rs Hrs; cbn [subtract_all_static existsb].
  - split; [done|]. split; [done|]. intros y. rewrite Exists_nil. tauto.
  - pose proof (subtract_static_spec rs s Hrs) as H. destruct (subtract_static rs s) as [rs'|]; [|by rewrite H]. destruct H as (-> & Hrs' & Hx).
    specialize (IH rs' Hrs'). destruct (subtract_all_static rs' ss); [|done]. destruct IH as (He & Hr & Hy). split; [done|]. split; [done|].
    intros y. rewrite Hy, Hx, Exists_cons. tauto.
Qed.

Section Exclusions.
Context {R : MapRange} {RL : MapRangeLaws R}.

(** The addresses of the static allocations of [static]. *)
Definition static_addresses (static : gmap string string) (y : Z) : Prop := ∃ node s, static !! node = Some s ∧ static_address s y.
Definition statics_accepted (static : gmap string string) : Prop := ∀ node s, static !! node = Some s → static_refused s = false.

Lemma subtractStaticAllocations_spec rs static : ranges_in_order rs →
  match subtractStaticAllocations rs static with
  | Err _ => ¬ statics_accepted static
  | Ok rs' => statics_accepted static ∧ ranges_in_order rs' ∧
      ∀ y, covers (to_block <$> rs') y ↔ covers (to_block <$> rs) y ∧ ¬ static_addresses static y
  end.
Proof.
  intros Hrs. unfold subtractStaticAllocations. pose proof (subtract_all_static_spec (snd <$> range_map static) rs Hrs) as H.
  destruct (subtract_all_static rs _) as [rs'|].
  - destruct H as (He & Hr & Hy). split_and!; [|done|].
    + intros node s Hs. destruct (static_refused s) eqn:E; [|done]. exfalso. apply not_true_iff_false in He. apply He, existsb_exists.
      exists s. split; [|done]. apply list_elem_of_In, list_elem_of_fmap. exists (node, s). split; [done|]. by apply elem_of_range_map.
    + intros y. rewrite Hy. apply and_iff_compat_l, not_iff_compat. rewrite Exists_fmap, Exists_exists. split.
      * intros ([node s] & Hin%elem_of_range_map & Hs). by exists node, s.
      * intros (node & s & Hin & Hs). exists (node, s). split; [by apply elem_of_range_map|done].
  - apply existsb_exists in H as (s & Hin & Hs). apply list_elem_of_In, list_elem_of_fmap in Hin as ([node s'] & -> & Hin%elem_of_range_map).
    intros Ha. cbn in Hs. rewrite (Ha node s' Hin) in Hs. done.
Qed.

Lemma ComputeExclusions_spec m blocks : calc_ok m → Forall zoneless blocks →
  match ComputeExclusions m blocks with
  | Err _ => (∃ err, parseIPRanges blocks = Err err) ∨ ¬ statics_accepted (staticAllocations m)
  | Ok ex => (∃ rs, ranges_in_order rs ∧ ex = toDPUServiceIPAMIPRanges rs) ∧ statics_accepted (staticAllocations m) ∧
      ∀ y, text_covers ex y ↔
        covers (to_block <$> mergedExclusions m) y ∨
        in_block y (to_block (parentRange m)) ∧ ¬ text_covers blocks y ∧ ¬ static_addresses (staticAllocations m) y
  end.
Proof.
  intros Hok Hz. unfold ComputeExclusions. destruct (parseIPRanges blocks) as [allocs|err] eqn:Ep; [|left; by exists err].
  apply parseIPRanges_ok in Ep as [Ha Hy]; [|done]. destruct (MergeRanges_spec allocs Ha) as (Hma & _ & Hmx).
  destruct (ExcludeRanges_spec (parentRange m) (MergeRanges allocs) (co_parent m Hok) Hma) as (Hex & Hec & Hey).
  pose proof (subtractStaticAllocations_spec (ExcludeRanges (parentRange m) (MergeRanges allocs)) (staticAllocations m) (conj Hex Hec)) as H.
  destruct (subtractStaticAllocations _ _) as [rs|]; [|by right]. destruct H as (Hacc & [Hrs Hrc] & Hry).
  destruct (co_exclusions m Hok) as [Hxo Hxc].
  destruct (MergeRanges_spec (rs ++ mergedExclusions m)) as (Hfo & Hfc & Hfx); [by apply Forall_app|].
  split; [by exists (MergeRanges (rs ++ mergedExclusions m))|]. split; [done|]. intros y. unfold toNVIPAMExcludeRanges.
  rewrite text_print, Hfx, fmap_app, covers_app, Hry, Hey, Hmx, Hy by done. tauto.
Qed.
End Exclusions.
