(* ===== verification/ServiceObjects.v ===== *)
(** How the service chain controllers keep the objects of a DPUServiceObject in the DPU
    clusters (internal/dpuservicechain/controllers/common.go, with the functions of
    internal/utils/utils.go and pkg/dpucluster/config.go that it calls).

    [ObjectsReconciler] is the Go interface objectsInDPUClustersReconciler that each
    controller implements; what holds here holds of all of them. *)

From S2P Require Import Prelude.
From S2P Require Import Meta.
From S2P Require Import Conditions.
From S2P Require Import DPUTypes.
From S2P Require Import Kubernetes.
From S2P Require Import Allocator.
From S2P Require Import WriteLog.
From S2P Require Import TraceLogic.

(** ** The clusters *)

(** The list of DPUClusters of the host cluster, the client of a DPU cluster and the
    creation of a namespace there; NoMatch is an error of the API machinery. *)
Class ClustersAPI (W K : Type) := {
  list_clusters : SM W (Res (list DPUCluster));
  cluster_client : DPUCluster → SM W (Res K);
  create_namespace : K → string → SM W (option GoError);
  IsNoMatchError : GoError → bool }.

(** An object of a DPU cluster, as far as it is read here. *)
Record Unstructured := mkUnstructured { un_Name : string; un_Namespace : string; un_Allocations : Res (option nat) }.
Definition un_key (o : Unstructured) : NamespacedName := mkNN (un_Namespace o) (un_Name o).

(** The methods of the interface, for objects [O] and a reconciler with a state [RC];
    [rc_calculate] gives the targets in the order it sorts them to. *)
Class ObjectsReconciler (W K RC O : Type) := {
  rc_selector : O → option string;
  rc_namespace : O → string;
  rc_calculate : list DPUCluster → O → RC → Res (bool * list DPUCluster * O * RC);
  rc_getObjects : K → O → SM W (Res (list Unstructured));
  rc_createOrUpdate : RC → K → NamespacedName → O → SM W (option GoError);
  rc_deleteObjects : K → O → SM W (option GoError);
  rc_getUnready : list Unstructured → Res (list NamespacedName);
  rc_registerKind : NamespacedName → SM W (option GoError) }.

Inductive ObjectsError := staleStatusError | longOperationError (err : GoError) | otherError (err : GoError).
Definition objects_error (e : ObjectsError) : GoError :=
  match e with
  | staleStatusError => errorf "status is stale, must commit before modifying underlying resources"
  | longOperationError err | otherError err => err
  end.

Record namespacedNameInCluster := mkInCluster { nc_Object : NamespacedName; nc_Cluster : NamespacedName }.
Definition namespacedNameInCluster_String (n : namespacedNameInCluster) : string :=
  "Cluster: " +:+ nn_namespace (nc_Cluster n) +:+ "/" +:+ nn_name (nc_Cluster n) +:+ LF +:+
  "  Object: " +:+ nn_namespace (nc_Object n) +:+ "/" +:+ nn_name (nc_Object n).

(** [types.NamespacedName.String] *)
Definition nn_String (n : NamespacedName) : string := nn_namespace n +:+ "/" +:+ nn_name n.

Definition GetMatchingDPUClusters {S : SelectorAPI} (dpuClusters : list DPUCluster) (clusterSelector : option string) : Res (list DPUCluster) :=
  match clusterSelector with
  | None => Ok dpuClusters
  | Some _ =>
      match LabelSelectorAsSelector clusterSelector with
      | Err err => Err (wrapf "failed to parse label selector: " err)
      | Ok selector => Ok (filter (λ dc, selector (dc_Labels dc) = true) dpuClusters)
      end
  end.

Section Objects.
Context {W K RC O : Type} {A : ClustersAPI W K} {I : ObjectsReconciler W K RC O} {S : SelectorAPI} {R : MapRange} {API : MetaAPI} {G : GetSet O}.
Context (now : Time).

Definition GetConfigs : SM W (Res (list DPUCluster)) := list_clusters.
Definition EnsureNamespace (k : K) (namespace : string) : SM W (option GoError) :=
  err ← create_namespace k namespace;
  mret (match err with Some err => if IsAlreadyExists err then None else Some err | None => None end).
Definition isObjectUnavailable (err : GoError) : bool := IsNotFound err || IsNoMatchError (W:=W) (K:=K) err.

Fixpoint register_all (dpuClusters : list DPUCluster) : SM W (list GoError) :=
  match dpuClusters with
  | [] => mret []
  | dc :: dpuClusters =>
      err ← rc_registerKind (dc_key dc);
      errs ← register_all dpuClusters;
      mret (match err with Some err => err :: errs | None => errs end)
  end.
(** The errors of [NewAggregate], in a list. *)
Definition watchObjectsInDPUClusters : SM W (list GoError) :=
  r ← list_clusters;
  match r with
  | Err err => mret [wrapf "error while listing DPU clusters: " err]
  | Ok dpuClusters => register_all dpuClusters
  end.

(** The objects that still exist. *)
Definition deleteObjectsInDPUCluster (dc : DPUCluster) (o : O) : SM W (Res (list Unstructured)) :=
  r ← cluster_client dc;
  match r with
  | Err err => mret (Err err)
  | Ok k =>
      err ← rc_deleteObjects k o;
      match match err with Some err => if isObjectUnavailable err then None else Some err | None => None end with
      | Some err => mret (Err err)
      | None =>
          r ← rc_getObjects k o;
          mret (match r with Err err => if isObjectUnavailable err then Ok [] else Err err | Ok objs => Ok objs end)
      end
  end.

Fixpoint delete_everywhere (dpuClusters : list DPUCluster) (o : O) : SM W (Res nat) :=
  match dpuClusters with
  | [] => mret (Ok 0)
  | dc :: dpuClusters =>
      r ← deleteObjectsInDPUCluster dc o;
      match r with
      | Err err => mret (Err err)
      | Ok objs =>
          r ← delete_everywhere dpuClusters o;
          mret (match r with Err err => Err err | Ok existingObjs => Ok (length objs + existingObjs) end)
      end
  end.
Definition reconcileObjectDeletionInDPUClusters (o : O) : SM W (option ObjectsError) :=
  r ← GetConfigs;
  match r with
  | Err err => mret (Some (otherError err))
  | Ok dpuClusterConfigs =>
      r ← delete_everywhere dpuClusterConfigs o;
      mret (match r with
        | Err err => Some (otherError err)
        | Ok existingObjs =>
            if (0 <? existingObjs)%nat
            then Some (longOperationError (errorf (pretty existingObjs +:+ " objects still exist across all DPU clusters")))
            else None
        end)
  end.

Definition applyObjectsInDPUCluster (rc : RC) (dc : DPUCluster) (o : O) : SM W (option GoError) :=
  r ← cluster_client dc;
  match r with
  | Err err => mret (Some err)
  | Ok k =>
      err ← EnsureNamespace k (rc_namespace o);
      match err with Some err => mret (Some err) | None => rc_createOrUpdate rc k (dc_key dc) o end
  end.

(** The leftover objects of clusters that are no longer selected. *)
Fixpoint delete_leftovers (unprocessed : list DPUCluster) (o : O) : SM W (Res (list namespacedNameInCluster)) :=
  match unprocessed with
  | [] => mret (Ok [])
  | dc :: unprocessed =>
      r ← deleteObjectsInDPUCluster dc o;
      match r with
      | Err err => mret (Err err)
      | Ok objs =>
          r ← delete_leftovers unprocessed o;
          mret (match r with Err err => Err err | Ok rest => Ok (((λ obj, mkInCluster (un_key obj) (dc_key dc)) <$> objs) ++ rest) end)
      end
  end.

Definition reconcileObjectsInDPUClusters (o : O) (rc : RC) : SM W (option ObjectsError * O * RC) :=
  r ← GetConfigs;
  match r with
  | Err err => mret (Some (otherError err), o, rc)
  | Ok allDPUClusterConfigs =>
      let unprocessed := list_to_map (M:=gmap string DPUCluster) (rev ((λ dc, (nn_String (dc_key dc), dc)) <$> allDPUClusterConfigs)) in
      match GetMatchingDPUClusters allDPUClusterConfigs (rc_selector o) with
      | Err err => mret (Some (otherError err), o, rc)
      | Ok targets =>
          match rc_calculate targets o rc with
          | Err err => mret (Some (otherError err), o, rc)
          | Ok (true, _, o, rc) => mret (Some staleStatusError, o, rc)
          | Ok (false, targets, o, rc) =>
              err ← for_each (λ dc, applyObjectsInDPUCluster rc dc o) targets;
              match err with
              | Some err => mret (Some (otherError err), o, rc)
              | None =>
                  let unprocessed := foldl (λ m dc, delete (nn_String (dc_key dc)) m) unprocessed targets in
                  r ← delete_leftovers (snd <$> range_map unprocessed) o;
                  mret (match r with
                    | Err err => (Some (otherError err), o, rc)
                    | Ok [] => (None, o, rc)
                    | Ok existing =>
                        (Some (longOperationError (errorf (ReadyConditionMessage "Stale objects still exist across non matching DPUClusters"
                                                             (namespacedNameInCluster_String <$> existing)))), o, rc)
                    end)
              end
          end
      end
  end.

Definition getUnreadyObjectsInDPUCluster (dc : DPUCluster) (o : O) : SM W (Res (list NamespacedName)) :=
  r ← cluster_client dc;
  match r with
  | Err err => mret (Err err)
  | Ok k => r ← rc_getObjects k o; mret (match r with Err err => Err err | Ok objs => rc_getUnready (W:=W) (K:=K) (RC:=RC) (O:=O) objs end)
  end.
Fixpoint unready_in (dpuClusters : list DPUCluster) (o : O) : SM W (Res (list namespacedNameInCluster)) :=
  match dpuClusters with
  | [] => mret (Ok [])
  | dc :: dpuClusters =>
      r ← getUnreadyObjectsInDPUCluster dc o;
      match r with
      | Err err => mret (Err err)
      | Ok unreadyObjs =>
          r ← unready_in dpuClusters o;
          mret (match r with Err err => Err err | Ok rest => Ok (((λ n, mkInCluster n (dc_key dc)) <$> unreadyObjs) ++ rest) end)
      end
  end.
Definition reconcileReadinessOfObjectsInDPUClusters (o : O) : SM W (Res (list namespacedNameInCluster)) :=
  r ← GetConfigs;
  match r with
  | Err err => mret (Err err)
  | Ok dpuClusterConfigs =>
      match GetMatchingDPUClusters dpuClusterConfigs (rc_selector o) with
      | Err err => mret (Err err)
      | Ok targets => unready_in targets o
      end
  end.

Definition updateSummary (objReadyCondition : string) (o : O) : SM W (O * list GoError) :=
  r ← reconcileReadinessOfObjectsInDPUClusters o;
  mret (match r with
    | Err err => (SetSummary now (AddFalse now o objReadyCondition ReasonPending ("Error occurred: " +:+ err_msg err)) ∅, [err])
    | Ok [] => (SetSummary now (AddTrue now o objReadyCondition) ∅, [])
    | Ok unreadyObjs =>
        (SetSummary now (AddFalse now o objReadyCondition ReasonPending
                           (ReadyConditionMessage "Objects are not ready" (namespacedNameInCluster_String <$> unreadyObjs))) ∅, [])
    end).
End Objects.

(** ** The traces of the functions the controllers share *)

Section Traces.
Context {W E K RC O : Type} {A : ClustersAPI (W * list E) K} {I : ObjectsReconciler (W * list E) K RC O} {S : SelectorAPI} {R : MapRange} {RL : MapRangeLaws R}.
Context {API : MetaAPI} {G : GetSet O}.
Context (J : list E → E → Prop).
(** That the list of clusters, and the client of a cluster, was read. *)
Context (listed : list DPUCluster → list E → Prop).
Context (listed_mono : ∀ all l l', l `prefix_of` l' → listed all l → listed all l').
Context (list_traces : ∀ l, traces J l (list_clusters (K:=K)) (λ r l', match r with Ok all => listed all l' | Err _ => True end)).

Lemma elem_of_leftovers all ts dc :
  dc ∈ snd <$> range_map (foldl (λ m dc, delete (nn_String (dc_key dc)) m)
    (list_to_map (M:=gmap string DPUCluster) (rev ((λ dc, (nn_String (dc_key dc), dc)) <$> all))) ts) →
  dc ∈ all ∧ nn_String (dc_key dc) ∉ nn_String ∘ dc_key <$> ts.
Proof.
  intros ([k dc'] & -> & Hin%elem_of_range_map)%list_elem_of_fmap. cbn [snd]. revert Hin. set (m := list_to_map _).
  assert (∀ k d, m !! k = Some d → d ∈ all ∧ nn_String (dc_key d) = k) as Hm.
  { intros k0 d Hd%elem_of_list_to_map_2. apply list_elem_of_In, in_rev, list_elem_of_In, list_elem_of_fmap in Hd as (d' & [= -> ->] & Hd). done. }
  clearbody m. revert m Hm. induction ts as [|t ts IH]; intros m Hm; cbn [foldl].
  { intros Hd. split; [by eapply Hm|]. by apply not_elem_of_nil. }
  intros Hd. destruct (IH (delete (nn_String (dc_key t)) m)) as [Hin Hnot]; [|done|].
  { intros k0 d [_ Hd0]%lookup_delete_Some. by apply Hm. }
  split; [done|]. rewrite fmap_cons. apply not_elem_of_cons. split; [|done]. intros Heq.
  assert (delete (nn_String (dc_key t)) m !! k = Some dc') as Hdel.
  { clear -Hd. revert Hd. generalize (delete (nn_String (dc_key t)) m). induction ts as [|t' ts IH]; intros m0; cbn [foldl]; [done|].
    intros H%IH. by apply lookup_delete_Some in H as [_ ?]. }
  apply lookup_delete_Some in Hdel as [Hne Hk]. apply Hne. destruct (Hm _ _ Hk) as [_ <-]. cbn in Heq. congruence.
Qed.

(** What the reconciler computed from the clusters it read. *)
Definition computed (o : O) (rc : RC) (l : list E) (changed : bool) (all ts : list DPUCluster) (o' : O) (rc' : RC) : Prop :=
  ∃ targets, listed all l ∧ GetMatchingDPUClusters all (rc_selector o) = Ok targets ∧ rc_calculate targets o rc = Ok (changed, ts, o', rc').
Lemma computed_mono o rc l l' changed all ts o' rc' : l `prefix_of` l' → computed o rc l changed all ts o' rc' → computed o rc l' changed all ts o' rc'.
Proof. intros Hp (targets & Hl & H). exists targets. split; [by eapply listed_mono|done]. Qed.

(** Nothing is written before the state is computed and found as it was: then the writes
    are those of the targets and of the clusters that are left over. *)
Lemma reconcileObjects_traces l o rc :
  (∀ l' all ts o' rc', l `prefix_of` l' → computed o rc l' false all ts o' rc' →
    (∀ dc, dc ∈ ts → traces J l' (applyObjectsInDPUCluster rc' dc o') (λ _ _, True)) ∧
    ∀ dc, dc ∈ all → nn_String (dc_key dc) ∉ nn_String ∘ dc_key <$> ts → traces J l' (deleteObjectsInDPUCluster dc o') (λ _ _, True)) →
  traces J l (reconcileObjectsInDPUClusters o rc)
    (λ r l', r.1.2 = o ∧ r.2 = rc ∨ ∃ changed all ts, computed o rc l' changed all ts r.1.2 r.2 ∧ (changed = true → r.1.1 = Some staleStatusError)).
Proof.
  intros Hw. unfold reconcileObjectsInDPUClusters, GetConfigs. trace. eapply traces_mono; [apply list_traces|].
  intros [all|err] l1 Hl1 Hall; [|apply traces_ret; by left]. cbv zeta.
  destruct (GetMatchingDPUClusters all (rc_selector o)) as [targets|] eqn:Em; [|apply traces_ret; by left].
  destruct (rc_calculate targets o rc) as [[[[c ts] o'] rc']|] eqn:Ec; [|apply traces_ret; by left].
  assert (∀ l', l1 `prefix_of` l' → computed o rc l' c all ts o' rc') as Hcomp.
  { intros l' Hl'. exists targets. split; [by eapply listed_mono|done]. }
  destruct c; [apply traces_ret; right; exists true, all, ts; split; [by apply Hcomp|done]|]. trace.
  eapply traces_mono.
  { apply (traces_for_each J (λ _ _, True)); [done|]. intros dc l2 Hdc Hl2. eapply traces_mono; [|done].
    apply (Hw l2 all ts o' rc'); [by transitivity l1|by apply Hcomp|done]. }
  intros [err|] l2 Hl2 _; [apply traces_ret; right; exists false, all, ts; split; [by apply Hcomp|done]|]. trace.
  eapply traces_mono with (Q := λ _ _, True).
  - set (dcs := snd <$> range_map _). assert (∀ dc, dc ∈ dcs → dc ∈ all ∧ nn_String (dc_key dc) ∉ nn_String ∘ dc_key <$> ts) as Hdcs.
    { intros dc. apply elem_of_leftovers. }
    clearbody dcs. assert (l1 `prefix_of` l2) as Hp by done. clear Hl2. revert l2 Hp. induction dcs as [|dc dcs IH]; intros l2 Hl2; cbn [delete_leftovers]; [by apply traces_ret|].
    trace. destruct (Hdcs dc ltac:(left)) as [Hin Hnot]. eapply traces_mono.
    { apply (Hw l2 all ts o' rc'); [by transitivity l1|by apply Hcomp|done..]. }
    intros [objs|err] l3 Hl3 _; trace; [|done]. eapply traces_mono; [apply IH; [intros; apply Hdcs; by right|by transitivity l2]|].
    intros [rest|err] l4 Hl4 _; by apply traces_ret.
  - intros [[|x xs]|err] l3 Hl3 _; apply traces_ret; right; exists false, all, ts; (split; [by apply Hcomp; transitivity l2|done]).
Qed.

(** A deletion is over when every cluster of the host was found empty. *)
Lemma deletion_traces l o (empty : DPUCluster → list E → Prop) :
  (∀ dc l1 l2, l1 `prefix_of` l2 → empty dc l1 → empty dc l2) →
  (∀ dc l', l `prefix_of` l' → traces J l' (deleteObjectsInDPUCluster dc o) (λ r l'', r = Ok [] → empty dc l'')) →
  traces J l (reconcileObjectDeletionInDPUClusters o) (λ r l', r = None → ∃ dcs, listed dcs l' ∧ ∀ dc, dc ∈ dcs → empty dc l').
Proof.
  intros Hmono Hd. unfold reconcileObjectDeletionInDPUClusters, GetConfigs. trace. eapply traces_mono; [apply list_traces|].
  intros [all|err] l1 Hl1 Hall; [|by apply traces_ret]. trace.
  eapply traces_mono with (Q := λ r l', r = Ok 0 → ∀ dc, dc ∈ all → empty dc l').
  - assert (l `prefix_of` l1) as Hp by done. clear Hl1 Hall. revert l1 Hp. induction all as [|dc all IH]; intros l1 Hl1; cbn [delete_everywhere].
    { apply traces_ret. intros _ dc ?%not_elem_of_nil. done. }
    trace. eapply traces_mono; [by apply Hd|]. intros [objs|err] l2 Hl2 He; trace; [|done].
    eapply traces_mono; [apply IH; by transitivity l1|]. intros [n|err] l3 Hl3 Hn; trace; [|done]. intros [= Hz] dc' Hdc.
    assert (objs = []) as -> by (destruct objs; [done|simpl in Hz; lia]). apply elem_of_cons in Hdc as [->|Hdc]; [eapply Hmono; [done|by apply He]|].
    apply Hn; [|done]. f_equal. simpl in Hz. lia.
  - intros [[|n]|err] l2 Hl2 He; trace; try done. intros _. exists all. split; [by eapply listed_mono|]. by apply He.
Qed.

Lemma updateSummary_traces l now cond o (P : O → Prop) :
  (∀ l dc, traces J l (cluster_client dc) (λ _ _, True)) → (∀ l k, traces J l (rc_getObjects k o) (λ _ _, True)) →
  (∀ cs, P (SetConditions o cs)) → (∀ o cs, P o → P (SetConditions o cs)) →
  traces J l (updateSummary now cond o) (λ r _, P r.1).
Proof.
  intros Hc Hg HP HP'. unfold updateSummary. trace. eapply traces_mono with (Q := λ _ _, True).
  - unfold reconcileReadinessOfObjectsInDPUClusters, GetConfigs. trace. eapply traces_mono; [apply list_traces|].
    intros [all|err] l1 _ _; [|by apply traces_ret]. destruct (GetMatchingDPUClusters all (rc_selector o)) as [targets|]; [|by apply traces_ret].
    revert l1. induction targets as [|dc targets IH]; intros l1; cbn [unready_in]; [by apply traces_ret|]. trace.
    unfold getUnreadyObjectsInDPUCluster. trace. eapply traces_mono; [apply Hc|]. intros [k|err] l2 _ _; trace; [|done].
    eapply traces_mono; [apply Hg|]. intros [objs|err] l3 _ _; trace; [|done]. destruct (rc_getUnready objs); trace; [|done].
    eapply traces_mono; [apply IH|]. intros [u|err] l4 _ _; by apply traces_ret.
  - assert (∀ o : O, P o → P (SetSummary now o ∅)) as Hs.
    { intros o0 Ho. unfold SetSummary. destruct (_ && _); by apply HP'. }
    intros [[|u us]|err] l1 _ _; trace; apply Hs, HP.
Qed.

Lemma watch_traces l : (∀ l n, traces J l (rc_registerKind n) (λ _ _, True)) → traces J l (watchObjectsInDPUClusters (O:=O)) (λ _ _, True).
Proof.
  intros Hr. unfold watchObjectsInDPUClusters. trace. eapply traces_mono; [apply list_traces|]. intros [all|err] l1 _ _; [|by apply traces_ret].
  revert l1. induction all as [|dc all IH]; intros l1; cbn [register_all]; [by apply traces_ret|]. trace. eapply traces_mono; [apply Hr|].
  intros e l2 _ _. trace. eapply traces_mono; [apply IH|]. intros; by apply traces_ret.
Qed.
End Traces.
