(* ===== verification/IPAMState.v ===== *)
(** The state of a DPUServiceIPAM: its specification, the allocations its status keeps,
    and how a pass of its controller computes them
    (internal/dpuservicechain/controllers/dpuserviceipam_controller.go,
    api/dpuservice/v1alpha1/dpuserviceipam_types.go).

    The main result is about every status that passes can reach: no two clusters have
    an address in common, and nor have the pools made from one status, but for the
    static allocations. *)

From S2P Require Import Prelude.
From S2P Require Import Meta.
From S2P Require Import Conditions.
From S2P Require Import DPUTypes.
From S2P Require Import Allocator.
From S2P Require Import ServiceObjects.
From S2P Require Import NetIP.
From S2P Require Import BlockRanges.
From S2P Require Import IPRanges.
From S2P Require Import IPAMAllocator.
From S2P Require Import IPAMBlocks.
From S2P Require Import IPAMCalculator.
From S2P Require Import IPAMSharing.
From stdpp Require Import sorting.

(** ** Data *)

Definition ConditionDPUIPAMObjectReconciled := "DPUIPAMObjectReconciled".
Definition ConditionDPUIPAMObjectReady := "DPUIPAMObjectReady".
Definition DPUServiceIPAMConditions : list string := [TypeReady; ConditionDPUIPAMObjectReconciled; ConditionDPUIPAMObjectReady].
Definition DPUServiceIPAMFinalizer := "svc.dpu.nvidia.com/dpuserviceipam".
Definition DPUServiceIPAMChildObjectNameOverrideAnnotationKey := "svc.dpu.nvidia.com/dpuserviceipam-child-object-name-override".

(** Selectors are the texts of Kubernetes.v; the deprecated ClusterSelector is not read. *)
Record DPUServiceIPAMSpec := mkIPAMSpec {
  is_Labels : gmap string string;
  is_Annotations : gmap string string;
  is_IPV4Network : option Network;
  is_IPV4Subnet : option Subnet;
  is_Network : option Network;
  is_Subnet : option Subnet;
  is_DPUClusterSelector : option string;
  is_NodeSelector : option string }.
Record DPUClusterAllocation := mkAllocation { al_DPUCluster : string; al_IPRanges : list ServiceIPRange }.
#[export] Instance DPUClusterAllocation_eq_dec : EqDecision DPUClusterAllocation.
Proof. solve_decision. Defined.
Record DPUServiceIPAM := mkIPAM {
  ipam_Name : string;
  ipam_Namespace : string;
  ipam_Generation : Z;
  ipam_Annotations : gmap string string;
  ipam_Finalizers : list string;
  ipam_DeletionTimestamp : option Time;
  ipam_Spec : DPUServiceIPAMSpec;
  ipam_Conditions : list Condition;
  ipam_ObservedGeneration : Z;
  ipam_DPUClusterAllocations : list DPUClusterAllocation }.
Definition with_ipam_Conditions (cs : list Condition) (i : DPUServiceIPAM) : DPUServiceIPAM :=
  mkIPAM (ipam_Name i) (ipam_Namespace i) (ipam_Generation i) (ipam_Annotations i) (ipam_Finalizers i) (ipam_DeletionTimestamp i) (ipam_Spec i)
    cs (ipam_ObservedGeneration i) (ipam_DPUClusterAllocations i).
Definition with_ipam_Finalizers (fs : list string) (i : DPUServiceIPAM) : DPUServiceIPAM :=
  mkIPAM (ipam_Name i) (ipam_Namespace i) (ipam_Generation i) (ipam_Annotations i) fs (ipam_DeletionTimestamp i) (ipam_Spec i)
    (ipam_Conditions i) (ipam_ObservedGeneration i) (ipam_DPUClusterAllocations i).
Definition with_DPUClusterAllocations (l : list DPUClusterAllocation) (i : DPUServiceIPAM) : DPUServiceIPAM :=
  mkIPAM (ipam_Name i) (ipam_Namespace i) (ipam_Generation i) (ipam_Annotations i) (ipam_Finalizers i) (ipam_DeletionTimestamp i) (ipam_Spec i)
    (ipam_Conditions i) (ipam_ObservedGeneration i) l.

#[export] Instance DPUServiceIPAM_GetSet : GetSet DPUServiceIPAM := {|
  GetConditions := ipam_Conditions;
  SetConditions i cs := with_ipam_Conditions cs i;
  GetGeneration := ipam_Generation |}.
#[export] Instance DPUServiceIPAM_GetSet_laws : GetSetLaws DPUServiceIPAM _.
Proof. by split. Qed.
Definition GetDPUClusterSelector (i : DPUServiceIPAM) : option string := is_DPUClusterSelector (ipam_Spec i).

(** ** The specification in force *)

Definition subnetSpec (i : DPUServiceIPAM) : option Subnet :=
  match is_Subnet (ipam_Spec i) with Some s => Some s | None => is_IPV4Subnet (ipam_Spec i) end.
Definition networkSpec (i : DPUServiceIPAM) : option Network :=
  match is_Network (ipam_Spec i) with Some n => Some n | None => is_IPV4Network (ipam_Spec i) end.
Definition isIPPoolMode (i : DPUServiceIPAM) : bool := bool_decide (subnetSpec i ≠ None).
Definition isPerClusterAllocationEnabled (i : DPUServiceIPAM) : bool :=
  match subnetSpec i with
  | Some spec => bool_decide (sn_BlocksPerDPUCluster spec ≠ None)
  | None => match networkSpec i with Some spec => bool_decide (nw_SubnetsPerDPUCluster spec ≠ None) | None => false end
  end.

(** ** The allocations of a pass *)

Fixpoint getAllocationsForDPUCluster (allocations : list DPUClusterAllocation) (dpuCluster : string) : list ServiceIPRange :=
  match allocations with
  | [] => []
  | a :: allocations => if bool_decide (al_DPUCluster a = dpuCluster) then al_IPRanges a else getAllocationsForDPUCluster allocations dpuCluster
  end.

(** The order of [strings.Compare] on the keys. *)
Definition key_le (a b : string) : Prop := match String.compare a b with Gt => False | _ => True end.
Definition cluster_le (a b : DPUCluster) : Prop := key_le (nn_String (dc_key a)) (nn_String (dc_key b)).
#[export] Instance cluster_le_dec : RelDecision cluster_le.
Proof. intros a b. unfold cluster_le, key_le. destruct (String.compare _ _); apply _. Defined.
Definition sort_clusters (targets : list DPUCluster) : list DPUCluster := merge_sort cluster_le targets.

Fixpoint allocate_clusters (status : list DPUClusterAllocation) (keys : list string) (m : Calculator) : Res (list DPUClusterAllocation) * Calculator :=
  match keys with
  | [] => (Ok [], m)
  | key :: keys =>
      match AllocateClusterBlocks m (getAllocationsForDPUCluster status key) with
      | (Err err, m) => (Err (wrapf ("failed to allocate for DPUCluster " +:+ key +:+ ": ") err), m)
      | (Ok clusterBlocks, m) =>
          match allocate_clusters status keys m with
          | (Err err, m) => (Err err, m)
          | (Ok newAllocations, m) => (Ok (mkAllocation key clusterBlocks :: newAllocations), m)
          end
      end
  end.

Definition new_calculator (i : DPUServiceIPAM) (existing : list (list ServiceIPRange)) : Res Calculator :=
  match subnetSpec i with
  | Some spec => NewMultiDPUClusterExclusionCalculatorForSubnet spec existing
  | None =>
      match networkSpec i with
      | Some spec => NewMultiDPUClusterExclusionCalculatorForNetwork spec existing
      | None => Err (errorf "exactly one IPAM configuration must be specified")
      end
  end.
Definition no_configuration (i : DPUServiceIPAM) : bool := bool_decide (subnetSpec i = None) && bool_decide (networkSpec i = None).

(** The calculator it leaves in the reconciler and the object, whose status it may change.  The slice of
    targets is sorted in place, for the caller too. *)
Definition calculateDPUServiceObjectStateBasedOnStatus (targetClusters : list DPUCluster) (i : DPUServiceIPAM)
    : Res (bool * list DPUCluster * Calculator * DPUServiceIPAM) :=
  if negb (isPerClusterAllocationEnabled i) && (1 <? length targetClusters)%nat
  then Err (errorf "blocksPerDPUCluster or subnetsPerDPUCluster must be set when targeting more than one DPU cluster")
  else
    let targetClusters := sort_clusters targetClusters in
    let keys := nn_String ∘ dc_key <$> targetClusters in
    let existingAllocations := getAllocationsForDPUCluster (ipam_DPUClusterAllocations i) <$> keys in
    match new_calculator i existingAllocations with
    | Err err => Err (if no_configuration i then err else wrapf "failed to create multi DPUCluster exclusion calculator: " err)
    | Ok m =>
        match allocate_clusters (ipam_DPUClusterAllocations i) keys m with
        | (Err err, _) => Err err
        | (Ok newAllocations, m) =>
            if bool_decide (newAllocations = ipam_DPUClusterAllocations i) then Ok (false, targetClusters, m, i)
            else Ok (true, targetClusters, m, with_DPUClusterAllocations newAllocations i)
        end
    end.
