(* ===== verification/IPAMPasses.v ===== *)
(** What the passes of the DPUServiceIPAM controller do to the allocations: clusters
    never share an address, and a second pass finds nothing to change. *)

From S2P Require Import Prelude.
From S2P Require Import DPUTypes.
From S2P Require Import Allocator.
From S2P Require Import ServiceObjects.
From S2P Require Import NetIP.
From S2P Require Import BlockRanges.
From S2P Require Import IPRanges.
From S2P Require Import IPAMAllocator.
From S2P Require Import IPAMBlocks.
From S2P Require Import IPAMCalculator.
From S2P Require Import IPAMSharing.
From S2P Require Import IPAMState.
From stdpp Require Import sorting.

(** ** The calculator of a specification *)

Definition spec_excludes (i : DPUServiceIPAM) : list ServiceIPRange :=
  match subnetSpec i with
  | Some spec => sn_ExcludeRanges spec
  | None => match networkSpec i with
            | Some spec => ((λ address, mkServiceIPRange address address) <$> nw_Exclusions spec) ++ nw_ExcludeRanges spec
            | None => []
            end
  end.
Definition spec_network (i : DPUServiceIPAM) : string :=
  match subnetSpec i with Some spec => sn_Subnet spec | None => from_option nw_Network "" (networkSpec i) end.
(** The addresses of the network the specification names. *)
Definition in_network (i : DPUServiceIPAM) (y : Z) : Prop := ∃ p, netip_ParsePrefix (spec_network i) = Ok p ∧ in_prefix p y.
Definition spec_statics (i : DPUServiceIPAM) : gmap string string :=
  match subnetSpec i with Some _ => ∅ | None => match networkSpec i with Some spec => nw_Allocations spec | None => ∅ end end.
Definition spec_target (i : DPUServiceIPAM) : option Z :=
  match subnetSpec i with
  | Some spec => sn_BlocksPerDPUCluster spec
  | None => match networkSpec i with Some spec => nw_SubnetsPerDPUCluster spec | None => None end
  end.

Lemma new_calculator_spec i existing m : Forall zoneless (spec_excludes i) → Forall (Forall zoneless) existing → new_calculator i existing = Ok m →
  new_calc m (text_covers (spec_excludes i)) (λ y, Exists (λ ts, text_covers ts y) existing) ∧
  targetBlocksPerDPUCluster m = default 0%Z (spec_target i) ∧ allocateAllRemainingBlocks m = bool_decide (spec_target i = None) ∧
  staticAllocations m = spec_statics i.
Proof.
  unfold new_calculator, spec_excludes, spec_statics, spec_target. destruct (subnetSpec i) as [spec|].
  - intros Hz He. by apply new_calc_spec.
  - destruct (networkSpec i) as [spec|]; [|done]. intros Hz He. unfold NewMultiDPUClusterExclusionCalculatorForNetwork.
    destruct (netip_ParsePrefix (nw_Network spec)); [|done]. destruct (Is4In6 _); [done|]. by apply new_calc_spec.
Qed.
Lemma new_calculator_network i existing m : new_calculator i existing = Ok m → ∀ y, in_block y (to_block (parentRange m)) ↔ in_network i y.
Proof.
  unfold new_calculator, in_network, spec_network. intros E y.
  enough (∃ p, netip_ParsePrefix (match subnetSpec i with Some spec => sn_Subnet spec | None => from_option nw_Network "" (networkSpec i) end) = Ok p ∧
    ∀ y, in_block y (to_block (parentRange m)) ↔ in_prefix p y) as (p & Ep & Hy).
  { rewrite Hy. split; [by exists p|]. intros (p' & Ep' & Hin). rewrite Ep in Ep'. by injection Ep' as <-. }
  destruct (subnetSpec i) as [spec|]; [by apply new_calc_parent in E|]. destruct (networkSpec i) as [spec|]; [|done]. cbn.
  unfold NewMultiDPUClusterExclusionCalculatorForNetwork in E. destruct (netip_ParsePrefix (nw_Network spec)) as [p|] eqn:Ep; [|done].
  destruct (Is4In6 _); [done|]. rewrite <- Ep. by apply new_calc_parent in E.
Qed.
Lemma new_calculator_same i existing existing' m m' : new_calculator i existing = Ok m → new_calculator i existing' = Ok m' →
  m' = with_available (availableBlockRanges m') m.
Proof.
  unfold new_calculator. destruct (subnetSpec i) as [spec|]; [apply new_calc_same|]. destruct (networkSpec i) as [spec|]; [|done].
  unfold NewMultiDPUClusterExclusionCalculatorForNetwork. destruct (netip_ParsePrefix (nw_Network spec)); [|done]. destruct (Is4In6 _); [done|].
  apply new_calc_same.
Qed.
Lemma new_calculator_total i existing existing' m : new_calculator i existing = Ok m → (∃ rs, parse_all existing' = Ok rs) →
  ∃ m', new_calculator i existing' = Ok m'.
Proof.
  unfold new_calculator. destruct (subnetSpec i) as [spec|]; [apply new_calc_total|]. destruct (networkSpec i) as [spec|]; [|done].
  unfold NewMultiDPUClusterExclusionCalculatorForNetwork. destruct (netip_ParsePrefix (nw_Network spec)); [|done]. destruct (Is4In6 _); [done|].
  apply new_calc_total.
Qed.

(** ** Clusters keep apart *)

Definition apart_texts (a b : list ServiceIPRange) : Prop := ∀ y, text_covers a y → ¬ text_covers b y.
#[local] Abbreviation at_cluster := getAllocationsForDPUCluster (only parsing).

(** What the allocations of a status have to satisfy. *)
Record status_ok (status : list DPUClusterAllocation) : Prop := {
  so_zoneless key : Forall zoneless (at_cluster status key);
  so_apart key key' : key ≠ key' → apart_texts (at_cluster status key) (at_cluster status key') }.

Lemma text_covers_nil y : ¬ text_covers [] y.
Proof. by intros ?%Exists_nil. Qed.
Lemma status_ok_nil : status_ok [].
Proof. split; [constructor|]. intros key key' _ y ?%text_covers_nil. done. Qed.

Lemma allocate_clusters_spec status keys m : status_ok status → NoDup keys → calc_ok m →
  (∀ key y, key ∈ keys → text_covers (at_cluster status key) y → ¬ can_hand m y) →
  ∀ news m', allocate_clusters status keys m = (Ok news, m') →
  m' = with_available (availableBlockRanges m') m ∧ calc_ok m' ∧ status_ok news ∧
  (∀ key, key ∉ keys → at_cluster news key = []) ∧
  (∀ key y, text_covers (at_cluster news key) y → (text_covers (at_cluster status key) y ∧ key ∈ keys ∨ can_hand m y) ∧ ¬ can_hand m' y) ∧
  (∀ y, can_hand m' y → can_hand m y).
Proof.
  intros Hst Hnd Hok. revert m Hok. induction keys as [|key keys IH]; intros m Hok Hhand news m'; cbn [allocate_clusters].
  { intros [= <- <-]. split; [by rewrite with_available_same|]. split; [done|]. split; [apply status_ok_nil|]. split; [done|]. split; [|done].
    by intros key y ?%text_covers_nil. }
  apply NoDup_cons in Hnd as [Hnot Hnd]. destruct (AllocateClusterBlocks m _) as [[blocks|] m1] eqn:Ea; [|done].
  destruct (allocate_clusters status keys m1) as [[rest|] m2] eqn:Er; [|done]. intros [= <- <-].
  pose proof (AllocateClusterBlocks_spec m _ Hok (so_zoneless _ Hst key)) as Hspec. rewrite Ea in Hspec.
  destruct Hspec as (K & F & sel & _ & [Hh _ _] & _).
  apply allocated_addresses in Ea as (Hok1 & Hm1 & Hz & Hy); [|done|apply Hst].
  assert (∀ y, can_hand m1 y → can_hand m y) as Hmono by (intros y Hc; apply (hands_addresses m m1 sel F y Hok Hh); by right).
  destruct (IH Hnd m1 Hok1) with (news := rest) (m' := m2) as (Hm2 & Hok2 & [Hz2 Ha2] & Hout & Hin & Hmono2); [|done|].
  { intros key' y Hk Hc Hc1. apply (Hhand key' y); [by right|done|by apply Hmono]. }
  assert (∀ k, at_cluster (mkAllocation key blocks :: rest) k = if bool_decide (key = k) then blocks else at_cluster rest k) as Hat by done.
  assert (∀ y, text_covers blocks y → ∀ k, k ≠ key → ¬ text_covers (at_cluster rest k) y) as Hapart.
  { intros y Hb k Hne Hk. destruct (Hy y Hb) as [Hb1 Hb2]. destruct (Hin k y Hk) as [[[Hs Hkin]|Hc] _].
    - destruct Hb1 as [Hb1|Hb1]; [by apply (so_apart _ Hst k key Hne y)|]. by apply (Hhand k y); [right| |].
    - apply Hb2. split; [done|]. intros Hbs. apply (Hhand key y); [left|done|by apply Hmono]. }
  split; [rewrite Hm2, Hm1; done|]. split; [done|]. split; [split|split; [|split]].
  - intros k. rewrite Hat. by case_bool_decide.
  - intros k k' Hne y. rewrite !Hat. case_bool_decide as E1; case_bool_decide as E2; [congruence|..|by apply Ha2].
    + intros Hb. apply Hapart; [done|congruence].
    + intros Hr Hb. apply (Hapart y Hb k); [congruence|done].
  - intros k Hk. rewrite Hat. rewrite bool_decide_false by (intros ->; apply Hk; left). apply Hout. intros ?. apply Hk. by right.
  - intros k y. rewrite Hat. case_bool_decide as E; [subst k|].
    + intros Hb. destruct (Hy y Hb) as [Hb1 Hb2]. split; [destruct Hb1; [left; split; [done|left]|by right]|]. intros Hc2%Hmono2. apply Hb2. split; [done|].
      intros Hbs. apply (Hhand key y); [left|done|by apply Hmono].
    + intros Hr. destruct (Hin k y Hr) as [[[? ?]|?] ?]; split; auto. left. split; [done|by right].
  - intros y Hc. by apply Hmono, Hmono2.
Qed.

(** The statuses passes can reach: the specification and the clusters may change
    before each. *)
Inductive status_reachable : list DPUClusterAllocation → Prop :=
| reachable_new : status_reachable []
| reachable_pass i targets changed sorted m i' :
    status_reachable (ipam_DPUClusterAllocations i) →
    NoDup (nn_String ∘ dc_key <$> targets) → Forall zoneless (spec_excludes i) →
    calculateDPUServiceObjectStateBasedOnStatus targets i = Ok (changed, sorted, m, i') →
    status_reachable (ipam_DPUClusterAllocations i').

Lemma sort_keys targets : nn_String ∘ dc_key <$> sort_clusters targets ≡ₚ nn_String ∘ dc_key <$> targets.
Proof. unfold sort_clusters. by rewrite merge_sort_Permutation. Qed.

(** A pass, taken apart. *)
Lemma calculate_inv targets i changed sorted m i' :
  calculateDPUServiceObjectStateBasedOnStatus targets i = Ok (changed, sorted, m, i') →
  sorted = sort_clusters targets ∧
  ∃ m0 news, new_calculator i (getAllocationsForDPUCluster (ipam_DPUClusterAllocations i) <$> (nn_String ∘ dc_key <$> sorted)) = Ok m0 ∧
    allocate_clusters (ipam_DPUClusterAllocations i) (nn_String ∘ dc_key <$> sorted) m0 = (Ok news, m) ∧
    i' = with_DPUClusterAllocations news i ∧ changed = negb (bool_decide (news = ipam_DPUClusterAllocations i)).
Proof.
  unfold calculateDPUServiceObjectStateBasedOnStatus. destruct (_ && _); [done|].
  destruct (new_calculator i _) as [m0|] eqn:E0; [|done]. destruct (allocate_clusters _ _ m0) as [[news|] m1] eqn:E1; [|done].
  case_bool_decide as E; intros [= <- <- <- <-]; (split; [done|]); exists m0, news; (split; [done|]); (split; [done|]).
  - rewrite E, bool_decide_true by done. by destruct i.
  - by rewrite bool_decide_false.
Qed.

Lemma pass_spec targets i changed sorted m i' : status_ok (ipam_DPUClusterAllocations i) →
  NoDup (nn_String ∘ dc_key <$> targets) → Forall zoneless (spec_excludes i) →
  calculateDPUServiceObjectStateBasedOnStatus targets i = Ok (changed, sorted, m, i') →
  status_ok (ipam_DPUClusterAllocations i') ∧ calc_ok m ∧ staticAllocations m = spec_statics i ∧
  (∀ y, covers (to_block <$> mergedExclusions m) y ↔ text_covers (spec_excludes i) y) ∧
  (∀ y, in_block y (to_block (parentRange m)) ↔ in_network i y).
Proof.
  intros Hst Hnd Hz Hc. apply calculate_inv in Hc as (-> & m0 & news & E0 & E1 & -> & _).
  pose proof (sort_keys targets) as Hperm. rewrite <- Hperm in Hnd.
  pose proof (new_calculator_network _ _ _ E0) as Hnet. apply new_calculator_spec in E0 as ([Hok _ Hx Hav] & _ & _ & Hs); [|done|].
  2: { apply Forall_fmap, Forall_forall. intros key _. apply Hst. }
  destruct (allocate_clusters_spec _ _ m0 Hst Hnd Hok) with (news := news) (m' := m) as (Hm & Hokm & Hstn & _); [|done|].
  - intros key y Hk Hy (x & Hx' & Hin). apply Hav in Hx' as (_ & _ & Hn). apply (Hn y Hin). rewrite Exists_fmap. apply Exists_exists. by exists key.
  - split; [done|]. split; [done|]. rewrite Hm. by split.
Qed.

Lemma status_reachable_ok status : status_reachable status → status_ok status.
Proof.
  induction 1 as [|i targets changed sorted m i' _ IH Hnd Hz Hc]; [apply status_ok_nil|]. by apply (pass_spec _ _ _ _ _ _ IH Hnd Hz Hc).
Qed.

(** C7. Clusters never share an address: in every status that passes of the controller can
    reach, from the empty one and whatever the specifications and the clusters were at each
    pass, the ranges kept for two clusters have no address in common (and every range can
    be read without a zone). *)
Theorem allocations_stay_apart status : status_reachable status → status_ok status.
Proof. apply status_reachable_ok. Qed.

(** ** Pools *)

Section Pools.
Context {R : MapRange} {RL : MapRangeLaws R}.

(** The addresses of the network that a pool with these exclusions may give to a node. *)
Definition usable (i : DPUServiceIPAM) (exclusions : list ServiceIPRange) (y : Z) : Prop := in_network i y ∧ ¬ text_covers exclusions y.

#[export] Instance text_block_dec r y : Decision (text_block r y).
Proof.
  unfold text_block. destruct (netip_ParseAddr (sr_StartIP r)) as [a|]; [|by right; intros (? & ? & ? & _)].
  destruct (netip_ParseAddr (sr_EndIP r)) as [b|]; [|by right; intros (? & ? & _ & ? & _)].
  destruct (decide (position a <= y <= position b)%Z) as [Hy|Hy]; [left; by exists a, b|right; intros (a' & b' & Ea & Eb & Hy')]. congruence.
Defined.
#[export] Instance text_covers_dec rs y : Decision (text_covers rs y).
Proof. apply Exists_dec. intros r. apply _. Defined.
#[export] Instance static_address_dec s y : Decision (static_address s y).
Proof.
  unfold static_address. destruct (netip_ParsePrefix s) as [p|]; [|by right; intros (? & ? & ? & _)].
  destruct (Is4In6 (pf_Addr p)) eqn:E; [right; intros (? & ? & ? & ? & _); congruence|].
  destruct (RangeFromPrefix p) as [r|] eqn:Er; [|right; intros (? & ? & ? & _ & ? & _); congruence].
  destruct (decide (br_Start (to_block r) <= y <= br_End (to_block r))%Z) as [Hy|Hy]; [left; by exists p, r|right].
  intros (p' & r' & Ep & _ & Er' & Hin). unfold in_block in Hin. congruence.
Defined.
#[export] Instance static_addresses_dec static y : Decision (static_addresses static y).
Proof. exact (decide (map_Exists (λ _ s, static_address s y) static)). Defined.

(** The addresses a pool has: those of its cluster, and the static ones, that the
    specification does not exclude. *)
Lemma usable_spec i m blocks exclusions y : calc_ok m → (∀ y, in_block y (to_block (parentRange m)) ↔ in_network i y) →
  Forall zoneless blocks → ComputeExclusions m blocks = Ok exclusions →
  usable i exclusions y ↔
  in_network i y ∧ ¬ covers (to_block <$> mergedExclusions m) y ∧ (text_covers blocks y ∨ static_addresses (staticAllocations m) y).
Proof.
  intros Hok Hnet Hz E. unfold usable. pose proof (ComputeExclusions_spec m blocks Hok Hz) as H. rewrite E in H. destruct H as (_ & _ & Hx).
  rewrite Hx, Hnet. destruct (decide (text_covers blocks y)), (decide (static_addresses (staticAllocations m) y)); tauto.
Qed.

(** C24. What the pool of a cluster may give to a node: with the exclusions a pass computes
    for a cluster, exactly the addresses of the network named by the specification (its
    subnet or network prefix) that the specification does not
    exclude and that are allocated to the cluster or are in a static allocation.  The
    excluded ranges of the specification are written without IPv6 zones (the webhook
    accepts no others), and the targets of the pass are distinct. *)
Theorem pool_addresses targets i changed sorted m i' key exclusions y :
  status_reachable (ipam_DPUClusterAllocations i) →
  NoDup (nn_String ∘ dc_key <$> targets) → Forall zoneless (spec_excludes i) →
  calculateDPUServiceObjectStateBasedOnStatus targets i = Ok (changed, sorted, m, i') →
  ComputeExclusions m (getAllocationsForDPUCluster (ipam_DPUClusterAllocations i') key) = Ok exclusions →
  usable i exclusions y ↔ in_network i y ∧ ¬ text_covers (spec_excludes i) y ∧
    (text_covers (getAllocationsForDPUCluster (ipam_DPUClusterAllocations i') key) y ∨ static_addresses (spec_statics i) y).
Proof.
  intros Hr Hnd Hz Hc E. apply status_reachable_ok in Hr. destruct (pass_spec _ _ _ _ _ _ Hr Hnd Hz Hc) as ([Hzl _] & Hok & Hs & Hx & Hnet).
  by rewrite (usable_spec i m _ _ y Hok Hnet (Hzl key) E), Hx, Hs.
Qed.

(** C6. The pools of two clusters are apart: when a pass computes the exclusions of two
    clusters from one reachable status, an address of the network named by the specification
    that both pools may give
    to a node is one of a static allocation of the specification; and no pool may give an
    address that the specification excludes.  The excluded ranges of the specification are
    written without IPv6 zones (the webhook accepts no others), and the targets of the pass
    are distinct. *)
Theorem pools_stay_apart targets i changed sorted m i' key key' exclusions exclusions' y :
  status_reachable (ipam_DPUClusterAllocations i) →
  NoDup (nn_String ∘ dc_key <$> targets) → Forall zoneless (spec_excludes i) →
  calculateDPUServiceObjectStateBasedOnStatus targets i = Ok (changed, sorted, m, i') → key ≠ key' →
  ComputeExclusions m (getAllocationsForDPUCluster (ipam_DPUClusterAllocations i') key) = Ok exclusions →
  ComputeExclusions m (getAllocationsForDPUCluster (ipam_DPUClusterAllocations i') key') = Ok exclusions' →
  usable i exclusions y → ¬ text_covers (spec_excludes i) y ∧ (usable i exclusions' y → static_addresses (spec_statics i) y).
Proof.
  intros Hr Hnd Hz Hc Hne E E' Hu. apply status_reachable_ok in Hr.
  destruct (pass_spec _ _ _ _ _ _ Hr Hnd Hz Hc) as ([Hzl Ha] & Hok & Hs & Hx & Hnet).
  apply (usable_spec i m _ _ y Hok Hnet (Hzl key) E) in Hu as (_ & Hnx & Hu). rewrite Hx in Hnx. split; [done|].
  intros (_ & _ & Hu')%(usable_spec i m _ _ y Hok Hnet (Hzl key') E'). rewrite Hs in *. destruct Hu as [Hu|Hu]; [|done].
  destruct Hu' as [Hu'|Hu']; [|done]. destruct (Ha key key' Hne y Hu Hu').
Qed.
End Pools.
