(* ===== verification/IPAMSettling.v ===== *)
(** When the passes of the DPUServiceIPAM controller come to rest: allocations made of
    whole blocks are counted as the blocks they have, and a second pass over what a
    first one allocated changes nothing. *)

From S2P Require Import Prelude.
From S2P Require Import DPUTypes.
From S2P Require Import Allocator.
From S2P Require Import ServiceObjects.
From S2P Require Import NetIP.
From S2P Require Import BlockRanges.
From S2P Require Import IPRanges.
From S2P Require Import IPAMAllocator.
From S2P Require Import IPAMBlocks.
From S2P Require Import IPAMCalculator.
From S2P Require Import IPAMSharing.
From S2P Require Import IPAMState.
From S2P Require Import IPAMPasses.

(** ** Counting is cardinality *)

Definition members (n : Z) (P : Z → Prop) `{!∀ x, Decision (P x)} : nat := length (filter P (seqZ 0 n)).

Lemma members_ext n (P Q : Z → Prop) `{!∀ x, Decision (P x), !∀ x, Decision (Q x)} : (∀ x, P x ↔ Q x) → members n P = members n Q.
Proof. intros Hpq. unfold members. f_equal. by apply list_filter_iff. Qed.
Lemma members_or n (P Q : Z → Prop) `{!∀ x, Decision (P x), !∀ x, Decision (Q x)} : (∀ x, P x → ¬ Q x) →
  members n (λ x, P x ∨ Q x) = members n P + members n Q.
Proof.
  intros Hpq. unfold members. induction (seqZ 0 n) as [|x xs IH]; [done|]. rewrite !filter_cons. specialize (Hpq x).
  repeat case_decide; simpl; try tauto; rewrite IH; lia.
Qed.
Lemma filter_none {A} (P : A → Prop) `{!∀ x, Decision (P x)} (xs : list A) : (∀ x, x ∈ xs → ¬ P x) → filter P xs = [].
Proof.
  induction xs as [|x xs IH]; intros Hn; [done|]. rewrite filter_cons, decide_False by (apply Hn; left). apply IH. intros y Hy. apply Hn. by right.
Qed.
Lemma filter_every {A} (P : A → Prop) `{!∀ x, Decision (P x)} (xs : list A) : (∀ x, x ∈ xs → P x) → filter P xs = xs.
Proof.
  induction xs as [|x xs IH]; intros Hn; [done|]. rewrite filter_cons, decide_True by (apply Hn; left). f_equal. apply IH. intros y Hy. apply Hn. by right.
Qed.

#[export] Instance in_block_dec x r : Decision (in_block x r).
Proof. unfold in_block. apply _. Defined.
#[export] Instance covers_dec rs x : Decision (covers rs x).
Proof. unfold covers. apply _. Defined.

Lemma members_block n r : (0 <= br_Start r)%Z → proper r → (br_End r < n)%Z → Z.of_nat (members n (λ x, in_block x r)) = range_count r.
Proof.
  intros H0 Hp Hn. unfold members, proper, range_count in *.
  assert (seqZ 0 n = seqZ 0 (br_Start r) ++ seqZ (br_Start r) (br_End r - br_Start r + 1) ++ seqZ (br_End r + 1) (n - br_End r - 1)) as ->.
  { transitivity (seqZ 0 (br_Start r + ((br_End r - br_Start r + 1) + (n - br_End r - 1)))); [f_equal; lia|].
    rewrite !seqZ_app by lia. f_equal; f_equal; f_equal; lia. }
  rewrite !filter_app. assert (∀ a b, (∀ x, (a <= x < a + b)%Z → ¬ in_block x r) → filter (λ x, in_block x r) (seqZ a b) = []) as Hout.
  { intros a b Hab. apply filter_none. intros x Hx%elem_of_seqZ. by apply Hab. }
  rewrite (Hout 0%Z), (Hout (br_End r + 1)%Z) by (unfold in_block; lia). rewrite app_nil_r. cbn [app].
  rewrite filter_every by (intros x Hx%elem_of_seqZ; unfold in_block; lia). rewrite length_seqZ. lia.
Qed.

Lemma count_members n rs : canonical rs → (∀ x, covers rs x → (0 <= x < n)%Z) → blockIndexRangeCount rs = Z.of_nat (members n (covers rs)).
Proof.
  induction rs as [|r rs IH]; intros Hc Hb.
  - unfold members. rewrite filter_none; [done|]. intros x _. apply covers_nil.
  - apply canonical_cons in Hc as (Hp & Ha & Hc). rewrite block_count_cons, IH; [|done|intros x Hx; apply Hb, covers_cons; by right].
    pose proof (Hb (br_Start r)) as H1. pose proof (Hb (br_End r)) as H2. rewrite !covers_cons in H1, H2. unfold in_block, proper in *.
    rewrite <- (members_block n r) by (unfold proper; lia). rewrite (members_ext n (covers (r :: rs)) (λ x, in_block x r ∨ covers rs x)).
    + rewrite members_or; [lia|]. intros x Hx Hx'. apply (covers_after _ _ _ Ha) in Hx'. unfold in_block in Hx. lia.
    + intros x. apply covers_cons.
Qed.

Lemma count_union n rs1 rs2 rs : canonical rs1 → canonical rs2 → canonical rs → (∀ x, covers rs x → (0 <= x < n)%Z) →
  (∀ x, covers rs x ↔ covers rs1 x ∨ covers rs2 x) → (∀ x, covers rs1 x → ¬ covers rs2 x) →
  blockIndexRangeCount rs = (blockIndexRangeCount rs1 + blockIndexRangeCount rs2)%Z.
Proof.
  intros H1 H2 H Hb Hu Hd. rewrite (count_members n rs), (count_members n rs1), (count_members n rs2) by (try done; intros x Hx; apply Hb, Hu; auto).
  rewrite (members_ext n _ (λ x, covers rs1 x ∨ covers rs2 x)) by done. rewrite members_or by done. lia.
Qed.

(** ** Ranges on the grid *)

(** The ranges [K] are the blocks [sel], each of which has an address that is not excluded. *)
Record on_grid (m : Calculator) (K : list IPRange) (sel : list blockIndexRange) : Prop := {
  og_ok : Forall range_ok K;
  og_sel : canonical sel;
  og_blocks : to_block <$> K = stretch m <$> sel;
  og_bounds x : covers sel x → (0 <= x < totalBlocks m)%Z;
  og_useful x : covers sel x → ∃ y, in_node_block m x y ∧ ¬ covers (to_block <$> mergedExclusions m) y }.

Lemma on_grid_available v m K sel : on_grid m K sel → on_grid (with_available v m) K sel.
Proof. by intros []; split. Qed.

Lemma stretch_canonical m sel : (0 < blockSizePerNode m)%Z → canonical sel → canonical (stretch m <$> sel).
Proof.
  intros Hs. induction sel as [|r sel IH]; intros Hc; [apply canonical_nil|]. apply canonical_cons in Hc as (Hp & Ha & Hc).
  rewrite fmap_cons. apply canonical_cons. split; [|split; [|by apply IH]].
  - unfold proper, stretch in *. cbn. pose proof (block_start_mono m (br_Start r + 1) (br_End r + 1) Hs ltac:(lia)). unfold block_start in *. lia.
  - rewrite Forall_fmap. eapply Forall_impl; [exact Ha|]. intros s Hrs. unfold apart, stretch in *. cbn.
    pose proof (block_start_mono m (br_End r + 1 + 1) (br_Start s) Hs ltac:(lia)). unfold block_start in *. lia.
Qed.
Lemma on_grid_canonical m K sel : (0 < blockSizePerNode m)%Z → on_grid m K sel → canonical (to_block <$> K).
Proof. intros Hs [_ Hc Hb _ _]. rewrite Hb. by apply stretch_canonical. Qed.

(** A range of whole blocks has as many, counted from its own start, as there are. *)
Lemma grid_range m r b : calc_ok m → range_ok r → to_block r = stretch m b → proper b →
  (∀ x, in_block x b → ∃ y, in_node_block m x y ∧ ¬ covers (to_block <$> mergedExclusions m) y) →
  allocatable_in m r = range_count b.
Proof.
  intros Hok Hr Hb Hp Hu. pose proof (co_size m Hok) as Hs. destruct (co_exclusions m Hok) as [Hxo Hxc]. pose proof Hr as [Hps Hpe Hf Ho].
  pose proof (f_equal br_Start Hb) as Hb1. pose proof (f_equal br_End Hb) as Hb2. cbn in Hb1, Hb2. unfold block_start in Hb1, Hb2.
  pose proof (family_position _ _ Hps Hpe (eq_sym Hf)) as Hfp. unfold proper in Hp. set (n := range_count b). unfold range_count in n.
  unfold allocatable_in. rewrite Distance_spec by done.
  assert (addr_value (ip_End r) - addr_value (ip_Start r) + 1 = n * blockSizePerNode m)%Z as -> by (unfold n; lia).
  rewrite Z.quot_mul by lia. destruct (Z.eqb_spec n 0); [unfold n in *; lia|].
  pose proof (Add_spec (ip_Start r) (n * blockSizePerNode m - 1) Hps ltac:(nia)) as Hadd.
  pose proof Hpe as [[_ Hrange] _]. rewrite Hf in Hrange. destruct (Add (ip_Start r) _) as [e|]; [|unfold n in *; lia].
  destruct Hadd as (Hpl & Hfe & Hve).
  destruct (blockRangesFullyCoveredBy_spec (ip_Start r) e (blockSizePerNode m) n Hps Hpl Hfe Hs ltac:(unfold n; lia) ltac:(lia) (mergedExclusions m) Hxo) as [Hc Hx].
  enough (blockRangesFullyCoveredBy (mergedExclusions m) (ip_Start r) e (blockSizePerNode m) n = []) as ->; [change (blockIndexRangeCount []) with 0%Z; lia|].
  apply canonical_unique; [done|apply canonical_nil|]. intros x. rewrite Hx. split; [|by intros ?%covers_nil]. intros [Hin Hex].
  exfalso. destruct (Hu (br_Start b + x)%Z) as (y & Hy & Hny); [unfold in_block; unfold n in *; lia|]. apply Hny.
  apply (proj1 (block_within_iff _ _ _ x Hs Hxo Hxc) Hex). unfold in_node_block, block_start, grid in *. lia.
Qed.

Lemma count_grid_fold m rs sel total : calc_ok m → Forall range_ok rs → to_block <$> rs = stretch m <$> sel → Forall proper sel →
  (∀ x, covers sel x → ∃ y, in_node_block m x y ∧ ¬ covers (to_block <$> mergedExclusions m) y) →
  foldl (λ total allocated, total + allocatable_in m allocated)%Z total rs = (total + blockIndexRangeCount sel)%Z.
Proof.
  intros Hok Hrs. revert sel total. induction Hrs as [|r rs Hr Hrs IH]; intros [|b sel] total Hb Hp Hu; try done; [change (blockIndexRangeCount []) with 0%Z; cbn; lia|].
  rewrite !fmap_cons in Hb. injection Hb as Hb1 Hb2 Hb'. apply Forall_cons in Hp as [Hpb Hp]. cbn [foldl].
  rewrite (IH sel), block_count_cons, (grid_range m r b); try done.
  - lia.
  - destruct r as [s e]. unfold to_block, stretch in *. cbn in *. congruence.
  - intros x Hx. apply Hu, covers_cons. by left.
  - intros x Hx. apply Hu, covers_cons. by right.
Qed.
Lemma on_grid_count m K sel : calc_ok m → on_grid m K sel → countAllocatableBlocks m K = blockIndexRangeCount sel.
Proof.
  intros Hok Hg. unfold countAllocatableBlocks. rewrite MergeRanges_canonical; [|apply Hg|by apply (on_grid_canonical m K sel (co_size m Hok))].
  rewrite (count_grid_fold m K sel 0 Hok); [lia|apply Hg..|apply Hg].
Qed.

(** What a cluster keeps and what it is given, both of whole blocks, are merged into
    whole blocks. *)
Lemma on_grid_merge m K F s1 s2 : (0 < blockSizePerNode m)%Z → on_grid m K s1 → on_grid m F s2 → (∀ x, covers s1 x → ¬ covers s2 x) →
  ∃ sel, on_grid m (MergeRanges (K ++ F)) sel ∧ (∀ x, covers sel x ↔ covers s1 x ∨ covers s2 x) ∧
    blockIndexRangeCount sel = (blockIndexRangeCount s1 + blockIndexRangeCount s2)%Z.
Proof.
  intros Hs [Ho1 Hc1 Hb1 Hn1 Hu1] [Ho2 Hc2 Hb2 Hn2 Hu2] Hd. destruct (mergeBlockIndexRanges_spec (s1 ++ s2)) as [Hc Hx].
  { apply Forall_app. split; [apply Hc1|apply Hc2]. }
  destruct (MergeRanges_spec (K ++ F)) as (Hmo & Hmc & Hmx); [by apply Forall_app|]. exists (mergeBlockIndexRanges (s1 ++ s2)).
  assert (∀ x, covers (mergeBlockIndexRanges (s1 ++ s2)) x ↔ covers s1 x ∨ covers s2 x) as Hu by (intros x; by rewrite Hx, covers_app).
  split; [|split; [done|]].
  - split; [done|done| |intros x [Hx1|Hx2]%Hu; auto|intros x [Hx1|Hx2]%Hu; auto].
    apply canonical_unique; [done|by apply stretch_canonical|]. intros y. rewrite Hmx, fmap_app, covers_app, Hb1, Hb2.
    rewrite !covers_stretch by (try done; (apply Hc || apply Hc1 || apply Hc2)). setoid_rewrite Hu. naive_solver.
  - apply (count_union (totalBlocks m)); try done. intros x [Hx1|Hx2]%Hu; auto.
Qed.

(** Whole blocks are in the network, so a cluster that has some keeps them. *)
Lemma on_grid_nonempty m K sel : on_grid m K sel → K ≠ [] ↔ sel ≠ [].
Proof.
  intros [_ _ Hb _ _]. split; intros Hn ->; apply Hn; [by apply fmap_nil_inv in Hb|]. symmetry in Hb. by apply fmap_nil_inv in Hb.
Qed.
Lemma on_grid_keeps m K sel : calc_ok m → on_grid m K sel → K ≠ [] → keeps_ranges m K = true.
Proof.
  intros Hok Hg Hne. pose proof Hg as [Ho Hc Hb Hn _]. pose proof (co_size m Hok) as Hs. unfold keeps_ranges. rewrite bool_decide_true by done.
  rewrite (on_grid_count m K sel Hok Hg). destruct (count_proper sel (proj1 Hc)) as [H0 H1].
  destruct (Z.ltb_spec 0 (blockIndexRangeCount sel)).
  2: { apply (on_grid_nonempty m K sel Hg) in Hne. destruct Hne. apply H1. lia. }
  cbn [andb]. rewrite andb_true_r. unfold areClusterBlocksCompatible. apply negb_true_iff, not_true_iff_false. intros Hex.
  apply existsb_exists in Hex as (r & Hin & Hr). apply list_elem_of_In in Hin. apply negb_true_iff, not_true_iff_false in Hr. apply Hr.
  rewrite Forall_forall in Ho. apply Range_In_spec; [by apply Ho|apply (co_parent m Hok)|].
  assert (to_block r ∈ stretch m <$> sel) as Hin' by (rewrite <- Hb; by apply list_elem_of_fmap_2). apply list_elem_of_fmap in Hin' as (b & Eb & Hb').
  pose proof (proj1 Hc) as Hp. rewrite Forall_forall in Hp. specialize (Hp b Hb'). unfold proper in Hp.
  destruct (Hn (br_Start b)) as [Hs0 _]; [apply Exists_exists; exists b; split; [done|unfold in_block; lia]|].
  destruct (Hn (br_End b)) as [_ Hs1]; [apply Exists_exists; exists b; split; [done|unfold in_block; lia]|].
  pose proof (co_parent_start m Hok). pose proof (co_parent_end m Hok). pose proof (block_start_mono m 0 (br_Start b) Hs ltac:(lia)).
  pose proof (block_start_mono m (br_End b + 1) (totalBlocks m) Hs ltac:(lia)).
  assert (within (to_block r) (to_block (parentRange m))) as Hw by (rewrite Eb; unfold within, stretch; cbn; lia). split; [|done].
  pose proof (Ho r Hin) as Hro. pose proof (range_proper r Hro) as Hrp. unfold proper, within in *. cbn in Hw, Hrp.
  pose proof Hro as [Hps _ _ _]. destruct (co_parent m Hok) as [Hpp Hpe Hpf _].
  destruct (decide (BitLen (ip_Start r) = BitLen (ip_Start (parentRange m)))) as [|Hne']; [done|exfalso].
  destruct (Z.lt_total (BitLen (ip_Start r)) (BitLen (ip_Start (parentRange m)))) as [Hlt|[?|Hlt]]; [|done|].
  - pose proof (family_lt _ _ Hps Hpp Hlt). lia.
  - pose proof (family_lt (ip_End (parentRange m)) (ip_Start r) Hpe Hps ltac:(lia)). lia.
Qed.

(** ** A pass, cluster by cluster *)

Lemma covers_none rs : (∀ x, ¬ covers rs x) → Forall proper rs → rs = [].
Proof.
  destruct rs as [|r rs]; [done|]. intros Hn Hp. apply Forall_cons in Hp as [Hr _]. destruct (Hn (br_Start r)). apply covers_cons. left.
  unfold in_block, proper in *. lia.
Qed.

(** What a pass that starts with [m] and ends with [m'] makes of the ranges [old] of a cluster. *)
Definition share (m m' : Calculator) (old blocks : list ServiceIPRange) : Prop :=
  ∃ v v' K F sel, calc_ok (with_available v m) ∧ (∀ x, covers v x → covers (availableBlockRanges m) x) ∧ (∀ x, covers (availableBlockRanges m') x → covers v' x) ∧
    parseIPRanges old = Ok K ∧ gives (with_available v m) (with_available v' m) (kept m K) F sel ∧ (keeps_ranges m K = false → sel ≠ []) ∧
    blocks = toDPUServiceIPAMIPRanges (MergeRanges (kept m K ++ F)) ∧ Forall range_ok (kept m K ++ F).

Lemma share_later m v1 m' old blocks : (∀ x, covers v1 x → covers (availableBlockRanges m) x) →
  share (with_available v1 m) m' old blocks → share m m' old blocks.
Proof. intros Hv (v & v' & K & F & sel & Hok & H1 & H2). exists v, v', K, F, sel. split; [done|]. split; [|done]. intros x Hx. by apply Hv, H1. Qed.

Lemma allocate_clusters_each status keys m news m' : calc_ok m → (∀ key, Forall zoneless (getAllocationsForDPUCluster status key)) →
  allocate_clusters status keys m = (Ok news, m') →
  al_DPUCluster <$> news = keys ∧ (∀ x, covers (availableBlockRanges m') x → covers (availableBlockRanges m) x) ∧
  Forall (λ a, share m m' (getAllocationsForDPUCluster status (al_DPUCluster a)) (al_IPRanges a)) news ∧
  (∀ y, can_hand m y → can_hand m' y ∨ Exists (λ a, text_covers (al_IPRanges a) y) news).
Proof.
  intros Hok Hz. revert m Hok news. induction keys as [|key keys IH]; intros m Hok news; cbn [allocate_clusters].
  { intros [= <- <-]. split; [done|]. split; [done|]. split; [constructor|by left]. }
  pose proof (AllocateClusterBlocks_spec m _ Hok (Hz key)) as Hspec. destruct (AllocateClusterBlocks m _) as [[blocks|] m1] eqn:Ea; [|done].
  destruct Hspec as (K & F & sel & Hp & Hg & Hne & Hb & Hr). pose proof (gv_hands _ _ _ _ _ Hg) as Hh.
  pose proof (ho_calc _ _ _ _ Hh) as Hm1. pose proof (ho_ok _ _ _ _ Hh) as Hok1. pose proof (ho_split _ _ _ _ Hh) as Hsplit.
  destruct (allocate_clusters status keys m1) as [[rest|] m2] eqn:Er; [|done]. intros [= <- <-].
  destruct (IH m1 Hok1 rest Er) as (Hk & Hsub & Hall & Hcan).
  assert (∀ x, covers (availableBlockRanges m1) x → covers (availableBlockRanges m) x) as Hsub1 by (intros x Hx; apply Hsplit; by right).
  split; [by rewrite fmap_cons, Hk|]. split; [intros x Hx; by apply Hsub1, Hsub|]. split; [constructor|].
  - exists (availableBlockRanges m), (availableBlockRanges m1), K, F, sel. rewrite with_available_same, <- Hm1. done.
  - eapply Forall_impl; [exact Hall|]. intros a Ha. rewrite Hm1 in Ha. by apply (share_later m _ m2 _ _ Hsub1).
  - intros y Hy. destruct (hands_addresses m m1 sel F y Hok Hh) as [Hs _]. apply Hs in Hy as [Hy|Hy].
    + right. apply Exists_cons. left. cbn. rewrite Hb. destruct (MergeRanges_spec _ Hr) as (Hmo & _ & Hmx).
      apply text_print; [done|]. rewrite Hmx, fmap_app, covers_app. by right.
    + apply Hcan in Hy as [Hy|Hy]; [by left|right]. apply Exists_cons. by right.
Qed.

(** ** Coming to rest *)

(** A cluster that has its share, or for which nothing is left, is given nothing more. *)
Definition has_share (m : Calculator) (sel : list blockIndexRange) : Prop :=
  availableBlockRanges m = [] ∨ allocateAllRemainingBlocks m = false ∧ (targetBlocksPerDPUCluster m <= blockIndexRangeCount sel)%Z.

Lemma computeBlocks_rest m K sel : calc_ok m → on_grid m K sel → K ≠ [] → has_share m sel → computeBlocksForCluster m K = (Ok K, m).
Proof.
  intros Hok Hg Hne Hsh. pose proof (on_grid_keeps m K sel Hok Hg Hne) as Hk. unfold keeps_ranges in Hk. apply andb_true_iff in Hk as [Hk1 Hk2].
  unfold computeBlocksForCluster. rewrite Hk1, Hk2, (on_grid_count m K sel Hok Hg). destruct Hsh as [He|[-> Ht]].
  - destruct (allocateAllRemainingBlocks m); [unfold consumeAllBlocks; by rewrite He|].
    destruct (Z.leb_spec (targetBlocksPerDPUCluster m) (blockIndexRangeCount sel)); [done|]. unfold consumeBlocks. rewrite He.
    destruct (Z.ltb_spec (targetBlocksPerDPUCluster m - blockIndexRangeCount sel) 1); [lia|done].
  - destruct (Z.leb_spec (targetBlocksPerDPUCluster m) (blockIndexRangeCount sel)); [done|lia].
Qed.

(** The status of a cluster that a pass leaves as it is. *)
Definition at_rest (m : Calculator) (blocks : list ServiceIPRange) : Prop :=
  ∃ M sel, blocks = toDPUServiceIPAMIPRanges M ∧ parseIPRanges blocks = Ok M ∧ on_grid m M sel ∧ M ≠ [] ∧ has_share m sel.

Lemma allocate_rest status keys m : calc_ok m → (∀ key, key ∈ keys → at_rest m (getAllocationsForDPUCluster status key)) →
  allocate_clusters status keys m = (Ok ((λ key, mkAllocation key (getAllocationsForDPUCluster status key)) <$> keys), m).
Proof.
  intros Hok Hr. induction keys as [|key keys IH]; [done|]. cbn [allocate_clusters]. destruct (Hr key) as (M & sel & Hb & Hp & Hg & Hne & Hsh); [left|].
  unfold AllocateClusterBlocks. rewrite Hp, (computeBlocks_rest m M sel Hok Hg Hne Hsh).
  rewrite MergeRanges_canonical; [|apply Hg|by apply (on_grid_canonical m M sel (co_size m Hok))]. rewrite <- Hb, IH by (intros k Hk; apply Hr; by right). done.
Qed.

Lemma allocations_by_key news : NoDup (al_DPUCluster <$> news) →
  (λ key, mkAllocation key (getAllocationsForDPUCluster news key)) <$> (al_DPUCluster <$> news) = news ∧
  ∀ a, a ∈ news → getAllocationsForDPUCluster news (al_DPUCluster a) = al_IPRanges a.
Proof.
  induction news as [|a news IH]; intros Hnd; [split; [done|by intros a ?%elem_of_nil]|]. apply NoDup_cons in Hnd as [Hn Hnd].
  destruct (IH Hnd) as [IH1 IH2]. rewrite !fmap_cons. cbn [getAllocationsForDPUCluster]. rewrite bool_decide_true by done. split.
  - f_equal; [by destruct a|]. etransitivity; [|exact IH1]. apply list_fmap_ext. intros n key Hk. rewrite bool_decide_false; [done|]. intros <-. apply Hn.
    by eapply list_elem_of_lookup_2.
  - intros b [->|Hb]%elem_of_cons; [by rewrite bool_decide_true|]. rewrite bool_decide_false; [by apply IH2|]. intros E. apply Hn. rewrite E.
    by apply list_elem_of_fmap_2.
Qed.

(** No address of the network is one of ::ffff:0:0/96, which is not read back. *)
Definition no_mapped (m : Calculator) : Prop := ∀ a, plain a → in_block (position a) (to_block (parentRange m)) → Is4In6 a = false.

Lemma on_grid_unmapped m K sel : calc_ok m → no_mapped m → on_grid m K sel → Forall unmapped K.
Proof.
  intros Hok Hnm Hg. destruct K as [|r0 K'] eqn:EK; [constructor|]. rewrite <- EK in *. assert (K ≠ []) as Hne by (by rewrite EK). clear EK.
  pose proof (on_grid_keeps m K sel Hok Hg Hne) as Hk. unfold keeps_ranges in Hk. rewrite !andb_true_iff in Hk. destruct Hk as ((_ & Hk) & _).
  unfold areClusterBlocksCompatible in Hk. apply negb_true_iff, not_true_iff_false in Hk. pose proof (og_ok _ _ _ Hg) as Ho. rewrite Forall_forall in Ho.
  apply Forall_forall. intros r Hr. pose proof (Ho r Hr) as Hro. destruct (Range_In r (parentRange m)) eqn:E.
  - apply Range_In_spec in E as [_ Hw]; [|done|apply (co_parent m Hok)]. pose proof (range_proper r Hro) as Hp. unfold within, proper in *.
    cbn in Hw, Hp. destruct Hro as [Hs He _ _]. split; apply Hnm; try done; unfold in_block, to_block; cbn; lia.
  - destruct Hk. apply existsb_exists. exists r. rewrite E. split; [by apply list_elem_of_In|done].
Qed.

(** A status of whole blocks. *)
Definition grid_status (m : Calculator) (status : list DPUClusterAllocation) : Prop :=
  ∀ key K, parseIPRanges (getAllocationsForDPUCluster status key) = Ok K → ∃ sel, on_grid m K sel.

(** The share a cluster is given of a status of whole blocks is itself of whole blocks. *)
Lemma share_rest m m' K0 old blocks allocated : new_calc m (λ y, covers (to_block <$> mergedExclusions m) y) allocated → no_mapped m →
  m' = with_available (availableBlockRanges m') m → calc_ok m' →
  (∀ y, text_covers old y → allocated y) → Forall zoneless old → parseIPRanges old = Ok K0 → (∃ s0, on_grid m K0 s0) →
  share m m' old blocks → at_rest m' blocks ∧ (∀ y, text_covers old y → text_covers blocks y).
Proof.
  intros [Hok _ _ Hav] Hnm Hm' Hok' Hal Hz Hp0 (s0 & Hg0) (v & v' & K & F & sel & Hokv & Hv & Hv' & Hp & [Hh Hfill Hq] & Hne & -> & Hr).
  rewrite Hp0 in Hp. injection Hp as <-. pose proof (co_size m Hok) as Hs. apply parseIPRanges_ok in Hp0 as [_ Hp0]; [|done].
  destruct Hh as [_ _ Hsc Hsplit _ Hro Hbl]. cbn [availableBlockRanges with_available] in Hsplit.
  assert (∀ x, covers sel x → covers (availableBlockRanges m) x) as Hsel by (intros x Hx; apply Hv, Hsplit; by left).
  assert (on_grid m F sel) as HgF.
  { split; [done|done|done| |]; intros x Hx; apply Hsel, Hav in Hx as (? & ? & _); done. }
  assert (on_grid m (kept m K0) (if keeps_ranges m K0 then s0 else [])) as HgK.
  { unfold kept. destruct (keeps_ranges m K0); [done|]. split; [constructor|apply canonical_nil|done|by intros ? ?%covers_nil|by intros ? ?%covers_nil]. }
  set (sK := if keeps_ranges m K0 then s0 else []) in *.
  destruct (on_grid_merge m (kept m K0) F sK sel Hs HgK HgF) as (s & Hg & Hcov & Hcnt).
  { intros x HxK Hx. apply Hsel, Hav in Hx as (_ & _ & Hn). apply (Hn (block_start m x)); [unfold in_node_block, block_start; lia|]. apply Hal, Hp0.
    assert (covers s0 x) as Hx0 by (unfold sK in HxK; destruct (keeps_ranges m K0); [done|by apply covers_nil in HxK]).
    rewrite (og_blocks _ _ _ Hg0). apply covers_stretch; [done|apply Hg0|]. exists x. split; [done|]. unfold in_node_block, block_start. lia. }
  split.
  - assert (on_grid m' (MergeRanges (kept m K0 ++ F)) s) as Hg' by (rewrite Hm'; by apply on_grid_available).
    exists (MergeRanges (kept m K0 ++ F)), s. split; [done|]. split; [|split; [done|split]].
    + apply parse_print; [apply Hg|]. by apply (on_grid_unmapped m _ s Hok Hnm).
    + apply (on_grid_nonempty m _ s Hg). intros ->. assert (sel ≠ [] ∨ sK ≠ []) as [Hn|Hn].
      { unfold sK. destruct (keeps_ranges m K0) eqn:Ek; [right|left; by apply Hne]. apply (on_grid_nonempty m K0 s0 Hg0). intros ->. done. }
      * apply Hn, covers_none; [|apply Hsc]. intros x Hx. apply (covers_nil x), Hcov. by right.
      * apply Hn, covers_none; [|apply HgK]. intros x Hx. apply (covers_nil x), Hcov. by left.
    + destruct Hfill as [He|[Ha Ht]]; [left|right].
      * cbn in He. apply covers_none; [|apply (co_available m' Hok')]. intros x Hx%Hv'. rewrite He in Hx. by apply covers_nil in Hx.
      * rewrite Hm'. cbn in Ha, Ht |- *. split; [done|]. rewrite Hcnt. rewrite <- (on_grid_count m _ _ Hok HgK). exact Ht.
  - intros y Hy. destruct (MergeRanges_spec _ Hr) as (Hmo & _ & Hmx). apply text_print; [done|]. rewrite Hmx, fmap_app, covers_app. left.
    unfold kept. rewrite (on_grid_keeps m K0 s0 Hok Hg0); [by apply Hp0|]. intros ->. apply Hp0 in Hy. by apply covers_nil in Hy.
Qed.

Lemma parse_all_total tss : Forall (λ ts, ∃ rs, parseIPRanges ts = Ok rs) tss → ∃ rs, parse_all tss = Ok rs.
Proof.
  induction 1 as [|ts tss [rs Hts] Htss [rest IH]]; [by exists []|]. exists (rs ++ rest). cbn [parse_all]. by rewrite Hts, IH.
Qed.

(** The blocks a new calculator has, after a pass, are among those the pass left. *)
Lemma next_available m0 m m2 allocated news : new_calc m0 (λ y, covers (to_block <$> mergedExclusions m0) y) allocated →
  new_calc m2 (λ y, covers (to_block <$> mergedExclusions m2) y) (λ y, Exists (λ a, text_covers (al_IPRanges a) y) news) →
  m = with_available (availableBlockRanges m) m0 → m2 = with_available (availableBlockRanges m2) m0 →
  (∀ y, allocated y → Exists (λ a, text_covers (al_IPRanges a) y) news) →
  (∀ y, can_hand m0 y → can_hand m y ∨ Exists (λ a, text_covers (al_IPRanges a) y) news) →
  ∀ x, covers (availableBlockRanges m2) x → covers (availableBlockRanges m) x.
Proof.
  intros [Hok _ _ Hav] [Hok2 _ _ Hav2] Hm Hm2 Hkeep Hcan x Hx. apply Hav2 in Hx as (Hb & Hu & Hn). pose proof (co_size m0 Hok) as Hs.
  rewrite Hm2 in Hb, Hu, Hn. unfold in_node_block, block_start in Hu, Hn. cbn in Hb, Hu, Hn.
  assert (covers (availableBlockRanges m0) x) as Hx0.
  { apply Hav. split; [done|]. split; [done|]. intros y Hy Hal. by apply (Hn y Hy), Hkeep. }
  assert (in_node_block m0 x (block_start m0 x)) as Hy by (unfold in_node_block, block_start; lia).
  destruct (Hcan (block_start m0 x)) as [(x' & Hx' & Hin)|Hnew]; [by exists x| |].
  - rewrite Hm in Hin. by rewrite (node_block_inj m0 x x' _ Hs Hy Hin).
  - by destruct (Hn _ Hy).
Qed.

(** What is used of the calculator of a pass. *)
Lemma new_calculator_grid i existing m : Forall zoneless (spec_excludes i) → Forall (Forall zoneless) existing → new_calculator i existing = Ok m →
  new_calc m (λ y, covers (to_block <$> mergedExclusions m) y) (λ y, Exists (λ ts, text_covers ts y) existing).
Proof.
  intros Hz He E. apply new_calculator_spec in E as ([Hok Hend Hx Hav] & _); [|done..]. split; [done|done|done|].
  intros x. rewrite Hav. by setoid_rewrite <- Hx.
Qed.

Lemma Exists_keys {A B} (f : A → B) (P : B → Prop) xs : Exists P (f <$> xs) ↔ ∃ x, x ∈ xs ∧ P (f x).
Proof. rewrite Exists_fmap, Exists_exists. done. Qed.

Lemma all_zoneless {A} (f : A → list ServiceIPRange) xs : (∀ x, x ∈ xs → Forall zoneless (f x)) → Forall (Forall zoneless) (f <$> xs).
Proof. intros Hf. rewrite Forall_fmap. by apply Forall_forall. Qed.

Lemma hands_final status keys m news m' : calc_ok m → (∀ key, Forall zoneless (getAllocationsForDPUCluster status key)) →
  allocate_clusters status keys m = (Ok news, m') → m' = with_available (availableBlockRanges m') m ∧ calc_ok m'.
Proof.
  intros Hok Hz. revert m Hok news. induction keys as [|key keys IH]; intros m Hok news; cbn [allocate_clusters].
  { intros [= <- <-]. by rewrite with_available_same. }
  destruct (AllocateClusterBlocks m _) as [[blocks|] m1] eqn:Ea; [|done]. apply allocated_addresses in Ea as (Hok1 & Hm1 & _); [|done|done].
  destruct (allocate_clusters status keys m1) as [[rest|] m2] eqn:Er; [|done]. intros [= <- <-].
  destruct (IH m1 Hok1 rest Er) as [Hm2 Hok2]. split; [|done]. by rewrite Hm2, Hm1.
Qed.

(** A pass over a status of whole blocks leaves every cluster at rest. *)
Lemma pass_rest i keys m0 news m :
  (∀ key, Forall zoneless (getAllocationsForDPUCluster (ipam_DPUClusterAllocations i) key)) → Forall zoneless (spec_excludes i) →
  new_calculator i (getAllocationsForDPUCluster (ipam_DPUClusterAllocations i) <$> keys) = Ok m0 →
  allocate_clusters (ipam_DPUClusterAllocations i) keys m0 = (Ok news, m) → grid_status m (ipam_DPUClusterAllocations i) → no_mapped m →
  ∀ a, a ∈ news → at_rest m (al_IPRanges a) ∧
    ∀ y, text_covers (getAllocationsForDPUCluster (ipam_DPUClusterAllocations i) (al_DPUCluster a)) y → text_covers (al_IPRanges a) y.
Proof.
  intros Hzs Hze E0 E1 Hgs Hnm a Ha.
  pose proof (new_calculator_grid i _ m0 Hze (all_zoneless _ keys (λ key _, Hzs key)) E0) as Hnc.
  destruct (allocate_clusters_each _ keys m0 news m (nc_ok _ _ _ Hnc) Hzs E1) as (Hkeys & _ & Hshare & _).
  destruct (hands_final _ keys m0 news m (nc_ok _ _ _ Hnc) Hzs E1) as [Hm Hokm].
  rewrite Forall_forall in Hshare. pose proof (Hshare a Ha) as Hsh. pose proof Hsh as (v & v' & K & _ & _ & _ & _ & _ & Hp & _).
  apply (share_rest m0 m K _ _ _ Hnc); try done.
  - rewrite Hm in Hnm. exact Hnm.
  - intros y Hy. apply Exists_keys. exists (al_DPUCluster a). split; [|done]. rewrite <- Hkeys. by apply list_elem_of_fmap_2.
  - destruct (Hgs _ K Hp) as [s Hs]. exists s. rewrite Hm in Hs. apply (on_grid_available (availableBlockRanges m0)) in Hs.
    by rewrite <- (with_available_same m0).
Qed.

(** And leaves a status of whole blocks. *)
Lemma rest_grid m news : (∀ a, a ∈ news → at_rest m (al_IPRanges a)) → grid_status m news.
Proof.
  intros Hr key K HK. induction news as [|a news IH]; cbn in HK.
  { injection HK as <-. exists []. by split; [constructor|apply canonical_nil|done|intros ? ?%covers_nil|intros ? ?%covers_nil]. }
  case_bool_decide; [|apply IH; [intros b Hb; apply Hr; by right|done]]. destruct (Hr a) as (M & s & _ & Hp & Hg & _); [left|].
  rewrite HK in Hp. injection Hp as <-. by exists s.
Qed.

(** A pass over clusters that are at rest finds their status as it is. *)
Lemma rest_pass targets i m2 : (isPerClusterAllocationEnabled i || negb (1 <? length targets)%nat) = true →
  let keys := nn_String ∘ dc_key <$> sort_clusters targets in let status := ipam_DPUClusterAllocations i in
  al_DPUCluster <$> status = keys → NoDup keys →
  new_calculator i (getAllocationsForDPUCluster status <$> keys) = Ok m2 → calc_ok m2 → (∀ a, a ∈ status → at_rest m2 (al_IPRanges a)) →
  calculateDPUServiceObjectStateBasedOnStatus targets i = Ok (false, sort_clusters targets, m2, i).
Proof.
  cbv zeta. intros Hen Hkeys Hnd Em Hok Hr. destruct (allocations_by_key (ipam_DPUClusterAllocations i)) as [Hby Hat]; [by rewrite Hkeys|].
  unfold calculateDPUServiceObjectStateBasedOnStatus. apply orb_true_iff in Hen.
  assert (negb (isPerClusterAllocationEnabled i) && (1 <? length targets)%nat = false) as ->.
  { destruct Hen as [E|E%negb_true_iff]; rewrite E; [done|apply andb_false_r]. }
  cbv zeta. rewrite Em, allocate_rest; [|done|].
  - rewrite <- Hkeys, Hby, bool_decide_true by done. done.
  - intros key Hk. rewrite <- Hkeys in Hk. apply list_elem_of_fmap in Hk as (a & -> & Ha). rewrite Hat by done. by apply Hr.
Qed.

Lemma calculate_enabled targets i changed sorted m i' : calculateDPUServiceObjectStateBasedOnStatus targets i = Ok (changed, sorted, m, i') →
  (isPerClusterAllocationEnabled i || negb (1 <? length targets)%nat) = true.
Proof.
  unfold calculateDPUServiceObjectStateBasedOnStatus. by destruct (isPerClusterAllocationEnabled i), (1 <? length targets)%nat.
Qed.
Lemma rest_zoneless m blocks : at_rest m blocks → Forall zoneless blocks.
Proof. intros (M & s & -> & _ & [Ho _ _ _ _] & _). by apply zoneless_print. Qed.
(** It stays at rest when fewer blocks are available. *)
Lemma rest_next m m2 blocks : m2 = with_available (availableBlockRanges m2) m → calc_ok m2 →
  (∀ x, covers (availableBlockRanges m2) x → covers (availableBlockRanges m) x) → at_rest m blocks → at_rest m2 blocks.
Proof.
  intros Hm2 Hok Hsub (M & s & Hb & Hp & Hg & Hne & Hsh). exists M, s. split; [done|]. split; [done|].
  split; [rewrite Hm2; by apply on_grid_available|]. split; [done|]. destruct Hsh as [He|[Ha Ht]]; [left|right].
  - apply covers_none; [|apply (co_available m2 Hok)]. intros x Hx%Hsub. rewrite He in Hx. by apply covers_nil in Hx.
  - by rewrite Hm2.
Qed.

(** No address of the network of a specification is IPv4-mapped. *)
Definition unmapped_network (i : DPUServiceIPAM) : Prop := ∀ a, plain a → in_network i (position a) → Is4In6 a = false.

Lemma unmapped_calculator i existing v m : unmapped_network i → new_calculator i existing = Ok m → no_mapped (with_available v m).
Proof. intros Hn E a Ha Hy. apply Hn; [done|]. by apply (new_calculator_network _ _ _ E). Qed.

Lemma allocations_untargeted news key : key ∉ al_DPUCluster <$> news → getAllocationsForDPUCluster news key = [].
Proof.
  induction news as [|a news IH]; intros Hn; cbn in *; [done|]. apply not_elem_of_cons in Hn as [Ha Hn]. rewrite bool_decide_false by done. by apply IH.
Qed.

(** Allocations at rest have exclusions. *)
Lemma rest_exclusions {R : MapRange} {RL : MapRangeLaws R} i existing m m' a : new_calculator i existing = Ok m' → Forall zoneless (spec_excludes i) → Forall (Forall zoneless) existing →
  statics_accepted (spec_statics i) → at_rest m (al_IPRanges a) → ∃ exclusions, ComputeExclusions m' (al_IPRanges a) = Ok exclusions.
Proof.
  intros E Hz Hze Hst Hr. apply new_calculator_spec in E as ([Hok _ _ _] & _ & _ & Hs); [|done..].
  pose proof (ComputeExclusions_spec m' _ Hok (rest_zoneless _ _ Hr)) as H. destruct (ComputeExclusions m' _) as [ex|]; [by exists ex|].
  rewrite Hs in H. destruct Hr as (M & s & _ & Hp & _). destruct H as [[err H]|H]; [by rewrite Hp in H|done].
Qed.


(** ** Allocations that cannot be read *)

Lemma new_calc_reads network size target cidr excludes static current m :
  newMultiDPUClusterExclusionCalculator network size target cidr excludes current static = Ok m → ∃ rs, parse_all current = Ok rs.
Proof.
  unfold newMultiDPUClusterExclusionCalculator. destruct (netip_ParsePrefix network) as [p|]; [|done].
  destruct (Is4In6 (pf_Addr p)); [done|]. destruct (RangeFromPrefix (Masked p)); [|done]. destruct (size <=? 0)%Z; [done|].
  destruct (poolBoundaryOffsets (Masked p) cidr). destruct (_ <=? 0)%Z; [done|]. destruct (_ <=? 0)%Z; [done|].
  destruct (Add _ _); [|done]. destruct (Add _ _); [|done]. destruct (parseAndMergeIPRanges excludes); [|done].
  destruct (parse_all current); [|done]. by eexists.
Qed.
Lemma new_calculator_reads i existing m : new_calculator i existing = Ok m → ∃ rs, parse_all existing = Ok rs.
Proof.
  unfold new_calculator. destruct (subnetSpec i) as [spec|]; [apply new_calc_reads|]. destruct (networkSpec i) as [spec|]; [|done].
  unfold NewMultiDPUClusterExclusionCalculatorForNetwork. destruct (netip_ParsePrefix (nw_Network spec)); [|done]. destruct (Is4In6 _); [done|].
  apply new_calc_reads.
Qed.
Lemma parse_all_each tss rs ts : parse_all tss = Ok rs → ts ∈ tss → ∃ r, parseIPRanges ts = Ok r.
Proof.
  revert rs. induction tss as [|t tss IH]; intros rs; [by intros _ ?%elem_of_nil|]. cbn [parse_all].
  destruct (parseIPRanges t) as [r|] eqn:Et; [|done]. destruct (parse_all tss) as [rest|]; [|done]. intros _ [->|Hin]%elem_of_cons; [by exists r|].
  by apply (IH rest).
Qed.
Lemma parse_mapped rs parsed : Forall range_ok rs → parseIPRanges (toDPUServiceIPAMIPRanges rs) = Ok parsed → Forall unmapped rs.
Proof.
  intros Hok. revert parsed. induction Hok as [|r rs [[Hs Hzs] [He Hze] _ _] Hrs IH]; intros parsed; [constructor|].
  cbn [toDPUServiceIPAMIPRanges fmap list_fmap parseIPRanges]. unfold parse_range at 1, ParseAddr. cbn [sr_StartIP sr_EndIP]. rewrite !ParseAddr_String by done.
  destruct (Is4In6 (ip_Start r)) eqn:E1; [done|]. destruct (Is4In6 (ip_End r)) eqn:E2; [done|]. destruct (_ || _); [done|].
  fold (toDPUServiceIPAMIPRanges rs). destruct (parseIPRanges (toDPUServiceIPAMIPRanges rs)) as [rest|]; [|done]. intros _. constructor; [done|by apply (IH rest)].
Qed.

(** C36. An allocation the controller wrote but cannot read stops it: when the ranges kept
    for a targeted cluster are ranges of the allocator one end of which is an IPv4-mapped
    address (as in the network ::fffe:0:0/95), every pass fails, whatever the
    specification. *)
Theorem mapped_allocations_stick targets i key rs : key ∈ nn_String ∘ dc_key <$> targets →
  getAllocationsForDPUCluster (ipam_DPUClusterAllocations i) key = toDPUServiceIPAMIPRanges rs → Forall range_ok rs → ¬ Forall unmapped rs →
  ∃ err, calculateDPUServiceObjectStateBasedOnStatus targets i = Err err.
Proof.
  intros Hk Hat Hok Hun. destruct (calculateDPUServiceObjectStateBasedOnStatus targets i) as [[[[c ts] m] i']|err] eqn:E; [exfalso|by exists err].
  apply calculate_inv in E as (-> & m0 & news & E0 & _). apply new_calculator_reads in E0 as [all Hall].
  destruct (parse_all_each _ _ (getAllocationsForDPUCluster (ipam_DPUClusterAllocations i) key) Hall) as [parsed Hp].
  - apply list_elem_of_fmap. exists key. split; [done|]. by rewrite sort_keys.
  - rewrite Hat in Hp. by apply Hun, (parse_mapped _ parsed).
Qed.
