(* ===== verification/IPAMController.v ===== *)
(** The controller of DPUServiceIPAMs
    (internal/dpuservicechain/controllers/dpuserviceipam_controller.go): the pools it keeps
    in the DPU clusters, as an implementation of the interface of ServiceObjects.v, and a
    pass over an object.

    The state of the reconciler of a pass is the calculator, none before it is made: the
    code would then panic, but it computes the state before it writes an object. *)

From S2P Require Import Prelude.
From S2P Require Import Meta.
From S2P Require Import Conditions.
From S2P Require Import DPUTypes.
From S2P Require Import Kubernetes.
From S2P Require Import Allocator.
From S2P Require Import ServiceObjects.
From S2P Require Import NetIP.
From S2P Require Import IPAMAllocator.
From S2P Require Import IPAMState.

Definition ParentDPUServiceIPAMNameLabel := "dpu.nvidia.com/dpuserviceipam-name".
Definition ParentDPUServiceIPAMNamespaceLabel := "dpu.nvidia.com/dpuserviceipam-namespace".

(** ** Pools of NVIPAM *)

Inductive PoolKind := IPPoolKind | CIDRPoolKind.
#[export] Instance PoolKind_eq_dec : EqDecision PoolKind.
Proof. solve_decision. Defined.
Definition kind_String (k : PoolKind) : string :=
  "nv-ipam.nvidia.com/v1alpha1, Kind=" +:+ match k with IPPoolKind => "IPPool" | CIDRPoolKind => "CIDRPool" end.

Record IPPoolSpec := mkIPPoolSpec {
  ps_Subnet : string;
  ps_PerNodeBlockSize : Z;
  ps_Exclusions : list ServiceIPRange;
  ps_Gateway : string;
  ps_NodeSelector : option string;
  ps_DefaultGateway : bool;
  ps_Routes : list string }.
Record CIDRPoolSpec := mkCIDRPoolSpec {
  cs_CIDR : string;
  cs_GatewayIndex : option Z;
  cs_PerNodeNetworkPrefix : Z;
  cs_Exclusions : list ServiceIPRange;
  cs_NodeSelector : option string;
  cs_StaticAllocations : list (string * string);
  cs_DefaultGateway : bool;
  cs_Routes : list string }.
Inductive PoolSpec := SpecIPPool (s : IPPoolSpec) | SpecCIDRPool (s : CIDRPoolSpec).
Record Pool := mkPool {
  pl_Name : string;
  pl_Namespace : string;
  pl_Labels : gmap string string;
  pl_Annotations : gmap string string;
  pl_Spec : PoolSpec }.
Definition pl_kind (p : Pool) : PoolKind := match pl_Spec p with SpecIPPool _ => IPPoolKind | SpecCIDRPool _ => CIDRPoolKind end.
Definition pl_key (p : Pool) : NamespacedName := mkNN (pl_Namespace p) (pl_Name p).
Definition pl_exclusions (p : Pool) : list ServiceIPRange :=
  match pl_Spec p with SpecIPPool s => ps_Exclusions s | SpecCIDRPool s => cs_Exclusions s end.
Definition with_pl_Name (n : string) (p : Pool) : Pool := mkPool n (pl_Namespace p) (pl_Labels p) (pl_Annotations p) (pl_Spec p).
Definition with_pl_exclusions (ex : list ServiceIPRange) (p : Pool) : Pool :=
  mkPool (pl_Name p) (pl_Namespace p) (pl_Labels p) (pl_Annotations p)
    (match pl_Spec p with
     | SpecIPPool s => SpecIPPool (mkIPPoolSpec (ps_Subnet s) (ps_PerNodeBlockSize s) ex (ps_Gateway s) (ps_NodeSelector s) (ps_DefaultGateway s) (ps_Routes s))
     | SpecCIDRPool s => SpecCIDRPool (mkCIDRPoolSpec (cs_CIDR s) (cs_GatewayIndex s) (cs_PerNodeNetworkPrefix s) ex (cs_NodeSelector s)
                                         (cs_StaticAllocations s) (cs_DefaultGateway s) (cs_Routes s))
     end).

(** The client of the host cluster and those of the DPU clusters. *)
Class IPAMClient (W K : Type) := {
  getDPUServiceIPAM : NamespacedName → SM W (Res DPUServiceIPAM);
  patchDPUServiceIPAM : DPUServiceIPAM → DPUServiceIPAM → SM W (option GoError);
  listPools : K → PoolKind → string → gmap string string → SM W (Res (list Unstructured));
  deletePool : K → PoolKind → NamespacedName → SM W (option GoError);
  deleteAllPools : K → PoolKind → string → gmap string string → SM W (option GoError);
  (** Server-side apply. *)
  applyPool : K → Pool → SM W (option GoError);
  watchPools : NamespacedName → PoolKind → SM W (option GoError) }.

Definition parent_labels (i : DPUServiceIPAM) : gmap string string :=
  <[ParentDPUServiceIPAMNameLabel := ipam_Name i]> {[ParentDPUServiceIPAMNamespaceLabel := ipam_Namespace i]}.
Definition getPoolLabels (i : DPUServiceIPAM) : gmap string string := parent_labels i ∪ is_Labels (ipam_Spec i).

(** The watches: the object that is named as the pool. *)
Definition ipPoolToDPUServiceChain (o : Pool) : list NamespacedName := match pl_kind o with IPPoolKind => [pl_key o] | CIDRPoolKind => [] end.
Definition cidrPoolToDPUServiceChain (o : Pool) : list NamespacedName := match pl_kind o with CIDRPoolKind => [pl_key o] | IPPoolKind => [] end.

(** The generators dereference the specification of their mode. *)
Definition generateIPPool (i : DPUServiceIPAM) : option Pool :=
  spec ← subnetSpec i;
  Some (mkPool (ipam_Name i) (ipam_Namespace i) (getPoolLabels i) (is_Annotations (ipam_Spec i))
    (SpecIPPool (mkIPPoolSpec (sn_Subnet spec) (sn_PerNodeIPCount spec) [] (sn_Gateway spec) (is_NodeSelector (ipam_Spec i))
       (sn_DefaultGateway spec) (sn_Routes spec)))).
Definition generateCIDRPool {R : MapRange} (i : DPUServiceIPAM) : option Pool :=
  spec ← networkSpec i;
  Some (mkPool (ipam_Name i) (ipam_Namespace i) (getPoolLabels i) (is_Annotations (ipam_Spec i))
    (SpecCIDRPool (mkCIDRPoolSpec (nw_Network spec) (nw_GatewayIndex spec) (nw_PrefixSize spec) [] (is_NodeSelector (ipam_Spec i))
       (range_map (nw_Allocations spec)) (nw_DefaultGateway spec) (nw_Routes spec)))).

Section Controller.
Context {W K : Type} {A : ClustersAPI W K} {C : IPAMClient W K} {S : SelectorAPI} {R : MapRange} {API : MetaAPI} {FA : FinalizerAPI}.
Context (now : Time).

Definition deleteDPUServiceOwnedPoolsOfType (k : K) (i : DPUServiceIPAM) (poolType : PoolKind) : SM W (option GoError) :=
  err ← deleteAllPools k poolType (ipam_Namespace i) (parent_labels i);
  mret (wrapf ("error while removing all " +:+ kind_String poolType +:+ ": ") <$> err).

Definition reconcilePoolMode (k : K) (i : DPUServiceIPAM) (pool : Pool) (leftoverPoolKind : PoolKind) : SM W (option GoError) := run (
  pool ← match ipam_Annotations i !! DPUServiceIPAMChildObjectNameOverrideAnnotationKey with
         | None => mret pool
         | Some overridenPoolName =>
             _ ← (if bool_decide (pl_Name pool ≠ overridenPoolName)
                  then check (err ← deletePool k (pl_kind pool) (pl_key pool); mret (match err with Some err => if IsNotFound err then None else Some err | None => None end))
                         (λ err, Some (wrapf ("error while deleting " +:+ kind_String (pl_kind pool) +:+ " " +:+ nn_String (pl_key pool) +:+ ": ") err))
                  else mret tt);
             mret (with_pl_Name overridenPoolName pool)
         end;
  _ ← check (applyPool k pool) (λ err, Some (wrapf ("error while patching " +:+ kind_String (pl_kind pool) +:+ " " +:+ nn_String (pl_key pool) +:+ ": ") err));
  _ ← check (deleteDPUServiceOwnedPoolsOfType k i leftoverPoolKind) (λ err, Some (wrapf "error while removing potential leftover NVIPAM CRs: " err));
  mret None).
Definition reconcileIPPoolMode (k : K) (i : DPUServiceIPAM) (exclusions : list ServiceIPRange) : SM W (option GoError) :=
  match generateIPPool i with
  | None => mret (Some nil_dereference)
  | Some pool => reconcilePoolMode k i (with_pl_exclusions exclusions pool) CIDRPoolKind
  end.
Definition reconcileCIDRPoolMode (k : K) (i : DPUServiceIPAM) (exclusions : list ServiceIPRange) : SM W (option GoError) :=
  match generateCIDRPool i with
  | None => mret (Some nil_dereference)
  | Some pool => reconcilePoolMode k i (with_pl_exclusions exclusions pool) IPPoolKind
  end.

(** ** The methods of the interface *)

Definition createOrUpdateObjectsInDPUCluster (rc : option Calculator) (k : K) (dpuClusterKey : NamespacedName) (i : DPUServiceIPAM)
    : SM W (option GoError) :=
  match rc with
  | None => mret (Some nil_dereference)
  | Some calculator =>
      match ComputeExclusions calculator (getAllocationsForDPUCluster (ipam_DPUClusterAllocations i) (nn_String dpuClusterKey)) with
      | Err err => mret (Some (wrapf ("failed to compute exclusions for DPUCluster " +:+ nn_String dpuClusterKey +:+ ": ") err))
      | Ok exclusions => if isIPPoolMode i then reconcileIPPoolMode k i exclusions else reconcileCIDRPoolMode k i exclusions
      end
  end.
Definition getPoolsInDPUCluster (k : K) (i : DPUServiceIPAM) : SM W (Res (list Unstructured)) :=
  r ← listPools k IPPoolKind (ipam_Namespace i) (parent_labels i);
  match r with
  | Err err => mret (Err (wrapf "error while listing nv-ipam.nvidia.com/v1alpha1, Kind=IPPoolList as unstructured: " err))
  | Ok ippools =>
      r ← listPools k CIDRPoolKind (ipam_Namespace i) (parent_labels i);
      mret (match r with
        | Err err => Err (wrapf "error while listing nv-ipam.nvidia.com/v1alpha1, Kind=CIDRPoolList as unstructured: " err)
        | Ok cidrpools => Ok (ippools ++ cidrpools)
        end)
  end.
Definition deletePoolsInDPUCluster (k : K) (i : DPUServiceIPAM) : SM W (option GoError) :=
  for_each (deleteDPUServiceOwnedPoolsOfType k i) [IPPoolKind; CIDRPoolKind].
(** A pool is ready when NVIPAM has allocated from it. *)
Fixpoint getUnreadyPools (objects : list Unstructured) : Res (list NamespacedName) :=
  match objects with
  | [] => Ok []
  | o :: objects =>
      match un_Allocations o with
      | Err err => Err err
      | Ok allocations =>
          match getUnreadyPools objects with
          | Err err => Err err
          | Ok rest => Ok (if (default 0 allocations =? 0)%nat then un_key o :: rest else rest)
          end
      end
  end.
Definition registerPoolsToWatcher (dpuCluster : NamespacedName) : SM W (option GoError) := run (
  _ ← check (watchPools dpuCluster IPPoolKind) (λ err, Some (wrapf "error while watching IPPool in DPU cluster: " err));
  _ ← check (watchPools dpuCluster CIDRPoolKind) (λ err, Some (wrapf "error while watching CIDRPool in DPU cluster: " err));
  mret None).

#[export] Instance ipam_reconciler : ObjectsReconciler W K (option Calculator) DPUServiceIPAM := {|
  rc_selector := GetDPUClusterSelector;
  rc_namespace := ipam_Namespace;
  rc_calculate targets i rc :=
    match calculateDPUServiceObjectStateBasedOnStatus targets i with
    | Err err => Err err
    | Ok (changed, targets, calculator, i) => Ok (changed, targets, i, Some calculator)
    end;
  rc_getObjects := getPoolsInDPUCluster;
  rc_createOrUpdate := createOrUpdateObjectsInDPUCluster;
  rc_deleteObjects := deletePoolsInDPUCluster;
  rc_getUnready := getUnreadyPools;
  rc_registerKind := registerPoolsToWatcher |}.

(** ** A pass *)

Definition reconcile (i : DPUServiceIPAM) : SM W (Z * list GoError * DPUServiceIPAM) :=
  r ← reconcileObjectsInDPUClusters i None;
  match r with
  | (Some staleStatusError, i, _) =>
      mret (second, [], AddFalse now i ConditionDPUIPAMObjectReconciled ReasonPending "Committing state before modifying underlying resources")
  | (Some e, i, _) =>
      let i := AddFalse now i ConditionDPUIPAMObjectReconciled ReasonError ("Error occurred: " +:+ err_msg (objects_error e)) in
      mret (match e with longOperationError _ => ((30 * second)%Z, [], i) | _ => (0%Z, [objects_error e], i) end)
  | (None, i, _) =>
      let i := AddTrue now i ConditionDPUIPAMObjectReconciled in
      errs ← watchObjectsInDPUClusters (O:=DPUServiceIPAM);
      mret (0%Z, errs, i)
  end.

Definition reconcileDelete (i : DPUServiceIPAM) : SM W (Z * list GoError * DPUServiceIPAM) :=
  e ← reconcileObjectDeletionInDPUClusters i;
  mret (match e with
    | Some (longOperationError err) => ((30 * second)%Z, [], AddFalse now i ConditionDPUIPAMObjectReconciled ReasonAwaitingDeletion (err_msg err))
    | Some e => (0%Z, [wrapf "error while reconciling deletion of objects in DPU clusters: " (objects_error e)], i)
    | None => (0%Z, [], with_ipam_Finalizers (RemoveFinalizer (ipam_Finalizers i) DPUServiceIPAMFinalizer) i)
    end).

Definition reconcile_ipam (i : DPUServiceIPAM) : SM W (Z * list GoError * DPUServiceIPAM) :=
  let i := EnsureConditions now i DPUServiceIPAMConditions in
  if negb (timep_is_zero (ipam_DeletionTimestamp i)) then reconcileDelete i
  else if negb (ContainsFinalizer (ipam_Finalizers i) DPUServiceIPAMFinalizer)
  then mret (0%Z, [], with_ipam_Finalizers (AddFinalizer (ipam_Finalizers i) DPUServiceIPAMFinalizer) i)
  else reconcile i.

Definition Reconcile (key : NamespacedName) : SM W (Z * list GoError) :=
  r ← getDPUServiceIPAM key;
  match r with
  | Err err => mret (0%Z, if IsNotFound err then [] else [err])
  | Ok base =>
      r ← reconcile_ipam base;
      s ← updateSummary now ConditionDPUIPAMObjectReady r.2;
      e ← patchDPUServiceIPAM base s.1;
      mret (r.1.1, r.1.2 ++ s.2 ++ option_list e)
  end.
End Controller.
