(* ===== verification/IPAMPools.v ===== *)
(** What a pass of the DPUServiceIPAM controller writes, and why: pools that follow the
    committed status, and a deletion that waits for them. *)

From S2P Require Import Prelude.
From S2P Require Import Meta.
From S2P Require Import Conditions.
From S2P Require Import DPUTypes.
From S2P Require Import Kubernetes.
From S2P Require Import Allocator.
From S2P Require Import WriteLog.
From S2P Require Import TraceLogic.
From S2P Require Import ServiceObjects.
From S2P Require Import IPAMAllocator.
From S2P Require Import IPAMState.
From S2P Require Import IPAMController.

(** ** The events of a pass *)

(** Calls with their answers; [K] are the clients of DPU clusters. *)
Inductive PoolEvent (K : Type) :=
| RObject (key : NamespacedName) (r : Res DPUServiceIPAM)
| RClusters (r : Res (list DPUCluster))
| RClient (dc : DPUCluster) (r : Res K)
| RPools (k : K) (kind : PoolKind) (namespace : string) (labels : gmap string string) (r : Res (list Unstructured))
| RWatch (n : NamespacedName) (kind : PoolKind) (err : option GoError)
| WApply (k : K) (p : Pool) (err : option GoError)
| WDelete (k : K) (kind : PoolKind) (key : NamespacedName) (err : option GoError)
| WDeleteAll (k : K) (kind : PoolKind) (namespace : string) (labels : gmap string string) (err : option GoError)
| WNamespace (k : K) (namespace : string) (err : option GoError)
| WObject (old new : DPUServiceIPAM) (err : option GoError).
Arguments RObject {K} key r.
Arguments RClusters {K} r.
Arguments RClient {K} dc r.
Arguments RPools {K} k kind namespace labels r.
Arguments RWatch {K} n kind err.
Arguments WApply {K} k p err.
Arguments WDelete {K} k kind key err.
Arguments WDeleteAll {K} k kind namespace labels err.
Arguments WNamespace {K} k namespace err.
Arguments WObject {K} old new err.

Lemma EnsureConditions_spec {API : MetaAPI} now i l : ∃ cs, EnsureConditions now i l = with_ipam_Conditions cs i.
Proof. by eexists. Qed.

Section Pools.
Context {W K : Type} {A : ClustersAPI W K} {C : IPAMClient W K} {S : SelectorAPI} {R : MapRange} {RL : MapRangeLaws R} {API : MetaAPI}.
Context {FA : FinalizerAPI} {FL : FinalizerAPILaws FA}.
Context (now : Time).

Local Abbreviation L := (W * list (PoolEvent K))%type.
Implicit Types l : list (PoolEvent K).

#[local] Instance traced_clusters : ClustersAPI L K := {|
  list_clusters := logged RClusters list_clusters;
  cluster_client dc := logged (RClient dc) (cluster_client dc);
  create_namespace k ns := logged (WNamespace k ns) (create_namespace k ns);
  IsNoMatchError := IsNoMatchError (W:=W) (K:=K) |}.
#[local] Instance traced_pools : IPAMClient L K := {|
  getDPUServiceIPAM key := logged (RObject key) (getDPUServiceIPAM key);
  patchDPUServiceIPAM old new := logged (WObject old new) (patchDPUServiceIPAM old new);
  listPools k kind ns labels := logged (RPools k kind ns labels) (listPools k kind ns labels);
  deletePool k kind key := logged (WDelete k kind key) (deletePool k kind key);
  deleteAllPools k kind ns labels := logged (WDeleteAll k kind ns labels) (deleteAllPools k kind ns labels);
  applyPool k p := logged (WApply k p) (applyPool k p);
  watchPools n kind := logged (RWatch n kind) (watchPools n kind) |}.

(** ** Why a pass writes *)

Definition listed (all : list DPUCluster) l : Prop := RClusters (Ok all) ∈ l.
(** The clusters the pass read, those its selector picks in the order they are served, and the
    calculator and the object it computed from them and the stored status. *)
Definition pass_computed (base : DPUServiceIPAM) l (changed : bool) (all ts : list DPUCluster) (m : Calculator) (i : DPUServiceIPAM) : Prop :=
  ∃ targets i0, RClusters (Ok all) ∈ l ∧ GetMatchingDPUClusters all (GetDPUClusterSelector base) = Ok targets ∧
    ipam_Spec i0 = ipam_Spec base ∧ ipam_DPUClusterAllocations i0 = ipam_DPUClusterAllocations base ∧
    calculateDPUServiceObjectStateBasedOnStatus targets i0 = Ok (changed, ts, m, i).
Definition other_kind (i : DPUServiceIPAM) : PoolKind := if isIPPoolMode i then CIDRPoolKind else IPPoolKind.
Definition generated (i : DPUServiceIPAM) : option Pool := if isIPPoolMode i then generateIPPool i else generateCIDRPool i.
Definition named (i : DPUServiceIPAM) (p : Pool) : Pool :=
  match ipam_Annotations i !! DPUServiceIPAMChildObjectNameOverrideAnnotationKey with Some n => with_pl_Name n p | None => p end.
Definition kinds : list PoolKind := [IPPoolKind; CIDRPoolKind].

(** All pools of the object in a cluster were deleted, and then read and found gone, unless the
    API server said that their kinds are unknown there. *)
Definition unavailable (err : GoError) : Prop := ∃ pre, isObjectUnavailable (W:=W) (K:=K) (wrapf pre err) = true.
Definition emptied (base : DPUServiceIPAM) (dc : DPUCluster) l : Prop :=
  ∃ k l1 l2, l = l1 ++ l2 ∧ RClient dc (Ok k) ∈ l1 ∧
    ((∀ kind, kind ∈ kinds → WDeleteAll k kind (ipam_Namespace base) (parent_labels base) None ∈ l1) ∨
     (∃ kind err, WDeleteAll k kind (ipam_Namespace base) (parent_labels base) (Some err) ∈ l1 ∧ unavailable err)) ∧
    ((∀ kind, kind ∈ kinds → RPools k kind (ipam_Namespace base) (parent_labels base) (Ok []) ∈ l2) ∨
     (∃ kind err, RPools k kind (ipam_Namespace base) (parent_labels base) (Err err) ∈ l2 ∧ unavailable err)).

Definition pool_why (base : DPUServiceIPAM) l (e : PoolEvent K) : Prop :=
  match e with
  | WApply k p _ =>
      (** in a targeted cluster the pool of the specification, with the exclusions of the
          allocations stored for the cluster *)
      ∃ all ts m i dc pool exclusions, pass_computed base l false all ts m i ∧ dc ∈ ts ∧ RClient dc (Ok k) ∈ l ∧
        ComputeExclusions m (getAllocationsForDPUCluster (ipam_DPUClusterAllocations base) (nn_String (dc_key dc))) = Ok exclusions ∧
        generated base = Some pool ∧ p = named base (with_pl_exclusions exclusions pool)
  | WNamespace k ns _ =>
      ns = ipam_Namespace base ∧ ∃ all ts m i dc, pass_computed base l false all ts m i ∧ dc ∈ ts ∧ RClient dc (Ok k) ∈ l
  | WDelete k _ _ _ =>
      (** the pool of the default name, where the name is overridden *)
      ipam_Annotations base !! DPUServiceIPAMChildObjectNameOverrideAnnotationKey ≠ None ∧
      ∃ all ts m i dc, pass_computed base l false all ts m i ∧ dc ∈ ts ∧ RClient dc (Ok k) ∈ l
  | WDeleteAll k kind ns labels _ =>
      (** the pools of the object: of the kind it does not have, where it is targeted; all where it
          is not targeted or the object is being deleted *)
      ns = ipam_Namespace base ∧ labels = parent_labels base ∧ ∃ dc, RClient dc (Ok k) ∈ l ∧
        (timep_is_zero (ipam_DeletionTimestamp base) = false ∨
         ∃ all ts m i, pass_computed base l false all ts m i ∧
           (dc ∈ ts ∧ kind = other_kind base ∨ dc ∈ all ∧ nn_String (dc_key dc) ∉ nn_String ∘ dc_key <$> ts))
  | WObject old new _ =>
      (** the specification as it was; the stored allocations, or those computed from them; and the
          finalizer, unless the object is being deleted and no cluster has pools of it *)
      old = base ∧ ipam_Spec new = ipam_Spec base ∧
      (ipam_DPUClusterAllocations new = ipam_DPUClusterAllocations base ∨
       ∃ all ts m i, pass_computed base l true all ts m i ∧ ipam_DPUClusterAllocations new = ipam_DPUClusterAllocations i) ∧
      (DPUServiceIPAMFinalizer ∈ ipam_Finalizers base → DPUServiceIPAMFinalizer ∉ ipam_Finalizers new →
       timep_is_zero (ipam_DeletionTimestamp base) = false ∧ ∃ all, RClusters (Ok all) ∈ l ∧ ∀ dc, dc ∈ all → emptied base dc l)
  | _ => True
  end.
Definition is_read (e : PoolEvent K) : bool :=
  match e with RObject _ _ | RClusters _ | RClient _ _ | RPools _ _ _ _ _ | RWatch _ _ _ => true | _ => false end.

Section Pass.
Context (base : DPUServiceIPAM).
Local Abbreviation J := (pool_why base).

Lemma traces_read {B} l (entry : B → PoolEvent K) (m : SM W B) (Q : B → list (PoolEvent K) → Prop) :
  (∀ r, is_read (entry r) = true) → (∀ r, Q r (l ++ [entry r])) → traces J l (logged entry m) Q.
Proof. intros Hr HQ. apply traces_call. intros r. split; [|done]. specialize (Hr r). by destruct (entry r). Qed.
Lemma listed_mono all l l' : l `prefix_of` l' → listed all l → listed all l'.
Proof. unfold listed. intros Hp H. by known. Qed.
Lemma list_traces l : traces J l (list_clusters (K:=K)) (λ r l', match r with Ok all => listed all l' | Err _ => True end).
Proof. apply traces_read; [done|]. intros [all|err]; [apply elem_of_snoc|done]. Qed.
Lemma client_traces l dc : traces J l (cluster_client (W:=L) dc) (λ r l', match r with Ok k => RClient dc (Ok k) ∈ l' | Err _ => True end).
Proof. apply traces_read; [done|]. intros [k|err]; [apply elem_of_snoc|done]. Qed.

(** [i] is the object but for its conditions. *)
Definition same (i : DPUServiceIPAM) : Prop := ∃ cs, i = with_ipam_Conditions cs base.

Lemma computed_pass i l changed all ts i' rc : same i →
  computed (W:=W) (K:=K) (RC:=option Calculator) listed i None l changed all ts i' rc →
  ∃ m, rc = Some m ∧ pass_computed base l changed all ts m i' ∧ ipam_Spec i' = ipam_Spec base ∧ ipam_Finalizers i' = ipam_Finalizers base ∧
    (changed = false → i' = i).
Proof.
  intros [cs ->] (targets & Hl & Hm & Hc). cbn in Hc. destruct (calculateDPUServiceObjectStateBasedOnStatus targets _) as [[[[c ts0] m] i0]|] eqn:Ec; [|done].
  injection Hc as -> -> -> <-. exists m. split; [done|]. split.
  - exists targets, (with_ipam_Conditions cs base). by split_and!.
  - revert Ec. unfold calculateDPUServiceObjectStateBasedOnStatus. destruct (_ && _); [done|]. destruct (new_calculator _ _); [|done].
    destruct (allocate_clusters _ _ _) as [[news|] m1]; [|done]. case_bool_decide; intros [= <- <- <- <-]; by split_and!.
Qed.
Lemma pass_computed_mono l l' changed all ts m i : l `prefix_of` l' → pass_computed base l changed all ts m i → pass_computed base l' changed all ts m i.
Proof. intros Hp (targets & i0 & Hl & H). known. by exists targets, i0. Qed.

(** ** The clusters *)

Lemma deleteOfType_traces l k i kind (Q : option GoError → list (PoolEvent K) → Prop) : same i →
  (∀ err, J l (WDeleteAll k kind (ipam_Namespace base) (parent_labels base) err)) →
  (∀ err, Q (wrapf ("error while removing all " +:+ kind_String kind +:+ ": ") <$> err)
            (l ++ [WDeleteAll k kind (ipam_Namespace base) (parent_labels base) err])) →
  traces J l (deleteDPUServiceOwnedPoolsOfType (W:=L) k i kind) Q.
Proof.
  intros [cs ->] HJ HQ. unfold deleteDPUServiceOwnedPoolsOfType. trace. apply traces_call. intros err. split; [apply HJ|]. trace. apply HQ.
Qed.

Section Target.
Context (all ts : list DPUCluster) (m : Calculator) (i : DPUServiceIPAM) (dc : DPUCluster) (k : K).
Context (Hi : same i) (Hdc : dc ∈ ts).
Definition at_target l : Prop := pass_computed base l false all ts m i ∧ RClient dc (Ok k) ∈ l.
Lemma at_target_mono l l' : l `prefix_of` l' → at_target l → at_target l'.
Proof. intros Hp [Hc Hk]. split; [by eapply pass_computed_mono|by known]. Qed.

Lemma pool_mode_traces l pool exclusions :
  at_target l → generated base = Some pool →
  ComputeExclusions m (getAllocationsForDPUCluster (ipam_DPUClusterAllocations base) (nn_String (dc_key dc))) = Ok exclusions →
  traces J l (reconcilePoolMode (W:=L) k i (with_pl_exclusions exclusions pool) (other_kind base)) (λ _ _, True).
Proof.
  intros Hl Hg He. unfold reconcilePoolMode. assert (∀ l', l `prefix_of` l' → at_target l') as Hmono by (intros; by eapply at_target_mono).
  assert (ipam_Annotations i = ipam_Annotations base) as -> by (by destruct Hi as [cs ->]).
  trace. set (P := λ p l', l `prefix_of` l' ∧ p = named base (with_pl_exclusions exclusions pool)).
  eapply fn_mono with (Q := P).
  - unfold P, named. destruct (ipam_Annotations base !! _) as [n|] eqn:En; [|by apply fn_ret]. trace.
    eapply fn_mono with (Q := λ _ l', l `prefix_of` l').
    + case_bool_decide; [|by apply fn_ret]. apply fn_check. trace. apply traces_call. intros err. split.
      * cbn [pool_why]. rewrite En. split; [done|]. destruct Hl as [Hc Hk]. by exists all, ts, m, i, dc.
      * trace. destruct err as [err|]; [destruct (IsNotFound err); [by eexists|done]|by eexists].
    + intros [] l1 Hl1 _. by trace.
  - intros p l1 _ [Hl1 ->]. trace. apply traces_call. intros err. destruct (Hmono l1 Hl1) as [Hc Hk]. split.
    { exists all, ts, m, i, dc, pool, exclusions. by split_and!. }
    destruct err as [err|]; [done|]. trace. apply deleteOfType_traces; [done| |intros [err|]; cbn; trace; done]. intros err.
    destruct (Hmono (l1 ++ [WApply k (named base (with_pl_exclusions exclusions pool)) None])) as [Hc2 Hk2]; [transitivity l1; [done|by eexists]|].
    split; [done|]. split; [done|]. exists dc. split; [done|]. right. exists all, ts, m, i. split; [done|]. by left.
Qed.
End Target.

Lemma apply_traces all ts m i dc l : same i → dc ∈ ts → pass_computed base l false all ts m i →
  traces J l (applyObjectsInDPUCluster (W:=L) (Some m) dc i) (λ _ _, True).
Proof.
  intros Hi Hdc Hc. unfold applyObjectsInDPUCluster, EnsureNamespace. trace. eapply traces_mono; [apply client_traces|].
  intros [k|err] l1 Hl1 Hk; [|by apply traces_ret].
  assert (ipam_Namespace i = ipam_Namespace base) as Hns by (by destruct Hi as [cs ->]).
  trace. apply traces_call. intros err. split.
  { split; [done|]. exists all, ts, m, i, dc. split_and!; [by eapply pass_computed_mono|done..]. }
  trace. set (l2 := l1 ++ _). assert (at_target all ts m i dc k l2) as Hat.
  { split; [eapply pass_computed_mono; [|done]; transitivity l1; [done|by eexists]|]. apply elem_of_app. by left. }
  destruct (match err with Some err => _ | None => None end); [by apply traces_ret|]. cbn [rc_createOrUpdate ipam_reconciler].
  unfold createOrUpdateObjectsInDPUCluster. assert (ipam_DPUClusterAllocations i = ipam_DPUClusterAllocations base) as -> by (by destruct Hi as [cs ->]).
  destruct (ComputeExclusions m _) as [exclusions|err'] eqn:Ee; [|by apply traces_ret].
  unfold reconcileIPPoolMode, reconcileCIDRPoolMode.
  assert (isIPPoolMode i = isIPPoolMode base ∧ generateIPPool i = generateIPPool base ∧ generateCIDRPool i = generateCIDRPool base) as (-> & -> & ->)
    by (by destruct Hi as [cs ->]).
  pose proof (λ pool, pool_mode_traces all ts m i dc k Hi Hdc l2 pool exclusions Hat) as Hmode. unfold generated, other_kind in Hmode.
  destruct (isIPPoolMode base); [destruct (generateIPPool base) as [pool|]|destruct (generateCIDRPool base) as [pool|]];
    try (by apply traces_ret); by apply Hmode.
Qed.

(** The deletion in a cluster. *)
Lemma getPools_traces l k i : same i →
  traces J l (getPoolsInDPUCluster (W:=L) k i) (λ r l', ∃ k', l' = l ++ k' ∧ match r with
    | Ok objs => objs = [] → ∀ kind, kind ∈ kinds → RPools k kind (ipam_Namespace base) (parent_labels base) (Ok []) ∈ k'
    | Err err => ∃ pre kind e, err = wrapf pre e ∧ RPools k kind (ipam_Namespace base) (parent_labels base) (Err e) ∈ k'
    end).
Proof.
  intros [cs ->]. unfold getPoolsInDPUCluster. trace. apply traces_read; [done|]. intros [a|err]; trace.
  2: { eexists. split; [done|]. eexists _, _, _. split; [done|]. by left. }
  apply traces_read; [done|]. intros [b|err]; trace; eexists; (split; [by rewrite <- app_assoc|]).
  - intros [-> ->]%app_nil kind Hk. unfold kinds in Hk. apply elem_of_cons in Hk as [->|Hk%list_elem_of_singleton]; [by left|subst kind; right; by left].
  - eexists _, _, _. split; [done|]. right. by left.
Qed.

Lemma deleteObjects_traces i dc l : same i →
  (∀ l' k kind err, l `prefix_of` l' → RClient dc (Ok k) ∈ l' → kind ∈ kinds → J l' (WDeleteAll k kind (ipam_Namespace base) (parent_labels base) err)) →
  traces J l (deleteObjectsInDPUCluster (W:=L) (K:=K) (RC:=option Calculator) dc i) (λ r l', r = Ok [] → emptied base dc l').
Proof.
  intros Hi Hw. unfold deleteObjectsInDPUCluster. trace. eapply traces_mono; [apply client_traces|]. intros [k|err] l1 Hl1 Hk; trace; [|done].
  cbn [rc_deleteObjects rc_getObjects ipam_reconciler].
  eapply traces_mono with (Q := λ r l', match r with
    | None => ∀ kind, kind ∈ kinds → WDeleteAll k kind (ipam_Namespace base) (parent_labels base) None ∈ l'
    | Some err => ∃ pre kind e, err = wrapf pre e ∧ WDeleteAll k kind (ipam_Namespace base) (parent_labels base) (Some e) ∈ l'
    end).
  { unfold deletePoolsInDPUCluster, for_each. trace. apply deleteOfType_traces; [done|intros err; apply Hw; [done|done|by left]|]. intros [err|]; cbn [fmap option_fmap option_map].
    { trace. eexists _, _, _. split; [done|]. apply elem_of_snoc. }
    trace. apply deleteOfType_traces; [done| |].
    - intros err. apply Hw; [transitivity l1; [done|by eexists]|apply elem_of_app; by left|right; by left].
    - intros [err|]; cbn [fmap option_fmap option_map]; trace; [eexists _, _, _; split; [done|]; apply elem_of_snoc|].
      intros kind Hkind. unfold kinds in Hkind. rewrite !elem_of_app, !list_elem_of_singleton.
      apply elem_of_cons in Hkind as [->|Hk'%list_elem_of_singleton]; [left; by right|subst kind; by right]. }
  intros e l2 Hl2 He. assert (RClient dc (Ok k) ∈ l2) as Hk2 by (by known).
  destruct (match e with Some err => if isObjectUnavailable err then None else Some err | None => None end) eqn:Eu; [by apply traces_ret|].
  trace. eapply traces_mono; [by apply getPools_traces|]. intros r l3 _ (k' & -> & Hr). trace. intros Hempty.
  exists k, l2, k'. split; [done|]. split; [done|]. split.
  - destruct e as [e|]; [right|by left]. destruct He as (pre & kind & e0 & -> & Hin). exists kind, e0. split; [done|]. exists pre. by destruct (isObjectUnavailable _).
  - destruct r as [objs|err]; [left; apply Hr; by injection Hempty|right]. destruct Hr as (pre & kind & e0 & -> & Hin). exists kind, e0. split; [done|].
    exists pre. by destruct (isObjectUnavailable _).
Qed.
Lemma emptied_mono dc l1 l2 : l1 `prefix_of` l2 → emptied base dc l1 → emptied base dc l2.
Proof.
  intros [k ->] (c & la & lb & -> & Hc & Hd & Hr). exists c, la, (lb ++ k). split; [by rewrite app_assoc|]. split; [done|]. split; [done|].
  destruct Hr as [Hr|(kind & e & Hin & Hu)]; [left; intros kind Hk; apply elem_of_app; left; by apply Hr|right].
  exists kind, e. split; [|done]. apply elem_of_app. by left.
Qed.

(** ** The pass *)

(** What a pass leaves of the object. *)
Definition left_of l (i : DPUServiceIPAM) : Prop :=
  ipam_Spec i = ipam_Spec base ∧
  (ipam_DPUClusterAllocations i = ipam_DPUClusterAllocations base ∨
   ∃ all ts m i', pass_computed base l true all ts m i' ∧ ipam_DPUClusterAllocations i = ipam_DPUClusterAllocations i') ∧
  (DPUServiceIPAMFinalizer ∈ ipam_Finalizers base → DPUServiceIPAMFinalizer ∉ ipam_Finalizers i →
   timep_is_zero (ipam_DeletionTimestamp base) = false ∧ ∃ all, RClusters (Ok all) ∈ l ∧ ∀ dc, dc ∈ all → emptied base dc l).
Lemma left_conditions l i cs : left_of l i → left_of l (with_ipam_Conditions cs i).
Proof. done. Qed.
Lemma left_mono l l' i : l `prefix_of` l' → left_of l i → left_of l' i.
Proof.
  intros Hp (Hs & Ha & Hf). split; [done|]. split.
  - destruct Ha as [?|(all & ts & m & i' & Hc & E)]; [by left|right]. exists all, ts, m, i'. split; [by eapply pass_computed_mono|done].
  - intros H1 H2. destruct (Hf H1 H2) as (Hd & all & Hall & He). split; [done|]. exists all. split; [by known|]. intros dc Hdc. by eapply emptied_mono; [|apply He].
Qed.
Lemma left_same l i : same i → left_of l i.
Proof. intros [cs ->]. split; [done|]. split; [by left|]. done. Qed.

Lemma deletion_writes l i : same i → timep_is_zero (ipam_DeletionTimestamp base) = false → ∀ dc,
  traces J l (deleteObjectsInDPUCluster (W:=L) (K:=K) (RC:=option Calculator) dc i) (λ r l', r = Ok [] → emptied base dc l').
Proof.
  intros Hi Hd dc. apply deleteObjects_traces; [done|]. intros l' k kind err _ Hk _. split; [done|]. split; [done|]. exists dc. split; [done|]. by left.
Qed.

Lemma reconcile_traces l i : same i → traces J l (reconcile (W:=L) now i) (λ r l', left_of l' r.2).
Proof.
  intros Hi. unfold reconcile. trace. eapply traces_mono.
  { apply (reconcileObjects_traces J listed listed_mono list_traces). intros l' all ts o' rc' Hl' Hc.
    destruct (computed_pass i l' false all ts o' rc' Hi Hc) as (m & -> & Hp & _ & _ & E). rewrite (E eq_refl) in *. split.
    - intros dc Hdc. by apply (apply_traces all ts).
    - intros dc Hin Hnot. eapply traces_mono; [apply deleteObjects_traces; [done|]|done]. intros l2 k kind err Hl2 Hk _. split; [done|]. split; [done|].
      exists dc. split; [done|]. right. exists all, ts, m, i. split; [by eapply pass_computed_mono|]. by right. }
  intros [[e o'] rc'] l1 Hl1 Hr. cbn [fst snd] in Hr.
  assert (left_of l1 o') as Hleft.
  { destruct Hr as [[-> _]|(changed & all & ts & Hc & _)]; [by apply left_same|].
    destruct (computed_pass i l1 changed all ts o' rc' Hi Hc) as (m & -> & Hp & Es & Ef & E). split; [done|]. split; [|by rewrite Ef; intros].
    destruct changed; [right; by exists all, ts, m, o'|left]. rewrite (E eq_refl). by destruct Hi as [cs ->]. }
  destruct e as [[| |]|]; try (apply traces_ret; by apply left_conditions). trace. eapply traces_mono.
  { apply (watch_traces J listed list_traces). intros l2 n. cbn [rc_registerKind ipam_reconciler]. unfold registerPoolsToWatcher. trace.
    apply traces_read; [done|]. intros [err|]; trace; [done|]. apply traces_read; [done|]. intros [err|]; by trace. }
  intros errs l2 Hl2 _. trace. apply left_conditions. by eapply left_mono.
Qed.

Lemma ipam_deletion_traces l i : same i → timep_is_zero (ipam_DeletionTimestamp base) = false →
  traces J l (reconcileDelete (W:=L) now i) (λ r l', left_of l' r.2).
Proof.
  intros Hi Hd. unfold reconcileDelete. trace. eapply traces_mono.
  { apply (deletion_traces J listed listed_mono list_traces l i (emptied base)).
    - intros dc l1 l2. apply emptied_mono.
    - intros dc l' _. by apply deletion_writes. }
  intros [[|err|err]|] l1 Hl1 He; trace; try (by apply left_same); try (by apply left_conditions, left_same). destruct (He eq_refl) as (all & Hall & Hempty).
  destruct Hi as [cs ->]. split; [done|]. split; [by left|]. intros _ _. split; [done|]. by exists all.
Qed.

Lemma reconcile_ipam_traces l : traces J l (reconcile_ipam (W:=L) now base) (λ r l', left_of l' r.2).
Proof.
  unfold reconcile_ipam. destruct (EnsureConditions_spec now base DPUServiceIPAMConditions) as [cs ->]. cbn [ipam_DeletionTimestamp ipam_Finalizers with_ipam_Conditions].
  assert (same (with_ipam_Conditions cs base)) as Hi by (by exists cs).
  destruct (timep_is_zero (ipam_DeletionTimestamp base)) eqn:Hd; cbn [negb]; [|by apply ipam_deletion_traces].
  destruct (ContainsFinalizer _ _) eqn:Ef; cbn [negb]; [by apply reconcile_traces|]. apply traces_ret. split; [done|]. split; [by left|].
  intros Hin. apply contains_finalizer in Hin. congruence.
Qed.
End Pass.

(** The trace of a pass over an object, which ends with the write of the object. *)
Lemma Reconcile_trace key base w : (getDPUServiceIPAM key w).1 = Ok base →
  let r := Reconcile (W:=L) now key (w, []) in
  justified (pool_why base) [] r.2.2 ∧ ∃ k new err, r.2.2 = k ++ [WObject base new err] ∧ (∀ e, err = Some e → e ∈ r.1.2).
Proof.
  intros Hb. cbv zeta. destruct (getDPUServiceIPAM key w) as [r w0] eqn:Eg. cbn in Hb. subst r. set (l0 := [RObject (K:=K) key (Ok base)]).
  assert (Reconcile (W:=L) now key (w, []) = (r ← reconcile_ipam (W:=L) now base; s ← updateSummary now ConditionDPUIPAMObjectReady r.2;
    e ← patchDPUServiceIPAM base s.1; mret (r.1.1, r.1.2 ++ s.2 ++ option_list e)) (w0, l0)) as ->.
  { unfold Reconcile at 1. unfold mbind at 1, SM_bind at 1.
    change (getDPUServiceIPAM key (w, [])) with (logged (RObject (K:=K) key) (getDPUServiceIPAM (W:=W) key) (w, [])). unfold logged. cbn [fst snd].
    by rewrite Eg. }
  enough (traces (pool_why base) l0 (r ← reconcile_ipam (W:=L) now base; s ← updateSummary now ConditionDPUIPAMObjectReady r.2;
    e ← patchDPUServiceIPAM base s.1; mret (r.1.1, r.1.2 ++ s.2 ++ option_list e))
    (λ r l, ∃ k new err, l = k ++ [WObject base new err] ∧ ∀ e, err = Some e → e ∈ r.2)) as Ht.
  { destruct (Ht w0) as (k & Hk & Hj & Hq). rewrite <- Hk in Hq. split; [|exact Hq]. rewrite Hk. by split. }
  trace. eapply traces_mono; [apply reconcile_ipam_traces|]. intros r l1 Hl1 Hleft. trace.
  eapply traces_mono.
  { apply (updateSummary_traces (pool_why base) listed (list_traces base) l1 now _ r.2 (λ i, left_of base l1 i)).
    - intros l dc. eapply traces_mono; [apply client_traces|done].
    - intros l k. cbn [rc_getObjects ipam_reconciler]. unfold getPoolsInDPUCluster. trace. apply traces_read; [done|]. intros [a|err]; [|by apply traces_ret].
      trace. apply traces_read; [done|]. intros [b|err]; by trace.
    - intros cs. by apply left_conditions.
    - intros i cs. apply left_conditions. }
  intros s l2 Hl2 Hs. trace. apply traces_call. intros err. split.
  - destruct (left_mono base l1 l2 s.1 Hl2 Hs) as (H1 & H2 & H3). by split_and!.
  - trace. exists l2, s.1, err. split; [done|]. intros e ->. cbn [fst snd]. rewrite !elem_of_app. right. right. by left.
Qed.

(** ** Properties *)


(** C25. The finalizer waits for the pools: when a pass writes an object without the finalizer
    of the controller, which it had, then the object is being deleted, the pass listed the
    clusters of the host, and in each of them, with the client of that cluster, the IPPools
    and the CIDRPools of the object were deleted and after that listed, and none of either
    kind was left; unless the deletion or the listing was answered by an error that says that
    the kind or the object is unknown there. *)
Theorem finalizer_waits_for_pools key base w new err : (getDPUServiceIPAM key w).1 = Ok base →
  let l := (Reconcile (W:=L) now key (w, [])).2.2 in
  WObject base new err ∈ l → DPUServiceIPAMFinalizer ∈ ipam_Finalizers base → DPUServiceIPAMFinalizer ∉ ipam_Finalizers new →
  timep_is_zero (ipam_DeletionTimestamp base) = false ∧ ∃ all, RClusters (Ok all) ∈ l ∧ ∀ dc, dc ∈ all → emptied base dc l.
Proof.
  intros Hb. destruct (Reconcile_trace key base w Hb) as [Hj _]. cbv zeta in *. set (l := (Reconcile (W:=L) now key (w, [])).2.2) in *.
  intros (k1 & k2 & E)%list_elem_of_split H1 H2. pose proof (proj1 (justified_spec _ _ _) Hj k1 _ k2 E) as (_ & _ & _ & Hf).
  destruct (Hf H1 H2) as (Hd & all & Hall & He). split; [done|]. assert (k1 `prefix_of` l) as Hp by (rewrite E; by eexists).
  exists all. split; [by eapply prefix_elem|]. intros dc Hdc. eapply emptied_mono; [done|]. by apply He.
Qed.
End Pools.
