(* ===== verification/IPAMWebhook.v ===== *)
(** The admission webhook of DPUServiceIPAMs
    (internal/dpuservicechain/webhooks/dpuserviceipam_webhook.go).

    An aggregate of errors is the list of its errors, nested aggregates flattened; the
    empty list accepts.  The texts of the API server around it are not modelled. *)

From S2P Require Import Prelude.
From S2P Require Import NetIP.
From S2P Require Import NetCIDR.
From S2P Require Import IPRanges.
From S2P Require Import IPAMAllocator.
From S2P Require Import IPAMState.

(** ** Which configuration *)

Inductive configurationField :=
| configurationFieldUnknown | configurationFieldIPv4Network | configurationFieldIPv4Subnet | configurationFieldNetwork | configurationFieldSubnet.
#[export] Instance configurationField_eq_dec : EqDecision configurationField.
Proof. solve_decision. Defined.
Inductive allocationMode := allocationModeUnknown | allocationModeNetwork | allocationModeSubnet.
#[export] Instance allocationMode_eq_dec : EqDecision allocationMode.
Proof. solve_decision. Defined.

Definition selectConfiguration (spec : DPUServiceIPAMSpec) : configurationField :=
  if bool_decide (is_IPV4Network spec ≠ None) then configurationFieldIPv4Network
  else if bool_decide (is_IPV4Subnet spec ≠ None) then configurationFieldIPv4Subnet
  else if bool_decide (is_Network spec ≠ None) then configurationFieldNetwork
  else if bool_decide (is_Subnet spec ≠ None) then configurationFieldSubnet
  else configurationFieldUnknown.
Definition configurationMode (field : configurationField) : allocationMode :=
  match field with
  | configurationFieldIPv4Network | configurationFieldNetwork => allocationModeNetwork
  | configurationFieldIPv4Subnet | configurationFieldSubnet => allocationModeSubnet
  | configurationFieldUnknown => allocationModeUnknown
  end.

Definition familyFromCIDR (cidr : string) : string :=
  match netip_ParsePrefix cidr with
  | Err _ => ""
  | Ok prefix => if Is4In6 (pf_Addr prefix) then "" else if Is4 (pf_Addr prefix) then "IPv4" else "IPv6"
  end.
(** The fields are dereferenced; the selection only gives fields that are set. *)
Definition configurationCIDR (field : configurationField) (spec : DPUServiceIPAMSpec) : option string :=
  match field with
  | configurationFieldIPv4Network => nw_Network <$> is_IPV4Network spec
  | configurationFieldIPv4Subnet => sn_Subnet <$> is_IPV4Subnet spec
  | configurationFieldNetwork => nw_Network <$> is_Network spec
  | configurationFieldSubnet => sn_Subnet <$> is_Subnet spec
  | configurationFieldUnknown => None
  end.
Definition configurationFamily (field : configurationField) (spec : DPUServiceIPAMSpec) : string :=
  match configurationCIDR field spec with Some cidr => familyFromCIDR cidr | None => "" end.

(** ** One configuration *)

Definition parseCIDR (value field : string) : Res IPNet :=
  match netip_ParsePrefix value with
  | Err _ => Err (errorf (field +:+ " " +:+ value +:+ " is not a valid network"))
  | Ok prefix =>
      if Is4In6 (pf_Addr prefix) then Err (errorf (field +:+ " " +:+ value +:+ " uses an IPv4-mapped IPv6 address, which is not supported"))
      else match net_ParseCIDR value with
           | Err _ => Err (errorf (field +:+ " " +:+ value +:+ " is not a valid network"))
           | Ok (_, network) => Ok network
           end
  end.

Definition is_mapped_address (s : string) : bool := match netip_ParseAddr s with Ok addr => Is4In6 addr | Err _ => false end.
Definition is_mapped_prefix (s : string) : bool := match netip_ParsePrefix s with Ok prefix => Is4In6 (pf_Addr prefix) | Err _ => false end.

Definition validateIP (ip : string) (network : IPNet) : Res IP :=
  match net_ParseIP ip with
  | None => Err (errorf ("ip " +:+ ip +:+ " is not a valid IP"))
  | Some pip =>
      if is_mapped_address ip then Err (errorf ("ip " +:+ ip +:+ " uses an IPv4-mapped IPv6 address, which is not supported"))
      else if negb (IPNet_Contains network pip) then Err (errorf ("ip " +:+ ip +:+ " is not part of network " +:+ IPNet_String network))
      else Ok pip
  end.
Definition res_error {A} (r : Res A) : list GoError := match r with Ok _ => [] | Err err => [err] end.
Definition validateExclusions (exclusions : list string) (network : IPNet) : list GoError :=
  exclusions ≫= (λ exclusion, res_error (validateIP exclusion network)).
Definition validateExcludeRange (network : IPNet) (excludeRange : ServiceIPRange) : list GoError :=
  let startIP := validateIP (sr_StartIP excludeRange) network in
  let endIP := validateIP (sr_EndIP excludeRange) network in
  (wrapf "exclude range startIP invalid. " <$> res_error startIP) ++ (wrapf "exclude range endIP invalid. " <$> res_error endIP) ++
  match startIP, endIP with
  | Ok startIP, Ok endIP =>
      if (endIP <? startIP)%Z
      then [errorf ("exclude range startIP " +:+ sr_StartIP excludeRange +:+ " is greater than endIP " +:+ sr_EndIP excludeRange)] else []
  | _, _ => []
  end.
Definition validateExcludeRanges (excludeRanges : list ServiceIPRange) (network : IPNet) : list GoError := excludeRanges ≫= validateExcludeRange network.

Definition isDefaultRoute (ipNet : IPNet) : bool :=
  if bool_decide (To4 (in_IP ipNet) ≠ None) then bool_decide (IPNet_String ipNet = "0.0.0.0/0") else bool_decide (IPNet_String ipNet = "::/0").
Definition validateRoute (network : IPNet) (defaultGateway : bool) (dst : string) : list GoError :=
  match net_ParseCIDR dst with
  | Err _ => [errorf ("route " +:+ dst +:+ " is not a valid subnet")]
  | Ok (_, routeNet) =>
      if is_mapped_prefix dst then [errorf ("route " +:+ dst +:+ " uses an IPv4-mapped IPv6 address, which is not supported")]
      else
        (if eqb (bool_decide (To4 (in_IP routeNet) ≠ None)) (bool_decide (To4 (in_IP network) ≠ None)) then []
         else [errorf ("route " +:+ dst +:+ " is not same address family IPv4/IPv6")]) ++
        (if defaultGateway && isDefaultRoute routeNet then [errorf ("default route " +:+ dst +:+ " is not allowed if 'defaultGateway' is true")] else [])
  end.
Definition validateRoutes (routes : list string) (network : IPNet) (defaultGateway : bool) : list GoError := routes ≫= validateRoute network defaultGateway.

(** A static allocation. *)
Definition validateAllocation (configuration : Network) (network : IPNet) (allocation : string) : list GoError :=
  match net_ParseCIDR allocation with
  | Err _ => [errorf ("allocation " +:+ allocation +:+ " is not a valid subnet")]
  | Ok (_, allocationNetwork) =>
      if is_mapped_prefix allocation then [errorf ("allocation " +:+ allocation +:+ " uses an IPv4-mapped IPv6 address, which is not supported")]
      else if negb (in_Bits allocationNetwork =? in_Bits network)%Z || negb (IPNet_Contains network (in_IP allocationNetwork))
              || negb (in_Ones allocationNetwork =? nw_PrefixSize configuration)%Z
      then [errorf ("allocation " +:+ allocation +:+ " is not part of the network " +:+ nw_Network configuration)]
      else []
  end.

Definition validateNetwork {R : MapRange} (configuration : Network) : list GoError :=
  match parseCIDR (nw_Network configuration) "network" with
  | Err err => [err]
  | Ok network =>
      let '(networkPrefix, addressBits) := Mask_Size network in
      if (nw_PrefixSize configuration <? 1)%Z || (addressBits <? nw_PrefixSize configuration)%Z
      then [errorf ("prefixSize " +:+ pretty (nw_PrefixSize configuration) +:+ " is invalid, must be between 1 and " +:+ pretty addressBits)]
      else if (nw_PrefixSize configuration <? networkPrefix)%Z
      then [errorf ("prefixSize " +:+ pretty (nw_PrefixSize configuration) +:+ " doesn't fit in network prefix " +:+ pretty networkPrefix)]
      else
        validateExclusions (nw_Exclusions configuration) network ++
        validateExcludeRanges (nw_ExcludeRanges configuration) network ++
        ((snd <$> range_map (nw_Allocations configuration)) ≫= validateAllocation configuration network) ++
        match nw_GatewayIndex configuration with
        | None => []
        | Some index =>
            if (index <? 0)%Z then [errorf "gatewayIndex must be at least 0"]
            else
              let blockSize := PrefixAddressCount addressBits (nw_PrefixSize configuration) in
              if (blockSize <=? index)%Z
              then [errorf ("gatewayIndex " +:+ pretty index +:+ " is out of range for /" +:+ pretty (nw_PrefixSize configuration)
                            +:+ " prefix (valid range: 0–" +:+ pretty (blockSize - 1)%Z +:+ ")")]
              else []
        end ++
        match nw_SubnetsPerDPUCluster configuration with
        | None => []
        | Some subnets =>
            if (subnets <? 1)%Z then [errorf "subnetsPerDPUCluster must be at least 1 when set"]
            else
              let totalSubnets := PrefixAddressCount (nw_PrefixSize configuration) networkPrefix in
              if (totalSubnets <? subnets)%Z
              then [errorf ("subnetsPerDPUCluster " +:+ pretty subnets +:+ " exceeds the " +:+ pretty totalSubnets +:+ " available subnets in network "
                            +:+ nw_Network configuration)]
              else []
        end ++
        validateRoutes (nw_Routes configuration) network (nw_DefaultGateway configuration)
  end.

Definition allocatableAddressCount (network : IPNet) : Z :=
  let '(prefixLen, addressBits) := Mask_Size network in
  let count := PrefixAddressCount addressBits prefixLen in
  if (prefixLen <? addressBits - 1)%Z
  then (if bool_decide (To4 (in_IP network) ≠ None) then count - 1 - 1 else count - 1)%Z
  else count.

Definition validateSubnet (configuration : Subnet) : list GoError :=
  match parseCIDR (sn_Subnet configuration) "subnet" with
  | Err err => [err]
  | Ok network =>
      let '(prefixLen, addressBits) := Mask_Size network in
      if (addressBits - 1 <=? prefixLen)%Z
      then [errorf ("subnet " +:+ sn_Subnet configuration +:+ " must be larger than /" +:+ pretty (addressBits - 2)%Z +:+ " — /"
                    +:+ pretty (addressBits - 1)%Z +:+ " and /" +:+ pretty addressBits +:+ " are not supported")]
      else match validateExcludeRanges (sn_ExcludeRanges configuration) network with
      | (_ :: _) as errs => errs
      | [] =>
      match net_ParseIP (sn_Gateway configuration) with
      | None => [errorf ("gateway " +:+ sn_Gateway configuration +:+ " is not a valid IP")]
      | Some gateway =>
      if is_mapped_address (sn_Gateway configuration)
      then [errorf ("gateway " +:+ sn_Gateway configuration +:+ " uses an IPv4-mapped IPv6 address, which is not supported")]
      else if negb (IPNet_Contains network gateway)
      then [errorf ("gateway " +:+ sn_Gateway configuration +:+ " is not part of subnet " +:+ sn_Subnet configuration)]
      else if (sn_PerNodeIPCount configuration <? 1)%Z then [errorf "perNodeIPCount must be at least 1"]
      else
        let effectiveSize := allocatableAddressCount network in
        if (effectiveSize <? sn_PerNodeIPCount configuration)%Z
        then [errorf ("perNodeIPCount " +:+ pretty (sn_PerNodeIPCount configuration) +:+ " exceeds the " +:+ pretty effectiveSize
                      +:+ " allocatable IPs in subnet " +:+ sn_Subnet configuration)]
        else
          let totalBlocks := Z.quot effectiveSize (sn_PerNodeIPCount configuration) in
          match sn_BlocksPerDPUCluster configuration with
          | Some blocks =>
              if (blocks <? 1)%Z then [errorf "blocksPerDPUCluster must be at least 1 when set"]
              else if (totalBlocks <? blocks)%Z
              then [errorf ("blocksPerDPUCluster " +:+ pretty blocks +:+ " exceeds the " +:+ pretty totalBlocks +:+ " available blocks in subnet "
                            +:+ sn_Subnet configuration)]
              else validateRoutes (sn_Routes configuration) network (sn_DefaultGateway configuration)
          | None => validateRoutes (sn_Routes configuration) network (sn_DefaultGateway configuration)
          end
      end end
  end.

(** ** Updates *)

Record updateValidationInput := mkUpdateInput {
  ui_cidr : string; ui_allocationSize : Z; ui_allocationField : string; ui_perCluster : option Z; ui_perClusterFieldName : string }.
Definition network_input (n : Network) : updateValidationInput :=
  mkUpdateInput (nw_Network n) (nw_PrefixSize n) "prefixSize" (nw_SubnetsPerDPUCluster n) "subnetsPerDPUCluster".
Definition subnet_input (s : Subnet) : updateValidationInput :=
  mkUpdateInput (sn_Subnet s) (sn_PerNodeIPCount s) "perNodeIPCount" (sn_BlocksPerDPUCluster s) "blocksPerDPUCluster".
Definition updateValidationInputFor (field : configurationField) (spec : DPUServiceIPAMSpec) : option updateValidationInput :=
  match field with
  | configurationFieldIPv4Network => network_input <$> is_IPV4Network spec
  | configurationFieldNetwork => network_input <$> is_Network spec
  | configurationFieldIPv4Subnet => subnet_input <$> is_IPV4Subnet spec
  | configurationFieldSubnet => subnet_input <$> is_Subnet spec
  | configurationFieldUnknown => None
  end.

Definition validateIPRangeNotShrinking (newSubnet oldSubnet : string) : list GoError :=
  match net_ParseCIDR oldSubnet with
  | Err err => [err]
  | Ok (oldIP, oldCIDR) =>
      match net_ParseCIDR newSubnet with
      | Err err => [err]
      | Ok (_, newCIDR) =>
          if negb (IPNet_Contains newCIDR oldIP) || ((Mask_Size oldCIDR).1 <? (Mask_Size newCIDR).1)%Z
          then [errorf "you cannot shrink the ip subnet"] else []
      end
  end.

Definition validateConfigurationUpdate (oldField : configurationField) (oldSpec : DPUServiceIPAMSpec)
    (newField : configurationField) (newSpec : DPUServiceIPAMSpec) : list GoError :=
  match updateValidationInputFor oldField oldSpec, updateValidationInputFor newField newSpec with
  | Some oldInput, Some newInput =>
      validateIPRangeNotShrinking (ui_cidr newInput) (ui_cidr oldInput) ++
      (if (ui_allocationSize newInput =? ui_allocationSize oldInput)%Z then [] else [errorf (ui_allocationField newInput +:+ " is immutable")]) ++
      match ui_perCluster oldInput, ui_perCluster newInput with
      | None, None => []
      | Some old, Some new => if (new <? old)%Z then [errorf (ui_perClusterFieldName newInput +:+ " cannot be decreased")] else []
      | _, _ => [errorf (ui_perClusterFieldName newInput +:+ " cannot be toggled between set and unset")]
      end
  | _, _ => []
  end.

(** ** An object *)

Definition validate_configuration {R : MapRange} (field : configurationField) (spec : DPUServiceIPAMSpec) : list GoError :=
  match field with
  | configurationFieldIPv4Network => from_option validateNetwork [] (is_IPV4Network spec)
  | configurationFieldNetwork => from_option validateNetwork [] (is_Network spec)
  | configurationFieldIPv4Subnet => from_option validateSubnet [] (is_IPV4Subnet spec)
  | configurationFieldSubnet => from_option validateSubnet [] (is_Subnet spec)
  | configurationFieldUnknown => []
  end.

Definition validateDPUServiceIPAM {R : MapRange} (newIPAM : DPUServiceIPAM) (oldIPAM : option DPUServiceIPAM) : list GoError :=
  let newSpec := ipam_Spec newIPAM in
  let newField := selectConfiguration newSpec in
  (if bool_decide (ipam_Namespace newIPAM = "dpf-operator-system") then [] else [errorf "currently only 'dpf-operator-system' namespace is supported"]) ++
  (if bool_decide (is_Network newSpec = None) && bool_decide (is_Subnet newSpec = None) then
     (if bool_decide (is_IPV4Network newSpec = None) && bool_decide (is_IPV4Subnet newSpec = None)
      then [errorf "either ipv4Subnet or ipv4Network must be specified"] else []) ++
     (if bool_decide (is_IPV4Network newSpec ≠ None) && bool_decide (is_IPV4Subnet newSpec ≠ None)
      then [errorf "either ipv4Subnet or ipv4Network must be specified but not both"] else [])
   else []) ++
  match oldIPAM with
  | None => validate_configuration newField newSpec
  | Some oldIPAM =>
      let oldSpec := ipam_Spec oldIPAM in
      let oldField := selectConfiguration oldSpec in
      let same_mode := bool_decide (configurationMode oldField = configurationMode newField) in
      let oldFamily := configurationFamily oldField oldSpec in
      let newFamily := configurationFamily newField newSpec in
      (if bool_decide (oldField = configurationFieldUnknown) then []
       else if negb same_mode then [errorf "transitioning from ipv4subnet to ipv4network and vice versa is currently not supported"]
       else if negb (bool_decide (oldFamily = "")) && negb (bool_decide (newFamily = "")) && negb (bool_decide (oldFamily = newFamily))
       then [errorf "transitioning between address families is not supported; create a new DPUServiceIPAM instead"]
       else []) ++
      validate_configuration newField newSpec ++
      (if negb (bool_decide (oldField = configurationFieldUnknown)) && same_mode
          && (bool_decide (oldFamily = "") || bool_decide (newFamily = "") || bool_decide (oldFamily = newFamily))
       then validateConfigurationUpdate oldField oldSpec newField newSpec else [])
  end.

Definition ValidateCreate {R : MapRange} (ipam : DPUServiceIPAM) : list GoError := validateDPUServiceIPAM ipam None.
Definition ValidateUpdate {R : MapRange} (oldIpamObj newIpamObj : DPUServiceIPAM) : list GoError := validateDPUServiceIPAM newIpamObj (Some oldIpamObj).
Definition ValidateDelete (ipam : DPUServiceIPAM) : list GoError := [].
