(* ===== verification/IPAMAdmission.v ===== *)
(** What the webhook of DPUServiceIPAMs lets through: specifications the allocator can
    work with, and updates that leave the allocations inside the network. *)

From S2P Require Import Prelude.
From S2P Require Import NetIP.
From S2P Require Import NetCIDR.
From S2P Require Import BlockRanges.
From S2P Require Import IPRanges.
From S2P Require Import IPAMAllocator.
From S2P Require Import IPAMCalculator.
From S2P Require Import IPAMSharing.
From S2P Require Import IPAMState.
From S2P Require Import IPAMPasses.
From S2P Require Import IPAMWebhook.

(** ** Networks of the two packages *)

Lemma As16_Addr4 v : (0 <= v < 2 ^ 32)%Z → To4 (v4InV6 + v)%Z = Some v.
Proof.
  intros Hv. unfold To4, v4InV6. assert (Z.shiftl 65535 32 = 65535 * 2 ^ 32)%Z as -> by reflexivity.
  rewrite Z.shiftr_div_pow2, (Z.add_comm _ v), Z.div_add, Z.div_small by lia. cbn [Z.add Z.eqb Pos.eqb].
  replace (2 ^ 32 - 1)%Z with (Z.ones 32) by done. rewrite Z.land_ones, Z.mod_add, Z.mod_small by lia. done.
Qed.
Lemma To4_unmapped v zone : Is4In6 (Addr6 v zone) = false → To4 v = None.
Proof. unfold Is4In6, To4. by intros ->. Qed.

(** Masking does not make an address IPv4-mapped. *)
Lemma mask_unmapped n v : (0 <= n <= 128)%Z → (0 <= v)%Z → Z.shiftr (mask_value 128 n v) 32 = 65535%Z → Z.shiftr v 32 = 65535%Z.
Proof.
  intros Hn Hv. unfold mask_value. destruct (Z.le_gt_cases (128 - n) 32) as [Hk|Hk].
  - rewrite Z.shiftr_shiftl_r by lia. rewrite Z.shiftr_shiftr by lia. by replace (128 - n + (32 - (128 - n)))%Z with 32%Z by lia.
  - rewrite Z.shiftr_shiftl_l by lia. rewrite Z.shiftl_mul_pow2 by lia. intros E. exfalso.
    replace (128 - n - 32)%Z with (Z.succ (128 - n - 33))%Z in E by lia. rewrite Z.pow_succ_r in E by lia. lia.
Qed.

Record network_of (p : Prefix) : Prop := { no_prefix : prefix_ok p; no_unmapped : Is4In6 (pf_Addr p) = false }.
Lemma network_number p : network_of p → networkNumberAndMask (net_of p) = Some (addr_value (mask_addr (pf_Bits p) (pf_Addr p)), BitLen (pf_Addr p), pf_Bits p).
Proof.
  intros [Hp Hu]. pose proof Hp as [Ha Hb]. destruct (mask_addr_spec p Hp) as ([[_ Hm] _] & _ & _). unfold networkNumberAndMask, net_of.
  destruct (plain_cases _ Ha) as [(v & E & Hv)|(v & E & Hv)]; rewrite E in *; cbn -[mask_value To4 Z.pow v4InV6 Z.add] in *.
  - by rewrite As16_Addr4.
  - unfold To4. destruct (Z.eqb_spec (Z.shiftr (mask_value 128 (pf_Bits p) v) 32) 65535) as [Em|]; [|done].
    apply mask_unmapped in Em; [|lia..]. unfold Is4In6 in Hu. by rewrite Em in Hu.
Qed.

(** The addresses of a network are those of the range of its prefix. *)
Lemma Contains_spec p a r : network_of p → plain a → Is4In6 a = false → RangeFromPrefix p = Ok r →
  IPNet_Contains (net_of p) (As16 a) = true ↔ BitLen a = BitLen (pf_Addr p) ∧ in_block (position a) (to_block r).
Proof.
  intros Hn Ha Hu Hr. pose proof Hn as [Hp Hup]. destruct (RangeFromPrefix_spec p Hp) as (r' & Er & Hok & Hst & Hend). rewrite Hr in Er. injection Er as <-.
  destruct (mask_addr_spec p Hp) as (Hm & Hmf & _). pose proof Hok as [_ Hpe Hf _]. unfold in_block, to_block. cbn [br_Start br_End].
  rewrite Hst in *. clear Hst. pose proof (family_position _ _ Hm Hpe (eq_sym Hf)) as Hfp.
  unfold IPNet_Contains. rewrite network_number by done. destruct Hp as [Hpa Hb]. unfold prefix_size in Hend.
  assert (BitLen a = BitLen (pf_Addr p) → (position (mask_addr (pf_Bits p) (pf_Addr p)) <= position a <= position (ip_End r))%Z ↔
    (addr_value (mask_addr (pf_Bits p) (pf_Addr p)) <= addr_value a < addr_value (mask_addr (pf_Bits p) (pf_Addr p)) + 2 ^ (BitLen (pf_Addr p) - pf_Bits p))%Z) as Hrange.
  { intros Hfa. pose proof (family_position _ _ Hm Ha (eq_trans Hmf (eq_sym Hfa))). lia. }
  destruct (plain_cases _ Ha) as [(x & -> & Hx)|(x & -> & Hx)], (plain_cases _ Hpa) as [(v & E & Hv)|(v & E & Hv)]; rewrite E in *;
    cbn [As16 BitLen mask_addr addr_value] in *; rewrite ?As16_Addr4, ?(To4_unmapped x "") by done; cbn [Z.eqb Pos.eqb andb].
  - rewrite Z.eqb_eq, mask_value_idem, (Hrange eq_refl) by done. destruct (mask_value_spec 32 (pf_Bits p) v Hb Hv) as (H0 & H1 & H2 & H3).
    split; [intros Em; split; [done|]|intros [_ Em]; symmetry]; apply mask_value_eq; try done; lia.
  - split; [done|]. by intros [? _].
  - split; [done|]. by intros [? _].
  - rewrite Z.eqb_eq, mask_value_idem, (Hrange eq_refl) by done. destruct (mask_value_spec 128 (pf_Bits p) v Hb Hv) as (H0 & H1 & H2 & H3).
    split; [intros Em; split; [done|]|intros [_ Em]; symmetry]; apply mask_value_eq; try done; lia.
Qed.

(** ** Ranges of a network *)

Lemma parseCIDR_ok value field network : parseCIDR value field = Ok network →
  ∃ p, netip_ParsePrefix value = Ok p ∧ network_of p ∧ network = net_of p.
Proof.
  unfold parseCIDR. destruct (netip_ParsePrefix value) as [p|] eqn:Ep; [|done]. destruct (Is4In6 (pf_Addr p)) eqn:E4; [done|].
  rewrite (ParseCIDR_of_prefix _ _ Ep). intros [= <-]. exists p. split; [done|]. split; [|done]. apply ParsePrefix_wf in Ep as (Hw & Hz & Hb). by split.
Qed.

Lemma validateIP_ok ip p r pip : network_of p → RangeFromPrefix p = Ok r → validateIP ip (net_of p) = Ok pip →
  ∃ a, ParseAddr ip = Ok a ∧ pip = As16 a ∧ plain a ∧ Is4In6 a = false ∧ BitLen a = BitLen (pf_Addr p) ∧ in_block (position a) (to_block r) ∧ no_zone ip.
Proof.
  intros Hn Hr. unfold validateIP, net_ParseIP, is_mapped_address, ParseAddr. destruct (netip_ParseAddr ip) as [a|] eqn:Ea; [|done].
  case_bool_decide as Hz; [|done]. destruct (Is4In6 a) eqn:E4; [done|]. destruct (IPNet_Contains (net_of p) (As16 a)) eqn:Ec; [|done]. intros [= <-].
  pose proof Ea as [Hwf _]%ParseAddr_wf. apply (Contains_spec p a r Hn) in Ec as [Hf Hin]; [|by split|done|done].
  exists a. split_and!; try done. intros b Eb. congruence.
Qed.

Lemma As16_order a b : plain a → plain b → BitLen a = BitLen b → (As16 a <= As16 b)%Z ↔ (position a <= position b)%Z.
Proof.
  intros Ha Hb. destruct (plain_cases a Ha) as [(v & -> & Hv)|(v & -> & Hv)], (plain_cases b Hb) as [(w & -> & Hw)|(w & -> & Hw)];
    unfold position; cbn -[v4InV6]; try done; intros _; lia.
Qed.

(** An accepted range is read, and is inside the network. *)
Lemma validateExcludeRange_ok p r t : network_of p → RangeFromPrefix p = Ok r → validateExcludeRange (net_of p) t = [] →
  zoneless t ∧ ∃ s, parse_range t = Ok s ∧ within (to_block s) (to_block r).
Proof.
  intros Hn Hr. unfold validateExcludeRange. destruct (validateIP (sr_StartIP t) (net_of p)) as [s16|] eqn:Es; [|done].
  destruct (validateIP (sr_EndIP t) (net_of p)) as [e16|] eqn:Ee; [|done]. cbn.
  apply (validateIP_ok _ p r _ Hn Hr) in Es as (a & Ea & -> & Hpa & Hua & Hfa & Hia & Hza).
  apply (validateIP_ok _ p r _ Hn Hr) in Ee as (b & Eb & -> & Hpb & Hub & Hfb & Hib & Hzb).
  destruct (Z.ltb_spec (As16 b) (As16 a)) as [|Hle]; [done|]. intros _. split; [done|]. exists (mkIPRange a b).
  apply As16_order in Hle; [|done..|congruence]. unfold parse_range. rewrite Ea, Eb, addr_lt_position by done.
  destruct (Z.eqb_spec (BitLen a) (BitLen b)); [|congruence]. destruct (Z.ltb_spec (position b) (position a)); [lia|]. split; [done|].
  unfold within, in_block, to_block in *. cbn in *. lia.
Qed.

Lemma bind_nil {A B} (f : A → list B) xs : xs ≫= f = [] → Forall (λ x, f x = []) xs.
Proof. induction xs as [|x xs IH]; [constructor|]. rewrite bind_cons. intros [H1 H2]%app_nil. constructor; [done|by apply IH]. Qed.

Lemma ranges_accepted p r ts : network_of p → RangeFromPrefix p = Ok r → Forall (λ t, validateExcludeRange (net_of p) t = []) ts →
  Forall zoneless ts ∧ ∃ rs, parseIPRanges ts = Ok rs.
Proof.
  intros Hn Hr. induction 1 as [|t ts Ht Hts [IHz [rs IH]]]; [split; [constructor|by exists []]|].
  destruct (validateExcludeRange_ok p r t Hn Hr Ht) as (Hz & s & Es & _). split; [by constructor|]. exists (s :: rs). cbn [parseIPRanges]. by rewrite Es, IH.
Qed.
(** An excluded address is checked like a range of one. *)
Lemma exclusion_accepted p x r : network_of p → RangeFromPrefix p = Ok r → res_error (validateIP x (net_of p)) = [] →
  validateExcludeRange (net_of p) (mkServiceIPRange x x) = [].
Proof.
  intros Hn Hr. unfold validateExcludeRange. cbn. destruct (validateIP x (net_of p)) as [s16|]; [|done]. intros _. cbn.
  destruct (Z.ltb_spec s16 s16); [lia|done].
Qed.

(** ** The constructor of the calculator *)

Lemma poolBoundary_net p : network_of p → (pf_Bits p < BitLen (pf_Addr p) - 1)%Z →
  ((poolBoundaryOffsets (Masked p) false).1 + (poolBoundaryOffsets (Masked p) false).2)%Z =
  (if bool_decide (To4 (in_IP (net_of p)) ≠ None) then 2 else 1)%Z.
Proof.
  intros Hn Hb. pose proof (network_number p Hn) as Hnn. unfold networkNumberAndMask in Hnn. destruct (mask_addr_spec p (no_prefix p Hn)) as (_ & Hf & _).
  unfold poolBoundaryOffsets. cbn [Masked pf_Addr pf_Bits]. rewrite Hf. destruct (Z.leb_spec (BitLen (pf_Addr p) - 1) (pf_Bits p)); [lia|]. cbn [orb].
  destruct (no_prefix p Hn) as [Ha _]. destruct (plain_cases _ Ha) as [(v & E & Hv)|(v & E & Hv)]; rewrite E in *; cbn [mask_addr Is4].
  - destruct (To4 (in_IP (net_of p))) as [w|]; [done|]. unfold net_of in Hnn. cbn in Hnn. rewrite E in Hnn. done.
  - destruct (To4 (in_IP (net_of p))) as [w|]; [|done]. cbn in Hnn. rewrite E in Hnn. cbn in Hnn. congruence.
Qed.

Lemma new_calc_accepts network p size target cidr excludes static :
  netip_ParsePrefix network = Ok p → network_of p → (0 < size)%Z →
  (size <= prefix_size p - ((poolBoundaryOffsets (Masked p) cidr).1 + (poolBoundaryOffsets (Masked p) cidr).2))%Z →
  (∃ rs, parseIPRanges excludes = Ok rs) →
  ∃ m, newMultiDPUClusterExclusionCalculator network size target cidr excludes [] static = Ok m.
Proof.
  intros Ep Hn Hs Hfit [rs Hx]. unfold newMultiDPUClusterExclusionCalculator. rewrite Ep, (no_unmapped p Hn).
  pose proof (no_prefix p Hn) as Hp. destruct (mask_addr_spec p Hp) as (Hm & Hmf & _).
  assert (prefix_ok (Masked p)) as Hp' by (split; cbn; [done|rewrite Hmf; apply Hp]).
  destruct (RangeFromPrefix_spec _ Hp') as (r & -> & Hok & Hst & Hend). destruct (Z.leb_spec size 0); [lia|].
  assert (PrefixAddressCount (BitLen (pf_Addr (Masked p))) (pf_Bits (Masked p)) = prefix_size p) as ->.
  { rewrite PrefixAddressCount_spec by apply Hp'. unfold prefix_size. cbn. by rewrite Hmf. }
  assert (prefix_size (Masked p) = prefix_size p) as Hsz by (unfold prefix_size; cbn; by rewrite Hmf).
  destruct (offsets_range (Masked p) cidr) as [Ho1 Ho2]. destruct (poolBoundaryOffsets (Masked p) cidr) as [o1 o2]. cbn [fst snd] in *.
  destruct (Z.leb_spec (prefix_size p - (o1 + o2)) 0); [lia|]. pose proof (Z.mul_quot_le (prefix_size p - (o1 + o2)) size ltac:(lia) ltac:(lia)) as Hq.
  pose proof (Z.quot_le_lower_bound (prefix_size p - (o1 + o2)) size 1 ltac:(lia) ltac:(lia)) as Hq1.
  destruct (Z.leb_spec (Z.quot (prefix_size p - (o1 + o2)) size) 0); [lia|]. pose proof Hok as [Hps Hpe Hpf _].
  pose proof Hpe as [[_ Hrange] _]. rewrite Hpf in Hrange. set (total := Z.quot (prefix_size p - (o1 + o2)) size) in *.
  destruct (Add_some (ip_Start r) o1) as (s & -> & Hsp & Hsf & Hsv); [done|lia|lia|].
  destruct (Add_some s (total * size - 1)) as (e & -> & _); [done|nia|rewrite Hsf; lia|].
  unfold parseAndMergeIPRanges. rewrite Hx. cbn [parse_all]. by eexists.
Qed.

(** ** Accepted specifications *)

Lemma validateSubnet_ok s : validateSubnet s = [] →
  Forall zoneless (sn_ExcludeRanges s) ∧ ∃ m, NewMultiDPUClusterExclusionCalculatorForSubnet s [] = Ok m.
Proof.
  unfold validateSubnet. destruct (parseCIDR (sn_Subnet s) "subnet") as [network|] eqn:Ep; [|done].
  apply parseCIDR_ok in Ep as (p & Ep & Hn & ->). cbn [Mask_Size net_of in_Ones in_Bits]. destruct (Z.leb_spec (BitLen (pf_Addr p) - 1) (pf_Bits p)) as [|Hb]; [done|].
  destruct (validateExcludeRanges (sn_ExcludeRanges s) (net_of p)) eqn:Ex; [|done]. apply bind_nil in Ex.
  destruct (net_ParseIP (sn_Gateway s)); [|done]. destruct (is_mapped_address _); [done|]. destruct (negb _); [done|].
  destruct (Z.ltb_spec (sn_PerNodeIPCount s) 1) as [|Hc]; [done|]. destruct (Z.ltb_spec (allocatableAddressCount (net_of p)) (sn_PerNodeIPCount s)) as [|Hfit]; [done|].
  intros _. destruct (RangeFromPrefix_spec p (no_prefix p Hn)) as (r & Er & _). destruct (ranges_accepted p r _ Hn Er Ex) as [Hz Hrs]. split; [done|].
  unfold NewMultiDPUClusterExclusionCalculatorForSubnet. apply (new_calc_accepts _ p); try done; [lia|]. rewrite poolBoundary_net by done.
  revert Hfit. unfold allocatableAddressCount. cbn [Mask_Size net_of in_Ones in_Bits].
  rewrite PrefixAddressCount_spec by apply (no_prefix p Hn). fold (prefix_size p). destruct (Z.ltb_spec (pf_Bits p) (BitLen (pf_Addr p) - 1)); [|lia].
  unfold net_of. cbn [in_IP]. destruct (bool_decide _); lia.
Qed.

Section Accepted.
Context {R : MapRange} {RL : MapRangeLaws R}.

Lemma validateNetwork_ok n : validateNetwork n = [] →
  Forall zoneless (((λ address, mkServiceIPRange address address) <$> nw_Exclusions n) ++ nw_ExcludeRanges n) ∧
  statics_accepted (nw_Allocations n) ∧ ∃ m, NewMultiDPUClusterExclusionCalculatorForNetwork n [] = Ok m.
Proof.
  unfold validateNetwork. destruct (parseCIDR (nw_Network n) "network") as [network|] eqn:Ep; [|done].
  apply parseCIDR_ok in Ep as (p & Ep & Hn & ->). cbn [Mask_Size net_of in_Ones in_Bits].
  destruct (Z.ltb_spec (nw_PrefixSize n) 1) as [|H1]; [done|]. destruct (Z.ltb_spec (BitLen (pf_Addr p)) (nw_PrefixSize n)) as [|H2]; [done|]. cbn [orb].
  destruct (Z.ltb_spec (nw_PrefixSize n) (pf_Bits p)) as [|H3]; [done|]. rewrite !app_nil. intros (Hx & Hr & Ha & _).
  apply bind_nil in Hx, Hr, Ha. destruct (RangeFromPrefix_spec p (no_prefix p Hn)) as (r & Er & _).
  destruct (ranges_accepted p r (((λ address, mkServiceIPRange address address) <$> nw_Exclusions n) ++ nw_ExcludeRanges n) Hn Er) as [Hz Hrs].
  { apply Forall_app. split; [|done]. rewrite Forall_fmap. eapply Forall_impl; [exact Hx|]. intros x. cbn. by apply (exclusion_accepted p x r). }
  split; [done|]. split.
  - intros node s Hs. rewrite Forall_fmap in Ha. rewrite Forall_forall in Ha. specialize (Ha (node, s)). cbn in Ha. unfold static_refused.
    destruct (netip_ParsePrefix s) as [q|] eqn:Eq; [|done]. assert (validateAllocation n (net_of p) s = []) as Hv by (apply Ha; by apply elem_of_range_map).
    unfold validateAllocation, is_mapped_prefix in Hv. rewrite (ParseCIDR_of_prefix _ _ Eq), Eq in Hv. by destruct (Is4In6 (pf_Addr q)).
  - unfold NewMultiDPUClusterExclusionCalculatorForNetwork. rewrite Ep, (no_unmapped p Hn). apply (new_calc_accepts _ p); try done.
    + rewrite PrefixAddressCount_spec by lia. lia.
    + destruct (no_prefix p Hn) as [_ Hb]. unfold poolBoundaryOffsets. cbn [orb fst snd]. rewrite PrefixAddressCount_spec by lia. unfold prefix_size.
      pose proof (Z.pow_le_mono_r 2 (BitLen (pf_Addr p) - nw_PrefixSize n) (BitLen (pf_Addr p) - pf_Bits p) ltac:(lia) ltac:(lia)). lia.
Qed.

(** The rule of the CRD: exactly one configuration. *)
Definition one_configuration (spec : DPUServiceIPAMSpec) : Prop :=
  (if bool_decide (is_IPV4Network spec ≠ None) then 1 else 0) + (if bool_decide (is_IPV4Subnet spec ≠ None) then 1 else 0) +
  (if bool_decide (is_Network spec ≠ None) then 1 else 0) + (if bool_decide (is_Subnet spec ≠ None) then 1 else 0) = 1.

(** What is validated is what the controller uses. *)
Lemma validated_configuration i : one_configuration (ipam_Spec i) →
  (∃ s, subnetSpec i = Some s ∧ validate_configuration (selectConfiguration (ipam_Spec i)) (ipam_Spec i) = validateSubnet s) ∨
  (subnetSpec i = None ∧ ∃ n, networkSpec i = Some n ∧ validate_configuration (selectConfiguration (ipam_Spec i)) (ipam_Spec i) = validateNetwork n).
Proof.
  unfold one_configuration, subnetSpec, networkSpec, selectConfiguration. destruct (ipam_Spec i) as [l a n4 s4 n s c nd].
  cbn [is_IPV4Network is_IPV4Subnet is_Network is_Subnet].
  destruct n4 as [n4|], s4 as [s4|], n as [n|], s as [s|]; cbn; intros Hone; try done; try lia; [right|left|right|left]; eauto.
Qed.

End Accepted.

(** ** Accepted updates *)

(** What a calculator has of its specification. *)
Record made_of (m : Calculator) (network : string) (size : Z) (target : option Z) (p : Prefix) : Prop := {
  mo_prefix : netip_ParsePrefix network = Ok p;
  mo_network : network_of p;
  mo_parent : RangeFromPrefix p = Ok (parentRange m);
  mo_size : blockSizePerNode m = size;
  mo_target : targetBlocksPerDPUCluster m = default 0%Z target;
  mo_all : allocateAllRemainingBlocks m = bool_decide (target = None) }.
Lemma new_calc_made network size target cidr excludes current static m :
  newMultiDPUClusterExclusionCalculator network size target cidr excludes current static = Ok m → ∃ p, made_of m network size target p.
Proof.
  unfold newMultiDPUClusterExclusionCalculator. destruct (netip_ParsePrefix network) as [p|] eqn:Ep; [|done].
  destruct (Is4In6 (pf_Addr p)) eqn:E4; [done|]. pose proof Ep as (Hw & Hz & Hb)%ParsePrefix_wf. rewrite RangeFromPrefix_Masked by (by split).
  destruct (RangeFromPrefix p) as [r|] eqn:Er; [|done]. destruct (size <=? 0)%Z; [done|].
  destruct (poolBoundaryOffsets (Masked p) cidr). destruct (_ <=? 0)%Z; [done|]. destruct (_ <=? 0)%Z; [done|].
  destruct (Add _ _); [|done]. destruct (Add _ _); [|done]. destruct (parseAndMergeIPRanges excludes); [|done].
  destruct (parse_all current); [|done]. intros [= <-]. exists p. by split.
Qed.

Lemma multiple_nested So Sn mo mn x : (0 < So)%Z → (So | Sn)%Z → (So | mo)%Z → (So | mn)%Z → (mo <= x < mo + So)%Z → (mn <= x < mn + Sn)%Z →
  (mn <= mo)%Z ∧ (mo + So <= mn + Sn)%Z.
Proof.
  intros Hs [k ->] [c ->] [a ->] Hx Hy. assert (a * So < (c + 1) * So)%Z as H1 by lia. assert (c * So < (a + k) * So)%Z as H2 by lia.
  apply Z.mul_lt_mono_pos_r in H1, H2; [|done..]. assert (a <= c)%Z as H3 by lia. assert (c + 1 <= a + k)%Z as H4 by lia.
  apply (Z.mul_le_mono_nonneg_r _ _ So) in H3, H4; lia.
Qed.

Lemma not_shrinking_within po pn ro rn : network_of po → network_of pn → RangeFromPrefix po = Ok ro → RangeFromPrefix pn = Ok rn →
  IPNet_Contains (net_of pn) (As16 (pf_Addr po)) = true → (pf_Bits pn <= pf_Bits po)%Z →
  BitLen (pf_Addr po) = BitLen (pf_Addr pn) ∧ within (to_block ro) (to_block rn).
Proof.
  intros Ho Hn Hro Hrn Hc Hbits. apply (Contains_spec pn _ rn Hn) in Hc as [Hf Hin]; [|apply (no_prefix po Ho)|apply (no_unmapped po Ho)|done]. split; [done|].
  destruct (RangeFromPrefix_spec po (no_prefix po Ho)) as (r & Er & Hok & Hst & Hend). rewrite Hro in Er. injection Er as <-.
  destruct (RangeFromPrefix_spec pn (no_prefix pn Hn)) as (r & Er & Hokn & Hstn & Hendn). rewrite Hrn in Er. injection Er as <-.
  destruct (mask_addr_spec po (no_prefix po Ho)) as (Hmo & Hmof & _ & Hdo & Hso). destruct (mask_addr_spec pn (no_prefix pn Hn)) as (Hmn & Hmnf & _ & Hdn & Hsn).
  destruct Hok as [Hps Hpe Hpf _], Hokn as [Hqs Hqe Hqf _]. rewrite Hst, Hstn in *. destruct (no_prefix po Ho) as [Hpa Hpb]. destruct (no_prefix pn Hn) as [_ Hqb].
  pose proof (family_position _ _ Hps Hpe (eq_sym Hpf)) as F1. pose proof (family_position _ _ Hqs Hqe (eq_sym Hqf)) as F2.
  pose proof (family_position _ _ Hps Hpa Hmof) as F3. pose proof (family_position _ _ Hqs Hpa ltac:(congruence)) as F4.
  assert (BitLen (mask_addr (pf_Bits pn) (pf_Addr pn)) = BitLen (mask_addr (pf_Bits po) (pf_Addr po))) as Hff by congruence.
  pose proof (family_position _ _ Hqs Hps Hff) as F5.
  assert (prefix_size po | prefix_size pn)%Z as Hdiv.
  { unfold prefix_size. exists (2 ^ (pf_Bits po - pf_Bits pn))%Z. rewrite <- Z.pow_add_r by lia. f_equal. lia. }
  unfold within, in_block, to_block in *. cbn [br_Start br_End] in *. rewrite Hst, Hstn in *.
  assert (addr_value (mask_addr (pf_Bits po) (pf_Addr po)) <= addr_value (pf_Addr po) < addr_value (mask_addr (pf_Bits po) (pf_Addr po)) + prefix_size po)%Z as Hx.
  { unfold prefix_size. destruct (plain_cases _ Hpa) as [(v & E & Hv)|(v & E & Hv)]; rewrite E in *; cbn -[mask_value Z.pow Z.add Z.sub] in *;
      [pose proof (mask_value_spec 32 (pf_Bits po) v Hpb Hv)|pose proof (mask_value_spec 128 (pf_Bits po) v Hpb Hv)]; cbv zeta in *; tauto. }
  pose proof (multiple_nested (prefix_size po) (prefix_size pn) _ _ _ Hso Hdiv Hdo (Z.divide_trans _ _ _ Hdiv Hdn) Hx ltac:(lia)). lia.
Qed.

(** The input of the update rules and the calculator come from one specification. *)
Lemma input_of_calculator i existing m : one_configuration (ipam_Spec i) → new_calculator i existing = Ok m →
  ∃ input p size, updateValidationInputFor (selectConfiguration (ipam_Spec i)) (ipam_Spec i) = Some input ∧
    configurationCIDR (selectConfiguration (ipam_Spec i)) (ipam_Spec i) = Some (ui_cidr input) ∧
    selectConfiguration (ipam_Spec i) ≠ configurationFieldUnknown ∧
    made_of m (ui_cidr input) size (ui_perCluster input) p ∧
    size = (if bool_decide (configurationMode (selectConfiguration (ipam_Spec i)) = allocationModeSubnet) then ui_allocationSize input
            else PrefixAddressCount (BitLen (pf_Addr p)) (ui_allocationSize input)).
Proof.
  unfold one_configuration, new_calculator, subnetSpec, networkSpec, selectConfiguration. destruct (ipam_Spec i) as [l a n4 s4 n s c nd].
  cbn [is_IPV4Network is_IPV4Subnet is_Network is_Subnet]. intros Hone Hm.
  assert ((∃ sn, NewMultiDPUClusterExclusionCalculatorForSubnet sn existing = Ok m ∧ (s4 = Some sn ∧ n4 = None ∧ n = None ∧ s = None ∨ s = Some sn ∧ n4 = None ∧ n = None ∧ s4 = None)) ∨
    (∃ nw, NewMultiDPUClusterExclusionCalculatorForNetwork nw existing = Ok m ∧ (n4 = Some nw ∧ s4 = None ∧ n = None ∧ s = None ∨ n = Some nw ∧ n4 = None ∧ s4 = None ∧ s = None))) as Hcase.
  { destruct n4 as [n4|], s4 as [s4|], n as [n|], s as [s|]; cbn in Hone; try lia; [right|left|right|left]; eexists; (split; [exact Hm|]); auto. }
  destruct Hcase as [(sn & Hsn & Hwhich)|(nw & Hnw & Hwhich)].
  - pose proof Hsn as [p Hp]%new_calc_made. exists (subnet_input sn), p, (sn_PerNodeIPCount sn). by destruct Hwhich as [(-> & -> & -> & ->)|(-> & -> & -> & ->)].
  - unfold NewMultiDPUClusterExclusionCalculatorForNetwork in Hnw. destruct (netip_ParsePrefix (nw_Network nw)) as [q|] eqn:Eq; [|done].
    destruct (Is4In6 (pf_Addr q)); [done|]. apply new_calc_made in Hnw as [p Hp]. pose proof (mo_prefix _ _ _ _ _ Hp) as Ep. rewrite Eq in Ep. injection Ep as <-.
    exists (network_input nw), q, (PrefixAddressCount (BitLen (pf_Addr q)) (nw_PrefixSize nw)).
    by destruct Hwhich as [(-> & -> & -> & ->)|(-> & -> & -> & ->)].
Qed.

Section Updates.
Context {R : MapRange} {RL : MapRangeLaws R}.

Lemma update_rules old new inputo inputn : validateDPUServiceIPAM new (Some old) = [] →
  selectConfiguration (ipam_Spec old) ≠ configurationFieldUnknown →
  updateValidationInputFor (selectConfiguration (ipam_Spec old)) (ipam_Spec old) = Some inputo →
  updateValidationInputFor (selectConfiguration (ipam_Spec new)) (ipam_Spec new) = Some inputn →
  configurationMode (selectConfiguration (ipam_Spec old)) = configurationMode (selectConfiguration (ipam_Spec new)) ∧
  validateIPRangeNotShrinking (ui_cidr inputn) (ui_cidr inputo) = [] ∧ ui_allocationSize inputn = ui_allocationSize inputo ∧
  match ui_perCluster inputo, ui_perCluster inputn with
  | None, None => True
  | Some quota, Some quota' => (quota <= quota')%Z
  | _, _ => False
  end.
Proof.
  intros Hv Hk Ho Hn. unfold validateDPUServiceIPAM in Hv. rewrite !app_nil in Hv. destruct Hv as (_ & _ & Hmode & _ & Hup). rewrite bool_decide_false in Hmode, Hup by done.
  cbn [negb] in Hup. case_bool_decide as Hm; cbn [negb] in Hmode; [|done]. split; [done|]. cbn [andb] in Hup.
  set (fo := configurationFamily _ _) in *. set (fn := configurationFamily (selectConfiguration (ipam_Spec new)) _) in *.
  assert (bool_decide (fo = "") || bool_decide (fn = "") || bool_decide (fo = fn) = true) as Hfam.
  { destruct (bool_decide (fo = "")), (bool_decide (fn = "")), (bool_decide (fo = fn)); done. }
  rewrite Hfam in Hup. unfold validateConfigurationUpdate in Hup. rewrite Ho, Hn, !app_nil in Hup. destruct Hup as (Hs & Hsize & Hq).
  split; [done|]. split; [by destruct (Z.eqb_spec (ui_allocationSize inputn) (ui_allocationSize inputo))|].
  destruct (ui_perCluster inputo) as [quota|], (ui_perCluster inputn) as [quota'|]; try done. by destruct (Z.ltb_spec quota' quota).
Qed.

(** C23. Accepted updates keep what was allocated: when the webhook accepts an update of a
    specification the allocator could work with, every address of the old network is one of
    the new network, so ranges the old calculator found compatible the new one does too;
    blocks have the same size; and the quota of a cluster is not taken away and does not
    decrease. *)
Theorem accepted_update_keeps old new existing existing' mo mn : one_configuration (ipam_Spec old) → one_configuration (ipam_Spec new) →
  validateDPUServiceIPAM new (Some old) = [] → new_calculator old existing = Ok mo → new_calculator new existing' = Ok mn →
  (∀ K, Forall range_ok K → areClusterBlocksCompatible mo K = true → areClusterBlocksCompatible mn K = true) ∧
  blockSizePerNode mn = blockSizePerNode mo ∧ allocateAllRemainingBlocks mn = allocateAllRemainingBlocks mo ∧
  (targetBlocksPerDPUCluster mo <= targetBlocksPerDPUCluster mn)%Z.
Proof.
  intros H1 H2 Hv Ho Hn. destruct (input_of_calculator old existing mo H1 Ho) as (io & po & so & Hio & _ & Hk & [Epo Hno Hpo Hso Hto Hao] & Eso).
  destruct (input_of_calculator new existing' mn H2 Hn) as (inn & pn & sn & Hin & _ & _ & [Epn Hnn Hpn Hsn Htn Han] & Esn).
  destruct (update_rules old new io inn Hv Hk Hio Hin) as (Hmode & Hshrink & Hsize & Hquota).
  unfold validateIPRangeNotShrinking in Hshrink. rewrite (ParseCIDR_of_prefix _ _ Epo), (ParseCIDR_of_prefix _ _ Epn) in Hshrink.
  destruct (IPNet_Contains (net_of pn) (As16 (pf_Addr po))) eqn:Ec; [|done]. cbn in Hshrink. destruct (Z.ltb_spec (pf_Bits po) (pf_Bits pn)) as [|Hb]; [done|].
  destruct (not_shrinking_within po pn _ _ Hno Hnn Hpo Hpn Ec Hb) as [Hf Hw]. split; [|split; [|split]].
  - intros K HK Hc. unfold areClusterBlocksCompatible in *. apply negb_true_iff, not_true_iff_false in Hc. apply negb_true_iff, not_true_iff_false.
    intros (r & Hr & Hout)%existsb_exists. apply Hc, existsb_exists. exists r. split; [done|]. apply list_elem_of_In in Hr. rewrite Forall_forall in HK.
    pose proof (HK r Hr) as Hro. apply negb_true_iff. apply negb_true_iff in Hout. apply not_true_iff_false in Hout. apply not_true_iff_false. intros Hin'. apply Hout.
    destruct (RangeFromPrefix_spec po (no_prefix po Hno)) as (q & Eq & Hoko & Hsto & _). rewrite Hpo in Eq. injection Eq as <-.
    destruct (RangeFromPrefix_spec pn (no_prefix pn Hnn)) as (q & Eq & Hokn & Hstn & _). rewrite Hpn in Eq. injection Eq as <-.
    apply (Range_In_spec _ _ Hro Hoko) in Hin' as [Hfr Hwr]. apply (Range_In_spec _ _ Hro Hokn).
    destruct (mask_addr_spec po (no_prefix po Hno)) as (_ & Hmo & _). destruct (mask_addr_spec pn (no_prefix pn Hnn)) as (_ & Hmn & _).
    split; [rewrite Hstn, Hmn; rewrite Hsto, Hmo in Hfr; congruence|]. unfold within in *. lia.
  - by rewrite Hsn, Hso, Eso, Esn, Hmode, Hsize, Hf.
  - rewrite Han, Hao. destruct (ui_perCluster io), (ui_perCluster inn); by try done.
  - rewrite Htn, Hto. destruct (ui_perCluster io), (ui_perCluster inn); cbn; done.
Qed.
End Updates.
