(* ===== verification/ExampleIPAM.v ===== *)
(** An instance of the services of the DPUServiceIPAM controller: two DPU clusters, whose
    pools are kept by cluster.  The witnesses evaluate on it; no theorem depends on it. *)

From S2P Require Import Prelude.
From S2P Require Import Meta.
From S2P Require Import Conditions.
From S2P Require Import DPUTypes.
From S2P Require Import Kubernetes.
From S2P Require Import FakeClient.
From S2P Require Import Allocator.
From S2P Require Import ServiceObjects.
From S2P Require Import NetIP.
From S2P Require Import BlockRanges.
From S2P Require Import IPRanges.
From S2P Require Import IPAMAllocator.
From S2P Require Import IPAMBlocks.
From S2P Require Import IPAMCalculator.
From S2P Require Import IPAMSharing.
From S2P Require Import IPAMState.
From S2P Require Import IPAMPasses.
From S2P Require Import IPAMSettling.
From S2P Require Import IPAMController.
From S2P Require Import IPAMPools.
From S2P Require Import NetCIDR.
From S2P Require Import IPAMWebhook.
From S2P Require Import IPAMAdmission.

#[local] Existing Instance meta_list.
#[local] Existing Instance finalizer_list.
#[local] Existing Instance map_to_list_range.
#[local] Existing Instance fake_selectors.

(** ** A world *)

Record IPAMWorld := mkIPAMWorld { iw_clusters : list DPUCluster; iw_object : option DPUServiceIPAM; iw_pools : list (NamespacedName * Pool) }.

#[export] Instance fake_clusters : ClustersAPI IPAMWorld NamespacedName := {|
  list_clusters w := (Ok (iw_clusters w), w);
  cluster_client dc w := (Ok (dc_key dc), w);
  create_namespace _ _ w := (Some (mkGoError KAlreadyExists "exists"), w);
  IsNoMatchError _ := false |}.
Definition unstructured_of (p : Pool) : Unstructured := mkUnstructured (pl_Name p) (pl_Namespace p) (Ok (Some 1%nat)).
#[export] Instance fake_pools : IPAMClient IPAMWorld NamespacedName := {|
  getDPUServiceIPAM _ w := (match iw_object w with Some i => Ok i | None => Err (mkGoError KNotFound "not found") end, w);
  patchDPUServiceIPAM _ i w := (None, mkIPAMWorld (iw_clusters w) (Some i) (iw_pools w));
  listPools k kind _ _ w := (Ok (unstructured_of ∘ snd <$> filter (λ kp, kp.1 = k ∧ pl_kind kp.2 = kind) (iw_pools w)), w);
  deletePool k kind key w := (None, mkIPAMWorld (iw_clusters w) (iw_object w) (filter (λ kp, ¬ (kp.1 = k ∧ pl_kind kp.2 = kind ∧ pl_key kp.2 = key)) (iw_pools w)));
  deleteAllPools k kind _ _ w := (None, mkIPAMWorld (iw_clusters w) (iw_object w) (filter (λ kp, ¬ (kp.1 = k ∧ pl_kind kp.2 = kind)) (iw_pools w)));
  applyPool k p w := (None, mkIPAMWorld (iw_clusters w) (iw_object w) ((k, p) :: filter (λ kp, ¬ (kp.1 = k ∧ pl_key kp.2 = pl_key p)) (iw_pools w)));
  watchPools _ _ w := (None, w) |}.

Definition example_cluster (name : string) : DPUCluster := mkDPUCluster name "dpf" name ∅ [] None 1000 "Ready" "" 0 [].
Definition example_clusters : list DPUCluster := [example_cluster "b"; example_cluster "a"].

(** Two blocks of ten addresses for each cluster, the first twenty addresses excluded. *)
Definition example_subnet : Subnet :=
  mkSubnet "10.0.0.0/24" "10.0.0.1" 10 [mkServiceIPRange "10.0.0.1" "10.0.0.20"] true [] (Some 2%Z).
Definition example_ipam (finalizers : list string) (deletion : option Time) (allocations : list DPUClusterAllocation) : DPUServiceIPAM :=
  mkIPAM "pool" "dpf-operator-system" 1 ∅ finalizers deletion (mkIPAMSpec ∅ ∅ None None None (Some example_subnet) None None) [] 0 allocations.
Definition example_allocations : list DPUClusterAllocation :=
  [mkAllocation "dpf/a" [mkServiceIPRange "10.0.0.21" "10.0.0.40"]; mkAllocation "dpf/b" [mkServiceIPRange "10.0.0.41" "10.0.0.60"]].

Definition example_calculator (available : list blockIndexRange) : Calculator :=
  mkCalculator available [mkBlocks 0 1] [mkIPRange (Addr4 167772161) (Addr4 167772180)] 2 false
    (mkIPRange (Addr4 167772160) (Addr4 167772415)) (Addr4 167772161) (Addr4 167772410) 10 25 ∅.

Lemma first_pass : calculateDPUServiceObjectStateBasedOnStatus example_clusters (example_ipam [] None []) =
  Ok (true, rev example_clusters, example_calculator [mkBlocks 6 24], example_ipam [] None example_allocations).
Proof. vm_compute. reflexivity. Qed.

Lemma example_zoneless i : subnetSpec i = Some example_subnet → Forall zoneless (spec_excludes i).
Proof. intros Hs. unfold spec_excludes. rewrite Hs. repeat constructor; intros a E; vm_compute in E; by injection E as <-. Qed.
Lemma example_keys : NoDup (nn_String ∘ dc_key <$> example_clusters).
Proof. apply (bool_decide_unpack _). vm_compute. exact Logic.I. Qed.
Lemma example_reachable : status_reachable example_allocations.
Proof.
  apply (reachable_pass (example_ipam [] None []) example_clusters true (rev example_clusters) (example_calculator [mkBlocks 6 24]) (example_ipam [] None example_allocations)).
  - apply reachable_new.
  - apply example_keys.
  - by apply example_zoneless.
  - apply first_pass.
Qed.

(** ** Witnesses *)

Lemma allocations_stay_apart_witness : status_reachable example_allocations ∧ status_ok example_allocations.
Proof. split; [exact example_reachable|apply (allocations_stay_apart example_allocations example_reachable)]. Defined.

Definition exclusions_a : list ServiceIPRange := [mkServiceIPRange "10.0.0.0" "10.0.0.20"; mkServiceIPRange "10.0.0.41" "10.0.0.255"].
Definition exclusions_b : list ServiceIPRange := [mkServiceIPRange "10.0.0.0" "10.0.0.40"; mkServiceIPRange "10.0.0.61" "10.0.0.255"].
Definition committed_ipam : DPUServiceIPAM := example_ipam [DPUServiceIPAMFinalizer] None example_allocations.
Lemma second_pass : calculateDPUServiceObjectStateBasedOnStatus example_clusters committed_ipam =
  Ok (false, rev example_clusters, example_calculator [mkBlocks 6 24], committed_ipam).
Proof. vm_compute. reflexivity. Qed.

(** 10.0.0.25 is an address of the network, and of the pool of the first cluster. *)
Lemma example_network : in_network committed_ipam 167772185.
Proof.
  exists (mkPrefix (Addr4 167772160) 24). split; [vm_compute; reflexivity|]. exists (Addr4 167772185).
  split; [repeat split; vm_compute; discriminate|]. by vm_compute.
Qed.
Lemma pools_stay_apart_witness :
  usable committed_ipam exclusions_a 167772185 ∧
  ¬ text_covers (spec_excludes committed_ipam) 167772185 ∧
  (usable committed_ipam exclusions_b 167772185 → static_addresses (spec_statics committed_ipam) 167772185).
Proof.
  assert (usable committed_ipam exclusions_a 167772185) as Hu.
  { split; [exact example_network|]. apply (bool_decide_unpack _). vm_compute. exact Logic.I. }
  split; [exact Hu|].
  apply (pools_stay_apart (R:=map_to_list_range) example_clusters committed_ipam false (rev example_clusters) (example_calculator [mkBlocks 6 24]) committed_ipam
    "dpf/a" "dpf/b" exclusions_a exclusions_b).
  - exact example_reachable.
  - exact example_keys.
  - by apply example_zoneless.
  - exact second_pass.
  - done.
  - vm_compute. reflexivity.
  - vm_compute. reflexivity.
  - exact Hu.
Defined.

Lemma pool_addresses_witness :
  usable committed_ipam exclusions_a 167772185 ↔ in_network committed_ipam 167772185 ∧ ¬ text_covers (spec_excludes committed_ipam) 167772185 ∧
  (text_covers [mkServiceIPRange "10.0.0.21" "10.0.0.40"] 167772185 ∨ static_addresses (spec_statics committed_ipam) 167772185).
Proof.
  apply (pool_addresses (R:=map_to_list_range) example_clusters committed_ipam false (rev example_clusters) (example_calculator [mkBlocks 6 24]) committed_ipam
    "dpf/a" exclusions_a).
  - exact example_reachable.
  - exact example_keys.
  - by apply example_zoneless.
  - exact second_pass.
  - vm_compute. reflexivity.
Defined.

(** Two ways to write 10.0.0.0 to 10.0.0.9. *)
Definition ten (a b : Z) : IPRange := mkIPRange (Addr4 (167772160 + a)) (Addr4 (167772160 + b)).
Lemma ten_ok a b : (0 <= a <= b)%Z → (b < 10)%Z → range_ok (ten a b).
Proof. intros Ha Hb. split; cbn; try done; repeat split; cbn; lia. Qed.
Lemma position_ten k : position (Addr4 (167772160 + k)) = (167772160 + k)%Z.
Proof. reflexivity. Qed.
Lemma MergeRanges_same_addresses_witness : MergeRanges [ten 5 9; ten 0 4] = MergeRanges [ten 0 7; ten 3 9].
Proof.
  apply (MergeRanges_same_addresses [ten 5 9; ten 0 4] [ten 0 7; ten 3 9]).
  - repeat constructor; apply ten_ok; lia.
  - repeat constructor; apply ten_ok; lia.
  - intros a _. unfold ip_covers. cbn -[position Z.add]. rewrite !covers_cons. unfold in_block. cbn -[position Z.add].
    rewrite !position_ten. generalize (position a); intros x. pose proof (covers_nil x).
    split; intros [?|[?|[]%covers_nil]]; destruct (decide (x <= 167772160 + 4)%Z); try (left; lia); right; left; lia.
Defined.
Lemma allocations_read_back_witness : parseIPRanges (toDPUServiceIPAMIPRanges [ten 0 9]) = Ok [ten 0 9].
Proof.
  apply (allocations_read_back [ten 0 9]).
  - repeat constructor; apply ten_ok; lia.
  - by repeat constructor.
Defined.

Lemma example_unmapped available : no_mapped (example_calculator available).
Proof.
  intros a Ha. destruct (plain_cases a Ha) as [(v & -> & Hv)|(v & -> & Hv)]; [done|]. unfold in_block, to_block, example_calculator. cbn [parentRange ip_Start ip_End br_Start br_End]. unfold position. cbn. lia.
Qed.
Lemma example_unmapped_network : unmapped_network (example_ipam [] None []).
Proof.
  intros a Ha Hy. apply (example_unmapped [mkBlocks 2 24] a Ha). by apply (new_calculator_network (example_ipam [] None []) [] _ ltac:(vm_compute; reflexivity)).
Qed.

Definition is_apply (x : PoolEvent NamespacedName) : bool := match x with WApply _ _ _ => true | _ => false end.

Definition deleted_ipam : DPUServiceIPAM := example_ipam [DPUServiceIPAMFinalizer] (Some 5%Z) example_allocations.
Definition deletion_world : IPAMWorld :=
  mkIPAMWorld example_clusters (Some deleted_ipam) [(mkNN "dpf" "a", mkPool "pool" "dpf-operator-system" ∅ ∅ (SpecIPPool (mkIPPoolSpec "" 1 [] "" None false [])))].
Definition deletion_log : list (PoolEvent NamespacedName) :=
  (Reconcile (A:=traced_clusters) (C:=traced_pools) 7 (mkNN "dpf-operator-system" "pool") (deletion_world, [])).2.2.
Definition deletion_result : DPUServiceIPAM := match last deletion_log with Some (WObject _ new _) => new | _ => deleted_ipam end.
Lemma finalizer_waits_for_pools_witness :
  ipam_Finalizers deletion_result = [] ∧
  ∃ all, RClusters (Ok all) ∈ deletion_log ∧ ∀ dc, dc ∈ all → emptied (W:=IPAMWorld) deleted_ipam dc deletion_log.
Proof.
  assert (ipam_Finalizers deletion_result = []) as Hf by (vm_compute; reflexivity). split; [exact Hf|].
  apply (finalizer_waits_for_pools 7 (mkNN "dpf-operator-system" "pool") deleted_ipam deletion_world deletion_result None).
  - reflexivity.
  - apply (list_elem_of_lookup_2 _ (length deletion_log - 1)). vm_compute. reflexivity.
  - by left.
  - rewrite Hf. apply not_elem_of_nil.
Defined.

(** ** A network whose allocation is not read back *)

Definition mapped_network : Network := mkNetwork "::fffe:0:0/95" None 96 [] [] ∅ false [] None.
Definition mapped_ipam (allocations : list DPUClusterAllocation) : DPUServiceIPAM :=
  mkIPAM "pool" "dpf-operator-system" 1 ∅ [DPUServiceIPAMFinalizer] None (mkIPAMSpec ∅ ∅ None None (Some mapped_network) None None None) [] 0 allocations.
Definition mapped_range : IPRange := mkIPRange (Addr6 281466386776064 "") (Addr6 281474976710655 "").
Definition mapped_allocations : list DPUClusterAllocation := [mkAllocation "dpf/a" (toDPUServiceIPAMIPRanges [mapped_range])].

(** The webhook accepts the network, the first pass allocates it, and every later one fails. *)
Lemma mapped_allocations_stick_witness :
  ValidateCreate (R:=map_to_list_range) (mapped_ipam []) = [] ∧
  (∃ m, calculateDPUServiceObjectStateBasedOnStatus [example_cluster "a"] (mapped_ipam []) =
     Ok (true, [example_cluster "a"], m, mapped_ipam mapped_allocations)) ∧
  ∃ err, calculateDPUServiceObjectStateBasedOnStatus [example_cluster "a"] (mapped_ipam mapped_allocations) = Err err.
Proof.
  split; [vm_compute; reflexivity|]. split; [eexists; vm_compute; reflexivity|].
  apply (mapped_allocations_stick [example_cluster "a"] (mapped_ipam mapped_allocations) "dpf/a" [mapped_range]).
  - by left.
  - reflexivity.
  - repeat constructor; cbn; lia.
  - intros H. apply Forall_cons in H as [[_ H] _]. vm_compute in H. discriminate H.
Defined.

(** ** The webhook *)

Lemma example_one : one_configuration (ipam_Spec committed_ipam).
Proof. reflexivity. Qed.

(** The subnet grows to twice its size, and a cluster gets three blocks. *)
Definition grown_subnet : Subnet :=
  mkSubnet "10.0.0.0/23" "10.0.0.1" 10 [mkServiceIPRange "10.0.0.1" "10.0.0.20"] true [] (Some 3%Z).
Definition grown_ipam : DPUServiceIPAM :=
  mkIPAM "pool" "dpf-operator-system" 2 ∅ [DPUServiceIPAMFinalizer] None (mkIPAMSpec ∅ ∅ None None None (Some grown_subnet) None None) [] 0 example_allocations.
Lemma accepted_update_keeps_witness : ∃ mo mn,
  new_calculator committed_ipam [] = Ok mo ∧ new_calculator grown_ipam [] = Ok mn ∧
  (∀ K, Forall range_ok K → areClusterBlocksCompatible mo K = true → areClusterBlocksCompatible mn K = true) ∧
  blockSizePerNode mn = blockSizePerNode mo ∧ allocateAllRemainingBlocks mn = allocateAllRemainingBlocks mo ∧
  (targetBlocksPerDPUCluster mo <= targetBlocksPerDPUCluster mn)%Z.
Proof.
  eexists _, _. split; [vm_compute; reflexivity|]. split; [vm_compute; reflexivity|].
  apply (accepted_update_keeps (R:=map_to_list_range) committed_ipam grown_ipam [] []); vm_compute; reflexivity.
Defined.

(** A static allocation that only one of the two readers of prefixes takes: the webhook
    accepts it, and the pool does not have its addresses. *)
Definition static_network (prefix : string) : DPUServiceIPAM :=
  mkIPAM "pool" "dpf-operator-system" 1 ∅ [] None
    (mkIPAMSpec ∅ ∅ None None (Some (mkNetwork "10.0.0.0/16" None 24 [] [] {["node" := prefix]} false [] (Some 1%Z))) None None None) [] 0 [].
Definition static_exclusions (prefix : string) : list GoError * option (list ServiceIPRange) :=
  (ValidateCreate (R:=map_to_list_range) (static_network prefix),
   match calculateDPUServiceObjectStateBasedOnStatus [example_cluster "a"] (static_network prefix) with
   | Ok (_, _, m, i) =>
       match ComputeExclusions (R:=map_to_list_range) m (getAllocationsForDPUCluster (ipam_DPUClusterAllocations i) "dpf/a") with Ok ex => Some ex | Err _ => None end
   | Err _ => None
   end).
Example static_allocation_read : static_exclusions "10.0.5.0/24" =
  ([], Some [mkServiceIPRange "10.0.1.0" "10.0.4.255"; mkServiceIPRange "10.0.6.0" "10.0.255.255"]).
Proof. vm_compute. reflexivity. Qed.
Example static_allocation_ignored : static_exclusions "10.0.5.0/024" = ([], Some [mkServiceIPRange "10.0.1.0" "10.0.255.255"]).
Proof. vm_compute. reflexivity. Qed.

(** ** Pools with another name *)

(** Two passes whose objects differ in the name that the annotation asks for: the pool of
    the first is still there after the second, its exclusions the same, and a change of
    the pool of the second is reported for an object of another name. *)
Definition override_name (n : string) (i : DPUServiceIPAM) : DPUServiceIPAM :=
  mkIPAM (ipam_Name i) (ipam_Namespace i) (ipam_Generation i) {[DPUServiceIPAMChildObjectNameOverrideAnnotationKey := n]} (ipam_Finalizers i)
    (ipam_DeletionTimestamp i) (ipam_Spec i) (ipam_Conditions i) (ipam_ObservedGeneration i) (ipam_DPUClusterAllocations i).
Definition two_names : list (NamespacedName * Pool) :=
  let w := (reconcile_ipam 7 (override_name "first" committed_ipam) (mkIPAMWorld example_clusters (Some committed_ipam) [])).2 in
  iw_pools (reconcile_ipam 8 (override_name "second" committed_ipam) w).2.
Example overridden_pool_left_over :
  (λ kp, (nn_name kp.1, pl_Name kp.2, pl_exclusions kp.2)) <$> filter (λ kp, nn_name kp.1 = "a") two_names =
  [("a", "second", exclusions_a); ("a", "first", exclusions_a)].
Proof. vm_compute. reflexivity. Qed.
Example overridden_pool_watched : mkNN "dpf-operator-system" "pool" ∉ (two_names ≫= ipPoolToDPUServiceChain ∘ snd).
Proof. apply (bool_decide_unpack _). vm_compute. exact Logic.I. Qed.
